(* ===== verification/_CoqProject ===== *)
-Q . S2P
Prelude.v
GoStd.v
GoTime.v
Json.v
JsonPrint.v
JsonIndent.v
Float.v
GoPath.v
Abi.v
PeerId.v
SignedAuth.v
Effects.v
Access.v
Node.v
Disk.v
Evm.v
PoolConfig.v
ConfigFile.v
KuboProxy.v
Clients.v
Chat.v
Hardware.v
Schema.v
Relay.v
Nas.v
Properties.v
GoStruct.v
WifiProps.v
Plugins.v
AutoPin.v
Wifi.v
WifiScan.v
WapServer.v
WapListen.v
Exchange.v
Mobile.v
Ping.v
Blox.v
BloxLife.v
BlockFiles.v
Server.v
WapBoot.v
WapMain.v
BloxConfig.v
BlOptions.v
ExOptions.v
NodeServers.v
BloxOptions.v
BloxMain.v
Publish.v
Join.v
Manifests.v
InitTools.v
Announce.v
IpfsRpc.v
Mdns.v
BloxStart.v
Registry.v
MobileApi.v
MobileInit.v
ExLife.v
MockServer.v
TestPrograms.v
KuboApi.v
BufPool.v
Tools.v
