(* ===== verification/Prelude.v ===== *)
(** * A verification of go-fula's device core

    go-fula is the software of a Blox, a home storage device: it joins a storage pool on a
    public chain, answers signed requests of its owner's phone over a libp2p stream proxied
    by kubo, and keeps itself reachable. This library models the parts that decide what the
    device does, and proves that they do it.

    ** The program and the files

    - [Prelude], [GoStd], [GoTime], [Json], [JsonPrint], [JsonIndent], [Float], [GoPath],
      [GoStruct]: Go outcomes (a value, an error or a panic), strconv, hex, base64, strings,
      path, RFC 3339 time, encoding/json in both directions, indented too, struct types with
      omitempty and free-form parts, and the printing of float64, as executable functions.
      A w-bit integer is a [Z] with its wrap-around written out ([u32], [i64]); a Go string
      or byte slice is a [string].
    - [Effects]: a state monad whose results are Go outcomes, and [Env], the outside world:
      what HTTP endpoints, timers, the clock and the disk answer, indexed by the number of
      effects performed. Theorems hold for every [Env]. [keeps R m] says that [m] relates
      the states before and after it by the preorder [R].
    - [Abi] (blockchain/abi/contract.go): call data and answers of the pool contract.
    - [PeerId] (blockchain/peerid_utils.go): peer ids and contract keys. Multibase is the
      parameter [Multibase] with the laws of base58btc.
    - [SignedAuth] (blockchain/auth_signed.go): signing and verifying requests; libp2p keys
      are the parameter [PeerCrypto].
    - [Access] (blockchain/proxy.go, and authorized, dispatch, handleAuthorization, SetAuth
      of blockchain/blockchain.go): the request gate, the authorization state and the
      dispatch table. The other handlers are a parameter that cannot see this state;
      [Server] gives it the handlers of the other files, and [WifiOps] its implementation.
    - [Node] (blockchain/options.go, members, ping server): options and state of an
      FxBlockchain; [PoolStore] is the interface of the four config accessors, and of what
      they see once their file has been removed ([os_RemoveConfig], used by the deletion of
      the config in [Wifi]); [PoolStoreLaws] is what it promises.
    - [Evm] (callEVMChain, callEVMChainWithRetry, ClusterPeerPoolStatus,
      HandleIsMemberOfPool, validatePoolOnChain, discoverPoolChain, HandleEVMPoolList,
      GetPoolCreatorPeerID): reading the chain.
    - [PoolConfig] (HandlePoolJoin, HandlePoolLeave, ReconcilePoolConfig of
      blockchain/bl_pool.go): joining, leaving and reconciling, over any [PoolStore].
    - [ConfigFile] (cmd/blox/main.go): config.yaml as a [PoolStore]; its instance of
      [PoolStoreLaws] is the refinement of the abstract store by the file. [BloxConfig]
      (before, the flags): how a start makes the configuration; [BloxMain] (action,
      deriveKuboKey, the block openers): the device a start ends with; [KuboApi]
      (CreateCustomRepo, serveHTTPApi): the embedded kubo node the command keeps code for;
      [BlOptions] and [BloxOptions] (the options and constructors of blockchain and blox).
    - [NodeServers] (proxy.go, ping_server.go, keystore.go, utils.go): the two HTTP servers
      from start to shutdown, the ping answer, big integers. [BufPool] (callBlockchain,
      putBuf, putReq): the pooled buffers as a heap shared with the client's transport.
    - [KuboProxy] (blox/kubo_proxy.go): registration of stream protocols and the watchdog,
      a step per tick.
    - [Clients] (the client methods of blockchain/bl_*.go and blox.go), [Hardware] (the
      handlers around wap/pkg/wifi, whose operations are the interface [WifiOps]), [Chat]
      (StreamBuffer, ChatWithAI, handleChatWithAI, and the mobile chunk loop and iterator).
    - [Schema] (blockchain/interface.go) and [Relay] (callBlockchain, handleAction,
      HandlePoolCancelJoin, handleReplicateInPool, handleActionManifestBatchUpload,
      keystore.go): actions relayed to the blockchain API. [Join] (bl_pool.go): voting on
      join requests; [Manifests] (bl_manifest.go): the device's own manifest calls;
      [Announce] (announcements): messages, validator, the periodic announcer. [Registry]
      (interface.go): the types registered for every action, compared with the answers.
    - [Nas] (blockchain/bl_nas.go, GetKuboPeerID of wap/pkg/wifi): the NAS password.
    - [Plugins] (blockchain/bl_plugins.go) over the file operations of [Disk]; [AutoPin]
      (blockchain/bl_autopin.go) over [Properties] (wap/pkg/config/properties.go).
    - [WifiProps], [Wifi], [WifiScan] (wap/pkg/wifi): device information, the commands of the
      wifi and hotspot operations and what is made of their answers, the scan.
    - [WapServer] (wap/pkg/server: handlers, routes, browser guard, LAN guard) and
      [WapListen] (its listeners, the LAN and hotspot watchers and their closing, as a
      transition system of the interleaved threads).
    - [WapBoot] (wap/pkg/config/config.go, wap/cmd/blox, the version file of wap/cmd/main.go)
      and [WapMain] (handleAppState and main): the set-up program's two goroutines as a
      transition system; [Mdns] (wap/cmd/mdns, handleServerLifecycle): the announcement on
      the local network and its renewal.
    - [InitTools] (modules/initipfs, modules/initipfscluster): the two programs that write
      kubo's and the cluster's configuration, over a disk with faults.
    - [Exchange] (exchange/fx_exchange.go, blox/store.go): pull, push and authorization of
      blocks; IPLD and the network are parameters. [ExOptions] (its options), [Publish]
      (ipni_publisher.go, hub_publisher.go, dht.go): the publishing loop as interleaved
      steps, the lookups; [ExLife]: construction, start and shutdown.
    - [Mobile] (mobile/client.go): connecting, ping report, life cycle of the phone's client;
      [MobileApi] (mobile/blockchain.go): every call of the application; [MobileInit]
      (mobile/config.go): the client a configuration gives.
    - [Ping] (ping/ping.go): the ping protocol's server and client.
    - [Blox] (blox/blox.go, Start): the search for the device's pool, over [Evm], [Node],
      [KuboProxy] and [Relay]; [BloxLife] (Shutdown, cmd/blox/main.go): how the process
      stops, as events of its goroutines; [BlockFiles] (the six-hour loop, blox/
      pool_reconcile.go): reconcile, garbage collection, and the listing of block files;
      [BloxStart] (Start in its order, the cluster's pin list as producer and consumer);
      [IpfsRpc] (blox/ipfs.go): the answers to IPFS RPC calls over the datastore.
    - [MockServer] and [TestPrograms] (cmd/dhttest, pingtest, announcementtest, servertest):
      the mock pool API and the four manual test programs, as scripts over [BloxOptions],
      [NodeServers] and [BloxStart]; [Tools]: cmd/relay, cmd/relaytest, mobile/keygen.go,
      ping/options.go, the fetch ticker, announcements as bytes and the "I exist" loop.

    ** What is shown

    - Access: a request runs exactly when its signature verifies and its signer may run its
      action; authorization comes from the owner only, can be withdrawn, and a device
      without owner is closed. The NAS password is released in one case only. Signatures bind
      action, time and body; honest requests pass. On the whole device, with its real
      handlers, the pool configuration changes only by five actions of authorized peers: join,
      cancelled join, leave, batch upload and the deletion of the config file.
    - Pool configuration: a leave or a reconcile never clears the configuration on a guess,
      also when the disk or the endpoints fail half-way; a join stores what it validated (of
      the pool id, the low 32 bits are validated), and reconciles cannot loop (one clear a
      day) however they are interleaved with joins and leaves, as long as the marker of the
      last clear can be read.
    - Chain access: answers are read back exactly, retries return the first success, strict
      reads never guess, listing ends and is bounded.
    - Watchdog: restarts are rate limited and gated over every run.
    - Chat: under every interleaving of the reading goroutine with an application that
      receives by Next and GetChatChunk, over the buffer's channel and mutex, the stream is
      delivered whole and in order and no point is stuck; calls that take the mutex can
      deadlock ([mutex_deadlocks]).
    - Relay: what is sent is what the client sent, well typed, with the device's own seed,
      and nothing else; what the device answers is of the type registered for the action,
      for all actions but thirteen, which are listed.
    - Identity and start-up: a restart keeps the configuration; the owner of a new device is
      the peer of its identity; kubo, the cluster and the mDNS announcement go by the ids the
      device runs under; a second run of the init tools changes nothing.
    - Plugins and auto-pin: on a disk that works, the handlers over their files refine an
      abstract set of plugins and an abstract pairing state, over any sequence of requests.
    - Set-up server: no page of another site can change the device, have it run more than
      fixed inquiries, or read an answer; the LAN addresses are closed to everybody while the
      config can be read and names an owner; closing releases every socket; joining a wifi
      network ends online, or with the command that brings the hotspot up; the scan gives the
      strongest networks. One server is open at a time; an update asks for a reboot until
      there was one, or, for versions above RESTART_NEEDED_AFTER, not at all.
    - Blox: the start-up search adopts only a pool the chain confirms and ends after five
      attempts; the block listing equals a flat reference listing; block names give back
      their CIDs; the process can always end.
    - Exchange and phone: on a device with an owner, pushes of strangers are bounded by the
      device's own requests, and stored only under the link of their bytes; a call admitted by
      the phone's client never uses it once closed, though the goroutine a chat leaves behind
      can ([chat_use_after_close]); what an initialised phone sends, the device hands to the
      handler of the action; the hub publisher drops every link, the IPNI publisher loses
      links only by a publish call that fails, and makes one call at a time.
    - IPFS RPC: pin/ls lists what block/stat finds, for CIDs whose bytes survive as a path.
      The cluster's pin list is returned in order under every interleaving.
    - Buffers: a request starts from an empty body whatever earlier transports still do; it
      is sent unmixed if its call outlives its transport, which nothing ensures.
    - The test programs: none gets past its second node; the API of the embedded node listens
      once on each address and reports the end of every server.
    - Flaws found on the way are theorems too: the places where the code panics, loops,
      gives up or disagrees with its client.

    ** Bounds and fuel

    The retry loop recurses on the retries left; the leave check on its three attempts.
    [HandleEVMPoolList] takes fuel and returns [None] when it runs out, and
    [pool_list_terminates] shows that [K + 1] rounds are enough once the request's context
    has ended after [K] effects. The JSON parser's fuel is the length of the text.
    [discoverPool] passes its fuel to each listing ([discovery_ends]).
    [GetChatChunk] takes a number of rounds because the Go loop has none. The waiting loops
    of [TestPrograms] get [turns_of timeout d] turns, which [wait_ends] shows to be enough.

    ** What is not modelled

    Goroutine scheduling outside the chat stream, the set-up program and its server's
    listeners, the phone's client, the publishers, the announcer, the pin list, the buffer
    pool, the API's servers and the process's shutdown: elsewhere the locks make the modelled
    operations atomic. In the buffer pool a read or reset of a buffer is one step, and the
    second attempt of callEVMChain is left out. The disk is a map from paths to texts, each
    access of which may fail: missing parent directories and paths that are both file and
    directory are such failures, not a tree; closing a file just created does not fail. Texts
    that become JSON are taken to be valid UTF-8 (Go replaces other bytes). A command is
    listed in [n_cmds] when it is asked for, also if it could not be started; what it does by
    itself to the device is outside the model. Logging; TLS and TCP; docker, shell and nmcli, gossipsub, libp2p,
    zeroconf, YAML, kubo's packages and the DHT, which are parameters. The package event, an
    IPLD schema type no other package uses, and the program under wap/tests, which serves the
    set-up server with a fixed peer id. *)


From stdpp Require Export base strings list gmap numbers pretty.
From Stdlib Require Export Ascii ZArith Lia.

#[global] Open Scope Z_scope.
#[global] Arguments String.append : simpl nomatch.

Declare Scope go_scope.
Delimit Scope go_scope with go.
#[global] Open Scope go_scope.

(** ** Outcomes of Go calls

    A Go function that returns [(T, error)] and may panic has three kinds of
    outcome; the error value is kept as its [Error()] text. *)
Inductive outcome (A : Type) : Type :=
| Ok (a : A)
| Err (e : string)
| Panic.
Arguments Ok {A} a.
Arguments Err {A} e.
Arguments Panic {A}.

Definition obind {A B : Type} (m : outcome A) (k : A -> outcome B) : outcome B :=
  match m with
  | Ok a => k a
  | Err e => Err e
  | Panic => Panic
  end.

Notation "x <-! m ;; k" := (obind m (fun x => k))
  (at level 100, m at next level, right associativity) : go_scope.

Definition is_ok {A : Type} (m : outcome A) : bool :=
  match m with Ok _ => true | _ => false end.

Lemma obind_Ok_inv {A B : Type} (m : outcome A) (k : A -> outcome B) (b : B) :
  obind m k = Ok b -> exists a, m = Ok a /\ k a = Ok b.
Proof. destruct m; simpl; naive_solver. Qed.

Lemma obind_not_Panic {A B : Type} (m : outcome A) (k : A -> outcome B) :
  m <> Panic -> (forall a, m = Ok a -> k a <> Panic) -> obind m k <> Panic.
Proof. destruct m; simpl; naive_solver. Qed.

(** ** Fixed-width integers *)
Definition wrapU (w z : Z) : Z := z mod 2 ^ w.
Definition wrapS (w z : Z) : Z := (z + 2 ^ (w - 1)) mod 2 ^ w - 2 ^ (w - 1).

Abbreviation u8 := (wrapU 8).
Abbreviation u32 := (wrapU 32).
Abbreviation u64 := (wrapU 64).
Abbreviation i64 := (wrapS 64).

Lemma wrapU_small w z : 0 <= z < 2 ^ w -> wrapU w z = z.
Proof. intros H. apply Z.mod_small. lia. Qed.

Lemma wrapU_range w z : 0 <= w -> 0 <= wrapU w z < 2 ^ w.
Proof. intros H. apply Z.mod_pos_bound. lia. Qed.

Lemma wrapS_small w z : 0 < w -> - 2 ^ (w - 1) <= z < 2 ^ (w - 1) -> wrapS w z = z.
Proof.
  intros Hw H. unfold wrapS.
  assert (2 ^ w = 2 * 2 ^ (w - 1)) as E by (rewrite <- Z.pow_succ_r by lia; f_equal; lia).
  rewrite Z.mod_small; lia.
Qed.

Lemma i64_range z : - 2 ^ 63 <= i64 z < 2 ^ 63.
Proof. unfold wrapS. pose proof (Z.mod_pos_bound (z + 2 ^ (64 - 1)) (2 ^ 64) ltac:(lia)). lia. Qed.

Lemma i64_small z : - 2 ^ 63 <= z < 2 ^ 63 -> i64 z = z.
Proof. intros H. apply (wrapS_small 64); [lia | exact H]. Qed.

(** [i64] of a number of the upper half of the unsigned range is negative. *)
Lemma i64_high z : 2 ^ 63 <= z < 2 ^ 64 -> i64 z = z - 2 ^ 64.
Proof.
  intros H. unfold wrapS. change (64 - 1) with 63.
  replace (z + 2 ^ 63) with ((z - 2 ^ 63) + 1 * 2 ^ 64) by lia.
  rewrite Z.mod_add by lia. rewrite Z.mod_small by lia. lia.
Qed.

(** ** Strings as byte sequences

    A Go [string] or [[]byte] is a [string] whose characters are its bytes. *)
Definition len (s : string) : Z := Z.of_nat (String.length s).

Fixpoint stake (n : nat) (s : string) : string :=
  match n, s with
  | S n', String c s' => String c (stake n' s')
  | _, _ => EmptyString
  end.

Fixpoint sdrop (n : nat) (s : string) : string :=
  match n, s with
  | S n', String _ s' => sdrop n' s'
  | _, _ => s
  end.

#[global] Arguments stake : simpl nomatch.
#[global] Arguments sdrop : simpl nomatch.

(** [s[i:j]]: the Go run time panics unless [0 <= i <= j <= len s]. *)
Definition go_slice (s : string) (i j : Z) : outcome string :=
  if (0 <=? i) && (i <=? j) && (j <=? len s)
  then Ok (stake (Z.to_nat (j - i)) (sdrop (Z.to_nat i) s))
  else Panic.

Fixpoint sforall (p : ascii -> bool) (s : string) : bool :=
  match s with
  | EmptyString => true
  | String c s' => p c && sforall p s'
  end.

Fixpoint srepeat (n : nat) (c : ascii) : string :=
  match n with
  | O => EmptyString
  | S n' => String c (srepeat n' c)
  end.

Fixpoint sconcat (l : list string) : string :=
  match l with
  | [] => EmptyString
  | s :: l' => s +:+ sconcat l'
  end.

Lemma length_app_s (s t : string) :
  String.length (s +:+ t) = (String.length s + String.length t)%nat.
Proof. induction s; simpl; [done | by rewrite IHs]. Qed.

Lemma len_app s t : len (s +:+ t) = len s + len t.
Proof. unfold len. rewrite length_app_s. lia. Qed.

Lemma len_nonneg s : 0 <= len s.
Proof. unfold len. lia. Qed.

Lemma sapp_assoc (s t u : string) : (s +:+ t) +:+ u = s +:+ (t +:+ u).
Proof. induction s; simpl; [done | by rewrite IHs]. Qed.

Lemma sapp_nil_r (s : string) : s +:+ "" = s.
Proof. induction s; simpl; [done | by rewrite IHs]. Qed.

Lemma sapp_inj_l (s t u : string) : s +:+ t = s +:+ u -> t = u.
Proof. induction s; simpl; [done | intros [= H]; auto]. Qed.

Lemma sapp_inj_len (s s' t t' : string) :
  String.length s = String.length s' -> s +:+ t = s' +:+ t' -> s = s' /\ t = t'.
Proof.
  revert s'. induction s as [|c s IH]; intros [|c' s'] Hl He; simpl in *; try lia; [done|].
  injection He as -> He. destruct (IH s' ltac:(lia) He) as [-> ->]. done.
Qed.

Lemma stake_app s t : stake (String.length s) (s +:+ t) = s.
Proof. induction s; simpl; [by destruct t | by rewrite IHs]. Qed.

Lemma sdrop_app s t : sdrop (String.length s) (s +:+ t) = t.
Proof. induction s; simpl; [by destruct t | by rewrite IHs]. Qed.

Lemma stake_app_n n s t : n = String.length s -> stake n (s +:+ t) = s.
Proof. intros ->. apply stake_app. Qed.

Lemma sdrop_app_n n s t : n = String.length s -> sdrop n (s +:+ t) = t.
Proof. intros ->. apply sdrop_app. Qed.

Lemma stake_all n s : (String.length s <= n)%nat -> stake n s = s.
Proof.
  revert n. induction s as [|c s IH]; intros [|n] H; simpl in *; try done; try lia.
  rewrite IH; [done | lia].
Qed.

Lemma stake_sdrop n s : stake n s +:+ sdrop n s = s.
Proof. revert s. induction n; intros [|c s]; simpl; try done. by rewrite IHn. Qed.

Lemma length_stake n s : String.length (stake n s) = Nat.min n (String.length s).
Proof. revert s. induction n; intros [|c s]; simpl; try done. by rewrite IHn. Qed.

Lemma length_sdrop n s : String.length (sdrop n s) = (String.length s - n)%nat.
Proof. revert s. induction n; intros [|c s]; simpl; try done. Qed.

Lemma length_srepeat n c : String.length (srepeat n c) = n.
Proof. induction n; simpl; congruence. Qed.

Lemma sforall_app p s t : sforall p (s +:+ t) = sforall p s && sforall p t.
Proof. induction s; simpl; [done | by rewrite IHs, andb_assoc]. Qed.

Lemma sforall_srepeat (p : ascii -> bool) n c : p c = true -> sforall p (srepeat n c) = true.
Proof. intros Hp. induction n as [|n IHn]; simpl; [done | by rewrite Hp, IHn]. Qed.

Lemma sforall_weaken (p q : ascii -> bool) s :
  (forall c, p c = true -> q c = true) -> sforall p s = true -> sforall q s = true.
Proof.
  intros Hpq. induction s; simpl; [done|]. rewrite !andb_true_iff. naive_solver.
Qed.

Lemma go_slice_ok s i j :
  0 <= i <= j -> j <= len s ->
  go_slice s i j = Ok (stake (Z.to_nat (j - i)) (sdrop (Z.to_nat i) s)).
Proof.
  intros H1 H2. unfold go_slice.
  rewrite (proj2 (Z.leb_le 0 i)), (proj2 (Z.leb_le i j)), (proj2 (Z.leb_le j (len s))) by lia.
  done.
Qed.

(** Slicing out the middle part of a concatenation. *)
Lemma go_slice_mid s t u i j :
  i = len s -> j = len s + len t -> go_slice (s +:+ (t +:+ u)) i j = Ok t.
Proof.
  intros -> ->. pose proof (len_nonneg s). pose proof (len_nonneg t). pose proof (len_nonneg u).
  rewrite go_slice_ok by (rewrite ?len_app; lia). f_equal.
  unfold len. rewrite Nat2Z.id, sdrop_app.
  replace (Z.to_nat (_ - _)) with (String.length t) by lia. apply stake_app.
Qed.

(** ** Lists *)
Lemma filter_all {A : Type} (P : A -> Prop) `{forall x, Decision (P x)} (l : list A) :
  (forall x, x ∈ l -> P x) -> filter P l = l.
Proof.
  induction l as [|x l IH]; intros Hp; [done|]. rewrite filter_cons_True by (apply Hp; by left).
  f_equal. apply IH. intros y Hy. apply Hp. by right.
Qed.

(** ** Automation *)
Create HintDb gostr.
Create Rewrite HintDb gostr.
#[export] Hint Rewrite length_app_s length_stake length_sdrop length_srepeat
  sapp_assoc sapp_nil_r sforall_app len_app : gostr.

(** Split a conjunction of boolean tests and turn each into its meaning. *)
Ltac bool_to_prop :=
  repeat match goal with
  | H : _ && _ = true |- _ => apply andb_true_iff in H as [? H]
  | H : _ || _ = false |- _ => apply orb_false_iff in H as [? H]
  | H : negb _ = true |- _ => apply negb_true_iff in H
  | H : negb _ = false |- _ => apply negb_false_iff in H
  | H : (_ =? _)%Z = true |- _ => apply Z.eqb_eq in H
  | H : (_ =? _)%Z = false |- _ => apply Z.eqb_neq in H
  | H : (_ <=? _)%Z = true |- _ => apply Z.leb_le in H
  | H : (_ <=? _)%Z = false |- _ => apply Z.leb_gt in H
  | H : (_ <? _)%Z = true |- _ => apply Z.ltb_lt in H
  | H : (_ <? _)%Z = false |- _ => apply Z.ltb_ge in H
  | H : (_ =? _)%string = true |- _ => apply String.eqb_eq in H
  | H : (_ =? _)%string = false |- _ => apply String.eqb_neq in H
  | H : bool_decide _ = true |- _ => apply bool_decide_eq_true in H
  | H : bool_decide _ = false |- _ => apply bool_decide_eq_false in H
  end.

(** Follow the control flow of a definition: case on the innermost test. *)
Ltac step_match :=
  match goal with
  | H : context [match ?x with _ => _ end] |- _ =>
      lazymatch x with context [match _ with _ => _ end] => fail | _ => destruct x eqn:? end
  | |- context [match ?x with _ => _ end] =>
      lazymatch x with context [match _ with _ => _ end] => fail | _ => destruct x eqn:? end
  end.
