(* ===== verification/GoStd.v ===== *)
(** * The parts of Go's standard library the components use

    [strconv] (ParseUint, ParseInt, FormatUint, FormatInt), [fmt]'s [%x] and
    [%064x] verbs, [encoding/hex], [encoding/base64].StdEncoding, [strings] and
    [path.Base], as executable functions on byte strings, with the round-trip
    lemmas the components rely on. *)

From S2P Require Import Prelude.

(** ** Bytes and digits *)
Definition byte_val (c : ascii) : Z := Z.of_N (N_of_ascii c).
Definition byte_of (z : Z) : ascii := ascii_of_N (Z.to_N z).

Lemma byte_val_range c : 0 <= byte_val c < 256.
Proof. destruct c as [[][][][][][][][]]; vm_compute; intuition congruence. Qed.

Lemma byte_of_val c : byte_of (byte_val c) = c.
Proof. destruct c as [[][][][][][][][]]; reflexivity. Qed.

Lemma byte_val_of z : 0 <= z < 256 -> byte_val (byte_of z) = z.
Proof.
  intros H. unfold byte_val, byte_of. rewrite N_ascii_embedding; lia.
Qed.

Definition digit_val (c : ascii) : option Z :=
  let n := byte_val c in
  if (48 <=? n) && (n <=? 57) then Some (n - 48)
  else if (97 <=? n) && (n <=? 122) then Some (n - 87)
  else if (65 <=? n) && (n <=? 90) then Some (n - 55)
  else None.

Definition digit_char (d : Z) : ascii :=
  byte_of (if d <? 10 then d + 48 else d + 87).

Lemma digit_val_char d : 0 <= d < 36 -> digit_val (digit_char d) = Some d.
Proof.
  intros H. unfold digit_val, digit_char.
  destruct (Z.ltb_spec d 10); rewrite byte_val_of by lia.
  - rewrite (proj2 (Z.leb_le 48 (d + 48))), (proj2 (Z.leb_le (d + 48) 57)) by lia. simpl.
    f_equal. lia.
  - rewrite (proj2 (Z.leb_gt (d + 87) 57)) by lia. rewrite andb_false_r.
    rewrite (proj2 (Z.leb_le 97 (d + 87))), (proj2 (Z.leb_le (d + 87) 122)) by lia. simpl.
    f_equal. lia.
Qed.

(** ** strconv *)
Inductive num_error := ErrSyntax | ErrRange.

Fixpoint parse_loop (base maxv acc : Z) (s : string) : num_error + Z :=
  match s with
  | EmptyString => inr acc
  | String c s' =>
      match digit_val c with
      | Some d =>
          if base <=? d then inl ErrSyntax
          else if maxv <? acc * base + d then inl ErrRange
          else parse_loop base maxv (acc * base + d) s'
      | None => inl ErrSyntax
      end
  end.

Definition ParseUint (s : string) (base bits : Z) : num_error + Z :=
  if (s =? "")%string then inl ErrSyntax else parse_loop base (2 ^ bits - 1) 0 s.

Definition sign_split (s : string) : bool * string :=
  match s with
  | String "-" s' => (true, s')
  | String "+" s' => (false, s')
  | _ => (false, s)
  end.

Definition ParseInt (s : string) (base bits : Z) : num_error + Z :=
  if (s =? "")%string then inl ErrSyntax else
  let (neg, s') := sign_split s in
  match ParseUint s' base bits with
  | inl e => inl e
  | inr un =>
      if negb neg && (2 ^ (bits - 1) <=? un) then inl ErrRange
      else if neg && (2 ^ (bits - 1) <? un) then inl ErrRange
      else inr (if neg then - un else un)
  end.

Definition Atoi (s : string) : num_error + Z := ParseInt s 10 64.

Fixpoint fmt_go (fuel : nat) (base n : Z) (acc : string) : string :=
  match fuel with
  | O => acc
  | S f =>
      let acc' := String (digit_char (n mod base)) acc in
      if n / base =? 0 then acc' else fmt_go f base (n / base) acc'
  end.

Definition FormatUint (n base : Z) : string := fmt_go (S (Z.to_nat (Z.log2 n))) base n "".

Definition FormatInt (z base : Z) : string :=
  if z <? 0 then String "-" (FormatUint (- z) base) else FormatUint z base.

Definition Itoa (z : Z) : string := FormatInt z 10.

(** [fmt.Sprintf("%0<w>x", n)] for an unsigned [n] *)
Definition pad_zero (w : nat) (s : string) : string :=
  srepeat (w - String.length s) "0" +:+ s.
Definition fmt_hex_pad (w : nat) (n : Z) : string := pad_zero w (FormatUint n 16).

Lemma parse_fmt_go base maxv fuel n acc :
  2 <= base <= 36 -> 0 <= n <= maxv -> n < base ^ Z.of_nat fuel ->
  parse_loop base maxv 0 (fmt_go fuel base n acc) = parse_loop base maxv n acc.
Proof.
  intros Hb. revert n acc. induction fuel as [|f IH]; intros n acc Hn Hf.
  { simpl in *. replace n with 0 by lia. done. }
  assert (0 <= n mod base < base) by (apply Z.mod_pos_bound; lia).
  assert (0 <= n / base <= n) by (split; [apply Z.div_pos; lia | apply Z.div_le_upper_bound; nia]).
  pose proof (Z.div_mod n base ltac:(lia)) as Hdm.
  assert (forall a, a * base + n mod base = n ->
    parse_loop base maxv a (String (digit_char (n mod base)) acc) = parse_loop base maxv n acc)
    as Hstep.
  { intros a Ha. simpl. rewrite digit_val_char by lia.
    rewrite (proj2 (Z.leb_gt _ _)) by lia. rewrite (proj2 (Z.ltb_ge _ _)) by lia. by rewrite Ha. }
  simpl fmt_go. destruct (Z.eqb_spec (n / base) 0) as [E|E].
  - apply Hstep. lia.
  - rewrite IH; [apply Hstep; lia | lia |].
    apply Z.div_lt_upper_bound; [lia|].
    rewrite Nat2Z.inj_succ, Z.pow_succ_r in Hf by lia. lia.
Qed.

Lemma log2_fuel base n : 2 <= base -> 0 <= n -> n < base ^ Z.of_nat (S (Z.to_nat (Z.log2 n))).
Proof.
  intros Hb Hn. destruct (Z.eqb_spec n 0) as [->|Hz].
  - apply Z.pow_pos_nonneg; lia.
  - pose proof (Z.log2_nonneg n). pose proof (Z.log2_spec n ltac:(lia)) as [_ Hs].
    rewrite Nat2Z.inj_succ, Z2Nat.id by lia.
    eapply Z.lt_le_trans; [exact Hs|]. apply Z.pow_le_mono_l. lia.
Qed.

Lemma fmt_go_nonempty fuel base n acc : fmt_go (S fuel) base n acc <> ""%string.
Proof.
  revert n acc. induction fuel as [|f IH]; intros n acc; simpl.
  - destruct (_ =? _); done.
  - destruct (_ =? _); [done|]. apply IH.
Qed.

Lemma parse_FormatUint n base maxv acc :
  2 <= base <= 36 -> 0 <= n <= maxv ->
  parse_loop base maxv 0 (FormatUint n base +:+ acc) = parse_loop base maxv n acc.
Proof.
  intros Hb Hn.
  assert (forall f m a b, fmt_go f base m a +:+ b = fmt_go f base m (a +:+ b)) as Happ.
  { induction f; intros m a b; simpl; [done|]. destruct (_ =? _); [done|]. by rewrite IHf. }
  unfold FormatUint. rewrite Happ. apply parse_fmt_go; [lia | lia |]. apply log2_fuel; lia.
Qed.

Lemma ParseUint_FormatUint n base bits :
  2 <= base <= 36 -> 0 <= n < 2 ^ bits -> ParseUint (FormatUint n base) base bits = inr n.
Proof.
  intros Hb Hn. unfold ParseUint.
  destruct (String.eqb_spec (FormatUint n base) ""%string) as [E|_].
  { by apply fmt_go_nonempty in E. }
  rewrite <- (sapp_nil_r (FormatUint n base)). rewrite parse_FormatUint by lia. done.
Qed.

Lemma parse_zeros base maxv k s :
  2 <= base -> 0 <= maxv -> parse_loop base maxv 0 (srepeat k "0" +:+ s) = parse_loop base maxv 0 s.
Proof.
  intros Hb Hm. induction k as [|k IH]; [done|]. cbn [srepeat String.append parse_loop].
  change (digit_val "0"%char) with (Some 0). cbn match.
  destruct (Z.leb_spec base 0); [lia|]. replace (0 * base + 0) with 0 by lia.
  destruct (Z.ltb_spec maxv 0); [lia|]. apply IH.
Qed.

Lemma ParseUint_pad w n bits :
  0 <= n < 2 ^ bits -> ParseUint (fmt_hex_pad w n) 16 bits = inr n.
Proof.
  intros Hn. unfold ParseUint, fmt_hex_pad, pad_zero.
  destruct (String.eqb_spec (srepeat (w - String.length (FormatUint n 16)) "0" +:+ FormatUint n 16) "") as [E|_].
  { exfalso. destruct (w - _)%nat; [by apply fmt_go_nonempty in E | done]. }
  rewrite parse_zeros by lia. rewrite <- (sapp_nil_r (FormatUint n 16)).
  rewrite parse_FormatUint by lia. done.
Qed.

(** How many characters a number takes. *)
Lemma length_fmt_go fuel base n acc k :
  2 <= base -> 0 <= n < base ^ Z.of_nat k -> (0 < k)%nat ->
  (String.length (fmt_go fuel base n acc) <= k + String.length acc)%nat.
Proof.
  intros Hb. revert n acc k. induction fuel as [|f IH]; intros n acc k Hn Hk; [simpl; lia|].
  simpl. destruct (Z.eqb_spec (n / base) 0) as [E|E]; [simpl; lia|].
  destruct k as [|[|k]]; [lia | |].
  { exfalso. apply E. apply Z.div_small. lia. }
  assert (0 <= n / base < base ^ Z.of_nat (S k)) as Hq.
  { split; [apply Z.div_pos; lia|]. apply Z.div_lt_upper_bound; [lia|].
    rewrite <- Z.pow_succ_r by lia.
    replace (Z.succ (Z.of_nat (S k))) with (Z.of_nat (S (S k))) by lia. lia. }
  specialize (IH (n / base) (String (digit_char (n mod base)) acc) (S k) Hq ltac:(lia)).
  simpl in IH. lia.
Qed.

Lemma length_fmt_hex_pad w n :
  (0 < w)%nat -> 0 <= n < 16 ^ Z.of_nat w -> String.length (fmt_hex_pad w n) = w.
Proof.
  intros Hw Hn. unfold fmt_hex_pad, pad_zero. rewrite length_app_s, length_srepeat.
  pose proof (length_fmt_go (S (Z.to_nat (Z.log2 n))) 16 n "" w ltac:(lia) Hn Hw) as H.
  unfold FormatUint in *. change (String.length "") with O in H. lia.
Qed.

Lemma fmt_hex_pad_inj w n m :
  0 <= n -> 0 <= m -> fmt_hex_pad w n = fmt_hex_pad w m -> n = m.
Proof.
  intros Hn Hm E.
  set (b := Z.max n m + 1). assert (b < 2 ^ b) by (apply Z.pow_gt_lin_r; lia).
  pose proof (ParseUint_pad w n b ltac:(lia)) as H1.
  pose proof (ParseUint_pad w m b ltac:(lia)) as H2.
  rewrite E in H1. congruence.
Qed.

(** Every character of a decimal number is a digit or the sign. *)
Definition is_dec_char (c : ascii) : bool :=
  match digit_val c with Some d => d <? 10 | None => (c =? "-")%char end.

Lemma sforall_fmt_go (p : ascii -> bool) fuel base n acc :
  2 <= base -> (forall d, 0 <= d < base -> p (digit_char d) = true) ->
  sforall p acc = true -> sforall p (fmt_go fuel base n acc) = true.
Proof.
  intros Hb Hp. revert n acc. induction fuel as [|f IH]; intros n acc Ha; [done|].
  assert (sforall p (String (digit_char (n mod base)) acc) = true) as Hs.
  { simpl. rewrite Ha, Hp; [done|]. apply Z.mod_pos_bound. lia. }
  simpl. destruct (_ =? _); [exact Hs | by apply IH].
Qed.

Lemma FormatUint_dec n : sforall is_dec_char (FormatUint n 10) = true.
Proof.
  apply sforall_fmt_go; [lia| |done]. intros d Hd. unfold is_dec_char.
  rewrite digit_val_char by lia. lia.
Qed.

Lemma FormatInt_dec z : sforall is_dec_char (FormatInt z 10) = true.
Proof. unfold FormatInt. destruct (z <? 0); simpl; apply FormatUint_dec. Qed.

Lemma ParseInt_FormatInt z bits :
  1 < bits -> - 2 ^ (bits - 1) <= z < 2 ^ (bits - 1) -> ParseInt (FormatInt z 10) 10 bits = inr z.
Proof.
  intros Hb Hz.
  assert (2 ^ bits = 2 * 2 ^ (bits - 1)) as E2 by (rewrite <- Z.pow_succ_r by lia; f_equal; lia).
  unfold ParseInt, FormatInt. destruct (Z.ltb_spec z 0) as [Hneg|Hpos].
  - simpl. rewrite ParseUint_FormatUint by lia. simpl.
    rewrite (proj2 (Z.ltb_ge _ _)) by lia. f_equal. lia.
  - destruct (String.eqb_spec (FormatUint z 10) "") as [E|_]; [by apply fmt_go_nonempty in E|].
    assert (sign_split (FormatUint z 10) = (false, FormatUint z 10)) as ->.
    { pose proof (FormatUint_dec z) as Hd. destruct (FormatUint z 10) as [|c s] eqn:Ef; [done|].
      pose proof (ParseUint_FormatUint z 10 bits ltac:(lia) ltac:(lia)) as Hp. rewrite Ef in Hp.
      destruct c as [[][][][][][][][]]; try reflexivity; discriminate. }
    rewrite ParseUint_FormatUint by lia. simpl. rewrite (proj2 (Z.leb_gt _ _)) by lia. done.
Qed.

Lemma digit_val_nonneg c d : digit_val c = Some d -> 0 <= d.
Proof.
  unfold digit_val. destruct ((48 <=? byte_val c) && _) eqn:E1; [|destruct ((97 <=? byte_val c) && _) eqn:E2;
    [|destruct ((65 <=? byte_val c) && _) eqn:E3; [|done]]];
    intros [= <-]; bool_to_prop; lia.
Qed.

Lemma parse_loop_range base maxv s : 0 <= base -> forall acc v,
  0 <= acc <= maxv -> parse_loop base maxv acc s = inr v -> 0 <= v <= maxv.
Proof.
  intros Hb. induction s as [|c s IH]; intros acc v Ha; cbn [parse_loop]; [by intros [= <-]|].
  destruct (digit_val c) as [d|] eqn:Ed; [|done]. apply digit_val_nonneg in Ed.
  destruct (base <=? d); [done|]. destruct (Z.ltb_spec maxv (acc * base + d)); [done|]. apply IH. nia.
Qed.

Lemma ParseUint_range s base bits v :
  0 <= base -> 0 <= bits -> ParseUint s base bits = inr v -> 0 <= v < 2 ^ bits.
Proof.
  intros Hb Hn. unfold ParseUint. destruct (s =? "")%string; [done|]. intros H.
  pose proof (Z.pow_pos_nonneg 2 bits). apply parse_loop_range in H; lia.
Qed.

Lemma ParseInt_range s bits z :
  0 < bits -> ParseInt s 10 bits = inr z -> - 2 ^ (bits - 1) <= z < 2 ^ (bits - 1).
Proof.
  intros Hb. unfold ParseInt. destruct (s =? "")%string; [done|]. destruct (sign_split s) as [neg s'].
  destruct (ParseUint s' 10 bits) as [|un] eqn:Ep; [done|]. apply ParseUint_range in Ep; [|lia..].
  destruct neg; cbn [negb andb].
  - destruct (Z.ltb_spec (2 ^ (bits - 1)) un); [done|]. intros [= <-]. lia.
  - destruct (Z.leb_spec (2 ^ (bits - 1)) un); [done|]. intros [= <-]. lia.
Qed.

Lemma Atoi_Itoa z : - 2 ^ 63 <= z < 2 ^ 63 -> Atoi (Itoa z) = inr z.
Proof. intros H. apply ParseInt_FormatInt; [lia | exact H]. Qed.

Lemma Itoa_inj x y :
  - 2 ^ 63 <= x < 2 ^ 63 -> - 2 ^ 63 <= y < 2 ^ 63 -> Itoa x = Itoa y -> x = y.
Proof.
  intros Hx Hy E. pose proof (Atoi_Itoa x Hx). pose proof (Atoi_Itoa y Hy). congruence.
Qed.

(** ** encoding/hex *)
Fixpoint hex_encode (s : string) : string :=
  match s with
  | EmptyString => EmptyString
  | String c s' =>
      String (digit_char (byte_val c / 16)) (String (digit_char (byte_val c mod 16)) (hex_encode s'))
  end.

Definition hex_val (c : ascii) : option Z :=
  match digit_val c with
  | Some d => if d <? 16 then Some d else None
  | None => None
  end.

Fixpoint hex_decode (s : string) : option string :=
  match s with
  | EmptyString => Some EmptyString
  | String c1 (String c2 s') =>
      match hex_val c1, hex_val c2, hex_decode s' with
      | Some a, Some b, Some r => Some (String (byte_of (a * 16 + b)) r)
      | _, _, _ => None
      end
  | String _ EmptyString => None
  end.

Lemma hex_val_char d : 0 <= d < 16 -> hex_val (digit_char d) = Some d.
Proof.
  intros H. unfold hex_val. rewrite digit_val_char by lia. by rewrite (proj2 (Z.ltb_lt _ _)) by lia.
Qed.

Lemma hex_decode_encode s : hex_decode (hex_encode s) = Some s.
Proof.
  induction s as [|c s IH]; [done|]. cbn [hex_encode hex_decode].
  pose proof (byte_val_range c).
  rewrite !hex_val_char by (split; [apply Z.div_pos || apply Z.mod_pos_bound; lia |
    apply Z.div_lt_upper_bound || apply Z.mod_pos_bound; lia]).
  rewrite IH. do 2 f_equal.
  rewrite Z.mul_comm, <- Z.div_mod by lia. apply byte_of_val.
Qed.

Lemma length_hex_encode s : String.length (hex_encode s) = (2 * String.length s)%nat.
Proof. induction s; simpl; [done|]. rewrite IHs. lia. Qed.

Lemma hex_decode_length s t : hex_decode s = Some t -> String.length s = (2 * String.length t)%nat.
Proof.
  revert t. induction s as [s IH] using (induction_ltof1 _ String.length).
  intros t. destruct s as [|c1 [|c2 s]]; simpl; [by intros [= <-] | done|].
  destruct (hex_val c1), (hex_val c2), (hex_decode s) as [r|] eqn:Er; try done.
  intros [= <-]. simpl. rewrite (IH s ltac:(unfold ltof; simpl; lia) r Er). lia.
Qed.

(** ** encoding/base64, StdEncoding *)
Definition b64_char (v : Z) : ascii :=
  byte_of (if v <? 26 then v + 65 else if v <? 52 then v + 71 else if v <? 62 then v - 4
           else if v =? 62 then 43 else 47).

Definition b64_val (c : ascii) : option Z :=
  let n := byte_val c in
  if (65 <=? n) && (n <=? 90) then Some (n - 65)
  else if (97 <=? n) && (n <=? 122) then Some (n - 71)
  else if (48 <=? n) && (n <=? 57) then Some (n + 4)
  else if n =? 43 then Some 62
  else if n =? 47 then Some 63
  else None.

Fixpoint b64_encode (s : string) : string :=
  match s with
  | EmptyString => EmptyString
  | String a EmptyString =>
      let a := byte_val a in
      String (b64_char (a / 4)) (String (b64_char (a mod 4 * 16)) "==")
  | String a (String b EmptyString) =>
      let a := byte_val a in let b := byte_val b in
      String (b64_char (a / 4)) (String (b64_char (a mod 4 * 16 + b / 16))
        (String (b64_char (b mod 16 * 4)) "="))
  | String a (String b (String c s')) =>
      let a := byte_val a in let b := byte_val b in let c := byte_val c in
      String (b64_char (a / 4)) (String (b64_char (a mod 4 * 16 + b / 16))
        (String (b64_char (b mod 16 * 4 + c / 64)) (String (b64_char (c mod 64)) (b64_encode s'))))
  end.

(** The decoder skips carriage returns and line feeds. *)
Fixpoint strip_newlines (s : string) : string :=
  match s with
  | EmptyString => EmptyString
  | String c s' =>
      if (byte_val c =? 10) || (byte_val c =? 13) then strip_newlines s'
      else String c (strip_newlines s')
  end.

Fixpoint b64_quads (s : string) : option string :=
  match s with
  | EmptyString => Some EmptyString
  | String c1 (String c2 (String c3 (String c4 s'))) =>
      match b64_val c1, b64_val c2 with
      | Some v1, Some v2 =>
          let b1 := byte_of (v1 * 4 + v2 / 16) in
          if (c3 =? "=")%char then
            (if (c4 =? "=")%char && (s' =? "")%string then Some (String b1 EmptyString) else None)
          else match b64_val c3 with
               | Some v3 =>
                   let b2 := byte_of (v2 mod 16 * 16 + v3 / 4) in
                   if (c4 =? "=")%char then
                     (if (s' =? "")%string then Some (String b1 (String b2 EmptyString)) else None)
                   else match b64_val c4, b64_quads s' with
                        | Some v4, Some r =>
                            Some (String b1 (String b2 (String (byte_of (v3 mod 4 * 64 + v4)) r)))
                        | _, _ => None
                        end
               | None => None
               end
      | _, _ => None
      end
  | _ => None
  end.

Definition b64_decode (s : string) : option string := b64_quads (strip_newlines s).

Definition is_b64_char (c : ascii) : bool :=
  match b64_val c with Some _ => true | None => (c =? "=")%char end.

Lemma b64_val_char v : 0 <= v < 64 -> b64_val (b64_char v) = Some v.
Proof.
  intros H. assert (exists n, v = Z.of_nat n /\ (n < 64)%nat) as (n & -> & Hn).
  { exists (Z.to_nat v). lia. }
  clear H. do 64 (destruct n as [|n]; [reflexivity|]). lia.
Qed.

Lemma b64_char_not_pad v : 0 <= v < 64 -> (b64_char v =? "=")%char = false.
Proof.
  intros H. destruct (Ascii.eqb_spec (b64_char v) "="%char) as [E|]; [|done].
  pose proof (b64_val_char v H) as Hv. by rewrite E in Hv.
Qed.

Lemma is_b64_b64_char v : 0 <= v < 64 -> is_b64_char (b64_char v) = true.
Proof. intros H. unfold is_b64_char. by rewrite b64_val_char. Qed.

Lemma strip_b64 s : sforall is_b64_char s = true -> strip_newlines s = s.
Proof.
  induction s as [|c s IH]; [done|]. cbn [sforall strip_newlines]. intros [Hc Hs]%andb_true_iff.
  rewrite IH by done.
  destruct c as [[][][][][][][][]]; try reflexivity; discriminate.
Qed.

Ltac b64_ranges :=
  repeat match goal with
  | |- context [byte_val ?c] =>
      lazymatch goal with
      | H : 0 <= byte_val c < 256 |- _ => fail
      | _ => pose proof (byte_val_range c)
      end
  end.

Lemma string_ind3 (P : string -> Prop) :
  P "" -> (forall a, P (String a "")) -> (forall a b, P (String a (String b ""))) ->
  (forall a b c s, P s -> P (String a (String b (String c s)))) -> forall s, P s.
Proof.
  intros H0 H1 H2 H3 s. induction s as [s IH] using (induction_ltof1 _ String.length).
  destruct s as [|a [|b [|c s]]]; auto. apply H3, IH. unfold ltof. simpl. lia.
Qed.

Lemma b64_encode_chars s : sforall is_b64_char (b64_encode s) = true.
Proof.
  induction s as [|a|a b|a b c s IH] using string_ind3; [done|..];
    cbn [b64_encode sforall]; b64_ranges;
    rewrite !is_b64_b64_char by (Z.to_euclidean_division_equations; lia);
    [reflexivity | reflexivity | simpl; exact IH].
Qed.

Lemma b64_decode_encode s : b64_decode (b64_encode s) = Some s.
Proof.
  unfold b64_decode. rewrite strip_b64 by apply b64_encode_chars.
  induction s as [|a|a b|a b c s IH] using string_ind3; [done|..];
    cbn [b64_encode b64_quads]; b64_ranges;
    rewrite ?b64_char_not_pad by (Z.to_euclidean_division_equations; lia);
    rewrite ?b64_val_char by (Z.to_euclidean_division_equations; lia);
    rewrite ?IH; simpl; repeat f_equal;
    match goal with |- byte_of ?e = ?c =>
      replace e with (byte_val c) by (Z.to_euclidean_division_equations; lia); apply byte_of_val end.
Qed.

(** ** strings *)
Definition HasPrefix (s p : string) : bool := String.prefix p s.
Definition TrimPrefix (s p : string) : string :=
  if HasPrefix s p then sdrop (String.length p) s else s.

Fixpoint Contains (s sub : string) : bool :=
  HasPrefix s sub || match s with EmptyString => false | String _ s' => Contains s' sub end.

Fixpoint trim_left (s : string) : string :=
  match s with
  | String c s' => if Ascii.is_space c then trim_left s' else s
  | EmptyString => EmptyString
  end.

(** [strings.TrimSpace], for text whose white space is ASCII *)
Definition TrimSpace (s : string) : string := String.rev (trim_left (String.rev (trim_left s))).

Definition lower_char (c : ascii) : ascii :=
  if (65 <=? byte_val c) && (byte_val c <=? 90) then byte_of (byte_val c + 32) else c.

Fixpoint smap (f : ascii -> ascii) (s : string) : string :=
  match s with
  | EmptyString => EmptyString
  | String c s' => String (f c) (smap f s')
  end.

(** [strings.ToLower] and [strings.EqualFold] on ASCII text *)
Definition ToLower (s : string) : string := smap lower_char s.
Definition EqualFold (s t : string) : bool := (ToLower s =? ToLower t)%string.

(** [strings.Split(s, sep)] for a one-byte separator *)
Fixpoint split_char (sep : ascii) (s : string) : list string :=
  match s with
  | EmptyString => [EmptyString]
  | String c s' =>
      if (c =? sep)%char then EmptyString :: split_char sep s'
      else match split_char sep s' with
           | w :: ws => String c w :: ws
           | [] => [String c EmptyString]
           end
  end.

(** [strings.Join(l, sep)] *)
Fixpoint Join (l : list string) (sep : string) : string :=
  match l with
  | [] => EmptyString
  | [s] => s
  | s :: l' => s +:+ sep +:+ Join l' sep
  end.

(** [path.Base]: the last non-empty element; "." for the empty path, "/" for slashes only *)
Definition path_base (p : string) : string :=
  if (p =? "")%string then "." else
  match last (filter (fun w => w <> "") (split_char "/" p)) with
  | Some w => w
  | None => "/"
  end.

Lemma prefix_app (p s : string) : HasPrefix (p +:+ s) p = true.
Proof.
  unfold HasPrefix. induction p as [|c p IH]; simpl; [by destruct s|].
  destruct (ascii_dec c c); [exact IH | congruence].
Qed.

Lemma prefix_split (p s : string) : HasPrefix s p = true -> s = p +:+ sdrop (String.length p) s.
Proof.
  unfold HasPrefix. revert s. induction p as [|c p IH]; intros [|d s]; simpl; try done.
  destruct (ascii_dec c d) as [->|]; [|done]. intros H. by rewrite <- IH.
Qed.

Lemma TrimPrefix_app (p s : string) : TrimPrefix (p +:+ s) p = s.
Proof. unfold TrimPrefix. by rewrite prefix_app, sdrop_app. Qed.

Lemma TrimPrefix_other (p s : string) : HasPrefix s p = false -> TrimPrefix s p = s.
Proof. unfold TrimPrefix. by intros ->. Qed.

Lemma split_char_nonempty sep s : split_char sep s <> [].
Proof.
  destruct s as [|c s]; simpl; [done|]. destruct (c =? sep)%char; [done|].
  by destruct (split_char sep s).
Qed.

Lemma split_char_app sep w s :
  sforall (fun c => negb (c =? sep)%char) w = true ->
  split_char sep (w +:+ String sep s) = w :: split_char sep s.
Proof.
  induction w as [|c w IH]; simpl; [by rewrite Ascii.eqb_refl|].
  intros [Hc Hw]%andb_true_iff. apply negb_true_iff in Hc. by rewrite Hc, IH.
Qed.

Lemma split_char_none sep w :
  sforall (fun c => negb (c =? sep)%char) w = true -> split_char sep w = [w].
Proof.
  induction w as [|c w IH]; simpl; [done|].
  intros [Hc Hw]%andb_true_iff. apply negb_true_iff in Hc. by rewrite Hc, IH.
Qed.

(** Splitting and joining on a separator are inverse. *)
Lemma Join_split_char sep s : Join (split_char sep s) (String sep "") = s.
Proof.
  induction s as [|c s IH]; [done|]. simpl.
  pose proof (split_char_nonempty sep s) as Hne.
  destruct (split_char sep s) as [|w ws] eqn:E; [done|].
  destruct (Ascii.eqb_spec c sep) as [->|].
  - change (Join (EmptyString :: w :: ws) (String sep "")) with (String sep (Join (w :: ws) (String sep ""))).
    by rewrite IH.
  - destruct ws; simpl in *; by rewrite IH.
Qed.

#[export] Hint Rewrite length_hex_encode TrimPrefix_app prefix_app : gostr.
