(* ===== verification/GoTime.v ===== *)
(** * time: RFC 3339 text for the marker files

    The reconcile marker holds a UTC time in RFC 3339 form: [Format] writes whole seconds,
    [Parse] reads them back (and accepts what Go accepts besides: one-digit hours,
    fractions, numeric offsets). Times are nanoseconds since 1970. *)

From S2P Require Import Prelude GoStd.

#[local] Open Scope string_scope.
#[local] Open Scope Z_scope.

(** ** The proleptic Gregorian calendar *)
Definition leap (y : Z) : bool := (y mod 4 =? 0) && (negb (y mod 100 =? 0) || (y mod 400 =? 0)).

Definition daysIn (m y : Z) : Z :=
  if m =? 2 then (if leap y then 29 else 28)
  else if (m =? 4) || (m =? 6) || (m =? 9) || (m =? 11) then 30 else 31.

(** The days of a common year before month [m]; [daysBefore 13] is the whole year. *)
Definition daysBefore (m : Z) : Z :=
  nth (Z.to_nat (m - 1)) [0; 31; 59; 90; 120; 151; 181; 212; 243; 273; 304; 334; 365] 0.

(** Days since 1970-01-01: whole cycles of 400, 100, 4 and 1 years since the year 1. *)
Definition days_from_civil (y m d : Z) : Z :=
  let n := y - 1 in
  146097 * (n / 400) + 36524 * (n mod 400 / 100) + 1461 * (n mod 100 / 4) + 365 * (n mod 4)
  + daysBefore m + (if leap y && (2 <? m) then 1 else 0) + d - 1 - 719162.

(** Month and day from the day of the year. *)
Definition month_day (lp : bool) (yday : Z) : Z * Z :=
  if lp && (yday =? 59) then (2, 29) else
  let day := if lp && (59 <? yday) then yday - 1 else yday in
  let month := day / 31 + 1 in
  let fin := daysBefore (month + 1) in
  if fin <=? day then (month + 1, day - fin + 1) else (month, day - daysBefore month + 1).

(** The year and the day in it: a fourth century or a fourth year does not start on the
    last day of its cycle. *)
Definition year_day (d0 : Z) : Z * Z :=
  let n400 := d0 / 146097 in
  let d1 := d0 mod 146097 in
  let n100 := d1 / 36524 - d1 / 36524 / 4 in
  let d2 := d1 - 36524 * n100 in
  let n4 := d2 / 1461 in
  let d3 := d2 mod 1461 in
  let n1 := d3 / 365 - d3 / 365 / 4 in
  (400 * n400 + 100 * n100 + 4 * n4 + n1 + 1, d3 - 365 * n1).

Definition civil_from_days (z : Z) : Z * Z * Z :=
  let '(y, yday) := year_day (z + 719162) in
  let '(m, d) := month_day (leap y) yday in (y, m, d).

(** ** Format(time.RFC3339) of a UTC time *)
Definition dig (n : Z) : ascii := digit_char (n mod 10).
Definition pad2 (n : Z) (rest : string) : string := String (dig (n / 10)) (String (dig n) rest).
Definition pad4 (n : Z) (rest : string) : string :=
  String (dig (n / 1000)) (String (dig (n / 100)) (String (dig (n / 10)) (String (dig n) rest))).

Definition nanos : Z := 10 ^ 9.

Definition FormatRFC3339 (t : Z) : string :=
  let secs := t / nanos in
  let '(y, m, d) := civil_from_days (secs / 86400) in
  let s := secs mod 86400 in
  pad4 y (String "-" (pad2 m (String "-" (pad2 d (String "T"
    (pad2 (s / 3600) (String ":" (pad2 (s / 60 mod 60) (String ":" (pad2 (s mod 60) "Z")))))))))).

(** ** Parse(time.RFC3339, s) *)
Definition isdig (c : ascii) : bool := match digit_val c with Some v => v <? 10 | None => false end.
Definition digv (c : ascii) : Z := default 0 (digit_val c).

Definition getnum (fixed : bool) (s : string) : option (Z * string) :=
  match s with
  | String a s1 =>
      if negb (isdig a) then None else
      match s1 with
      | String b s2 =>
          if isdig b then Some (digv a * 10 + digv b, s2)
          else if fixed then None else Some (digv a, s1)
      | EmptyString => if fixed then None else Some (digv a, s1)
      end
  | EmptyString => None
  end.

Definition getyear (s : string) : option (Z * string) :=
  match s with
  | String a (String b (String c (String d r))) =>
      if isdig a && isdig b && isdig c && isdig d
      then Some (digv a * 1000 + digv b * 100 + digv c * 10 + digv d, r) else None
  | _ => None
  end.

Definition lit (c : ascii) (s : string) : option string :=
  match s with
  | String a r => if (a =? c)%char then Some r else None
  | EmptyString => None
  end.

(** The digits after the point, at most nine of which count, as nanoseconds. *)
Fixpoint frac (left : nat) (acc : Z) (s : string) : Z * string :=
  match s with
  | String a r =>
      if isdig a then
        match left with
        | O => frac O acc r
        | S left' => frac left' (acc * 10 + digv a) r
        end
      else (acc * 10 ^ Z.of_nat left, s)
  | EmptyString => (acc * 10 ^ Z.of_nat left, s)
  end.

Definition getfrac (s : string) : Z * string :=
  match s with
  | String p (String a r) =>
      if ((p =? ".")%char || (p =? ",")%char) && isdig a then frac 9 0 (String a r) else (0, s)
  | _ => (0, s)
  end.

Definition getzone (s : string) : option (Z * string) :=
  match s with
  | String z r =>
      if (z =? "Z")%char then Some (0, r) else
      match getnum true r with
      | Some (hr, r1) =>
          r2 ← lit ":" r1;
          match getnum true r2 with
          | Some (mm, r3) =>
              if (24 <? hr) || (60 <? mm) then None
              else if (z =? "+")%char then Some ((hr * 60 + mm) * 60, r3)
              else if (z =? "-")%char then Some (- ((hr * 60 + mm) * 60), r3)
              else None
          | None => None
          end
      | None => None
      end
  | EmptyString => None
  end.

Definition ParseRFC3339 (s : string) : option Z :=
  '(y, s) ← getyear s; s ← lit "-" s;
  '(m, s) ← getnum true s; s ← lit "-" s;
  '(d, s) ← getnum true s; s ← lit "T" s;
  '(hh, s) ← getnum false s; s ← lit ":" s;
  '(mi, s) ← getnum true s; s ← lit ":" s;
  '(ss, s) ← getnum true s;
  let '(ns, s) := getfrac s in
  '(off, s) ← getzone s;
  if (m <? 1) || (12 <? m) || (d <? 1) || (daysIn m y <? d) || (23 <? hh) || (59 <? mi) || (59 <? ss)
     || negb (s =? "")%string
  then None
  else Some ((days_from_civil y m d * 86400 + hh * 3600 + mi * 60 + ss - off) * nanos + ns).

(** ** The calendar round trip *)

(** Both kinds of year, day by day. *)
Fixpoint year_ok (n : nat) (lp : bool) (yday : Z) : bool :=
  match n with
  | O => true
  | S n' =>
      (let '(m, d) := month_day lp yday in
       (1 <=? m) && (m <=? 12) && (1 <=? d) && (d <=? daysIn m (if lp then 4 else 1))
       && (daysBefore m + (if lp && (2 <? m) then 1 else 0) + d - 1 =? yday))
      && year_ok n' lp (yday + 1)
  end.

Lemma year_ok_at n lp k j : year_ok n lp k = true -> k <= j < k + Z.of_nat n -> year_ok 1 lp j = true.
Proof.
  revert k. induction n as [|n IH]; intros k H Hk; [lia|].
  cbn [year_ok] in H. apply andb_true_iff in H as [H1 H2].
  destruct (Z.eq_dec k j) as [->|]; [by cbn [year_ok]; rewrite H1|]. apply (IH (k + 1)); [done|lia].
Qed.

Lemma daysIn_leap m y : daysIn m y = daysIn m (if leap y then 4 else 1).
Proof. unfold daysIn. by destruct (leap y). Qed.

Lemma month_day_ok y yday m d :
  0 <= yday < (if leap y then 366 else 365) -> month_day (leap y) yday = (m, d) ->
  1 <= m <= 12 /\ 1 <= d <= daysIn m y /\ daysBefore m + (if leap y && (2 <? m) then 1 else 0) + d - 1 = yday.
Proof.
  intros Hr Hm. rewrite (daysIn_leap m y).
  assert (year_ok 1 (leap y) yday = true) as H.
  { destruct (leap y).
    - apply (year_ok_at 366 true 0); [vm_compute; reflexivity | lia].
    - apply (year_ok_at 365 false 0); [vm_compute; reflexivity | lia]. }
  cbn [year_ok] in H. rewrite Hm, andb_true_r in H. bool_to_prop. lia.
Qed.

(** [year_day] splits a day count into cycles in their ranges. *)
Lemma year_day_cycles d0 y yday : year_day d0 = (y, yday) ->
  exists n400 n100 n4 n1, y = 400 * n400 + 100 * n100 + 4 * n4 + n1 + 1 /\
    d0 = 146097 * n400 + 36524 * n100 + 1461 * n4 + 365 * n1 + yday /\
    0 <= n100 <= 3 /\ 0 <= n4 <= 24 /\ 0 <= n1 <= 3 /\ 0 <= yday <= 365 /\
    (yday = 365 -> n1 = 3 /\ (n4 = 24 -> n100 = 3)).
Proof.
  unfold year_day. cbv zeta. remember (d0 mod 146097) as d1 eqn:E1. remember (d1 / 36524) as q eqn:Eq.
  remember (d1 - 36524 * (q - q / 4)) as d2 eqn:E2. remember (d2 mod 1461) as d3 eqn:E3.
  remember (d3 / 365) as r eqn:Er. intros [= <- <-].
  pose proof (Z.div_mod d0 146097 ltac:(lia)). pose proof (Z.mod_pos_bound d0 146097 ltac:(lia)).
  pose proof (Z.div_mod d1 36524 ltac:(lia)). pose proof (Z.mod_pos_bound d1 36524 ltac:(lia)).
  pose proof (Z.div_mod d2 1461 ltac:(lia)). pose proof (Z.mod_pos_bound d2 1461 ltac:(lia)).
  pose proof (Z.div_mod d3 365 ltac:(lia)). pose proof (Z.mod_pos_bound d3 365 ltac:(lia)).
  assert (0 <= q <= 4) by lia. assert (0 <= r <= 4) by lia.
  assert (q / 4 = if q =? 4 then 1 else 0) as Hq4.
  { destruct (Z.eqb_spec q 4) as [->|]; [done|]. apply Z.div_small. lia. }
  assert (r / 4 = if r =? 4 then 1 else 0) as Hr4.
  { destruct (Z.eqb_spec r 4) as [->|]; [done|]. apply Z.div_small. lia. }
  exists (d0 / 146097), (q - q / 4), (d2 / 1461), (r - r / 4). rewrite Hq4, Hr4 in *.
  destruct (Z.eqb_spec q 4), (Z.eqb_spec r 4); split_and!; try lia.
Qed.

Lemma cycles_div n400 n100 n4 n1 :
  0 <= n100 <= 3 -> 0 <= n4 <= 24 -> 0 <= n1 <= 3 ->
  let n := 400 * n400 + 100 * n100 + 4 * n4 + n1 in
  n / 400 = n400 /\ n mod 400 / 100 = n100 /\ n mod 100 / 4 = n4 /\ n mod 4 = n1.
Proof.
  intros H1 H2 H3 n.
  assert (n / 400 = n400) by (symmetry; apply (Z.div_unique _ _ _ (100 * n100 + 4 * n4 + n1)); lia).
  assert (n mod 400 = 100 * n100 + 4 * n4 + n1) by (pose proof (Z.div_mod n 400 ltac:(lia)); lia).
  assert (n mod 100 = 4 * n4 + n1)
    by (symmetry; apply (Z.mod_unique _ _ (4 * n400 + n100)); lia).
  assert (n mod 4 = n1) by (symmetry; apply (Z.mod_unique _ _ (100 * n400 + 25 * n100 + n4)); lia).
  split_and!; [done| | |done].
  - symmetry. apply (Z.div_unique _ _ _ (4 * n4 + n1)); lia.
  - symmetry. apply (Z.div_unique _ _ _ n1); lia.
Qed.

Lemma cycles_leap n400 n100 n4 : 0 <= n100 <= 3 -> 0 <= n4 <= 24 -> (n4 = 24 -> n100 = 3) ->
  leap (400 * n400 + 100 * n100 + 4 * n4 + 3 + 1) = true.
Proof.
  intros H1 H2 H3. unfold leap.
  replace (400 * n400 + 100 * n100 + 4 * n4 + 3 + 1) with ((100 * n400 + 25 * n100 + n4 + 1) * 4) at 1 by lia.
  rewrite Z.mod_mul by lia. cbn [Z.eqb andb].
  destruct (Z.eq_dec n4 24) as [->|Hn].
  - rewrite H3 by done. replace (400 * n400 + 100 * 3 + 4 * 24 + 3 + 1) with ((n400 + 1) * 400) at 2 by lia.
    rewrite Z.mod_mul by lia. by rewrite orb_true_r.
  - replace (_ mod 100) with (4 * n4 + 4); [|apply (Z.mod_unique _ _ (4 * n400 + n100)); lia].
    by rewrite (proj2 (Z.eqb_neq (4 * n4 + 4) 0)) by lia.
Qed.

Lemma civil_roundtrip z y m d : civil_from_days z = (y, m, d) ->
  1 <= m <= 12 /\ 1 <= d <= daysIn m y /\ days_from_civil y m d = z.
Proof.
  unfold civil_from_days. destruct (year_day (z + 719162)) as [y' yday] eqn:Ey.
  destruct (month_day (leap y') yday) as [m' d'] eqn:Em. intros [= -> -> ->].
  apply year_day_cycles in Ey as (n400 & n100 & n4 & n1 & Hy & Hd & H1 & H2 & H3 & Hr & Hlast).
  apply month_day_ok in Em as (Hm & Hday & Hyd).
  - split_and!; try lia. unfold days_from_civil. cbv zeta.
    replace (y - 1) with (400 * n400 + 100 * n100 + 4 * n4 + n1) by lia.
    destruct (cycles_div n400 n100 n4 n1 H1 H2 H3) as (-> & -> & -> & ->). lia.
  - destruct (Z.eq_dec yday 365) as [E|]; [|destruct (leap y); lia].
    destruct (Hlast E) as [-> Hc]. rewrite Hy, cycles_leap by done. lia.
Qed.

(** The years a four-digit field can hold, from 1970 on. *)
Definition max_secs : Z := 253402300800.

Lemma civil_year_range z y m d : civil_from_days z = (y, m, d) -> 0 <= z < 2932897 -> 1970 <= y <= 9999.
Proof.
  unfold civil_from_days. destruct (year_day (z + 719162)) as [y' yday] eqn:Ey.
  destruct (month_day (leap y') yday) as [m' d'] eqn:Em. intros [= -> -> ->] Hz.
  apply year_day_cycles in Ey as (n400 & n100 & n4 & n1 & Hy & Hd & H1 & H2 & H3 & Hr & Hlast).
  assert (Hn : n400 <= 24) by lia. assert (n400 >= 4) by lia.
  destruct (Z.eq_dec n400 4); [|destruct (Z.eq_dec n400 24)]; nia.
Qed.

(** ** Text round trip *)
Lemma dig_ok n : isdig (dig n) = true /\ digv (dig n) = n mod 10.
Proof.
  pose proof (Z.mod_pos_bound n 10 ltac:(lia)) as H. unfold isdig, digv, dig.
  rewrite digit_val_char by lia. cbn. split; [apply Z.ltb_lt; lia | done].
Qed.

Lemma getnum_pad2 fixed n rest : 0 <= n < 100 -> getnum fixed (pad2 n rest) = Some (n, rest).
Proof.
  intros Hn. unfold getnum, pad2. destruct (dig_ok (n / 10)) as [-> ->], (dig_ok n) as [-> ->]. cbn [negb].
  f_equal. f_equal. rewrite (Z.mod_small (n / 10) 10).
  - pose proof (Z.div_mod n 10 ltac:(lia)). lia.
  - split; [apply Z.div_pos; lia | apply Z.div_lt_upper_bound; lia].
Qed.

Lemma getyear_pad4 n rest : 0 <= n < 10000 -> getyear (pad4 n rest) = Some (n, rest).
Proof.
  intros Hn. unfold getyear, pad4.
  destruct (dig_ok (n / 1000)) as [-> ->], (dig_ok (n / 100)) as [-> ->], (dig_ok (n / 10)) as [-> ->],
    (dig_ok n) as [-> ->]. cbn [andb]. f_equal. f_equal.
  assert (n / 100 = n / 10 / 10) as E1 by (rewrite Z.div_div by lia; done).
  assert (n / 1000 = n / 100 / 10) as E2 by (rewrite Z.div_div by lia; done).
  rewrite (Z.mod_small (n / 1000) 10).
  - pose proof (Z.div_mod n 10 ltac:(lia)). pose proof (Z.div_mod (n / 10) 10 ltac:(lia)).
    pose proof (Z.div_mod (n / 100) 10 ltac:(lia)). lia.
  - split; [apply Z.div_pos; lia | apply Z.div_lt_upper_bound; lia].
Qed.

Lemma lit_cons c r : lit c (String c r) = Some r.
Proof. cbn. by rewrite Ascii.eqb_refl. Qed.

(** The text up to the seconds, followed by [rest]. *)
Definition clock_text (secs : Z) (rest : string) : string :=
  let '(y, m, d) := civil_from_days (secs / 86400) in
  let s := secs mod 86400 in
  pad4 y (String "-" (pad2 m (String "-" (pad2 d (String "T"
    (pad2 (s / 3600) (String ":" (pad2 (s / 60 mod 60) (String ":" (pad2 (s mod 60) rest)))))))))).

Lemma Parse_clock secs rest : 0 <= secs < max_secs ->
  ParseRFC3339 (clock_text secs rest) =
  (let '(ns, s) := getfrac rest in
   '(off, s) ← getzone s; if negb (s =? "")%string then None else Some ((secs - off) * nanos + ns)).
Proof.
  intros Hs. unfold clock_text.
  destruct (civil_from_days (secs / 86400)) as [[y m] d] eqn:Hc.
  pose proof (civil_year_range _ _ _ _ Hc) as Hy.
  assert (0 <= secs / 86400 < 2932897) as Hdays.
  { split; [apply Z.div_pos; lia | apply Z.div_lt_upper_bound; unfold max_secs in *; lia]. }
  specialize (Hy Hdays). apply civil_roundtrip in Hc as (Hm & Hd & Hback).
  pose proof (Z.mod_pos_bound secs 86400 ltac:(lia)) as Hsod. set (s := secs mod 86400) in *.
  assert (0 <= s / 3600 < 24) as Hh by (split; [apply Z.div_pos; lia | apply Z.div_lt_upper_bound; lia]).
  pose proof (Z.mod_pos_bound (s / 60) 60 ltac:(lia)) as Hmi.
  pose proof (Z.mod_pos_bound s 60 ltac:(lia)) as Hss.
  assert (d <= 31) by (unfold daysIn in Hd; repeat case_match; lia).
  unfold ParseRFC3339.
  rewrite getyear_pad4 by lia. cbn [mbind option_bind]. rewrite lit_cons. cbn [mbind option_bind].
  rewrite getnum_pad2 by lia. cbn [mbind option_bind]. rewrite lit_cons. cbn [mbind option_bind].
  rewrite getnum_pad2 by lia. cbn [mbind option_bind]. rewrite lit_cons. cbn [mbind option_bind].
  rewrite getnum_pad2 by lia. cbn [mbind option_bind]. rewrite lit_cons. cbn [mbind option_bind].
  rewrite getnum_pad2 by lia. cbn [mbind option_bind]. rewrite lit_cons. cbn [mbind option_bind].
  rewrite getnum_pad2 by lia. cbn [mbind option_bind].
  destruct (getfrac rest) as [ns r]. destruct (getzone r) as [[off r']|]; [|done]. cbn [mbind option_bind].
  replace ((m <? 1) || (12 <? m) || (d <? 1) || (daysIn m y <? d) || (23 <? s / 3600) || (59 <? s / 60 mod 60) || (59 <? s mod 60))
    with false; [|symmetry; rewrite !orb_false_iff, !Z.ltb_ge; lia]. cbn [orb].
  destruct (r' =? "")%string; [|done]. cbn [negb]. do 2 f_equal. rewrite Hback.
  pose proof (Z.div_mod secs 86400 ltac:(lia)). pose proof (Z.div_mod s 60 ltac:(lia)).
  pose proof (Z.div_mod (s / 60) 60 ltac:(lia)) as Hm60. rewrite Z.div_div in Hm60 by lia.
  change (60 * 60) with 3600 in Hm60. subst s. lia.
Qed.

(** Writing a time and reading it back drops the part below a second and nothing else. *)
Lemma ParseRFC3339_Format t : 0 <= t < max_secs * nanos ->
  ParseRFC3339 (FormatRFC3339 t) = Some (t / nanos * nanos).
Proof.
  intros Ht. change (FormatRFC3339 t) with (clock_text (t / nanos) "Z"). rewrite Parse_clock.
  - cbn. f_equal. lia.
  - split; [apply Z.div_pos; unfold nanos; lia | apply Z.div_lt_upper_bound; unfold nanos in *; lia].
Qed.

Lemma dig_not_space n s : trim_left (String (dig n) s) = String (dig n) s.
Proof.
  pose proof (Z.mod_pos_bound n 10 ltac:(lia)) as H. unfold dig. remember (n mod 10) as k.
  assert (k = 0 \/ k = 1 \/ k = 2 \/ k = 3 \/ k = 4 \/ k = 5 \/ k = 6 \/ k = 7 \/ k = 8 \/ k = 9) as Hk by lia.
  repeat (destruct Hk as [Hk|Hk]; [rewrite Hk; reflexivity|]). rewrite Hk. reflexivity.
Qed.

Lemma TrimSpace_Format t : TrimSpace (FormatRFC3339 t) = FormatRFC3339 t.
Proof.
  unfold FormatRFC3339. destruct (civil_from_days _) as [[y m] d]. unfold TrimSpace, pad4 at 1.
  rewrite dig_not_space. unfold pad4, pad2, String.rev. cbn [String.rev_app]. cbn [trim_left].
  reflexivity.
Qed.

(** ** time.Time in JSON: RFC 3339 with the fraction of the second, in the local zone *)

(** The digits of a fraction of [10^k] without trailing zeros. *)
Fixpoint frac_digits (k : nat) (n : Z) : string :=
  match k with
  | O => ""
  | S k' => if n =? 0 then "" else String (dig (n / 10 ^ Z.of_nat k')) (frac_digits k' (n mod 10 ^ Z.of_nat k'))
  end.
Definition frac_text (ns : Z) (rest : string) : string :=
  if ns =? 0 then rest else String "." (frac_digits 9 ns +:+ rest).

(** [zone]: minutes east of Greenwich. *)
Definition zone_text (zone : Z) : string :=
  if zone =? 0 then "Z"
  else String (if (zone <? 0)%Z then "-"%char else "+"%char) (pad2 (Z.abs zone / 60) (String ":" (pad2 (Z.abs zone mod 60) ""))).

(** Time.MarshalJSON, without the quotes; [None] is its error. *)
Definition MarshalTime (zone t : Z) : option string :=
  let secs := t / nanos + zone * 60 in
  let '(y, _, _) := civil_from_days (secs / 86400) in
  if (y <? 0) || (9999 <? y) || (24 <=? Z.abs zone / 60) then None
  else Some (clock_text secs (frac_text (t mod nanos) (zone_text zone))).

Lemma frac_digits_read k acc n r : 0 <= n < 10 ^ Z.of_nat k -> (forall c s, r = String c s -> isdig c = false) ->
  frac k acc (frac_digits k n +:+ r) = (acc * 10 ^ Z.of_nat k + n, r).
Proof.
  intros Hn Hr. revert acc n Hn. induction k as [|k IH]; intros acc n Hn.
  - replace n with 0 by (cbn in Hn; lia). cbn [frac_digits]. destruct r as [|c r]; cbn; [f_equal; lia|].
    rewrite (Hr c r eq_refl). f_equal. lia.
  - cbn [frac_digits]. destruct (Z.eqb_spec n 0) as [->|Hne].
    + destruct r as [|c r]; cbn [String.append frac]; [f_equal; lia|]. rewrite (Hr c r eq_refl). f_equal. lia.
    + cbn [String.append frac]. assert (10 ^ Z.of_nat (S k) = 10 * 10 ^ Z.of_nat k) as Hp
        by (rewrite Nat2Z.inj_succ, Z.pow_succ_r by lia; lia).
      assert (0 < 10 ^ Z.of_nat k) as Hpos by (apply Z.pow_pos_nonneg; lia).
      destruct (dig_ok (n / 10 ^ Z.of_nat k)) as [-> ->]. rewrite IH by (apply Z.mod_pos_bound; lia).
      f_equal. pose proof (Z.div_mod n (10 ^ Z.of_nat k) ltac:(lia)) as Hd.
      rewrite (Z.mod_small (n / 10 ^ Z.of_nat k) 10); [rewrite Hp; nia|].
      split; [apply Z.div_pos; lia | apply Z.div_lt_upper_bound; lia].
Qed.

Lemma zone_text_read zone : Z.abs zone / 60 < 24 -> getzone (zone_text zone) = Some (zone * 60, "").
Proof.
  intros Hz. unfold zone_text. destruct (Z.eqb_spec zone 0) as [->|Hne]; [done|].
  assert (0 <= Z.abs zone / 60) by (apply Z.div_pos; lia).
  pose proof (Z.mod_pos_bound (Z.abs zone) 60 ltac:(lia)).
  pose proof (Z.div_mod (Z.abs zone) 60 ltac:(lia)).
  unfold getzone. destruct (Z.ltb_spec zone 0); cbn [Ascii.eqb Bool.eqb]; rewrite getnum_pad2 by lia; rewrite lit_cons;
    cbn [mbind option_bind]; rewrite getnum_pad2 by lia;
    (replace ((24 <? Z.abs zone / 60) || (60 <? Z.abs zone mod 60)) with false;
      [cbn; do 2 f_equal; lia | symmetry; rewrite orb_false_iff, !Z.ltb_ge; lia]).
Qed.

(** A written time is read back exactly. *)
Lemma Parse_MarshalTime zone t s : 0 <= t / nanos + zone * 60 < max_secs -> MarshalTime zone t = Some s ->
  ParseRFC3339 s = Some t.
Proof.
  intros Hs. unfold MarshalTime. destruct (civil_from_days _) as [[y m] d].
  destruct (_ || _) eqn:E; [done|]. intros [= <-]. rewrite !orb_false_iff, Z.leb_gt in E. destruct E as [_ Hz].
  rewrite Parse_clock by done. pose proof (Z.mod_pos_bound t nanos ltac:(unfold nanos; lia)) as Hm.
  assert (getfrac (frac_text (t mod nanos) (zone_text zone)) = (t mod nanos, zone_text zone)) as ->.
  { assert (forall c s, zone_text zone = String c s -> isdig c = false) as Hd.
    { intros c s. unfold zone_text. repeat case_match; by intros [= <- _]. }
    unfold frac_text. destruct (Z.eqb_spec (t mod nanos) 0) as [->|Hne].
    - unfold getfrac, zone_text. repeat case_match; simplify_eq; try done.
    - pose proof (frac_digits_read 9 0 (t mod nanos) (zone_text zone) Hm Hd) as Hf.
      cbn [frac_digits] in *. destruct (Z.eqb_spec (t mod nanos) 0) as [|_]; [done|]. cbn [String.append] in *.
      cbn [getfrac]. destruct (dig_ok (t mod nanos / 10 ^ Z.of_nat 8)) as [-> _]. exact Hf. }
  rewrite zone_text_read by done. cbn. f_equal.
  pose proof (Z.div_mod t nanos ltac:(unfold nanos; lia)). lia.
Qed.
