(* ===== verification/Json.v ===== *)
(** * encoding/json: parsing, and decoding into struct fields

    Request and response bodies are JSON text. This file has the parser
    ([json_parse] for [json.Unmarshal]'s whole-input rule, [json_parse_prefix] for
    [json.Decoder.Decode], which reads one value and leaves the rest) and the rules by
    which Unmarshal fills string, bool, int and list fields of a struct: keys match
    their field without regard to ASCII case, the last match wins, null leaves the
    field alone, a value of another type is an error that leaves the field alone.
    Numbers keep their literal text, as encoding/json does until it knows the target.
    Text is taken to be valid UTF-8. *)

From S2P Require Import Prelude GoStd.

Inductive json : Type :=
| JNull
| JBool (b : bool)
| JNum (lit : string)
| JStr (s : string)
| JArr (l : list json)
| JObj (l : list (string * json)).

(** ** Lexing *)
Definition json_space (c : ascii) : bool :=
  let n := byte_val c in (n =? 32) || (n =? 9) || (n =? 10) || (n =? 13).

Fixpoint skip_ws (s : string) : string :=
  match s with
  | String c s' => if json_space c then skip_ws s' else s
  | EmptyString => s
  end.

Fixpoint span (p : ascii -> bool) (s : string) : string * string :=
  match s with
  | String c s' => if p c then let (a, b) := span p s' in (String c a, b) else (EmptyString, s)
  | EmptyString => (EmptyString, EmptyString)
  end.

Definition is_digit (c : ascii) : bool := (48 <=? byte_val c) && (byte_val c <=? 57).

(** -? (0 | [1-9][0-9]* ) (. [0-9]+)? ([eE] [+-]? [0-9]+)? *)
Definition lex_int (s : string) : option (string * string) :=
  match s with
  | String "0" s' => Some ("0"%string, s')
  | _ => let (d, r) := span is_digit s in if (d =? "")%string then None else Some (d, r)
  end.

Definition lex_frac (s : string) : option (string * string) :=
  match s with
  | String "." s' =>
      let (d, r) := span is_digit s' in if (d =? "")%string then None else Some (String "." d, r)
  | _ => Some (""%string, s)
  end.

Definition lex_exp (s : string) : option (string * string) :=
  match s with
  | String c s' =>
      if (c =? "e")%char || (c =? "E")%char then
        let (sg, s'') := match s' with
                         | String "+" t => ("+"%string, t)
                         | String "-" t => ("-"%string, t)
                         | _ => (""%string, s')
                         end in
        let (d, r) := span is_digit s'' in
        if (d =? "")%string then None else Some (String c (sg +:+ d), r)
      else Some (""%string, s)
  | EmptyString => Some (""%string, s)
  end.

Definition lex_number (s : string) : option (string * string) :=
  let (sg, s1) := match s with String "-" t => ("-"%string, t) | _ => (""%string, s) end in
  match lex_int s1 with
  | None => None
  | Some (i, s2) =>
      match lex_frac s2 with
      | None => None
      | Some (f, s3) =>
          match lex_exp s3 with
          | None => None
          | Some (e, s4) => Some (sg +:+ i +:+ f +:+ e, s4)
          end
      end
  end.

(** UTF-8 of a code point *)
Definition utf8 (u : Z) : string :=
  if u <? 0x80 then String (byte_of u) ""
  else if u <? 0x800 then String (byte_of (0xC0 + u / 64)) (String (byte_of (0x80 + u mod 64)) "")
  else if u <? 0x10000 then
    String (byte_of (0xE0 + u / 4096)) (String (byte_of (0x80 + u / 64 mod 64))
      (String (byte_of (0x80 + u mod 64)) ""))
  else String (byte_of (0xF0 + u / 262144)) (String (byte_of (0x80 + u / 4096 mod 64))
      (String (byte_of (0x80 + u / 64 mod 64)) (String (byte_of (0x80 + u mod 64)) ""))).

Definition hex4 (s : string) : option (Z * string) :=
  match s with
  | String a (String b (String c (String d r))) =>
      match hex_val a, hex_val b, hex_val c, hex_val d with
      | Some a, Some b, Some c, Some d => Some (((a * 16 + b) * 16 + c) * 16 + d, r)
      | _, _, _, _ => None
      end
  | _ => None
  end.

(** The inside of a string literal, after the opening quote. A surrogate pair is one
    code point, a lone surrogate U+FFFD. *)
Fixpoint lex_string (fuel : nat) (s : string) : option (string * string) :=
  match fuel with
  | O => None
  | S f =>
      let push (p : string) (r : string) :=
        match lex_string f r with Some (t, r') => Some (p +:+ t, r') | None => None end in
      match s with
      | EmptyString => None
      | String c r =>
          if byte_val c =? 34 then Some (""%string, r)
          else if byte_val c <? 32 then None
          else if (c =? "\")%char then
            match r with
            | EmptyString => None
            | String e r =>
                if (byte_val e =? 34) || (e =? "\")%char || (e =? "/")%char then push (String e "") r
                else if (e =? "b")%char then push (String (byte_of 8) "") r
                else if (e =? "f")%char then push (String (byte_of 12) "") r
                else if (e =? "n")%char then push (String (byte_of 10) "") r
                else if (e =? "r")%char then push (String (byte_of 13) "") r
                else if (e =? "t")%char then push (String (byte_of 9) "") r
                else if (e =? "u")%char then
                  match hex4 r with
                  | None => None
                  | Some (u, r) =>
                      if (0xD800 <=? u) && (u <? 0xDC00) then
                        match r with
                        | String "\" (String "u" r2) =>
                            match hex4 r2 with
                            | Some (v, r3) =>
                                if (0xDC00 <=? v) && (v <? 0xE000)
                                then push (utf8 (0x10000 + (u - 0xD800) * 1024 + (v - 0xDC00))) r3
                                else push (utf8 0xFFFD) r
                            | None => push (utf8 0xFFFD) r
                            end
                        | _ => push (utf8 0xFFFD) r
                        end
                      else if (0xDC00 <=? u) && (u <? 0xE000) then push (utf8 0xFFFD) r
                      else push (utf8 u) r
                  end
                else None
            end
          else push (String c "") r
      end
  end.

(** ** Values *)
Definition expect (lit : string) (v : json) (s : string) : option (json * string) :=
  if HasPrefix s lit then Some (v, sdrop (String.length lit) s) else None.

Fixpoint parse_value (fuel : nat) (s0 : string) : option (json * string) :=
  match fuel with
  | O => None
  | S f =>
      match skip_ws s0 with
      | EmptyString => None
      | String c r as s =>
          if byte_val c =? 34 then
            match lex_string (S (String.length r)) r with
            | Some (t, r') => Some (JStr t, r')
            | None => None
            end
          else if (c =? "t")%char then expect "true" (JBool true) s
          else if (c =? "f")%char then expect "false" (JBool false) s
          else if (c =? "n")%char then expect "null" JNull s
          else if (c =? "[")%char then
            match skip_ws r with
            | String "]" r' => Some (JArr [], r')
            | _ => match parse_elems f r with Some (l, r') => Some (JArr l, r') | None => None end
            end
          else if (c =? "{")%char then
            match skip_ws r with
            | String "}" r' => Some (JObj [], r')
            | _ => match parse_members f r with Some (l, r') => Some (JObj l, r') | None => None end
            end
          else match lex_number s with Some (n, r') => Some (JNum n, r') | None => None end
      end
  end
with parse_elems (fuel : nat) (s : string) : option (list json * string) :=
  match fuel with
  | O => None
  | S f =>
      match parse_value f s with
      | None => None
      | Some (v, r) =>
          match skip_ws r with
          | String "]" r' => Some ([v], r')
          | String "," r' =>
              match parse_elems f r' with Some (l, r'') => Some (v :: l, r'') | None => None end
          | _ => None
          end
      end
  end
with parse_members (fuel : nat) (s : string) : option (list (string * json) * string) :=
  match fuel with
  | O => None
  | S f =>
      match skip_ws s with
      | String c r =>
          if byte_val c =? 34 then
            match lex_string (S (String.length r)) r with
            | None => None
            | Some (k, r1) =>
                match skip_ws r1 with
                | String ":" r2 =>
                    match parse_value f r2 with
                    | None => None
                    | Some (v, r3) =>
                        match skip_ws r3 with
                        | String "}" r4 => Some ([(k, v)], r4)
                        | String "," r4 =>
                            match parse_members f r4 with
                            | Some (l, r5) => Some ((k, v) :: l, r5)
                            | None => None
                            end
                        | _ => None
                        end
                    end
                | _ => None
                end
            end
          else None
      | EmptyString => None
      end
  end.

(** Every two nested calls consume a character, so twice the length is enough fuel. *)
Definition json_parse_prefix (s : string) : option (json * string) :=
  parse_value (2 * String.length s + 2) s.

Definition json_parse (s : string) : option json :=
  match json_parse_prefix s with
  | Some (v, r) => if (skip_ws r =? "")%string then Some v else None
  | None => None
  end.

(** ** Decoding into struct fields *)
Definition obj_field (name : string) (l : list (string * json)) : list json :=
  map snd (filter (fun kv => EqualFold kv.1 name = true) l).

(** A struct field is decoded once for each matching key, in input order; the last value
    stays, and one failure fails the whole call. *)
Definition decode_field {A : Type} (dec : A -> json -> option A) (cur : A) (js : list json) : A * bool :=
  fold_left (fun st j => match dec st.1 j with Some v => (v, st.2) | None => (st.1, false) end)
    js (cur, true).

(** Each returns the new field value and whether decoding succeeded. *)
Definition dec_string (cur : string) (j : json) : option string :=
  match j with
  | JNull => Some cur
  | JStr s => Some s
  | _ => None
  end.
Definition field_string := decode_field dec_string.

Definition dec_bool (cur : bool) (j : json) : option bool :=
  match j with
  | JNull => Some cur
  | JBool b => Some b
  | _ => None
  end.
Definition field_bool := decode_field dec_bool.

(** An [int] field: a number literal that is not a 64-bit integer is an error. *)
Definition dec_int (cur : Z) (j : json) : option Z :=
  match j with
  | JNull => Some cur
  | JNum lit => match ParseInt lit 10 64 with inr z => Some z | inl _ => None end
  | _ => None
  end.
Definition field_int := decode_field dec_int.

(** Unmarshalling into a struct: [None] when the value is neither an object nor null. *)
Definition as_object (j : json) : option (list (string * json)) :=
  match j with
  | JObj l => Some l
  | JNull => Some []
  | _ => None
  end.

(** json.NewDecoder(body).Decode into a struct: the first value of the body ([None]: it
    could not be read). *)
Definition decode_body (body : option string) : option (list (string * json)) :=
  b ← body; '(j, _) ← json_parse_prefix b; as_object j.

(** Unmarshalling into [map[string]interface{}] succeeds on objects and null. *)
Definition is_json_map (b : string) : bool :=
  match json_parse b with
  | Some j => match as_object j with Some _ => true | None => false end
  | None => false
  end.

(** JSON text for concrete inputs, written with single quotes. *)
Definition jq (s : string) : string :=
  smap (fun c => if (c =? "'")%char then ascii_of_nat 34 else c) s.
