(* ===== verification/JsonPrint.v ===== *)
(** * encoding/json: printing

    [json_print] is [json.Marshal] of a value that has already been laid out as a [json]
    tree: struct fields in declaration order, map keys sorted ([of_map]). Strings are escaped
    as encoding/json does for HTML: quotes, backslashes, control characters, [<], [>], [&]
    and the separators U+2028 and U+2029. [parse_print] is the round trip with the parser of
    Json.v: it is what lets a handler that rewrites a file read its own output back. *)

From S2P Require Import Prelude GoStd Json.

#[local] Open Scope string_scope.
#[local] Open Scope Z_scope.

Definition chr (n : Z) (s : string) : string := String (byte_of n) s.

(** One byte of a string literal. *)
Definition esc_char (c : ascii) : string :=
  let n := byte_val c in
  if (n =? 34) || (n =? 92) then chr 92 (String c "")
  else if n =? 8 then chr 92 "b"
  else if n =? 12 then chr 92 "f"
  else if n =? 10 then chr 92 "n"
  else if n =? 13 then chr 92 "r"
  else if n =? 9 then chr 92 "t"
  else if (n <? 32) || (n =? 60) || (n =? 62) || (n =? 38) then
    chr 92 ("u00" +:+ String (digit_char (n / 16)) (String (digit_char (n mod 16)) ""))
  else String c "".

(** The body of a string literal; E2 80 A8 and E2 80 A9 are U+2028 and U+2029. *)
Fixpoint escape (s : string) : string :=
  match s with
  | EmptyString => ""
  | String c s' =>
      match s' with
      | String d (String e r) =>
          if (byte_val c =? 0xE2) && (byte_val d =? 0x80) && (byte_val e =? 0xA8)
          then chr 92 "u2028" +:+ escape r
          else if (byte_val c =? 0xE2) && (byte_val d =? 0x80) && (byte_val e =? 0xA9)
          then chr 92 "u2029" +:+ escape r
          else esc_char c +:+ escape s'
      | _ => esc_char c +:+ escape s'
      end
  end.

Definition quote (s : string) : string := chr 34 (escape s +:+ chr 34 "").

Fixpoint json_print (j : json) : string :=
  match j with
  | JNull => "null"
  | JBool b => if b then "true" else "false"
  | JNum lit => lit
  | JStr s => quote s
  | JArr l => "[" +:+ Join (map json_print l) "," +:+ "]"
  | JObj l => "{" +:+ Join (map (fun kv => quote kv.1 +:+ ":" +:+ json_print kv.2) l) "," +:+ "}"
  end.

(** ** Induction on JSON values *)
Section json_ind.
Context (P : json -> Prop) (Pnull : P JNull) (Pbool : forall b, P (JBool b)) (Pnum : forall l, P (JNum l))
        (Pstr : forall s, P (JStr s)) (Parr : forall l, Forall P l -> P (JArr l))
        (Pobj : forall l, Forall (fun kv => P kv.2) l -> P (JObj l)).

Fixpoint json_ind_nested (j : json) : P j :=
  match j with
  | JNull => Pnull
  | JBool b => Pbool b
  | JNum l => Pnum l
  | JStr s => Pstr s
  | JArr l => Parr l ((fix go l := match l return Forall P l with
                                   | [] => Forall_nil_2 _
                                   | j :: l' => Forall_cons_2 _ _ _ (json_ind_nested j) (go l')
                                   end) l)
  | JObj l => Pobj l ((fix go l := match l return Forall (fun kv => P kv.2) l with
                                   | [] => Forall_nil_2 _
                                   | kv :: l' => Forall_cons_2 _ _ _ (json_ind_nested kv.2) (go l')
                                   end) l)
  end.
End json_ind.

(** ** Strings *)
Lemma byte_val_inj c d : byte_val c = byte_val d -> c = d.
Proof. intros H. by rewrite <- (byte_of_val c), <- (byte_of_val d), H. Qed.

(** Every escaped byte is read back in one round of the string lexer. *)
Lemma lex_esc_char : forall c f r,
  lex_string (S f) (esc_char c +:+ r) =
  match lex_string f r with Some (t, r') => Some (String c t, r') | None => None end.
Proof.
  intros c f r. destruct c as [[] [] [] [] [] [] [] []]; vm_compute esc_char; reflexivity.
Qed.

Lemma length_esc_char c : (1 <= String.length (esc_char c))%nat.
Proof. unfold esc_char, chr. repeat case_match; simpl; lia. Qed.

(** So is an escaped separator. *)
Lemma lex_sep (b : bool) f r :
  lex_string (S f) (chr 92 (if b then "u2028" else "u2029") +:+ r) =
  match lex_string f r with
  | Some (t, r') => Some (chr 0xE2 (chr 0x80 (chr (if b then 0xA8 else 0xA9) t)), r')
  | None => None
  end.
Proof. by destruct b. Qed.

Lemma byte_is c n : (byte_val c =? n) = true -> c = byte_of n.
Proof. intros <-%Z.eqb_eq. by rewrite byte_of_val. Qed.

(** The three ways [escape] goes on. *)
Lemma escape_cases (P : string -> Prop) :
  P "" ->
  (forall b r, P r -> escape (chr 0xE2 (chr 0x80 (chr (if b : bool then 0xA8 else 0xA9) r))) =
                      chr 92 (if b then "u2028" else "u2029") +:+ escape r ->
               P (chr 0xE2 (chr 0x80 (chr (if b then 0xA8 else 0xA9) r)))) ->
  (forall c r, P r -> escape (String c r) = esc_char c +:+ escape r -> P (String c r)) ->
  forall s, P s.
Proof.
  intros H0 H1 H2 s. remember (String.length s) as n eqn:Hn. revert s Hn.
  induction n as [n IH] using lt_wf_ind. intros [|c s'] ->; [done|].
  assert (escape (String c s') = esc_char c +:+ escape s' -> P (String c s')) as Hother.
  { intros He. apply H2; [|exact He]. eapply IH; [|reflexivity]. simpl. lia. }
  destruct s' as [|d [|e r]]; [by apply Hother | by apply Hother |].
  assert (P r) as Hr by (eapply IH; [|reflexivity]; simpl; lia).
  destruct ((byte_val c =? 0xE2) && (byte_val d =? 0x80) && (byte_val e =? 0xA8)) eqn:E1.
  { apply andb_true_iff in E1 as [[->%byte_is ->%byte_is]%andb_true_iff ->%byte_is]. by apply (H1 true). }
  destruct ((byte_val c =? 0xE2) && (byte_val d =? 0x80) && (byte_val e =? 0xA9)) eqn:E2.
  { apply andb_true_iff in E2 as [[->%byte_is ->%byte_is]%andb_true_iff ->%byte_is]. by apply (H1 false). }
  apply Hother. cbn [escape]. by rewrite E1, E2.
Qed.

Lemma lex_escape s : forall f r, (String.length (escape s) < f)%nat ->
  lex_string f (escape s +:+ chr 34 r) = Some (s, r).
Proof.
  induction s as [|b s IH E|c s IH E] using escape_cases; intros [|f] r Hf; try lia; [done| |]; rewrite E in *;
    rewrite sapp_assoc, ?lex_sep, ?lex_esc_char, IH; try done;
    rewrite length_app_s in Hf; [destruct b; simpl in Hf; lia | pose proof (length_esc_char c); lia].
Qed.

Lemma lex_quote s r :
  lex_string (S (String.length (escape s +:+ chr 34 r))) (escape s +:+ chr 34 r) = Some (s, r).
Proof. apply lex_escape. rewrite length_app_s. simpl. lia. Qed.

(** ** Numbers *)

(** What may follow a number literal: nothing that would extend it. *)
Definition num_char (c : ascii) : bool :=
  is_digit c || (c =? ".")%char || (c =? "e")%char || (c =? "E")%char.
Definition num_end (s : string) : bool :=
  match s with EmptyString => true | String c _ => negb (num_char c) end.
Definition is_num (lit : string) : bool :=
  match lex_number lit with Some (l, r) => (l =? lit)%string && (r =? "")%string | None => false end.

Lemma num_end_not_digit c r : num_end (String c r) = true -> is_digit c = false /\ (c =? ".")%char = false /\
  (c =? "e")%char = false /\ (c =? "E")%char = false.
Proof.
  simpl. unfold num_char. intros H%negb_true_iff. repeat setoid_rewrite orb_false_iff in H. tauto.
Qed.

Lemma span_app p s a b r : span p s = (a, b) ->
  match (if (b =? "")%string then r else "") with EmptyString => True | String c _ => p c = false end ->
  span p (s +:+ r) = (a, b +:+ r).
Proof.
  revert a b. induction s as [|c s IH]; intros a b.
  - intros [= <- <-]. cbn. destruct r as [|c r]; [done|]. simpl. by intros ->.
  - cbn. destruct (p c) eqn:E.
    + destruct (span p s) as [a' b'] eqn:Es. intros [= <- <-] Hr. by rewrite (IH _ _ eq_refl Hr).
    + by intros [= <- <-].
Qed.

(** A lexer of number parts is not disturbed by what follows. *)
Definition extends (lex : string -> option (string * string)) : Prop :=
  forall s a b r, lex s = Some (a, b) -> (b = "" -> num_end r = true) -> lex (s +:+ r) = Some (a, b +:+ r).

Lemma span_digits s a b r : span is_digit s = (a, b) -> (b = "" -> num_end r = true) ->
  span is_digit (s +:+ r) = (a, b +:+ r).
Proof.
  intros Hs Hb. apply span_app; [exact Hs|]. destruct (String.eqb_spec b "") as [->|]; [|done].
  destruct r as [|c r]; [done|]. by apply num_end_not_digit in Hb as [? _].
Qed.

Lemma digits_extend (pre : string -> string) (t : string) a b r :
  (let (d, r) := span is_digit t in if (d =? "")%string then None else Some (pre d, r)) = Some (a, b) ->
  (b = "" -> num_end r = true) ->
  (let (d, r) := span is_digit (t +:+ r) in if (d =? "")%string then None else Some (pre d, r)) = Some (a, b +:+ r).
Proof.
  destruct (span is_digit t) as [d r'] eqn:E. destruct (d =? "")%string eqn:Ed; [done|].
  intros [= <- <-] Hb. by rewrite (span_digits _ _ _ _ E Hb), Ed.
Qed.

Lemma lex_int_extends : extends lex_int.
Proof.
  intros [|c s] a b r Hs Hb; [done|]. unfold lex_int in *. cbn [String.append].
  pose proof (digits_extend (fun d => d) (String c s) a b r) as Hd.
  destruct c as [[] [] [] [] [] [] [] []]; try exact (Hd Hs Hb).
  by injection Hs as <- <-.
Qed.

Lemma lex_frac_extends : extends lex_frac.
Proof.
  intros [|c s] a b r Hs Hb.
  - injection Hs as <- <-. specialize (Hb eq_refl). destruct r as [|d r]; [done|].
    apply num_end_not_digit in Hb as (_ & Hd & _). cbn.
    destruct d as [[] [] [] [] [] [] [] []]; try reflexivity. discriminate Hd.
  - unfold lex_frac in *. cbn [String.append].
    destruct c as [[] [] [] [] [] [] [] []]; try (by injection Hs as <- <-).
    exact (digits_extend (String ".") _ _ _ _ Hs Hb).
Qed.

Definition exp_sign (s : string) : string * string :=
  match s with String "+" t => ("+", t) | String "-" t => ("-", t) | _ => ("", s) end.

Lemma exp_sign_app s r : s <> "" -> exp_sign (s +:+ r) = ((exp_sign s).1, (exp_sign s).2 +:+ r).
Proof. destruct s as [|[[] [] [] [] [] [] [] []] s]; by intros. Qed.

Lemma lex_exp_extends : extends lex_exp.
Proof.
  intros [|c s] a b r Hs Hb.
  - injection Hs as <- <-. specialize (Hb eq_refl). destruct r as [|d r]; [done|].
    apply num_end_not_digit in Hb as (_ & _ & H1 & H2). unfold lex_exp. cbn. by rewrite H1, H2.
  - unfold lex_exp in *. cbn [String.append].
    destruct ((c =? "e")%char || (c =? "E")%char); [|by injection Hs as <- <-].
    fold (exp_sign s) in Hs. fold (exp_sign (s +:+ r)). destruct s as [|d s]; [done|].
    rewrite exp_sign_app by done. destruct (exp_sign (String d s)) as [sg t]. cbn [fst snd].
    exact (digits_extend (fun d => String c (sg +:+ d)) _ _ _ _ Hs Hb).
Qed.

Definition num_sign (s : string) : string * string :=
  match s with String "-" t => ("-", t) | _ => ("", s) end.

Lemma lex_number_extends : extends lex_number.
Proof.
  intros s a b r. unfold lex_number. fold (num_sign s). fold (num_sign (s +:+ r)).
  destruct s as [|c s]; [done|].
  assert (num_sign (String c s +:+ r) = ((num_sign (String c s)).1, (num_sign (String c s)).2 +:+ r)) as ->.
  { by destruct c as [[] [] [] [] [] [] [] []]. }
  destruct (num_sign (String c s)) as [sg s1]. cbn [fst snd].
  destruct (lex_int s1) as [[i s2]|] eqn:E1; [|done]. destruct (lex_frac s2) as [[f s3]|] eqn:E2; [|done].
  destruct (lex_exp s3) as [[e s4]|] eqn:E3; [|done]. intros [= <- <-] Hb.
  assert (s3 = "" -> num_end r = true) as Hb3.
  { intros ->. apply Hb. by injection E3 as _ <-. }
  assert (s2 = "" -> num_end r = true) as Hb2.
  { intros ->. apply Hb3. by injection E2 as _ <-. }
  by rewrite (lex_int_extends _ _ _ _ E1 Hb2), (lex_frac_extends _ _ _ _ E2 Hb3), (lex_exp_extends _ _ _ _ E3 Hb).
Qed.

Lemma lex_is_num lit r : is_num lit = true -> num_end r = true -> lex_number (lit +:+ r) = Some (lit, r).
Proof.
  unfold is_num. destruct (lex_number lit) as [[l r']|] eqn:E; [|done].
  intros [->%String.eqb_eq ->%String.eqb_eq]%andb_true_iff Hr. by apply (lex_number_extends _ _ _ _ E).
Qed.

(** ** Values *)
Fixpoint nums_ok (j : json) : bool :=
  match j with
  | JNum lit => is_num lit
  | JArr l => forallb nums_ok l
  | JObj l => forallb (fun kv => nums_ok kv.2) l
  | _ => true
  end.

Definition value_head (c : ascii) : bool := negb (json_space c) && negb (c =? "]")%char && negb (c =? "}")%char.

Lemma is_num_head lit : is_num lit = true -> exists c t, lit = String c t /\ (is_digit c || (c =? "-")%char) = true.
Proof.
  unfold is_num, lex_number. destruct lit as [|c t]; [done|]. intros H. exists c, t. split; [done|].
  destruct (is_digit c) eqn:Ed; [done|]. destruct (Ascii.eqb_spec c "-") as [|Hc]; [done|]. exfalso. revert H Ed Hc.
  destruct c as [[] [] [] [] [] [] [] []]; cbn; try discriminate; congruence.
Qed.

Lemma print_head j : nums_ok j = true -> exists c t, json_print j = String c t /\ value_head c = true.
Proof.
  destruct j as [|[]|lit|s|l|l]; intros H; try (do 2 eexists; split; reflexivity).
  destruct (is_num_head _ H) as (c & t & -> & Hc). exists c, t. split; [done|].
  revert Hc. clear. by destruct c as [[] [] [] [] [] [] [] []].
Qed.

Lemma skip_ws_head c t : json_space c = false -> skip_ws (String c t) = String c t.
Proof. cbn. by intros ->. Qed.

Lemma num_head_cases c : (is_digit c || (c =? "-")%char) = true ->
  (json_space c || (byte_val c =? 34) || (c =? "t")%char || (c =? "f")%char || (c =? "n")%char || (c =? "[")%char
   || (c =? "{")%char) = false.
Proof. by destruct c as [[] [] [] [] [] [] [] []]. Qed.

Lemma parse_num f lit r : is_num lit = true -> num_end r = true ->
  parse_value (S f) (lit +:+ r) = Some (JNum lit, r).
Proof.
  intros H Hr. pose proof (lex_is_num lit r H Hr) as Hl. destruct (is_num_head _ H) as (c & t & -> & Hc).
  cbn [parse_value String.append] in *. apply num_head_cases in Hc. rewrite !orb_false_iff in Hc.
  destruct Hc as [[[[[[E1 E2] E3] E4] E5] E6] E7]. rewrite skip_ws_head by done. by rewrite E2, E3, E4, E5, E6, E7, Hl.
Qed.

Lemma quote_app s t : quote s +:+ t = chr 34 (escape s +:+ chr 34 t).
Proof. unfold quote, chr at 1. cbn [String.append]. by rewrite sapp_assoc. Qed.

Lemma parse_value_quote f u :
  parse_value (S f) (chr 34 u) =
  match lex_string (S (String.length u)) u with Some (t, r') => Some (JStr t, r') | None => None end.
Proof. done. Qed.

Lemma parse_str f s r : parse_value (S f) (quote s +:+ r) = Some (JStr s, r).
Proof. by rewrite quote_app, parse_value_quote, lex_quote. Qed.

(** One member of an object, its key quoted. *)
Lemma parse_members_quote f k r :
  parse_members (S f) (quote k +:+ ":" +:+ r) =
  match parse_value f r with
  | None => None
  | Some (v, r3) =>
      match skip_ws r3 with
      | String "}" r4 => Some ([(k, v)], r4)
      | String "," r4 => match parse_members f r4 with Some (l, r5) => Some ((k, v) :: l, r5) | None => None end
      | _ => None
      end
  end.
Proof.
  rewrite quote_app. cbn [parse_members]. unfold chr at 1. rewrite skip_ws_head by done.
  cbn -[lex_string parse_value parse_members String.append String.length chr]. by rewrite lex_quote.
Qed.

(** What the induction gives for each element of an array or object. *)
Definition reads (j : json) : Prop :=
  forall f r, (2 * String.length (json_print j) <= f)%nat -> num_end r = true ->
  parse_value f (json_print j +:+ r) = Some (j, r).

Lemma skip_comma x : skip_ws ("," +:+ x) = String "," x.
Proof. done. Qed.

Lemma Join_cons2 a b l sep : Join (a :: b :: l) sep = a +:+ sep +:+ Join (b :: l) sep.
Proof. done. Qed.

Lemma parse_elems_print l : l <> [] -> Forall reads l -> forall f r,
  (2 * String.length (Join (map json_print l) ",") + 1 <= f)%nat ->
  parse_elems f (Join (map json_print l) "," +:+ "]" +:+ r) = Some (l, r).
Proof.
  induction l as [|j l IH]; [done|]. intros _ [Hj Hl]%Forall_cons [|f] r Hf; [lia|].
  destruct l as [|j' l].
  - cbn [map Join] in *. cbn [parse_elems]. rewrite (Hj f ("]" +:+ r)) by (done || lia). reflexivity.
  - cbn [map] in *. rewrite Join_cons2 in Hf |- *. rewrite !length_app_s in Hf. cbn [String.length] in Hf.
    rewrite !sapp_assoc. cbn [parse_elems].
    rewrite (Hj f) by (done || lia). rewrite skip_comma. cbn beta iota.
    rewrite IH; [done | done | done | lia].
Qed.

Lemma parse_members_print l : l <> [] -> Forall (fun kv => reads kv.2) l -> forall f r,
  (2 * String.length (Join (map (fun kv => quote kv.1 +:+ ":" +:+ json_print kv.2) l) ",") + 1 <= f)%nat ->
  parse_members f (Join (map (fun kv => quote kv.1 +:+ ":" +:+ json_print kv.2) l) "," +:+ "}" +:+ r) = Some (l, r).
Proof.
  induction l as [|[k j] l IH]; [done|]. intros _ [Hj Hl]%Forall_cons [|f] r Hf; [lia|]. cbn [snd] in Hj.
  destruct l as [|kv' l].
  - cbn [map Join fst snd] in *. rewrite !length_app_s in Hf. rewrite !sapp_assoc, parse_members_quote.
    rewrite (Hj f ("}" +:+ r)) by (done || lia). reflexivity.
  - cbn [map fst snd] in *. rewrite Join_cons2 in Hf |- *. rewrite !length_app_s in Hf. cbn [String.length] in Hf.
    rewrite !sapp_assoc, parse_members_quote.
    rewrite (Hj f) by (done || lia). rewrite skip_comma. cbn beta iota.
    rewrite IH; [done | done | done | lia].
Qed.

Lemma Forall_reads {A : Type} (f : A -> json) l :
  Forall (fun x => nums_ok (f x) = true -> reads (f x)) l -> forallb (fun x => nums_ok (f x)) l = true ->
  Forall (fun x => reads (f x)) l.
Proof.
  induction 1 as [|x l Hx Hl IH]; [constructor|]. cbn. intros [H1 H2]%andb_true_iff. constructor; auto.
Qed.

(** An opening bracket followed by anything but the closing one. *)
Lemma parse_value_arr f c t : value_head c = true ->
  parse_value (S f) ("[" +:+ String c t) =
  match parse_elems f (String c t) with Some (l, r) => Some (JArr l, r) | None => None end.
Proof.
  intros Hc. transitivity (match skip_ws (String c t) with
    | String "]" r' => Some (JArr [], r')
    | _ => match parse_elems f (String c t) with Some (l, r) => Some (JArr l, r) | None => None end
    end); [done|].
  rewrite skip_ws_head.
  - revert Hc. by destruct c as [[] [] [] [] [] [] [] []].
  - unfold value_head in Hc. rewrite !andb_true_iff, !negb_true_iff in Hc. by destruct Hc as [[? _] _].
Qed.

Lemma parse_value_obj f t :
  parse_value (S f) ("{" +:+ chr 34 t) =
  match parse_members f (chr 34 t) with Some (l, r) => Some (JObj l, r) | None => None end.
Proof. done. Qed.

Lemma Join_head a l sep t : exists u, Join (a :: l) sep +:+ t = a +:+ u.
Proof. destruct l; cbn [Join]; [by exists t|]. rewrite !sapp_assoc. eauto. Qed.

Lemma print_fuel j f : nums_ok j = true -> (2 * String.length (json_print j) <= f)%nat -> exists f', f = S f'.
Proof.
  intros Hn Hf. destruct (print_head j Hn) as (c & t & E & _). rewrite E in Hf.
  destruct f as [|f]; [simpl in Hf; lia | by exists f].
Qed.

Lemma reads_print j : nums_ok j = true -> reads j.
Proof.
  induction j as [|b|lit|s|l IH|l IH] using json_ind_nested; intros Hn f r Hf Hr;
    pose proof (print_fuel _ _ Hn Hf) as [f' ->]; rename f' into f.
  - by destruct r.
  - by destruct b, r.
  - by apply parse_num.
  - apply parse_str.
  - pose proof (Forall_reads id l IH Hn) as Hl. destruct l as [|j l]; [done|].
    cbn [json_print] in *. rewrite !length_app_s in Hf. cbn [String.length] in Hf. rewrite !sapp_assoc.
    pose proof (parse_elems_print (j :: l) ltac:(done) Hl f r ltac:(lia)) as He.
    cbn [map nums_ok forallb] in *. destruct (print_head j) as (c & t & Ej & Hc); [by apply andb_true_iff in Hn as [? _]|].
    rewrite Ej in *. destruct (Join_head (String c t) (map json_print l) "," ("]" +:+ r)) as [u Hu].
    rewrite Hu in *. cbn [String.append] in He |- *. change (parse_value (S f) ("[" +:+ String c (t +:+ u)) = Some (JArr (j :: l), r)).
    by rewrite parse_value_arr, He.
  - pose proof (Forall_reads snd l IH Hn) as Hl. destruct l as [|[k j] l]; [done|].
    cbn [json_print] in *. rewrite !length_app_s in Hf. cbn [String.length] in Hf. rewrite !sapp_assoc.
    pose proof (parse_members_print ((k, j) :: l) ltac:(done) Hl f r ltac:(lia)) as He.
    cbn [map fst snd] in *. 
    match type of He with parse_members f (Join (?a :: ?l') "," +:+ ?t) = _ =>
      destruct (Join_head a l' "," t) as [u Hu] end.
    rewrite Hu in *. rewrite !sapp_assoc, quote_app in *. by rewrite parse_value_obj, He.
Qed.

(** json.Unmarshal of json.Marshal's output is the value printed. *)
Lemma parse_print j : nums_ok j = true -> json_parse (json_print j) = Some j.
Proof.
  intros Hn. unfold json_parse, json_parse_prefix.
  pose proof (reads_print j Hn (2 * String.length (json_print j) + 2)%nat "" ltac:(lia) ltac:(done)) as H.
  rewrite sapp_nil_r in H. by rewrite H.
Qed.

(** A streaming decoder reads the printed value and leaves what follows it. *)
Lemma parse_prefix_print j r : nums_ok j = true -> num_end r = true ->
  json_parse_prefix (json_print j +:+ r) = Some (j, r).
Proof. intros Hn Hr. apply reads_print; try done. rewrite length_app_s. lia. Qed.

Lemma json_print_inj j1 j2 : nums_ok j1 = true -> nums_ok j2 = true -> json_print j1 = json_print j2 -> j1 = j2.
Proof. intros H1 H2 H. apply parse_print in H1, H2. congruence. Qed.
