(* ===== verification/JsonIndent.v ===== *)
(** * encoding/json: MarshalIndent

    The indented form of a value with no prefix: every element on a line of its own, a space
    after each colon, empty arrays and objects closed at once. What it prints is read back. *)

From S2P Require Import Prelude GoStd Json JsonPrint.

#[local] Open Scope string_scope.

Section indent.
Context (indent : string).

(** A newline and the indentation of the depth. *)
Definition newline (d : nat) : string := String "010" (sconcat (replicate d indent)).

Fixpoint json_indent (d : nat) (j : json) : string :=
  match j with
  | JArr [] => "[]"
  | JArr l => "[" +:+ newline (S d) +:+ Join (map (json_indent (S d)) l) ("," +:+ newline (S d)) +:+ newline d +:+ "]"
  | JObj [] => "{}"
  | JObj l =>
      "{" +:+ newline (S d) +:+
      Join (map (fun kv => quote kv.1 +:+ ": " +:+ json_indent (S d) kv.2) l) ("," +:+ newline (S d)) +:+ newline d +:+ "}"
  | _ => json_print j
  end.

(** ** Reading it back *)
Hypothesis indent_space : sforall json_space indent = true.

Lemma newline_space d : sforall json_space (newline d) = true.
Proof. cbn. induction d as [|d IH]; [done|]. cbn [replicate sconcat]. by rewrite sforall_app, indent_space. Qed.

Lemma skip_ws_space ws s : sforall json_space ws = true -> skip_ws (ws +:+ s) = skip_ws s.
Proof. induction ws as [|c ws IH]; [done|]. cbn. intros [-> H]%andb_true_iff. by apply IH. Qed.

Lemma parse_value_ws ws f s : sforall json_space ws = true -> parse_value (S f) (ws +:+ s) = parse_value (S f) s.
Proof. intros H. cbn [parse_value]. by rewrite skip_ws_space. Qed.
Lemma parse_elems_ws ws f s : sforall json_space ws = true -> parse_elems (S (S f)) (ws +:+ s) = parse_elems (S (S f)) s.
Proof. intros H. cbn [parse_elems]. by rewrite parse_value_ws. Qed.
Lemma parse_members_ws ws f s : sforall json_space ws = true -> parse_members (S f) (ws +:+ s) = parse_members (S f) s.
Proof. intros H. cbn [parse_members]. by rewrite skip_ws_space. Qed.

Lemma indent_head d j : nums_ok j = true -> exists c t, json_indent d j = String c t /\ value_head c = true.
Proof.
  intros H. destruct j as [| | | |[|]|[|]]; try (do 2 eexists; split; reflexivity); exact (print_head _ H).
Qed.

Definition ireads (d : nat) (j : json) : Prop :=
  forall f r, (2 * String.length (json_indent d j) <= f)%nat -> num_end r = true ->
  parse_value f (json_indent d j +:+ r) = Some (j, r).

Lemma newline_end d r : num_end (newline d +:+ r) = true.
Proof. done. Qed.

Lemma parse_elems_indent d e l : l <> [] -> Forall (ireads d) l -> Forall (fun j => nums_ok j = true) l -> forall f r,
  (2 * String.length (Join (map (json_indent d) l) ("," +:+ newline d)) + 1 <= f)%nat ->
  parse_elems f (Join (map (json_indent d) l) ("," +:+ newline d) +:+ newline e +:+ "]" +:+ r) = Some (l, r).
Proof.
  induction l as [|j l IH]; [done|]. intros _ [Hj Hl]%Forall_cons [Hn Hln]%Forall_cons [|f] r Hf; [lia|].
  destruct l as [|j' l].
  - cbn [map Join] in *. cbn [parse_elems]. rewrite (Hj f) by (apply newline_end || lia).
    by rewrite skip_ws_space by apply newline_space.
  - cbn [map] in *. rewrite Join_cons2 in Hf |- *. rewrite !length_app_s in Hf. cbn [String.length] in Hf.
    rewrite !sapp_assoc. cbn [parse_elems].
    rewrite (Hj f) by (done || lia). rewrite skip_comma. cbn beta iota.
    destruct (indent_head d j Hn) as (c & t & Ej & _). rewrite Ej in Hf. cbn [String.length] in Hf.
    destruct f as [|[|f]]; [lia..|]. rewrite parse_elems_ws by apply newline_space.
    rewrite IH; [done | done | done | done | lia].
Qed.

Definition imember (d : nat) (kv : string * json) : string := quote kv.1 +:+ ": " +:+ json_indent d kv.2.

Lemma parse_members_indent d e l : l <> [] -> Forall (fun kv => ireads d kv.2) l ->
  Forall (fun kv => nums_ok kv.2 = true) l -> forall f r,
  (2 * String.length (Join (map (imember d) l) ("," +:+ newline d)) + 1 <= f)%nat ->
  parse_members f (Join (map (imember d) l) ("," +:+ newline d) +:+ newline e +:+ "}" +:+ r) = Some (l, r).
Proof.
  induction l as [|[k j] l IH]; [done|]. intros _ [Hj Hl]%Forall_cons [Hn Hln]%Forall_cons [|f] r Hf; [lia|]. cbn [snd] in Hj.
  assert (forall f r, (2 * String.length (imember d (k, j)) <= f)%nat -> num_end r = true ->
    parse_value f (" " +:+ json_indent d j +:+ r) = Some (j, r)) as Hv.
  { clear -Hj. intros f r Hf Hr. unfold imember in Hf. rewrite !length_app_s in Hf. cbn [String.length] in Hf.
    destruct f as [|f]; [lia|]. rewrite parse_value_ws by done. cbn [snd] in Hf. apply Hj; [lia|done]. }
  destruct l as [|kv' l].
  - cbn [map Join] in *. unfold imember in Hf at 1 |- * at 1. cbn [fst snd] in *. rewrite !sapp_assoc.
    change (": " +:+ ?x) with (":" +:+ (" " +:+ x)). rewrite parse_members_quote.
    rewrite Hv by (apply newline_end || (unfold imember; cbn [fst snd]; lia)). by rewrite skip_ws_space by apply newline_space.
  - cbn [map] in *. rewrite Join_cons2 in Hf |- *. rewrite !length_app_s in Hf. cbn [String.length] in Hf.
    rewrite !sapp_assoc. unfold imember at 1. cbn [fst snd]. rewrite !sapp_assoc.
    change (": " +:+ ?x) with (":" +:+ (" " +:+ x)). rewrite parse_members_quote.
    rewrite Hv by (done || lia). rewrite skip_comma. cbn beta iota.
    assert (1 <= f)%nat by (unfold imember in Hf; rewrite !length_app_s in Hf; cbn [String.length] in Hf; lia).
    destruct f as [|f]; [lia|]. rewrite parse_members_ws by apply newline_space.
    rewrite IH; [done | done | done | done | lia].
Qed.

Lemma Forall_ireads {A : Type} (g : A -> json) d l :
  Forall (fun x => forall d, nums_ok (g x) = true -> ireads d (g x)) l -> forallb (fun x => nums_ok (g x)) l = true ->
  Forall (fun x => ireads d (g x)) l /\ Forall (fun x => nums_ok (g x) = true) l.
Proof.
  induction 1 as [|x l Hx Hl IH]; [done|]. cbn. intros [H1 H2]%andb_true_iff. destruct (IH H2). split; constructor; auto.
Qed.

Lemma ireads_indent j : forall d, nums_ok j = true -> ireads d j.
Proof.
  induction j as [|b|lit|s|l IH|l IH] using json_ind_nested; intros d Hn; try exact (reads_print _ Hn).
  - destruct (Forall_ireads id (S d) l IH Hn) as [Hl Hln]. destruct l as [|j l]; [exact (reads_print _ Hn)|]. intros f r Hf Hr.
    cbn [json_indent] in *. rewrite !length_app_s in Hf. cbn [String.length] in Hf. rewrite !sapp_assoc.
    destruct f as [|f]; [lia|].
    pose proof (parse_elems_indent (S d) d (j :: l) ltac:(done) Hl Hln f r ltac:(lia)) as He.
    destruct (indent_head (S d) j ltac:(by inversion Hln)) as (c & t & Ej & Hc).
    destruct (Join_head (json_indent (S d) j) (map (json_indent (S d)) l) ("," +:+ newline (S d)) (newline d +:+ "]" +:+ r)) as [u Hu].
    cbn [map] in *. rewrite Hu in *. rewrite Ej in *. cbn [String.append] in He.
    destruct f as [|[|f]]; [lia..|].
    transitivity (match skip_ws (newline (S d) +:+ String c t +:+ u) with
      | String "]" r' => Some (JArr [], r')
      | _ => match parse_elems (S (S f)) (newline (S d) +:+ String c t +:+ u) with Some (l, r) => Some (JArr l, r) | None => None end
      end); [done|].
    rewrite parse_elems_ws, skip_ws_space by apply newline_space. cbn [String.append]. rewrite He, skip_ws_head.
    + revert Hc. by destruct c as [[] [] [] [] [] [] [] []].
    + unfold value_head in Hc. rewrite !andb_true_iff, !negb_true_iff in Hc. by destruct Hc as [[? _] _].
  - destruct (Forall_ireads snd (S d) l IH Hn) as [Hl Hln]. destruct l as [|[k j] l]; [exact (reads_print _ Hn)|]. intros f r Hf Hr.
    cbn [json_indent] in *. rewrite !length_app_s in Hf. cbn [String.length] in Hf. rewrite !sapp_assoc.
    destruct f as [|f]; [lia|].
    pose proof (parse_members_indent (S d) d ((k, j) :: l) ltac:(done) Hl Hln f r) as He.
    unfold imember in He. specialize (He ltac:(lia)). cbn [map fst snd] in *.
    match type of He with parse_members f (Join (?a :: ?l') ?sep +:+ ?t) = _ => destruct (Join_head a l' sep t) as [u Hu] end.
    rewrite Hu in *. rewrite !sapp_assoc, quote_app in *.
    destruct f as [|f]; [lia|].
    transitivity (match skip_ws (newline (S d) +:+ chr 34 (escape k +:+ chr 34 (": " +:+ json_indent (S d) j +:+ u))) with
      | String "}" r' => Some (JObj [], r')
      | _ => match parse_members (S f) (newline (S d) +:+ chr 34 (escape k +:+ chr 34 (": " +:+ json_indent (S d) j +:+ u))) with
             | Some (l, r) => Some (JObj l, r) | None => None end
      end); [done|].
    rewrite parse_members_ws, skip_ws_space by apply newline_space. by rewrite He.
Qed.

(** json.Unmarshal of json.MarshalIndent's output is the value printed. *)
Lemma parse_indent j : nums_ok j = true -> json_parse (json_indent 0 j) = Some j.
Proof.
  intros Hn. unfold json_parse, json_parse_prefix.
  pose proof (ireads_indent j 0 Hn (2 * String.length (json_indent 0 j) + 2)%nat "" ltac:(lia) ltac:(done)) as H.
  rewrite sapp_nil_r in H. by rewrite H.
Qed.
End indent.
