(* ===== verification/Float.v ===== *)
(** * strconv.ParseFloat and encoding/json on floats

    A JSON document that passes through [map[string]interface{}] keeps its numbers as
    float64 values. This file has the conversion in exact arithmetic: a decimal literal is a
    rational, rounded to the nearest double (ties to even); a double is written with the
    fewest digits that read back as the same double, as strconv does, in the layout of
    encoding/json. [float_text] is the composite: the text a number literal is written back
    as, or [None] when it is out of range. *)

From S2P Require Import Prelude GoStd Json JsonPrint.

#[local] Open Scope string_scope.
#[local] Open Scope Z_scope.

(** ** Reading: sign, mantissa and decimal exponent of a literal *)
Fixpoint digits_val (acc : Z) (s : string) : Z :=
  match s with
  | EmptyString => acc
  | String c s' => digits_val (acc * 10 + (byte_val c - 48)) s'
  end.

Definition dec_exp (s : string) : Z :=
  match s with
  | String _ s' =>
      match s' with
      | String "-" t => - digits_val 0 t
      | String "+" t => digits_val 0 t
      | _ => digits_val 0 s'
      end
  | EmptyString => 0
  end.

Definition dec_of (lit : string) : bool * Z * Z :=
  let '(sg, s) := num_sign lit in
  let '(i, s) := span is_digit s in
  let '(f, s) := match s with String "." t => span is_digit t | _ => ("", s) end in
  (negb (sg =? "")%string, digits_val 0 (i +:+ f), dec_exp s - len f).

(** ** Rounding to a double: mantissa and binary exponent *)
Definition round_half_even (n d : Z) : Z :=
  let q := n / d in
  let r := 2 * (n mod d) in
  if r <? d then q else if d <? r then q + 1 else if Z.even q then q else q + 1.

(** A binary format: bits of precision, the least exponent and the first that overflows. *)
Record ffmt := mkFmt { f_prec : Z; f_emin : Z; f_emax : Z }.
Definition float64 := mkFmt 53 (-1074) 1024.
Definition float32 := mkFmt 24 (-149) 128.

(** The positive rational [n/d]; [None] is overflow. *)
Definition to_double (b : ffmt) (n d : Z) : option (Z * Z) :=
  let k := Z.log2 n - Z.log2 d in
  let k := if n * 2 ^ Z.max 0 (- k) <? d * 2 ^ Z.max 0 k then k - 1 else k in
  let p := Z.max (k - (f_prec b - 1)) (f_emin b) in
  let q := if 0 <=? p then round_half_even n (d * 2 ^ p) else round_half_even (n * 2 ^ (- p)) d in
  if f_emax b <=? Z.log2 q + p then None else Some (q, p).

Definition ndigits (m : Z) : Z := len (FormatUint m 10).

(** [m * 10^e]; exponents beyond the range of doubles are not expanded. *)
Definition dec_to_double (b : ffmt) (m e : Z) : option (Z * Z) :=
  if m =? 0 then Some (0, 0)
  else if 310 <? ndigits m + e then None
  else if ndigits m + e <? -330 then Some (0, 0)
  else if 0 <=? e then to_double b (m * 10 ^ e) 1
  else to_double b m (10 ^ (- e)).

(** ** Writing *)
Definition same_double (x : Z * Z) (y : option (Z * Z)) : bool :=
  match y with
  | Some y => x.1 * 2 ^ (x.2 + 1074) =? y.1 * 2 ^ (y.2 + 1074)
  | None => false
  end.

(** The double [q * 2^p] as a rational. *)
Definition double_rat (x : Z * Z) : Z * Z :=
  if 0 <=? x.2 then (x.1 * 2 ^ x.2, 1) else (x.1, 2 ^ (- x.2)).

(** [d] with [10^(d-1) <= vn/vd < 10^d]. *)
Definition dec_point (vn vd : Z) : Z :=
  if vd <=? vn then ndigits (vn / vd)
  else let k := ndigits (vd / vn) - 1 in if vn * 10 ^ k =? vd then 1 - k else - k.

(** The [n]-digit decimals next to the value, the nearer one first. *)
Definition candidates (vn vd s : Z) : Z * Z :=
  let '(num, den) := if 0 <=? s then (vn * 10 ^ s, vd) else (vn, vd * 10 ^ (- s)) in
  let f := num / den in
  if (round_half_even num den =? f) then (f, f + 1) else (f + 1, f).

(** The fewest digits, at most 17, that read back as the double: [c * 10^(-s)]. *)
Fixpoint shortest (b : ffmt) (fuel : nat) (n : Z) (x : Z * Z) (vn vd d : Z) : Z * Z :=
  let s := n - d in
  let '(c1, c2) := candidates vn vd s in
  match fuel with
  | O => (c1, s)
  | S f =>
      if same_double x (dec_to_double b c1 (- s)) then (c1, s)
      else if same_double x (dec_to_double b c2 (- s)) then (c2, s)
      else shortest b f (n + 1) x vn vd d
  end.

Fixpoint strip_zeros (fuel : nat) (c s : Z) : Z * Z :=
  match fuel with
  | O => (c, s)
  | S f => if c mod 10 =? 0 then strip_zeros f (c / 10) (s - 1) else (c, s)
  end.

(** Digits [ds] with the point after the first [dp] of them. *)
Definition layout_f (ds : string) (dp : Z) : string :=
  let i := if 0 <? dp then stake (Z.to_nat dp) ds +:+ srepeat (Z.to_nat dp - String.length ds) "0" else "0" in
  let f := srepeat (Z.to_nat (- dp)) "0" +:+ sdrop (Z.to_nat dp) ds in
  i +:+ (if (f =? "")%string then "" else "." +:+ f).

(** [e+21], [e-7]: encoding/json drops the padding zero of the exponent. *)
Definition layout_e (ds : string) (ex : Z) : string :=
  stake 1 ds +:+ (if (sdrop 1 ds =? "")%string then "" else "." +:+ sdrop 1 ds)
  +:+ (if ex <? 0 then "e-" +:+ FormatUint (- ex) 10 else "e+" +:+ FormatUint ex 10).

Definition double_text (b : ffmt) (x : Z * Z) : string :=
  let '(vn, vd) := double_rat x in
  let '(c, s) := shortest b 16 1 x vn vd (dec_point vn vd) in
  let '(c, s) := strip_zeros 17 c s in
  let ds := FormatUint c 10 in
  let ex := len ds - s - 1 in
  if (ex <? -6) || (21 <=? ex) then layout_e ds ex else layout_f ds (len ds - s).

(** A decimal literal as it is written back after it was read as a float. *)
Definition float_text_in (b : ffmt) (lit : string) : option string :=
  let '(neg, m, e) := dec_of lit in
  match dec_to_double b m e with
  | None => None
  | Some x => Some ((if neg : bool then "-" else "") +:+ (if x.1 <=? 0 then "0" else double_text b x))
  end.
Definition float_text : string -> option string := float_text_in float64.

Example float_int : float_text "42" = Some "42". Proof. vm_compute. reflexivity. Qed.
Example float_frac : float_text "0.10" = Some "0.1". Proof. vm_compute. reflexivity. Qed.
Example float_exp : float_text "1E3" = Some "1000". Proof. vm_compute. reflexivity. Qed.
Example float_small : float_text "-0.00000015" = Some "-1.5e-7". Proof. vm_compute. reflexivity. Qed.
Example float_big : float_text "12345678901234567890123" = Some "1.2345678901234568e+22". Proof. vm_compute. reflexivity. Qed.
Example float_min : float_text "3e-324" = Some "5e-324". Proof. vm_compute. reflexivity. Qed.
Example float_max : float_text "1.7976931348623157e308" = Some "1.7976931348623157e+308". Proof. vm_compute. reflexivity. Qed.
Example float_over : float_text "1e309" = None. Proof. vm_compute. reflexivity. Qed.
Example float_zero : float_text "-0" = Some "-0". Proof. vm_compute. reflexivity. Qed.
Example float_32 : float_text_in float32 "1099511627776.5" = Some "1099511600000". Proof. vm_compute. reflexivity. Qed.
Example float_1e20 : float_text "1e20" = Some "100000000000000000000". Proof. vm_compute. reflexivity. Qed.

(** ** The text is a JSON number *)
Lemma byte_digit_char r : 0 <= r < 10 -> byte_val (digit_char r) = 48 + r.
Proof.
  intros H. unfold digit_char. destruct (Z.ltb_spec r 10); [|lia]. rewrite byte_val_of; lia.
Qed.

Lemma digit_char_is_digit r : 0 <= r < 10 -> is_digit (digit_char r) = true.
Proof. intros H. unfold is_digit. rewrite byte_digit_char by done. lia. Qed.

Lemma digits_val_app a s t : digits_val a (s +:+ t) = digits_val (digits_val a s) t.
Proof. revert a. induction s as [|c s IH]; intros a; [done|]. cbn. apply IH. Qed.

(** A decimal numeral without leading zero, of value [n]. *)
Definition numeral (s : string) (n : Z) : Prop :=
  exists d t, s = String (digit_char d) t /\ 1 <= d <= 9 /\ sforall is_digit t = true /\ digits_val d t = n.

Lemma fmt_go_numeral fuel n acc : 0 < n < 10 ^ Z.of_nat fuel ->
  exists s, fmt_go fuel 10 n acc = s +:+ acc /\ numeral s n.
Proof.
  revert n acc. induction fuel as [|f IH]; intros n acc Hn; [simpl in Hn; lia|]. cbn [fmt_go].
  pose proof (Z.div_mod n 10 ltac:(lia)). pose proof (Z.mod_pos_bound n 10 ltac:(lia)).
  destruct (Z.eqb_spec (n / 10) 0) as [E|E].
  - exists (String (digit_char (n mod 10)) ""). split; [done|]. exists (n mod 10), "". split_and!; try done; cbn; lia.
  - destruct (IH (n / 10) (String (digit_char (n mod 10)) acc)) as (s & -> & d & t & -> & Hd & Ht & Hv).
    { pose proof (Z.div_pos n 10). rewrite Nat2Z.inj_succ, Z.pow_succ_r in Hn by lia. split; [lia|].
      apply Z.div_lt_upper_bound; lia. }
    exists (String (digit_char d) t +:+ String (digit_char (n mod 10)) ""). split; [by rewrite sapp_assoc|].
    exists d, (t +:+ String (digit_char (n mod 10)) ""). split_and!; [done|lia|lia| |].
    + rewrite sforall_app, Ht. cbn. by rewrite digit_char_is_digit by lia.
    + rewrite digits_val_app, Hv. cbn. rewrite byte_digit_char by lia. lia.
Qed.

Lemma FormatUint_numeral n : 0 < n -> numeral (FormatUint n 10) n.
Proof.
  intros Hn. destruct (fmt_go_numeral (S (Z.to_nat (Z.log2 n))) n "") as (s & E & Hs).
  { split; [done|]. apply log2_fuel; lia. }
  unfold FormatUint. by rewrite E, sapp_nil_r.
Qed.

Lemma is_digit_range c : is_digit c = true -> 0 <= byte_val c - 48 <= 9.
Proof. unfold is_digit. lia. Qed.

Lemma digits_val_bounds t a : 0 <= a -> sforall is_digit t = true ->
  a * 10 ^ len t <= digits_val a t < (a + 1) * 10 ^ len t.
Proof.
  revert a. induction t as [|c t IH]; intros a Ha; [unfold len; simpl; lia|].
  cbn [sforall digits_val]. intros [Hc Ht]%andb_true_iff. apply is_digit_range in Hc.
  specialize (IH (a * 10 + (byte_val c - 48)) ltac:(lia) Ht).
  replace (len (String c t)) with (Z.succ (len t)) by (unfold len; simpl; lia).
  rewrite Z.pow_succ_r by apply len_nonneg. pose proof (Z.pow_pos_nonneg 10 (len t) ltac:(lia) (len_nonneg t)). nia.
Qed.

Lemma ndigits_bounds m : 0 < m -> 10 ^ (ndigits m - 1) <= m < 10 ^ ndigits m.
Proof.
  intros Hm. destruct (FormatUint_numeral m Hm) as (d & t & E & Hd & Ht & Hv). unfold ndigits. rewrite E.
  pose proof (digits_val_bounds t d ltac:(lia) Ht) as Hb. rewrite Hv in Hb.
  replace (len (String (digit_char d) t)) with (Z.succ (len t)) by (unfold len; simpl; lia).
  replace (Z.succ (len t) - 1) with (len t) by lia. rewrite Z.pow_succ_r by apply len_nonneg.
  pose proof (Z.pow_pos_nonneg 10 (len t) ltac:(lia) (len_nonneg t)). nia.
Qed.

Lemma ndigits_pos m : 1 <= ndigits m.
Proof.
  unfold ndigits, FormatUint. pose proof (fmt_go_nonempty (Z.to_nat (Z.log2 m)) 10 m "").
  destruct (fmt_go _ 10 m ""); [done|]. unfold len. simpl. lia.
Qed.

(** [10^k <= vn/vd], for either sign of [k]. *)
Definition ge10 (vn vd k : Z) : Prop := vd * 10 ^ Z.max 0 k <= vn * 10 ^ Z.max 0 (- k).

Lemma ge10_le vn vd k k' : 0 < vn -> 0 < vd -> k' <= k -> ge10 vn vd k -> ge10 vn vd k'.
Proof.
  intros Hn Hd Hk. unfold ge10. intros H.
  assert (forall x y, 0 <= x <= y -> 10 ^ y = 10 ^ x * 10 ^ (y - x)) as Hp
    by (intros x y Hxy; rewrite <- Z.pow_add_r by lia; f_equal; lia).
  destruct (Z.le_gt_cases 0 k'); [|destruct (Z.le_gt_cases 0 k)].
  - rewrite (Z.max_r 0 k), (Z.max_l 0 (- k)), Z.pow_0_r in H by lia. rewrite (Z.max_r 0 k'), (Z.max_l 0 (- k')), Z.pow_0_r by lia.
    rewrite (Hp k' k) in H by lia. pose proof (Z.pow_pos_nonneg 10 (k - k') ltac:(lia) ltac:(lia)).
    pose proof (Z.pow_pos_nonneg 10 k' ltac:(lia) ltac:(lia)). nia.
  - rewrite (Z.max_r 0 k), (Z.max_l 0 (- k)) in H by lia. rewrite (Z.max_l 0 k'), (Z.max_r 0 (- k')) by lia.
    pose proof (Z.pow_pos_nonneg 10 k ltac:(lia) ltac:(lia)). pose proof (Z.pow_pos_nonneg 10 (- k') ltac:(lia) ltac:(lia)).
    rewrite Z.pow_0_r in *. nia.
  - rewrite (Z.max_l 0 k), (Z.max_r 0 (- k)) in H by lia. rewrite (Z.max_l 0 k'), (Z.max_r 0 (- k')) by lia.
    rewrite (Hp (- k) (- k')) by lia. pose proof (Z.pow_pos_nonneg 10 (- k' - - k) ltac:(lia) ltac:(lia)).
    pose proof (Z.pow_pos_nonneg 10 (- k) ltac:(lia) ltac:(lia)). nia.
Qed.

Lemma dec_point_low vn vd : 0 < vn -> 0 < vd -> ge10 vn vd (dec_point vn vd - 1).
Proof.
  intros Hn Hd. unfold dec_point, ge10. destruct (Z.leb_spec vd vn) as [H|H].
  - pose proof (ndigits_pos (vn / vd)).
    assert (0 < vn / vd) as Hq by (apply Z.div_str_pos; lia).
    pose proof (ndigits_bounds _ Hq) as [Hb _]. pose proof (Z.mul_div_le vn vd ltac:(lia)).
    rewrite Z.max_r, Z.max_l by lia. rewrite Z.pow_0_r. nia.
  - assert (0 < vd / vn) as Hq by (apply Z.div_str_pos; lia).
    pose proof (ndigits_bounds _ Hq) as [_ Hb]. pose proof (ndigits_pos (vd / vn)).
    set (k := ndigits (vd / vn) - 1) in *.
    destruct (Z.eqb_spec (vn * 10 ^ k) vd) as [E|E].
    + rewrite (Z.max_l 0 (1 - k - 1)), (Z.max_r 0 (- (1 - k - 1))) by lia.
      replace (- (1 - k - 1)) with k by lia. rewrite Z.pow_0_r. lia.
    + rewrite (Z.max_l 0 (- k - 1)), (Z.max_r 0 (- (- k - 1))) by lia.
      replace (- (- k - 1)) with (ndigits (vd / vn)) by lia. rewrite Z.pow_0_r.
      pose proof (Z.mul_succ_div_gt vd vn ltac:(lia)). nia.
Qed.

Lemma candidates_pos vn vd s c1 c2 : 0 < vn -> 0 < vd -> ge10 vn vd (- s) ->
  candidates vn vd s = (c1, c2) -> 0 < c1 /\ 0 < c2.
Proof.
  intros Hn Hd H. unfold candidates, ge10 in *.
  assert (forall num den, 0 < den <= num -> 0 < num / den) as Hq by (intros; apply Z.div_str_pos; lia).
  destruct (Z.leb_spec 0 s) as [Hs|Hs].
  - rewrite (Z.max_l 0 (- s)), (Z.max_r 0 (- - s)), Z.opp_involutive, Z.pow_0_r in H by lia.
    specialize (Hq (vn * 10 ^ s) vd ltac:(lia)). destruct (_ =? _); intros [= <- <-]; lia.
  - rewrite (Z.max_r 0 (- s)), (Z.max_l 0 (- - s)), Z.pow_0_r in H by lia.
    pose proof (Z.pow_pos_nonneg 10 (- s) ltac:(lia) ltac:(lia)).
    specialize (Hq vn (vd * 10 ^ (- s)) ltac:(nia)). destruct (_ =? _); intros [= <- <-]; lia.
Qed.

Lemma shortest_pos b fuel n x vn vd : 0 < vn -> 0 < vd -> 1 <= n ->
  0 < (shortest b fuel n x vn vd (dec_point vn vd)).1.
Proof.
  intros Hn Hd. revert n. induction fuel as [|f IH]; intros n Hn1; cbn [shortest];
    destruct (candidates vn vd (n - dec_point vn vd)) as [c1 c2] eqn:Ec;
    apply candidates_pos in Ec as [H1 H2]; try done;
    try (eapply ge10_le; [done|done| |by apply dec_point_low]; lia).
  destruct (same_double _ _); [done|]. destruct (same_double _ _); [done|]. apply IH. lia.
Qed.

Lemma strip_zeros_pos fuel c s : 0 < c -> 0 < (strip_zeros fuel c s).1.
Proof.
  revert c s. induction fuel as [|f IH]; intros c s Hc; cbn [strip_zeros]; [done|].
  destruct (Z.eqb_spec (c mod 10) 0) as [E|]; [|done]. apply IH. pose proof (Z.div_mod c 10 ltac:(lia)). lia.
Qed.

(** ** Building number literals *)
Definition digits (s : string) : bool := sforall is_digit s && negb (s =? "")%string.

Lemma span_all p s t : sforall p s = true -> match t with EmptyString => True | String c _ => p c = false end ->
  span p (s +:+ t) = (s, t).
Proof.
  intros Hs Ht. induction s as [|c s IH]; cbn in *; [destruct t as [|c t]; cbn; by rewrite ?Ht|].
  apply andb_true_iff in Hs as [Hc Hs]. by rewrite Hc, IH.
Qed.

Definition int_part (i : string) : Prop :=
  i = "0" \/ exists d t, i = String (digit_char d) t /\ 1 <= d <= 9 /\ sforall is_digit t = true.
Definition frac_part (f : string) : Prop := f = "" \/ exists t, f = "." +:+ t /\ digits t = true.
Definition exp_part (e : string) : Prop :=
  e = "" \/ exists sg t, e = "e" +:+ sg +:+ t /\ (sg = "+" \/ sg = "-") /\ digits t = true.

Lemma lex_exp_part e : exp_part e -> lex_exp e = Some (e, "").
Proof.
  intros [-> | (sg & t & -> & Hsg & [Ht Hne]%andb_true_iff)]; [done|]. apply negb_true_iff in Hne.
  pose proof (span_all is_digit t "" Ht I) as Hs. rewrite sapp_nil_r in Hs.
  destruct Hsg as [-> | ->]; unfold lex_exp; cbn -[span String.eqb]; by rewrite Hs, Hne.
Qed.

Lemma lex_frac_part f e : frac_part f -> exp_part e -> lex_frac (f +:+ e) = Some (f, e).
Proof.
  intros [-> | (t & -> & [Ht Hne]%andb_true_iff)] He.
  - destruct He as [-> | (sg & t & -> & _)]; done.
  - apply negb_true_iff in Hne. unfold lex_frac. cbn -[span String.eqb].
    rewrite span_all; [by rewrite Hne | done|]. destruct He as [-> | (sg & t' & -> & _)]; done.
Qed.

Lemma lex_int_part i r : int_part i -> match r with EmptyString => True | String c _ => is_digit c = false end ->
  lex_int (i +:+ r) = Some (i, r).
Proof.
  intros [-> | (d & t & -> & Hd & Ht)] Hr; [done|].
  assert (sforall is_digit (String (digit_char d) t) = true) as Hs by (cbn; rewrite Ht; by rewrite digit_char_is_digit by lia).
  pose proof (span_all is_digit _ r Hs Hr) as H. unfold lex_int.
  assert (digit_char d <> "0"%char) as Hz by (intros E; apply (f_equal byte_val) in E; rewrite byte_digit_char in E by lia; change (byte_val "0") with 48 in E; lia).
  cbn [String.append] in *. rewrite H. cbn. destruct (digit_char d) as [[] [] [] [] [] [] [] []]; done.
Qed.

Lemma is_num_parts (neg : bool) i f e : int_part i -> frac_part f -> exp_part e ->
  is_num ((if neg then "-" else "") +:+ i +:+ f +:+ e) = true.
Proof.
  intros Hi Hf He. unfold is_num, lex_number. fold (num_sign ((if neg then "-" else "") +:+ i +:+ f +:+ e)).
  assert (num_sign ((if neg then "-" else "") +:+ i +:+ f +:+ e) = (if neg then "-" else "", i +:+ f +:+ e)) as ->.
  { destruct neg; [done|]. destruct Hi as [-> | (d & t & -> & Hd & _)]; [done|]. cbn.
    assert (digit_char d <> "-"%char) as Hz by (intros E; apply (f_equal byte_val) in E; rewrite byte_digit_char in E by lia; change (byte_val "-") with 45 in E; lia).
    by destruct (digit_char d) as [[] [] [] [] [] [] [] []]. }
  rewrite lex_int_part; [|done|].
  - rewrite lex_frac_part, lex_exp_part by done. by rewrite !String.eqb_refl.
  - destruct Hf as [-> | (t & -> & _)]; [|done]. destruct He as [-> | (sg & t & -> & _)]; done.
Qed.

(** A decimal integer is a number literal. *)
Lemma is_num_Itoa z : is_num (Itoa z) = true.
Proof.
  assert (forall n (neg : bool), 0 <= n -> is_num ((if neg then "-" else "") +:+ FormatUint n 10) = true) as H.
  { intros n neg Hn. pose proof (is_num_parts neg (FormatUint n 10) "" "") as Hp. rewrite !sapp_nil_r in Hp.
    apply Hp; [|by left|by left]. destruct (Z.eq_dec n 0) as [->|Hne]; [by left|]. right.
    destruct (FormatUint_numeral n ltac:(lia)) as (d & t & -> & Hd & Ht & _). by exists d, t. }
  unfold Itoa, FormatInt. destruct (Z.ltb_spec z 0); [apply (H (- z) true) | apply (H z false)]; lia.
Qed.

Lemma sforall_stake p n s : sforall p s = true -> sforall p (stake n s) = true.
Proof. intros H. rewrite <- (stake_sdrop n s), sforall_app in H. by apply andb_true_iff in H as [? _]. Qed.
Lemma sforall_sdrop p n s : sforall p s = true -> sforall p (sdrop n s) = true.
Proof. intros H. rewrite <- (stake_sdrop n s), sforall_app in H. by apply andb_true_iff in H as [_ ?]. Qed.

Lemma dot_digits s : sforall is_digit s = true -> frac_part (if (s =? "")%string then "" else "." +:+ s).
Proof.
  intros Hs. destruct (s =? "")%string eqn:E; [by left|]. right. exists s. split; [done|]. unfold digits. by rewrite Hs, E.
Qed.

Lemma FormatUint_digits n : digits (FormatUint n 10) = true.
Proof.
  unfold digits. apply andb_true_iff. split.
  - apply sforall_fmt_go; [lia| |done]. apply digit_char_is_digit.
  - apply negb_true_iff, String.eqb_neq. apply fmt_go_nonempty.
Qed.

Lemma layout_f_num ds n (neg : bool) dp : numeral ds n -> is_num ((if neg then "-" else "") +:+ layout_f ds dp) = true.
Proof.
  intros (d & t & -> & Hd & Ht & _). unfold layout_f.
  assert (sforall is_digit (String (digit_char d) t) = true) as Hds by (cbn; by rewrite Ht, digit_char_is_digit by lia).
  match goal with |- context [?i +:+ (if (?f =? "")%string then "" else "." +:+ ?f)] =>
    rewrite <- (sapp_nil_r (if (f =? "")%string then "" else "." +:+ f)) end.
  apply is_num_parts; [| |by left].
  - destruct (Z.ltb_spec 0 dp) as [Hp|]; [right|by left]. destruct (Z.to_nat dp) as [|k] eqn:Ek; [lia|]. cbn [stake String.append].
    exists d, (stake k t +:+ srepeat (S k - String.length (String (digit_char d) t)) "0"). split_and!; [done|lia|lia|].
    rewrite sforall_app, sforall_stake, sforall_srepeat; done.
  - apply dot_digits. rewrite sforall_app, sforall_srepeat by done. by apply sforall_sdrop.
Qed.

Lemma layout_e_num ds n (neg : bool) ex : numeral ds n -> is_num ((if neg then "-" else "") +:+ layout_e ds ex) = true.
Proof.
  intros (d & t & -> & Hd & Ht & _). unfold layout_e. cbn [stake sdrop]. apply is_num_parts.
  - right. exists d, "". split_and!; [done|lia|lia|done].
  - by apply dot_digits.
  - right. destruct (ex <? 0); [exists "-" | exists "+"]; eexists; split_and!; try done; try apply FormatUint_digits;
      [by right | by left].
Qed.

(** A number that passed through a float is printed as a JSON number. *)
Lemma float_text_num b lit t : float_text_in b lit = Some t -> is_num t = true.
Proof.
  unfold float_text_in. destruct (dec_of lit) as [[neg m] e]. destruct (dec_to_double b m e) as [x|]; [|done]. intros [= <-].
  destruct (Z.leb_spec x.1 0) as [|Hx]; [by destruct neg|].
  unfold double_text. destruct (double_rat x) as [vn vd] eqn:Er.
  assert (0 < vn /\ 0 < vd) as [Hn Hd]
    by (unfold double_rat in Er; destruct (Z.leb_spec 0 x.2); injection Er as <- <-; lia).
  pose proof (shortest_pos b 16 1 x vn vd Hn Hd ltac:(lia)) as Hc. destruct (shortest b 16 1 x vn vd _) as [c s].
  pose proof (strip_zeros_pos 17 c s Hc) as Hc'. destruct (strip_zeros 17 c s) as [c' s']. cbn [fst] in Hc'.
  destruct (_ || _); [eapply layout_e_num | eapply layout_f_num]; by apply FormatUint_numeral.
Qed.
