(* ===== verification/GoPath.v ===== *)
(** * strings.Split, path/filepath: separators and file names

    The plugin and auto-pin handlers build file names and lists from request text. This file
    has the library functions they use, for any separator, and the facts that decide which
    file a name reaches: a rooted path is cleaned lexically, as the kernel resolves it when
    no component is a symbolic link. *)

From S2P Require Import Prelude GoStd.

#[local] Open Scope string_scope.
#[local] Open Scope Z_scope.

(** [strings.Cut]: around the first occurrence of [sep]. *)
Fixpoint Cut (s sep : string) : option (string * string) :=
  if HasPrefix s sep then Some ("", sdrop (String.length sep) s)
  else match s with
       | EmptyString => None
       | String c s' => match Cut s' sep with Some (a, b) => Some (String c a, b) | None => None end
       end.

(** [strings.SplitN(s, sep, 2)] *)
Definition SplitN2 (s sep : string) : list string :=
  match Cut s sep with Some (a, b) => [a; b] | None => [s] end.

(** [strings.Split(s, sep)] for a non-empty separator: each round drops at least one byte. *)
Fixpoint split_go (fuel : nat) (s sep : string) : list string :=
  match fuel with
  | O => [s]
  | S f => match Cut s sep with Some (a, b) => a :: split_go f b sep | None => [s] end
  end.
Definition Split (s sep : string) : list string := split_go (String.length s) s sep.

(** [filepath.Clean] of a rooted path. *)
Definition clean_step (stack : list string) (w : string) : list string :=
  if (w =? "")%string || (w =? ".")%string then stack
  else if (w =? "..")%string then removelast stack
  else (stack ++ [w])%list.
Definition path_words (p : string) : list string := fold_left clean_step (split_char "/" p) [].
Definition filepath_Clean (p : string) : string := "/" +:+ Join (path_words p) "/".
Definition filepath_Dir (p : string) : string := "/" +:+ Join (removelast (path_words p)) "/".

(** [strings.Fields], on text whose white space is ASCII. *)
Fixpoint fields_go (s cur : string) : list string :=
  match s with
  | EmptyString => if (cur =? "")%string then [] else [String.rev cur]
  | String c s' =>
      if Ascii.is_space c then (if (cur =? "")%string then fields_go s' "" else String.rev cur :: fields_go s' "")
      else fields_go s' (String c cur)
  end.
Definition Fields (s : string) : list string := fields_go s "".

(** The lines of a [bufio.Scanner]: without their line break and a carriage return before
    it; a trailing line break does not start a line. *)
Definition drop_cr (l : string) : string :=
  match String.rev l with String "013" r => String.rev r | _ => l end.
Definition scan_lines (s : string) : list string :=
  let ls := split_char (ascii_of_nat 10) s in
  map drop_cr (match last ls with Some "" => removelast ls | _ => ls end).

(** A line that does not fit into the scanner's buffer of 64 KiB ends the scan; the scanner's
    Err is then "bufio.Scanner: token too long". *)
Definition too_long (line : string) : bool := (65536 <=? Z.of_nat (String.length line))%Z.
Definition scan_Err (s : string) : bool := existsb too_long (split_char (ascii_of_nat 10) s).

(** [strings.ReplaceAll(s, old, new)] for one-byte [old] *)
Fixpoint replace_char (old : ascii) (new s : string) : string :=
  match s with
  | EmptyString => ""
  | String c s' => if (c =? old)%char then new +:+ replace_char old new s' else String c (replace_char old new s')
  end.

(** [strings.LastIndex(s, c)] as the texts before and after it. *)
Definition cut_last (c : ascii) (s : string) : option (string * string) :=
  match reverse (split_char c s) with
  | [] | [_] => None
  | w :: ws => Some (Join (reverse ws) (String c ""), w)
  end.

(** ** Facts *)
Lemma Cut_app s sep a b : Cut s sep = Some (a, b) -> s = a +:+ sep +:+ b.
Proof.
  revert a b. induction s as [|c s IH]; intros a b; cbn [Cut].
  - destruct (HasPrefix "" sep) eqn:E; [|done]. apply prefix_split in E. intros [= <- <-]. exact E.
  - destruct (HasPrefix (String c s) sep) eqn:E.
    + apply prefix_split in E. intros [= <- <-]. exact E.
    + destruct (Cut s sep) as [[a' b']|]; [|done]. intros [= <- <-]. cbn. by rewrite (IH a' b' eq_refl) at 1.
Qed.

Lemma Join_split_go sep f s : Join (split_go f s sep) sep = s.
Proof.
  revert s. induction f as [|f IH]; intros s; cbn [split_go]; [done|].
  destruct (Cut s sep) as [[a b]|] eqn:E; [|done]. rewrite (Cut_app _ _ _ _ E).
  rewrite <- (IH b) at 2. destruct (split_go f b sep) eqn:Eb; [|done].
  destruct f; cbn in Eb; [done|]. by destruct (Cut b sep) as [[]|].
Qed.

(** Splitting loses nothing. *)
Lemma Join_Split s sep : Join (Split s sep) sep = s.
Proof. apply Join_split_go. Qed.

Definition no_char (sep : ascii) (w : string) : bool := sforall (fun c => negb (c =? sep)%char) w.

(** Joining words without the separator and splitting again gives the words. *)
Lemma split_Join sep l : l <> [] -> Forall (fun w => no_char sep w = true) l ->
  split_char sep (Join l (String sep "")) = l.
Proof.
  induction l as [|w l IH]; [done|]. intros _ [Hw Hl]%Forall_cons. destruct l as [|w' l].
  - by apply split_char_none.
  - change (Join (w :: w' :: l) (String sep "")) with (w +:+ String sep (Join (w' :: l) (String sep ""))).
    by rewrite split_char_app, IH.
Qed.

(** A file name component that names itself: not empty, without a slash, not a dot entry. *)
Definition plain_word (w : string) : bool :=
  no_char "/" w && negb (w =? "")%string && negb (w =? ".")%string && negb (w =? "..")%string.

Lemma plain_word_split w : plain_word w = true ->
  no_char "/" w = true /\ forall stack, clean_step stack w = (stack ++ [w])%list.
Proof.
  unfold plain_word, clean_step. intros [[[H1 H2]%andb_true_iff H3]%andb_true_iff H4]%andb_true_iff.
  apply negb_true_iff in H2, H3, H4. split; [done|]. intros stack. by rewrite H2, H3, H4.
Qed.

Lemma clean_plain l : forall stack, Forall (fun w => plain_word w = true) l ->
  fold_left clean_step l stack = (stack ++ l)%list.
Proof.
  induction l as [|w l IH]; intros stack; cbn; [by rewrite app_nil_r|].
  intros [Hw Hl]%Forall_cons. apply plain_word_split in Hw as [_ Hw].
  by rewrite Hw, IH, <- app_assoc.
Qed.

Lemma path_words_plain l :
  Forall (fun w => plain_word w = true) l -> l <> [] -> path_words (String "/" (Join l "/")) = l.
Proof.
  intros Hl Hne. unfold path_words. change (String "/" (Join l "/")) with ("" +:+ String "/" (Join l "/")).
  rewrite split_char_app by done. rewrite split_Join; [|done|].
  - cbn [fold_left]. change (clean_step [] "") with (@nil string). by rewrite clean_plain.
  - eapply Forall_impl; [exact Hl|]. intros w Hw. by destruct (plain_word_split w Hw).
Qed.

(** A leading slash more or less makes no difference. *)
Lemma path_words_slash p : path_words (String "/" p) = path_words p.
Proof. reflexivity. Qed.

Lemma Clean_plain l : l <> [] -> Forall (fun w => plain_word w = true) l ->
  filepath_Clean ("/" +:+ Join l "/") = "/" +:+ Join l "/".
Proof. intros Hne Hl. unfold filepath_Clean. cbn [String.append]. by rewrite path_words_plain. Qed.

(** Cleaned paths of plain words are equal only if the words are. *)
Lemma Join_slash_inj l1 l2 : l1 <> [] -> l2 <> [] -> Forall (fun w => plain_word w = true) l1 ->
  Forall (fun w => plain_word w = true) l2 -> Join l1 "/" = Join l2 "/" -> l1 = l2.
Proof.
  intros H1 H2 F1 F2 H. rewrite <- (path_words_plain l1), <- (path_words_plain l2) by done. by rewrite H.
Qed.

(** ** Lists of words in a text file *)
Definition no_space (w : string) : bool := sforall (fun c => negb (Ascii.is_space c)) w.

Lemma rev_app_spec s t : String.rev_app s t = String.rev s +:+ t.
Proof.
  unfold String.rev. revert t. induction s as [|c s IH]; intros t; [done|].
  cbn [String.rev_app]. rewrite IH, (IH (String c "")), sapp_assoc. done.
Qed.

Lemma rev_snoc s c : String.rev (s +:+ String c "") = String c (String.rev s).
Proof.
  unfold String.rev. assert (forall u, String.rev_app (s +:+ String c "") u = String c (String.rev_app s u)) as H.
  { induction s as [|d s IH]; intros u; [done|]. cbn. by rewrite IH. }
  apply H.
Qed.

Lemma rev_cons c s : String.rev (String c s) = String.rev s +:+ String c "".
Proof. unfold String.rev at 1. cbn. by rewrite rev_app_spec. Qed.

Lemma rev_rev s : String.rev (String.rev s) = s.
Proof. induction s as [|c s IH]; [done|]. by rewrite rev_cons, rev_snoc, IH. Qed.

Lemma TrimSpace_trimmed a s t b : Ascii.is_space a = false -> Ascii.is_space b = false ->
  String a s = t +:+ String b "" -> TrimSpace (String a s) = String a s.
Proof.
  intros Ha Hb E. unfold TrimSpace. cbn [trim_left]. rewrite Ha, E, rev_snoc. cbn [trim_left]. rewrite Hb.
  by rewrite <- rev_snoc, rev_rev.
Qed.

Lemma TrimSpace_lead c s : Ascii.is_space c = true -> TrimSpace (String c s) = TrimSpace s.
Proof. intros H. unfold TrimSpace. cbn [trim_left]. by rewrite H. Qed.

Lemma last_char s : s <> "" -> exists t b, s = t +:+ String b "".
Proof.
  induction s as [|c s IH]; [done|]. intros _. destruct s as [|d s]; [by exists "", c|].
  destruct IH as (t & b & ->); [done|]. by exists (String c t), b.
Qed.

(** Words without white space, joined by a line break, are left alone by TrimSpace. *)
Lemma Join_ends l sep : l <> [] -> Forall (fun w => no_space w = true /\ w <> "") l ->
  exists a s t b, Join l sep = String a s /\ Join l sep = t +:+ String b "" /\
                  Ascii.is_space a = false /\ Ascii.is_space b = false.
Proof.
  induction l as [|w l IH]; [done|]. intros _ [[Hw Hne] Hl]%Forall_cons.
  destruct (last_char w Hne) as (t & b & E). destruct w as [|a w]; [done|].
  assert (Ascii.is_space a = false) as Ha by (cbn in Hw; apply andb_true_iff in Hw as [Hw _]; by apply negb_true_iff in Hw).
  destruct l as [|w' l].
  - exists a, w, t, b. cbn [Join]. split_and!; try done.
    unfold no_space in Hw. rewrite E, sforall_app in Hw. apply andb_true_iff in Hw as [_ Hw]. cbn in Hw.
    rewrite andb_true_r in Hw. by apply negb_true_iff in Hw.
  - destruct IH as (a' & s' & t' & b' & _ & E2 & _ & Hb'); [done|done|].
    change (Join (String a w :: w' :: l) sep) with (String a (w +:+ sep +:+ Join (w' :: l) sep)).
    exists a, (w +:+ sep +:+ Join (w' :: l) sep), (String a (w +:+ sep +:+ t')), b'. split_and!; try done.
    rewrite E2. cbn [String.append]. by rewrite !sapp_assoc.
Qed.

Lemma TrimSpace_Join l sep : l <> [] -> Forall (fun w => no_space w = true /\ w <> "") l ->
  TrimSpace (Join l sep) = Join l sep.
Proof.
  intros Hne Hl. destruct (Join_ends l sep Hne Hl) as (a & s & t & b & E1 & E2 & Ha & Hb).
  rewrite E1. apply (TrimSpace_trimmed _ _ t b); congruence.
Qed.

Lemma no_space_no_char c w : Ascii.is_space c = true -> no_space w = true -> no_char c w = true.
Proof.
  intros Hc. apply sforall_weaken. intros d Hd. apply negb_true_iff in Hd. apply negb_true_iff.
  destruct (Ascii.eqb_spec d c) as [->|]; [congruence | done].
Qed.

(** What [strings.Fields] returns are words: not empty and without white space. *)
Lemma Fields_words s : Forall (fun w => no_space w = true /\ w <> "") (Fields s).
Proof.
  cut (forall cur, no_space cur = true -> Forall (fun w => no_space w = true /\ w <> "") (fields_go s cur));
    [intros H; by apply H|].
  assert (forall w, no_space w = true -> no_space (String.rev w) = true) as Hrev.
  { unfold no_space. induction w as [|c w IHw]; [done|]. cbn [sforall]. intros [Hc Hw]%andb_true_iff.
    rewrite rev_cons, sforall_app. cbn [sforall]. by rewrite IHw, Hc. }
  assert (forall w : string, w <> "" -> String.rev w <> "") as Hne.
  { intros w Hw E. apply (f_equal String.rev) in E. by rewrite rev_rev in E. }
  induction s as [|c s IH]; intros cur Hcur; cbn [fields_go].
  - destruct (String.eqb_spec cur ""); [constructor|]. constructor; [split; [by apply Hrev | by apply Hne] | constructor].
  - destruct (Ascii.is_space c) eqn:Ec.
    + destruct (String.eqb_spec cur ""); [by apply IH|]. constructor; [split; [by apply Hrev | by apply Hne] | by apply IH].
    + apply IH. unfold no_space in *. cbn [sforall]. by rewrite Ec, Hcur.
Qed.

(** A word is one field, and fields separated by a space are read back. *)
Lemma fields_go_word w s cur : no_space w = true ->
  fields_go (w +:+ String " " s) cur =
  (if (String.rev w +:+ cur =? "")%string then Fields s else String.rev (String.rev w +:+ cur) :: Fields s).
Proof.
  revert cur. induction w as [|c w IH]; intros cur Hw; [done|]. cbn in Hw. apply andb_true_iff in Hw as [Hc Hw].
  apply negb_true_iff in Hc. cbn [String.append fields_go]. rewrite Hc, IH by done.
  by rewrite rev_cons, sapp_assoc.
Qed.

Lemma Fields_cons w s : no_space w = true -> w <> "" -> Fields (w +:+ String " " s) = w :: Fields s.
Proof.
  intros Hw Hne. unfold Fields at 1. rewrite fields_go_word, sapp_nil_r, rev_rev by done.
  destruct (String.eqb_spec (String.rev w) "") as [E|]; [|done].
  apply (f_equal String.rev) in E. by rewrite rev_rev in E.
Qed.

Lemma Fields_last w : no_space w = true -> w <> "" -> Fields w = [w].
Proof.
  intros Hw Hne. unfold Fields. assert (forall cur, fields_go w cur =
    if (String.rev w +:+ cur =? "")%string then [] else [String.rev (String.rev w +:+ cur)]) as H.
  { clear Hne. induction w as [|c w IH]; intros cur; [done|]. cbn in Hw. apply andb_true_iff in Hw as [Hc Hw].
    apply negb_true_iff in Hc. cbn [fields_go]. rewrite Hc, IH by done. by rewrite rev_cons, sapp_assoc. }
  rewrite H, sapp_nil_r, rev_rev. destruct (String.eqb_spec (String.rev w) "") as [E|]; [|done].
  apply (f_equal String.rev) in E. by rewrite rev_rev in E.
Qed.
