(* ===== verification/Abi.v ===== *)
(** * blockchain/abi/contract.go: call encoding and result decoding

    The JSON-RPC layer hands the pool contract's answers over as hex text. The
    decoders walk that text by hand; they are modelled on byte strings, with Go's
    64-bit arithmetic and slice panics written out. The reference encoder
    [abi_encode_pool] is the Solidity ABI layout the decoders are meant to invert. *)

From S2P Require Import Prelude GoStd.


Record ContractError := mkContractError { Code : string; Message : string }.

Definition ContractErrorSignatures : list (string * ContractError) :=
  [ ("0x12345678", mkContractError "PNF" "PoolNotFound");
    ("0x87654321", mkContractError "AIP" "AlreadyInPool");
    ("0x11111111", mkContractError "ARQ" "AlreadyRequested");
    ("0x22222222", mkContractError "PNF2" "PeerNotFound");
    ("0x33333333", mkContractError "CR" "CapacityReached");
    ("0x44444444", mkContractError "UF" "UserFlagged");
    ("0x55555555", mkContractError "NM" "NotMember");
    ("0x66666666", mkContractError "AV" "AlreadyVoted");
    ("0x77777777", mkContractError "NAR" "NoActiveRequest");
    ("0x88888888", mkContractError "OCA" "OnlyCreatorOrAdmin");
    ("0x99999999", mkContractError "PNE" "PoolNotEmpty");
    ("0xAAAAAAAA", mkContractError "PRE" "PendingRequestsExist");
    ("0xBBBBBBBB", mkContractError "ITA" "InvalidTokenAmount");
    ("0xCCCCCCCC", mkContractError "IA" "InsufficientAllowance") ].

Fixpoint assoc {A : Type} (k : string) (l : list (string * A)) : option A :=
  match l with
  | [] => None
  | (k', a) :: l' => if (k =? k')%string then Some a else assoc k l'
  end.

(** [None] is Go's nil error. *)
Definition ParseContractError (data : string) : option ContractError :=
  if negb (HasPrefix data "0x") || (len data <? 10) then None
  else assoc (stake 10 data) ContractErrorSignatures.

(** [requiredTokens] and [minPingTime] are [None] when [big.Int.SetString] fails:
    the library leaves the value undefined then, and the code does not check. *)
Record Pool := mkPool {
  Creator : string;
  ID : Z;
  MaxChallengeResponsePeriod : Z;
  MemberCount : Z;
  MaxMembers : Z;
  RequiredTokens : option Z;
  MinPingTime : option Z;
  Name : string;
  Region : string
}.

Record IsMemberOfPoolResult := mkIsMember { IsMember : bool; MemberAddress : string }.

(** MethodSignatures *)
Definition sigPools := "0xced08b2d"%string.
Definition sigPoolIds := "0x69883b4e"%string.
Definition sigIsPeerIdMemberOfPool := "0xb098a605"%string.
Definition sigGetMemberPeerIds := "0x31db3ae8"%string.
Definition sigRemoveMemberPeerId := "0x3d71233a"%string.
Definition sigJoinRequests := "0xccc9fc03"%string.

(** ** Helpers the decoders share *)

(** [for i := 0; i < len(data); i += 64]: the loop on what is left of the data.
    Every turn drops at least one character, so [length data] turns are enough. *)
Fixpoint slots_loop (fuel : nat) (data : string) : list string :=
  match fuel with
  | O => []
  | S f =>
      if len data =? 0 then []
      else if 64 <=? len data then stake 64 data :: slots_loop f (sdrop 64 data)
      else slots_loop f (sdrop 64 data)
  end.
Definition slots_of (data : string) : list string := slots_loop (String.length data) data.

Definition slot_at (slots : list string) (i : Z) : outcome string :=
  if 0 <=? i then
    match slots !! Z.to_nat i with Some s => Ok s | None => Panic end
  else Panic.

Definition parse_field (what s : string) (bits : Z) : outcome Z :=
  match ParseUint s 16 bits with
  | inl _ => Err ("failed to parse " +:+ what)
  | inr v => Ok v
  end.

(** [strconv.ParseUint(slots[i][56:64], 16, 32)] *)
Definition slot_u32 (what : string) (slots : list string) (i : Z) : outcome Z :=
  s <-! slot_at slots i;;
  h <-! go_slice s 56 64;;
  parse_field what h 32.

(** [new(big.Int).SetString(s, 16)] *)
Definition big_SetString16 (s : string) : option Z :=
  let (neg, d) := sign_split s in
  if (d =? "")%string then None
  else match parse_loop 16 (16 ^ len d) 0 d with
       | inl _ => None
       | inr v => Some (if neg then - v else v)
       end.

(** The name and region blocks: [offset] points at a length word, the next slot
    holds the first 32 bytes. *)
Definition decode_string (what : string) (slots : list string) (offset : Z) : outcome string :=
  let idx := i64 (offset / 32) in
  if idx <? Z.of_nat (length slots) then
    s <-! slot_at slots idx;;
    l <-! parse_field (what +:+ " length") s 64;;
    if (0 <? l) && (idx + 1 <? Z.of_nat (length slots)) then
      h <-! slot_at slots (idx + 1);;
      let n := u64 (l * 2) in
      h' <-! (if i64 n <=? len h then go_slice h 0 n else Ok h);;
      match hex_decode h' with
      | Some b => Ok b
      | None => Err ("failed to decode " +:+ what)
      end
    else Ok ""%string
  else Ok ""%string.

Definition is_zero_char (c : ascii) : bool := (c =? "0")%char.

(** ** Decoders *)
Definition DecodePoolsResult (data0 : string) : outcome Pool :=
  let data := TrimPrefix data0 "0x" in
  if len data <? 288 then Err "insufficient data length" else
  let slots := slots_of data in
  if Z.of_nat (length slots) <? 9 then Err "insufficient slots" else
  s0 <-! slot_at slots 0;;
  creatorHex <-! go_slice s0 24 64;;
  if sforall is_zero_char creatorHex then Err "pool not found (zero creator address)" else
  id <-! slot_u32 "pool ID" slots 1;;
  maxChallenge <-! slot_u32 "maxChallengeResponsePeriod" slots 2;;
  memberCount <-! slot_u32 "memberCount" slots 3;;
  maxMembers <-! slot_u32 "maxMembers" slots 4;;
  s5 <-! slot_at slots 5;;
  s6 <-! slot_at slots 6;;
  s7 <-! slot_at slots 7;;
  nameOffset <-! parse_field "name offset" s7 64;;
  s8 <-! slot_at slots 8;;
  regionOffset <-! parse_field "region offset" s8 64;;
  name <-! decode_string "name" slots nameOffset;;
  region <-! decode_string "region" slots regionOffset;;
  Ok {| Creator := "0x" +:+ creatorHex; ID := u32 id;
        MaxChallengeResponsePeriod := u32 maxChallenge; MemberCount := u32 memberCount;
        MaxMembers := u32 maxMembers; RequiredTokens := big_SetString16 s5;
        MinPingTime := big_SetString16 s6; Name := name; Region := region |}.

Definition DecodeIsMemberOfPoolResult (data0 : string) : outcome IsMemberOfPoolResult :=
  let data := TrimPrefix data0 "0x" in
  if len data <? 128 then Err "insufficient data length" else
  isMemberHex <-! go_slice data 0 64;;
  memberAddressHex <-! go_slice data 64 128;;
  addr <-! go_slice memberAddressHex 24 64;;
  Ok (mkIsMember (negb (sforall is_zero_char isMemberHex)) ("0x" +:+ addr)).

(** [make([]string, 0, n)] panics when [n] string headers of 16 bytes exceed the
    address space of the run time (2^48 bytes on the 64-bit targets). *)
Definition make_strings_ok (n : Z) : bool := n * 16 <=? 2 ^ 48.

(** The element loop: it stops at the announced length or at the end of the data. *)
Fixpoint peer_ids_loop (fuel : nat) (data : string) (start i n : Z) : outcome (list string) :=
  match fuel with
  | O => Ok []
  | S f =>
      if i <? n then
        let s := start + i64 (u64 (i * 64)) in
        if len data <? s + 64 then Ok []
        else h <-! go_slice data s (s + 64);;
             rest <-! peer_ids_loop f data start (i + 1) n;;
             Ok (("0x" +:+ h) :: rest)
      else Ok []
  end.

Definition DecodeGetMemberPeerIdsResult (data0 : string) : outcome (list string) :=
  let data := TrimPrefix data0 "0x" in
  if len data <? 64 then Ok [] else
  offsetHex <-! go_slice data 0 64;;
  offset <-! parse_field "array offset" offsetHex 64;;
  let arrayStartPos := i64 (u64 (offset * 2)) in
  if len data <=? arrayStartPos then Ok [] else
  if len data <? arrayStartPos + 64 then Ok [] else
  arrayLengthHex <-! go_slice data arrayStartPos (arrayStartPos + 64);;
  arrayLength <-! parse_field "array length" arrayLengthHex 64;;
  if make_strings_ok arrayLength
  then peer_ids_loop (S (String.length data)) data (arrayStartPos + 64) 0 arrayLength
  else Panic.

Definition DecodePoolIdResponse (result0 : string) : outcome Z :=
  let result := TrimPrefix result0 "0x" in
  if negb (len result =? 64) then Err "invalid response length" else
  v <-! parse_field "pool ID" result 64;;
  Ok (u32 v).

Definition DecodeJoinRequestStatus (data0 : string) : outcome Z :=
  let data := TrimPrefix data0 "0x" in
  if len data <? 512 then Err "insufficient data length" else
  h <-! go_slice data (6 * 64) (7 * 64);;
  v <-! parse_field "join request status" h 8;;
  Ok (u8 v).

(** ** Encoders *)
Definition EncodePoolsCall (poolID : Z) : string := sigPools +:+ fmt_hex_pad 64 poolID.
Definition EncodePoolIdsCall (index : Z) : string := sigPoolIds +:+ fmt_hex_pad 64 index.
Definition EncodeIsPeerIdMemberOfPoolCall (poolID : Z) (peerIDBytes32 : string) : string :=
  sigIsPeerIdMemberOfPool +:+ fmt_hex_pad 64 poolID +:+ TrimPrefix peerIDBytes32 "0x".
Definition EncodeGetMemberPeerIdsCall (poolID : Z) (memberAddress : string) : string :=
  sigGetMemberPeerIds +:+ fmt_hex_pad 64 poolID +:+ pad_zero 64 (TrimPrefix memberAddress "0x").
Definition EncodeRemoveMemberPeerIdCall (poolID : Z) (peerIDBytes32 : string) : string :=
  sigRemoveMemberPeerId +:+ fmt_hex_pad 64 poolID +:+ TrimPrefix peerIDBytes32 "0x".
Definition EncodeJoinRequestsCall (poolID : Z) (peerIDBytes32 : string) : string :=
  sigJoinRequests +:+ fmt_hex_pad 64 poolID +:+ TrimPrefix peerIDBytes32 "0x".

(** ** The ABI layout the decoders invert *)
Section reference_encoding.

(** A 32-byte word as 64 hex digits. *)
Definition abi_word (n : Z) : string := fmt_hex_pad 64 n.

(** [bytes] data: hex, padded on the right to a whole number of words. *)
Definition abi_pad_len (n : nat) : nat := ((64 - n mod 64) mod 64)%nat.
Definition abi_data (s : string) : string :=
  hex_encode s +:+ srepeat (abi_pad_len (2 * String.length s)) "0".
Definition abi_tail (s : string) : list string := abi_word (len s) :: slots_of (abi_data s).

Definition abi_pool_words (p : Pool) : list string :=
  let tn := abi_tail (Name p) in
  [ pad_zero 64 (TrimPrefix (Creator p) "0x"); abi_word (ID p);
    abi_word (MaxChallengeResponsePeriod p); abi_word (MemberCount p); abi_word (MaxMembers p);
    abi_word (default 0 (RequiredTokens p)); abi_word (default 0 (MinPingTime p));
    abi_word 288; abi_word (288 + 32 * Z.of_nat (length tn)) ] ++ tn ++ abi_tail (Region p).
Definition abi_encode_pool (p : Pool) : string := "0x" +:+ sconcat (abi_pool_words p).

(** What the contract can return for an existing pool. *)
Definition pool_wf (p : Pool) : Prop :=
  (exists h, Creator p = "0x" +:+ h /\ String.length h = 40%nat /\ sforall is_zero_char h = false) /\
  0 <= ID p < 2 ^ 32 /\ 0 <= MaxChallengeResponsePeriod p < 2 ^ 32 /\
  0 <= MemberCount p < 2 ^ 32 /\ 0 <= MaxMembers p < 2 ^ 32 /\
  (exists t, RequiredTokens p = Some t /\ 0 <= t < 2 ^ 256) /\
  (exists t, MinPingTime p = Some t /\ 0 <= t < 2 ^ 256) /\
  len (Name p) < 2 ^ 31 /\ len (Region p) < 2 ^ 31.

End reference_encoding.

(** ** Lemmas on words and slots *)
Section words.

Definition is_word (s : string) : Prop := String.length s = 64%nat.

Lemma abi_word_word n : 0 <= n < 2 ^ 256 -> is_word (abi_word n).
Proof. intros H. apply length_fmt_hex_pad; [lia|]. change (16 ^ Z.of_nat 64) with (2 ^ 256). lia. Qed.

Lemma slots_loop_concat ws t fuel :
  Forall is_word ws -> (String.length t < 64)%nat -> (length ws < fuel)%nat ->
  slots_loop fuel (sconcat ws +:+ t) = ws.
Proof.
  intros Hw Ht. revert fuel. induction Hw as [|w ws Hw Hws IH]; intros fuel Hf;
    cbn [sconcat length String.append] in *.
  - destruct fuel as [|f]; [lia|]. cbn [slots_loop]. unfold len.
    destruct (Z.eqb_spec (Z.of_nat (String.length t)) 0); [done|].
    destruct (Z.leb_spec 64 (Z.of_nat (String.length t))); [lia|].
    assert (sdrop 64 t = "") as ->.
    { pose proof (length_sdrop 64 t). destruct (sdrop 64 t); [done|]. cbn [String.length] in *. lia. }
    by destruct f.
  - destruct fuel as [|f]; [lia|]. cbn [slots_loop]. rewrite sapp_assoc.
    unfold is_word in Hw. rewrite !len_app. pose proof (len_nonneg (sconcat ws)).
    pose proof (len_nonneg t). unfold len at 1 4. rewrite Hw.
    destruct (Z.eqb_spec (Z.of_nat 64 + (len (sconcat ws) + len t)) 0); [lia|].
    destruct (Z.leb_spec 64 (Z.of_nat 64 + (len (sconcat ws) + len t))); [|lia].
    rewrite stake_app_n, sdrop_app_n by done. by rewrite IH by lia.
Qed.

Lemma length_sconcat ws : Forall is_word ws -> String.length (sconcat ws) = (64 * length ws)%nat.
Proof.
  induction 1 as [|w ws Hw _ IH]; [done|]. simpl. rewrite length_app_s, IH, Hw. lia.
Qed.

Lemma slots_of_concat ws : Forall is_word ws -> slots_of (sconcat ws) = ws.
Proof.
  intros H. unfold slots_of. rewrite length_sconcat by done.
  destruct ws as [|w ws]; [done|]. rewrite <- (sapp_nil_r (sconcat (w :: ws))).
  apply slots_loop_concat; [done | simpl; lia | simpl; lia].
Qed.

Lemma slots_loop_words fuel data : Forall is_word (slots_loop fuel data).
Proof.
  revert data. induction fuel as [|f IH]; intros data; simpl; [constructor|].
  destruct (_ =? 0); [constructor|]. destruct (Z.leb_spec 64 (len data)); [|apply IH].
  constructor; [|apply IH]. unfold is_word. rewrite length_stake. unfold len in *. lia.
Qed.

Lemma slots_of_words data : Forall is_word (slots_of data).
Proof. apply slots_loop_words. Qed.

(** The first slot of data that has at least one word. *)
Lemma slots_of_first data : (64 <= String.length data)%nat -> slots_of data !! 0%nat = Some (stake 64 data).
Proof.
  intros H. unfold slots_of. destruct (String.length data) as [|n] eqn:E; [lia|].
  cbn [slots_loop]. unfold len. rewrite E.
  destruct (Z.eqb_spec (Z.of_nat (S n)) 0); [lia|].
  destruct (Z.leb_spec 64 (Z.of_nat (S n))); [done|lia].
Qed.

Lemma slot_at_lookup slots i s : 0 <= i -> slots !! Z.to_nat i = Some s -> slot_at slots i = Ok s.
Proof. intros Hi Hs. unfold slot_at. rewrite (proj2 (Z.leb_le 0 i)) by lia. by rewrite Hs. Qed.

(** The last eight digits of a word that holds a 32-bit number. *)
Lemma srepeat_add (a b : nat) c : srepeat (a + b)%nat c = srepeat a c +:+ srepeat b c.
Proof. induction a; simpl; congruence. Qed.

Lemma pad_zero_split (a b : nat) s :
  (String.length s <= b)%nat -> pad_zero (a + b)%nat s = srepeat a "0" +:+ pad_zero b s.
Proof.
  intros H. unfold pad_zero.
  replace (a + b - String.length s)%nat with (a + (b - String.length s))%nat by lia.
  by rewrite srepeat_add, sapp_assoc.
Qed.

Lemma length_FormatUint16 n k : 0 <= n < 16 ^ Z.of_nat k -> (0 < k)%nat ->
  (String.length (FormatUint n 16) <= k)%nat.
Proof.
  intros Hn Hk. unfold FormatUint.
  pose proof (length_fmt_go (S (Z.to_nat (Z.log2 n))) 16 n "" k ltac:(lia) Hn Hk) as H.
  change (String.length "") with O in H. lia.
Qed.

Lemma parse_abi_word what n bits :
  0 <= n < 2 ^ bits -> parse_field what (abi_word n) bits = Ok n.
Proof. intros H. unfold parse_field, abi_word. by rewrite ParseUint_pad. Qed.

Lemma slot_u32_word what slots i n :
  0 <= i -> slots !! Z.to_nat i = Some (abi_word n) -> 0 <= n < 2 ^ 32 ->
  slot_u32 what slots i = Ok n.
Proof.
  intros Hi Hs Hn. unfold slot_u32. rewrite (slot_at_lookup _ _ _ Hi Hs). simpl.
  assert (abi_word n = srepeat 56 "0" +:+ (fmt_hex_pad 8 n +:+ "")) as ->.
  { unfold abi_word, fmt_hex_pad. rewrite sapp_nil_r. apply (pad_zero_split 56 8).
    apply (length_FormatUint16 n 8); [|lia]. change (16 ^ Z.of_nat 8) with (2 ^ 32). lia. }
  rewrite go_slice_mid; [| done |].
  - simpl. unfold parse_field. rewrite ParseUint_pad; [done|lia].
  - unfold len. rewrite length_fmt_hex_pad; [done|lia|]. change (16 ^ Z.of_nat 8) with (2 ^ 32). lia.
Qed.

Lemma big_SetString16_word n : 0 <= n < 2 ^ 256 -> big_SetString16 (abi_word n) = Some n.
Proof.
  intros Hn. unfold big_SetString16.
  assert (is_word (abi_word n)) as Hw by by apply abi_word_word.
  assert (sign_split (abi_word n) = (false, abi_word n)) as ->.
  { pose proof (ParseUint_pad 64 n 256 Hn) as Hp. unfold abi_word.
    destruct (fmt_hex_pad 64 n) as [|c s]; [done|].
    destruct c as [[][][][][][][][]]; try reflexivity; discriminate. }
  destruct (String.eqb_spec (abi_word n) "") as [E|_]; [by rewrite E in Hw|].
  unfold len. rewrite Hw. unfold abi_word, fmt_hex_pad, pad_zero.
  change (16 ^ Z.of_nat 64) with (2 ^ 256).
  rewrite parse_zeros by lia. rewrite <- (sapp_nil_r (FormatUint n 16)).
  rewrite parse_FormatUint by lia. done.
Qed.

End words.

(** ** Strings in the ABI layout *)
Section abi_strings.

Lemma stake_hex n s : stake (2 * n) (hex_encode s) = hex_encode (stake n s).
Proof.
  revert s. induction n as [|n IH]; intros s; [by destruct s|].
  replace (2 * S n)%nat with (S (S (2 * n))) by lia.
  destruct s as [|c s]; [done|]. cbn [hex_encode stake]. by rewrite IH.
Qed.

Lemma stake_app_le n s t : (n <= String.length s)%nat -> stake n (s +:+ t) = stake n s.
Proof.
  revert n. induction s as [|c s IH]; intros [|n] H; simpl in *; try lia; try by destruct t.
  rewrite IH; [done|lia].
Qed.

Lemma stake_stake n m s : (n <= m)%nat -> stake n (stake m s) = stake n s.
Proof.
  revert m s. induction n as [|n IH]; intros [|m] [|c s] H; try lia; try done.
  cbn [stake]. rewrite IH; [done|lia].
Qed.

Lemma abi_pad_len_spec n : exists q, (n + abi_pad_len n = 64 * q)%nat.
Proof.
  unfold abi_pad_len. pose proof (Nat.div_mod_eq n 64).
  pose proof (Nat.mod_upper_bound n 64 ltac:(lia)).
  destruct (n mod 64)%nat as [|r] eqn:E.
  - exists (n / 64)%nat. change ((64 - 0) mod 64)%nat with 0%nat. lia.
  - exists (S (n / 64)). rewrite (Nat.mod_small (64 - S r)) by lia. lia.
Qed.

Lemma length_abi_data s :
  s <> ""%string -> (64 <= String.length (abi_data s))%nat.
Proof.
  intros Hs. unfold abi_data. rewrite length_app_s, length_hex_encode, length_srepeat.
  destruct (abi_pad_len_spec (2 * String.length s)) as [q Hq].
  destruct s as [|c s]; [done|]. cbn [String.length] in *. lia.
Qed.

Lemma decode_string_tail what pre s rest :
  Z.of_nat (length pre) < 2 ^ 32 -> len s < 2 ^ 31 ->
  decode_string what (pre ++ abi_tail s ++ rest) (32 * Z.of_nat (length pre)) = Ok (stake 32 s).
Proof.
  intros Hk Hs. pose proof (len_nonneg s).
  set (slots := pre ++ abi_tail s ++ rest). set (k := Z.of_nat (length pre)) in *.
  assert (slots !! Z.to_nat k = Some (abi_word (len s))) as H0.
  { unfold slots, k. rewrite Nat2Z.id. by rewrite lookup_app_r, Nat.sub_diag by lia. }
  unfold decode_string. rewrite Z.mul_comm, Z.div_mul by lia. rewrite i64_small by lia.
  assert (k < Z.of_nat (length slots)) as Hlt.
  { apply lookup_lt_Some in H0. lia. }
  rewrite (proj2 (Z.ltb_lt _ _) Hlt). rewrite (slot_at_lookup slots k _ ltac:(lia) H0). cbn [obind].
  rewrite parse_abi_word by lia. cbn [obind].
  destruct (decide (s = ""%string)) as [->|Hne]; [done|].
  assert (0 < len s) as Hpos by (destruct s; [done | unfold len; cbn [String.length]; lia]).
  pose proof (length_abi_data s Hne) as Hlen.
  assert (slots !! Z.to_nat (k + 1) = Some (stake 64 (abi_data s))) as H1.
  { unfold slots, k. replace (Z.to_nat _) with (length pre + 1)%nat by lia.
    rewrite lookup_app_r by lia. replace (_ - _)%nat with 1%nat by lia.
    change ((abi_tail s ++ rest) !! 1%nat) with ((slots_of (abi_data s) ++ rest) !! 0%nat).
    rewrite lookup_app_l; [by apply slots_of_first|].
    pose proof (slots_of_first _ Hlen) as Hf. by apply lookup_lt_Some in Hf. }
  assert (k + 1 < Z.of_nat (length slots)) as Hlt1 by (apply lookup_lt_Some in H1; lia).
  rewrite (proj2 (Z.ltb_lt _ _) Hpos), (proj2 (Z.ltb_lt _ _) Hlt1).
  rewrite (slot_at_lookup slots (k + 1) _ ltac:(lia) H1). cbn [andb obind].
  rewrite (wrapU_small 64), i64_small by lia.
  assert (len (stake 64 (abi_data s)) = 64) as E64.
  { unfold len. rewrite length_stake. lia. }
  rewrite E64. destruct (Z.leb_spec (len s * 2) 64) as [Hle|Hgt].
  - rewrite go_slice_ok by (rewrite ?E64; lia). cbn [obind]. rewrite Z.sub_0_r.
    change (Z.to_nat 0) with 0%nat. cbn [sdrop].
    rewrite stake_stake by lia. unfold abi_data.
    rewrite stake_app_le by (rewrite length_hex_encode; unfold len in *; lia).
    rewrite (stake_all _ (hex_encode s)) by (rewrite length_hex_encode; unfold len in *; lia).
    rewrite hex_decode_encode. rewrite stake_all; [done | unfold len in *; lia].
  - cbn [obind]. unfold abi_data.
    rewrite stake_app_le by (rewrite length_hex_encode; unfold len in *; lia).
    change 64%nat with (2 * 32)%nat. rewrite stake_hex, hex_decode_encode. done.
Qed.

End abi_strings.

(** ** Round trips *)
Section roundtrips.

Lemma length_slots_loop fuel d : (64 * length (slots_loop fuel d) <= String.length d)%nat.
Proof.
  revert d. induction fuel as [|f IH]; intros d; cbn [slots_loop length]; [lia|].
  specialize (IH (sdrop 64 d)). rewrite length_sdrop in IH.
  destruct (_ =? 0); [simpl; lia|].
  destruct (Z.leb_spec 64 (len d)); cbn [length]; unfold len in *; lia.
Qed.

Lemma length_abi_tail s : len s < 2 ^ 31 -> Z.of_nat (length (abi_tail s)) < 2 ^ 31.
Proof.
  intros H. unfold abi_tail, slots_of. cbn [length].
  pose proof (length_slots_loop (String.length (abi_data s)) (abi_data s)) as Hl.
  unfold abi_data in Hl at 3. rewrite length_app_s, length_hex_encode, length_srepeat in Hl.
  assert (abi_pad_len (2 * String.length s) < 64)%nat by (apply Nat.mod_upper_bound; lia).
  unfold len in H. lia.
Qed.

Lemma abi_tail_words s : len s < 2 ^ 31 -> Forall is_word (abi_tail s).
Proof.
  intros H. constructor; [|apply slots_of_words]. apply abi_word_word.
  pose proof (len_nonneg s). lia.
Qed.

Lemma length_pad_zero w s : (String.length s <= w)%nat -> String.length (pad_zero w s) = w.
Proof. intros H. unfold pad_zero. rewrite length_app_s, length_srepeat. lia. Qed.

Lemma abi_pool_words_words p : pool_wf p -> Forall is_word (abi_pool_words p).
Proof.
  intros ((h & Hc & Hh & _) & ? & ? & ? & ? & (t & Ht & ?) & (u & Hu & ?) & Hn & Hr).
  pose proof (length_abi_tail _ Hn).
  unfold abi_pool_words. rewrite Hc, Ht, Hu, TrimPrefix_app. unfold default, from_option, id.
  apply Forall_app; split; [|apply Forall_app; split; by apply abi_tail_words].
  repeat (apply Forall_cons; split; [first [apply abi_word_word; lia | apply length_pad_zero; lia]|]).
  constructor.
Qed.

(** C28. Decoding inverts the contract's ABI encoding: for every pool the contract can
    return, [DecodePoolsResult] gives back every field exactly, except that names and
    regions are cut to their first 32 bytes (the decoder reads one data word). *)
Theorem DecodePoolsResult_roundtrip p :
  pool_wf p ->
  DecodePoolsResult (abi_encode_pool p) =
  Ok {| Creator := Creator p; ID := ID p;
        MaxChallengeResponsePeriod := MaxChallengeResponsePeriod p;
        MemberCount := MemberCount p; MaxMembers := MaxMembers p;
        RequiredTokens := RequiredTokens p; MinPingTime := MinPingTime p;
        Name := stake 32 (Name p); Region := stake 32 (Region p) |}.
Proof.
  intros Hwf. pose proof (abi_pool_words_words p Hwf) as Hws.
  destruct Hwf as ((h & Hc & Hh & Hz) & Hid & Hmc & Hm & Hmm & (t & Ht & Htr) & (u & Hu & Hur) & Hn & Hr).
  pose proof (length_abi_tail _ Hn) as Hlt. pose proof (len_nonneg (Name p)).
  unfold DecodePoolsResult, abi_encode_pool. rewrite TrimPrefix_app.
  rewrite (slots_of_concat _ Hws).
  assert (9 <= length (abi_pool_words p))%nat as H9 by (unfold abi_pool_words; simpl; lia).
  assert (len (sconcat (abi_pool_words p)) = 64 * Z.of_nat (length (abi_pool_words p))) as ->.
  { unfold len. rewrite length_sconcat by done. lia. }
  rewrite (proj2 (Z.ltb_ge _ 288)) by lia. rewrite (proj2 (Z.ltb_ge _ 9)) by lia.
  clear Hws H9. set (slots := abi_pool_words p).
  assert (slot_at slots 0 = Ok (srepeat 24 "0" +:+ (h +:+ ""))) as ->.
  { unfold slots, abi_pool_words. rewrite Hc, TrimPrefix_app. cbn [app slot_at].
    rewrite sapp_nil_r. unfold pad_zero. by rewrite Hh. }
  cbn [obind]. rewrite go_slice_mid by (unfold len; rewrite ?Hh; done). cbn [obind]. rewrite Hz.
  rewrite (slot_u32_word _ slots 1 (ID p) ltac:(lia) eq_refl Hid). cbn [obind].
  rewrite (slot_u32_word _ slots 2 (MaxChallengeResponsePeriod p) ltac:(lia) eq_refl Hmc). cbn [obind].
  rewrite (slot_u32_word _ slots 3 (MemberCount p) ltac:(lia) eq_refl Hm). cbn [obind].
  rewrite (slot_u32_word _ slots 4 (MaxMembers p) ltac:(lia) eq_refl Hmm). cbn [obind].
  assert (slot_at slots 5 = Ok (abi_word t)) as -> by (unfold slots, abi_pool_words; by rewrite Ht).
  assert (slot_at slots 6 = Ok (abi_word u)) as -> by (unfold slots, abi_pool_words; by rewrite Hu).
  change (slot_at slots 7) with (Ok (abi_word 288)).
  change (slot_at slots 8) with (Ok (abi_word (288 + 32 * Z.of_nat (length (abi_tail (Name p)))))).
  cbn [obind]. rewrite !parse_abi_word by lia. cbn [obind].
  set (pre := take 9 slots).
  assert (slots = pre ++ abi_tail (Name p) ++ abi_tail (Region p)) as Es1 by reflexivity.
  rewrite Es1. change 288 with (32 * Z.of_nat (length pre)) at 1.
  rewrite decode_string_tail by (simpl; lia). cbn [obind].
  replace (288 + 32 * Z.of_nat (length (abi_tail (Name p))))
    with (32 * Z.of_nat (length (pre ++ abi_tail (Name p)))) by (rewrite length_app; change (length pre) with 9%nat; lia).
  rewrite app_assoc. rewrite <- (app_nil_r (abi_tail (Region p))).
  rewrite decode_string_tail by (rewrite ?length_app; change (length pre) with 9%nat; lia). cbn [obind].
  rewrite !(wrapU_small 32) by lia. rewrite !big_SetString16_word by lia. by rewrite Hc, Ht, Hu.
Qed.

Lemma DecodePoolsResult_roundtrip_witness :
  let p := mkPool "0x00000000000000000000000000000000000000A1" 7 10 2 32 (Some 500) (Some 20)
             "eu-west" "Canada" in
  pool_wf p /\ DecodePoolsResult (abi_encode_pool p) = Ok p.
Proof.
  intros p. assert (pool_wf p) as H.
  { split; [exists "00000000000000000000000000000000000000A1"%string; by repeat split|].
    do 4 (split; [simpl; lia|]). split; [exists 500; simpl; split; [done|lia]|].
    split; [exists 20; simpl; split; [done|lia]|]. split; reflexivity. }
  split; [exact H|]. apply (DecodePoolsResult_roundtrip p H).
Defined.

End roundtrips.

(** ** Membership, join requests and peer lists *)
Section results.

(** The membership answer is read back exactly: for either truth value and any
    40-digit address, decoding the two ABI words gives the pair that was encoded. *)
Theorem DecodeIsMember_roundtrip (b : bool) (a : string) :
  String.length a = 40%nat ->
  DecodeIsMemberOfPoolResult ("0x" +:+ abi_word (if b then 1 else 0) +:+ pad_zero 64 a) =
  Ok (mkIsMember b ("0x" +:+ a)).
Proof.
  intros Ha. unfold DecodeIsMemberOfPoolResult. rewrite TrimPrefix_app.
  assert (pad_zero 64 a = srepeat 24 "0" +:+ (a +:+ "")) as Hp.
  { rewrite sapp_nil_r. unfold pad_zero. by rewrite Ha. }
  assert (is_word (abi_word (if b then 1 else 0))) as Hw by (apply abi_word_word; destruct b; lia).
  assert (len (pad_zero 64 a) = 64) as Hl by (unfold len; rewrite length_pad_zero; lia).
  assert (len (abi_word (if b then 1 else 0)) = 64) as Hl' by (unfold len; rewrite Hw; done).
  rewrite len_app, Hl, Hl'. cbn [Z.add Z.ltb Z.compare Pos.compare Pos.compare_cont].
  change (64 + 64 <? 128) with false. cbn match.
  assert (go_slice (abi_word (if b then 1 else 0) +:+ pad_zero 64 a) 0 64
          = Ok (abi_word (if b then 1 else 0))) as ->.
  { apply (go_slice_mid "" (abi_word (if b then 1 else 0)) (pad_zero 64 a)); [done|]. by rewrite Hl'. }
  cbn [obind]. rewrite <- (sapp_nil_r (pad_zero 64 a)).
  rewrite go_slice_mid by (rewrite ?Hl'; lia). cbn [obind].
  rewrite Hp. rewrite go_slice_mid by (unfold len; rewrite ?Ha; done). cbn [obind].
  destruct b; reflexivity.
Qed.

Lemma DecodeIsMember_roundtrip_witness :
  DecodeIsMemberOfPoolResult
    ("0x" +:+ abi_word 1 +:+ pad_zero 64 "00000000000000000000000000000000000000a1") =
  Ok (mkIsMember true "0x00000000000000000000000000000000000000a1").
Proof. apply (DecodeIsMember_roundtrip true). reflexivity. Defined.

Lemma DecodeIsMember_no_panic d : DecodeIsMemberOfPoolResult d <> Panic.
Proof.
  unfold DecodeIsMemberOfPoolResult. destruct (Z.ltb_spec (len (TrimPrefix d "0x")) 128) as [H|H]; [done|].
  set (s := TrimPrefix d "0x") in *. rewrite !go_slice_ok by lia. cbn [obind].
  rewrite go_slice_ok; [done | lia |]. unfold len in *. rewrite length_stake, length_sdrop. lia.
Qed.

(** Reading a word at a multiple of 64 of a concatenation of words. *)
Lemma word_in_concat hd w tl :
  is_word w -> go_slice (hd +:+ (w +:+ tl)) (len hd) (len hd + 64) = Ok w.
Proof. intros Hw. apply go_slice_mid; [done|]. unfold len at 3. by rewrite Hw. Qed.

Lemma peer_ids_loop_words fuel hd ws start i n :
  Forall is_word ws -> len hd = start + i * 64 -> 0 <= i -> n = i + Z.of_nat (length ws) ->
  n < 2 ^ 44 -> (length ws < fuel)%nat ->
  peer_ids_loop fuel (hd +:+ sconcat ws) start i n = Ok (map (fun w => "0x" +:+ w) ws).
Proof.
  intros Hws. revert fuel hd i. induction Hws as [|w ws Hw Hws IH]; intros fuel hd i Hhd Hi Hn Hb Hf;
    (destruct fuel as [|f]; [simpl in *; lia|]); cbn [peer_ids_loop length sconcat map] in *.
  - rewrite (proj2 (Z.ltb_ge _ _)) by lia. done.
  - rewrite (proj2 (Z.ltb_lt _ _)) by lia.
    rewrite (wrapU_small 64), i64_small by lia. rewrite <- Hhd.
    assert (len w = 64) as Hlw by (unfold len; rewrite Hw; done).
    pose proof (len_nonneg (sconcat ws)).
    rewrite !len_app, Hlw. rewrite (proj2 (Z.ltb_ge _ _)) by lia.
    rewrite word_in_concat by done. cbn [obind].
    rewrite <- sapp_assoc. rewrite IH; [done | rewrite len_app; lia | lia..].
Qed.

(** A list of peer ids is read back exactly: for any list of 32-byte words in the
    ABI layout of [bytes32[]], the decoder returns all of them, in order, with the
    0x prefix. *)
Theorem DecodePeerIds_roundtrip (ws : list string) :
  Forall is_word ws -> Z.of_nat (length ws) < 2 ^ 44 ->
  DecodeGetMemberPeerIdsResult
    ("0x" +:+ abi_word 32 +:+ abi_word (Z.of_nat (length ws)) +:+ sconcat ws) =
  Ok (map (fun w => "0x" +:+ w) ws).
Proof.
  intros Hws Hn. unfold DecodeGetMemberPeerIdsResult. rewrite TrimPrefix_app.
  set (w0 := abi_word 32). set (w1 := abi_word (Z.of_nat (length ws))).
  assert (is_word w0) as Hw0 by (apply abi_word_word; lia).
  assert (is_word w1) as Hw1 by (apply abi_word_word; lia).
  assert (len w0 = 64) as L0 by (unfold len; rewrite Hw0; done).
  assert (len w1 = 64) as L1 by (unfold len; rewrite Hw1; done).
  pose proof (len_nonneg (sconcat ws)).
  rewrite !len_app, L0, L1. rewrite (proj2 (Z.ltb_ge _ 64)) by lia.
  assert (go_slice (w0 +:+ w1 +:+ sconcat ws) 0 64 = Ok w0) as ->.
  { apply (word_in_concat "" w0); done. }
  cbn [obind]. unfold w0 at 1. rewrite parse_abi_word by lia. cbn [obind].
  change (i64 (u64 (32 * 2))) with 64.
  rewrite (proj2 (Z.leb_gt _ 64)) by lia. rewrite (proj2 (Z.ltb_ge _ (64 + 64))) by lia.
  assert (go_slice (w0 +:+ w1 +:+ sconcat ws) 64 (64 + 64) = Ok w1) as ->.
  { rewrite <- L0 at 1 2. by apply word_in_concat. }
  cbn [obind]. unfold w1 at 1. rewrite parse_abi_word by lia. cbn [obind].
  unfold make_strings_ok. rewrite (proj2 (Z.leb_le _ _)) by lia.
  rewrite <- sapp_assoc. apply peer_ids_loop_words; [done | rewrite len_app; lia | lia | lia | lia |].
  rewrite length_app_s, length_sconcat by done. lia.
Qed.

Lemma DecodePeerIds_roundtrip_witness :
  DecodeGetMemberPeerIdsResult
    ("0x" +:+ abi_word 32 +:+ abi_word 2 +:+ (abi_word 77 +:+ (abi_word 99 +:+ ""))) =
  Ok ["0x" +:+ abi_word 77; "0x" +:+ abi_word 99].
Proof.
  apply (DecodePeerIds_roundtrip [abi_word 77; abi_word 99]); [|reflexivity].
  repeat constructor.
Defined.

Lemma length_peer_ids_loop fuel d start i n l :
  peer_ids_loop fuel d start i n = Ok l -> 0 <= i -> Z.of_nat (length l) <= Z.max 0 (n - i).
Proof.
  revert i l. induction fuel as [|f IH]; intros i l; cbn [peer_ids_loop].
  { intros [= <-] ?. simpl. lia. }
  destruct (Z.ltb_spec i n); [|intros [= <-] ?; simpl; lia].
  destruct (_ <? _); [intros [= <-] ?; simpl; lia|].
  intros (h & _ & (r & Hr & [= <-])%obind_Ok_inv)%obind_Ok_inv Hi.
  apply IH in Hr; [|lia]. cbn [length]. lia.
Qed.

(** The join-request status is the low byte of the seventh word. *)
Lemma DecodeJoinRequestStatus_word pre v post :
  Forall is_word pre -> length pre = 6%nat -> 0 <= v < 256 -> 64 <= len post ->
  DecodeJoinRequestStatus ("0x" +:+ sconcat pre +:+ abi_word v +:+ post) = Ok v.
Proof.
  intros Hp Hl Hv Hpost. unfold DecodeJoinRequestStatus. rewrite TrimPrefix_app.
  assert (len (sconcat pre) = 6 * 64) as Lp.
  { unfold len. rewrite length_sconcat by done. rewrite Hl. done. }
  assert (is_word (abi_word v)) as Hw by (apply abi_word_word; lia).
  assert (len (abi_word v) = 64) as Lw by (unfold len; rewrite Hw; done).
  rewrite !len_app, Lp, Lw. rewrite (proj2 (Z.ltb_ge _ 512)) by lia.
  rewrite go_slice_mid by (rewrite ?Lp, ?Lw; lia). cbn [obind].
  rewrite parse_abi_word by lia. cbn [obind]. by rewrite wrapU_small by lia.
Qed.

End results.

(** ** Panics: lengths that overflow *)
Section panics.

(** A length whose double, as a 64-bit integer, is negative. *)
Definition overflowing (l : Z) : Prop := 2 ^ 62 <= l mod 2 ^ 63.

Lemma i64_double_le l n :
  0 <= l < 2 ^ 64 -> i64 (u64 (l * 2)) <= n -> 0 <= n < 2 ^ 62 -> ~ overflowing l ->
  0 <= u64 (l * 2) <= n.
Proof.
  unfold overflowing. intros Hl Hle Hn Hno.
  assert (u64 (l * 2) = 2 * (l mod 2 ^ 63)) as E.
  { unfold wrapU. rewrite Z.mul_comm. change (2 ^ 64) with (2 * 2 ^ 63).
    by rewrite Zmult_mod_distr_l. }
  pose proof (Z.mod_pos_bound l (2 ^ 63) ltac:(lia)).
  rewrite E in *. rewrite i64_small in Hle; lia.
Qed.

Lemma parse_field_range what s bits v :
  0 <= bits -> parse_field what s bits = Ok v -> ParseUint s 16 bits = inr v /\ 0 <= v < 2 ^ bits.
Proof.
  unfold parse_field. intros Hb. destruct (ParseUint s 16 bits) as [|v'] eqn:E; [done|]. intros [= <-].
  split; [done|]. unfold ParseUint in E. destruct (_ =? _)%string; [done|].
  assert (forall t a, 0 <= a < 2 ^ bits -> parse_loop 16 (2 ^ bits - 1) a t = inr v' -> 0 <= v' < 2 ^ bits)
    as Hgen.
  { induction t as [|c t IH]; intros a Ha; cbn [parse_loop]; [by intros [= <-]|].
    destruct (digit_val c) as [d|] eqn:Ed; [|done].
    assert (0 <= d).
    { unfold digit_val in Ed. pose proof (byte_val_range c). repeat case_match; simplify_eq; bool_to_prop; lia. }
    destruct (16 <=? d); [done|]. destruct (Z.ltb_spec (2 ^ bits - 1) (a * 16 + d)); [done|].
    apply IH. lia. }
  eapply (Hgen s 0); [lia | exact E].
Qed.

Lemma parse_field_not_Panic what s bits : parse_field what s bits <> Panic.
Proof. unfold parse_field. by destruct (ParseUint _ _ _). Qed.

Lemma slot_at_in slots i : 0 <= i < Z.of_nat (length slots) -> exists s, slots !! Z.to_nat i = Some s /\ slot_at slots i = Ok s.
Proof.
  intros H. destruct (lookup_lt_is_Some_2 slots (Z.to_nat i)) as [s Hs]; [lia|].
  exists s. split; [done|]. apply slot_at_lookup; [lia|done].
Qed.

Lemma decode_string_panic what slots off :
  Forall is_word slots -> 0 <= off < 2 ^ 64 -> decode_string what slots off = Panic ->
  exists s l, s ∈ slots /\ ParseUint s 16 64 = inr l /\ overflowing l.
Proof.
  intros Hws Hoff. unfold decode_string.
  assert (0 <= off / 32 < 2 ^ 59) by (split; [apply Z.div_pos; lia | apply Z.div_lt_upper_bound; lia]).
  rewrite i64_small by lia.
  destruct (Z.ltb_spec (off / 32) (Z.of_nat (length slots))); [|done].
  destruct (slot_at_in slots (off / 32) ltac:(lia)) as (s & Hs & ->). cbn [obind].
  destruct (parse_field _ s 64) as [l| |] eqn:El; [cbn [obind]|done|by apply parse_field_not_Panic in El].
  apply parse_field_range in El as [El Hl]; [|lia].
  destruct ((0 <? l) && (off / 32 + 1 <? Z.of_nat (length slots))) eqn:Et; [|done]. bool_to_prop.
  destruct (slot_at_in slots (off / 32 + 1) ltac:(lia)) as (h & Hh & ->). cbn [obind].
  assert (len h = 64) as L.
  { rewrite Forall_lookup in Hws. unfold len. by rewrite (Hws _ _ Hh). }
  rewrite L. intros HP. exists s, l. split; [by eapply list_elem_of_lookup_2|]. split; [done|].
  destruct (Z.leb_spec (2 ^ 62) (l mod 2 ^ 63)) as [Ho|Hno]; [exact Ho|exfalso].
  assert (~ overflowing l) as Hno' by (unfold overflowing; lia).
  destruct (Z.leb_spec (i64 (u64 (l * 2))) 64) as [Hle|].
  - pose proof (i64_double_le l 64 Hl Hle ltac:(lia) Hno').
    rewrite go_slice_ok in HP by (rewrite ?L; lia). cbn [obind] in HP. by case_match.
  - cbn [obind] in HP. by case_match.
Qed.

Lemma slot_u32_not_Panic what slots i :
  Forall is_word slots -> 0 <= i < Z.of_nat (length slots) -> slot_u32 what slots i <> Panic.
Proof.
  intros Hws Hi. unfold slot_u32. destruct (slot_at_in slots i Hi) as (s & Hs & ->). cbn [obind].
  rewrite Forall_lookup in Hws. rewrite go_slice_ok; [apply parse_field_not_Panic | lia |].
  unfold len. by rewrite (Hws _ _ Hs).
Qed.

(** The pool decoder panics for one reason only: some word of the answer, read as a
    length, doubles to a negative 64-bit integer (bit 62 set). On every other input,
    well-formed or not, it returns a pool or an error. *)
Theorem DecodePoolsResult_panic_overflow data :
  DecodePoolsResult data = Panic ->
  exists s l, s ∈ slots_of (TrimPrefix data "0x") /\ ParseUint s 16 64 = inr l /\ overflowing l.
Proof.
  unfold DecodePoolsResult. destruct (_ <? 288); [done|].
  set (slots := slots_of _). assert (Forall is_word slots) as Hws by apply slots_of_words.
  destruct (Z.ltb_spec (Z.of_nat (length slots)) 9) as [|H9]; [done|].
  destruct (slot_at_in slots 0 ltac:(lia)) as (s0 & Hs0 & ->). cbn [obind].
  rewrite go_slice_ok; [|lia|rewrite Forall_lookup in Hws; unfold len; by rewrite (Hws _ _ Hs0)].
  cbn [obind]. destruct (sforall _ _); [done|].
  do 4 (match goal with |- context [slot_u32 ?w slots ?i] =>
    pose proof (slot_u32_not_Panic w slots i Hws ltac:(lia)); destruct (slot_u32 w slots i);
    cbn [obind]; [|done|done] end).
  destruct (slot_at_in slots 5 ltac:(lia)) as (s5 & _ & ->).
  destruct (slot_at_in slots 6 ltac:(lia)) as (s6 & _ & ->).
  destruct (slot_at_in slots 7 ltac:(lia)) as (s7 & _ & ->).
  destruct (slot_at_in slots 8 ltac:(lia)) as (s8 & _ & ->). cbn [obind].
  destruct (parse_field _ s7 64) as [n| |] eqn:En; cbn [obind]; [|done|by apply parse_field_not_Panic in En].
  destruct (parse_field _ s8 64) as [r| |] eqn:Er; cbn [obind]; [|done|by apply parse_field_not_Panic in Er].
  apply parse_field_range in En as [_ Hn]; [|lia]. apply parse_field_range in Er as [_ Hr]; [|lia].
  destruct (decode_string "name" slots n) eqn:E1; cbn [obind]; [|done|].
  - destruct (decode_string "region" slots r) eqn:E2; cbn [obind]; [done..|].
    intros _. exact (decode_string_panic _ _ _ Hws Hr E2).
  - intros _. exact (decode_string_panic _ _ _ Hws Hn E1).
Qed.

(** An answer of the RPC server that makes the pool decoder panic: name length 2^62. *)
Definition panic_answer : string :=
  "0x" +:+ sconcat ([pad_zero 64 "a1"; abi_word 1; abi_word 0; abi_word 0; abi_word 0;
    abi_word 0; abi_word 0; abi_word 288; abi_word 352; abi_word (2 ^ 62); abi_word 0; abi_word 0]).

Lemma DecodePoolsResult_panics : DecodePoolsResult panic_answer = Panic.
Proof. vm_compute. reflexivity. Qed.

Lemma DecodePoolsResult_panic_overflow_witness :
  DecodePoolsResult panic_answer = Panic /\
  exists s l, s ∈ slots_of (TrimPrefix panic_answer "0x") /\ ParseUint s 16 64 = inr l /\ overflowing l.
Proof.
  split; [vm_compute; reflexivity|].
  apply (DecodePoolsResult_panic_overflow panic_answer). vm_compute. reflexivity.
Defined.

(** Array offsets overflow the same way. *)
Lemma DecodePeerIds_panics :
  DecodeGetMemberPeerIdsResult ("0x" +:+ abi_word (2 ^ 62) +:+ abi_word 1 +:+ abi_word 7) = Panic.
Proof. vm_compute. reflexivity. Qed.

End panics.

(** ** Call data *)
Section calls.

Definition is_selector (s : string) : Prop := String.length s = 10%nat.

(** Call data identifies the call: two membership queries with the same text ask about
    the same pool and the same peer, and no membership query has the text of a
    join-request query. *)
Theorem EncodeIsPeerIdMember_injective p p' k k' :
  0 <= p < 2 ^ 32 -> 0 <= p' < 2 ^ 32 -> is_word k -> is_word k' ->
  (EncodeIsPeerIdMemberOfPoolCall p ("0x" +:+ k) = EncodeIsPeerIdMemberOfPoolCall p' ("0x" +:+ k') ->
   p = p' /\ k = k') /\
  EncodeIsPeerIdMemberOfPoolCall p ("0x" +:+ k) <> EncodeJoinRequestsCall p' ("0x" +:+ k').
Proof.
  intros Hp Hp' Hk Hk'. unfold EncodeIsPeerIdMemberOfPoolCall, EncodeJoinRequestsCall.
  rewrite !TrimPrefix_app. split; [|done].
  intros E%sapp_inj_l. apply sapp_inj_len in E as [E ->].
  - split; [|done]. apply fmt_hex_pad_inj in E; lia.
  - rewrite !length_fmt_hex_pad; [done|..]; try lia; change (16 ^ Z.of_nat 64) with (2 ^ 256); lia.
Qed.

Lemma EncodeIsPeerIdMember_injective_witness :
  EncodeIsPeerIdMemberOfPoolCall 3 ("0x" +:+ abi_word 5) <> EncodeJoinRequestsCall 3 ("0x" +:+ abi_word 5).
Proof.
  apply (EncodeIsPeerIdMember_injective 3 3 (abi_word 5) (abi_word 5)); try lia; reflexivity.
Defined.

(** A result word never looks like one of the contract's error selectors: its top
    four bytes are zero for booleans, addresses, small numbers and offsets. *)
Lemma ParseContractError_word s : ParseContractError ("0x00000000" +:+ s) = None.
Proof.
  unfold ParseContractError. rewrite (stake_app_n 10 "0x00000000" s) by done.
  destruct (_ || _); reflexivity.
Qed.

End calls.
