(* ===== verification/PeerId.v ===== *)
(** * blockchain/peerid_utils.go: peer ids and their bytes32 form

    The pool contracts store a peer as the 32-byte Ed25519 public key inside its
    libp2p peer id. The conversion goes through go-multibase, which is not part of
    this repository: it is the interface [Multibase], whose laws [MultibaseLaws]
    state the documented behaviour of the base58btc encoding. *)

From S2P Require Import Prelude GoStd.

Class Multibase := {
  mb_encode58 : string -> outcome string;   (** multibase.Encode(multibase.Base58BTC, b) *)
  mb_decode : string -> outcome string      (** the data of multibase.Decode(s) *)
}.

(** base58btc text starts with 'z', decodes to what was encoded, is the only text of its
    data, and keeps a leading zero byte as a leading '1'. *)
Class MultibaseLaws (M : Multibase) : Prop := {
  mb_encode_total : forall b, exists t, mb_encode58 b = Ok (String "z" t);
  mb_decode_encode : forall b e, mb_encode58 b = Ok e -> mb_decode e = Ok b;
  mb_encode_decode : forall s b, HasPrefix s "z" = true -> mb_decode s = Ok b -> mb_encode58 b = Ok s;
  mb_leading_zero : forall b t, mb_encode58 (String (byte_of 0) b) = Ok (String "z" t) -> HasPrefix t "1" = true
}.

Fixpoint bytes_of (l : list Z) : string :=
  match l with
  | [] => EmptyString
  | z :: l' => String (byte_of z) (bytes_of l')
  end.

Definition cidHeader : string := bytes_of [0x00; 0x24; 0x08; 0x01; 0x12].

(** The six bytes [bytes32ToPeerId] puts in front of a public key. *)
Definition ed25519Prefix : string := bytes_of [0x00; 0x24; 0x08; 0x01; 0x12; 0x20].

Section conversion.
Context `{M : Multibase}.

Definition bytes32ToPeerId (digestBytes32 : string) : outcome string :=
  match hex_decode (TrimPrefix digestBytes32 "0x") with
  | None => Err "failed to decode hex string"
  | Some pubkeyBytes =>
      if negb (len pubkeyBytes =? 32) then Err "expected 32 bytes" else
      encoded <-! mb_encode58 (ed25519Prefix +:+ pubkeyBytes);;
      if HasPrefix encoded "z" then Ok (sdrop 1 encoded) else Ok encoded
  end.

(** [decoded[i]]; only read where [i < len decoded] *)
Definition byte_at (s : string) (i : nat) : Z :=
  match String.get i s with Some c => byte_val c | None => -1 end.

Definition withZ (peerID : string) : string :=
  if HasPrefix peerID "z" then peerID else "z" +:+ peerID.

Definition peerIdToBytes32 (peerID0 : string) : outcome string :=
  let peerID := withZ peerID0 in
  match mb_decode peerID with
  | Panic => Panic
  | Err _ => Err "failed to decode multibase"
  | Ok decoded =>
      let isCIDv1 := (5 <=? len decoded) && HasPrefix decoded cidHeader in
      bytes32 <-! (if isCIDv1 && (37 <=? len decoded)
                   then go_slice decoded (len decoded - 32) (len decoded)
                   else if (len decoded =? 34) && (byte_at decoded 0 =? 0x12) && (byte_at decoded 1 =? 0x20)
                   then go_slice decoded 2 (len decoded)
                   else Err "unsupported PeerID format or unexpected length");;
      if negb (len bytes32 =? 32) then Err "expected 32 bytes" else
      let result := "0x" +:+ hex_encode bytes32 in
      match bytes32ToPeerId result with
      | Panic => Panic
      | Err _ => Err "failed reversible check"
      | Ok reconstructed =>
          if (reconstructed =? TrimPrefix peerID "z")%string then Ok result
          else Err "could not revert the encoded bytes32 back to original PeerID"
      end
  end.

(** *** The public wrappers; [peer.ID] is kept as its bytes, with go-libp2p's text
    conversions as parameters. *)
Context (peer_Decode : string -> outcome string) (peer_String : string -> string).

Definition PeerIDToBytes32 (peerID : string) : outcome string := peerIdToBytes32 (peer_String peerID).

Definition Bytes32ToPeerID (digestBytes32 : string) : outcome string :=
  peerIDStr <-! bytes32ToPeerId digestBytes32;; peer_Decode peerIDStr.

Definition ValidatePeerIDConversion (peerID : string) : outcome unit :=
  match PeerIDToBytes32 peerID with
  | Panic => Panic
  | Err _ => Err "failed to convert to bytes32"
  | Ok bytes32 =>
      match Bytes32ToPeerID bytes32 with
      | Panic => Panic
      | Err _ => Err "failed to convert back to PeerID"
      | Ok reconstructed =>
          if (peerID =? reconstructed)%string then Ok tt else Err "conversion not reversible"
      end
  end.

End conversion.

(** ** Properties *)
Section facts.
Context `{L : MultibaseLaws}.

Lemma bytes32ToPeerId_key k :
  String.length k = 32%nat ->
  exists t, bytes32ToPeerId ("0x" +:+ hex_encode k) = Ok t /\ mb_encode58 (ed25519Prefix +:+ k) = Ok (String "z" t).
Proof.
  intros Hk. destruct (mb_encode_total (ed25519Prefix +:+ k)) as [t Ht]. exists t. split; [|done].
  unfold bytes32ToPeerId. rewrite TrimPrefix_app, hex_decode_encode. unfold len. rewrite Hk.
  change (negb (Z.of_nat 32 =? 32)) with false. cbn match. rewrite Ht. cbn [obind]. by destruct t.
Qed.

Lemma withZ_split p : exists t, withZ p = String "z" t.
Proof.
  unfold withZ. destruct (HasPrefix p "z") eqn:E; [|by exists p].
  apply prefix_split in E. rewrite E. by eexists.
Qed.

(** The reversible check pins the decoded bytes down. *)
Lemma reversible_check p k d :
  String.length k = 32%nat -> mb_decode (withZ p) = Ok d ->
  bytes32ToPeerId ("0x" +:+ hex_encode k) = Ok (TrimPrefix (withZ p) "z") -> d = ed25519Prefix +:+ k.
Proof.
  intros Hk Hd Hb. destruct (bytes32ToPeerId_key k Hk) as (t & Ht & Henc).
  destruct (withZ_split p) as [u Hu]. rewrite Hu in *. rewrite Ht in Hb. injection Hb as ->.
  change (String "z" u) with ("z" +:+ u) in Henc at 1. rewrite (TrimPrefix_app "z" u) in Henc.
  apply mb_decode_encode in Henc. congruence.
Qed.

Lemma peerIdToBytes32_sound p r :
  peerIdToBytes32 p = Ok r ->
  exists k, String.length k = 32%nat /\ mb_decode (withZ p) = Ok (ed25519Prefix +:+ k) /\
            r = "0x" +:+ hex_encode k.
Proof.
  unfold peerIdToBytes32. destruct (mb_decode (withZ p)) as [d| |] eqn:Hd; try done.
  intros (k & _ & H)%obind_Ok_inv.
  destruct (negb (len k =? 32)) eqn:Hl; [done|].
  destruct (bytes32ToPeerId _) as [t| |] eqn:Hb; try done.
  destruct (String.eqb_spec t (TrimPrefix (withZ p) "z")) as [->|]; [|done]. injection H as <-.
  assert (String.length k = 32%nat) as Hk by (bool_to_prop; unfold len in *; lia).
  exists k. split; [done|]. split; [|done]. f_equal. by eapply reversible_check.
Qed.

Lemma peerIdToBytes32_accepts p k :
  String.length k = 32%nat -> mb_decode (withZ p) = Ok (ed25519Prefix +:+ k) ->
  peerIdToBytes32 p = Ok ("0x" +:+ hex_encode k).
Proof.
  intros Hk Hd. unfold peerIdToBytes32. rewrite Hd.
  assert (len (ed25519Prefix +:+ k) = 38) as L38 by (unfold len; rewrite length_app_s, Hk; done).
  rewrite L38. change (HasPrefix (ed25519Prefix +:+ k) cidHeader) with
    (HasPrefix (cidHeader +:+ (bytes_of [0x20] +:+ k)) cidHeader). rewrite prefix_app. cbn [andb Z.leb Z.compare].
  change ((5 <=? 38) && true && (37 <=? 38)) with true. cbn match.
  rewrite <- (sapp_nil_r (ed25519Prefix +:+ k)), sapp_assoc.
  rewrite go_slice_mid by (unfold len; rewrite ?Hk; done). cbn [obind].
  unfold len. rewrite Hk. change (negb (Z.of_nat 32 =? 32)) with false. cbn match.
  destruct (bytes32ToPeerId_key k Hk) as (t & -> & Henc).
  destruct (withZ_split p) as [u Hu]. rewrite Hu in *.
  apply mb_encode_decode in Hd; [|by destruct u]. rewrite Henc in Hd. injection Hd as ->.
  change (String "z" u) with ("z" +:+ u). by rewrite TrimPrefix_app, String.eqb_refl.
Qed.

(** The conversion accepts exactly the Ed25519 peer ids: it succeeds with result [r] if
    and only if the id's base58 text decodes to the six prefix bytes followed by a
    32-byte key whose hex form is [r]. *)
Theorem peerIdToBytes32_spec p r :
  peerIdToBytes32 p = Ok r <->
  exists k, String.length k = 32%nat /\ mb_decode (withZ p) = Ok (ed25519Prefix +:+ k) /\
            r = "0x" +:+ hex_encode k.
Proof.
  split; [apply peerIdToBytes32_sound|]. intros (k & Hk & Hd & ->). by apply peerIdToBytes32_accepts.
Qed.

(** Keys survive the trip through a peer id: the id made from a 32-byte key converts
    back to that key. *)
Theorem bytes32_roundtrip k :
  String.length k = 32%nat ->
  exists t, bytes32ToPeerId ("0x" +:+ hex_encode k) = Ok t /\
            peerIdToBytes32 t = Ok ("0x" +:+ hex_encode k).
Proof.
  intros Hk. destruct (bytes32ToPeerId_key k Hk) as (t & Ht & Henc). exists t. split; [done|].
  apply peerIdToBytes32_accepts; [done|].
  assert (HasPrefix t "1" = true) as H1.
  { eapply (mb_leading_zero (bytes_of [0x24; 0x08; 0x01; 0x12; 0x20] +:+ k)). exact Henc. }
  assert (withZ t = String "z" t) as ->.
  { unfold withZ. apply prefix_split in H1. rewrite H1. reflexivity. }
  by apply mb_decode_encode.
Qed.

(** Legacy (RSA, "Qm...") peer ids are never converted: the branch for 34-byte
    multihashes is followed by a reversible check that rebuilds an Ed25519 id, so it
    always ends in an error. *)
Theorem legacy_peer_ids_rejected p d :
  mb_decode (withZ p) = Ok d -> len d = 34 -> forall r, peerIdToBytes32 p <> Ok r.
Proof.
  intros Hd Hl r Hr. apply peerIdToBytes32_sound in Hr as (k & Hk & Hd' & _).
  assert (d = ed25519Prefix +:+ k) as -> by congruence. unfold len in Hl. rewrite length_app_s, Hk in Hl. done.
Qed.

(** Different peers have different contract keys. *)
Lemma peerIdToBytes32_inj p p' r :
  peerIdToBytes32 p = Ok r -> peerIdToBytes32 p' = Ok r -> withZ p = withZ p'.
Proof.
  intros (k & Hk & Hd & ->)%peerIdToBytes32_sound (k' & Hk' & Hd' & E)%peerIdToBytes32_sound.
  apply sapp_inj_l in E. assert (k = k') as <-.
  { apply (f_equal hex_decode) in E. rewrite !hex_decode_encode in E. congruence. }
  destruct (withZ_split p) as [t Ht], (withZ_split p') as [t' Ht']. rewrite Ht, Ht' in *.
  apply mb_encode_decode in Hd; [|by destruct t]. apply mb_encode_decode in Hd'; [|by destruct t'].
  congruence.
Qed.

End facts.

(** ** A concrete multibase for the witnesses: 'z', a marker for a leading zero byte, hex *)
Section concrete.

Definition hexbase_encode (b : string) : string :=
  String "z" (String (if HasPrefix b (bytes_of [0]) then "1" else "2")%char (hex_encode b)).

Definition hexbase_decode (s : string) : outcome string :=
  match hex_decode (sdrop 2 s) with
  | Some b => if (hexbase_encode b =? s)%string then Ok b else Err "invalid base"
  | None => Err "invalid base"
  end.

#[local] Instance hexbase : Multibase :=
  {| mb_encode58 := fun b => Ok (hexbase_encode b); mb_decode := hexbase_decode |}.

#[local] Instance hexbase_laws : MultibaseLaws hexbase.
Proof.
  split.
  - intros b. by eexists.
  - intros b e [= <-]. simpl. unfold hexbase_decode, hexbase_encode at 1. cbn [sdrop].
    by rewrite hex_decode_encode, String.eqb_refl.
  - simpl. unfold hexbase_decode. intros s b _. destruct (hex_decode _); [|done].
    destruct (String.eqb_spec (hexbase_encode s0) s); [|done]. by intros [= <-]; subst.
  - intros b t [= <-]. by destruct b.
Qed.

Definition sample_key : string := srepeat 32 "k".

Lemma peerIdToBytes32_spec_witness :
  peerIdToBytes32 (hexbase_encode (ed25519Prefix +:+ sample_key)) = Ok ("0x" +:+ hex_encode sample_key).
Proof. apply peerIdToBytes32_spec. exists sample_key. repeat split. Defined.

Lemma bytes32_roundtrip_witness :
  exists t, bytes32ToPeerId ("0x" +:+ hex_encode sample_key) = Ok t /\
            peerIdToBytes32 t = Ok ("0x" +:+ hex_encode sample_key).
Proof. apply (bytes32_roundtrip sample_key). reflexivity. Defined.

Definition legacy_bytes : string := bytes_of [0x12; 0x20] +:+ sample_key.

Lemma legacy_peer_ids_rejected_witness :
  hexbase_decode (withZ (hexbase_encode legacy_bytes)) = Ok legacy_bytes /\
  peerIdToBytes32 (hexbase_encode legacy_bytes) <> Ok ("0x" +:+ hex_encode sample_key).
Proof. split; [reflexivity|]. apply (legacy_peer_ids_rejected _ legacy_bytes); reflexivity. Defined.

End concrete.
