(* ===== verification/SignedAuth.v ===== *)
(** * blockchain/auth_signed.go: signed request headers

    The mobile client signs every request ([signRequest]); the device checks the
    signature, the timestamp window and the peer id ([verifySignedRequest]).
    SHA-256 is any function on byte strings; go-libp2p's keys and peer ids are the
    interface [PeerCrypto]. *)

From S2P Require Import Prelude GoStd.

Class PeerCrypto := {
  sha256 : string -> string;
  peer_Decode : string -> outcome string;              (** peer.Decode: text to peer.ID *)
  peer_String : string -> string;                      (** peer.ID.String *)
  ExtractPublicKey : string -> outcome string;         (** peer.ID.ExtractPublicKey *)
  key_Verify : string -> string -> string -> outcome bool;  (** PubKey.Verify(data, sig) *)
  key_Sign : string -> string -> outcome string        (** PrivKey.Sign(data) *)
}.

Definition headerPeerID := "X-Fula-Peer-ID"%string.
Definition headerTimestamp := "X-Fula-Timestamp"%string.
Definition headerSignature := "X-Fula-Signature"%string.

(** int64(math.Ceil(maxTimestampSkew.Seconds())) with maxTimestampSkew = 5 minutes *)
Definition maxTimestampSkewSeconds : Z := 300.

(** An HTTP request, as far as the two functions look at it. [Body] is [None] for a nil
    body, [Some None] for one whose reading fails. *)
Record Request := mkRequest {
  Path : string;
  Header : gmap string string;
  Body : option (option string)
}.

Definition Header_Get (r : Request) (k : string) : string := default "" (Header r !! k).
Definition Header_Set (r : Request) (k v : string) : Request :=
  mkRequest (Path r) (<[k := v]> (Header r)) (Body r).

Section signing.
Context `{C : PeerCrypto}.

(** action + ":" + timestamp + ":" + base64(sha256(body)) *)
Definition signed_message (action timestamp body : string) : string :=
  action +:+ ":" +:+ timestamp +:+ ":" +:+ b64_encode (sha256 body).

(** The window test on int64 seconds, with its wrap-around. *)
Definition skew (now ts : Z) : Z :=
  let diff := i64 (now - ts) in
  if diff <? 0 then i64 (- diff) else diff.

Definition verifySignedRequest (now : Z) (r : Request) : outcome (string * string) :=
  let peerIDStr := Header_Get r headerPeerID in
  if (peerIDStr =? "")%string then Err "missing X-Fula-Peer-ID header" else
  let timestampStr := Header_Get r headerTimestamp in
  if (timestampStr =? "")%string then Err "missing X-Fula-Timestamp header" else
  let signatureStr := Header_Get r headerSignature in
  if (signatureStr =? "")%string then Err "missing X-Fula-Signature header" else
  pid <-! peer_Decode peerIDStr;;
  match ParseInt timestampStr 10 64 with
  | inl _ => Err "invalid timestamp"
  | inr ts =>
      if maxTimestampSkewSeconds <? skew now ts then Err "timestamp too far from current time" else
      pubKey <-! ExtractPublicKey pid;;
      bodyBytes <-! match Body r with
                    | None => Ok ""%string
                    | Some None => Err "failed to read request body"
                    | Some (Some b) => Ok b
                    end;;
      let action := path_base (Path r) in
      let messageHash := sha256 (signed_message action timestampStr bodyBytes) in
      match b64_decode signatureStr with
      | None => Err "invalid signature encoding"
      | Some sigBytes =>
          ok <-! key_Verify pubKey messageHash sigBytes;;
          if (ok : bool) then Ok (pid, bodyBytes) else Err "invalid signature"
      end
  end.

Definition signRequest (now : Z) (req : Request) (privKey selfPeerID : string) : outcome Request :=
  bodyBytes <-! match Body req with
                | None => Ok ""%string
                | Some None => Err "failed to read request body for signing"
                | Some (Some b) => Ok b
                end;;
  let req := mkRequest (Path req) (Header req)
               (match Body req with None => None | Some _ => Some (Some bodyBytes) end) in
  let action := path_base (Path req) in
  let timestamp := FormatInt now 10 in
  sig <-! key_Sign privKey (sha256 (signed_message action timestamp bodyBytes));;
  let req := Header_Set req headerPeerID (peer_String selfPeerID) in
  let req := Header_Set req headerTimestamp timestamp in
  Ok (Header_Set req headerSignature (b64_encode sig)).

(** signingTransport.RoundTrip: sign, then hand the request to the base transport. *)
Definition RoundTrip {R : Type} (base : Request -> outcome R) (now : Z) (privKey peerID : string)
    (req : Request) : outcome R :=
  req' <-! signRequest now req privKey peerID;; base req'.

End signing.

(** ** The timestamp window *)
Section window.

Definition int64 (z : Z) : Prop := - 2 ^ 63 <= z < 2 ^ 63.

(** The replay window: a timestamp passes the test exactly when it lies within 300
    seconds of the device's clock, or lies 2^63 seconds before it, where the int64
    difference is its own negation (for any clock before the year 10^11). *)
Theorem skew_window now ts :
  0 <= now < 2 ^ 62 -> int64 ts ->
  (skew now ts <= maxTimestampSkewSeconds <-> Z.abs (now - ts) <= 300 \/ now - ts = 2 ^ 63).
Proof.
  unfold int64, skew, maxTimestampSkewSeconds. intros Hn Ht.
  destruct (Z.lt_ge_cases (now - ts) (2 ^ 63)) as [Hlt|Hge].
  - rewrite (i64_small (now - ts)) by lia.
    destruct (Z.ltb_spec (now - ts) 0); [rewrite i64_small by lia|]; lia.
  - rewrite (i64_high (now - ts)) by lia.
    destruct (Z.ltb_spec (now - ts - 2 ^ 64) 0); [|lia].
    destruct (Z.eqb_spec (now - ts) (2 ^ 63)) as [E|E].
    + rewrite E. change (2 ^ 63 - 2 ^ 64) with (- 2 ^ 63).
      rewrite (i64_high (- - 2 ^ 63)) by lia. lia.
    + rewrite i64_small by lia. lia.
Qed.

Lemma skew_window_witness : skew 1700000000 (1700000000 - 299) <= maxTimestampSkewSeconds.
Proof. apply (skew_window 1700000000 (1700000000 - 299)); unfold int64; lia. Defined.

(** The far timestamp that slips through: accepted at [now = 1700000000]. *)
Lemma skew_wraps : skew 1700000000 (1700000000 - 2 ^ 63) <= maxTimestampSkewSeconds.
Proof. vm_compute. congruence. Qed.

End window.

(** ** What the signed text binds *)
Section binding.
Context `{C : PeerCrypto}.

Definition no_colon (c : ascii) : bool := negb (c =? ":")%char.

Lemma last_colon s s' u u' :
  sforall no_colon u = true -> sforall no_colon u' = true ->
  s +:+ (String ":" u) = s' +:+ (String ":" u') -> s = s' /\ u = u'.
Proof.
  intros Hu Hu'. revert s'. induction s as [|c s IH]; intros [|c' s'] E; cbn [String.append] in E.
  - by injection E.
  - injection E as <- ->. rewrite sforall_app in Hu. cbn [sforall] in Hu.
    by rewrite andb_false_r in Hu.
  - injection E as -> <-. rewrite sforall_app in Hu'. cbn [sforall] in Hu'.
    by rewrite andb_false_r in Hu'.
  - injection E as -> E. destruct (IH _ E) as [-> ->]. done.
Qed.

Lemma b64_no_colon s : sforall no_colon (b64_encode s) = true.
Proof.
  eapply sforall_weaken; [|apply b64_encode_chars]. intros c.
  destruct c as [[][][][][][][][]]; try reflexivity; discriminate.
Qed.

(** A timestamp that parses has no colon. *)
Lemma parse_loop_no_colon base maxv acc s v :
  parse_loop base maxv acc s = inr v -> sforall no_colon s = true.
Proof.
  revert acc. induction s as [|c s IH]; intros acc; cbn [parse_loop sforall]; [done|].
  destruct (digit_val c) as [d|] eqn:Ed; [|done].
  destruct (_ <=? _); [done|]. destruct (_ <? _); [done|]. intros H. rewrite (IH _ H), andb_true_r.
  unfold no_colon. destruct (Ascii.eqb_spec c ":"%char) as [->|]; done.
Qed.

Lemma ParseInt_no_colon s v : ParseInt s 10 64 = inr v -> sforall no_colon s = true.
Proof.
  unfold ParseInt. destruct (_ =? "")%string eqn:E0; [done|].
  destruct (sign_split s) as [neg s'] eqn:Es.
  destruct (ParseUint s' 10 64) eqn:Ep; [done|]. intros _.
  unfold ParseUint in Ep. destruct (s' =? "")%string; [done|]. apply parse_loop_no_colon in Ep.
  destruct s as [|c s]; [done|]. cbn [sforall].
  unfold sign_split in Es. destruct c as [[][][][][][][][]]; simplify_eq; cbn [sforall] in *;
    try exact Ep; by rewrite Ep.
Qed.

(** A signature covers one action, one timestamp and one body: the text that is
    hashed and signed determines the action, the timestamp and the body's hash, so a
    signature made for one request cannot be moved to another action or moment. *)
Theorem signed_message_binds a a' t t' b b' v v' :
  ParseInt t 10 64 = inr v -> ParseInt t' 10 64 = inr v' ->
  signed_message a t b = signed_message a' t' b' -> a = a' /\ t = t' /\ sha256 b = sha256 b'.
Proof.
  unfold signed_message. intros Ht Ht' E.
  change (a +:+ ":" +:+ t +:+ ":" +:+ b64_encode (sha256 b))
    with (a +:+ String ":" (t +:+ String ":" (b64_encode (sha256 b)))) in E.
  change (a' +:+ ":" +:+ t' +:+ ":" +:+ b64_encode (sha256 b'))
    with (a' +:+ String ":" (t' +:+ String ":" (b64_encode (sha256 b')))) in E.
  assert (forall x y z, x +:+ String ":" (y +:+ z) = (x +:+ String ":" y) +:+ z) as Hre.
  { intros x y z. by rewrite sapp_assoc. }
  rewrite !Hre in E. apply last_colon in E as [E Eb]; [|apply b64_no_colon..].
  apply last_colon in E as [-> ->]; [|by eapply ParseInt_no_colon..].
  split; [done|]. split; [done|].
  apply (f_equal b64_decode) in Eb. rewrite !b64_decode_encode in Eb. congruence.
Qed.

End binding.

(** ** Signing and verifying *)
Section protocol.
Context `{C : PeerCrypto}.

(** A private key and the peer id that carries its public key, as go-libp2p documents
    them: the id's text decodes to the id, the key can be extracted from it, and what the
    private key signs the public key verifies. *)
Record key_pair (sk pid : string) : Prop := {
  kp_text : peer_Decode (peer_String pid) = Ok pid;
  kp_nonempty : peer_String pid <> ""%string;
  kp_pub : exists pk, ExtractPublicKey pid = Ok pk /\
    forall m s, key_Sign sk m = Ok s -> s <> ""%string /\ key_Verify pk m s = Ok true
}.

Definition body_bytes (r : Request) : string :=
  match Body r with Some (Some b) => b | _ => "" end.

Lemma b64_encode_nonempty s : s <> ""%string -> b64_encode s <> ""%string.
Proof. by destruct s as [|a [|b [|c s]]]. Qed.

(** An honest request is accepted: what [signRequest] signs with a peer's key at time
    [now], the device accepts at any time [now'] within 300 seconds, and returns that
    peer's id and the unchanged body. *)
Theorem sign_verify now now' req sk pid req' :
  key_pair sk pid -> int64 now -> int64 now' -> Z.abs (now' - now) <= 300 ->
  signRequest now req sk pid = Ok req' ->
  verifySignedRequest now' req' = Ok (pid, body_bytes req).
Proof.
  intros [Htext Hne (pk & Hpk & Hsig)] Hn Hn' Hw Hsign. unfold signRequest in Hsign.
  apply obind_Ok_inv in Hsign as (b & Hb & Hsign). apply obind_Ok_inv in Hsign as (sg & Hsg & [= <-]).
  destruct (Hsig _ _ Hsg) as [Hsne Hver].
  assert (body_bytes req = b) as -> by (unfold body_bytes; by destruct (Body req) as [[]|]; simplify_eq).
  unfold verifySignedRequest, Header_Get, Header_Set. cbn [Header Path Body] in *.
  rewrite !(lookup_insert_ne _ headerSignature) by done.
  rewrite !(lookup_insert_ne _ headerTimestamp) by done. rewrite !lookup_insert_eq. cbn [default from_option].
  unfold id. rewrite (proj2 (String.eqb_neq _ _) Hne), Htext. cbn [obind].
  destruct (String.eqb_spec (FormatInt now 10) "") as [E|_].
  { pose proof (ParseInt_FormatInt now 64 ltac:(lia) Hn) as Hp. by rewrite E in Hp. }
  rewrite (proj2 (String.eqb_neq _ _) (b64_encode_nonempty _ Hsne)).
  rewrite ParseInt_FormatInt by (unfold int64 in *; lia).
  assert (skew now' now <= maxTimestampSkewSeconds) as Hsk.
  { unfold skew, maxTimestampSkewSeconds, int64 in *. rewrite (i64_small (now' - now)) by lia.
    destruct (Z.ltb_spec (now' - now) 0); [rewrite i64_small by lia|]; lia. }
  rewrite (proj2 (Z.ltb_ge _ _) Hsk), Hpk. cbn [obind].
  assert (match (match Body req with Some _ => Some (Some b) | None => None end) with
          | Some (Some b0) => Ok b0 | Some None => Err "failed to read request body" | None => Ok "" end
          = Ok b) as -> by (by destruct (Body req) as [[]|]; simplify_eq).
  cbn [obind]. rewrite b64_decode_encode, Hver. done.
Qed.

(** C8. What acceptance means, at a clock of the next hundred billion years: the request
    names in X-Fula-Peer-ID a peer id whose embedded public key verified the signature of
    X-Fula-Signature over the hash of the text action:timestamp:base64(sha256(body)), with
    the last element of the request's path as the action and the body of the request, which
    is also what is returned; and the timestamp of X-Fula-Timestamp lies within 300 seconds
    of the clock on either side, or exactly 2^63 seconds before it, where the int64
    difference wraps. *)
Theorem verify_sound now r pid body :
  0 <= now < 2 ^ 62 ->
  verifySignedRequest now r = Ok (pid, body) ->
  exists idText tsText sgText ts pk sg,
    Header r !! "X-Fula-Peer-ID"%string = Some idText /\ Header r !! "X-Fula-Timestamp"%string = Some tsText /\
    Header r !! "X-Fula-Signature"%string = Some sgText /\
    peer_Decode idText = Ok pid /\ ExtractPublicKey pid = Ok pk /\
    ParseInt tsText 10 64 = inr ts /\ (Z.abs (now - ts) <= 300 \/ now - ts = 2 ^ 63) /\
    b64_decode sgText = Some sg /\ (Body r = Some (Some body) \/ Body r = None /\ body = ""%string) /\
    key_Verify pk (sha256 (path_base (Path r) +:+ ":" +:+ tsText +:+ ":" +:+ b64_encode (sha256 body))) sg = Ok true.
Proof.
  intros Hnow. unfold verifySignedRequest, Header_Get, headerPeerID, headerTimestamp, headerSignature.
  destruct (Header r !! "X-Fula-Peer-ID"%string) as [idText|]; [|done].
  destruct (Header r !! "X-Fula-Timestamp"%string) as [tsText|]; [|by destruct (_ =? "")%string].
  destruct (Header r !! "X-Fula-Signature"%string) as [sgText|];
    [|by destruct (default "" (Some idText) =? "")%string, (default "" (Some tsText) =? "")%string].
  cbn [default from_option]. unfold id.
  destruct (idText =? "")%string; [done|]. destruct (tsText =? "")%string; [done|]. destruct (sgText =? "")%string; [done|].
  intros (p & Hp & H)%obind_Ok_inv. destruct (ParseInt tsText 10 64) as [|ts] eqn:Hts; [done|].
  destruct (Z.ltb_spec maxTimestampSkewSeconds (skew now ts)) as [|Hsk]; [done|].
  apply obind_Ok_inv in H as (pk & Hpk & H). apply obind_Ok_inv in H as (b & Hb & H).
  destruct (b64_decode sgText) as [sg|] eqn:Hsg; [|done]. apply obind_Ok_inv in H as ([] & Hv & H); [|done].
  injection H as <- <-. exists idText, tsText, sgText, ts, pk, sg.
  repeat (split; [done|]). split; [by apply skew_window; [done | by apply (ParseInt_range tsText 64 ts ltac:(lia)) |]|].
  split; [done|]. split; [|exact Hv]. destruct (Body r) as [[]|]; simplify_eq; auto.
Qed.

End protocol.

(** ** A concrete key scheme for the witnesses *)
Section concrete.

#[local] Instance toyCrypto : PeerCrypto := {|
  sha256 := fun s => s;
  peer_Decode := fun s => Ok s;
  peer_String := fun s => s;
  ExtractPublicKey := fun s => Ok s;
  key_Verify := fun pk m s => Ok (s =? pk +:+ m)%string;
  key_Sign := fun sk m => Ok (sk +:+ m) |}.

Definition toy_request : Request := mkRequest "/fula-pool-leave" ∅ (Some (Some "{}"%string)).

Lemma toy_key_pair : key_pair "alice" "alice".
Proof.
  split; [done | done |]. exists "alice"%string. split; [done|]. intros m s [= <-].
  split; [done|]. cbn [key_Verify toyCrypto]. by rewrite String.eqb_refl.
Qed.

Definition toy_signed : Request :=
  mkRequest "/fula-pool-leave"
    (<[headerSignature := b64_encode ("alice" +:+ signed_message "fula-pool-leave" "1700000000" "{}")]>
     (<[headerTimestamp := "1700000000"%string]> (<[headerPeerID := "alice"%string]> ∅)))
    (Some (Some "{}"%string)).

Lemma sign_verify_witness :
  signRequest 1700000000 toy_request "alice" "alice" = Ok toy_signed /\
  verifySignedRequest 1700000120 toy_signed = Ok ("alice"%string, "{}"%string).
Proof.
  assert (signRequest 1700000000 toy_request "alice" "alice" = Ok toy_signed) as H by (vm_compute; reflexivity).
  split; [exact H|].
  apply (sign_verify 1700000000 1700000120 toy_request "alice" "alice" toy_signed toy_key_pair);
    [unfold int64; lia.. | exact H].
Defined.

Lemma verify_sound_witness :
  verifySignedRequest 1700000120 toy_signed = Ok ("alice"%string, "{}"%string) /\
  exists idText tsText sgText ts pk sg,
    Header toy_signed !! "X-Fula-Peer-ID"%string = Some idText /\ Header toy_signed !! "X-Fula-Timestamp"%string = Some tsText /\
    Header toy_signed !! "X-Fula-Signature"%string = Some sgText /\
    peer_Decode idText = Ok "alice"%string /\ ExtractPublicKey "alice" = Ok pk /\
    ParseInt tsText 10 64 = inr ts /\ (Z.abs (1700000120 - ts) <= 300 \/ 1700000120 - ts = 2 ^ 63) /\
    b64_decode sgText = Some sg /\
    (Body toy_signed = Some (Some "{}"%string) \/ Body toy_signed = None /\ "{}"%string = ""%string) /\
    key_Verify pk (sha256 (path_base (Path toy_signed) +:+ ":" +:+ tsText +:+ ":" +:+ b64_encode (sha256 "{}"))) sg = Ok true.
Proof.
  assert (verifySignedRequest 1700000120 toy_signed = Ok ("alice"%string, "{}"%string)) as H
    by (vm_compute; reflexivity).
  split; [exact H|]. apply (verify_sound 1700000120 toy_signed "alice" "{}"); [lia | exact H].
Defined.

Lemma signed_message_binds_witness :
  "reboot"%string = "reboot"%string /\ "17"%string = "17"%string /\ sha256 "{}" = sha256 "{}".
Proof. apply (signed_message_binds "reboot" "reboot" "17" "17" "{}" "{}" 17 17); reflexivity. Defined.

End concrete.
