(* ===== verification/Effects.v ===== *)
(** * Effects: HTTP exchanges, timers, the clock and responses

    The blockchain component talks to JSON-RPC servers, reads the clock, waits on timers
    that a cancelled context cuts short, and answers HTTP requests. Its operations are
    written in a state monad over a component state [W] whose results are Go outcomes;
    what the outside world does is the class [Env], indexed by the number of effects
    performed so far. *)

From S2P Require Import Prelude GoStd Json.

(** ** The monad *)
Definition M (W A : Type) : Type := W -> outcome A * W.

Definition ret {W A : Type} (a : A) : M W A := fun w => (Ok a, w).
Definition raise {W A : Type} (e : string) : M W A := fun w => (Err e, w).
Definition panic {W A : Type} : M W A := fun w => (Panic, w).
Definition lift {W A : Type} (m : outcome A) : M W A := fun w => (m, w).
Definition gets {W A : Type} (f : W -> A) : M W A := fun w => (Ok (f w), w).
Definition modify {W : Type} (f : W -> W) : M W () := fun w => (Ok (), f w).

Definition bind {W A B : Type} (m : M W A) (k : A -> M W B) : M W B :=
  fun w =>
    let '(r, w') := m w in
    match r with
    | Ok a => k a w'
    | Err e => (Err e, w')
    | Panic => (Panic, w')
    end.

(** [v, err := m]: the error becomes a value; a panic goes on unwinding. *)
Definition try {W A : Type} (m : M W A) : M W (string + A) :=
  fun w =>
    let '(r, w') := m w in
    match r with
    | Ok a => (Ok (inr a), w')
    | Err e => (Ok (inl e), w')
    | Panic => (Panic, w')
    end.

Notation "x <- m ;; k" := (bind m (fun x => k))
  (at level 100, m at next level, right associativity) : go_scope.
Notation "m ;;; k" := (bind m (fun _ => k))
  (at level 100, right associativity) : go_scope.

Lemma bind_Ok_inv {W A B : Type} (m : M W A) (k : A -> M W B) w b w' :
  bind m k w = (Ok b, w') -> exists a w1, m w = (Ok a, w1) /\ k a w1 = (Ok b, w').
Proof. unfold bind. destruct (m w) as [[a|e|] w1]; naive_solver. Qed.

Lemma try_Ok_inv {W A : Type} (m : M W A) w x w' :
  try m w = (Ok x, w') ->
  (exists a, x = inr a /\ m w = (Ok a, w')) \/ (exists e, x = inl e /\ m w = (Err e, w')).
Proof. unfold try. destruct (m w) as [[a|e|] w1]; naive_solver. Qed.

Lemma try_not_Err {W A : Type} (m : M W A) w e w' : try m w <> (Err e, w').
Proof. unfold try. by destruct (m w) as [[a|e'|] w1]. Qed.

(** ** State invariants of monadic code

    [keeps R m]: whatever [m] returns, the state it leaves is related by [R] to the
    state it found. For a preorder [R] this composes along [bind] and [try]. *)
Definition keeps {W A : Type} (R : W -> W -> Prop) (m : M W A) : Prop :=
  forall w, R w (m w).2.

Section keeps.
Context {W : Type} (R : W -> W -> Prop) `{!PreOrder R}.

Lemma keeps_ret {A} (a : A) : keeps R (ret a).
Proof. intros w. apply PreOrder_Reflexive. Qed.
Lemma keeps_raise {A} e : keeps R (@raise W A e).
Proof. intros w. apply PreOrder_Reflexive. Qed.
Lemma keeps_panic {A} : keeps R (@panic W A).
Proof. intros w. apply PreOrder_Reflexive. Qed.
Lemma keeps_lift {A} (m : outcome A) : keeps R (lift m).
Proof. intros w. apply PreOrder_Reflexive. Qed.
Lemma keeps_gets {A} (f : W -> A) : keeps R (gets f).
Proof. intros w. apply PreOrder_Reflexive. Qed.
Lemma keeps_try {A} (m : M W A) : keeps R m -> keeps R (try m).
Proof. intros H w. specialize (H w). unfold try. by destruct (m w) as [[]]. Qed.
Lemma keeps_bind {A B} (m : M W A) (k : A -> M W B) :
  keeps R m -> (forall a, keeps R (k a)) -> keeps R (bind m k).
Proof.
  intros Hm Hk w. specialize (Hm w). unfold bind. destruct (m w) as [[a|e|] w1]; simpl in *; try done.
  etrans; [exact Hm | apply Hk].
Qed.
End keeps.

(** [fmt.Errorf("pre: %w", err)] *)
Definition wrapErr {W A : Type} (pre : string) (m : M W A) : M W A :=
  fun w => let '(r, w') := m w in
           (match r with Err e => Err (pre +:+ ": " +:+ e) | _ => r end, w').

Lemma wrapErr_Ok {W A : Type} pre (m : M W A) w a w' :
  wrapErr pre m w = (Ok a, w') <-> m w = (Ok a, w').
Proof. unfold wrapErr. destruct (m w) as [[|e|] w1]; naive_solver. Qed.

Lemma keeps_wrapErr {W A : Type} (R : W -> W -> Prop) pre (m : M W A) : keeps R m -> keeps R (wrapErr pre m).
Proof. intros H w. specialize (H w). unfold wrapErr. by destruct (m w) as [[]]. Qed.

Create HintDb keeps.
#[export] Hint Extern 0 (keeps _ (ret _)) => apply keeps_ret; exact _ : keeps.
#[export] Hint Extern 0 (keeps _ (raise _)) => apply keeps_raise; exact _ : keeps.
#[export] Hint Extern 0 (keeps _ panic) => apply keeps_panic; exact _ : keeps.
#[export] Hint Extern 0 (keeps _ (lift _)) => apply keeps_lift; exact _ : keeps.
#[export] Hint Extern 0 (keeps _ (gets _)) => apply keeps_gets; exact _ : keeps.

(** Walk through a monadic program with [keeps_bind], splitting on its tests. *)
Ltac keeps_go :=
  repeat match goal with
  | |- forall _, _ => intro
  | |- keeps _ (bind _ _) => apply keeps_bind; [exact _ | |]
  | |- keeps _ (try _) => apply keeps_try
  | |- keeps _ (wrapErr _ _) => apply keeps_wrapErr
  | |- keeps _ _ => solve [eauto with keeps]
  | |- keeps _ (match ?x with _ => _ end) => destruct x
  end.

(** ** The outside world *)
Inductive HttpReply :=
| ReplyErr (e : string)                     (** http.Client.Do returned an error *)
| Reply (status : Z) (body : option string) (** [None]: reading the body failed *).

(** What the file system does with one call. A failed os.WriteFile may leave the old
    content ([FsErr None]) or the first bytes of the new one ([FsErr (Some n)]). *)
Inductive FsResult := FsOk | FsErr (left : option nat).

Class Env := {
  env_http : nat -> string -> json -> HttpReply;  (** n-th effect, URL, request payload *)
  env_timer : nat -> Z -> bool;  (** does the timer of d ns fire before the context is done *)
  env_now : nat -> Z;            (** the wall clock, in nanoseconds since 1970 *)
  env_fs : nat -> FsResult
}.

(** ** Responses *)
Inductive RespBody :=
| BEmpty
| BText (s : string)     (** http.Error / w.Write *)
| BJson (j : json).      (** json.NewEncoder(w).Encode *)

Record Resp := mkResp { resp_code : Z; resp_body : RespBody }.

Definition StatusOK := 200.
Definition StatusAccepted := 202.
Definition StatusNoContent := 204.
Definition StatusBadRequest := 400.
Definition StatusUnauthorized := 401.
Definition StatusForbidden := 403.
Definition StatusNotFound := 404.
Definition StatusMethodNotAllowed := 405.
Definition StatusConflict := 409.
Definition StatusExpectationFailed := 417.
Definition StatusFailedDependency := 424.
Definition StatusInternalServerError := 500.
Definition StatusServiceUnavailable := 503.

(** http.Error appends a newline to the text. *)
Definition http_Error (msg : string) (code : Z) : Resp :=
  mkResp code (BText (msg +:+ String (ascii_of_nat 10) "")).

(** w.WriteHeader(code): net/http panics on a code outside 100..999. *)
Definition WriteHeader {W : Type} (code : Z) : M W () :=
  if (100 <=? code) && (code <=? 999) then ret () else panic.

(** The [{"message", "description"}] object the handlers answer errors with (Go encodes
    map keys in sorted order). *)
Definition errMsg (message description : string) : json :=
  JObj [("description"%string, JStr description); ("message"%string, JStr message)].
