(* ===== verification/Access.v ===== *)
(** * blockchain/proxy.go, blockchain.go: who may run what

    [serveProxy] takes every request the device accepts from the outside: it verifies the
    signed headers (SignedAuth), asks [authorized] whether the signer may run the action,
    and hands the request to the handler [dispatch] finds. This file models the action
    names, the authorization state and its operations, the dispatch table and the
    server loop. *)

From S2P Require Import Prelude GoStd Json SignedAuth Effects.

#[local] Open Scope string_scope.

(** ** Action names (interface.go, blockchain.go) *)
Definition actionAuth := "auth".
Definition actionSeeded := "account-seeded".
Definition actionAccountExists := "account-exists".
Definition actionAccountCreate := "account-create".
Definition actionAccountFund := "account-fund".
Definition actionAccountBalance := "account-balance".
Definition actionAssetsBalance := "asset-balance".
Definition actionTransferToMumbai := "fula-mumbai-convert_tokens".
Definition actionTransferToGoerli := "fula-goerli-convert_tokens".
Definition actionPoolCreate := "fula-pool-create".
Definition actionPoolJoin := "fula-pool-join".
Definition actionPoolCancelJoin := "fula-pool-cancel_join".
Definition actionPoolRequests := "fula-pool-poolrequests".
Definition actionPoolList := "fula-pool".
Definition actionPoolUserList := "fula-pool-users".
Definition actionPoolVote := "fula-pool-vote".
Definition actionPoolLeave := "fula-pool-leave".
Definition actionManifestUpload := "fula-manifest-upload".
Definition actionManifestStore := "fula-manifest-storage".
Definition actionManifestBatchStore := "fula-manifest-batch_storage".
Definition actionManifestBatchUpload := "fula-manifest-batch_upload".
Definition actionManifestAvailable := "fula-manifest-available".
Definition actionManifestRemove := "fula-manifest-remove".
Definition actionManifestRemoveStorer := "fula-manifest-remove_storer".
Definition actionManifestRemoveStored := "fula-manifest-remove_storing_manifest".
Definition actionManifestAvailableBatch := "fula-manifest-available_batch".
Definition actionManifestAvailableAllaccountsBatch := "fula-manifest-available_allaccounts_batch".
Definition actionBloxFreeSpace := "blox-free-space".
Definition actionEraseBlData := "erase-blockchain-data".
Definition actionWifiRemoveall := "wifi-removeall".
Definition actionReboot := "reboot".
Definition actionPartition := "partition".
Definition actionDeleteFulaConfig := "delete-fula-config".
Definition actionDeleteWifi := "delete-wifi".
Definition actionDisconnectWifi := "disconnect-wifi".
Definition actionGetAccount := "get-account".
Definition actionFetchContainerLogs := "fetch-container-logs".
Definition actionFindBestAndTargetInLogs := "find-bestandtarget-inlogs".
Definition actionGetFolderSize := "get-folder-size".
Definition actionGetDatastoreSize := "get-datastore-size".
Definition actionGetDockerImageBuildDates := "get-docker-image-build-dates".
Definition actionGetClusterInfo := "get-cluster-info".
Definition actionReplicateInPool := "replicate".
Definition actionListPlugins := "list-plugins".
Definition actionInstallPlugin := "install-plugin".
Definition actionUninstallPlugin := "uninstall-plugin".
Definition actionShowPluginStatus := "show-plugin-status".
Definition actionListActivePlugins := "list-active-plugins".
Definition actionGetInstallOutput := "get-install-output".
Definition actionGetInstallStatus := "get-install-status".
Definition actionUpdatePlugin := "update-plugin".
Definition actionChatWithAI := "chat-ai".
Definition actionAutoPinPair := "auto-pin-pair".
Definition actionAutoPinRefresh := "auto-pin-refresh".
Definition actionAutoPinUnpair := "auto-pin-unpair".
Definition actionNasCredentials := "nas-credentials".

(** ** The authorization state *)
Record AuthState := mkAuth {
  authorizer : string;             (** the owner's peer id, "" when the device has none *)
  selfPeerID : string;
  authorizedPeers : gset string
}.

Definition set_peer (bl : AuthState) (subject : string) (allow : bool) : AuthState :=
  mkAuth (authorizer bl) (selfPeerID bl)
    (if allow then {[subject]} ∪ authorizedPeers bl else authorizedPeers bl ∖ {[subject]}).

Definition SetAuth (bl : AuthState) (on subject : string) (allow : bool) : outcome AuthState :=
  if (on =? selfPeerID bl)%string then Ok (set_peer bl subject allow)
  else Err "remote SetAuth not supported".

(** The authorization part of NewFxBlockchain. *)
Definition NewFxBlockchain_auth (authorizer selfPeerID : string) : outcome AuthState :=
  let bl := mkAuth authorizer selfPeerID ∅ in
  if negb (authorizer =? "") && negb (selfPeerID =? "") then SetAuth bl selfPeerID authorizer true
  else Ok bl.

(** The actions of [authorized]'s second case. *)
Definition delegatedActions : list string :=
  [actionBloxFreeSpace; actionAccountFund; actionManifestBatchUpload; actionAssetsBalance;
   actionGetDatastoreSize; actionGetFolderSize; actionFindBestAndTargetInLogs;
   actionFetchContainerLogs; actionChatWithAI; actionEraseBlData; actionWifiRemoveall;
   actionReboot; actionPartition; actionDeleteWifi; actionDisconnectWifi;
   actionDeleteFulaConfig; actionGetAccount; actionSeeded; actionAccountExists;
   actionPoolCreate; actionPoolJoin; actionPoolCancelJoin; actionPoolRequests;
   actionPoolList; actionPoolVote; actionPoolLeave; actionManifestUpload;
   actionManifestStore; actionManifestAvailable; actionManifestRemove;
   actionManifestRemoveStorer; actionManifestRemoveStored; actionTransferToMumbai;
   actionListPlugins; actionListActivePlugins; actionInstallPlugin; actionUninstallPlugin;
   actionGetInstallStatus; actionGetInstallOutput; actionUpdatePlugin;
   actionGetDockerImageBuildDates; actionGetClusterInfo; actionAutoPinPair;
   actionAutoPinRefresh; actionAutoPinUnpair].

Definition authorized (bl : AuthState) (pid action : string) : bool :=
  if (action =? actionReplicateInPool)%string then
    (authorizer bl =? selfPeerID bl) || (authorizer bl =? "")
  else if bool_decide (action ∈ delegatedActions) then
    bool_decide (pid ∈ authorizedPeers bl)
  else if (action =? actionAuth) || (action =? actionNasCredentials) then
    (pid =? authorizer bl) && negb (authorizer bl =? "")
  else false.

(** ** The dispatch table *)
Inductive Handler :=
| HAction (method action : string)
| HPoolJoin | HPoolCancelJoin | HPoolLeave
| HManifestBatchUpload | HReplicateInPool | HAuthorization
| HBloxFreeSpace | HWifiRemoveall | HReboot | HPartition | HDeleteFulaConfig
| HDeleteWifi | HDisconnectWifi | HGetAccount | HEraseBlData
| HFetchContainerLogs | HChatWithAI | HFindBestAndTargetInLogs
| HGetFolderSize | HGetDatastoreSize | HGetDockerImageBuildDates | HGetClusterInfo
| HPlugin (action : string)
| HAutoPinPair | HAutoPinRefresh | HAutoPinUnpair
| HNasCredentials.

Definition MethodGet := "GET".
Definition MethodPost := "POST".

Definition actionMap : list (string * Handler) :=
  [(actionSeeded, HAction MethodPost actionSeeded);
   (actionAccountExists, HAction MethodPost actionAccountExists);
   (actionAssetsBalance, HAction MethodPost actionAssetsBalance);
   (actionTransferToGoerli, HAction MethodPost actionTransferToGoerli);
   (actionTransferToMumbai, HAction MethodPost actionTransferToMumbai);
   (actionPoolCreate, HAction MethodPost actionPoolCreate);
   (actionPoolJoin, HPoolJoin);
   (actionPoolCancelJoin, HPoolCancelJoin);
   (actionPoolRequests, HAction MethodGet actionPoolRequests);
   (actionPoolList, HAction MethodGet actionPoolList);
   (actionPoolVote, HAction MethodPost actionPoolVote);
   (actionPoolLeave, HPoolLeave);
   (actionManifestUpload, HAction MethodPost actionManifestUpload);
   (actionManifestStore, HAction MethodPost actionManifestStore);
   (actionManifestAvailable, HAction MethodPost actionManifestAvailable);
   (actionManifestBatchStore, HAction MethodPost actionManifestBatchStore);
   (actionManifestBatchUpload, HManifestBatchUpload);
   (actionManifestRemove, HAction MethodPost actionManifestRemove);
   (actionManifestRemoveStorer, HAction MethodPost actionManifestRemoveStorer);
   (actionManifestRemoveStored, HAction MethodPost actionManifestRemoveStored);
   (actionReplicateInPool, HReplicateInPool);
   (actionAuth, HAuthorization);
   (actionBloxFreeSpace, HBloxFreeSpace);
   (actionWifiRemoveall, HWifiRemoveall);
   (actionReboot, HReboot);
   (actionPartition, HPartition);
   (actionDeleteFulaConfig, HDeleteFulaConfig);
   (actionDeleteWifi, HDeleteWifi);
   (actionDisconnectWifi, HDisconnectWifi);
   (actionGetAccount, HGetAccount);
   (actionEraseBlData, HEraseBlData);
   (actionFetchContainerLogs, HFetchContainerLogs);
   (actionChatWithAI, HChatWithAI);
   (actionFindBestAndTargetInLogs, HFindBestAndTargetInLogs);
   (actionGetFolderSize, HGetFolderSize);
   (actionGetDatastoreSize, HGetDatastoreSize);
   (actionGetDockerImageBuildDates, HGetDockerImageBuildDates);
   (actionGetClusterInfo, HGetClusterInfo);
   (actionListPlugins, HPlugin actionListPlugins);
   (actionListActivePlugins, HPlugin actionListActivePlugins);
   (actionInstallPlugin, HPlugin actionInstallPlugin);
   (actionUninstallPlugin, HPlugin actionUninstallPlugin);
   (actionShowPluginStatus, HPlugin actionShowPluginStatus);
   (actionGetInstallOutput, HPlugin actionGetInstallOutput);
   (actionGetInstallStatus, HPlugin actionGetInstallStatus);
   (actionUpdatePlugin, HPlugin actionUpdatePlugin);
   (actionAutoPinPair, HAutoPinPair);
   (actionAutoPinRefresh, HAutoPinRefresh);
   (actionAutoPinUnpair, HAutoPinUnpair);
   (actionNasCredentials, HNasCredentials)].

Definition route (action : string) : option Handler :=
  list_to_map (M := gmap string Handler) actionMap !! action.

(** ** The server *)
Section server.
Context `{PeerCrypto}.

(** The handlers other than [handleAuthorization] work on the rest of the device's
    state [W]; none of them is given the authorization state. *)
Context {W : Type} (run : Handler -> string -> option string -> M W Resp).

(** json.Unmarshal into [authorizationRequest]; peer.ID decodes from its text form. *)
Definition dec_peer_id (_ : string) (j : json) : option string :=
  match j with
  | JNull => match peer_Decode "" with Ok p => Some p | _ => None end
  | JStr s => match peer_Decode s with Ok p => Some p | _ => None end
  | _ => None
  end.

Definition decode_authorizationRequest (b : string) : option (string * bool) :=
  j ← json_parse b;
  l ← as_object j;
  let '(subject, ok1) := decode_field dec_peer_id "" (obj_field "id" l) in
  let '(allow, ok2) := field_bool false (obj_field "allow" l) in
  if ok1 && ok2 then Some (subject, allow) else None.

Definition handleAuthorization (body : option string) (bl : AuthState) : Resp * AuthState :=
  match body with
  | None => (http_Error "" StatusInternalServerError, bl)
  | Some b =>
      match decode_authorizationRequest b with
      | None => (http_Error "" StatusBadRequest, bl)
      | Some (subject, allow) => (mkResp StatusOK BEmpty, set_peer bl subject allow)
      end
  end.

Definition dispatch (from action : string) (body : option string) : M (AuthState * W) Resp :=
  fun st =>
    match route action with
    | None => (Ok (http_Error "" StatusNotFound), st)
    | Some HAuthorization =>
        let '(r, bl) := handleAuthorization body st.1 in (Ok r, (bl, st.2))
    | Some h => let '(r, w) := run h from body st.2 in (r, (st.1, w))
    end.

Definition serveProxy (now : Z) (r : Request) : M (AuthState * W) Resp :=
  fun st =>
    match verifySignedRequest now r with
    | Panic => (Panic, st)
    | Err _ => (Ok (http_Error "" StatusUnauthorized), st)
    | Ok (from, bodyBytes) =>
        let action := path_base (Path r) in
        if authorized st.1 from action then dispatch from action (Some bodyBytes) st
        else (Ok (http_Error "" StatusUnauthorized), st)
    end.

(** Requests served one after the other, each at its own time. A panic is recovered by
    net/http's server, which closes the connection and goes on. *)
Definition serve_all (reqs : list (Z * Request)) (st : AuthState * W) : AuthState * W :=
  fold_left (fun st nr => (serveProxy nr.1 nr.2 st).2) reqs st.

(** ** What the server guarantees *)

(** The classes of signer that may run an action. *)
Inductive may_run (bl : AuthState) (from action : string) : Prop :=
| may_replicate :
    action = actionReplicateInPool -> authorizer bl = selfPeerID bl \/ authorizer bl = "" ->
    may_run bl from action
| may_delegated :
    action ∈ delegatedActions -> from ∈ authorizedPeers bl -> may_run bl from action
| may_own :
    action = actionAuth \/ action = actionNasCredentials ->
    from = authorizer bl -> authorizer bl <> "" -> may_run bl from action.

Lemma replicate_not_delegated : actionReplicateInPool ∉ delegatedActions.
Proof. apply (bool_decide_unpack _); vm_compute; done. Qed.

Lemma owner_not_delegated a : a = actionAuth \/ a = actionNasCredentials -> a ∉ delegatedActions.
Proof. intros [-> | ->]; apply (bool_decide_unpack _); vm_compute; done. Qed.

Lemma authorized_may_run bl from action : authorized bl from action = true <-> may_run bl from action.
Proof.
  unfold authorized. split.
  - destruct (String.eqb_spec action actionReplicateInPool) as [->|Hr].
    { rewrite orb_true_iff, !String.eqb_eq. by apply may_replicate. }
    case_bool_decide as Hd; [intros Hp; bool_to_prop; by apply may_delegated|].
    destruct (_ || _) eqn:Ho; [|done]. rewrite orb_true_iff, !String.eqb_eq in Ho.
    intros Hp. bool_to_prop. by apply may_own.
  - intros [-> Ha | Hd Hp | Ho -> Hne].
    + rewrite String.eqb_refl, orb_true_iff, !String.eqb_eq. done.
    + destruct (String.eqb_spec action actionReplicateInPool) as [->|Hr];
        [by destruct (replicate_not_delegated)|].
      by rewrite !bool_decide_true.
    + pose proof (owner_not_delegated _ Ho) as Hd.
      destruct (String.eqb_spec action actionReplicateInPool) as [->|Hr]; [by destruct Ho|].
      rewrite bool_decide_false by done.
      apply String.eqb_neq in Hne. rewrite String.eqb_refl, Hne, andb_true_r.
      rewrite (proj2 (orb_true_iff _ _)); [done | by rewrite !String.eqb_eq].
Qed.

Lemma serveProxy_cases now r st res st' :
  serveProxy now r st = (res, st') ->
  (st' = st /\ (res = Ok (http_Error "" StatusUnauthorized) \/ res = Panic)) \/
  (exists from body, verifySignedRequest now r = Ok (from, body) /\
     may_run st.1 from (path_base (Path r)) /\
     dispatch from (path_base (Path r)) (Some body) st = (res, st')).
Proof.
  unfold serveProxy. destruct (verifySignedRequest now r) as [[from body]|e|]; try naive_solver.
  destruct (authorized _ _ _) eqn:Ha; [|naive_solver].
  intros Hd. right. exists from, body. split; [done|]. split; [by apply authorized_may_run | done].
Qed.

(** C2. The gate: a request is passed to the handler table exactly when its signature
    verifies and its signer may run its action (replication on a device that is its own
    owner or has none, ordinary actions for peers the owner authorized, authorization
    changes and NAS credentials for the owner alone); any other request is answered 401
    and leaves the device as it was. *)
Theorem serveProxy_gate now r st :
  verifySignedRequest now r <> Panic ->
  (exists from body, verifySignedRequest now r = Ok (from, body) /\
     may_run st.1 from (path_base (Path r)) /\
     serveProxy now r st = dispatch from (path_base (Path r)) (Some body) st) \/
  ((forall from body, verifySignedRequest now r = Ok (from, body) ->
     ~ may_run st.1 from (path_base (Path r))) /\
   serveProxy now r st = (Ok (http_Error "" StatusUnauthorized), st)).
Proof.
  intros Hp. unfold serveProxy. destruct (verifySignedRequest now r) as [[from body]|e|]; [|naive_solver|done].
  destruct (authorized _ _ _) eqn:Ha; [left|right].
  - exists from, body. by rewrite <- authorized_may_run.
  - split; [|done]. intros ? ? [= <- <-]. by rewrite <- authorized_may_run, Ha.
Qed.

Lemma dispatch_auth_state from action body st :
  (dispatch from action body st).2.1 =
  match route action with
  | Some HAuthorization => (handleAuthorization body st.1).2
  | _ => st.1
  end.
Proof.
  unfold dispatch. destruct (route action) as [[]|]; try done;
    try (by destruct (run _ _ _ _)). by destruct (handleAuthorization _ _).
Qed.

Lemma route_auth a : route a = Some HAuthorization -> a = actionAuth.
Proof.
  unfold route. intros Hl%elem_of_list_to_map_2. revert Hl. unfold actionMap.
  intros Hl. repeat (apply elem_of_cons in Hl as [Hh|Hl]; [by simplify_eq|]). by apply not_elem_of_nil in Hl.
Qed.

(** A grant or a withdrawal by the owner, as the server sees it. *)
Definition owner_sets (bl : AuthState) (nr : Z * Request) (p : string) (allow : bool) : Prop :=
  exists body, verifySignedRequest nr.1 nr.2 = Ok (authorizer bl, body) /\ authorizer bl <> "" /\
    path_base (Path nr.2) = actionAuth /\ decode_authorizationRequest body = Some (p, allow).

Lemma serveProxy_auth now r st :
  let st' := (serveProxy now r st).2 in
  st'.1 = st.1 \/
  exists p allow, owner_sets st.1 (now, r) p allow /\ st'.1 = set_peer st.1 p allow.
Proof.
  intros st'. subst st'. destruct (serveProxy now r st) as [res st'] eqn:E.
  apply serveProxy_cases in E as [[-> _]|(from & body & Hv & Hm & Hd)]; [by left|].
  pose proof (dispatch_auth_state from (path_base (Path r)) (Some body) st) as Ha.
  rewrite Hd in Ha. cbn [snd] in *. rewrite Ha.
  destruct (route _) as [[]|] eqn:Er; try (by left).
  apply route_auth in Er. unfold handleAuthorization.
  destruct (decode_authorizationRequest body) as [[p allow]|] eqn:Hdec; [|by left].
  right. exists p, allow. split; [|done]. exists body. cbn [fst snd].
  destruct Hm as [Hc _|Hdel _|_ -> Hne]; [by rewrite Er in Hc | | done].
  rewrite Er in Hdel. by apply (owner_not_delegated actionAuth) in Hdel; [|left].
Qed.

Lemma serve_all_owner reqs st : authorizer (serve_all reqs st).1 = authorizer st.1.
Proof.
  unfold serve_all. revert st. induction reqs as [|[now r] reqs IH]; intros st; [done|].
  cbn [fold_left fst snd]. rewrite IH.
  destruct (serveProxy_auth now r st) as [-> | (p & a & _ & ->)]; done.
Qed.

Lemma owner_sets_same bl bl' nr p allow :
  authorizer bl = authorizer bl' -> owner_sets bl nr p allow -> owner_sets bl' nr p allow.
Proof. unfold owner_sets. by intros ->. Qed.

Lemma set_peer_elem bl p allow q :
  q ∈ authorizedPeers (set_peer bl p allow) ->
  q ∈ authorizedPeers bl /\ (allow = true \/ p <> q) \/ (q = p /\ allow = true).
Proof. unfold set_peer. cbn [authorizedPeers]. destruct allow; set_solver. Qed.

Lemma serve_all_provenance reqs st p :
  p ∈ authorizedPeers (serve_all reqs st).1 ->
  p ∈ authorizedPeers st.1 \/ exists nr, nr ∈ reqs /\ owner_sets st.1 nr p true.
Proof.
  unfold serve_all. revert st. induction reqs as [|[now r] reqs IH]; intros st Hp; [by left|].
  cbn [fold_left fst snd] in Hp. apply IH in Hp.
  destruct (serveProxy_auth now r st) as [Hs | (q & a & Ho & Hs)]; rewrite Hs in Hp.
  - destruct Hp as [Hp|(nr & Hin & Hset)]; [by left | right; exists nr; split; [by right|done]].
  - destruct Hp as [Hp|(nr & Hin & Hset)]; [|right; exists nr; split; [by right|done]].
    apply set_peer_elem in Hp as [[Hp _]|[-> ->]]; [by left | right]. exists (now, r). split; [by left|done].
Qed.

(** C6. Where authorization comes from: after any sequence of requests to a freshly
    started device, a peer in the authorized set either is the owner or was put there by
    a request of the sequence that the owner signed, for the action auth, with a body
    that grants this peer. *)
Theorem authorized_provenance owner self bl reqs w p :
  NewFxBlockchain_auth owner self = Ok bl ->
  p ∈ authorizedPeers (serve_all reqs (bl, w)).1 ->
  (p = owner /\ owner <> "") \/ exists nr, nr ∈ reqs /\ owner_sets bl nr p true.
Proof.
  intros Hnew [Hp|Hr]%serve_all_provenance; [left|by right]. cbn [fst] in Hp.
  unfold NewFxBlockchain_auth, SetAuth in Hnew. cbn [selfPeerID] in Hnew.
  destruct (_ && _) eqn:E; [|set_solver]. bool_to_prop. rewrite String.eqb_refl in Hnew. set_solver.
Qed.

(** A device without an owner cannot be opened over the network: whatever requests
    it is sent, as long as none asks for replication, nothing on it changes: not the
    authorization state, not the rest of its state. *)
Theorem no_owner_locked reqs self w :
  Forall (fun nr => path_base (Path nr.2) <> actionReplicateInPool) reqs ->
  exists bl, NewFxBlockchain_auth "" self = Ok bl /\ serve_all reqs (bl, w) = (bl, w).
Proof.
  intros Hreqs. exists (mkAuth "" self ∅). split; [done|].
  induction Hreqs as [|[now r] reqs Hr _ IH]; [done|]. unfold serve_all in *. cbn [fold_left fst snd].
  destruct (serveProxy now r _) as [res st'] eqn:E.
  apply serveProxy_cases in E as [[-> _]|(from & body & _ & Hm & _)]; [exact IH|].
  exfalso. destruct Hm; set_solver.
Qed.

(** Withdrawal works: once the owner has withdrawn a peer, and until the owner grants
    it again, every ordinary request the peer signs is answered 401 and changes nothing. *)
Theorem revoked_peer_rejected now0 r0 now r body reqs p st :
  owner_sets st.1 (now0, r0) p false ->
  Forall (fun nr => ~ owner_sets st.1 nr p true) reqs ->
  verifySignedRequest now r = Ok (p, body) -> path_base (Path r) ∈ delegatedActions ->
  let st1 := serve_all ((now0, r0) :: reqs) st in
  serveProxy now r st1 = (Ok (http_Error "" StatusUnauthorized), st1).
Proof.
  intros Ho Hreqs Hv Hdel st1.
  assert (p ∉ authorizedPeers st1.1) as Hnot.
  { subst st1. cbn [serve_all fold_left fst snd].
    assert ((serveProxy now0 r0 st).2.1 = set_peer st.1 p false) as Hs.
    { destruct Ho as (b & Hv0 & Hne & Hact & Hdec). cbn [fst snd] in *.
      unfold serveProxy. rewrite Hv0, Hact.
      rewrite (proj2 (authorized_may_run _ _ _)) by (apply may_own; auto).
      rewrite dispatch_auth_state. change (route actionAuth) with (Some HAuthorization).
      cbn [handleAuthorization]. by rewrite Hdec. }
    intros Hp. fold (serve_all reqs (serveProxy now0 r0 st).2) in Hp.
    apply serve_all_provenance in Hp as [Hp|(nr & Hin & Hset)].
    - rewrite Hs in Hp. apply set_peer_elem in Hp as [[_ [?|?]]|[_ ?]]; done.
    - rewrite Forall_forall in Hreqs. apply (Hreqs _ Hin).
      eapply owner_sets_same; [|exact Hset]. by rewrite Hs. }
  unfold serveProxy. rewrite Hv. destruct (authorized _ _ _) eqn:Ha; [exfalso|done].
  apply authorized_may_run in Ha as [Hc _|_ Hp|Hc _ _]; [|done|].
  - rewrite Hc in Hdel. by destruct replicate_not_delegated.
  - by apply owner_not_delegated in Hc.
Qed.

End server.

(** ** Coverage of the two tables *)

(** The actions the table routes but no peer of any device may run are exactly the
    Goerli transfer, batch storage and plugin status; every other routed action can be
    run by some peer of some device. *)
Theorem routed_but_never_authorized a h :
  route a = Some h ->
  (forall bl pid, authorized bl pid a = false) <->
  a ∈ [actionTransferToGoerli; actionManifestBatchStore; actionShowPluginStatus].
Proof.
  intros Hr. set (bl0 := mkAuth "o" "o" {["o"]}).
  assert (forallb (fun ah => bool_decide (ah.1 ∈ [actionTransferToGoerli; actionManifestBatchStore;
            actionShowPluginStatus]) || authorized bl0 "o" ah.1) actionMap = true) as Hall
    by (vm_compute; reflexivity).
  rewrite forallb_forall in Hall. split.
  - intros Hno. unfold route in Hr. apply elem_of_list_to_map_2, list_elem_of_In in Hr. apply Hall in Hr.
    cbn [fst] in Hr. rewrite Hno, orb_false_r in Hr. by apply bool_decide_eq_true in Hr.
  - intros Hin bl pid. unfold authorized.
    rewrite bool_decide_false.
    2: { intros Hd. assert (forallb (fun x => negb (bool_decide (x ∈ delegatedActions)))
           [actionTransferToGoerli; actionManifestBatchStore; actionShowPluginStatus] = true) as Hn
           by (vm_compute; reflexivity).
         rewrite forallb_forall in Hn. apply list_elem_of_In, Hn in Hin.
         by rewrite bool_decide_true in Hin. }
    by repeat (apply elem_of_cons in Hin as [->|Hin]); [..|apply not_elem_of_nil in Hin].
Qed.

(** ** Concrete runs *)
Section concrete.
#[local] Existing Instance toyCrypto.

Definition toy_send (peer action body : string) : Z * Request :=
  (1700000000,
   mkRequest ("/" +:+ action)
    (<[headerSignature := b64_encode (peer +:+ signed_message action "1700000000" body)]>
     (<[headerTimestamp := "1700000000"%string]> (<[headerPeerID := peer]> ∅)))
    (Some (Some body))).

(** A rest-of-the-device that records which handler ran for whom. *)
Definition toy_run (h : Handler) (from : string) (_ : option string) : M (list (Handler * string)) Resp :=
  fun log => (Ok (mkResp StatusOK BEmpty), (h, from) :: log).

Definition owned : AuthState := mkAuth "olga" "blox" {["olga"]}.

Definition grant_bob := toy_send "olga" "auth" (jq "{'id':'bob','allow':true}").
Definition withdraw_bob := toy_send "olga" "auth" (jq "{'id':'bob','allow':false}").

Lemma serveProxy_gate_witness :
  (serveProxy toy_run 1700000000 (toy_send "bob" "reboot" "").2
     (serve_all toy_run [grant_bob] (owned, []))).2.2 = [(HReboot, "bob")] /\
  (let nr := toy_send "bob" "nas-credentials" "" in
   (exists from body, verifySignedRequest nr.1 nr.2 = Ok (from, body) /\
     may_run owned from (path_base (Path nr.2)) /\
     serveProxy toy_run nr.1 nr.2 (owned, []) =
       dispatch toy_run from (path_base (Path nr.2)) (Some body) (owned, [])) \/
   ((forall from body, verifySignedRequest nr.1 nr.2 = Ok (from, body) ->
     ~ may_run owned from (path_base (Path nr.2))) /\
    serveProxy toy_run nr.1 nr.2 (owned, []) = (Ok (http_Error "" StatusUnauthorized), (owned, [])))).
Proof.
  split; [vm_compute; reflexivity|].
  apply (serveProxy_gate toy_run 1700000000 (toy_send "bob" "nas-credentials" "").2 (owned, [])).
  vm_compute. discriminate.
Defined.

Lemma authorized_provenance_witness :
  ("bob" = "olga" /\ "olga" <> "") \/ exists nr, nr ∈ [grant_bob] /\ owner_sets owned nr "bob" true.
Proof.
  apply (authorized_provenance toy_run "olga" "blox" owned [grant_bob] [] "bob").
  - vm_compute. reflexivity.
  - apply (bool_decide_unpack _). vm_compute. exact I.
Defined.

Lemma no_owner_locked_witness :
  exists bl, NewFxBlockchain_auth "" "blox" = Ok bl /\
    serve_all toy_run [grant_bob; toy_send "bob" "reboot" ""] (bl, []) = (bl, []).
Proof.
  apply (no_owner_locked toy_run [grant_bob; toy_send "bob" "reboot" ""] "blox" []).
  repeat constructor; vm_compute; discriminate.
Defined.

Lemma revoked_peer_rejected_witness :
  let st1 := serve_all toy_run [withdraw_bob] (mkAuth "olga" "blox" {["olga"; "bob"]}, []) in
  serveProxy toy_run 1700000000 (toy_send "bob" "reboot" "").2 st1 =
    (Ok (http_Error "" StatusUnauthorized), st1).
Proof.
  apply (revoked_peer_rejected toy_run 1700000000 withdraw_bob.2 1700000000 _ "" [] "bob"
           (mkAuth "olga" "blox" {["olga"; "bob"]}, [])).
  - eexists. split; [vm_compute; reflexivity|]. split; [discriminate|].
    split; vm_compute; reflexivity.
  - constructor.
  - vm_compute. reflexivity.
  - apply (bool_decide_unpack _). vm_compute. exact I.
Defined.

Lemma routed_but_never_authorized_witness :
  (forall bl pid, authorized bl pid actionShowPluginStatus = false) <->
  actionShowPluginStatus ∈ [actionTransferToGoerli; actionManifestBatchStore; actionShowPluginStatus].
Proof. apply (routed_but_never_authorized _ (HPlugin actionShowPluginStatus)). vm_compute. reflexivity. Defined.

End concrete.
