(* ===== verification/Node.v ===== *)
(** * blockchain/options.go: the state of an FxBlockchain instance

    [Options] is what the constructor fixes; [Node] is what the operations change: the
    pool configuration behind the four accessor functions, the files, the member map, the
    ping server and the restarts the node has asked for. The accessor functions are an
    interface, [PoolStore]: the blox program implements them on its config file
    (ConfigFile.v), the package defaults ignore writes. *)

From S2P Require Import Prelude GoStd Json Effects.

#[local] Open Scope string_scope.
#[local] Open Scope Z_scope.

(** ** The pool configuration interface

    Each accessor may read and write the config file; its argument says what the file
    system does. An update returns its error, if any. *)
Class PoolStore (S : Type) := {
  ps_getPoolName : FsResult -> S -> string * S;
  ps_getChainName : FsResult -> S -> string * S;
  ps_updatePoolName : FsResult -> FsResult -> string -> S -> option string * S;
  ps_updateChainName : FsResult -> FsResult -> string -> S -> option string * S;
  (** what the accessors work on once the file has been deleted behind their back *)
  ps_fileRemoved : S -> S
}.

(** What a client may rely on: there is a stored pool and a stored chain; a read that works
    returns them, one that fails returns 0 and the empty chain, and no read changes them; a write that reports success has stored its
    argument and left the other name alone, and a write of the stored value changes
    nothing, whether it succeeds or not; without the file the pool reads as 0 and the
    chain as empty. *)
Class PoolStoreLaws (S : Type) `{PoolStore S} := {
  stored_pool : S -> string;
  stored_chain : S -> string;
  get_pool_ok : forall s, (ps_getPoolName FsOk s).1 = stored_pool s;
  get_chain_ok : forall s, (ps_getChainName FsOk s).1 = stored_chain s;
  get_pool_err : forall l s, (ps_getPoolName (FsErr l) s).1 = "0";
  get_chain_err : forall l s, (ps_getChainName (FsErr l) s).1 = "";
  get_pool_keeps : forall r s, let s' := (ps_getPoolName r s).2 in
    stored_pool s' = stored_pool s /\ stored_chain s' = stored_chain s;
  get_chain_keeps : forall r s, let s' := (ps_getChainName r s).2 in
    stored_pool s' = stored_pool s /\ stored_chain s' = stored_chain s;
  update_pool_ok : forall r1 r2 n s s', ps_updatePoolName r1 r2 n s = (None, s') ->
    stored_pool s' = n /\ stored_chain s' = stored_chain s;
  update_chain_ok : forall r1 r2 n s s', ps_updateChainName r1 r2 n s = (None, s') ->
    stored_chain s' = n /\ stored_pool s' = stored_pool s;
  update_pool_same : forall r1 r2 s, let s' := (ps_updatePoolName r1 r2 (stored_pool s) s).2 in
    stored_pool s' = stored_pool s /\ stored_chain s' = stored_chain s;
  update_chain_same : forall r1 r2 s, let s' := (ps_updateChainName r1 r2 (stored_chain s) s).2 in
    stored_pool s' = stored_pool s /\ stored_chain s' = stored_chain s;
  file_removed_pool : forall s, stored_pool (ps_fileRemoved s) = "0";
  file_removed_chain : forall s, stored_chain (ps_fileRemoved s) = ""
}.

(** ** Options *)
Record ChainConfig := mkChain {
  cc_Name : string; ChainID : Z; RPC : string; BackupRPC : string; Contract : string
}.

Record Options := mkOptions {
  timeout : Z;
  blockchainEndPoint : string;
  topicName : string;
  selfPeer : string;            (** selfPeerID.String() *)
  clusterPeerID : string;       (** clusterPeerID.String(), "" when not set *)
  poolHost : bool;
  onPoolConfigCleared : bool;   (** is the hook set *)
  chainConfigOverride : option (gmap string ChainConfig)
}.

(** newOptions without arguments, and the constructors that change a field above. *)
Definition newOptions : Options := {|
  timeout := 30;
  blockchainEndPoint := "api.node3.functionyard.fula.network";
  topicName := "0";
  selfPeer := "";
  clusterPeerID := "";
  poolHost := false;
  onPoolConfigCleared := false;
  chainConfigOverride := None |}.

Definition WithBlockchainEndPoint (b : string) (o : Options) : Options :=
  mkOptions (timeout o) (if (b =? "")%string then "api.node3.functionyard.fula.network" else b)
    (topicName o) (selfPeer o) (clusterPeerID o) (poolHost o) (onPoolConfigCleared o)
    (chainConfigOverride o).

(** The package's default accessors. *)
#[export] Instance defaultStore : PoolStore unit := {|
  ps_getPoolName := fun _ s => ("0", s);
  ps_getChainName := fun _ s => ("", s);
  ps_updatePoolName := fun _ _ _ s => (None, s);
  ps_updateChainName := fun _ _ _ s => (None, s);
  ps_fileRemoved := fun s => s |}.

(** ** The node *)
Record Node (S : Type) := mkNode {
  n_fx : nat;                       (** effects performed so far *)
  n_store : S;
  n_files : gmap string string;
  n_members : gmap string Z;        (** members: peer to MemberStatus *)
  n_pingServer : option bool;       (** pingServer: not set, or set and serving or shut down *)
  n_restarts : list Z;              (** delays of the onPoolConfigCleared hooks started *)
  n_cmds : list (list string)       (** commands asked for, as argument vectors,
                                         also those that could not be started *)
}.
Arguments mkNode {S} _ _ _ _ _ _ _.
Arguments n_fx {S} _.
Arguments n_store {S} _.
Arguments n_files {S} _.
Arguments n_members {S} _.
Arguments n_pingServer {S} _.
Arguments n_restarts {S} _.
Arguments n_cmds {S} _.

Section ops.
Context {S : Type} `{PoolStore S} `{Env}.

Definition set_store (s : S) (w : Node S) : Node S :=
  mkNode (n_fx w) s (n_files w) (n_members w) (n_pingServer w) (n_restarts w) (n_cmds w).
Definition set_files (f : gmap string string) (w : Node S) : Node S :=
  mkNode (n_fx w) (n_store w) f (n_members w) (n_pingServer w) (n_restarts w) (n_cmds w).
Definition set_members (m : gmap string Z) (w : Node S) : Node S :=
  mkNode (n_fx w) (n_store w) (n_files w) m (n_pingServer w) (n_restarts w) (n_cmds w).
Definition set_ping (b : option bool) (w : Node S) : Node S :=
  mkNode (n_fx w) (n_store w) (n_files w) (n_members w) b (n_restarts w) (n_cmds w).
Definition add_restart (d : Z) (w : Node S) : Node S :=
  mkNode (n_fx w) (n_store w) (n_files w) (n_members w) (n_pingServer w) (n_restarts w ++ [d]) (n_cmds w).
Definition add_cmd (argv : list string) (w : Node S) : Node S :=
  mkNode (n_fx w) (n_store w) (n_files w) (n_members w) (n_pingServer w) (n_restarts w) (n_cmds w ++ [argv]).
Definition bump (w : Node S) : Node S :=
  mkNode (Datatypes.S (n_fx w)) (n_store w) (n_files w) (n_members w) (n_pingServer w) (n_restarts w) (n_cmds w).

(** *** Effects *)
Definition http_Do (url : string) (payload : json) : M (Node S) HttpReply :=
  fun w => (Ok (env_http (n_fx w) url payload), bump w).
(** [select { case <-ctx.Done(): false; case <-time.After(d): true }] *)
Definition time_After (d : Z) : M (Node S) bool := fun w => (Ok (env_timer (n_fx w) d), bump w).
Definition time_Now : M (Node S) Z := fun w => (Ok (env_now (n_fx w)), bump w).
Definition fs_step : M (Node S) FsResult := fun w => (Ok (env_fs (n_fx w)), bump w).

Definition os_ReadFile (path : string) : M (Node S) (option string) :=
  r <- fs_step;; gets (fun w => match r with FsOk => n_files w !! path | FsErr _ => None end).
Definition os_Stat (path : string) : M (Node S) bool :=
  r <- fs_step;;
  gets (fun w => match r with FsOk => bool_decide (is_Some (n_files w !! path)) | FsErr _ => false end).
Definition os_MkdirAll (path : string) : M (Node S) () :=
  r <- fs_step;; match r with FsOk => ret () | FsErr _ => raise "mkdir" end.
Definition os_WriteFile (path data : string) : M (Node S) () :=
  r <- fs_step;;
  match r with
  | FsOk => modify (fun w => set_files (<[path := data]> (n_files w)) w)
  | FsErr None => raise "write"
  | FsErr (Some n) => modify (fun w => set_files (<[path := stake n data]> (n_files w)) w);;; raise "write"
  end.
(** os.Remove, whose only failure the callers look at is one other than not-exist. *)
Definition os_Remove (path : string) : M (Node S) () :=
  r <- fs_step;;
  match r with
  | FsOk => modify (fun w => set_files (delete path (n_files w)) w)
  | FsErr _ => raise "remove"
  end.

(** *** The accessors *)
Definition getPoolName : M (Node S) string :=
  r <- fs_step;; fun w => let '(v, s) := ps_getPoolName r (n_store w) in (Ok v, set_store s w).
Definition getChainName : M (Node S) string :=
  r <- fs_step;; fun w => let '(v, s) := ps_getChainName r (n_store w) in (Ok v, set_store s w).
Definition updatePoolName (n : string) : M (Node S) () :=
  r1 <- fs_step;; r2 <- fs_step;;
  fun w => let '(v, s) := ps_updatePoolName r1 r2 n (n_store w) in
           (match v with None => Ok () | Some e => Err e end, set_store s w).
Definition updateChainName (n : string) : M (Node S) () :=
  r1 <- fs_step;; r2 <- fs_step;;
  fun w => let '(v, s) := ps_updateChainName r1 r2 n (n_store w) in
           (match v with None => Ok () | Some e => Err e end, set_store s w).

(** os.Remove of the config file itself: the file is gone from the disk and for the
    accessors. *)
Definition os_RemoveConfig (path : string) : M (Node S) () :=
  os_Remove path;;; modify (fun w => set_store (ps_fileRemoved (n_store w)) w).

(** *** Members *)
Definition IsMembersEmpty (w : Node S) : bool := bool_decide (n_members w = ∅).
Definition GetMemberStatus (id : string) (w : Node S) : Z * bool :=
  match n_members w !! id with
  | Some st => (st, true)
  | None => (0, false)
  end.
Definition GetMembers (w : Node S) : gmap string Z := n_members w.
Definition clearPoolPeersFromPeerAddr (topic : Z) : M (Node S) () := modify (set_members ∅).

(** *** The ping server *)
(** http.Server.Shutdown closes the listener, then waits for the connections to become
    idle or the context to be done, and in the latter case reports the context's error. *)
Definition ShutdownPingProxy : M (Node S) () :=
  p <- gets n_pingServer;;
  match p with
  | None => ret ()
  | Some _ =>
      modify (set_ping (Some false));;;
      idle <- time_After 0;;
      if (idle : bool) then ret () else raise "context deadline exceeded"
  end.
Definition StopPingServer : M (Node S) () := ShutdownPingProxy.

(** *** The hook *)
Definition signalPoolConfigCleared (o : Options) (delay : Z) : M (Node S) () :=
  if onPoolConfigCleared o then modify (add_restart delay) else ret ().

(** ** Frames: what an operation leaves alone *)

(** Only the effect counter moved. *)
Definition only_fx (w w' : Node S) : Prop :=
  (n_fx w <= n_fx w')%nat /\ n_store w' = n_store w /\ n_files w' = n_files w /\
  n_members w' = n_members w /\ n_pingServer w' = n_pingServer w /\ n_restarts w' = n_restarts w /\
  n_cmds w' = n_cmds w.

#[global] Instance only_fx_preorder : PreOrder only_fx.
Proof.
  split.
  - intros w. unfold only_fx. split_and!; (done || lia).
  - intros w1 w2 w3. unfold only_fx. intros H1 H2. destruct_and!. split_and!; (lia || congruence).
Qed.

Lemma only_fx_http url j : keeps only_fx (http_Do url j).
Proof. intros w. unfold only_fx. simpl. split_and!; (done || lia). Qed.
Lemma only_fx_timer d : keeps only_fx (time_After d).
Proof. intros w. unfold only_fx. simpl. split_and!; (done || lia). Qed.
Lemma only_fx_now : keeps only_fx time_Now.
Proof. intros w. unfold only_fx. simpl. split_and!; (done || lia). Qed.
Lemma only_fx_fs : keeps only_fx fs_step.
Proof. intros w. unfold only_fx. simpl. split_and!; (done || lia). Qed.

Context `{L : !PoolStoreLaws S}.

(** The stored pool and chain, the files and the restarts are as before. *)
Definition same_config (w w' : Node S) : Prop :=
  stored_pool (n_store w') = stored_pool (n_store w) /\
  stored_chain (n_store w') = stored_chain (n_store w) /\
  n_files w' = n_files w /\ n_restarts w' = n_restarts w.

#[global] Instance same_config_preorder : PreOrder same_config.
Proof.
  split.
  - intros w. unfold same_config. auto.
  - intros w1 w2 w3. unfold same_config. intuition congruence.
Qed.

Lemma only_fx_same_config w w' : only_fx w w' -> same_config w w'.
Proof. unfold only_fx, same_config. intuition congruence. Qed.

Lemma keeps_only_fx {A} (m : M (Node S) A) : keeps only_fx m -> keeps same_config m.
Proof. intros Hm w. apply only_fx_same_config, Hm. Qed.

Lemma same_config_getPoolName : keeps same_config getPoolName.
Proof.
  intros w. unfold getPoolName, bind, fs_step. destruct (ps_getPoolName _ _) as [v s] eqn:E.
  pose proof (get_pool_keeps (env_fs (n_fx w)) (n_store w)) as Hk. cbn in *. rewrite E in Hk.
  unfold same_config. simpl in *. intuition auto.
Qed.

Lemma same_config_getChainName : keeps same_config getChainName.
Proof.
  intros w. unfold getChainName, bind, fs_step. destruct (ps_getChainName _ _) as [v s] eqn:E.
  pose proof (get_chain_keeps (env_fs (n_fx w)) (n_store w)) as Hk. cbn in *. rewrite E in Hk.
  unfold same_config. simpl in *. intuition auto.
Qed.

Lemma getPoolName_Ok w v w' : getPoolName w = (Ok v, w') -> v = stored_pool (n_store w) \/ v = "0".
Proof.
  unfold getPoolName, bind, fs_step. cbn. destruct (ps_getPoolName _ _) as [v0 s] eqn:E. intros [= <- <-].
  pose proof (get_pool_ok (n_store w)) as H1. pose proof (fun l => get_pool_err l (n_store w)) as H2.
  destruct (env_fs (n_fx w)) as [|l]; [left|right]; [rewrite <- H1 | rewrite <- (H2 l)]; by rewrite E.
Qed.

Lemma getChainName_Ok w v w' : getChainName w = (Ok v, w') ->
  v = stored_chain (n_store w) \/ (v = "" /\ exists l, env_fs (n_fx w) = FsErr l).
Proof.
  unfold getChainName, bind, fs_step. cbn. destruct (ps_getChainName _ _) as [v0 s] eqn:E. intros [= <- <-].
  pose proof (get_chain_ok (n_store w)) as H1. pose proof (fun l => get_chain_err l (n_store w)) as H2.
  destruct (env_fs (n_fx w)) as [|l]; [left|right]; [rewrite <- H1 | split; [rewrite <- (H2 l)|by exists l]];
    by rewrite E.
Qed.

Lemma updatePoolName_Ok n w w' : updatePoolName n w = (Ok (), w') ->
  stored_pool (n_store w') = n /\ stored_chain (n_store w') = stored_chain (n_store w) /\
  n_files w' = n_files w /\ n_restarts w' = n_restarts w.
Proof.
  unfold updatePoolName, bind, fs_step. cbn. destruct (ps_updatePoolName _ _ _ _) as [v s] eqn:E.
  destruct v; [done|]. intros [= <-]. apply update_pool_ok in E. simpl. intuition auto.
Qed.

Lemma updateChainName_Ok n w w' : updateChainName n w = (Ok (), w') ->
  stored_chain (n_store w') = n /\ stored_pool (n_store w') = stored_pool (n_store w) /\
  n_files w' = n_files w /\ n_restarts w' = n_restarts w.
Proof.
  unfold updateChainName, bind, fs_step. cbn. destruct (ps_updateChainName _ _ _ _) as [v s] eqn:E.
  destruct v; [done|]. intros [= <-]. apply update_chain_ok in E. simpl. intuition auto.
Qed.

Lemma updatePoolName_same w : same_config w (updatePoolName (stored_pool (n_store w)) w).2.
Proof.
  unfold updatePoolName, bind, fs_step. cbn.
  pose proof (update_pool_same (env_fs (n_fx w)) (env_fs (Datatypes.S (n_fx w))) (n_store w)) as Hk. cbn in Hk.
  destruct (ps_updatePoolName _ _ _ _) as [v s]. unfold same_config. cbn in *. intuition auto.
Qed.

Lemma updateChainName_same w : same_config w (updateChainName (stored_chain (n_store w)) w).2.
Proof.
  unfold updateChainName, bind, fs_step. cbn.
  pose proof (update_chain_same (env_fs (n_fx w)) (env_fs (Datatypes.S (n_fx w))) (n_store w)) as Hk. cbn in Hk.
  destruct (ps_updateChainName _ _ _ _) as [v s]. unfold same_config. cbn in *. intuition auto.
Qed.

Lemma update_not_Panic n w :
  (updatePoolName n w).1 <> Panic /\ (updateChainName n w).1 <> Panic.
Proof.
  unfold updatePoolName, updateChainName, bind, fs_step. cbn.
  destruct (ps_updatePoolName _ _ _ _) as [[] ?], (ps_updateChainName _ _ _ _) as [[] ?]; done.
Qed.

Lemma only_fx_ReadFile path : keeps only_fx (os_ReadFile path).
Proof. intros w. unfold only_fx. simpl. split_and!; (done || lia). Qed.
Lemma only_fx_Stat path : keeps only_fx (os_Stat path).
Proof. intros w. unfold only_fx. simpl. split_and!; (done || lia). Qed.

Lemma same_config_ping : keeps same_config ShutdownPingProxy.
Proof. intros w. unfold ShutdownPingProxy, same_config, bind, gets. cbn. by repeat case_match. Qed.

End ops.

#[export] Hint Resolve only_fx_http only_fx_timer only_fx_now only_fx_fs only_fx_ReadFile only_fx_Stat keeps_only_fx
  same_config_getPoolName same_config_getChainName same_config_ping : keeps.
