(* ===== verification/Disk.v ===== *)
(** * Reading and writing named files

    The handlers that keep their data in files outside the node's own configuration read and
    write them by name: [read_file] tells a missing file from a failing disk, names are
    cleaned as the kernel resolves them. [yields] is total correctness of such code on a
    working disk: started on the files [F], the operation returns [x] and leaves [F']. *)

From S2P Require Import Prelude GoStd Json GoPath Effects Node.

#[local] Open Scope string_scope.
#[local] Open Scope Z_scope.

(** exec.Cmd.Output: the process's output, its exit error with what it wrote to stderr, or an
    error that is not an exit status. *)
Inductive ExecReply := ExecOk (stdout : string) | ExecExit (err stderr : string) | ExecFail (err : string).

(** A command that is started and waited for: it cannot be started, ends, or is still running
    when its context ends and is killed (or cannot be). *)
Inductive CmdReply :=
| CmdStart (err : string)
| CmdDone (stdout stderr : string) (err : option string)
| CmdKilled (stdout stderr : string) (killErr : option string).

Class Exec := {
  exec_Output : nat -> string -> list string -> ExecReply;
  exec_Run : nat -> string -> list string -> CmdReply
}.

Section disk.
Context {S : Type} `{PS : PoolStore S} `{E : Env}.

(** [select { case <-ctx.Done(): true; default: false }] *)
Definition ctx_done : M (Node S) bool := b <- time_After 0;; ret (negb b).

(** os.ReadFile; [None] is os.IsNotExist. *)
Definition read_file (path : string) : M (Node S) (option string) :=
  r <- fs_step;;
  match r with
  | FsOk => gets (fun w => n_files w !! filepath_Clean path)
  | FsErr _ => raise "read"
  end.
Definition write_file (path data : string) : M (Node S) () := os_WriteFile (filepath_Clean path) data.

Context `{X : Exec}.
Definition cmd_Output (name : string) (args : list string) : M (Node S) ExecReply :=
  fun w => (Ok (exec_Output (n_fx w) name args), add_cmd (name :: args) (bump w)).
Definition cmd_Run (name : string) (args : list string) : M (Node S) CmdReply :=
  fun w => (Ok (exec_Run (n_fx w) name args), add_cmd (name :: args) (bump w)).

(** ** Total correctness over the files *)
Definition yields {A : Type} (F : gmap string string) (m : M (Node S) A) (x : A) (F' : gmap string string) : Prop :=
  forall w, n_files w = F -> exists w', m w = (Ok x, w') /\ n_files w' = F'.

Lemma yields_ret {A} F (x : A) : yields F (ret x) x F.
Proof. intros w Hw. by exists w. Qed.

Lemma yields_bind {A B} F F1 F2 (m : M (Node S) A) (k : A -> M (Node S) B) a b :
  yields F m a F1 -> yields F1 (k a) b F2 -> yields F (bind m k) b F2.
Proof.
  intros Hm Hk w Hw. destruct (Hm w Hw) as (w1 & H1 & HF1). destruct (Hk w1 HF1) as (w2 & H2 & HF2).
  exists w2. unfold bind. by rewrite H1.
Qed.

Lemma yields_try {A} F F' (m : M (Node S) A) a : yields F m a F' -> yields F (try m) (inr a) F'.
Proof. intros Hm w Hw. destruct (Hm w Hw) as (w' & H & HF). exists w'. unfold try. by rewrite H. Qed.

Lemma yields_wrapErr {A} F F' pre (m : M (Node S) A) a : yields F m a F' -> yields F (wrapErr pre m) a F'.
Proof. intros Hm w Hw. destruct (Hm w Hw) as (w' & H & HF). exists w'. unfold wrapErr. by rewrite H. Qed.

(** A working disk, and requests that are not cancelled. *)
Context (Hfs : forall n, env_fs n = FsOk) (Hctx : forall n, env_timer n 0 = true).

Lemma yields_ctx_done F : yields F ctx_done false F.
Proof. intros w Hw. exists (bump w). unfold ctx_done, time_After, bind. by rewrite Hctx. Qed.

Lemma yields_read F path : yields F (read_file path) (F !! filepath_Clean path) F.
Proof. intros w <-. exists (bump w). unfold read_file, fs_step, bind. by rewrite Hfs. Qed.

Lemma yields_write F path data : yields F (write_file path data) () (<[filepath_Clean path := data]> F).
Proof. intros w <-. eexists. unfold write_file, os_WriteFile, fs_step, bind. rewrite Hfs. by split. Qed.

Lemma yields_cmd_Output {A} F F' name args (k : ExecReply -> M (Node S) A) x :
  (forall r, yields F (k r) x F') -> yields F (bind (cmd_Output name args) k) x F'.
Proof. intros Hk w Hw. unfold bind, cmd_Output. by apply Hk. Qed.

Lemma yields_mkdir F path : yields F (os_MkdirAll path) () F.
Proof. intros w Hw. exists (bump w). unfold os_MkdirAll, fs_step, bind. by rewrite Hfs. Qed.
End disk.

(** Step through straight-line code. *)
Ltac yields_step :=
  first [ eapply yields_bind | eapply yields_ret | eapply yields_try | eapply yields_wrapErr
        | eapply yields_ctx_done; eassumption | eapply yields_read; eassumption
        | eapply yields_write; eassumption | eapply yields_mkdir; eassumption ].
