(* ===== verification/Evm.v ===== *)
(** * blockchain/blockchain.go, bl_pool.go: reading the pool contracts

    JSON-RPC calls to the Base and Skale chains with a backup endpoint and retries, and
    the read-only queries built on them: is a peer a member, has it asked to join, does a
    pool exist and where, who created it, which pools are there. URLs are taken to be
    well formed, so http.NewRequestWithContext does not fail. *)

From S2P Require Import Prelude GoStd Json Abi PeerId SignedAuth Effects Node.

#[local] Open Scope string_scope.
#[local] Open Scope Z_scope.

(** ** Chain configurations *)
Definition GetChainConfigs : gmap string ChainConfig :=
  list_to_map
    [("base", mkChain "base" 8453 "https://base-rpc.publicnode.com" "https://1rpc.io/base"
        "0xb093fF4B3B3B87a712107B26566e0cCE5E752b4D");
     ("skale", mkChain "skale" 2046399126 "https://mainnet.skalenodes.com/v1/elated-tan-skat" ""
        "0xf9176Ffde541bF0aa7884298Ce538c471Ad0F015")].

Definition chainConfigs (o : Options) : gmap string ChainConfig :=
  match chainConfigOverride o with
  | Some c => c
  | None => GetChainConfigs
  end.

(** ** JSON-RPC *)

(** Go encodes the request map with its keys in sorted order. *)
Definition rpcRequest (method : string) (params : json) : json :=
  JObj [("id", JNum "1"); ("jsonrpc", JStr "2.0"); ("method", JStr method); ("params", params)].

Definition eth_params (contract callData : string) : json :=
  JArr [JObj [("data", JStr callData); ("to", JStr contract)]; JStr "latest"].

(** The reply struct [{Result string; Error *struct{Code int; Message string}}]. *)
Record RpcResponse := mkRpc { Result : string; RpcError : option (Z * string) }.

Definition dec_rpc_error (cur : option (Z * string)) (j : json) : option (option (Z * string)) :=
  match j with
  | JNull => Some None
  | JObj l =>
      let '(c0, m0) := default (0, "") cur in
      let '(c, ok1) := field_int c0 (obj_field "code" l) in
      let '(m, ok2) := field_string m0 (obj_field "message" l) in
      if ok1 && ok2 then Some (Some (c, m)) else None
  | _ => None
  end.

Definition decode_rpc (b : string) : option RpcResponse :=
  j ← json_parse b;
  l ← as_object j;
  let '(res, ok1) := field_string "" (obj_field "result" l) in
  let '(err, ok2) := decode_field dec_rpc_error None (obj_field "error" l) in
  if ok1 && ok2 then Some (mkRpc res err) else None.

Section calls.
Context {S : Type} `{PS : PoolStore S} `{E : Env} `{MB : Multibase} `{PC : PeerCrypto}.
Context (o : Options).

(** io.Copy of the reply's body. *)
Definition read_reply (r : Z * option string) : M (Node S) (string * Z) :=
  match r.2 with
  | None => raise "failed to read response"
  | Some b => ret (b, r.1)
  end.

Definition callEVMChain (chainName method : string) (params : json) : M (Node S) (string * Z) :=
  match chainConfigs o !! chainName with
  | None => raise ("unsupported chain: " +:+ chainName)
  | Some cfg =>
      resp <- http_Do (RPC cfg) (rpcRequest method params);;
      match resp with
      | Reply st b => read_reply (st, b)
      | ReplyErr e =>
          if negb (BackupRPC cfg =? "")%string then
            resp2 <- http_Do (BackupRPC cfg) (rpcRequest method params);;
            match resp2 with
            | Reply st b => read_reply (st, b)
            | ReplyErr e2 => raise ("both primary and backup RPC failed: " +:+ e2)
            end
          else raise ("RPC call failed: " +:+ e)
      end
  end.

Definition second : Z := 10 ^ 9.

(** The loop of callEVMChainWithRetry, with [left] attempts to go. *)
Fixpoint retry_loop (left : nat) (attempt maxRetries : Z) (lastErr chainName method : string)
    (params : json) : M (Node S) (string * Z) :=
  match left with
  | O => raise ("failed after " +:+ Itoa maxRetries +:+ " attempts: " +:+ lastErr)
  | Datatypes.S left' =>
      r <- try (callEVMChain chainName method params);;
      match r with
      | inr v => ret v
      | inl e =>
          if attempt <? maxRetries then
            fired <- time_After (attempt * attempt * second);;
            if (fired : bool) then retry_loop left' (attempt + 1) maxRetries e chainName method params
            else raise "context deadline exceeded"
          else retry_loop left' (attempt + 1) maxRetries e chainName method params
      end
  end.

Definition callEVMChainWithRetry (chainName method : string) (params : json) (maxRetries : Z) :
    M (Node S) (string * Z) :=
  retry_loop (Z.to_nat maxRetries) 1 maxRetries "" chainName method params.

(** ** Strict reads *)
Definition strictEthCall (chainName callData : string) : M (Node S) string :=
  match chainConfigs o !! chainName with
  | None => raise ("unsupported chain: " +:+ chainName)
  | Some cfg =>
      r <- callEVMChainWithRetry chainName "eth_call" (eth_params (Contract cfg) callData) 3;;
      let '(response, statusCode) := r in
      if negb (statusCode =? StatusOK) then
        raise ("unexpected status code " +:+ Itoa statusCode +:+ " from chain " +:+ chainName)
      else match decode_rpc response with
      | None => raise "failed to parse RPC response"
      | Some rpc =>
          match RpcError rpc with
          | Some (_, m) => raise ("RPC error: " +:+ m)
          | None => ret (Result rpc)
          end
      end
  end.

Definition joinRequestPending : Z := 1.

Definition ClusterPeerPoolStatus (poolID : Z) (chainName : string) : M (Node S) (bool * bool) :=
  if (clusterPeerID o =? "")%string then raise "cluster peer ID is not set" else
  peerIDBytes32 <- wrapErr "failed to convert cluster peer ID to bytes32"
                     (lift (peerIdToBytes32 (clusterPeerID o)));;
  memberResult <- wrapErr "isPeerIdMemberOfPool"
                    (strictEthCall chainName (EncodeIsPeerIdMemberOfPoolCall poolID peerIDBytes32));;
  membership <- wrapErr "isPeerIdMemberOfPool" (lift (DecodeIsMemberOfPoolResult memberResult));;
  if IsMember membership then ret (true, false) else
  requestResult <- wrapErr "joinRequests"
                     (strictEthCall chainName (EncodeJoinRequestsCall poolID peerIDBytes32));;
  status <- wrapErr "joinRequests" (lift (DecodeJoinRequestStatus requestResult));;
  ret (false, status =? joinRequestPending).

(** ** Lenient reads *)
Record IsMemberOfPoolResponse := mkMemberResp {
  r_IsMember : bool; r_MemberAddress : string; r_ChainName : string; r_PoolID : Z
}.

Definition zeroAddress := "0x0000000000000000000000000000000000000000".

Definition HandleIsMemberOfPool (peerID : string) (poolID : Z) (chainName : string) :
    M (Node S) IsMemberOfPoolResponse :=
  let no := mkMemberResp false zeroAddress chainName poolID in
  if poolID =? 0 then ret no else
  match chainConfigs o !! chainName with
  | None => raise ("unsupported chain: " +:+ chainName)
  | Some cfg =>
      peerIDBytes32 <- wrapErr "failed to convert PeerID to bytes32" (lift (peerIdToBytes32 peerID));;
      r <- try (callEVMChainWithRetry chainName "eth_call"
                  (eth_params (Contract cfg) (EncodeIsPeerIdMemberOfPoolCall poolID peerIDBytes32)) 3);;
      match r with
      | inl _ => ret no
      | inr (response, statusCode) =>
          if negb (statusCode =? 200) then
            raise ("unexpected status code " +:+ Itoa statusCode +:+ " from chain " +:+ chainName)
          else match decode_rpc response with
          | None => raise "failed to parse RPC response"
          | Some rpc =>
              match RpcError rpc with
              | Some (_, m) => raise ("RPC error: " +:+ m)
              | None =>
                  match ParseContractError (Result rpc) with
                  | Some _ => ret no
                  | None =>
                      d <- try (lift (DecodeIsMemberOfPoolResult (Result rpc)));;
                      match d with
                      | inl _ => ret no
                      | inr m => ret (mkMemberResp (IsMember m) (MemberAddress m) chainName poolID)
                      end
                  end
              end
          end
      end
  end.

(** The parse-and-check steps that validatePoolOnChain and GetPoolCreatorPeerID share. *)
Definition ce_Error (e : ContractError) : string := "contract error " +:+ Code e +:+ ": " +:+ Message e.

Definition rpc_result (what suffix chainName : string) (r : string * Z) : M (Node S) string :=
  let '(response, statusCode) := r in
  if negb (statusCode =? 200) then
    raise ("unexpected status code " +:+ Itoa statusCode +:+ " from chain " +:+ chainName +:+ suffix)
  else match decode_rpc response with
  | None => raise ("failed to parse " +:+ what +:+ "RPC response")
  | Some rpc =>
      match RpcError rpc with
      | Some (_, m) => raise (what +:+ "RPC error: " +:+ m)
      | None =>
          match ParseContractError (Result rpc) with
          | Some ce => raise (what +:+ "contract error: " +:+ ce_Error ce)
          | None => ret (Result rpc)
          end
      end
  end.

Definition validatePoolOnChain (poolID : Z) (chainName : string) : M (Node S) () :=
  match chainConfigs o !! chainName with
  | None => raise ("unsupported chain: " +:+ chainName)
  | Some cfg =>
      r <- wrapErr ("failed to call chain " +:+ chainName)
             (callEVMChainWithRetry chainName "eth_call"
                (eth_params (Contract cfg) (EncodePoolsCall poolID)) 2);;
      result <- rpc_result "" "" chainName r;;
      wrapErr ("pool " +:+ Itoa poolID +:+ " does not exist on chain " +:+ chainName)
        (lift (DecodePoolsResult result));;;
      ret ()
  end.

Fixpoint discover_loop (poolID : Z) (chainList : list string) : M (Node S) string :=
  match chainList with
  | [] => raise ("pool " +:+ Itoa poolID +:+ " not found on any supported chain")
  | chainName :: rest =>
      r <- try (validatePoolOnChain poolID chainName);;
      match r with
      | inr _ => ret chainName
      | inl _ => discover_loop poolID rest
      end
  end.

Definition discoverPoolChain (poolID : Z) : M (Node S) string :=
  discover_loop poolID ["skale"; "base"].

Definition zeroBytes32 := "0x0000000000000000000000000000000000000000000000000000000000000000".

Definition GetPoolCreatorPeerID (poolID : Z) (chainName : string) : M (Node S) string :=
  if poolID =? 0 then raise ("invalid pool ID: " +:+ Itoa poolID) else
  match chainConfigs o !! chainName with
  | None => raise ("unsupported chain: " +:+ chainName)
  | Some cfg =>
      r <- wrapErr "failed to get pool information"
             (callEVMChainWithRetry chainName "eth_call"
                (eth_params (Contract cfg) (EncodePoolsCall poolID)) 3);;
      poolResult <- rpc_result "pool " "" chainName r;;
      poolData <- wrapErr "failed to decode pool data" (lift (DecodePoolsResult poolResult));;
      r2 <- wrapErr "failed to get creator peer IDs"
              (callEVMChainWithRetry chainName "eth_call"
                 (eth_params (Contract cfg) (EncodeGetMemberPeerIdsCall poolID (Creator poolData))) 3);;
      idsResult <- rpc_result "peer IDs " " for peer IDs" chainName r2;;
      peerIds <- wrapErr "failed to decode peer IDs data" (lift (DecodeGetMemberPeerIdsResult idsResult));;
      match peerIds with
      | [] => raise "no peer IDs found for pool creator"
      | first :: _ =>
          if (first =? "")%string || (first =? zeroBytes32)%string then
            raise "invalid or empty peer ID for pool creator"
          else
            fullPeerID <- wrapErr "failed to convert bytes32 to peer ID"
                            (lift (Bytes32ToPeerID peer_Decode first));;
            if (peer_String fullPeerID =? "")%string then raise "converted peer ID is empty"
            else ret (peer_String fullPeerID)
      end
  end.

(** ** Listing the pools of a chain *)
Record EVMPool := mkEVMPool {
  e_Creator : string;
  e_ID : Z;
  e_MaxChallengeResponsePeriod : Z;
  e_MemberCount : Z;
  e_MaxMembers : Z;
  e_RequiredTokens : option string;
  e_MinPingTime : option string;
  e_Name : string;
  e_Region : string;
  e_ChainName : string
}.

Definition evm_pool (poolID : Z) (chainName : string) (p : Pool) : EVMPool :=
  mkEVMPool (Creator p) poolID (MaxChallengeResponsePeriod p) (MemberCount p) (MaxMembers p)
    ((fun z => FormatInt z 10) <$> RequiredTokens p) ((fun z => FormatInt z 10) <$> MinPingTime p)
    (Abi.Name p) (Region p) chainName.

(** The full data of the pool found at an index; [None] on the paths that log and go on to
    the next index. *)
Definition pool_details (cfg : ChainConfig) (chainName : string) (poolID : Z) : M (Node S) (option Pool) :=
  r <- try (callEVMChainWithRetry chainName "eth_call"
              (eth_params (Contract cfg) (EncodePoolsCall poolID)) 3);;
  match r with
  | inl _ => ret None
  | inr (response, statusCode) =>
      if negb (statusCode =? 200) then ret None else
      match decode_rpc response with
      | None => ret None
      | Some rpc =>
          match RpcError rpc with
          | Some _ => ret None
          | None =>
              d <- try (lift (DecodePoolsResult (Result rpc)));;
              match d with
              | inl _ => ret None
              | inr p => ret (Some p)
              end
          end
      end
  end.

(** What one call of poolIds(index) answers: the end of the list, or a pool id. *)
Definition pool_id_at (cfg : ChainConfig) (chainName : string) (index : Z) : M (Node S) (option Z) :=
  r <- try (callEVMChainWithRetry chainName "eth_call"
              (eth_params (Contract cfg) (EncodePoolIdsCall index)) 3);;
  match r with
  | inl _ => ret None
  | inr (response, statusCode) =>
      if negb (statusCode =? 200) then
        raise ("unexpected status code " +:+ Itoa statusCode +:+ " from chain " +:+ chainName)
      else match decode_rpc response with
      | None => raise "failed to parse RPC response"
      | Some rpc =>
          match RpcError rpc with
          | Some _ => ret None
          | None =>
              if (Result rpc =? "0x")%string || (len (Result rpc) <=? 2) then ret None else
              d <- try (lift (DecodePoolIdResponse (Result rpc)));;
              match d with
              | inl _ => ret None
              | inr poolID => ret (Some poolID)
              end
          end
      end
  end.

(** The loop of HandleEVMPoolList; [None] when [fuel] rounds were not enough. *)
Fixpoint pool_list_loop (fuel : nat) (cfg : ChainConfig) (chainName : string) (index : Z)
    (pools : list EVMPool) : M (Node S) (option (list EVMPool)) :=
  match fuel with
  | O => ret None
  | Datatypes.S fuel' =>
      next <- pool_id_at cfg chainName index;;
      match next with
      | None => ret (Some pools)
      | Some poolID =>
          if poolID =? 0 then pool_list_loop fuel' cfg chainName (u32 (index + 1)) pools else
          d <- pool_details cfg chainName poolID;;
          match d with
          | None => pool_list_loop fuel' cfg chainName (u32 (index + 1)) pools
          | Some p =>
              let pools := (pools ++ [evm_pool poolID chainName p])%list in
              let index := u32 (index + 1) in
              if 20 <? index then ret (Some pools)
              else pool_list_loop fuel' cfg chainName index pools
          end
      end
  end.

Definition HandleEVMPoolList (fuel : nat) (chainName : string) : M (Node S) (option (list EVMPool)) :=
  match chainConfigs o !! chainName with
  | None => raise ("unsupported chain: " +:+ chainName)
  | Some cfg => pool_list_loop fuel cfg chainName 0 []
  end.

(** ** Frames: queries change nothing but the effect counter *)
Lemma only_fx_read_reply r : keeps only_fx (read_reply r).
Proof. unfold read_reply. keeps_go. Qed.
Hint Resolve only_fx_read_reply : keeps.

Lemma only_fx_callEVMChain c m p : keeps only_fx (callEVMChain c m p).
Proof. unfold callEVMChain. keeps_go. Qed.
Hint Resolve only_fx_callEVMChain : keeps.

Lemma only_fx_retry_loop left a mx e c m p : keeps only_fx (retry_loop left a mx e c m p).
Proof. revert a e. induction left; intros; cbn [retry_loop]; keeps_go. Qed.

Lemma only_fx_callEVMChainWithRetry c m p n : keeps only_fx (callEVMChainWithRetry c m p n).
Proof. apply only_fx_retry_loop. Qed.
Hint Resolve only_fx_callEVMChainWithRetry : keeps.

Lemma only_fx_strictEthCall c d : keeps only_fx (strictEthCall c d).
Proof. unfold strictEthCall. keeps_go. Qed.
Hint Resolve only_fx_strictEthCall : keeps.

Lemma only_fx_ClusterPeerPoolStatus p c : keeps only_fx (ClusterPeerPoolStatus p c).
Proof. unfold ClusterPeerPoolStatus. keeps_go. Qed.

Lemma only_fx_HandleIsMemberOfPool k p c : keeps only_fx (HandleIsMemberOfPool k p c).
Proof. unfold HandleIsMemberOfPool. keeps_go. Qed.

Lemma only_fx_rpc_result a b c r : keeps only_fx (rpc_result a b c r).
Proof. unfold rpc_result. keeps_go. Qed.
Hint Resolve only_fx_rpc_result : keeps.

Lemma only_fx_validatePoolOnChain p c : keeps only_fx (validatePoolOnChain p c).
Proof. unfold validatePoolOnChain. keeps_go. Qed.
Hint Resolve only_fx_validatePoolOnChain : keeps.

Lemma only_fx_discoverPoolChain p : keeps only_fx (discoverPoolChain p).
Proof. unfold discoverPoolChain, discover_loop. keeps_go. Qed.

Lemma only_fx_GetPoolCreatorPeerID p c : keeps only_fx (GetPoolCreatorPeerID p c).
Proof. unfold GetPoolCreatorPeerID. keeps_go. Qed.

Lemma only_fx_pool_details cfg c p : keeps only_fx (pool_details cfg c p).
Proof. unfold pool_details. keeps_go. Qed.
Lemma only_fx_pool_id_at cfg c i : keeps only_fx (pool_id_at cfg c i).
Proof. unfold pool_id_at. keeps_go. Qed.

(** ** Retries *)

(** [failed k c m p w w']: starting from [w], [k] attempts failed, each one's backoff timer
    fired, and [w'] is the state before the next attempt. *)
Inductive failed (c m : string) (p : json) (mx : Z) : nat -> Z -> Node S -> Node S -> Prop :=
| failed_O a w : failed c m p mx 0 a w w
| failed_S k a e w w1 w2 w3 :
    callEVMChain c m p w = (Err e, w1) -> a < mx ->
    time_After (a * a * second) w1 = (Ok true, w2) ->
    failed c m p mx k (a + 1) w2 w3 -> failed c m p mx (Datatypes.S k) a w w3.

Lemma retry_loop_Ok left a mx e c m p w v w' :
  a + Z.of_nat left = mx + 1 ->
  retry_loop left a mx e c m p w = (Ok v, w') <->
  exists k w1, (k < left)%nat /\ failed c m p mx k a w w1 /\ callEVMChain c m p w1 = (Ok v, w').
Proof.
  revert a e w. induction left as [|left IH]; intros a e w Ha; cbn [retry_loop].
  { split; [done | intros (k & w1 & Hk & _); lia]. }
  unfold bind at 1, try. destruct (callEVMChain c m p w) as [[u|e1|] w1] eqn:Ec.
  - split.
    + intros [= <- <-]. exists 0%nat, w. split; [lia|]. by split; [constructor|].
    + intros (k & w2 & Hk & Hf & Hc). inversion Hf; subst; [by rewrite Ec in Hc|congruence].
  - destruct (Z.ltb_spec a mx) as [Hlt|Hge].
    + unfold bind, time_After. destruct (env_timer (n_fx w1) (a * a * second)) eqn:Et.
      * rewrite IH by lia. split.
        { intros (k & w2 & Hk & Hf & Hc). exists (Datatypes.S k), w2. split; [lia|]. split; [|done].
          eapply failed_S; [done|done| |done]. unfold time_After. by rewrite Et. }
        { intros (k & w2 & Hk & Hf & Hc). inversion Hf as [|k' ? ? ? ? w4 ? Hc1 _ Ht Hf']; subst; [congruence|].
          exists k', w2. split; [lia|]. split; [|done]. rewrite Ec in Hc1. injection Hc1 as <- <-.
          unfold time_After in Ht. injection Ht as _ <-. done. }
      * split; [done|]. intros (k & w2 & Hk & Hf & Hc).
        inversion Hf as [|k' ? ? ? ? w4 ? Hc1 _ Ht Hf']; subst; [congruence|].
        rewrite Ec in Hc1. injection Hc1 as <- <-. unfold time_After in Ht. congruence.
    + assert (left = 0%nat) as -> by lia. cbn [retry_loop]. split; [done|].
      intros (k & w2 & Hk & Hf & Hc). inversion Hf; subst; [congruence|lia].
  - split; [done|]. intros (k & w2 & Hk & Hf & Hc). inversion Hf; subst; congruence.
Qed.

(** Retrying is exactly "first success wins": the call returns an answer if and only if,
    for some k below the retry limit, k attempts failed and their backoff timers (1 s, 4 s,
    9 s, ...) fired before the context ended, and the next attempt gave that answer. *)
Theorem retry_first_success c m p n w v w' :
  0 <= n ->
  callEVMChainWithRetry c m p n w = (Ok v, w') <->
  exists k w1, (k < Z.to_nat n)%nat /\ failed c m p n k 1 w w1 /\ callEVMChain c m p w1 = (Ok v, w').
Proof. intros Hn. apply retry_loop_Ok. lia. Qed.

Lemma callEVMChain_effects c m p w : (n_fx (callEVMChain c m p w).2 <= n_fx w + 2)%nat.
Proof.
  unfold callEVMChain, read_reply, bind, http_Do, raise, ret. cbn.
  repeat case_match; simplify_eq; cbn; lia.
Qed.

Lemma retry_loop_effects left a mx e c m p w :
  (n_fx (retry_loop left a mx e c m p w).2 <= n_fx w + 3 * left)%nat.
Proof.
  revert a e w. induction left as [|left IH]; intros a e w; cbn [retry_loop]; [cbn; lia|].
  pose proof (callEVMChain_effects c m p w) as Hc.
  unfold bind at 1, try. destruct (callEVMChain c m p w) as [[u|e1|] w1]; cbn in *; try lia.
  case_match; [|specialize (IH (a + 1) e1 w1); lia].
  unfold bind, time_After. case_match; cbn in *; [|lia].
  specialize (IH (a + 1) e1 (bump w1)). cbn in IH. lia.
Qed.

(** ** Evidence: every answer a query acts on was sent by an RPC endpoint *)

(** Some exchange between two states, with one of the chain's endpoints, asked for
    [callData] and got [result] in a 200 answer with no JSON-RPC error. *)
Definition answered (w w' : Node S) (c callData result : string) : Prop :=
  exists cfg n url b, chainConfigs o !! c = Some cfg /\ (n_fx w <= n < n_fx w')%nat /\
    (url = RPC cfg \/ (url = BackupRPC cfg /\ BackupRPC cfg <> "")) /\
    env_http n url (rpcRequest "eth_call" (eth_params (Contract cfg) callData)) = Reply 200 (Some b) /\
    decode_rpc b = Some (mkRpc result None).

Lemma answered_mono w1 w2 w3 w4 c d r :
  (n_fx w1 <= n_fx w2)%nat -> (n_fx w3 <= n_fx w4)%nat -> answered w2 w3 c d r -> answered w1 w4 c d r.
Proof. intros ? ? (cfg & n & url & b & ? & ? & ?). exists cfg, n, url, b. split; [done|]. split; [lia|done]. Qed.

Lemma callEVMChain_Ok c m p w b st w' cfg :
  chainConfigs o !! c = Some cfg -> callEVMChain c m p w = (Ok (b, st), w') ->
  exists n url, (n_fx w <= n < n_fx w')%nat /\
    (url = RPC cfg \/ (url = BackupRPC cfg /\ BackupRPC cfg <> "")) /\
    env_http n url (rpcRequest m p) = Reply st (Some b).
Proof.
  intros Hcfg. unfold callEVMChain. rewrite Hcfg. unfold bind, http_Do, read_reply, raise, ret. cbn.
  destruct (env_http (n_fx w) (RPC cfg) _) as [e|st1 [b1|]] eqn:E1; cbn.
  - destruct (String.eqb_spec (BackupRPC cfg) "") as [|Hb]; cbn; [done|].
    destruct (env_http _ (BackupRPC cfg) _) as [e2|st2 [b2|]] eqn:E2; cbn; try done.
    intros [= -> -> <-]. exists (Datatypes.S (n_fx w)), (BackupRPC cfg). cbn. split; [lia|]. auto.
  - intros [= -> -> <-]. exists (n_fx w), (RPC cfg). cbn. split; [lia|]. auto.
  - done.
Qed.

Lemma failed_fx c m p mx k a w w' : failed c m p mx k a w w' -> (n_fx w <= n_fx w')%nat.
Proof.
  induction 1 as [|k a e w w1 w2 w3 Hc _ Ht _ IH]; [done|].
  pose proof (only_fx_callEVMChain c m p w) as [Hle _]. rewrite Hc in Hle.
  unfold time_After in Ht. injection Ht as _ <-. cbn in *. lia.
Qed.

Lemma retry_Ok c d n w b w' cfg :
  chainConfigs o !! c = Some cfg ->
  callEVMChainWithRetry c "eth_call" (eth_params (Contract cfg) d) n w = (Ok (b, 200), w') ->
  forall r, decode_rpc b = Some (mkRpc r None) -> answered w w' c d r.
Proof.
  intros Hcfg Hr r Hd. destruct (Z.le_gt_cases 0 n); [|by destruct n].
  apply retry_loop_Ok in Hr as (k & w1 & _ & Hf & Hc); [|lia].
  apply failed_fx in Hf. destruct (callEVMChain_Ok _ _ _ _ _ _ _ _ Hcfg Hc) as (i & url & Hi & Hu & He).
  exists cfg, i, url, b. split; [done|]. split; [lia|]. done.
Qed.

Lemma strictEthCall_Ok c d w r w' : strictEthCall c d w = (Ok r, w') -> answered w w' c d r.
Proof.
  unfold strictEthCall. destruct (chainConfigs o !! c) as [cfg|] eqn:Hcfg; [|done].
  intros ([b st] & w1 & Hc & H)%bind_Ok_inv. cbn beta iota in H.
  destruct (Z.eqb_spec st StatusOK) as [->|]; cbn [negb] in H; [|done].
  destruct (decode_rpc b) as [[res [[]|]]|] eqn:Hd; cbn in H; [done| |done]. injection H as <- <-.
  by eapply retry_Ok.
Qed.

(** What a definitive "neither member nor waiting" verdict rests on. *)
Definition not_listed (w w' : Node S) (poolID : Z) (c : string) : Prop :=
  exists key r1 m r2 st, peerIdToBytes32 (clusterPeerID o) = Ok key /\
    answered w w' c (EncodeIsPeerIdMemberOfPoolCall poolID key) r1 /\
    DecodeIsMemberOfPoolResult r1 = Ok m /\ IsMember m = false /\
    answered w w' c (EncodeJoinRequestsCall poolID key) r2 /\
    DecodeJoinRequestStatus r2 = Ok st /\ st <> joinRequestPending.

Lemma not_listed_mono w1 w2 w3 w4 p c :
  (n_fx w1 <= n_fx w2)%nat -> (n_fx w3 <= n_fx w4)%nat -> not_listed w2 w3 p c -> not_listed w1 w4 p c.
Proof.
  intros H1 H2 (key & r1 & m & r2 & st & ? & ? & ? & ? & ? & ?).
  exists key, r1, m, r2, st. intuition eauto using answered_mono.
Qed.

Lemma ClusterPeerPoolStatus_Ok p c w member pending w' :
  ClusterPeerPoolStatus p c w = (Ok (member, pending), w') ->
  (member = false -> pending = false -> not_listed w w' p c) /\
  (member = true -> exists key r m, peerIdToBytes32 (clusterPeerID o) = Ok key /\
     answered w w' c (EncodeIsPeerIdMemberOfPoolCall p key) r /\
     DecodeIsMemberOfPoolResult r = Ok m /\ IsMember m = true).
Proof.
  unfold ClusterPeerPoolStatus. destruct (_ =? _)%string; [done|].
  intros (key & w1 & Hk & H)%bind_Ok_inv. apply wrapErr_Ok in Hk. injection Hk as Hk ->.
  apply bind_Ok_inv in H as (r1 & w2 & Hr1 & H). apply wrapErr_Ok in Hr1.
  apply strictEthCall_Ok in Hr1 as Ha1.
  apply bind_Ok_inv in H as (m & w3 & Hm & H). apply wrapErr_Ok in Hm. injection Hm as Hm ->.
  destruct (IsMember m) eqn:Em.
  { injection H as <- <- <-. split; [done|]. intros _. by exists key, r1, m. }
  apply bind_Ok_inv in H as (r2 & w4 & Hr2 & H). apply wrapErr_Ok in Hr2.
  pose proof (only_fx_strictEthCall c (EncodeIsPeerIdMemberOfPoolCall p key) w1) as [Hle1 _].
  rewrite Hr1 in Hle1.
  pose proof (only_fx_strictEthCall c (EncodeJoinRequestsCall p key) w3) as [Hle2 _]. rewrite Hr2 in Hle2.
  apply strictEthCall_Ok in Hr2 as Ha2.
  apply bind_Ok_inv in H as (st & w5 & Hst & H). apply wrapErr_Ok in Hst. injection Hst as Hst ->.
  injection H as <- <- <-. cbn [snd] in *. split; [|done]. intros _ Hp%Z.eqb_neq.
  exists key, r1, m, r2, st. split_and!; try done.
  - by apply (answered_mono w1 w1 w3 w5).
  - by apply (answered_mono w1 w3 w5 w5).
Qed.

(** C29. The strict membership check never guesses: when it reports "not a member and not
    waiting", both facts were read from 200 answers of the chain's own endpoints, without a
    JSON-RPC error, to the two contract calls for this very pool and this device's key. *)
Theorem status_never_guesses p c w w' :
  ClusterPeerPoolStatus p c w = (Ok (false, false), w') ->
  exists key r1 m r2 st, peerIdToBytes32 (clusterPeerID o) = Ok key /\
    answered w w' c (EncodeIsPeerIdMemberOfPoolCall p key) r1 /\
    DecodeIsMemberOfPoolResult r1 = Ok m /\ IsMember m = false /\
    answered w w' c (EncodeJoinRequestsCall p key) r2 /\
    DecodeJoinRequestStatus r2 = Ok st /\ st <> 1.
Proof. intros H%ClusterPeerPoolStatus_Ok. apply H; done. Qed.

(** The lenient check errs on one side only: it reports membership only on the word of
    an endpoint's 200 answer to this pool's and this peer's contract call; a chain that
    cannot be reached makes it answer "not a member" without an error. *)
Theorem lenient_member_sound peerID p c w resp w' :
  HandleIsMemberOfPool peerID p c w = (Ok resp, w') ->
  (r_IsMember resp = true -> exists key r m, peerIdToBytes32 peerID = Ok key /\
     answered w w' c (EncodeIsPeerIdMemberOfPoolCall p key) r /\
     DecodeIsMemberOfPoolResult r = Ok m /\ IsMember m = true /\ r_MemberAddress resp = MemberAddress m) /\
  (r_IsMember resp = false \/ p <> 0) /\ r_ChainName resp = c /\ r_PoolID resp = p.
Proof.
  unfold HandleIsMemberOfPool. destruct (Z.eqb_spec p 0) as [->|Hp]; [intros [= <- <-]; naive_solver|].
  destruct (chainConfigs o !! c) as [cfg|] eqn:Hcfg; [|done].
  intros (key & w1 & Hk & H)%bind_Ok_inv. apply wrapErr_Ok in Hk. injection Hk as Hk ->.
  apply bind_Ok_inv in H as (x & w2 & Hr & H).
  apply try_Ok_inv in Hr as [([b st] & -> & Hr)|(e & -> & Hr)]; [|injection H as <- <-; naive_solver].
  destruct (Z.eqb_spec st 200) as [->|]; cbn [negb] in H; [|done].
  destruct (decode_rpc b) as [[res [[]|]]|] eqn:Hd; cbn in H; [done| |done].
  destruct (ParseContractError res); [injection H as <- <-; naive_solver|].
  apply bind_Ok_inv in H as (y & w3 & Hy & H).
  apply try_Ok_inv in Hy as [(m & -> & Hy)|(e & -> & Hy)]; injection H as <- <-; [|naive_solver].
  injection Hy as Hy ->. cbn. split; [|naive_solver]. intros Hm. exists key, res, m. split; [done|].
  split; [|done]. by eapply retry_Ok.
Qed.

(** What an accepted pool rests on: an endpoint of the chain answered the contract call for
    this pool with a result that is no contract error and decodes as a pool. *)
Definition pool_seen (w w' : Node S) (poolID : Z) (c : string) : Prop :=
  exists r pool, answered w w' c (EncodePoolsCall poolID) r /\
    ParseContractError r = None /\ DecodePoolsResult r = Ok pool.

Lemma validatePoolOnChain_Ok p c w w' : validatePoolOnChain p c w = (Ok (), w') -> pool_seen w w' p c.
Proof.
  unfold validatePoolOnChain. destruct (chainConfigs o !! c) as [cfg|] eqn:Hcfg; [|done].
  intros ([b st] & w1 & Hr & H)%bind_Ok_inv. apply wrapErr_Ok in Hr.
  apply bind_Ok_inv in H as (r & w2 & H2 & H). unfold rpc_result in H2.
  destruct (Z.eqb_spec st 200) as [->|]; cbn [negb] in H2; [|done].
  destruct (decode_rpc b) as [[res [[]|]]|] eqn:Hd; cbn in H2; [done| |done].
  destruct (ParseContractError res) eqn:Hce; [done|]. injection H2 as <- <-.
  apply bind_Ok_inv in H as (pool & w3 & H3 & H). apply wrapErr_Ok in H3. injection H3 as H3 <-. injection H as <-.
  exists res, pool. split; [|done]. by eapply retry_Ok.
Qed.

(** Discovery returns the first chain, in the order skale then base, on which the pool
    validates: base only if the validation on skale failed. *)
Theorem discover_first p w c w' :
  discoverPoolChain p w = (Ok c, w') ->
  (c = "skale" /\ exists w1, validatePoolOnChain p "skale" w = (Ok (), w1)) \/
  (c = "base" /\ exists e w1 w2, validatePoolOnChain p "skale" w = (Err e, w1) /\
                                 validatePoolOnChain p "base" w1 = (Ok (), w2)).
Proof.
  unfold discoverPoolChain. cbn [discover_loop]. unfold bind, try.
  destruct (validatePoolOnChain p "skale" w) as [[[]|e|] w1] eqn:E1; [|..|done].
  { intros [= <- <-]. left. by eauto. }
  destruct (validatePoolOnChain p "base" w1) as [[[]|e2|] w2] eqn:E2; [|done|done].
  intros [= <- <-]. right. split; [done|]. by exists e, w1, w2.
Qed.

(** ** Listing pools *)

(** The request's context ends after [K] effects: from then on no exchange and no timer
    succeeds. *)
Definition ctx_ends (K : nat) : Prop :=
  (forall n url j, (K <= n)%nat -> exists e, env_http n url j = ReplyErr e) /\
  (forall n d, (K <= n)%nat -> env_timer n d = false).

Lemma callEVMChain_ctx K c m p w : ctx_ends K -> (K <= n_fx w)%nat -> exists e w', callEVMChain c m p w = (Err e, w').
Proof.
  intros [Hh _] Hw. unfold callEVMChain, bind, http_Do, raise. case_match; [|by eauto].
  destruct (Hh (n_fx w) (RPC c0) (rpcRequest m p) Hw) as [e ->]. case_match; [|by eauto].
  destruct (Hh (n_fx (bump w)) (BackupRPC c0) (rpcRequest m p)) as [e2 ->]; [cbn; lia | by eauto].
Qed.

Lemma retry_ctx K c m p n w :
  ctx_ends K -> (K <= n_fx w)%nat -> exists e w', callEVMChainWithRetry c m p n w = (Err e, w').
Proof.
  intros HK Hw. unfold callEVMChainWithRetry. generalize 1 "". intros a e0.
  remember (Z.to_nat n) as left. clear Heqleft. revert a e0 w Hw.
  induction left as [|left IH]; intros a e0 w Hw; cbn [retry_loop]; [by eexists _, _|].
  pose proof (only_fx_callEVMChain c m p w) as [Hle _].
  destruct (callEVMChain_ctx K c m p w HK Hw) as (e & w1 & Hc).
  unfold bind at 1, try. rewrite Hc in *. cbn in Hle. destruct (a <? n).
  - unfold bind, time_After. destruct HK as [_ Ht]. rewrite Ht by lia. by eexists _, _.
  - apply IH. lia.
Qed.

Lemma callEVMChain_fx c m p w cfg :
  chainConfigs o !! c = Some cfg -> (n_fx w < n_fx (callEVMChain c m p w).2)%nat.
Proof.
  intros Hcfg. unfold callEVMChain, bind, http_Do, read_reply, raise, ret. rewrite Hcfg.
  repeat case_match; simplify_eq; cbn in *; simplify_eq; cbn; lia.
Qed.

Lemma pool_id_at_fx cfg c i w :
  chainConfigs o !! c = Some cfg -> (n_fx w < n_fx (pool_id_at cfg c i w).2)%nat.
Proof.
  intros Hcfg. unfold pool_id_at. set (k := fun r => _).
  assert (forall r, keeps only_fx (k r)) as Hk by (subst k; intros r; cbv beta; keeps_go).
  clearbody k. unfold bind, callEVMChainWithRetry. change (Z.to_nat 3) with 3%nat. cbn [retry_loop].
  set (p := eth_params _ _). pose proof (callEVMChain_fx c "eth_call" p w cfg Hcfg) as Hlt.
  unfold try at 1, bind at 1, try at 1.
  destruct (callEVMChain c "eth_call" p w) as [[v|e|] w1]; cbn in Hlt.
  - cbn. destruct (Hk (inr v) w1). lia.
  - change (1 <? 3) with true. cbn iota.
    set (rest := bind _ _). assert (keeps only_fx rest) as Hr.
    { subst rest. keeps_go. }
    clearbody rest. specialize (Hr w1) as [Hr _]. destruct (rest w1) as [[v|e2|] w2]; cbn in *.
    + destruct (Hk (inr v) w2). lia.
    + destruct (Hk (inl e2) w2). lia.
    + lia.
  - cbn. lia.
Qed.

Lemma pool_list_loop_ends K cfg c fuel i pools w :
  ctx_ends K -> chainConfigs o !! c = Some cfg -> (K - n_fx w < fuel)%nat ->
  (pool_list_loop fuel cfg c i pools w).1 <> Ok None.
Proof.
  intros HK Hcfg. revert i pools w. induction fuel as [|fuel IH]; intros i pools w Hf.
  { lia. }
  cbn [pool_list_loop].
  destruct (Nat.le_gt_cases K (n_fx w)) as [HKw|HKw].
  { unfold bind at 1, pool_id_at, bind at 1, try.
    destruct (retry_ctx K c "eth_call" (eth_params (Contract cfg) (EncodePoolIdsCall i)) 3 w HK HKw)
      as (e & w' & ->). done. } pose proof (pool_id_at_fx cfg c i w Hcfg) as Hfx.
  unfold bind at 1. destruct (pool_id_at cfg c i w) as [[[p|]|e|] w1] eqn:Ep; cbn in Hfx; try done.
  assert (forall i' pools', (pool_list_loop fuel cfg c i' pools' w1).1 <> Ok None) as Hrec
    by (intros; apply IH; lia).
  destruct (p =? 0); [by apply Hrec|].
  pose proof (only_fx_pool_details cfg c p w1) as [Hle _].
  unfold bind. destruct (pool_details cfg c p w1) as [[[d|]|e|] w2]; cbn in Hle; try done.
  - case_match; [done|]. apply IH. lia.
  - apply IH. lia.
Qed.

(** C37. Listing a chain's pools ends: once the request's context has ended after [K] effects,
    the loop is over within [K + 1] rounds, whatever the endpoints answered before, because
    every round asks the chain at least once and a failed poolIds call stops it. *)
Theorem pool_list_terminates K c fuel w :
  ctx_ends K -> (K - n_fx w < fuel)%nat -> (HandleEVMPoolList fuel c w).1 <> Ok None.
Proof.
  intros HK Hf. unfold HandleEVMPoolList. destruct (chainConfigs o !! c) as [cfg|] eqn:Hcfg; [|done].
  by eapply pool_list_loop_ends.
Qed.

Definition listed_ok (c : string) (p : EVMPool) : Prop := e_ID p <> 0 /\ e_ChainName p = c.

Lemma pool_list_loop_ok cfg c fuel i pools w l w' :
  Z.of_nat (length pools) <= i -> (length pools <= 20)%nat -> i + Z.of_nat fuel < 2 ^ 32 ->
  Forall (listed_ok c) pools ->
  pool_list_loop fuel cfg c i pools w = (Ok (Some l), w') -> (length l <= 21)%nat /\ Forall (listed_ok c) l.
Proof.
  revert i pools w. induction fuel as [|fuel IH]; intros i pools w Hi Hl Hf Hp; [done|].
  cbn [pool_list_loop]. assert (u32 (i + 1) = i + 1) as Hu by (apply wrapU_small; lia). rewrite !Hu.
  intros (next & w1 & _ & H)%bind_Ok_inv.
  destruct next as [p|]; [|injection H as <- <-; split; [lia|done]].
  destruct (Z.eqb_spec p 0) as [->|Hp0]; [by eapply IH in H; [|lia..|]|].
  apply bind_Ok_inv in H as (d & w2 & _ & H). destruct d as [d|]; [|by eapply IH in H; [|lia..|]].
  assert (Forall (listed_ok c) (pools ++ [evm_pool p c d])) as Hp' by (apply Forall_app; by repeat constructor).
  destruct (Z.ltb_spec 20 (i + 1)).
  - injection H as <- <-. rewrite length_app. cbn. split; [lia|done].
  - eapply IH in H; [done | rewrite ?length_app; cbn; lia.. | done].
Qed.

(** A listing has at most 21 pools, all of the chain asked about and none with id 0. *)
Theorem pool_list_bounded c fuel w l w' :
  Z.of_nat fuel < 2 ^ 32 -> HandleEVMPoolList fuel c w = (Ok (Some l), w') ->
  (length l <= 21)%nat /\ Forall (fun p => e_ID p <> 0 /\ e_ChainName p = c) l.
Proof.
  intros Hf. unfold HandleEVMPoolList. destruct (chainConfigs o !! c); [|done].
  intros H. eapply pool_list_loop_ok in H; [exact H | cbn; lia.. | constructor].
Qed.

End calls.

#[export] Hint Resolve only_fx_callEVMChainWithRetry only_fx_strictEthCall only_fx_ClusterPeerPoolStatus
  only_fx_HandleIsMemberOfPool only_fx_validatePoolOnChain only_fx_discoverPoolChain
  only_fx_GetPoolCreatorPeerID : keeps.

(** ** Concrete runs *)
Section concrete.

(** An endpoint that answers every call with zero words, after a first failure of the
    primary. *)
Definition zero_word_reply : string :=
  jq "{'jsonrpc':'2.0','id':1,'result':'0x" +:+ srepeat 640 "0" +:+ jq "'}".

#[local] Instance zeroEnv : Env := {|
  env_http := fun n _ _ => if Nat.eqb n 0 then ReplyErr "connection refused" else Reply 200 (Some zero_word_reply);
  env_timer := fun _ _ => true;
  env_now := fun _ => 0;
  env_fs := fun _ => FsOk |}.

(** Base58 text is kept as the raw bytes behind the 'z'. *)
#[local] Instance rawMultibase : Multibase := {|
  mb_encode58 := fun b => Ok (String "z" b);
  mb_decode := fun s => Ok (sdrop 1 s) |}.

Definition toy_peer : string := ed25519Prefix +:+ srepeat 32 "k".
Definition toy_options : Options :=
  mkOptions 30 "" "0" "self" toy_peer false true None.
Definition fresh : Node unit := mkNode 0 () ∅ ∅ None [] [].

Lemma retry_first_success_witness :
  exists k w1, (k < Z.to_nat 3)%nat /\
    failed toy_options "skale" "eth_call" (JArr []) 3 k 1 fresh w1 /\
    callEVMChain toy_options "skale" "eth_call" (JArr []) w1 =
      (Ok (zero_word_reply, 200), mkNode 3 () ∅ ∅ None [] []).
Proof.
  apply (retry_first_success toy_options "skale" "eth_call" (JArr []) 3 fresh); [lia|].
  vm_compute. reflexivity.
Defined.

Lemma status_never_guesses_witness :
  exists w', ClusterPeerPoolStatus toy_options 7 "base" fresh = (Ok (false, false), w') /\
  exists key r1 m r2 st, peerIdToBytes32 (clusterPeerID toy_options) = Ok key /\
    answered toy_options fresh w' "base" (EncodeIsPeerIdMemberOfPoolCall 7 key) r1 /\
    DecodeIsMemberOfPoolResult r1 = Ok m /\ IsMember m = false /\
    answered toy_options fresh w' "base" (EncodeJoinRequestsCall 7 key) r2 /\
    DecodeJoinRequestStatus r2 = Ok st /\ st <> 1.
Proof.
  eexists. assert (ClusterPeerPoolStatus toy_options 7 "base" fresh = (Ok (false, false), mkNode 3 () ∅ ∅ None [] [])) as H
    by (vm_compute; reflexivity).
  split; [exact H|]. apply (status_never_guesses _ _ _ _ _ H).
Defined.

Lemma lenient_member_sound_witness :
  exists resp w', HandleIsMemberOfPool toy_options toy_peer 7 "base" fresh = (Ok resp, w') /\
  (r_IsMember resp = true -> exists key r m, peerIdToBytes32 toy_peer = Ok key /\
     answered toy_options fresh w' "base" (EncodeIsPeerIdMemberOfPoolCall 7 key) r /\
     DecodeIsMemberOfPoolResult r = Ok m /\ IsMember m = true /\ r_MemberAddress resp = MemberAddress m) /\
  (r_IsMember resp = false \/ 7 <> 0) /\ r_ChainName resp = "base" /\ r_PoolID resp = 7.
Proof.
  eexists _, _.
  assert (HandleIsMemberOfPool toy_options toy_peer 7 "base" fresh =
    (Ok (mkMemberResp false zeroAddress "base" 7), mkNode 2 () ∅ ∅ None [] [])) as H by (vm_compute; reflexivity).
  split; [exact H|]. apply (lenient_member_sound _ _ _ _ _ _ _ H).
Defined.
End concrete.

Section concrete_pools.

(** The Base endpoint knows pool 7; the Skale endpoint is down. After 9 effects the
    context has ended. *)
Definition pool_seven : Pool :=
  mkPool ("0x" +:+ srepeat 40 "a") 7 86400 3 10 (Some 1000) (Some 200) "pool seven" "EU".
Definition reply_with (result : string) : string :=
  jq "{'jsonrpc':'2.0','id':1,'result':'" +:+ result +:+ jq "'}".

(** The call data of an eth_call request. *)
Definition call_data_of (j : json) : string :=
  match j with
  | JObj [_; _; _; (_, JArr (JObj ((_, JStr d) :: _) :: _))] => d
  | _ => ""
  end.

#[local] Instance poolEnv : Env := {|
  env_http := fun n url j =>
    if Nat.leb 9 n then ReplyErr "context deadline exceeded"
    else if (url =? "https://base-rpc.publicnode.com")%string then
      if (call_data_of j =? EncodePoolIdsCall 0)%string
      then Reply 200 (Some (reply_with ("0x" +:+ abi_word 7)))
      else if (call_data_of j =? EncodePoolsCall 7)%string
      then Reply 200 (Some (reply_with (abi_encode_pool pool_seven)))
      else Reply 200 (Some (reply_with "0x"))
    else ReplyErr "no route";
  env_timer := fun n _ => Nat.ltb n 9;
  env_now := fun _ => 0;
  env_fs := fun _ => FsOk |}.

Lemma poolEnv_ends : ctx_ends 9.
Proof.
  split.
  - intros n url j Hn. exists "context deadline exceeded". unfold env_http, poolEnv.
    by rewrite (proj2 (Nat.leb_le 9 n) Hn).
  - intros n d Hn. unfold env_timer, poolEnv. by apply Nat.ltb_ge.
Qed.

Lemma discover_first_witness :
  exists c w', discoverPoolChain toy_options 7 fresh = (Ok c, w') /\
  ((c = "skale" /\ exists w1, validatePoolOnChain toy_options 7 "skale" fresh = (Ok (), w1)) \/
   (c = "base" /\ exists e w1 w2, validatePoolOnChain toy_options 7 "skale" fresh = (Err e, w1) /\
                                  validatePoolOnChain toy_options 7 "base" w1 = (Ok (), w2))).
Proof.
  eexists _, _.
  assert (discoverPoolChain toy_options 7 fresh = (Ok "base", mkNode 4 () ∅ ∅ None [] [])) as H
    by (vm_compute; reflexivity).
  split; [exact H|]. apply (discover_first _ _ _ _ _ H).
Defined.

Lemma pool_list_terminates_witness : (HandleEVMPoolList toy_options 10 "skale" fresh).1 <> Ok None.
Proof. apply (pool_list_terminates toy_options 9 "skale" 10 fresh poolEnv_ends). vm_compute. lia. Defined.

Lemma pool_list_bounded_witness :
  exists l w', HandleEVMPoolList toy_options 10 "base" fresh = (Ok (Some l), w') /\
    l = [evm_pool 7 "base" pool_seven] /\
    (length l <= 21)%nat /\ Forall (fun p => e_ID p <> 0 /\ e_ChainName p = "base") l.
Proof.
  eexists _, _.
  assert (HandleEVMPoolList toy_options 10 "base" fresh =
    (Ok (Some [evm_pool 7 "base" pool_seven]), mkNode 3 () ∅ ∅ None [] [])) as H by (vm_compute; reflexivity).
  split; [exact H|]. split; [done|].
  apply (pool_list_bounded toy_options "base" 10 fresh [evm_pool 7 "base" pool_seven] (mkNode 3 () ∅ ∅ None [] []));
    [lia | exact H].
Defined.

End concrete_pools.
