(* ===== verification/PoolConfig.v ===== *)
(** * blockchain/bl_pool.go: joining, leaving and reconciling a pool

    The device's pool membership lives on chain; the device keeps the pool and chain it is
    configured for. This file models the operations that change that configuration: the
    join and leave handlers, the periodic reconcile, and the clearing they share, with the
    marker files that limit what reconcile may do. *)

From S2P Require Import Prelude GoStd GoTime Json Abi PeerId SignedAuth Effects Node Evm.

#[local] Open Scope string_scope.
#[local] Open Scope Z_scope.

Definition poolLeaveCheckAttempts : nat := 3.
Definition PoolReconcileMinInterval : Z := 24 * 3600 * nanos.
Definition poolLeaveCheckInterval : Z := 4 * nanos.
Definition poolConfigClearedRestartDelay : Z := 3 * nanos.
Definition poolReconcileConfirmDelay : Z := 30 * nanos.

Definition PoolMemberConfirmedFilePath := "/internal/.tmp/pool_member_confirmed.tmp".
Definition PoolReconcileClearedAtFilePath := "/internal/.tmp/pool_reconcile_cleared_at.tmp".
Definition PoolReconcileDisabledFilePath := "/internal/.disable_pool_reconcile".

Definition poolKey (chainName pool : string) : string := chainName +:+ ":" +:+ pool.

(** ** Requests and responses *)
Record PoolJoinRequest := mkJoinReq { jr_PoolID : Z; jr_PeerID : string; jr_ChainName : string }.
Record PoolLeaveRequest := mkLeaveReq { lr_PoolID : Z; lr_ChainName : string }.

Definition decode_PoolJoinRequest (body : option string) : option PoolJoinRequest :=
  l ← decode_body body;
  let '(p, ok1) := field_int 0 (obj_field "pool_id" l) in
  let '(k, ok2) := field_string "" (obj_field "peer_id" l) in
  let '(c, ok3) := field_string "" (obj_field "chain_name" l) in
  if ok1 && ok2 && ok3 then Some (mkJoinReq p k c) else None.

Definition decode_PoolLeaveRequest (body : option string) : option PoolLeaveRequest :=
  l ← decode_body body;
  let '(p, ok1) := field_int 0 (obj_field "pool_id" l) in
  let '(c, ok2) := field_string "" (obj_field "chain_name" l) in
  if ok1 && ok2 then Some (mkLeaveReq p c) else None.

(** PoolJoinResponse and PoolLeaveResponse have the same fields, [chain_name] omitted
    when empty. *)
Definition pool_response (poolID : Z) (chainName : string) : json :=
  JObj ([("account", JStr ""); ("pool_id", JNum (Itoa poolID))]
        ++ if (chainName =? "")%string then [] else [("chain_name", JStr chainName)]).

Definition writeError {W : Type} (status : Z) (message description : string) : M W Resp :=
  WriteHeader status;;; ret (mkResp status (BJson (errMsg message description))).

Section config.
Context {S : Type} `{PS : PoolStore S} `{E : Env} `{MB : Multibase} `{PC : PeerCrypto}.
Context (o : Options).

(** ** Markers *)
Definition readPoolMemberConfirmed : M (Node S) (option string) :=
  b <- os_ReadFile PoolMemberConfirmedFilePath;;
  match b with
  | None => ret None
  | Some s => ret (Some (TrimSpace s))
  end.

Definition recordPoolMemberConfirmed (chainName pool : string) : M (Node S) () :=
  confirmed <- readPoolMemberConfirmed;;
  if bool_decide (confirmed = Some (poolKey chainName pool)) then ret () else
  r <- try (os_MkdirAll "/internal/.tmp");;
  match r with
  | inl _ => ret ()
  | inr _ =>
      _ <- try (os_WriteFile PoolMemberConfirmedFilePath (poolKey chainName pool));; ret ()
  end.

Definition clearPoolMemberConfirmed : M (Node S) () :=
  _ <- try (os_Remove PoolMemberConfirmedFilePath);; ret ().

Definition readTimeMarker (path : string) : M (Node S) (option Z) :=
  b <- os_ReadFile path;;
  match b with
  | None => ret None
  | Some s => ret (ParseRFC3339 (TrimSpace s))
  end.

(** filepath.Dir of the one path it is called with. *)
Definition writeTimeMarker (path : string) (t : Z) : M (Node S) () :=
  os_MkdirAll "/internal/.tmp";;; os_WriteFile path (FormatRFC3339 t).

(** ** Clearing *)
Definition cleanLeaveJoinPool (PoolID : Z) : M (Node S) () :=
  _ <- try (updatePoolName "0");;
  _ <- try (updateChainName "");;
  clearPoolMemberConfirmed;;;
  _ <- try StopPingServer;;
  clearPoolPeersFromPeerAddr PoolID.

Definition clearPoolConfig (poolID : Z) : M (Node S) () :=
  wrapErr "failed to clear the pool in the config" (updatePoolName "0");;;
  wrapErr "failed to clear the chain in the config" (updateChainName "");;;
  cleanLeaveJoinPool poolID;;;
  pool <- getPoolName;;
  if negb (pool =? "")%string && negb (pool =? "0")%string
  then raise "pool is still in the config after clearing it"
  else ret ().

(** ** Joining *)
Definition HandlePoolJoin (body : option string) : M (Node S) Resp :=
  match decode_PoolJoinRequest body with
  | None => ret (http_Error "" StatusBadRequest)
  | Some req =>
      let poolID := jr_PoolID req in
      chainName <- (if (jr_ChainName req =? "")%string then
                      d <- try (discoverPoolChain o (u32 poolID));;
                      match d with
                      | inr c => ret c
                      | inl _ => ret "skale"
                      end
                    else ret (jr_ChainName req));;
      v <- try (validatePoolOnChain o (u32 poolID) chainName);;
      match v with
      | inl e => writeError StatusBadRequest "Pool validation failed"
                   ("Pool " +:+ Itoa poolID +:+ " does not exist on chain " +:+ chainName +:+ ": " +:+ e)
      | inr _ =>
          u <- try (updatePoolName (Itoa poolID));;
          match u with
          | inl e => writeError StatusExpectationFailed
                       "Pool Join is submitted but Error in updating Pool Config"
                       ("Error in updatePoolName: " +:+ e)
          | inr _ =>
              c <- try (updateChainName chainName);;
              match c with
              | inl e => writeError StatusExpectationFailed
                           "Pool Join is submitted but Error in updating Chain Config"
                           ("Error in updateChainName: " +:+ e)
              | inr _ =>
                  WriteHeader StatusAccepted;;;
                  ret (mkResp StatusAccepted (BJson (pool_response poolID chainName)))
              end
          end
      end
  end.

(** ** Leaving *)

(** The check loop: the answer it stops with, or whether the chain still lists the device. *)
Fixpoint leave_check (left : nat) (poolID : Z) (chainName : string) : M (Node S) (Resp + bool) :=
  match left with
  | O => ret (inr false)
  | Datatypes.S left' =>
      r <- try (ClusterPeerPoolStatus o (u32 poolID) chainName);;
      match r with
      | inl e =>
          resp <- writeError StatusServiceUnavailable "Could not verify pool membership"
                    ("Membership check on " +:+ chainName +:+ " failed: " +:+ e);;
          ret (inl resp)
      | inr (member, pending) =>
          let stillListed := member || pending in
          if negb stillListed || bool_decide (left' = O) then ret (inr stillListed) else
          fired <- time_After poolLeaveCheckInterval;;
          if (fired : bool) then leave_check left' poolID chainName
          else
            resp <- writeError StatusServiceUnavailable "Could not verify pool membership"
                      "context deadline exceeded";;
            ret (inl resp)
      end
  end.

Definition leave_chain (req : PoolLeaveRequest) (configuredChain : string) : M (Node S) string :=
  if (lr_ChainName req =? "")%string then
    if negb (configuredChain =? "")%string then ret configuredChain
    else
      d <- try (discoverPoolChain o (u32 (lr_PoolID req)));;
      match d with
      | inr c => ret c
      | inl _ => ret "skale"
      end
  else ret (lr_ChainName req).

(** What follows the check loop. *)
Definition leave_finish (poolID : Z) (chainName : string) (checked : Resp + bool) : M (Node S) Resp :=
  match checked with
  | inl resp => ret resp
  | inr true =>
      writeError StatusConflict "Still in the pool on-chain"
        ("This Blox is still a member of (or waiting to join) pool " +:+ Itoa poolID +:+ " on "
         +:+ chainName +:+ "; remove it on-chain first")
  | inr false =>
      c <- try (clearPoolConfig poolID);;
      match c with
      | inl e => writeError StatusInternalServerError "Failed to update the Blox config" e
      | inr _ =>
          WriteHeader StatusAccepted;;;
          signalPoolConfigCleared o poolConfigClearedRestartDelay;;;
          ret (mkResp StatusAccepted (BJson (pool_response poolID chainName)))
      end
  end.

Definition HandlePoolLeave (body : option string) : M (Node S) Resp :=
  match decode_PoolLeaveRequest body with
  | None => ret (http_Error "" StatusBadRequest)
  | Some req =>
      let poolID := lr_PoolID req in
      if poolHost o then
        writeError StatusConflict "Pool host" "A pool host does not leave its pool"
      else
      configuredPool <- getPoolName;;
      if negb (configuredPool =? "")%string && negb (configuredPool =? "0")%string
         && negb (configuredPool =? Itoa poolID)%string then
        writeError StatusConflict "Pool mismatch"
          ("This Blox is configured for pool " +:+ configuredPool +:+ ", not pool " +:+ Itoa poolID)
      else if (configuredPool =? "")%string || (configuredPool =? "0")%string then
        WriteHeader StatusAccepted;;;
        ret (mkResp StatusAccepted (BJson (pool_response poolID (lr_ChainName req))))
      else
      configuredChain <- getChainName;;
      chainName <- leave_chain req configuredChain;;
      if negb (configuredChain =? "")%string && negb (configuredChain =? chainName)%string then
        writeError StatusConflict "Chain mismatch"
          ("This Blox is configured for pool " +:+ configuredPool +:+ " on " +:+ configuredChain
           +:+ ", not on " +:+ chainName)
      else
      checked <- leave_check poolLeaveCheckAttempts poolID chainName;;
      leave_finish poolID chainName checked
  end.

(** ** Reconciling *)

(** One round of the two membership checks: [Some answer] ends the reconcile. *)
Definition reconcile_check (check : Z) (poolID : Z) (pool chainName : string) : M (Node S) (option bool) :=
  (if check =? 2 then
     fired <- time_After poolReconcileConfirmDelay;;
     if (fired : bool) then ret () else raise "context deadline exceeded"
   else ret ());;;
  r <- ClusterPeerPoolStatus o (u32 poolID) chainName;;
  let '(member, pending) := r in
  if (member : bool) then recordPoolMemberConfirmed chainName pool;;; ret (Some false)
  else if (pending : bool) then ret (Some false)
  else if check =? 1 then
    confirmed <- readPoolMemberConfirmed;;
    if bool_decide (confirmed = Some (poolKey chainName pool)) then ret None else ret (Some false)
  else ret None.

(** The last part of a reconcile: the marker is written with the current time, then the
    configuration is cleared. *)
Definition reconcile_clear (poolID : Z) : M (Node S) bool :=
  now <- time_Now;;
  wrapErr "cannot record the reconcile time, not clearing"
    (writeTimeMarker PoolReconcileClearedAtFilePath now);;;
  clearPoolConfig poolID;;;
  signalPoolConfigCleared o 0;;;
  ret true.

(** The recheck of the configuration, then the clear. *)
Definition reconcile_final (poolID : Z) (pool chainName : string) : M (Node S) bool :=
  pool2 <- getPoolName;;
  chain2 <- (if (pool2 =? pool)%string then getChainName else ret chainName);;
  if negb (pool2 =? pool)%string || negb (chain2 =? chainName)%string then ret false else
  reconcile_clear poolID.

Definition reconcile_rounds (poolID : Z) (pool chainName : string) : M (Node S) bool :=
  c1 <- reconcile_check 1 poolID pool chainName;;
  match c1 with
  | Some b => ret b
  | None =>
      c2 <- reconcile_check 2 poolID pool chainName;;
      match c2 with
      | Some b => ret b
      | None => reconcile_final poolID pool chainName
      end
  end.

Definition ReconcilePoolConfig : M (Node S) bool :=
  disabled <- os_Stat PoolReconcileDisabledFilePath;;
  if (disabled : bool) then ret false else
  if poolHost o then ret false else
  pool <- getPoolName;;
  chainName <- getChainName;;
  if (pool =? "")%string || (pool =? "0")%string || (chainName =? "")%string then ret false else
  clearedAt <- readTimeMarker PoolReconcileClearedAtFilePath;;
  recent <- match clearedAt with
            | Some t => now <- time_Now;; ret (now - t <? PoolReconcileMinInterval)
            | None => ret false
            end;;
  if (recent : bool) then ret false else
  match ParseUint pool 10 32 with
  | inl _ => raise ("invalid configured pool " +:+ pool)
  | inr poolID => reconcile_rounds poolID pool chainName
  end.

(** ** Frames *)
Context `{L : !PoolStoreLaws S}.

Lemma keeps_WriteHeader {W} (R : W -> W -> Prop) `{!PreOrder R} code : keeps R (WriteHeader code).
Proof. unfold WriteHeader. keeps_go. Qed.

Lemma keeps_writeError {W} (R : W -> W -> Prop) `{!PreOrder R} s m d : keeps R (writeError s m d).
Proof. unfold writeError. keeps_go. apply (keeps_WriteHeader _). Qed.
Hint Extern 0 (keeps _ (writeError _ _ _)) => apply keeps_writeError; exact _ : keeps.
Hint Extern 0 (keeps _ (WriteHeader _)) => apply keeps_WriteHeader; exact _ : keeps.

Lemma only_fx_readTimeMarker p : keeps only_fx (readTimeMarker p).
Proof. unfold readTimeMarker. keeps_go. Qed.
Lemma only_fx_readConfirmed : keeps only_fx readPoolMemberConfirmed.
Proof. unfold readPoolMemberConfirmed. keeps_go. Qed.
Hint Resolve only_fx_readTimeMarker only_fx_readConfirmed : keeps.

Lemma only_fx_leave_check n p c : keeps only_fx (leave_check n p c).
Proof. induction n as [|n IH]; cbn [leave_check]; keeps_go. Qed.
Lemma only_fx_leave_chain r c : keeps only_fx (leave_chain r c).
Proof. unfold leave_chain. keeps_go. Qed.
Hint Resolve only_fx_leave_check only_fx_leave_chain : keeps.

(** The configuration is cleared: no pool, no chain, and at most the membership marker
    removed from the files. *)
Definition cleared (w w' : Node S) : Prop :=
  stored_pool (n_store w') = "0" /\ stored_chain (n_store w') = "" /\
  (n_files w' = n_files w \/ n_files w' = delete PoolMemberConfirmedFilePath (n_files w)) /\
  n_restarts w' = n_restarts w.

Lemma clearConfirmed_frame w : exists w', clearPoolMemberConfirmed w = (Ok (), w') /\
  n_store w' = n_store w /\ n_restarts w' = n_restarts w /\
  (n_files w' = n_files w \/ n_files w' = delete PoolMemberConfirmedFilePath (n_files w)).
Proof.
  unfold clearPoolMemberConfirmed, bind, try, os_Remove, bind, fs_step. cbn.
  destruct (env_fs (n_fx w)); cbn; eauto 10.
Qed.

(** [_ = m()] with the error dropped goes on whatever [m] reports. *)
Lemma bind_try_drop {A B} (m : M (Node S) A) (k : M (Node S) B) w :
  (m w).1 <> Panic -> bind (try m) (fun _ => k) w = k (m w).2.
Proof. intros Hp. unfold bind, try. by destruct (m w) as [[]]. Qed.

Lemma bind_eq_Ok {A B} (m : M (Node S) A) (k : A -> M (Node S) B) w a w' :
  m w = (Ok a, w') -> bind m k w = k a w'.
Proof. unfold bind. by intros ->. Qed.

Lemma ping_not_Panic w : (@StopPingServer S E w).1 <> Panic.
Proof. unfold StopPingServer, ShutdownPingProxy, bind, gets. cbn. by repeat case_match. Qed.

Lemma cleanLeaveJoinPool_cleared p w :
  stored_pool (n_store w) = "0" -> stored_chain (n_store w) = "" ->
  exists w', cleanLeaveJoinPool p w = (Ok (), w') /\ cleared w w' /\ n_members w' = ∅.
Proof.
  intros Hp Hc. unfold cleanLeaveJoinPool.
  rewrite bind_try_drop by apply update_not_Panic.
  pose proof (updatePoolName_same w) as H1. rewrite Hp in H1.
  set (w1 := (updatePoolName "0" w).2) in *. clearbody w1. destruct H1 as (Hp1 & Hc1 & Hf1 & Hr1).
  rewrite bind_try_drop by apply update_not_Panic.
  pose proof (updateChainName_same w1) as H2. rewrite Hc1, Hc in H2.
  set (w2 := (updateChainName "" w1).2) in *. clearbody w2. destruct H2 as (Hp2 & Hc2 & Hf2 & Hr2).
  destruct (clearConfirmed_frame w2) as (w3 & E3 & Hs3 & Hr3 & Hf3).
  rewrite (bind_eq_Ok _ _ _ _ _ E3). rewrite bind_try_drop by apply ping_not_Panic.
  pose proof (same_config_ping w3) as (Hp4 & Hc4 & Hf4 & Hr4).
  unfold StopPingServer. set (w4 := (ShutdownPingProxy w3).2) in *. clearbody w4.
  eexists. split; [reflexivity|]. unfold cleared. cbn. rewrite Hs3 in *. split; [|done].
  split_and!; [congruence..| |congruence]. destruct Hf3 as [Hf3|Hf3]; [left|right]; congruence.
Qed.

Lemma clearPoolConfig_Ok p w w' : clearPoolConfig p w = (Ok (), w') -> cleared w w' /\ n_members w' = ∅.
Proof.
  unfold clearPoolConfig. intros ([] & w1 & H1 & H)%bind_Ok_inv. apply wrapErr_Ok, updatePoolName_Ok in H1.
  apply bind_Ok_inv in H as ([] & w2 & H2 & H). apply wrapErr_Ok, updateChainName_Ok in H2.
  destruct H1 as (Hp1 & Hc1 & Hf1 & Hr1), H2 as (Hc2 & Hp2 & Hf2 & Hr2).
  destruct (cleanLeaveJoinPool_cleared p w2) as (w3 & E3 & (Hp3 & Hc3 & Hf3 & Hr3) & Hm3); [congruence..|].
  rewrite (bind_eq_Ok _ _ _ _ _ E3) in H. apply bind_Ok_inv in H as (pool & w4 & H4 & H).
  pose proof (same_config_getPoolName w3) as (Hp4 & Hc4 & Hf4 & Hr4). rewrite H4 in *. cbn in *.
  assert (n_members w4 = n_members w3) as Hm4.
  { unfold getPoolName, bind, fs_step in H4. cbn in H4. destruct (ps_getPoolName _ _). by injection H4 as _ <-. }
  case_match; [done|]. injection H as <-. split; [|congruence].
  unfold cleared. split_and!; [congruence..| |congruence].
  destruct Hf3 as [Hf3|Hf3]; [left|right]; congruence.
Qed.

Lemma leave_check_inr n p c w b w' : leave_check n p c w = (Ok (inr b), w') ->
  (0 < n)%nat -> b = false -> exists w1, (n_fx w <= n_fx w1)%nat /\ not_listed o w1 w' (u32 p) c.
Proof.
  revert w. induction n as [|n IH]; intros w H Hn Hb; [lia|]. cbn [leave_check] in H.
  apply bind_Ok_inv in H as (r & w1 & Hr & H).
  pose proof (only_fx_ClusterPeerPoolStatus o (u32 p) c w) as [Hle _].
  apply try_Ok_inv in Hr as [([member pending] & -> & Hr)|(e & -> & Hr)].
  - rewrite Hr in Hle. cbn in Hle.
    destruct (negb (member || pending) || bool_decide (n = 0%nat)) eqn:Et.
    + injection H as <- <-. apply orb_false_iff in Hb as [-> ->].
      apply ClusterPeerPoolStatus_Ok in Hr as [Hr _]. exists w. auto.
    + apply bind_Ok_inv in H as (fired & w2 & Ht & H). destruct fired.
      * apply IH in H as (w3 & Hw3 & Hnl); [|apply orb_false_iff in Et as [_ Et]; bool_to_prop; lia|done].
        exists w3. split; [|done]. unfold time_After in Ht. injection Ht as _ <-. cbn in *. lia.
      * by apply bind_Ok_inv in H as (? & ? & _ & [= ]).
  - by apply bind_Ok_inv in H as (? & ? & _ & [= ]).
Qed.

(** No restart was asked for, and the reconcile marker is as it was. *)
Definition quiet (w w' : Node S) : Prop :=
  (n_fx w <= n_fx w')%nat /\ n_restarts w' = n_restarts w /\
  n_files w' !! PoolReconcileClearedAtFilePath = n_files w !! PoolReconcileClearedAtFilePath.

#[local] Instance quiet_preorder : PreOrder quiet.
Proof.
  split; [intros w; by unfold quiet|]. intros w1 w2 w3. unfold quiet. intros H1 H2. destruct_and!.
  split_and!; (lia || congruence).
Qed.

Lemma quiet_only_fx {A} (m : M (Node S) A) : keeps only_fx m -> keeps quiet m.
Proof. intros Hm w. destruct (Hm w) as (? & ? & Hf & ? & ? & ? & ?). unfold quiet. split_and!; congruence || done. Qed.

Lemma quiet_updatePoolName n : keeps quiet (updatePoolName n).
Proof.
  intros w. unfold updatePoolName, bind, fs_step. cbn. destruct (ps_updatePoolName _ _ _ _) as [v s].
  unfold quiet. cbn. split_and!; done || lia.
Qed.
Lemma quiet_updateChainName n : keeps quiet (updateChainName n).
Proof.
  intros w. unfold updateChainName, bind, fs_step. cbn. destruct (ps_updateChainName _ _ _ _) as [v s].
  unfold quiet. cbn. split_and!; done || lia.
Qed.
Lemma quiet_getPoolName : keeps quiet getPoolName.
Proof.
  intros w. unfold getPoolName, bind, fs_step. cbn. destruct (ps_getPoolName _ _) as [v s].
  unfold quiet. cbn. split_and!; done || lia.
Qed.
Lemma quiet_getChainName : keeps quiet getChainName.
Proof.
  intros w. unfold getChainName, bind, fs_step. cbn. destruct (ps_getChainName _ _) as [v s].
  unfold quiet. cbn. split_and!; done || lia.
Qed.

Lemma quiet_ping : keeps quiet (@StopPingServer S E).
Proof.
  intros w. unfold StopPingServer, ShutdownPingProxy, quiet, bind, gets. cbn.
  repeat case_match; cbn; split_and!; done || lia.
Qed.

Lemma quiet_clearConfirmed : keeps quiet clearPoolMemberConfirmed.
Proof.
  intros w. unfold clearPoolMemberConfirmed, bind, try, os_Remove, bind, fs_step, quiet. cbn.
  destruct (env_fs (n_fx w)); cbn; (split; [lia|]); split; try done. by rewrite lookup_delete_ne.
Qed.

Lemma quiet_clearPeers t : keeps quiet (@clearPoolPeersFromPeerAddr S t).
Proof. intros w. unfold quiet. cbn. done. Qed.

Hint Resolve quiet_only_fx quiet_ping quiet_clearConfirmed quiet_clearPeers quiet_updatePoolName
  quiet_updateChainName quiet_getPoolName quiet_getChainName : keeps.

Lemma quiet_clearPoolConfig p : keeps quiet (clearPoolConfig p).
Proof. unfold clearPoolConfig, cleanLeaveJoinPool. keeps_go. Qed.
Hint Resolve quiet_clearPoolConfig : keeps.

(** ** Leaving *)

(** The state once the configured pool and chain have been read. *)
Definition after_reads (w : Node S) : Node S := (getChainName (getPoolName w).2).2.

(** The chain a leave request is about: the one it names; without one, the configured one
    if it can be read and is set; else the one the search finds, and skale if it finds none. *)
Definition leave_target (req : PoolLeaveRequest) (w : Node S) (c : string) : Prop :=
  if (lr_ChainName req =? "")%string then
    let configured := match env_fs (Datatypes.S (n_fx w)) with FsOk => stored_chain (n_store w) | FsErr _ => "" end in
    if (configured =? "")%string then
      (exists w1, discoverPoolChain o (u32 (lr_PoolID req)) (after_reads w) = (Ok c, w1)) \/
      (c = "skale" /\ exists e w1, discoverPoolChain o (u32 (lr_PoolID req)) (after_reads w) = (Err e, w1))
    else c = configured
  else c = lr_ChainName req.

(** The outcome of a leave request that got past the checks: the device is configured for
    the pool it was asked about; [c] is the chain of the request, and it is the stored one
    unless none is stored or the read of it, the second access of the run, failed; the
    chain does not list the device. *)
Record left_pool (req : PoolLeaveRequest) (c : string) (w w' : Node S) : Prop := {
  lp_member : poolHost o = false;
  lp_pool : stored_pool (n_store w) = Itoa (lr_PoolID req);
  lp_target : leave_target req w c;
  lp_chain : env_fs (Datatypes.S (n_fx w)) = FsOk -> stored_chain (n_store w) <> "" -> c = stored_chain (n_store w);
  lp_verdict : not_listed o w w' (u32 (lr_PoolID req)) c
}.

(** What the two reads give, and where they leave the effect counter. *)
Lemma getPoolName_run w v w' : getPoolName w = (Ok v, w') ->
  v = match env_fs (n_fx w) with FsOk => stored_pool (n_store w) | FsErr _ => "0" end /\
  n_fx w' = Datatypes.S (n_fx w) /\ same_config w w'.
Proof.
  intros H. pose proof (same_config_getPoolName w) as Hs. rewrite H in Hs. revert H.
  unfold getPoolName, bind, fs_step. cbn. destruct (ps_getPoolName _ _) as [v0 s] eqn:Eg. intros [= <- <-].
  split; [|split; [done | exact Hs]].
  destruct (env_fs (n_fx w)) as [|l];
    [rewrite <- get_pool_ok | rewrite <- (get_pool_err l (n_store w))]; by rewrite Eg.
Qed.

Lemma getChainName_run w v w' : getChainName w = (Ok v, w') ->
  v = match env_fs (n_fx w) with FsOk => stored_chain (n_store w) | FsErr _ => "" end /\
  n_fx w' = Datatypes.S (n_fx w) /\ same_config w w'.
Proof.
  intros H. pose proof (same_config_getChainName w) as Hs. rewrite H in Hs. revert H.
  unfold getChainName, bind, fs_step. cbn. destruct (ps_getChainName _ _) as [v0 s] eqn:Eg. intros [= <- <-].
  split; [|split; [done | exact Hs]].
  destruct (env_fs (n_fx w)) as [|l];
    [rewrite <- get_chain_ok | rewrite <- (get_chain_err l (n_store w))]; by rewrite Eg.
Qed.

Lemma leave_chain_target req w cc w1 w2 c w3 :
  getPoolName w = (Ok (Itoa (lr_PoolID req)), w1) -> getChainName w1 = (Ok cc, w2) ->
  leave_chain req cc w2 = (Ok c, w3) ->
  leave_target req w c /\
  cc = match env_fs (Datatypes.S (n_fx w)) with FsOk => stored_chain (n_store w) | FsErr _ => "" end.
Proof.
  intros H1 H2 H3. assert (after_reads w = w2) as Ha by (unfold after_reads; rewrite H1; cbn [snd]; by rewrite H2).
  apply getPoolName_run in H1 as (_ & Hn1 & _ & Hc1 & _). apply getChainName_run in H2 as (Hcc & _).
  rewrite Hn1, Hc1 in Hcc. split; [|exact Hcc]. revert H3. unfold leave_chain, leave_target. rewrite <- Hcc, Ha.
  destruct (lr_ChainName req =? "")%string; [|by intros [= <- _]].
  destruct (cc =? "")%string; cbn [negb]; [|by intros [= <- _]].
  intros (d & w4 & Hd & H)%bind_Ok_inv.
  apply try_Ok_inv in Hd as [(c' & -> & Hd)|(e & -> & Hd)]; injection H as <- _; eauto.
Qed.

Lemma leave_check_inl n p c w r w' :
  leave_check n p c w = (Ok (inl r), w') -> resp_code r = StatusServiceUnavailable.
Proof.
  revert w. induction n as [|n IH]; intros w H; [done|]. cbn [leave_check] in H.
  apply bind_Ok_inv in H as (x & w1 & _ & H). destruct x as [e|[member pending]].
  - by apply bind_Ok_inv in H as (? & ? & [= <- <-] & [= <- <-]).
  - case_match; [done|]. apply bind_Ok_inv in H as (fired & w2 & _ & H). destruct fired; [by eapply IH|].
    by apply bind_Ok_inv in H as (? & ? & [= <- <-] & [= <- <-]).
Qed.

Lemma leave_finish_clear p c w resp w' :
  leave_finish p c (inr false) w = (Ok resp, w') ->
  (n_fx w <= n_fx w')%nat /\
  ((resp_code resp = 202 /\ stored_pool (n_store w') = "0" /\ stored_chain (n_store w') = "" /\
    n_restarts w' = (n_restarts w ++ (if onPoolConfigCleared o then [poolConfigClearedRestartDelay] else []))%list) \/
   (resp_code resp = 500 /\ n_restarts w' = n_restarts w)).
Proof.
  unfold leave_finish. intros (x & w1 & Hx & H)%bind_Ok_inv.
  pose proof (quiet_clearPoolConfig p w) as (Hle & Hr & _).
  apply try_Ok_inv in Hx as [([] & -> & Hx)|(e & -> & Hx)]; rewrite Hx in Hle, Hr; cbn in Hle, Hr.
  - apply clearPoolConfig_Ok in Hx as [(Hp & Hc & _ & Hr1) _].
    unfold signalPoolConfigCleared in H. destruct (onPoolConfigCleared o); injection H as <- <-; cbn;
      (split; [lia|left]); rewrite ?app_nil_r, ?Hr1; auto.
  - injection H as <- <-. split; [lia|]. by right.
Qed.

(** The state [HandlePoolLeave] is in when it starts the check loop. *)
Lemma leave_prefix body w resp w' :
  HandlePoolLeave body w = (Ok resp, w') ->
  (same_config w w' /\ In (resp_code resp) [202; 400; 409]) \/
  exists req c w1, decode_PoolLeaveRequest body = Some req /\ poolHost o = false /\
    stored_pool (n_store w) = Itoa (lr_PoolID req) /\ leave_target req w c /\
    (env_fs (Datatypes.S (n_fx w)) = FsOk -> stored_chain (n_store w) <> "" -> c = stored_chain (n_store w)) /\
    same_config w w1 /\ (n_fx w <= n_fx w1)%nat /\
    (checked <- leave_check poolLeaveCheckAttempts (lr_PoolID req) c;; leave_finish (lr_PoolID req) c checked) w1
      = (Ok resp, w').
Proof.
  unfold HandlePoolLeave. destruct (decode_PoolLeaveRequest body) as [req|];
    [|intros [= <- <-]; left; split; [done | cbn; auto]].
  destruct (poolHost o) eqn:Hhost; [intros [= <- <-]; left; split; [done | cbn; auto]|].
  intros (pool & w1 & H1 & H)%bind_Ok_inv. apply getPoolName_run in H1 as Hr1. destruct Hr1 as (Hpool & Hn1 & Hs1).
  destruct (_ && _) eqn:Hmis; [injection H as <- <-; left; split; [done | cbn; auto]|].
  destruct (_ || _) eqn:Hnone; [injection H as <- <-; left; split; [done | cbn; auto]|].
  assert (pool = Itoa (lr_PoolID req) /\ pool = stored_pool (n_store w)) as [-> Hstored].
  { rewrite orb_false_iff, !String.eqb_neq in Hnone. rewrite !andb_false_iff, !negb_false_iff, !String.eqb_eq in Hmis.
    destruct (env_fs (n_fx w)); naive_solver. }
  apply bind_Ok_inv in H as (cc & w2 & H2 & H). apply getChainName_run in H2 as Hr2. destruct Hr2 as (_ & Hn2 & Hs2).
  apply bind_Ok_inv in H as (c & w3 & H3 & H).
  pose proof (only_fx_leave_chain req cc w2) as Hf3. rewrite H3 in Hf3. cbn in Hf3.
  destruct (leave_chain_target _ _ _ _ _ _ _ H1 H2 H3) as [Ht Hcc].
  assert (same_config w w3) as Hs3.
  { etrans; [exact Hs1|]. etrans; [exact Hs2|]. by apply only_fx_same_config. }
  destruct (_ && _) eqn:Hcm; [injection H as <- <-; left; split; [done | cbn; auto]|].
  right. exists req, c, w3. destruct Hf3 as [Hf3 _]. split_and!; try done; [|lia].
  rewrite andb_false_iff, !negb_false_iff, !String.eqb_eq in Hcm. intros Hfs Hne. rewrite Hfs in Hcc. naive_solver.
Qed.

(** C1. A leave request never clears a configuration on a guess: either the stored pool and
    chain, the marker files and the pending restarts are all untouched (and the answer is
    202 for "nothing configured", 400, 409 or 503), or the device is not a pool host, it is
    configured for exactly the pool of the request, the chain of the request (the one it
    names, else the configured one, else the discovered one, else skale) is the configured
    one whenever one is configured and could be read, and on that chain both reads said the
    device is neither member nor waiting; then the pool and the chain are cleared, the
    answer is 202 and one restart is started if the hook is set (or the config could not be
    written, the answer is 500 and no restart is started). The file system and the chain
    endpoints may do anything. *)
Theorem leave_safe body w resp w' :
  HandlePoolLeave body w = (Ok resp, w') ->
  (same_config w w' /\ In (resp_code resp) [202; 400; 409; 503]) \/
  (exists req c, decode_PoolLeaveRequest body = Some req /\ left_pool req c w w' /\
     ((resp_code resp = 202 /\ stored_pool (n_store w') = "0" /\ stored_chain (n_store w') = "" /\
       n_restarts w' = (n_restarts w ++ (if onPoolConfigCleared o then [poolConfigClearedRestartDelay] else []))%list) \/
      (resp_code resp = 500 /\ n_restarts w' = n_restarts w))).
Proof.
  intros [[Hs Hc]|(req & c & w1 & Hdec & Hhost & Hp & Ht & Hch & Hs & Hle & H)]%leave_prefix.
  { left. split; [done|]. cbn in *. intuition auto. }
  apply bind_Ok_inv in H as (chk & w2 & H2 & H).
  pose proof (only_fx_leave_check poolLeaveCheckAttempts (lr_PoolID req) c w1) as Hf. rewrite H2 in Hf. cbn in Hf.
  assert (same_config w w2) as Hs2 by (etrans; [exact Hs | by apply only_fx_same_config]).
  destruct chk as [r|[|]].
  - injection H as <- <-. left. split; [done|]. apply leave_check_inl in H2. rewrite H2. cbn. auto.
  - injection H as <- <-. left. split; [done|]. cbn. auto.
  - right. exists req, c. split; [done|]. apply leave_finish_clear in H as [Hle' H].
    apply leave_check_inr in H2 as (w3 & Hw3 & Hnl); [|unfold poolLeaveCheckAttempts; lia|done].
    split.
    + split; try done. eapply not_listed_mono; [..|exact Hnl]; lia.
    + destruct Hs2 as (_ & _ & _ & Hr). by rewrite Hr in H.
Qed.

(** ** Joining *)

(** The chain a join is for and the state once it is known: the chain of the request, or
    else the discovered one, or else skale. *)
Definition join_chain (req : PoolJoinRequest) (w : Node S) (c : string) (w1 : Node S) : Prop :=
  if (jr_ChainName req =? "")%string then
    discoverPoolChain o (u32 (jr_PoolID req)) w = (Ok c, w1) \/
    (c = "skale" /\ exists e, discoverPoolChain o (u32 (jr_PoolID req)) w = (Err e, w1))
  else c = jr_ChainName req /\ w1 = w.

(** Storing the pool and the chain, from the state after the validation: the pool could not
    be stored; the pool was stored and then the chain could not be; or both were stored. *)
Inductive join_stored (id : Z) (c : string) (w w' : Node S) : Z -> Prop :=
| js_pool_failed e : updatePoolName (Itoa id) w = (Err e, w') -> join_stored id c w w' 417
| js_chain_failed e w1 : updatePoolName (Itoa id) w = (Ok (), w1) -> stored_pool (n_store w1) = Itoa id ->
    updateChainName c w1 = (Err e, w') -> join_stored id c w w' 417
| js_done : stored_pool (n_store w') = Itoa id -> stored_chain (n_store w') = c -> join_stored id c w w' 202.

(** C34. A join request is refused with 400, and has changed nothing, if it does not parse
    or its validation failed; otherwise an endpoint of the chain it is for (the one of the
    request, else the discovered one, else skale) answered during this run that a pool with
    the low 32 bits of the requested id exists, and then the requested id and the chain are
    stored and the answer is 202, or writing the config failed and the answer is 417: at the
    pool, or at the chain with the pool already stored. No join starts a restart or touches
    a file besides the config. *)
Theorem join_effect body w resp w' :
  HandlePoolJoin body w = (Ok resp, w') ->
  n_restarts w' = n_restarts w /\ n_files w' = n_files w /\
  ((resp_code resp = 400 /\ same_config w w' /\
    (decode_PoolJoinRequest body = None \/ exists req c w1 e w2, decode_PoolJoinRequest body = Some req /\
       join_chain req w c w1 /\ validatePoolOnChain o (u32 (jr_PoolID req)) c w1 = (Err e, w2))) \/
   exists req c w1 w2, decode_PoolJoinRequest body = Some req /\ join_chain req w c w1 /\
     pool_seen o w1 w2 (u32 (jr_PoolID req)) c /\ same_config w w2 /\
     join_stored (jr_PoolID req) c w2 w' (resp_code resp)).
Proof.
  unfold HandlePoolJoin. destruct (decode_PoolJoinRequest body) as [req|];
    [|intros [= <- <-]; split; [done|]; split; [done|]; left; split; [done|]; split; [done|]; by left].
  intros (c & w1 & H1 & H)%bind_Ok_inv.
  assert (join_chain req w c w1 /\ only_fx w w1) as [Hc Hf1].
  { unfold join_chain. destruct (jr_ChainName req =? "")%string.
    - pose proof (only_fx_discoverPoolChain o (u32 (jr_PoolID req)) w) as Hk.
      apply bind_Ok_inv in H1 as (d & w2 & Hd & H1).
      apply try_Ok_inv in Hd as [(c' & -> & Hd)|(e & -> & Hd)]; rewrite Hd in Hk; injection H1 as <- <-;
        naive_solver.
    - injection H1 as <- <-. done. }
  apply bind_Ok_inv in H as (v & w2 & Hv & H).
  pose proof (only_fx_validatePoolOnChain o (u32 (jr_PoolID req)) c w1) as Hf2.
  assert (same_config w w2) as Hs.
  { apply only_fx_same_config. etrans; [exact Hf1|].
    apply try_Ok_inv in Hv as [(? & _ & Hv)|(? & _ & Hv)]; by rewrite Hv in Hf2. }
  pose proof Hs as (_ & _ & Hfl2 & Hr2).
  apply try_Ok_inv in Hv as [([] & -> & Hv)|(e & -> & Hv)].
  2: { injection H as <- <-. split; [done|]. split; [done|]. left. split; [done|]. split; [done|]. right.
       by exists req, c, w1, e, w2. }
  apply validatePoolOnChain_Ok in Hv.
  assert (join_stored (jr_PoolID req) c w2 w' (resp_code resp) /\ n_restarts w' = n_restarts w2 /\ n_files w' = n_files w2)
    as (Hj & Hr & Hfl).
  2: { split; [congruence|]. split; [congruence|]. right. by exists req, c, w1, w2. }
  apply bind_Ok_inv in H as (u & w3 & Hu & H).
  assert (n_restarts w3 = n_restarts w2 /\ n_files w3 = n_files w2) as [Hr3 Hfl3].
  { revert Hu. unfold try, updatePoolName, bind, fs_step. cbn. destruct (ps_updatePoolName _ _ _ _) as [[]]; by intros [= _ <-]. }
  apply try_Ok_inv in Hu as [([] & -> & Hu)|(e & -> & Hu)].
  2: { injection H as <- <-. split; [by eapply js_pool_failed | done]. }
  apply bind_Ok_inv in H as (u & w4 & Hu' & H).
  assert (n_restarts w4 = n_restarts w3 /\ n_files w4 = n_files w3) as [Hr4 Hfl4].
  { revert Hu'. unfold try, updateChainName, bind, fs_step. cbn. destruct (ps_updateChainName _ _ _ _) as [[]]; by intros [= _ <-]. }
  apply updatePoolName_Ok in Hu as Hp.
  apply try_Ok_inv in Hu' as [([] & -> & Hu')|(e & -> & Hu')]; injection H as <- <-.
  - apply updateChainName_Ok in Hu' as (Hch & Hp' & _). split; [|split; congruence].
    apply js_done; [destruct Hp; congruence | done].
  - split; [|split; congruence]. eapply js_chain_failed; [exact Hu | apply Hp | exact Hu'].
Qed.

(** ** Reconciling *)

(** Everything but the files, and those only by recording the membership marker. *)
Definition recorded (w w' : Node S) : Prop :=
  stored_pool (n_store w') = stored_pool (n_store w) /\ stored_chain (n_store w') = stored_chain (n_store w) /\
  quiet w w'.

#[local] Instance recorded_preorder : PreOrder recorded.
Proof.
  split; [intros w; unfold recorded; by split_and!|]. intros w1 w2 w3 (? & ? & ?) (? & ? & ?).
  split; [congruence|]. split; [congruence|]. by etrans.
Qed.

Lemma recorded_only_fx {A} (m : M (Node S) A) : keeps only_fx m -> keeps recorded m.
Proof.
  intros Hm w. destruct (Hm w) as (? & Hs & Hf & ? & ? & ? & ?). unfold recorded, quiet.
  rewrite Hs, Hf. split_and!; done.
Qed.
Lemma recorded_get : keeps recorded getPoolName /\ keeps recorded getChainName.
Proof.
  split; intros w.
  - destruct (same_config_getPoolName w) as (? & ? & _). by pose proof (quiet_getPoolName w).
  - destruct (same_config_getChainName w) as (? & ? & _). by pose proof (quiet_getChainName w).
Qed.
Lemma recorded_write data : keeps recorded (os_WriteFile PoolMemberConfirmedFilePath data).
Proof.
  intros w. unfold os_WriteFile, bind, fs_step, recorded, quiet. cbn.
  destruct (env_fs (n_fx w)) as [|[n|]]; cbn; split_and!; try done; try lia; by rewrite lookup_insert_ne.
Qed.
Lemma only_fx_MkdirAll p : keeps only_fx (@os_MkdirAll S E p).
Proof. unfold os_MkdirAll. keeps_go. Qed.
Hint Resolve recorded_only_fx recorded_write only_fx_MkdirAll : keeps.

Lemma recorded_recordConfirmed c p : keeps recorded (recordPoolMemberConfirmed c p).
Proof. unfold recordPoolMemberConfirmed. keeps_go. Qed.
Hint Resolve recorded_recordConfirmed : keeps.

Lemma recorded_reconcile_check k p pool c : keeps recorded (reconcile_check k p pool c).
Proof. unfold reconcile_check. keeps_go. Qed.

(** A round that does not end the reconcile saw the device listed nowhere; the first one
    also found the membership marker, the second one was preceded by the confirmation
    delay. *)
Lemma reconcile_check_None k p pool c w w' :
  reconcile_check k p pool c w = (Ok None, w') ->
  not_listed o w w' (u32 p) c /\ only_fx w w' /\
  (k = 1 -> exists s, n_files w !! PoolMemberConfirmedFilePath = Some s /\ TrimSpace s = poolKey c pool) /\
  (k = 2 -> env_timer (n_fx w) poolReconcileConfirmDelay = true).
Proof.
  unfold reconcile_check. intros ([] & w1 & H1 & H)%bind_Ok_inv.
  assert (only_fx w w1 /\ (k = 2 -> env_timer (n_fx w) poolReconcileConfirmDelay = true)) as [Hf1 Htm].
  { destruct (Z.eqb_spec k 2) as [->|]; [|by injection H1 as <-]. apply bind_Ok_inv in H1 as (f & w2 & Ht & H1).
    pose proof (only_fx_timer poolReconcileConfirmDelay w) as Hk. rewrite Ht in Hk. destruct f; [|done].
    injection H1 as <-. split; [exact Hk|]. intros _. by injection Ht. }
  apply bind_Ok_inv in H as ([member pending] & w2 & H2 & H).
  pose proof (only_fx_ClusterPeerPoolStatus o (u32 p) c w1) as Hf2. rewrite H2 in Hf2. cbn in Hf2.
  apply ClusterPeerPoolStatus_Ok in H2 as [Hnl _].
  destruct member; [by apply bind_Ok_inv in H as ([] & ? & _ & [= ])|].
  destruct pending; [done|]. specialize (Hnl eq_refl eq_refl).
  assert (not_listed o w w2 (u32 p) c) as Hnl'
    by (destruct Hf1 as [Hle _]; eapply not_listed_mono; [exact Hle|done|exact Hnl]).
  destruct (Z.eqb_spec k 1) as [->|Hk]; [|injection H as <-; split; [done|]; split; [by etrans|done]].
  unfold readPoolMemberConfirmed, os_ReadFile, fs_step in H. unfold bind, gets in H. cbn in H.
  destruct Hf1 as (? & ? & Hfl1 & ?), Hf2 as (? & ? & Hfl2 & ?).
  destruct (env_fs (n_fx w2)); cbn in H; [|by case_bool_decide].
  destruct (n_files w2 !! PoolMemberConfirmedFilePath) as [s|] eqn:Es; cbn in H; [|by case_bool_decide].
  case_bool_decide as Hs; [|done]. injection H as <-. injection Hs as Hs.
  split; [|split; [unfold only_fx; cbn; destruct_and!; split_and!; (lia || congruence)|]].
  - apply (not_listed_mono o w w w2 (bump w2)); [done | cbn; lia | done].
  - split; [|done]. intros _. exists s. split; [congruence|done].
Qed.

(** What a reconcile has checked when it starts to clear, from its first state [w] to the
    state [w'] before the clearing. Each clause speaks of the read the code makes: the stat
    of the kill switch is its first access to the disk, the marker is read by its fourth. *)
Record reconciled (pool c : string) (w w' : Node S) : Prop := {
  rc_member : poolHost o = false;
  rc_enabled : env_fs (n_fx w) = FsOk -> n_files w !! PoolReconcileDisabledFilePath = None;
  rc_pool : stored_pool (n_store w) = pool /\ pool <> "" /\ pool <> "0";
  rc_chain : stored_chain (n_store w) = c /\ c <> "";
  rc_old : env_fs (n_fx w + 3) = FsOk -> forall s t,
    n_files w !! PoolReconcileClearedAtFilePath = Some s -> ParseRFC3339 (TrimSpace s) = Some t ->
    exists n, (n_fx w <= n < n_fx w')%nat /\ PoolReconcileMinInterval <= env_now n - t;
  rc_confirmed : exists s, n_files w !! PoolMemberConfirmedFilePath = Some s /\ TrimSpace s = poolKey c pool;
  rc_verdicts : exists p w1, ParseUint pool 10 32 = inr p /\
    not_listed o w w1 (u32 p) c /\ env_timer (n_fx w1) poolReconcileConfirmDelay = true /\ not_listed o w1 w' (u32 p) c
}.

(** A step that only records: the run ends with its failure, or goes on from its value. *)
Lemma recorded_bind {A B} (m : M (Node S) A) (k : A -> M (Node S) B) w r w' :
  keeps recorded m -> bind m k w = (r, w') ->
  (recorded w w' /\ forall b, r <> Ok b) \/ exists a w1, m w = (Ok a, w1) /\ recorded w w1 /\ k a w1 = (r, w').
Proof.
  intros Hk H. specialize (Hk w). unfold bind in H. destruct (m w) as [[a|e|] w1] eqn:Em.
  - right. by exists a, w1.
  - injection H as <- <-. by left.
  - injection H as <- <-. by left.
Qed.

Lemma writeTimeMarker_Ok p t (w w' : Node S) : writeTimeMarker p t w = (Ok (), w') ->
  n_files w' = <[p := FormatRFC3339 t]> (n_files w) /\ n_store w' = n_store w /\
  n_restarts w' = n_restarts w /\ (n_fx w <= n_fx w')%nat.
Proof.
  unfold writeTimeMarker. intros ([] & w1 & H1 & H)%bind_Ok_inv.
  pose proof (only_fx_MkdirAll "/internal/.tmp" w) as (Hle & Hs & Hf & _ & _ & Hr & _). rewrite H1 in *. cbn in *.
  unfold os_WriteFile, bind, fs_step in H. cbn in H.
  destruct (env_fs (n_fx w1)) as [|[n|]]; cbn in H; [|done..]. injection H as <-. cbn.
  split_and!; (congruence || lia).
Qed.

(** A marker that could not be written: only the marker may be damaged. *)
Lemma writeTimeMarker_frame p t (w : Node S) : let w' := (writeTimeMarker p t w).2 in
  n_store w' = n_store w /\ n_restarts w' = n_restarts w /\ (n_fx w <= n_fx w')%nat.
Proof.
  cbn zeta. unfold writeTimeMarker, os_MkdirAll, os_WriteFile, bind, fs_step, ret, raise, modify.
  repeat (case_match; simplify_eq; cbn in *; try done); split_and!; (done || lia).
Qed.

(** The pool, the chain and the restarts are as they were. *)
Definition not_cleared (w w' : Node S) : Prop :=
  stored_pool (n_store w') = stored_pool (n_store w) /\ stored_chain (n_store w') = stored_chain (n_store w) /\
  n_restarts w' = n_restarts w.

(** How the clearing part ends, started in [w]: the marker could not be written and nothing
    is cleared; or the marker holds the time read in [w], and then the run has cleared pool
    and chain and started the restart, or it failed on the way and started none. *)
Definition clear_outcome (w : Node S) (r : outcome bool) (w' : Node S) : Prop :=
  (n_fx w < n_fx w')%nat /\
  ((r <> Ok true /\ not_cleared w w') \/
   (n_files w' !! PoolReconcileClearedAtFilePath = Some (FormatRFC3339 (env_now (n_fx w))) /\
    ((r = Ok true /\ stored_pool (n_store w') = "0" /\ stored_chain (n_store w') = "" /\
      n_restarts w' = (n_restarts w ++ (if onPoolConfigCleared o then [0] else []))%list) \/
     (r <> Ok true /\ n_restarts w' = n_restarts w)))).

Lemma reconcile_clear_outcome p w r w' : reconcile_clear p w = (r, w') -> clear_outcome w r w'.
Proof.
  unfold reconcile_clear, clear_outcome. unfold bind at 1, time_Now.
  pose proof (writeTimeMarker_frame PoolReconcileClearedAtFilePath (env_now (n_fx w)) (bump w)) as Hfr.
  unfold bind at 1, wrapErr.
  destruct (writeTimeMarker _ _ _) as [[[]|e|] w1] eqn:E1; cbn in Hfr; destruct Hfr as (Hs1 & Hr1 & Hle1).
  2,3: intros [= <- <-]; (split; [lia|]); left; unfold not_cleared; rewrite Hs1; by split_and!.
  apply writeTimeMarker_Ok in E1 as (Hf1 & _ & _ & _).
  pose proof (quiet_clearPoolConfig p w1) as (Hle2 & Hr2 & Hm2). unfold bind at 1.
  destruct (clearPoolConfig p w1) as [[[]|e|] w2] eqn:E2; cbn in Hle2, Hr2, Hm2.
  2,3: intros [= <- <-]; (split; [lia|]); right; (split; [rewrite Hm2, Hf1; apply lookup_insert_eq|]);
    right; (split; [done | congruence]).
  apply clearPoolConfig_Ok in E2 as [(Hp & Hc & _) _]. unfold bind, signalPoolConfigCleared, ret, modify.
  destruct (onPoolConfigCleared o); intros [= <- <-]; cbn; (split; [lia|]); right;
    (split; [rewrite Hm2, Hf1; apply lookup_insert_eq|]); left; rewrite ?app_nil_r; split_and!; (done || congruence).
Qed.

Lemma reconcile_check_Some k p pool c w b w' : reconcile_check k p pool c w = (Ok (Some b), w') -> b = false.
Proof.
  unfold reconcile_check. intros ([] & w1 & _ & H)%bind_Ok_inv.
  apply bind_Ok_inv in H as ([[|] pending] & w2 & _ & H).
  { by apply bind_Ok_inv in H as (? & ? & _ & [= <- _]). }
  destruct pending; [by injection H as <- _|]. destruct (k =? 1); [|done].
  apply bind_Ok_inv in H as (conf & w3 & _ & H). case_bool_decide; [done|]. by injection H as <- _.
Qed.

(** A run that stops before the clearing, with whatever result. *)
Definition stopped (w w' : Node S) (r : outcome bool) : Prop := recorded w w' /\ r <> Ok true.

Lemma stopped_trans w1 w2 w3 r : recorded w1 w2 -> stopped w2 w3 r -> stopped w1 w3 r.
Proof. intros H [H2 Hr]. split; [by etrans|done]. Qed.

Lemma reconcile_final_outcome p pool c w r w' : reconcile_final p pool c w = (r, w') ->
  stopped w w' r \/ exists w1, recorded w w1 /\ reconcile_clear p w1 = (r, w').
Proof.
  unfold reconcile_final. destruct recorded_get as [Hg1 Hg2].
  intros [[Hr Hn]|(pool2 & w1 & _ & Hr1 & H)]%recorded_bind; [by left| |exact Hg1].
  apply recorded_bind in H as [[Hr Hn]|(chain2 & w2 & _ & Hr2 & H)].
  - left. by apply (stopped_trans w w1).
  - assert (recorded w w2) as Hr by by etrans.
    case_match; [left; injection H as <- <-; by split | right; by exists w2].
  - case_match; [exact Hg2 | keeps_go].
Qed.

Lemma reconcile_rounds_outcome p pool c w r w' : reconcile_rounds p pool c w = (r, w') ->
  stopped w w' r \/
  exists w1 w2, not_listed o w w1 (u32 p) c /\ env_timer (n_fx w1) poolReconcileConfirmDelay = true /\
    not_listed o w1 w2 (u32 p) c /\
    (exists s, n_files w !! PoolMemberConfirmedFilePath = Some s /\ TrimSpace s = poolKey c pool) /\
    recorded w w2 /\ reconcile_clear p w2 = (r, w').
Proof.
  unfold reconcile_rounds.
  intros [[Hr Hn]|(c1 & w1 & H1 & Hr1 & H)]%recorded_bind; [by left| |apply recorded_reconcile_check].
  destruct c1 as [b|].
  { left. injection H as <- <-. apply reconcile_check_Some in H1 as ->. by split. }
  apply reconcile_check_None in H1 as (Hnl1 & _ & Hconf & _).
  apply recorded_bind in H as [[Hr Hn]|(c2 & w2 & H2 & Hr2 & H)];
    [left; by apply (stopped_trans w w1)| |apply recorded_reconcile_check].
  destruct c2 as [b|].
  { left. injection H as <- <-. apply reconcile_check_Some in H2 as ->. apply (stopped_trans w w1); [done|]. by split. }
  apply reconcile_check_None in H2 as (Hnl2 & _ & _ & Htm).
  apply reconcile_final_outcome in H as [Hst|(w3 & Hr3 & H)].
  - left. apply (stopped_trans w w1); [done|]. by apply (stopped_trans w1 w2).
  - right. exists w1, w3. split_and!; try done; [by apply Htm | | by apply Hconf | by do 2 (etrans; [eassumption|])].
    destruct Hr3 as (_ & _ & Hle & _). by apply (not_listed_mono o w1 w1 w2 w3).
Qed.

(** The run of a reconcile: it stops before the clearing, or every check has passed. *)
Lemma reconcile_outcome w r w' : ReconcilePoolConfig w = (r, w') ->
  stopped w w' r \/
  exists pool c w1, reconciled pool c w w1 /\ recorded w w1 /\ clear_outcome w1 r w'.
Proof.
  unfold ReconcilePoolConfig. destruct recorded_get as [Hg1 Hg2].
  intros [[Hr Hn]|(dis & w1 & H1 & Hr1 & H)]%recorded_bind; [by left| |apply recorded_only_fx, only_fx_Stat].
  destruct dis; [left; injection H as <- <-; by split|].
  destruct (poolHost o) eqn:Hhost; [left; injection H as <- <-; by split|].
  assert (n_fx w1 = Datatypes.S (n_fx w) /\ n_store w1 = n_store w /\
    (env_fs (n_fx w) = FsOk -> n_files w !! PoolReconcileDisabledFilePath = None)) as (Hn1 & Hst1 & Hdis).
  { unfold os_Stat, bind, fs_step, gets in H1. cbn in H1. injection H1 as Hd <-. split; [done|]. split; [done|].
    intros Hfs. rewrite Hfs in Hd. apply bool_decide_eq_false in Hd. by apply eq_None_not_Some. }
  apply recorded_bind in H as [[Hr Hn]|(pool & w2 & H2 & Hr2 & H)]; [left; by apply (stopped_trans w w1)| |exact Hg1].
  apply recorded_bind in H as [[Hr Hn]|(c & w3 & H3 & Hr3 & H)]; [left| |exact Hg2].
  { apply (stopped_trans w w1); [done|]. by apply (stopped_trans w1 w2). }
  apply getPoolName_run in H2 as (Hp & Hn2 & Hs2). apply getChainName_run in H3 as (Hc & Hn3 & Hs3).
  assert (recorded w w3) as Hw3 by (etrans; [exact Hr1|]; by etrans).
  destruct (_ || _) eqn:Hnone; [left; injection H as <- <-; by split|].
  rewrite !orb_false_iff, !String.eqb_neq in Hnone. destruct Hnone as [[Hpe Hp0] Hce].
  assert (stored_pool (n_store w) = pool /\ stored_chain (n_store w) = c) as [Hpool Hchain].
  { destruct Hs2 as (_ & Hs2 & _). rewrite Hst1 in *. rewrite Hs2 in Hc. clear H.
    destruct (env_fs (n_fx w1)), (env_fs (n_fx w2)); naive_solver. }
  apply recorded_bind in H as [[Hr Hn]|(mk & w4 & H4 & Hr4 & H)];
    [left; by apply (stopped_trans w w3)| |apply recorded_only_fx, only_fx_readTimeMarker].
  assert (recorded w w4) as Hw4 by by etrans.
  assert (n_fx w4 = n_fx w + 4 /\ (env_fs (n_fx w + 3) = FsOk -> forall s t,
    n_files w !! PoolReconcileClearedAtFilePath = Some s -> ParseRFC3339 (TrimSpace s) = Some t -> mk = Some t))%nat
    as [Hn4 Hmk].
  { unfold readTimeMarker, os_ReadFile, bind, fs_step, gets in H4. cbn in H4.
    clear H. replace (n_fx w3) with (n_fx w + 3)%nat in H4 by lia. destruct Hw3 as (_ & _ & _ & _ & Hfl).
    split; [destruct (env_fs (n_fx w + 3)%nat); [destruct (n_files w3 !! PoolReconcileClearedAtFilePath)|]; cbn in H4; injection H4 as _ <-; cbn; lia|]. intros Hfs s t Hf Ht. rewrite Hfs, Hfl, Hf in H4.
    by injection H4 as <- _. }
  apply recorded_bind in H as [[Hr Hn]|(recent & w5 & H5 & Hr5 & H)]; [left; by apply (stopped_trans w w4)| |].
  2: { destruct mk; keeps_go. }
  assert (recorded w w5) as Hw5 by by etrans.
  destruct recent; [left; injection H as <- <-; by split|].
  destruct (ParseUint pool 10 32) as [|p] eqn:Hparse; [left; injection H as <- <-; by split|].
  assert (n_files w5 = n_files w) as Hfl5.
  { destruct Hs2 as (_ & _ & Hf2 & _), Hs3 as (_ & _ & Hf3 & _).
    pose proof (only_fx_readTimeMarker PoolReconcileClearedAtFilePath w3) as (_ & _ & Hf4 & _). rewrite H4 in Hf4. cbn in Hf4.
    assert (n_files w5 = n_files w4) as Hf5 by (destruct mk; [injection H5 as _ <- | injection H5 as <-]; done).
    unfold os_Stat, bind, fs_step, gets in H1. cbn in H1. injection H1 as _ <-. cbn in *. congruence. }
  apply reconcile_rounds_outcome in H as [Hst|(w6 & w7 & Hnl1 & Htm & Hnl2 & Hconf & Hr7 & H)];
    [left; by apply (stopped_trans w w5)|].
  right. exists pool, c, w7. pose proof Hw5 as (_ & _ & Hle5 & _). pose proof Hr7 as (_ & _ & Hle7 & _).
  split; [|split; [by etrans | by eapply reconcile_clear_outcome]]. split; try done.
  - intros Hfs s t Hf Ht. rewrite (Hmk Hfs _ _ Hf Ht) in H5. injection H5 as Hlt <-.
    exists (n_fx w4). cbn in Hle7. split; [lia|]. apply Z.ltb_ge in Hlt. exact Hlt.
  - destruct Hconf as (s & Hs & Hk). exists s. split; [|done].
    by rewrite <- Hfl5.
  - exists p, w6. split_and!; try done. by apply (not_listed_mono o w w5 w6 w6).
Qed.

(** C5. A reconcile touches the configuration only after every safeguard passed. Whatever it
    returns (an error included), either the pool, the chain, the pending restarts and the
    time marker are as they were and it did not report a clear, or: the kill switch file is
    absent (its stat, the first disk access of the run, may have failed), the device is no
    pool host, a pool and a chain are configured, the last clear was 24 h ago or more by the
    marker (if that could be read), this firmware had recorded the membership it is about to
    drop, and two separate rounds of chain reads, with the confirmation delay between them,
    both found the device neither a member nor waiting. Only then the time marker is
    written; if that fails nothing is cleared; if the run returns an error after it, no
    restart is started; and if it reports a clear, pool and chain are cleared and the
    restart hook, if set, was started once. *)
Theorem reconcile_safe w r w' :
  ReconcilePoolConfig w = (r, w') ->
  (recorded w w' /\ r <> Ok true) \/
  exists pool c w1, reconciled pool c w w1 /\ recorded w w1 /\ (n_fx w1 < n_fx w')%nat /\
    ((r <> Ok true /\ not_cleared w1 w') \/
     (n_files w' !! PoolReconcileClearedAtFilePath = Some (FormatRFC3339 (env_now (n_fx w1))) /\
      ((r = Ok true /\ stored_pool (n_store w') = "0" /\ stored_chain (n_store w') = "" /\
        n_restarts w' = (n_restarts w1 ++ (if onPoolConfigCleared o then [0] else []))%list) \/
       (r <> Ok true /\ n_restarts w' = n_restarts w1)))).
Proof. intros [Hst|(pool & c & w1 & Hrc & Hrec & Hout)]%reconcile_outcome; [by left|]. right. by exists pool, c, w1. Qed.

(** ** The rate limit *)
Inductive Op := OpJoin (body : option string) | OpLeave (body : option string) | OpReconcile.

Definition run_op (w : Node S) (op : Op) : Node S :=
  match op with
  | OpJoin body => (HandlePoolJoin body w).2
  | OpLeave body => (HandlePoolLeave body w).2
  | OpReconcile => (ReconcilePoolConfig w).2
  end.

(** A reconcile that reported a clear, or changed the pool or the chain whatever it
    reported. *)
Definition clears (w : Node S) (r : outcome bool) (w' : Node S) : Prop :=
  ReconcilePoolConfig w = (r, w') /\
  (r = Ok true \/ stored_pool (n_store w') <> stored_pool (n_store w) \/
   stored_chain (n_store w') <> stored_chain (n_store w)).

(** The read of the time marker works in each reconcile of the sequence: it is the fourth
    access to the disk of its run. *)
Definition marker_read_ok (w : Node S) : Prop := env_fs (n_fx w + 3) = FsOk.
Definition reads_ok (ops : list Op) (w : Node S) : Prop :=
  forall pre post, ops = (pre ++ OpReconcile :: post)%list -> marker_read_ok (fold_left run_op pre w).

(** After a clear at the [n0]-th effect: the marker holds that time or a later one, or the
    interval is over. *)
Definition guarded (n0 : nat) (w : Node S) : Prop :=
  (n0 < n_fx w)%nat /\
  ((exists n, (n0 <= n)%nat /\ n_files w !! PoolReconcileClearedAtFilePath = Some (FormatRFC3339 (env_now n))) \/
   (exists n, (n0 <= n < n_fx w)%nat /\ PoolReconcileMinInterval - nanos < env_now n - env_now n0)).

Lemma guarded_quiet n0 w w' : quiet w w' -> guarded n0 w -> guarded n0 w'.
Proof.
  intros (Hle & _ & Hm) [Hn H]. split; [lia|]. destruct H as [(n & Hn' & H)|(n & Hn' & H)].
  - left. exists n. split; [done|congruence].
  - right. exists n. split; [lia|done].
Qed.

Lemma quiet_join body : keeps quiet (HandlePoolJoin body).
Proof. unfold HandlePoolJoin. keeps_go. Qed.

(** A leave starts restarts, but leaves the marker alone. *)
Lemma leave_marker body w : let w' := (HandlePoolLeave body w).2 in
  (n_fx w <= n_fx w')%nat /\
  n_files w' !! PoolReconcileClearedAtFilePath = n_files w !! PoolReconcileClearedAtFilePath.
Proof.
  pose (R := fun w w' : Node S => (n_fx w <= n_fx w')%nat /\
    n_files w' !! PoolReconcileClearedAtFilePath = n_files w !! PoolReconcileClearedAtFilePath).
  assert (PreOrder R) as HR.
  { split; [intros x; by split|]. intros x y z [? ?] [? ?]. split; [lia|congruence]. }
  assert (forall A (m : M (Node S) A), keeps quiet m -> keeps R m) as Hq.
  { intros A m Hm x. destruct (Hm x) as (? & _ & ?). by split. }
  assert (forall d, keeps R (@signalPoolConfigCleared S o d)) as Hsig.
  { intros d x. unfold signalPoolConfigCleared. by destruct (onPoolConfigCleared o). }
  cbn zeta. cut (keeps R (HandlePoolLeave body)); [intros Hk; exact (Hk w)|].
  unfold HandlePoolLeave, leave_finish. keeps_go.
Qed.

Section clock.
Context (Hmono : forall n m, (n <= m)%nat -> env_now n <= env_now m).
Context (Hrange : forall n, 0 <= env_now n < max_secs * nanos).

(** A reconcile that starts to clear in a guarded state does so after the interval. *)
Lemma guarded_interval n0 pool c w w1 :
  guarded n0 w -> marker_read_ok w -> reconciled pool c w w1 -> (n_fx w <= n_fx w1)%nat ->
  PoolReconcileMinInterval - nanos < env_now (n_fx w1) - env_now n0.
Proof.
  intros [Hn [(n & Hn' & Hm)|(n & Hn' & Hm)]] Hrd Hrc Hle.
  - destruct (rc_old _ _ _ _ Hrc Hrd _ (env_now n / nanos * nanos) Hm) as (k & Hk & Hage).
    { rewrite TrimSpace_Format. by apply ParseRFC3339_Format. }
    pose proof (Hmono _ _ Hn'). pose proof (Hmono k (n_fx w1) ltac:(lia)). unfold nanos in *.
    pose proof (Z.div_mod (env_now n) (10 ^ 9) ltac:(lia)). pose proof (Z.mod_pos_bound (env_now n) (10 ^ 9) ltac:(lia)).
    lia.
  - pose proof (Hmono n (n_fx w1) ltac:(lia)). lia.
Qed.

Lemma guarded_reconcile n0 w : guarded n0 w -> marker_read_ok w -> guarded n0 (ReconcilePoolConfig w).2.
Proof.
  intros Hg Hrd. destruct (ReconcilePoolConfig w) as [r w'] eqn:H. cbn [snd].
  apply reconcile_outcome in H as [[(_ & _ & Hq) _]|(pool & c & w1 & Hrc & (_ & _ & Hle & _) & Hlt & _)];
    [by eapply guarded_quiet|].
  pose proof (guarded_interval _ _ _ _ _ Hg Hrd Hrc Hle) as Hi. destruct Hg as [Hn _].
  split; [lia|]. right. exists (n_fx w1). split; [lia|exact Hi].
Qed.

Lemma guarded_run n0 ops w : guarded n0 w -> reads_ok ops w -> guarded n0 (fold_left run_op ops w).
Proof.
  revert w. induction ops as [|op ops IH]; intros w Hg Hrd; [done|]. cbn [fold_left]. apply IH.
  - destruct op as [body|body|]; cbn [run_op].
    + eapply guarded_quiet; [apply quiet_join | exact Hg].
    + destruct (leave_marker body w) as [Hle Hm], Hg as [Hn Hg]. split; [lia|].
      destruct Hg as [(n & ? & ?)|(n & ? & ?)]; [left | right]; exists n; (split; [lia|congruence]).
    + apply guarded_reconcile; [exact Hg|]. exact (Hrd [] ops eq_refl).
  - intros pre post ->. exact (Hrd (op :: pre) post eq_refl).
Qed.

(** C4. Restart loops are impossible: however joins, leaves and further reconciles are
    interleaved, and whatever the RPC endpoints answer, two reconciles that clear the
    configuration, or change pool or chain and then fail, are more than 24 hours less one
    second apart (the marker keeps whole seconds). Writes to the disk may fail at any point,
    half done too: the marker is written before anything is cleared, and a run that cannot
    write it clears nothing. Assumed are a clock that does not run backwards within the
    range of the marker's format, and that the marker can be read in the later reconciles
    (one that cannot be read counts as absent). *)
Theorem reconcile_rate_limit ops w0 r1 w1 r3 w3 :
  clears w0 r1 w1 -> reads_ok ops w1 -> marker_read_ok (fold_left run_op ops w1) ->
  clears (fold_left run_op ops w1) r3 w3 ->
  exists n1 n2, (n_fx w0 <= n1 < n_fx w1)%nat /\ (n_fx w1 <= n2 < n_fx w3)%nat /\
    PoolReconcileMinInterval - nanos < env_now n2 - env_now n1.
Proof.
  assert (forall w r w', clears w r w' -> exists pool c wa, reconciled pool c w wa /\ (n_fx w <= n_fx wa < n_fx w')%nat /\
    n_files w' !! PoolReconcileClearedAtFilePath = Some (FormatRFC3339 (env_now (n_fx wa)))) as Hclears.
  { intros w r w' [H Hch]. apply reconcile_outcome in H as [[(Hp & Hc & _) Hn]|(pool & c & wa & Hrc & (Hp & Hc & Hle & _) & Hlt & Hout)];
      [naive_solver|]. exists pool, c, wa. split; [done|]. split; [lia|].
    destruct Hout as [(Hn & Hp' & Hc' & _)|[Hm _]]; [|done]. rewrite Hp, Hc in *. naive_solver. }
  intros H1 Hrd Hrd3 H3. apply Hclears in H1 as (_ & _ & wa & _ & Ha & Hm).
  apply Hclears in H3 as (pool & c & wb & Hrc & Hb & _).
  assert (guarded (n_fx wa) (fold_left run_op ops w1)) as Hg.
  { apply guarded_run; [|done]. split; [lia|]. left. by exists (n_fx wa). }
  assert (n_fx w1 <= n_fx (fold_left run_op ops w1))%nat as Hmon.
  { clear -L. revert w1. induction ops as [|op ops IH]; intros w; [done|]. cbn [fold_left].
    etrans; [|apply IH]. destruct op as [body|body|]; cbn [run_op].
    - apply (quiet_join body w).
    - apply (leave_marker body w).
    - destruct (ReconcilePoolConfig w) as [r w'] eqn:H. cbn [snd].
      apply reconcile_outcome in H as [[(_ & _ & Hq & _) _]|(? & ? & ? & _ & (_ & _ & Hq & _) & Hlt & _)]; lia. }
  exists (n_fx wa), (n_fx wb). split; [lia|]. split; [lia|].
  by eapply guarded_interval; [..|apply Hb].
Qed.
End clock.

End config.

(** ** Concrete runs *)
Section concrete.

(** A pool configuration kept in memory: pool and chain; an update fails when the file
    system does. *)
#[local] Instance memStore : PoolStore (string * string) := {|
  ps_getPoolName := fun r s => (match r with FsOk => s.1 | FsErr _ => "0" end, s);
  ps_getChainName := fun r s => (match r with FsOk => s.2 | FsErr _ => "" end, s);
  ps_updatePoolName := fun r _ n s => match r with FsOk => (None, (n, s.2)) | FsErr _ => (Some "io", s) end;
  ps_updateChainName := fun r _ n s => match r with FsOk => (None, (s.1, n)) | FsErr _ => (Some "io", s) end;
  ps_fileRemoved := fun _ => ("0", "") |}.

#[local] Instance memStoreLaws : PoolStoreLaws (string * string).
Proof.
  refine {| stored_pool := fst; stored_chain := snd |}; try done; cbn.
  - by intros [] r2 n s s' [= <-].
  - by intros [] r2 n s s' [= <-].
  - by intros [] r2 [].
  - by intros [] r2 [].
Defined.

#[local] Existing Instance rawMultibase.

(** The chain: pool 7 exists; the device is a member during effects 30 to 50 and is never
    waiting. Each effect takes 10^4 seconds. *)
Definition pools_reply : string := reply_with (abi_encode_pool pool_seven).
Definition member_reply (n : nat) : string :=
  reply_with ("0x" +:+ abi_word (if (Nat.leb 30 n && Nat.leb n 50)%bool then 1 else 0) +:+ abi_word 0).
Definition waiting_reply : string := reply_with ("0x" +:+ srepeat 640 "0").

#[local] Instance chainEnv : Env := {|
  env_http := fun n _ j =>
    if HasPrefix (call_data_of j) sigPools then Reply 200 (Some pools_reply)
    else if HasPrefix (call_data_of j) sigIsPeerIdMemberOfPool then Reply 200 (Some (member_reply n))
    else Reply 200 (Some waiting_reply);
  env_timer := fun _ _ => true;
  env_now := fun n => Z.min (Z.of_nat n * 10 ^ 13) (10 ^ 20);
  env_fs := fun _ => FsOk |}.

Definition member_of_seven : Node (string * string) :=
  mkNode 0 ("7", "base") {[PoolMemberConfirmedFilePath := "base:7"]} ∅ None [] [].

Definition leave_seven : option string := Some (jq "{'pool_id':7,'chain_name':'base'}").
Definition join_seven : option string := Some (jq "{'pool_id':7}").

Definition join_wide : option string := Some (jq "{'pool_id':4294967303,'chain_name':'base'}").

(** The chain is asked about the low 32 bits of a pool id; the config stores all of it. *)
Lemma join_wide_pool_id :
  let '(r, w') := HandlePoolJoin toy_options join_wide member_of_seven in
  (exists resp, r = Ok resp /\ resp_code resp = 202) /\ stored_pool (n_store w') = "4294967303" /\
  u32 4294967303 = 7.
Proof. vm_compute. split; [eexists; split; reflexivity | split; reflexivity]. Qed.

Lemma leave_safe_witness :
  exists resp w', HandlePoolLeave toy_options leave_seven member_of_seven = (Ok resp, w') /\
  n_store w' = ("0", "") /\
  ((same_config member_of_seven w' /\ In (resp_code resp) [202; 400; 409; 503]) \/
  (exists req c, decode_PoolLeaveRequest leave_seven = Some req /\ left_pool toy_options req c member_of_seven w' /\
     ((resp_code resp = 202 /\ stored_pool (n_store w') = "0" /\ stored_chain (n_store w') = "" /\
       n_restarts w' = (n_restarts member_of_seven ++
         (if onPoolConfigCleared toy_options then [poolConfigClearedRestartDelay] else []))%list) \/
      (resp_code resp = 500 /\ n_restarts w' = n_restarts member_of_seven)))).
Proof.
  destruct (HandlePoolLeave toy_options leave_seven member_of_seven) as [r w'] eqn:H.
  assert (match r with Ok _ => n_store w' = ("0", "") | _ => False end) as Hr
    by (apply (f_equal (fun x => match x.1 with Ok _ => n_store x.2 = ("0", "") | _ => False end)) in H;
        cbn [fst snd] in H; rewrite <- H; vm_compute; reflexivity).
  destruct r as [resp|e|]; [|contradiction..]. exists resp, w'. split; [reflexivity|]. split; [exact Hr|].
  apply (leave_safe _ _ _ _ _ H).
Defined.

Lemma join_effect_witness :
  exists resp w', HandlePoolJoin toy_options join_seven member_of_seven = (Ok resp, w') /\
  n_store w' = ("7", "skale") /\ n_restarts w' = n_restarts member_of_seven /\ n_files w' = n_files member_of_seven /\
  ((resp_code resp = 400 /\ same_config member_of_seven w' /\
    (decode_PoolJoinRequest join_seven = None \/ exists req c w1 e w2, decode_PoolJoinRequest join_seven = Some req /\
       join_chain toy_options req member_of_seven c w1 /\
       validatePoolOnChain toy_options (u32 (jr_PoolID req)) c w1 = (Err e, w2))) \/
   exists req c w1 w2, decode_PoolJoinRequest join_seven = Some req /\ join_chain toy_options req member_of_seven c w1 /\
     pool_seen toy_options w1 w2 (u32 (jr_PoolID req)) c /\ same_config member_of_seven w2 /\
     join_stored (jr_PoolID req) c w2 w' (resp_code resp)).
Proof.
  destruct (HandlePoolJoin toy_options join_seven member_of_seven) as [r w'] eqn:H.
  assert (match r with Ok _ => n_store w' = ("7", "skale") | _ => False end) as Hr
    by (apply (f_equal (fun x => match x.1 with Ok _ => n_store x.2 = ("7", "skale") | _ => False end)) in H;
        cbn [fst snd] in H; rewrite <- H; vm_compute; reflexivity).
  destruct r as [resp|e|]; [|contradiction..]. exists resp, w'. split; [reflexivity|]. split; [exact Hr|].
  apply (join_effect _ _ _ _ _ H).
Defined.

Lemma reconcile_safe_witness :
  exists w', ReconcilePoolConfig toy_options member_of_seven = (Ok true, w') /\ n_store w' = ("0", "") /\
  ((recorded member_of_seven w' /\ Ok true <> Ok true) \/
  exists pool c w1, reconciled toy_options pool c member_of_seven w1 /\ recorded member_of_seven w1 /\
    (n_fx w1 < n_fx w')%nat /\
    ((Ok true <> Ok true /\ not_cleared w1 w') \/
     (n_files w' !! PoolReconcileClearedAtFilePath = Some (FormatRFC3339 (env_now (n_fx w1))) /\
      ((Ok true = Ok true /\ stored_pool (n_store w') = "0" /\ stored_chain (n_store w') = "" /\
        n_restarts w' = (n_restarts w1 ++ (if onPoolConfigCleared toy_options then [0] else []))%list) \/
       (Ok true <> Ok true /\ n_restarts w' = n_restarts w1))))).
Proof.
  destruct (ReconcilePoolConfig toy_options member_of_seven) as [r w'] eqn:H.
  assert (r = Ok true) as -> by (apply (f_equal fst) in H; cbn [fst] in H; rewrite <- H; vm_compute; reflexivity).
  assert (n_store w' = ("0", "")) as Hs
    by (apply (f_equal (fun x => n_store x.2)) in H; cbn [snd] in H; rewrite <- H; vm_compute; reflexivity).
  exists w'. split; [reflexivity|]. split; [exact Hs|]. exact (reconcile_safe _ _ _ _ H).
Defined.

(** Cleared, joined again, seen as a member once more, and cleared a second time. *)
Lemma reconcile_rate_limit_witness :
  exists w1 w3, ReconcilePoolConfig toy_options member_of_seven = (Ok true, w1) /\
  ReconcilePoolConfig toy_options
    (fold_left (run_op toy_options) [OpJoin join_seven; OpReconcile; OpReconcile] w1) = (Ok true, w3) /\
  exists n1 n2, (n_fx member_of_seven <= n1 < n_fx w1)%nat /\ (n_fx w1 <= n2 < n_fx w3)%nat /\
    PoolReconcileMinInterval - nanos < env_now n2 - env_now n1.
Proof.
  destruct (ReconcilePoolConfig toy_options member_of_seven) as [r w1] eqn:H1.
  assert ((r, w1) = (Ok true, (ReconcilePoolConfig toy_options member_of_seven).2)) as H1'
    by (rewrite <- H1; vm_compute; reflexivity).
  injection H1' as -> ->. clear H1. set (w1 := (ReconcilePoolConfig toy_options member_of_seven).2).
  assert (ReconcilePoolConfig toy_options member_of_seven = (Ok true, w1)) as H1 by (vm_compute; reflexivity).
  destruct (ReconcilePoolConfig toy_options (fold_left (run_op toy_options)
    [OpJoin join_seven; OpReconcile; OpReconcile] w1)) as [r3 w3] eqn:H3.
  assert (r3 = Ok true) as -> by (apply (f_equal fst) in H3; cbn [fst] in H3; rewrite <- H3; vm_compute; reflexivity).
  exists w1, w3. split; [reflexivity|]. split; [exact H3|].
  apply (reconcile_rate_limit toy_options) with (ops := [OpJoin join_seven; OpReconcile; OpReconcile])
    (r1 := Ok true) (r3 := Ok true); [| |split; [exact H1 | left; reflexivity]| | |split; [exact H3 | left; reflexivity]].
  - intros n m Hnm. unfold env_now, chainEnv. apply Z.min_le_compat_r. lia.
  - intros n. unfold env_now, chainEnv, max_secs, nanos. lia.
  - intros pre post _. reflexivity.
  - reflexivity.
Defined.

(** The same device on a disk that takes no write: the reconcile passes every check, cannot
    write the marker, reports the error and leaves pool and chain alone. *)
Definition fullDisk : Env := {|
  env_http := @env_http chainEnv; env_timer := fun _ _ => true; env_now := @env_now chainEnv;
  env_fs := fun n => if Nat.leb 12 n then FsErr None else FsOk |}.
Example marker_first :
  let '(r, w') := ReconcilePoolConfig (E := fullDisk) toy_options member_of_seven in
  (match r with Err _ => True | _ => False end) /\ n_store w' = n_store member_of_seven.
Proof. vm_compute. split; [exact I | reflexivity]. Qed.

End concrete.
