(* ===== verification/ConfigFile.v ===== *)
(** * cmd/blox/main.go: the pool accessors on config.yaml

    The blox program implements the accessor interface of Node.v on its config file: each
    call reads the file into the shared [app.config], and an update that changes a value
    writes the whole struct back. The YAML library is the interface [Yaml]. *)

From S2P Require Import Prelude GoStd Json JsonPrint Float Effects Node.

#[local] Open Scope string_scope.
#[local] Open Scope Z_scope.

(** The exported fields of app.config, which are the ones YAML writes. *)
Record AppConfig := mkAppConfig {
  Identity : string;
  StoreDir : string;
  PoolName : string;
  ChainName : string;
  LogLevel : string;
  ListenAddrs : list string;
  Authorizer : string;
  AuthorizedPeers : list string;
  IpfsBootstrapNodes : list string;
  StaticRelays : list string;
  ForceReachabilityPrivate : bool;
  AllowTransientConnection : bool;
  DisableResourceManger : bool;
  MaxCIDPushRate : Z;
  IpniPublishDisabled : bool;
  IpniPublishInterval : Z;
  IpniPublishDirectAnnounce : list string;
  IpniPublisherIdentity : string
}.

(** Before any flag is parsed. *)
Definition zeroConfig : AppConfig :=
  mkAppConfig "" "" "" "" "" [] "" [] [] [] false false false 0 false 0 [] "".

Definition set_PoolName (n : string) (c : AppConfig) : AppConfig :=
  mkAppConfig (Identity c) (StoreDir c) n (ChainName c) (LogLevel c) (ListenAddrs c) (Authorizer c)
    (AuthorizedPeers c) (IpfsBootstrapNodes c) (StaticRelays c) (ForceReachabilityPrivate c)
    (AllowTransientConnection c) (DisableResourceManger c) (MaxCIDPushRate c) (IpniPublishDisabled c)
    (IpniPublishInterval c) (IpniPublishDirectAnnounce c) (IpniPublisherIdentity c).
Definition set_ChainName (n : string) (c : AppConfig) : AppConfig :=
  mkAppConfig (Identity c) (StoreDir c) (PoolName c) n (LogLevel c) (ListenAddrs c) (Authorizer c)
    (AuthorizedPeers c) (IpfsBootstrapNodes c) (StaticRelays c) (ForceReachabilityPrivate c)
    (AllowTransientConnection c) (DisableResourceManger c) (MaxCIDPushRate c) (IpniPublishDisabled c)
    (IpniPublishInterval c) (IpniPublishDirectAnnounce c) (IpniPublisherIdentity c).

(** A value of a YAML mapping; [YOther] is one no field or flag here can take. *)
Inductive yval := YStr (s : string) | YBool (b : bool) | YInt (z : Z) | YDur (ns : Z) | YList (l : list string) | YOther.

(** The struct under its yaml tags. *)
Definition config_fields (c : AppConfig) : list (string * yval) :=
  [("identity", YStr (Identity c));
   ("storeDir", YStr (StoreDir c));
   ("poolName", YStr (PoolName c));
   ("chainName", YStr (ChainName c));
   ("logLevel", YStr (LogLevel c));
   ("listenAddrs", YList (ListenAddrs c));
   ("authorizer", YStr (Authorizer c));
   ("authorizedPeers", YList (AuthorizedPeers c));
   ("ipfsBootstrapNodes", YList (IpfsBootstrapNodes c));
   ("staticRelays", YList (StaticRelays c));
   ("forceReachabilityPrivate", YBool (ForceReachabilityPrivate c));
   ("allowTransientConnection", YBool (AllowTransientConnection c));
   ("disableResourceManger", YBool (DisableResourceManger c));
   ("maxCIDPushRate", YInt (MaxCIDPushRate c));
   ("ipniPublishDisabled", YBool (IpniPublishDisabled c));
   ("ipniPublishInterval", YDur (IpniPublishInterval c));
   ("IpniPublishDirectAnnounce", YList (IpniPublishDirectAnnounce c));
   ("ipniPublisherIdentity", YStr (IpniPublisherIdentity c))].

Class Yaml := {
  yaml_Marshal : AppConfig -> option string;
  (** Unmarshal into an existing struct: the struct afterwards, and success *)
  yaml_Unmarshal : string -> AppConfig -> AppConfig * bool;
  (** the document as a mapping, as altsrc reads it; [None]: it does not parse *)
  yaml_map : string -> option (gmap string yval)
}.

(** Documented behaviour: what Marshal wrote sets every field it wrote, and is the mapping
    from tags to values; fields a document does not mention keep their value, so reading
    twice is reading once. *)
Class YamlLaws (Y : Yaml) : Prop := {
  yaml_roundtrip : forall c d c', yaml_Marshal c = Some d -> yaml_Unmarshal d c' = (c, true);
  yaml_idem : forall d c c' ok, yaml_Unmarshal d c = (c', ok) -> yaml_Unmarshal d c' = (c', ok);
  yaml_map_Marshal : forall c d, yaml_Marshal c = Some d -> yaml_map d = Some (list_to_map (config_fields c))
}.

(** The config file (absent, or its content) and the process's copy. *)
Record ConfigState := mkConfig { cfg_file : option string; app_config : AppConfig }.

Section store.
Context `{Y : Yaml}.

(** os.ReadFile and yaml.Unmarshal: the struct read, or why not. *)
Definition load (r : FsResult) (s : ConfigState) : (string + AppConfig) * ConfigState :=
  match r, cfg_file s with
  | FsOk, Some d =>
      let '(c, ok) := yaml_Unmarshal d (app_config s) in
      ((if ok then inr c else inl "yaml: unmarshal error"), mkConfig (cfg_file s) c)
  | _, _ => (inl "read config", s)
  end.

Definition getPoolNameFromConfig (r : FsResult) (s : ConfigState) : string * ConfigState :=
  let '(c, s') := load r s in
  (match c with inr c => PoolName c | inl _ => "0" end, s').

Definition getChainNameFromConfig (r : FsResult) (s : ConfigState) : string * ConfigState :=
  let '(c, s') := load r s in
  (match c with inr c => ChainName c | inl _ => "" end, s').

(** yaml.Marshal of the changed struct and os.WriteFile. *)
Definition store (r : FsResult) (c : AppConfig) (s : ConfigState) : option string * ConfigState :=
  match yaml_Marshal c with
  | None => (Some "yaml: marshal error", mkConfig (cfg_file s) c)
  | Some d =>
      match r with
      | FsOk => (None, mkConfig (Some d) c)
      | FsErr None => (Some "write config", mkConfig (cfg_file s) c)
      | FsErr (Some n) => (Some "write config", mkConfig (Some (stake n d)) c)
      end
  end.

Definition updateChainName (r1 r2 : FsResult) (newChainName : string) (s : ConfigState) :
    option string * ConfigState :=
  let '(c, s') := load r1 s in
  match c with
  | inl e => (Some e, s')
  | inr c =>
      if negb (ChainName c =? newChainName)%string
      then store r2 (set_ChainName newChainName c) s'
      else (None, s')
  end.

Definition updatePoolName (r1 r2 : FsResult) (newPoolName : string) (s : ConfigState) :
    option string * ConfigState :=
  let '(c, s') := load r1 s in
  match c with
  | inl e => (Some e, s')
  | inr c =>
      if negb (PoolName c =? newPoolName)%string
      then store r2 (set_PoolName newPoolName c) s'
      else (None, s')
  end.

#[export] Instance configStore : PoolStore ConfigState := {|
  ps_getPoolName := getPoolNameFromConfig;
  ps_getChainName := getChainNameFromConfig;
  ps_updatePoolName := updatePoolName;
  ps_updateChainName := updateChainName;
  ps_fileRemoved := fun s => mkConfig None (app_config s) |}.

(** ** The file store keeps the promises of the interface *)
Context `{L : !YamlLaws Y}.

(** What a working read sees. *)
Definition seen (s : ConfigState) : string * string :=
  match load FsOk s with
  | (inr c, _) => (PoolName c, ChainName c)
  | (inl _, _) => ("0", "")
  end.

Lemma load_seen r s c s' : load r s = (c, s') ->
  cfg_file s' = cfg_file s /\ seen s' = seen s /\ (forall c', c = inr c' -> seen s = (PoolName c', ChainName c')).
Proof.
  unfold load, seen. destruct r as [|l]; [|by intros [= <- <-]].
  destruct (cfg_file s) as [d|] eqn:Ef; [|intros [= <- <-]; rewrite ?Ef; by unfold load; rewrite ?Ef].
  destruct (yaml_Unmarshal d (app_config s)) as [c0 ok] eqn:E. intros [= <- <-]. cbn.
  apply yaml_idem in E as E'. unfold load. rewrite Ef, E. cbn. rewrite E'. destruct ok; naive_solver.
Qed.

Lemma store_seen r c s s' : store r c s = (None, s') -> seen s' = (PoolName c, ChainName c).
Proof.
  unfold store, seen. destruct (yaml_Marshal c) as [d|] eqn:Em; [|done].
  destruct r as [|[n|]]; [|done..]. intros [= <-]. unfold load. cbn.
  by rewrite (yaml_roundtrip _ _ c Em).
Qed.

Lemma load_ok_file s c s' : load FsOk s = (c, s') -> seen s = match c with inr c => (PoolName c, ChainName c) | inl _ => ("0", "") end.
Proof. unfold seen. intros ->. by destruct c. Qed.

#[export] Instance configStoreLaws : PoolStoreLaws ConfigState.
Proof.
  refine {| stored_pool := fun s => (seen s).1; stored_chain := fun s => (seen s).2 |}; cbn [ps_getPoolName ps_getChainName ps_updatePoolName ps_updateChainName configStore].
  - intros s. unfold getPoolNameFromConfig. destruct (load FsOk s) as [c s'] eqn:E.
    rewrite (load_ok_file _ _ _ E). by destruct c.
  - intros s. unfold getChainNameFromConfig. destruct (load FsOk s) as [c s'] eqn:E.
    rewrite (load_ok_file _ _ _ E). by destruct c.
  - intros l s. unfold getPoolNameFromConfig, load. done.
  - intros l s. unfold getChainNameFromConfig, load. done.
  - intros r s. unfold getPoolNameFromConfig. destruct (load r s) as [c s'] eqn:E.
    apply load_seen in E as (_ & Hs & _). cbn. by rewrite Hs.
  - intros r s. unfold getChainNameFromConfig. destruct (load r s) as [c s'] eqn:E.
    apply load_seen in E as (_ & Hs & _). cbn. by rewrite Hs.
  - intros r1 r2 n s s'. unfold updatePoolName. destruct (load r1 s) as [c s1] eqn:E.
    apply load_seen in E as (_ & Hs & Hc). destruct c as [e|c]; [done|]. rewrite (Hc c eq_refl).
    destruct (String.eqb_spec (PoolName c) n) as [<-|]; cbn [negb].
    + intros [= <-]. by rewrite Hs, (Hc c eq_refl).
    + intros H%store_seen. by rewrite H.
  - intros r1 r2 n s s'. unfold updateChainName. destruct (load r1 s) as [c s1] eqn:E.
    apply load_seen in E as (_ & Hs & Hc). destruct c as [e|c]; [done|]. rewrite (Hc c eq_refl).
    destruct (String.eqb_spec (ChainName c) n) as [<-|]; cbn [negb].
    + intros [= <-]. by rewrite Hs, (Hc c eq_refl).
    + intros H%store_seen. by rewrite H.
  - intros r1 r2 s. unfold updatePoolName. destruct (load r1 s) as [c s1] eqn:E.
    apply load_seen in E as (_ & Hs & Hc). destruct c as [e|c]; cbn; [by rewrite Hs|].
    rewrite (Hc c eq_refl). cbn. rewrite String.eqb_refl. cbn. by rewrite Hs, (Hc c eq_refl).
  - intros r1 r2 s. unfold updateChainName. destruct (load r1 s) as [c s1] eqn:E.
    apply load_seen in E as (_ & Hs & Hc). destruct c as [e|c]; cbn; [by rewrite Hs|].
    rewrite (Hc c eq_refl). cbn. rewrite String.eqb_refl. cbn. by rewrite Hs, (Hc c eq_refl).
  - done.
  - done.
Defined.

(** What was set is what is read: after an update of the pool that reports no error,
    every later working read of the config file, whatever failed reads and chain reads
    come between, returns the new pool, and the chain is the one from before. *)
Theorem pool_update_read r1 r2 n s s' reads :
  updatePoolName r1 r2 n s = (None, s') ->
  let s2 := fold_left (fun s (x : bool * FsResult) =>
              if x.1 then (getPoolNameFromConfig x.2 s).2 else (getChainNameFromConfig x.2 s).2) reads s' in
  (getPoolNameFromConfig FsOk s2).1 = n /\
  (getChainNameFromConfig FsOk s2).1 = (getChainNameFromConfig FsOk s).1.
Proof.
  intros Hu s2.
  assert (seen s2 = seen s') as Hs2.
  { subst s2. clear Hu. revert s'. induction reads as [|[b r] reads IH]; intros s'; [done|]. cbn [fold_left fst snd].
    rewrite IH. unfold getPoolNameFromConfig, getChainNameFromConfig.
    destruct (load r s') as [c s1] eqn:E. apply load_seen in E as (_ & Hs & _). by destruct b. }
  pose proof (update_pool_ok _ _ _ _ _ Hu) as [Hp Hc].
  pose proof (get_pool_ok s2) as Hgp. pose proof (get_chain_ok s2) as Hgc. pose proof (get_chain_ok s) as Hgs.
  cbn [ps_getPoolName ps_getChainName configStore stored_pool stored_chain configStoreLaws] in *.
  rewrite Hgp, Hgc, Hgs, Hs2. done.
Qed.

End store.

(** ** A concrete document format

    JSON, which is YAML: durations are objects with one member, and only 64-bit integers
    are written. *)
Definition yval_json (v : yval) : json :=
  match v with
  | YStr s => JStr s
  | YBool b => JBool b
  | YInt z => JNum (Itoa z)
  | YDur ns => JObj [("ns", JNum (Itoa ns))]
  | YList l => JArr (map JStr l)
  | YOther => JNull
  end.

Definition json_yval (j : json) : yval :=
  match j with
  | JStr s => YStr s
  | JBool b => YBool b
  | JNum l => match Atoi l with inr z => YInt z | inl _ => YOther end
  | JObj [(_, JNum l)] => match Atoi l with inr z => YDur z | inl _ => YOther end
  | JArr l => YList (omap (fun j => match j with JStr s => Some s | _ => None end) l)
  | _ => YOther
  end.

Definition yval_ok (v : yval) : bool :=
  match v with
  | YInt z | YDur z => (- 2 ^ 63 <=? z) && (z <? 2 ^ 63)
  | YOther => false
  | _ => true
  end.

Definition json_yaml_map (d : string) : option (gmap string yval) :=
  match json_parse d with
  | Some (JObj l) => Some (list_to_map (map (fun kv => (kv.1, json_yval kv.2)) l))
  | _ => None
  end.

Section getters.
Context (m : gmap string yval) (k : string).
Definition get_str (cur : string) := match m !! k with Some (YStr s) => s | _ => cur end.
Definition get_bool (cur : bool) := match m !! k with Some (YBool s) => s | _ => cur end.
Definition get_int (cur : Z) := match m !! k with Some (YInt s) => s | _ => cur end.
Definition get_dur (cur : Z) := match m !! k with Some (YDur s) => s | _ => cur end.
Definition get_list (cur : list string) := match m !! k with Some (YList s) => s | _ => cur end.
End getters.

Definition config_of_map (m : gmap string yval) (c : AppConfig) : AppConfig := {|
  Identity := get_str m "identity" (Identity c);
  StoreDir := get_str m "storeDir" (StoreDir c);
  PoolName := get_str m "poolName" (PoolName c);
  ChainName := get_str m "chainName" (ChainName c);
  LogLevel := get_str m "logLevel" (LogLevel c);
  ListenAddrs := get_list m "listenAddrs" (ListenAddrs c);
  Authorizer := get_str m "authorizer" (Authorizer c);
  AuthorizedPeers := get_list m "authorizedPeers" (AuthorizedPeers c);
  IpfsBootstrapNodes := get_list m "ipfsBootstrapNodes" (IpfsBootstrapNodes c);
  StaticRelays := get_list m "staticRelays" (StaticRelays c);
  ForceReachabilityPrivate := get_bool m "forceReachabilityPrivate" (ForceReachabilityPrivate c);
  AllowTransientConnection := get_bool m "allowTransientConnection" (AllowTransientConnection c);
  DisableResourceManger := get_bool m "disableResourceManger" (DisableResourceManger c);
  MaxCIDPushRate := get_int m "maxCIDPushRate" (MaxCIDPushRate c);
  IpniPublishDisabled := get_bool m "ipniPublishDisabled" (IpniPublishDisabled c);
  IpniPublishInterval := get_dur m "ipniPublishInterval" (IpniPublishInterval c);
  IpniPublishDirectAnnounce := get_list m "IpniPublishDirectAnnounce" (IpniPublishDirectAnnounce c);
  IpniPublisherIdentity := get_str m "ipniPublisherIdentity" (IpniPublisherIdentity c) |}.

Definition jsonYaml : Yaml := {|
  yaml_Marshal := fun c =>
    if forallb (fun kv => yval_ok kv.2) (config_fields c)
    then Some (json_print (JObj (map (fun kv => (kv.1, yval_json kv.2)) (config_fields c)))) else None;
  yaml_Unmarshal := fun d c =>
    match json_yaml_map d with Some m => (config_of_map m c, true) | None => (c, false) end;
  yaml_map := json_yaml_map |}.

Lemma omap_JStr l : omap (fun j => match j with JStr s => Some s | _ => None end) (map JStr l) = l.
Proof. induction l; csimpl; congruence. Qed.

Lemma json_yval_json v : yval_ok v = true -> json_yval (yval_json v) = v /\ nums_ok (yval_json v) = true.
Proof.
  destruct v; cbn [yval_ok yval_json json_yval nums_ok forallb snd]; try done.
  - rewrite andb_true_iff, Z.leb_le, Z.ltb_lt. intros H. by rewrite Atoi_Itoa, is_num_Itoa by lia.
  - rewrite andb_true_iff, Z.leb_le, Z.ltb_lt. intros H. by rewrite Atoi_Itoa, is_num_Itoa by lia.
  - intros _. rewrite omap_JStr. split; [done|]. by induction l.
Qed.

Lemma json_yaml_fields (l : list (string * yval)) : forallb (fun kv => yval_ok kv.2) l = true ->
  json_yaml_map (json_print (JObj (map (fun kv => (kv.1, yval_json kv.2)) l))) = Some (list_to_map l).
Proof.
  intros H. unfold json_yaml_map. rewrite parse_print.
  - f_equal. f_equal. rewrite map_map. induction l as [|[k v] l IH]; [done|]. cbn [map forallb fst snd] in *.
    apply andb_true_iff in H as [Hv Hl]. by rewrite IH, (proj1 (json_yval_json v Hv)).
  - cbn [nums_ok]. induction l as [|[k v] l IH]; [done|]. cbn [map forallb fst snd] in *.
    apply andb_true_iff in H as [Hv Hl]. by rewrite IH, (proj2 (json_yval_json v Hv)).
Qed.

Lemma config_of_fields c c' : config_of_map (list_to_map (config_fields c)) c' = c.
Proof. by destruct c. Qed.

Lemma json_Marshal_map c d :
  @yaml_Marshal jsonYaml c = Some d -> json_yaml_map d = Some (list_to_map (config_fields c)).
Proof.
  cbn [yaml_Marshal jsonYaml]. pose proof (json_yaml_fields (config_fields c)) as H.
  destruct (forallb _ _); [|done]. intros <-%(inj Some). by apply H.
Qed.

Lemma jsonYamlLaws : YamlLaws jsonYaml.
Proof.
  split.
  - intros c d c' Hd%json_Marshal_map. cbn [yaml_Unmarshal jsonYaml]. by rewrite Hd, config_of_fields.
  - intros d c c' ok. cbn [yaml_Unmarshal jsonYaml]. destruct (json_yaml_map d) as [m|]; intros [= <- <-]; [|done].
    f_equal. unfold config_of_map, get_str, get_bool, get_int, get_dur, get_list. cbn.
    f_equal; repeat case_match; done.
  - intros c d. apply json_Marshal_map.
Qed.

Section concrete.
#[local] Existing Instances jsonYaml jsonYamlLaws.

Lemma pool_update_read_witness :
  let s := mkConfig (yaml_Marshal (set_PoolName "0" (set_ChainName "base" zeroConfig))) zeroConfig in
  exists s', updatePoolName FsOk FsOk "7" s = (None, s') /\
    (getPoolNameFromConfig FsOk (getPoolNameFromConfig (FsErr None) s').2).1 = "7" /\
    (getChainNameFromConfig FsOk (getPoolNameFromConfig (FsErr None) s').2).1 = (getChainNameFromConfig FsOk s).1.
Proof.
  intros s. eexists.
  assert (updatePoolName FsOk FsOk "7" s =
    (None, mkConfig (yaml_Marshal (set_PoolName "7" (set_ChainName "base" zeroConfig)))
       (set_PoolName "7" (set_ChainName "base" zeroConfig)))) as H
    by (vm_compute; reflexivity).
  split; [exact H|]. apply (pool_update_read FsOk FsOk "7" s _ [(true, FsErr None)] H).
Defined.

End concrete.
