(* ===== verification/KuboProxy.v ===== *)
(** * blox/kubo_proxy.go: kubo stream forwarding and the circuit watchdog

    go-fula registers its stream protocols on the kubo node through kubo's HTTP API and
    watches them: every 30 seconds the watchdog re-registers what is missing, and when kubo
    has lost its relay circuit it asks the host to restart the fula stack, behind several
    gates. Network interfaces and kubo's answers come from outside; the state is the
    watchdog's local variables, the marker files and the calls made to kubo. *)

From S2P Require Import Prelude GoStd Json Effects.

#[local] Open Scope string_scope.
#[local] Open Scope Z_scope.

(** ** Constants *)
Definition defaultKuboAPIAddr := "127.0.0.1:5001".
Definition fulaBlockchainProtocol := "/x/fula-blockchain".
Definition fulaPingProtocol := "/x/fula-ping".
Definition fulaClusterProtocol := "/x/fula-cluster".
Definition blockchainTargetPort := "4020".
Definition pingTargetPort := "4021".
Definition clusterForwardPort := "19096".
Definition clusterSwarmPort := "9096".
Definition poolsAPIEndpoint := "https://pools.fx.land/pools/".
Definition staticRelayPeerID := "12D3KooWDRrBaAfPwsGJivBoUw5fE7ZpDiyfUjqgiURq2DEcL835".
Definition fulaRestartCommandPath := "/home/commands/.command_restart_fula".

Definition minute : Z := 60 * 10 ^ 9.
Definition hour : Z := 60 * minute.
Definition relayCircuitMissingThreshold : Z := 2.
Definition minTimeBetweenFulaRestarts : Z := 5 * minute.
Definition maxRestartsPerWindow : Z := 3.
Definition restartRateWindow : Z := 1 * hour.
Definition bounceVerifyGracePeriod : Z := 3 * minute.
Definition maxConsecutiveFailedRestarts : Z := 3.
Definition longCooldownAfterFailures : Z := 1 * hour.
Definition bootstrapGracePeriod : Z := 5 * minute.

(** ** Target addresses *)

(** A network interface and its IPv4 addresses, in order. *)
Record Iface := mkIface { if_name : string; if_ipv4 : list string }.

(** The interface list; [None] when the system call fails. *)
Definition Ifaces := option (list Iface).

Definition getIPv4FromInterface (ifs : Ifaces) (name : string) : string :=
  match ifs with
  | None => ""
  | Some l =>
      match find (fun i => (if_name i =? name)%string) l with
      | None => ""
      | Some i => match if_ipv4 i with a :: _ => a | [] => "" end
      end
  end.

(** The first of the named interfaces that has an IPv4 address. *)
Fixpoint first_ip (ifs : Ifaces) (names : list string) : string :=
  match names with
  | [] => ""
  | n :: rest =>
      let ip := getIPv4FromInterface ifs n in
      if negb (ip =? "")%string then ip else first_ip ifs rest
  end.

Definition resolveProxyTargetIP (ifs : Ifaces) : string :=
  let ip := getIPv4FromInterface ifs "docker0" in
  if negb (ip =? "")%string then ip else
  let names := map if_name (default [] ifs) in
  let ip := first_ip ifs (filter (fun n => HasPrefix n "br-" = true) names) in
  if negb (ip =? "")%string then ip else
  let own n := negb ((n =? "lo")%string || HasPrefix n "docker" || HasPrefix n "br-" || HasPrefix n "veth") in
  let ip := first_ip ifs (filter (fun n => own n = true) names) in
  if negb (ip =? "")%string then ip else "127.0.0.1".

Definition getProtocols (ifs : Ifaces) : list (string * string) :=
  let ip := resolveProxyTargetIP ifs in
  [(fulaBlockchainProtocol, "/ip4/" +:+ ip +:+ "/tcp/" +:+ blockchainTargetPort);
   (fulaPingProtocol, "/ip4/" +:+ ip +:+ "/tcp/" +:+ pingTargetPort);
   (fulaClusterProtocol, "/ip4/" +:+ ip +:+ "/tcp/" +:+ clusterSwarmPort)].

Definition getKuboAPIAddr (addr : string) : string :=
  if (addr =? "")%string then defaultKuboAPIAddr else TrimPrefix addr "http://".

(** ** Reading kubo's answers *)

(** json.Decoder.Decode into a struct with one list field; the list's elements are
    decoded by [dec], and one bad element fails the call. *)
Definition dec_list {A : Type} (dec : json -> option A) (_ : list A) (j : json) : option (list A) :=
  match j with
  | JNull => Some []
  | JArr l => mapM dec l
  | _ => None
  end.

Definition decode_list_field {A : Type} (name : string) (dec : json -> option A) (b : string) : option (list A) :=
  '(j, _) ← json_parse_prefix b;
  l ← as_object j;
  let '(v, ok) := decode_field (dec_list dec) [] (obj_field name l) in
  if ok then Some v else None.

Definition dec_pair (f1 f2 : string) (j : json) : option (string * string) :=
  l ← as_object j;
  let '(a, ok1) := field_string "" (obj_field f1 l) in
  let '(b, ok2) := field_string "" (obj_field f2 l) in
  if ok1 && ok2 then Some (a, b) else None.

Definition dec_one (f : string) (j : json) : option string :=
  l ← as_object j;
  let '(a, ok) := field_string "" (obj_field f l) in
  if ok then Some a else None.

Definition dec_str (j : json) : option string := dec_string "" j.

(** The body of a 200 answer. *)
Definition ok_body (r : HttpReply) : option string :=
  match r with
  | Reply 200 (Some b) => Some b
  | _ => None
  end.

Definition kubo_alive (r : HttpReply) : bool :=
  match r with
  | Reply st _ => st =? StatusOK
  | ReplyErr _ => false
  end.

Definition listeners_ok (ifs : Ifaces) (r : HttpReply) : bool :=
  match b ← ok_body r; decode_list_field "Listeners" (dec_pair "Protocol" "ListenAddress") b with
  | None => false
  | Some ls =>
      let registered := map fst (filter (fun l => HasPrefix l.2 "/p2p/" = true) ls) in
      forallb (fun p => bool_decide (p.1 ∈ registered)) (getProtocols ifs)
  end.

Definition forward_ok (r : HttpReply) : bool :=
  match b ← ok_body r; decode_list_field "Listeners" (dec_pair "Protocol" "TargetAddress") b with
  | None => false
  | Some ls => existsb (fun l => (l.1 =? fulaClusterProtocol)%string && HasPrefix l.2 "/p2p/") ls
  end.

Definition has_circuit (r : HttpReply) : bool :=
  match b ← ok_body r; decode_list_field "Addresses" dec_str b with
  | None => false
  | Some l => existsb (fun a => Contains a "/p2p-circuit/") l
  end.

Definition relay_connected (relayPeerID : string) (r : HttpReply) : bool :=
  match b ← ok_body r; decode_list_field "Peers" (dec_one "Peer") b with
  | None => false
  | Some l => existsb (fun p => (p =? relayPeerID)%string) l
  end.

(** ** Calls to kubo *)
Record Kubo := mkKubo {
  k_fx : nat;
  k_posts : list string;          (** URLs called, in order *)
  k_files : gmap string string
}.

Section kubo.
Context `{E : Env} (ifs : Ifaces) (kuboAPI : string).

Definition k_post (url : string) : M Kubo HttpReply :=
  fun w => (Ok (env_http (k_fx w) url JNull), mkKubo (S (k_fx w)) (k_posts w ++ [url])%list (k_files w)).
Definition k_now : M Kubo Z :=
  fun w => (Ok (env_now (k_fx w)), mkKubo (S (k_fx w)) (k_posts w) (k_files w)).
Definition k_fs : M Kubo FsResult :=
  fun w => (Ok (env_fs (k_fx w)), mkKubo (S (k_fx w)) (k_posts w) (k_files w)).
Definition k_set (f : gmap string string -> gmap string string) : M Kubo () :=
  fun w => (Ok (), mkKubo (k_fx w) (k_posts w) (f (k_files w))).

Definition api (path : string) : string := "http://" +:+ kuboAPI +:+ "/api/v0/" +:+ path.

Definition checkKuboAlive : M Kubo bool := r <- k_post (api "id");; ret (kubo_alive r).
Definition checkKuboP2PListeners : M Kubo bool := r <- k_post (api "p2p/ls");; ret (listeners_ok ifs r).
Definition checkClusterForward : M Kubo bool := r <- k_post (api "p2p/ls");; ret (forward_ok r).
Definition checkKuboHasCircuitAddress : M Kubo bool := r <- k_post (api "id");; ret (has_circuit r).
Definition checkRelayPeerConnected (relayPeerID : string) : M Kubo bool :=
  r <- k_post (api "swarm/peers");; ret (relay_connected relayPeerID r).

Definition listen_url (protocol target : string) : string :=
  api ("p2p/listen?arg=" +:+ protocol +:+ "&arg=" +:+ target +:+ "&allow-custom-protocol=true").

(** At most the first 512 bytes of an error body are looked at. *)
Definition body_head (b : option string) : string := stake 512 (default "" b).

Definition registerSingleProtocol (protocol target : string) : M Kubo () :=
  r <- k_post (listen_url protocol target);;
  match r with
  | ReplyErr e => raise ("kubo API request failed: " +:+ e)
  | Reply st b =>
      if negb (st =? StatusOK) then
        if Contains (body_head b) "listener already registered" then ret ()
        else raise ("kubo API returned status " +:+ Itoa st +:+ ": " +:+ body_head b)
      else ret ()
  end.

Fixpoint register_all (ps : list (string * string)) : M Kubo () :=
  match ps with
  | [] => ret ()
  | (name, target) :: rest =>
      wrapErr ("failed to register protocol " +:+ name) (registerSingleProtocol name target);;;
      register_all rest
  end.

Definition close_all_url : string := api "p2p/close?all=true".

Definition registerKuboProtocols : M Kubo () :=
  _ <- k_post close_all_url;;
  register_all (getProtocols ifs).

Definition forward_url (serverKuboPeerID : string) : string :=
  api ("p2p/forward?arg=" +:+ fulaClusterProtocol +:+ "&arg=/ip4/127.0.0.1/tcp/" +:+ clusterForwardPort
       +:+ "&arg=/p2p/" +:+ serverKuboPeerID +:+ "&allow-custom-protocol=true").

Definition registerClusterForward (serverKuboPeerID : string) : M Kubo () :=
  r <- k_post (forward_url serverKuboPeerID);;
  match r with
  | ReplyErr e => raise ("kubo API request failed: " +:+ e)
  | Reply st b =>
      if negb (st =? StatusOK) then
        if Contains (body_head b) "already forwarding" || Contains (body_head b) "listener already registered"
        then ret ()
        else raise ("kubo API returned status " +:+ Itoa st +:+ ": " +:+ body_head b)
      else ret ()
  end.

(** One round of waitForKuboAndRegister's ticker: [Some ()] when registration is done. *)
Definition wait_round : M Kubo (option ()) :=
  alive <- checkKuboAlive;;
  if negb (alive : bool) then ret None else
  r <- try registerKuboProtocols;;
  match r with
  | inl _ => ret None
  | inr _ => ret (Some ())
  end.

(** ** Marker and cache files *)

(** Closing the file just created, to which nothing was written, is taken to succeed. *)
Definition signalFulaRestart : M Kubo () :=
  r <- k_fs;;
  match r with
  | FsErr _ => raise "mkdir commands dir"
  | FsOk =>
      d <- k_fs;;
      match d with
      | FsOk => k_set (delete fulaRestartCommandPath)
      | FsErr _ => ret ()
      end;;;
      c <- k_fs;;
      match c with
      | FsErr _ => raise "create command file"
      | FsOk => k_set (<[fulaRestartCommandPath := ""]>)
      end
  end.

Definition cleanupStaleRestartMarker : M Kubo () :=
  r <- k_fs;;
  match r with
  | FsOk => k_set (delete fulaRestartCommandPath)
  | FsErr _ => ret ()
  end.

Definition cache_path (poolID : string) : string := "/internal/.tmp/pool_" +:+ poolID +:+ "_server_kubo.tmp".

Definition fetchServerKuboPeerID (poolID : string) : M Kubo string :=
  r <- k_fs;;
  cached <- gets (fun w => match r with FsOk => k_files w !! cache_path poolID | FsErr _ => None end);;
  let peerID := TrimSpace (default "" cached) in
  if negb (peerID =? "")%string then ret peerID else
  resp <- k_post (poolsAPIEndpoint +:+ poolID);;
  match resp with
  | ReplyErr e => raise ("failed to fetch pool info: " +:+ e)
  | Reply st b =>
      if negb (st =? StatusOK) then raise ("pools API returned status " +:+ Itoa st) else
      match b ← b; '(j, _) ← json_parse_prefix b; dec_one "kubo-peerid" j with
      | None => raise "failed to decode pool info"
      | Some id =>
          if (id =? "")%string then raise ("kubo-peerid is empty in pool info for pool " +:+ poolID) else
          m <- k_fs;;
          match m with
          | FsErr _ => ret ()
          | FsOk =>
              w <- k_fs;;
              match w with
              | FsOk => k_set (<[cache_path poolID := id]>)
              | FsErr None => ret ()
              | FsErr (Some n) => k_set (<[cache_path poolID := stake n id]>)
              end
          end;;;
          ret id
      end
  end.

(** ** The watchdog *)
Record WD := mkWD {
  consecutiveCircuitMissing : Z;
  lastRestartAt : option Z;           (** [None]: the zero time *)
  consecutiveFailedRestarts : Z;
  longCooldownUntil : option Z;
  restartHistory : list Z;
  hasSeenCircuit : bool
}.

Definition initWD : WD := mkWD 0 None 0 None [] false.

Definition set_missing (n : Z) (s : WD) : WD :=
  mkWD n (lastRestartAt s) (consecutiveFailedRestarts s) (longCooldownUntil s) (restartHistory s) (hasSeenCircuit s).

(** time.Since(t) < d for a time that may be zero: the zero time is long past. *)
Definition since_lt (now : Z) (t : option Z) (d : Z) : bool :=
  match t with
  | Some t => now - t <? d
  | None => false
  end.

(** The part of a tick that repairs registrations. *)
Definition repair (serverPeerID : string) : M Kubo () :=
  listening <- checkKuboP2PListeners;;
  if negb (listening : bool) then
    _ <- try registerKuboProtocols;;
    (if negb (serverPeerID =? "")%string then _ <- try (registerClusterForward serverPeerID);; ret () else ret ())
  else if negb (serverPeerID =? "")%string then
    fwd <- checkClusterForward;;
    (if negb (fwd : bool) then _ <- try (registerClusterForward serverPeerID);; ret () else ret ())
  else ret ().

(** The circuit is there: note it, and judge the last restart. *)
Definition on_circuit (s : WD) : M Kubo WD :=
  failed <- match lastRestartAt s with
            | None => ret (consecutiveFailedRestarts s)
            | Some t =>
                now <- k_now;;
                ret (if now - t <? bounceVerifyGracePeriod then 0 else consecutiveFailedRestarts s)
            end;;
  ret (mkWD 0 (lastRestartAt s) failed (longCooldownUntil s) (restartHistory s) true).

(** Gate 4 and what follows it, at the time [now] read there; the restart that was
    signalled, if any, is returned with the new state. *)
Definition gate4 (now : Z) (s : WD) : M Kubo (WD * option Z) :=
  let history := filter (fun t => now - restartRateWindow < t) (restartHistory s) in
  let s := mkWD (consecutiveCircuitMissing s) (lastRestartAt s) (consecutiveFailedRestarts s)
             (longCooldownUntil s) history (hasSeenCircuit s) in
  if maxRestartsPerWindow <=? Z.of_nat (length history) then ret (s, None) else
  verdict <- match lastRestartAt s with
             | None => ret false
             | Some t => n <- k_now;; ret (bounceVerifyGracePeriod <=? n - t)
             end;;
  let failed := if (verdict : bool) then consecutiveFailedRestarts s + 1 else consecutiveFailedRestarts s in
  if (verdict : bool) && (maxConsecutiveFailedRestarts <=? failed) then
    ret (mkWD 0 (lastRestartAt s) failed (Some (now + longCooldownAfterFailures)) history (hasSeenCircuit s), None)
  else
  r <- try signalFulaRestart;;
  match r with
  | inl _ => ret (mkWD (consecutiveCircuitMissing s) (lastRestartAt s) failed (longCooldownUntil s)
                    history (hasSeenCircuit s), None)
  | inr _ => ret (mkWD 0 (Some now) failed (longCooldownUntil s) (history ++ [now])%list (hasSeenCircuit s),
                  Some now)
  end.

(** The circuit has been missing long enough: gates 1 to 3. *)
Definition gates (s : WD) : M Kubo (WD * option Z) :=
  relay <- checkRelayPeerConnected staticRelayPeerID;;
  if negb (relay : bool) then ret (set_missing 0 s, None) else
  cooling <- match longCooldownUntil s with
             | None => ret false
             | Some u => now <- k_now;; ret (now <? u)
             end;;
  if (cooling : bool) then ret (s, None) else
  t3 <- k_now;;
  if since_lt t3 (lastRestartAt s) minTimeBetweenFulaRestarts then ret (s, None) else
  now <- k_now;;
  gate4 now s.

(** One tick of watchKuboP2P. *)
Definition tick (serverPeerID : string) (startupAt : Z) (s : WD) : M Kubo (WD * option Z) :=
  alive <- checkKuboAlive;;
  if negb (alive : bool) then ret (set_missing 0 s, None) else
  repair serverPeerID;;;
  circuit <- checkKuboHasCircuitAddress;;
  if (circuit : bool) then s' <- on_circuit s;; ret (s', None) else
  boot <- (if hasSeenCircuit s then ret false
           else now <- k_now;; ret (now - startupAt <? bootstrapGracePeriod));;
  if (boot : bool) then ret (set_missing 0 s, None) else
  let s := set_missing (consecutiveCircuitMissing s + 1) s in
  if consecutiveCircuitMissing s <? relayCircuitMissingThreshold then ret (s, None)
  else gates s.

(** ** Facts about one tick *)

(** The effect counter never goes back. *)
Definition fx_le (w w' : Kubo) : Prop := (k_fx w <= k_fx w')%nat.
#[local] Instance fx_le_preorder : PreOrder fx_le.
Proof. split; [intros w; by unfold fx_le | intros w1 w2 w3; unfold fx_le; lia]. Qed.

Lemma fx_post u : keeps fx_le (k_post u).
Proof. intros w. unfold fx_le. cbn. lia. Qed.
Lemma fx_now : keeps fx_le k_now.
Proof. intros w. unfold fx_le. cbn. lia. Qed.
Lemma fx_fs : keeps fx_le k_fs.
Proof. intros w. unfold fx_le. cbn. lia. Qed.
Lemma fx_set f : keeps fx_le (k_set f).
Proof. intros w. unfold fx_le. cbn. lia. Qed.
Hint Resolve fx_post fx_now fx_fs fx_set : keeps.

Lemma fx_register_all ps : keeps fx_le (register_all ps).
Proof.
  induction ps as [|[n t] ps IH]; cbn [register_all]; unfold registerSingleProtocol; keeps_go.
Qed.
Hint Resolve fx_register_all : keeps.

Lemma fx_repair srv : keeps fx_le (repair srv).
Proof.
  unfold repair, checkKuboP2PListeners, registerKuboProtocols, registerClusterForward, checkClusterForward.
  keeps_go.
Qed.
Lemma fx_signal : keeps fx_le signalFulaRestart.
Proof. unfold signalFulaRestart. keeps_go. Qed.
Hint Resolve fx_repair fx_signal : keeps.

Lemma fx_tick srv t0 s : keeps fx_le (tick srv t0 s).
Proof.
  unfold tick, checkKuboAlive, checkKuboHasCircuitAddress, on_circuit, gates, checkRelayPeerConnected, gate4.
  keeps_go.
Qed.

(** What a tick does to the restart bookkeeping: nothing but forgetting restarts more than
    an hour old, or one restart at a time [now] read from the clock, at least five minutes
    after the last one and with fewer than three in the last hour. *)
Inductive booked (s s' : WD) (w w' : Kubo) : option Z -> Prop :=
| booked_same : restartHistory s' = restartHistory s -> lastRestartAt s' = lastRestartAt s ->
    booked s s' w w' None
| booked_pruned n : (n < k_fx w')%nat ->
    restartHistory s' = filter (fun t => env_now n - restartRateWindow < t) (restartHistory s) ->
    lastRestartAt s' = lastRestartAt s -> booked s s' w w' None
| booked_restart n3 n : (k_fx w <= n3 <= n)%nat -> (n < k_fx w')%nat ->
    since_lt (env_now n3) (lastRestartAt s) minTimeBetweenFulaRestarts = false ->
    let kept := filter (fun t => env_now n - restartRateWindow < t) (restartHistory s) in
    Z.of_nat (length kept) < maxRestartsPerWindow ->
    lastRestartAt s' = Some (env_now n) -> restartHistory s' = (kept ++ [env_now n])%list ->
    booked s s' w w' (Some (env_now n)).

Lemma gate4_booked n3 n s w r s' w' w0 :
  gate4 (env_now n) s w = (Ok (s', r), w') -> (k_fx w0 <= n3 <= n)%nat -> (n < k_fx w)%nat ->
  since_lt (env_now n3) (lastRestartAt s) minTimeBetweenFulaRestarts = false -> booked s s' w0 w' r.
Proof.
  intros H Hn Hw Hs. unfold gate4 in H.
  set (kept := filter _ (restartHistory s)) in *.
  destruct (Z.leb_spec maxRestartsPerWindow (Z.of_nat (length kept))) as [Hle|Hlt].
  { injection H as <- <- <-. by apply (booked_pruned _ _ _ _ n). }
  apply bind_Ok_inv in H as (v & w1 & Hv & H).
  assert (fx_le w w1) as Hw1.
  { cbn [lastRestartAt] in Hv. destruct (lastRestartAt s); [|by injection Hv as _ <-].
    apply bind_Ok_inv in Hv as (? & ? & [= <- <-] & [= _ <-]). unfold fx_le. cbn. lia. }
  unfold fx_le in Hw1. cbn [lastRestartAt consecutiveFailedRestarts] in H. destruct (v && _).
  { injection H as <- <- <-. apply (booked_pruned _ _ _ _ n); [lia|done|done]. }
  apply bind_Ok_inv in H as (x & w2 & Hx & H). pose proof (fx_signal w1) as Hw2. unfold fx_le in Hw2.
  apply try_Ok_inv in Hx as [([] & -> & Hx)|(e & -> & Hx)]; rewrite Hx in Hw2; cbn in Hw2;
    injection H as <- <- <-.
  - by apply (booked_restart _ _ _ _ n3 n); [|lia|..].
  - apply (booked_pruned _ _ _ _ n); [lia|done|done].
Qed.

Lemma gates_booked s w s' r w' w0 : gates s w = (Ok (s', r), w') -> (k_fx w0 <= k_fx w)%nat -> booked s s' w0 w' r.
Proof.
  unfold gates. intros (relay & w1 & H1 & H)%bind_Ok_inv Hw0.
  apply bind_Ok_inv in H1 as (? & ? & [= <- <-] & [= _ <-]).
  destruct relay; cbn [negb] in H; [|injection H as <- <- <-; by apply booked_same].
  apply bind_Ok_inv in H as (cool & w2 & H2 & H).
  assert (k_fx w < k_fx w2)%nat as Hw2.
  { destruct (longCooldownUntil s); [|injection H2 as _ <-; cbn; lia].
    apply bind_Ok_inv in H2 as (? & ? & [= <- <-] & [= _ <-]). cbn. lia. }
  destruct cool; [injection H as <- <- <-; by apply booked_same|].
  apply bind_Ok_inv in H as (t3 & w3 & [= <- <-] & H).
  destruct (since_lt _ _ _) eqn:Hs; [injection H as <- <- <-; by apply booked_same|].
  apply bind_Ok_inv in H as (now & w4 & [= <- <-] & H). cbn [k_fx] in H.
  eapply gate4_booked in H; [exact H | | cbn; lia | exact Hs]. lia.
Qed.

Lemma tick_booked srv t0 s w s' r w' : tick srv t0 s w = (Ok (s', r), w') ->
  booked s s' w w' r /\ (k_fx w <= k_fx w')%nat.
Proof.
  intros H. split.
  2: { pose proof (fx_tick srv t0 s w) as Hk. by rewrite H in Hk. }
  unfold tick in H. apply bind_Ok_inv in H as (alive & w1 & H1 & H).
  apply bind_Ok_inv in H1 as (? & ? & [= <- <-] & [= _ <-]).
  destruct alive; cbn [negb] in H; [|injection H as <- <- <-; by apply booked_same].
  apply bind_Ok_inv in H as ([] & w2 & H2 & H). match type of H2 with repair _ ?w1 = _ => pose proof (fx_repair srv w1) as Hw2 end.
  rewrite H2 in Hw2. unfold fx_le in Hw2. cbn in Hw2.
  apply bind_Ok_inv in H as (circ & w3 & H3 & H). apply bind_Ok_inv in H3 as (? & ? & [= <- <-] & [= _ <-]).
  destruct circ.
  { apply bind_Ok_inv in H as (s1 & w4 & H4 & [= <- <- <-]). unfold on_circuit in H4.
    apply bind_Ok_inv in H4 as (f & w5 & _ & [= <- <-]). by apply booked_same. }
  apply bind_Ok_inv in H as (boot & w4 & H4 & H).
  assert (k_fx w2 <= k_fx w4)%nat as Hw4.
  { destruct (hasSeenCircuit s); [injection H4 as _ <-; cbn; lia|].
    apply bind_Ok_inv in H4 as (? & ? & [= <- <-] & [= _ <-]). cbn. lia. }
  destruct boot; [injection H as <- <- <-; by apply booked_same|].
  case_match; [injection H as <- <- <-; by apply booked_same|].
  eapply gates_booked in H; [|instantiate (1 := w); lia].
  destruct H; [by apply booked_same | by eapply booked_pruned | by eapply booked_restart].
Qed.

(** ** Runs of the watchdog *)

(** The watchdog's state after some ticks, with the times of the restarts it signalled;
    each tick is given the server peer id current at the time. *)
Definition run_tick (t0 : Z) (st : WD * Kubo * list Z) (srv : string) : WD * Kubo * list Z :=
  let '(s, w, all) := st in
  match tick srv t0 s w with
  | (Ok (s', Some t), w') => (s', w', (all ++ [t])%list)
  | (Ok (s', None), w') => (s', w', all)
  | (_, w') => (s, w', all)
  end.

Definition run_ticks (t0 : Z) (srvs : list string) (w : Kubo) : WD * Kubo * list Z :=
  fold_left (run_tick t0) srvs (initWD, w, []).

(** A restart is more than five minutes after the one before and an hour after the third
    one before. *)
Definition gap (d : Z) (k : nat) (all : list Z) : Prop :=
  forall i x y, all !! i = Some x -> all !! (i + k)%nat = Some y -> d <= y - x.

Record inv (s : WD) (w : Kubo) (all : list Z) : Prop := {
  inv_past : Forall (fun t => exists n, (n < k_fx w)%nat /\ t = env_now n) all;
  inv_sorted : gap 0 0 all /\ forall i j x y, (i <= j)%nat -> all !! i = Some x -> all !! j = Some y -> x <= y;
  inv_last : lastRestartAt s = last all;
  inv_history : forall c, env_now (k_fx w) - restartRateWindow <= c ->
    filter (fun t => c < t) all = filter (fun t => c < t) (restartHistory s);
  inv_short : gap minTimeBetweenFulaRestarts 1 all;
  inv_window : gap restartRateWindow 3 all
}.

Lemma filter_cut (c d : Z) (l : list Z) : d <= c ->
  filter (fun t => c < t) (filter (fun t => d < t) l) = filter (fun t => c < t) l.
Proof. intros H. apply list_filter_filter_l. intros x. lia. Qed.

Lemma gap_snoc d k all y : (0 < k)%nat -> gap d k all ->
  (forall x, all !! (length all - k)%nat = Some x -> (k <= length all)%nat -> d <= y - x) -> gap d k (all ++ [y]).
Proof.
  intros Hk Hg Hy i x z Hx Hz. apply lookup_snoc_Some in Hz as [[Hlt Hz]|[Hi <-]].
  - rewrite lookup_app_l in Hx by lia. by eapply Hg.
  - rewrite lookup_app_l in Hx by lia. apply Hy; [|lia]. by replace (length all - k)%nat with i by lia.
Qed.

(** In a sorted list, if the third element from the end is recent, three are. *)
Lemma recent_three c (all : list Z) x :
  (forall i j x y, (i <= j)%nat -> all !! i = Some x -> all !! j = Some y -> x <= y) ->
  (3 <= length all)%nat -> all !! (length all - 3)%nat = Some x -> c < x ->
  (3 <= length (filter (fun t => (c < t)%Z) all))%nat.
Proof.
  intros Hs Hl Hx Hc. rewrite <- (take_drop (length all - 3) all), filter_app, length_app.
  rewrite (filter_all _ (drop _ all)); [rewrite length_drop; lia|].
  intros y (j & Hj)%list_elem_of_lookup. rewrite lookup_drop in Hj. eapply (Hs _ _ x y) in Hj; [lia| |exact Hx]. lia.
Qed.

Context (Hmono : forall n m, (n <= m)%nat -> env_now n <= env_now m).

Lemma run_tick_inv t0 srv s w all s' w' all' :
  inv s w all -> run_tick t0 (s, w, all) srv = (s', w', all') -> inv s' w' all'.
Proof.
  intros [Hpast [_ Hsort] Hlast Hhist Hshort Hwin]. unfold run_tick.
  assert (forall wx, (k_fx w <= k_fx wx)%nat -> Forall (fun t => exists n, (n < k_fx wx)%nat /\ t = env_now n) all)
    as Hpast'.
  { intros wx Hle. eapply Forall_impl; [exact Hpast|]. intros t (n & ? & ->). exists n. split; [lia|done]. }
  assert (gap 0 0 all) as Hg0 by (intros i x y Hx Hy; replace (i + 0)%nat with i in Hy by lia; simplify_eq; lia).
  assert (forall wx c, (k_fx w <= k_fx wx)%nat -> env_now (k_fx wx) - restartRateWindow <= c ->
            filter (fun t => c < t) all = filter (fun t => c < t) (restartHistory s)) as Hhist'.
  { intros wx c Hle Hc. apply Hhist. specialize (Hmono _ _ Hle). lia. }
  destruct (tick srv t0 s w) as [[[s1 r]|e|] w1] eqn:Ht.
  2, 3: pose proof (fx_tick srv t0 s w) as Hle; rewrite Ht in Hle; unfold fx_le in Hle; cbn in Hle;
    intros [= <- <- <-]; split; eauto.
  apply tick_booked in Ht as [Hb Hle]. destruct Hb as [Hh Hl|n Hn Hh Hl|n3 n Hn Hn' Hs kept Hk Hl Hh].
  - intros [= <- <- <-]. split; eauto; [congruence|]. rewrite Hh. eauto.
  - intros [= <- <- <-]. split; eauto; [congruence|]. intros c Hc. rewrite Hh, filter_cut; [eauto|].
    specialize (Hmono n (k_fx w1) ltac:(lia)). lia.
  - intros [= <- <- <-].
    assert (forall t, t ∈ all -> t <= env_now n) as Hbound.
    { intros t Hin. rewrite Forall_forall in Hpast. destruct (Hpast t Hin) as (m & Hm & ->). apply Hmono. lia. }
    split.
    + apply Forall_app. split; [eauto|]. constructor; [|done]. by exists n.
    + split; [intros i x y Hx Hy; replace (i + 0)%nat with i in Hy by lia; simplify_eq; lia|].
      intros i j x y Hij Hx Hy. apply lookup_snoc_Some in Hy as [[Hj Hy]|[Hj <-]].
      * rewrite lookup_app_l in Hx by lia. eauto.
      * apply lookup_snoc_Some in Hx as [[Hi Hx]|[Hi <-]]; [|done]. apply Hbound. by eapply list_elem_of_lookup_2.
    + by rewrite last_snoc.
    + intros c Hc. rewrite Hh, !filter_app. f_equal. unfold kept.
      assert (env_now n - restartRateWindow <= c) as Hcn by (specialize (Hmono n (k_fx w1) ltac:(lia)); lia).
      rewrite filter_cut by done. eauto.
    + apply gap_snoc; [lia|done|]. intros x Hx Hl1.
      assert (last all = Some x) as Hlx by (rewrite last_lookup; by replace (pred (length all)) with (length all - 1)%nat by lia).
      rewrite Hlast, Hlx in Hs. cbn in Hs. bool_to_prop. specialize (Hmono n3 n ltac:(lia)). lia.
    + apply gap_snoc; [lia|done|]. intros x Hx Hl3.
      destruct (Z.lt_ge_cases (env_now n - restartRateWindow) x) as [Hrec|]; [|lia]. exfalso.
      pose proof (recent_three _ _ _ Hsort Hl3 Hx Hrec) as Hthree.
      rewrite Hhist in Hthree by (specialize (Hmono (k_fx w) n ltac:(lia)); lia).
      unfold maxRestartsPerWindow in Hk. fold kept in Hthree. lia.
Qed.

Lemma run_ticks_inv t0 srvs w : let '(s, w', all) := run_ticks t0 srvs w in inv s w' all.
Proof.
  unfold run_ticks.
  assert (inv initWD w []) as H0.
  { split; done. }
  revert H0. generalize initWD w ([] : list Z). induction srvs as [|srv srvs IH]; intros s w0 all H0; [done|].
  cbn [fold_left]. destruct (run_tick t0 (s, w0, all) srv) as [[s1 w1] all1] eqn:Er. apply IH.
  by eapply run_tick_inv.
Qed.

(** C3. The watchdog cannot restart-loop: over any run, whatever kubo answers, successive
    restarts are at least five minutes apart and no four of them fall within an hour. *)
Theorem watchdog_rate_limit t0 srvs w i x y :
  let all := (run_ticks t0 srvs w).2 in
  (all !! i = Some x -> all !! (i + 1)%nat = Some y -> 5 * minute <= y - x) /\
  (all !! i = Some x -> all !! (i + 3)%nat = Some y -> 60 * minute <= y - x).
Proof.
  intros all. pose proof (run_ticks_inv t0 srvs w) as Hinv. subst all.
  destruct (run_ticks t0 srvs w) as [[s w'] all]. cbn [snd]. destruct Hinv as [_ _ _ _ Hs Hw].
  split; intros Hx Hy; [apply (Hs i) | apply (Hw i)]; done.
Qed.

Lemma gate4_restart now s w s' t w' : gate4 now s w = (Ok (s', Some t), w') ->
  t = now /\ k_files w' !! fulaRestartCommandPath = Some "" /\ (k_fx w <= k_fx w')%nat.
Proof.
  unfold gate4. intros H. case_match; [done|].
  apply bind_Ok_inv in H as (v & w1 & Hv & H).
  assert (k_fx w <= k_fx w1)%nat as Hw1.
  { cbn [lastRestartAt] in Hv. destruct (lastRestartAt s); [|by injection Hv as _ <-].
    apply bind_Ok_inv in Hv as (? & ? & [= <- <-] & [= _ <-]). cbn. lia. }
  case_match; [done|]. apply bind_Ok_inv in H as (x & w2 & Hx & H).
  pose proof (fx_signal w1) as Hw2. unfold fx_le in Hw2.
  apply try_Ok_inv in Hx as [([] & -> & Hx)|(e & -> & Hx)]; [|done]. rewrite Hx in Hw2. cbn in Hw2.
  injection H as <- <- <-. split; [done|]. split; [|lia].
  unfold signalFulaRestart in Hx. apply bind_Ok_inv in Hx as (r1 & w3 & _ & Hx). destruct r1; [|done].
  apply bind_Ok_inv in Hx as (r2 & w4 & _ & Hx). apply bind_Ok_inv in Hx as ([] & w5 & _ & Hx).
  apply bind_Ok_inv in Hx as (r3 & w6 & _ & Hx). destruct r3; [|done]. injection Hx as <-. cbn.
  apply lookup_insert_eq.
Qed.

(** *** After three failed restarts *)

(** Two restarts have already been judged useless and the last one is past its grace
    period. *)
Definition spent (x : Z) (s : WD) (w : Kubo) : Prop :=
  2 <= consecutiveFailedRestarts s /\ lastRestartAt s = Some x /\
  bounceVerifyGracePeriod <= env_now (k_fx w) - x.

Lemma spent_later x s w w' s' :
  spent x s w -> (k_fx w <= k_fx w')%nat -> lastRestartAt s' = lastRestartAt s ->
  consecutiveFailedRestarts s <= consecutiveFailedRestarts s' -> spent x s' w'.
Proof. intros (Hf & Hl & Ha) Hle Hl' Hf'. specialize (Hmono _ _ Hle). unfold spent. rewrite Hl'. split_and!; (done || lia). Qed.

Lemma gate4_spent x now s w s' r w' :
  spent x s w -> gate4 now s w = (Ok (s', r), w') -> r = None /\ spent x s' w'.
Proof.
  intros Hs H. pose proof Hs as (Hf & Hl & Ha). unfold gate4 in H.
  case_match; [injection H as <- <- <-; split; [done|]; by apply (spent_later x s w)|].
  cbn [lastRestartAt consecutiveFailedRestarts] in H. rewrite Hl in H.
  apply bind_Ok_inv in H as (v & w1 & Hv & H). apply bind_Ok_inv in Hv as (? & ? & [= <- <-] & [= <- <-]).
  rewrite (proj2 (Z.leb_le _ _) Ha) in H. cbn [andb] in H.
  rewrite (proj2 (Z.leb_le maxConsecutiveFailedRestarts _)) in H by (unfold maxConsecutiveFailedRestarts; lia).
  injection H as <- <- <-. split; [done|]. apply (spent_later x s w); [done | cbn; lia | by cbn | cbn; lia].
Qed.

Lemma tick_spent x srv t0 s w s' r w' :
  spent x s w -> tick srv t0 s w = (Ok (s', r), w') -> r = None /\ spent x s' w'.
Proof.
  intros Hs H. pose proof (tick_booked _ _ _ _ _ _ _ H) as [_ Hle]. unfold tick in H.
  apply bind_Ok_inv in H as (alive & w1 & H1 & H).
  apply bind_Ok_inv in H1 as (? & ? & [= <- <-] & [= _ <-]).
  destruct alive; cbn [negb] in H; [|injection H as <- <- <-; split; [done|]; by apply (spent_later x s w)].
  apply bind_Ok_inv in H as ([] & w2 & H2 & H).
  match type of H2 with repair _ ?w1 = _ => pose proof (fx_repair srv w1) as Hw2 end.
  rewrite H2 in Hw2. unfold fx_le in Hw2. cbn in Hw2.
  apply bind_Ok_inv in H as (circ & w3 & H3 & H). apply bind_Ok_inv in H3 as (? & ? & [= <- <-] & [= _ <-]).
  destruct circ.
  { apply bind_Ok_inv in H as (s1 & w4 & H4 & [= <- <- <-]). split; [done|].
    unfold on_circuit in H4. pose proof Hs as (Hf & Hl & Ha). rewrite Hl in H4.
    apply bind_Ok_inv in H4 as (f & w5 & H5 & [= <- <-]).
    apply bind_Ok_inv in H5 as (? & ? & [= <- <-] & [= <- <-]). cbn [k_fx] in *.
    assert (bounceVerifyGracePeriod <= env_now (S (k_fx w2)) - x) as Hx
      by (specialize (Hmono (k_fx w) (S (k_fx w2)) ltac:(lia)); lia).
    rewrite (proj2 (Z.ltb_ge _ _) Hx). apply (spent_later x s w); [done | cbn; lia | by cbn | cbn; lia]. }
  apply bind_Ok_inv in H as (boot & w4 & H4 & H).
  assert (k_fx w2 <= k_fx w4)%nat as Hw4.
  { destruct (hasSeenCircuit s); [injection H4 as _ <-; cbn; lia|].
    apply bind_Ok_inv in H4 as (? & ? & [= <- <-] & [= _ <-]). cbn. lia. }
  destruct boot; [injection H as <- <- <-; split; [done|]; by apply (spent_later x s w)|].
  case_match; [injection H as <- <- <-; split; [done|]; by apply (spent_later x s w)|].
  unfold gates in H. apply bind_Ok_inv in H as (relay & w5 & H5 & H).
  apply bind_Ok_inv in H5 as (? & ? & [= <- <-] & [= _ <-]).
  destruct relay; cbn [negb] in H; [|injection H as <- <- <-; split; [done|]; by apply (spent_later x s w)].
  apply bind_Ok_inv in H as (cool & w6 & H6 & H).
  assert (k_fx w4 <= k_fx w6)%nat as Hw6.
  { destruct (longCooldownUntil _); [|injection H6 as _ <-; cbn; lia].
    apply bind_Ok_inv in H6 as (? & ? & [= <- <-] & [= _ <-]). cbn. lia. }
  destruct cool; [injection H as <- <- <-; split; [done|]; by apply (spent_later x s w)|].
  apply bind_Ok_inv in H as (t3 & w7 & [= <- <-] & H).
  case_match; [injection H as <- <- <-; split; [done|]; by apply (spent_later x s w)|].
  apply bind_Ok_inv in H as (now & w8 & [= <- <-] & H).
  eapply gate4_spent in H; [exact H|]. apply (spent_later x s w); [done | cbn; lia | by cbn | cbn; lia].
Qed.

(** The long cooldown never ends: once two restarts in a row have been judged useless
    and the grace period of the last one is over, no later tick of the process signals a
    restart again, whatever kubo reports and even if the circuit comes back and is lost
    again; the failure count is only ever reset within three minutes of a restart. *)
Theorem watchdog_gives_up x t0 srvs s w all :
  spent x s w -> (fold_left (run_tick t0) srvs (s, w, all)).2 = all.
Proof.
  revert s w. induction srvs as [|srv srvs IH]; intros s w Hs; [done|]. cbn [fold_left run_tick].
  destruct (tick srv t0 s w) as [[[s1 r]|e|] w1] eqn:Ht.
  - destruct (tick_spent _ _ _ _ _ _ _ _ Hs Ht) as [-> Hs1]. by apply IH.
  - apply IH. apply (spent_later x s w); [done| |done|lia]. pose proof (fx_tick srv t0 s w) as Hk. by rewrite Ht in Hk.
  - apply IH. apply (spent_later x s w); [done| |done|lia]. pose proof (fx_tick srv t0 s w) as Hk. by rewrite Ht in Hk.
Qed.

(** ** Registration *)
Definition listening (p : string * string) (r : HttpReply) : Prop :=
  exists st b, r = Reply st b /\ (st = 200 \/ Contains (body_head b) "listener already registered" = true).

Lemma register_all_Ok ps w w' : register_all ps w = (Ok (), w') ->
  k_posts w' = (k_posts w ++ map (fun p => listen_url p.1 p.2) ps)%list /\ k_files w' = k_files w /\
  forall i p, ps !! i = Some p -> listening p (env_http (k_fx w + i) (listen_url p.1 p.2) JNull).
Proof.
  revert w. induction ps as [|[n t] ps IH]; intros w H; cbn [register_all] in H.
  { injection H as <-. rewrite app_nil_r. by split_and!. }
  apply bind_Ok_inv in H as ([] & w1 & H1 & H). apply wrapErr_Ok in H1. unfold registerSingleProtocol in H1.
  apply bind_Ok_inv in H1 as (r & w2 & [= <- <-] & H1).
  destruct (env_http (k_fx w) (listen_url n t) JNull) as [e|st b] eqn:Er; [done|].
  assert (w1 = mkKubo (S (k_fx w)) (k_posts w ++ [listen_url n t])%list (k_files w) /\
          (st = 200 \/ Contains (body_head b) "listener already registered" = true)) as [-> Hok].
  { destruct (Z.eqb_spec st StatusOK) as [->|]; cbn [negb] in H1; [injection H1 as <-; auto|].
    destruct (Contains _ _) eqn:Ec; [injection H1 as <-; auto|done]. }
  apply IH in H as (Hp & Hf & Hl). cbn in *. split_and!; [by rewrite Hp, <- app_assoc | done |].
  intros [|i] p Hi; cbn in Hi.
  - injection Hi as <-. cbn. rewrite Nat.add_0_r, Er. by exists st, b.
  - specialize (Hl i p Hi). by rewrite Nat.add_succ_r.
Qed.

(** A successful registration has cleared all of kubo's stream mappings first and then
    registered exactly the blockchain, ping and cluster listeners, in this order, towards
    the resolved proxy address; kubo accepted each or already had it. *)
Theorem registration_complete w w' :
  registerKuboProtocols w = (Ok (), w') ->
  k_posts w' = (k_posts w ++ close_all_url :: map (fun p => listen_url p.1 p.2) (getProtocols ifs))%list /\
  map fst (getProtocols ifs) = [fulaBlockchainProtocol; fulaPingProtocol; fulaClusterProtocol] /\
  forall i p, getProtocols ifs !! i = Some p ->
    listening p (env_http (S (k_fx w) + i) (listen_url p.1 p.2) JNull).
Proof.
  unfold registerKuboProtocols. intros (r & w1 & [= <- <-] & H)%bind_Ok_inv.
  apply register_all_Ok in H as (Hp & _ & Hl). cbn [k_posts k_fx] in *. split_and!; [|done|done].
  by rewrite Hp, <- app_assoc.
Qed.

End kubo.

(** ** A concrete node: the circuit is gone and the relay is connected *)
Section concrete.

Definition id_reply : string := jq "{'ID':'self','Addresses':['/ip4/10.0.0.2/tcp/4001/p2p/self']}".
Definition ls_reply : string :=
  jq "{'Listeners':[{'Protocol':'/x/fula-blockchain','ListenAddress':'/p2p/self'},{'Protocol':'/x/fula-ping','ListenAddress':'/p2p/self'},{'Protocol':'/x/fula-cluster','ListenAddress':'/p2p/self'}]}".
Definition peers_reply : string := jq "{'Peers':[{'Peer':'" +:+ staticRelayPeerID +:+ jq "'}]}".

(** Every effect takes a minute. *)
#[local] Instance lostEnv : Env := {|
  env_http := fun _ url _ =>
    if Contains url "/id" then Reply 200 (Some id_reply)
    else if Contains url "/p2p/ls" then Reply 200 (Some ls_reply)
    else if Contains url "/swarm/peers" then Reply 200 (Some peers_reply)
    else Reply 200 (Some "");
  env_timer := fun _ _ => true;
  env_now := fun n => Z.of_nat n * minute;
  env_fs := fun _ => FsOk |}.

Definition quiet_kubo : Kubo := mkKubo 0 [] ∅.

Lemma lostEnv_mono n m : (n <= m)%nat -> env_now n <= env_now m.
Proof. unfold env_now, lostEnv, minute. lia. Qed.

(** Three ticks: bootstrap, first miss, second miss and restart. *)
Definition after (n : nat) : WD * Kubo * list Z := run_ticks None "kubo" 0 (repeat "" n) quiet_kubo.

Lemma watchdog_rate_limit_witness :
  (after 18).2 = [14 * minute; 28 * minute; 43 * minute] /\
  (((after 18).2 !! 0%nat = Some (14 * minute) -> (after 18).2 !! (0 + 1)%nat = Some (28 * minute) ->
      5 * minute <= 28 * minute - 14 * minute) /\
   ((after 18).2 !! 0%nat = Some (14 * minute) -> (after 18).2 !! (0 + 3)%nat = Some (28 * minute) ->
      60 * minute <= 28 * minute - 14 * minute)).
Proof.
  split; [vm_compute; reflexivity|].
  apply (watchdog_rate_limit None "kubo" lostEnv_mono 0 (repeat "" 18) quiet_kubo 0 (14 * minute) (28 * minute)).
Defined.


(** After eight ticks two of three restarts have failed; 43 minutes is the last one. *)
Lemma watchdog_gives_up_witness :
  let '(s, w, all) := after 10 in
  spent (43 * minute) s w /\
  (fold_left (run_tick None "kubo" 0) (repeat "peer" 20) (s, w, all)).2 = all.
Proof.
  destruct (after 10) as [[s w] all] eqn:Ha.
  assert (spent (43 * minute) s w) as Hs.
  { assert (let '(s, w, _) := after 10 in spent (43 * minute) s w) as H.
    { unfold spent. vm_compute. split; [discriminate|]. split; [reflexivity|discriminate]. }
    rewrite Ha in H. exact H. }
  split; [exact Hs|]. apply (watchdog_gives_up None "kubo" lostEnv_mono (43 * minute) 0 (repeat "peer" 20) s w all Hs).
Defined.

Lemma registration_complete_witness :
  exists w', registerKuboProtocols None "kubo" quiet_kubo = (Ok (), w') /\
  k_posts w' = ([] ++ close_all_url "kubo" ::
    map (fun p => listen_url "kubo" p.1 p.2) (getProtocols None))%list /\
  map fst (getProtocols None) = [fulaBlockchainProtocol; fulaPingProtocol; fulaClusterProtocol] /\
  forall i p, getProtocols None !! i = Some p ->
    listening p (env_http (S (k_fx quiet_kubo) + i) (listen_url "kubo" p.1 p.2) JNull).
Proof.
  destruct (registerKuboProtocols None "kubo" quiet_kubo) as [r w'] eqn:H.
  assert (r = Ok ()) as -> by (apply (f_equal fst) in H; cbn [fst] in H; rewrite <- H; vm_compute; reflexivity).
  exists w'. split; [reflexivity|]. apply (registration_complete None "kubo" quiet_kubo w' H).
Defined.

End concrete.
