(* ===== verification/Clients.v ===== *)
(** * blockchain/bl_account.go, bl_pool.go, bl_manifest.go, ...: the mobile client's calls

    Each method sends one HTTP request for an action over the P2P client and judges the
    answer by its status. There are three kinds: methods that quote the body of a refusal,
    methods that parse it into the package-level [apiError] variable first, and the plugin
    methods, which return any body. Requests are given as the JSON they encode to. *)

From S2P Require Import Prelude GoStd Json Effects Access.

#[local] Open Scope string_scope.
#[local] Open Scope Z_scope.

(** ** State: the shared [apiError] variable *)
Record ApiError := mkApiError { ae_Message : string; ae_Description : string }.
Record Client := mkClient { c_fx : nat; c_apiError : ApiError }.

Section clients.
Context `{E : Env} (peer_text : string -> string).
(** Is the P2P client set (SetP2PClient was called). *)
Context (configured : bool).

Definition action_url (to action : string) : string := "http://" +:+ peer_text to +:+ ".invalid/" +:+ action.
(** The request as the transport sees it: method and URL (the body is passed beside it). *)
Definition request_line (method to action : string) : string := method +:+ " " +:+ action_url to action.

(** doP2PRequest and io.ReadAll: the status and the body. *)
Definition doP2PRequest (method action to : string) (payload : option json) : M Client (Z * string) :=
  if negb configured then
    raise "P2P client not configured: call SetP2PClient first (this method is only available on mobile client)"
  else
    fun w =>
      let w' := mkClient (S (c_fx w)) (c_apiError w) in
      match env_http (c_fx w) (request_line method to action) (default JNull payload) with
      | ReplyErr e => (Err e, w')
      | Reply _ None => (Err "read", w')
      | Reply st (Some b) => (Ok (st, b), w')
      end.

Definition unexpected (st : Z) (b : string) : string := "unexpected response: " +:+ Itoa st +:+ " " +:+ b.

Definition plain_client (expected : Z) (method action to : string) (payload : option json) : M Client string :=
  r <- doP2PRequest method action to payload;;
  let '(st, b) := r in
  if negb (st =? expected) then raise (unexpected st b) else ret b.

(** json.Unmarshal(b, &apiError): fields the body does not set keep their value from the
    last refusal; a field of the wrong type fails the call after the others are set. *)
Definition unmarshal_apiError (b : string) (a : ApiError) : ApiError * bool :=
  match j ← json_parse b; as_object j with
  | None => (a, false)
  | Some l =>
      let '(m, ok1) := field_string (ae_Message a) (obj_field "message" l) in
      let '(d, ok2) := field_string (ae_Description a) (obj_field "description" l) in
      (mkApiError m d, ok1 && ok2)
  end.

Definition api_client (expected : Z) (method action to : string) (payload : option json) : M Client string :=
  r <- doP2PRequest method action to payload;;
  let '(st, b) := r in
  if negb (st =? expected) then
    fun w =>
      let '(a, ok) := unmarshal_apiError b (c_apiError w) in
      (Err (if (ok : bool) then "unexpected response: " +:+ Itoa st +:+ " " +:+ ae_Message a +:+ " - " +:+ ae_Description a
            else unexpected st b),
       mkClient (c_fx w) a)
  else ret b.

Definition raw_client (method action to : string) (payload : option json) : M Client string :=
  r <- doP2PRequest method action to payload;; ret r.2.

(** ** The methods *)
(** *** bl_account.go *)
Definition Seeded (to : string) (r : json) : M Client string :=
  plain_client StatusAccepted MethodGet actionSeeded to (Some r).
Definition AccountCreate (to : string) : M Client string :=
  plain_client StatusAccepted MethodGet actionAccountCreate to None.
Definition AccountFund (to : string) (r : json) : M Client string :=
  plain_client StatusAccepted MethodGet actionAccountFund to (Some r).
Definition AccountExists (to : string) (r : json) : M Client string :=
  plain_client StatusAccepted MethodGet actionAccountExists to (Some r).
Definition AccountBalance (to : string) (r : json) : M Client string :=
  plain_client StatusAccepted MethodGet actionAccountBalance to (Some r).
Definition AssetsBalance (to : string) (r : json) : M Client string :=
  plain_client StatusAccepted MethodGet actionAssetsBalance to (Some r).

(** *** bl_pool.go *)
Definition PoolCreate (to : string) (r : json) : M Client string :=
  api_client StatusAccepted MethodGet actionPoolCreate to (Some r).
Definition PoolJoin (to : string) (r : json) : M Client string :=
  api_client StatusAccepted MethodGet actionPoolJoin to (Some r).
Definition PoolCancelJoin (to : string) (r : json) : M Client string :=
  api_client StatusAccepted MethodGet actionPoolCancelJoin to (Some r).
Definition PoolRequests (to : string) (r : json) : M Client string :=
  api_client StatusAccepted MethodGet actionPoolRequests to (Some r).
Definition PoolList (to : string) (r : json) : M Client string :=
  api_client StatusAccepted MethodGet actionPoolList to (Some r).
Definition ReplicateInPool (to : string) (r : json) : M Client string :=
  api_client StatusAccepted MethodGet actionReplicateInPool to (Some r).
Definition PoolUserList (to : string) (r : json) : M Client string :=
  api_client StatusAccepted MethodGet actionPoolUserList to (Some r).
Definition PoolVote (to : string) (r : json) : M Client string :=
  api_client StatusAccepted MethodGet actionPoolVote to (Some r).
Definition PoolLeave (to : string) (r : json) : M Client string :=
  api_client StatusAccepted MethodGet actionPoolLeave to (Some r).

(** *** bl_manifest.go *)
Definition ManifestUpload (to : string) (r : json) : M Client string :=
  api_client StatusAccepted MethodGet actionManifestUpload to (Some r).
Definition ManifestStore (to : string) (r : json) : M Client string :=
  plain_client StatusAccepted MethodGet actionManifestStore to (Some r).
Definition ManifestAvailable (to : string) (r : json) : M Client string :=
  plain_client StatusAccepted MethodGet actionManifestAvailable to (Some r).
Definition ManifestBatchStore (to : string) (r : json) : M Client string :=
  plain_client StatusAccepted MethodGet actionManifestBatchStore to (Some r).
Definition ManifestBatchUpload (to : string) (r : json) : M Client string :=
  plain_client StatusAccepted MethodGet actionManifestBatchUpload to (Some r).
Definition ManifestRemove (to : string) (r : json) : M Client string :=
  api_client StatusAccepted MethodGet actionManifestRemove to (Some r).
Definition ManifestRemoveStorer (to : string) (r : json) : M Client string :=
  api_client StatusAccepted MethodGet actionManifestRemoveStorer to (Some r).
Definition ManifestRemoveStored (to : string) (r : json) : M Client string :=
  api_client StatusAccepted MethodGet actionManifestRemoveStored to (Some r).

(** *** bl_autopin.go *)
Definition AutoPinPair (to : string) (r : json) : M Client string :=
  plain_client StatusOK MethodPost actionAutoPinPair to (Some r).
Definition AutoPinRefresh (to : string) (r : json) : M Client string :=
  plain_client StatusOK MethodPost actionAutoPinRefresh to (Some r).
Definition AutoPinUnpair (to : string) : M Client string :=
  plain_client StatusOK MethodPost actionAutoPinUnpair to None.

(** *** bl_nas.go *)
Definition NasCredentials (to : string) (r : json) : M Client string :=
  plain_client StatusOK MethodPost actionNasCredentials to (Some r).

(** *** bl_plugins.go *)
Definition ListPlugins (to : string) : M Client string :=
  raw_client MethodGet actionListPlugins to None.
Definition InstallPlugin (to : string) (pluginName paramsString : string) : M Client string :=
  raw_client MethodPost actionInstallPlugin to (Some (JObj [("params", JStr paramsString); ("plugin_name", JStr pluginName)])).
Definition UninstallPlugin (to : string) (pluginName : string) : M Client string :=
  raw_client MethodPost actionUninstallPlugin to (Some (JObj [("plugin_name", JStr pluginName)])).
Definition ListActivePlugins (to : string) : M Client string :=
  raw_client MethodGet actionListActivePlugins to None.
Definition GetInstallOutput (to : string) (pluginName paramsString : string) : M Client string :=
  raw_client MethodPost actionGetInstallOutput to (Some (JObj [("params", JStr paramsString); ("plugin_name", JStr pluginName)])).
Definition GetInstallStatus (to : string) (pluginName : string) : M Client string :=
  raw_client MethodPost actionGetInstallStatus to (Some (JObj [("plugin_name", JStr pluginName)])).
Definition UpdatePlugin (to : string) (pluginName : string) : M Client string :=
  raw_client MethodPost actionUpdatePlugin to (Some (JObj [("plugin_name", JStr pluginName)])).

(** *** blox.go *)
Definition BloxFreeSpace (to : string) : M Client string :=
  plain_client StatusOK MethodGet actionBloxFreeSpace to None.
Definition EraseBlData (to : string) : M Client string :=
  plain_client StatusOK MethodGet actionEraseBlData to None.
Definition WifiRemoveall (to : string) : M Client string :=
  plain_client StatusOK MethodGet actionWifiRemoveall to None.
Definition Reboot (to : string) : M Client string :=
  plain_client StatusOK MethodGet actionReboot to None.
Definition Partition (to : string) : M Client string :=
  plain_client StatusOK MethodGet actionPartition to None.
Definition DeleteFulaConfig (to : string) : M Client string :=
  plain_client StatusOK MethodGet actionDeleteFulaConfig to None.
Definition GetAccount (to : string) : M Client string :=
  plain_client StatusOK MethodGet actionGetAccount to None.
Definition FetchContainerLogs (to : string) (r : json) : M Client string :=
  api_client StatusAccepted MethodGet actionFetchContainerLogs to (Some r).
Definition FindBestAndTargetInLogs (to : string) (r : json) : M Client string :=
  api_client StatusAccepted MethodGet actionFindBestAndTargetInLogs to (Some r).
Definition GetFolderSize (to : string) (r : json) : M Client string :=
  api_client StatusAccepted MethodGet actionGetFolderSize to (Some r).
Definition GetDatastoreSize (to : string) (r : json) : M Client string :=
  api_client StatusAccepted MethodGet actionGetDatastoreSize to (Some r).
Definition GetDockerImageBuildDates (to : string) : M Client string :=
  plain_client StatusOK MethodGet actionGetDockerImageBuildDates to None.
Definition GetClusterInfo (to : string) : M Client string :=
  plain_client StatusOK MethodGet actionGetClusterInfo to None.
Definition DeleteWifi (to : string) (r : json) : M Client string :=
  api_client StatusAccepted MethodGet actionDeleteWifi to (Some r).
Definition DisconnectWifi (to : string) (r : json) : M Client string :=
  api_client StatusAccepted MethodGet actionDisconnectWifi to (Some r).

(** TransferToFula picks its action by the chain field of the request. *)
Definition TransferToFula (to chain : string) (r : json) : M Client string :=
  let action := if (chain =? "mumbai")%string then actionTransferToMumbai
                else if (chain =? "goerli")%string then actionTransferToGoerli else "" in
  if negb (action =? "")%string then plain_client StatusAccepted MethodGet action to (Some r)
  else raise "selected chain is not supported yet".

(** ** What the three kinds promise *)
Definition call (expected : option (Z * bool)) (method action to : string) (payload : option json) : M Client string :=
  match expected with
  | None => raw_client method action to payload
  | Some (st, false) => plain_client st method action to payload
  | Some (st, true) => api_client st method action to payload
  end.

Lemma doP2PRequest_Ok m a to p w st b w' :
  doP2PRequest m a to p w = (Ok (st, b), w') <->
  configured = true /\ w' = mkClient (S (c_fx w)) (c_apiError w) /\
  env_http (c_fx w) (request_line m to a) (default JNull p) = Reply st (Some b).
Proof.
  unfold doP2PRequest. destruct configured; cbn [negb].
  - destruct (env_http _ _ _) as [|? []]; (split; [intros [=]; subst; done|]); intros (_ & -> & [=]); by subst.
  - split; [done | intros (Hx & _); done].
Qed.

(** A configured client whose request is answered returns the body iff the status fits. *)
Lemma call_reply x api m a to p w st b :
  configured = true -> env_http (c_fx w) (request_line m to a) (default JNull p) = Reply st (Some b) ->
  (exists w', call (Some (x, api)) m a to p w = (Ok b, w')) <-> st = x.
Proof.
  intros Hc Hr. pose proof (proj2 (doP2PRequest_Ok m a to p w st b _) (conj Hc (conj eq_refl Hr))) as Hd.
  unfold call, plain_client, api_client, bind, ret, raise.
  destruct api; rewrite Hd; destruct (Z.eqb_spec st x) as [->|Hne]; cbn [negb]; try (split; [done|by eexists]).
  - destruct (unmarshal_apiError _ _). split; [by intros [? [=]] | done].
  - split; [by intros [? [=]] | done].
Qed.

(** A call returns a body exactly when the device sent it with the status the method
    expects; the plugin methods return the body whatever the status. Success leaves the
    shared error variable alone. *)
Theorem client_success expected m a to p w b w' :
  call expected m a to p w = (Ok b, w') <->
  configured = true /\ w' = mkClient (S (c_fx w)) (c_apiError w) /\
  exists st, env_http (c_fx w) (request_line m to a) (default JNull p) = Reply st (Some b) /\
    match expected with Some (x, _) => st = x | None => True end.
Proof.
  pose proof (fun st c w1 => doP2PRequest_Ok m a to p w st c w1) as H.
  destruct expected as [[x api]|]; [destruct api|];
    unfold call, raw_client, plain_client, api_client, bind, ret, raise;
    (destruct (doP2PRequest m a to p w) as [[[st c]|e|] w1];
      [destruct (proj1 (H _ _ _) eq_refl) as (Hc & -> & Hr); clear H; rewrite Hr; cbn [snd]
      | split; [done | intros (Hc & _ & st & Hr & _); discriminate (proj2 (H st b _) (conj Hc (conj eq_refl Hr)))] .. ]).
  3: { split; [intros [= -> <-]; eauto | intros (_ & -> & ? & [= _ ->] & _); done]. }
  all: destruct (Z.eqb_spec st x) as [->|Hne]; cbn [negb].
  1,3: split; [intros [= -> <-]; eauto | intros (_ & -> & ? & [= _ ->] & _); done].
  1: destruct (unmarshal_apiError _ _).
  all: split; [done | intros (_ & _ & ? & Hx & ->); congruence].
Qed.

(** Refusals leak into one another: the error of a method that parses refusals shows,
    for a field its own answer does not carry, the text of whichever earlier refusal set
    it last. Here the answer carries a message only, and the description shown is the
    stored one. *)
Theorem stale_api_error expected m a to p w st b l msg :
  configured = true -> st <> expected ->
  env_http (c_fx w) (request_line m to a) (default JNull p) = Reply st (Some b) ->
  json_parse b = Some (JObj l) -> obj_field "message" l = [JStr msg] -> obj_field "description" l = [] ->
  (api_client expected m a to p w).1 =
    Err ("unexpected response: " +:+ Itoa st +:+ " " +:+ msg +:+ " - " +:+ ae_Description (c_apiError w)).
Proof.
  intros Hc Hst Hr Hj Hm Hd. unfold api_client, doP2PRequest, bind. rewrite Hc. cbn beta iota delta [negb]. rewrite Hr.
  rewrite (proj2 (Z.eqb_neq _ _) Hst). cbn [negb]. unfold unmarshal_apiError. rewrite Hj. cbn.
  rewrite Hm, Hd. done.
Qed.

End clients.

(** ** Witnesses *)
#[local] Instance refusingEnv : Env := {|
  env_http := fun _ _ _ => Reply 500 (Some (jq "{'message':'bad pool'}"));
  env_timer := fun _ _ => true; env_now := fun _ => 0; env_fs := fun _ => FsOk |}.

Lemma stale_api_error_witness :
  (api_client (fun p => p) true 202 MethodGet actionGetFolderSize "peer" None
    (mkClient 0 (mkApiError "old" "disk is full"))).1 =
    Err "unexpected response: 500 bad pool - disk is full".
Proof.
  refine (stale_api_error (fun p => p) true 202 MethodGet actionGetFolderSize "peer" None _ 500
    (jq "{'message':'bad pool'}") [("message", JStr "bad pool")] "bad pool" eq_refl _ eq_refl _ eq_refl eq_refl).
  - discriminate.
  - vm_compute. reflexivity.
Defined.
