(* ===== verification/Chat.v ===== *)
(** * blockchain/blox.go, mobile/blockchain.go, mobile/stream_iter.go: the AI chat stream

    The device cuts the model's output into JSON responses, one per line; the client's
    reading goroutine joins lines until they parse and hands them through a [StreamBuffer]
    (a channel of capacity 100 and a mutex) to the mobile application. Producer and consumer
    run concurrently: their interleavings are a step relation, in which a call that waits
    for the mutex or for the channel waits with what it holds. *)

From S2P Require Import Prelude GoStd Json Effects.

#[local] Open Scope string_scope.
#[local] Open Scope Z_scope.

(** ** The buffer *)
(** Who can hold the buffer's mutex: the reading goroutine or the application. *)
Inductive Thread := Reader | App.

(** [closed] is set and the channel is closed in the same critical section. *)
Record StreamBuffer := mkBuf {
  sb_Chunks : list string; sb_closed : bool; sb_err : option string; sb_mu : option Thread }.

Definition NewStreamBuffer : StreamBuffer := mkBuf [] false None None.
Definition chan_cap : nat := 100.

Definition set_Chunks (cs : list string) (b : StreamBuffer) : StreamBuffer := mkBuf cs (sb_closed b) (sb_err b) (sb_mu b).

(** [None]: the call waits for the mutex. *)
Definition mu_Lock (t : Thread) (b : StreamBuffer) : option StreamBuffer :=
  match sb_mu b with
  | None => Some (mkBuf (sb_Chunks b) (sb_closed b) (sb_err b) (Some t))
  | Some _ => None
  end.
Definition mu_Unlock (b : StreamBuffer) : StreamBuffer := mkBuf (sb_Chunks b) (sb_closed b) (sb_err b) None.

(** It does not take the mutex. [None]: the call blocks. A receive from a closed, drained
    channel returns at once. *)
Definition GetChunk (b : StreamBuffer) : option (string * option string * StreamBuffer) :=
  match sb_Chunks b with
  | c :: rest => Some (c, None, set_Chunks rest b)
  | [] => if sb_closed b then Some ("", sb_err b, b) else None
  end.

(** The other methods lock the mutex first and unlock it when they return; these are their
    critical sections with the deferred Unlock. [None]: the send blocks on the full channel,
    with the mutex held. *)
Definition AddChunk (chunk : string) (b : StreamBuffer) : option StreamBuffer :=
  if sb_closed b then Some (mu_Unlock b)
  else if (length (sb_Chunks b) <? chan_cap)%nat
  then Some (mu_Unlock (set_Chunks (sb_Chunks b ++ [chunk])%list b))
  else None.

(** The error passed in is not stored. *)
Definition Close (err : option string) (b : StreamBuffer) : StreamBuffer :=
  mu_Unlock (mkBuf (sb_Chunks b) true (sb_err b) (sb_mu b)).

Definition IsClosed (b : StreamBuffer) : bool * StreamBuffer := (sb_closed b, mu_Unlock b).

(** ** The client's reading goroutine (ChatWithAI) *)
(** What one round of the loop finds: the context done, or the result of ReadBytes. *)
Inductive Read :=
| RCancelled (e : string)
| RLine (line : string)      (** up to and including a newline *)
| REof (rest : string)       (** the unterminated tail, with io.EOF *)
| RErr (e : string).

Inductive SbOp := SbAdd (chunk : string) | SbClose (err : option string) | SbIsClosed.

(** The calls it makes on the buffer. The last one is that of the deferred function, which
    closes the buffer if it is still open; it is closed on every path by then. No more
    [reads]: it waits for the network. *)
Fixpoint ChatWithAI_loop (accum : string) (reads : list Read) : list SbOp :=
  match reads with
  | [] => []
  | RCancelled e :: _ => [SbClose (Some ("request canceled: " +:+ e)); SbIsClosed]
  | REof _ :: _ =>
      ((if 0 <? len accum then [SbAdd accum] else []) ++ [SbClose None; SbIsClosed])%list
  | RErr e :: _ => [SbClose (Some ("error reading response: " +:+ e)); SbIsClosed]
  | RLine line :: rest =>
      if HasPrefix line "!COMPLETION!" then [SbClose None; SbIsClosed]
      else
        let accum := accum +:+ line in
        match json_parse accum with
        | Some _ => SbAdd accum :: ChatWithAI_loop "" rest
        | None => ChatWithAI_loop accum rest
        end
  end.

(** ** The device's side (handleChatWithAI) *)
(** json.Unmarshal into parsedChunk: the contents of the choices, joined. *)
Definition dec_delta (cur : string) (j : json) : option string :=
  l ← as_object j;
  let '(c, ok) := field_string cur (obj_field "content" l) in if ok : bool then Some c else None.
Definition dec_choice (j : json) : option string :=
  l ← as_object j;
  let '(c, ok) := decode_field dec_delta "" (obj_field "delta" l) in if ok : bool then Some c else None.
Definition dec_choices (cur : list string) (j : json) : option (list string) :=
  match j with
  | JNull => Some []
  | JArr l => mapM dec_choice l
  | _ => None
  end.

Definition parse_chunk (buffer : string) : option string :=
  j ← json_parse buffer;
  l ← as_object j;
  let '(_, ok1) := field_string "" (obj_field "id" l) in
  let '(_, ok2) := field_string "" (obj_field "object" l) in
  let '(cs, ok3) := decode_field dec_choices [] (obj_field "choices" l) in
  if ok1 && ok2 && ok3 then Some (sconcat cs) else None.

(** The messages sent for the chunks received, and the text left in the buffer. *)
Fixpoint handleChatWithAI_loop (buffer : string) (chunks : list string) : list string * string :=
  match chunks with
  | [] => ([], buffer)
  | chunk :: rest =>
      if (chunk =? "")%string then handleChatWithAI_loop buffer rest
      else
        let buffer := buffer +:+ chunk in
        match parse_chunk buffer with
        | None => handleChatWithAI_loop buffer rest
        | Some newContent =>
            let '(msgs, b) := handleChatWithAI_loop "" rest in (newContent :: msgs, b)
        end
  end.

(** ** The application's side *)
(** GetChatChunk retries while it is given empty chunks without an error. [None]: it blocks
    in GetChunk; [Some (None, _)]: it is still retrying after the given number of rounds. *)
Fixpoint GetChatChunk (rounds : nat) (b : StreamBuffer) : option (option (string + string) * StreamBuffer) :=
  match rounds with
  | O => Some (None, b)
  | S k =>
      match GetChunk b with
      | None => None
      | Some (_, Some e, b') => Some (Some (inr e), b')
      | Some (chunk, None, b') =>
          if negb (chunk =? "")%string then Some (Some (inl chunk), b') else GetChatChunk k b'
      end
  end.

(** HasNext takes a chunk from the channel to look and leaves a goroutine behind that sends
    it again; from a closed channel it takes the zero value. Only with nothing to take does
    it ask IsClosed, here with the mutex free. *)
Definition HasNext (completed : bool) (b : StreamBuffer) : bool * StreamBuffer * option string :=
  if completed then (false, b, None)
  else
    match sb_Chunks b with
    | c :: rest => (true, set_Chunks rest b, Some c)
    | [] => if sb_closed b then (true, b, Some "") else (negb (IsClosed b).1, (IsClosed b).2, None)
    end.

(** The goroutine's send: [None] while the channel is full; a send on a closed channel
    panics, outside any handler, and ends the process. *)
Definition resend (chunk : string) (b : StreamBuffer) : option (outcome StreamBuffer) :=
  if sb_closed b then Some Panic
  else if (length (sb_Chunks b) <? chan_cap)%nat
  then Some (Ok (set_Chunks (sb_Chunks b ++ [chunk])%list b))
  else None.

(** Next: the chunk, io.EOF once the stream is over ([completed] is set), or the empty
    string when the timer wins. *)
Definition Next (timer_wins completed : bool) (b : StreamBuffer) : (string + string) * bool * StreamBuffer :=
  if timer_wins then (inl "", completed, b)
  else
    match sb_Chunks b with
    | c :: rest => (inl c, completed, set_Chunks rest b)
    | [] => if sb_closed b then (inr "EOF", true, b) else (inl "", completed, b)
    end.

(** With the mutex free. *)
Definition IsComplete (completed : bool) (b : StreamBuffer) : bool :=
  completed || ((IsClosed b).1 && (length (sb_Chunks b) =? 0)%nat).

(** ** What the reading goroutine delivers *)
Definition adds (ops : list SbOp) : list string :=
  omap (fun op => match op with SbAdd c => Some c | _ => None end) ops.

(** The lines read up to the end of the stream, and whether the end was io.EOF. *)
Fixpoint lines (reads : list Read) : list string * bool :=
  match reads with
  | RLine line :: rest =>
      if HasPrefix line "!COMPLETION!" then ([], false)
      else let '(ls, e) := lines rest in (line :: ls, e)
  | REof _ :: _ => ([], true)
  | _ => ([], false)
  end.

(** Nothing is lost or reordered before the end of the stream; what is cut off is a tail
    that never became a JSON value, and at io.EOF not even that. *)
Lemma ChatWithAI_loop_text reads : forall accum,
  exists cut, accum +:+ sconcat (lines reads).1 = sconcat (adds (ChatWithAI_loop accum reads)) +:+ cut /\
    ((lines reads).2 = true -> cut = "").
Proof.
  induction reads as [|r reads IH]; intros accum; [exists accum; cbn; split; [by rewrite sapp_nil_r | done]|].
  destruct r as [e|line|tail|e]; cbn [ChatWithAI_loop lines].
  - exists accum. cbn. split; [by rewrite sapp_nil_r | done].
  - destruct (HasPrefix line "!COMPLETION!") eqn:Hp.
    { exists accum. cbn. split; [by rewrite sapp_nil_r | done]. }
    destruct (lines reads) as [ls e] eqn:El. cbn [fst snd] in *.
    destruct (json_parse (accum +:+ line)) as [j|].
    + destruct (IH "") as (cut & Hc & He). exists cut. split; [|done].
      change (adds (SbAdd (accum +:+ line) :: ChatWithAI_loop "" reads))
        with ((accum +:+ line) :: adds (ChatWithAI_loop "" reads)).
      cbn [sconcat] in *. rewrite !sapp_assoc, <- Hc. done.
    + destruct (IH (accum +:+ line)) as (cut & Hc & He). exists cut. split; [|done].
      cbn [sconcat]. rewrite <- Hc, sapp_assoc. done.
  - exists (if 0 <? len accum then "" else accum). cbn [fst snd].
    destruct (0 <? len accum) eqn:Hl.
    + split; [|done]. cbn. by rewrite !sapp_nil_r.
    + assert (accum = "") as -> by (destruct accum; [done | apply Z.ltb_ge in Hl; unfold len in Hl; cbn [String.length] in Hl; lia]). done.
  - exists accum. cbn. split; [by rewrite sapp_nil_r | done].
Qed.

(** ** Producer and consumer together *)

(** The calls of the application: the two that receive, and the two that take the mutex.
    (HasNext, which takes chunks and sends them again, is apart: [has_next_unsafe].) *)
Inductive Call := CGetChatChunk | CNext | CIsComplete | CClose.

Record Sys := mkSys {
  sys_buf : StreamBuffer;
  sys_todo : list SbOp;      (** calls the reading goroutine still makes, the current one first *)
  sys_app : option Call;     (** the call the application is in *)
  sys_got : list string;     (** chunks the application has taken from the channel *)
  sys_over : bool            (** Next has returned io.EOF *)
}.

(** closeOnce: a Close after the first one returns without the mutex. *)
Definition once_done (op : SbOp) (b : StreamBuffer) : bool := match op with SbClose _ => sb_closed b | _ => false end.
(** The critical section of a call. *)
Definition run_sbop (op : SbOp) (b : StreamBuffer) : option StreamBuffer :=
  match op with
  | SbAdd c => AddChunk c b
  | SbClose e => Some (Close e b)
  | SbIsClosed => Some (IsClosed b).2
  end.
Definition app_op (c : Call) : SbOp := match c with CClose => SbClose None | _ => SbIsClosed end.
Definition receives (c : Call) : bool := match c with CGetChatChunk | CNext => true | _ => false end.

(** One step, for an application that makes the calls [may] allows. *)
Inductive step (may : Call -> bool) : Sys -> Sys -> Prop :=
| reader_skip op todo b app got over :
    sb_mu b <> Some Reader -> once_done op b = true ->
    step may (mkSys b (op :: todo) app got over) (mkSys b todo app got over)
| reader_lock op todo b b' app got over :
    once_done op b = false -> mu_Lock Reader b = Some b' ->
    step may (mkSys b (op :: todo) app got over) (mkSys b' (op :: todo) app got over)
| reader_act op todo b b' app got over :
    sb_mu b = Some Reader -> run_sbop op b = Some b' ->
    step may (mkSys b (op :: todo) app got over) (mkSys b' todo app got over)
| app_call c b todo got over : may c = true ->
    step may (mkSys b todo None got over) (mkSys b todo (Some c) got over)
| app_receive c chunk b b' todo got over :
    receives c = true -> sb_Chunks b <> [] -> GetChunk b = Some (chunk, None, b') ->
    step may (mkSys b todo (Some c) got over)
      (mkSys b' todo (match c with CGetChatChunk => if (chunk =? "")%string then Some c else None | _ => None end)
         (got ++ [chunk])%list over)
| app_spin b b' todo got over :
    sb_Chunks b = [] -> GetChunk b = Some ("", None, b') ->
    step may (mkSys b todo (Some CGetChatChunk) got over) (mkSys b' todo (Some CGetChatChunk) got over)
| app_error e b b' todo got over :
    sb_Chunks b = [] -> GetChunk b = Some ("", Some e, b') ->
    step may (mkSys b todo (Some CGetChatChunk) got over) (mkSys b' todo None got over)
| app_eof e b b' todo got over :
    sb_Chunks b = [] -> GetChunk b = Some ("", e, b') ->
    step may (mkSys b todo (Some CNext) got over) (mkSys b' todo None got true)
| app_timeout b todo got over :
    step may (mkSys b todo (Some CNext) got over) (mkSys b todo None got over)
| app_skip c b todo got over :
    receives c = false -> sb_mu b <> Some App -> once_done (app_op c) b = true ->
    step may (mkSys b todo (Some c) got over) (mkSys b todo None got over)
| app_lock c b b' todo got over :
    receives c = false -> once_done (app_op c) b = false -> mu_Lock App b = Some b' ->
    step may (mkSys b todo (Some c) got over) (mkSys b' todo (Some c) got over)
| app_act c b b' todo got over :
    receives c = false -> sb_mu b = Some App -> run_sbop (app_op c) b = Some b' ->
    step may (mkSys b todo (Some c) got over) (mkSys b' todo None got over).

Definition start (reads : list Read) : Sys :=
  mkSys NewStreamBuffer (ChatWithAI_loop "" reads) None [] false.

(** Has the stream an end: the goroutine does not wait for the network for ever. *)
Fixpoint ends (reads : list Read) : bool :=
  match reads with
  | [] => false
  | RLine line :: rest => HasPrefix line "!COMPLETION!" || ends rest
  | _ => true
  end.

(** The goroutine adds, closes and looks once more. *)
Definition closing (todo : list SbOp) : Prop :=
  exists cs e, todo = (map SbAdd cs ++ [SbClose e; SbIsClosed])%list.

Lemma ChatWithAI_loop_closing reads : forall accum, ends reads = true -> closing (ChatWithAI_loop accum reads).
Proof.
  unfold closing.
  induction reads as [|[e|line|t|e] reads IH]; intros accum He; cbn [ends ChatWithAI_loop] in *; [done| | | |].
  - by exists [], (Some ("request canceled: " +:+ e)).
  - destruct (HasPrefix line "!COMPLETION!"); [by exists [], None|]. cbn [orb] in He.
    destruct (json_parse _); [|by apply IH].
    destruct (IH "" He) as (cs & e & ->). by exists ((accum +:+ line) :: cs)%list, e.
  - destruct (0 <? len accum); [by exists [accum], None | by exists [], None].
  - by exists [], (Some ("error reading response: " +:+ e)).
Qed.

(** With an application that only receives: the buffer is open and the goroutine will close
    it, or it is closed and the goroutine has only its last look to take; the mutex is free
    or the goroutine has it inside a call. *)
Record sys_inv (all : list string) (s : Sys) : Prop := {
  inv_order : all = (sys_got s ++ sb_Chunks (sys_buf s) ++ adds (sys_todo s))%list;
  inv_cap : (length (sb_Chunks (sys_buf s)) <= chan_cap)%nat;
  inv_close : if sb_closed (sys_buf s) then sys_todo s = [SbIsClosed] \/ sys_todo s = [] else closing (sys_todo s);
  inv_err : sb_err (sys_buf s) = None;
  inv_mu : sb_mu (sys_buf s) = None \/ sb_mu (sys_buf s) = Some Reader;
  inv_app : forall c, sys_app s = Some c -> receives c = true;
  inv_over : sys_over s = true -> sb_closed (sys_buf s) = true /\ sb_Chunks (sys_buf s) = []
}.

Lemma start_inv reads : ends reads = true -> sys_inv (adds (ChatWithAI_loop "" reads)) (start reads).
Proof. intros He. split; cbn; auto; [unfold chan_cap; lia | by apply ChatWithAI_loop_closing | done..]. Qed.

Lemma run_sbop_inv all op todo b b' app got over :
  run_sbop op b = Some b' -> sys_inv all (mkSys b (op :: todo) app got over) -> sys_inv all (mkSys b' todo app got over).
Proof.
  intros Hop [Ho Hcap Hcl He Hmu Ha Hov]. cbn in *. destruct (sb_closed b) eqn:Eb.
  - destruct Hcl as [[= -> ->]|]; [|done]. cbn in Hop. injection Hop as <-. split; cbn; rewrite ?Eb; auto.
  - destruct Hcl as (cs & e & Htodo).
    assert (over = false) as -> by (destruct over; [by destruct (Hov eq_refl)|done]).
    destruct cs as [|c cs]; cbn in Htodo; injection Htodo as -> ->.
    + cbn in Hop. injection Hop as <-. split; cbn; auto; done.
    + cbn in Hop. unfold AddChunk in Hop. rewrite Eb in Hop.
      destruct (Nat.ltb_spec (length (sb_Chunks b)) chan_cap) as [Hlt|]; [|done]. injection Hop as <-.
      split; cbn; rewrite ?Eb; auto; try done.
      * rewrite Ho. cbn. by rewrite <- app_assoc.
      * rewrite length_app. cbn. lia.
      * by exists cs, e.
Qed.

Lemma step_inv all s s' : step receives s s' -> sys_inv all s -> sys_inv all s'.
Proof.
  intros Hs Hi. destruct Hs as [op todo b app got over Hm Hd | op todo b b' app got over Hd Hl
    | op todo b b' app got over Hm Hr | c b todo got over Hc | c chunk b b' todo got over Hc Hne Hg
    | b b' todo got over Hem Hg | e b b' todo got over Hem Hg | e b b' todo got over Hem Hg | b todo got over
    | c b todo got over Hc Hm Hd | c b b' todo got over Hc Hd Hl | c b b' todo got over Hc Hm Hr].
  - destruct op; cbn in Hd; try done. destruct Hi as [Ho Hcap Hcl He Hmu Ha Hov]. cbn in *. rewrite Hd in Hcl. naive_solver.
  - unfold mu_Lock in Hl. destruct (sb_mu b) eqn:Em; [done|]. injection Hl as <-.
    destruct Hi as [Ho Hcap Hcl He Hmu Ha Hov]. split; cbn in *; auto.
  - by eapply run_sbop_inv.
  - destruct Hi as [Ho Hcap Hcl He Hmu Ha Hov]. split; cbn in *; auto. by intros ? [= <-].
  - unfold GetChunk in Hg. destruct (sb_Chunks b) as [|c' rest] eqn:Ec; [done|]. injection Hg as -> <-.
    destruct Hi as [Ho Hcap Hcl He Hmu Ha Hov]. cbn in *. rewrite Ec in *. split; cbn in *; auto.
    + rewrite Ho. by rewrite <- app_assoc.
    + lia.
    + destruct c; [destruct (chunk =? "")%string| | |]; naive_solver.
    + intros Hov'. by destruct (Hov Hov').
  - unfold GetChunk in Hg. rewrite Hem in Hg. destruct (sb_closed b); [|done]. by injection Hg as _ <-.
  - unfold GetChunk in Hg. rewrite Hem in Hg. destruct (sb_closed b); [|done]. injection Hg as _ <-.
    destruct Hi as [Ho Hcap Hcl He Hmu Ha Hov]. split; cbn in *; auto; done.
  - unfold GetChunk in Hg. rewrite Hem in Hg. destruct (sb_closed b) eqn:Eb; [|done]. injection Hg as _ <-.
    destruct Hi as [Ho Hcap Hcl He Hmu Ha Hov]. split; cbn in *; rewrite ?Eb in *; auto; done.
  - destruct Hi as [Ho Hcap Hcl He Hmu Ha Hov]. split; cbn in *; auto; done.
  - destruct Hi as [_ _ _ _ _ Ha _]. cbn in Ha. rewrite (Ha _ eq_refl) in Hc. done.
  - destruct Hi as [_ _ _ _ _ Ha _]. cbn in Ha. rewrite (Ha _ eq_refl) in Hc. done.
  - destruct Hi as [_ _ _ _ _ Ha _]. cbn in Ha. rewrite (Ha _ eq_refl) in Hc. done.
Qed.

Lemma steps_inv all s s' : rtc (step receives) s s' -> sys_inv all s -> sys_inv all s'.
Proof. induction 1; intros; [done|]. eauto using step_inv. Qed.

(** Closed and drained. *)
Definition drained (s : Sys) : Prop := sb_closed (sys_buf s) = true /\ sb_Chunks (sys_buf s) = [].

Lemma drained_all all s : sys_inv all s -> drained s -> sys_got s = all.
Proof.
  intros [Ho _ Hcl _ _ _ _] [Hc He]. rewrite Hc in Hcl. rewrite He in Ho. rewrite Ho.
  destruct Hcl as [-> | ->]; cbn; by rewrite app_nil_r.
Qed.

(** What is left to do until then; the step [sys_progress] takes uses some of it up. *)
Definition sys_work (s : Sys) : nat :=
  5 * length (sys_todo s) + 3 * length (sb_Chunks (sys_buf s)) +
  (match sb_mu (sys_buf s) with None => 1 | Some _ => 0 end) + (match sys_app s with None => 1 | Some _ => 0 end).

(** Until the stream is drained some step brings it nearer: with chunks in the channel the
    application takes one, with none the goroutine goes on; it never waits for a mutex the
    application has. *)
Lemma sys_progress all s : sys_inv all s -> ~ drained s ->
  exists s', step receives s s' /\ (sys_work s' < sys_work s)%nat /\
    (sys_app s <> Some CGetChatChunk -> sys_app s' <> Some CGetChatChunk).
Proof.
  intros [Ho Hcap Hcl He Hmu Ha Hov] Hnd. destruct s as [b todo app got over]; cbn in *.
  destruct (sb_Chunks b) as [|c rest] eqn:Ec.
  - destruct (sb_closed b) eqn:Eb; [by destruct Hnd|]. destruct Hcl as (cs & e & Htodo).
    destruct todo as [|op todo]; [by destruct cs|].
    assert (once_done op b = false) as Hod by (destruct op; cbn; congruence).
    destruct Hmu as [Hmu|Hmu].
    + eexists. split; [eapply reader_lock; [exact Hod | unfold mu_Lock; by rewrite Hmu]|].
      split; [unfold sys_work; cbn [sys_todo sys_buf sys_app sb_mu sb_Chunks]; rewrite Hmu, ?Ec; destruct app; lia | done].
    + destruct (run_sbop op b) as [b'|] eqn:Hr.
      2: { destruct op; cbn in Hr; try done. unfold AddChunk in Hr. by rewrite Eb, Ec in Hr. }
      exists (mkSys b' todo app got over). split; [by eapply reader_act|]. split; [|done].
      unfold sys_work. cbn [sys_todo sys_buf sys_app]. rewrite Hmu.
      assert (length (sb_Chunks b') <= 1 /\ sb_mu b' = None)%nat as [Hlen ->].
      { destruct op; cbn in Hr; unfold AddChunk in Hr; rewrite ?Eb, ?Ec in Hr; cbn in Hr; injection Hr as <-; cbn;
          rewrite ?Ec; cbn; split; (lia || done). }
      rewrite ?Ec. destruct app; cbn [length]; lia.
  - destruct app as [call|].
    + specialize (Ha _ eq_refl). eexists. split; [eapply app_receive; [exact Ha | by rewrite Ec | unfold GetChunk; by rewrite Ec]|].
      split; [unfold sys_work; cbn [sys_todo sys_buf sys_app sb_Chunks set_Chunks sb_mu]; rewrite ?Ec; cbn [length]; repeat case_match; lia|]. intros Hn. by destruct call.
    + exists (mkSys b todo (Some CNext) got over). split; [by apply app_call|]. split; [|done].
      unfold sys_work. cbn [sys_todo sys_buf sys_app]. rewrite ?Ec. lia.
Qed.

(** A run can always be carried to the point where everything has been received. *)
Lemma sys_finishes all n : forall s, (sys_work s <= n)%nat -> sys_inv all s ->
  exists s', rtc (step receives) s s' /\ drained s' /\ sys_got s' = all /\
    (sys_app s <> Some CGetChatChunk -> sys_app s' <> Some CGetChatChunk).
Proof.
  induction n as [|n IH]; intros s Hn Hi.
  all: assert (drained s \/ ~ drained s) as [Hd|Hd] by
    (unfold drained; destruct (sb_closed (sys_buf s)), (sb_Chunks (sys_buf s)); naive_solver).
  1,3: exists s; split; [apply rtc_refl|]; split; [done|]; split; [by eapply drained_all | done].
  - destruct (sys_progress _ _ Hi Hd) as (s1 & _ & Hw & _). lia.
  - destruct (sys_progress _ _ Hi Hd) as (s1 & H1 & Hw & Hg1).
    destruct (IH s1) as (s2 & H2 & Hd2 & Hg & Hg2); [lia | by eapply step_inv|].
    exists s2. split; [by eapply rtc_l|]. split; [done|]. split; [done|]. auto.
Qed.

(** C30. The chat stream is delivered whole and in order to an application that receives it
    with Next and GetChatChunk, in any mix, however its calls, their timeouts and the
    reading goroutine are interleaved, the buffer's mutex included: at every reachable point
    at most 100 chunks are buffered and what was received is a prefix of what the goroutine
    adds; no point is a deadlock: from it everything can still be received, and, unless the
    application is inside GetChatChunk, io.EOF can be reached; and once Next has returned
    io.EOF every chunk was received. (GetChatChunk itself never returns at the end of the
    stream: [chat_chunk_spins]; HasNext is unsafe: [has_next_unsafe]; calls that take the
    mutex can deadlock: [mutex_deadlocks].) *)
Theorem chat_delivery reads s :
  ends reads = true -> rtc (step receives) (start reads) s ->
  let all := adds (ChatWithAI_loop "" reads) in
  (length (sb_Chunks (sys_buf s)) <= 100)%nat /\ sys_got s `prefix_of` all /\
  (exists s', rtc (step receives) s s' /\ sys_got s' = all) /\
  (sys_app s <> Some CGetChatChunk -> exists s', rtc (step receives) s s' /\ sys_over s' = true) /\
  (sys_over s = true -> sys_got s = all).
Proof.
  intros He Hr all. pose proof (steps_inv _ _ _ Hr (start_inv reads He)) as Hi. fold all in Hi.
  destruct (sys_finishes all _ s (le_n _) Hi) as (s1 & H1 & Hd & Hg & Happ).
  pose proof (steps_inv _ _ _ H1 Hi) as Hi1.
  destruct (Hi) as [Ho Hcap _ _ _ _ Hov].
  split; [exact Hcap|]. split; [by eexists; exact Ho|]. split; [by exists s1|]. split.
  - intros Hn. specialize (Happ Hn). destruct s1 as [b todo app got over], Hd as [Hc Hem]. cbn in *.
    assert (GetChunk b = Some ("", sb_err b, b)) as Hgc by (unfold GetChunk; by rewrite Hem, Hc).
    assert (step receives (mkSys b todo (Some CNext) got over) (mkSys b todo None got true)) as Heof by (by eapply app_eof).
    exists (mkSys b todo None got true). split; [|done]. etrans; [exact H1|].
    destruct app as [c|].
    + pose proof (inv_app _ _ Hi1 c eq_refl) as Hrec. destruct c; try done. by apply rtc_once.
    + eapply rtc_l; [by apply (app_call receives CNext)|]. by apply rtc_once.
  - intros Hs. apply (drained_all all s Hi), Hov, Hs.
Qed.

(** ** The calls that take the mutex *)

(** The goroutine alone fills the channel. *)
Lemma reader_fills may cs todo call got over : forall b,
  sb_closed b = false -> sb_mu b = None -> (length (sb_Chunks b) + length cs <= chan_cap)%nat ->
  rtc (step may) (mkSys b (map SbAdd cs ++ todo) call got over)
                 (mkSys (set_Chunks (sb_Chunks b ++ cs)%list b) todo call got over).
Proof.
  induction cs as [|c cs IH]; intros b Hc Hm Hl; cbn [map app].
  { rewrite app_nil_r. destruct b. apply rtc_refl. }
  set (b1 := mkBuf (sb_Chunks b) (sb_closed b) (sb_err b) (Some Reader)).
  eapply rtc_l; [apply (reader_lock may (SbAdd c) _ b b1); [done | unfold mu_Lock; by rewrite Hm]|].
  cbn [length] in Hl. eapply rtc_l; [eapply (reader_act may (SbAdd c) _ b1); [done|]|].
  { cbn. unfold AddChunk. cbn [b1 sb_closed sb_Chunks]. rewrite Hc.
    rewrite (proj2 (Nat.ltb_lt _ _)) by lia. reflexivity. }
  set (b2 := mu_Unlock _). specialize (IH b2 Hc eq_refl). cbn [b2 mu_Unlock set_Chunks sb_Chunks b1] in IH.
  rewrite length_app, <- app_assoc in IH. cbn [length app] in IH.
  replace (set_Chunks (sb_Chunks b ++ c :: cs) b) with (set_Chunks (sb_Chunks b ++ c :: cs) b2); [apply IH; lia|].
  unfold set_Chunks. cbn. by rewrite Hm.
Qed.

(** AddChunk sends with the mutex held, so on a stream of more than 100 chunks an
    application that asks IsComplete, or closes the iterator, before it receives waits for
    ever: the goroutine waits for room in the channel, the application for the mutex, and
    neither can go on. *)
Theorem mutex_deadlocks cs c more call : length cs = chan_cap -> receives call = false ->
  exists s, rtc (step (fun _ => true)) (mkSys NewStreamBuffer (map SbAdd cs ++ SbAdd c :: more) None [] false) s /\
    sys_app s = Some call /\ forall s', ~ step (fun _ => true) s s'.
Proof.
  intros Hlen Hcall. set (b := mkBuf cs false None None).
  exists (mkSys (mkBuf cs false None (Some Reader)) (SbAdd c :: more) (Some call) [] false). split; [|split; [done|]].
  - etrans; [exact (reader_fills (fun _ => true) cs (SbAdd c :: more) None [] false NewStreamBuffer eq_refl eq_refl ltac:(cbn; lia))|].
    eapply rtc_l; [by eapply reader_lock|]. apply rtc_once. by apply app_call.
  - intros s' Hs. inversion Hs; subst; cbn [app_op sb_mu receives once_done sb_closed] in *;
      try (unfold mu_Lock in *; cbn [sb_mu] in *; congruence).
    + cbn [run_sbop] in *. unfold AddChunk in *. cbn [sb_closed sb_Chunks] in *. rewrite Hlen in *. discriminate.
    + by destruct call.
Qed.

(** The goroutine keeps the text: joined together, the chunks it adds are the lines it
    read, less at most a tail that had not become a JSON value; at a regular end of the
    response nothing of the lines is missing. *)
Theorem chat_text reads :
  exists cut, sconcat (lines reads).1 = sconcat (adds (ChatWithAI_loop "" reads)) +:+ cut /\
    ((lines reads).2 = true -> cut = "").
Proof. apply (ChatWithAI_loop_text reads ""). Qed.

(** The last line is dropped when the response does not end in a newline. *)
Lemma chat_unterminated_tail_lost tail :
  ChatWithAI_loop "" [REof tail] = [SbClose None; SbIsClosed].
Proof. reflexivity. Qed.

(** The application's chunk loop never comes back after the end of a stream: Close does
    not keep the error it is given, so a closed and drained buffer answers every GetChunk
    with an empty chunk and no error, which GetChatChunk takes for "not yet": after any
    number of rounds it is still asking, and the stream is never removed from the map. *)
Theorem chat_chunk_spins err b rounds :
  sb_Chunks b = [] -> sb_err b = None ->
  GetChatChunk rounds (Close err b) = Some (None, Close err b).
Proof.
  intros Hc He. unfold Close, mu_Unlock. cbn. rewrite Hc, He. induction rounds as [|k IH]; [done|].
  cbn. exact IH.
Qed.

(** Peeking at a finished stream crashes the application: HasNext on a closed and drained
    buffer answers true and leaves a goroutine sending on the closed channel; on an open
    one holding two chunks the peeked chunk goes behind the other. *)
Theorem has_next_unsafe b :
  (sb_Chunks b = [] -> sb_closed b = true ->
   exists c, HasNext false b = (true, b, Some c) /\ resend c b = Some Panic) /\
  (forall x y, sb_Chunks b = [x; y] -> sb_closed b = false ->
   exists b1 b2, HasNext false b = (true, b1, Some x) /\ resend x b1 = Some (Ok b2) /\ sb_Chunks b2 = [y; x]).
Proof.
  unfold HasNext, resend. split.
  - intros -> Hc. exists "". by rewrite Hc.
  - intros x y -> Ho. exists (set_Chunks [y] b), (set_Chunks [y; x] b). cbn. by rewrite Ho.
Qed.

(** ** The device's side *)
(** Pieces of one JSON chunk: no proper prefix made of pieces is a complete value. *)
Fixpoint incomplete (buffer : string) (pieces : list string) : Prop :=
  match pieces with
  | [] => True
  | p :: rest => parse_chunk (buffer +:+ p) = None /\ incomplete (buffer +:+ p) rest
  end.

Lemma handleChatWithAI_pieces pieces : forall buffer last rest msg,
  Forall (fun p => p <> "") pieces -> last <> "" -> incomplete buffer pieces ->
  parse_chunk (buffer +:+ sconcat pieces +:+ last) = Some msg ->
  handleChatWithAI_loop buffer (pieces ++ last :: rest)%list =
    (msg :: (handleChatWithAI_loop "" rest).1, (handleChatWithAI_loop "" rest).2).
Proof.
  induction pieces as [|p pieces IH]; intros buffer last rest msg Hp Hl Hi Hm; cbn in *.
  - apply String.eqb_neq in Hl. rewrite Hl, Hm. by destruct (handleChatWithAI_loop "" rest).
  - apply Forall_cons in Hp as [Hp Hps]. destruct Hi as [Hn Hi].
    apply String.eqb_neq in Hp. rewrite Hp, Hn. apply IH; try done. by rewrite <- Hm, !sapp_assoc.
Qed.

(** However the model's output is cut into pieces, the device sends the same messages:
    chunks that arrive whole and chunks that arrive in pieces (none of whose beginnings is
    a complete value by itself) give one message each, with the same content. *)
Theorem chat_reassembly (cs : list (list string * string)) msgs :
  Forall2 (fun c m => Forall (fun p => p <> "") c.1 /\ c.2 <> "" /\ incomplete "" c.1 /\
                      parse_chunk (sconcat c.1 +:+ c.2) = Some m) cs msgs ->
  handleChatWithAI_loop "" (concat (map (fun c => c.1 ++ [c.2])%list cs)) = (msgs, "") /\
  handleChatWithAI_loop "" (map (fun c => sconcat c.1 +:+ c.2) cs) = (msgs, "").
Proof.
  induction 1 as [|[ps l] m cs msgs (Hp & Hl & Hi & Hm) _ [IH1 IH2]]; [done|]. cbn [fst snd map concat] in *.
  split.
  - rewrite <- app_assoc. cbn [app]. rewrite (handleChatWithAI_pieces ps "" l _ m), IH1 by done. done.
  - assert (sconcat ps +:+ l <> "") as Hne by (destruct l; [done|]; by destruct (sconcat ps)).
    pose proof (handleChatWithAI_pieces [] "" _ (map (fun c => sconcat c.1 +:+ c.2) cs) m
      (Forall_nil_2 _) Hne I Hm) as H.
    cbn [app] in H. by rewrite H, IH2.
Qed.

(** ** Witnesses *)
Definition two_lines : list Read := [RLine (jq "{'a':1}"); RLine (jq "{'a':2}"); REof ""].

(** The goroutine adds both lines and closes; the application has received the first. *)
Definition half_way : Sys :=
  mkSys (mkBuf [jq "{'a':2}"] true None None) [SbIsClosed] None [jq "{'a':1}"] false.

Lemma half_way_reached : rtc (step receives) (start two_lines) half_way.
Proof.
  eapply rtc_l; [eapply reader_lock; [reflexivity | reflexivity]|].
  eapply rtc_l; [eapply reader_act; [reflexivity | reflexivity]|].
  eapply rtc_l; [apply (app_call _ CGetChatChunk); reflexivity|].
  eapply rtc_l; [eapply (app_receive _ CGetChatChunk); [reflexivity | discriminate | reflexivity]|].
  eapply rtc_l; [eapply reader_lock; [reflexivity | reflexivity]|].
  eapply rtc_l; [eapply reader_act; [reflexivity | reflexivity]|].
  eapply rtc_l; [eapply reader_lock; [reflexivity | reflexivity]|].
  eapply rtc_l; [eapply reader_act; [reflexivity | reflexivity]|].
  apply rtc_refl.
Qed.

Lemma chat_delivery_witness :
  let all := [jq "{'a':1}"; jq "{'a':2}"] in
  rtc (step receives) (start two_lines) half_way /\
  (length (sb_Chunks (sys_buf half_way)) <= 100)%nat /\ sys_got half_way `prefix_of` all /\
  (exists s', rtc (step receives) half_way s' /\ sys_got s' = all) /\
  (sys_app half_way <> Some CGetChatChunk -> exists s', rtc (step receives) half_way s' /\ sys_over s' = true) /\
  (sys_over half_way = true -> sys_got half_way = all).
Proof.
  split; [exact half_way_reached|]. exact (chat_delivery two_lines half_way eq_refl half_way_reached).
Defined.

Lemma chat_chunk_spins_witness :
  GetChatChunk 1000 (Close (Some "connection reset") NewStreamBuffer) =
    Some (None, Close (Some "connection reset") NewStreamBuffer).
Proof. apply (chat_chunk_spins (Some "connection reset") NewStreamBuffer 1000); reflexivity. Defined.

Definition split_chunk : list string * string :=
  ([jq "{'choices':[{'delta':"], jq "{'content':'hi'}}]}").

Lemma chat_reassembly_witness :
  handleChatWithAI_loop "" (concat (map (fun c => c.1 ++ [c.2])%list [split_chunk])) = (["hi"], "") /\
  handleChatWithAI_loop "" (map (fun c => sconcat c.1 +:+ c.2) [split_chunk]) = (["hi"], "").
Proof.
  apply (chat_reassembly [split_chunk] ["hi"]). constructor; [|constructor].
  split; [repeat constructor; discriminate|]. split; [discriminate|]. split; [split; [vm_compute; reflexivity|exact I]|].
  vm_compute. reflexivity.
Defined.
