(* ===== verification/Hardware.v ===== *)
(** * blockchain/blockchain.go, blockchain/blox.go: the hardware handlers

    Handlers that run one operation of wap/pkg/wifi (shell commands, docker, nmcli) and
    answer with its result. The operations are an interface, [WifiOps]: what they do to the
    device [W] and the response they return, as JSON. Against it the file pairs each
    handler with the client method that calls it and compares the status codes. *)

From S2P Require Import Prelude GoStd Json Effects Access Clients.

#[local] Open Scope string_scope.
#[local] Open Scope Z_scope.

Class WifiOps (W : Type) := {
  wifi_GetBloxFreeSpace : W -> (string + json) * W;
  wifi_EraseBlData : W -> json * W;
  wifi_WifiRemoveall : W -> json * W;
  wifi_Reboot : W -> json * W;
  wifi_Partition : W -> json * W;
  wifi_DeleteFulaConfig : W -> json * W;
  wifi_DeleteWifi : string -> W -> json * W;
  wifi_DisconnectNamedWifi : string -> W -> json * W;
  wifi_FetchContainerLogs : string -> string -> W -> (string + string) * W;
  wifi_FindBestAndTargetInLogs : string -> string -> W -> (string + string * string) * W;
  wifi_GetFolderSize : string -> W -> (string + string * string) * W;
  wifi_GetDatastoreSize : W -> (string + json) * W;
  wifi_GetDockerImageBuildDates : W -> (string + json) * W;
  wifi_GetClusterInfo : W -> (string + string * string) * W
}.

Section handlers.
Context {W : Type} `{WO : WifiOps W}.

(** w.WriteHeader and json.NewEncoder(w).Encode *)
Definition answer (code : Z) (out : json) : M W Resp :=
  WriteHeader code;;; ret (mkResp code (BJson out)).

Definition op_json (f : W -> json * W) : M W json := fun w => let '(j, w') := f w in (Ok j, w').
Definition op_or {A : Type} (f : W -> (string + A) * W) (bad : string -> json) (good : A -> json) : M W json :=
  fun w => let '(r, w') := f w in (Ok (match r with inl e => bad e | inr a => good a end), w').

(** ** Operations without a request *)
Definition zero_free_space : json :=
  JObj [("device_count", JNum "0"); ("size", JNum "0"); ("used", JNum "0"); ("avail", JNum "0");
        ("used_percentage", JNum "0")].

Definition handleBloxFreeSpace (_ : option string) : M W Resp :=
  out <- op_or wifi_GetBloxFreeSpace (fun _ => zero_free_space) (fun j => j);; answer StatusOK out.
Definition handleEraseBlData (_ : option string) : M W Resp :=
  out <- op_json wifi_EraseBlData;; answer StatusOK out.
Definition handleWifiRemoveall (_ : option string) : M W Resp :=
  out <- op_json wifi_WifiRemoveall;; answer StatusOK out.
Definition handleReboot (_ : option string) : M W Resp :=
  out <- op_json wifi_Reboot;; answer StatusOK out.
Definition handlePartition (_ : option string) : M W Resp :=
  out <- op_json wifi_Partition;; answer StatusOK out.
Definition handleDeleteFulaConfig (_ : option string) : M W Resp :=
  out <- op_json wifi_DeleteFulaConfig;; answer StatusOK out.
Definition handleGetDockerImageBuildDates (_ : option string) : M W Resp :=
  out <- op_or wifi_GetDockerImageBuildDates (fun _ => JObj [("images", JArr [])]) (fun j => j);;
  answer StatusOK out.

Definition cluster_info (r : string * string) : json :=
  JObj [("cluster_peer_id", JStr r.1); ("cluster_peer_name", JStr r.2)].
Definition handleGetClusterInfo (_ : option string) : M W Resp :=
  out <- op_or wifi_GetClusterInfo (fun _ => cluster_info ("", "")) cluster_info;; answer StatusOK out.

(** ** Operations with a request *)
Definition decode_1 (f : string) (body : option string) : option string :=
  l ← decode_body body;
  let '(a, ok) := field_string "" (obj_field f l) in if ok : bool then Some a else None.
Definition decode_2 (f1 f2 : string) (body : option string) : option (string * string) :=
  l ← decode_body body;
  let '(a, ok1) := field_string "" (obj_field f1 l) in
  let '(b, ok2) := field_string "" (obj_field f2 l) in
  if ok1 && ok2 then Some (a, b) else None.

Definition decode_failed : M W Resp := ret (http_Error "failed to decode request" StatusBadRequest).

Definition handleDeleteWifi (body : option string) : M W Resp :=
  match decode_1 "name" body with
  | None => decode_failed
  | Some name => out <- op_json (wifi_DeleteWifi name);; answer StatusOK out
  end.
Definition handleDisconnectWifi (body : option string) : M W Resp :=
  match decode_1 "name" body with
  | None => decode_failed
  | Some name => out <- op_json (wifi_DisconnectNamedWifi name);; answer StatusOK out
  end.

Definition status_msg (ok : bool) (msg : string) : json := JObj [("status", JBool ok); ("msg", JStr msg)].
Definition handleFetchContainerLogs (body : option string) : M W Resp :=
  match decode_2 "ContainerName" "TailCount" body with
  | None => decode_failed
  | Some (c, t) =>
      out <- op_or (wifi_FetchContainerLogs c t) (status_msg false) (status_msg true);;
      answer StatusAccepted out
  end.

Definition best_target (best target err : string) : json :=
  JObj [("best", JStr best); ("target", JStr target); ("err", JStr err)].
Definition handleFindBestAndTargetInLogs (body : option string) : M W Resp :=
  match decode_2 "NodeContainerName" "TailCount" body with
  | None => decode_failed
  | Some (c, t) =>
      out <- op_or (wifi_FindBestAndTargetInLogs c t) (best_target "0" "0") (fun r => best_target r.1 r.2 "");;
      answer StatusAccepted out
  end.

Definition folder_size (r : string * string) : json := JObj [("folder_path", JStr r.1); ("size", JStr r.2)].
Definition handleGetFolderSize (body : option string) : M W Resp :=
  match decode_1 "folder_path" body with
  | None => decode_failed
  | Some p =>
      out <- op_or (wifi_GetFolderSize p) (fun _ => folder_size ("", "")) folder_size;;
      answer StatusAccepted out
  end.

Definition zero_datastore : json :=
  JObj [("size", JStr ""); ("storage_max", JStr ""); ("count", JStr ""); ("folder_path", JStr ""); ("version", JStr "")].
Definition handleGetDatastoreSize (body : option string) : M W Resp :=
  match decode_body body with
  | None => decode_failed
  | Some _ =>
      out <- op_or wifi_GetDatastoreSize (fun _ => zero_datastore) (fun j => j);;
      answer StatusAccepted out
  end.

(** ** Handlers and the client methods that call them *)
Inductive HwCall :=
| CBloxFreeSpace | CEraseBlData | CWifiRemoveall | CReboot | CPartition | CDeleteFulaConfig
| CGetDockerImageBuildDates | CGetClusterInfo
| CDeleteWifi | CDisconnectWifi | CFetchContainerLogs | CFindBestAndTargetInLogs
| CGetFolderSize | CGetDatastoreSize.

Definition hw_handler (c : HwCall) : option string -> M W Resp :=
  match c with
  | CBloxFreeSpace => handleBloxFreeSpace | CEraseBlData => handleEraseBlData
  | CWifiRemoveall => handleWifiRemoveall | CReboot => handleReboot
  | CPartition => handlePartition | CDeleteFulaConfig => handleDeleteFulaConfig
  | CGetDockerImageBuildDates => handleGetDockerImageBuildDates
  | CGetClusterInfo => handleGetClusterInfo
  | CDeleteWifi => handleDeleteWifi | CDisconnectWifi => handleDisconnectWifi
  | CFetchContainerLogs => handleFetchContainerLogs
  | CFindBestAndTargetInLogs => handleFindBestAndTargetInLogs
  | CGetFolderSize => handleGetFolderSize | CGetDatastoreSize => handleGetDatastoreSize
  end.

(** The action the dispatch table has the handler under. *)
Definition hw_action (c : HwCall) : string :=
  match c with
  | CBloxFreeSpace => actionBloxFreeSpace | CEraseBlData => actionEraseBlData
  | CWifiRemoveall => actionWifiRemoveall | CReboot => actionReboot
  | CPartition => actionPartition | CDeleteFulaConfig => actionDeleteFulaConfig
  | CGetDockerImageBuildDates => actionGetDockerImageBuildDates
  | CGetClusterInfo => actionGetClusterInfo
  | CDeleteWifi => actionDeleteWifi | CDisconnectWifi => actionDisconnectWifi
  | CFetchContainerLogs => actionFetchContainerLogs
  | CFindBestAndTargetInLogs => actionFindBestAndTargetInLogs
  | CGetFolderSize => actionGetFolderSize | CGetDatastoreSize => actionGetDatastoreSize
  end.

Section client.
Context `{E : Env} (peer_text : string -> string) (configured : bool).

(** The client's request payload; the methods without a request send none. *)
Definition hw_client (c : HwCall) (to : string) (r : json) : M Client string :=
  match c with
  | CBloxFreeSpace => BloxFreeSpace peer_text configured to
  | CEraseBlData => EraseBlData peer_text configured to
  | CWifiRemoveall => WifiRemoveall peer_text configured to
  | CReboot => Reboot peer_text configured to
  | CPartition => Partition peer_text configured to
  | CDeleteFulaConfig => DeleteFulaConfig peer_text configured to
  | CGetDockerImageBuildDates => GetDockerImageBuildDates peer_text configured to
  | CGetClusterInfo => GetClusterInfo peer_text configured to
  | CDeleteWifi => DeleteWifi peer_text configured to r
  | CDisconnectWifi => DisconnectWifi peer_text configured to r
  | CFetchContainerLogs => FetchContainerLogs peer_text configured to r
  | CFindBestAndTargetInLogs => FindBestAndTargetInLogs peer_text configured to r
  | CGetFolderSize => GetFolderSize peer_text configured to r
  | CGetDatastoreSize => GetDatastoreSize peer_text configured to r
  end.

Definition wifi_call (c : HwCall) : bool :=
  match c with CDeleteWifi | CDisconnectWifi => true | _ => false end.

(** The status each method takes for success, whether it parses refusals, its payload. *)
Definition hw_expects (c : HwCall) : Z * bool :=
  match c with
  | CDeleteWifi | CDisconnectWifi | CFetchContainerLogs | CFindBestAndTargetInLogs
  | CGetFolderSize | CGetDatastoreSize => (StatusAccepted, true)
  | _ => (StatusOK, false)
  end.
Definition hw_payload (c : HwCall) (r : json) : option json :=
  if (hw_expects c).2 then Some r else None.

Lemma hw_client_call c to r :
  hw_client c to r = call peer_text configured (Some (hw_expects c)) MethodGet (hw_action c) to (hw_payload c r).
Proof. by destruct c. Qed.

(** The request the transport carries and the device answers. *)
Definition answered_with (c : HwCall) (to : string) (r : json) (w : Client) (resp : Resp) (text : string) : Prop :=
  env_http (c_fx w) (request_line peer_text MethodGet to (hw_action c)) (default JNull (hw_payload c r))
    = Reply (resp_code resp) (Some text).
End client.

(** Every hardware handler answers with one fixed status, or 400 for a request it cannot
    decode. *)
Definition hw_status (c : HwCall) : Z :=
  match c with
  | CFetchContainerLogs | CFindBestAndTargetInLogs | CGetFolderSize | CGetDatastoreSize => StatusAccepted
  | _ => StatusOK
  end.

Lemma answer_status (m : M W json) code w resp w' :
  (out <- m;; answer code out) w = (Ok resp, w') -> resp_code resp = code.
Proof.
  intros (j & w1 & _ & H)%bind_Ok_inv. unfold answer in H.
  apply bind_Ok_inv in H as (u & w2 & _ & H). by injection H as <- _.
Qed.

Lemma hw_handler_status c body w resp w' :
  hw_handler c body w = (Ok resp, w') -> resp_code resp = hw_status c \/ resp_code resp = 400.
Proof.
  destruct c; cbn [hw_handler hw_status]; intros H;
    try (left; exact (answer_status _ _ _ _ _ H));
    unfold handleDeleteWifi, handleDisconnectWifi, handleFetchContainerLogs, handleFindBestAndTargetInLogs,
      handleGetFolderSize, handleGetDatastoreSize in H;
    (destruct (decode_1 _ _) as [?|] || destruct (decode_2 _ _ _) as [[]|] || destruct (decode_body _) as [?|]);
    first [ left; exact (answer_status _ _ _ _ _ H) | right; by injection H as <- _ ].
Qed.
(** Which hardware calls work end to end: when a configured client's request is answered
    by the handler of its action, the client returns the answer exactly when the request
    could be decoded and the action is not one of the two WiFi ones: the device answers
    those 200 while the client takes only 202, so the application is told that removing
    or disconnecting a WiFi connection failed, every time. *)
Theorem hardware_calls_agree `{E : Env} peer_text c to r body w0 resp w1 w text :
  hw_handler c body w0 = (Ok resp, w1) -> answered_with peer_text c to r w resp text ->
  (exists w', hw_client peer_text true c to r w = (Ok text, w')) <-> resp_code resp <> 400 /\ wifi_call c = false.
Proof.
  intros Hh Ha. apply hw_handler_status in Hh. rewrite hw_client_call.
  destruct (hw_expects c) as [x api] eqn:Ex. rewrite (call_reply peer_text true x api _ _ to _ w _ text eq_refl Ha).
  destruct c; injection Ex as <- <-; cbn [hw_status wifi_call] in *; unfold StatusOK, StatusAccepted in *;
    (split; [intros Hx; split; lia || done | intros [Hx Hy]; lia || done]).
Qed.
End handlers.

(** ** Witness: removing a WiFi connection *)
#[local] Instance doneEnv : Env := {|
  env_http := fun _ _ _ => Reply 200 (Some (jq "{'msg':'ok','status':true}"));
  env_timer := fun _ _ => true; env_now := fun _ => 0; env_fs := fun _ => FsOk |}.

(** A device that remembers the connections it removed. *)
#[local] Instance toyWifi : WifiOps (list string) :=
  let ok := JObj [("msg", JStr "ok"); ("status", JBool true)] in {|
  wifi_GetBloxFreeSpace := fun w => (inl "df", w);
  wifi_EraseBlData := fun w => (ok, w);
  wifi_WifiRemoveall := fun w => (ok, w);
  wifi_Reboot := fun w => (ok, w);
  wifi_Partition := fun w => (ok, w);
  wifi_DeleteFulaConfig := fun w => (ok, w);
  wifi_DeleteWifi := fun n w => (ok, n :: w);
  wifi_DisconnectNamedWifi := fun n w => (ok, n :: w);
  wifi_FetchContainerLogs := fun _ _ w => (inl "docker", w);
  wifi_FindBestAndTargetInLogs := fun _ _ w => (inl "docker", w);
  wifi_GetFolderSize := fun p w => (inr (p, "0"), w);
  wifi_GetDatastoreSize := fun w => (inl "ipfs", w);
  wifi_GetDockerImageBuildDates := fun w => (inl "docker", w);
  wifi_GetClusterInfo := fun w => (inr ("12D3", "blox"), w) |}.

Lemma hardware_calls_agree_witness :
  let body := Some (jq "{'name':'home'}") in
  exists resp, hw_handler CDeleteWifi body [] = (Ok resp, ["home"]) /\
  ~ exists w', hw_client (fun p => p) true CDeleteWifi "blox" (JObj [("name", JStr "home")])
                 (mkClient 0 (mkApiError "" "")) = (Ok (jq "{'msg':'ok','status':true}"), w').
Proof.
  intros body. eexists.
  assert (hw_handler CDeleteWifi body [] =
    (Ok (mkResp 200 (BJson (JObj [("msg", JStr "ok"); ("status", JBool true)]))), ["home"])) as H
    by (vm_compute; reflexivity).
  split; [exact H|].
  intros Hx. apply (hardware_calls_agree (fun p => p) CDeleteWifi "blox" (JObj [("name", JStr "home")])
    body [] _ _ _ _ H) in Hx; [|reflexivity]. by destruct Hx.
Defined.
