(* ===== verification/Schema.v ===== *)
(** * blockchain/interface.go: request and response types

    The relayed actions decode the client's body into the Go struct registered for the
    action and encode that struct again. This file has the struct types as data ([ty]), the
    registry, and decoding by type. A value is written as the JSON it encodes to: a struct
    as the object of all its fields in order (none of these types uses omitempty), a nil
    slice or pointer as null. *)

From S2P Require Import Prelude GoStd Json Access.

#[local] Open Scope string_scope.
#[local] Open Scope Z_scope.

Inductive ty :=
| TString | TInt | TUint64 | TBool
| TList (e : ty)
| TPtr (e : ty)
| TStruct (fs : list (string * ty)).

(** The zero value. *)
Fixpoint zero (t : ty) : json :=
  match t with
  | TString => JStr ""
  | TInt | TUint64 => JNum "0"
  | TBool => JBool false
  | TList _ | TPtr _ => JNull
  | TStruct fs => JObj (map (fun f => (f.1, zero f.2)) fs)
  end.

Definition decode_int (parse : string -> num_error + Z) (cur j : json) : json * bool :=
  match j with
  | JNull => (cur, true)
  | JNum lit => match parse lit with inr z => (JNum (Itoa z), true) | inl _ => (cur, false) end
  | _ => (cur, false)
  end.

(** json.Unmarshal of [j] into a variable of type [t] that holds [cur]: its new value, and
    whether the call reports no error (a value of a wrong type is reported after the rest
    has been decoded). A repeated list key decodes into fresh elements. *)
Fixpoint decode (t : ty) (cur j : json) {struct t} : json * bool :=
  match t with
  | TString => match j with JNull => (cur, true) | JStr s => (JStr s, true) | _ => (cur, false) end
  | TInt => decode_int (fun lit => ParseInt lit 10 64) cur j
  | TUint64 => decode_int (fun lit => ParseUint lit 10 64) cur j
  | TBool => match j with JNull => (cur, true) | JBool b => (JBool b, true) | _ => (cur, false) end
  | TList e =>
      match j with
      | JNull => (JNull, true)
      | JArr l => let rs := map (decode e (zero e)) l in (JArr (map fst rs), forallb snd rs)
      | _ => (cur, false)
      end
  | TPtr e =>
      match j with
      | JNull => (JNull, true)
      | _ => decode e (match cur with JNull => zero e | c => c end) j
      end
  | TStruct fs =>
      match j, cur with
      | JNull, _ => (cur, true)
      | JObj l, JObj cs =>
          let rs :=
            (fix go (fs : list (string * ty)) (cs : list (string * json)) : list (string * (json * bool)) :=
               match fs, cs with
               | (n, e) :: fs, (_, c) :: cs =>
                   (n, fold_left (fun st j => let '(v, ok) := decode e st.1 j in (v, st.2 && ok))
                         (obj_field n l) (c, true)) :: go fs cs
               | _, _ => []
               end) fs cs in
          (JObj (map (fun r => (r.1, r.2.1)) rs), forallb (fun r => r.2.2) rs)
      | _, _ => (cur, false)
      end
  end.

(** Decoding into an interface that holds a pointer to a zero struct: null replaces the
    pointer by nil. *)
Definition decode_new (t : ty) (j : json) : json * bool :=
  match j with JNull => (JNull, true) | _ => decode t (zero t) j end.

(** ** Types of the relayed actions *)
Definition SeededRequest := TStruct [].
Definition AccountExistsRequest := TStruct [("account", TString)].
Definition AssetsBalanceRequest := TStruct [("account", TString); ("class_id", TUint64); ("asset_id", TUint64)].
Definition TransferToFulaRequest := TStruct [("wallet_account", TString); ("amount", TUint64); ("chain", TString)].
Definition PoolCreateRequest := TStruct [("pool_name", TString); ("peer_id", TString)].
Definition PoolCancelJoinRequest := TStruct [("pool_id", TInt)].
Definition PoolRequestsRequest := TStruct [("pool_id", TInt)].
Definition PoolListRequest := TStruct [].
Definition PoolUserListRequest := TStruct [("pool_id", TInt); ("request_pool_id", TInt)].
Definition PoolVoteRequest :=
  TStruct [("pool_id", TInt); ("account", TString); ("vote_value", TBool); ("peer_id", TString)].
Definition ManifestJob := TStruct [("work", TString); ("engine", TString); ("uri", TString)].
Definition ManifestMetadata := TStruct [("job", ManifestJob)].
Definition ManifestUploadRequest :=
  TStruct [("pool_id", TInt); ("replication_factor", TInt); ("manifest_metadata", ManifestMetadata); ("cid", TString)].
Definition ManifestStoreRequest := TStruct [("uploader", TString); ("cid", TString); ("pool_id", TInt)].
Definition ManifestBatchStoreRequest := TStruct [("cid", TList TString); ("pool_id", TInt)].
Definition ManifestBatchUploadMobileRequest :=
  TStruct [("cid", TList TString); ("pool_id", TInt); ("replication_factor", TInt)].
Definition ManifestAvailableRequest := TStruct [("pool_id", TInt)].
Definition ManifestRemoveRequest := TStruct [("cid", TString); ("pool_id", TInt)].
Definition ManifestRemoveStorerRequest := TStruct [("storage", TString); ("cid", TString); ("pool_id", TInt)].
Definition ManifestRemoveStoredRequest := TStruct [("uploader", TString); ("cid", TString); ("pool_id", TInt)].
Definition ReplicateRequest := TStruct [("cids", TList TString); ("uploader", TString); ("pool_id", TInt)].

Definition SeededResponse := TStruct [("seed", TString); ("account", TString)].
Definition AccountExistsResponse := TStruct [("account", TString); ("exists", TBool)].
Definition AssetsBalanceResponse := TStruct [("amount", TUint64)].
Definition TransferToFulaResponse := TStruct [("msg", TString); ("description", TString)].
Definition PoolCreateResponse := TStruct [("owner", TString); ("pool_id", TInt)].
Definition PoolCancelJoinResponse := TStruct [("account", TString); ("pool_id", TInt)].
Definition PoolRequest :=
  TStruct [("pool_id", TInt); ("account", TString); ("voted", TList TString); ("positive_votes", TInt);
           ("peer_id", TString)].
Definition PoolRequestsResponse := TStruct [("poolrequests", TList PoolRequest)].
Definition PoolType :=
  TStruct [("pool_id", TInt); ("creator", TString); ("pool_name", TString); ("parent", TString);
           ("participants", TList TString); ("region", TString)].
Definition PoolListResponse := TStruct [("pools", TList PoolType)].
Definition User :=
  TStruct [("pool_id", TPtr TInt); ("request_pool_id", TPtr TInt); ("account", TString); ("peer_id", TString)].
Definition PoolUserListResponse := TStruct [("users", TList User)].
Definition PoolVoteResponse := TStruct [("account", TString); ("pool_id", TInt); ("result", TString)].
Definition ManifestUploadResponse :=
  TStruct [("uploader", TString); ("storage", TList TString); ("manifest_metadata", ManifestMetadata); ("pool_id", TInt)].
Definition ManifestStoreResponse :=
  TStruct [("pool_id", TInt); ("storage", TString); ("uploader", TString); ("cid", TString)].
Definition ManifestBatchStoreResponse := TStruct [("pool_id", TInt); ("storer", TString); ("cid", TList TString)].
Definition ManifestBatchUploadResponse := TStruct [("pool_id", TInt); ("storer", TString); ("cid", TList TString)].
Definition Manifest :=
  TStruct [("pool_id", TInt); ("replication_available", TInt); ("manifest_metadata", ManifestMetadata)].
Definition ManifestAvailableResponse := TStruct [("manifests", TList Manifest)].
Definition ManifestRemoveResponse := TStruct [("uploader", TString); ("cid", TString); ("pool_id", TInt)].
Definition ManifestRemoveStorerResponse :=
  TStruct [("uploader", TString); ("storage", TString); ("cid", TString); ("pool_id", TInt)].
Definition ManifestRemoveStoredResponse :=
  TStruct [("uploader", TString); ("storage", TString); ("cid", TString); ("pool_id", TInt)].
Definition BatchManifest := TStruct [("cid", TString); ("replication_available", TInt)].
Definition ReplicateResponse := TStruct [("manifests", TList BatchManifest)].

(** The entries of [requestTypes] and [responseTypes] for the actions that [handleAction]
    relays. *)
Definition relayTypes : list (string * (ty * ty)) :=
  [(actionSeeded, (SeededRequest, SeededResponse));
   (actionAccountExists, (AccountExistsRequest, AccountExistsResponse));
   (actionAssetsBalance, (AssetsBalanceRequest, AssetsBalanceResponse));
   (actionTransferToGoerli, (TransferToFulaRequest, TransferToFulaResponse));
   (actionTransferToMumbai, (TransferToFulaRequest, TransferToFulaResponse));
   (actionPoolCreate, (PoolCreateRequest, PoolCreateResponse));
   (actionPoolRequests, (PoolRequestsRequest, PoolRequestsResponse));
   (actionPoolList, (PoolListRequest, PoolListResponse));
   (actionPoolVote, (PoolVoteRequest, PoolVoteResponse));
   (actionManifestUpload, (ManifestUploadRequest, ManifestUploadResponse));
   (actionManifestStore, (ManifestStoreRequest, ManifestStoreResponse));
   (actionManifestAvailable, (ManifestAvailableRequest, ManifestAvailableResponse));
   (actionManifestBatchStore, (ManifestBatchStoreRequest, ManifestBatchStoreResponse));
   (actionManifestRemove, (ManifestRemoveRequest, ManifestRemoveResponse));
   (actionManifestRemoveStorer, (ManifestRemoveStorerRequest, ManifestRemoveStorerResponse));
   (actionManifestRemoveStored, (ManifestRemoveStoredRequest, ManifestRemoveStoredResponse))].

Definition relay_types (action : string) : option (ty * ty) :=
  list_to_map (M := gmap string (ty * ty)) relayTypes !! action.

(** ** Decoding is sound for the types *)
Section ty_ind.
Context (P : ty -> Prop)
  (Hstr : P TString) (Hint : P TInt) (Huint : P TUint64) (Hbool : P TBool)
  (Hlist : forall e, P e -> P (TList e)) (Hptr : forall e, P e -> P (TPtr e))
  (Hstruct : forall fs, Forall (fun f => P f.2) fs -> P (TStruct fs)).

Fixpoint ty_rect' (t : ty) : P t :=
  match t with
  | TString => Hstr | TInt => Hint | TUint64 => Huint | TBool => Hbool
  | TList e => Hlist e (ty_rect' e)
  | TPtr e => Hptr e (ty_rect' e)
  | TStruct fs =>
      Hstruct fs ((fix go (fs : list (string * ty)) : Forall (fun f => P f.2) fs :=
                     match fs with
                     | [] => List.Forall_nil _
                     | f :: fs => List.Forall_cons _ f fs (ty_rect' f.2) (go fs)
                     end) fs)
  end.
End ty_ind.

(** The values of a type: integers in range and in canonical form, exactly the fields of
    the struct, in order. *)
Definition typed_int (parse : string -> num_error + Z) (j : json) : bool :=
  match j with
  | JNum lit => match parse lit with inr z => (Itoa z =? lit)%string | inl _ => false end
  | _ => false
  end.

Fixpoint typed (t : ty) (j : json) {struct t} : bool :=
  match t with
  | TString => match j with JStr _ => true | _ => false end
  | TInt => typed_int (fun lit => ParseInt lit 10 64) j
  | TUint64 => typed_int (fun lit => ParseUint lit 10 64) j
  | TBool => match j with JBool _ => true | _ => false end
  | TList e => match j with JNull => true | JArr l => forallb (typed e) l | _ => false end
  | TPtr e => match j with JNull => true | _ => typed e j end
  | TStruct fs =>
      match j with
      | JObj cs =>
          (fix go (fs : list (string * ty)) (cs : list (string * json)) : bool :=
             match fs, cs with
             | [], [] => true
             | (n, e) :: fs, (m, c) :: cs => (n =? m)%string && typed e c && go fs cs
             | _, _ => false
             end) fs cs
      | _ => false
      end
  end.

(** Field names that differ without regard to case. *)
Fixpoint distinct (names : list string) : bool :=
  match names with
  | [] => true
  | n :: rest => forallb (fun m => negb (EqualFold m n)) rest && distinct rest
  end.
Fixpoint wf_ty (t : ty) : bool :=
  match t with
  | TList e | TPtr e => wf_ty e
  | TStruct fs => distinct (map fst fs) && forallb (fun f => wf_ty f.2) fs
  | _ => true
  end.

Lemma typed_int_ParseInt lit z :
  ParseInt lit 10 64 = inr z -> typed_int (fun l => ParseInt l 10 64) (JNum (Itoa z)) = true.
Proof.
  intros H%ParseInt_range; [|lia]. cbn. unfold Itoa at 1. rewrite ParseInt_FormatInt by lia. apply String.eqb_refl.
Qed.

Lemma typed_int_ParseUint lit z :
  ParseUint lit 10 64 = inr z -> typed_int (fun l => ParseUint l 10 64) (JNum (Itoa z)) = true.
Proof.
  intros H%ParseUint_range; [|lia..]. cbn. unfold Itoa at 1, FormatInt.
  rewrite (proj2 (Z.ltb_ge _ _)) by lia. rewrite ParseUint_FormatUint by lia. apply String.eqb_refl.
Qed.

Lemma decode_int_typed parse cur j :
  (forall lit z, parse lit = inr z -> typed_int parse (JNum (Itoa z)) = true) ->
  typed_int parse cur = true -> typed_int parse (decode_int parse cur j).1 = true.
Proof.
  intros Hp Hc. destruct j; try exact Hc. cbn [decode_int].
  destruct (parse lit) as [|z] eqn:E; [exact Hc | by eapply Hp].
Qed.

Lemma decode_int_self parse z v : typed_int parse v = true -> decode_int parse z v = (v, true).
Proof.
  destruct v; try done. cbn. destruct (parse lit); [done|]. by intros ->%String.eqb_eq.
Qed.

Lemma zero_typed t : typed t (zero t) = true.
Proof.
  induction t as [| | | |e IH|e IH|fs IH] using ty_rect'; try done.
  cbn [zero typed]. induction IH as [|[n e] fs He _ IH]; [done|]. cbn in *. by rewrite String.eqb_refl, He.
Qed.

Lemma decode_typed t : forall cur j, typed t cur = true -> typed t (decode t cur j).1 = true.
Proof.
  induction t as [| | | |e IH|e IH|fs IH] using ty_rect'; intros cur j Hc; cbn [decode].
  - by destruct j.
  - apply decode_int_typed; [apply typed_int_ParseInt | exact Hc].
  - apply decode_int_typed; [apply typed_int_ParseUint | exact Hc].
  - by destruct j.
  - destruct j as [| | | |l|]; try done. cbn. apply forallb_forall. intros v Hv.
    rewrite map_map in Hv. apply in_map_iff in Hv as (x & <- & _). apply IH, zero_typed.
  - assert (typed e (match cur with JNull => zero e | c => c end) = true) as Hz
      by (destruct cur; try exact Hc; apply zero_typed).
    destruct j; try done; cbn [typed fst];
      match goal with |- match ?v.1 with _ => _ end = true => pose proof (IH _ _ Hz : typed e v.1 = true) as Ht;
        destruct v.1; done end.
  - destruct j as [| | | | |l]; try exact Hc. destruct cur as [| | | | |cs]; try exact Hc.
    cbn [fst]. cbn [typed] in *. revert cs Hc. induction IH as [|[n e] fs He _ IHf]; intros [|[m c] cs] Hc; try done.
    apply andb_prop in Hc as [[_ Hc]%andb_prop Hcs]. cbn [map forallb fst snd].
    rewrite String.eqb_refl. cbn [andb]. rewrite (IHf cs Hcs), andb_true_r. cbn [fst snd] in He.
    assert (forall js st, typed e st.1 = true ->
      typed e (fold_left (fun st j => let '(v, ok) := decode e st.1 j in (v, st.2 && ok)) js st).1 = true) as Hf.
    { induction js as [|j js IHj]; intros st Hst; [exact Hst|]. cbn. apply IHj.
      pose proof (He st.1 j Hst) as Hd. by destruct (decode e st.1 j). }
    by apply (Hf (obj_field n l) (c, true)).
Qed.

(** In an object whose keys are distinct field names, a name finds its own member. *)
Lemma obj_field_other n cs :
  forallb (fun m => negb (EqualFold m n)) (map fst cs) = true -> obj_field n cs = [].
Proof.
  unfold obj_field. induction cs as [|[m c] cs IH]; cbn [map forallb fst]; [done|].
  intros [Hm Hcs]%andb_prop. apply negb_true_iff in Hm. rewrite filter_cons_False by (cbn [fst]; by rewrite Hm). by apply IH.
Qed.

Lemma EqualFold_refl n : EqualFold n n = true.
Proof. apply String.eqb_refl. Qed.
Lemma EqualFold_sym n m : EqualFold n m = EqualFold m n.
Proof. apply String.eqb_sym. Qed.

(** The field loops of [typed] and [decode]. *)
Definition go_typed := fix go (fs : list (string * ty)) (cs : list (string * json)) : bool :=
  match fs, cs with
  | [], [] => true
  | (n, e) :: fs, (m, c) :: cs => (n =? m)%string && typed e c && go fs cs
  | _, _ => false
  end.

Definition go_decode (l : list (string * json)) :=
  fix go (fs : list (string * ty)) (cs : list (string * json)) : list (string * (json * bool)) :=
    match fs, cs with
    | (n, e) :: fs, (_, c) :: cs =>
        (n, fold_left (fun st j => let '(v, ok) := decode e st.1 j in (v, st.2 && ok))
              (obj_field n l) (c, true)) :: go fs cs
    | _, _ => []
    end.

Lemma go_typed_names fs : forall cs, go_typed fs cs = true -> map fst cs = map fst fs.
Proof.
  induction fs as [|[n e] fs IH]; intros [|[m c] cs]; try done. cbn.
  intros [[->%String.eqb_eq _]%andb_prop H]%andb_prop. f_equal. by apply IH.
Qed.

Lemma obj_field_own pre n c cs :
  forallb (fun m => negb (EqualFold m n)) (map fst pre) = true ->
  forallb (fun m => negb (EqualFold m n)) (map fst cs) = true ->
  obj_field n (pre ++ (n, c) :: cs) = [c].
Proof.
  intros Hp Hc. unfold obj_field. rewrite filter_app, map_app.
  fold (obj_field n pre). rewrite (obj_field_other n pre Hp).
  rewrite filter_cons_True by apply EqualFold_refl. cbn [app map snd]. f_equal. by apply obj_field_other.
Qed.

(** Decoding the fields [fs] from the object [pre ++ cs], [pre] being earlier fields. *)
Lemma go_decode_self fs : forall pre cs,
  Forall (fun f => wf_ty f.2 = true -> forall v, typed f.2 v = true -> decode f.2 (zero f.2) v = (v, true)) fs ->
  forallb (fun f => wf_ty f.2) fs = true -> distinct (map fst fs) = true -> go_typed fs cs = true ->
  Forall (fun n => forallb (fun m => negb (EqualFold m n)) (map fst pre) = true) (map fst fs) ->
  go_decode (pre ++ cs) fs (map (fun f => (f.1, zero f.2)) fs) = map (fun c => (c.1, (c.2, true))) cs.
Proof.
  induction fs as [|[n e] fs IHf]; intros pre [|[m c] cs] Hi Hw Hd Hv Hpre; try done.
  cbn in Hv. apply andb_prop in Hv as [[->%String.eqb_eq Hc]%andb_prop Hcs].
  cbn [map fst distinct forallb snd] in *. apply andb_prop in Hd as [Hn Hd]. apply andb_prop in Hw as [Hwe Hw].
  apply Forall_cons in Hi as [He Hi]. apply Forall_cons in Hpre as [Hp Hpre].
  cbn [go_decode]. rewrite obj_field_own; [|done|by rewrite (go_typed_names _ _ Hcs)].
  cbn [fold_left fst snd]. cbn [snd] in He; rewrite (He Hwe c Hc). cbn [andb]. f_equal.
  replace (pre ++ (m, c) :: cs)%list with ((pre ++ [(m, c)]) ++ cs)%list by (by rewrite <- app_assoc).
  apply IHf; try done.
  apply Forall_forall. intros x Hx. rewrite map_app, forallb_app. apply andb_true_intro. split.
  - rewrite Forall_forall in Hpre. by apply Hpre.
  - cbn [map forallb fst]. rewrite EqualFold_sym. apply list_elem_of_In in Hx.
    rewrite forallb_forall in Hn. by rewrite (Hn x Hx).
Qed.

Lemma decode_self t : wf_ty t = true -> forall v, typed t v = true -> decode t (zero t) v = (v, true).
Proof.
  induction t as [| | | |e IH|e IH|fs IH] using ty_rect'; intros Hw v Hv; cbn [decode zero].
  - by destruct v.
  - by apply decode_int_self.
  - by apply decode_int_self.
  - by destruct v.
  - destruct v as [| | | |l|]; try done. cbn [typed] in Hv.
    assert (map (decode e (zero e)) l = map (fun v => (v, true)) l) as ->.
    { apply map_ext_in. intros x Hx. apply IH; [done|]. rewrite forallb_forall in Hv. by apply Hv. }
    cbn zeta. rewrite map_map. cbn [fst]. rewrite map_id. f_equal.
    apply forallb_forall. by intros x (y & <- & _)%in_map_iff.
  - destruct v; try done; by apply IH.
  - destruct v as [| | | | |l]; try done. cbn [typed] in Hv. fold go_typed in Hv.
    cbn [wf_ty] in Hw. apply andb_prop in Hw as [Hd Hw]. fold (go_decode l).
    pose proof (go_decode_self fs [] l IH Hw Hd Hv) as Hg. cbn [app] in Hg.
    rewrite Hg by (apply Forall_forall; done).
    cbn zeta. rewrite map_map. cbn [fst snd]. f_equal.
    + f_equal. rewrite <- (map_id l) at 2. apply map_ext. by intros [].
    + apply forallb_forall. by intros x (y & <- & _)%in_map_iff.
Qed.

(** The registered types are well formed, so both lemmas apply to them. *)
Lemma relay_types_wf a q r : relay_types a = Some (q, r) -> wf_ty q = true /\ wf_ty r = true.
Proof.
  unfold relay_types. intros H. apply elem_of_list_to_map_2 in H.
  assert (Forall (fun x => wf_ty x.2.1 = true /\ wf_ty x.2.2 = true) relayTypes) as Hf
    by (repeat constructor; vm_compute; split; reflexivity).
  rewrite Forall_forall in Hf. exact (Hf _ H).
Qed.

(** Decoding a relayed action's body is sound and loses nothing: what decodes is null or
    a value of the request type (its fields, each of its type, integers within 64 bits), and
    a body that already is such a value decodes to itself. *)
Theorem relay_types_sound a q r j :
  relay_types a = Some (q, r) ->
  ((decode_new q j).1 = JNull \/ typed q (decode_new q j).1 = true) /\
  (typed q j = true -> decode_new q j = (j, true)).
Proof.
  intros H. destruct (relay_types_wf a q r H) as [Hq _]. split.
  - destruct j; try (right; apply decode_typed, zero_typed). by left.
  - intros Hj. unfold decode_new. destruct j; try (by apply decode_self).
    unfold relay_types in H. done.
Qed.

Lemma relay_types_sound_witness :
  let j := JObj [("uploader", JStr "5F"); ("cid", JStr "bafy"); ("pool_id", JNum "7")] in
  relay_types actionManifestStore = Some (ManifestStoreRequest, ManifestStoreResponse) /\
  typed ManifestStoreRequest j = true /\ decode_new ManifestStoreRequest j = (j, true).
Proof.
  intros j.
  assert (relay_types actionManifestStore = Some (ManifestStoreRequest, ManifestStoreResponse)) as H
    by (vm_compute; reflexivity).
  split; [exact H|]. split; [vm_compute; reflexivity|].
  apply (relay_types_sound actionManifestStore _ _ j H). vm_compute. reflexivity.
Defined.
