(* ===== verification/Relay.v ===== *)
(** * blockchain/blockchain.go, bl_pool.go, keystore.go: relaying to the blockchain API

    Most account, pool and manifest actions are relayed: the body is decoded into the
    action's request type, the device's seed is added where the action needs it, the result
    is posted to the blockchain API, and the answer is decoded into the response type.
    Cancelling a join, replication and batch upload have handlers of their own. The
    endpoint is taken to give a well-formed URL. An error object that is decoded into a map
    and encoded again is written as the JSON value it was decoded from. *)

From S2P Require Import Prelude GoStd Json Abi PeerId SignedAuth Effects Access Node Evm PoolConfig Schema.

#[local] Open Scope string_scope.
#[local] Open Scope Z_scope.

Definition prependProtocol (addr : string) : string :=
  if HasPrefix addr "localhost" || HasPrefix addr "127.0.0.1" || HasPrefix addr "192.168." || HasPrefix addr "10."
  then "http://" +:+ addr
  else "https://" +:+ addr.

(** strings.Replace(action, "-", "/", -1) *)
Definition action_path (action : string) : string := smap (fun c => if (c =? "-")%char then "/"%char else c) action.

(** The actions whose request gets the device's seed. *)
Definition seededActions : list string :=
  [actionSeeded; actionAccountExists; actionAccountFund; actionPoolCreate; actionPoolCancelJoin;
   actionPoolVote; actionManifestUpload; actionManifestStore; actionManifestRemove;
   actionManifestRemoveStorer; actionManifestRemoveStored; actionManifestBatchUpload;
   actionManifestBatchStore; actionTransferToMumbai; actionTransferToGoerli].

(** A request as it is passed on: a pointer to a struct, or something else (a struct by
    value, or nil). *)
Inductive Payload := PtrStruct (fields : list (string * json)) | Plain (j : json).

Section relay.
Context {S : Type} `{PS : PoolStore S} `{E : Env} `{MB : Multibase} `{PC : PeerCrypto}.
Context (o : Options).
(** The directory of the key store. *)
Context (dbPath : string).

(** ** The key store *)
Definition SaveKey (key : string) : M (Node S) () := os_WriteFile (dbPath +:+ "/secret_seed.txt") key.
Definition LoadKey : M (Node S) string :=
  r <- os_ReadFile (dbPath +:+ "/secret_seed.txt");;
  match r with Some data => ret (TrimSpace data) | None => raise "read" end.

(** ** Calling the API *)
Definition PlugSeedIfNeeded (action : string) (req : Payload) : M (Node S) json :=
  if bool_decide (action ∈ seededActions) then
    r <- try LoadKey;;
    let seed := match r with inr s => s | inl _ => "" end in
    match req with
    | PtrStruct fields => ret (JObj (fields ++ [("seed", JStr seed)])%list)
    | Plain j => ret j
    end
  else ret (match req with PtrStruct fields => JObj fields | Plain j => j end).

Definition api_url (action : string) : string :=
  prependProtocol (blockchainEndPoint o) +:+ "/" +:+ action_path action.

(** The answer and its status, or the error with the status that goes with it. *)
Definition callBlockchain (method action : string) (p : Payload) : M (Node S) ((Z * string) + (string * Z)) :=
  body <- PlugSeedIfNeeded action p;;
  r <- http_Do (api_url action) body;;
  match r with
  | ReplyErr e => ret (inl (0, e))
  | Reply st None => ret (inl (st, "read"))
  | Reply st (Some b) => ret (inr (b, st))
  end.

(** ** handleAction *)
Definition to_payload (j : json) : Payload :=
  match j with JObj fields => PtrStruct fields | _ => Plain j end.

(** json.Unmarshal(response, &errMsg), errMsg a map. *)
Definition error_map (response : string) : option json :=
  j ← json_parse response; _ ← as_object j; Some j.

(** The branch for err != nil; [response] is nil there unless a handler set it. *)
Definition relay_error (st : Z) (response e : string) : M (Node S) Resp :=
  WriteHeader st;;;
  ret (mkResp st (BJson (default (errMsg "An error occurred" e) (error_map response)))).

(** A status other than 200 is passed on with its body. *)
Definition relay_status (st : Z) (response : string) : M (Node S) Resp :=
  WriteHeader st;;;
  ret (mkResp st (if is_json_map response then BText response else BJson (errMsg "Error" response))).

(** json.Unmarshal(response, &res) into a fresh response struct, errors logged. *)
Definition response_json (t : ty) (response : string) : json :=
  match json_parse response with Some j => (decode_new t j).1 | None => zero t end.

(** The same into a struct variable, which null leaves alone. *)
Definition struct_json (t : ty) (response : string) : json :=
  match json_parse response with Some j => (decode t (zero t) j).1 | None => zero t end.

Definition decode_request (t : ty) (body : option string) : option json :=
  b ← body; '(j, _) ← json_parse_prefix b;
  let '(v, ok) := decode_new t j in if ok : bool then Some v else None.

Definition handleAction (method action : string) (body : option string) : M (Node S) Resp :=
  match relay_types action with
  | None => panic
  | Some (qt, rt) =>
      match decode_request qt body with
      | None => ret (http_Error "" StatusBadRequest)
      | Some req =>
          r <- callBlockchain method action (to_payload req);;
          match r with
          | inl (st, e) => relay_error st "" e
          | inr (response, st) =>
              if negb (st =? StatusOK) then relay_status st response
              else
                WriteHeader StatusAccepted;;;
                ret (mkResp StatusAccepted (BJson (response_json rt response)))
          end
      end
  end.

Definition HandlePoolList : M (Node S) json :=
  r <- callBlockchain MethodPost actionPoolList (Plain (JObj []));;
  match r with
  | inl (_, e) => raise e
  | inr (response, _) =>
      match json_parse response with
      | None => raise "json"
      | Some j =>
          let '(v, ok) := decode PoolListResponse (zero PoolListResponse) j in
          if ok : bool then ret v else raise "json"
      end
  end.

(** ** Open join requests *)
Definition field (n : string) (j : json) : json :=
  match j with JObj l => default JNull (assoc n l) | _ => JNull end.
Definition users_of (j : json) : list json :=
  match field "users" j with JArr l => l | _ => [] end.

(** The first user entry with this node's peer id decides. *)
Fixpoint own_request (self topic : string) (users : list json) : bool :=
  match users with
  | [] => false
  | u :: rest =>
      match field "peer_id" u with
      | JStr p =>
          if (p =? self)%string then
            match field "request_pool_id" u with JNum lit => (lit =? topic)%string | _ => false end
          else own_request self topic rest
      | _ => own_request self topic rest
      end
  end.

Definition checkIfUserHasOpenPoolRequests (topicString : string) : M (Node S) bool :=
  match Atoi topicString with
  | inl _ => raise "invalid topic, not an integer"
  | inr topic =>
      if topic <=? 0 then raise "invalid topic, not an integer" else
      r <- callBlockchain MethodPost actionPoolUserList
             (Plain (JObj [("pool_id", JNum (Itoa topic)); ("request_pool_id", JNum (Itoa topic))]));;
      match r with
      | inl (st, e) => raise ("blockchain call error: " +:+ e +:+ ", status code: " +:+ Itoa st)
      | inr (responseBody, st) =>
          if negb (st =? StatusOK) then raise ("unexpected response status: " +:+ Itoa st)
          else
            match json_parse responseBody with
            | None => raise "json"
            | Some j =>
                let '(v, ok) := decode PoolUserListResponse (zero PoolUserListResponse) j in
                if ok : bool then ret (own_request (selfPeer o) topicString (users_of v)) else raise "json"
            end
      end
  end.

(** ** Cancelling a join *)
Definition err_text (pre : string) (r : string + ()) : list string :=
  match r with inl e => [pre +:+ e] | inr _ => [] end.

(** Common tail for an answer that is not a plain acceptance: [err] is the error of the
    first call; the description dereferences it. *)
Definition cancel_refused (st : Z) (response : string) (err : option string) : M (Node S) Resp :=
  WriteHeader st;;;
  match error_map response, err with
  | Some j, _ => ret (mkResp st (BJson j))
  | None, Some e => ret (mkResp st (BJson (errMsg "An error occurred" e)))
  | None, None => panic
  end.

Definition cancel_response (poolID : Z) : string :=
  jq ("{'account':'','pool_id':" +:+ Itoa poolID +:+ "}").

(** json.NewDecoder(r.Body).Decode(&req), req a struct variable. *)
Definition decode_struct (t : ty) (body : option string) : option json :=
  b ← body; '(j, _) ← json_parse_prefix b;
  let '(v, ok) := decode t (zero t) j in if ok : bool then Some v else None.
Definition int_field (n : string) (j : json) : Z :=
  match field n j with JNum lit => match Atoi lit with inr z => z | inl _ => 0 end | _ => 0 end.

Definition HandlePoolCancelJoin (method action : string) (body : option string) : M (Node S) Resp :=
  match decode_struct PoolCancelJoinRequest body with
  | None => ret (http_Error "" StatusBadRequest)
  | Some req =>
      let poolID := int_field "pool_id" req in
      r <- callBlockchain method action (to_payload req);;
      match r with
      | inl (st, e) =>
          open <- try (checkIfUserHasOpenPoolRequests (Itoa poolID));;
          match open with
          | inr false =>
              e1 <- try (updatePoolName "0");;
              e2 <- try (updateChainName "");;
              e3 <- try StopPingServer;;
              let msgs := (err_text "Error in updatePoolName: " e1 ++ err_text "Error in updateChainName: " e2
                           ++ err_text "Error in Ping server: " e3)%list in
              match msgs with
              | [] => cancel_refused StatusAccepted (cancel_response poolID) (Some e)
              | _ =>
                  WriteHeader StatusExpectationFailed;;;
                  ret (mkResp StatusExpectationFailed
                    (BJson (errMsg "Pool Cancel Join is submitted but Error in cleanup" (String.concat ", " msgs))))
              end
          | _ => cancel_refused st "" (Some e)
          end
      | inr (response, st) =>
          let st := if st =? StatusOK then StatusAccepted else st in
          if negb (st =? StatusAccepted) then cancel_refused st response None
          else
            cleanLeaveJoinPool poolID;;;
            WriteHeader st;;;
            ret (mkResp st (BJson (struct_json PoolCancelJoinResponse response)))
      end
  end.

(** ** Discovery of the node's own pool *)
Fixpoint discover_member (poolID : Z) (chainList : list string) : M (Node S) () :=
  match chainList with
  | [] => raise ("not a member of pool " +:+ Itoa poolID +:+ " on any supported chain")
  | chainName :: rest =>
      r <- try (HandleIsMemberOfPool o (clusterPeerID o) poolID chainName);;
      match r with
      | inr resp =>
          if r_IsMember resp then
            _ <- try (updatePoolName (Itoa poolID));;
            _ <- try (updateChainName chainName);;
            ret ()
          else discover_member poolID rest
      | inl _ => discover_member poolID rest
      end
  end.
Definition discoverPoolAndChain (poolID : Z) : M (Node S) () := discover_member poolID ["skale"; "base"].

(** [isFetching]: another call of it is running. The member map is only made, never filled. *)
Definition FetchUsersAndPopulateSets (isFetching : bool) (topicString : string) (initiate : bool) : M (Node S) () :=
  if isFetching then raise "FetchUsersAndPopulateSets is already being executed" else
  match Atoi topicString with
  | inl _ => raise "invalid topic, not an integer"
  | inr topic =>
      if topic <=? 0 then ret () else
      if initiate then
        currentChain <- getChainName;;
        if (currentChain =? "")%string || (topicString =? "0")%string
        then _ <- try (discoverPoolAndChain (u32 topic));; ret ()
        else ret ()
      else ret ()
  end.

(** ** Batch upload *)
Definition creator_path (poolID : Z) : string := "/internal/.tmp/pool_" +:+ Itoa poolID +:+ "_creator.tmp".

(** A missing file and an unreadable one look the same to the caller. *)
Definition loadCreatorPeerID (poolID : Z) : M (Node S) string :=
  r <- os_ReadFile (creator_path poolID);;
  ret (match r with Some data => TrimSpace data | None => "" end).
Definition saveCreatorPeerID (poolID : Z) (peerID : string) : M (Node S) () := os_WriteFile (creator_path poolID) peerID.

Definition cluster_host (poolID : Z) : string := Itoa poolID +:+ ".pools.functionyard.fula.network".

Definition getClusterEndpoint (poolID : Z) : M (Node S) string :=
  cached <- loadCreatorPeerID poolID;;
  if negb (cached =? "")%string then ret (cluster_host poolID) else
  configured <- getChainName;;
  let chainName := if (configured =? "")%string then "skale" else configured in
  r <- try (GetPoolCreatorPeerID o (u32 poolID) chainName);;
  peerID <- match r with
            | inr p => ret p
            | inl _ =>
                let fallbackChain := if (chainName =? "base")%string then "skale" else "base" in
                p <- wrapErr "failed to get pool creator peer ID from both chains"
                       (GetPoolCreatorPeerID o (u32 poolID) fallbackChain);;
                _ <- try (updateChainName fallbackChain);;
                ret p
            end;;
  _ <- try (saveCreatorPeerID poolID peerID);;
  ret (cluster_host poolID).

Record BatchUpload := mkBatch {
  bu_Cid : option (list string); bu_PoolID : Z; bu_ReplicationFactor : list Z; bu_ManifestMetadata : list json }.

Definition strings_of (j : json) : option (list string) :=
  match j with JArr l => Some (omap (fun x => match x with JStr s => Some s | _ => None end) l) | _ => None end.

Definition convertMobileRequestToFullRequest (mobileReq : json) : BatchUpload :=
  let cids := strings_of (field "cid" mobileReq) in
  let meta c := JObj [("job", JObj [("work", JStr "Storage"); ("engine", JStr "IPFS"); ("uri", JStr c)])] in
  mkBatch cids (int_field "pool_id" mobileReq)
    (map (fun _ => int_field "replication_factor" mobileReq) (default [] cids))
    (map meta (default [] cids)).

(** http.Post: a URL without the http or https scheme is refused by the transport. *)
Definition http_Post (url : string) (payload : json) : M (Node S) HttpReply :=
  if HasPrefix (ToLower url) "http://" || HasPrefix (ToLower url) "https://" then http_Do url payload
  else ret (ReplyErr "unsupported protocol scheme").

Definition failed_dependency (message description : string) : M (Node S) Resp :=
  writeError StatusFailedDependency message description.

Definition batch_accepted : M (Node S) Resp :=
  WriteHeader StatusAccepted;;; ret (mkResp StatusAccepted (BJson (zero ManifestBatchUploadResponse))).

Definition handleActionManifestBatchUpload (req : BatchUpload) : M (Node S) Resp :=
  if negb (bu_PoolID req =? 0) then
    r <- try (getClusterEndpoint (bu_PoolID req));;
    match r with
    | inl e => failed_dependency "Error" e
    | inr clusterEndPoint =>
        if negb (clusterEndPoint =? "")%string then
          resp <- http_Post (clusterEndPoint +:+ "/pins")
                    (JObj [("pool_id", JNum (Itoa (bu_PoolID req)));
                           ("cids", match bu_Cid req with None => JNull | Some l => JArr (map JStr l) end)]);;
          match resp with
          | ReplyErr e => failed_dependency "Error" e
          | Reply st b =>
              if negb (st =? StatusAccepted)
              then writeError st "Replication Error" (default "" b)
              else batch_accepted
          end
        else failed_dependency "Error" "Wrong cluster endpoint"
    end
  else batch_accepted.

(** The dispatch table's entry for the action. *)
Definition manifestBatchUpload (body : option string) : M (Node S) Resp :=
  match decode_struct ManifestBatchUploadMobileRequest body with
  | None => ret (http_Error "" StatusBadRequest)
  | Some mobileReq => handleActionManifestBatchUpload (convertMobileRequestToFullRequest mobileReq)
  end.

(** ** Replication *)
(** go-cid and the ipfs-cluster client ([None]: not configured); the n-th effect's Pin
    returns the pinned CID's text. *)
Context (cid_Decode : string -> outcome string) (ipfsClusterApi : option (nat -> string -> string + string)).

Definition pin (api : nat -> string -> string + string) (c : string) : M (Node S) (string + string) :=
  fun w => (Ok (api (n_fx w) c), bump w).

(** The CIDs pinned, by the texts of the cluster's answers, and the CIDs asked for. *)
Fixpoint pin_all (api : nat -> string -> string + string) (manifests : list json) : M (Node S) (list string * list string) :=
  match manifests with
  | [] => ret ([], [])
  | m :: rest =>
      match cid_Decode (match field "cid" m with JStr s => s | _ => "" end) with
      | Panic => panic
      | Err _ => pin_all api rest
      | Ok c =>
          r <- pin api c;;
          more <- pin_all api rest;;
          ret (match r with inl _ => more.1 | inr t => t :: more.1 end, c :: more.2)
      end
  end.

(** The response, and the CIDs the cluster was asked to pin. *)
Definition handleReplicateInPool (method : string) (body : option string) : M (Node S) (Resp * list string) :=
  let plain (m : M (Node S) Resp) := r <- m;; ret (r, []) in
  match decode_struct ReplicateRequest body with
  | None => ret (http_Error "cannot parse request body" StatusBadRequest, [])
  | Some req =>
      r <- callBlockchain method actionManifestAvailableBatch (Plain req);;
      match r with
      | inl (st, e) => plain (relay_error st "" e)
      | inr (response, st) =>
          if negb (st =? StatusOK) then plain (relay_status st response) else
          match (j ← json_parse response;
                 let '(v, ok) := decode ReplicateResponse (zero ReplicateResponse) j in
                 if ok : bool then Some v else None) with
          | None => plain (failed_dependency "An error occurred" "json")
          | Some res =>
              match field "manifests" res with
              | JArr ((_ :: _) as manifests) =>
                  match Atoi (topicName o) with
                  | inl _ => plain (failed_dependency "An error occurred" "endpoint is not a member of valid pool")
                  | inr poolInt =>
                      if negb (int_field "pool_id" req =? poolInt) then
                        plain (failed_dependency "An error occurred" "Endpoint is not a member of requested replication pool")
                      else
                      match ipfsClusterApi with
                      | None => plain (failed_dependency "An error occurred" "ipfs cluster API is nil")
                      | Some api =>
                          p <- pin_all api manifests;;
                          WriteHeader StatusAccepted;;;
                          ret (mkResp StatusAccepted
                                 (BJson (match p.1 with [] => JNull | l => JArr (map JStr l) end)), p.2)
                      end
                  end
              | _ => WriteHeader StatusNoContent;;; ret (mkResp StatusNoContent BEmpty, [])
              end
          end
      end
  end.

(** ** What is relayed *)
Lemma only_fx_LoadKey : keeps only_fx LoadKey.
Proof. unfold LoadKey. keeps_go. Qed.
Hint Resolve only_fx_LoadKey : keeps.

(** The seed the device's key store gives at [w], "" when it cannot be read. *)
Definition device_seed (w : Node S) : string := match (LoadKey w).1 with Ok s => s | _ => "" end.

Lemma PlugSeed_spec action req w :
  exists w1, only_fx w w1 /\
  PlugSeedIfNeeded action req w =
    (Ok (match req with
         | Plain j => j
         | PtrStruct fields =>
             JObj (fields ++ if bool_decide (action ∈ seededActions) then [("seed", JStr (device_seed w))] else [])
         end), w1).
Proof.
  unfold PlugSeedIfNeeded, device_seed. destruct (bool_decide _).
  - pose proof (only_fx_LoadKey w) as Hk.
    unfold bind, try. destruct (LoadKey w) as [[s|e|] w1] eqn:El; cbn [fst snd] in *.
    + exists w1. split; [exact Hk | by destruct req].
    + exists w1. split; [exact Hk | by destruct req].
    + exfalso. unfold LoadKey, os_ReadFile, fs_step, bind, gets in El. cbn in El.
      destruct (env_fs _); [|done]. by destruct (n_files w !! _).
  - exists w. split; [apply PreOrder_Reflexive|]. destruct req; [by rewrite app_nil_r | done].
Qed.

(** What the handler makes of the API's reply. *)
Definition relayed (rt : ty) (r : HttpReply) : outcome Resp :=
  let with_status st b := if (100 <=? st) && (st <=? 999) then Ok (mkResp st b) else Panic in
  match r with
  | ReplyErr _ => Panic
  | Reply st None => with_status st (BJson (errMsg "An error occurred" "read"))
  | Reply st (Some b) =>
      if st =? 200 then Ok (mkResp 202 (BJson (response_json rt b)))
      else with_status st (if is_json_map b then BText b else BJson (errMsg "Error" b))
  end.

Lemma relay_struct a q r : relay_types a = Some (q, r) -> exists fs, q = TStruct fs.
Proof.
  unfold relay_types. intros H. apply elem_of_list_to_map_2 in H.
  assert (Forall (fun x => match x.2.1 with TStruct _ => True | _ => False end) relayTypes) as Hf by repeat constructor.
  rewrite Forall_forall in Hf. specialize (Hf _ H). cbn in Hf. destruct q; try done. by eexists.
Qed.

Lemma decode_request_typed t body v :
  decode_request t body = Some v -> v = JNull \/ typed t v = true.
Proof.
  unfold decode_request, mbind, option_bind. destruct body as [b|]; [|done].
  destruct (json_parse_prefix b) as [[j r]|]; [|done].
  unfold decode_new. destruct j; try (intros [= <-]; by left);
    match goal with |- context [decode t (zero t) ?j] => pose proof (decode_typed t (zero t) j (zero_typed t)) as H;
      destruct (decode t (zero t) j) as [u []]; [intros [= <-]; by right | done] end.
Qed.

(** The seed the key store holds at the disk's next access, "" when it cannot be read. *)
Definition stored_seed (w : Node S) : string :=
  match env_fs (n_fx w), n_files w !! (dbPath +:+ "/secret_seed.txt") with
  | FsOk, Some data => TrimSpace data
  | _, _ => ""
  end.

Lemma PlugSeed_run action req w :
  PlugSeedIfNeeded action req w =
    let seeded := bool_decide (action ∈ seededActions) in
    (Ok (match req with
         | Plain j => j
         | PtrStruct fields => JObj (fields ++ if seeded then [("seed", JStr (stored_seed w))] else [])
         end), if seeded then bump w else w).
Proof.
  unfold PlugSeedIfNeeded, LoadKey, os_ReadFile, fs_step, try, bind, gets, stored_seed. cbn zeta.
  destruct (bool_decide _); [|by destruct req; rewrite ?app_nil_r]. cbn.
  destruct (env_fs (n_fx w)); [destruct (n_files w !! _)|]; by destruct req.
Qed.

(** The members a client's object gives a request: a string or an integer member as the
    client wrote it, the zero value for one it did not write, and no others. *)
Record from_client (fs : list (string * ty)) (l fields : list (string * json)) : Prop := {
  fc_names : map fst fields = map fst fs;
  fc_string : forall n s, (n, TString) ∈ fs -> obj_field n l = [JStr s] -> (n, JStr s) ∈ fields;
  fc_int : forall n lit z, (n, TInt) ∈ fs -> obj_field n l = [JNum lit] -> Atoi lit = inr z ->
    (n, JNum (Itoa z)) ∈ fields;
  fc_absent : forall n t, (n, t) ∈ fs -> obj_field n l = [] -> (n, zero t) ∈ fields
}.

Lemma decode_from_client fs l v ok :
  decode (TStruct fs) (zero (TStruct fs)) (JObj l) = (v, ok) -> exists fields, v = JObj fields /\ from_client fs l fields.
Proof.
  pose (val := fun f : string * ty =>
    (fold_left (fun st j => let '(v, ok) := decode f.2 st.1 j in (v, st.2 && ok)) (obj_field f.1 l) (zero f.2, true)).1).
  intros H. exists (map (fun f => (f.1, val f)) fs). split.
  - cbn [decode zero] in H. injection H as <- _. f_equal. unfold val. clear. induction fs as [|[n e] fs IH]; [done|].
    cbn [map fst snd]. by f_equal.
  - split.
    + rewrite map_map. done.
    + intros n s Hn Ho. apply list_elem_of_In, in_map_iff. exists (n, TString). split; [|by apply list_elem_of_In].
      unfold val. cbn [fst snd]. rewrite Ho. done.
    + intros n lit z Hn Ho Hz. apply list_elem_of_In, in_map_iff. exists (n, TInt). split; [|by apply list_elem_of_In].
      unfold val. cbn [fst snd]. rewrite Ho. cbn. unfold Atoi in Hz. by rewrite Hz.
    + intros n t Hn Ho. apply list_elem_of_In, in_map_iff. exists (n, t). split; [|by apply list_elem_of_In].
      unfold val. cbn [fst snd]. by rewrite Ho.
Qed.

Lemma decode_request_client fs body v : decode_request (TStruct fs) body = Some v ->
  exists text j rest, body = Some text /\ json_parse_prefix text = Some (j, rest) /\
    ((j = JNull /\ v = JNull) \/ exists l fields, j = JObj l /\ v = JObj fields /\ from_client fs l fields).
Proof.
  unfold decode_request, mbind, option_bind. destruct body as [text|]; [|done].
  destruct (json_parse_prefix text) as [[j rest]|] eqn:Ej; [|done]. intros H.
  exists text, j, rest. split; [done|]. split; [done|].
  destruct j as [| | | | |l]; cbn [decode_new] in H; [injection H as <-; by left | done..|]. right.
  destruct (decode _ _ _) as [u ok] eqn:Ed. apply decode_from_client in Ed as (fields & -> & Hf).
  destruct ok; [|done]. injection H as <-. by exists l, fields.
Qed.


(** ** Batch upload *)
Lemma dec_no_scheme s t u :
  s <> "" -> sforall is_dec_char s = true -> HasPrefix (ToLower (s +:+ t)) (String "h" u) = false.
Proof.
  destruct s as [|c s]; [done|]. intros _. cbn [sforall]. intros [Hc _]%andb_prop.
  destruct c as [[] [] [] [] [] [] [] []]; vm_compute in Hc; try discriminate; reflexivity.
Qed.

(** Batch uploads to a pool are never replicated: the cluster's address has no scheme,
    so the transport refuses it, and every answered request for a pool gets 424. *)
Theorem batch_upload_always_fails req w resp w' :
  bu_PoolID req <> 0 -> handleActionManifestBatchUpload req w = (Ok resp, w') -> resp_code resp = 424.
Proof.
  intros Hp. unfold handleActionManifestBatchUpload. rewrite (proj2 (Z.eqb_neq _ _) Hp). cbn [negb].
  intros (r & w1 & Hr & H)%bind_Ok_inv. destruct r as [e|host]; [by injection H as <- _|].
  assert (host = cluster_host (bu_PoolID req)) as ->.
  { unfold try in Hr. destruct (getClusterEndpoint (bu_PoolID req) w) as [[h| |] w2] eqn:Eg; try done. injection Hr as <- _.
    unfold getClusterEndpoint in Eg. apply bind_Ok_inv in Eg as (c & w3 & _ & Eg).
    destruct (negb (c =? "")%string); [by injection Eg|].
    apply bind_Ok_inv in Eg as (c1 & w4 & _ & Eg). apply bind_Ok_inv in Eg as (c2 & w5 & _ & Eg).
    apply bind_Ok_inv in Eg as (c3 & w6 & _ & Eg). apply bind_Ok_inv in Eg as (c4 & w7 & _ & Eg). by injection Eg. }
  destruct (negb (cluster_host (bu_PoolID req) =? "")%string); [|by injection H as <- _].
  unfold http_Post, cluster_host in H. rewrite sapp_assoc in H.
  assert (Itoa (bu_PoolID req) <> "") as Hne
    by (unfold Itoa, FormatInt; destruct (_ <? 0); [done | intros E0; by apply fmt_go_nonempty in E0]).
  rewrite !(dec_no_scheme _ _ _ Hne (FormatInt_dec _)) in H. cbn [orb] in H.
  apply bind_Ok_inv in H as (r & w2 & Hq & H). injection Hq as <- <-. by injection H as <- _.
Qed.

(** ** Cancelling a join *)
(** Cancelling a join when the API refuses: the handler answers with the API's status if
    the API's body is a JSON object, and panics if it is anything else (it asks a nil error
    for its text). Either way the device's configuration is untouched. *)
Theorem cancel_join_refused method action body req st b w :
  decode_struct PoolCancelJoinRequest body = Some req ->
  (forall n p, env_http n (api_url action) p = Reply st (Some b)) ->
  100 <= st <= 999 -> st <> 200 -> st <> 202 ->
  exists w', only_fx w w' /\ HandlePoolCancelJoin method action body w =
    (match error_map b with Some j => Ok (mkResp st (BJson j)) | None => Panic end, w').
Proof.
  intros Hreq Henv Hst H200 H202. unfold HandlePoolCancelJoin. rewrite Hreq.
  destruct (PlugSeed_spec action (to_payload req) w) as (w1 & Hw & Hp).
  exists (bump w1). split.
  { etrans; [exact Hw | apply (only_fx_http (api_url action) JNull w1)]. }
  unfold callBlockchain. unfold bind at 1 2. rewrite Hp. unfold bind at 1, http_Do. rewrite Henv.
  unfold ret at 1. cbn beta iota zeta. unfold StatusOK. rewrite (proj2 (Z.eqb_neq _ _) H200).
  unfold StatusAccepted. rewrite (proj2 (Z.eqb_neq _ _) H202). cbn [negb].
  unfold cancel_refused, bind, WriteHeader. rewrite (proj2 (Z.leb_le _ _)), (proj2 (Z.leb_le _ _)) by lia.
  cbn [andb]. by destruct (error_map b).
Qed.

(** ** Replication *)
Lemma pin_all_cids api ms : forall w l w',
  pin_all api ms w = (Ok l, w') ->
  Forall (fun c => exists m, m ∈ ms /\ cid_Decode (match field "cid" m with JStr s => s | _ => "" end) = Ok c) l.2.
Proof.
  assert (forall m ms l,
    Forall (fun c => exists m', m' ∈ ms /\ cid_Decode (match field "cid" m' with JStr s => s | _ => "" end) = Ok c) l ->
    Forall (fun c => exists m', m' ∈ m :: ms /\ cid_Decode (match field "cid" m' with JStr s => s | _ => "" end) = Ok c) l) as Hmono.
  { intros m ms' l Hl. eapply Forall_impl; [exact Hl|]. intros c (m' & Hm & Hc). exists m'. split; [by right | done]. }
  induction ms as [|m ms IH]; intros w l w'; cbn [pin_all]; [intros [= <- _]; constructor|].
  destruct (cid_Decode _) as [c| |] eqn:Ec; [|intros H; apply IH in H; by apply Hmono | done].
  intros (r & w1 & _ & H)%bind_Ok_inv. apply bind_Ok_inv in H as (more & w2 & Hm & H). injection H as <- _. cbn [snd].
  constructor; [exists m; split; [by left | exact Ec]|]. apply Hmono. by eapply IH.
Qed.

(** Replication pins only what it should: if the cluster is asked to pin anything, the
    request named the pool the device is configured for, the cluster client is set, and
    every CID asked for is the decoding of an entry of a 200 answer of the API's
    available-manifests query. *)
Theorem replicate_guard method body w resp pins w' :
  handleReplicateInPool method body w = (Ok (resp, pins), w') -> pins <> [] ->
  exists req n payload response j v ms,
    decode_struct ReplicateRequest body = Some req /\
    Atoi (topicName o) = inr (int_field "pool_id" req) /\ is_Some ipfsClusterApi /\
    env_http n (api_url actionManifestAvailableBatch) payload = Reply 200 (Some response) /\
    json_parse response = Some j /\ decode ReplicateResponse (zero ReplicateResponse) j = (v, true) /\
    field "manifests" v = JArr ms /\
    Forall (fun c => exists m, m ∈ ms /\ cid_Decode (match field "cid" m with JStr s => s | _ => "" end) = Ok c) pins.
Proof.
  unfold handleReplicateInPool. destruct (decode_struct ReplicateRequest body) as [req|]; [|by intros [= <- <- _]].
  intros (r & w1 & Hcall & H)%bind_Ok_inv Hne.
  assert (forall m w2, bind m (fun r => ret (r, [])) w2 = (Ok (resp, pins), w') -> False) as Hplain.
  { intros m w2 (x & w3 & _ & Hx)%bind_Ok_inv. by injection Hx as _ <- _. }
  destruct r as [[st e]|[response st]]; [by apply Hplain in H|].
  destruct (Z.eqb_spec st StatusOK) as [->|]; cbn [negb] in H; [|by apply Hplain in H].
  unfold callBlockchain in Hcall. apply bind_Ok_inv in Hcall as (payload & w2 & _ & Hcall).
  apply bind_Ok_inv in Hcall as (rep & w3 & Hh & Hcall). unfold http_Do in Hh. injection Hh as Hh _.
  destruct rep as [|st' [b|]]; try done. injection Hcall as -> -> _.
  unfold mbind, option_bind in H. destruct (json_parse response) as [j|] eqn:Ej; [|by apply Hplain in H].
  destruct (decode ReplicateResponse (zero ReplicateResponse) j) as [v []] eqn:Ed; [|by apply Hplain in H].
  destruct (field "manifests" v) as [| | | |[|m ms]|] eqn:Ef;
    try (apply bind_Ok_inv in H as (? & ? & _ & H); by injection H as _ <- _).
  destruct (Atoi (topicName o)) as [|poolInt]; [by apply Hplain in H|].
  destruct (Z.eqb_spec (int_field "pool_id" req) poolInt) as [Hpi|]; cbn [negb] in H; [|by apply Hplain in H].
  destruct ipfsClusterApi as [api|]; [|by apply Hplain in H].
  apply bind_Ok_inv in H as (p & w4 & Hpin & H). apply bind_Ok_inv in H as (u & w5 & _ & H). injection H as _ <- _.
  exists req, (n_fx w2), payload, response, j, v, (m :: ms). split_and!; try done; [by rewrite Hpi|].
  by eapply pin_all_cids.
Qed.

End relay.

(** ** Witnesses *)
Definition toy_api (url : string) : string :=
  if (url =? "http://10.0.0.1/fula/manifest/available_batch")%string then jq "{'manifests':[{'cid':'bafy1','replication_available':2}]}"
  else jq "{'pool_id':7,'storage':'s','uploader':'u','cid':'bafy1'}".

#[local] Instance apiEnv : Env := {|
  env_http := fun _ url _ => Reply 200 (Some (toy_api url));
  env_timer := fun _ _ => true; env_now := fun _ => 0; env_fs := fun _ => FsOk |}.

Definition api_node : Node unit := mkNode 0 tt {["/s/secret_seed.txt" := "word word"]} ∅ None [] [].
Definition api_options : Options :=
  mkOptions 30 "10.0.0.1" "7" "self" "" false false None.


(** What is sent in that case: the client's members, its own seed left out. *)
Example manifest_store_sent :
  (PlugSeedIfNeeded "/s" actionManifestStore
     (to_payload (default JNull (decode_request ManifestStoreRequest
        (Some (jq "{'uploader':'u','seed':'mine','pool_id':7,'cid':'bafy1'}"))))) api_node).1
  = Ok (JObj [("uploader", JStr "u"); ("cid", JStr "bafy1"); ("pool_id", JNum "7"); ("seed", JStr "word word")]).
Proof. vm_compute. reflexivity. Qed.

(** The creator is cached, so the cluster's address is known at once. *)
Definition cached_node : Node unit := mkNode 0 tt {[creator_path 7 := "12D3Koo"]} ∅ None [] [].
#[local] Existing Instance rawMultibase.
#[local] Existing Instance toyCrypto.

Lemma batch_upload_always_fails_witness :
  exists resp w', manifestBatchUpload api_options (Some (jq "{'cid':['bafy1'],'pool_id':7,'replication_factor':3}"))
                    cached_node = (Ok resp, w') /\ resp_code resp = 424.
Proof.
  set (req := mkBatch (Some ["bafy1"]) 7 [3]
    [JObj [("job", JObj [("work", JStr "Storage"); ("engine", JStr "IPFS"); ("uri", JStr "bafy1")])]]).
  assert (exists resp w', handleActionManifestBatchUpload api_options req cached_node = (Ok resp, w')) as (resp & w' & H)
    by (do 2 eexists; vm_compute; reflexivity).
  exists resp, w'. split.
  - transitivity (handleActionManifestBatchUpload api_options req cached_node); [vm_compute; reflexivity | exact H].
  - apply (batch_upload_always_fails api_options req cached_node resp w'); [discriminate | exact H].
Defined.

#[local] Instance refusingApi : Env := {|
  env_http := fun _ _ _ => Reply 503 (Some "service unavailable");
  env_timer := fun _ _ => true; env_now := fun _ => 0; env_fs := fun _ => FsOk |}.

Lemma cancel_join_refused_witness :
  exists w', only_fx api_node w' /\
    HandlePoolCancelJoin (E := refusingApi) api_options "/s" MethodPost actionPoolCancelJoin
      (Some (jq "{'pool_id':7}")) api_node = (Panic, w').
Proof.
  apply (cancel_join_refused (E := refusingApi) api_options "/s" MethodPost actionPoolCancelJoin
    (Some (jq "{'pool_id':7}")) (JObj [("pool_id", JNum "7")]) 503 "service unavailable" api_node);
    [vm_compute; reflexivity | reflexivity | lia..].
Defined.

Definition toy_pin (_ : nat) (c : string) : string + string := inr c.

Lemma replicate_guard_witness :
  let body := Some (jq "{'cids':['bafy1'],'uploader':'u','pool_id':7}") in
  exists resp w', handleReplicateInPool (E := apiEnv) api_options "/s" (fun c => Ok c) (Some toy_pin) MethodPost body
                    api_node = (Ok (resp, ["bafy1"]), w') /\
  exists req n payload response j v ms,
    decode_struct ReplicateRequest body = Some req /\
    Atoi (topicName api_options) = inr (int_field "pool_id" req) /\ is_Some (Some toy_pin) /\
    env_http (Env := apiEnv) n (api_url api_options actionManifestAvailableBatch) payload = Reply 200 (Some response) /\
    json_parse response = Some j /\ decode ReplicateResponse (zero ReplicateResponse) j = (v, true) /\
    field "manifests" v = JArr ms /\
    Forall (fun c => exists m, m ∈ ms /\ Ok (match field "cid" m with JStr s => s | _ => "" end) = Ok c) ["bafy1"].
Proof.
  intros body.
  assert (exists resp w', handleReplicateInPool (E := apiEnv) api_options "/s" (fun c => Ok c) (Some toy_pin) MethodPost
    body api_node = (Ok (resp, ["bafy1"]), w')) as (resp & w' & H) by (do 2 eexists; vm_compute; reflexivity).
  exists resp, w'. split; [exact H|].
  apply (replicate_guard (E := apiEnv) api_options "/s" (fun c => Ok c) (Some toy_pin) MethodPost body api_node
    resp ["bafy1"] w' H). discriminate.
Defined.
