(* ===== verification/Nas.v ===== *)
(** * blockchain/bl_nas.go, wap/pkg/wifi (GetKuboPeerID): the NAS password

    The owner asks for the Samba credentials of one device. The request names the device by
    its kubo peer id, so that a request signed for one device of an owner cannot be replayed
    to another; the credentials come from a file another service writes. *)

From S2P Require Import Prelude GoStd Json Effects Node.

#[local] Open Scope string_scope.
#[local] Open Scope Z_scope.

Definition nasCredentialsMaxBytes : nat := 4096.
Definition nasCredentialsPath : string := "/internal/nas/credentials.json".
Definition kuboConfigPath : string := "/internal/ipfs_data/config".

Record NasCredentialsFile := mkCreds { nc_Username : string; nc_Password : string; nc_Share : string; nc_CreatedAt : string }.

(** json.Unmarshal into nasCredentialsFile. *)
Definition decode_creds (data : string) : option NasCredentialsFile :=
  j ← json_parse data; l ← as_object j;
  let '(u, ok1) := field_string "" (obj_field "username" l) in
  let '(p, ok2) := field_string "" (obj_field "password" l) in
  let '(s, ok3) := field_string "" (obj_field "share" l) in
  let '(c, ok4) := field_string "" (obj_field "created_at" l) in
  if ok1 && ok2 && ok3 && ok4 then Some (mkCreds u p s c) else None.

(** Decoding one string field of a struct; Decode reads the first value of its input. *)
Definition decode_one (name text : string) : option string :=
  l ← decode_body (Some text);
  let '(v, ok) := field_string "" (obj_field name l) in if ok : bool then Some v else None.

(** A nested struct with one string field. *)
Definition dec_peer (cur : string) (j : json) : option string :=
  l ← as_object j;
  let '(v, ok) := field_string cur (obj_field "PeerID" l) in if ok : bool then Some v else None.
Definition decode_identity (text : string) : option string :=
  j ← json_parse text; l ← as_object j;
  let '(v, ok) := decode_field dec_peer "" (obj_field "Identity" l) in if ok : bool then Some v else None.

(** NasCredentialsResponse: every field but the status is omitted when empty. *)
Definition opt_field (name v : string) : list (string * json) := if (v =? "")%string then [] else [(name, JStr v)].
Definition nas_response (status : string) (c : NasCredentialsFile) (hostname : string) : json :=
  JObj (("status", JStr status) :: opt_field "username" (nc_Username c) ++ opt_field "password" (nc_Password c)
        ++ opt_field "share" (nc_Share c) ++ opt_field "created_at" (nc_CreatedAt c) ++ opt_field "hostname" hostname)%list.
Definition no_creds : NasCredentialsFile := mkCreds "" "" "" "".

Section nas.
Context {S : Type} `{PS : PoolStore S} `{E : Env}.
Context (hostname : string).   (** os.Hostname *)

(** The running kubo, or else its config file. *)
Definition GetKuboPeerID : M (Node S) string :=
  r <- http_Do "http://127.0.0.1:5001/api/v0/id" JNull;;
  let id := match r with Reply _ (Some b) => default "" (decode_one "ID" b) | _ => "" end in
  if negb (id =? "")%string then ret id else
  f <- os_ReadFile kuboConfigPath;;
  match f with
  | None => raise "both kubo API and config file failed"
  | Some data =>
      let peer := default "" (decode_identity data) in
      if (peer =? "")%string then raise "kubo API unavailable and config file has no PeerID" else ret peer
  end.

Definition writeNasCredentialsStatus (code : Z) (status : string) : M (Node S) Resp :=
  WriteHeader code;;; ret (mkResp code (BJson (nas_response status no_creds ""))).

Definition handleNasCredentials (body : option string) : M (Node S) Resp :=
  let peer := match body with
              | None => ""
              | Some b => default "" (decode_one "blox_peer_id" (stake nasCredentialsMaxBytes b))
              end in
  if (peer =? "")%string then writeNasCredentialsStatus StatusBadRequest "bad_request" else
  self <- try GetKuboPeerID;;
  match self with
  | inl _ => writeNasCredentialsStatus StatusServiceUnavailable "unavailable"
  | inr self =>
      if (self =? "")%string then writeNasCredentialsStatus StatusServiceUnavailable "unavailable" else
      if negb (peer =? self)%string then writeNasCredentialsStatus StatusBadRequest "blox_peer_mismatch" else
      r <- fs_step;;
      f <- gets (fun w => n_files w !! nasCredentialsPath);;
      match r, f with
      | FsErr _, _ => writeNasCredentialsStatus StatusInternalServerError "error"
      | FsOk, None => writeNasCredentialsStatus StatusNotFound "not_provisioned"
      | FsOk, Some data =>
          if (nasCredentialsMaxBytes <? String.length data)%nat
          then writeNasCredentialsStatus StatusInternalServerError "error" else
          match decode_creds data with
          | None => writeNasCredentialsStatus StatusInternalServerError "malformed"
          | Some creds =>
              if (nc_Username creds =? "")%string || (nc_Password creds =? "")%string
              then writeNasCredentialsStatus StatusInternalServerError "malformed"
              else
                WriteHeader StatusOK;;;
                ret (mkResp StatusOK (BJson (nas_response "ok" creds hostname)))
          end
      end
  end.

(** ** Properties *)
Lemma status_only code st w resp w' :
  writeNasCredentialsStatus code st w = (Ok resp, w') -> resp_body resp = BJson (JObj [("status", JStr st)]) /\ resp_code resp = code.
Proof. intros (u & w1 & _ & H)%bind_Ok_inv. by injection H as <- _. Qed.

Lemma only_fx_GetKuboPeerID : keeps only_fx GetKuboPeerID.
Proof. unfold GetKuboPeerID. keeps_go. Qed.

(** C7. The password leaves the device in one case only: the request names, within its first
    4096 bytes, the peer id this device's kubo has at that moment, and the credentials file
    is at most 4096 bytes of JSON with a user and a password; the answer is then 200 with
    the file's fields. Every other answer is an error status whose body has the status word
    and nothing else. *)
Theorem nas_password_released body w resp w' :
  handleNasCredentials body w = (Ok resp, w') ->
  (exists b self w1 data creds,
     resp_code resp = 200 /\ resp_body resp = BJson (nas_response "ok" creds hostname) /\
     body = Some b /\ decode_one "blox_peer_id" (stake 4096 b) = Some self /\ self <> "" /\
     GetKuboPeerID w = (Ok self, w1) /\ n_files w !! nasCredentialsPath = Some data /\
     (String.length data <= 4096)%nat /\ decode_creds data = Some creds /\ nc_Username creds <> "" /\
     nc_Password creds <> "") \/
  (resp_code resp <> 200 /\ exists status, resp_body resp = BJson (JObj [("status", JStr status)])).
Proof.
  intros H.
  assert (forall code st w1, code <> 200 -> writeNasCredentialsStatus code st w1 = (Ok resp, w') ->
    resp_code resp <> 200 /\ exists status, resp_body resp = BJson (JObj [("status", JStr status)])) as Hs.
  { intros code st w1 Hc Hw. apply status_only in Hw as [Hb <-]. eauto. }
  unfold handleNasCredentials in H.
  destruct body as [b|]; [|right; eapply (Hs 400); [done | exact H]]. cbn beta iota zeta in H.
  destruct (String.eqb_spec (default "" (decode_one "blox_peer_id" (stake nasCredentialsMaxBytes b))) "") as [|Hp];
    [right; eapply (Hs 400); [done | exact H]|].
  destruct (decode_one "blox_peer_id" (stake nasCredentialsMaxBytes b)) as [peer|] eqn:Ep; [|done]. cbn [from_option id] in *.
  apply bind_Ok_inv in H as (self & w1 & Hself & H). pose proof (only_fx_GetKuboPeerID w) as Hfx.
  apply try_Ok_inv in Hself as [(s & -> & Hg)|(e & -> & Hg)]; [|right; eapply (Hs 503); [done | exact H]].
  rewrite Hg in Hfx. cbn [snd] in Hfx.
  destruct (String.eqb_spec s "") as [|_]; [right; eapply (Hs 503); [done | exact H]|].
  destruct (String.eqb_spec peer s) as [<-|_]; cbn [negb] in H; [|right; eapply (Hs 400); [done | exact H]].
  apply bind_Ok_inv in H as (r & w2 & Hr & H). injection Hr as Hr <-.
  apply bind_Ok_inv in H as (f & w3 & Hf & H). injection Hf as Hf <-.
  destruct r; [|right; eapply (Hs 500); [done | exact H]].
  destruct f as [data|]; [|right; eapply (Hs 404); [done | exact H]].
  destruct (Nat.ltb_spec nasCredentialsMaxBytes (String.length data)); [right; eapply (Hs 500); [done | exact H]|].
  destruct (decode_creds data) as [creds|] eqn:Ec; [|right; eapply (Hs 500); [done | exact H]].
  destruct (String.eqb_spec (nc_Username creds) "") as [|Hu]; [right; eapply (Hs 500); [done | exact H]|].
  destruct (String.eqb_spec (nc_Password creds) "") as [|Hpw]; [right; eapply (Hs 500); [done | exact H]|].
  left. apply bind_Ok_inv in H as (u & w4 & _ & H). injection H as <- _.
  exists b, peer, w1, data, creds. split_and!; try done.
  destruct Hfx as (_ & _ & Hfiles & _). rewrite <- Hfiles. exact Hf.
Qed.
End nas.

(** ** Witness *)
#[local] Instance kuboEnv : Env := {|
  env_http := fun _ _ _ => Reply 200 (Some (jq "{'ID':'12D3KooBlox'}"));
  env_timer := fun _ _ => true; env_now := fun _ => 0; env_fs := fun _ => FsOk |}.

Definition nas_node : Node unit :=
  mkNode 0 tt {[nasCredentialsPath := jq "{'username':'pi','password':'secret','share':'fula'}"]} ∅ None [] [].

Lemma nas_password_released_witness :
  let body := Some (jq "{'blox_peer_id':'12D3KooBlox'}") in
  exists resp w', handleNasCredentials "blox" body nas_node = (Ok resp, w') /\ resp_code resp = 200 /\
  ((exists b self w1 data creds,
     resp_code resp = 200 /\ resp_body resp = BJson (nas_response "ok" creds "blox") /\
     body = Some b /\ decode_one "blox_peer_id" (stake 4096 b) = Some self /\ self <> "" /\
     GetKuboPeerID nas_node = (Ok self, w1) /\ n_files nas_node !! nasCredentialsPath = Some data /\
     (String.length data <= 4096)%nat /\ decode_creds data = Some creds /\ nc_Username creds <> "" /\
     nc_Password creds <> "") \/
   (resp_code resp <> 200 /\ exists status, resp_body resp = BJson (JObj [("status", JStr status)]))).
Proof.
  intros body.
  assert (exists resp w', handleNasCredentials "blox" body nas_node = (Ok resp, w') /\ resp_code resp = 200)
    as (resp & w' & H & Hc) by (do 2 eexists; split; vm_compute; reflexivity).
  exists resp, w'. split; [exact H|]. split; [exact Hc|].
  exact (nas_password_released "blox" body nas_node resp w' H).
Defined.
