(* ===== verification/Properties.v ===== *)
(** * wap/pkg/config/properties.go: the property file

    The device's properties are a JSON object in one file, read into a
    [map[string]interface{}] and written back whole. A value that went through such a map
    has its numbers as float64 and its objects without order or duplicates ([to_iface]);
    the map is printed with sorted keys. [None] is the nil map, which a file holding [null]
    is read as. *)

From stdpp Require Import sorting.
From S2P Require Import Prelude GoStd Json JsonPrint Float GoPath Effects Node Disk.

#[local] Open Scope string_scope.
#[local] Open Scope Z_scope.

Definition CUSTOM_PROPERTIES_FILE := "/internal/box_props.json".

(** ** Values of type interface{} *)
Definition key_le (a b : string * json) : Prop := String.leb a.1 b.1 = true.
#[local] Instance key_le_dec : RelDecision key_le := fun a b => decide (String.leb a.1 b.1 = true).

(** The members of a map in printing order. *)
Definition members_of (m : gmap string json) : list (string * json) := merge_sort key_le (map_to_list m).

(** Members in reading order: a later one replaces an earlier one. *)
Definition of_members (l : list (string * json)) : gmap string json :=
  fold_left (fun m kv => <[kv.1 := kv.2]> m) l ∅.

(** [None]: a number out of the range of float64. *)
Fixpoint to_iface (j : json) : option json :=
  match j with
  | JNum lit => JNum <$> float_text lit
  | JArr l => JArr <$> (fix go l := match l with
                                    | [] => Some []
                                    | x :: l' => v ← to_iface x; r ← go l'; Some (v :: r)
                                    end) l
  | JObj l => (fun r => JObj (members_of (of_members r))) <$>
              (fix go l := match l with
                           | [] => Some []
                           | (k, x) :: l' => v ← to_iface x; r ← go l'; Some ((k, v) :: r)
                           end) l
  | _ => Some j
  end.

(** json.Unmarshal into a [map[string]interface{}]. *)
Definition unmarshal_map (content : string) : option (option (gmap string json)) :=
  j ← json_parse content;
  match j with
  | JNull => Some None
  | JObj l => r ← mapM (fun kv => v ← to_iface kv.2; Some (kv.1, v)) l; Some (Some (of_members r))
  | _ => None
  end.

(** json.Marshal of such a map. *)
Definition marshal_map (p : option (gmap string json)) : string :=
  json_print (match p with None => JNull | Some m => JObj (members_of m) end).

(** ** The two operations *)
Section props.
Context {S : Type} `{PS : PoolStore S} `{E : Env}.

Definition ReadProperties : M (Node S) (option (gmap string json)) :=
  c <- read_file CUSTOM_PROPERTIES_FILE;;
  match c with
  | None => raise "no such file"
  | Some content =>
      match unmarshal_map content with
      | None => raise "json"
      | Some p => ret p
      end
  end.

Definition WriteProperties (p : option (gmap string json)) : M (Node S) () :=
  write_file CUSTOM_PROPERTIES_FILE (marshal_map p).

(** props[k] = v: assignment to an entry of a nil map panics. *)
Definition set_prop (k : string) (v : json) (p : option (gmap string json)) : M (Node S) (option (gmap string json)) :=
  match p with None => panic | Some m => ret (Some (<[k := v]> m)) end.
Definition get_prop (k : string) (p : option (gmap string json)) : option json := m ← p; m !! k.
Definition del_prop (k : string) (p : option (gmap string json)) : option (gmap string json) := delete k <$> p.
End props.

(** ** Reading what was written *)
Lemma members_of_perm m : members_of m ≡ₚ map_to_list m.
Proof. apply merge_sort_Permutation. Qed.

Lemma of_members_reverse l : of_members l = list_to_map (reverse l).
Proof.
  unfold of_members. assert (forall l0, fold_left (fun m kv => <[kv.1 := kv.2]> m) l (list_to_map l0) =
    (list_to_map (reverse l ++ l0) : gmap string json)) as H.
  { induction l as [|[k v] l IH]; intros l0; [done|]. cbn [fold_left fst snd].
    change (<[k := v]> (list_to_map l0)) with (list_to_map ((k, v) :: l0) : gmap string json).
    rewrite IH, reverse_cons, <- app_assoc. done. }
  specialize (H []). by rewrite app_nil_r in H.
Qed.

Lemma of_members_of m : of_members (members_of m) = m.
Proof.
  rewrite of_members_reverse. rewrite (list_to_map_proper (reverse (members_of m)) (map_to_list m)).
  - apply list_to_map_to_list.
  - rewrite reverse_Permutation, members_of_perm. apply NoDup_fst_map_to_list.
  - by rewrite reverse_Permutation, members_of_perm.
Qed.

(** A value that a map round trip leaves alone: its numbers are written as encoding/json
    writes them. *)
Definition settled (j : json) : Prop := to_iface j = Some j /\ nums_ok j = true.
Definition settled_map (m : gmap string json) : Prop := map_Forall (fun _ v => settled v) m.

Lemma settled_str s : settled (JStr s).
Proof. done. Qed.

Lemma settled_members m : settled_map m -> Forall (fun kv => settled kv.2) (members_of m).
Proof.
  intros Hm. apply Forall_forall. intros [k v] Hin. rewrite members_of_perm in Hin.
  apply elem_of_map_to_list in Hin. exact (Hm k v Hin).
Qed.

(** The property file round trip. *)
Lemma unmarshal_marshal m : settled_map m -> unmarshal_map (marshal_map (Some m)) = Some (Some m).
Proof.
  intros Hm. pose proof (settled_members m Hm) as Hl. unfold unmarshal_map, marshal_map. rewrite parse_print.
  - cbn. replace (mapM _ (members_of m)) with (Some (members_of m)); [cbn; by rewrite of_members_of|].
    symmetry. clear Hm. induction Hl as [|[k v] l [Hv _] Hl IH]; [done|]. cbn [mapM snd fst] in *. rewrite Hv.
    cbn. by rewrite IH.
  - cbn [nums_ok]. clear Hm. induction Hl as [|[k v] l [_ Hv] Hl IH]; [done|]. cbn in *. by rewrite Hv, IH.
Qed.

Lemma settled_insert k v m : settled v -> settled_map m -> settled_map (<[k := v]> m).
Proof. intros Hv Hm. by apply map_Forall_insert_2. Qed.
Lemma settled_delete k m : settled_map m -> settled_map (delete k m).
Proof. intros Hm. by apply map_Forall_delete. Qed.

Create HintDb props.
#[export] Hint Resolve settled_str settled_insert settled_delete : props.
