(* ===== verification/GoStruct.v ===== *)
(** * encoding/json on structs with free-form parts

    The config files that the init tools rewrite are Go structs with maps and interface{}
    fields and with omitempty. Types are data ([gty]); a value is written as a JSON value: a
    struct as the object of all its fields in order, a nil slice, map or interface as null, a
    map with sorted keys. Nil and empty slices under omitempty, which these programs do not
    tell apart, are both null. *)

From S2P Require Import Prelude GoStd Json JsonPrint Float Properties Schema.

#[local] Open Scope string_scope.

Inductive gty :=
| GStr | GInt | GBool
| GAny                                        (** interface{} *)
| GMap                                        (** map[string]interface{} *)
| GList (e : gty)
| GStruct (fs : list (string * (bool * gty))).  (** tag, omitempty, type *)

Fixpoint gzero (t : gty) : json :=
  match t with
  | GStr => JStr ""
  | GInt => JNum "0"
  | GBool => JBool false
  | GAny | GMap | GList _ => JNull
  | GStruct fs => JObj (map (fun f => (f.1, gzero f.2.2)) fs)
  end.

(** Decoding into interface{}: a number out of the range of float64 is an error, and nil. *)
Fixpoint iface (j : json) : json * bool :=
  match j with
  | JNum lit => match float_text lit with Some t => (JNum t, true) | None => (JNull, false) end
  | JArr l => let rs := map iface l in (JArr (map fst rs), forallb snd rs)
  | JObj l => let rs := map (fun kv => (kv.1, iface kv.2)) l in
              (JObj (members_of (of_members (map (fun r => (r.1, r.2.1)) rs))), forallb (fun r => r.2.2) rs)
  | _ => (j, true)
  end.

Definition arr_elems (j : json) : list json := match j with JArr l => l | _ => [] end.
Definition obj_members (j : json) : list (string * json) := match j with JObj l => l | _ => [] end.

(** The elements of an array go into those of the slice there is, then into zero ones. *)
Fixpoint decode_elems (dec : json -> json -> json * bool) (z : json) (cs l : list json) : list (json * bool) :=
  match l with
  | [] => []
  | x :: l => dec (hd z cs) x :: decode_elems dec z (tl cs) l
  end.

(** The occurrences of a field's key, in order. *)
Definition decode_occs (dec : json -> json -> json * bool) (occs : list json) (c : json) : json * bool :=
  fold_left (fun st j => let '(v, ok) := dec st.1 j in (v, st.2 && ok)) occs (c, true).

Definition omit_nil (omitempty : bool) (v : json) : json :=
  if omitempty then match v with JArr [] => JNull | _ => v end else v.

(** json.Unmarshal into a variable of type [t] that holds [cur], as [Schema.decode]; a JSON
    object adds to a map that is there. *)
Fixpoint gdecode (t : gty) (cur j : json) {struct t} : json * bool :=
  match t with
  | GStr => match j with JNull => (cur, true) | JStr s => (JStr s, true) | _ => (cur, false) end
  | GInt => decode_int (fun lit => ParseInt lit 10 64) cur j
  | GBool => match j with JNull => (cur, true) | JBool b => (JBool b, true) | _ => (cur, false) end
  | GAny => iface j
  | GMap =>
      match j with
      | JNull => (JNull, true)
      | JObj l => let rs := map (fun kv => (kv.1, iface kv.2)) l in
                  (JObj (members_of (of_members (obj_members cur ++ map (fun r => (r.1, r.2.1)) rs))),
                   forallb (fun r => r.2.2) rs)
      | _ => (cur, false)
      end
  | GList e =>
      match j with
      | JNull => (JNull, true)
      | JArr l => let rs := decode_elems (gdecode e) (gzero e) (arr_elems cur) l in (JArr (map fst rs), forallb snd rs)
      | _ => (cur, false)
      end
  | GStruct fs =>
      match j, cur with
      | JNull, _ => (cur, true)
      | JObj l, JObj cs =>
          let rs :=
            (fix go (fs : list (string * (bool * gty))) (cs : list (string * json)) : list (string * (json * bool)) :=
               match fs, cs with
               | (n, (om, e)) :: fs, (_, c) :: cs =>
                   let r := decode_occs (gdecode e) (obj_field n l) c in
                   (n, (omit_nil om r.1, r.2)) :: go fs cs
               | _, _ => []
               end) fs cs in
          (JObj (map (fun r => (r.1, r.2.1)) rs), forallb (fun r => r.2.2) rs)
      | _, _ => (cur, false)
      end
  end.

(** What omitempty leaves out. *)
Definition is_empty (v : json) : bool :=
  match v with
  | JNull | JBool false | JArr [] => true
  | JStr s => (s =? "")%string
  | JNum lit => (lit =? "0")%string
  | _ => false
  end.

(** json.Marshal, as the JSON value it writes. *)
Fixpoint gencode (t : gty) (v : json) {struct t} : json :=
  match t with
  | GList e => match v with JArr l => JArr (map (gencode e) l) | _ => v end
  | GStruct fs =>
      JObj ((fix go (fs : list (string * (bool * gty))) (cs : list (string * json)) : list (string * json) :=
               match fs, cs with
               | (n, (om, e)) :: fs, (_, c) :: cs =>
                   if om && is_empty c then go fs cs else (n, gencode e c) :: go fs cs
               | _, _ => []
               end) fs (obj_members v))
  | _ => v
  end.

(** ** Values of a type *)
Fixpoint gtyped (t : gty) (v : json) {struct t} : Prop :=
  match t with
  | GStr => exists s, v = JStr s
  | GInt => typed_int (fun lit => ParseInt lit 10 64) v = true
  | GBool => exists b, v = JBool b
  | GAny => settled v
  | GMap => v = JNull \/ exists m, v = JObj (members_of m) /\ settled_map m
  | GList e => v = JNull \/ exists l, v = JArr l /\ Forall (gtyped e) l
  | GStruct fs => exists cs, v = JObj cs /\
      (fix go (fs : list (string * (bool * gty))) (cs : list (string * json)) : Prop :=
         match fs, cs with
         | [], [] => True
         | (n, (om, e)) :: fs, (m, c) :: cs => (n = m /\ gtyped e c /\ (om = true -> c <> JArr [])) /\ go fs cs
         | _, _ => False
         end) fs cs
  end.

Section gty_ind.
Context (P : gty -> Prop) (Hs : P GStr) (Hi : P GInt) (Hb : P GBool) (Ha : P GAny) (Hm : P GMap)
  (Hl : forall e, P e -> P (GList e)) (Hstruct : forall fs, Forall (fun f => P f.2.2) fs -> P (GStruct fs)).

Fixpoint gty_nested (t : gty) : P t :=
  match t with
  | GStr => Hs | GInt => Hi | GBool => Hb | GAny => Ha | GMap => Hm
  | GList e => Hl e (gty_nested e)
  | GStruct fs =>
      Hstruct fs ((fix go (fs : list (string * (bool * gty))) : Forall (fun f => P f.2.2) fs :=
                     match fs with
                     | [] => List.Forall_nil _
                     | f :: fs => List.Forall_cons _ f fs (gty_nested f.2.2) (go fs)
                     end) fs)
  end.
End gty_ind.

Definition gfield (f : string * (bool * gty)) (kv : string * json) : Prop :=
  f.1 = kv.1 /\ gtyped f.2.2 kv.2 /\ (f.2.1 = true -> kv.2 <> JArr []).

Lemma gtyped_struct fs v : gtyped (GStruct fs) v <-> exists cs, v = JObj cs /\ Forall2 gfield fs cs.
Proof.
  cbn [gtyped]. split; intros (cs & -> & H); exists cs; (split; [done|]).
  - revert cs H. induction fs as [|[n [om e]] fs IH]; intros [|[m c] cs] H; try done. destruct H as [Hf H].
    constructor; [exact Hf | by apply IH].
  - induction H as [|[n [om e]] [m c] fs cs Hf _ IH]; [done|]. split; [exact Hf|exact IH].
Qed.

(** ** Free-form values *)

(** Every number prints as it is written. *)
Fixpoint plain (j : json) : bool :=
  match j with
  | JNum lit => match float_text lit with Some t => (t =? lit)%string | None => false end
  | JArr l => forallb plain l
  | JObj l => forallb (fun kv => plain kv.2) l
  | _ => true
  end.

Lemma of_members_settled m0 l : settled_map m0 -> Forall (fun kv => settled kv.2) l ->
  settled_map (fold_left (fun m kv => <[kv.1 := kv.2]> m) l m0).
Proof.
  intros Hm Hl. revert m0 Hm. induction Hl as [|[k v] l Hv _ IH]; intros m0 Hm; [done|].
  cbn [fold_left fst snd]. apply IH. by apply settled_insert.
Qed.

Lemma settled_obj m : settled_map m -> settled (JObj (members_of m)).
Proof.
  intros Hm. pose proof (settled_members m Hm) as Hl. split.
  - cbn [to_iface]. match goal with |- ?f <$> ?g = _ => assert (g = Some (members_of m)) as -> end.
    { clear Hm. induction Hl as [|[k v] l [Hv _] _ IH]; [done|]. cbn [fst snd] in *. rewrite Hv. cbn. by rewrite IH. }
    cbn. by rewrite of_members_of.
  - cbn. clear Hm. induction Hl as [|kv l [_ Hv] _ IH]; [done|]. cbn. by rewrite Hv, IH.
Qed.

Lemma settled_arr l : Forall settled l -> settled (JArr l).
Proof.
  intros Hl. split.
  - cbn [to_iface]. match goal with |- ?f <$> ?g = _ => assert (g = Some l) as -> end; [|done].
    induction Hl as [|v l [Hv _] _ IH]; [done|]. rewrite Hv. cbn. by rewrite IH.
  - cbn. induction Hl as [|v l [_ Hv] _ IH]; [done|]. cbn. by rewrite Hv, IH.
Qed.

(** A free-form value whose numbers are plain is read without error, and reads as itself
    from then on. *)
Lemma iface_plain j : plain j = true -> (iface j).2 = true /\ settled (iface j).1.
Proof.
  induction j as [|b|lit|s|l IH|l IH] using json_ind_nested; intros Hp; cbn [iface]; try (by split).
  - cbn in Hp. destruct (float_text lit) as [t|] eqn:E; [|done]. apply String.eqb_eq in Hp as ->.
    split; [done|]. split; cbn; [by rewrite E|]. exact (float_text_num _ _ _ E).
  - cbn in Hp. assert (Forall (fun j => (iface j).2 = true /\ settled (iface j).1) l) as H.
    { induction IH as [|j l Hj _ IHl]; [done|]. cbn in Hp. apply andb_true_iff in Hp as [H1 H2]. constructor; auto. }
    clear IH Hp. cbn [fst snd]. split.
    + induction H as [|j l [Hj _] _ IHl]; [done|]. cbn. by rewrite Hj.
    + apply settled_arr. induction H as [|j l [_ Hj] _ IHl]; [constructor|]. by constructor.
  - cbn in Hp. assert (Forall (fun kv : string * json => (iface kv.2).2 = true /\ settled (iface kv.2).1) l) as H.
    { induction IH as [|j l Hj _ IHl]; [done|]. cbn in Hp. apply andb_true_iff in Hp as [H1 H2]. constructor; auto. }
    clear IH Hp. cbn [fst snd]. split.
    + induction H as [|kv l [Hj _] _ IHl]; [done|]. cbn. by rewrite Hj.
    + apply settled_obj. unfold of_members. apply of_members_settled; [by intros k v ?|]. rewrite map_map. cbn.
      induction H as [|kv l [_ Hj] _ IHl]; [constructor|]. by constructor.
Qed.

(** A settled value is read as it is. *)
Lemma settled_iface v : settled v -> iface v = (v, true).
Proof.
  intros [H _]. assert (forall v x, to_iface v = Some x -> iface v = (x, true)) as Hg; [|by apply Hg].
  clear. induction v as [|b|lit|s|l IH|l IH] using json_ind_nested; intros x H; cbn [iface to_iface] in *; try (by injection H as <-).
  - destruct (float_text lit); [|done]. by injection H as <-.
  - match type of H with ?f <$> ?g = _ => destruct g as [r|] eqn:E; [|done] end. injection H as <-.
    assert (map iface l = map (fun v => (v, true)) r) as ->.
    { revert r E. induction IH as [|v l Hv _ IHl]; intros r E; [by injection E as <-|].
      destruct (to_iface v) as [y|] eqn:Ey; [|done]. cbn in E.
      match type of E with (?g ≫= _) = _ => destruct g as [r'|] eqn:E'; [|done] end. injection E as <-. cbn.
      f_equal; [by apply Hv|by apply IHl]. }
    rewrite map_map. cbn. rewrite map_id. f_equal. clear. by induction r.
  - match type of H with ?f <$> ?g = _ => destruct g as [r|] eqn:E; [|done] end. injection H as <-.
    assert (map (fun kv => (kv.1, iface kv.2)) l = map (fun kv : string * json => (kv.1, (kv.2, true))) r) as ->.
    { revert r E. induction IH as [|[k v] l Hv _ IHl]; intros r E; [by injection E as <-|]. cbn [fst snd] in *.
      destruct (to_iface v) as [y|] eqn:Ey; [|done]. cbn in E.
      match type of E with (?g ≫= _) = _ => destruct g as [r'|] eqn:E'; [|done] end. injection E as <-. cbn.
      f_equal; [by rewrite (Hv y)|by apply IHl]. }
    rewrite map_map. cbn. f_equal; [f_equal; f_equal; f_equal|]; clear; induction r as [|[k v] r IH]; cbn; congruence.
Qed.

(** ** Decoding gives values of the type *)
Lemma gzero_typed t : gtyped t (gzero t).
Proof.
  induction t as [| | | | |e IH|fs IH] using gty_nested; cbn [gzero]; try (by eexists); try (by left); try done.
  apply gtyped_struct. eexists. split; [done|]. induction IH as [|[n [om e]] fs He _ IHf]; constructor; [|done].
  split; [done|]. split; [exact He|]. intros _. cbn. by destruct e.
Qed.

Lemma decode_elems_typed dec (z : json) (P : json -> Prop) l : P z -> Forall (fun x => forall c, P c -> P (dec c x).1) l -> forall cs,
  Forall P cs -> Forall P (map fst (decode_elems dec z cs l)).
Proof.
  intros Hz Hl. induction Hl as [|x l Hx _ IH]; intros cs Hcs; [constructor|]. cbn. constructor.
  - apply Hx. destruct Hcs; done.
  - apply IH. destruct Hcs; done.
Qed.

Lemma decode_occs_typed dec (P : json -> Prop) occs : Forall (fun j => forall c, P c -> P (dec c j).1) occs -> forall c, P c ->
  P (decode_occs dec occs c).1.
Proof.
  unfold decode_occs. intros Ho. assert (forall st : json * bool, P st.1 ->
    P (fold_left (fun st j => let '(v, ok) := dec st.1 j in (v, st.2 && ok)) occs st).1) as H; [|intros c Hc; by apply (H (c, true))].
  induction Ho as [|j occs Hj _ IH]; intros st Hst; [done|]. cbn. apply IH. specialize (Hj st.1 Hst). by destruct (dec st.1 j).
Qed.

Lemma omit_nil_typed om e v : gtyped e v -> gtyped e (omit_nil om v) /\ (om = true -> omit_nil om v <> JArr []).
Proof.
  destruct om; [|done]. cbn. destruct v as [| | | |[|]|]; try done. intros Hv. split; [|done]. destruct e; try done.
  - by destruct Hv.
  - by destruct Hv.
  - by left.
  - by left.
  - by destruct Hv as (? & [=] & _).
Qed.

Lemma forallb_Forall_plain l : forallb plain l = true -> Forall (fun x => plain x = true) l.
Proof. induction l as [|x l IH]; [done|]. cbn. intros [H1 H2]%andb_true_iff. constructor; auto. Qed.

Lemma plain_field n l : plain (JObj l) = true -> Forall (fun x => plain x = true) (obj_field n l).
Proof.
  cbn. intros H. apply Forall_forall. intros x Hx. unfold obj_field in Hx. apply list_elem_of_fmap in Hx as (kv & -> & Hk).
  apply list_elem_of_filter in Hk as [_ Hk]. rewrite forallb_forall in H. apply H. by apply list_elem_of_In.
Qed.

Lemma gdecode_typed t : forall cur j, gtyped t cur -> plain j = true -> gtyped t (gdecode t cur j).1.
Proof.
  induction t as [| | | | |e IH|fs IH] using gty_nested; intros cur j Hc Hp; cbn [gdecode].
  - destruct j; try done. by eexists.
  - apply decode_int_typed; [apply typed_int_ParseInt | exact Hc].
  - destruct j; try done. by eexists.
  - by apply iface_plain.
  - destruct j as [| | | | |l]; try done; [by left|]. right. cbn [fst]. eexists. split; [done|]. unfold of_members.
    apply of_members_settled; [by intros k v ?|]. apply Forall_app. split.
    + destruct Hc as [->|(m & -> & Hm)]; [constructor|by apply settled_members].
    + cbn in Hp. rewrite map_map. cbn. induction l as [|[k v] l IHl]; [constructor|]. cbn in Hp.
      apply andb_true_iff in Hp as [H1 H2]. constructor; [by apply iface_plain|by apply IHl].
  - destruct j as [| | | |l|]; try done; [by left|]. right. cbn [fst]. eexists. split; [done|].
    apply decode_elems_typed; [apply gzero_typed| |].
    + cbn in Hp. apply forallb_Forall_plain in Hp. eapply Forall_impl; [exact Hp|]. cbn. auto.
    + destruct Hc as [->|(l' & -> & Hl)]; [constructor|done].
  - destruct j as [| | | | |l]; try exact Hc. apply gtyped_struct in Hc as (cs & -> & Hc). apply gtyped_struct. cbn [fst].
    eexists. split; [done|]. clear -IH Hc Hp. revert cs Hc.
    induction IH as [|[n [om e]] fs He _ IHf]; intros cs Hc; inversion Hc as [|? [m c] ? cs' (Hn & Ht & _) Hcs]; subst; [constructor|].
    cbn [map fst snd] in *. constructor; [|by apply IHf]. split; [done|]. apply omit_nil_typed.
    apply (decode_occs_typed _ (gtyped e)); [|done]. eapply Forall_impl; [by apply plain_field|]. cbn. auto.
Qed.

(** ** Reading what was written *)
Fixpoint wf_gty (t : gty) : bool :=
  match t with
  | GList e => wf_gty e
  | GStruct fs => distinct (map fst fs) && forallb (fun f => wf_gty f.2.2) fs
  | _ => true
  end.

(** The field loops of [gencode] and [gdecode]. *)
Definition enc_fields := fix go (fs : list (string * (bool * gty))) (cs : list (string * json)) : list (string * json) :=
  match fs, cs with
  | (n, (om, e)) :: fs, (_, c) :: cs => if om && is_empty c then go fs cs else (n, gencode e c) :: go fs cs
  | _, _ => []
  end.

Definition dec_fields (l : list (string * json)) :=
  fix go (fs : list (string * (bool * gty))) (cs : list (string * json)) : list (string * (json * bool)) :=
    match fs, cs with
    | (n, (om, e)) :: fs, (_, c) :: cs =>
        let r := decode_occs (gdecode e) (obj_field n l) c in
        (n, (omit_nil om r.1, r.2)) :: go fs cs
    | _, _ => []
    end.

Lemma enc_fields_names (p : string -> bool) fs : forall cs, forallb p (map fst fs) = true ->
  forallb p (map fst (enc_fields fs cs)) = true.
Proof.
  induction fs as [|[n [om e]] fs IH]; intros cs Hp; [by destruct cs|]. cbn in Hp. apply andb_true_iff in Hp as [H1 H2].
  destruct cs as [|[m c] cs]; [done|]. cbn. destruct (om && is_empty c); [by apply IH|]. cbn. by rewrite H1, IH.
Qed.

Lemma empty_zero e c : gtyped e c -> is_empty c = true -> c <> JArr [] -> e <> GAny -> c = gzero e.
Proof.
  intros Ht He Hn Ha. destruct e; cbn [gtyped gzero] in *.
  - destruct Ht as [s ->]. cbn in He. by apply String.eqb_eq in He as ->.
  - destruct c; try done. cbn in He. by apply String.eqb_eq in He as ->.
  - by destruct Ht as [[] ->].
  - done.
  - by destruct Ht as [->|(m & -> & _)].
  - destruct Ht as [->|(l & -> & _)]; [done|]. by destruct l.
  - destruct Ht as (cs & -> & _). done.
Qed.

(** omitempty is not used on interface{} fields here. *)
Fixpoint omit_ok (t : gty) : bool :=
  match t with
  | GList e => omit_ok e
  | GStruct fs => forallb (fun f => omit_ok f.2.2 && negb (f.2.1 && match f.2.2 with GAny => true | _ => false end)) fs
  | _ => true
  end.

Lemma fields_roundtrip fs :
  Forall (fun f => forall v, wf_gty f.2.2 = true -> omit_ok f.2.2 = true -> gtyped f.2.2 v ->
    gdecode f.2.2 (gzero f.2.2) (gencode f.2.2 v) = (v, true)) fs ->
  forall pre cs, distinct (map fst fs) = true -> forallb (fun f => wf_gty f.2.2) fs = true -> omit_ok (GStruct fs) = true ->
  Forall (fun n => forallb (fun m => negb (EqualFold m n)) (map fst pre) = true) (map fst fs) -> Forall2 gfield fs cs ->
  dec_fields (pre ++ enc_fields fs cs) fs (map (fun f => (f.1, gzero f.2.2)) fs) = map (fun kv => (kv.1, (kv.2, true))) cs.
Proof.
  induction 1 as [|[n [om e]] fs He _ IH]; intros pre cs Hd Hw Ho Hpre Hcs; inversion Hcs as [|? [m c] ? cs' (Hn & Ht & Hom) Hcs']; subst; [done|].
  cbn [map fst snd forallb omit_ok distinct] in *. subst m. apply andb_true_iff in Hd as [Hd1 Hd2], Hw as [Hw1 Hw2], Ho as [Ho1 Ho2].
  apply andb_true_iff in Ho1 as [Ho1 Hany]. apply Forall_cons in Hpre as [Hp1 Hp2].
  assert (forallb (fun m => negb (EqualFold m n)) (map fst (enc_fields fs cs')) = true) as Hrest by (by apply enc_fields_names).
  assert (omit_nil om c = c) as Hoc by (destruct om; [|done]; destruct c as [| | | |[|]|]; try done; by destruct (Hom eq_refl)).
  cbn [dec_fields enc_fields]. destruct (om && is_empty c) eqn:E.
  - apply andb_true_iff in E as [-> Ec].
    assert (c = gzero e) as ->.
    { apply empty_zero; auto. intros ->. by cbn in Hany. }
    unfold obj_field. rewrite filter_app, map_app. fold (obj_field n pre) (obj_field n (enc_fields fs cs')).
    rewrite !obj_field_other by done. cbn [app].
    change (decode_occs (gdecode e) [] (gzero e)) with (gzero e, true). cbn [fst snd]. rewrite Hoc. f_equal.
    by apply IH.
  - rewrite obj_field_own by done.
    assert (decode_occs (gdecode e) [gencode e c] (gzero e) = (c, true)) as -> by (unfold decode_occs; cbn; by rewrite He). cbn [fst snd].
    rewrite Hoc. f_equal. replace (pre ++ (n, gencode e c) :: enc_fields fs cs')%list with ((pre ++ [(n, gencode e c)]) ++ enc_fields fs cs')%list
      by (by rewrite <- app_assoc). apply IH; try done.
    rewrite Forall_forall in Hp2 |- *. intros x Hx. rewrite map_app, forallb_app, Hp2 by done. cbn [map forallb fst andb]. rewrite andb_true_r, EqualFold_sym.
    rewrite forallb_forall in Hd1. apply Hd1. by apply list_elem_of_In.
Qed.

(** What json.Marshal wrote is read back into a fresh variable. *)
Lemma gdecode_gencode t : forall v, wf_gty t = true -> omit_ok t = true -> gtyped t v ->
  gdecode t (gzero t) (gencode t v) = (v, true).
Proof.
  induction t as [| | | | |e IH|fs IH] using gty_nested; intros v Hw Ho Hv; cbn [gencode gzero].
  - destruct Hv as [s ->]. done.
  - cbn [gdecode]. by apply decode_int_self.
  - destruct Hv as [b ->]. done.
  - by apply settled_iface.
  - destruct Hv as [->|(m & -> & Hm)]; [done|]. cbn [gdecode obj_members app].
    assert (map (fun kv => (kv.1, iface kv.2)) (members_of m) = map (fun kv : string * json => (kv.1, (kv.2, true))) (members_of m)) as ->.
    { apply map_ext_in. intros [k v] Hin. cbn. f_equal. apply settled_iface.
      pose proof (settled_members m Hm) as Hl. rewrite Forall_forall in Hl. apply (Hl (k, v)). by apply list_elem_of_In. }
    rewrite map_map. cbn. assert (map (fun x : string * json => (x.1, x.2)) (members_of m) = members_of m) as ->
      by (rewrite <- (map_id (members_of m)) at 2; apply map_ext; by intros []).
    rewrite of_members_of. f_equal. generalize (members_of m). intros l. by induction l.
  - destruct Hv as [->|(l & -> & Hl)]; [done|]. cbn [gdecode arr_elems].
    assert (decode_elems (gdecode e) (gzero e) [] (map (gencode e) l) = map (fun v => (v, true)) l) as ->.
    { induction Hl as [|v l Hv Hl IHl]; [done|]. cbn. by rewrite IH, IHl. }
    rewrite map_map. cbn. rewrite map_id. f_equal. clear. by induction l.
  - apply gtyped_struct in Hv as (cs & -> & Hcs). cbn [wf_gty] in Hw. apply andb_true_iff in Hw as [Hd Hw].
    pose proof (fields_roundtrip fs IH [] cs Hd Hw Ho) as H. cbn [app map] in H.
    specialize (H ltac:(apply Forall_forall; done) Hcs).
    change (gdecode (GStruct fs) (JObj (map (fun f => (f.1, gzero f.2.2)) fs)) (JObj (enc_fields fs cs)) = (JObj cs, true)).
    transitivity (let rs := dec_fields (enc_fields fs cs) fs (map (fun f => (f.1, gzero f.2.2)) fs) in
      (JObj (map (fun r => (r.1, r.2.1)) rs), forallb (fun r => r.2.2) rs)); [done|]. cbv zeta. rewrite H, map_map. cbn.
    f_equal; [f_equal; rewrite <- (map_id cs) at 2; apply map_ext; by intros []|]. clear. by induction cs.
Qed.

Lemma gencode_nums t : forall v, gtyped t v -> nums_ok (gencode t v) = true.
Proof.
  induction t as [| | | | |e IH|fs IH] using gty_nested; intros v Hv; cbn [gencode].
  - by destruct Hv as [s ->].
  - cbn in Hv. destruct v; try done. unfold typed_int in Hv. destruct (ParseInt lit 10 64); [done|].
    apply String.eqb_eq in Hv as <-. apply is_num_Itoa.
  - by destruct Hv as [b ->].
  - apply Hv.
  - destruct Hv as [->|(m & -> & Hm)]; [done|]. by apply settled_obj.
  - destruct Hv as [->|(l & -> & Hl)]; [done|]. cbn. induction Hl as [|v l Hv _ IHl]; [done|]. cbn. by rewrite IH, IHl.
  - apply gtyped_struct in Hv as (cs & -> & Hcs). change (nums_ok (JObj (enc_fields fs cs)) = true). cbn [nums_ok].
    revert cs Hcs. induction IH as [|[n [om e]] fs He _ IHf]; intros cs Hcs; inversion Hcs as [|? [m c] ? cs' (_ & Ht & _) Hcs']; subst; [done|].
    cbn [enc_fields]. destruct (om && is_empty c); [by apply IHf|]. cbn [forallb snd fst] in *. by rewrite He, IHf.
Qed.

(** ** Updating a field *)
Definition set_field (n : string) (f : json -> json) (v : json) : json :=
  match v with
  | JObj cs => JObj (map (fun kv => if (kv.1 =? n)%string then (kv.1, f kv.2) else kv) cs)
  | _ => v
  end.

Lemma set_field_typed n f fs v :
  Forall (fun fld => fld.1 = n -> fld.2.1 = false /\ forall c, gtyped fld.2.2 c -> gtyped fld.2.2 (f c)) fs ->
  gtyped (GStruct fs) v -> gtyped (GStruct fs) (set_field n f v).
Proof.
  intros Hf (cs & -> & Hcs)%gtyped_struct. apply gtyped_struct. eexists. split; [done|].
  induction Hcs as [|[k [om e]] [m c] fs cs (Hk & Ht & Hom) _ IH]; [constructor|]. apply Forall_cons in Hf as [H1 H2].
  cbn [map fst snd] in *. subst m. constructor; [|by apply IH]. destruct (String.eqb_spec k n) as [->|]; [|done].
  destruct (H1 eq_refl) as [-> Hc]. split; [done|]. split; [by apply Hc|done].
Qed.

Lemma set_field_comm n m f g v : n <> m -> set_field n f (set_field m g v) = set_field m g (set_field n f v).
Proof.
  intros Hn. destruct v as [| | | | |cs]; try done. cbn. f_equal. rewrite !map_map. apply map_ext. intros [k c]. cbn.
  destruct (k =? m)%string eqn:Em, (k =? n)%string eqn:En; cbn; rewrite ?Em, ?En; try done.
  apply String.eqb_eq in Em, En. congruence.
Qed.

Lemma set_field_fuse n f g v : set_field n f (set_field n g v) = set_field n (fun c => f (g c)) v.
Proof.
  destruct v as [| | | | |cs]; try done. cbn. f_equal. rewrite map_map. apply map_ext. intros [k c]. cbn.
  destruct (String.eqb_spec k n) as [->|Hk]; cbn; [by rewrite String.eqb_refl|]. by rewrite (proj2 (String.eqb_neq k n) Hk).
Qed.

Lemma set_field_ext n f g v : (forall c, f c = g c) -> set_field n f v = set_field n g v.
Proof.
  intros H. destruct v as [| | | | |cs]; try done. cbn. f_equal. apply map_ext. intros [k c]. cbn. by rewrite H.
Qed.
