(* ===== verification/WifiProps.v ===== *)
(** * wap/pkg/wifi/properties.go: what the device reports about itself

    Hardware and peer ids, folder and datastore sizes, container logs and images. The peer
    ids come from a running daemon when it answers and from files when it does not; sizes
    and logs come from commands and from the docker socket, which is a parameter
    ([Docker]). *)

From S2P Require Import Prelude GoStd Json JsonPrint Float GoPath Effects Node Disk Nas Properties.

#[local] Open Scope string_scope.
#[local] Open Scope Z_scope.

(** ** The docker client *)
Record Container := mkContainer { c_ID : string; c_Names : list string; c_Image : string; c_ImageID : string }.
Record ImageInfo := mkImageInfo { ii_Created : string; ii_RepoDigests : list string }.
Record ContainerInfo := mkContainerInfo {
  ci_ID : string; ci_Image : string; ci_ConfigImage : string; ci_Labels : json; ci_Created : string }.

Class Docker := {
  docker_List : nat -> string + list Container;
  docker_ImageInspect : nat -> string -> string + ImageInfo;
  docker_Inspect : nat -> string -> string + ContainerInfo;
  docker_Logs : nat -> string -> string -> string + string
}.

(** ** Keys and kubo's client *)
Class KuboClient := {
  yaml_identity : string -> option string;        (** the identity field of config.yaml *)
  peer_of_private_key : string -> option string;  (** the peer id of a marshalled private key *)
  kubo_repo_stat : nat -> string + option string  (** the output of repo/stat, if any *)
}.

Definition GB := 1024 * (1024 * 1024).

(** ** Matching [prefix(\d+)] *)
Fixpoint find_number (prefix s : string) : option string :=
  let here := if HasPrefix s prefix then (span is_digit (sdrop (String.length prefix) s)).1 else "" in
  if negb (here =? "")%string then Some here
  else match s with EmptyString => None | String _ s' => find_number prefix s' end.

Fixpoint last_sync_line (lines : list string) : option (string * string) :=
  match lines with
  | [] => None
  | line :: lines' =>
      if Contains line "Syncing" && Contains line "target" && Contains line "best" then
        match find_number "best: #" line, find_number "target=#" line with
        | Some b, Some t => Some (b, t)
        | _, _ => last_sync_line lines'
        end
      else last_sync_line lines'
  end.

(** [","], the separator in the awk program. *)
Definition quoted_comma : string := String (ascii_of_nat 34) ("," +:+ String (ascii_of_nat 34) "").

Section wifi.
Context {S : Type} `{PS : PoolStore S} `{E : Env} `{X : Exec} `{DK : Docker} `{KC : KuboClient}.
Context (getenv : string -> string).   (** os.Getenv *)

Definition fx {A : Type} (f : nat -> A) : M (Node S) A := fun w => (Ok (f (n_fx w)), bump w).

Definition GetHardwareID : M (Node S) string :=
  let envID := getenv "HARDWARE_ID" in
  if negb (envID =? "")%string then ret envID else
  out <- cmd_Output "sh" ["-c"; "(cat /proc/cpuinfo | grep -i 'Serial' && cat /proc/cpuinfo | grep -i 'Hardware' && cat /proc/cpuinfo | grep -i 'Revision') | sha256sum | awk '{print $1}'"];;
  match out with
  | ExecOk s => ret (TrimSpace s)
  | ExecExit e _ | ExecFail e => raise e
  end.

Definition GetKuboConfiguredPeerID : M (Node S) string :=
  f <- read_file kuboConfigPath;;
  match f with
  | None => raise "could not read kubo config"
  | Some data =>
      let peer := default "" (decode_identity data) in
      if (peer =? "")%string then raise "kubo config has no PeerID" else ret peer
  end.

Definition FULA_CONFIG_PATH := "/internal/config.yaml".

Definition GetClusterPeerIDFromIdentity : M (Node S) string :=
  f <- read_file FULA_CONFIG_PATH;;
  match f with
  | None => raise "reading config.yaml"
  | Some data =>
      match yaml_identity data with
      | None => raise "parsing config.yaml"
      | Some identity =>
          if (identity =? "")%string then raise "no identity field in config.yaml" else
          match b64_decode identity with
          | None => raise "decoding identity"
          | Some key => match peer_of_private_key key with None => raise "unmarshaling private key" | Some p => ret p end
          end
      end
  end.

(** The four sources of the cluster peer id, in order; an empty id falls through. *)
Definition cluster_id_api : M (Node S) string :=
  r <- http_Do "http://127.0.0.1:9094/id" JNull;;
  ret (match r with Reply _ (Some b) => default "" (decode_one "id" b) | _ => "" end).
Definition cluster_id_file : M (Node S) string :=
  f <- try (read_file "/uniondrive/ipfs-cluster/identity.json");;
  ret (match f with
       | inr (Some data) => default "" (j ← json_parse data; l ← as_object j;
                              let '(v, ok) := field_string "" (obj_field "id" l) in if ok : bool then Some v else None)
       | _ => ""
       end).
Definition cluster_id_props : M (Node S) string :=
  p <- try ReadProperties;;
  ret (match p with
       | inr p => match get_prop "ipfs_cluster_peer_id" p with Some (JStr id) => id | _ => "" end
       | inl _ => ""
       end).
Definition cluster_id_key : M (Node S) string :=
  r <- try GetClusterPeerIDFromIdentity;; ret (match r with inr id => id | inl _ => "" end).

Fixpoint first_id (sources : list (M (Node S) string)) : M (Node S) string :=
  match sources with
  | [] => ret ""
  | src :: rest => id <- src;; if negb (id =? "")%string then ret id else first_id rest
  end.

Definition GetClusterInfo : M (Node S) (string * string) :=
  id <- first_id [cluster_id_api; cluster_id_file; cluster_id_props; cluster_id_key];;
  name <- wrapErr "getting kubo peer ID" GetKuboPeerID;;
  ret (id, name).

Definition GetFolderSize (folderPath : string) : M (Node S) (string * string) :=
  out <- cmd_Output "sh" ["-c"; "du -sb " +:+ folderPath +:+ " | cut -f1"];;
  match out with
  | ExecExit e _ | ExecFail e => raise ("error executing shell command: " +:+ e)
  | ExecOk s =>
      match ParseInt (TrimSpace s) 10 64 with
      | inl _ => raise "error parsing folder size"
      | inr size => ret (folderPath, Itoa size)
      end
  end.

Definition decode_repo_stat (data : string) : option json :=
  j ← json_parse data; l ← as_object j;
  let '(rs, k1) := field_int 0 (obj_field "RepoSize" l) in
  let '(sm, k2) := field_int 0 (obj_field "StorageMax" l) in
  let '(no, k3) := field_int 0 (obj_field "NumObjects" l) in
  let '(rp, k4) := field_string "" (obj_field "RepoPath" l) in
  let '(v, k5) := field_string "" (obj_field "Version" l) in
  if k1 && k2 && k3 && k4 && k5
  then Some (JObj [("size", JStr (Itoa rs)); ("storage_max", JStr (Itoa sm)); ("count", JStr (Itoa no));
                   ("folder_path", JStr rp); ("version", JStr v)])
  else None.

Definition GetDatastoreSize : M (Node S) json :=
  r <- fx kubo_repo_stat;;
  match r with
  | inl e => raise ("error executing api command: " +:+ e)
  | inr None => raise "no output received"
  | inr (Some data) =>
      match decode_repo_stat data with
      | None => raise "error unmarshaling response data"
      | Some j => ret j
      end
  end.

(** strconv.ParseFloat(s, 32) of a decimal numeral, as the text a float32 field encodes to;
    other spellings (inf, nan, hexadecimal) are not among the outputs of awk. *)
Definition decimal_numeral (s : string) : bool :=
  let s := match s with String "+" t => t | String "-" t => t | _ => s end in
  let '(i, r) := span is_digit s in
  let '(f, r) := match r with String "." t => span is_digit t | _ => ("", r) end in
  negb (i +:+ f =? "")%string &&
  match r with
  | EmptyString => true
  | String c t =>
      ((c =? "e")%char || (c =? "E")%char) &&
      let t := match t with String "+" u => u | String "-" u => u | _ => t end in
      negb (t =? "")%string && sforall is_digit t
  end.
Definition parse_float32 (s : string) : option string :=
  if decimal_numeral s
  then float_text_in float32 (match s with String "+" t => t | _ => s end)
  else None.

Definition free_space_cmd : string :=
  "df -B1 2>/dev/null | grep -nE '/storage/(usb|sd[a-z]|nvme)' | awk '{sum2+=$2; sum3+=$3; sum4+=$4; sum5+=$5} END { print NR " +:+
  quoted_comma +:+ " sum2 " +:+ quoted_comma +:+ " sum3 " +:+ quoted_comma +:+ " sum4 " +:+ quoted_comma +:+ " sum5}'".

Definition free_space_json (n : Z) (size used avail pct : string) : json :=
  JObj [("device_count", JNum (Itoa n)); ("size", JNum size); ("used", JNum used); ("avail", JNum avail);
        ("used_percentage", JNum pct)].

Definition or_zero (s : string) : string := if (s =? "")%string then "0" else s.

Definition GetBloxFreeSpace : M (Node S) json :=
  out <- cmd_Output "sh" ["-c"; free_space_cmd];;
  match out with
  | ExecExit e _ | ExecFail e => raise ("error executing shell command: " +:+ e)
  | ExecOk s =>
      match split_char "," (TrimSpace s) with
      | [count; size; used; avail; pct] =>
          match Atoi count, parse_float32 (or_zero size), parse_float32 (or_zero used), parse_float32 (or_zero avail),
                parse_float32 (or_zero pct) with
          | inr n, Some a, Some b, Some c, Some d => ret (free_space_json n a b c d)
          | _, _, _, _, _ => raise "error parsing"
          end
      | _ => raise "unexpected output format"
      end
  end.

(** ** Docker *)
Fixpoint build_dates (cs : list Container) : M (Node S) (list json) :=
  match cs with
  | [] => ret []
  | c :: cs' =>
      let name := match c_Names c with [] => "" | n :: _ => TrimPrefix n "/" end in
      r <- fx (fun n => docker_ImageInspect n (c_ImageID c));;
      match r with
      | inl _ => build_dates cs'
      | inr i =>
          let digest := match ii_RepoDigests i with [] => "" | d :: _ => d end in
          rest <- build_dates cs';;
          ret (JObj [("container_name", JStr name); ("image_name", JStr (c_Image c));
                     ("image_created", JStr (ii_Created i)); ("image_digest", JStr digest)] :: rest)
      end
  end.

Definition GetDockerImageBuildDates : M (Node S) json :=
  r <- fx docker_List;;
  match r with
  | inl e => raise ("listing containers: " +:+ e)
  | inr cs => l <- build_dates cs;; ret (JObj [("images", match l with [] => JNull | _ => JArr l end)])
  end.

(** The id of the last container that carries the name. *)
Definition container_named (containerName : string) (cs : list Container) : string :=
  fold_left (fun id c => if existsb (fun n => (n =? "/" +:+ containerName)%string) (c_Names c) then c_ID c else id) cs "".

Definition str_list (l : list string) : json := match l with [] => JNull | _ => JArr (map JStr l) end.

Definition GetContainerInfo (containerName : string) : M (Node S) json :=
  r <- fx docker_List;;
  match r with
  | inl e => raise e
  | inr cs =>
      let id := container_named containerName cs in
      if (id =? "")%string then raise ("container not found: " +:+ containerName) else
      c <- fx (fun n => docker_Inspect n id);;
      match c with
      | inl e => raise e
      | inr c =>
          i <- fx (fun n => docker_ImageInspect n (ci_Image c));;
          match i with
          | inl e => raise e
          | inr i => ret (JObj [("image", JStr (ci_ConfigImage c)); ("version", JStr (ci_Image c)); ("id", JStr (ci_ID c));
                                ("labels", ci_Labels c); ("created", JStr (ci_Created c));
                                ("repo_digests", str_list (ii_RepoDigests i))])
          end
      end
  end.

Definition fetchLogsFromDocker (containerName tailCount : string) : M (Node S) string :=
  r <- fx (fun n => docker_Logs n containerName tailCount);;
  match r with inl e => raise ("getting container logs: " +:+ e) | inr logs => ret logs end.

Definition fetchLogsFromFile (name tailCount : string) : M (Node S) string :=
  if negb (name =? "MainService")%string then raise "name is undefined" else
  r <- cmd_Run "tail" ["-n"; tailCount; "/home/fula.sh.log"];;
  match r with
  | CmdDone out _ None => ret out
  | CmdDone _ err (Some e) => raise ("reading system logs: " +:+ e +:+ " | stderr: " +:+ err)
  | CmdStart e => raise ("reading system logs: " +:+ e +:+ " | stderr: ")
  | CmdKilled _ err _ => raise ("reading system logs: signal: killed | stderr: " +:+ err)
  end.

Definition FetchContainerLogs (containerName tailCount : string) : M (Node S) string :=
  if (containerName =? "MainService")%string then fetchLogsFromFile containerName tailCount
  else fetchLogsFromDocker containerName tailCount.

Definition FindBestAndTargetInLogs (container tailCount : string) : M (Node S) (string * string) :=
  logs <- fetchLogsFromDocker container tailCount;;
  match last_sync_line (reverse (split_char (ascii_of_nat 10) logs)) with
  | Some bt => ret bt
  | None => raise "no logs containing 'Syncing', 'target', and 'best' were found"
  end.

(** ** The AI model's answer as a channel of lines *)
Definition ai_payload (aiModel userMessage : string) : json :=
  JObj [("model", JStr aiModel);
        ("messages", JArr [JObj [("role", JStr "user"); ("content", JStr userMessage)]]); ("stream", JBool true)].

(** Every line that ends with a line break; what follows the last one is not sent. *)
Definition sent_lines (body : string) : list string := removelast (split_char (ascii_of_nat 10) body).

Definition FetchAIResponse (aiModel userMessage : string) : M (Node S) (list string) :=
  r <- http_Do "http://127.0.0.1:8083/rkllm_chat" (ai_payload aiModel userMessage);;
  match r with
  | ReplyErr e => raise ("failed to send request: " +:+ e)
  | Reply status body =>
      if negb (status =? StatusOK)
      then raise ("received non-OK status code: " +:+ Itoa status +:+ "; body: " +:+ default "" body)
      else ret (sent_lines (default "" body))
  end.
End wifi.
