(* ===== verification/Plugins.v ===== *)
(** * blockchain/bl_plugins.go: plugins

    The device keeps the names of its active plugins in a text file, one per line, the
    plugins to update in another, and one directory per plugin with a file for each
    parameter and for its status. The handlers answer with the bytes of a JSON object.
    [plugin_set_refines] shows the active-plugin file to be an implementation of an ordered
    set of names; names are taken from requests as they are, and the last theorems show what
    a name with a line break or a path in it does. *)

From S2P Require Import Prelude GoStd Json JsonPrint GoPath Effects Access Node Disk.

#[local] Open Scope string_scope.
#[local] Open Scope Z_scope.

Definition pluginInternalDir := "/internal/plugins".
Definition activePluginsFile := pluginInternalDir +:+ "/active-plugins.txt".
Definition updatePluginsFile := pluginInternalDir +:+ "/update-plugins.txt".
Definition newline : ascii := ascii_of_nat 10.

(** ** Plugin descriptions *)
Record PluginUsage := mkUsage {
  pu_Storage : string; pu_Compute : string; pu_Bandwidth : string; pu_RAM : string; pu_GPU : string }.

(** A [[]map[string]string] value as its JSON: nil slices and maps are null, keys sorted. *)
Record PluginInfo := mkPluginInfo {
  pi_Name : string; pi_Description : string; pi_Version : string; pi_Usage : PluginUsage;
  pi_Rewards : json; pi_Socials : json; pi_Approved : bool; pi_Installed : bool }.

Fixpoint insert_key (k v : string) (m : list (string * string)) : list (string * string) :=
  match m with
  | [] => [(k, v)]
  | (k', v') :: m' =>
      match String.compare k k' with
      | Lt => (k, v) :: m
      | Eq => (k, v) :: m'
      | Gt => (k', v') :: insert_key k v m'
      end
  end.

(** One object of string members; a null member is the empty string. *)
Definition dec_string_map (j : json) : option json :=
  match j with
  | JNull => Some JNull
  | JObj l =>
      m ← fold_left (fun acc kv => m ← acc; v ← dec_string "" kv.2; Some (insert_key kv.1 v m)) l (Some []);
      Some (JObj (map (fun kv => (kv.1, JStr kv.2)) m))
  | _ => None
  end.

Definition dec_map_list (cur j : json) : option json :=
  match j with
  | JNull => Some JNull
  | JArr l => l' ← mapM dec_string_map l; Some (JArr l')
  | _ => None
  end.

Definition dec_usage (cur : PluginUsage) (j : json) : option PluginUsage :=
  l ← as_object j;
  let '(a, k1) := field_string (pu_Storage cur) (obj_field "storage" l) in
  let '(b, k2) := field_string (pu_Compute cur) (obj_field "compute" l) in
  let '(c, k3) := field_string (pu_Bandwidth cur) (obj_field "bandwidth" l) in
  let '(d, k4) := field_string (pu_RAM cur) (obj_field "ram" l) in
  let '(e, k5) := field_string (pu_GPU cur) (obj_field "gpu" l) in
  if k1 && k2 && k3 && k4 && k5 then Some (mkUsage a b c d e) else None.

Definition decode_PluginInfo (body : option string) : option PluginInfo :=
  l ← decode_body body;
  let '(n, k1) := field_string "" (obj_field "name" l) in
  let '(d, k2) := field_string "" (obj_field "description" l) in
  let '(v, k3) := field_string "" (obj_field "version" l) in
  let '(u, k4) := decode_field dec_usage (mkUsage "" "" "" "" "") (obj_field "usage" l) in
  let '(r, k5) := decode_field dec_map_list JNull (obj_field "rewards" l) in
  let '(s, k6) := decode_field dec_map_list JNull (obj_field "socials" l) in
  let '(a, k7) := field_bool false (obj_field "approved" l) in
  let '(i, k8) := field_bool false (obj_field "installed" l) in
  if k1 && k2 && k3 && k4 && k5 && k6 && k7 && k8 then Some (mkPluginInfo n d v u r s a i) else None.

Definition plugin_json (p : PluginInfo) : json :=
  JObj [("name", JStr (pi_Name p)); ("description", JStr (pi_Description p)); ("version", JStr (pi_Version p));
        ("usage", JObj [("storage", JStr (pu_Storage (pi_Usage p))); ("compute", JStr (pu_Compute (pi_Usage p)));
                        ("bandwidth", JStr (pu_Bandwidth (pi_Usage p))); ("ram", JStr (pu_RAM (pi_Usage p)));
                        ("gpu", JStr (pu_GPU (pi_Usage p)))]);
        ("rewards", pi_Rewards p); ("socials", pi_Socials p); ("approved", JBool (pi_Approved p));
        ("installed", JBool (pi_Installed p))].

(** The list of names: [[]struct{ Name string }]. *)
Definition dec_named (j : json) : option string :=
  l ← as_object j; let '(n, ok) := field_string "" (obj_field "name" l) in if ok : bool then Some n else None.
Definition decode_pluginList (body : option string) : option (list string) :=
  b ← body; '(j, _) ← json_parse_prefix b;
  match j with JNull => Some [] | JArr l => mapM dec_named l | _ => None end.

(** The [{"msg", "status"}] object every operation answers with. *)
Definition plugin_reply (msg : json) (status : bool) : string :=
  json_print (JObj [("msg", msg); ("status", JBool status)]).
Definition reply_text (msg : string) (status : bool) : string := plugin_reply (JStr msg) status.

Definition contains (l : list string) (s : string) : bool := existsb (fun v => (v =? s)%string) l.

Section plugins.
Context {S : Type} `{PS : PoolStore S} `{E : Env} `{X : Exec}.

(** ** The two lists *)
Definition read_list (path errpre : string) : M (Node S) (list string) :=
  c <- wrapErr errpre (read_file path);;
  match c with
  | None => ret []
  | Some content => ret (split_char newline (TrimSpace content))
  end.
Definition readActivePlugins : M (Node S) (list string) :=
  read_list activePluginsFile "failed to read active plugins file".
Definition readUpdatePlugins : M (Node S) (list string) :=
  read_list updatePluginsFile "failed to read update plugins file".

Definition writeActivePlugins (plugins : list string) : M (Node S) () :=
  wrapErr "failed to write active plugins file" (write_file activePluginsFile (Join plugins (String newline ""))).
Definition writeUpdatePlugins (plugins : list string) : M (Node S) () :=
  wrapErr "failed to write update plugins file" (write_file updatePluginsFile (Join plugins (String newline ""))).

Definition plugin_path (pluginName name : string) : string :=
  "/" +:+ pluginInternalDir +:+ "/" +:+ pluginName +:+ "/" +:+ name +:+ ".txt".
Definition plugin_dir (pluginName : string) : string := "/" +:+ pluginInternalDir +:+ "/" +:+ pluginName.

Definition setPluginStatus (pluginName status : string) : M (Node S) () :=
  let filePath := plugin_path pluginName "status" in
  wrapErr "failed to create directory for plugin status" (os_MkdirAll (filepath_Dir filePath));;;
  wrapErr ("failed to write status file for plugin " +:+ pluginName) (write_file filePath (TrimSpace status)).

(** The deferred check at the top of the operations. *)
Definition unless_done (k : M (Node S) string) : M (Node S) string :=
  d <- ctx_done;; if d : bool then ret (reply_text "Operation cancelled" false) else k.

(** ** Operations *)
Fixpoint plugin_details (names activePlugins : list string) : M (Node S) (list PluginInfo) :=
  match names with
  | [] => ret []
  | n :: names' =>
      r <- http_Do ("https://raw.githubusercontent.com/functionland/fula-ota/refs/heads/main/docker/fxsupport/linux/plugins/"
                    +:+ n +:+ "/info.json") JNull;;
      match r with
      | ReplyErr e => raise ("failed to fetch details for plugin " +:+ n +:+ ": " +:+ e)
      | Reply _ body =>
          match decode_PluginInfo body with
          | None => raise ("failed to decode details for plugin " +:+ n)
          | Some p =>
              rest <- plugin_details names' activePlugins;;
              ret (mkPluginInfo (pi_Name p) (pi_Description p) (pi_Version p) (pi_Usage p) (pi_Rewards p)
                     (pi_Socials p) (pi_Approved p) (contains activePlugins n) :: rest)
          end
      end
  end.

Definition listPluginsImpl : M (Node S) string :=
  unless_done (
  r <- http_Do "https://raw.githubusercontent.com/functionland/fula-ota/refs/heads/main/docker/fxsupport/linux/plugins/info.json" JNull;;
  match r with
  | ReplyErr e => raise ("failed to fetch plugin list: " +:+ e)
  | Reply _ body =>
      match decode_pluginList body with
      | None => raise "failed to decode plugin list"
      | Some names =>
          activePlugins <- wrapErr "failed to read active plugins" readActivePlugins;;
          ds <- plugin_details names activePlugins;;
          ret (json_print (match ds with [] => JNull | _ => JArr (map plugin_json ds) end))
      end
  end).

Definition names_json (l : list string) : json := match l with [] => JNull | _ => JArr (map JStr l) end.

Definition listActivePluginsImpl : M (Node S) string :=
  unless_done (
  r <- try readActivePlugins;;
  match r with
  | inl e => ret (reply_text ("Failed to read active plugins: " +:+ e) false)
  | inr active => ret (plugin_reply (names_json (filter (fun p => p <> "") active)) true)
  end).

(** Parameters [name====value], separated by [,,,,]; the first error ends the request. *)
Fixpoint install_params (pluginName : string) (params : list string) (k : M (Node S) string) : M (Node S) string :=
  match params with
  | [] => k
  | param :: params' =>
      match SplitN2 param "====" with
      | [a; b] =>
          let name := TrimSpace a in
          let value := TrimSpace b in
          d <- try (os_MkdirAll (plugin_dir pluginName));;
          match d with
          | inl e => ret (reply_text ("Failed to create directory for plugin " +:+ pluginName +:+ ": " +:+ e) false)
          | inr _ =>
              v <- try (write_file (plugin_path pluginName name) value);;
              match v with
              | inl e => ret (reply_text ("Failed to write parameter file for plugin " +:+ pluginName +:+ ": " +:+ e) false)
              | inr _ => install_params pluginName params' k
              end
          end
      | _ => ret (reply_text ("Invalid parameter format: " +:+ param) false)
      end
  end.

Definition param_list (paramsString : string) : list string :=
  if (paramsString =? "")%string then [] else Split paramsString ",,,,".

(** Append the plugin and write the list back. *)
Definition install_append (plugins : list string) (pluginName : string) : M (Node S) string :=
  v <- try (writeActivePlugins (plugins ++ [pluginName]));;
  match v with
  | inl e => ret (reply_text ("Failed to write active plugins: " +:+ e) false)
  | inr _ =>
      _ <- try (setPluginStatus pluginName "install plugin request: Processed");;
      ret (reply_text "Plugin installed successfully" true)
  end.

Definition installPluginImpl (pluginName paramsString : string) : M (Node S) string :=
  unless_done (
  r <- try readActivePlugins;;
  match r with
  | inl e => ret (reply_text ("Failed to read active plugins: " +:+ e) false)
  | inr plugins =>
      if contains plugins pluginName then
        _ <- try (setPluginStatus pluginName "install plugin request: Processed");;
        ret (reply_text "Plugin already installed" true)
      else
        install_params pluginName (param_list paramsString) (install_append plugins pluginName)
  end).

Definition uninstallPluginImpl (pluginName : string) : M (Node S) string :=
  unless_done (
  r <- try readActivePlugins;;
  match r with
  | inl e => ret (reply_text ("Failed to read active plugins: " +:+ e) false)
  | inr plugins =>
      if negb (contains plugins pluginName) then ret (reply_text "Plugin not found" false)
      else
        v <- try (writeActivePlugins (filter (fun p => p <> pluginName) plugins));;
        match v with
        | inl e => ret (reply_text ("Failed to write active plugins: " +:+ e) false)
        | inr _ => ret (reply_text "Plugin uninstalled successfully" true)
        end
  end).

Definition updatePluginImpl (pluginName : string) : M (Node S) string :=
  unless_done (
  r <- try readUpdatePlugins;;
  match r with
  | inl e => ret (reply_text ("Failed to read update plugins: " +:+ e) false)
  | inr plugins =>
      if contains plugins pluginName then ret (reply_text "Plugin already in update queue" true)
      else
        v <- try (writeUpdatePlugins (plugins ++ [pluginName]));;
        match v with
        | inl e => ret (reply_text ("Failed to write update plugins: " +:+ e) false)
        | inr _ => ret (reply_text "Plugin update queued successfully" true)
        end
  end).

(** The lines of [docker logs]; a cancelled context cuts the copying short. *)
Fixpoint copy_lines (lines : list string) : M (Node S) (list string) :=
  match lines with
  | [] => ret []
  | l :: ls => d <- ctx_done;; if d : bool then raise "context canceled" else rest <- copy_lines ls;; ret (l :: rest)
  end.

Definition showPluginStatusImpl (pluginName : string) (lines : Z) : M (Node S) (list string) :=
  let args := (["docker"; "logs"] ++ (if 0 <? lines then ["--tail"; Itoa lines] else []) ++ [pluginName])%list in
  r <- cmd_Output "sudo" args;;
  match r with
  | ExecExit e stderr => raise ("failed to get logs for plugin " +:+ pluginName +:+ ": " +:+ e +:+ String newline ("Stderr: " +:+ stderr))
  | ExecFail e => raise ("failed to execute docker logs for plugin " +:+ pluginName +:+ ": " +:+ e)
  | ExecOk output =>
      out <- copy_lines (split_char newline (TrimSpace output));;
      if bool_decide (out = []) then raise ("no log output for plugin " +:+ pluginName) else ret out
  end.

Definition ShowPluginStatus (pluginName : string) (lines : Z) : M (Node S) string :=
  st <- showPluginStatusImpl pluginName lines;; ret (json_print (JArr (map JStr st))).

(** The values of the named parameters; a name asked for twice is answered once. An error
    other than a missing file is answered with an error value, which encodes as an empty
    object. *)
Fixpoint read_outputs (pluginName : string) (names : list string) (out : list (string * string)) :
    M (Node S) (option (list (string * string))) :=
  match names with
  | [] => ret (Some out)
  | n :: names' =>
      r <- try (read_file (plugin_path pluginName n));;
      match r with
      | inl _ => ret None
      | inr None => read_outputs pluginName names' (insert_key n "" out)
      | inr (Some content) => read_outputs pluginName names' (insert_key n (TrimSpace content) out)
      end
  end.

Definition getInstallOutputImpl (pluginName paramsString : string) : M (Node S) string :=
  unless_done (
  r <- read_outputs pluginName (Split paramsString ",,,,") [];;
  match r with
  | None => ret (plugin_reply (JObj []) false)
  | Some out => ret (plugin_reply (JObj (map (fun kv => (kv.1, JStr kv.2)) out)) true)
  end).

Definition getInstallStatusImpl (pluginName : string) : M (Node S) string :=
  unless_done (
  r <- try (read_file (plugin_path pluginName "status"));;
  match r with
  | inl _ => ret (plugin_reply (JObj []) false)
  | inr None => ret (reply_text "No Status" true)
  | inr (Some content) => ret (reply_text (TrimSpace content) true)
  end).

(** ** The handler *)
Record PluginReq := mkPluginReq { pq_Name : string; pq_Lines : Z; pq_Params : string }.

(** The body is decoded unless it is empty; the error of an empty one (io.EOF) is ignored.
    [None] is any other error. *)
Definition decode_PluginReq (body : option string) : option PluginReq :=
  match body with
  | Some b =>
      if (skip_ws b =? "")%string then Some (mkPluginReq "" 0 "") else
      l ← decode_body body;
      let '(n, k1) := field_string "" (obj_field "plugin_name" l) in
      let '(z, k2) := field_int 0 (obj_field "lines" l) in
      let '(p, k3) := field_string "" (obj_field "params" l) in
      if k1 && k2 && k3 then Some (mkPluginReq n z p) else None
  | None => None
  end.

Definition plugin_action (action : string) (q : PluginReq) : option (M (Node S) string) :=
  if (action =? actionListPlugins)%string then Some listPluginsImpl
  else if (action =? actionListActivePlugins)%string then Some listActivePluginsImpl
  else if (action =? actionInstallPlugin)%string then Some (installPluginImpl (pq_Name q) (pq_Params q))
  else if (action =? actionUninstallPlugin)%string then Some (uninstallPluginImpl (pq_Name q))
  else if (action =? actionShowPluginStatus)%string then Some (ShowPluginStatus (pq_Name q) (pq_Lines q))
  else if (action =? actionGetInstallOutput)%string then Some (getInstallOutputImpl (pq_Name q) (pq_Params q))
  else if (action =? actionGetInstallStatus)%string then Some (getInstallStatusImpl (pq_Name q))
  else if (action =? actionUpdatePlugin)%string then Some (updatePluginImpl (pq_Name q))
  else None.

Definition handlePluginAction (action : string) (body : option string) : M (Node S) Resp :=
  match decode_PluginReq body with
  | None => ret (http_Error "Invalid request body" StatusBadRequest)
  | Some q =>
      if (pq_Name q =? "")%string && negb (action =? actionListPlugins)%string && negb (action =? actionListActivePlugins)%string
      then ret (http_Error "Plugin name is required" StatusBadRequest) else
      match plugin_action action q with
      | None => ret (http_Error "Invalid action" StatusBadRequest)
      | Some op =>
          r <- try op;;
          match r with
          | inl e => ret (http_Error e StatusInternalServerError)
          | inr result => ret (mkResp StatusOK (BText result))
          end
      end
  end.

(** ** Handlers outside the dispatch table

    The package also exports one handler per operation. The two that list re-encode the
    bytes of the result, which encoding/json writes as a base64 string. *)
Definition finish (op : M (Node S) string) (body : string -> RespBody) : M (Node S) Resp :=
  r <- try op;;
  match r with
  | inl e => ret (http_Error e StatusInternalServerError)
  | inr result => ret (mkResp StatusOK (body result))
  end.

Definition decode_named (body : option string) : option (string * string) :=
  l ← decode_body body;
  let '(n, k1) := field_string "" (obj_field "plugin_name" l) in
  let '(p, k2) := field_string "" (obj_field "params" l) in
  if k1 && k2 then Some (n, p) else None.
Definition decode_name_only (body : option string) : option string :=
  l ← decode_body body;
  let '(n, k1) := field_string "" (obj_field "plugin_name" l) in if k1 : bool then Some n else None.

Definition bad_body : M (Node S) Resp := ret (http_Error "Invalid request body" StatusBadRequest).

Definition HandleListPlugins : M (Node S) Resp := finish listPluginsImpl (fun b => BJson (JStr (b64_encode b))).
Definition HandleListActivePlugins : M (Node S) Resp :=
  finish listActivePluginsImpl (fun b => BJson (JStr (b64_encode b))).
Definition HandleInstallPlugin (body : option string) : M (Node S) Resp :=
  match decode_named body with None => bad_body | Some (n, p) => finish (installPluginImpl n p) BText end.
Definition HandleUninstallPlugin (body : option string) : M (Node S) Resp :=
  match decode_name_only body with None => bad_body | Some n => finish (uninstallPluginImpl n) BText end.
Definition HandleGetInstallOutput (body : option string) : M (Node S) Resp :=
  match decode_named body with None => bad_body | Some (n, p) => finish (getInstallOutputImpl n p) BText end.
Definition HandleGetInstallStatus (body : option string) : M (Node S) Resp :=
  match decode_name_only body with None => bad_body | Some n => finish (getInstallStatusImpl n) BText end.
Definition HandleUpdatePlugin (body : option string) : M (Node S) Resp :=
  match decode_name_only body with None => bad_body | Some n => finish (updatePluginImpl n) BText end.

(** ** The active list as an ordered set of names *)

(** A name that is one line and one directory: no white space, no slash, no dot entry. *)
Definition good_name (p : string) : bool := plain_word p && sforall (fun c => negb (Ascii.is_space c)) p.

(** A parameter the handler accepts and stores inside the plugin's directory. *)
Definition good_param (param : string) : bool :=
  match SplitN2 param "====" with [a; _] => no_char "/" (TrimSpace a) | _ => false end.

Inductive plugin_op := OpInstall (p params : string) | OpUninstall (p : string) | OpList.
Definition op_ok (op : plugin_op) : bool :=
  match op with
  | OpInstall p params => good_name p && forallb good_param (param_list params)
  | OpUninstall p => good_name p
  | OpList => true
  end.

(** The specification: an ordered set of names. *)
Definition spec_op (op : plugin_op) (l : list string) : string * list string :=
  match op with
  | OpInstall p _ => if bool_decide (p ∈ l) then (reply_text "Plugin already installed" true, l)
                     else (reply_text "Plugin installed successfully" true, (l ++ [p])%list)
  | OpUninstall p => if bool_decide (p ∈ l) then (reply_text "Plugin uninstalled successfully" true, filter (fun q => q <> p) l)
                     else (reply_text "Plugin not found" false, l)
  | OpList => (plugin_reply (names_json l) true, l)
  end.
Fixpoint spec_ops (ops : list plugin_op) (l : list string) : list string * list string :=
  match ops with
  | [] => ([], l)
  | op :: ops' => let '(r, l1) := spec_op op l in let '(rs, l2) := spec_ops ops' l1 in (r :: rs, l2)
  end.

(** The implementation. *)
Definition run_op (op : plugin_op) : M (Node S) string :=
  match op with
  | OpInstall p params => installPluginImpl p params
  | OpUninstall p => uninstallPluginImpl p
  | OpList => listActivePluginsImpl
  end.
Fixpoint run_ops (ops : list plugin_op) : M (Node S) (list string) :=
  match ops with
  | [] => ret []
  | op :: ops' => r <- run_op op;; rs <- run_ops ops';; ret (r :: rs)
  end.

(** The file holds the set: it is missing, or its lines are the names (one empty line when
    there are none). *)
Definition lines_of (l : list string) : list string := match l with [] => [""] | _ => l end.
Definition holds (l : list string) (F : gmap string string) : Prop :=
  NoDup l /\ Forall (fun p => good_name p = true) l /\
  match F !! activePluginsFile with
  | None => l = []
  | Some c => split_char newline (TrimSpace c) = lines_of l
  end.

(** ** The file as lines *)
Lemma good_name_split p : good_name p = true -> plain_word p = true /\ no_space p = true /\ p <> "".
Proof.
  intros [H1 H2]%andb_true_iff. split_and!; [done|done|]. intros ->. by vm_compute in H1.
Qed.

Lemma lines_Join l : Forall (fun p => good_name p = true) l ->
  split_char newline (TrimSpace (Join l (String newline ""))) = lines_of l.
Proof.
  intros Hl. destruct l as [|w l]; [done|].
  rewrite TrimSpace_Join; [|done|].
  - apply split_Join; [done|]. eapply Forall_impl; [exact Hl|]. intros p Hp.
    apply good_name_split in Hp as (_ & Hp & _). by apply no_space_no_char.
  - eapply Forall_impl; [exact Hl|]. intros p (_ & H1 & H2)%good_name_split. done.
Qed.

(** What [readActivePlugins] returns for the set [l]. *)
Definition read_as (l ps : list string) : Prop := ps = l \/ (l = [] /\ ps = [""]).

Lemma lines_of_read_as l : read_as l (lines_of l).
Proof. destruct l; [by right | by left]. Qed.

Lemma contains_spec l p : contains l p = bool_decide (p ∈ l).
Proof.
  unfold contains. induction l as [|q l IH]; [done|]. cbn [existsb]. rewrite IH.
  destruct (String.eqb_spec q p) as [->|Hq]; [cbn; symmetry; apply bool_decide_true; by left|].
  apply bool_decide_ext. rewrite elem_of_cons. split; [by right | by intros [->|?]].
Qed.

Lemma contains_read_as l ps p : read_as l ps -> p <> "" -> contains ps p = bool_decide (p ∈ l).
Proof.
  rewrite contains_spec. intros [-> | [-> ->]] Hp; [done|]. apply bool_decide_ext. rewrite elem_of_cons, elem_of_nil. split; [by intros [->|]|done].
Qed.

Lemma install_lines l ps p : read_as l ps -> Forall (fun p => good_name p = true) (l ++ [p]) ->
  split_char newline (TrimSpace (Join (ps ++ [p]) (String newline ""))) = lines_of (l ++ [p]).
Proof.
  intros [-> | [-> ->]] Hl; [by apply lines_Join|].
  change (Join ([""] ++ [p]) (String newline "")) with (String newline (Join [p] (String newline ""))).
  rewrite TrimSpace_lead by done. by apply (lines_Join [p]).
Qed.

(** ** Files of one plugin stay in its directory *)
Lemma plugin_words p name : plain_word p = true -> no_char "/" name = true ->
  Forall (fun w => plain_word w = true) ["internal"; "plugins"; p; name +:+ ".txt"].
Proof.
  intros Hp Hn. repeat apply Forall_cons_2; try done. unfold plain_word, no_char in *.
  rewrite sforall_app, Hn.
  assert (forall s, (String.length s < 4)%nat -> negb (name +:+ ".txt" =? s)%string = true) as H.
  { intros s Hs. apply negb_true_iff, String.eqb_neq. intros <-. rewrite length_app_s in Hs. simpl in Hs. lia. }
  by rewrite !H by (simpl; lia).
Qed.

Lemma plugin_path_clean p name : plain_word p = true -> no_char "/" name = true ->
  filepath_Clean (plugin_path p name) = "/" +:+ Join ["internal"; "plugins"; p; name +:+ ".txt"] "/".
Proof.
  intros Hp Hn. unfold filepath_Clean. f_equal. f_equal.
  change (plugin_path p name) with (String "/" (String "/" (Join ["internal"; "plugins"; p; name +:+ ".txt"] "/"))).
  rewrite path_words_slash. apply path_words_plain; [|done].
  by apply plugin_words.
Qed.

Lemma plugin_path_apart p name : plain_word p = true -> no_char "/" name = true ->
  filepath_Clean (plugin_path p name) <> activePluginsFile.
Proof.
  intros Hp Hn. rewrite plugin_path_clean by done.
  change activePluginsFile with ("/" +:+ Join ["internal"; "plugins"; "active-plugins.txt"] "/").
  intros H%sapp_inj_l. apply Join_slash_inj in H; try done.
  - by apply plugin_words.
  - by repeat apply Forall_cons_2.
Qed.

(** ** The simulation *)
Section refinement.
Context (Hfs : forall n, env_fs n = FsOk) (Hctx : forall n, env_timer n 0 = true).

Lemma yields_unless_done F k x F' : yields F k x F' -> yields F (unless_done k) x F'.
Proof. intros Hk. unfold unless_done. eapply yields_bind; [by apply yields_ctx_done | exact Hk]. Qed.

Lemma yields_readActive F l : holds l F -> exists ps, read_as l ps /\ yields F readActivePlugins ps F.
Proof.
  intros (_ & _ & H). change activePluginsFile with (filepath_Clean activePluginsFile) in H.
  destruct (F !! filepath_Clean activePluginsFile) as [c|] eqn:EF.
  - exists (lines_of l). split; [apply lines_of_read_as|]. rewrite <- H.
    eapply yields_bind; [apply yields_wrapErr, (yields_read Hfs) | rewrite EF; apply yields_ret].
  - exists []. split; [by left|]. eapply yields_bind; [apply yields_wrapErr, (yields_read Hfs) | rewrite EF; apply yields_ret].
Qed.

Lemma yields_writeActive F ps :
  yields F (writeActivePlugins ps) () (<[activePluginsFile := Join ps (String newline "")]> F).
Proof. apply yields_wrapErr. apply (yields_write Hfs F activePluginsFile). Qed.

(** Writing a file of a well-named plugin leaves the set as it is. *)
Lemma holds_plugin_file l F p name v : plain_word p = true -> no_char "/" name = true ->
  holds l F -> holds l (<[filepath_Clean (plugin_path p name) := v]> F).
Proof.
  intros Hp Hn (H1 & H2 & H3). split_and!; [done|done|]. by rewrite lookup_insert_ne by by apply plugin_path_apart.
Qed.

Lemma yields_setStatus F l p st : good_name p = true -> holds l F ->
  exists F', yields F (setPluginStatus p st) () F' /\ holds l F'.
Proof.
  intros (Hp & _)%good_name_split Hl. eexists. split.
  - eapply yields_bind; [apply yields_wrapErr, (yields_mkdir Hfs) | apply yields_wrapErr, (yields_write Hfs)].
  - by apply holds_plugin_file.
Qed.

Lemma holds_write l' F c : NoDup l' -> Forall (fun p => good_name p = true) l' ->
  split_char newline (TrimSpace c) = lines_of l' -> holds l' (<[activePluginsFile := c]> F).
Proof. intros H1 H2 H3. split_and!; [done|done|]. by rewrite lookup_insert_eq. Qed.

Lemma install_append_yields F l ps p : good_name p = true -> p ∉ l -> read_as l ps -> holds l F ->
  exists F', yields F (install_append ps p) (reply_text "Plugin installed successfully" true) F' /\ holds (l ++ [p]) F'.
Proof.
  intros Hp Hin Hps (Hnd & Hgood & _).
  assert (NoDup (l ++ [p]) /\ Forall (fun p => good_name p = true) (l ++ [p])) as [Hnd' Hg'].
  { split; [apply NoDup_app; split_and!; [done| |apply NoDup_singleton] | apply Forall_app; by auto using Forall_cons_2].
    intros x Hx ->%list_elem_of_singleton. done. }
  pose proof (holds_write _ F _ Hnd' Hg' (install_lines l ps p Hps Hg')) as HF1.
  destruct (yields_setStatus _ _ p "install plugin request: Processed" Hp HF1) as (F' & HY & HF').
  exists F'. split; [|done]. eapply yields_bind; [apply yields_try, yields_writeActive|].
  eapply yields_bind; [by apply yields_try | apply yields_ret].
Qed.

Lemma install_params_yields l ps p params : good_name p = true -> p ∉ l -> read_as l ps ->
  forallb good_param params = true -> forall F, holds l F ->
  exists F', yields F (install_params p params (install_append ps p)) (reply_text "Plugin installed successfully" true) F' /\
             holds (l ++ [p]) F'.
Proof.
  intros Hp Hin Hps. induction params as [|param params IH]; intros Hparams F HF; [by apply (install_append_yields F l)|].
  apply andb_true_iff in Hparams as [Hparam Hparams]. unfold good_param in Hparam. cbn [install_params].
  destruct (SplitN2 param "====") as [|a [|b [|]]] eqn:Es; try done.
  destruct (good_name_split _ Hp) as (Hw & _).
  destruct (IH Hparams _ (holds_plugin_file l F p (TrimSpace a) (TrimSpace b) Hw Hparam HF)) as (F' & HY & HF').
  exists F'. split; [|done]. eapply yields_bind; [apply yields_try, (yields_mkdir Hfs)|].
  eapply yields_bind; [apply yields_try, (yields_write Hfs)|]. exact HY.
Qed.

(** One operation: the answer is the specification's, and the file holds its new set. *)
Definition refines_op (op : plugin_op) : Prop := forall F l, holds l F ->
  exists F', yields F (run_op op) (spec_op op l).1 F' /\ holds (spec_op op l).2 F'.

Lemma install_refines p params : op_ok (OpInstall p params) = true -> refines_op (OpInstall p params).
Proof.
  intros [Hp Hparams]%andb_true_iff F l HF. destruct (good_name_split _ Hp) as (_ & _ & Hne).
  destruct (yields_readActive F l HF) as (ps & Hps & Hread). cbn [run_op spec_op].
  assert (forall x F', yields F (if contains ps p then
      _ <- try (setPluginStatus p "install plugin request: Processed");; ret (reply_text "Plugin already installed" true)
      else install_params p (param_list params) (install_append ps p)) x F' -> yields F (installPluginImpl p params) x F') as Hstart.
  { intros x F' HY. apply yields_unless_done. eapply yields_bind; [by apply yields_try | exact HY]. }
  rewrite (contains_read_as l) in Hstart by done. case_bool_decide as Hin; cbn [fst snd].
  - destruct (yields_setStatus F l p "install plugin request: Processed" Hp HF) as (F' & HY & HF').
    exists F'. split; [|done]. apply Hstart. eapply yields_bind; [by apply yields_try | apply yields_ret].
  - destruct (install_params_yields l ps p _ Hp Hin Hps Hparams F HF) as (F' & HY & HF'). exists F'. auto.
Qed.

Lemma good_filter p l : Forall (fun p => good_name p = true) l ->
  Forall (fun p => good_name p = true) (filter (fun q => q <> p) l).
Proof. rewrite !Forall_forall. intros H q [_ Hq]%list_elem_of_filter. auto. Qed.

Lemma uninstall_refines p : op_ok (OpUninstall p) = true -> refines_op (OpUninstall p).
Proof.
  intros Hp F l HF. destruct (good_name_split _ Hp) as (_ & _ & Hne). pose proof HF as (Hnd & Hgood & _).
  destruct (yields_readActive F l HF) as (ps & Hps & Hread). cbn [run_op spec_op].
  case_bool_decide as Hin; cbn [fst snd].
  - eexists. split.
    + apply yields_unless_done. eapply yields_bind; [by apply yields_try|]. cbn beta iota.
      rewrite (contains_read_as l), bool_decide_true by done. cbn [negb].
      eapply yields_bind; [apply yields_try, yields_writeActive | apply yields_ret].
    + destruct Hps as [-> | [-> _]]; [|by apply elem_of_nil in Hin].
      apply holds_write; [by apply NoDup_filter | by apply good_filter |].
      apply lines_Join. by apply good_filter.
  - exists F. split; [|done]. apply yields_unless_done. eapply yields_bind; [by apply yields_try|]. cbn beta iota.
    rewrite (contains_read_as l), bool_decide_false by done. apply yields_ret.
Qed.

Lemma list_refines : refines_op OpList.
Proof.
  intros F l HF. destruct (yields_readActive F l HF) as (ps & Hps & Hread). destruct HF as (Hnd & Hgood & HF).
  exists F. split; [|done]. apply yields_unless_done. eapply yields_bind; [by apply yields_try|]. cbn beta iota.
  replace (filter (fun p => p <> "") ps) with l; [apply yields_ret|].
  destruct Hps as [-> | [-> ->]]; [|done]. symmetry. apply filter_all. intros p Hp.
  by apply (proj1 (Forall_forall _ _) Hgood), good_name_split in Hp as (_ & _ & ?).
Qed.

Lemma op_refines op : op_ok op = true -> refines_op op.
Proof. destruct op; [apply install_refines | apply uninstall_refines | intros _; apply list_refines]. Qed.

(** C10. The active-plugin file implements an ordered set of names. On a disk that works, with
    requests that are not cancelled, and starting from no file or one that holds the set, any
    sequence of install, uninstall and list requests, with plugin names that are single words
    and parameters of the form name====value whose name has no slash, is answered as the set
    would answer it, and the active-plugins file holds the set that results: installs append
    a new name, uninstalls remove it, and neither disturbs the others, whatever parameters are
    stored along the way. (The file of plugins to update, which the handlers also write, is
    not part of the claim.) *)
Theorem plugin_set_refines ops l w :
  forallb op_ok ops = true -> holds l (n_files w) ->
  exists w', run_ops ops w = (Ok (spec_ops ops l).1, w') /\ holds (spec_ops ops l).2 (n_files w').
Proof.
  revert l w. induction ops as [|op ops IH]; intros l w Hops HF; [by exists w|].
  apply andb_true_iff in Hops as [Hop Hops]. destruct (op_refines op Hop _ l HF) as (F' & HY & HF').
  destruct (HY w eq_refl) as (w1 & E1 & HF1). cbn [run_ops spec_ops].
  destruct (spec_op op l) as [r l1]. cbn [fst snd] in *. subst F'. destruct (IH l1 w1 Hops HF') as (w2 & E2 & HF2).
  destruct (spec_ops ops l1) as [rs l2]. cbn [fst snd] in *. exists w2. split; [|done].
  unfold bind. rewrite E1, E2. done.
Qed.

(** ** Names are not checked *)

(** A name of several lines installs a plugin per line: the handler compares the whole text
    with the installed names, and the file is read back line by line. *)
Lemma install_lines_inject l ns F :
  holds l F -> ns <> [] -> NoDup (l ++ ns) -> Forall (fun p => good_name p = true) ns ->
  holds (l ++ ns) (<[activePluginsFile := Join (lines_of l ++ [Join ns (String newline "")]) (String newline "")]> F).
Proof.
  intros (_ & Hgood & _) Hns Hnd Hg. apply holds_write; [done | by apply Forall_app|].
  assert (forall a, Join (a ++ [Join ns (String newline "")]) (String newline "") = Join (a ++ ns) (String newline "")) as Hj.
  { intros a. destruct ns as [|n ns]; [done|]. clear. induction a as [|x a IH]; [done|]. cbn [app].
    destruct a as [|y a]; cbn [app] in *; rewrite ?Join_cons2 in *; by rewrite IH. }
  rewrite Hj. destruct l as [|x l]; [|by apply lines_Join, Forall_app].
  destruct ns as [|n ns]; [done|]. cbn [lines_of app]. rewrite Join_cons2. cbn [String.append].
  rewrite TrimSpace_lead by done. by apply (lines_Join (n :: ns)).
Qed.

Lemma path_words_up ws : Forall (fun w => plain_word w = true) ws -> ws <> [] ->
  path_words ("//internal/plugins/../../" +:+ Join ws "/") = ws.
Proof.
  intros Hws Hne. change ("//internal/plugins/../../" +:+ Join ws "/") with
    (String "/" (String "/" ("internal" +:+ String "/" ("plugins" +:+ String "/" (".." +:+ String "/" (".." +:+ String "/" (Join ws "/"))))))).
  rewrite !path_words_slash. unfold path_words. rewrite !split_char_app by done. cbn [fold_left].
  rewrite split_Join; [|done|].
  - change (clean_step (clean_step (clean_step (clean_step [] "internal") "plugins") "..") "..") with (@nil string).
    by rewrite clean_plain.
  - eapply Forall_impl; [exact Hws|]. intros x Hx. by destruct (plain_word_split x Hx).
Qed.

Lemma Join_snoc_app ws w t : Join (ws ++ [w]) "/" +:+ t = Join (ws ++ [w +:+ t]) "/".
Proof.
  induction ws as [|x ws IH]; [done|]. cbn [app].
  destruct ws as [|y ws]; cbn [app] in *; rewrite !Join_cons2, !sapp_assoc; by rewrite IH.
Qed.

Lemma dots_not_installed l ps : Forall (fun p => good_name p = true) l -> read_as l ps -> contains ps "../.." = false.
Proof.
  intros Hl Hps. rewrite (contains_read_as l) by done. apply bool_decide_false. intros Hin.
  apply (proj1 (Forall_forall _ _) Hl) in Hin. by vm_compute in Hin.
Qed.

(** A parameter can be stored anywhere on the disk: a plugin named [../..] with the
    parameter [d/f====v] writes [v] to [/d/f.txt], for every directory [d] and file name [f]
    (the list itself and the two status files apart), and the request is answered as a
    successful installation. *)
Theorem install_writes_anywhere ds f v params l w :
  holds l (n_files w) -> Forall (fun d => plain_word d = true) ds -> plain_word (f +:+ ".txt") = true ->
  param_list params = [Join (ds ++ [f]) "/" +:+ "====" +:+ v] ->
  SplitN2 (Join (ds ++ [f]) "/" +:+ "====" +:+ v) "====" = [Join (ds ++ [f]) "/"; v] ->
  TrimSpace (Join (ds ++ [f]) "/") = Join (ds ++ [f]) "/" -> TrimSpace v = v ->
  let file := "/" +:+ Join (ds ++ [f +:+ ".txt"]) "/" in
  file <> activePluginsFile -> file <> "/status.txt" ->
  exists w', installPluginImpl "../.." params w = (Ok (reply_text "Plugin installed successfully" true), w') /\
             n_files w' !! file = Some v.
Proof.
  intros HF Hds Hf Hparams Hsplit Htrim Hv file Hne1 Hne2. destruct (yields_readActive _ l HF) as (ps & Hps & Hread).
  assert (filepath_Clean (plugin_path "../.." (Join (ds ++ [f]) "/")) = file) as Hclean.
  { unfold filepath_Clean, file. f_equal. f_equal.
    change (plugin_path "../.." (Join (ds ++ [f]) "/")) with ("//internal/plugins/../../" +:+ (Join (ds ++ [f]) "/" +:+ ".txt")).
    rewrite Join_snoc_app. apply path_words_up; [|by destruct ds]. apply Forall_app. by auto using Forall_cons_2. }
  set (F1 := <[file := v]> (n_files w)).
  set (F2 := <[activePluginsFile := Join (ps ++ ["../.."]) (String newline "")]> F1).
  assert (yields (n_files w) (installPluginImpl "../.." params) (reply_text "Plugin installed successfully" true)
    (<["/status.txt" := TrimSpace "install plugin request: Processed"]> F2)) as HY.
  { apply yields_unless_done. eapply yields_bind; [by apply yields_try|]. cbn beta iota.
    rewrite (dots_not_installed l) by (done || by destruct HF as (_ & ? & _)). rewrite Hparams. cbn [install_params].
    rewrite Hsplit, Htrim, Hv. eapply yields_bind; [apply yields_try, (yields_mkdir Hfs)|].
    eapply yields_bind; [apply yields_try, (yields_write Hfs)|]. rewrite Hclean. fold F1.
    eapply yields_bind; [apply yields_try, yields_writeActive|]. fold F2.
    eapply yields_bind; [apply yields_try | apply yields_ret].
    eapply yields_bind; [apply yields_wrapErr, (yields_mkdir Hfs) | apply yields_wrapErr].
    exact (yields_write Hfs F2 (plugin_path "../.." "status") (TrimSpace "install plugin request: Processed")). }
  destruct (HY w eq_refl) as (w' & Hw & HF'). exists w'. split; [exact Hw|]. rewrite HF'. unfold F2, F1.
  rewrite !lookup_insert_ne by done. by rewrite lookup_insert_eq.
Qed.
End refinement.
End plugins.

(** ** Witnesses *)
#[local] Instance calmEnv : Env := {|
  env_http := fun _ _ _ => ReplyErr "offline"; env_timer := fun _ _ => true; env_now := fun _ => 0; env_fs := fun _ => FsOk |}.
#[local] Instance noExec : Exec := {| exec_Output := fun _ _ _ => ExecFail "no docker"; exec_Run := fun _ _ _ => CmdStart "no shell" |}.
Definition fresh_node : Node unit := mkNode 0 tt ∅ ∅ None [] [].

Lemma fresh_holds : holds [] (n_files fresh_node).
Proof. split_and!; [apply NoDup_nil_2 | apply Forall_nil_2 | done]. Qed.

Definition demo_ops : list plugin_op :=
  [OpInstall "loyal-agent" "model====llama,,,,threads==== 4 "; OpInstall "streamr" ""; OpInstall "loyal-agent" "";
   OpUninstall "streamr"; OpUninstall "other"; OpList].

Lemma plugin_set_refines_witness :
  forallb op_ok demo_ops = true /\ holds [] (n_files fresh_node) /\ (spec_ops demo_ops []).2 = ["loyal-agent"] /\
  exists w', run_ops demo_ops fresh_node = (Ok (spec_ops demo_ops []).1, w') /\
             holds (spec_ops demo_ops []).2 (n_files w').
Proof.
  assert (forallb op_ok demo_ops = true) as H1 by (vm_compute; reflexivity).
  split; [exact H1|]. split; [exact fresh_holds|]. split; [vm_compute; reflexivity|].
  exact (plugin_set_refines (E := calmEnv) (fun _ => eq_refl) (fun _ => eq_refl) demo_ops [] fresh_node H1 fresh_holds).
Defined.

Lemma install_writes_anywhere_witness :
  exists w', installPluginImpl "../.." "internal/nas/marker====on" fresh_node =
             (Ok (reply_text "Plugin installed successfully" true), w') /\
             n_files w' !! ("/" +:+ Join (["internal"; "nas"] ++ ["marker" +:+ ".txt"])%list "/") = Some "on".
Proof.
  apply (install_writes_anywhere (E := calmEnv) (fun _ => eq_refl) (fun _ => eq_refl) ["internal"; "nas"] "marker" "on"
           "internal/nas/marker====on" [] fresh_node).
  - exact fresh_holds.
  - by repeat apply Forall_cons_2.
  - reflexivity.
  - vm_compute. reflexivity.
  - vm_compute. reflexivity.
  - vm_compute. reflexivity.
  - vm_compute. reflexivity.
  - vm_compute. discriminate.
  - vm_compute. discriminate.
Defined.

(** The answer lists the installed names in order; an empty set is listed as null. *)
Example list_none : (run_ops [OpList] fresh_node).1 = Ok [jq "{'msg':null,'status':true}"].
Proof. vm_compute. reflexivity. Qed.
