(* ===== verification/AutoPin.v ===== *)
(** * blockchain/bl_autopin.go: pairing with a pinning service

    The owner's application pairs the device with a pinning service: the service's token
    and endpoint and a secret the device makes up are kept in the property file beside
    everything else it holds. [autopin_refines] shows the three handlers to implement a
    pairing record on any property file. *)

From S2P Require Import Prelude GoStd Json JsonPrint Float GoPath Effects Node Disk Nas Properties WifiProps.

#[local] Open Scope string_scope.
#[local] Open Scope Z_scope.

Record AutoPinPairRequest := mkPairReq { ap_PinningToken : string; ap_PinningEndpoint : string }.

Definition decode_AutoPinPairRequest (body : option string) : option AutoPinPairRequest :=
  l ← decode_body body;
  let '(t, k1) := field_string "" (obj_field "pinning_token" l) in
  let '(e, k2) := field_string "" (obj_field "pinning_endpoint" l) in
  if k1 && k2 then Some (mkPairReq t e) else None.
Definition decode_AutoPinRefreshRequest (body : option string) : option string :=
  l ← decode_body body;
  let '(t, k1) := field_string "" (obj_field "pinning_token" l) in if k1 : bool then Some t else None.

Definition pair_response (status secret hardwareID : string) : json :=
  JObj [("status", JStr status); ("pairing_secret", JStr secret); ("hardware_id", JStr hardwareID)].
Definition status_response (status : string) : json := JObj [("status", JStr status)].
Definition message_text (m : string) : string := json_print (JObj [("message", JStr m)]).

Section autopin.
Context {S : Type} `{PS : PoolStore S} `{E : Env} `{X : Exec}.
Context (getenv : string -> string) (uuid_New : nat -> string).   (** os.Getenv, google/uuid *)

Definition respond (code : Z) (j : json) : M (Node S) Resp := WriteHeader code;;; ret (mkResp code (BJson j)).

Definition hardware_or_empty : M (Node S) string :=
  h <- try (GetHardwareID getenv);; ret (match h with inr id => id | inl _ => "" end).

(** Is there a secret: present, not null, not the empty string. *)
Definition existing_secret (p : option (gmap string json)) : option json :=
  match get_prop "auto_pin_pairing_secret" p with
  | None | Some JNull => None
  | Some (JStr s) => if (s =? "")%string then None else Some (JStr s)
  | Some v => Some v
  end.

Definition handleAutoPinPair (body : option string) : M (Node S) Resp :=
  match decode_AutoPinPairRequest body with
  | None => ret (http_Error "" StatusBadRequest)
  | Some req =>
      if (ap_PinningToken req =? "")%string || (ap_PinningEndpoint req =? "")%string
      then ret (http_Error (message_text "pinning_token and pinning_endpoint are required") StatusBadRequest) else
      r <- try ReadProperties;;
      let props := match r with inr p => p | inl _ => Some ∅ end in
      match existing_secret props with
      | Some existingSecret =>
          props <- set_prop "auto_pin_token" (JStr (ap_PinningToken req)) props;;
          props <- set_prop "auto_pin_endpoint" (JStr (ap_PinningEndpoint req)) props;;
          v <- try (WriteProperties props);;
          match v with
          | inl _ => ret (http_Error (message_text "failed to update pairing config") StatusInternalServerError)
          | inr _ =>
              hardwareID <- hardware_or_empty;;
              match existingSecret with
              | JStr secret => respond StatusOK (pair_response "already_paired" secret hardwareID)
              | _ => panic
              end
          end
      | None =>
          pairingSecret <- fx uuid_New;;
          props <- set_prop "auto_pin_token" (JStr (ap_PinningToken req)) props;;
          props <- set_prop "auto_pin_endpoint" (JStr (ap_PinningEndpoint req)) props;;
          props <- set_prop "auto_pin_pairing_secret" (JStr pairingSecret) props;;
          v <- try (WriteProperties props);;
          match v with
          | inl _ => ret (http_Error (message_text "failed to save pairing config") StatusInternalServerError)
          | inr _ =>
              hardwareID <- hardware_or_empty;;
              respond StatusOK (pair_response "paired" pairingSecret hardwareID)
          end
      end
  end.

Definition handleAutoPinRefresh (body : option string) : M (Node S) Resp :=
  match decode_AutoPinRefreshRequest body with
  | None => ret (http_Error "" StatusBadRequest)
  | Some token =>
      if (token =? "")%string then ret (http_Error (message_text "pinning_token is required") StatusBadRequest) else
      r <- try ReadProperties;;
      match r with
      | inl _ => ret (http_Error (message_text "not paired") StatusNotFound)
      | inr props =>
          match get_prop "auto_pin_token" props with
          | None => ret (http_Error (message_text "not paired") StatusNotFound)
          | Some _ =>
              props <- set_prop "auto_pin_token" (JStr token) props;;
              v <- try (WriteProperties props);;
              match v with
              | inl _ => ret (http_Error (message_text "failed to update token") StatusInternalServerError)
              | inr _ => respond StatusOK (status_response "refreshed")
              end
          end
      end
  end.

Definition handleAutoPinUnpair : M (Node S) Resp :=
  r <- try ReadProperties;;
  match r with
  | inl _ => ret (http_Error (message_text "not paired") StatusNotFound)
  | inr props =>
      let props := del_prop "auto_pin_pairing_secret" (del_prop "auto_pin_endpoint" (del_prop "auto_pin_token" props)) in
      v <- try (WriteProperties props);;
      match v with
      | inl _ => ret (http_Error (message_text "failed to remove pairing config") StatusInternalServerError)
      | inr _ => respond StatusOK (status_response "unpaired")
      end
  end.

(** ** The specification: a pairing record beside the other properties *)
Record Pairing := mkPairing { pg_token : string; pg_endpoint : string; pg_secret : string }.

(** No file, or a file with a pairing or none and the other properties. *)
Inductive PinState := NoFile | File (pairing : option Pairing) (others : gmap string json).

Inductive pin_op := OpPair (token endpoint : string) | OpRefresh (token : string) | OpUnpair.

(** [secret] is the uuid drawn for this operation, [hw] the hardware id. *)
Definition spec_pin (secret hw : string) (op : pin_op) (s : PinState) : Resp * PinState :=
  let ok j := mkResp StatusOK (BJson j) in
  let not_paired := http_Error (message_text "not paired") StatusNotFound in
  match op, s with
  | OpPair t e, File (Some p) o => (ok (pair_response "already_paired" (pg_secret p) hw), File (Some (mkPairing t e (pg_secret p))) o)
  | OpPair t e, File None o => (ok (pair_response "paired" secret hw), File (Some (mkPairing t e secret)) o)
  | OpPair t e, NoFile => (ok (pair_response "paired" secret hw), File (Some (mkPairing t e secret)) ∅)
  | OpRefresh t, File (Some p) o => (ok (status_response "refreshed"), File (Some (mkPairing t (pg_endpoint p) (pg_secret p))) o)
  | OpRefresh _, s => (not_paired, s)
  | OpUnpair, File _ o => (ok (status_response "unpaired"), File None o)
  | OpUnpair, NoFile => (not_paired, NoFile)
  end.

(** The requests as bodies. *)
Definition op_body (op : pin_op) : option string :=
  match op with
  | OpPair t e => Some (json_print (JObj [("pinning_token", JStr t); ("pinning_endpoint", JStr e)]))
  | OpRefresh t => Some (json_print (JObj [("pinning_token", JStr t)]))
  | OpUnpair => None
  end.
Definition pin_ok (op : pin_op) : bool :=
  match op with
  | OpPair t e => negb (t =? "")%string && negb (e =? "")%string
  | OpRefresh t => negb (t =? "")%string
  | OpUnpair => true
  end.
Definition run_pin (op : pin_op) : M (Node S) Resp :=
  match op with
  | OpPair _ _ => handleAutoPinPair (op_body op)
  | OpRefresh _ => handleAutoPinRefresh (op_body op)
  | OpUnpair => handleAutoPinUnpair
  end.

(** The file holds the state. *)
Definition pin_keys : list string := ["auto_pin_token"; "auto_pin_endpoint"; "auto_pin_pairing_secret"].
Definition pin_props (p : option Pairing) (o : gmap string json) : gmap string json :=
  match p with
  | None => o
  | Some p => <["auto_pin_pairing_secret" := JStr (pg_secret p)]> (<["auto_pin_endpoint" := JStr (pg_endpoint p)]>
                (<["auto_pin_token" := JStr (pg_token p)]> o))
  end.
Definition pin_wf (p : option Pairing) (o : gmap string json) : Prop :=
  settled_map o /\ Forall (fun k => o !! k = None) pin_keys /\
  match p with Some p => pg_secret p <> "" | None => True end.
Definition pin_holds (s : PinState) (F : gmap string string) : Prop :=
  match s with
  | NoFile => F !! CUSTOM_PROPERTIES_FILE = None
  | File p o => pin_wf p o /\ exists c, F !! CUSTOM_PROPERTIES_FILE = Some c /\ unmarshal_map c = Some (Some (pin_props p o))
  end.

(** ** Requests are read as they were written *)
Lemma decode_body_print l : nums_ok (JObj l) = true -> decode_body (Some (json_print (JObj l))) = Some l.
Proof.
  intros H. unfold decode_body. cbn [mbind option_bind]. rewrite <- (sapp_nil_r (json_print (JObj l))).
  by rewrite parse_prefix_print.
Qed.

Lemma decode_pair t e : decode_AutoPinPairRequest (op_body (OpPair t e)) = Some (mkPairReq t e).
Proof. unfold decode_AutoPinPairRequest, op_body. by rewrite decode_body_print. Qed.
Lemma decode_refresh t : decode_AutoPinRefreshRequest (op_body (OpRefresh t)) = Some t.
Proof. unfold decode_AutoPinRefreshRequest, op_body. by rewrite decode_body_print. Qed.

(** ** The property file *)
Section refinement.
Context (Hfs : forall n, env_fs n = FsOk) (Huuid : forall n, uuid_New n <> "").

(** From [w], [m] ends with a result and files that satisfy [Q]. *)
Definition reaches {A : Type} (w : Node S) (m : M (Node S) A) (Q : A -> gmap string string -> Prop) : Prop :=
  exists x w', m w = (Ok x, w') /\ Q x (n_files w').

Lemma reaches_ret {A} w (x : A) (Q : A -> gmap string string -> Prop) : Q x (n_files w) -> reaches w (ret x) Q.
Proof. intros H. by exists x, w. Qed.

Lemma reaches_bind {A B} w F' (m : M (Node S) A) (k : A -> M (Node S) B) a Q :
  yields (n_files w) m a F' -> (forall w1, n_files w1 = F' -> reaches w1 (k a) Q) -> reaches w (bind m k) Q.
Proof.
  intros Hm Hk. destruct (Hm w eq_refl) as (w1 & E1 & H1). destruct (Hk w1 H1) as (x & w2 & E2 & HQ).
  exists x, w2. split; [|done]. unfold bind. by rewrite E1.
Qed.

Lemma reaches_fx {A B} w (f : nat -> A) (k : A -> M (Node S) B) Q :
  (forall n w1, n_files w1 = n_files w -> reaches w1 (k (f n)) Q) -> reaches w (bind (fx f) k) Q.
Proof. intros Hk. exact (Hk (n_fx w) (bump w) eq_refl). Qed.

(** Whatever the hardware id is, asking for it changes no file. *)
Lemma hw_total w : exists hw w1, hardware_or_empty w = (Ok hw, w1) /\ n_files w1 = n_files w.
Proof.
  unfold hardware_or_empty, GetHardwareID. destruct (negb (getenv "HARDWARE_ID" =? "")%string); [by do 2 eexists|].
  unfold bind, try, cmd_Output. cbn beta iota. destruct (exec_Output _ _ _); by do 2 eexists.
Qed.

Lemma reaches_hw {B} w (k : string -> M (Node S) B) Q :
  (forall hw w1, n_files w1 = n_files w -> reaches w1 (k hw) Q) -> reaches w (bind hardware_or_empty k) Q.
Proof.
  intros Hk. destruct (hw_total w) as (hw & w1 & E1 & H1).
  destruct (Hk hw w1 H1) as (x & w2 & E2 & HQ). exists x, w2. split; [|done]. unfold bind at 1. by rewrite E1.
Qed.

(** From [w], [m] panics and leaves the files [F]. *)
Definition crashes {A : Type} (w : Node S) (m : M (Node S) A) (F : gmap string string) : Prop :=
  exists w', m w = (Panic, w') /\ n_files w' = F.

Lemma crashes_bind {A B} w F' (m : M (Node S) A) (k : A -> M (Node S) B) a F :
  yields (n_files w) m a F' -> (forall w1, n_files w1 = F' -> crashes w1 (k a) F) -> crashes w (bind m k) F.
Proof.
  intros Hm Hk. destruct (Hm w eq_refl) as (w1 & E1 & H1). destruct (Hk w1 H1) as (w2 & E2 & HF).
  exists w2. split; [|done]. unfold bind. by rewrite E1.
Qed.

Lemma yields_ReadProperties F c p : F !! CUSTOM_PROPERTIES_FILE = Some c -> unmarshal_map c = Some p ->
  yields (S := S) F ReadProperties p F.
Proof.
  intros HF Hc. eapply yields_bind; [apply (yields_read Hfs)|].
  change (filepath_Clean CUSTOM_PROPERTIES_FILE) with CUSTOM_PROPERTIES_FILE. rewrite HF, Hc. apply yields_ret.
Qed.

Lemma yields_no_properties F : F !! CUSTOM_PROPERTIES_FILE = None ->
  yields (S := S) F (try ReadProperties) (inl "no such file") F.
Proof.
  intros HF w Hw. destruct (yields_read Hfs F CUSTOM_PROPERTIES_FILE w Hw) as (w' & E1 & Hw').
  change (filepath_Clean CUSTOM_PROPERTIES_FILE) with CUSTOM_PROPERTIES_FILE in E1. rewrite HF in E1.
  exists w'. split; [|done]. unfold try, ReadProperties, bind. by rewrite E1.
Qed.

Lemma yields_WriteProperties F p :
  yields (S := S) F (WriteProperties p) () (<[CUSTOM_PROPERTIES_FILE := marshal_map p]> F).
Proof. exact (yields_write Hfs F CUSTOM_PROPERTIES_FILE (marshal_map p)). Qed.

Lemma pin_props_settled p o : settled_map o -> settled_map (pin_props p o).
Proof. destruct p; cbn; auto with props. Qed.

Lemma pin_holds_write p o F : pin_wf p o ->
  pin_holds (File p o) (<[CUSTOM_PROPERTIES_FILE := marshal_map (Some (pin_props p o))]> F).
Proof.
  intros Hwf. split; [done|]. eexists. split; [by rewrite lookup_insert_eq|]. apply unmarshal_marshal.
  destruct Hwf as (H & _). by apply pin_props_settled.
Qed.

(** The steps of the handlers on the record. *)
Lemma pin_secret p o : pin_wf p o ->
  existing_secret (Some (pin_props p o)) = match p with Some p => Some (JStr (pg_secret p)) | None => None end.
Proof.
  intros (_ & Ho & Hs). unfold existing_secret, get_prop. cbn [mbind option_bind]. destruct p as [p|]; cbn [pin_props].
  - rewrite lookup_insert_eq. by apply String.eqb_neq in Hs as ->.
  - repeat apply Forall_cons in Ho as [? Ho]. by rewrite H1.
Qed.

Lemma pin_token p o : pin_wf p o ->
  get_prop "auto_pin_token" (Some (pin_props p o)) = match p with Some p => Some (JStr (pg_token p)) | None => None end.
Proof.
  intros (_ & Ho & _). unfold get_prop. cbn [mbind option_bind]. destruct p as [p|]; cbn [pin_props].
  - rewrite !lookup_insert_ne by done. by rewrite lookup_insert_eq.
  - apply Forall_cons in Ho as [? _]. done.
Qed.

(** What one operation promises: an answer and a state of the specification, for some drawn
    secret and hardware id. *)
Definition pin_step (op : pin_op) (s : PinState) (r : Resp) (F : gmap string string) : Prop :=
  exists n hw, r = (spec_pin (uuid_New n) hw op s).1 /\ pin_holds (spec_pin (uuid_New n) hw op s).2 F.

Lemma reaches_respond w code j (Q : Resp -> gmap string string -> Prop) : 100 <= code <= 999 ->
  Q (mkResp code (BJson j)) (n_files w) -> reaches w (respond code j) Q.
Proof.
  intros Hc HQ. exists (mkResp code (BJson j)), w. split; [|done]. unfold respond, WriteHeader, bind.
  by rewrite (proj2 (Z.leb_le _ _)), (proj2 (Z.leb_le _ _)) by lia.
Qed.

(** Pairing: a record with the new token and endpoint, and the old secret if there is one. *)
Lemma pair_reaches_new w t e o : pin_wf None o ->
  reaches w (pairingSecret <- fx uuid_New;;
             props <- set_prop "auto_pin_token" (JStr t) (Some o);;
             props <- set_prop "auto_pin_endpoint" (JStr e) props;;
             props <- set_prop "auto_pin_pairing_secret" (JStr pairingSecret) props;;
             v <- try (WriteProperties props);;
             match v with
             | inl _ => ret (http_Error (message_text "failed to save pairing config") StatusInternalServerError)
             | inr _ => hardwareID <- hardware_or_empty;; respond StatusOK (pair_response "paired" pairingSecret hardwareID)
             end)
    (fun r F' => exists n hw, r = mkResp StatusOK (BJson (pair_response "paired" (uuid_New n) hw)) /\
                 pin_holds (File (Some (mkPairing t e (uuid_New n))) o) F').
Proof.
  intros Hwf. apply reaches_fx. intros n w1 Hw1. cbn [set_prop].
  eapply reaches_bind; [apply yields_ret|]. intros w2 Hw2. eapply reaches_bind; [apply yields_ret|]. intros w3 Hw3.
  eapply reaches_bind; [apply yields_ret|]. intros w4 Hw4.
  eapply reaches_bind; [apply yields_try, yields_WriteProperties|]. intros w5 Hw5. cbn beta iota.
  apply reaches_hw. intros hw w6 Hw6. apply reaches_respond; [unfold StatusOK; lia|].
  exists n, hw. split; [done|]. rewrite Hw6, Hw5.
  apply (pin_holds_write (Some (mkPairing t e (uuid_New n))) o). destruct Hwf as (H1 & H2 & _). split_and!; [done|done|].
  apply Huuid.
Qed.

Lemma set_over_pin p o t e : 
  <["auto_pin_endpoint" := JStr e]> (<["auto_pin_token" := JStr t]> (pin_props (Some p) o)) =
  pin_props (Some (mkPairing t e (pg_secret p))) o.
Proof.
  apply map_eq. intros k. cbn [pin_props pg_secret pg_endpoint pg_token].
  destruct (decide (k = "auto_pin_token")) as [->|H1]; [by simplify_map_eq|].
  destruct (decide (k = "auto_pin_endpoint")) as [->|H2]; [by simplify_map_eq|].
  destruct (decide (k = "auto_pin_pairing_secret")) as [->|H3]; by simplify_map_eq.
Qed.

Lemma set_token_pin p o t :
  <["auto_pin_token" := JStr t]> (pin_props (Some p) o) = pin_props (Some (mkPairing t (pg_endpoint p) (pg_secret p))) o.
Proof.
  rewrite <- set_over_pin. symmetry. apply insert_id. rewrite lookup_insert_ne by done. cbn [pin_props].
  rewrite lookup_insert_ne by done. by rewrite lookup_insert_eq.
Qed.

Lemma pair_refines t e s w : pin_ok (OpPair t e) = true -> pin_holds s (n_files w) ->
  reaches w (run_pin (OpPair t e)) (pin_step (OpPair t e) s).
Proof.
  intros [Ht He]%andb_true_iff Hs. apply negb_true_iff in Ht, He. cbn [run_pin]. unfold handleAutoPinPair.
  rewrite decode_pair. cbn [ap_PinningToken ap_PinningEndpoint]. rewrite Ht, He. cbn [orb].
  destruct s as [|p o].
  - eapply reaches_bind; [by apply yields_no_properties|]. intros w1 Hw1.
    destruct (pair_reaches_new w1 t e ∅) as (r & w' & E1 & n & hw & -> & HF).
    { split_and!; [apply map_Forall_empty | by repeat apply Forall_cons_2 | done]. }
    exists (mkResp StatusOK (BJson (pair_response "paired" (uuid_New n) hw))), w'. split; [exact E1|]. by exists n, hw.
  - destruct Hs as (Hwf & c & Hc & Hm).
    eapply reaches_bind; [by eapply yields_try, yields_ReadProperties|]. intros w1 Hw1. cbn beta iota.
    rewrite pin_secret by done. destruct p as [p|].
    + cbn [set_prop]. eapply reaches_bind; [apply yields_ret|]. intros w2 Hw2.
      eapply reaches_bind; [apply yields_ret|]. intros w3 Hw3.
      eapply reaches_bind; [apply yields_try, yields_WriteProperties|]. intros w4 Hw4. cbn beta iota.
      apply reaches_hw. intros hw w5 Hw5. apply reaches_respond; [unfold StatusOK; lia|].
      exists 0%nat, hw. split; [done|]. cbn [spec_pin snd]. rewrite Hw5, Hw4, set_over_pin.
      apply pin_holds_write. exact Hwf.
    + destruct (pair_reaches_new w1 t e o Hwf) as (r & w' & E1 & n & hw & -> & HF).
      exists (mkResp StatusOK (BJson (pair_response "paired" (uuid_New n) hw))), w'. split; [exact E1|]. by exists n, hw.
Qed.

Lemma refresh_refines t s w : pin_ok (OpRefresh t) = true -> pin_holds s (n_files w) ->
  reaches w (run_pin (OpRefresh t)) (pin_step (OpRefresh t) s).
Proof.
  intros Ht%negb_true_iff Hs. cbn [run_pin]. unfold handleAutoPinRefresh. rewrite decode_refresh, Ht.
  destruct s as [|p o].
  - eapply reaches_bind; [by apply yields_no_properties|]. intros w1 Hw1. apply reaches_ret.
    exists 0%nat, "". split; [done|]. cbn. by rewrite Hw1.
  - pose proof Hs as (Hwf & c & Hc & Hm). eapply reaches_bind; [by eapply yields_try, yields_ReadProperties|]. intros w1 Hw1.
    cbn beta iota. rewrite pin_token by done. destruct p as [p|].
    + cbn [set_prop]. eapply reaches_bind; [apply yields_ret|]. intros w2 Hw2.
      eapply reaches_bind; [apply yields_try, yields_WriteProperties|]. intros w3 Hw3. cbn beta iota.
      apply reaches_respond; [unfold StatusOK; lia|]. exists 0%nat, "". split; [done|]. cbn [spec_pin snd]. rewrite Hw3.
      rewrite set_token_pin. by apply pin_holds_write.
    + apply reaches_ret. exists 0%nat, "". split; [done|]. cbn. by rewrite Hw1.
Qed.

Lemma del_pin p o : pin_wf p o ->
  delete "auto_pin_pairing_secret" (delete "auto_pin_endpoint" (delete "auto_pin_token" (pin_props p o))) = o.
Proof.
  intros (_ & Ho & _). repeat apply Forall_cons in Ho as [? Ho]. apply map_eq. intros k.
  destruct (decide (k = "auto_pin_token")) as [->|H2]; [by simplify_map_eq|].
  destruct (decide (k = "auto_pin_endpoint")) as [->|H3]; [by simplify_map_eq|].
  destruct (decide (k = "auto_pin_pairing_secret")) as [->|H4]; [by simplify_map_eq|].
  destruct p; cbn [pin_props]; by simplify_map_eq.
Qed.

Lemma unpair_refines s w : pin_holds s (n_files w) -> reaches w (run_pin OpUnpair) (pin_step OpUnpair s).
Proof.
  intros Hs. cbn [run_pin]. unfold handleAutoPinUnpair. destruct s as [|p o].
  - eapply reaches_bind; [by apply yields_no_properties|]. intros w1 Hw1. apply reaches_ret.
    exists 0%nat, "". split; [done|]. cbn. by rewrite Hw1.
  - pose proof Hs as (Hwf & c & Hc & Hm). eapply reaches_bind; [by eapply yields_try, yields_ReadProperties|]. intros w1 Hw1.
    cbn beta iota zeta. cbn [del_prop fmap option_fmap option_map]. rewrite del_pin by done.
    eapply reaches_bind; [apply yields_try, yields_WriteProperties|]. intros w3 Hw3. cbn beta iota.
    apply reaches_respond; [unfold StatusOK; lia|]. exists 0%nat, "". split; [done|]. cbn [spec_pin snd]. rewrite Hw3.
    apply (pin_holds_write None). by destruct Hwf as (? & ? & _).
Qed.

(** Operations one after the other, and the runs the specification allows: each operation is
    answered for a secret and a hardware id drawn at that time. *)
Fixpoint run_pins (ops : list pin_op) : M (Node S) (list Resp) :=
  match ops with
  | [] => ret []
  | op :: ops' => r <- run_pin op;; rs <- run_pins ops';; ret (r :: rs)
  end.

Inductive pin_runs : list pin_op -> PinState -> list Resp -> PinState -> Prop :=
| pin_done s : pin_runs [] s [] s
| pin_cons op ops s rs s' n hw :
    pin_runs ops (spec_pin (uuid_New n) hw op s).2 rs s' ->
    pin_runs (op :: ops) s ((spec_pin (uuid_New n) hw op s).1 :: rs) s'.

(** C11. The auto-pin handlers implement a pairing record. On a disk that works, with
    uuids that are not empty, and from a property file that holds a JSON object, with or
    without a complete pairing (or from no file), any
    sequence of pair, refresh and unpair requests with non-empty token and endpoint is
    answered as the record would answer it: a first pairing draws a secret, later pairings replace token and endpoint and give
    the same secret again, a refresh replaces the token of a pairing and is refused without
    one, unpairing removes the three entries; no other property is ever changed. (A property
    file that cannot be read or parsed is replaced by one without its properties, see
    [pair_overwrites_unreadable].) *)
Theorem autopin_refines ops s w :
  forallb pin_ok ops = true -> pin_holds s (n_files w) ->
  exists rs w' s', run_pins ops w = (Ok rs, w') /\ pin_runs ops s rs s' /\ pin_holds s' (n_files w').
Proof.
  revert s w. induction ops as [|op ops IH]; intros s w Hops Hs; [by exists [], w, s; split_and!; [|constructor|]|].
  apply andb_true_iff in Hops as [Hop Hops].
  assert (reaches w (run_pin op) (pin_step op s)) as (r & w1 & E1 & n & hw & -> & H1)
    by (destruct op; [by apply pair_refines | by apply refresh_refines | by apply unpair_refines]).
  destruct (IH _ w1 Hops H1) as (rs & w2 & s' & E2 & Hr & H2).
  exists ((spec_pin (uuid_New n) hw op s).1 :: rs), w2, s'. split_and!; [|by constructor|done].
  cbn [run_pins]. unfold bind. by rewrite E1, E2.
Qed.

(** Two property files make the pair handler panic: one that holds [null] (the nil map
    has no entries to assign; nothing is written), and one whose pairing secret is neither a
    string nor null, for which the token and endpoint are replaced first. *)
Theorem autopin_pair_panics body req c w :
  decode_AutoPinPairRequest body = Some req -> ap_PinningToken req <> "" -> ap_PinningEndpoint req <> "" ->
  n_files w !! CUSTOM_PROPERTIES_FILE = Some c ->
  (unmarshal_map c = Some None ->
     exists w', handleAutoPinPair body w = (Panic, w') /\ n_files w' = n_files w) /\
  (forall m v, unmarshal_map c = Some (Some m) -> m !! "auto_pin_pairing_secret" = Some v -> v <> JNull ->
     (forall s, v <> JStr s) ->
     exists w', handleAutoPinPair body w = (Panic, w') /\
       n_files w' = <[CUSTOM_PROPERTIES_FILE := marshal_map (Some (<["auto_pin_endpoint" := JStr (ap_PinningEndpoint req)]>
                      (<["auto_pin_token" := JStr (ap_PinningToken req)]> m)))]> (n_files w)).
Proof.
  intros Hreq Ht He Hc. apply String.eqb_neq in Ht, He. unfold handleAutoPinPair. rewrite Hreq, Ht, He. cbn [orb].
  split.
  - intros Hn. eapply crashes_bind; [by eapply yields_try, yields_ReadProperties|]. intros w1 Hw1. cbn beta iota zeta.
    by exists (bump w1).
  - intros m v Hm Hv Hnull Hstr. eapply crashes_bind; [by eapply yields_try, yields_ReadProperties|].
    intros w1 Hw1. cbn beta iota zeta. assert (existing_secret (Some m) = Some v) as ->.
    { unfold existing_secret, get_prop. cbn [mbind option_bind]. rewrite Hv. destruct v; try done. by destruct (Hstr s). }
    cbn [set_prop]. eapply crashes_bind; [apply yields_ret|]. intros w2 Hw2.
    eapply crashes_bind; [apply yields_ret|]. intros w3 Hw3.
    eapply crashes_bind; [apply yields_try, yields_WriteProperties|]. intros w4 Hw4. cbn beta iota.
    destruct (hw_total w4) as (hw & w5 & E5 & H5). exists w5. unfold bind. rewrite E5.
    split; [|by rewrite H5, Hw4, Hw3, Hw2, Hw1]. destruct v; try done. by destruct (Hstr s).
Qed.
End refinement.
End autopin.

(** ** Witnesses *)
#[local] Instance pinEnv : Env := {|
  env_http := fun _ _ _ => ReplyErr "offline"; env_timer := fun _ _ => true; env_now := fun _ => 0; env_fs := fun _ => FsOk |}.
#[local] Instance pinExec : Exec := {|
  exec_Output := fun _ _ _ => ExecOk "a1b2c3"; exec_Run := fun _ _ _ => CmdStart "no shell" |}.
Definition pin_getenv (_ : string) : string := "".
Definition pin_uuid (n : nat) : string := "uuid-" +:+ FormatUint (Z.of_nat n) 10.

(** A property file of the set-up: a name, a count and a nested object. *)
Definition pin_others : gmap string json :=
  {["bloxName" := JStr "home"; "setupCount" := JNum "3"; "ota" := JObj [("channel", JStr "stable")]]}.
Definition pin_node : Node unit := mkNode 0 tt {[CUSTOM_PROPERTIES_FILE := marshal_map (Some pin_others)]} ∅ None [] [].
Definition pin_demo : list pin_op := [OpRefresh "t0"; OpPair "t1" "https://pin"; OpPair "t2" "https://pin2"; OpRefresh "t3"; OpUnpair].

Lemma pin_node_holds : pin_holds (File None pin_others) (n_files pin_node).
Proof.
  assert (settled_map pin_others) as Hs.
  { unfold pin_others. apply settled_insert; [done|]. apply settled_insert; [by split; vm_compute|].
    apply map_Forall_singleton. by split; vm_compute. }
  split; [split_and!; [done | by repeat apply Forall_cons_2 | done]|].
  eexists. split; [apply lookup_singleton_eq|]. by apply unmarshal_marshal.
Qed.

Lemma pin_uuid_nonempty n : pin_uuid n <> "".
Proof. done. Qed.

Lemma autopin_refines_witness :
  forallb pin_ok pin_demo = true /\
  exists rs w' s', run_pins pin_getenv pin_uuid pin_demo pin_node = (Ok rs, w') /\
    pin_runs pin_uuid pin_demo (File None pin_others) rs s' /\ pin_holds s' (n_files w').
Proof.
  assert (forallb pin_ok pin_demo = true) as H by reflexivity. split; [exact H|].
  exact (autopin_refines (E := pinEnv) (X := pinExec) pin_getenv pin_uuid (fun _ => eq_refl) pin_uuid_nonempty
           pin_demo (File None pin_others) pin_node H pin_node_holds).
Defined.

(** A property file that is not JSON is replaced: the name it may have held is gone. *)
Example pair_overwrites_unreadable :
  let body := Some (jq "{'pinning_token':'t','pinning_endpoint':'e'}") in
  let w := mkNode 0 tt {[CUSTOM_PROPERTIES_FILE := "bloxName: home"]} ∅ None [] [] in
  let '(r, w') := handleAutoPinPair pin_getenv pin_uuid body w in
  (resp_code <$> match r with Ok r => Some r | _ => None end) = Some 200 /\
  (c ← n_files w' !! CUSTOM_PROPERTIES_FILE; unmarshal_map c) =
    Some (Some {["auto_pin_token" := JStr "t"; "auto_pin_endpoint" := JStr "e"; "auto_pin_pairing_secret" := JStr "uuid-1"]}).
Proof. split; vm_compute; reflexivity. Qed.

Definition null_node : Node unit := mkNode 0 tt {[CUSTOM_PROPERTIES_FILE := "null"]} ∅ None [] [].

Lemma autopin_pair_panics_witness :
  let body := Some (jq "{'pinning_token':'t','pinning_endpoint':'e'}") in
  exists w', handleAutoPinPair pin_getenv pin_uuid body null_node = (Panic, w') /\ n_files w' = n_files null_node.
Proof.
  intros body.
  apply (autopin_pair_panics (E := pinEnv) (X := pinExec) pin_getenv pin_uuid (fun _ => eq_refl) body (mkPairReq "t" "e") "null" null_node).
  - vm_compute. reflexivity.
  - discriminate.
  - discriminate.
  - reflexivity.
  - vm_compute. reflexivity.
Defined.
