(* ===== verification/Wifi.v ===== *)
(** * wap/pkg/wifi/wifi.go, init.go, hotspot.go, scan.go: network operations

    The device's network is managed by running [nmcli] and [iw]. Most commands are written
    as one line of text, which [runCommand] splits at white space (there is no shell, so
    quotes and pipes are ordinary arguments); some are given as argument lists. Every
    command asked for is recorded in the node's state, also one that cannot be started; what
    became of it is the answer of [exec_Run] at that effect. *)

From S2P Require Import Prelude GoStd Json JsonPrint Float GoPath Effects Node Disk Nas Properties WifiProps.

#[local] Open Scope string_scope.
#[local] Open Scope Z_scope.

Definition nl : string := String (ascii_of_nat 10) "".
Definition dquote : string := String (ascii_of_nat 34) "".

Definition RESTART_NEEDED_PATH := "/home/commands/.command_reboot".
Definition PARTITION_NEEDED_PATH := "/home/commands/.command_partition".
Definition maxRetries : nat := 4.
Definition second := 1000000000.

Record Credentials := mkCreds { cr_SSID : string; cr_Password : string; cr_CountryCode : string }.
Record WifiAP := mkWifi { w_ESSID : string; w_SSID : string; w_RSSI : Z }.

(** stdout, stderr and the error of a finished command. *)
Record CmdOut := mkOut { co_stdout : string; co_stderr : string; co_err : option string }.

Definition msg_status (msg : string) (status : bool) : json := JObj [("msg", JStr msg); ("status", JBool status)].

Section wifi.
Context {S : Type} `{PS : PoolStore S} `{E : Env} `{X : Exec}.
Context (GOOS : string).                         (** runtime.GOOS *)
Context (ini_psk : string -> option string).      (** ini: the psk key of section wifi-security *)
Context (tmp_name : nat -> string).               (** os.CreateTemp *)

(** ** init.go *)
Definition runCommand (commands : string) : M (Node S) CmdOut :=
  match Fields commands with
  | [] => panic
  | name :: args =>
      r <- cmd_Run name args;;
      ret (match r with
           | CmdStart e => mkOut "" "" (Some e)
           | CmdDone o e err => mkOut o e err
           | CmdKilled _ _ None => mkOut "" "" None
           | CmdKilled o e (Some k) => mkOut o e (Some k)
           end)
  end.

(** exec.CommandContext(...).Run, and runCommandDirect: only the error. *)
Definition run_args (name : string) (args : list string) : M (Node S) (option string) :=
  r <- cmd_Run name args;;
  ret (match r with
       | CmdStart e => Some e
       | CmdDone _ _ err => err
       | CmdKilled _ _ _ => Some "signal: killed"
       end).

Definition time_Sleep (d : Z) : M (Node S) () := fun w => (Ok (), bump w).

(** One pass over the commands: [inl] is a cancelled context, otherwise whether one failed. *)
Fixpoint commands_once (commands : list string) : M (Node S) (string + bool) :=
  match commands with
  | [] => ret (inr false)
  | cmd :: rest =>
      o <- runCommand cmd;;
      match co_err o with
      | Some _ => ret (inr true)
      | None => d <- ctx_done;; if d : bool then ret (inl "context error") else commands_once rest
      end
  end.

(** At most [maxRetries + 1] passes; running out of them is not an error. *)
Fixpoint commands_retry (n : nat) (commands : list string) : M (Node S) () :=
  match n with
  | O => ret ()
  | Datatypes.S n' =>
      r <- commands_once commands;;
      match r with
      | inl e => raise e
      | inr false => ret ()
      | inr true => d <- ctx_done;; if d : bool then raise "context error" else commands_retry n' commands
      end
  end.
Definition runCommands (commands : list string) : M (Node S) () := commands_retry (Datatypes.S maxRetries) commands.

(** ** hotspot.go *)
Definition hotspot_path := "/etc/NetworkManager/system-connections/FxBlox.nmconnection".
Definition hotspot_content :=
  Join ["[connection]"; "id=FxBlox"; "type=wifi"; "autoconnect=false"; ""; "[wifi]"; "mode=ap"; "ssid=FxBlox"; "";
        "[ipv4]"; "method=shared"; ""; "[ipv6]"; "method=shared"; ""] nl.
Definition writeHotspotConnectionFile : M (Node S) () := write_file hotspot_path hotspot_content.

Definition addHotspot : string :=
  "nmcli connection add type wifi con-name FxBlox autoconnect no wifi.mode ap wifi.ssid FxBlox ipv4.method shared ipv6.method shared".

Definition startHotspotLinux : M (Node S) () :=
  runCommand "nmcli connection delete FxBlox";;;
  time_Sleep (2 * second);;;
  a <- runCommand addHotspot;;
  match co_err a with
  | None => ret ()
  | Some _ =>
      wrapErr "nmcli add failed and file fallback also failed" writeHotspotConnectionFile;;;
      r <- runCommand "nmcli connection reload";;
      match co_err r with Some e => raise ("nmcli reload failed after file fallback: " +:+ e) | None => ret () end
  end;;;
  time_Sleep (2 * second);;;
  u <- runCommand "nmcli connection up FxBlox";;
  match co_err u with Some e => raise e | None => ret () end.

Definition run_all_last_error (sleep : Z) (commands : list string) : M (Node S) (option string) :=
  (fix go (cs : list string) (err : option string) : M (Node S) (option string) :=
     match cs with
     | [] => ret err
     | c :: cs' =>
         o <- runCommand c;; time_Sleep sleep;;; go cs' (match co_err o with Some e => Some e | None => err end)
     end) commands None.

Definition StartHotspot (forceReload : bool) : M (Node S) () :=
  if (GOOS =? "windows")%string then
    runCommand "netsh wlan set hostednetwork mode=allow ssid=FxBlox";;;
    (if forceReload then
       runCommand "netsh interface set interface name=Wi-Fi admin=disabled";;;
       runCommand "netsh interface set interface name=Wi-Fi admin=enabled";;;
       time_Sleep (3 * second)
     else ret ());;;
    err <- run_all_last_error (2 * second) ["netsh wlan start hostednetwork"];;
    match err with Some e => raise e | None => ret () end
  else if (GOOS =? "darwin")%string then
    err <- run_all_last_error (2 * second)
             ["/System/Library/PrivateFrameworks/Apple80211.framework/Versions/Current/Resources/createbssid -n FxBlox"];;
    match err with Some e => raise e | None => ret () end
  else startHotspotLinux.

Fixpoint run_until_error (commands : list string) : M (Node S) () :=
  match commands with
  | [] => ret ()
  | c :: cs => o <- runCommand c;; match co_err o with Some e => raise e | None => run_until_error cs end
  end.
Definition StopHotspot : M (Node S) () :=
  run_until_error
    (if (GOOS =? "windows")%string then ["netsh wlan stop hostednetwork"]
     else if (GOOS =? "darwin")%string then
       ["/System/Library/PrivateFrameworks/Apple80211.framework/Versions/Current/Resources/createbssid -n FxBlox"]
     else ["nmcli r wifi off"; "nmcli r wifi on"]).

Definition CheckConnection : M (Node S) () :=
  o <- runCommand "nmcli -t -f DEVICE,STATE device status";;
  match co_err o with
  | Some e => raise ("failed to run nmcli command: " +:+ e)
  | None => if Contains (co_stdout o) "wlan0:connected" then ret () else raise "Wi-Fi not connected"
  end.

(** The wireless connections other than the hotspot in a NAME:TYPE listing. *)
Definition external_wifi (line : string) : option string :=
  match cut_last ":" (TrimSpace line) with
  | Some (network, connType) =>
      if negb (network =? "FxBlox")%string && (connType =? "802-11-wireless")%string then Some network else None
  | None => None
  end.
Fixpoint down_all (networks : list string) : M (Node S) () :=
  match networks with
  | [] => ret ()
  | n :: ns => run_args "nmcli" ["connection"; "down"; n];;; down_all ns
  end.
Definition DisconnectFromExternalWifi : M (Node S) () :=
  if (GOOS =? "windows")%string then ret () else
  o <- runCommand "nmcli --terse --fields NAME,TYPE connection show --active";;
  match co_err o with
  | Some e => raise e
  | None => down_all (omap external_wifi (split_char (ascii_of_nat 10) (co_stdout o)))
  end.

(** Hotspot support as the drivers report it. *)
Definition parseHotspotWindows (output : string) : bool :=
  existsb (fun line => Contains line "Hosted network supported" &&
                       match Fields line with [_; _; _; _; y] => (y =? "Yes")%string | _ => false end) (scan_lines output).
Definition parseHotspotDarwin (output : string) : bool := existsb (fun line => Contains line "Wi-Fi") (scan_lines output).
Definition parseHotspotLinux (output : string) : bool :=
  existsb (fun line => Contains (ToLower line) "device supports ap") (scan_lines output).
Definition parseHotspot (output os : string) : outcome bool :=
  if (os =? "windows")%string then Ok (parseHotspotWindows output)
  else if (os =? "darwin")%string then Ok (parseHotspotDarwin output)
  else if (os =? "linux")%string then Ok (parseHotspotLinux output)
  else Err (os +:+ " is not a recognized OS").

Definition CheckHotspotSupported : M (Node S) bool :=
  let os := if (GOOS =? "windows")%string then "windows" else if (GOOS =? "darwin")%string then "darwin" else "linux" in
  let command := if (GOOS =? "windows")%string then "netsh wlan show drivers"
                 else if (GOOS =? "darwin")%string then "networksetup -listallhardwareports" else "iw list" in
  o <- runCommand command;;
  match co_err o with Some e => raise e | None => lift (parseHotspot (co_stdout o) os) end.

(** ** wifi.go: is the device connected *)
Definition iw_interfaces (stdout : string) : list string :=
  omap (fun line => if Contains line "Interface" then match Fields line with _ :: i :: _ => Some i | _ => None end else None)
       (scan_lines stdout).

Fixpoint any_linked (interfaces : list string) : M (Node S) bool :=
  match interfaces with
  | [] => ret false
  | i :: is' =>
      o <- runCommand ("iw dev " +:+ i +:+ " link");;
      match co_err o with
      | Some _ => any_linked is'
      | None =>
          if Contains (co_stdout o) "Not connected" then any_linked is'
          else if Contains (co_stdout o) "Connected to" && negb (Contains (co_stdout o) "FxBlox") then ret true
          else any_linked is'
      end
  end.

Definition checkIfIsConnectedLinux (interfaceName : string) : M (Node S) () :=
  interfaces <-
    (if (interfaceName =? "")%string then
       o <- runCommand "iw dev";;
       match co_err o with Some e => raise e | None => ret (iw_interfaces (co_stdout o)) end
     else ret [interfaceName]);;
  ok <- any_linked interfaces;;
  if ok : bool then ret () else raise "WiFi not connected on any interface".

Definition on_linux {A : Type} (m : M (Node S) A) : M (Node S) A :=
  if (GOOS =? "linux")%string then m else raise "unsupported platform".

Definition CheckIfIsConnectedWifi (interfaceName : string) : M (Node S) () :=
  on_linux (checkIfIsConnectedLinux interfaceName).

Definition CheckIfIsConnected (interfaceName : string) : M (Node S) () :=
  on_linux (
  r <- try (CheckIfIsConnectedWifi interfaceName);;
  match r with
  | inl _ =>
      p <- run_args "ping" ["-c"; "1"; "-W"; "5"; "google.com"];;
      match p with
      | Some e => raise ("wifi not connected and unable to reach internet: " +:+ e)
      | None => ret ()
      end
  | inr _ =>
      o <- runCommand "nmcli -t -f NAME connection show --active";;
      match co_err o with
      | None => if Contains (co_stdout o) "FxBlox" then raise "connected to FxBlox hotspot, not external WiFi" else ret ()
      | Some _ => ret ()
      end
  end).

(** ** Connecting *)
Definition DeleteConnection (connectionName : string) : M (Node S) () :=
  runCommand ("nmcli con down " +:+ connectionName);;;
  runCommand ("nmcli con delete " +:+ connectionName);;; ret ().

Definition activateHotspot : M (Node S) () := runCommand "nmcli connection up FxBlox";;; ret ().

Definition connection_path (connectionName : string) : string :=
  "/etc/NetworkManager/system-connections/" +:+ connectionName +:+ ".nmconnection".
Definition connection_content (connectionName ssid password : string) : string :=
  Join ["[connection]"; "id=" +:+ connectionName; "type=wifi"; "interface-name=*"; ""; "[wifi]"; "ssid=" +:+ ssid; "";
        "[wifi-security]"; "key-mgmt=wpa-psk"; "psk=" +:+ password; ""; "[ipv4]"; "method=auto"; ""; "[ipv6]";
        "method=auto"; ""] nl.
Definition writeWifiConnectionFile (connectionName ssid password : string) : M (Node S) () :=
  write_file (connection_path connectionName) (connection_content connectionName ssid password).

Definition createConnection (connectionName ssid password : string) : M (Node S) () :=
  r <- run_args "nmcli" ["con"; "add"; "type"; "wifi"; "ifname"; "*"; "con-name"; connectionName; "ssid"; ssid];;
  match r with
  | Some _ =>
      wrapErr "nmcli add failed and file fallback also failed" (writeWifiConnectionFile connectionName ssid password);;;
      o <- runCommand "nmcli connection reload";;
      match co_err o with Some e => raise ("nmcli reload failed after file fallback: " +:+ e) | None => ret () end
  | None =>
      m <- run_args "nmcli" ["con"; "modify"; connectionName; "wifi-sec.key-mgmt"; "wpa-psk"; "wifi-sec.psk"; password];;
      match m with Some e => raise e | None => ret () end
  end.

Definition getDeviceOfConnection (connectionName : string) : M (Node S) string :=
  o <- runCommand ("nmcli -g GENERAL.DEVICES con show " +:+ dquote +:+ connectionName +:+ dquote);;
  match co_err o with Some e => raise e | None => ret (TrimSpace (co_stdout o)) end.

Definition connectToNetwork (connectionName : string) : M (Node S) () :=
  u <- run_args "nmcli" ["con"; "up"; connectionName; "--ask"];;
  match u with
  | Some e => raise e
  | None =>
      time_Sleep (10 * second);;;
      interfaceName <- getDeviceOfConnection connectionName;;
      CheckIfIsConnected interfaceName;;;
      run_until_error ["nmcli connection modify " +:+ connectionName +:+ " connection.autoconnect yes";
                       "nmcli connection modify " +:+ connectionName +:+ " connection.autoconnect-priority 20"]
  end.

(** After a failure: the clean-up, then the error again. *)
Definition or_else {A : Type} (m : M (Node S) A) (cleanup : M (Node S) ()) : M (Node S) A :=
  r <- try m;; match r with inr a => ret a | inl e => cleanup;;; raise e end.

Definition connectLinux (creds : Credentials) : M (Node S) () :=
  let connectionName := replace_char " " "_" (cr_SSID creds) in
  DeleteConnection connectionName;;;
  or_else (createConnection connectionName (cr_SSID creds) (cr_Password creds)) activateHotspot;;;
  or_else (connectToNetwork connectionName) (DeleteConnection connectionName;;; activateHotspot);;;
  DeleteConnection "FxBlox".
Definition ConnectWifi (creds : Credentials) : M (Node S) () := on_linux (connectLinux creds).

Definition disconnectLinux : M (Node S) () :=
  runCommands [Join ["nmcli"; "con"; "down"; "type"; "wifi"] ""];;; CheckIfIsConnected "".
Definition DisconnectWifi : M (Node S) () := on_linux disconnectLinux.

Definition EnsureHotspotActive : M (Node S) () :=
  o <- runCommand "nmcli -t -f NAME,STATE connection show --active";;
  if match co_err o with None => Contains (co_stdout o) "FxBlox:activated" | Some _ => false end then ret () else
  u <- runCommand "nmcli connection up FxBlox";;
  match co_err u with Some _ => StartHotspot true | None => ret () end.

(** ** Saved networks *)
Definition getWifiConnections : M (Node S) (list string) :=
  o <- runCommand "nmcli --terse --fields TYPE,NAME connection";;
  match co_err o with
  | Some e => raise e
  | None =>
      ret (omap (fun line => match split_char ":" line with
                             | [t; n] => if (t =? "802-11-wireless")%string && negb (n =? "FxBlox")%string then Some n else None
                             | _ => None
                             end) (scan_lines (co_stdout o)))
  end.

Definition readWiFiPasswordFromFile (connectionName : string) : M (Node S) string :=
  f <- read_file (connection_path connectionName);;
  match f with
  | None => raise "failed to read file"
  | Some c => match ini_psk c with None => raise "failed to read file" | Some psk => ret psk end
  end.

Definition getWiFiPassword (connectionName : string) : M (Node S) string :=
  o <- runCommand ("nmcli -s -g 802-11-wireless-security.psk connection show " +:+ connectionName +:+ " | tr -d '" +:+ nl +:+ "'");;
  match co_err o with
  | None => ret (TrimSpace (co_stdout o))
  | Some _ =>
      p <- wrapErr "error running command" (readWiFiPasswordFromFile connectionName);;
      ret (TrimSpace p)
  end.

(** The password goes to a temporary file, which is removed when the function returns. *)
Definition with_password_file (connection passwd : string) : M (Node S) () :=
  name <- fx tmp_name;;
  wrapErr "failed to create temporary file" (write_file name "");;;
  r <- try (wrapErr "failed to write password to temporary file" (write_file name ("802-11-wireless-security.psk:" +:+ passwd));;;
            o <- runCommand ("nmcli connection up " +:+ connection +:+ " passwd-file " +:+ name);;
            match co_err o with
            | None => ret ()
            | Some _ =>
                DeleteConnection connection;;;
                try (createConnection connection connection passwd);;;
                connectToNetwork connection
            end);;
  try (os_Remove (filepath_Clean name));;;
  match r with inl e => raise e | inr _ => ret () end.

Definition connectToFirstWifi (connections : list string) : M (Node S) () :=
  match connections with
  | [] => raise "no Wi-Fi connections available"
  | connection :: _ =>
      o <- runCommand ("nmcli connection up " +:+ connection);;
      match co_err o with
      | None => ret ()
      | Some _ =>
          passwd <- getWiFiPassword connection;;
          if negb (passwd =? "")%string then with_password_file connection passwd else ret ()
      end
  end.
Definition ConnectToSavedWifi : M (Node S) () := cs <- getWifiConnections;; connectToFirstWifi cs.

(** ** Operations behind the hardware handlers *)

(** os.OpenFile with O_CREATE and O_EXCL. *)
Definition touch_new (path : string) : M (Node S) json :=
  r <- fs_step;;
  match r with
  | FsErr _ => ret (msg_status "Failed to open file: open" false)
  | FsOk =>
      f <- gets (fun w => n_files w !! path);;
      match f with
      | Some _ => ret (msg_status "File already exists" true)
      | None => modify (fun w => set_files (<[path := ""]> (n_files w)) w);;; ret (msg_status "File created" true)
      end
  end.
Definition Reboot : M (Node S) json := touch_new RESTART_NEEDED_PATH.
Definition Partition : M (Node S) json := touch_new PARTITION_NEEDED_PATH.

Definition chain_folder := "/uniondrive/chain/chains/functionyard/db/full".
(** filepath.Walk over the files of the folder (their order matters only when a removal fails). *)
Fixpoint remove_all (paths : list string) : M (Node S) () :=
  match paths with [] => ret () | p :: ps => os_Remove p;;; remove_all ps end.
Definition files_under (folder : string) (F : gmap string string) : list string :=
  filter (fun p => HasPrefix p (folder +:+ "/") = true) (map fst (map_to_list F)).
Definition EraseBlData : M (Node S) json :=
  r <- fs_step;;
  match r with
  | FsErr _ => ret (JObj [("status", JBool false); ("msg", JStr "Error deleting files: lstat")])
  | FsOk =>
      ps <- gets (fun w => files_under chain_folder (n_files w));;
      v <- try (remove_all ps);;
      ret (match v with
           | inl e => JObj [("status", JBool false); ("msg", JStr ("Error deleting files: " +:+ e))]
           | inr _ => JObj [("status", JBool true); ("msg", JStr "All files deleted successfully")]
           end)
  end.

(** The file is the one the blox program's accessors work on. *)
Definition DeleteFulaConfig : M (Node S) json :=
  r <- fs_step;;
  f <- gets (fun w => n_files w !! FULA_CONFIG_PATH);;
  match r, f with
  | FsErr _, _ => ret (msg_status "error checking config file: stat" false)
  | FsOk, None => ret (msg_status "Config file does not exist." true)
  | FsOk, Some _ =>
      v <- try (os_RemoveConfig FULA_CONFIG_PATH);;
      ret (match v with
           | inl e => msg_status ("failed to delete config file: " +:+ e) false
           | inr _ => msg_status "Config file deleted successfully." true
           end)
  end.

Definition DeleteWifi (connectionName : string) : M (Node S) json :=
  o <- runCommand ("nmcli con delete '" +:+ TrimSpace connectionName +:+ "'");;
  ret (match co_err o with
       | Some e => msg_status ("Failed to delete connection " +:+ connectionName +:+ ": " +:+ e) false
       | None => msg_status "wifi connection removed successfully. " true
       end).
Definition DisconnectNamedWifi (connectionName : string) : M (Node S) json :=
  o <- runCommand ("nmcli con down " +:+ TrimSpace connectionName);;
  ret (match co_err o with
       | Some e => msg_status ("Failed to disconnect connection " +:+ connectionName +:+ ": " +:+ e) false
       | None => msg_status "wifi connection disconnected successfully. " true
       end).

Fixpoint delete_each (connections : list string) : M (Node S) (list string) :=
  match connections with
  | [] => ret []
  | c :: cs =>
      o <- runCommand ("nmcli con delete '" +:+ TrimSpace c +:+ "'");;
      errs <- delete_each cs;;
      ret (match co_err o with
           | Some e => ("Failed to delete connection " +:+ c +:+ ": " +:+ e) :: errs
           | None => errs
           end)
  end.
Definition WifiRemoveall : M (Node S) json :=
  r <- try getWifiConnections;;
  match r with
  | inl e => ret (msg_status ("Failed to get connections: " +:+ e) false)
  | inr cs =>
      errs <- delete_each cs;;
      ret (match errs with
           | [] => msg_status "All wifi connections removed successfully. " true
           | _ => msg_status (Join errs "; ") false
           end)
  end.

(** ** No command line is empty *)
Definition no_panic {A : Type} (m : M (Node S) A) : Prop := forall w, (m w).1 <> Panic.

Lemma np_ret {A} (a : A) : no_panic (ret a).
Proof. done. Qed.
Lemma np_raise {A} e : no_panic (@raise (Node S) A e).
Proof. done. Qed.
Lemma np_bind {A B} (m : M (Node S) A) (k : A -> M (Node S) B) : no_panic m -> (forall a, no_panic (k a)) -> no_panic (bind m k).
Proof.
  intros Hm Hk w. specialize (Hm w). unfold bind. destruct (m w) as [[a|e|] w1]; cbn in *; [apply Hk | done | done].
Qed.
Lemma np_try {A} (m : M (Node S) A) : no_panic m -> no_panic (try m).
Proof. intros Hm w. specialize (Hm w). unfold try. by destruct (m w) as [[]]. Qed.
Lemma np_wrapErr {A} pre (m : M (Node S) A) : no_panic m -> no_panic (wrapErr pre m).
Proof. intros Hm w. specialize (Hm w). unfold wrapErr. by destruct (m w) as [[]]. Qed.

Lemma runCommand_run c w : Fields c <> [] ->
  exists o w', runCommand c w = (Ok o, w') /\ n_cmds w' = (n_cmds w ++ [Fields c])%list.
Proof. unfold runCommand. destruct (Fields c) as [|n a]; [done|]. intros _. by do 2 eexists. Qed.

Lemma np_runCommand p s : no_space p = true -> p <> "" -> no_panic (runCommand (p +:+ String " " s)).
Proof.
  intros Hp Hne w. destruct (runCommand_run (p +:+ String " " s) w) as (o & w' & -> & _); [|done].
  by rewrite Fields_cons.
Qed.
Lemma np_nmcli s : no_panic (runCommand ("nmcli " +:+ s)).
Proof. by apply (np_runCommand "nmcli"). Qed.
Lemma np_iw s : no_panic (runCommand ("iw " +:+ s)).
Proof. by apply (np_runCommand "iw"). Qed.
Lemma np_run_args n a : no_panic (run_args n a).
Proof. done. Qed.
Lemma np_write p d : no_panic (write_file p d).
Proof. intros w. unfold write_file, os_WriteFile, fs_step, bind. by destruct (env_fs _) as [|[]]. Qed.
#[local] Hint Resolve np_ret np_raise np_nmcli np_iw np_run_args np_write : core.

(** Walk through a program whose commands start with the program's name. *)
Ltac np_go :=
  repeat match goal with
  | |- forall _, _ => intro
  | |- no_panic (bind _ _) => apply np_bind
  | |- no_panic (try _) => apply np_try
  | |- no_panic (wrapErr _ _) => apply np_wrapErr
  | |- no_panic (runCommand (String "n" (String "m" ?s))) => exact (np_nmcli _)
  | |- no_panic (runCommand (String "i" (String "w" ?s))) => exact (np_iw _)
  | |- no_panic (match ?x with _ => _ end) => destruct x
  | |- no_panic _ => done
  | |- no_panic _ => solve [eauto]
  end.

Lemma np_linked is' : no_panic (any_linked is').
Proof. induction is' as [|i is' IH]; cbn [any_linked]; np_go. Qed.
#[local] Hint Resolve np_linked : core.
Lemma np_connected i : no_panic (CheckIfIsConnected i).
Proof. unfold CheckIfIsConnected, CheckIfIsConnectedWifi, on_linux, checkIfIsConnectedLinux. destruct (_ =? _)%string; np_go. Qed.
#[local] Hint Resolve np_connected : core.
Lemma np_create a b c : no_panic (createConnection a b c).
Proof. unfold createConnection, writeWifiConnectionFile. np_go. Qed.
Lemma np_connect a : no_panic (connectToNetwork a).
Proof. unfold connectToNetwork, getDeviceOfConnection. cbn [run_until_error]. np_go. Qed.

(** ** Connecting falls back to the hotspot *)
Definition up_hotspot : list string := ["nmcli"; "connection"; "up"; "FxBlox"].

Lemma activateHotspot_run w : exists w', activateHotspot w = (Ok (), w') /\ n_cmds w' = (n_cmds w ++ [up_hotspot])%list.
Proof.
  destruct (runCommand_run "nmcli connection up FxBlox" w) as (o & w1 & E1 & H1); [by vm_compute|].
  exists w1. split; [unfold activateHotspot, bind; by rewrite E1|]. by rewrite H1.
Qed.

Lemma DeleteConnection_run name w : exists w', DeleteConnection name w = (Ok (), w') /\
  n_cmds w' = (n_cmds w ++ [Fields ("nmcli con down " +:+ name); Fields ("nmcli con delete " +:+ name)])%list.
Proof.
  destruct (runCommand_run ("nmcli con down " +:+ name) w) as (o1 & w1 & E1 & H1).
  { change ("nmcli con down " +:+ name) with ("nmcli" +:+ String " " ("con down " +:+ name)). by rewrite Fields_cons. }
  destruct (runCommand_run ("nmcli con delete " +:+ name) w1) as (o2 & w2 & E2 & H2).
  { change ("nmcli con delete " +:+ name) with ("nmcli" +:+ String " " ("con delete " +:+ name)). by rewrite Fields_cons. }
  exists w2. split; [unfold DeleteConnection, bind; by rewrite E1, E2|]. by rewrite H2, H1, <- app_assoc.
Qed.

Lemma bind_run {A B} (m : M (Node S) A) (k : A -> M (Node S) B) w a w' : m w = (Ok a, w') -> bind m k w = k a w'.
Proof. unfold bind. by intros ->. Qed.
Lemma bind_fail {A B} (m : M (Node S) A) (k : A -> M (Node S) B) w e w' : m w = (Err e, w') -> bind m k w = (Err e, w').
Proof. unfold bind. by intros ->. Qed.

(** The log of commands is only added to. *)
Definition logged (w w' : Node S) : Prop := (n_fx w <= n_fx w')%nat /\ exists cs, n_cmds w' = (n_cmds w ++ cs)%list.
#[local] Instance logged_preorder : PreOrder logged.
Proof.
  split; [intros w; split; [done | exists []; by rewrite app_nil_r]|].
  intros w1 w2 w3 [H1 [cs E1]] [H2 [cs' E2]]. split; [lia|]. exists (cs ++ cs')%list. by rewrite E2, E1, app_assoc.
Qed.
Lemma logged_cmd_Run n a : keeps logged (cmd_Run (S := S) n a).
Proof. intros w. split; [cbn; lia|]. by exists [n :: a]. Qed.
Lemma logged_sleep d : keeps logged (time_Sleep d).
Proof. intros w. split; [cbn; lia | exists []; by rewrite app_nil_r]. Qed.
Lemma logged_write p d : keeps logged (os_WriteFile (S := S) p d).
Proof.
  intros w. unfold os_WriteFile, fs_step, bind. destruct (env_fs (n_fx w)) as [|[n|]];
    (split; [cbn; lia | exists []; by rewrite app_nil_r]).
Qed.
#[local] Hint Resolve logged_cmd_Run logged_sleep logged_write : keeps.
Lemma logged_runCommand c : keeps logged (runCommand c).
Proof. unfold runCommand. destruct (Fields c); keeps_go. Qed.
Lemma logged_run_args n a : keeps logged (run_args n a).
Proof. unfold run_args. keeps_go. Qed.
#[local] Hint Resolve logged_runCommand logged_run_args : keeps.
Lemma logged_linked l : keeps logged (any_linked l).
Proof. induction l as [|i l IH]; cbn [any_linked]; keeps_go. Qed.
#[local] Hint Resolve logged_linked : keeps.
Lemma logged_wifi i : keeps logged (CheckIfIsConnectedWifi i).
Proof. unfold CheckIfIsConnectedWifi, on_linux, checkIfIsConnectedLinux. keeps_go. Qed.
Lemma logged_create a b c : keeps logged (createConnection a b c).
Proof. unfold createConnection, writeWifiConnectionFile, write_file. keeps_go. Qed.
Lemma logged_device n : keeps logged (getDeviceOfConnection n).
Proof. unfold getDeviceOfConnection. keeps_go. Qed.
Lemma logged_until l : keeps logged (run_until_error l).
Proof. induction l as [|i l IH]; cbn [run_until_error]; keeps_go. Qed.
#[local] Hint Resolve logged_wifi logged_create logged_device logged_until : keeps.

Lemma logged_connect n : keeps logged (connectToNetwork n).
Proof. unfold connectToNetwork, CheckIfIsConnected, on_linux. cbn zeta. keeps_go. Qed.
Lemma logged_delete n : keeps logged (DeleteConnection n).
Proof. unfold DeleteConnection. keeps_go. Qed.
#[local] Hint Resolve logged_connect logged_delete : keeps.

(** An operation with a clean-up that ends by raising the hotspot. *)
Lemma or_else_cases {A} (m : M (Node S) A) cleanup w : no_panic m -> keeps logged m ->
  (forall w1, exists w2 cs, cleanup w1 = (Ok (), w2) /\ n_cmds w2 = (n_cmds w1 ++ cs ++ [up_hotspot])%list) ->
  (exists a w', m w = (Ok a, w') /\ or_else m cleanup w = (Ok a, w') /\ logged w w') \/
  (exists e w' cs, or_else m cleanup w = (Err e, w') /\ n_cmds w' = (n_cmds w ++ cs ++ [up_hotspot])%list).
Proof.
  intros Hm Hl Hc. specialize (Hm w). specialize (Hl w). unfold or_else, bind, try.
  destruct (m w) as [[a|e|] w1]; [|right|done]; cbn [snd] in Hl.
  - left. by exists a, w1.
  - destruct (Hc w1) as (w2 & cs & E2 & H2), Hl as [_ [c0 E0]]. exists e, w2, (c0 ++ cs)%list.
    split; [by rewrite E2|]. by rewrite H2, E0, <- !app_assoc.
Qed.

(** The [k]-th effect ran [argv] to its end without an error, and printed [out]. *)
Definition ran (k : nat) (argv : list string) (out : string) : Prop :=
  exists name args err, argv = name :: args /\ exec_Run k name args = CmdDone out err None.

(** The command showed that the device is online: an interface is linked to a network that
    is not the hotspot, or the internet answers. *)
Definition shows_online (k : nat) (argv : list string) : Prop :=
  (exists i out, argv = Fields ("iw dev " +:+ i +:+ " link") /\ ran k argv out /\ Contains out "Connected to" = true /\
     Contains out "Not connected" = false /\ Contains out "FxBlox" = false) \/
  (exists out, argv = ["ping"; "-c"; "1"; "-W"; "5"; "google.com"] /\ ran k argv out).

(** Between the two states [argv] was run and showed the device online. *)
Definition online_between (w w' : Node S) : Prop :=
  exists k argv pre post, (n_fx w <= k < n_fx w')%nat /\ shows_online k argv /\
    n_cmds w' = (n_cmds w ++ pre ++ argv :: post)%list.

Lemma online_logged w0 w w' w1 : logged w0 w -> online_between w w' -> logged w' w1 -> online_between w0 w1.
Proof.
  intros [H0 [c0 E0]] (k & argv & pre & post & Hk & Hs & Ew) [H1 [c1 E1]].
  exists k, argv, (c0 ++ pre)%list, (post ++ c1)%list. split; [lia|]. split; [done|].
  rewrite E1, Ew, E0, <- !app_assoc. done.
Qed.

Lemma run_args_None name args w w' : run_args name args w = (Ok None, w') ->
  (exists out, ran (n_fx w) (name :: args) out) /\ n_fx w' = Datatypes.S (n_fx w) /\
  n_cmds w' = (n_cmds w ++ [name :: args])%list.
Proof.
  unfold run_args, bind, cmd_Run, ret. intros H. injection H as H <-. split; [|done].
  destruct (exec_Run (n_fx w) name args) as [|out err [e|]|] eqn:Er; try done. exists out. by exists name, args, err.
Qed.

Lemma runCommand_out c w o w' : runCommand c w = (Ok o, w') -> co_err o = None -> co_stdout o <> "" ->
  ran (n_fx w) (Fields c) (co_stdout o) /\ n_fx w' = Datatypes.S (n_fx w) /\ n_cmds w' = (n_cmds w ++ [Fields c])%list.
Proof.
  unfold runCommand. destruct (Fields c) as [|name args]; [done|]. unfold bind, cmd_Run, ret. intros H. injection H as <- <-.
  destruct (exec_Run (n_fx w) name args) as [e|out err er|out err [k|]] eqn:Er; cbn; try done.
  intros -> _. split; [|done]. by exists name, args, err.
Qed.

Lemma any_linked_true l w w' : any_linked l w = (Ok true, w') -> online_between w w'.
Proof.
  revert w. induction l as [|i l IH]; intros w H; cbn [any_linked] in H; [done|].
  apply bind_Ok_inv in H as (o & w1 & H1 & H). pose proof (logged_runCommand ("iw dev " +:+ i +:+ " link") w) as Hl.
  rewrite H1 in Hl. cbn [snd] in Hl.
  destruct (co_err o) eqn:Ee; [by eapply online_logged; [exact Hl | by apply IH | done]|].
  destruct (Contains (co_stdout o) "Not connected") eqn:En; [by eapply online_logged; [exact Hl | by apply IH | done]|].
  destruct (Contains (co_stdout o) "Connected to" && negb (Contains (co_stdout o) "FxBlox")) eqn:Ec;
    [|by eapply online_logged; [exact Hl | by apply IH | done]].
  injection H as <-. apply andb_true_iff in Ec as [Ec Ef%negb_true_iff].
  assert (co_stdout o <> "") as Hne by (intros E0; by rewrite E0 in Ec).
  apply runCommand_out in H1 as (Hr & Hn & Hcmd); [|done..].
  exists (n_fx w), (Fields ("iw dev " +:+ i +:+ " link")), [], []. split; [lia|]. split; [left|done].
  by exists i, (co_stdout o).
Qed.

Lemma wifi_online i w w' : CheckIfIsConnectedWifi i w = (Ok (), w') -> online_between w w'.
Proof.
  unfold CheckIfIsConnectedWifi, on_linux. destruct (_ =? "linux")%string; [|done].
  unfold checkIfIsConnectedLinux. intros (l & w1 & H1 & H)%bind_Ok_inv.
  assert (logged w w1) as Hl.
  { assert (keeps logged (if (i =? "")%string then o <- runCommand "iw dev";;
      match co_err o with Some e => raise e | None => ret (iw_interfaces (co_stdout o)) end else ret [i])) as Hk by keeps_go.
    specialize (Hk w). by rewrite H1 in Hk. }
  apply bind_Ok_inv in H as ([] & w2 & H2 & H); [|done]. injection H as <-.
  eapply online_logged; [exact Hl | by eapply any_linked_true | done].
Qed.

Lemma check_online i w w' : CheckIfIsConnected i w = (Ok (), w') -> online_between w w'.
Proof.
  unfold CheckIfIsConnected, on_linux. destruct (_ =? "linux")%string; [|done].
  intros (r & w1 & H1 & H)%bind_Ok_inv. pose proof (logged_wifi i w) as Hl.
  apply try_Ok_inv in H1 as [([] & -> & H1)|(e & -> & H1)]; rewrite H1 in Hl; cbn [snd] in Hl.
  - apply wifi_online in H1. apply bind_Ok_inv in H as (o & w2 & H2 & H).
    pose proof (logged_runCommand "nmcli -t -f NAME connection show --active" w1) as Hl2. rewrite H2 in Hl2. cbn [snd] in Hl2.
    assert (w' = w2) as -> by (destruct (co_err o); [by injection H | destruct (Contains _ _); [done | by injection H]]).
    apply (online_logged w w w1 w2); [reflexivity | exact H1 | exact Hl2].
  - apply bind_Ok_inv in H as (q & w2 & H2 & H). destruct q as [e'|]; [done|]. injection H as <-.
    apply run_args_None in H2 as ((out & Hr) & Hn & Hcmd).
    eapply online_logged; [exact Hl | | done].
    exists (n_fx w1), ["ping"; "-c"; "1"; "-W"; "5"; "google.com"], [], []. split; [lia|]. split; [|done].
    right. by exists out.
Qed.

(** Bringing the connection up: the command succeeded, and after it the device was online. *)
Definition brought_up (name : string) (w w' : Node S) : Prop :=
  exists w1 out, ran (n_fx w) ["nmcli"; "con"; "up"; name; "--ask"] out /\
    n_cmds w1 = (n_cmds w ++ [["nmcli"; "con"; "up"; name; "--ask"]])%list /\ (n_fx w < n_fx w1)%nat /\
    online_between w1 w'.

Lemma connectToNetwork_up name w w' : connectToNetwork name w = (Ok (), w') -> brought_up name w w'.
Proof.
  unfold connectToNetwork. intros (u & w1 & H1 & H)%bind_Ok_inv. destruct u as [e|]; [done|].
  apply run_args_None in H1 as ((out & Hr) & Hn & Hcmd).
  exists w1, out. split; [done|]. split; [done|]. split; [lia|].
  apply bind_Ok_inv in H as ([] & w2 & H2 & H). pose proof (logged_sleep (10 * second) w1) as Hl2.
  apply bind_Ok_inv in H as (i & w3 & H3 & H). pose proof (logged_device name w2) as Hl3.
  apply bind_Ok_inv in H as ([] & w4 & H4 & H). apply check_online in H4.
  match type of H with run_until_error ?l _ = _ => pose proof (logged_until l w4) as Hl5 end.
  rewrite H2 in Hl2. rewrite H3 in Hl3. rewrite H in Hl5. cbn [snd] in *.
  eapply online_logged; [|exact H4 | exact Hl5]. by etrans.
Qed.

(** C14. Connecting to a network never leaves the device without a way in. It succeeds only
    if, in this run and in this order, the old profile of the network is removed, [nmcli con
    up] of the new one ended without an error, a later command showed the device online (an
    interface linked to a network that is not the hotspot, or an answer to a ping), and the
    hotspot's profile is taken down and deleted by the very last two commands; on every
    failure the last command asked for brings the hotspot up again (its own result is not
    looked at). It never panics, whatever the network's name is. *)
Theorem connect_or_hotspot creds w :
  let name := replace_char " " "_" (cr_SSID creds) in
  (exists w1 w2 w' cs, connectLinux creds w = (Ok (), w') /\
     n_cmds w1 = (n_cmds w ++ [Fields ("nmcli con down " +:+ name); Fields ("nmcli con delete " +:+ name)] ++ cs)%list /\
     (n_fx w <= n_fx w1)%nat /\ brought_up name w1 w2 /\ (n_fx w2 <= n_fx w')%nat /\
     n_cmds w' = (n_cmds w2 ++ [["nmcli"; "con"; "down"; "FxBlox"]; ["nmcli"; "con"; "delete"; "FxBlox"]])%list) \/
  (exists e w' cs, connectLinux creds w = (Err e, w') /\ n_cmds w' = (n_cmds w ++ cs ++ [up_hotspot])%list).
Proof.
  intros name. unfold connectLinux. fold name. destruct (DeleteConnection_run name w) as (w1 & E1 & F1).
  pose proof (logged_delete name w) as [N1 _]. rewrite E1 in N1. cbn [snd] in N1. rewrite (bind_run _ _ _ _ _ E1).
  assert (forall v, exists v' cs, activateHotspot v = (Ok (), v') /\ n_cmds v' = (n_cmds v ++ cs ++ [up_hotspot])%list) as Ha
    by (intros v; destruct (activateHotspot_run v) as (v' & ? & ?); by exists v', []).
  assert (forall v, exists v' cs, (DeleteConnection name;;; activateHotspot) v = (Ok (), v') /\
    n_cmds v' = (n_cmds v ++ cs ++ [up_hotspot])%list) as Hb.
  { intros v. destruct (DeleteConnection_run name v) as (v1 & Ev & Fv). destruct (Ha v1) as (v2 & cs & Ev2 & Hv2).
    exists v2, ([Fields ("nmcli con down " +:+ name); Fields ("nmcli con delete " +:+ name)] ++ cs)%list.
    rewrite (bind_run _ _ _ _ _ Ev). split; [exact Ev2|]. by rewrite Hv2, Fv, <- !app_assoc. }
  destruct (or_else_cases (createConnection name (cr_SSID creds) (cr_Password creds)) activateHotspot w1
              (np_create _ _ _) (logged_create _ _ _) Ha)
    as [([] & w2 & _ & E2 & [N2 [c2 F2]])|(e & w2 & cs & E2 & H2)];
    [rewrite (bind_run _ _ _ _ _ E2) | rewrite (bind_fail _ _ _ _ _ E2); right].
  2: { exists e, w2, ([Fields ("nmcli con down " +:+ name); Fields ("nmcli con delete " +:+ name)] ++ cs)%list.
       split; [reflexivity|]. by rewrite H2, F1, <- !app_assoc. }
  destruct (or_else_cases (connectToNetwork name) _ w2 (np_connect _) (logged_connect _) Hb)
    as [([] & w3 & Ec & E3 & [N3 _])|(e & w3 & cs & E3 & H3)];
    [rewrite (bind_run _ _ _ _ _ E3) | rewrite (bind_fail _ _ _ _ _ E3); right].
  2: { exists e, w3, ([Fields ("nmcli con down " +:+ name); Fields ("nmcli con delete " +:+ name)] ++ c2 ++ cs)%list.
       split; [reflexivity|]. by rewrite H3, F2, F1, <- !app_assoc. }
  left. destruct (DeleteConnection_run "FxBlox" w3) as (w4 & E4 & H4).
  pose proof (logged_delete "FxBlox" w3) as [N4 _]. rewrite E4 in N4. cbn [snd] in N4.
  exists w2, w3, w4, c2. split; [exact E4|]. split; [by rewrite F2, F1, <- app_assoc|]. split; [lia|].
  split; [by apply connectToNetwork_up|]. split; [exact N4 | exact H4].
Qed.

(** ** Quotes are arguments *)
Lemma no_space_app a b : no_space (a +:+ b) = no_space a && no_space b.
Proof. apply sforall_app. Qed.

(** A name given in quotes reaches nmcli with the quotes in it: deleting the network [n]
    (without white space in its name) runs [nmcli con delete 'n'] with four arguments, the
    last of them starting and ending with a quote, and asking for the device of [n] does the
    same with double quotes. *)
Theorem quoted_names_literal n w :
  TrimSpace n = n -> no_space n = true ->
  n_cmds (DeleteWifi n w).2 = (n_cmds w ++ [["nmcli"; "con"; "delete"; "'" +:+ n +:+ "'"]])%list /\
  n_cmds (getDeviceOfConnection n w).2 =
    (n_cmds w ++ [["nmcli"; "-g"; "GENERAL.DEVICES"; "con"; "show"; dquote +:+ n +:+ dquote]])%list.
Proof.
  intros Ht Hn.
  assert (Fields ("nmcli con delete '" +:+ n +:+ "'") = ["nmcli"; "con"; "delete"; "'" +:+ n +:+ "'"]) as F1.
  { change ("nmcli con delete '" +:+ n +:+ "'") with
      ("nmcli" +:+ String " " ("con" +:+ String " " ("delete" +:+ String " " ("'" +:+ n +:+ "'")))).
    rewrite !Fields_cons, Fields_last by (done || by rewrite !no_space_app, Hn). done. }
  assert (Fields ("nmcli -g GENERAL.DEVICES con show " +:+ dquote +:+ n +:+ dquote) =
          ["nmcli"; "-g"; "GENERAL.DEVICES"; "con"; "show"; dquote +:+ n +:+ dquote]) as F2.
  { change ("nmcli -g GENERAL.DEVICES con show " +:+ dquote +:+ n +:+ dquote) with
      ("nmcli" +:+ String " " ("-g" +:+ String " " ("GENERAL.DEVICES" +:+ String " " ("con" +:+ String " "
         ("show" +:+ String " " (dquote +:+ n +:+ dquote)))))).
    rewrite !Fields_cons, Fields_last by (done || by rewrite !no_space_app, Hn). done. }
  split.
  - unfold DeleteWifi. rewrite Ht. destruct (runCommand_run ("nmcli con delete '" +:+ n +:+ "'") w) as (o & w' & E1 & H1);
      [by rewrite F1|]. unfold bind. rewrite E1. cbn. by rewrite H1, F1.
  - unfold getDeviceOfConnection.
    destruct (runCommand_run ("nmcli -g GENERAL.DEVICES con show " +:+ dquote +:+ n +:+ dquote) w) as (o & w' & E1 & H1);
      [by rewrite F2|]. unfold bind. rewrite E1. destruct (co_err o); cbn; by rewrite H1, F2.
Qed.

(** A command that its context cuts off reports success and no output. *)
Lemma killed_command_succeeds c name args o e w :
  Fields c = name :: args -> exec_Run (n_fx w) name args = CmdKilled o e None ->
  (runCommand c w).1 = Ok (mkOut "" "" None).
Proof. intros Hc Hr. unfold runCommand. rewrite Hc. unfold bind, cmd_Run. by rewrite Hr. Qed.
End wifi.

(** ** Witness *)
#[local] Instance idleEnv : Env := {|
  env_http := fun _ _ _ => ReplyErr "offline"; env_timer := fun _ _ => true; env_now := fun _ => 0; env_fs := fun _ => FsOk |}.
#[local] Instance nmcliExec : Exec := {|
  exec_Output := fun _ _ _ => ExecOk ""; exec_Run := fun _ _ _ => CmdDone "" "Error: no such connection profile." (Some "exit status 10") |}.
Definition idle_node : Node unit := mkNode 0 tt ∅ ∅ None [] [].

Lemma quoted_names_literal_witness :
  n_cmds (DeleteWifi "home" idle_node).2 = (n_cmds idle_node ++ [["nmcli"; "con"; "delete"; "'" +:+ "home" +:+ "'"]])%list /\
  n_cmds (getDeviceOfConnection "home" idle_node).2 =
    (n_cmds idle_node ++ [["nmcli"; "-g"; "GENERAL.DEVICES"; "con"; "show"; dquote +:+ "home" +:+ dquote]])%list.
Proof. apply (quoted_names_literal "home" idle_node); vm_compute; reflexivity. Defined.
