(* ===== verification/WifiScan.v ===== *)
(** * wap/pkg/wifi/scan.go: the list of networks

    [nmcli]'s table is read line by line into the strongest signal per network name, and the
    six strongest networks are reported. Two networks of equal strength come in an
    unspecified order (the code ranges over a Go map and sorts unstably); the model takes
    one of the allowed orders and the theorem does not depend on it. *)

From stdpp Require Import sorting.
From S2P Require Import Prelude GoStd Json JsonPrint Float GoPath Effects Node Disk Nas Properties WifiProps Wifi.

#[local] Open Scope string_scope.
#[local] Open Scope Z_scope.

(** ** One line of the table: the network's name and strength *)
Definition reading (line : string) : option (string * Z) :=
  let fields := Fields line in
  if (length fields <? 8)%nat then None else
  let startIndex := if bool_decide (fields !! 0%nat = Some "*") then 1%nat else 0%nat in
  match fields !! (startIndex + 1)%nat, fields !! (startIndex + 6)%nat with
  | Some ssid, Some sig =>
      if (ssid =? "--")%string then None
      else match Atoi sig with inr signal => Some (ssid, Z.quot signal 2 - 100) | inl _ => None end
  | _, _ => None
  end.

(** The strongest signal per name, over the lines in order. *)
Definition keep_stronger (best : gmap string Z) (r : string * Z) : gmap string Z :=
  match best !! r.1 with
  | Some old => if old <? r.2 then <[r.1 := r.2]> best else best
  | None => <[r.1 := r.2]> best
  end.
Definition strongest (rs : list (string * Z)) : gmap string Z := fold_left keep_stronger rs ∅.

Definition stronger (a b : string * Z) : Prop := b.2 <= a.2.
#[local] Instance stronger_dec : RelDecision stronger := fun a b => decide (b.2 <= a.2).

Definition parseLinux (output : string) : outcome (list WifiAP) :=
  match scan_lines output with
  | [] => Err "empty output"
  | header :: lines =>
      if too_long header then Err "empty output"
      else if scan_Err output then Err "error scanning output: bufio.Scanner: token too long" else
      let sorted := merge_sort stronger (map_to_list (strongest (omap reading lines))) in
      Ok (map (fun sr => mkWifi sr.1 sr.1 sr.2) (take 6 sorted))
  end.

(** ** The other platforms *)
Definition darwin_line (line : string) : option WifiAP :=
  match Fields line with
  | _ :: name :: sig :: _ :: _ :: _ :: _ =>
      match Atoi sig with
      | inr rssi => if 0 <? rssi then None else Some (mkWifi "" (ToLower name) rssi)
      | inl _ => None
      end
  | _ => None
  end.
Definition parseDarwin (output : string) : outcome (list WifiAP) := Ok (omap darwin_line (scan_lines output)).

(** [strings.Replace(s, "%", "", 1)] *)
Definition drop_percent (s : string) : string := match Cut s "%" with Some (a, b) => a +:+ b | None => s end.

(** The entry being read: its name, then its signal. *)
Fixpoint windows_lines (w : WifiAP) (lines : list string) : outcome (list WifiAP) :=
  let emit (w : WifiAP) (rest : list string) :=
    if negb (w_SSID w =? "")%string && negb (w_RSSI w =? 0)
    then l <-! windows_lines (mkWifi "" "" 0) rest;; Ok (w :: l)
    else windows_lines w rest in
  match lines with
  | [] => Ok []
  | line :: rest =>
      if (w_SSID w =? "")%string then
        if Contains line "SSID" && negb (Contains line "BSSID") then
          match Fields line with
          | [_; _; _; name] => emit (mkWifi (w_ESSID w) name (w_RSSI w)) rest
          | _ => emit w rest
          end
        else windows_lines w rest
      else if Contains line "%" then
        match Fields line with
        | [_; _; sig] =>
            match Atoi (drop_percent sig) with
            | inl _ => Err "strconv.Atoi"
            | inr n => emit (mkWifi (w_ESSID w) (w_SSID w) (Z.quot n 2 - 100)) rest
            end
        | _ => emit w rest
        end
      else emit w rest
  end.
Definition parseWindows (output : string) : outcome (list WifiAP) := windows_lines (mkWifi "" "" 0) (scan_lines output).

Definition parse (output os : string) : outcome (list WifiAP) :=
  if (os =? "windows")%string then parseWindows output
  else if (os =? "darwin")%string then parseDarwin output
  else if (os =? "linux")%string then parseLinux output
  else Err (os +:+ " is not a recognized OS").

Definition Scan {S : Type} `{PS : PoolStore S} `{E : Env} `{X : Exec} : M (Node S) (list WifiAP) :=
  o <- runCommand "nmcli dev wifi list --rescan yes";;
  match co_err o with Some e => raise e | None => lift (parse (co_stdout o) "linux") end.

(** ** Strongest signals *)
Lemma keep_stronger_lookup best r s :
  keep_stronger best r !! s =
  if decide (s = r.1) then Some (match best !! s with Some old => Z.max old r.2 | None => r.2 end) else best !! s.
Proof.
  unfold keep_stronger. destruct (decide (s = r.1)) as [->|Hs].
  - destruct (best !! r.1) as [old|] eqn:E; [|by rewrite lookup_insert_eq].
    destruct (Z.ltb_spec old r.2); [rewrite lookup_insert_eq; f_equal; lia | rewrite E; f_equal; lia].
  - destruct (best !! r.1) as [old|]; [destruct (old <? r.2)|]; by rewrite ?lookup_insert_ne.
Qed.

(** [v] is the strongest reading of [s]. *)
Definition max_reading (rs : list (string * Z)) (s : string) (v : Z) : Prop :=
  (s, v) ∈ rs /\ forall v', (s, v') ∈ rs -> v' <= v.

Lemma strongest_app rs r : strongest (rs ++ [r]) = keep_stronger (strongest rs) r.
Proof. unfold strongest. by rewrite fold_left_app. Qed.

Lemma strongest_spec rs s :
  match strongest rs !! s with Some v => max_reading rs s v | None => forall v, (s, v) ∉ rs end.
Proof.
  induction rs as [|[s' v'] rs IH] using rev_ind;
    [unfold strongest; cbn; rewrite lookup_empty; intros v; apply not_elem_of_nil|].
  rewrite strongest_app, keep_stronger_lookup. cbn [fst snd]. destruct (decide (s = s')) as [->|Hs].
  - destruct (strongest rs !! s') as [old|].
    + destruct IH as [Hin Hmax]. split.
      * apply elem_of_app. destruct (Z.max_spec old v') as [[_ ->]|[_ ->]]; [right; by left | by left].
      * intros v [Hv|Hv]%elem_of_app; [specialize (Hmax _ Hv); lia|]. apply list_elem_of_singleton in Hv. injection Hv as ->. lia.
    + split; [apply elem_of_app; right; by left|]. intros v [Hv|Hv]%elem_of_app; [by destruct (IH v)|].
      apply list_elem_of_singleton in Hv. injection Hv as ->. lia.
  - assert (forall v, (s, v) ∈ (rs ++ [(s', v')])%list <-> (s, v) ∈ rs) as Hiff.
    { intros v. rewrite elem_of_app, list_elem_of_singleton. split; [intros [?|H]; [done | by injection H] | by left]. }
    destruct (strongest rs !! s) as [old|].
    + destruct IH as [Hin Hmax]. split; [by apply Hiff|]. intros v Hv. by apply Hmax, Hiff.
    + intros v. rewrite Hiff. apply IH.
Qed.

Lemma sorted_aps l : StronglySorted stronger l ->
  StronglySorted (fun a b => w_RSSI b <= w_RSSI a) (map (fun sr => mkWifi sr.1 sr.1 sr.2) l).
Proof.
  induction 1 as [|x l Hs IH Hx]; cbn; constructor; [done|]. apply Forall_map. exact Hx.
Qed.

(** C15. What a scan of nmcli's table reports: at most six networks, each name once, strongest
    first; each with the strongest signal any of its lines shows; and a network that is
    shown but not reported is no stronger than any reported one, of which there are then
    six. *)
Theorem scan_strongest header lines output aps :
  scan_lines output = header :: lines -> parseLinux output = Ok aps ->
  let rs := omap reading lines in
  (length aps <= 6)%nat /\ NoDup (map w_SSID aps) /\ StronglySorted (fun a b => w_RSSI b <= w_RSSI a) aps /\
  (forall a, a ∈ aps -> max_reading rs (w_SSID a) (w_RSSI a)) /\
  (forall s v, (s, v) ∈ rs -> s ∈ map w_SSID aps \/ (length aps = 6%nat /\ forall a, a ∈ aps -> v <= w_RSSI a)).
Proof.
  intros Hl Hparse rs. unfold parseLinux in Hparse. rewrite Hl in Hparse.
  destruct (too_long header); [done|]. destruct (scan_Err output); [done|]. injection Hparse as <-. fold rs.
  set (l := merge_sort stronger (map_to_list (strongest rs))).
  assert (l ≡ₚ map_to_list (strongest rs)) as Hp by apply merge_sort_Permutation.
  assert (StronglySorted stronger l) as Hs
    by (apply StronglySorted_merge_sort; [intros x y z; unfold stronger; lia | intros x y; unfold stronger; lia]).
  assert (forall s v, (s, v) ∈ l <-> strongest rs !! s = Some v) as Hin
    by (intros s v; rewrite Hp; apply elem_of_map_to_list).
  assert (NoDup (map fst l)) as Hnd by (rewrite Hp; apply NoDup_fst_map_to_list).
  rewrite <- (take_drop 6 l) in Hs, Hnd. rewrite map_app in Hnd. apply NoDup_app in Hnd as (Hnd & _).
  split_and!.
  - rewrite length_map, length_take. lia.
  - rewrite map_map. exact Hnd.
  - apply StronglySorted_app_1_l in Hs. by apply sorted_aps.
  - intros a (x & -> & Hx)%list_elem_of_fmap. destruct x as [s v]. cbn.
    pose proof (strongest_spec rs s) as Hmax. rewrite (proj1 (Hin s v)) in Hmax; [done|].
    rewrite <- (take_drop 6 l). apply elem_of_app. by left.
  - intros s v Hv. pose proof (strongest_spec rs s) as Hmax.
    destruct (strongest rs !! s) as [best|] eqn:Eb; [|by destruct (Hmax v)].
    apply Hin in Eb. rewrite <- (take_drop 6 l) in Eb. apply elem_of_app in Eb as [Hb|Hb].
    + left. rewrite map_map. apply list_elem_of_fmap. by exists (s, best).
    + right. split.
      * rewrite length_map, length_take. apply Nat.min_l. destruct (drop 6 l) as [|y ys] eqn:Ed; [by apply elem_of_nil in Hb|].
        apply (f_equal length) in Ed. rewrite length_drop in Ed. cbn in Ed. lia.
      * intros a (x & -> & Hx)%list_elem_of_fmap. cbn. destruct Hmax as [_ Hmax]. specialize (Hmax v Hv).
        pose proof (StronglySorted_app_1_elem_of _ _ _ _ _ Hs Hx Hb) as Hle. unfold stronger in Hle. cbn in Hle. lia.
Qed.

(** ** Witness *)
Definition nmcli_table : string :=
  Join ["IN-USE BSSID SSID MODE CHAN RATE SIGNAL BARS SECURITY";
        "* AA:01 home Infra 11 54 Mbit/s 80 **** WPA2";
        "  AA:02 cafe Infra 6 54 Mbit/s 40 ** WPA2";
        "  AA:03 home Infra 36 270 Mbit/s 92 **** WPA2";
        "  AA:04 -- Infra 1 54 Mbit/s 99 **** WPA2";
        "  short line"] (String (ascii_of_nat 10) "").

Lemma scan_strongest_witness :
  exists header lines aps, scan_lines nmcli_table = header :: lines /\
    parseLinux nmcli_table = Ok aps /\ aps = [mkWifi "home" "home" (-54); mkWifi "cafe" "cafe" (-80)] /\
    let rs := omap reading lines in
    (length aps <= 6)%nat /\ NoDup (map w_SSID aps) /\ StronglySorted (fun a b => w_RSSI b <= w_RSSI a) aps /\
    (forall a, a ∈ aps -> max_reading rs (w_SSID a) (w_RSSI a)) /\
    (forall s v, (s, v) ∈ rs -> s ∈ map w_SSID aps \/ (length aps = 6%nat /\ forall a, a ∈ aps -> v <= w_RSSI a)).
Proof.
  eexists _, _, _.
  assert (scan_lines nmcli_table = hd "" (scan_lines nmcli_table) :: tl (scan_lines nmcli_table)) as H1
    by (vm_compute; reflexivity).
  assert (parseLinux nmcli_table = Ok [mkWifi "home" "home" (-54); mkWifi "cafe" "cafe" (-80)]) as H2
    by (vm_compute; reflexivity).
  split; [exact H1|]. split; [exact H2|]. split; [reflexivity|]. exact (scan_strongest _ _ _ _ H1 H2).
Defined.
