(* ===== verification/WapServer.v ===== *)
(** * wap/pkg/server: the set-up server

    The HTTP API through which a phone or browser sets the device up: who may call it from
    a browser ([withCORS]), who may call it over the LAN ([lanSetupGuard]), and the handlers
    behind the routes. The program that creates the device's identity ([peerFn]) is a
    parameter, as is the YAML library ([YamlDoc]). [csrf_safe] composes the browser guard
    with every handler: a web page of another site cannot change a file of the device nor make
    it run a command other than its inquiries. The texts of library errors are left out of the messages that quote them. *)

From stdpp Require Import sorting.
From S2P Require Import Prelude GoStd Json JsonPrint Float GoPath Effects Node Disk Nas Properties WifiProps Wifi WifiScan.

#[local] Open Scope string_scope.
#[local] Open Scope Z_scope.

Definition StatusCreated := 201.
Definition MethodGet := "GET".
Definition MethodHead := "HEAD".
Definition MethodOptions := "OPTIONS".

(** A request: headers by canonical name; the form as r.ParseForm merges it, body first. *)
Record WReq := mkWReq {
  q_Method : string; q_Path : string; q_Header : string -> string; q_Form : list (string * string);
  q_Body : option string }.

Definition FormValue (r : WReq) (k : string) : string :=
  default "" (snd <$> head (filter (fun kv => kv.1 = k) (q_Form r))).

(** A response with the headers the guards set. *)
Record WResp := mkWResp { p_Headers : list (string * string); p_Resp : Resp }.

(** ** cors.go *)
Definition defaultCORSOrigins : list string :=
  ["https://blox.fx.land"; "https://docs.fx.land"; "https://functionland.github.io"].

(** ^http://(localhost|127\.0\.0\.1)(:\d+)?$ *)
Definition localDevOrigin (origin : string) : bool :=
  existsb (fun host =>
    let p := "http://" +:+ host in
    HasPrefix origin p &&
    match sdrop (String.length p) origin with
    | EmptyString => true
    | String ":" port => negb (port =? "")%string && sforall is_digit port
    | _ => false
    end) ["localhost"; "127.0.0.1"].

Definition mutatingGETPaths : list string := ["/ap/enable"; "/ap/disable"; "/pools/join"; "/pools/leave"; "/pools/cancel"].

(** The configuration of the process: environment variables and the other parameters. *)
Class WapConfig := {
  wap_getenv : string -> string;
  wap_GOOS : string;
  rand_Read : nat -> nat -> string + string;      (** crypto/rand: the n-th effect, so many bytes *)
  sha256_Sum : string -> string;
  marshal_ed25519 : string -> string;             (** libp2p's encoding of the key of a 32-byte seed *)
  PROJECT_NAME : string; OTA_VERSION : string; COUNTRY : string
}.

(** config.yaml as its top-level keys and values; [yaml_types] is whether the values have the
    types of the struct they are read into. *)
Class YamlDoc := {
  yd_parse : string -> option (list (string * string));
  yd_types : list (string * string) -> bool;
  yd_print : list (string * string) -> string
}.

(** The keys of the server's Config struct, in order, with their zero values. *)
Definition wap_keys : list (string * string) :=
  [("identity", ""); ("storeDir", ""); ("poolName", ""); ("logLevel", ""); ("listenAddrs", "[]"); ("authorizer", "");
   ("authorizedPeers", "[]"); ("ipfsBootstrapNodes", "[]"); ("staticRelays", "[]"); ("forceReachabilityPrivate", "false");
   ("allowTransientConnection", "false"); ("disableResourceManager", "false"); ("maxCIDPushRate", "0");
   ("ipniPublishDisabled", "false"); ("ipniPublishInterval", ""); ("IpniPublishDirectAnnounce", "[]");
   ("ipniPublisherIdentity", "")].

Definition field_of (doc : list (string * string)) (k : string) : option string :=
  snd <$> head (filter (fun kv => kv.1 = k) doc).

(** ** wap/pkg/wifi/properties.go: new keys *)
Definition GeneratePrivateKeyFromSeed `{WC : WapConfig} (seed : string) : string :=
  b64_encode (marshal_ed25519 (sha256_Sum seed)).
(** base64.URLEncoding of random bytes. *)
Definition GenerateRandomString `{WC : WapConfig} {S : Type} (length : nat) : M (Node S) string :=
  b <- fx (fun n => rand_Read n length);;
  match b with
  | inl e => raise e
  | inr bytes => ret (replace_char "/" "_" (replace_char "+" "-" (b64_encode bytes)))
  end.

Section server.
Context {S : Type} `{PS : PoolStore S} `{E : Env} `{X : Exec} `{DK : Docker} `{KC : KuboClient} `{WC : WapConfig} `{YD : YamlDoc}.
(** peerFunction: runs the blox program once with the new identity; it returns its peer id. *)
Context (peerFn : string -> string -> M (Node S) string).

Definition allowedCORSOrigins : list string :=
  let raw := TrimSpace (wap_getenv "WAP_CORS_ORIGINS") in
  if (raw =? "")%string then defaultCORSOrigins
  else filter (fun o => o <> "") (map TrimSpace (split_char "," raw)).

Definition originAllowed (origin : string) : bool :=
  if (origin =? "")%string then false
  else existsb (fun o => EqualFold o origin) allowedCORSOrigins || localDevOrigin origin.

Definition crossSiteFetch (r : WReq) : bool :=
  let sfs := ToLower (q_Header r "Sec-Fetch-Site") in
  negb (sfs =? "")%string && negb (sfs =? "same-origin")%string && negb (sfs =? "none")%string.

Definition mutating (r : WReq) : bool :=
  (negb (q_Method r =? MethodGet)%string && negb (q_Method r =? MethodHead)%string) ||
  bool_decide (q_Path r ∈ mutatingGETPaths).

Definition cors_headers (r : WReq) (allowed : bool) : list (string * string) :=
  if (q_Header r "Origin" =? "")%string then [] else
  ("Vary", "Origin") ::
  (if allowed then
     [("Access-Control-Allow-Origin", q_Header r "Origin"); ("Access-Control-Allow-Methods", "GET, POST, OPTIONS");
      ("Access-Control-Allow-Headers", "content-type"); ("Access-Control-Max-Age", "600")] ++
     (if EqualFold (q_Header r "Access-Control-Request-Private-Network") "true"
      then [("Access-Control-Allow-Private-Network", "true")] else [])
   else []).

Definition withCORS (next : WReq -> M (Node S) Resp) (r : WReq) : M (Node S) WResp :=
  let origin := q_Header r "Origin" in
  if (origin =? "")%string && negb (crossSiteFetch r) then x <- next r;; ret (mkWResp [] x) else
  let allowed := originAllowed origin in
  let hs := cors_headers r allowed in
  if negb (origin =? "")%string && (q_Method r =? MethodOptions)%string then
    if allowed then WriteHeader StatusNoContent;;; ret (mkWResp hs (mkResp StatusNoContent BEmpty))
    else ret (mkWResp hs (http_Error "origin not allowed" StatusForbidden))
  else if mutating r && negb allowed then ret (mkWResp hs (http_Error "origin not allowed" StatusForbidden))
  else x <- next r;; ret (mkWResp hs x).

(** ** lanbind.go: the guard of the LAN listeners *)
Definition config_field (k : string) : M (Node S) (option string) :=
  f <- try (read_file FULA_CONFIG_PATH);;
  ret (match f with
       | inr (Some data) =>
           doc ← yd_parse data; if yd_types doc then Some (default "" (field_of doc k)) else None
       | _ => None
       end).

Definition bloxHasOwner : M (Node S) bool :=
  a <- config_field "authorizer";; ret (match a with Some a => negb (TrimSpace a =? "")%string | None => false end).

Definition lanSetupGuard {A : Type} (wrap : Resp -> A) (next : WReq -> M (Node S) A) (r : WReq) : M (Node S) A :=
  owned <- bloxHasOwner;;
  if owned : bool
  then ret (wrap (http_Error "this Blox is already set up; manage it over the hotspot or Bluetooth" StatusForbidden))
  else next r.

Definition addKuboIdentityState (out : gmap string json) (livePeerID : string) : M (Node S) (gmap string json) :=
  c <- try GetKuboConfiguredPeerID;;
  match c with
  | inl _ => ret out
  | inr configured =>
      if (configured =? "")%string || (livePeerID =? "")%string || (configured =? livePeerID)%string then ret out
      else ret (<["kubo_identity_pending" := JBool true]> (<["kubo_configured_peer_id" := JStr configured]> out))
  end.

(** ** server.go: handlers *)
Definition answer_json (code : Z) (j : json) : M (Node S) Resp := WriteHeader code;;; ret (mkResp code (BJson j)).
Definition not_found : M (Node S) Resp := ret (http_Error "404 not found." StatusNotFound).
Definition bad_method : M (Node S) Resp := ret (http_Error "Unsupported method type." StatusMethodNotAllowed).
Definition bad (msg : string) : M (Node S) Resp := ret (http_Error msg StatusBadRequest).

(** The two checks most handlers start with. *)
Definition guarded (path method : string) (r : WReq) (k : M (Node S) Resp) : M (Node S) Resp :=
  if negb (q_Path r =? path)%string then not_found
  else if negb (q_Method r =? method)%string then bad_method
  else k.

Definition checkPathExistAndFileNotExist (path : string) : M (Node S) string :=
  d <- fs_step;;
  match d with
  | FsErr _ => ret "true"
  | FsOk =>
      f <- try (read_file path);;
      ret (match f with inl _ => "true" | inr None => "false" | inr (Some _) => "true" end)
  end.

Definition empty_docker (labels digests : json) : json :=
  JObj [("image", JStr ""); ("version", JStr ""); ("id", JStr ""); ("labels", labels); ("created", JStr "");
        ("repo_digests", digests)].
Definition reset_docker : json := empty_docker (JObj []) (JArr []).
Definition zero_docker : json := empty_docker JNull JNull.

Definition try_or {A : Type} (d : A) (m : M (Node S) A) : M (Node S) A :=
  r <- try m;; ret (match r with inr a => a | inl _ => d end).

Definition propertiesGet : M (Node S) Resp :=
  hardwareID <- try_or "" (GetHardwareID wap_getenv);;
  free <- try_or (free_space_json 0 "0" "0" "0" "0") GetBloxFreeSpace;;
  fula <- try_or reset_docker (GetContainerInfo "fula_go");;
  fx' <- try (GetContainerInfo "fula_fxsupport");;
  let fula := match fx' with inl _ => reset_docker | inr _ => fula end in
  let fxsupport := match fx' with inl _ => zero_docker | inr j => j end in
  node <- try_or reset_docker (GetContainerInfo "fula_node");;
  p <- try ReadProperties;;
  response <-
    (match p with
     | inl _ => ret ∅
     | inr None => panic
     | inr (Some m) => ret (<["name" := JStr PROJECT_NAME]> m)
     end);;
  restartNeeded <- checkPathExistAndFileNotExist RESTART_NEEDED_PATH;;
  let response := <["ota_version" := JStr OTA_VERSION]> (<["restartNeeded" := JStr restartNeeded]>
    (<["containerInfo_node" := node]> (<["containerInfo_fxsupport" := fxsupport]> (<["containerInfo_fula" := fula]>
    (<["bloxFreeSpace" := free]> (<["hardwareID" := JStr hardwareID]> response)))))) in
  k <- try GetKuboPeerID;;
  let response := match k with inr id => <["kubo_peer_id" := JStr id]> response | inl _ => response end in
  response <- addKuboIdentityState response (match k with inr id => id | inl _ => "" end);;
  c <- try GetClusterInfo;;
  let response := match c with inr (id, _) => <["ipfs_cluster_peer_id" := JStr id]> response | inl _ => response end in
  response <-
    (match response !! "authorizer" with
     | None | Some JNull | Some (JStr EmptyString) =>
         a <- config_field "authorizer";;
         ret (match a with
              | Some a => if negb (a =? "")%string then <["authorizer" := JStr a]> response else response
              | None => response
              end)
     | _ => ret response
     end);;
  answer_json StatusOK (JObj (members_of response)).

Definition propertiesHandler (r : WReq) : M (Node S) Resp :=
  if negb (q_Path r =? "/properties")%string then not_found
  else if (q_Method r =? "GET")%string then propertiesGet
  else if (q_Method r =? "POST")%string then answer_json StatusCreated (JObj [("success", JBool true)])
  else ret (mkResp StatusOK BEmpty).

Definition wifiStatusHandler (r : WReq) : M (Node S) Resp :=
  guarded "/wifi/status" "GET" r (
  c <- try (CheckIfIsConnected wap_GOOS "");;
  answer_json StatusOK (JObj [("status", JBool (match c with inr _ => true | inl _ => false end))])).

(** Status and message of an operation's response object. *)
Definition status_message (j : json) : json :=
  match j with
  | JObj l => JObj [("message", default JNull (head (obj_field "msg" l))); ("status", default JNull (head (obj_field "status" l)))]
  | _ => JNull
  end.
Definition partitionHandler (r : WReq) : M (Node S) Resp :=
  guarded "/partition" "POST" r (res <- Partition;; answer_json StatusOK (status_message res)).
Definition deleteFulaConfigHandler (r : WReq) : M (Node S) Resp :=
  guarded "/delete-fula-config" "POST" r (res <- DeleteFulaConfig;; answer_json StatusOK (status_message res)).

Definition readinessHandler (r : WReq) : M (Node S) Resp :=
  guarded "/readiness" "GET" r (
  p <- try ReadProperties;;
  match p with
  | inl e => ret (http_Error ("error building the response, " +:+ e) StatusInternalServerError)
  | inr None => panic
  | inr (Some m) =>
      let m := <["name" := JStr PROJECT_NAME]> m in
      k <- try GetKuboPeerID;;
      let m := match k with inr id => <["kubo_peer_id" := JStr id]> m | inl _ => m end in
      m <- addKuboIdentityState m (match k with inr id => id | inl _ => "" end);;
      answer_json StatusOK (JObj (members_of m))
  end).

Definition wifi_json (a : WifiAP) : json :=
  JObj [("essid", JStr (w_ESSID a)); ("ssid", JStr (w_SSID a)); ("rssi", JNum (Itoa (w_RSSI a)))].
Definition listWifiHandler (r : WReq) : M (Node S) Resp :=
  guarded "/wifi/list" "GET" r (
  l <- try Scan;;
  answer_json StatusCreated (match l with inr aps => JArr (map wifi_json aps) | inl _ => JNull end)).

(** The handler waits for the receiver of the connected channel before it answers. *)
Definition connectWifiHandler (r : WReq) : M (Node S) Resp :=
  guarded "/wifi/connect" "POST" r (
  let ssid := FormValue r "ssid" in
  let password := FormValue r "password" in
  if (ssid =? "")%string then bad "missing ssid"
  else if (password =? "")%string then bad "missing password"
  else
    c <- try (ConnectWifi wap_GOOS (Wifi.mkCreds ssid password COUNTRY));;
    match c with
    | inl _ => bad "couldn't connect"
    | inr _ => answer_json StatusCreated (JStr "Wifi connected!")
    end).

(** The hardware id, or a random one. *)
Definition hardware_or_random : M (Node S) (option string) :=
  h <- try_or "" (GetHardwareID wap_getenv);;
  if negb (h =? "")%string then ret (Some h) else
  x <- try (GenerateRandomString 32);;
  ret (match x with inr s => if (s =? "")%string then None else Some s | inl _ => None end).

Definition cluster_of_key (bloxPrivKey : string) : string :=
  default "" (b ← b64_decode bloxPrivKey; peer_of_private_key b).

Definition exchangePeersHandler (r : WReq) : M (Node S) Resp :=
  guarded "/peer/exchange" "POST" r (
  let peerID := FormValue r "peer_id" in
  if (peerID =? "")%string then bad "missing peer_id" else
  let seed := FormValue r "seed" in
  if (seed =? "")%string then bad "missing seed" else
  h <- hardware_or_random;;
  match h with
  | None => bad "failed to create a random ID or get hardwareID"
  | Some hardwareID =>
      let bloxPrivKey := GeneratePrivateKeyFromSeed (hardwareID +:+ seed) in
      b <- try (peerFn peerID bloxPrivKey);;
      match b with
      | inl _ => bad "error while exchanging peers"
      | inr bloxPeerID =>
          v <- try (WriteProperties (Some (<["client_peer_id" := JStr peerID]> (<["blox_peer_id" := JStr bloxPeerID]>
                     (<["blox_seed" := JStr bloxPrivKey]> {["ipfs_cluster_peer_id" := JStr (cluster_of_key bloxPrivKey)]})))));;
          match v with
          | inl _ => bad "failed to write the properties"
          | inr _ => answer_json StatusCreated (JObj [("peer_id", JStr bloxPeerID)])
          end
      end
  end).

Definition generateIdentityHandler (r : WReq) : M (Node S) Resp :=
  guarded "/peer/generate-identity" "POST" r (
  let seed := FormValue r "seed" in
  if (seed =? "")%string then bad "missing seed" else
  let key := GeneratePrivateKeyFromSeed seed in
  match b64_decode key with
  | None => bad "failed to StdEncoding.DecodeString"
  | Some k =>
      match peer_of_private_key k with
      | None => bad "failed to UnmarshalPrivateKey"
      | Some p => answer_json StatusCreated (JObj [("peer_id", JStr p); ("seed", JStr key)])
      end
  end).

Definition enableAccessPointHandler (r : WReq) : M (Node S) Resp :=
  guarded "/ap/enable" "GET" r (
  try (StartHotspot wap_GOOS true);;; answer_json StatusCreated (JObj [("status", JStr "enabled")])).
Definition disableAccessPointHandler (r : WReq) : M (Node S) Resp :=
  guarded "/ap/disable" "GET" r (
  try (StopHotspot wap_GOOS);;; answer_json StatusCreated (JObj [("status", JStr "disable")])).

(** The pool id, from a JSON body or from the form. *)
Definition pool_id_of (r : WReq) : option string :=
  if Contains (q_Header r "Content-Type") "application/json" then
    l ← decode_body (q_Body r);
    let '(p, ok) := field_string "" (obj_field "poolID" l) in if ok : bool then Some p else None
  else Some (FormValue r "poolID").

(** yaml.Unmarshal into Config, the pool name replaced, yaml.Marshal: only the keys of the
    struct are written. *)
Definition rewrite_config (poolID : string) (doc : list (string * string)) : list (string * string) :=
  map (fun kz => (kz.1, if (kz.1 =? "poolName")%string then poolID else default kz.2 (field_of doc kz.1))) wap_keys.

Definition pool_answer (status poolID : string) : M (Node S) Resp :=
  ret (mkResp StatusOK (BJson (JObj [("poolID", JStr poolID); ("status", JStr status)]))).

Definition joinPoolHandler (r : WReq) : M (Node S) Resp :=
  match pool_id_of r with
  | None => bad "Invalid JSON"
  | Some poolID =>
      f <- try (read_file FULA_CONFIG_PATH);;
      match f with
      | inl _ | inr None => ret (http_Error "Failed to read config file" StatusInternalServerError)
      | inr (Some data) =>
          match yd_parse data with
          | Some doc =>
              if yd_types doc then
                v <- try (write_file FULA_CONFIG_PATH (yd_print (rewrite_config poolID doc)));;
                match v with
                | inl _ => ret (http_Error "Failed to write updated config file" StatusInternalServerError)
                | inr _ => pool_answer "joined" poolID
                end
              else ret (http_Error "Failed to parse config file" StatusInternalServerError)
          | None => ret (http_Error "Failed to parse config file" StatusInternalServerError)
          end
      end
  end.
Definition leavePoolHandler (r : WReq) : M (Node S) Resp :=
  match pool_id_of r with None => bad "Invalid JSON" | Some p => pool_answer "left" p end.
Definition cancelJoinPoolHandler (r : WReq) : M (Node S) Resp :=
  match pool_id_of r with None => bad "Invalid JSON" | Some p => pool_answer "cancelled" p end.

Definition chainStatusHandler (_ : WReq) : M (Node S) Resp :=
  ret (mkResp StatusOK (BJson (JObj [("isSynced", JBool true); ("syncProgress", JNum "100")]))).

Definition secret_handler (path key notfound failed : string) : M (Node S) Resp :=
  st <- try (read_file path);;   (* os.Stat *)
  match st with
  | inr None => ret (http_Error notfound StatusNotFound)
  | _ =>
      f <- try (read_file path);;
      match f with
      | inr (Some data) => ret (mkResp StatusOK (BJson (JObj [(key, JStr (TrimSpace data))])))
      | _ => ret (http_Error failed StatusInternalServerError)
      end
  end.
Definition accountIdHandler (_ : WReq) : M (Node S) Resp :=
  secret_handler "/internal/.secrets/account.txt" "accountId" "Account file not found" "Failed to read account file".
Definition accountSeedHandler (_ : WReq) : M (Node S) Resp :=
  secret_handler "/internal/.secrets/secret_seed.txt" "accountSeed" "Account Seed file not found" "Failed to read account seed file".

(** ** The routes *)
Definition routes : list (string * (WReq -> M (Node S) Resp)) :=
  [("/readiness", readinessHandler); ("/wifi/list", listWifiHandler); ("/wifi/status", wifiStatusHandler);
   ("/wifi/connect", connectWifiHandler); ("/ap/enable", enableAccessPointHandler);
   ("/ap/disable", disableAccessPointHandler); ("/properties", propertiesHandler); ("/partition", partitionHandler);
   ("/delete-fula-config", deleteFulaConfigHandler); ("/peer/exchange", exchangePeersHandler);
   ("/peer/generate-identity", generateIdentityHandler); ("/pools/join", joinPoolHandler);
   ("/pools/leave", leavePoolHandler); ("/pools/cancel", cancelJoinPoolHandler); ("/chain/status", chainStatusHandler);
   ("/account/id", accountIdHandler); ("/account/seed", accountSeedHandler)].

Definition mux (r : WReq) : M (Node S) Resp :=
  match head (filter (fun pr => pr.1 = q_Path r) routes) with
  | Some (_, h) => h r
  | None => ret (http_Error "404 page not found" StatusNotFound)
  end.

(** The handler of the hotspot and loopback listeners, and that of the LAN listeners. *)
Definition serve_local (r : WReq) : M (Node S) WResp := withCORS mux r.
Definition serve_lan (r : WReq) : M (Node S) WResp := lanSetupGuard (mkWResp []) (withCORS mux) r.

(** ** Reading changes nothing *)

(** The commands that only ask: the hardware id, the free space, the networks in reach, the
    interfaces and their links, whether the internet is reachable, the active connections. *)
Definition fixed_inquiries : list (list string) :=
  [["sh"; "-c"; "(cat /proc/cpuinfo | grep -i 'Serial' && cat /proc/cpuinfo | grep -i 'Hardware' && cat /proc/cpuinfo | grep -i 'Revision') | sha256sum | awk '{print $1}'"];
   ["sh"; "-c"; free_space_cmd];
   ["nmcli"; "dev"; "wifi"; "list"; "--rescan"; "yes"];
   ["iw"; "dev"];
   ["ping"; "-c"; "1"; "-W"; "5"; "google.com"];
   ["nmcli"; "-t"; "-f"; "NAME"; "connection"; "show"; "--active"]].
Definition inquiry (argv : list string) : Prop :=
  argv ∈ fixed_inquiries \/ exists i, argv = ["iw"; "dev"; i; "link"].

(** The configuration, the files, the members and the pending restarts are as before, and
    the only commands run since are inquiries. *)
Definition same_device (w w' : Node S) : Prop :=
  n_store w' = n_store w /\ n_files w' = n_files w /\ n_members w' = n_members w /\
  n_pingServer w' = n_pingServer w /\ n_restarts w' = n_restarts w /\
  exists cs, n_cmds w' = (n_cmds w ++ cs)%list /\ Forall inquiry cs.
#[local] Instance same_device_preorder : PreOrder same_device.
Proof.
  split.
  - intros w. unfold same_device. split_and!; try done. exists []. by rewrite app_nil_r.
  - intros w1 w2 w3 (? & ? & ? & ? & ? & cs & E1 & F1) (? & ? & ? & ? & ? & cs' & E2 & F2). unfold same_device.
    split_and!; try congruence. exists (cs ++ cs')%list. rewrite E2, E1, app_assoc. split; [done|]. by apply Forall_app.
Qed.

Lemma sd_same (w w' : Node S) : only_fx w w' -> same_device w w'.
Proof.
  intros (_ & ? & ? & ? & ? & ? & Hc). unfold same_device. split_and!; try done. exists []. by rewrite app_nil_r.
Qed.
Lemma sd_only_fx {A} (m : M (Node S) A) : keeps only_fx m -> keeps same_device m.
Proof. intros Hm w. apply sd_same, Hm. Qed.
Lemma sd_cmd_Run n a : inquiry (n :: a) -> keeps same_device (cmd_Run n a).
Proof. intros Hi w. unfold same_device. cbn. split_and!; try done. exists [n :: a]. split; [done|]. by constructor. Qed.
Lemma sd_cmd_Output n a : inquiry (n :: a) -> keeps same_device (cmd_Output n a).
Proof. intros Hi w. unfold same_device. cbn. split_and!; try done. exists [n :: a]. split; [done|]. by constructor. Qed.
Lemma sd_fx {A} (f : nat -> A) : keeps same_device (fx f).
Proof. intros w. apply sd_same. unfold only_fx. cbn. split_and!; (done || lia). Qed.
Lemma inquiry_fixed argv : bool_decide (argv ∈ fixed_inquiries) = true -> inquiry argv.
Proof. intros H. left. by apply bool_decide_eq_true in H. Qed.
#[local] Hint Resolve sd_fx : keeps.
#[local] Hint Extern 1 (keeps same_device (cmd_Run _ _)) => apply sd_cmd_Run, inquiry_fixed; vm_compute; reflexivity : keeps.
#[local] Hint Extern 1 (keeps same_device (cmd_Output _ _)) => apply sd_cmd_Output, inquiry_fixed; vm_compute; reflexivity : keeps.
#[local] Hint Extern 1 (keeps same_device (fs_step)) => apply sd_only_fx, only_fx_fs : keeps.
#[local] Hint Extern 1 (keeps same_device (http_Do _ _)) => apply sd_only_fx, only_fx_http : keeps.
#[local] Hint Extern 1 (keeps same_device GetKuboPeerID) => apply sd_only_fx, only_fx_GetKuboPeerID : keeps.

Lemma sd_read p : keeps same_device (read_file p).
Proof. unfold read_file. keeps_go. Qed.
#[local] Hint Resolve sd_read : keeps.
Lemma sd_props : keeps same_device ReadProperties.
Proof. unfold ReadProperties. keeps_go. Qed.
Lemma sd_hw g : keeps same_device (GetHardwareID g).
Proof. unfold GetHardwareID. keeps_go. Qed.
Lemma sd_free : keeps same_device GetBloxFreeSpace.
Proof. unfold GetBloxFreeSpace. keeps_go. Qed.
Lemma sd_container n : keeps same_device (GetContainerInfo n).
Proof. unfold GetContainerInfo. keeps_go. Qed.
Lemma sd_configured : keeps same_device GetKuboConfiguredPeerID.
Proof. unfold GetKuboConfiguredPeerID. keeps_go. Qed.
Lemma sd_field k : keeps same_device (config_field k).
Proof. unfold config_field. keeps_go. Qed.
#[local] Hint Resolve sd_props sd_hw sd_free sd_container sd_configured sd_field : keeps.
Lemma sd_cluster : keeps same_device GetClusterInfo.
Proof.
  unfold GetClusterInfo, cluster_id_api, cluster_id_file, cluster_id_props, cluster_id_key, GetClusterPeerIDFromIdentity.
  cbn [first_id]. keeps_go.
Qed.
Lemma sd_identity m id : keeps same_device (addKuboIdentityState m id).
Proof. unfold addKuboIdentityState. keeps_go. Qed.
Lemma sd_try_or {A} (d : A) m : keeps same_device m -> keeps same_device (try_or d m).
Proof. intros Hm. unfold try_or. keeps_go. Qed.
Lemma sd_check p : keeps same_device (checkPathExistAndFileNotExist p).
Proof. unfold checkPathExistAndFileNotExist. keeps_go. Qed.
Lemma sd_json code j : keeps same_device (answer_json code j).
Proof. unfold answer_json, WriteHeader. keeps_go. Qed.
#[local] Hint Resolve sd_cluster sd_identity sd_try_or sd_check sd_json : keeps.

Lemma sd_runCommand c : inquiry (Fields c) -> keeps same_device (runCommand c).
Proof.
  intros Hi. unfold runCommand. destruct (Fields c) as [|n a]; [keeps_go|].
  apply keeps_bind; [exact _ | by apply sd_cmd_Run |]. intros r. keeps_go.
Qed.
Lemma sd_run_args n a : inquiry (n :: a) -> keeps same_device (run_args n a).
Proof.
  intros Hi. unfold run_args. apply keeps_bind; [exact _ | by apply sd_cmd_Run |]. intros r. keeps_go.
Qed.
#[local] Hint Extern 1 (keeps same_device (runCommand _)) => apply sd_runCommand, inquiry_fixed; vm_compute; reflexivity : keeps.
#[local] Hint Extern 1 (keeps same_device (run_args _ _)) => apply sd_run_args, inquiry_fixed; vm_compute; reflexivity : keeps.

(** The interfaces are words of the output, so each is one argument of the next command. *)
Definition word (i : string) : Prop := no_space i = true /\ i <> "".
Lemma interfaces_words out : Forall word (iw_interfaces out).
Proof.
  unfold iw_interfaces. apply Forall_forall. intros i (line & _ & Hl)%list_elem_of_omap.
  destruct (Contains line "Interface"); [|done]. pose proof (Fields_words line) as Hw.
  destruct (Fields line) as [|x [|y rest]]; try done. injection Hl as <-.
  apply Forall_cons in Hw as [_ Hw]. by apply Forall_cons in Hw as [Hy _].
Qed.
Lemma link_words i : word i -> Fields ("iw dev " +:+ i +:+ " link") = ["iw"; "dev"; i; "link"].
Proof.
  intros [Hi Hne].
  change ("iw dev " +:+ i +:+ " link") with ("iw" +:+ String " " ("dev" +:+ String " " (i +:+ String " " "link"))).
  by rewrite !Fields_cons, Fields_last.
Qed.
Lemma sd_linked l : Forall word l -> keeps same_device (any_linked l).
Proof.
  induction 1 as [|i l Hi _ IH]; cbn [any_linked]; [keeps_go|].
  apply keeps_bind; [exact _ | | intros out; keeps_go].
  apply sd_runCommand. right. exists i. by apply link_words.
Qed.
Lemma sd_connected g : keeps same_device (CheckIfIsConnected g "").
Proof.
  unfold CheckIfIsConnected, CheckIfIsConnectedWifi, on_linux, checkIfIsConnectedLinux. cbn [String.eqb].
  destruct (_ =? "linux")%string; [|keeps_go].
  apply keeps_bind; [exact _ | | intros r; keeps_go]. apply keeps_try.
  intros w. assert (keeps same_device (runCommand "iw dev")) as Hk by eauto with keeps. specialize (Hk w).
  unfold bind at 1 2. destruct (runCommand "iw dev" w) as [[out|e|] w1]; cbn [snd] in Hk; try exact Hk.
  destruct (co_err out); [exact Hk|]. etrans; [exact Hk|].
  assert (keeps same_device (ok <- any_linked (iw_interfaces (co_stdout out));;
    if ok : bool then ret () else raise "WiFi not connected on any interface")) as Hl; [|exact (Hl w1)].
  apply keeps_bind; [exact _ | apply sd_linked, interfaces_words | intros []; keeps_go].
Qed.
Lemma sd_scan : keeps same_device Scan.
Proof. unfold Scan. keeps_go. Qed.
#[local] Hint Resolve sd_connected sd_scan : keeps.

Lemma sd_propertiesGet : keeps same_device propertiesGet.
Proof. unfold propertiesGet. keeps_go. Qed.

Lemma sd_guarded p m r k : (q_Method r = m -> keeps same_device k) -> keeps same_device (guarded p m r k).
Proof.
  intros Hk. unfold guarded, not_found, bad_method. destruct (negb (q_Path r =? p)%string); [keeps_go|].
  destruct (String.eqb_spec (q_Method r) m); cbn [negb]; [by apply Hk | keeps_go].
Qed.

(** A request a browser would send without asking first. *)
Definition simple_get (r : WReq) : Prop :=
  (q_Method r = MethodGet \/ q_Method r = MethodHead) /\ q_Path r ∉ mutatingGETPaths.

Lemma routes_read_only r : simple_get r ->
  Forall (fun ph => ph.1 = q_Path r -> keeps same_device (ph.2 r)) routes.
Proof.
  intros [Hm Hp].
  assert (forall path k, path = q_Path r -> keeps same_device (guarded path "POST" r k)) as Hpost
    by (intros path k _; apply sd_guarded; intros Hpost; destruct Hm as [Hm|Hm]; rewrite Hpost in Hm; discriminate).
  repeat apply Forall_cons_2; [..|apply Forall_nil_2]; cbn [fst snd]; intros Hpath.
  - apply sd_guarded. intros _. keeps_go. cbv zeta. keeps_go.
  - apply sd_guarded. intros _. keeps_go.
  - apply sd_guarded. intros _. keeps_go.
  - by apply Hpost.
  - by destruct Hp; rewrite <- Hpath; left.
  - by destruct Hp; rewrite <- Hpath; right; left.
  - unfold propertiesHandler, not_found. destruct (negb _); [keeps_go|]. destruct (_ =? "GET")%string; [apply sd_propertiesGet|].
    destruct (_ =? "POST")%string; keeps_go.
  - by apply Hpost.
  - by apply Hpost.
  - by apply Hpost.
  - by apply Hpost.
  - by destruct Hp; rewrite <- Hpath; do 2 right; left.
  - by destruct Hp; rewrite <- Hpath; do 3 right; left.
  - by destruct Hp; rewrite <- Hpath; do 4 right; left.
  - unfold chainStatusHandler. keeps_go.
  - unfold accountIdHandler, secret_handler. keeps_go.
  - unfold accountSeedHandler, secret_handler. keeps_go.
Qed.

Lemma mux_read_only r : simple_get r -> keeps same_device (mux r).
Proof.
  intros Hr. pose proof (routes_read_only r Hr) as Hall. unfold mux.
  destruct (head (filter (fun pr => pr.1 = q_Path r) routes)) as [[p h]|] eqn:Eh; [|keeps_go].
  assert ((p, h) ∈ filter (fun pr => pr.1 = q_Path r) routes) as [Hp Hin]%list_elem_of_filter.
  { destruct (filter _ routes); [done|]. injection Eh as ->. by left. }
  exact (proj1 (Forall_forall _ _) Hall _ Hin Hp).
Qed.

(** The sites whose pages may use the device: the three of the project, or those the
    environment names instead, and a developer's own machine. *)
Definition trusted (site : string) : Prop :=
  (exists o, EqualFold o site = true /\ o <> "" /\
     if (TrimSpace (wap_getenv "WAP_CORS_ORIGINS") =? "")%string
     then o = "https://blox.fx.land" \/ o = "https://docs.fx.land" \/ o = "https://functionland.github.io"
     else exists part, part ∈ split_char "," (TrimSpace (wap_getenv "WAP_CORS_ORIGINS")) /\ o = TrimSpace part) \/
  (exists host, (host = "localhost" \/ host = "127.0.0.1") /\
     (site = "http://" +:+ host \/
      exists port, port <> "" /\ sforall is_digit port = true /\ site = "http://" +:+ host +:+ ":" +:+ port)).

(** A request that a browser sends for a page of a site that is not trusted: with the site
    as its Origin, or without an Origin (a picture or a script) and then marked as made
    across sites. *)
Definition foreign_page (r : WReq) : Prop :=
  (q_Header r "Origin" <> "" /\ ~ trusted (q_Header r "Origin")) \/
  (q_Header r "Origin" = "" /\ (q_Header r "Sec-Fetch-Site" = "cross-site" \/ q_Header r "Sec-Fetch-Site" = "same-site")).

Lemma originAllowed_trusted site : originAllowed site = true -> trusted site.
Proof.
  unfold originAllowed. destruct (site =? "")%string; [done|]. intros [H|H]%orb_true_iff.
  - apply existsb_exists in H as (o & Hin & He). left. exists o. split; [done|]. apply list_elem_of_In in Hin.
    unfold allowedCORSOrigins, defaultCORSOrigins in Hin. destruct (_ =? "")%string.
    + repeat (apply elem_of_cons in Hin as [-> | Hin]; [by split; auto|]). by apply not_elem_of_nil in Hin.
    + apply list_elem_of_filter in Hin as [Hne Hin]. split; [done|].
      apply list_elem_of_fmap in Hin as (part & -> & Hin). by exists part.
  - right. unfold localDevOrigin in H. apply existsb_exists in H as (host & Hin & H).
    exists host. split; [cbn in Hin; intuition congruence|]. apply andb_true_iff in H as [Hp H].
    apply prefix_split in Hp. destruct (sdrop _ site) as [|c port] eqn:Es.
    + left. by rewrite Hp, sapp_nil_r.
    + right. destruct c as [[] [] [] [] [] [] [] []]; try discriminate H. apply andb_true_iff in H as [Hne Hd].
      exists port. split; [|split; [done|]].
      * intros ->. discriminate Hne.
      * by rewrite Hp, sapp_assoc.
Qed.

Lemma foreign_not_allowed r : foreign_page r ->
  (q_Header r "Origin" =? "")%string && negb (crossSiteFetch r) = false /\ originAllowed (q_Header r "Origin") = false.
Proof.
  intros [[Ho Ht]|[Ho Hs]].
  - split; [by rewrite (proj2 (String.eqb_neq _ _) Ho)|]. destruct (originAllowed _) eqn:Eo; [|done].
    by apply originAllowed_trusted in Eo.
  - unfold crossSiteFetch, originAllowed. rewrite Ho. by destruct Hs as [-> | ->].
Qed.

(** C12. A web page of another site cannot change the device. Whatever request such a page
    makes a browser send to the set-up server (one that carries the page's Origin, or is
    marked by Sec-Fetch-Site as made across sites), on any route and with any method, the
    configuration, the files, the pool members and the pending restarts are as before, and
    the only commands the device runs for it are its fixed inquiries, none of which changes
    the network; and no answer carries the header that would let the page read it. *)
Theorem csrf_safe r w : foreign_page r ->
  same_device w (serve_local r w).2 /\
  (forall resp w', serve_local r w = (Ok resp, w') ->
     "Access-Control-Allow-Origin" ∉ map fst (p_Headers resp)).
Proof.
  intros [Hf Hno]%foreign_not_allowed. unfold serve_local, withCORS. rewrite Hf, Hno, andb_true_r.
  assert ("Access-Control-Allow-Origin" ∉ map fst (cors_headers r false)) as Hh.
  { unfold cors_headers. destruct (_ =? "")%string; [apply not_elem_of_nil|]. cbn. by apply (bool_decide_unpack _). }
  destruct (negb (q_Header r "Origin" =? "")%string && (q_Method r =? MethodOptions)%string).
  { split; [apply PreOrder_Reflexive|]. by intros resp w' [= <- <-]. }
  destruct (mutating r) eqn:Em.
  { split; [apply PreOrder_Reflexive|]. by intros resp w' [= <- <-]. }
  assert (simple_get r) as Hr.
  { unfold mutating in Em. apply orb_false_iff in Em as [Em Hp]. apply bool_decide_eq_false in Hp. split; [|done].
    apply andb_false_iff in Em as [Em|Em]; apply negb_false_iff, String.eqb_eq in Em; auto. }
  split.
  - apply keeps_bind; [exact _ | by apply mux_read_only |]. intros x. keeps_go.
  - intros resp w' (x & w1 & _ & H)%bind_Ok_inv. by injection H as <- _.
Qed.

(** ** The LAN listeners *)
Definition owner_in (F : gmap string string) : option string :=
  data ← F !! FULA_CONFIG_PATH; doc ← yd_parse data;
  if yd_types doc then (let a := default "" (field_of doc "authorizer") in if (TrimSpace a =? "")%string then None else Some a)
  else None.

Lemma hasOwner_yields F a : (forall n, env_fs n = FsOk) -> owner_in F = Some a -> yields F bloxHasOwner true F.
Proof.
  intros Hfs Ho. unfold owner_in in Ho. unfold bloxHasOwner, config_field.
  destruct (F !! FULA_CONFIG_PATH) as [data|] eqn:EF; [|done]. cbn [mbind option_bind] in Ho.
  destruct (yd_parse data) as [doc|] eqn:Ed; [|done]. cbn [mbind option_bind] in Ho.
  destruct (yd_types doc) eqn:Et; [|done]. destruct (TrimSpace _ =? "")%string eqn:Ea; [done|].
  eapply yields_bind; [eapply yields_bind; [apply yields_try, (yields_read Hfs) | apply yields_ret]|].
  change (filepath_Clean FULA_CONFIG_PATH) with FULA_CONFIG_PATH. rewrite EF. cbn [mbind option_bind]. rewrite Ed.
  cbn [mbind option_bind]. rewrite Et. cbn beta iota. rewrite Ea. apply yields_ret.
Qed.

Fixpoint serve_all_lan (rs : list WReq) : M (Node S) (list WResp) :=
  match rs with
  | [] => ret []
  | r :: rs' => x <- serve_lan r;; xs <- serve_all_lan rs';; ret (x :: xs)
  end.

(** C13. As long as the config file can be read, parses and names an owner, the LAN listeners
    are closed to everybody: every request of any sequence is answered 403, and no file
    changes, whatever the request is. (A config file that cannot be read counts as one
    without an owner, see [lan_opens_on_unreadable].) *)
Theorem lan_closed_once_owned rs w a :
  (forall n, env_fs n = FsOk) -> owner_in (n_files w) = Some a ->
  exists xs w', serve_all_lan rs w = (Ok xs, w') /\ n_files w' = n_files w /\ length xs = length rs /\
                Forall (fun x => resp_code (p_Resp x) = 403) xs.
Proof.
  intros Hfs. revert w. induction rs as [|r rs IH]; intros w Ho; [by exists [], w|].
  destruct (hasOwner_yields _ a Hfs Ho w eq_refl) as (w1 & E1 & H1). rewrite <- H1 in Ho.
  destruct (IH w1 Ho) as (xs & w2 & E2 & H2 & Hl & Hxs).
  assert (serve_lan r w = (Ok (mkWResp [] (http_Error "this Blox is already set up; manage it over the hotspot or Bluetooth" StatusForbidden)), w1)) as E0.
  { unfold serve_lan, lanSetupGuard, bind. by rewrite E1. }
  eexists (_ :: xs), w2. split_and!.
  - cbn [serve_all_lan]. unfold bind. by rewrite E0, E2.
  - by rewrite H2, H1.
  - cbn. by rewrite Hl.
  - by constructor.
Qed.

(** ** Joining a pool through the set-up server *)
Context (yd_law : forall l, yd_parse (yd_print l) = Some l).

Lemma rewrite_config_keys p doc : map fst (rewrite_config p doc) = map fst wap_keys.
Proof. unfold rewrite_config. rewrite map_map. reflexivity. Qed.

Lemma field_of_absent doc k : k ∉ map fst doc -> field_of doc k = None.
Proof.
  unfold field_of. induction doc as [|[k' v] doc IH]; intros Hk; [done|]. cbn [map fst] in Hk.
  apply not_elem_of_cons in Hk as [H1 H2]. rewrite filter_cons_False by (cbn; congruence). by apply IH.
Qed.

(** Joining a pool through the set-up server writes the pool name but loses what its copy
    of the struct does not have: afterwards the config file has the requested pool and
    exactly the seventeen keys of that struct, so the chain the device was configured for and
    the resource-manager setting the blox program reads are gone. *)
Theorem wap_join_rewrites r p w w' :
  (forall n, env_fs n = FsOk) -> pool_id_of r = Some p ->
  joinPoolHandler r w = (Ok (mkResp StatusOK (BJson (JObj [("poolID", JStr p); ("status", JStr "joined")]))), w') ->
  exists doc', option_bind _ _ yd_parse (n_files w' !! FULA_CONFIG_PATH) = Some doc' /\
    field_of doc' "poolName" = Some p /\ map fst doc' = map fst wap_keys /\
    field_of doc' "chainName" = None /\ field_of doc' "disableResourceManger" = None.
Proof.
  intros Hfs Hp. unfold joinPoolHandler. rewrite Hp. intros H.
  destruct (yields_try _ _ _ _ (yields_read Hfs (n_files w) FULA_CONFIG_PATH) w eq_refl) as (w1 & E1 & H1).
  unfold bind at 1 in H. rewrite E1 in H. destruct (n_files w !! filepath_Clean FULA_CONFIG_PATH) as [data|]; [|done].
  destruct (yd_parse data) as [doc|]; [|done]. destruct (yd_types doc); [|done].
  match type of H with context [try (write_file ?f ?d)] =>
    destruct (yields_try _ _ _ _ (yields_write Hfs (n_files w1) f d) w1 eq_refl) as (w2 & E2 & H2) end.
  unfold bind at 1 in H. rewrite E2 in H. injection H as <-. rewrite H2.
  change (filepath_Clean FULA_CONFIG_PATH) with FULA_CONFIG_PATH. rewrite lookup_insert_eq.
  exists (rewrite_config p doc). split_and!.
  - apply yd_law.
  - reflexivity.
  - apply rewrite_config_keys.
  - apply field_of_absent. rewrite rewrite_config_keys. by apply (bool_decide_unpack _).
  - apply field_of_absent. rewrite rewrite_config_keys. by apply (bool_decide_unpack _).
Qed.
End server.

(** ** Witnesses *)
#[local] Instance setupEnv : Env := {|
  env_http := fun _ _ _ => ReplyErr "offline"; env_timer := fun _ _ => true; env_now := fun _ => 0; env_fs := fun _ => FsOk |}.
#[local] Instance setupExec : Exec := {| exec_Output := fun _ _ _ => ExecOk ""; exec_Run := fun _ _ _ => CmdDone "" "" None |}.
#[local] Instance setupDocker : Docker := {|
  docker_List := fun _ => inl "no daemon"; docker_ImageInspect := fun _ _ => inl "no daemon";
  docker_Inspect := fun _ _ => inl "no daemon"; docker_Logs := fun _ _ _ => inl "no daemon" |}.
#[local] Instance setupKubo : KuboClient := {|
  yaml_identity := fun _ => None; peer_of_private_key := fun _ => None; kubo_repo_stat := fun _ => inl "offline" |}.
#[local] Instance setupConfig : WapConfig := {|
  wap_getenv := fun _ => ""; wap_GOOS := "linux";
  rand_Read := fun _ _ => inl "no entropy"; sha256_Sum := fun s => s;
  marshal_ed25519 := fun s => s; PROJECT_NAME := "fula_go"; OTA_VERSION := "3"; COUNTRY := "CA" |}.

(** A document format for the witnesses: an object of strings. *)
Definition doc_json (l : list (string * string)) : json := JObj (map (fun kv => (kv.1, JStr kv.2)) l).
Definition json_doc (j : json) : option (list (string * string)) :=
  match j with
  | JObj l => mapM (fun kv => match kv.2 with JStr v => Some (kv.1, v) | _ => None end) l
  | _ => None
  end.
#[local] Instance setupYaml : YamlDoc := {|
  yd_parse := fun s => json_parse s ≫= json_doc; yd_types := fun _ => true; yd_print := fun l => json_print (doc_json l) |}.

Lemma setupYaml_law l : yd_parse (yd_print l) = Some l.
Proof.
  change (json_parse (json_print (doc_json l)) ≫= json_doc = Some l). rewrite parse_print; unfold doc_json.
  - change (mapM (fun kv => match kv.2 with JStr v => Some (kv.1, v) | _ => None end) (map (fun kv => (kv.1, JStr kv.2)) l) = Some l).
    induction l as [|[k v] l IH]; [done|]. cbn. by rewrite IH.
  - induction l as [|[k v] l IH]; [done|]. exact IH.
Qed.

Definition no_peer (_ _ : string) : M (Node unit) string := raise "not running".
Definition unowned : Node unit :=
  mkNode 0 tt {[FULA_CONFIG_PATH := jq "{'identity':'k','chainName':'base','authorizer':'','disableResourceManger':'true'}"]} ∅ None [] [].
Definition owned : Node unit := mkNode 0 tt {[FULA_CONFIG_PATH := jq "{'authorizer':'12D3KooW'}"]} ∅ None [] [].
Definition img_request : WReq :=
  mkWReq "GET" "/pools/join" (fun h => if (h =? "Sec-Fetch-Site")%string then "cross-site" else "") [("poolID", "7")] None.
Definition join_request : WReq := mkWReq "POST" "/pools/join" (fun _ => "") [("poolID", "7")] None.

Definition off_request : WReq :=
  mkWReq "GET" "/ap/disable" (fun h => if (h =? "Sec-Fetch-Site")%string then "cross-site" else "") [] None.

Lemma csrf_safe_witness : foreign_page img_request /\ foreign_page off_request /\
  same_device unowned (serve_local no_peer img_request unowned).2 /\
  same_device unowned (serve_local no_peer off_request unowned).2.
Proof.
  assert (foreign_page img_request) as H by (right; split; [reflexivity | left; reflexivity]).
  assert (foreign_page off_request) as H' by (right; split; [reflexivity | left; reflexivity]).
  split; [exact H|]. split; [exact H'|].
  split; [exact (proj1 (csrf_safe no_peer img_request unowned H)) | exact (proj1 (csrf_safe no_peer off_request unowned H'))].
Defined.

(** From the device's own page the same request does switch the radio off. *)
Example own_page_disables :
  existsb (fun argv => bool_decide (argv = ["nmcli"; "r"; "wifi"; "off"]))
    (n_cmds (serve_local no_peer (mkWReq "GET" "/ap/disable" (fun _ => "") [] None) unowned).2) = true.
Proof. vm_compute. reflexivity. Qed.

Lemma lan_closed_once_owned_witness :
  exists xs w', serve_all_lan no_peer [join_request; img_request] owned = (Ok xs, w') /\ n_files w' = n_files owned /\
                length xs = length [join_request; img_request] /\ Forall (fun x => resp_code (p_Resp x) = 403) xs.
Proof. apply (lan_closed_once_owned no_peer _ owned "12D3KooW"); [reflexivity | vm_compute; reflexivity]. Defined.

(** On a disk that does not answer, an owned device is taken for one without an owner. *)
Example lan_opens_on_unreadable :
  let failing := {| env_http := fun _ _ _ => ReplyErr "offline"; env_timer := fun _ _ => true; env_now := fun _ => 0;
                    env_fs := fun _ => FsErr None |} in
  match (serve_lan (E := failing) no_peer (mkWReq "GET" "/chain/status" (fun _ => "") [] None) owned).1 with
  | Ok x => resp_code (p_Resp x) = 200
  | _ => False
  end.
Proof. vm_compute. reflexivity. Qed.

Lemma wap_join_rewrites_witness :
  exists doc', option_bind _ _ yd_parse (n_files (joinPoolHandler join_request unowned).2 !! FULA_CONFIG_PATH) = Some doc' /\
    field_of doc' "poolName" = Some "7" /\ map fst doc' = map fst wap_keys /\
    field_of doc' "chainName" = None /\ field_of doc' "disableResourceManger" = None.
Proof.
  apply (wap_join_rewrites setupYaml_law join_request "7" unowned); [reflexivity | reflexivity |].
  vm_compute. reflexivity.
Defined.
