(* ===== verification/WapListen.v ===== *)
(** * wap/pkg/server: the listeners and their watchers

    [Serve] opens the set-up server on the hotspot address, on loopback and, while the device
    has no owner, on its LAN addresses; two background watchers open the addresses that
    appear later, and [Close] takes everything down. The sequential start is a function; from
    then on [Serve]'s own thread, the two watchers and [Close] interleave, one [step] at a
    time, with a label for what the scheduler and the network decide. [close_releases] shows
    that a closed server holds no socket; [listener_leak] exhibits the interleaving, a data
    race on the list of listeners, for which it does. *)

From stdpp Require Import gmap list strings.
From S2P Require Import Prelude GoStd GoPath.

#[local] Open Scope string_scope.
#[local] Open Scope Z_scope.

(** ** LAN addresses (lanbind.go) *)

(** An address of an interface: *net.IPNet with the bytes of its IP, or another net.Addr. *)
Inductive NetAddr := IPNet (ip : list Z) | OtherAddr.
Record Iface := mkIface { if_Name : string; if_Up : bool; if_Addrs : option (list NetAddr) }.

Definition To4 (ip : list Z) : option (list Z) :=
  if (length ip =? 4)%nat then Some ip
  else if (length ip =? 16)%nat && bool_decide (take 12 ip = [0; 0; 0; 0; 0; 0; 0; 0; 0; 0; 255; 255])
  then Some (drop 12 ip) else None.
Definition IsLoopback (ip : list Z) : bool := match ip with a :: _ => a =? 127 | [] => false end.
Definition IsPrivate (ip : list Z) : bool :=
  match ip with
  | a :: b :: _ => (a =? 10) || ((a =? 172) && (Z.land b 240 =? 16)) || ((a =? 192) && (b =? 168))
  | _ => false
  end.
Definition ip_String (ip : list Z) : string := Join (map Itoa ip) ".".
Definition JoinHostPort (host port : string) : string :=
  if Contains host ":" then "[" +:+ host +:+ "]:" +:+ port else host +:+ ":" +:+ port.

Definition skipLANInterface (name : string) : bool :=
  (name =? "lo")%string || existsb (HasPrefix name) ["docker"; "br-"; "veth"; "dummy"; "tun"; "tap"].

Definition lan_addr (port apIP : string) (a : NetAddr) : option string :=
  match a with
  | OtherAddr => None
  | IPNet ip =>
      ip4 ← To4 ip;
      if IsLoopback ip4 || negb (IsPrivate ip4) || (ip_String ip4 =? apIP)%string then None
      else Some (JoinHostPort (ip_String ip4) port)
  end.
Definition iface_addrs (port apIP : string) (i : Iface) : list string :=
  if negb (if_Up i) || skipLANInterface (if_Name i) then []
  else match if_Addrs i with None => [] | Some l => omap (lan_addr port apIP) l end.
(** [None]: net.Interfaces failed. *)
Definition realLANListenAddrs (ifaces : option (list Iface)) (port apIP : string) : list string :=
  match ifaces with None => [] | Some l => concat (map (iface_addrs port apIP) l) end.

(** ** The state *)
Record multiCloser := mkMC { listeners : list string; closed : bool; stopWatch : bool; watchers : nat }.

(** Where [Serve]'s thread is after the sequential start. *)
Inductive ServePC :=
| Waiting (attempts : nat)
| Append (ln : string)                            (** bound; about to read mc.listeners *)
| AppendWrite (ln : string) (read : list string)  (** about to assign mc.listeners *)
| StartHot
| Returned.
Inductive LanPC :=
| LanOff | LanIdle (bound : gset string) | LanTodo (todo : list string) (bound : gset string)
| LanHas (ln : string) (todo : list string) (bound : gset string) | LanDone.
Inductive HotPC := HotOff | HotIdle | HotHas | HotDone.

Record World := mkWorld {
  mc : multiCloser;
  sockets : gset string;    (** addresses this process is bound to *)
  stopped : bool;           (** the stop channel is closed *)
  owner : bool;             (** what bloxHasOwner answers *)
  serve : ServePC; lan : LanPC; hot : HotPC }.

Definition set_mc (m : multiCloser) (w : World) : World :=
  mkWorld m (sockets w) (stopped w) (owner w) (serve w) (lan w) (hot w).
Definition set_sockets (s : gset string) (w : World) : World :=
  mkWorld (mc w) s (stopped w) (owner w) (serve w) (lan w) (hot w).
Definition set_owner (b : bool) (w : World) : World :=
  mkWorld (mc w) (sockets w) (stopped w) b (serve w) (lan w) (hot w).
Definition set_serve (pc : ServePC) (w : World) : World :=
  mkWorld (mc w) (sockets w) (stopped w) (owner w) pc (lan w) (hot w).
Definition set_lan (pc : LanPC) (w : World) : World :=
  mkWorld (mc w) (sockets w) (stopped w) (owner w) (serve w) pc (hot w).
Definition set_hot (pc : HotPC) (w : World) : World :=
  mkWorld (mc w) (sockets w) (stopped w) (owner w) (serve w) (lan w) pc.

(** ** multiCloser (server.go) *)
Definition trackWatcher (m : multiCloser) : bool * multiCloser :=
  if closed m then (false, m) else (true, mkMC (listeners m) false (stopWatch m) (Datatypes.S (watchers m))).

Definition add (l : string) (w : World) : bool * World :=
  let m := mc w in
  if closed m then (false, set_sockets (sockets w ∖ {[l]}) w)
  else (true, set_mc (mkMC (listeners m ++ [l]) false (stopWatch m) (watchers m)) w).

(** Close up to its wait for the watchers. *)
Definition Close (w : World) : World :=
  let m := mc w in
  mkWorld (mkMC [] true false (watchers m)) (sockets w ∖ list_to_set (listeners m)) (stopped w || stopWatch m)
          (owner w) (serve w) (lan w) (hot w).

(** Its wait is over. *)
Definition Close_returned (w : World) : bool := closed (mc w) && (watchers (mc w) =? 0)%nat.

Definition watcher_Done (w : World) : World :=
  let m := mc w in set_mc (mkMC (listeners m) (closed m) (stopWatch m) (pred (watchers m))) w.

(** net.Listen: [ok] is whether the host has the address. *)
Definition net_Listen (addr : string) (ok : bool) (w : World) : option World :=
  if ok && negb (bool_decide (addr ∈ sockets w)) then Some (set_sockets ({[addr]} ∪ sockets w) w) else None.

(** The stop channel exists once a watcher was started. *)
Definition with_stop (m : multiCloser) : multiCloser := mkMC (listeners m) (closed m) true (watchers m).

(** ** The sequential start *)
(** A bind failure is skipped. *)
Fixpoint listen_each (addrs : list string) (can : string -> bool) (opened : list string) (w : World) : list string * World :=
  match addrs with
  | [] => (opened, w)
  | a :: addrs' =>
      match net_Listen a (can a) w with
      | Some w' => listen_each addrs' can (opened ++ [a])%list w'
      | None => listen_each addrs' can opened w
      end
  end.
Definition startLANSetupListeners (addrs : list string) (can : string -> bool) (w : World) : list string * World :=
  if owner w then ([], w) else listen_each addrs can [] w.

Definition startLANSetupWatch (bound : list string) (w : World) : World :=
  if owner w then w
  else if closed (mc w) then w
  else match trackWatcher (with_stop (mc w)) with
       | (false, m) => set_mc m w
       | (true, m) => set_lan (LanIdle (list_to_set bound)) (set_mc m w)
       end.

Definition startAuxListeners (loopback : string) (addrs : list string) (can : string -> bool) (w : World) : World :=
  let w := match net_Listen loopback (can loopback) w with Some w' => (add loopback w').2 | None => w end in
  let '(opened, w) := startLANSetupListeners addrs can w in
  let w := fold_left (fun w a => (add a w).2) opened w in
  startLANSetupWatch opened w.

Definition maxAttempts : nat := 60.

(** [noaddr]: a failed first bind says the host does not have the address yet. *)
Definition Serve_start (target loopback : string) (addrs : list string) (can : string -> bool) (noaddr own : bool) : World :=
  let w := mkWorld (mkMC [] false false 0) ∅ false own StartHot LanOff HotOff in
  match net_Listen target (can target) w with
  | Some w' => set_serve (Append target) (startAuxListeners loopback addrs can w')
  | None => set_serve (if noaddr then Waiting maxAttempts else StartHot) (startAuxListeners loopback addrs can w)
  end.

Definition startHotspotWatch (w : World) : World :=
  if closed (mc w) then w
  else match trackWatcher (with_stop (mc w)) with
       | (false, m) => set_mc m w
       | (true, m) => set_hot HotIdle (set_mc m w)
       end.

(** ** Steps *)
Inductive label :=
| SetOwner (b : bool)                          (** the config file changes *)
| SAttempt (ok : bool) | SGiveUp | SRead | SWrite | SHot
| LStop | LTick (addrs : list string) | LBind (ok : bool) | LAdd
| HStop | HTick (ok : bool) | HAdd
| CClose.

Definition serve_step (target : string) (l : label) (w : World) : option World :=
  match serve w, l with
  | Waiting (Datatypes.S n), SAttempt ok =>
      Some (match net_Listen target ok w with Some w' => set_serve (Append target) w' | None => set_serve (Waiting n) w end)
  | Waiting _, SGiveUp => Some (set_serve StartHot w)
  | Append ln, SRead => Some (set_serve (AppendWrite ln (listeners (mc w))) w)
  | AppendWrite ln read, SWrite =>
      let m := mc w in
      Some (set_serve Returned (set_mc (mkMC (read ++ [ln]) (closed m) (stopWatch m) (watchers m)) w))
  | StartHot, SHot => Some (set_serve Returned (startHotspotWatch w))
  | _, _ => None
  end.

Definition lan_step (l : label) (w : World) : option World :=
  match lan w, l with
  | LanIdle _, LStop => if stopped w then Some (set_lan LanDone (watcher_Done w)) else None
  | LanIdle bound, LTick addrs =>
      Some (if owner w then set_lan LanDone (watcher_Done w) else set_lan (LanTodo addrs bound) w)
  | LanTodo [] bound, LBind _ => Some (set_lan (LanIdle bound) w)
  | LanTodo (a :: todo) bound, LBind ok =>
      Some (if bool_decide (a ∈ bound) then set_lan (LanTodo todo bound) w
            else match net_Listen a ok w with
                 | None => set_lan (LanTodo todo bound) w
                 | Some w' => set_lan (LanHas a todo bound) w'
                 end)
  | LanHas a todo bound, LAdd =>
      let '(added, w') := add a w in
      Some (if added : bool then set_lan (LanTodo todo ({[a]} ∪ bound)) w' else set_lan LanDone (watcher_Done w'))
  | _, _ => None
  end.

Definition hot_step (target : string) (l : label) (w : World) : option World :=
  match hot w, l with
  | HotIdle, HStop => if stopped w then Some (set_hot HotDone (watcher_Done w)) else None
  | HotIdle, HTick ok => Some (match net_Listen target ok w with Some w' => set_hot HotHas w' | None => w end)
  | HotHas, HAdd => Some (set_hot HotDone (watcher_Done (add target w).2))
  | _, _ => None
  end.

(** The closer is handed out when [Serve] returns. *)
Definition step (target : string) (l : label) (w : World) : option World :=
  match l with
  | SetOwner b => Some (set_owner b w)
  | SAttempt _ | SGiveUp | SRead | SWrite | SHot => serve_step target l w
  | LStop | LTick _ | LBind _ | LAdd => lan_step l w
  | HStop | HTick _ | HAdd => hot_step target l w
  | CClose => match serve w with Returned => Some (Close w) | _ => None end
  end.

(** A watcher adds its listener between [Serve]'s read of the list and its assignment. *)
Definition races (l : label) (w : World) : bool :=
  match l, serve w with LAdd, AppendWrite _ _ => true | _, _ => false end.

Inductive reach (target : string) (w0 : World) : World -> Prop :=
| reach_refl : reach target w0 w0
| reach_step w l w' : reach target w0 w -> races l w = false -> step target l w = Some w' -> reach target w0 w'.

Fixpoint run (target : string) (ls : list label) (w : World) : option World :=
  match ls with [] => Some w | l :: ls' => w' ← step target l w; run target ls' w' end.

(** ** Ownership of the sockets *)
Definition owns (h : list string) (s : gset string) : Prop := NoDup h /\ s = list_to_set h.

Lemma owns_perm h h' s : h ≡ₚ h' -> owns h s -> owns h' s.
Proof. intros Hp [Hn ->]. split; [by rewrite <- Hp | by rewrite Hp]. Qed.
Lemma owns_bind a h s : a ∉ s -> owns h s -> owns (a :: h) ({[a]} ∪ s).
Proof. intros Ha [Hn ->]. split; [apply NoDup_cons; set_solver | done]. Qed.
Lemma owns_drop_list l h s : owns (l ++ h)%list s -> owns h (s ∖ list_to_set l).
Proof. intros [(Hl & Hd & Hh)%NoDup_app ->]. split; [done|]. rewrite list_to_set_app_L. set_solver. Qed.
Lemma owns_drop a h s : owns (a :: h) s -> owns h (s ∖ {[a]}).
Proof. intros H. apply (owns_drop_list [a]) in H. by rewrite list_to_set_singleton_L in H. Qed.

Lemma net_Listen_Some a ok w w' : net_Listen a ok w = Some w' -> a ∉ sockets w /\ w' = set_sockets ({[a]} ∪ sockets w) w.
Proof. unfold net_Listen. destruct ok; [|done]. cbn. case_bool_decide; [done|]. by intros [= <-]. Qed.

Definition serve_holds (pc : ServePC) : list string := match pc with Append a | AppendWrite a _ => [a] | _ => [] end.
Definition lan_holds (pc : LanPC) : list string := match pc with LanHas a _ _ => [a] | _ => [] end.
Definition hot_holds (target : string) (pc : HotPC) : list string := match pc with HotHas => [target] | _ => [] end.
Definition lan_alive (pc : LanPC) : nat := match pc with LanOff | LanDone => 0 | _ => 1 end.
Definition hot_alive (pc : HotPC) : nat := match pc with HotOff | HotDone => 0 | _ => 1 end.

(** Every open socket is in the list of listeners or in the hands of exactly one thread; a
    closed server lists none; every running watcher is counted and can be told to stop. *)
Record Inv (target : string) (w : World) : Prop := {
  inv_owns : owns (serve_holds (serve w) ++ lan_holds (lan w) ++ hot_holds target (hot w) ++ listeners (mc w))%list (sockets w);
  inv_read : match serve w with AppendWrite _ read => read = listeners (mc w) | _ => True end;
  inv_count : watchers (mc w) = (lan_alive (lan w) + hot_alive (hot w))%nat;
  inv_closed : closed (mc w) = true -> serve w = Returned /\ listeners (mc w) = [] /\ stopWatch (mc w) = false;
  inv_stop : (0 < watchers (mc w))%nat -> stopWatch (mc w) = true \/ stopped w = true;
  inv_hot : hot w <> HotOff -> serve w = Returned }.

Lemma Inv_owner target w b : Inv target w -> Inv target (set_owner b w).
Proof. intros []. by constructor. Qed.

Lemma Inv_Close target w : serve w = Returned -> Inv target w -> Inv target (Close w).
Proof.
  intros Hs [Ho _ Hc _ Hst Hh]. destruct w as [[ls c sw n] so st ow se la ho]. cbn in *. subst se. constructor; cbn; try done.
  - apply (owns_drop_list ls). eapply owns_perm; [|exact Ho]. cbn. solve_Permutation.
  - intros Hn. destruct (Hst Hn) as [->| ->]; rewrite ?orb_true_r; auto.
Qed.

(** Lay a state open; sockets by permutation of the held ones; the other conjuncts. *)
Ltac open_world w := destruct w as [[ls c sw n] so st ow se la ho]; cbn in *.
Ltac by_perm H := eapply owns_perm; [|exact H]; cbn; solve_Permutation.
Ltac bound H := apply net_Listen_Some in H as [? ->].
Ltac inv_rest := cbn in *; try done; intuition (try congruence; try lia); try (match goal with H : _ -> _ \/ _ |- _ => apply H; lia end).

Lemma Inv_serve target l w w' : serve_step target l w = Some w' -> Inv target w -> Inv target w'.
Proof.
  intros Hs [Ho Hr Hc Hcl Hst Hh]. open_world w. unfold serve_step in Hs. cbn in Hs.
  destruct se as [[|k]|ln|ln read| |], l; try done; injection Hs as <-.
  - constructor; inv_rest.
  - destruct (net_Listen _ _ _) as [w'|] eqn:E; [bound E|]; constructor; inv_rest. by apply owns_bind.
  - constructor; inv_rest.
  - constructor; inv_rest.
  - subst read. constructor; inv_rest. by_perm Ho.
  - unfold startHotspotWatch, trackWatcher, with_stop. cbn. destruct c; [constructor; inv_rest|].
    assert (ho = HotOff) as -> by (destruct ho; [done|..]; by discriminate Hh).
    constructor; inv_rest.
Qed.

Lemma Inv_lan target l w w' : races l w = false -> lan_step l w = Some w' -> Inv target w -> Inv target w'.
Proof.
  intros Hra Hs [Ho Hr Hc Hcl Hst Hh]. open_world w. unfold lan_step in Hs. cbn in Hs.
  destruct la as [|bnd|[|a todo] bnd|a todo bnd|], l; try done.
  - destruct st; [|done]. injection Hs as <-. constructor; inv_rest.
  - injection Hs as <-. destruct ow; constructor; inv_rest.
  - injection Hs as <-. constructor; inv_rest.
  - injection Hs as <-. case_bool_decide; [constructor; inv_rest|].
    destruct (net_Listen _ _ _) as [w'|] eqn:E; [bound E|]; constructor; inv_rest.
    eapply owns_perm; [|apply owns_bind; [done|exact Ho]]. cbn. solve_Permutation.
  - destruct c; cbn in Hs; injection Hs as <-.
    + destruct (Hcl eq_refl) as (-> & -> & _). constructor; inv_rest. by apply owns_drop.
    + assert (forall x r, se <> AppendWrite x r) as Hse by (intros x r ->; done).
      constructor; inv_rest; [by_perm Ho | destruct se; inv_rest; by destruct (Hse ln read)].
Qed.

Lemma Inv_hot_step target l w w' : hot_step target l w = Some w' -> Inv target w -> Inv target w'.
Proof.
  intros Hs [Ho Hr Hc Hcl Hst Hh]. open_world w. unfold hot_step in Hs. cbn in Hs.
  destruct ho, l; try done; pose proof (Hh ltac:(done)) as ->.
  - destruct st; [|done]. injection Hs as <-. constructor; inv_rest.
  - injection Hs as <-. destruct (net_Listen _ _ _) as [w'|] eqn:E; [bound E|]; constructor; inv_rest.
    eapply owns_perm; [|apply owns_bind; [done|exact Ho]]. cbn. solve_Permutation.
  - injection Hs as <-. unfold add. cbn. destruct c; cbn.
    + destruct (Hcl eq_refl) as (_ & -> & _). constructor; inv_rest.
      apply owns_drop. by_perm Ho.
    + constructor; inv_rest. by_perm Ho.
Qed.

Lemma Inv_step target l w w' : races l w = false -> step target l w = Some w' -> Inv target w -> Inv target w'.
Proof.
  intros Hra Hs Hi. destruct l; cbn in Hs; eauto using Inv_serve, Inv_lan, Inv_hot_step.
  - injection Hs as <-. by apply Inv_owner.
  - destruct (serve w) eqn:E; try done. injection Hs as <-. by apply Inv_Close.
Qed.

(** ** The start establishes the invariant *)
Record Starting (h : list string) (w : World) : Prop := {
  st_owns : owns (h ++ listeners (mc w))%list (sockets w);
  st_mc : closed (mc w) = false /\ watchers (mc w) = 0%nat;
  st_pcs : serve w = StartHot /\ lan w = LanOff /\ hot w = HotOff }.

Lemma Starting_bind h a ok w w' : net_Listen a ok w = Some w' -> Starting h w -> Starting (a :: h) w'.
Proof. intros [Ha ->]%net_Listen_Some []. constructor; try done. by apply owns_bind. Qed.

Lemma Starting_add h a w : Starting (a :: h) w -> Starting h (add a w).2.
Proof.
  intros [Ho [Hc Hn] Hp]. unfold add. rewrite Hc. constructor; try done. cbn. by_perm Ho.
Qed.

Lemma Starting_perm h h' w : h ≡ₚ h' -> Starting h w -> Starting h' w.
Proof. intros Hp []. constructor; try done. eapply owns_perm; [|done]. by rewrite Hp. Qed.

Lemma Starting_listen h addrs can o w : Starting (o ++ h)%list w ->
  Starting ((listen_each addrs can o w).1 ++ h)%list (listen_each addrs can o w).2.
Proof.
  revert o w. induction addrs as [|a addrs IH]; intros o w H; cbn; [done|].
  destruct (net_Listen a (can a) w) as [w'|] eqn:E; apply IH; [|done].
  eapply Starting_perm; [|by eapply Starting_bind]. solve_Permutation.
Qed.
Lemma Starting_lan h addrs can w : Starting h w ->
  Starting ((startLANSetupListeners addrs can w).1 ++ h)%list (startLANSetupListeners addrs can w).2.
Proof. intros H. unfold startLANSetupListeners. destruct (owner w); [done | by apply (Starting_listen h addrs can [])]. Qed.

Lemma Starting_add_all h opened w : Starting (opened ++ h)%list w -> Starting h (fold_left (fun w a => (add a w).2) opened w).
Proof. revert w. induction opened as [|a l IH]; intros w H; cbn; [done|]. by apply IH, Starting_add. Qed.

Lemma startAux_Inv target h loopback addrs can w pc :
  serve_holds pc = h -> match pc with AppendWrite _ _ => False | _ => True end -> Starting h w ->
  Inv target (set_serve pc (startAuxListeners loopback addrs can w)).
Proof.
  intros Hpc Hnw H. unfold startAuxListeners.
  assert (Starting h (match net_Listen loopback (can loopback) w with Some w' => (add loopback w').2 | None => w end)) as H1.
  { destruct (net_Listen _ _ _) as [w'|] eqn:E; [|done]. by eapply Starting_add, Starting_bind. }
  apply (Starting_lan _ addrs can) in H1. destruct (startLANSetupListeners _ _ _) as [opened w2]. cbn [fst snd] in H1.
  apply Starting_add_all in H1. set (w3 := fold_left _ _ _) in *. clearbody w3.
  destruct H1 as [Ho [Hc Hn] (Hs & Hl & Hh)]. unfold startLANSetupWatch, trackWatcher, with_stop.
  open_world w3. subst c n la ho.
  destruct ow; constructor; cbn; try done; try (by rewrite Hpc); try (by destruct pc); auto; lia.
Qed.

Lemma Starting_new own : Starting [] (mkWorld (mkMC [] false false 0) ∅ false own StartHot LanOff HotOff).
Proof. constructor; try done. split; [constructor | done]. Qed.

Lemma Inv_start target loopback addrs can noaddr own : Inv target (Serve_start target loopback addrs can noaddr own).
Proof.
  unfold Serve_start. destruct (net_Listen _ _ _) as [w'|] eqn:E.
  - eapply startAux_Inv; [done|done|]. eapply Starting_bind; [exact E | apply Starting_new].
  - eapply startAux_Inv; [| |apply Starting_new]; by destruct noaddr.
Qed.

Lemma Inv_reach target w0 w : Inv target w0 -> reach target w0 w -> Inv target w.
Proof. intros H0. induction 1; [done | by eapply Inv_step]. Qed.

(** An executable run without the race. *)
Fixpoint run_free (target : string) (ls : list label) (w : World) : option World :=
  match ls with
  | [] => Some w
  | l :: ls' => if races l w then None else w' ← step target l w; run_free target ls' w'
  end.
Lemma run_free_reach target ls w0 w w' : reach target w0 w -> run_free target ls w = Some w' -> reach target w0 w'.
Proof.
  revert w. induction ls as [|l ls IH]; intros w Hr; cbn; [by intros [= <-]|].
  destruct (races l w) eqn:E; [done|]. destruct (step target l w) as [w1|] eqn:E1; [|done]. cbn.
  apply IH. by eapply reach_step.
Qed.

Lemma alive_zero target w : Inv target w -> watchers (mc w) = 0%nat ->
  (lan w = LanOff \/ lan w = LanDone) /\ (hot w = HotOff \/ hot w = HotDone).
Proof. intros Hi Hn. rewrite (inv_count _ _ Hi) in Hn. destruct (lan w), (hot w); cbn in Hn; auto; lia. Qed.

(** C18. A closed server holds nothing. In every state that [Serve], the two watchers, changes
    of ownership and calls of [Close] can bring about, in any order and with any network,
    once [Close] has returned no socket is open; and whatever happens afterwards none is
    opened again. Excluded is only the interleaving of [listener_leak]. *)
Theorem close_releases target loopback addrs can noaddr own w :
  reach target (Serve_start target loopback addrs can noaddr own) w -> Close_returned w = true ->
  sockets w = ∅ /\
  forall l w', step target l w = Some w' -> sockets w' = ∅ /\ Close_returned w' = true.
Proof.
  intros Hr [Hc Hn%Nat.eqb_eq]%andb_true_iff. pose proof (Inv_reach _ _ _ (Inv_start _ _ _ _ _ _) Hr) as Hi.
  destruct (alive_zero _ _ Hi Hn) as [Hl Hh]. destruct (inv_closed _ _ Hi Hc) as (Hs & Hls & _).
  assert (sockets w = ∅) as He.
  { destruct (inv_owns _ _ Hi) as [_ ->]. rewrite Hs, Hls. by destruct Hl as [-> | ->], Hh as [-> | ->]. }
  split; [done|]. intros l w' H. unfold step, serve_step, lan_step, hot_step in H. rewrite Hs in H.
  unfold Close_returned. destruct l; try done; try (by destruct Hl as [Hl|Hl]; rewrite Hl in H); try (by destruct Hh as [Hh|Hh]; rewrite Hh in H).
  - injection H as <-. cbn. by rewrite Hc, Hn.
  - injection H as <-. cbn. rewrite He, Hn. split; [set_solver | done].
Qed.

(** ** Close does not wait for ever *)
Definition lan_exit (pc : LanPC) : list label :=
  match pc with
  | LanOff | LanDone => []
  | LanIdle _ => [LStop]
  | LanTodo todo _ => replicate (Datatypes.S (length todo)) (LBind false) ++ [LStop]
  | LanHas _ _ _ => [LAdd]
  end.
Definition hot_exit (pc : HotPC) : list label := match pc with HotIdle => [HStop] | HotHas => [HAdd] | _ => [] end.

Lemma run_app target l1 l2 w : run target (l1 ++ l2)%list w = w' ← run target l1 w; run target l2 w'.
Proof. revert w. induction l1 as [|l l1 IH]; intros w; cbn; [done|]. destruct (step target l w); cbn; [apply IH | done]. Qed.

Lemma step_LBind target w todo b : lan w = LanTodo todo b ->
  step target (LBind false) w = Some (set_lan (match todo with [] => LanIdle b | _ :: todo' => LanTodo todo' b end) w).
Proof.
  intros El. cbn. unfold lan_step. rewrite El. destruct todo; [done|]. unfold net_Listen. cbn. by case_bool_decide.
Qed.
Lemma step_LStop target w b : lan w = LanIdle b -> stopped w = true -> step target LStop w = Some (set_lan LanDone (watcher_Done w)).
Proof. intros El Hs. cbn. unfold lan_step. by rewrite El, Hs. Qed.

Lemma lan_exit_run target w : closed (mc w) = true -> stopped w = true \/ lan_alive (lan w) = 0%nat -> exists w',
  run target (lan_exit (lan w)) w = Some w' /\ lan_alive (lan w') = 0%nat /\ hot w' = hot w /\ stopped w' = stopped w /\
  closed (mc w') = true /\ watchers (mc w') = (watchers (mc w) - lan_alive (lan w))%nat.
Proof.
  intros Hc Hs. destruct (lan w) as [|b|todo b|a todo b|] eqn:El; cbn [lan_exit lan_alive] in *.
  - exists w. rewrite El. split_and!; auto; lia.
  - destruct Hs as [Hs|]; [|lia]. eexists. cbn [run]. rewrite (step_LStop _ _ _ El Hs). split; [done|]. cbn. split_and!; auto; lia.
  - destruct Hs as [Hs|]; [|lia]. revert w El Hc Hs. induction todo as [|a todo IH]; intros w El Hc Hs.
    + eexists. cbn [length replicate app run]. rewrite (step_LBind _ _ _ _ El). cbn [mbind option_bind].
      rewrite (step_LStop _ (set_lan (LanIdle b) w) b eq_refl Hs). split; [done|]. cbn. split_and!; auto; lia.
    + destruct (IH (set_lan (LanTodo todo b) w)) as (w' & H & H'); [done..|]. exists w'. split; [|exact H'].
      cbn [length replicate app run]. rewrite (step_LBind _ _ _ _ El). exact H.
  - cbn. unfold lan_step. rewrite El. unfold add. rewrite Hc. eexists. split; [done|]. cbn. split_and!; auto; lia.
  - exists w. rewrite El. split_and!; auto; lia.
Qed.

Lemma hot_exit_run target w : closed (mc w) = true -> stopped w = true \/ hot_alive (hot w) = 0%nat -> exists w',
  run target (hot_exit (hot w)) w = Some w' /\ closed (mc w') = true /\
  watchers (mc w') = (watchers (mc w) - hot_alive (hot w))%nat.
Proof.
  intros Hc Hs. destruct (hot w) eqn:Eh; cbn in Hs |- *.
  - exists w. split_and!; auto; lia.
  - destruct Hs as [Hs|]; [|lia]. unfold hot_step. rewrite Eh, Hs. eexists. split; [done|]. cbn. split_and!; auto; lia.
  - unfold hot_step. rewrite Eh. unfold add. rewrite Hc. eexists. split; [done|]. cbn. split_and!; auto; lia.
  - exists w. split_and!; auto; lia.
Qed.

(** [Close] never deadlocks with a watcher: from every state in which the server is
    closed, the watchers can finish by their own steps alone, within the binds left in the
    current round plus three steps, and [Close] returns. *)
Theorem close_ends target loopback addrs can noaddr own w :
  reach target (Serve_start target loopback addrs can noaddr own) w -> closed (mc w) = true ->
  exists w', run target (lan_exit (lan w) ++ hot_exit (hot w))%list w = Some w' /\ Close_returned w' = true.
Proof.
  intros Hr Hc. pose proof (Inv_reach _ _ _ (Inv_start _ _ _ _ _ _) Hr) as Hi.
  destruct (inv_closed _ _ Hi Hc) as (_ & _ & Hsw). pose proof (inv_count _ _ Hi) as Hn.
  assert (stopped w = true \/ watchers (mc w) = 0%nat) as Hst.
  { destruct (watchers (mc w)) eqn:E; [auto|]. destruct (inv_stop _ _ Hi) as [H|H]; [lia | congruence | auto]. }
  destruct (lan_exit_run target w Hc) as (w1 & E1 & Hl1 & Hh1 & Hs1 & Hc1 & Hn1); [destruct Hst; [auto | right; lia]|].
  destruct (hot_exit_run target w1 Hc1) as (w2 & E2 & Hc2 & Hn2); [rewrite Hs1, Hh1; destruct Hst; [auto | right; lia]|].
  exists w2. rewrite run_app, E1. cbn. rewrite <- Hh1. split; [done|]. unfold Close_returned. rewrite Hc2, Hn2, Hn1, Hh1.
  apply Nat.eqb_eq. lia.
Qed.

(** ** The set-up window *)

(** The LAN watcher is not in the middle of a round. *)
Definition between_rounds (pc : LanPC) : bool := match pc with LanTodo _ _ | LanHas _ _ _ => false | _ => true end.
(** The device keeps its owner. *)
Definition keeps_owner (l : label) : bool := match l with SetOwner b => b | _ => true end.

Lemma net_Listen_within a ok w w' : net_Listen a ok w = Some w' -> sockets w' ⊆ {[a]} ∪ sockets w.
Proof. intros [_ ->]%net_Listen_Some. done. Qed.

Lemma owned_step target l w w' : keeps_owner l = true -> owner w = true -> between_rounds (lan w) = true ->
  step target l w = Some w' ->
  owner w' = true /\ between_rounds (lan w') = true /\ sockets w' ⊆ {[target]} ∪ sockets w.
Proof.
  intros Hl Ho Hb Hs. open_world w. subst ow. destruct l; cbn in Hs, Hl; try done.
  all: try (injection Hs as <-; cbn; split_and!; [done|done|set_solver]).
  all: unfold serve_step, lan_step, hot_step in Hs; cbn in Hs.
  all: try (destruct se as [[|k]| | | |]; try done; injection Hs as <-; try (destruct (net_Listen _ _ _) as [w1|] eqn:E; [bound E|]);
            cbn; split_and!; try done; set_solver).
  all: try (destruct la; try done; try (destruct st; [|done]); injection Hs as <-; cbn; split_and!; try done; set_solver).
  all: try (destruct ho; try done; try (destruct st; [|done]); injection Hs as <-; try (destruct (net_Listen _ _ _) as [w1|] eqn:E; [bound E|]);
            unfold add; cbn; try destruct c; cbn; split_and!; try done; set_solver).
  destruct se as [[|k]| | | |]; try done. injection Hs as <-. unfold startHotspotWatch, trackWatcher, with_stop. cbn. destruct c; cbn; split_and!; try done; set_solver.
Qed.

Lemma owned_start target loopback addrs can noaddr :
  let w := Serve_start target loopback addrs can noaddr true in
  owner w = true /\ between_rounds (lan w) = true /\ sockets w ⊆ {[target; loopback]}.
Proof.
  cbn. unfold Serve_start, startAuxListeners, startLANSetupListeners, startLANSetupWatch, net_Listen, add. cbn.
  repeat (destruct (_ && _); cbn); split_and!; try done; set_solver.
Qed.

(** Once the device has an owner, the LAN watcher opens no further LAN address: from any
    state between two of its rounds, and for as long as the owner is kept, the only address
    that any sequence of steps can open is the hotspot's; and a server started on an owned
    device never opens more than the hotspot and loopback addresses. *)
Theorem setup_window_closes target loopback addrs can noaddr ls w' :
  forallb keeps_owner ls = true ->
  (forall w, owner w = true -> between_rounds (lan w) = true -> run target ls w = Some w' ->
     sockets w' ⊆ {[target]} ∪ sockets w) /\
  (run target ls (Serve_start target loopback addrs can noaddr true) = Some w' -> sockets w' ⊆ {[target; loopback]}).
Proof.
  intros Hls.
  assert (forall w, owner w = true -> between_rounds (lan w) = true -> run target ls w = Some w' ->
    sockets w' ⊆ {[target]} ∪ sockets w) as Hrun.
  { induction ls as [|l ls IH]; intros w Ho Hb Hr; cbn in Hr; [injection Hr as <-; set_solver|].
    apply andb_true_iff in Hls as [Hl Hls]. destruct (step target l w) as [w1|] eqn:E; [|done].
    destruct (owned_step _ _ _ _ Hl Ho Hb E) as (Ho1 & Hb1 & Hs1). specialize (IH Hls w1 Ho1 Hb1 Hr). set_solver. }
  split; [exact Hrun|]. intros Hr. destruct (owned_start target loopback addrs can noaddr) as (Ho & Hb & Hs).
  specialize (Hrun _ Ho Hb Hr). set_solver.
Qed.

(** Every LAN address listed is a private IPv4 address of a real interface that is up, other
    than the hotspot's. *)
Lemma lan_addrs_sound ifaces port apIP a : a ∈ realLANListenAddrs (Some ifaces) port apIP ->
  exists i ip ip4, i ∈ ifaces /\ if_Up i = true /\ skipLANInterface (if_Name i) = false /\
    (exists l, if_Addrs i = Some l /\ IPNet ip ∈ l) /\ To4 ip = Some ip4 /\ IsPrivate ip4 = true /\ IsLoopback ip4 = false /\
    ip_String ip4 <> apIP /\ a = JoinHostPort (ip_String ip4) port.
Proof.
  cbn. intros Ha. apply list_elem_of_In, in_concat in Ha as (l & Hl & Ha). apply in_map_iff in Hl as (i & <- & Hi).
  unfold iface_addrs in Ha. destruct (if_Up i) eqn:Eu, (skipLANInterface (if_Name i)) eqn:Ek; try done.
  cbn in Ha. destruct (if_Addrs i) as [l|] eqn:El; [|done].
  apply list_elem_of_In, list_elem_of_omap in Ha as (x & Hx & Ha). destruct x as [ip|]; [|done]. cbn in Ha.
  destruct (To4 ip) as [ip4|] eqn:E4; [|done]. cbn in Ha.
  destruct (IsLoopback ip4) eqn:E1, (IsPrivate ip4) eqn:E2, (String.eqb_spec (ip_String ip4) apIP); try done.
  injection Ha as <-. exists i, ip, ip4. split_and!; try done; [by apply list_elem_of_In | by exists l].
Qed.

(** ** The race *)
Definition hotspot_addr := "10.42.0.1:3500".
Definition loopback_addr := "127.0.0.1:3500".
Definition cable_addr := "192.168.1.7:3500".

(** The server of an unowned device whose hotspot is down and whose cable is not plugged in. *)
Definition cold_start : World := Serve_start hotspot_addr loopback_addr [] (fun a => (a =? loopback_addr)%string) true false.

(** A listener can outlive [Close]. [Serve] appends the hotspot's listener to the list
    without the lock its watchers use: if the LAN watcher adds a listener between [Serve]'s
    read of the list and its assignment, that listener is in no list, [Close] returns without
    closing it, and nothing that can happen afterwards closes it. *)
Theorem listener_leak : exists ls w,
  run hotspot_addr ls cold_start = Some w /\ Close_returned w = true /\ cable_addr ∈ sockets w /\
  forall l w', step hotspot_addr l w = Some w' -> cable_addr ∈ sockets w' /\ Close_returned w' = true.
Proof.
  exists [SAttempt true; LTick [cable_addr]; LBind true; SRead; LAdd; SWrite; CClose; LBind true; LStop].
  destruct (run hotspot_addr _ cold_start) as [w|] eqn:E; [|vm_compute in E; discriminate E].
  assert (closed (mc w) = true /\ watchers (mc w) = 0%nat /\ listeners (mc w) = [] /\ cable_addr ∈ sockets w /\
          serve w = Returned /\ lan w = LanDone /\ hot w = HotOff) as (Hc & Hn & Hl & Hin & H1 & H2 & H3).
  { vm_compute in E. injection E as <-. split_and!; reflexivity. }
  clear E. exists w. split; [done|]. unfold Close_returned. rewrite Hc, Hn. split_and!; try done. intros l w' H.
  unfold step, serve_step, lan_step, hot_step in H. rewrite H1, H2, H3 in H.
  destruct l; try done; injection H as <-; cbn; rewrite ?Hc, ?Hn; [done|]. split; [rewrite Hl; set_solver | done].
Qed.

(** ** Witnesses *)
Definition busy_day : list label :=
  [SGiveUp; SHot; LTick [cable_addr]; LBind true; LAdd; LBind true; HTick true; HAdd; SetOwner true; LTick [cable_addr]].

Lemma close_releases_witness : exists w,
  reach hotspot_addr cold_start w /\ Close_returned w = true /\ sockets w = ∅ /\
  forall l w', step hotspot_addr l w = Some w' -> sockets w' = ∅ /\ Close_returned w' = true.
Proof.
  destruct (run_free hotspot_addr (busy_day ++ [CClose])%list cold_start) as [w|] eqn:E; [|vm_compute in E; discriminate E].
  exists w. assert (reach hotspot_addr cold_start w) as Hr by (eapply run_free_reach; [apply reach_refl | exact E]).
  assert (Close_returned w = true) as Hc by (vm_compute in E; injection E as <-; reflexivity).
  split; [exact Hr|]. split; [exact Hc|]. exact (close_releases _ _ _ _ _ _ w Hr Hc).
Defined.

Lemma close_ends_witness : exists w w',
  run_free hotspot_addr [SGiveUp; SHot; LTick [cable_addr; "192.168.1.8:3500"]; CClose] cold_start = Some w /\
  run hotspot_addr (lan_exit (lan w) ++ hot_exit (hot w))%list w = Some w' /\ Close_returned w' = true.
Proof.
  destruct (run_free hotspot_addr [SGiveUp; SHot; LTick [cable_addr; "192.168.1.8:3500"]; CClose] cold_start) as [w|] eqn:E;
    [|vm_compute in E; discriminate E].
  exists w. assert (reach hotspot_addr cold_start w) as Hr by (eapply run_free_reach; [apply reach_refl | exact E]).
  assert (closed (mc w) = true) as Hc by (vm_compute in E; injection E as <-; reflexivity).
  destruct (close_ends _ _ _ _ _ _ w Hr Hc) as [w' H]. exists w'. split; [reflexivity | exact H].
Defined.

Lemma setup_window_closes_witness : exists w',
  run hotspot_addr [SAttempt true; SRead; SWrite]
    (Serve_start hotspot_addr loopback_addr [cable_addr] (fun a => (a =? loopback_addr)%string) true true) = Some w' /\
  sockets w' ⊆ {[hotspot_addr; loopback_addr]}.
Proof.
  destruct (run hotspot_addr [SAttempt true; SRead; SWrite]
    (Serve_start hotspot_addr loopback_addr [cable_addr] (fun a => (a =? loopback_addr)%string) true true)) as [w'|] eqn:E;
    [|vm_compute in E; discriminate E].
  exists w'. split; [reflexivity|].
  exact (proj2 (setup_window_closes hotspot_addr loopback_addr [cable_addr] _ true [SAttempt true; SRead; SWrite] w' eq_refl) E).
Defined.
