(* ===== verification/Exchange.v ===== *)
(** * exchange/fx_exchange.go, blox/store.go: moving blocks between devices

    The exchange serves three actions to peers that libp2p has authenticated: pull (send a
    block or a DAG), push (store a block) and auth (grant or withdraw a peer). Pushes are
    taken from peers the owner has authorized, and, once per block, from a peer the device
    has itself asked for that block. IPLD, CIDs and libp2p are parameters ([Ipld],
    [PeerCrypto]); the block store is the datastore of blox/store.go. *)

From S2P Require Import Prelude GoStd Json GoPath SignedAuth Effects Access.

#[local] Open Scope string_scope.
#[local] Open Scope Z_scope.

Definition actionPull := "pull".
Definition actionPush := "push".
Definition errUnauthorized := "not authorized".
Definition five_minutes := 300 * 1000000000.

Record Cid := mkCid { cid_Binary : string; cid_String : string; cid_Codec : Z }.

(** go-cid and go-ipld-prime. [ls_Encode c n]: the link and the bytes of node [n] under the
    codec and hash of [c]. [ls_Walk]: the nodes the selector visits from a root, each with its
    link and bytes or an error, and the error that ended the walk, if any. *)
Class Ipld := {
  INode : Type;
  cid_Decode : string -> option Cid;
  cid_MarshalJSON : Cid -> json;
  cid_UnmarshalJSON : json -> option Cid;
  ipld_Decode : Z -> string -> option INode;
  ls_Encode : Cid -> INode -> string + Cid * string;
  ls_Hash : Cid -> string -> bool;            (** do the bytes hash to the link? *)
  ls_Walk : gmap string string -> Cid -> list (string + Cid * string) * option string
}.

(** Circuit breaker (gobreaker): whether it lets the n-th effect through. *)
Inductive Breaker := BReady | BOpen | BTooMany.
Class PushNet := {
  breaker : nat -> Breaker;
  (** what an earlier attempt left unread of the request body *)
  body_rest : nat -> string;
  (** math/rand's jitter, below the delay *)
  jitter : nat -> Z -> Z;
  (** the datastore's Put and Get *)
  ds_err : nat -> option string
}.

(** options.updateConfig: writes the list into config.yaml. *)
Record Ex := mkEx {
  x_fx : nat;
  x_authorizer : string;
  x_self : string;                             (** h.ID() *)
  x_authorizedPeers : gset string;
  x_optPeers : list string;                    (** options.authorizedPeers *)
  x_tempAuths : gmap string (string * Z);      (** CID text to peer and time *)
  x_ds : gmap string string;                   (** the datastore *)
  x_config : list string;                      (** authorizedPeers in config.yaml *)
  x_sent : list (string * string)              (** requests sent: URL and body *)
}.

Definition bump (e : Ex) : Ex :=
  mkEx (Datatypes.S (x_fx e)) (x_authorizer e) (x_self e) (x_authorizedPeers e) (x_optPeers e) (x_tempAuths e) (x_ds e) (x_config e) (x_sent e).
Definition set_peers (s : gset string) (e : Ex) : Ex :=
  mkEx (x_fx e) (x_authorizer e) (x_self e) s (x_optPeers e) (x_tempAuths e) (x_ds e) (x_config e) (x_sent e).
Definition set_opt (l : list string) (e : Ex) : Ex :=
  mkEx (x_fx e) (x_authorizer e) (x_self e) (x_authorizedPeers e) l (x_tempAuths e) (x_ds e) (x_config e) (x_sent e).
Definition set_temp (t : gmap string (string * Z)) (e : Ex) : Ex :=
  mkEx (x_fx e) (x_authorizer e) (x_self e) (x_authorizedPeers e) (x_optPeers e) t (x_ds e) (x_config e) (x_sent e).
Definition set_ds (d : gmap string string) (e : Ex) : Ex :=
  mkEx (x_fx e) (x_authorizer e) (x_self e) (x_authorizedPeers e) (x_optPeers e) (x_tempAuths e) d (x_config e) (x_sent e).
Definition set_config (l : list string) (e : Ex) : Ex :=
  mkEx (x_fx e) (x_authorizer e) (x_self e) (x_authorizedPeers e) (x_optPeers e) (x_tempAuths e) (x_ds e) l (x_sent e).
Definition add_sent (u b : string) (e : Ex) : Ex :=
  mkEx (x_fx e) (x_authorizer e) (x_self e) (x_authorizedPeers e) (x_optPeers e) (x_tempAuths e) (x_ds e) (x_config e) (x_sent e ++ [(u, b)])%list.

(** ** blox/store.go *)

(** datastore.NewKey cleans its text as a path. *)
Definition toDatastoreKey (c : Cid) : string := filepath_Clean ("/" +:+ cid_Binary c).

(** Errors of a load: datastore.ErrNotFound, format.ErrNotFound, another one. *)
Inductive LoadErr := DsNotFound | FormatNotFound (c : Cid) | OtherErr (e : string).

(** The read openers: blox/store.go translates the datastore's error, mobile/config.go passes it on. *)
Definition blox_notFound (c : Cid) : LoadErr := FormatNotFound c.
Definition mobile_notFound (_ : Cid) : LoadErr := DsNotFound.

Section exchange.
Context `{PC : PeerCrypto} `{E : Env} `{IP : Ipld} `{PN : PushNet}.
(** The error of the link system's read opener for a missing block. *)
Context (notFound : Cid -> LoadErr).
(** updateConfig, if set: whether the n-th effect's write works. *)
Context (updateConfig : option (nat -> option string)).

Definition tick {A : Type} (f : nat -> A) : M Ex A := fun e => (Ok (f (x_fx e)), bump e).

Definition blockWrite (c : Cid) (data : string) : M Ex (option string) :=
  r <- tick ds_err;;
  match r with
  | Some err => ret (Some err)
  | None => modify (fun e => set_ds (<[toDatastoreKey c := data]> (x_ds e)) e);;; ret None
  end.

Definition blockReadOpener (c : Cid) : M Ex (LoadErr + string) :=
  r <- tick ds_err;;
  d <- gets x_ds;;
  ret (match r with
       | Some err => inl (OtherErr err)
       | None => match d !! toDatastoreKey c with Some data => inr data | None => inl (notFound c) end
       end).

(** LinkSystem.LoadRaw, which checks what it read against the link. *)
Definition ls_LoadRaw (c : Cid) : M Ex (LoadErr + string) :=
  r <- blockReadOpener c;;
  ret (match r with
       | inr data => if ls_Hash c data then inr data else inl (OtherErr "hash mismatch")
       | inl err => inl err
       end).

(** LinkSystem.Store with blox's write opener. *)
Definition ls_Store (proto : Cid) (n : INode) : M Ex (string + Cid) :=
  match ls_Encode proto n with
  | inl err => ret (inl err)
  | inr (c, data) => r <- blockWrite c data;; ret (match r with Some err => inl err | None => inr c end)
  end.

(** ** Authorized peers *)

(** Go's map order is not specified; [elements] stands for it. *)
Definition GetAuthorizedPeers : M Ex (list string) :=
  s <- gets x_authorizedPeers;;
  modify (set_opt (elements s));;;
  ret (elements s).

Definition updateAuthorizePeers : M Ex (option string) :=
  peerList <- GetAuthorizedPeers;;
  modify (set_opt peerList);;;
  match updateConfig with
  | None => ret None
  | Some write =>
      r <- tick write;;
      match r with
      | Some err => ret (Some err)
      | None => modify (set_config peerList);;; ret None
      end
  end.

Definition set_allowed (subject : string) (allow : bool) (s : gset string) : gset string :=
  if allow then {[subject]} ∪ s else s ∖ {[subject]}.
Definition setPeer (subject : string) (allow : bool) : M Ex () :=
  modify (fun e => set_peers (set_allowed subject allow (x_authorizedPeers e)) e).

(** ** The client's requests *)
Definition post (url body : string) (payload : json) : M Ex HttpReply :=
  modify (add_sent url body);;; tick (fun n => env_http n url payload).

Definition authorizationRequest_json (subject : string) (allow : bool) : json :=
  JObj [("id", JStr (peer_String subject)); ("allow", JBool allow)].

(** [None]: success. *)
Definition expect_status (code : Z) (r : HttpReply) : option string :=
  match r with
  | ReplyErr err => Some err
  | Reply _ None => Some "unexpected EOF"
  | Reply st (Some b) => if st =? code then None else Some ("unexpected response: " +:+ Itoa st +:+ " " +:+ b)
  end.

Definition SetAuth (on subject : string) (allow : bool) : M Ex (option string) :=
  self <- gets x_self;;
  if (on =? self)%string then setPeer subject allow;;; updateAuthorizePeers
  else
    r <- post ("libp2p://" +:+ peer_String on +:+ "/" +:+ actionAuth) "" (authorizationRequest_json subject allow);;
    ret (expect_status StatusOK r).

(** NewFxExchange: [authorizedPeers] starts empty, whatever the options list. *)
Definition NewFxExchange (self authorizer : string) (optPeers : list string) (ds : gmap string string) (config : list string) :
  outcome () * Ex :=
  let e := mkEx 0 authorizer self ∅ optPeers ∅ ds config [] in
  if negb (authorizer =? "")%string then
    (r <- SetAuth self authorizer true;; match r with Some err => raise err | None => ret () end) e
  else (Ok (), e).

Definition add_temp (c : Cid) (from : string) : M Ex () :=
  now <- tick env_now;;
  modify (fun e => set_temp (<[cid_String c := (from, now)]> (x_tempAuths e)) e).

Definition Pull (from : string) (c : Cid) : M Ex (option string) :=
  add_temp c from;;;
  r <- post ("libp2p://" +:+ peer_String from +:+ "/" +:+ actionPull) "" (JObj [("link", cid_MarshalJSON c)]);;
  ret (expect_status StatusAccepted r).

Definition decodeAndStoreBlock (body : option string) (link : Cid) : M Ex (option string) :=
  match body with
  | None => ret (Some "unexpected EOF")
  | Some b =>
      match ipld_Decode (cid_Codec link) b with
      | None => ret (Some "failed to decode")
      | Some n => r <- ls_Store link n;; ret (match r with inl err => Some err | inr _ => None end)
      end
  end.

Definition PullBlock (from : string) (c : Cid) : M Ex (option string) :=
  add_temp c from;;;
  r <- post ("libp2p://" +:+ peer_String from +:+ "/" +:+ actionPull +:+ "/" +:+ cid_String c) "" JNull;;
  match r with
  | ReplyErr err => ret (Some err)
  | Reply st b =>
      if negb (st =? StatusOK) then
        ret (Some ("unexpected response: " +:+ Itoa st +:+ match b with Some b => " " +:+ b | None => "" end))
      else decodeAndStoreBlock b c
  end.

(** ** Push *)
Definition pushRetries : nat := 5.
Definition push_delay (attempt : Z) : Z := 1000000000 * 2 ^ attempt.

(** One attempt inside the circuit breaker: [inl true] when the circuit is open. *)
Definition push_attempt (url body : string) : M Ex (option (bool * string)) :=
  b <- tick breaker;;
  match b with
  | BOpen => ret (Some (true, "circuit breaker is open"))
  | BTooMany => ret (Some (false, "too many requests"))
  | BReady => r <- post url body (JStr body);; ret (option_map (fun err => (false, err)) (expect_status StatusOK r))
  end.

Fixpoint retryWithBackoff (fuel : nat) (attempt : Z) (fn : M Ex (option (bool * string))) : M Ex (option string) :=
  match fuel with
  | O => ret (Some "failed after 5 retries")
  | Datatypes.S fuel' =>
      r <- fn;;
      match r with
      | None => ret None
      | Some _ =>
          j <- tick (fun n => jitter n (push_delay attempt));;
          fired <- tick (fun n => env_timer n (push_delay attempt + j));;
          if (fired : bool) then retryWithBackoff fuel' (attempt + 1) fn else ret (Some "context canceled")
      end
  end.

Definition pushOneNode (to : string) (c : Cid) (data : string) : M Ex (option string) :=
  let url := "libp2p://" +:+ peer_String to +:+ "/" +:+ actionPush +:+ "/" +:+ cid_String c in
  r <- push_attempt url data;;
  match r with
  | None => ret None
  | Some (true, err) => ret (Some ("circuit breaker open: " +:+ err))
  | Some (false, _) =>
      retryWithBackoff pushRetries 0 (rest <- tick body_rest;; push_attempt url rest)
  end.

(** The goroutines of the error group, one after the other; the first error is the result. *)
Fixpoint push_all (to : string) (nodes : list (string + Cid * string)) : M Ex (option string) :=
  match nodes with
  | [] => ret None
  | n :: nodes' =>
      r <- (match n with inl err => ret (Some err) | inr (c, data) => pushOneNode to c data end);;
      r' <- push_all to nodes';;
      ret (match r with Some err => Some err | None => r' end)
  end.

Definition Push (to : string) (c : Cid) : M Ex (option string) :=
  ds <- gets x_ds;;
  let '(nodes, err) := ls_Walk ds c in
  r <- push_all to nodes;;
  ret (match err with Some err => Some err | None => r end).

(** ** The server *)
(** Open mode: no owner, or the device owns itself. *)
Definition open_mode (e : Ex) : bool := (x_authorizer e =? x_self e)%string || (x_authorizer e =? "")%string.
Definition authorized (pid action cid : string) : M Ex bool :=
  e <- gets (fun e => e);;
  if open_mode e && negb (action =? actionAuth)%string then ret true
  else if (x_authorizer e =? "")%string && (action =? actionAuth)%string then ret false
  else if (action =? actionPush)%string then
    match x_tempAuths e !! cid with
    | Some (p, _) =>
        if (p =? pid)%string then modify (set_temp (delete cid (x_tempAuths e)));;; ret true
        else ret (bool_decide (pid ∈ x_authorizedPeers e))
    | None => ret (bool_decide (pid ∈ x_authorizedPeers e))
    end
  else if (action =? actionAuth)%string then ret (pid =? x_authorizer e)%string
  else ret (action =? actionPull)%string.

Record XReq := mkXReq { xq_RemoteAddr : string; xq_Path : string; xq_Method : string; xq_Body : option string }.

Definition handlePush (r : XReq) (c : string) : M Ex Resp :=
  if negb (xq_Method r =? "POST")%string then ret (http_Error "" StatusMethodNotAllowed) else
  match cid_Decode c with
  | None => ret (http_Error "invalid cid" StatusBadRequest)
  | Some cidInPath =>
      v <- decodeAndStoreBlock (xq_Body r) cidInPath;;
      match v with
      | Some _ => ret (http_Error "invalid cid" StatusBadRequest)
      | None => WriteHeader StatusOK;;; ret (mkResp StatusOK BEmpty)
      end
  end.

Definition decode_pullRequest (b : string) : option Cid :=
  j ← json_parse b; l ← as_object j;
  let '(c, ok) := decode_field (fun _ j => cid_UnmarshalJSON j) (mkCid "" "" 0) (obj_field "link" l) in
  if (ok : bool) then Some c else None.

Definition handlePull (from : string) (r : XReq) (c : string) : M Ex Resp :=
  if (xq_Method r =? "GET")%string then
    match cid_Decode c with
    | None => ret (http_Error "" StatusBadRequest)
    | Some cc =>
        raw <- ls_LoadRaw cc;;
        ret (match raw with
             | inl DsNotFound => http_Error "" StatusNotFound
             | inl _ => http_Error "" StatusInternalServerError
             | inr raw => mkResp StatusOK (BText raw)
             end)
    end
  else if negb (xq_Method r =? "POST")%string then ret (http_Error "" StatusMethodNotAllowed)
  else
    match b ← xq_Body r; decode_pullRequest b with
    | None => ret (http_Error "" StatusBadRequest)
    | Some link => WriteHeader StatusAccepted;;; Push from link;;; ret (mkResp StatusAccepted BEmpty)
    end.

Definition handleAuthorization (r : XReq) : M Ex Resp :=
  match xq_Body r with
  | None => ret (http_Error "" StatusInternalServerError)
  | Some b =>
      match decode_authorizationRequest b with
      | None => ret (http_Error "" StatusBadRequest)
      | Some (subject, allow) =>
          setPeer subject allow;;;
          v <- updateAuthorizePeers;;
          match v with
          | Some _ => ret (http_Error "" StatusInternalServerError)
          | None => WriteHeader StatusOK;;; ret (mkResp StatusOK BEmpty)
          end
      end
  end.

Definition serve (r : XReq) : M Ex Resp :=
  match peer_Decode (xq_RemoteAddr r) with
  | Err _ => ret (http_Error "" StatusBadRequest)
  | Panic => panic
  | Ok from =>
      let segments := split_char "/" (TrimPrefix (xq_Path r) "/") in
      let action := nth 0 segments "" in
      let c := nth 1 segments "" in
      ok <- authorized from action c;;
      if negb ok then ret (http_Error errUnauthorized StatusUnauthorized)
      else if (action =? actionPull)%string then handlePull from r c
      else if (action =? actionPush)%string then handlePush r c
      else if (action =? actionAuth)%string then handleAuthorization r
      else ret (http_Error "" StatusNotFound)
  end.

(** ** Expiry of temporary authorizations *)
Definition cleanupTempAuths : M Ex () :=
  now <- tick env_now;;
  modify (fun e => set_temp (filter (fun ce => now - ce.2.2 < five_minutes) (x_tempAuths e)) e).

(** The loop, one entry per turn: did the context end before the next tick? *)
Fixpoint startTempAuthCleanup (ctx_done : list bool) : M Ex () :=
  match ctx_done with
  | [] => ret ()
  | true :: _ => ret ()
  | false :: rest => cleanupTempAuths;;; startTempAuthCleanup rest
  end.

(** What [Start] leaves running: its context is cancelled when it returns, which is before
    the first tick, five minutes later. *)
Definition Start_cleanup (turns : nat) : M Ex () := startTempAuthCleanup (replicate turns true).

(** ** What may happen to a running exchange *)
Inductive op :=
| OServe (r : XReq) | OPull (from : string) (c : Cid) | OPullBlock (from : string) (c : Cid) | OPush (to : string) (c : Cid)
| OSetAuth (on subject : string) (allow : bool) | OCleanup.
Definition do_op (o : op) : M Ex () :=
  match o with
  | OServe r => serve r;;; ret ()
  | OPull from c => Pull from c;;; ret ()
  | OPullBlock from c => PullBlock from c;;; ret ()
  | OPush to c => Push to c;;; ret ()
  | OSetAuth on subject allow => SetAuth on subject allow;;; ret ()
  | OCleanup => cleanupTempAuths
  end.
Definition after (o : op) (e : Ex) : Ex := (do_op o e).2.
Definition after_all (os : list op) (e : Ex) : Ex := fold_left (fun e o => after o e) os e.

(** ** Which operations touch which part of the state *)
Section frame.
Context (P : Ex -> Ex -> Prop) `{!PreOrder P}.
Context (P_bump : forall e, P e (bump e)) (P_sent : forall u b e, P e (add_sent u b e)).

Lemma k_tick {A} (f : nat -> A) : keeps P (tick f).
Proof. intros e. apply P_bump. Qed.
Lemma k_modify f : (forall e, P e (f e)) -> keeps P (modify f).
Proof. intros H e. apply H. Qed.
Lemma k_WriteHeader c : keeps P (WriteHeader c).
Proof. unfold WriteHeader. destruct (_ && _); auto with keeps. Qed.
#[local] Hint Resolve k_tick k_WriteHeader : keeps.
Lemma k_post u b j : keeps P (post u b j).
Proof. unfold post. apply keeps_bind; [exact _ | by apply k_modify |]. intros _. apply k_tick. Qed.
#[local] Hint Resolve k_post : keeps.
Lemma k_attempt u b : keeps P (push_attempt u b).
Proof. unfold push_attempt. keeps_go. Qed.
#[local] Hint Resolve k_attempt : keeps.
Lemma k_retry n a fn : keeps P fn -> keeps P (retryWithBackoff n a fn).
Proof. intros Hfn. revert a. induction n as [|n IH]; intros a; cbn [retryWithBackoff]; keeps_go. Qed.
Lemma k_pushOneNode to c d : keeps P (pushOneNode to c d).
Proof. unfold pushOneNode. keeps_go. apply k_retry. keeps_go. Qed.
#[local] Hint Resolve k_pushOneNode : keeps.
Lemma k_push_all to l : keeps P (push_all to l).
Proof. induction l as [|n l IH]; cbn [push_all]; keeps_go. Qed.
#[local] Hint Resolve k_push_all : keeps.
Lemma k_Push to c : keeps P (Push to c).
Proof. unfold Push. keeps_go. Qed.
Lemma k_read c : keeps P (ls_LoadRaw c).
Proof. unfold ls_LoadRaw, blockReadOpener. keeps_go. Qed.
#[local] Hint Resolve k_Push k_read : keeps.
Lemma k_handlePull from r c : keeps P (handlePull from r c).
Proof. unfold handlePull. destruct (_ =? "GET")%string; [keeps_go|]. destruct (negb _); [auto with keeps|]. keeps_go. Qed.
End frame.

Definition same_temp (e e' : Ex) : Prop := x_tempAuths e' = x_tempAuths e.
Definition same_ds (e e' : Ex) : Prop := x_ds e' = x_ds e.
#[local] Instance same_temp_preorder : PreOrder same_temp.
Proof. split; [intros e; done | intros e1 e2 e3; unfold same_temp; congruence]. Qed.
#[local] Instance same_ds_preorder : PreOrder same_ds.
Proof. split; [intros e; done | intros e1 e2 e3; unfold same_ds; congruence]. Qed.

#[local] Hint Extern 1 (keeps _ (tick _)) => solve [apply k_tick; try exact _; done] : keeps.
#[local] Hint Extern 1 (keeps _ (modify _)) => solve [apply k_modify; try exact _; done] : keeps.
#[local] Hint Extern 1 (keeps _ (post _ _ _)) => solve [apply k_post; try exact _; done] : keeps.
#[local] Hint Extern 1 (keeps _ (WriteHeader _)) => solve [apply k_WriteHeader; try exact _; done] : keeps.
#[local] Hint Extern 1 (keeps _ (Push _ _)) => solve [apply k_Push; try exact _; done] : keeps.
#[local] Hint Extern 1 (keeps _ (handlePull _ _ _)) => solve [apply k_handlePull; try exact _; done] : keeps.

Lemma temp_store link b : keeps same_temp (decodeAndStoreBlock b link).
Proof. unfold decodeAndStoreBlock, ls_Store, blockWrite. keeps_go. Qed.
#[local] Hint Resolve temp_store : keeps.
Lemma temp_update : keeps same_temp updateAuthorizePeers.
Proof. unfold updateAuthorizePeers, GetAuthorizedPeers. keeps_go. Qed.
Lemma ds_update : keeps same_ds updateAuthorizePeers.
Proof. unfold updateAuthorizePeers, GetAuthorizedPeers. keeps_go. Qed.
Lemma temp_setPeer p a : keeps same_temp (setPeer p a).
Proof. unfold setPeer. keeps_go. Qed.
Lemma ds_setPeer p a : keeps same_ds (setPeer p a).
Proof. unfold setPeer. keeps_go. Qed.
#[local] Hint Resolve temp_update ds_update temp_setPeer ds_setPeer : keeps.
Lemma temp_SetAuth on p a : keeps same_temp (SetAuth on p a).
Proof. unfold SetAuth. keeps_go. Qed.
Lemma ds_SetAuth on p a : keeps same_ds (SetAuth on p a).
Proof. unfold SetAuth. keeps_go. Qed.
Lemma temp_handlePush r c : keeps same_temp (handlePush r c).
Proof. unfold handlePush. keeps_go. Qed.
Lemma temp_handleAuth r : keeps same_temp (handleAuthorization r).
Proof. unfold handleAuthorization. keeps_go. Qed.
Lemma ds_handleAuth r : keeps same_ds (handleAuthorization r).
Proof. unfold handleAuthorization. keeps_go. Qed.
Lemma ds_authorized p a c : keeps same_ds (authorized p a c).
Proof. unfold authorized. keeps_go. Qed.
#[local] Hint Resolve temp_SetAuth ds_SetAuth temp_handlePush temp_handleAuth ds_handleAuth ds_authorized : keeps.
Lemma ds_Pull p c : keeps same_ds (Pull p c).
Proof. unfold Pull, add_temp. keeps_go. Qed.
Lemma ds_cleanup : keeps same_ds cleanupTempAuths.
Proof. unfold cleanupTempAuths. keeps_go. Qed.

(** ** Temporary authorizations are used up *)

(** The peer, action and CID text of a request. *)
Definition from_of (r : XReq) : option string := match peer_Decode (xq_RemoteAddr r) with Ok p => Some p | _ => None end.
Definition action_of (r : XReq) : string := nth 0 (split_char "/" (TrimPrefix (xq_Path r) "/")) "".
Definition cid_of (r : XReq) : string := nth 1 (split_char "/" (TrimPrefix (xq_Path r) "/")) "".

(** The request is a push of [p] that only a temporary authorization can admit. *)
Definition lent_push (p : string) (e : Ex) (o : op) : bool :=
  match o with
  | OServe r => bool_decide (from_of r = Some p) && (action_of r =? actionPush)%string && negb (open_mode e) &&
                bool_decide (p ∉ x_authorizedPeers e)
  | _ => false
  end.
(** It is not answered 401. *)
Definition admitted (e : Ex) (o : op) : bool :=
  match o with
  | OServe r => match serve r e with (Ok resp, _) => negb (resp_code resp =? StatusUnauthorized) | _ => true end
  | _ => false
  end.
Definition asks (p : string) (o : op) : bool := match o with OPull q _ | OPullBlock q _ => (q =? p)%string | _ => false end.

Fixpoint lent_count (p : string) (os : list op) (e : Ex) : nat :=
  match os with
  | [] => 0
  | o :: os' => (if lent_push p e o && admitted e o then 1 else 0) + lent_count p os' (after o e)
  end.
Fixpoint ask_count (p : string) (os : list op) : nat :=
  match os with [] => 0 | o :: os' => (if asks p o then 1 else 0) + ask_count p os' end.

Definition lent (p : string) (t : gmap string (string * Z)) : gmap string (string * Z) := filter (fun ce => ce.2.1 = p) t.

Lemma lent_insert p t k v : (size (lent p (<[k := v]> t)) <= size (lent p t) + (if (v.1 =? p)%string then 1 else 0))%nat.
Proof.
  unfold lent. destruct (String.eqb_spec v.1 p) as [Hv|Hv].
  - rewrite map_filter_insert_True by done. rewrite map_size_insert. case_match; cbn; lia.
  - rewrite map_filter_insert_False by done. rewrite map_filter_delete, map_size_delete. case_match; cbn; lia.
Qed.
Lemma lent_delete p t k : (size (lent p (delete k t)) <= size (lent p t))%nat.
Proof. unfold lent. rewrite map_filter_delete, map_size_delete. case_match; cbn; lia. Qed.
Lemma lent_use p t k z : t !! k = Some (p, z) -> (Datatypes.S (size (lent p (delete k t))) <= size (lent p t))%nat.
Proof.
  intros Hk. unfold lent. rewrite map_filter_delete, map_size_delete.
  assert (filter (fun ce => ce.2.1 = p) t !! k = Some (p, z)) as H by (by apply map_lookup_filter_Some).
  rewrite H. cbn. assert (size (filter (fun ce => ce.2.1 = p) t) <> 0%nat); [|lia].
  apply map_size_non_empty_iff. intros He. by rewrite He in H.
Qed.
Lemma lent_filter p t (Q : string * (string * Z) -> Prop) `{!forall x, Decision (Q x)} : (size (lent p (filter Q t)) <= size (lent p t))%nat.
Proof. unfold lent. rewrite map_filter_comm. apply map_size_filter. Qed.

(** [authorized] changes nothing but the temporary authorization it uses. *)
Lemma authorized_run p a c e :
  (exists ok, authorized p a c e = (Ok ok, e) /\
     (a = actionPush -> open_mode e = false -> p ∉ x_authorizedPeers e -> ok = false)) \/
  (exists z, a = actionPush /\ open_mode e = false /\ x_tempAuths e !! c = Some (p, z) /\
     authorized p a c e = (Ok true, set_temp (delete c (x_tempAuths e)) e)).
Proof.
  unfold authorized, bind, gets. destruct (String.eqb_spec a actionPush) as [->|Hp].
  - change (actionPush =? actionAuth)%string with false. rewrite andb_true_r, andb_false_r.
    destruct (open_mode e); [left; eexists; split; [done|]; done|].
    destruct (x_tempAuths e !! c) as [[q z]|] eqn:Et.
    + destruct (String.eqb_spec q p) as [->|Hq]; [right; by exists z|].
      left. eexists. split; [done|]. intros _ _ Hn. by apply bool_decide_eq_false.
    + left. eexists. split; [done|]. intros _ _ Hn. by apply bool_decide_eq_false.
  - left. destruct (open_mode e && _); [by eexists|]. destruct ((_ =? "")%string && _); [by eexists|].
    destruct (a =? actionAuth)%string; by eexists.
Qed.

(** What [serve] does after the gate. *)
Definition handle (from : string) (r : XReq) : M Ex Resp :=
  if (action_of r =? actionPull)%string then handlePull from r (cid_of r)
  else if (action_of r =? actionPush)%string then handlePush r (cid_of r)
  else if (action_of r =? actionAuth)%string then handleAuthorization r
  else ret (http_Error "" StatusNotFound).

Lemma serve_run r e p : from_of r = Some p ->
  serve r e = (ok <- authorized p (action_of r) (cid_of r);;
               if negb ok then ret (http_Error errUnauthorized StatusUnauthorized) else handle p r) e.
Proof. unfold from_of, serve. destruct (peer_Decode _); [by intros [= ->] | done | done]. Qed.
Lemma serve_anon r e : from_of r = None -> (serve r e).2 = e.
Proof. unfold from_of, serve. by destruct (peer_Decode _). Qed.

Lemma temp_handle p r : keeps same_temp (handle p r).
Proof. unfold handle. keeps_go. Qed.

Lemma serve_temp p q r e : from_of r = Some q ->
  (size (lent p (x_tempAuths (serve r e).2)) +
     (if lent_push p e (OServe r) && admitted e (OServe r) then 1 else 0) <= size (lent p (x_tempAuths e)))%nat.
Proof.
  intros Hq. unfold admitted, lent_push. rewrite (serve_run _ _ _ Hq). unfold bind.
  destruct (authorized_run q (action_of r) (cid_of r) e) as [(ok & E1 & Hno)|(z & Ha & Ho & Et & E1)]; rewrite E1.
  - destruct (if negb ok then _ else _) as [res e'] eqn:E2. cbn [snd].
    assert (x_tempAuths e' = x_tempAuths e) as ->.
    { destruct ok; cbn [negb] in E2; [|by injection E2 as _ <-].
      pose proof (temp_handle q r e) as H. unfold same_temp in H. by rewrite E2 in H. }
    destruct (bool_decide (from_of r = Some p)) eqn:Ep; cbn [andb]; [|lia]. apply bool_decide_eq_true in Ep.
    rewrite Hq in Ep. injection Ep as ->. destruct (String.eqb_spec (action_of r) actionPush) as [Ha|]; cbn [andb]; [|lia].
    destruct (open_mode e) eqn:Eo; cbn [negb andb]; [lia|]. destruct (bool_decide (p ∉ _)) eqn:Ep2; cbn [andb]; [|lia].
    apply bool_decide_eq_true in Ep2. rewrite (Hno Ha eq_refl Ep2) in E2. injection E2 as <- <-. cbn. lia.
  - cbn [negb]. pose proof (temp_handle q r (set_temp (delete (cid_of r) (x_tempAuths e)) e)) as H. unfold same_temp in H.
    destruct (handle q r _) as [res e']. cbn [snd] in *. rewrite H. cbn [x_tempAuths set_temp].
    destruct (bool_decide (from_of r = Some p)) eqn:Ep; cbn [andb]; [|pose proof (lent_delete p (x_tempAuths e) (cid_of r)); lia].
    apply bool_decide_eq_true in Ep. rewrite Hq in Ep. injection Ep as ->.
    pose proof (lent_use _ _ _ _ Et). case_match; lia.
Qed.

Lemma Pull_temp from c e : exists z, x_tempAuths (Pull from c e).2 = <[cid_String c := (from, z)]> (x_tempAuths e).
Proof. eexists. reflexivity. Qed.
Lemma PullBlock_temp from c e : exists z, x_tempAuths (PullBlock from c e).2 = <[cid_String c := (from, z)]> (x_tempAuths e).
Proof.
  unfold PullBlock. set (e1 := (add_temp c from e).2). exists (env_now (x_fx e)).
  change (bind (add_temp c from) ?k e) with (k () e1).
  match goal with |- x_tempAuths (?m e1).2 = _ => assert (keeps same_temp m) as H by keeps_go end.
  exact (H e1).
Qed.

Lemma op_temp p o e :
  (size (lent p (x_tempAuths (after o e))) + (if lent_push p e o && admitted e o then 1 else 0) <=
   size (lent p (x_tempAuths e)) + (if asks p o then 1 else 0))%nat.
Proof.
  unfold after, do_op. destruct o as [r|from c|from c|to c|on sub al|]; cbn [asks].
  - assert (forall B (m : M Ex B), ((m;;; ret ()) e).2 = (m e).2) as Hm by (intros B m; unfold bind; by destruct (m e) as [[]]).
    rewrite Hm. destruct (from_of r) as [q|] eqn:Eq; [pose proof (serve_temp p q r e Eq); lia|].
    rewrite (serve_anon r e Eq). unfold lent_push. rewrite Eq, bool_decide_false by done. cbn. lia.
  - destruct (Pull_temp from c e) as [z H]. unfold bind at 1. destruct (Pull from c e) as [[] e']; cbn in *; rewrite H;
      pose proof (lent_insert p (x_tempAuths e) (cid_String c) (from, z)); cbn in *; lia.
  - destruct (PullBlock_temp from c e) as [z H]. unfold bind at 1. destruct (PullBlock from c e) as [[] e']; cbn in *; rewrite H;
      pose proof (lent_insert p (x_tempAuths e) (cid_String c) (from, z)); cbn in *; lia.
  - assert (keeps same_temp (Push to c;;; ret ())) as H by keeps_go. rewrite (H e). cbn. lia.
  - assert (keeps same_temp (SetAuth on sub al;;; ret ())) as H by keeps_go. rewrite (H e). cbn. lia.
  - cbn. pose proof (lent_filter p (x_tempAuths e) (fun ce => env_now (x_fx e) - ce.2.2 < five_minutes)). lia.
Qed.

(** In open mode the gate lets every push in, whoever sends it. *)
Lemma open_mode_admits p c e : open_mode e = true -> authorized p actionPush c e = (Ok true, e).
Proof. intros Ho. unfold authorized, bind, gets. by rewrite Ho. Qed.

(** C24. On a device with an owner other than itself, a peer the owner has not authorized may
    push only what it was asked for: over any sequence of requests, pulls, grants and expiries,
    the number of its pushes that get past the gate at a moment when an owner is set and the
    peer is not authorized is at most the number of times the device asked it for something,
    plus the requests open at the start. (Without an owner, or with itself as owner, the
    device takes every push, see [open_mode_admits]; those are not counted.) *)
Theorem lent_pushes_bounded p os e :
  (lent_count p os e + size (lent p (x_tempAuths (after_all os e))) <= ask_count p os + size (lent p (x_tempAuths e)))%nat.
Proof.
  revert e. induction os as [|o os IH]; intros e; cbn; [lia|]. specialize (IH (after o e)). pose proof (op_temp p o e).
  unfold after_all in *. lia.
Qed.

(** ** What a request can store *)
Lemma store_run b link e : (decodeAndStoreBlock b link e).1 <> Panic /\
  (x_ds (decodeAndStoreBlock b link e).2 = x_ds e \/
   exists d n c data, b = Some d /\ ipld_Decode (cid_Codec link) d = Some n /\ ls_Encode link n = inr (c, data) /\
     x_ds (decodeAndStoreBlock b link e).2 = <[toDatastoreKey c := data]> (x_ds e)).
Proof.
  unfold decodeAndStoreBlock. destruct b as [d|]; [|split; [done | by left]].
  destruct (ipld_Decode _ d) as [n|] eqn:Ed; [|split; [done | by left]]. unfold ls_Store.
  destruct (ls_Encode link n) as [err|[c data]] eqn:Ee; [split; [done | by left]|].
  unfold blockWrite, bind, tick. destruct (ds_err _); cbn; (split; [done|]); [by left|]. right. by exists d, n, c, data.
Qed.

Lemma ds_handle p r e : x_ds (handle p r e).2 = x_ds e \/
  exists proto b n c data, action_of r = actionPush /\ xq_Method r = "POST" /\ cid_Decode (cid_of r) = Some proto /\
    xq_Body r = Some b /\ ipld_Decode (cid_Codec proto) b = Some n /\ ls_Encode proto n = inr (c, data) /\
    x_ds (handle p r e).2 = <[toDatastoreKey c := data]> (x_ds e).
Proof.
  unfold handle. destruct (_ =? actionPull)%string; [left; by apply (k_handlePull same_ds)|].
  destruct (String.eqb_spec (action_of r) actionPush) as [Ha|];
    [|left; destruct (_ =? actionAuth)%string; [apply ds_handleAuth | done]].
  unfold handlePush. destruct (String.eqb_spec (xq_Method r) "POST") as [Hm|]; cbn [negb]; [|by left].
  destruct (cid_Decode (cid_of r)) as [proto|] eqn:Ec; [|by left].
  destruct (store_run (xq_Body r) proto e) as [Hp [Hs|(b & n & c & data & Hb & Hn & He & Hs)]]; unfold bind;
    destruct (decodeAndStoreBlock _ _ _) as [[[]| |] e']; cbn in *; try done; try (by left);
    right; by exists proto, b, n, c, data.
Qed.

(** C25. What a peer's request can do to the block store. Either nothing; or it is a POST of
    the push action by a peer that is authorized, or that was asked for the CID named in the
    path, or on a device in open mode; and then exactly one block is written: the node
    decoded from the body, under the link computed from its own bytes. No request deletes a
    block or stores bytes under a link that is not theirs. *)
Theorem push_gate r e :
  x_ds (serve r e).2 = x_ds e \/
  exists p proto b n c data,
    from_of r = Some p /\ action_of r = actionPush /\ xq_Method r = "POST" /\
    (open_mode e = true \/ p ∈ x_authorizedPeers e \/ exists z, x_tempAuths e !! cid_of r = Some (p, z)) /\
    cid_Decode (cid_of r) = Some proto /\ xq_Body r = Some b /\ ipld_Decode (cid_Codec proto) b = Some n /\
    ls_Encode proto n = inr (c, data) /\ x_ds (serve r e).2 = <[toDatastoreKey c := data]> (x_ds e).
Proof.
  destruct (from_of r) as [p|] eqn:Ep; [|left; by rewrite (serve_anon r e Ep)].
  rewrite (serve_run _ _ _ Ep). unfold bind.
  destruct (authorized_run p (action_of r) (cid_of r) e) as [(ok & E1 & Hno)|(z & Ha & Ho & Et & E1)]; rewrite E1.
  - destruct ok; cbn [negb]; [|by left]. destruct (ds_handle p r e) as [H|(proto & b & n & c & data & Ha & Hm & H)]; [by left|].
    right. exists p, proto, b, n, c, data. split_and!; try apply H; try done.
    destruct (open_mode e) eqn:Eo; [by left|]. destruct (decide (p ∈ x_authorizedPeers e)); [by right; left|].
    by specialize (Hno Ha eq_refl n0).
  - cbn [negb]. destruct (ds_handle p r (set_temp (delete (cid_of r) (x_tempAuths e)) e)) as [H|(proto & b & n & c & data & _ & Hm & H)]; [by left|].
    right. exists p, proto, b, n, c, data. split_and!; try apply H; try done. right. right. by exists z.
Qed.

(** ** Temporary authorizations do not expire *)
Lemma Start_cleanup_nop n e : Start_cleanup n e = (Ok (), e).
Proof. by destruct n. Qed.

(** A temporary authorization lasts until it is used: [Start]'s deferred cancel ends the
    clean-up goroutine before its first turn, and the gate looks at no time stamp. However
    much later, a push by the peer that was asked for a block is let through, with no
    condition on the clock. *)
Theorem temp_auth_never_expires p c turns r e :
  from_of r = Some p -> action_of r = actionPush -> cid_of r = cid_String c -> open_mode e = false ->
  let e1 := (Pull p c e).2 in
  exists e2, Start_cleanup turns e1 = (Ok (), e2) /\ admitted e2 (OServe r) = true.
Proof.
  intros Hp Ha Hc Ho e1. exists e1. split; [apply Start_cleanup_nop|].
  assert (exists z, x_tempAuths e1 !! cid_of r = Some (p, z)) as [z Hz].
  { destruct (Pull_temp p c e) as [z H]. exists z. unfold e1. rewrite H, Hc. apply lookup_insert_eq. }
  assert (open_mode e1 = false) as Ho1 by exact Ho.
  clearbody e1. unfold admitted. rewrite (serve_run _ _ _ Hp). unfold bind.
  assert (authorized p (action_of r) (cid_of r) e1 = (Ok true, set_temp (delete (cid_of r) (x_tempAuths e1)) e1)) as ->.
  { rewrite Ha. unfold authorized, bind, gets. rewrite Ho1. change (actionPush =? actionAuth)%string with false.
    rewrite andb_false_r. cbn. rewrite Hz. by rewrite String.eqb_refl. }
  cbn [negb]. unfold handle, handlePush. rewrite Ha. change (actionPush =? actionPull)%string with false. rewrite String.eqb_refl.
  destruct (negb _); [done|]. destruct (cid_Decode _); [|done]. unfold bind.
  destruct (decodeAndStoreBlock _ _ _) as [[[]| |] e']; done.
Qed.

(** A block the device does not have: the mobile client's exchange answers 404; with blox's
    read opener, whose error [handlePull] does not look for, the answer is 500. *)
Lemma missing_block c cc r e p : from_of r = Some p -> action_of r = actionPull -> xq_Method r = "GET" -> cid_of r = c ->
  cid_Decode c = Some cc -> x_ds e !! toDatastoreKey cc = None -> (forall n, ds_err n = None) ->
  exists e', handle p r e =
    (Ok (http_Error "" (match notFound cc with DsNotFound => StatusNotFound | _ => StatusInternalServerError end)), e').
Proof.
  intros Hp Ha Hm <- Hc Hd Hn. unfold handle. rewrite Ha, String.eqb_refl. unfold handlePull. rewrite Hm, String.eqb_refl, Hc.
  unfold ls_LoadRaw, blockReadOpener, bind, tick, gets. rewrite Hn. change (x_ds (bump e)) with (x_ds e). rewrite Hd.
  eexists. by destruct (notFound cc).
Qed.
End exchange.

(** ** Witness *)
#[local] Instance pullEnv : Env := {|
  env_http := fun _ _ _ => Reply 202 (Some ""); env_timer := fun _ _ => true; env_now := fun n => Z.of_nat n; env_fs := fun _ => FsOk |}.
#[local] Instance plainPeers : PeerCrypto := {|
  sha256 := fun s => s; peer_Decode := fun s => if (s =? "")%string then Err "empty" else Ok s; peer_String := fun s => s;
  ExtractPublicKey := fun s => Ok s; key_Verify := fun _ _ _ => Ok true; key_Sign := fun _ _ => Err "no key" |}.
#[local] Instance textIpld : Ipld := {|
  INode := string; cid_Decode := fun s => Some (mkCid s s 113); cid_MarshalJSON := fun c => JStr (cid_String c);
  cid_UnmarshalJSON := fun _ => None; ipld_Decode := fun _ b => Some b; ls_Encode := fun _ n => inr (mkCid n n 113, n); ls_Hash := fun _ _ => true;
  ls_Walk := fun _ _ => ([], None) |}.
#[local] Instance calmNet : PushNet := {|
  breaker := fun _ => BReady; body_rest := fun _ => ""; jitter := fun _ _ => 0; ds_err := fun _ => None |}.
Definition owned_exchange : Ex := mkEx 0 "owner" "self" {["owner"]} [] ∅ ∅ [] [].
Definition late_push : XReq := mkXReq "stranger" "/push/bafy" "POST" (Some "data").

Lemma temp_auth_never_expires_witness :
  exists e2, Start_cleanup 12 (Pull "stranger" (mkCid "b" "bafy" 113) owned_exchange).2 = (Ok (), e2) /\
             admitted mobile_notFound None e2 (OServe late_push) = true.
Proof.
  apply (temp_auth_never_expires mobile_notFound None "stranger" (mkCid "b" "bafy" 113) 12 late_push owned_exchange);
    vm_compute; reflexivity.
Defined.
