(* ===== verification/Mobile.v ===== *)
(** * mobile/client.go, mobile/config.go: the phone's client

    Connecting to the device with the DHT as a fallback, the ping report, and the life
    cycle: operations are admitted by [beginOp] and [Shutdown] waits for them before it
    closes the host. The life cycle is a transition system over any number of concurrent
    calls; [no_use_after_close] is its safety property. The reading
    goroutine of a chat is outside the wait group. *)

From stdpp Require Import gmap list.
From S2P Require Import Prelude GoStd Json JsonPrint Effects.

#[local] Open Scope string_scope.
#[local] Open Scope Z_scope.

(** ** Connecting *)

(** libp2p: dialling a peer at the addresses of the peerstore, the DHT, a ping's result. *)
Class PhoneNet := {
  net_Connected : nat -> bool;
  net_Dial : nat -> list string -> option string;
  dht_Ready : nat -> bool;                       (** ready before the 15 s are over *)
  dht_FindPeer : nat -> string + list string;
  net_Ping : nat -> string + Z                   (** RTT in nanoseconds *)
}.

Record Phone := mkPhone {
  ph_fx : nat;
  ph_dht : bool;                (** ipfsDHT is set *)
  ph_addrs : list string;       (** peerstore addresses of the device *)
  ph_dials : nat }.

Section phone.
Context `{N : PhoneNet}.

Definition pick {A : Type} (f : nat -> A) : M Phone A :=
  fun p => (Ok (f (ph_fx p)), mkPhone (S (ph_fx p)) (ph_dht p) (ph_addrs p) (ph_dials p)).
Definition dial : M Phone (option string) :=
  a <- gets ph_addrs;;
  modify (fun p => mkPhone (ph_fx p) (ph_dht p) (ph_addrs p) (S (ph_dials p)));;;
  pick (fun n => net_Dial n a).
Definition AddAddrs (l : list string) : M Phone () :=
  modify (fun p => mkPhone (ph_fx p) (ph_dht p) (ph_addrs p ++ l) (ph_dials p)).

(** Closing a connection that is not connected has no result; it is an effect. *)
Definition ClosePeer : M Phone () := pick (fun _ => ()).

(** Direct, then relay through the peerstore's addresses, then the DHT; [what] is "connect"
    or "dial" (the transport's DialContext is the same ladder). *)
Definition connect_ladder (what : string) : M Phone () :=
  c <- pick net_Connected;;
  (if (c : bool) then ret () else ClosePeer);;;
  r <- dial;;
  match r with
  | None => ret ()
  | Some connectErr =>
      ClosePeer;;;
      hasDHT <- gets ph_dht;;
      if negb hasDHT then raise connectErr else
      let failed := "direct " +:+ what +:+ " failed: " +:+ connectErr in
      ready <- pick dht_Ready;;
      if negb ready then raise (failed +:+ "; IPFS DHT not ready in time") else
      f <- pick dht_FindPeer;;
      match f with
      | inl findErr => raise (failed +:+ "; IPFS DHT FindPeer also failed: " +:+ findErr)
      | inr [] => raise (failed +:+ "; IPFS DHT found peer but no addresses")
      | inr addrs =>
          AddAddrs addrs;;;
          r2 <- dial;;
          match r2 with
          | Some retryErr => raise (failed +:+ "; IPFS DHT retry also failed: " +:+ retryErr)
          | None => ret ()
          end
      end
  end.
Definition ensureConnected : M Phone () := connect_ladder "connect".
Definition DialContext : M Phone () := connect_ladder "dial".

(** ** Ping *)
Definition pingCount : nat := 3.
Record PingState := mkPing { pg_successes : Z; pg_total : Z; pg_errs : list string }.

Fixpoint ping_loop (n : nat) (i : Z) (st : PingState) : M Phone PingState :=
  match n with
  | O => ret st
  | S n' =>
      r <- pick net_Ping;;
      ping_loop n' (i + 1)
        (match r with
         | inl err => mkPing (pg_successes st) (pg_total st) (pg_errs st ++ ["ping " +:+ Itoa (i + 1) +:+ ": " +:+ err])
         | inr rtt => mkPing (pg_successes st + 1) (wrapS 64 (pg_total st + rtt)) (pg_errs st)
         end)
  end.

Definition ping_json (success : bool) (successes avg : Z) (errs : list string) : json :=
  JObj [("success", JBool success); ("successes", JNum (Itoa successes)); ("avg_rtt_ms", JNum (Itoa avg));
        ("errors", match errs with [] => JNull | _ => JArr (map JStr errs) end)].

(** time.Duration.Milliseconds: nanoseconds divided by a million. *)
Definition avg_rtt (st : PingState) : Z :=
  if 0 <? pg_successes st then Z.quot (Z.quot (pg_total st) (pg_successes st)) 1000000 else 0.

Definition Ping : M Phone string :=
  c <- try ensureConnected;;
  match c with
  | inl err => ret (json_print (ping_json false 0 0 ["connection failed: " +:+ err]))
  | inr _ =>
      st <- ping_loop pingCount 0 (mkPing 0 0 []);;
      ret (json_print (ping_json (0 <? pg_successes st) (pg_successes st) (avg_rtt st) (pg_errs st)))
  end.
End phone.

(** ** The life cycle *)
Inductive ShutPC := NotYet | Draining | ShutDone.
Record Life := mkLife {
  closed : bool;
  opCancelled : bool;        (** opCtx *)
  inflight : nat;            (** the wait group *)
  running : gset nat;        (** calls between beginOp and its release *)
  streams : gset nat;        (** calls of ChatWithAI whose reading goroutine still runs *)
  hostClosed : bool;         (** the exchange, DHT, host and datastore are closed *)
  shut : ShutPC;
  closings : nat }.          (** how often they were closed *)

Definition new_client : Life := mkLife false false 0 ∅ ∅ false NotYet 0.

(** [None]: ErrClientClosed. *)
Definition beginOp (t : nat) (l : Life) : option Life :=
  if closed l then None
  else Some (mkLife false (opCancelled l) (S (inflight l)) ({[t]} ∪ running l) (streams l) (hostClosed l) (shut l) (closings l)).
(** The release function. *)
Definition done_op (t : nat) (l : Life) : Life :=
  mkLife (closed l) (opCancelled l) (pred (inflight l)) (running l ∖ {[t]}) (streams l) (hostClosed l) (shut l) (closings l).
(** Shutdown up to its wait; a second call returns at once. *)
Definition Shutdown_begin (l : Life) : Life :=
  if closed l then l else mkLife true true (inflight l) (running l) (streams l) (hostClosed l) Draining (closings l).
(** After the wait. *)
Definition Shutdown_close (l : Life) : Life :=
  mkLife (closed l) (opCancelled l) (inflight l) (running l) (streams l) true ShutDone (S (closings l)).

(** ChatWithAI starts the goroutine that reads the response, outside the wait group. *)
Definition set_streams (x : gset nat) (l : Life) : Life :=
  mkLife (closed l) (opCancelled l) (inflight l) (running l) x (hostClosed l) (shut l) (closings l).

(** The error Shutdown returns: host, DHT, flush, datastore, exchange, in this order. *)
Definition Shutdown_error (hErr dhtErr fErr dsErr xErr : option string) : option string :=
  match hErr, dhtErr, fErr, dsErr with
  | Some e, _, _, _ => Some e
  | _, Some e, _, _ => Some e
  | _, _, Some e, _ => Some e
  | _, _, _, Some e => Some e
  | _, _, _, _ => xErr
  end.

Inductive event :=
| Begin (t : nat)          (** a call that goes through beginOp *)
| Use (t : nat)            (** it touches the host *)
| Spawn (t : nat)          (** it is ChatWithAI and leaves its reading goroutine behind *)
| End (t : nat)            (** it returns, with the deferred release *)
| StreamUse (t : nat)      (** the goroutine reads from the host's stream *)
| StreamEnd (t : nat)
| FreeUse                  (** a call that does not go through beginOp, such as SetAuth *)
| CallShutdown | Drained.

Definition life_step (ev : event) (l : Life) : option Life :=
  match ev with
  | Begin t => if bool_decide (t ∈ running l ∪ streams l) then None else Some (default l (beginOp t l))
  | Use t => if bool_decide (t ∈ running l) then Some l else None
  | Spawn t => if bool_decide (t ∈ running l) then Some (set_streams ({[t]} ∪ streams l) l) else None
  | End t => if bool_decide (t ∈ running l) then Some (done_op t l) else None
  | StreamUse t => if bool_decide (t ∈ streams l) then Some l else None
  | StreamEnd t => if bool_decide (t ∈ streams l) then Some (set_streams (streams l ∖ {[t]}) l) else None
  | FreeUse => Some l
  | CallShutdown => Some (Shutdown_begin l)
  | Drained => match shut l with Draining => if (inflight l =? 0)%nat then Some (Shutdown_close l) else None | _ => None end
  end.

Definition touches_host (ev : event) : bool :=
  match ev with Use _ | StreamUse _ | FreeUse => true | _ => false end.

Inductive reaches : Life -> Prop :=
| reaches_new : reaches new_client
| reaches_step ev l l' : reaches l -> life_step ev l = Some l' -> reaches l'.

Fixpoint life_run (evs : list event) (l : Life) : option Life :=
  match evs with [] => Some l | ev :: evs' => l' ← life_step ev l; life_run evs' l' end.

Record life_ok (l : Life) : Prop := {
  ok_count : inflight l = size (running l);
  ok_closed : closed l = true <-> shut l <> NotYet;
  ok_cancel : opCancelled l = closed l;
  ok_host : hostClosed l = true -> running l = ∅ /\ shut l = ShutDone;
  ok_done : shut l = ShutDone -> hostClosed l = true /\ running l = ∅;
  ok_once : closings l = if hostClosed l then 1%nat else 0%nat }.

Lemma life_ok_step ev l l' : life_step ev l = Some l' -> life_ok l -> life_ok l'.
Proof.
  intros Hs [Hc Hcl Hca Hh Hd Ho]. destruct l as [c o n r st h s k]. destruct ev as [t|t|t|t|t|t| | |]; cbn in *.
  - case_bool_decide as Ht; [done|]. injection Hs as <-. unfold beginOp. cbn. destruct c; [by constructor|].
    assert (s = NotYet) as -> by (destruct s; [done|..]; discriminate (proj2 Hcl ltac:(done))).
    constructor; cbn; try done; [rewrite size_union by set_solver; rewrite size_singleton; lia|].
    intros ->. destruct (Hh eq_refl) as [_ Hx]. discriminate Hx.
  - case_bool_decide; [|done]. injection Hs as <-. by constructor.
  - case_bool_decide; [|done]. injection Hs as <-. by constructor.
  - case_bool_decide as Ht; [|done]. injection Hs as <-. constructor; cbn; try done.
    + rewrite size_difference by set_solver. rewrite size_singleton. lia.
    + intros ->. destruct (Hh eq_refl) as [-> ->]. split; [set_solver | done].
    + intros ->. destruct (Hd eq_refl) as [-> ->]. split; [done | set_solver].
  - case_bool_decide; [|done]. injection Hs as <-. by constructor.
  - case_bool_decide; [|done]. injection Hs as <-. by constructor.
  - injection Hs as <-. by constructor.
  - injection Hs as <-. unfold Shutdown_begin. cbn. destruct c; [by constructor|].
    assert (s = NotYet) as -> by (destruct s; [done|..]; discriminate (proj2 Hcl ltac:(done))).
    constructor; cbn; try done. intros ->. destruct (Hh eq_refl) as [_ Hx]. discriminate Hx.
  - destruct s; try done. destruct (Nat.eqb_spec n 0) as [->|]; [|done]. injection Hs as <-.
    assert (r = ∅) as -> by (symmetry in Hc; by apply size_empty_inv, leibniz_equiv in Hc).
    assert (h = false) as -> by (destruct h; [|done]; destruct (Hh eq_refl) as [_ Hx]; discriminate Hx).
    constructor; cbn; try done; [split; [done|]; intros _; by apply Hcl | by rewrite Ho].
Qed.

Lemma life_ok_reaches l : reaches l -> life_ok l.
Proof. induction 1; [by constructor | by eapply life_ok_step]. Qed.

(** C26. What can touch a closed host: in every state the client can reach, with any number
    of concurrent calls, a call that goes through beginOp touches the host, between its
    admission and its release, only while nothing has been closed; once the resources are
    closed no call is admitted any more, and the only accesses left are those outside that
    protocol: of calls that do not go through beginOp, and of the reading goroutine that an
    admitted ChatWithAI left behind when it returned; and however often Shutdown is called,
    concurrently or not, they are closed at most once. *)
Theorem no_use_after_close l : reaches l ->
  (forall t l', life_step (Use t) l = Some l' -> hostClosed l = false) /\
  (hostClosed l = true -> forall t, beginOp t l = None) /\
  (hostClosed l = true -> forall ev l', touches_host ev = true -> life_step ev l = Some l' ->
     ev = FreeUse \/ exists t, ev = StreamUse t /\ t ∈ streams l /\ t ∉ running l) /\
  (closings l <= 1)%nat.
Proof.
  intros Hr%life_ok_reaches. destruct Hr as [Hc Hcl Hca Hh Hd Ho].
  assert (forall t l', life_step (Use t) l = Some l' -> hostClosed l = false) as Huse.
  { intros t l'. cbn. case_bool_decide as Ht; [|done]. intros _. destruct (hostClosed l); [|done].
    destruct (Hh eq_refl) as [He _]. rewrite He in Ht. set_solver. }
  split_and!; [exact Huse| | |].
  - intros Hx t. unfold beginOp. destruct (Hh Hx) as [_ Hs]. by replace (closed l) with true by (symmetry; apply Hcl; congruence).
  - intros Hx ev l' Ht Hs. destruct ev as [| t | | | t | | | |]; try done; [by apply Huse in Hs; congruence | | by left].
    right. exists t. cbn in Hs. case_bool_decide; [|done]. destruct (Hh Hx) as [-> _]. set_solver.
  - rewrite Ho. destruct (hostClosed l); lia.
Qed.

Lemma life_run_app e1 e2 l : life_run (e1 ++ e2) l = l' ← life_run e1 l; life_run e2 l'.
Proof. revert l. induction e1 as [|e e1 IH]; intros l; cbn; [done|]. destruct (life_step e l); cbn; [apply IH | done]. Qed.

Lemma life_run_reaches evs l l' : reaches l -> life_run evs l = Some l' -> reaches l'.
Proof.
  revert l. induction evs as [|ev evs IH]; intros l Hr E; cbn in E; [by injection E as <-|].
  destruct (life_step ev l) as [l2|] eqn:E2; [|done]. eapply IH; [by eapply reaches_step | exact E].
Qed.

Lemma end_all (ts : list nat) l : running l = list_to_set ts -> NoDup ts -> exists l',
  life_run (map End ts) l = Some l' /\ running l' = ∅ /\ shut l' = shut l /\
  closed l' = closed l /\ (inflight l' = inflight l - length ts)%nat.
Proof.
  revert l. induction ts as [|t ts IH]; intros l Hr Hn; cbn.
  - exists l. cbn in Hr. split_and!; auto; lia.
  - apply NoDup_cons in Hn as [Ht Hn]. rewrite bool_decide_true by set_solver. cbn.
    destruct (IH (done_op t l)) as (l' & E & H1 & H2 & H3 & H4); [cbn; rewrite Hr; set_solver | done |].
    exists l'. split; [done|]. split_and!; try done. rewrite H4. cbn. lia.
Qed.

(** Shutdown completes: whenever it is waiting, the calls that are inside are exactly those
    it waits for, their context has been cancelled, and as soon as each of them has returned
    it closes the resources. *)
Theorem shutdown_completes l : reaches l -> shut l = Draining ->
  opCancelled l = true /\
  exists l', life_run (map End (elements (running l)) ++ [Drained]) l = Some l' /\ hostClosed l' = true /\ closings l' = 1%nat.
Proof.
  intros Hr Hs. pose proof (life_ok_reaches l Hr) as [Hc Hcl Hca Hh Hd Ho].
  split; [rewrite Hca; apply Hcl; by rewrite Hs|].
  destruct (end_all (elements (running l)) l) as (l1 & E & H1 & H2 & H3 & H4);
    [by rewrite list_to_set_elements_L | apply NoDup_elements |].
  assert (inflight l1 = 0%nat) as Hi by (rewrite H4, Hc; change (length (elements (running l))) with (size (running l)); lia).
  exists (Shutdown_close l1). rewrite life_run_app, E. cbn. rewrite H2, Hs, Hi. cbn. split; [done|]. split; [done|].
  pose proof (life_run_reaches _ _ _ Hr E) as Hr1.
  rewrite (ok_once _ (life_ok_reaches _ Hr1)). destruct (hostClosed l1) eqn:Eh; [|done].
  destruct (ok_host _ (life_ok_reaches _ Hr1) Eh) as [_ Hx]. congruence.
Qed.

(** A call that does not go through [beginOp] can meet the closed host. *)
Lemma free_use_after_close : exists l, reaches l /\ hostClosed l = true /\ life_step FreeUse l = Some l.
Proof.
  destruct (life_run [CallShutdown; Drained] new_client) as [l|] eqn:E; [|vm_compute in E; discriminate E].
  exists l. split; [exact (life_run_reaches _ _ _ reaches_new E)|]. split; [|done].
  vm_compute in E. by injection E as <-.
Qed.

(** The goroutine of a chat outlives its call: Shutdown does not wait for it, and it can
    read from the closed host. *)
Lemma chat_use_after_close : exists l, life_run [Begin 1; Use 1; Spawn 1; End 1; CallShutdown; Drained] new_client = Some l /\
  hostClosed l = true /\ life_step (StreamUse 1) l = Some l.
Proof. eexists. split; [vm_compute; reflexivity|]. split; vm_compute; reflexivity. Qed.

(** ** The ping report *)
Section report.
Context `{N : PhoneNet}.

(** RTTs the network gives are durations below 2^61 ns, so that three of them do not overflow. *)
Definition rtt_bound := 2 ^ 61.

Lemma ping_loop_run n i st p (lo hi : Z) :
  (forall k r, net_Ping k = inr r -> lo <= r <= hi) -> 0 <= lo -> hi < rtt_bound -> Z.of_nat n <= 3 ->
  0 <= pg_successes st <= 3 - Z.of_nat n -> pg_successes st * lo <= pg_total st <= pg_successes st * hi ->
  exists st' p', ping_loop n i st p = (Ok st', p') /\
    pg_successes st <= pg_successes st' /\
    pg_successes st' + Z.of_nat (length (pg_errs st')) = pg_successes st + Z.of_nat (length (pg_errs st)) + Z.of_nat n /\
    pg_successes st' * lo <= pg_total st' <= pg_successes st' * hi.
Proof.
  intros Hr Hlo Hhi. revert i st p. induction n as [|n IH]; intros i st p Hn Hs Ht; cbn [ping_loop].
  - exists st, p. split_and!; try done; lia.
  - unfold bind, pick. destruct (net_Ping (ph_fx p)) as [err|rtt] eqn:E.
    + destruct (IH (i + 1) (mkPing (pg_successes st) (pg_total st) (pg_errs st ++ ["ping " +:+ Itoa (i + 1) +:+ ": " +:+ err])%list)
        (mkPhone (S (ph_fx p)) (ph_dht p) (ph_addrs p) (ph_dials p))) as (st' & p' & E' & H1 & H2 & H3); cbn in *; [lia..|].
      rewrite length_app in H2. cbn in H2. exists st', p'. split; [exact E'|]. lia.
    + specialize (Hr _ _ E). assert (wrapS 64 (pg_total st + rtt) = pg_total st + rtt) as Hw.
      { apply wrapS_small; [lia|]. unfold rtt_bound in *. nia. }
      destruct (IH (i + 1) (mkPing (pg_successes st + 1) (wrapS 64 (pg_total st + rtt)) (pg_errs st))
        (mkPhone (S (ph_fx p)) (ph_dht p) (ph_addrs p) (ph_dials p))) as (st' & p' & E' & H1 & H2 & H3); cbn in *; [nia..|].
      exists st', p'. split; [exact E'|]. lia.
Qed.

(** What Ping reports is consistent with what it saw: when a connection was made and every
    round trip took between [lo] and [hi] nanoseconds, successes and errors add up to the
    three pings, success is reported exactly when one of them got through, and the average
    lies between the bounds, in whole milliseconds. *)
Theorem ping_report p p1 lo hi :
  ensureConnected p = (Ok (), p1) -> (forall k r, net_Ping k = inr r -> lo <= r <= hi) -> 0 <= lo -> hi < rtt_bound ->
  exists n avg errs p2,
    Ping p = (Ok (json_print (ping_json (0 <? n) n avg errs)), p2) /\
    n + Z.of_nat (length errs) = 3 /\ 0 <= n /\
    (if 0 <? n then Z.quot lo 1000000 <= avg <= Z.quot hi 1000000 else avg = 0).
Proof.
  intros Hc Hr Hlo Hhi.
  destruct (ping_loop_run pingCount 0 (mkPing 0 0 []) p1 lo hi Hr Hlo Hhi) as (st & p2 & E & H1 & H2 & H3);
    [change (Z.of_nat pingCount) with 3; cbn [pg_successes pg_total]; lia..|].
  change (Z.of_nat pingCount) with 3 in H2. cbn [pg_successes pg_errs length] in *.
  exists (pg_successes st), (avg_rtt st), (pg_errs st), p2. split_and!; try lia.
  - unfold Ping, bind, try. rewrite Hc. by rewrite E.
  - unfold avg_rtt. destruct (Z.ltb_spec 0 (pg_successes st)) as [Hn|]; [|done].
    assert (lo <= Z.quot (pg_total st) (pg_successes st) <= hi) as Hq.
    { split; [apply Z.quot_le_lower_bound | apply Z.quot_le_upper_bound]; nia. }
    split; apply Z.quot_le_mono; lia.
Qed.
End report.

(** ** Witnesses *)
#[local] Instance relayNet : PhoneNet := {|
  net_Connected := fun _ => false; net_Dial := fun n a => match a with [] => Some "no addresses" | _ => None end;
  dht_Ready := fun _ => true; dht_FindPeer := fun _ => inr ["/ip4/10.0.0.2/tcp/4001"];
  net_Ping := fun n => if Nat.even n then inl "stream reset" else inr 25000000 |}.

Lemma ping_report_witness : exists p1 n avg errs p2,
  ensureConnected (mkPhone 0 true [] 0) = (Ok (), p1) /\ ph_dials p1 = 2%nat /\
  Ping (mkPhone 0 true [] 0) = (Ok (json_print (ping_json (0 <? n) n avg errs)), p2) /\
  n + Z.of_nat (length errs) = 3 /\ 0 <= n /\ (if 0 <? n then Z.quot 25000000 1000000 <= avg <= Z.quot 25000000 1000000 else avg = 0).
Proof.
  destruct (ensureConnected (mkPhone 0 true [] 0)) as [r p1] eqn:E.
  assert (r = Ok () /\ ph_dials p1 = 2%nat) as [-> Hd] by (vm_compute in E; injection E as <- <-; split; reflexivity).
  destruct (ping_report (mkPhone 0 true [] 0) p1 25000000 25000000 E) as (n & avg & errs & p2 & H);
    [intros k r; cbn; destruct (Nat.even k); [discriminate | intros [= <-]; lia] | lia | vm_compute; reflexivity |].
  exists p1, n, avg, errs, p2. split; [reflexivity|]. split; [exact Hd | exact H].
Defined.

Lemma no_use_after_close_witness : exists l,
  life_run [Begin 1; Use 1; Spawn 1; CallShutdown; Begin 2; End 1; Drained; CallShutdown] new_client = Some l /\
  hostClosed l = true /\ streams l = {[1%nat]} /\
  (hostClosed l = true -> forall t, beginOp t l = None) /\
  (hostClosed l = true -> forall ev l', touches_host ev = true -> life_step ev l = Some l' ->
     ev = FreeUse \/ exists t, ev = StreamUse t /\ t ∈ streams l /\ t ∉ running l) /\
  (closings l <= 1)%nat.
Proof.
  destruct (life_run [Begin 1; Use 1; Spawn 1; CallShutdown; Begin 2; End 1; Drained; CallShutdown] new_client) as [l|] eqn:E;
    [|vm_compute in E; discriminate E].
  exists l. split; [reflexivity|]. split; [vm_compute in E; injection E as <-; reflexivity|].
  split; [vm_compute in E; injection E as <-; reflexivity|].
  exact (proj2 (no_use_after_close l (life_run_reaches _ _ _ reaches_new E))).
Defined.

Lemma shutdown_completes_witness : exists l,
  life_run [Begin 1; Begin 2; CallShutdown] new_client = Some l /\ opCancelled l = true /\
  exists l', life_run (map End (elements (running l)) ++ [Drained]) l = Some l' /\ hostClosed l' = true /\ closings l' = 1%nat.
Proof.
  destruct (life_run [Begin 1; Begin 2; CallShutdown] new_client) as [l|] eqn:E; [|vm_compute in E; discriminate E].
  exists l. split; [reflexivity|]. apply (shutdown_completes l (life_run_reaches _ _ _ reaches_new E)).
  vm_compute in E. injection E as <-. reflexivity.
Defined.
