(* ===== verification/Ping.v ===== *)
(** * ping/ping.go: the ping service

    The server answers a bounded number of pings per peer, echoing the data it was sent; the
    client counts the answers that match its requests. [ping_rate_limit] is the bound,
    [ping_echo] the round trip through both sides. The server's life cycle is modelled with
    its mutex and with net/http's rule that a server that was shut down cannot serve again. *)

From S2P Require Import Prelude GoStd Json JsonPrint SignedAuth Effects.

#[local] Open Scope string_scope.
#[local] Open Scope Z_scope.

Definition StatusLengthRequired := 411.
Definition StatusRequestEntityTooLarge := 413.
Definition actionPing := "ping".

(** ** The server *)

(** The http.Server: new, serving, or shut down. *)
Inductive HttpServer := SrvNew | SrvServing | SrvDown.
Record FxPing := mkFxPing {
  count : Z;                          (** options.count *)
  pingedPeers : gmap string Z;
  started : bool;
  srv : HttpServer;
  muLocked : bool }.                  (** mu is held and nobody will release it *)

Definition set_pinged (m : gmap string Z) (s : FxPing) : FxPing := mkFxPing (count s) m (started s) (srv s) (muLocked s).

Definition NewFxPing (count : Z) : FxPing := mkFxPing count ∅ false SrvNew false.

Definition authorized (pid action : string) (s : FxPing) : bool * FxPing :=
  if (action =? actionPing)%string then
    match pingedPeers s !! pid with
    | None => (true, set_pinged (<[pid := 1]> (pingedPeers s)) s)
    | Some c => (negb (wrapS 64 (count s * 3) <=? c), set_pinged (<[pid := wrapS 64 (c + 1)]> (pingedPeers s)) s)
    end
  else (false, s).

Record PingRequest := mkPingRequest { pr_ID : string; pr_Data : string }.
Definition ping_message (m : PingRequest) : json := JObj [("id", JStr (pr_ID m)); ("data", JStr (pr_Data m))].
Definition message_fields (l : list (string * json)) : option PingRequest :=
  let '(id, ok1) := field_string "" (obj_field "id" l) in
  let '(data, ok2) := field_string "" (obj_field "data" l) in
  if ok1 && ok2 then Some (mkPingRequest id data) else None.

Definition handlePing (contentLength : Z) (body : option string) : Resp :=
  if 1024 <? contentLength then http_Error "Request Entity Too Large" StatusRequestEntityTooLarge
  else if contentLength <=? 0 then http_Error "Length Required" StatusLengthRequired
  else
    match decode_body body ≫= message_fields with
    | None => http_Error "Bad Request" StatusBadRequest
    | Some req =>
        match b64_decode (pr_Data req) with
        | None => http_Error "Bad Request" StatusBadRequest
        | Some decodedData => mkResp StatusOK (BJson (ping_message (mkPingRequest (pr_ID req) (b64_encode decodedData))))
        end
    end.

Record PingReq := mkPingReq { gq_RemoteAddr : string; gq_Path : string; gq_Length : Z; gq_Body : option string }.

Section server.
Context `{PC : PeerCrypto}.

Definition serve (r : PingReq) (s : FxPing) : Resp * FxPing :=
  match peer_Decode (gq_RemoteAddr r) with
  | Ok from =>
      let action := path_base (gq_Path r) in
      let '(ok, s') := authorized from action s in
      if negb ok then (http_Error "" StatusUnauthorized, s')
      else if (action =? actionPing)%string then (handlePing (gq_Length r) (gq_Body r), s')
      else (http_Error "" StatusNotFound, s')
  | _ => (http_Error "" StatusBadRequest, s)
  end.
End server.

(** ** Life cycle; [None]: the call never returns *)
Definition Start (listenErr : option string) (s : FxPing) : option (option string * FxPing) :=
  if muLocked s then None
  else if started s then Some (Some "ping already started", s)
  else match listenErr with
       | Some err => Some (Some err, mkFxPing (count s) (pingedPeers s) (started s) (srv s) true)
       | None =>
           Some (None, mkFxPing (count s) (pingedPeers s) true
                         (match srv s with SrvDown => SrvDown | _ => SrvServing end) false)
       end.
Definition Status (s : FxPing) : option bool := if muLocked s then None else Some (started s).
Definition StopServer (s : FxPing) : option FxPing :=
  if muLocked s then None else Some (mkFxPing (count s) ∅ false SrvDown false).
Definition Shutdown (s : FxPing) : option FxPing :=
  if muLocked s then None else Some (mkFxPing (count s) ∅ false SrvDown false).

(** ** The client *)
Class PingNet := {
  pn_now : nat -> Z;                              (** nanoseconds *)
  pn_randInt : nat -> option Z;                   (** rand.Int below 200 *)
  pn_bytes : nat -> Z -> string;                  (** so many random bytes *)
  pn_Do : nat -> string -> string -> HttpReply
}.

(** Does the answer to [req], which carried [size] bytes, count? *)
Definition accepts (req : PingRequest) (size : nat) (r : HttpReply) : bool :=
  match r with
  | Reply st (Some b) =>
      match l ← json_parse b ≫= as_object; message_fields l with
      | None => false
      | Some resp =>
          (pr_ID resp =? pr_ID req)%string &&
          match b64_decode (pr_Data resp) with Some d => (String.length d =? size)%nat | None => false end &&
          (st =? StatusOK)
      end
  | _ => false
  end.

Section client.
Context `{N : PingNet}.

Definition next {A : Type} (f : nat -> A) : M nat A := fun n => (Ok (f n), S n).

(** One round: the duration, if it counts. *)
Definition ping_round (to : string) : M nat (option Z) :=
  t0 <- next pn_now;;
  startTime <- next pn_now;;
  r <- next pn_randInt;;
  match r with
  | None => ret None
  | Some k =>
      binaryData <- next (fun n => pn_bytes n (k + 56));;
      let req := mkPingRequest (to +:+ "-" +:+ Itoa t0) (b64_encode binaryData) in
      resp <- next (fun n => pn_Do n ("http://" +:+ to +:+ ".invalid/" +:+ actionPing) (json_print (ping_message req)));;
      if accepts req (String.length binaryData) resp then t <- next pn_now;; ret (Some (t - startTime)) else ret None
  end.

Fixpoint ping_rounds (n : nat) (to : string) (successCount total : Z) : M nat (Z * Z) :=
  match n with
  | O => ret (successCount, total)
  | S n' =>
      r <- ping_round to;;
      match r with
      | Some d => ping_rounds n' to (successCount + 1) (wrapS 64 (total + d))
      | None => ping_rounds n' to successCount total
      end
  end.

(** float64(ms) / float64(count) cut to an int: below 2^53 ms the integer quotient. *)
Definition average (successCount total : Z) : Z :=
  if 0 <? successCount then Z.quot (Z.quot total 1000000) successCount else 0.

Definition Ping (count : Z) (to : string) : M nat (Z * Z) :=
  if count <=? 0 then ret (0, 0) else
  r <- ping_rounds (Z.to_nat count) to 0 0;;
  ret (average r.1 r.2, r.1).
End client.

(** ** The rate limit *)
Section limit.
Context `{PC : PeerCrypto}.

Definition from_of (r : PingReq) : option string := match peer_Decode (gq_RemoteAddr r) with Ok p => Some p | _ => None end.
Definition pings_of (p : string) (r : PingReq) : bool :=
  bool_decide (from_of r = Some p) && (path_base (gq_Path r) =? actionPing)%string.

(** How many requests of [p] in the sequence are pings, and how many are let through. *)
Fixpoint sent (p : string) (rs : list PingReq) : Z :=
  match rs with [] => 0 | r :: rs' => (if pings_of p r then 1 else 0) + sent p rs' end.
Fixpoint let_through (p : string) (rs : list PingReq) (s : FxPing) : Z :=
  match rs with
  | [] => 0
  | r :: rs' =>
      let '(x, s') := serve r s in
      (if pings_of p r && negb (resp_code x =? StatusUnauthorized) then 1 else 0) + let_through p rs' s'
  end.

Lemma handlePing_code l b : resp_code (handlePing l b) <> StatusUnauthorized.
Proof.
  unfold handlePing. destruct (1024 <? l); [done|]. destruct (l <=? 0); [done|].
  destruct (_ ≫= _); [|done]. by destruct (b64_decode _).
Qed.

Lemma ping_serve_run r s p : from_of r = Some p ->
  serve r s = let '(ok, s') := authorized p (path_base (gq_Path r)) s in
              (if negb ok then http_Error "" StatusUnauthorized
               else if (path_base (gq_Path r) =? actionPing)%string then handlePing (gq_Length r) (gq_Body r)
               else http_Error "" StatusNotFound, s').
Proof.
  unfold from_of, serve. destruct (peer_Decode _); try done. intros [= ->]. destruct (authorized _ _ s) as [[] s']; [|done].
  cbn. by destruct (_ =? actionPing)%string.
Qed.

Definition seen (p : string) (s : FxPing) : Z := default 0 (pingedPeers s !! p).
Definition limit (s : FxPing) : Z := Z.max 1 (3 * count s).

(** What one request does to the count of [p]. *)
Lemma serve_seen p r s : 0 <= count s < 2 ^ 61 -> (forall c, pingedPeers s !! p = Some c -> 1 <= c) -> seen p s < 2 ^ 62 ->
  let '(x, s') := serve r s in
  count s' = count s /\ (forall c, pingedPeers s' !! p = Some c -> 1 <= c) /\
  seen p s' = seen p s + (if pings_of p r then 1 else 0) /\
  (pings_of p r = true -> negb (resp_code x =? StatusUnauthorized) = (seen p s <? limit s)).
Proof.
  intros Hc Hpos Hsmall. unfold pings_of. destruct (from_of r) as [q|] eqn:Eq.
  2: { unfold serve. unfold from_of in Eq. rewrite bool_decide_false by done.
       destruct (peer_Decode _); try done; cbn; split_and!; try done; lia. }
  rewrite (ping_serve_run _ _ _ Eq). unfold authorized.
  destruct (String.eqb_spec (path_base (gq_Path r)) actionPing) as [Ha|Ha].
  2: { rewrite andb_false_r. cbn. split_and!; try done; lia. }
  rewrite andb_true_r. pose proof (handlePing_code (gq_Length r) (gq_Body r)) as Hh. apply Z.eqb_neq in Hh.
  assert (wrapS 64 (count s * 3) = 3 * count s) as Hw by (rewrite wrapS_small; lia).
  unfold seen, limit in *. destruct (pingedPeers s !! q) as [c|] eqn:El; cbn [count pingedPeers set_pinged negb].
  - destruct (decide (q = p)) as [->|Hne].
    + rewrite bool_decide_true by done. rewrite El in *. cbn in *. specialize (Hpos c eq_refl).
      rewrite lookup_insert_eq. cbn. rewrite (wrapS_small 64 (c + 1)) by lia. split_and!; try done; [by intros c' [= <-]; lia|].
      intros _. rewrite Hw. destruct (Z.leb_spec (3 * count s) c); cbn [negb].
      * symmetry. apply Z.ltb_ge. lia.
      * rewrite Hh. symmetry. apply Z.ltb_lt. lia.
    + rewrite bool_decide_false by congruence. rewrite lookup_insert_ne by done. split_and!; try done; lia.
  - destruct (decide (q = p)) as [->|Hne].
    + rewrite bool_decide_true by done. rewrite El in *. cbn in *. rewrite lookup_insert_eq. cbn. split_and!; try done.
      * by intros c' [= <-].
      * intros _. rewrite Hh. symmetry. apply Z.ltb_lt. lia.
    + rewrite bool_decide_false by congruence. rewrite lookup_insert_ne by done. split_and!; try done; lia.
Qed.

Lemma sent_bounds p rs : 0 <= sent p rs <= Z.of_nat (length rs).
Proof. induction rs as [|r rs IH]; cbn; [done|]. destruct (pings_of p r); lia. Qed.

Lemma let_through_run p rs s : 0 <= count s < 2 ^ 61 -> (forall c, pingedPeers s !! p = Some c -> 1 <= c) -> 0 <= seen p s ->
  seen p s + Z.of_nat (length rs) < 2 ^ 62 ->
  let_through p rs s = Z.min (sent p rs) (Z.max 0 (limit s - seen p s)).
Proof.
  revert s. induction rs as [|r rs IH]; intros s Hc Hpos H0 Hl; cbn [let_through sent length] in *; [lia|].
  pose proof (serve_seen p r s Hc Hpos ltac:(lia)) as H. destruct (serve r s) as [x s'].
  destruct H as (Hc' & Hpos' & Hs & Hx). rewrite IH; [|congruence|done|destruct (pings_of p r); lia..].
  unfold limit in *. rewrite Hc', Hs. pose proof (sent_bounds p rs).
  destruct (pings_of p r); cbn [andb]; [|lia]. rewrite (Hx eq_refl). destruct (Z.ltb_spec (seen p s) (Z.max 1 (3 * count s))); lia.
Qed.

(** Every peer gets a fixed number of pings: from a server that has not seen it yet, of
    any sequence of requests of any peers, exactly the first three times [count] pings of a
    peer (one, if [count] is 0) are let through, however the others are mixed in. *)
Theorem ping_rate_limit p rs s : 0 <= count s < 2 ^ 61 -> pingedPeers s !! p = None -> Z.of_nat (length rs) < 2 ^ 62 ->
  let_through p rs s = Z.min (sent p rs) (Z.max 1 (3 * count s)).
Proof.
  intros Hc Hp Hl. assert (seen p s = 0) as H0 by (unfold seen; by rewrite Hp).
  rewrite let_through_run; [unfold limit; rewrite H0; lia | done | by rewrite Hp | lia | lia].
Qed.

(** ** The round trip *)

(** The answer as it travels. *)
Definition wire (r : Resp) : HttpReply :=
  Reply (resp_code r) (Some (match resp_body r with
                             | BEmpty => ""
                             | BText s => s
                             | BJson j => json_print j +:+ String (ascii_of_nat 10) ""
                             end)).

Lemma parse_print_nl j : nums_ok j = true -> json_parse (json_print j +:+ String (ascii_of_nat 10) "") = Some j.
Proof. intros Hj. unfold json_parse. by rewrite parse_prefix_print. Qed.

Lemma message_roundtrip m : message_fields [("id", JStr (pr_ID m)); ("data", JStr (pr_Data m))] = Some m.
Proof. by destruct m. Qed.

(** A ping comes back: a request the client makes, of at most 1024 bytes, from a peer with
    pings left, is answered by the server with an answer that the client counts. *)
Theorem ping_echo addr p id d s :
  peer_Decode addr = Ok p -> (authorized p actionPing s).1 = true ->
  let req := mkPingRequest id (b64_encode d) in
  let body := json_print (ping_message req) in
  (String.length body <= 1024)%nat ->
  accepts req (String.length d) (wire (serve (mkPingReq addr "/ping" (Z.of_nat (String.length body)) (Some body)) s).1) = true.
Proof.
  intros Hp Ha req body Hlen.
  assert (from_of (mkPingReq addr "/ping" (Z.of_nat (String.length body)) (Some body)) = Some p) as Hf by (unfold from_of; cbn; by rewrite Hp).
  rewrite (ping_serve_run _ _ _ Hf). cbn [gq_Path gq_Length gq_Body]. change (path_base "/ping") with actionPing.
  destruct (authorized p actionPing s) as [ok s']. cbn in Ha. subst ok. cbn [fst negb]. rewrite String.eqb_refl.
  unfold handlePing. replace (1024 <? Z.of_nat (String.length body)) with false by (symmetry; apply Z.ltb_ge; lia).
  assert (exists c t, body = String c t) as (c & t & Hb) by (unfold body; cbn; by eexists _, _).
  replace (Z.of_nat (String.length body) <=? 0) with false by (symmetry; apply Z.leb_gt; rewrite Hb; cbn; lia).
  unfold decode_body. cbn [mbind option_bind]. unfold body.
  pose proof (parse_prefix_print (ping_message req) "" eq_refl eq_refl) as Hpp. rewrite sapp_nil_r in Hpp. rewrite Hpp.
  cbn [mbind option_bind as_object ping_message]. rewrite message_roundtrip. cbn [pr_Data pr_ID req]. rewrite b64_decode_encode.
  unfold wire, accepts. cbn [resp_code resp_body]. rewrite parse_print_nl by done. cbn [mbind option_bind as_object ping_message].
  rewrite message_roundtrip. cbn [pr_ID pr_Data]. rewrite String.eqb_refl, b64_decode_encode, Nat.eqb_refl. done.
Qed.
End limit.

(** ** Two ways to lose the server *)

(** After a failed listen the mutex stays locked: no later call returns. *)
Lemma failed_start_deadlocks err s s' : muLocked s = false -> started s = false -> Start (Some err) s = Some (Some err, s') ->
  (forall e, Start e s' = None) /\ Status s' = None /\ StopServer s' = None /\ Shutdown s' = None.
Proof. intros H1 H2. unfold Start. rewrite H1, H2. by intros [= <-]. Qed.

(** The service cannot be restarted: after StopServer, Start reports success and Status
    says it is running, but the http.Server was shut down and does not serve. *)
Theorem restart_does_not_serve s : muLocked s = false ->
  exists s1 s2, StopServer s = Some s1 /\ Start None s1 = Some (None, s2) /\ Status s2 = Some true /\ srv s2 = SrvDown.
Proof. intros H. unfold StopServer. rewrite H. eexists _, _. split; [done|]. split; [done|]. done. Qed.

(** ** Witnesses *)
#[local] Instance textPeers : PeerCrypto := {|
  sha256 := fun s => s; peer_Decode := fun s => if (s =? "")%string then Err "empty" else Ok s; peer_String := fun s => s;
  ExtractPublicKey := fun s => Ok s; key_Verify := fun _ _ _ => Ok true; key_Sign := fun _ _ => Err "no key" |}.
Definition ping_from (p : string) : PingReq := mkPingReq p "/ping" 10 (Some "{}").

Lemma ping_rate_limit_witness :
  let rs := (replicate 5 (ping_from "a") ++ [ping_from "b"] ++ replicate 3 (ping_from "a"))%list in
  let_through "a" rs (NewFxPing 2) = 6 /\ sent "a" rs = 8 /\
  let_through "a" rs (NewFxPing 2) = Z.min (sent "a" rs) (Z.max 1 (3 * count (NewFxPing 2))).
Proof.
  intros rs. split; [vm_compute; reflexivity|]. split; [vm_compute; reflexivity|].
  apply (ping_rate_limit "a" rs (NewFxPing 2)); [cbn; lia | reflexivity | vm_compute; reflexivity].
Defined.

Lemma ping_echo_witness :
  let req := mkPingRequest "12D3-1700000000" (b64_encode "hello, blox") in
  let body := json_print (ping_message req) in
  accepts req 11 (wire (serve (mkPingReq "12D3" "/ping" (Z.of_nat (String.length body)) (Some body)) (NewFxPing 5)).1) = true.
Proof.
  apply (ping_echo "12D3" "12D3" "12D3-1700000000" "hello, blox" (NewFxPing 5)); [reflexivity | reflexivity |].
  apply Nat.leb_le. vm_compute. reflexivity.
Defined.

Lemma restart_does_not_serve_witness :
  exists s1 s2, StopServer (NewFxPing 5) = Some s1 /\ Start None s1 = Some (None, s2) /\ Status s2 = Some true /\ srv s2 = SrvDown.
Proof. apply (restart_does_not_serve (NewFxPing 5)). reflexivity. Defined.
