(* ===== verification/Blox.v ===== *)
(** * blox/blox.go: finding the device's pool at start-up

    [Start] learns which pool the device belongs to. A configured pool gets its cluster
    tunnel at once. When the pool or the chain is missing from the config, the chains are
    searched for a pool that lists this device, up to five times with growing pauses; what
    is found is written to the config and kept in memory, and the tunnel is set up then. The
    search runs over the chain access of Evm.v, the config behind [PoolStore], and the kubo
    calls of KuboProxy.v. *)

From S2P Require Import Prelude GoStd Json PeerId SignedAuth Abi Effects Node Evm PoolConfig KuboProxy Relay.

#[local] Open Scope string_scope.
#[local] Open Scope Z_scope.

Record Blox (S : Type) := mkBlox {
  b_node : Node S;              (** bl, and the config behind its accessors *)
  b_kubo : Kubo;                (** calls to kubo and the files kubo_proxy.go keeps *)
  b_topicName : string;
  b_chainName : string;
  b_serverKuboPeerID : string;
  b_sleeps : list Z             (** the pauses taken, in nanoseconds *)
}.
Arguments mkBlox {S} _ _ _ _ _ _.
Arguments b_node {S} _.
Arguments b_kubo {S} _.
Arguments b_topicName {S} _.
Arguments b_chainName {S} _.
Arguments b_serverKuboPeerID {S} _.
Arguments b_sleeps {S} _.

Definition set_node {S} (w : Node S) (b : Blox S) : Blox S :=
  mkBlox w (b_kubo b) (b_topicName b) (b_chainName b) (b_serverKuboPeerID b) (b_sleeps b).
Definition set_kubo {S} (k : Kubo) (b : Blox S) : Blox S :=
  mkBlox (b_node b) k (b_topicName b) (b_chainName b) (b_serverKuboPeerID b) (b_sleeps b).
Definition set_topic {S} (t : string) (b : Blox S) : Blox S :=
  mkBlox (b_node b) (b_kubo b) t (b_chainName b) (b_serverKuboPeerID b) (b_sleeps b).
Definition set_chain {S} (c : string) (b : Blox S) : Blox S :=
  mkBlox (b_node b) (b_kubo b) (b_topicName b) c (b_serverKuboPeerID b) (b_sleeps b).
Definition set_server {S} (p : string) (b : Blox S) : Blox S :=
  mkBlox (b_node b) (b_kubo b) (b_topicName b) (b_chainName b) p (b_sleeps b).
Definition add_sleep {S} (d : Z) (b : Blox S) : Blox S :=
  mkBlox (b_node b) (b_kubo b) (b_topicName b) (b_chainName b) (b_serverKuboPeerID b) (b_sleeps b ++ [d])%list.

(** Running a component's operation inside the blox. *)
Definition on_node {S A} (m : M (Node S) A) : M (Blox S) A :=
  fun b => let '(r, w) := m (b_node b) in (r, set_node w b).
Definition on_kubo {S A} (m : M Kubo A) : M (Blox S) A :=
  fun b => let '(r, k) := m (b_kubo b) in (r, set_kubo k b).
Definition time_Sleep {S} (d : Z) : M (Blox S) () := modify (add_sleep d).

Definition discoveryDelay : Z := 30 * second.
Definition retryDelay : Z := 60 * second.
Definition maxDiscoveryRetries : nat := 5.
Definition discoveryChains : list string := ["base"; "skale"].

Section discovery.
Context {S : Type} `{PS : PoolStore S} `{E : Env} `{MB : Multibase} `{PC : PeerCrypto}.
Context (o : Options) (kuboAPIAddr : string).

(** Membership found: config and memory. A failed write is logged only. *)
Definition adopt (poolID : Z) (chainName : string) : M (Blox S) () :=
  _ <- try (on_node (updatePoolName (Itoa poolID)));;
  modify (set_topic (Itoa poolID));;;
  _ <- try (on_node (updateChainName chainName));;
  modify (set_chain chainName).

Fixpoint check_pools (chainName : string) (pools : list EVMPool) : M (Blox S) bool :=
  match pools with
  | [] => ret false
  | pool :: rest =>
      r <- try (on_node (HandleIsMemberOfPool o (clusterPeerID o) (e_ID pool) chainName));;
      match r with
      | inl _ => check_pools chainName rest
      | inr resp => if r_IsMember resp then adopt (e_ID pool) chainName;;; ret true else check_pools chainName rest
      end
  end.

(** [None]: a pool listing used up its fuel. *)
Fixpoint check_chains (fuel : nat) (chainList : list string) : M (Blox S) (option bool) :=
  match chainList with
  | [] => ret (Some false)
  | chainName :: rest =>
      l <- try (on_node (HandleEVMPoolList o fuel chainName));;
      match l with
      | inl _ => check_chains fuel rest
      | inr None => ret None
      | inr (Some pools) =>
          found <- check_pools chainName pools;;
          if (found : bool) then ret (Some true) else check_chains fuel rest
      end
  end.

(** [left] more attempts. *)
Fixpoint discover_attempts (fuel left : nat) (delay : Z) : M (Blox S) (option bool) :=
  match left with
  | O => ret (Some false)
  | Datatypes.S left' =>
      r <- check_chains fuel discoveryChains;;
      match r with
      | Some false =>
          match left' with
          | O => ret (Some false)
          | _ => time_Sleep delay;;; discover_attempts fuel left' (2 * delay)
          end
      | _ => ret r
      end
  end.

Definition needsDiscovery : M (Blox S) bool :=
  t <- gets b_topicName;;
  if (t =? "0")%string then ret true
  else c <- on_node getChainName;; ret (c =? "")%string.

Definition discoverPool (fuel : nat) : M (Blox S) (option bool) :=
  time_Sleep discoveryDelay;;;
  discover_attempts fuel maxDiscoveryRetries retryDelay.

(** The cluster tunnel to the pool's server; failures are logged only. *)
Definition forwardCluster : M (Blox S) () :=
  t <- gets b_topicName;;
  id <- try (on_kubo (fetchServerKuboPeerID t));;
  match id with
  | inl _ => ret ()
  | inr id =>
      modify (set_server id);;;
      _ <- try (on_kubo (registerClusterForward (getKuboAPIAddr kuboAPIAddr) id));;
      ret ()
  end.

(** The part of [Start] between the watchdog's start and the reconcile loop's. [Some found]:
    a search was made. *)
Definition Start_pool (fuel : nat) : M (Blox S) (option (option bool)) :=
  t <- gets b_topicName;;
  (if negb (t =? "0")%string then forwardCluster else ret ());;;
  need <- needsDiscovery;;
  r <- (if (need : bool) then r <- discoverPool fuel;; ret (Some r) else ret None);;
  t <- gets b_topicName;;
  server <- gets b_serverKuboPeerID;;
  (if negb (t =? "0")%string && (server =? "")%string then forwardCluster else ret ());;;
  ret r.

(** The call after it, with the topic name the search left. *)
Definition Start_members : M (Blox S) () :=
  t <- gets b_topicName;;
  _ <- try (on_node (FetchUsersAndPopulateSets o false t true));;
  ret ().

(** ** What a search leaves alone *)

(** Only effects, pauses and kubo calls happened. *)
Definition idle (b b' : Blox S) : Prop :=
  only_fx (b_node b) (b_node b') /\ b_topicName b' = b_topicName b /\ b_chainName b' = b_chainName b.
#[local] Instance idle_preorder : PreOrder idle.
Proof.
  split; [intros b; by split; [reflexivity|]|].
  intros b1 b2 b3 (H1 & ? & ?) (H2 & ? & ?). split; [by etrans|]. split; congruence.
Qed.

Lemma idle_on_node {A} (m : M (Node S) A) : keeps only_fx m -> keeps idle (on_node m).
Proof. intros Hm b. specialize (Hm (b_node b)). unfold on_node. by destruct (m (b_node b)) as [r w]. Qed.
Lemma idle_on_kubo {A} (m : M Kubo A) : keeps idle (@on_kubo S A m).
Proof. intros b. unfold on_kubo. destruct (m (b_kubo b)) as [r k]. by split; [reflexivity|]. Qed.
Lemma idle_sleep d : keeps idle (@time_Sleep S d).
Proof. intros b. by split; [reflexivity|]. Qed.
Lemma idle_set_server p : keeps idle (modify (@set_server S p)).
Proof. intros b. by split; [reflexivity|]. Qed.
#[local] Hint Resolve idle_on_node idle_on_kubo idle_sleep idle_set_server : keeps.

Lemma idle_forward : keeps idle forwardCluster.
Proof. unfold forwardCluster. keeps_go. Qed.

Lemma on_node_Ok {A} (m : M (Node S) A) b a b' : on_node m b = (Ok a, b') ->
  exists w, m (b_node b) = (Ok a, w) /\ b' = set_node w b.
Proof. unfold on_node. destruct (m (b_node b)) as [r w]. intros [= -> <-]. by exists w. Qed.

Context `{L : !PoolStoreLaws S}.

(** ** What adopting a pool does *)
Definition same_files (b b' : Blox S) : Prop :=
  n_files (b_node b') = n_files (b_node b) /\ n_restarts (b_node b') = n_restarts (b_node b).

(** The search ended with this pool of this chain: an endpoint of the chain said that the
    device's cluster key is a member; it is the pool in memory; it is the one in the
    config, unless a write failed. *)
Record found_pool (b b' : Blox S) (poolID : Z) (c : string) : Prop := {
  fp_chain : In c discoveryChains;
  fp_pool : poolID <> 0;
  fp_member : exists key r m, peerIdToBytes32 (clusterPeerID o) = Ok key /\
    answered o (b_node b) (b_node b') c (EncodeIsPeerIdMemberOfPoolCall poolID key) r /\
    DecodeIsMemberOfPoolResult r = Ok m /\ IsMember m = true;
  fp_memory : b_topicName b' = Itoa poolID /\ b_chainName b' = c;
  fp_config : exists w1 w2 r1 r2, same_config (b_node b) w1 /\ updatePoolName (Itoa poolID) w1 = (r1, w2) /\
    updateChainName c w2 = (r2, b_node b') /\
    (r1 = Ok () -> r2 = Ok () -> stored_pool (n_store (b_node b')) = Itoa poolID /\ stored_chain (n_store (b_node b')) = c);
  fp_files : same_files b b'
}.

Lemma update_fx n (w : Node S) :
  (n_fx w <= n_fx (updatePoolName n w).2 /\ n_fx w <= n_fx (updateChainName n w).2)%nat /\
  n_files (updatePoolName n w).2 = n_files w /\ n_restarts (updatePoolName n w).2 = n_restarts w /\
  n_files (updateChainName n w).2 = n_files w /\ n_restarts (updateChainName n w).2 = n_restarts w.
Proof.
  unfold updatePoolName, updateChainName, bind, fs_step. cbn.
  destruct (ps_updatePoolName _ _ _ _), (ps_updateChainName _ _ _ _). cbn. split_and!; try done; lia.
Qed.

(** A call whose error is dropped. *)
Lemma drop_run {A B} (m : M (Node S) A) (k : M (Blox S) B) b r w :
  m (b_node b) = (r, w) -> r <> Panic -> (_ <- try (on_node m);; k) b = k (set_node w b).
Proof. intros E1 H. unfold bind, try, on_node. rewrite E1. by destruct r. Qed.

Lemma adopt_run p c b : exists w2 r1 r2 b', adopt p c b = (Ok (), b') /\
  updatePoolName (Itoa p) (b_node b) = (r1, w2) /\ updateChainName c w2 = (r2, b_node b') /\
  b_topicName b' = Itoa p /\ b_chainName b' = c.
Proof.
  destruct (updatePoolName (Itoa p) (b_node b)) as [r1 w2] eqn:E1, (updateChainName c w2) as [r2 w3] eqn:E2.
  pose proof (update_not_Panic (Itoa p) (b_node b)) as [P1 _]. pose proof (update_not_Panic c w2) as [_ P2].
  rewrite E1 in P1. rewrite E2 in P2. cbn [fst] in P1, P2.
  exists w2, r1, r2, (set_chain c (set_node w3 (set_topic (Itoa p) (set_node w2 b)))).
  split; [|done]. unfold adopt. rewrite (drop_run _ _ _ _ _ E1 P1). unfold bind at 1, modify at 1.
  by rewrite (drop_run _ _ (set_topic (Itoa p) (set_node w2 b)) _ _ E2 P2).
Qed.

(** Adopting after a membership answer. *)
Lemma adopt_found p c b0 b b' : idle b0 b -> In c discoveryChains -> p <> 0 ->
  (exists key r m, peerIdToBytes32 (clusterPeerID o) = Ok key /\
    answered o (b_node b0) (b_node b) c (EncodeIsPeerIdMemberOfPoolCall p key) r /\
    DecodeIsMemberOfPoolResult r = Ok m /\ IsMember m = true) ->
  adopt p c b = (Ok (), b') -> found_pool b0 b' p c.
Proof.
  intros (Hfx & _ & _) Hc Hp (key & r & m & Hk & Ha & Hd & Hm) H.
  destruct (adopt_run p c b) as (w2 & r1 & r2 & b'' & H' & E1 & E2 & Ht & Hch).
  assert (b'' = b') as -> by congruence.
  pose proof (update_fx (Itoa p) (b_node b)) as ((F1 & _) & G1 & G2 & _). rewrite E1 in F1, G1, G2. cbn in F1, G1, G2.
  pose proof (update_fx c w2) as ((_ & F2) & _ & _ & G3 & G4). rewrite E2 in F2, G3, G4. cbn in F2, G3, G4.
  split; try done.
  - exists key, r, m. split_and!; try done. eapply answered_mono; [| |exact Ha]; [done | lia].
  - exists (b_node b), w2, r1, r2. split_and!; try done; [by apply only_fx_same_config|].
    intros -> ->. apply updatePoolName_Ok in E1 as (P1 & P2 & _). apply updateChainName_Ok in E2 as (Q1 & Q2 & _).
    split; congruence.
  - unfold same_files. unfold only_fx in Hfx. destruct_and!. split; congruence.
Qed.

Lemma found_idle b0 b b' p c : idle b0 b -> found_pool b b' p c -> found_pool b0 b' p c.
Proof.
  intros (Hfx & _ & _) [Hc Hp (key & r & m & Hk & Ha & Hd) Hm (w1 & w2 & r1 & r2 & Hs & Hr) [Hf1 Hf2]]. split; try done.
  - exists key, r, m. split; [done|]. split; [|done]. eapply answered_mono; [| |exact Ha]; [apply Hfx | done].
  - exists w1, w2, r1, r2. split; [|done]. etrans; [by apply only_fx_same_config | done].
  - unfold same_files. unfold only_fx in Hfx. destruct_and!. split; congruence.
Qed.

(** [inr true]: a pool was adopted; [inr false]: nothing but effects. *)
Definition searched (b : Blox S) (found : bool) (b' : Blox S) : Prop :=
  if found then exists p c, found_pool b b' p c else idle b b'.

Lemma searched_idle b0 b f b' : idle b0 b -> searched b f b' -> searched b0 f b'.
Proof.
  intros Hi. destruct f; cbn; [|by etrans].
  intros (p & c & H). exists p, c. by eapply found_idle.
Qed.

Lemma idle_run {A} (m : M (Node S) A) b r b' : keeps only_fx m -> on_node m b = (r, b') -> idle b b'.
Proof. intros Hm H. pose proof (idle_on_node m Hm b) as Hi. by rewrite H in Hi. Qed.

Lemma check_pools_run c pools b f b' : In c discoveryChains ->
  check_pools c pools b = (Ok f, b') -> searched b f b'.
Proof.
  intros Hc. revert b. induction pools as [|pool rest IH]; intros b; cbn [check_pools].
  { intros [= <- <-]. cbn. reflexivity. }
  intros (x & b1 & Hx & H)%bind_Ok_inv.
  assert (idle b b1) as Hi by (apply try_Ok_inv in Hx as [(a & _ & Hx)|(e & _ & Hx)]; eapply idle_run; [|exact Hx| |exact Hx]; auto with keeps).
  apply try_Ok_inv in Hx as [(resp & -> & Hx)|(e & -> & Hx)]; [|eapply searched_idle; [exact Hi | by apply IH]].
  destruct (r_IsMember resp) eqn:Em; [|eapply searched_idle; [exact Hi | by apply IH]].
  apply bind_Ok_inv in H as ([] & b2 & Ha & H). injection H as <- <-. exists (e_ID pool), c.
  apply on_node_Ok in Hx as (w & Hx & ->). apply lenient_member_sound in Hx as (Hm & Hp & _).
  destruct (Hm Em) as (key & r & m & Hk & Hans & Hd & Hmem & _).
  eapply adopt_found; [exact Hi | done | destruct Hp; congruence | | exact Ha].
  exists key, r, m. split_and!; try done.
Qed.

Lemma only_fx_pool_list fuel cfg c i pools : keeps only_fx (pool_list_loop (S := S) o fuel cfg c i pools).
Proof.
  revert i pools. induction fuel as [|fuel IH]; intros i pools; cbn [pool_list_loop]; [apply keeps_ret; exact _|].
  pose proof (only_fx_pool_id_at (S := S) o). pose proof (only_fx_pool_details (S := S) o). keeps_go.
Qed.
Lemma only_fx_HandleEVMPoolList fuel c : keeps only_fx (HandleEVMPoolList (S := S) o fuel c).
Proof. unfold HandleEVMPoolList. destruct (_ !! c); [apply only_fx_pool_list | apply keeps_raise; exact _]. Qed.

Lemma check_chains_run fuel cs b f b' : incl cs discoveryChains ->
  check_chains fuel cs b = (Ok (Some f), b') -> searched b f b'.
Proof.
  revert b. induction cs as [|c cs IH]; intros b Hcs; cbn [check_chains].
  { intros [= <- <-]. cbn. reflexivity. }
  apply incl_cons_inv in Hcs as [Hc Hcs]. intros (x & b1 & Hx & H)%bind_Ok_inv.
  assert (idle b b1) as Hi.
  { apply try_Ok_inv in Hx as [(a & _ & Hx)|(e & _ & Hx)]; (eapply idle_run; [|exact Hx]); apply only_fx_HandleEVMPoolList. }
  destruct x as [e|[pools|]]; [eapply searched_idle; [exact Hi | by apply IH] | | done].
  apply bind_Ok_inv in H as (g & b2 & Hg & H). apply (check_pools_run _ _ _ _ _ Hc) in Hg.
  apply (searched_idle _ _ _ _ Hi) in Hg. destruct g; [by injection H as <- <-|].
  eapply searched_idle; [exact Hg | by apply IH].
Qed.

(** ** Pauses *)
Definition no_sleep (b b' : Blox S) : Prop := b_sleeps b' = b_sleeps b.
#[local] Instance no_sleep_preorder : PreOrder no_sleep.
Proof. split; [done|]. intros b1 b2 b3. unfold no_sleep. congruence. Qed.

Lemma no_sleep_node {A} (m : M (Node S) A) : keeps no_sleep (on_node m).
Proof. intros b. unfold on_node. by destruct (m (b_node b)). Qed.
Lemma no_sleep_kubo {A} (m : M Kubo A) : keeps no_sleep (@on_kubo S A m).
Proof. intros b. unfold on_kubo. by destruct (m (b_kubo b)). Qed.
Lemma no_sleep_set f : (forall b, b_sleeps (f b) = b_sleeps b) -> keeps no_sleep (modify f).
Proof. intros H b. apply H. Qed.
#[local] Hint Resolve no_sleep_node no_sleep_kubo : keeps.
#[local] Hint Extern 1 (keeps no_sleep (modify _)) => apply no_sleep_set; done : keeps.

Lemma no_sleep_pools c pools : keeps no_sleep (check_pools c pools).
Proof. unfold check_pools, adopt. induction pools as [|pool rest IH]; keeps_go. Qed.
Lemma no_sleep_chains fuel cs : keeps no_sleep (check_chains fuel cs).
Proof. induction cs as [|c cs IH]; cbn [check_chains]; pose proof (no_sleep_pools); keeps_go. Qed.

(** The pauses between [k + 1] attempts. *)
Definition backoff (delay : Z) (k : nat) : list Z := map (fun i => delay * 2 ^ Z.of_nat i) (seq 0 k).

Lemma backoff_S delay k : backoff delay (Datatypes.S k) = delay :: backoff (2 * delay) k.
Proof.
  unfold backoff. cbn. f_equal; [lia|]. rewrite <- seq_shift, map_map. apply map_ext. intros i.
  rewrite Nat2Z.inj_succ, Z.pow_succ_r by lia. ring.
Qed.

Lemma attempts_run fuel left delay b f b' :
  discover_attempts fuel left delay b = (Ok (Some f), b') ->
  searched b f b' /\ exists k, (k < left \/ left = 0%nat /\ k = 0)%nat /\ b_sleeps b' = (b_sleeps b ++ backoff delay k)%list /\
    (f = false -> k = Nat.pred left).
Proof.
  revert delay b. induction left as [|left IH]; intros delay b; cbn [discover_attempts].
  { intros [= <- <-]. split; [cbn; reflexivity|]. exists 0%nat. cbn. rewrite app_nil_r. auto. }
  intros (r & b1 & Hr & H)%bind_Ok_inv.
  pose proof (no_sleep_chains fuel discoveryChains b) as Hs.
  rewrite Hr in Hs. cbn [snd] in Hs.
  assert (forall g, (Ok (Some g), b1) = (Ok (Some f), b') -> r = Some g -> (g = false -> left = 0%nat) ->
    searched b f b' /\ exists k, (k < Datatypes.S left \/ Datatypes.S left = 0%nat /\ k = 0)%nat /\
      b_sleeps b' = (b_sleeps b ++ backoff delay k)%list /\ (f = false -> k = left)) as Hstop.
  { intros g [= -> ->] -> Hl. split; [by eapply check_chains_run; [apply incl_refl|]|]. exists 0%nat. cbn. rewrite app_nil_r.
    split; [lia|]. split; [done|]. intros ->. by rewrite Hl. }
  destruct r as [[|]|]; [by apply (Hstop true) | | done].
  destruct left as [|left]; [by apply (Hstop false)|].
  unfold bind, time_Sleep, modify in H. apply IH in H as (H1 & k & Hk & H2 & H3).
  apply check_chains_run in Hr; [|apply incl_refl]. split.
  - eapply searched_idle; [exact Hr|]. eapply searched_idle; [|exact H1]. by split; [reflexivity|].
  - exists (Datatypes.S k). split; [lia|]. split; [|intros Hf; rewrite (H3 Hf); done].
    rewrite H2, backoff_S. cbn [b_sleeps add_sleep]. by rewrite Hs, <- app_assoc.
Qed.

(** C21. The search for the device's pool. It waits 30 seconds, then makes at most five
    attempts, one, two, four and eight minutes apart, and gives up after the fifth. When it
    finds nothing, config, files and memory are as before. When it finds a pool, an endpoint
    of one of the two chains has answered that this device's cluster key is a member of that
    pool; the pool and the chain are the ones in memory, and the ones in the config unless
    writing it failed. *)
Theorem discovery_sound fuel b found b' :
  discoverPool fuel b = (Ok (Some found), b') ->
  (exists k, (k <= 4)%nat /\ (found = false -> k = 4%nat) /\
     b_sleeps b' = (b_sleeps b ++ map (Z.mul second) (take (1 + k) [30; 60; 120; 240; 480]))%list) /\
  (if found then exists poolID c, found_pool b b' poolID c
   else only_fx (b_node b) (b_node b') /\ b_topicName b' = b_topicName b /\ b_chainName b' = b_chainName b).
Proof.
  unfold discoverPool. unfold bind at 1, time_Sleep, modify. intros (H1 & k & Hk & H2 & H3)%attempts_run.
  cbn [b_sleeps add_sleep] in H2. split.
  - exists k. unfold maxDiscoveryRetries in *. split; [lia|]. split; [intros Hf; by rewrite (H3 Hf)|].
    rewrite H2, <- app_assoc. f_equal. assert (k <= 4)%nat as Hk4 by lia.
    do 5 (destruct k as [|k]; [reflexivity|]). lia.
  - eapply (searched_idle b) in H1; [exact H1 | by split; [reflexivity|]].
Qed.

(** ** The search ends *)
Lemma chains_end K fuel cs b : ctx_ends K -> (K < fuel)%nat -> (check_chains fuel cs b).1 <> Ok None.
Proof.
  intros HK Hf. revert b. induction cs as [|c cs IH]; intros b; cbn [check_chains]; [done|].
  unfold bind at 1, try, on_node.
  destruct (HandleEVMPoolList o fuel c (b_node b)) as [[[pools|]|e|] w] eqn:El; [| |apply IH|done].
  - unfold bind at 1. destruct (check_pools c pools _) as [[[|]|e|] b2]; done.
  - exfalso. unfold HandleEVMPoolList in El. destruct (chainConfigs o !! c) as [cfg|] eqn:Hc; [|done].
    apply (pool_list_loop_ends o K cfg c fuel 0 [] (b_node b) HK Hc); [lia | by rewrite El].
Qed.

(** The search is over once the context is: with the endpoints silent after [K] effects,
    more than [K] rounds of fuel for each listing are enough. *)
Lemma discovery_ends K fuel b : ctx_ends K -> (K < fuel)%nat -> (discoverPool fuel b).1 <> Ok None.
Proof.
  intros HK Hf. unfold discoverPool, time_Sleep, modify, bind at 1. generalize (add_sleep discoveryDelay b). clear b.
  generalize maxDiscoveryRetries, retryDelay. intros left. induction left as [|left IH]; intros delay b; cbn [discover_attempts]; [done|].
  pose proof (chains_end K fuel discoveryChains b HK Hf) as Hc.
  unfold bind at 1. destruct (check_chains fuel discoveryChains b) as [[[[|]|]|e|] b1]; try done.
  destruct left; [done|]. apply IH.
Qed.

(** ** The cluster tunnel *)
Definition same_server (b b' : Blox S) : Prop := b_serverKuboPeerID b' = b_serverKuboPeerID b.
#[local] Instance same_server_preorder : PreOrder same_server.
Proof. split; [done|]. intros b1 b2 b3. unfold same_server. congruence. Qed.
Lemma server_node {A} (m : M (Node S) A) : keeps same_server (on_node m).
Proof. intros b. unfold on_node. by destruct (m (b_node b)). Qed.
Lemma server_set f : (forall b, b_serverKuboPeerID (f b) = b_serverKuboPeerID b) -> keeps same_server (modify f).
Proof. intros H b. apply H. Qed.
#[local] Hint Resolve server_node : keeps.
#[local] Hint Extern 1 (keeps same_server (modify _)) => apply server_set; done : keeps.
#[local] Hint Extern 1 (keeps same_server (time_Sleep _)) => apply server_set; done : keeps.
Lemma server_pools c pools : keeps same_server (check_pools c pools).
Proof. unfold check_pools, adopt. induction pools as [|pool rest IH]; keeps_go. Qed.
Lemma server_chains fuel cs : keeps same_server (check_chains fuel cs).
Proof. induction cs as [|c cs IH]; cbn [check_chains]; pose proof server_pools; keeps_go. Qed.
Lemma server_discover fuel : keeps same_server (discoverPool fuel).
Proof.
  unfold discoverPool. generalize maxDiscoveryRetries, retryDelay. intros left.
  pose proof (server_chains fuel discoveryChains) as Hc.
  assert (forall delay, keeps same_server (discover_attempts fuel left delay)) as H; [|intros delay; keeps_go].
  induction left as [|left IH]; intros delay; cbn [discover_attempts]; [auto with keeps|]. keeps_go.
Qed.
Lemma server_needs : keeps same_server needsDiscovery.
Proof. unfold needsDiscovery. keeps_go. Qed.

Lemma fetch_nonempty p k id k' : fetchServerKuboPeerID p k = (Ok id, k') -> id <> "".
Proof.
  unfold fetchServerKuboPeerID. intros (r & k1 & _ & H)%bind_Ok_inv. apply bind_Ok_inv in H as (c & k2 & _ & H).
  destruct (String.eqb_spec (TrimSpace (default "" c)) "") as [|Hne]; cbn [negb] in H; [|by injection H as <- <-].
  apply bind_Ok_inv in H as (resp & k3 & _ & H). destruct resp as [|st b]; [done|]. destruct (negb _); [done|].
  destruct (b ≫= _) as [id0|]; [|done]. destruct (String.eqb_spec id0 "") as [|Hne]; [done|].
  apply bind_Ok_inv in H as (? & k4 & _ & H). apply bind_Ok_inv in H as (? & k5 & _ & H). by injection H as <- <-.
Qed.

Lemma server_kubo {A} (m : M Kubo A) : keeps same_server (@on_kubo S A m).
Proof. intros b. unfold on_kubo. by destruct (m (b_kubo b)). Qed.
#[local] Hint Resolve server_kubo : keeps.
Lemma forward_server b id k : fetchServerKuboPeerID (b_topicName b) (b_kubo b) = (Ok id, k) ->
  b_serverKuboPeerID (forwardCluster b).2 = id.
Proof.
  intros Hf. unfold forwardCluster. unfold bind at 1 2, gets, try at 1, on_kubo at 1.
  rewrite Hf. unfold bind at 1, modify.
  match goal with |- b_serverKuboPeerID (?m (set_server id _)).2 = _ =>
    assert (keeps same_server m) as Hk by keeps_go; exact (Hk (set_server id (set_kubo k b))) end.
Qed.

(** The cluster tunnel is not moved: when the configured pool's server is known at
    start-up, it stays the tunnel's end whatever pool the search then adopts. *)
Theorem tunnel_not_moved fuel b id k r b' :
  b_topicName b <> "0" -> fetchServerKuboPeerID (b_topicName b) (b_kubo b) = (Ok id, k) ->
  Start_pool fuel b = (Ok r, b') -> b_serverKuboPeerID b' = id.
Proof.
  intros Ht Hf. pose proof (fetch_nonempty _ _ _ _ Hf) as Hid. unfold Start_pool. unfold bind at 1, gets at 1.
  destruct (String.eqb_spec (b_topicName b) "0") as [|_]; [done|]. cbn [negb].
  intros (u & b1 & H1 & H)%bind_Ok_inv. pose proof (forward_server _ _ _ Hf) as Hs. rewrite H1 in Hs. cbn [snd] in Hs.
  apply bind_Ok_inv in H as (need & b2 & Hn & H). pose proof (server_needs b1) as H2. rewrite Hn in H2. cbn in H2.
  apply bind_Ok_inv in H as (r2 & b3 & Hr & H).
  assert (same_server b2 b3) as H3.
  { assert (keeps same_server (if need then r <- discoverPool fuel;; ret (Some r) else ret None)) as Hk
      by (pose proof server_discover; destruct need; keeps_go).
    specialize (Hk b2). by rewrite Hr in Hk. }
  unfold same_server in *. unfold bind at 1 2, gets in H. rewrite H3, H2, Hs in H.
  destruct (String.eqb_spec id "") as [|_]; [done|]. rewrite andb_false_r in H. injection H as <- <-. congruence.
Qed.
End discovery.

(** ** A device configured for pool 5 whose membership is in pool 7 *)
Section concrete.
#[local] Existing Instance memStore.
#[local] Existing Instance memStoreLaws.
#[local] Existing Instance rawMultibase.

(** Base lists pool 7 alone and counts the device among its members. *)
#[local] Instance startEnv : Env := {|
  env_http := fun _ url j =>
    if HasPrefix url poolsAPIEndpoint then Reply 200 (Some (jq "{'kubo-peerid':'server'}"))
    else if HasPrefix url "https://base" then
      if (call_data_of j =? EncodePoolIdsCall 0)%string then Reply 200 (Some (reply_with ("0x" +:+ abi_word 7)))
      else if HasPrefix (call_data_of j) sigPools then Reply 200 (Some pools_reply)
      else if HasPrefix (call_data_of j) sigIsPeerIdMemberOfPool
      then Reply 200 (Some (reply_with ("0x" +:+ abi_word 1 +:+ abi_word 0)))
      else Reply 200 (Some (reply_with "0x"))
    else Reply 200 (Some (reply_with "0x"));
  env_timer := fun _ _ => true;
  env_now := fun n => Z.of_nat n;
  env_fs := fun _ => FsOk |}.

Definition config_of_five : Node (string * string) := mkNode 0 ("5", "") ∅ ∅ None [] [].
Definition started_in_five : Blox (string * string) := mkBlox config_of_five (mkKubo 0 [] ∅) "5" "" "" [].

Lemma discovery_sound_witness :
  exists b', discoverPool toy_options 10 started_in_five = (Ok (Some true), b') /\
  n_store (b_node b') = ("7", "base") /\
  (exists poolID c, found_pool toy_options started_in_five b' poolID c).
Proof.
  destruct (discoverPool toy_options 10 started_in_five) as [r b'] eqn:H.
  assert (r = Ok (Some true) /\ n_store (b_node b') = ("7", "base")) as [-> Hs]
    by (apply (f_equal (fun x => (x.1, n_store (b_node x.2)))) in H; vm_compute in H; injection H as <- ->; auto).
  exists b'. split; [reflexivity|]. split; [exact Hs|]. apply (discovery_sound _ _ _ _ _ H).
Defined.

Lemma tunnel_not_moved_witness :
  exists b', Start_pool toy_options "" 10 started_in_five = (Ok (Some (Some true)), b') /\
  b_topicName b' = "7" /\ (k_files (b_kubo b') !! cache_path "5") = Some "server" /\ b_serverKuboPeerID b' = "server".
Proof.
  destruct (Start_pool toy_options "" 10 started_in_five) as [r b'] eqn:H.
  assert (r = Ok (Some (Some true)) /\ b_topicName b' = "7" /\ (k_files (b_kubo b') !! cache_path "5") = Some "server")
    as (-> & Ht & Hk) by (apply (f_equal (fun x => (x.1, b_topicName x.2, k_files (b_kubo x.2) !! cache_path "5"))) in H;
                          cbn [fst snd] in H; match type of H with ?x = _ => let y := eval vm_compute in x in change x with y in H end;
                          injection H as <- -> ->; auto).
  exists b'. split; [reflexivity|]. split; [exact Ht|]. split; [exact Hk|].
  destruct (fetchServerKuboPeerID "5" (mkKubo 0 [] ∅)) as [r k] eqn:Hf.
  assert (r = Ok "server") as -> by (apply (f_equal fst) in Hf; vm_compute in Hf; auto).
  apply (tunnel_not_moved toy_options "" 10 started_in_five "server" k (Some (Some true)) b'); [discriminate | exact Hf | exact H].
Defined.
End concrete.
