(* ===== verification/BloxLife.v ===== *)
(** * blox/blox.go, cmd/blox/main.go: shutting the node down

    The node's goroutines are counted by one WaitGroup. A signal runs [Shutdown], which
    cancels the node's own context, closes the servers and the datastore and waits up to
    twenty seconds for the goroutines; main then cancels the context it gave to [Start] and
    waits for the WaitGroup itself. The life of the process is a step function over the
    events of its goroutines; which events happen, in which order, and what the servers and
    the datastore report, is any sequence of events. *)

From S2P Require Import Prelude GoStd.

#[local] Open Scope string_scope.

(** The goroutines counted by the WaitGroup, by the function that starts them. *)
Inductive G :=
| GFetch       (** startFetchCheck *)
| GProxy       (** StartProxy *)
| GPing        (** StartPingProxy *)
| GWatch       (** watchKuboP2P *)
| GReconcile   (** startPoolReconcile *)
| GIpfs        (** the IPFS RPC server *)
| GTicker      (** the six-hour loop *).
#[export] Instance G_eq_dec : EqDecision G.
Proof. solve_decision. Defined.

(** How far [Shutdown] has got: not called, at bl.Shutdown, at its last line, at the IPFS
    server, at ds.Close, at the select, returned (with its error). *)
Inductive SPC := SIdle | SBl | SProxy | SIpfs | SDs | SWait | SRet (err : option string).

Record Life := mkLife {
  l_live : list G;
  l_sd : SPC;
  l_pCtx : bool;         (** p.cancel was called *)
  l_ctx : bool;          (** main's cancel was called *)
  l_fetchStop : bool;
  l_pingDown : bool;
  l_proxyDown : bool;
  l_ipfsDown : bool;
  l_exited : bool        (** main's wg.Wait returned *)
}.

(** After [Start]: [host] is poolHostMode, [ipfs] is DefaultIPFShttpServer == "fula". *)
Definition started (host ipfs : bool) : Life :=
  mkLife ([GFetch; GProxy; GPing; GWatch] ++ (if host then [] else [GReconcile; GTicker]) ++ (if ipfs then [GIpfs] else []))%list
    SIdle false false false false false false false.

(** What a goroutine waits for. The reconcile pass ends by itself. *)
Definition may_end (s : Life) (g : G) : bool :=
  match g with
  | GFetch => l_fetchStop s
  | GProxy => l_proxyDown s
  | GPing => l_pingDown s
  | GWatch => l_ctx s
  | GReconcile => true
  | GIpfs => l_ipfsDown s
  | GTicker => l_ctx s || l_pCtx s
  end.

Definition deadlineExceeded := "context deadline exceeded".

Inductive Ev :=
| EEnd (g : G)
| ESignal                       (** the signal goroutine calls Shutdown: p.cancel *)
| EBl                           (** bl.Shutdown up to ShutdownPingProxy *)
| EProxy (err : option string)  (** ShutdownProxy's result *)
| EIpfs                         (** IPFShttpServer.Shutdown; its error is logged *)
| EDs (err : option string)     (** ds.Close's result *)
| EDone                         (** <-done *)
| ETimeout                      (** <-shutdownCtx.Done() *)
| EMainCancel                   (** cancel() after Shutdown *)
| EExit                         (** wg.Wait in main *).

Definition set_sd (p : SPC) (s : Life) : Life :=
  mkLife (l_live s) p (l_pCtx s) (l_ctx s) (l_fetchStop s) (l_pingDown s) (l_proxyDown s) (l_ipfsDown s) (l_exited s).

Definition life_step (e : Ev) (s : Life) : option Life :=
  match e, l_sd s with
  | EEnd g, _ =>
      if decide (g ∈ l_live s) then
        if may_end s g then
          Some (mkLife (filter (fun h => h <> g) (l_live s)) (l_sd s) (l_pCtx s) (l_ctx s) (l_fetchStop s) (l_pingDown s)
                  (l_proxyDown s) (l_ipfsDown s) (l_exited s))
        else None
      else None
  | ESignal, SIdle =>
      Some (mkLife (l_live s) SBl true (l_ctx s) (l_fetchStop s) (l_pingDown s) (l_proxyDown s) (l_ipfsDown s) (l_exited s))
  | EBl, SBl => Some (mkLife (l_live s) SProxy (l_pCtx s) (l_ctx s) true true (l_proxyDown s) (l_ipfsDown s) (l_exited s))
  | EProxy err, SProxy =>
      Some (mkLife (l_live s) (match err with Some _ => SRet err | None => SIpfs end) (l_pCtx s) (l_ctx s) (l_fetchStop s)
              (l_pingDown s) true (l_ipfsDown s) (l_exited s))
  | EIpfs, SIpfs => Some (mkLife (l_live s) SDs (l_pCtx s) (l_ctx s) (l_fetchStop s) (l_pingDown s) (l_proxyDown s) true (l_exited s))
  | EDs err, SDs => Some (set_sd (match err with Some _ => SRet err | None => SWait end) s)
  | EDone, SWait => if decide (l_live s = []) then Some (set_sd (SRet None) s) else None
  | ETimeout, SWait => Some (set_sd (SRet (Some deadlineExceeded)) s)
  | EMainCancel, SRet _ =>
      Some (mkLife (l_live s) (l_sd s) (l_pCtx s) true (l_fetchStop s) (l_pingDown s) (l_proxyDown s) (l_ipfsDown s) (l_exited s))
  | EExit, _ =>
      if l_ctx s then
        if decide (l_live s = []) then
          Some (mkLife (l_live s) (l_sd s) (l_pCtx s) (l_ctx s) (l_fetchStop s) (l_pingDown s) (l_proxyDown s) (l_ipfsDown s) true)
        else None
      else None
  | _, _ => None
  end.

Fixpoint life_run (es : list Ev) (s : Life) : option Life :=
  match es with
  | [] => Some s
  | e :: es' => s' ← life_step e s; life_run es' s'
  end.

Lemma stop_run_app es1 es2 s : life_run (es1 ++ es2)%list s = (s' ← life_run es1 s; life_run es2 s').
Proof. revert s. induction es1 as [|e es1 IH]; intros s; cbn; [done|]. by destruct (life_step e s); cbn. Qed.

(** An invariant of the steps holds along every run. *)
Lemma life_run_inv (P : Life -> Prop) es s s' :
  (forall e s s', P s -> life_step e s = Some s' -> P s') -> P s -> life_run es s = Some s' -> P s'.
Proof.
  intros Hstep. revert s. induction es as [|e es IH]; intros s HP; cbn; [by intros [= <-]|].
  destruct (life_step e s) as [s1|] eqn:E; [|done]. cbn. apply IH. by eapply Hstep.
Qed.

(** ** Shutdown never finds the goroutines done *)

(** Main's context is cancelled only after [Shutdown]; until then the watchdog lives, and
    [Shutdown] has not returned nil. *)
Definition watch_inv (s : Life) : Prop :=
  (l_ctx s = false -> GWatch ∈ l_live s) /\ (l_ctx s = true -> exists r, l_sd s = SRet r) /\ l_sd s <> SRet None.

Lemma watch_step e s s' : watch_inv s -> life_step e s = Some s' -> watch_inv s'.
Proof.
  intros (H1 & H2 & H3) H. unfold watch_inv.
  destruct (l_ctx s) eqn:Ec.
  - destruct (H2 eq_refl) as [r Hr]. unfold life_step in H. rewrite Hr, Ec in H.
    destruct e; try done; repeat case_decide; repeat case_match; simplify_eq; cbn; rewrite ?Ec, ?Hr in *; naive_solver.
  - specialize (H1 eq_refl). assert (l_live s <> []) as Hne by (intros Hn; rewrite Hn in H1; by apply not_elem_of_nil in H1).
    unfold life_step in H. rewrite Ec in H.
    destruct e as [g| | |err| |err| | | |]; [destruct (decide (g = GWatch)) as [->|]|..]; destruct (l_sd s) eqn:Es; cbn in H;
      rewrite ?Ec in H; try done; repeat case_decide; repeat case_match; simplify_eq; cbn; rewrite ?Ec, ?Es;
      (split_and!; [|try done|done]); try done; try (intros _; apply list_elem_of_filter; by split); try naive_solver.
Qed.

(** C23. [Shutdown] never ends cleanly: whatever the goroutines do and however long they have,
    it returns an error, because the kubo watchdog it waits for listens to the context that
    main cancels only after [Shutdown] has returned. When the servers and the datastore close
    without error, every stop of the node takes the full twenty seconds. *)
Theorem shutdown_never_clean host ipfs es s r :
  life_run es (started host ipfs) = Some s -> l_sd s = SRet r -> exists err, r = Some err.
Proof.
  intros Hr Hs. assert (watch_inv s) as (_ & _ & H).
  { eapply (life_run_inv watch_inv); [apply watch_step | | exact Hr]. split_and!; try done. intros _. cbn. set_solver. }
  destruct r as [err|]; [by exists err | by rewrite Hs in H].
Qed.

(** ** The process can always end *)

(** Past bl.Shutdown the fetch loop and the ping server are stopped; a returned [Shutdown]
    has stopped the proxy too. *)
Definition stop_inv (s : Life) : Prop :=
  (GIpfs ∉ l_live s) /\
  match l_sd s with
  | SIdle | SBl => True
  | SProxy => l_fetchStop s = true /\ l_pingDown s = true
  | _ => l_fetchStop s = true /\ l_pingDown s = true /\ l_proxyDown s = true
  end.

Lemma stop_step e s s' : stop_inv s -> life_step e s = Some s' -> stop_inv s'.
Proof.
  intros (H1 & H2) H. unfold life_step in H.
  destruct e as [g| | |err| |err| | | |]; destruct (l_sd s) eqn:Es; try done; repeat case_decide; repeat case_match; simplify_eq;
    (split; [cbn; try (by intros [_ ?]%list_elem_of_filter); done|]); cbn in *; rewrite ?Es; try done; naive_solver.
Qed.

(** Every goroutine may end once main's context is cancelled and the servers are down. *)
Lemma drain s : l_ctx s = true -> l_fetchStop s = true -> l_pingDown s = true -> l_proxyDown s = true -> GIpfs ∉ l_live s ->
  exists es s', life_run es s = Some s' /\ l_exited s' = true.
Proof.
  intros Hc Hf Hp Hx. remember (length (l_live s)) as n eqn:Hn.
  assert (length (l_live s) <= n)%nat as Hle by lia. clear Hn.
  revert s Hc Hf Hp Hx Hle. induction n as [|n IH]; intros s Hc Hf Hp Hx Hle Hi; destruct (l_live s) as [|g live] eqn:El; cbn in Hle; try lia.
  1,2: exists [EExit]; cbn; rewrite Hc, decide_True by done; by eexists.
  set (s1 := mkLife (filter (fun h => h <> g) (l_live s)) (l_sd s) (l_pCtx s) (l_ctx s) (l_fetchStop s) (l_pingDown s)
                  (l_proxyDown s) (l_ipfsDown s) (l_exited s)).
  assert (life_step (EEnd g) s = Some s1) as Hg.
  { unfold life_step. rewrite decide_True by (rewrite El; constructor).
    destruct g; unfold may_end; rewrite ?Hc, ?Hf, ?Hp, ?Hx; try (subst s1; rewrite ?Hc, ?Hf, ?Hp, ?Hx; done). exfalso. apply Hi. constructor. }
  destruct (IH s1) as (es & s' & Hr & He); try done.
  - cbn. rewrite El, filter_cons_False by (intros Hne; by apply Hne). pose proof (length_filter (fun h => h <> g) live). lia.
  - cbn. rewrite El. intros [_ ?]%list_elem_of_filter. set_solver.
  - exists (EEnd g :: es), s'. split; [|done]. cbn [life_run]. by rewrite Hg.
Qed.

(** From a signal on, [Shutdown] can return and main can cancel its context. *)
Lemma to_cancel s : stop_inv s -> l_sd s <> SIdle ->
  exists es s', life_run es s = Some s' /\ stop_inv s' /\ l_ctx s' = true /\ exists r, l_sd s' = SRet r.
Proof.
  intros Hs Hn.
  assert (exists es s', life_run es s = Some s' /\ exists r, l_sd s' = SRet r) as (es & s1 & Hr & r & H1).
  { destruct (l_sd s) eqn:Es; [done|..].
    - exists [EBl; EProxy None; EIpfs; EDs None; ETimeout]. cbn. rewrite Es. cbn. by eauto.
    - exists [EProxy None; EIpfs; EDs None; ETimeout]. cbn. rewrite Es. cbn. by eauto.
    - exists [EIpfs; EDs None; ETimeout]. cbn. rewrite Es. cbn. by eauto.
    - exists [EDs None; ETimeout]. cbn. rewrite Es. cbn. by eauto.
    - exists [ETimeout]. cbn. rewrite Es. cbn. by eauto.
    - exists [], s. split; [done|]. by eauto. }
  assert (stop_inv s1) as Hs1 by (eapply (life_run_inv stop_inv); [apply stop_step | exact Hs | exact Hr]).
  destruct (life_step EMainCancel s1) as [s2|] eqn:E2; [|unfold life_step in E2; by rewrite H1 in E2].
  exists (es ++ [EMainCancel])%list, s2. rewrite stop_run_app, Hr. cbn [mbind option_bind life_run]. rewrite E2.
  split; [done|]. split; [by eapply stop_step|]. unfold life_step in E2. rewrite H1 in E2. injection E2 as <-. cbn. by eauto.
Qed.

(** The process is never stuck: configured as main does it, with no IPFS server of its
    own, from every state after the signal there is a way to the end of main, whatever the
    servers and the datastore reported and whichever goroutines have ended so far. *)
Theorem process_exits host es s :
  life_run es (started host false) = Some s -> l_sd s <> SIdle ->
  exists es' s', life_run es' s = Some s' /\ l_exited s' = true.
Proof.
  intros Hr Hn. assert (stop_inv s) as Hs.
  { eapply (life_run_inv stop_inv); [apply stop_step | | exact Hr]. split; [destruct host; by apply (bool_decide_unpack _) | done]. }
  destruct (to_cancel s Hs Hn) as (es1 & s1 & H1 & [Hi Hs1] & Hc & r & Er). rewrite Er in Hs1. destruct Hs1 as (Hf & Hp & Hx).
  destruct (drain s1 Hc Hf Hp Hx Hi) as (es2 & s2 & H2 & He). exists (es1 ++ es2)%list, s2. rewrite stop_run_app, H1. by split.
Qed.

(** With the IPFS server, a [Shutdown] that returned before stopping it (the proxy reported an
    error) leaves it running: main waits for it for ever. *)
Lemma ipfs_server_hangs err s es s' :
  l_sd s = SRet err -> l_ipfsDown s = false -> GIpfs ∈ l_live s -> l_exited s = false ->
  life_run es s = Some s' -> l_exited s' = false.
Proof.
  intros Hs Hd Hl He Hr.
  set (P := fun s => l_sd s = SRet err /\ l_ipfsDown s = false /\ GIpfs ∈ l_live s /\ l_exited s = false).
  assert (P s') as (_ & _ & _ & H); [|exact H].
  eapply (life_run_inv P); [|by split_and!|exact Hr].
  clear. intros e s s' (Hs & Hd & Hl & He) H. unfold life_step in H. rewrite Hs in H.
  assert (l_live s <> []) as Hne by (intros Hn; rewrite Hn in Hl; by apply not_elem_of_nil in Hl).
  destruct e as [g| | |r| |r| | | |]; try done; [destruct (decide (g = GIpfs)) as [->|]|..]; cbn in H; rewrite ?Hd in H;
    repeat case_decide; repeat case_match; simplify_eq; unfold P; cbn; split_and!; try done. by apply list_elem_of_filter.
Qed.

(** ** Witnesses *)
Definition clean_stop : list Ev :=
  [ESignal; EEnd GTicker; EBl; EEnd GFetch; EEnd GPing; EProxy None; EEnd GProxy; EIpfs; EDs None; EEnd GReconcile; ETimeout].

Definition timed_out : Life := mkLife [GWatch] (SRet (Some deadlineExceeded)) true false true true true true false.

Lemma shutdown_never_clean_witness :
  life_run clean_stop (started false false) = Some timed_out /\ exists err, Some deadlineExceeded = Some err.
Proof.
  assert (life_run clean_stop (started false false) = Some timed_out) as H by (vm_compute; reflexivity).
  split; [exact H|]. apply (shutdown_never_clean false false clean_stop timed_out _ H). reflexivity.
Defined.

Lemma process_exits_witness : exists es' s', life_run es' timed_out = Some s' /\ l_exited s' = true.
Proof. apply (process_exits false clean_stop timed_out); [vm_compute; reflexivity | discriminate]. Defined.
