(* ===== verification/BlockFiles.v ===== *)
(** * blox/blox.go: the six-hour loop and the block files

    Every six hours a node that hosts no pool reconciles its pool, asks kubo to collect
    garbage unless a sync is running, and lists the block files that were written since the
    last time. A block's file is named by the base32 text of its multihash; the list gives the
    CIDs read back from the names. The directory tree is data; multibase, multihash and CID
    construction are parameters. *)

From S2P Require Import Prelude GoStd Json GoPath PeerId SignedAuth Effects Node Evm PoolConfig KuboProxy Blox.

#[local] Open Scope string_scope.
#[local] Open Scope Z_scope.

Definition upper_char (c : ascii) : ascii :=
  if (97 <=? byte_val c) && (byte_val c <=? 122) then byte_of (byte_val c - 32) else c.
(** strings.ToUpper on ASCII text *)
Definition ToUpper (s : string) : string := smap upper_char s.
(** strings.HasSuffix *)
Definition HasSuffix (s suf : string) : bool := HasPrefix (String.rev s) (String.rev suf).
(** strings.TrimSuffix(base, filepath.Ext(base)): what precedes the last dot *)
Definition trim_ext (base : string) : string :=
  match cut_last "." base with
  | Some (a, _) => a
  | None => base
  end.

Definition DagCBOR : Z := 113.

(** multihash.Encode and cid.NewCidV1. *)
Class CidLib := {
  BCid : Type;
  mh_Encode : string -> Z -> outcome string;
  NewCidV1 : Z -> string -> BCid
}.
(** A multihash with a one-byte code and length is the code, the length and the digest. *)
Class CidLibLaws (C : CidLib) : Prop := {
  mh_Encode_small : forall d code, 0 <= code < 128 -> len d < 128 ->
    mh_Encode d code = Ok (String (byte_of code) (String (byte_of (len d)) d))
}.

Section names.
Context `{MB : Multibase} `{CL : CidLib}.

(** The slice bytes[2:] panics before bytes[0] could. *)
Definition hexStringToCID (hexDigest : string) : outcome BCid :=
  match hex_decode hexDigest with
  | None => Err "error decoding hex digest"
  | Some bytes =>
      match bytes with
      | String c0 (String _ digest) =>
          match mh_Encode digest (byte_val c0) with
          | Ok mh => Ok (NewCidV1 DagCBOR mh)
          | Err e => Err ("error constructing multihash: " +:+ e)
          | Panic => Panic
          end
      | _ => Panic
      end
  end.

Definition findDigestHexFromBase32Multibase (d : string) : outcome string :=
  match mb_decode d with
  | Ok b => Ok (hex_encode b)
  | Err e => Err ("error decoding multibase: " +:+ e)
  | Panic => Panic
  end.

Definition FindCIDFromDigest (d : string) : outcome BCid :=
  match findDigestHexFromBase32Multibase d with
  | Ok hexStr =>
      match hexStringToCID hexStr with
      | Ok c => Ok c
      | Err e => Err ("error finding cid value from hex: " +:+ e)
      | Panic => Panic
      end
  | Err e => Err ("error finding hex value: " +:+ e)
  | Panic => Panic
  end.

Definition GetCidv1FromBlockFilename (filename : string) : outcome BCid :=
  FindCIDFromDigest (String "B" (ToUpper (trim_ext (path_base filename)))).

(** ** The directory tree *)

(** [None] for a time that cannot be read, or children that cannot be listed. *)
Inductive Ent :=
| EFile (name : string) (mtime : option Z)
| EDir (name : string) (mtime : option Z) (children : option (list Ent)).

Definition ent_name (e : Ent) : string := match e with EFile n _ | EDir n _ _ => n end.

(** time.After, the zero time being before every other. *)
Definition after (t : Z) (last : option Z) : bool := match last with Some l => l <? t | None => true end.

Definition join_path (dir name : string) : string := dir +:+ "/" +:+ name.

(** The first walk: the topmost directories below the root that changed since [last], with
    their subtrees, which the callback's SkipDir leaves out. *)
Fixpoint modified_dirs (last : option Z) (root : bool) (path : string) (e : Ent) : outcome (list (string * Ent)) :=
  match e with
  | EFile _ _ => Ok []
  | EDir name mtime children =>
      let descend :=
        match children with
        | None => Err "readdir"
        | Some l =>
            (fix go l :=
               match l with
               | [] => Ok []
               | c :: rest =>
                   match modified_dirs last false (join_path path (ent_name c)) c with
                   | Ok xs => match go rest with Ok ys => Ok (xs ++ ys)%list | Err m => Err m | Panic => Panic end
                   | Err m => Err m
                   | Panic => Panic
                   end
               end) l
        end in
      if negb root && negb (HasSuffix name ".temp") then
        match mtime with
        | None => Err "stat"
        | Some t => if after t last then Ok [(path, e)] else descend
        end
      else descend
  end.

(** The second walk, in one goroutine per directory: the CIDs of the block files, and whether
    an error ended it. What was found before an error is kept; the error is logged. *)
Fixpoint dir_links (last : option Z) (path : string) (e : Ent) : outcome (list BCid * bool) :=
  match e with
  | EFile name mtime =>
      if negb (HasSuffix name ".temp") && HasSuffix name ".data" then
        match mtime with
        | None => Ok ([], true)
        | Some t =>
            if after t last then
              match GetCidv1FromBlockFilename path with
              | Ok c => Ok ([c], false)
              | Err _ => Ok ([], false)
              | Panic => Panic
              end
            else Ok ([], false)
        end
      else Ok ([], false)
  | EDir _ _ None => Ok ([], true)
  | EDir _ _ (Some l) =>
      (fix go l :=
         match l with
         | [] => Ok ([], false)
         | c :: rest =>
             match dir_links last (join_path path (ent_name c)) c with
             | Ok (xs, true) => Ok (xs, true)
             | Ok (xs, false) =>
                 match go rest with Ok (ys, b) => Ok ((xs ++ ys)%list, b) | Err m => Err m | Panic => Panic end
             | Err m => Err m
             | Panic => Panic
             end
         end) l
  end.

Fixpoint all_links (last : option Z) (dirs : list (string * Ent)) : outcome (list BCid) :=
  match dirs with
  | [] => Ok []
  | (p, e) :: rest =>
      match dir_links last p e with
      | Ok (xs, _) => match all_links last rest with Ok ys => Ok (xs ++ ys)%list | Err m => Err m | Panic => Panic end
      | Err m => Err m
      | Panic => Panic
      end
  end.

Definition blocksDir := "/uniondrive/ipfs_datastore/blocks".

(** The goroutines' links come in any order; here, directory by directory. A panic of one
    goroutine ends the process. *)
Definition ListModifiedStoredBlocks (last : option Z) (tree : Ent) : outcome (list BCid) :=
  match modified_dirs last true blocksDir tree with
  | Ok dirs => all_links last dirs
  | Err m => Err m
  | Panic => Panic
  end.

(** ** The reference: one flat listing, filtered *)

(** Every file of the tree with its path, name and time, and whether a directory below the
    root on the way to it changed since [last] and is not a .temp one. *)
Fixpoint files (last : option Z) (root fresh : bool) (path : string) (e : Ent) : list (bool * string * string * Z) :=
  match e with
  | EFile name mtime => [(fresh, path, name, default 0 mtime)]
  | EDir name mtime children =>
      let fresh' := fresh || (negb root && negb (HasSuffix name ".temp") && after (default 0 mtime) last) in
      match children with
      | Some l => flat_map (fun c => files last false fresh' (join_path path (ent_name c)) c) l
      | None => []
      end
  end.

Definition block_of (last : option Z) (f : bool * string * string * Z) : option BCid :=
  let '(fresh, path, name, t) := f in
  if fresh && HasSuffix name ".data" && after t last then
    match GetCidv1FromBlockFilename path with Ok c => Some c | _ => None end
  else None.
Definition modified_blocks (last : option Z) (tree : Ent) : list BCid :=
  omap (block_of last) (files last true false blocksDir tree).

Fixpoint readable (e : Ent) : bool :=
  match e with
  | EFile _ mtime => bool_decide (is_Some mtime)
  | EDir _ mtime children => bool_decide (is_Some mtime) && match children with Some l => forallb readable l | None => false end
  end.
(** No block file's name is too short to be a multihash. *)
Definition named_well (f : bool * string * string * Z) : Prop :=
  let '(_, path, name, _) := f in HasSuffix name ".data" = true -> GetCidv1FromBlockFilename path <> Panic.

Lemma Ent_ind' (P : Ent -> Prop) :
  (forall n t, P (EFile n t)) -> (forall n t, P (EDir n t None)) ->
  (forall n t l, Forall P l -> P (EDir n t (Some l))) -> forall e, P e.
Proof.
  intros Hf Hn Hd. fix IH 1. intros [n t|n t [l|]]; [apply Hf | | apply Hn].
  apply Hd. induction l as [|e l IHl]; constructor; [apply IH | exact IHl].
Qed.

Lemma data_not_temp name : HasSuffix name ".data" = true -> HasSuffix name ".temp" = false.
Proof.
  unfold HasSuffix, HasPrefix. change (String.rev ".data") with "atad.". change (String.rev ".temp") with "pmet.".
  destruct (String.rev name) as [|a s]; [done|]. cbn [String.prefix].
  destruct (ascii_dec "a" a) as [<-|]; [|done]. by destruct (ascii_dec "p" "a").
Qed.

(** The children's walks, given what each gives. *)
Lemma links_list last path l fs : 
  Forall (fun c => forall path, readable c = true -> Forall named_well (files last false true path c) ->
    dir_links last path c = Ok (omap (block_of last) (files last false true path c), false)) l ->
  forallb readable l = true -> fs = flat_map (fun c => files last false true (join_path path (ent_name c)) c) l ->
  Forall named_well fs -> forall n t, dir_links last path (EDir n t (Some l)) = Ok (omap (block_of last) fs, false).
Proof.
  intros HF Hr -> Hw n t. cbn [dir_links]. induction l as [|c l IH]; [done|].
  apply Forall_cons in HF as [Hc HF]. cbn in Hr, Hw. apply andb_true_iff in Hr as [Hr1 Hr2]. apply Forall_app in Hw as [Hw1 Hw2].
  rewrite (Hc _ Hr1 Hw1), (IH HF Hr2 Hw2). cbn [flat_map]. by rewrite omap_app.
Qed.

Lemma dir_links_ref last path e : readable e = true -> Forall named_well (files last false true path e) ->
  dir_links last path e = Ok (omap (block_of last) (files last false true path e), false).
Proof.
  revert path. induction e as [n t|n t|n t l IH] using Ent_ind'; intros path Hr Hw.
  - cbn in Hr. apply bool_decide_eq_true in Hr as [t0 ->]. apply Forall_cons in Hw as [Hw _]. cbn in *.
    destruct (HasSuffix n ".data") eqn:Ed; [|by rewrite andb_false_r].
    rewrite (data_not_temp _ Ed). cbn. destruct (after t0 last); [|done]. cbn.
    destruct (GetCidv1FromBlockFilename path); [done|done|]. by destruct (Hw eq_refl).
  - cbn in Hr. by rewrite andb_false_r in Hr.
  - cbn [readable] in Hr. apply andb_true_iff in Hr as [_ Hr]. by eapply links_list.
Qed.

Lemma modified_ref last root path e : readable e = true -> Forall named_well (files last root false path e) ->
  exists ds, modified_dirs last root path e = Ok ds /\ all_links last ds = Ok (omap (block_of last) (files last root false path e)).
Proof.
  revert root path. induction e as [n t|n t|n t l IH] using Ent_ind'; intros root path Hr Hw.
  - by exists [].
  - cbn in Hr. by rewrite andb_false_r in Hr.
  - cbn [readable] in Hr. apply andb_true_iff in Hr as [Ht Hr]. apply bool_decide_eq_true in Ht as [t0 ->].
    cbn [files default] in *. unfold default, from_option, id in *. cbn [orb] in *.
    set (g := negb root && negb (HasSuffix n ".temp") && after t0 last) in *.
    assert (g = false -> exists ds, modified_dirs last true path (EDir n (Some t0) (Some l)) = Ok ds /\
      all_links last ds = Ok (omap (block_of last) (flat_map (fun c => files last false false (join_path path (ent_name c)) c) l))) as Hd.
    { intros Hg. rewrite Hg in Hw. cbn [modified_dirs negb andb]. clear Hg g. induction l as [|c l IHl]; [by exists []|].
      apply Forall_cons in IH as [Hc IH]. cbn in Hr, Hw. apply andb_true_iff in Hr as [Hr1 Hr2]. apply Forall_app in Hw as [Hw1 Hw2].
      destruct (Hc _ _ Hr1 Hw1) as (d1 & E1 & L1). destruct (IHl IH Hr2 Hw2) as (d2 & E2 & L2).
      exists (d1 ++ d2)%list. rewrite E1. cbn in E2. rewrite E2. split; [done|]. cbn [flat_map]. rewrite omap_app.
      clear E1 E2. revert L1. generalize (omap (block_of last) (files last false false (join_path path (ent_name c)) c)).
      induction d1 as [|[p e] d1 IHd]; intros xs L1; cbn in L1; [injection L1 as <-; done|].
      cbn. destruct (dir_links last p e) as [[ys b]| |]; [|done|done]. destruct (all_links last d1) as [zs| |]; [|done|done].
      injection L1 as <-. rewrite (IHd zs eq_refl). by rewrite <- app_assoc. }
    destruct g eqn:Eg.
    + unfold g in Eg. apply andb_true_iff in Eg as [Eg Ea]. cbn [modified_dirs]. rewrite Eg, Ea.
      exists [(path, EDir n (Some t0) (Some l))]. split; [done|]. unfold all_links.
      rewrite (links_list last path l _ (Forall_true _ l (fun c p => dir_links_ref last p c)) Hr eq_refl Hw).
      by rewrite app_nil_r.
    + destruct (Hd eq_refl) as (ds & E1 & E2). exists ds. split; [|done]. cbn [modified_dirs] in *.
      unfold g in Eg. destruct (negb root && negb (HasSuffix n ".temp")); [|done]. cbn in Eg. by rewrite Eg.
Qed.

(** C27. The two walks find exactly the blocks of the flat listing. The tree must be readable
    in full, and no .data file may have a name too short to be a multihash: a directory that
    cannot be read ends the walk, whose remaining blocks are left out, and a short name ends
    the process (see [short_name_panics]). Then the result is, in order, the CID of each .data
    file whose name gives one, which was written since the last check and lies below a changed
    directory. In particular a file below unchanged directories is not looked at, however new
    it is. *)
Theorem modified_blocks_equiv last tree :
  readable tree = true -> Forall named_well (files last true false blocksDir tree) ->
  ListModifiedStoredBlocks last tree = Ok (modified_blocks last tree).
Proof.
  intros Hr Hw. unfold ListModifiedStoredBlocks, modified_blocks.
  destruct (modified_ref last true blocksDir tree Hr Hw) as (ds & -> & H). exact H.
Qed.

(** ** Names and CIDs *)
Lemma split_app_gen sep s t : split_char sep (s +:+ String sep t) = (split_char sep s ++ split_char sep t)%list.
Proof.
  induction s as [|c s IH]; cbn; [by rewrite Ascii.eqb_refl|]. rewrite IH.
  destruct (c =? sep)%char; [done|]. pose proof (split_char_nonempty sep s). by destruct (split_char sep s).
Qed.

Lemma path_base_join dir w : w <> "" -> no_char "/" w = true -> path_base (join_path dir w) = w.
Proof.
  intros Hw Hs. unfold path_base, join_path. change ("/" +:+ w) with (String "/" w).
  destruct (String.eqb_spec (dir +:+ String "/" w) "") as [E|_]; [by destruct dir|].
  rewrite split_app_gen, (split_char_none "/" w Hs), filter_app, filter_cons_True by done. by rewrite filter_nil, last_snoc.
Qed.

Lemma trim_ext_data w : no_char "." w = true -> trim_ext (w +:+ ".data") = w.
Proof.
  intros Hw. unfold trim_ext, cut_last. change ".data" with (String "." "data"). by rewrite (split_char_app "." w "data" Hw).
Qed.

(** The base32 alphabet. *)
Definition b32_char (c : ascii) : bool :=
  ((65 <=? byte_val c) && (byte_val c <=? 90)) || ((50 <=? byte_val c) && (byte_val c <=? 55)).

Lemma ToUpper_b32 s : sforall b32_char s = true -> ToUpper s = s.
Proof.
  unfold ToUpper. induction s as [|c s IH]; [done|]. cbn [sforall smap].
  intros [Hc Hs]%andb_true_iff. rewrite (IH Hs). f_equal.
  unfold upper_char, b32_char in *. destruct (Z.leb_spec 97 (byte_val c)); [|done]. cbn.
  destruct (Z.leb_spec (byte_val c) 90), (Z.leb_spec (byte_val c) 55); [lia|lia|lia|].
  by rewrite !andb_false_r in Hc.
Qed.
Lemma b32_no_char sep s : b32_char sep = false -> sforall b32_char s = true -> no_char sep s = true.
Proof.
  intros Hsep. apply sforall_weaken. intros c Hc. destruct (Ascii.eqb_spec c sep) as [->|]; [congruence | done].
Qed.

(** A block's CID is read back from its file name: for a multihash with a one-byte code
    and length, the file the datastore keeps it in, named by its base32 text, gives the
    dag-cbor CID of that very multihash. *)
Theorem block_file_roundtrip `{!CidLibLaws CL} (enc32 : string -> string) dir code digest :
  (forall b, mb_decode (String "B" (enc32 b)) = Ok b) -> (forall b, sforall b32_char (enc32 b) = true) ->
  0 <= code < 128 -> len digest < 128 ->
  let mh := String (byte_of code) (String (byte_of (len digest)) digest) in
  GetCidv1FromBlockFilename (join_path dir (enc32 mh +:+ ".data")) = Ok (NewCidV1 DagCBOR mh).
Proof.
  intros Hdec Hchr Hc Hd mh. unfold GetCidv1FromBlockFilename. rewrite path_base_join.
  - rewrite trim_ext_data by (by apply b32_no_char). rewrite ToUpper_b32 by apply Hchr.
    unfold FindCIDFromDigest, findDigestHexFromBase32Multibase. rewrite Hdec. unfold hexStringToCID.
    rewrite hex_decode_encode. unfold mh. rewrite byte_val_of by lia. by rewrite mh_Encode_small.
  - by destruct (enc32 mh).
  - unfold no_char. rewrite sforall_app. apply andb_true_iff. split; [by apply (b32_no_char "/") | done].
Qed.

(** A name that decodes to fewer than two bytes panics in the slice, and with it the process. *)
Lemma short_name_panics dir w b : w <> "" -> no_char "/" w = true ->
  mb_decode (String "B" (ToUpper (trim_ext w))) = Ok b -> (String.length b < 2)%nat ->
  GetCidv1FromBlockFilename (join_path dir w) = Panic.
Proof.
  intros Hw Hs Hd Hb. unfold GetCidv1FromBlockFilename. rewrite path_base_join by done.
  unfold FindCIDFromDigest, findDigestHexFromBase32Multibase. rewrite Hd. unfold hexStringToCID. rewrite hex_decode_encode.
  destruct b as [|c0 [|c1 b]]; [done | done | cbn in Hb; lia].
Qed.
End names.

(** ** The six-hour loop *)

(** os.Stat: an error other than not-exist, not there, or the modification time. *)
Inductive StatRes := StatErr | StatNone | StatTime (t : Z).

(** What one turn finds: the time of .last_time_ipfs_checked and of fula-pinning's .syncing,
    the clock, the block files, and whether the new time can be written. *)
Record TickIn := mkTickIn {
  ti_last : StatRes; ti_sync : StatRes; ti_now : Z; ti_tree : Ent; ti_write : bool
}.
(** What it did: asked kubo for repo/gc, listed blocks, wrote the time. *)
Record TickOut {C : Type} := mkTickOut { to_gc : bool; to_links : list C; to_marked : bool }.
Arguments TickOut : clear implicits.
Arguments mkTickOut {C} _ _ _.

Section loop.
Context {S : Type} `{PS : PoolStore S} `{E : Env} `{MB : Multibase} `{PC : PeerCrypto} `{CL : CidLib}.
Context (o : Options).

(** The error is logged; the pool stays. *)
Definition reconcilePool : M (Blox S) () :=
  _ <- try (on_node (ReconcilePoolConfig o));; ret ().

(** None of the errors leaves anything to clean up: the turn is over. *)
Definition GetLastCheckedTime (s : StatRes) : outcome (option Z) :=
  match s with
  | StatErr => Err "stat"
  | StatNone => Ok None
  | StatTime t => Ok (Some t)
  end.

Definition skipGC (i : TickIn) : bool :=
  match ti_sync i with
  | StatTime m => ti_now i - m <? 30 * minute
  | _ => false
  end.

Definition periodic (i : TickIn) : M (Blox S) (TickOut BCid) :=
  reconcilePool;;;
  match GetLastCheckedTime (ti_last i) with
  | Ok last =>
      t <- on_node getPoolName;;
      modify (set_topic t);;;
      if negb (t =? "0")%string then
        match ListModifiedStoredBlocks last (ti_tree i) with
        | Ok links => ret (mkTickOut (negb (skipGC i)) links (ti_write i))
        | Err _ => ret (mkTickOut (negb (skipGC i)) [] false)
        | Panic => panic
        end
      else ret (mkTickOut false [] (ti_write i))
  | _ => ret (mkTickOut false [] false)
  end.

Context `{L : !PoolStoreLaws S}.

(** A turn that collects garbage belongs to a node whose config names a pool at that moment,
    and in memory it is that pool: a pool the reconcile has just dropped is not used. *)
Lemma gc_only_with_pool i b out b' :
  periodic i b = (Ok out, b') -> to_gc out = true ->
  b_topicName b' <> "0" /\ b_topicName b' = stored_pool (n_store (b_node b')) /\ skipGC i = false.
Proof.
  unfold periodic. intros (u & b1 & _ & H)%bind_Ok_inv.
  destruct (GetLastCheckedTime (ti_last i)) as [last|e|]; [|by injection H as <- <-..].
  apply bind_Ok_inv in H as (t & b2 & Ht & H). apply on_node_Ok in Ht as (w & Ht & ->).
  unfold bind at 1, modify in H. intros Hgc. destruct (String.eqb_spec t "0") as [|Hne]; cbn [negb] in H; [by injection H as <- <-|].
  assert (b' = set_topic t (set_node w b1) /\ skipGC i = false) as [-> Hs].
  { destruct (ListModifiedStoredBlocks last (ti_tree i)); [| |done]; injection H as <- <-; cbn in Hgc; by rewrite negb_true_iff in Hgc. }
  cbn. split; [done|]. split; [|done]. pose proof (getPoolName_Ok _ _ _ Ht) as [->|]; [|done].
  pose proof (same_config_getPoolName (b_node b1)) as (Hp & _). rewrite Ht in Hp. cbn in Hp. congruence.
Qed.
End loop.

(** ** Witnesses *)
Section concrete.
(** Hexadecimal text in place of base32, with letters for the digits. *)
Definition to_b32 (c : ascii) : ascii := byte_of (65 + match digit_val c with Some d => d | None => 0 end).
Definition of_b32 (c : ascii) : ascii := digit_char (byte_val c - 65).
#[local] Instance letterBase : Multibase := {|
  mb_encode58 := fun b => Ok (String "z" b);
  mb_decode := fun s => match hex_decode (smap of_b32 (sdrop 1 s)) with Some b => Ok b | None => Err "base32" end |}.
#[local] Instance plainCid : CidLib := {|
  BCid := Z * string;
  mh_Encode := fun d code => Ok (String (byte_of code) (String (byte_of (len d)) d));
  NewCidV1 := fun codec mh => (codec, mh) |}.
#[local] Instance plainCid_laws : CidLibLaws plainCid.
Proof. by split. Qed.

Definition letter_enc (b : string) : string := smap to_b32 (hex_encode b).

Lemma letter_digit d : 0 <= d < 16 -> of_b32 (to_b32 (digit_char d)) = digit_char d /\ b32_char (to_b32 (digit_char d)) = true.
Proof.
  intros Hd. unfold to_b32. rewrite digit_val_char by lia. unfold of_b32, b32_char. rewrite byte_val_of by lia.
  split; [f_equal; lia|]. rewrite (proj2 (Z.leb_le 65 _)), (proj2 (Z.leb_le _ 90)) by lia. done.
Qed.
Lemma letter_enc_ok b : smap of_b32 (letter_enc b) = hex_encode b /\ sforall b32_char (letter_enc b) = true.
Proof.
  unfold letter_enc. induction b as [|c b [IH1 IH2]]; [done|]. cbn [hex_encode smap sforall].
  pose proof (byte_val_range c). destruct (letter_digit (byte_val c / 16)) as [-> ->]; [split; [apply Z.div_pos | apply Z.div_lt_upper_bound]; lia|].
  destruct (letter_digit (byte_val c mod 16)) as [-> ->]; [apply Z.mod_pos_bound; lia|]. by rewrite IH1, IH2.
Qed.

Lemma block_file_roundtrip_witness :
  GetCidv1FromBlockFilename (join_path "/blocks/AB" (letter_enc (String (byte_of 30) (String (byte_of (len "hash")) "hash")) +:+ ".data"))
  = Ok (NewCidV1 DagCBOR (String (byte_of 30) (String (byte_of (len "hash")) "hash"))).
Proof.
  apply (block_file_roundtrip (CL := plainCid) letter_enc "/blocks/AB" 30 "hash").
  - intros b. unfold mb_decode, letterBase. change (sdrop 1 (String "B" (letter_enc b))) with (letter_enc b).
    rewrite (proj1 (letter_enc_ok b)). rewrite hex_decode_encode. reflexivity.
  - intros b. exact (proj2 (letter_enc_ok b)).
  - lia.
  - vm_compute. reflexivity.
Defined.

(** Two shards, one changed since time 10, each with an old and a new block. *)
Definition block (digest : string) : string := letter_enc (String (byte_of 30) (String (byte_of (len digest)) digest)) +:+ ".data".
Definition two_shards : Ent :=
  EDir "blocks" (Some 5) (Some
    [EDir "AA" (Some 20) (Some [EFile (block "one") (Some 20); EFile (block "old") (Some 3)]);
     EDir "BB" (Some 4) (Some [EFile (block "two") (Some 30)]); EFile "SHARDING" (Some 1)]).

Lemma modified_blocks_equiv_witness :
  ListModifiedStoredBlocks (Some 10) two_shards = Ok (modified_blocks (Some 10) two_shards) /\
  modified_blocks (Some 10) two_shards = [(DagCBOR, String (byte_of 30) (String (byte_of (len "one")) "one"))].
Proof.
  split; [|vm_compute; reflexivity]. apply (modified_blocks_equiv (Some 10) two_shards); [vm_compute; reflexivity|].
  repeat constructor; intros _; vm_compute; discriminate.
Defined.
End concrete.
