(* ===== verification/Server.v ===== *)
(** * blockchain/blockchain.go: the dispatch table with its handlers

    [Access] leaves the handlers open; here they are the ones of the other files: pool
    configuration, relay, plugins, auto-pin, NAS, and the hardware handlers, whose interface
    [WifiOps] is implemented by the operations of wap/pkg/wifi. The result is the whole
    server behind the kubo stream, from a signed request to the state of the device. *)

From S2P Require Import Prelude GoStd Json JsonPrint GoPath PeerId SignedAuth Abi Effects Access Node Disk Evm PoolConfig Schema Relay Nas.
From S2P Require Import Properties WifiProps Plugins AutoPin Wifi Clients Hardware Chat.

#[local] Open Scope string_scope.
#[local] Open Scope Z_scope.

(** What [dispatch] does to the rest of the device: nothing, or what one handler does. *)
Lemma dispatch_rest `{PeerCrypto} {W : Type} (run : Handler -> string -> option string -> M W Resp) from action body st :
  (dispatch run from action body st).2.2 = st.2 \/
  exists h, route action = Some h /\ (dispatch run from action body st).2.2 = (run h from body st.2).2.
Proof.
  unfold dispatch. destruct (route action) as [h|]; [|by left].
  assert (forall h, (let '(r, w) := run h from body st.2 in (r, (st.1, w))).2.2 = (run h from body st.2).2) as Hr
    by (intros h'; by destruct (run h' _ _ _)).
  destruct h; try (right; eexists; split; [done|apply Hr]). left. by destruct (handleAuthorization _ _).
Qed.

Section server.
Context {S : Type} `{PS : PoolStore S} `{E : Env} `{MB : Multibase} `{PC : PeerCrypto} `{X : Exec} `{DK : Docker} `{KC : KuboClient}.
Context (o : Options) (dbPath hostname : string) (getenv : string -> string) (uuid_New : nat -> string).
Context (cid_Decode : string -> outcome string) (ipfsClusterApi : option (nat -> string -> string + string)).
(** How many chunks of a chat answer are sent before the client goes away. *)
Context (chat_cut : nat -> option nat).

(** ** wap/pkg/wifi as the hardware handlers see it

    An operation without an error result always returns its answer ([wifi_json_total]), and
    none of the others panics ([wifi_sum_total]). *)
Definition as_json (m : M (Node S) json) (w : Node S) : json * Node S :=
  match m w with (Ok j, w') => (j, w') | (_, w') => (JNull, w') end.
Definition as_sum {A : Type} (m : M (Node S) A) (w : Node S) : (string + A) * Node S :=
  match m w with (Ok a, w') => (inr a, w') | (Err e, w') => (inl e, w') | (Panic, w') => (inl "", w') end.

#[global] Instance wifiNode : WifiOps (Node S) := {|
  wifi_GetBloxFreeSpace := as_sum WifiProps.GetBloxFreeSpace;
  wifi_EraseBlData := as_json Wifi.EraseBlData;
  wifi_WifiRemoveall := as_json Wifi.WifiRemoveall;
  wifi_Reboot := as_json Wifi.Reboot;
  wifi_Partition := as_json Wifi.Partition;
  wifi_DeleteFulaConfig := as_json Wifi.DeleteFulaConfig;
  wifi_DeleteWifi := fun n => as_json (Wifi.DeleteWifi n);
  wifi_DisconnectNamedWifi := fun n => as_json (Wifi.DisconnectNamedWifi n);
  wifi_FetchContainerLogs := fun c t => as_sum (WifiProps.FetchContainerLogs c t);
  wifi_FindBestAndTargetInLogs := fun c t => as_sum (WifiProps.FindBestAndTargetInLogs c t);
  wifi_GetFolderSize := fun p => as_sum (WifiProps.GetFolderSize p);
  wifi_GetDatastoreSize := as_sum WifiProps.GetDatastoreSize;
  wifi_GetDockerImageBuildDates := as_sum WifiProps.GetDockerImageBuildDates;
  wifi_GetClusterInfo := as_sum WifiProps.GetClusterInfo |}.

(** ** handleChatWithAI *)
Definition chat_message (msg : string) : string :=
  json_print (JObj [("status", JBool true); ("msg", JStr msg)]) +:+ String (ascii_of_nat 10) "".

(** The status line is sent before the model is asked, so an error after it is text in a 200
    answer. *)
Definition handleChatWithAI (body : option string) : M (Node S) Resp :=
  match decode_2 "ai_model" "user_message" body with
  | None => ret (http_Error "failed to decode request" StatusBadRequest)
  | Some (model, msg) =>
      r <- try (FetchAIResponse model msg);;
      match r with
      | inl e => ret (mkResp StatusOK (BText ("Error fetching AI response: " +:+ e +:+ String (ascii_of_nat 10) "")))
      | inr chunks =>
          cut <- fx chat_cut;;
          let chunks := match cut with Some k => firstn k chunks | None => chunks end in
          ret (mkResp StatusOK (BText (sconcat (map chat_message (handleChatWithAI_loop "" chunks).1))))
      end
  end.

(** ** The table *)
Definition run_handler (h : Handler) (from : string) (body : option string) : M (Node S) Resp :=
  match h with
  | HAction method action => handleAction o dbPath method action body
  | HPoolJoin => HandlePoolJoin o body
  | HPoolCancelJoin => HandlePoolCancelJoin o dbPath MethodPost actionPoolCancelJoin body
  | HPoolLeave => HandlePoolLeave o body
  | HManifestBatchUpload => manifestBatchUpload o body
  | HReplicateInPool => r <- handleReplicateInPool o dbPath cid_Decode ipfsClusterApi MethodPost body;; ret r.1
  | HAuthorization => ret (http_Error "" StatusNotFound)
  | HBloxFreeSpace => handleBloxFreeSpace body
  | HWifiRemoveall => handleWifiRemoveall body
  | HReboot => handleReboot body
  | HPartition => handlePartition body
  | HDeleteFulaConfig => handleDeleteFulaConfig body
  | HDeleteWifi => handleDeleteWifi body
  | HDisconnectWifi => handleDisconnectWifi body
  | HGetAccount => ret (mkResp StatusOK BEmpty)
  | HEraseBlData => handleEraseBlData body
  | HFetchContainerLogs => handleFetchContainerLogs body
  | HChatWithAI => handleChatWithAI body
  | HFindBestAndTargetInLogs => handleFindBestAndTargetInLogs body
  | HGetFolderSize => handleGetFolderSize body
  | HGetDatastoreSize => handleGetDatastoreSize body
  | HGetDockerImageBuildDates => handleGetDockerImageBuildDates body
  | HGetClusterInfo => handleGetClusterInfo body
  | HPlugin action => handlePluginAction action body
  | HAutoPinPair => handleAutoPinPair getenv uuid_New body
  | HAutoPinRefresh => handleAutoPinRefresh body
  | HAutoPinUnpair => handleAutoPinUnpair
  | HNasCredentials => handleNasCredentials hostname body
  end.

(** [dispatch] answers the authorization action itself, so its entry above is never run. *)
Definition serve_device (reqs : list (Z * Request)) : AuthState * Node S -> AuthState * Node S := serve_all run_handler reqs.

(** ** The operations return *)
Definition returns (m : M (Node S) json) : Prop := forall w, exists j w', m w = (Ok j, w').

Lemma returns_bind {A} (m : M (Node S) A) (k : A -> M (Node S) json) :
  (forall w, exists a w', m w = (Ok a, w')) -> (forall a, returns (k a)) -> returns (bind m k).
Proof. intros Hm Hk w. destruct (Hm w) as (a & w' & Ha). unfold bind. rewrite Ha. apply Hk. Qed.
Lemma returns_ret j : returns (ret j).
Proof. intros w. by exists j, w. Qed.
Lemma returns_try {A} (m : M (Node S) A) w : no_panic m -> exists a w', try m w = (Ok a, w').
Proof. intros Hm. specialize (Hm w). unfold try. destruct (m w) as [[a|e|] w']; cbn in *; [by eauto..|done]. Qed.
Lemma returns_nmcli s w : exists a w', runCommand (S := S) ("nmcli " +:+ s) w = (Ok a, w').
Proof.
  destruct (runCommand_run ("nmcli " +:+ s) w) as (out & w' & H & _); [|by eauto].
  change ("nmcli " +:+ s) with ("nmcli" +:+ String " " s). by rewrite Fields_cons.
Qed.
Ltac returns_go :=
  repeat match goal with
  | |- forall _, _ => intro
  | |- returns (bind _ _) => apply returns_bind
  | |- returns (ret _) => apply returns_ret
  | |- returns (match ?x with _ => _ end) => destruct x
  | |- returns ((match ?x with _ => _ end) _) => destruct x
  | |- exists _ _, gets _ _ = _ => by do 2 eexists
  | |- exists _ _, modify _ _ = _ => by do 2 eexists
  | |- exists _ _, fs_step _ = _ => by do 2 eexists
  | |- exists _ _, try _ _ = _ => apply returns_try
  end.

Lemma np_Remove p : no_panic (os_Remove (S := S) p).
Proof. intros w. unfold os_Remove, fs_step, bind. by destruct (env_fs _). Qed.
Lemma np_RemoveConfig p : no_panic (os_RemoveConfig (S := S) p).
Proof. apply np_bind; [apply np_Remove | done]. Qed.
Lemma np_remove_all ps : no_panic (remove_all (S := S) ps).
Proof. induction ps; cbn [remove_all]; [done|]. apply np_bind; [apply np_Remove | done]. Qed.
Lemma np_connections : no_panic (getWifiConnections (S := S)).
Proof. apply np_bind; [apply np_nmcli|]. intros out. by destruct (co_err out). Qed.
Lemma returns_delete_each cs w : exists l w', delete_each (S := S) cs w = (Ok l, w').
Proof.
  revert w. induction cs as [|c cs IH]; intros w; [by eauto|]. cbn [delete_each]. unfold bind.
  destruct (returns_nmcli ("con delete '" +:+ TrimSpace c +:+ "'") w) as (out & w1 & H1).
  change ("nmcli con delete '" +:+ TrimSpace c +:+ "'") with ("nmcli " +:+ ("con delete '" +:+ TrimSpace c +:+ "'")).
  rewrite H1. destruct (IH w1) as (l & w2 & H2). rewrite H2. by do 2 eexists.
Qed.

Lemma wifi_json_total :
  returns Wifi.EraseBlData /\ returns Wifi.WifiRemoveall /\ returns Wifi.Reboot /\ returns Wifi.Partition /\
  returns Wifi.DeleteFulaConfig /\ (forall n, returns (Wifi.DeleteWifi n)) /\ (forall n, returns (Wifi.DisconnectNamedWifi n)).
Proof.
  unfold Wifi.EraseBlData, Wifi.WifiRemoveall, Wifi.Reboot, Wifi.Partition, touch_new, Wifi.DeleteFulaConfig, Wifi.DeleteWifi,
    Wifi.DisconnectNamedWifi.
  split_and!; returns_go; auto using np_Remove, np_RemoveConfig, np_remove_all, np_connections, returns_delete_each.
  - exact (returns_nmcli ("con delete '" +:+ _) _).
  - exact (returns_nmcli ("con down " +:+ _) _).
Qed.
Ltac no_panic_go :=
  repeat match goal with
  | |- forall _, _ => intro
  | |- no_panic (bind _ _) => apply np_bind
  | |- no_panic (try _) => apply np_try
  | |- no_panic (wrapErr _ _) => apply np_wrapErr
  | |- no_panic (match ?x with _ => _ end) => destruct x
  | |- no_panic _ => done
  | |- no_panic _ => solve [eauto]
  end.

Lemma np_read_file p : no_panic (read_file (S := S) p).
Proof. intros w. unfold read_file, fs_step, bind. by destruct (env_fs _). Qed.
Lemma np_build_dates cs : no_panic (build_dates (S := S) cs).
Proof. induction cs; cbn [build_dates]; no_panic_go. Qed.
Lemma np_GetKuboPeerID : no_panic (GetKuboPeerID (S := S)).
Proof. unfold GetKuboPeerID. cbn zeta. no_panic_go. Qed.
#[local] Hint Resolve np_read_file np_build_dates np_GetKuboPeerID : core.

Lemma wifi_sum_total :
  no_panic (WifiProps.GetBloxFreeSpace (S := S)) /\ (forall c t, no_panic (WifiProps.FetchContainerLogs (S := S) c t)) /\
  (forall c t, no_panic (WifiProps.FindBestAndTargetInLogs (S := S) c t)) /\ (forall p, no_panic (WifiProps.GetFolderSize (S := S) p)) /\
  no_panic (WifiProps.GetDatastoreSize (S := S)) /\ no_panic (WifiProps.GetDockerImageBuildDates (S := S)) /\ no_panic (WifiProps.GetClusterInfo (S := S)).
Proof.
  unfold WifiProps.GetBloxFreeSpace, WifiProps.FetchContainerLogs, fetchLogsFromFile, WifiProps.FindBestAndTargetInLogs,
    fetchLogsFromDocker, WifiProps.GetFolderSize, WifiProps.GetDatastoreSize, WifiProps.GetDockerImageBuildDates,
    WifiProps.GetClusterInfo, cluster_id_api, cluster_id_file, cluster_id_props, cluster_id_key, GetClusterPeerIDFromIdentity,
    ReadProperties.
  cbn [first_id]. split_and!; no_panic_go.
Qed.
(** ** Which handlers reach the configuration *)
Definition same_store (w w' : Node S) : Prop := n_store w' = n_store w.
#[local] Instance same_store_preorder : PreOrder same_store.
Proof. split; [done|]. intros w1 w2 w3. unfold same_store. congruence. Qed.

Lemma ss_only_fx {A} (m : M (Node S) A) : keeps only_fx m -> keeps same_store m.
Proof. intros H w. by destruct (H w) as (_ & ? & _). Qed.
Lemma ss_modify f : (forall w : Node S, n_store (f w) = n_store w) -> keeps same_store (modify f).
Proof. intros H w. apply H. Qed.
Lemma ss_fx {A} (f : nat -> A) : keeps same_store (fx (S := S) f).
Proof. by intros w. Qed.
Lemma ss_cmd_Output n a : keeps same_store (cmd_Output (S := S) n a).
Proof. by intros w. Qed.
Lemma ss_cmd_Run n a : keeps same_store (cmd_Run (S := S) n a).
Proof. by intros w. Qed.
Lemma ss_http u j : keeps same_store (http_Do (S := S) u j).
Proof. by intros w. Qed.
Lemma ss_timer d : keeps same_store (time_After (S := S) d).
Proof. by intros w. Qed.
Lemma ss_fs : keeps same_store (fs_step (S := S)).
Proof. by intros w. Qed.
#[local] Hint Resolve ss_fx ss_cmd_Output ss_cmd_Run ss_http ss_timer ss_fs : keeps.
#[local] Hint Extern 1 (keeps same_store (modify _)) => apply ss_modify; done : keeps.

Lemma ss_ReadFile p : keeps same_store (os_ReadFile (S := S) p).
Proof. unfold os_ReadFile. keeps_go. Qed.
Lemma ss_MkdirAll p : keeps same_store (os_MkdirAll (S := S) p).
Proof. unfold os_MkdirAll. keeps_go. Qed.
Lemma ss_WriteFile p d : keeps same_store (os_WriteFile (S := S) p d).
Proof. unfold os_WriteFile. keeps_go. Qed.
Lemma ss_Remove p : keeps same_store (os_Remove (S := S) p).
Proof. unfold os_Remove. keeps_go. Qed.
Lemma ss_read_file p : keeps same_store (read_file (S := S) p).
Proof. unfold read_file. keeps_go. Qed.
Lemma ss_ctx_done : keeps same_store (ctx_done (S := S)).
Proof. unfold ctx_done. keeps_go. Qed.
#[local] Hint Resolve ss_ReadFile ss_MkdirAll ss_WriteFile ss_Remove ss_read_file ss_ctx_done : keeps.
Lemma ss_write_file p d : keeps same_store (write_file (S := S) p d).
Proof. unfold write_file. keeps_go. Qed.
Lemma ss_runCommand c : keeps same_store (runCommand (S := S) c).
Proof. unfold runCommand. keeps_go. Qed.
Lemma ss_WriteHeader code : keeps same_store (WriteHeader (W := Node S) code).
Proof. unfold WriteHeader. keeps_go. Qed.
#[local] Hint Resolve ss_write_file ss_runCommand ss_WriteHeader : keeps.

(** *** The operations of wap/pkg/wifi *)
Lemma ss_op_json (m : M (Node S) json) : keeps same_store m -> keeps same_store (op_json (as_json m)).
Proof. intros H w. specialize (H w). unfold op_json, as_json. by destruct (m w) as [[]]. Qed.
Lemma ss_op_or {A} (m : M (Node S) A) bad good : keeps same_store m -> keeps same_store (op_or (as_sum m) bad good).
Proof. intros H w. specialize (H w). unfold op_or, as_sum. by destruct (m w) as [[]]. Qed.
Lemma ss_answer code j : keeps same_store (answer (W := Node S) code j).
Proof. unfold answer. keeps_go. Qed.
#[local] Hint Resolve ss_op_json ss_op_or ss_answer : keeps.

Lemma ss_remove_all ps : keeps same_store (remove_all (S := S) ps).
Proof. induction ps; cbn [remove_all]; keeps_go. Qed.
Lemma ss_delete_each cs : keeps same_store (delete_each (S := S) cs).
Proof. induction cs; cbn [delete_each]; keeps_go. Qed.
Lemma ss_build_dates cs : keeps same_store (build_dates (S := S) cs).
Proof. induction cs; cbn [build_dates]; keeps_go. Qed.
Lemma ss_logs c t : keeps same_store (fetchLogsFromDocker (S := S) c t).
Proof. unfold fetchLogsFromDocker. keeps_go. Qed.
#[local] Hint Resolve ss_remove_all ss_delete_each ss_build_dates ss_logs : keeps.

Lemma ss_ReadProperties : keeps same_store (ReadProperties (S := S)).
Proof. unfold ReadProperties. keeps_go. Qed.
Lemma ss_GetKuboPeerID : keeps same_store (GetKuboPeerID (S := S)).
Proof. unfold GetKuboPeerID. keeps_go. Qed.
#[local] Hint Resolve ss_ReadProperties ss_GetKuboPeerID : keeps.
Lemma ss_GetClusterInfo : keeps same_store (WifiProps.GetClusterInfo (S := S)).
Proof.
  unfold WifiProps.GetClusterInfo, cluster_id_api, cluster_id_file, cluster_id_props, cluster_id_key, GetClusterPeerIDFromIdentity.
  cbn [first_id]. keeps_go.
Qed.
#[local] Hint Resolve ss_GetClusterInfo : keeps.

Lemma ss_ops :
  keeps same_store (WifiProps.GetBloxFreeSpace (S := S)) /\ keeps same_store (Wifi.EraseBlData (S := S)) /\
  keeps same_store (Wifi.WifiRemoveall (S := S)) /\ keeps same_store (Wifi.Reboot (S := S)) /\
  keeps same_store (Wifi.Partition (S := S)) /\
  (forall n, keeps same_store (Wifi.DeleteWifi (S := S) n)) /\
  (forall n, keeps same_store (Wifi.DisconnectNamedWifi (S := S) n)) /\
  (forall c t, keeps same_store (WifiProps.FetchContainerLogs (S := S) c t)) /\
  (forall c t, keeps same_store (WifiProps.FindBestAndTargetInLogs (S := S) c t)) /\
  (forall p, keeps same_store (WifiProps.GetFolderSize (S := S) p)) /\
  keeps same_store (WifiProps.GetDatastoreSize (S := S)) /\
  keeps same_store (WifiProps.GetDockerImageBuildDates (S := S)).
Proof.
  unfold WifiProps.GetBloxFreeSpace, Wifi.EraseBlData, Wifi.WifiRemoveall, getWifiConnections, Wifi.Reboot, Wifi.Partition,
    touch_new, Wifi.DeleteWifi, Wifi.DisconnectNamedWifi, WifiProps.FetchContainerLogs,
    fetchLogsFromFile, WifiProps.FindBestAndTargetInLogs, WifiProps.GetFolderSize, WifiProps.GetDatastoreSize,
    WifiProps.GetDockerImageBuildDates.
  split_and!; keeps_go.
Qed.

(** The handlers that run an operation of wap/pkg/wifi. *)
Definition hardware_handler (h : Handler) : bool :=
  match h with
  | HBloxFreeSpace | HWifiRemoveall | HReboot | HPartition | HDeleteWifi | HDisconnectWifi | HEraseBlData
  | HFetchContainerLogs | HFindBestAndTargetInLogs | HGetFolderSize | HGetDatastoreSize | HGetDockerImageBuildDates
  | HGetClusterInfo => true
  | _ => false
  end.

Lemma ss_hardware h from body : hardware_handler h = true -> keeps same_store (run_handler h from body).
Proof.
  destruct ss_ops as (? & ? & ? & ? & ? & ? & ? & ? & ? & ? & ? & ?).
  destruct h; cbn [run_handler hardware_handler]; intros Hh; try discriminate Hh;
    unfold handleBloxFreeSpace, handleEraseBlData, handleWifiRemoveall, handleReboot, handlePartition,
    handleDeleteWifi, handleDisconnectWifi, handleFetchContainerLogs,
    handleFindBestAndTargetInLogs, handleGetFolderSize, handleGetDatastoreSize, handleGetDockerImageBuildDates,
    handleGetClusterInfo, decode_failed; keeps_go; cbn; eauto with keeps.
Qed.

Lemma ss_chat body : keeps same_store (handleChatWithAI body).
Proof. unfold handleChatWithAI, FetchAIResponse. keeps_go. Qed.

(** *** The handlers of the package *)
Lemma ss_WriteProperties p : keeps same_store (WriteProperties (S := S) p).
Proof. unfold WriteProperties. keeps_go. Qed.
Lemma ss_set_prop k v p : keeps same_store (set_prop (S := S) k v p).
Proof. unfold set_prop. keeps_go. Qed.
Lemma ss_hardware_or_empty : keeps same_store (hardware_or_empty (S := S) getenv).
Proof. unfold hardware_or_empty, GetHardwareID. keeps_go. Qed.
Lemma ss_respond code j : keeps same_store (respond (S := S) code j).
Proof. unfold respond. keeps_go. Qed.
#[local] Hint Resolve ss_WriteProperties ss_set_prop ss_hardware_or_empty ss_respond : keeps.

Lemma ss_autopin body :
  keeps same_store (handleAutoPinPair (S := S) getenv uuid_New body) /\
  keeps same_store (handleAutoPinRefresh (S := S) body) /\ keeps same_store (handleAutoPinUnpair (S := S)).
Proof. unfold handleAutoPinPair, handleAutoPinRefresh, handleAutoPinUnpair. split_and!; cbn zeta; keeps_go. Qed.

Lemma ss_nas body : keeps same_store (handleNasCredentials (S := S) hostname body).
Proof. unfold handleNasCredentials, writeNasCredentialsStatus. cbn zeta. keeps_go. Qed.

Lemma ss_plugin_details ns active : keeps same_store (plugin_details (S := S) ns active).
Proof. induction ns; cbn [plugin_details]; keeps_go. Qed.
Lemma ss_install_params p ps k : keeps same_store k -> keeps same_store (install_params (S := S) p ps k).
Proof. intros Hk. induction ps; cbn [install_params]; cbn zeta; keeps_go. Qed.
Lemma ss_copy_lines ls : keeps same_store (copy_lines (S := S) ls).
Proof. induction ls; cbn [copy_lines]; keeps_go. Qed.
Lemma ss_read_outputs p ns out : keeps same_store (read_outputs (S := S) p ns out).
Proof. revert out. induction ns; intros out; cbn [read_outputs]; keeps_go. Qed.
Lemma ss_read_list p e : keeps same_store (read_list (S := S) p e).
Proof. unfold read_list. keeps_go. Qed.
#[local] Hint Resolve ss_plugin_details ss_install_params ss_copy_lines ss_read_outputs ss_read_list : keeps.

Lemma ss_plugin action body : keeps same_store (handlePluginAction (S := S) action body).
Proof.
  unfold handlePluginAction, plugin_action, listPluginsImpl, listActivePluginsImpl, installPluginImpl, uninstallPluginImpl,
    ShowPluginStatus, showPluginStatusImpl, getInstallOutputImpl, getInstallStatusImpl, updatePluginImpl, install_append,
    setPluginStatus, readActivePlugins, readUpdatePlugins, writeActivePlugins, writeUpdatePlugins, unless_done.
  cbn zeta. repeat case_match; simplify_eq; keeps_go; cbn zeta; keeps_go.
  apply ss_install_params. keeps_go.
Qed.

Lemma ss_callBlockchain method action p : keeps same_store (callBlockchain o dbPath method action p).
Proof. unfold callBlockchain, PlugSeedIfNeeded, LoadKey. cbn zeta. keeps_go. Qed.
#[local] Hint Resolve ss_callBlockchain : keeps.
Lemma ss_relay_error st r e : keeps same_store (relay_error (S := S) st r e).
Proof. unfold relay_error. keeps_go. Qed.
Lemma ss_relay_status st r : keeps same_store (relay_status (S := S) st r).
Proof. unfold relay_status. keeps_go. Qed.
#[local] Hint Resolve ss_relay_error ss_relay_status : keeps.
Lemma ss_handleAction method action body : keeps same_store (handleAction o dbPath method action body).
Proof. unfold handleAction. keeps_go. Qed.
Lemma ss_pin_all api ms : keeps same_store (pin_all (S := S) cid_Decode api ms).
Proof. induction ms; cbn [pin_all]; unfold pin; keeps_go. Qed.
#[local] Hint Resolve ss_pin_all : keeps.
Lemma ss_replicate body : keeps same_store (handleReplicateInPool o dbPath cid_Decode ipfsClusterApi MethodPost body).
Proof.
  unfold handleReplicateInPool, failed_dependency, writeError. cbn zeta.
  keeps_go.
Qed.

(** The handlers that are given the configuration's accessors, and the one that deletes the
    file behind them. *)
Definition config_handler (h : Handler) : bool :=
  match h with HPoolJoin | HPoolCancelJoin | HPoolLeave | HManifestBatchUpload | HDeleteFulaConfig => true | _ => false end.

Lemma ss_handler h from body : config_handler h = false -> keeps same_store (run_handler h from body).
Proof.
  destruct (hardware_handler h) eqn:Eh; [intros _; by apply ss_hardware|].
  destruct (ss_autopin body) as (? & ? & ?).
  destruct h; cbn [run_handler config_handler hardware_handler] in *; intros Hc; try discriminate Hc; try discriminate Eh;
    eauto using ss_handleAction, ss_chat, ss_plugin, ss_nas with keeps.
  keeps_go. apply ss_replicate.
Qed.

(** ** Who changes the configuration *)
Definition configActions : list string :=
  [actionPoolJoin; actionPoolCancelJoin; actionPoolLeave; actionManifestBatchUpload; actionDeleteFulaConfig].

Lemma config_route a h : route a = Some h -> config_handler h = true -> a ∈ configActions.
Proof.
  unfold route. intros Hl%elem_of_list_to_map_2 Hc. revert Hl. unfold actionMap.
  intros Hl. repeat (apply elem_of_cons in Hl as [Hh|Hl]; [by simplify_eq; cbn in Hc; (discriminate Hc || set_solver)|]).
  by apply not_elem_of_nil in Hl.
Qed.

Lemma config_delegated a : a ∈ configActions -> a ∈ delegatedActions.
Proof.
  assert (forallb (fun a => bool_decide (a ∈ delegatedActions)) configActions = true) as H by (vm_compute; reflexivity).
  rewrite forallb_forall in H. intros Ha%list_elem_of_In%H. by apply bool_decide_eq_true in Ha.
Qed.

(** A request that reaches one of these handlers: signed by an authorized peer, for one of
    the five actions. *)
Definition config_request (bl : AuthState) (nr : Z * Request) (from : string) : Prop :=
  exists body, verifySignedRequest nr.1 nr.2 = Ok (from, body) /\
    path_base (Path nr.2) ∈ configActions /\ from ∈ authorizedPeers bl.

Lemma serveProxy_store now r st :
  same_store st.2 (serveProxy run_handler now r st).2.2 \/ exists from, config_request st.1 (now, r) from.
Proof.
  destruct (serveProxy run_handler now r st) as [res st'] eqn:Es.
  apply serveProxy_cases in Es as [[-> _]|(from & body & Hv & Hm & Hd)]; [by left|].
  pose proof (dispatch_rest run_handler from (path_base (Path r)) (Some body) st) as Hr. rewrite Hd in Hr. cbn [snd] in *.
  destruct Hr as [Hr|(h & Er & Hr)]; [left; cbn [snd]; by rewrite Hr|]. destruct (config_handler h) eqn:Ec; [right|left].
  - exists from, body. pose proof (config_route _ _ Er Ec) as Ha. split; [exact Hv|]. split; [exact Ha|].
    pose proof (config_delegated _ Ha) as Hdel.
    destruct Hm as [Hc _|_ Hp|Hc _ _]; [|done|by destruct (owner_not_delegated _ Hc)].
    rewrite Hc in Hdel. by destruct replicate_not_delegated.
  - rewrite Hr. exact (ss_handler h from (Some body) Ec st.2).
Qed.

End server.

(** ** A concrete device: bob leaves the pool once the owner has let him *)
Section concrete.
#[local] Existing Instance memStore.
#[local] Existing Instance rawMultibase.
#[local] Existing Instance toyCrypto.
#[local] Existing Instance chainEnv.
#[local] Instance bareExec : Exec := {| exec_Output := fun _ _ _ => ExecFail "none"; exec_Run := fun _ _ _ => CmdStart "none" |}.
#[local] Instance bareDocker : Docker := {|
  docker_List := fun _ => inl "none"; docker_ImageInspect := fun _ _ => inl "none";
  docker_Inspect := fun _ _ => inl "none"; docker_Logs := fun _ _ _ => inl "none" |}.
#[local] Instance bareKubo : KuboClient := {|
  yaml_identity := fun _ => None; peer_of_private_key := fun _ => None; kubo_repo_stat := fun _ => inl "none" |}.

Definition toy_device : list (Z * Request) -> AuthState * Node (string * string) -> AuthState * Node (string * string) :=
  serve_device toy_options "/internal" "blox" (fun _ => "") (fun _ => "uuid") (fun s => Ok s) None (fun _ => None).
Definition bob_deletes : Z * Request := toy_send "bob" actionDeleteFulaConfig "".
Definition with_file (w : Node (string * string)) : Node (string * string) :=
  set_files (<[FULA_CONFIG_PATH := "poolName: 7"]> (n_files w)) w.
Definition bob_leaves : Z * Request := toy_send "bob" actionPoolLeave (default "" leave_seven).

Example bob_needs_a_grant :
  n_store (toy_device [bob_leaves] (owned, member_of_seven)).2 = ("7", "base") /\
  n_store (toy_device [grant_bob; bob_leaves] (owned, member_of_seven)).2 = ("0", "") /\
  n_store (toy_device [grant_bob; withdraw_bob; bob_leaves] (owned, member_of_seven)).2 = ("7", "base").
Proof. vm_compute. done. Qed.

(** Deleting the config file takes pool and chain with it, for an authorized peer only. *)
Example bob_deletes_config :
  n_store (toy_device [bob_deletes] (owned, with_file member_of_seven)).2 = ("7", "base") /\
  n_store (toy_device [grant_bob; bob_deletes] (owned, with_file member_of_seven)).2 = ("0", "").
Proof. vm_compute. done. Qed.
End concrete.
