(* ===== verification/WapBoot.v ===== *)
(** * wap/pkg/config/config.go, wap/cmd/blox, wap/cmd/main.go: before the set-up server runs

    The set-up program reads its settings from the environment, compares the firmware
    version with the one in the version file and asks for a reboot when the firmware has
    changed since the device was booted ([reboot_once]). The owner's phone is registered by
    running the blox program with a command line made from a template. *)

From S2P Require Import Prelude GoStd GoTime Json JsonPrint Float GoPath Effects Node Disk Nas Properties WifiProps Wifi.

#[local] Open Scope string_scope.
#[local] Open Scope Z_scope.

(** ** fmt.Sprintf with string arguments

    The verbs of the templates are [%s] and [%%]; a verb that does not apply to strings, a
    missing argument and arguments left over are written as fmt documents it. *)
Definition extra_args (args : list string) : string :=
  match args with
  | [] => ""
  | _ => "%!(EXTRA " +:+ Join (map (fun a => "string=" +:+ a) args) ", " +:+ ")"
  end.
Fixpoint Sprintf (format : string) (args : list string) : string :=
  match format with
  | EmptyString => extra_args args
  | String "%" EmptyString => "%!(NOVERB)" +:+ extra_args args
  | String "%" (String v rest) =>
      if (v =? "%")%char then String "%" (Sprintf rest args)
      else
        match args with
        | [] => "%!" +:+ String v "(MISSING)" +:+ Sprintf rest []
        | a :: args' =>
            (if (v =? "s")%char || (v =? "v")%char then a else "%!" +:+ String v ("(string=" +:+ a +:+ ")")) +:+ Sprintf rest args'
        end
  | String c rest => String c (Sprintf rest args)
  end.

(** ** config.go *)
Section config.
Context (LookupEnv : string -> option string).   (** the environment, .env included *)

Definition getEnv (key fallback : string) : string := default fallback (LookupEnv key).

Record Vars := mkVars {
  PROJECT_NAME : string; CUSTOM_PROPERTIES : string; API_URL : string; API_PORT : string; IFFACE : string;
  IFFACE_CLIENT : string; IPADDRESS : string; SUBNET_RANGE_START : string; SUBNET_RANGE_END : string; NETMASK : string;
  FORCE_ACCESSPOINT : string; COUNTRY : string; PROJECT_ROOT : string; FULA_CONFIG : string; BLOX_COMMAND : string;
  OTA_VERSION : string; HOTSPOT_SSID : string; RESTART_NEEDED_AFTER : string; VERSION_FILE_PATH : string;
  RESTART_NEEDED : string; PARTITION_NEEDED : string }.

Definition blox_template : string :=
  "/app --authorizer %%s --identity %%s --initOnly --config %s --storeDir /uniondrive --disableResourceManger true --maxCIDPushRate 100 --logLevel info".

Definition config_init : Vars := {|
  PROJECT_NAME := getEnv "PROJECT_NAME" "Box Firmware";
  CUSTOM_PROPERTIES := getEnv "CUSTOM_PROPERTIES_FILE" "/internal/box_props.json";
  API_URL := getEnv "API_URL" "http://localhost:3500";
  API_PORT := getEnv "API_PORT" "3500";
  IFFACE := getEnv "IFFACE" "uap0";
  IFFACE_CLIENT := getEnv "IFFACE_CLIENT" "wlan0";
  IPADDRESS := getEnv "IPADDRESS" "10.42.0.1";
  SUBNET_RANGE_START := getEnv "SUBNET_RANGE_START" "192.168.88.100";
  SUBNET_RANGE_END := getEnv "SUBNET_RANGE_END" "192.168.88.200";
  NETMASK := getEnv "NETMASK" "255.255.255.0";
  FORCE_ACCESSPOINT := getEnv "FORCE_ACCESSPOINT" "1";
  COUNTRY := getEnv "COUNTRY" "GB";
  PROJECT_ROOT := getEnv "PROJECT_ROOT" "../..";
  FULA_CONFIG := getEnv "FULA_CONFIG_PATH" "/internal/config.yaml";
  BLOX_COMMAND := Sprintf (getEnv "BLOX_COMMAND" blox_template) [getEnv "FULA_CONFIG_PATH" "/internal/config.yaml"];
  OTA_VERSION := getEnv "OTA_VERSION" "6";
  HOTSPOT_SSID := getEnv "HOTSPOT_SSID" "FxBlox";
  RESTART_NEEDED_AFTER := getEnv "RESTART_NEEDED_AFTER" "6";
  VERSION_FILE_PATH := getEnv "VERSION_FILE_PATH" "/home/go_fula_version.info";
  RESTART_NEEDED := getEnv "RESTART_NEEDED_PATH" "/home/commands/.command_reboot";
  PARTITION_NEEDED := getEnv "PARTITION_NEEDED_PATH" "/home/commands/.command_partition" |}.
End config.

(** ** Version numbers *)
Fixpoint version_fold (versionInt : Z) (parts : list string) : outcome Z :=
  match parts with
  | [] => Ok versionInt
  | p :: parts' =>
      match Atoi p with
      | inl _ => Err "strconv.Atoi"
      | inr num => version_fold (i64 (versionInt * 1000 + num)) parts'
      end
  end.
Definition versionStringToInt (version : string) : outcome Z := version_fold 0 (split_char "." version).

(** A version as its components, and its number. *)
Definition render (l : list Z) : string := Join (map Itoa l) ".".
Definition version_value (acc : Z) (l : list Z) : Z := fold_left (fun a n => a * 1000 + n) l acc.
Definition component (n : Z) : Prop := 0 <= n <= 999.

Fixpoint lex_lt (a b : list Z) : Prop :=
  match a, b with
  | x :: a', y :: b' => x < y \/ (x = y /\ lex_lt a' b')
  | _, _ => False
  end.

Lemma version_value_bound l acc : Forall component l -> 0 <= acc ->
  acc * 1000 ^ Z.of_nat (length l) <= version_value acc l < (acc + 1) * 1000 ^ Z.of_nat (length l).
Proof.
  intros Hl. revert acc. induction Hl as [|n l Hn Hl IH]; intros acc Hacc; [cbn; lia|]. cbn [version_value fold_left length].
  unfold component in Hn. specialize (IH (acc * 1000 + n) ltac:(lia)). fold (version_value (acc * 1000 + n) l).
  rewrite Nat2Z.inj_succ, Z.pow_succ_r by lia. assert (0 < 1000 ^ Z.of_nat (length l)) by (apply Z.pow_pos_nonneg; lia). nia.
Qed.

Lemma version_value_order a b acc acc' : length a = length b -> Forall component a -> Forall component b -> 0 <= acc -> 0 <= acc' ->
  version_value acc a < version_value acc' b <-> acc < acc' \/ (acc = acc' /\ lex_lt a b).
Proof.
  revert b acc acc'. induction a as [|x a IH]; intros [|y b] acc acc' Hl Ha Hb H1 H2; try done; [cbn; lia|].
  apply Forall_cons in Ha as [Hx Ha]. apply Forall_cons in Hb as [Hy Hb]. unfold component in *.
  change (version_value acc (x :: a)) with (version_value (acc * 1000 + x) a).
  change (version_value acc' (y :: b)) with (version_value (acc' * 1000 + y) b).
  rewrite IH by (done || lia || (cbn in Hl; lia)). cbn [lex_lt]. split.
  - intros [H|[H Hlt]]; [|assert (acc = acc' /\ x = y) as [-> ->] by lia; tauto].
    destruct (Z.lt_trichotomy acc acc') as [?|[->|?]]; [by left | right; split; [done|left; lia] | lia].
  - intros [H|[-> [H|[-> H]]]]; [left; lia | left; lia | right; done].
Qed.

Lemma version_fold_value l acc : Forall component l -> 0 <= acc -> (acc + 1) * 1000 ^ Z.of_nat (length l) <= 2 ^ 63 ->
  version_fold acc (map Itoa l) = Ok (version_value acc l).
Proof.
  intros Hl. revert acc. induction Hl as [|n l Hn Hl IH]; intros acc Hacc Hb; [done|]. cbn [map version_fold].
  unfold component in Hn. rewrite Atoi_Itoa by lia. cbn [length] in Hb. rewrite Nat2Z.inj_succ, Z.pow_succ_r in Hb by lia.
  assert (0 < 1000 ^ Z.of_nat (length l)) by (apply Z.pow_pos_nonneg; lia).
  rewrite i64_small by nia. apply IH; nia.
Qed.

Lemma Itoa_no_dot n : 0 <= n -> no_char "." (Itoa n) = true.
Proof.
  intros Hn. unfold Itoa, FormatInt. destruct (Z.ltb_spec n 0) as [|_]; [lia|].
  pose proof (FormatUint_digits n) as H. apply andb_true_iff in H as [H _]. revert H. unfold no_char.
  induction (FormatUint n 10) as [|c s IH]; [done|]. cbn. rewrite !andb_true_iff. intros [Hc Hs]. split; [|auto].
  revert Hc. by destruct c as [[] [] [] [] [] [] [] []].
Qed.

(** Versions of the same number of components, at most six and none above 999, are ordered
    as their numbers are. *)
Theorem version_order a b : a <> [] -> length a = length b -> (length a <= 6)%nat -> Forall component a -> Forall component b ->
  exists x y, versionStringToInt (render a) = Ok x /\ versionStringToInt (render b) = Ok y /\ (x < y <-> lex_lt a b).
Proof.
  intros Hne Hlen H6 Ha Hb.
  assert (forall l, l <> [] -> (length l <= 6)%nat -> Forall component l -> versionStringToInt (render l) = Ok (version_value 0 l)) as Hv.
  { intros l Hl Hl6 Hc. unfold versionStringToInt, render.
    rewrite split_Join.
    - apply version_fold_value; [done|lia|].
      trans (1000 ^ 6); [|lia]. rewrite Z.mul_1_l. apply Z.pow_le_mono_r; lia.
    - by destruct l.
    - apply Forall_map. eapply Forall_impl; [exact Hc|]. intros n Hn. apply Itoa_no_dot. apply Hn. }
  exists (version_value 0 a), (version_value 0 b). split_and!; [by apply Hv | apply Hv; try done; [by destruct b, a | lia] |].
  rewrite version_value_order by (done || lia). split; [intros [?|[_ ?]]; [lia|done] | by right].
Qed.

(** With different numbers of components the order is lost. *)
Example version_misorder : versionStringToInt "5.1" = Ok 5001 /\ versionStringToInt "6" = Ok 6.
Proof. by vm_compute. Qed.

Section boot.
Context {S : Type} `{PS : PoolStore S} `{E : Env} `{X : Exec}.
Context (cfg : Vars).
Context (zone : Z).                         (** the local time zone, in minutes *)
Context (proc_uptime : nat -> option string).   (** /proc/uptime at the n-th effect *)

(** ** wap/cmd/blox: registering the owner *)
Definition BloxCommandInitOnly (clientPeerId bloxSeed : string) : M (Node S) string :=
  o <- runCommand (Sprintf (BLOX_COMMAND cfg) [clientPeerId; bloxSeed]);;
  match co_err o with
  | Some e => raise e
  | None =>
      match Split (co_stdout o) "blox peer ID:" with
      | _ :: id :: _ =>
          let bloxPeerId := TrimSpace id in
          if len bloxPeerId =? 0 then raise ("empty blox peer id for client peer id: " +:+ clientPeerId) else ret bloxPeerId
      | _ => panic
      end
  end.

(** ** The version file *)
Record VersionInfo := mkVersion { vi_Version : Z; vi_Date : Z }.

Definition nl1 : string := String (ascii_of_nat 10) " ".
(** json.MarshalIndent(versionInfo, "", " "); its error is ignored, and the file is empty then. *)
Definition version_text (v : VersionInfo) : string :=
  match MarshalTime zone (vi_Date v) with
  | None => ""
  | Some d => "{" +:+ nl1 +:+ quote "version" +:+ ": " +:+ Itoa (vi_Version v) +:+ "," +:+ nl1 +:+ quote "date" +:+ ": "
              +:+ quote d +:+ String (ascii_of_nat 10) "}"
  end.

Definition zero_time : Z := -62135596800 * nanos.
(** Time.UnmarshalJSON; a date with escape sequences in its text is not among those written. *)
Definition dec_time (cur : Z) (j : json) : option Z :=
  match j with JNull => Some cur | JStr s => ParseRFC3339 s | _ => None end.
Definition decode_version (content : string) : option VersionInfo :=
  j ← json_parse content; l ← as_object j;
  let '(v, k1) := field_int 0 (obj_field "version" l) in
  let '(d, k2) := decode_field dec_time zero_time (obj_field "date" l) in
  if k1 && k2 then Some (mkVersion v d) else None.

(** The number of an uptime, cut to whole seconds; the spellings ParseFloat reads besides
    decimal numerals, and numbers beyond int64, are not among those the kernel writes. *)
Definition parse_uptime (s : string) : option Z :=
  if negb (decimal_numeral s) then None else
  let '(neg, m, e) := dec_of (match s with String "+" t => t | _ => s end) in
  '(q, p) ← dec_to_double float64 m e;
  let n := if 0 <=? p then q * 2 ^ p else q / 2 ^ (- p) in
  Some (if neg : bool then - n else n).

Definition GetLastRebootTime : M (Node S) Z :=
  u <- fx proc_uptime;;
  match u with
  | None => raise "cannot read uptime: read"
  | Some content =>
      match parse_uptime (default "" (head (split_char " " content))) with
      | None => raise "cannot parse uptime: float"
      | Some uptimeSeconds => now <- time_Now;; ret (now + i64 (- nanos * uptimeSeconds))
      end
  end.

Definition os_Create (path : string) : M (Node S) () := os_WriteFile path "".
Definition create_restart : M (Node S) () := wrapErr "error creating restart needed file" (os_Create (RESTART_NEEDED cfg)).

(** The part of [checkAndSetVersionInfo] for an existing file. *)
Definition update_version (ota after : Z) : M (Node S) () :=
  c <- os_ReadFile (VERSION_FILE_PATH cfg);;
  match c with
  | None => raise "error reading version file: read"
  | Some content =>
      match decode_version content with
      | None => raise "error parsing version file: json"
      | Some versionInfo =>
          versionInfo <-
            (if vi_Version versionInfo =? ota then ret versionInfo
             else
               now <- time_Now;;
               wrapErr "error updating version file" (os_WriteFile (VERSION_FILE_PATH cfg) (version_text (mkVersion ota now)));;;
               ret (mkVersion ota now));;
          restartTime <- wrapErr "error getting last reboot time" GetLastRebootTime;;
          if (restartTime <? vi_Date versionInfo) && (ota <=? after) then create_restart
          else wrapErr "error removing restart needed file" (os_Remove (RESTART_NEEDED cfg))
      end
  end.

Definition checkAndSetVersionInfo : M (Node S) () :=
  ota <- wrapErr "error converting OTA_VERSION to int" (lift (versionStringToInt (OTA_VERSION cfg)));;
  after <- wrapErr "error converting RESTART_NEEDED_AFTER to int" (lift (versionStringToInt (RESTART_NEEDED_AFTER cfg)));;
  r <- fs_step;;
  missing <- gets (fun w => match r with FsOk => bool_decide (n_files w !! VERSION_FILE_PATH cfg = None) | FsErr _ => false end);;
  if missing : bool then
    now <- time_Now;;
    wrapErr "error writing version file" (os_WriteFile (VERSION_FILE_PATH cfg) (version_text (mkVersion ota now)));;;
    create_restart
  else update_version ota after.

(** ** The file is read as it was written *)

Lemma parse_value_space f x : parse_value (Datatypes.S f) (" " +:+ x) = parse_value (Datatypes.S f) x.
Proof. done. Qed.
Lemma parse_members_nl f x : parse_members (Datatypes.S f) (nl1 +:+ x) = parse_members (Datatypes.S f) x.
Proof. done. Qed.

Lemma parse_version_text v d : json_parse ("{" +:+ nl1 +:+ quote "version" +:+ ":" +:+ " " +:+ Itoa v +:+ "," +:+ nl1 +:+ quote "date"
    +:+ ":" +:+ " " +:+ quote d +:+ String (ascii_of_nat 10) "}") = Some (JObj [("version", JNum (Itoa v)); ("date", JStr d)]).
Proof.
  unfold json_parse, json_parse_prefix. set (n := String.length _).
  assert (exists f, (2 * n + 2 = 4 + f)%nat) as [f ->].
  { exists (2 * n - 2)%nat. assert (1 <= n)%nat; [|lia]. subst n. cbn. lia. }
  clear n. cbn [Nat.add].
  assert (forall f x, parse_value (Datatypes.S f) ("{" +:+ nl1 +:+ quote "version" +:+ x) =
    match parse_members f (nl1 +:+ quote "version" +:+ x) with Some (l, r) => Some (JObj l, r) | None => None end) as Hobj by done.
  rewrite Hobj. clear Hobj. rewrite parse_members_nl, parse_members_quote, parse_value_space, parse_num by (done || apply is_num_Itoa).
  rewrite skip_comma. cbn beta iota. rewrite parse_members_nl, parse_members_quote, parse_value_space, parse_str.
  reflexivity.
Qed.

Lemma decode_version_text v : - 2 ^ 63 <= vi_Version v < 2 ^ 63 -> 0 <= vi_Date v / nanos + zone * 60 < max_secs ->
  MarshalTime zone (vi_Date v) <> None -> decode_version (version_text v) = Some v.
Proof.
  intros Hv Hd Hm. unfold version_text. destruct (MarshalTime zone (vi_Date v)) as [d|] eqn:Em; [|done].
  apply Parse_MarshalTime in Em; [|done]. unfold decode_version.
  pose proof (parse_version_text (vi_Version v) d) as Hp. cbn [String.append] in Hp |- *. rewrite Hp.
  pose proof (Atoi_Itoa (vi_Version v) Hv) as Ha. unfold Atoi in Ha.
  assert (forall a b, obj_field "version" [("version", a); ("date", b)] = [a] /\ obj_field "date" [("version", a); ("date", b)] = [b])
    as Hf by done.
  cbn [mbind option_bind as_object]. rewrite (proj1 (Hf _ _)), (proj2 (Hf _ _)).
  unfold field_int, decode_field. cbn [fold_left dec_int dec_time fst snd]. rewrite Ha, Em. by destruct v.
Qed.

(** ** What a start of the program does on a working disk *)
Lemma version_range s z : versionStringToInt s = Ok z -> - 2 ^ 63 <= z < 2 ^ 63.
Proof.
  unfold versionStringToInt. generalize (split_char "." s). intros l.
  assert (forall acc, - 2 ^ 63 <= acc < 2 ^ 63 -> version_fold acc l = Ok z -> - 2 ^ 63 <= z < 2 ^ 63) as H; [|by apply H].
  induction l as [|p l IH]; intros acc Hacc; cbn [version_fold]; [by intros [= <-]|].
  destruct (Atoi p); [done|]. apply IH. apply i64_range.
Qed.

Definition boot_at (n : nat) : option Z :=
  u ← proc_uptime n; k ← parse_uptime (default "" (head (split_char " " u)));
  Some (env_now (Datatypes.S n) + i64 (- nanos * k)).

Section working.
Context (Hfs : forall n, env_fs n = FsOk).

Lemma reboot_time_run w t : boot_at (n_fx w) = Some t -> GetLastRebootTime w = (Ok t, bump (bump w)).
Proof.
  unfold boot_at, GetLastRebootTime, bind, fx. destruct (proc_uptime (n_fx w)) as [u|]; [|done]. cbn.
  destruct (parse_uptime _) as [k|]; [|done]. by intros [= <-].
Qed.

(** The information the file holds afterwards, and the files. *)
Definition new_version (ota now : Z) (v : VersionInfo) : VersionInfo := if vi_Version v =? ota then v else mkVersion ota now.
Definition new_files (ota after now t : Z) (v : VersionInfo) (F : gmap string string) : gmap string string :=
  let v' := new_version ota now v in
  let F' := if vi_Version v =? ota then F else <[VERSION_FILE_PATH cfg := version_text v']> F in
  if (t <? vi_Date v') && (ota <=? after) then <[RESTART_NEEDED cfg := ""]> F' else delete (RESTART_NEEDED cfg) F'.

Lemma update_version_run ota after (w : Node S) c v t :
  n_files w !! VERSION_FILE_PATH cfg = Some c -> decode_version c = Some v ->
  boot_at (if vi_Version v =? ota then Datatypes.S (n_fx w) else Datatypes.S (Datatypes.S (Datatypes.S (n_fx w)))) = Some t ->
  exists w', update_version ota after w = (Ok (), w') /\
    n_files w' = new_files ota after (env_now (Datatypes.S (n_fx w))) t v (n_files w).
Proof.
  intros Hc Hd Hb. unfold update_version, new_files, new_version. unfold bind at 1, os_ReadFile, bind at 1, fs_step, gets.
  cbn [bump n_fx n_files]. rewrite Hfs, Hc, Hd. unfold bind at 1.
  destruct (vi_Version v =? ota).
  - unfold ret at 1. unfold bind, wrapErr. rewrite (reboot_time_run _ t) by exact Hb.
    destruct (_ && _); unfold create_restart, wrapErr, os_Create, os_WriteFile, os_Remove, bind, fs_step; rewrite Hfs;
      eexists; split; reflexivity.
  - unfold bind at 1, time_Now, wrapErr at 1, os_WriteFile at 1, bind at 1 2, fs_step at 1. cbn [bump n_fx]. rewrite Hfs.
    unfold modify, ret. unfold bind, wrapErr. cbn [set_files n_fx n_files bump].
    rewrite (reboot_time_run _ t) by exact Hb.
    destruct (_ && _); unfold create_restart, wrapErr, os_Create, os_WriteFile, os_Remove, bind, fs_step; rewrite Hfs;
      eexists; split; reflexivity.
Qed.

Lemma check_run ota after (w : Node S) c v t :
  versionStringToInt (OTA_VERSION cfg) = Ok ota -> versionStringToInt (RESTART_NEEDED_AFTER cfg) = Ok after ->
  n_files w !! VERSION_FILE_PATH cfg = Some c -> decode_version c = Some v ->
  boot_at (if vi_Version v =? ota then (2 + n_fx w)%nat else (4 + n_fx w)%nat) = Some t ->
  exists w', checkAndSetVersionInfo w = (Ok (), w') /\
    n_files w' = new_files ota after (env_now (2 + n_fx w)) t v (n_files w).
Proof.
  intros Ho Ha Hc Hd Hb. unfold checkAndSetVersionInfo. rewrite Ho, Ha. unfold bind, wrapErr, lift, fs_step, gets.
  cbn [bump n_fx n_files]. rewrite Hfs, bool_decide_false by (by rewrite Hc). cbn beta iota.
  apply (update_version_run ota after (bump w) c v t Hc Hd). cbn [bump n_fx]. exact Hb.
Qed.

(** The reboot request a start leaves on a device booted at [booted], when the version file
    says the firmware came at [updated]: only for versions up to RESTART_NEEDED_AFTER. *)
Definition reboot_request (booted updated ota after : Z) : option string :=
  if bool_decide (booted < updated /\ ota <= after) then Some "" else None.

Lemma new_files_marker ota after now t v F : VERSION_FILE_PATH cfg <> RESTART_NEEDED cfg ->
  new_files ota after now t v F !! RESTART_NEEDED cfg = reboot_request t (vi_Date (new_version ota now v)) ota after.
Proof.
  intros Hp. unfold new_files, reboot_request. case_bool_decide as H.
  - destruct H as [H1 H2]. rewrite (proj2 (Z.ltb_lt _ _) H1), (proj2 (Z.leb_le _ _) H2). apply lookup_insert_eq.
  - destruct (_ && _) eqn:Em; [|apply lookup_delete_eq]. apply andb_true_iff in Em as [E1%Z.ltb_lt E2%Z.leb_le]. by destruct H.
Qed.

Lemma new_files_version ota after now t v F : VERSION_FILE_PATH cfg <> RESTART_NEEDED cfg ->
  new_files ota after now t v F !! VERSION_FILE_PATH cfg =
  if vi_Version v =? ota then F !! VERSION_FILE_PATH cfg else Some (version_text (mkVersion ota now)).
Proof.
  intros Hp. unfold new_files, new_version. destruct (vi_Version v =? ota), (_ && _);
    rewrite ?lookup_insert_ne, ?lookup_delete_ne, ?lookup_insert_eq by done; done.
Qed.

(** C22. When the program asks for a reboot after an update of the firmware, on a disk that
    works, with a version file that decodes and two version numbers that parse. The first
    start with another version than the file's writes the new version with the time [now].
    From then on, whatever happens to the other files and the clock, every start leaves the
    version file as it is and sets or removes the reboot marker by what holds at that moment:
    the marker is there exactly if the device has not been booted since [now] and the version
    is not above RESTART_NEEDED_AFTER. So the reboot is asked for until the device has been
    booted and no longer, and an update above RESTART_NEEDED_AFTER never asks for one and
    takes back an earlier request. *)
Theorem reboot_once (w : Node S) c v ota after t1 :
  let now := env_now (2 + n_fx w)%nat in
  VERSION_FILE_PATH cfg <> RESTART_NEEDED cfg ->
  versionStringToInt (OTA_VERSION cfg) = Ok ota -> versionStringToInt (RESTART_NEEDED_AFTER cfg) = Ok after ->
  n_files w !! VERSION_FILE_PATH cfg = Some c -> decode_version c = Some v -> vi_Version v <> ota ->
  boot_at (4 + n_fx w)%nat = Some t1 ->
  0 <= now / nanos + zone * 60 < max_secs -> MarshalTime zone now <> None ->
  exists w1, checkAndSetVersionInfo w = (Ok (), w1) /\
    n_files w1 !! VERSION_FILE_PATH cfg = Some (version_text (mkVersion ota now)) /\
    n_files w1 !! RESTART_NEEDED cfg = reboot_request t1 now ota after /\
    forall (w2 : Node S) t2, n_files w2 !! VERSION_FILE_PATH cfg = n_files w1 !! VERSION_FILE_PATH cfg ->
      boot_at (2 + n_fx w2)%nat = Some t2 ->
      exists w3, checkAndSetVersionInfo w2 = (Ok (), w3) /\
        n_files w3 !! VERSION_FILE_PATH cfg = n_files w2 !! VERSION_FILE_PATH cfg /\
        n_files w3 !! RESTART_NEEDED cfg = reboot_request t2 now ota after.
Proof.
  intros now Hp Ho Ha Hc Hd Hv Hb Hr Hm. apply Z.eqb_neq in Hv.
  destruct (check_run ota after w c v t1) as (w1 & H1 & HF1); [done..|by rewrite Hv|].
  exists w1. split; [exact H1|]. rewrite HF1, new_files_marker, new_files_version, Hv by done. fold now.
  split; [done|]. split; [unfold new_version; by rewrite Hv|]. intros w2 t2 Hf Hb2.
  destruct (check_run ota after w2 (version_text (mkVersion ota now)) (mkVersion ota now) t2) as (w3 & H3 & HF3); [done..| | |].
  { apply decode_version_text; [by apply version_range in Ho | done | done]. }
  { cbn [vi_Version]. by rewrite Z.eqb_refl. }
  exists w3. split; [exact H3|]. rewrite HF3, new_files_marker, new_files_version by done. cbn [vi_Version].
  rewrite Z.eqb_refl. split; [done|]. unfold new_version. cbn [vi_Version]. by rewrite Z.eqb_refl.
Qed.
End working.
End boot.

(** ** Concrete runs *)
Section concrete.
Definition default_vars : Vars := config_init (fun _ => None).

(** The clock counts effects, ten seconds each, from 2024-01-01; the disk works. *)
#[local] Instance tickEnv : Env := {|
  env_http := fun _ _ _ => ReplyErr "offline"; env_timer := fun _ _ => true;
  env_now := fun n => 1704067200 * nanos + Z.of_nat n * (10 * nanos) + 123000000; env_fs := fun _ => FsOk |}.
(** The device was booted a day before, until effect 50, and then rebooted at effect 50. *)
Definition toy_uptime (n : nat) : option string :=
  Some (Itoa (if (n <? 50)%nat then 86400 else Z.of_nat n * 10 - 500) +:+ ".25 99.00").

Definition old_file : string := version_text 0 (mkVersion 5 (1600000000 * nanos)).
Definition updated : Node unit := mkNode 0 tt {["/home/go_fula_version.info" := old_file]} ∅ None [] [].

Lemma reboot_once_witness :
  exists w1, checkAndSetVersionInfo default_vars 0 toy_uptime updated = (Ok (), w1) /\
    n_files w1 !! "/home/commands/.command_reboot" = Some "" /\
    forall (w2 : Node unit) t2, n_files w2 !! "/home/go_fula_version.info" = n_files w1 !! "/home/go_fula_version.info" ->
      boot_at toy_uptime (2 + n_fx w2)%nat = Some t2 ->
      exists w3, checkAndSetVersionInfo default_vars 0 toy_uptime w2 = (Ok (), w3) /\
        n_files w3 !! "/home/go_fula_version.info" = n_files w2 !! "/home/go_fula_version.info" /\
        n_files w3 !! "/home/commands/.command_reboot" = reboot_request t2 1704067220123000000 6 6.
Proof.
  destruct (reboot_once (E := tickEnv) default_vars 0 toy_uptime (fun _ => eq_refl) updated old_file (mkVersion 5 (1600000000 * nanos)) 6 6
           1703980850123000000) as (w1 & H1 & _ & H2 & H3).
  - discriminate.
  - vm_compute. reflexivity.
  - vm_compute. reflexivity.
  - vm_compute. reflexivity.
  - vm_compute. reflexivity.
  - discriminate.
  - vm_compute. reflexivity.
  - vm_compute. split; [discriminate | reflexivity].
  - vm_compute. discriminate.
  - exists w1. split; [exact H1|]. split; [exact (eq_trans H2 eq_refl)|exact H3].
Defined.

(** The run before the reboot and the one after it. *)
Example reboot_then_quiet :
  let w1 := (checkAndSetVersionInfo default_vars 0 toy_uptime updated).2 in
  let later := mkNode 60 tt (n_files w1) ∅ None [] [] in
  let w3 := (checkAndSetVersionInfo default_vars 0 toy_uptime later).2 in
  n_files w1 !! "/home/commands/.command_reboot" = Some "" /\ n_files w3 !! "/home/commands/.command_reboot" = None.
Proof. vm_compute. done. Qed.

Lemma version_order_witness :
  exists x y, versionStringToInt (render [6; 1; 12]) = Ok x /\ versionStringToInt (render [6; 2; 0]) = Ok y /\
    (x < y <-> lex_lt [6; 1; 12] [6; 2; 0]).
Proof. apply (version_order [6; 1; 12] [6; 2; 0]); [discriminate | reflexivity | cbn; lia | repeat constructor; cbn; lia..]. Defined.

(** The command line is split at white space after the peer id is put in, so a peer id with
    spaces adds options of its choice to the command. *)
Example peer_id_adds_options :
  Fields (Sprintf (BLOX_COMMAND default_vars) ["x --storeDir /etc"; "k"]) =
  ["/app"; "--authorizer"; "x"; "--storeDir"; "/etc"; "--identity"; "k"; "--initOnly"; "--config"; "/internal/config.yaml";
   "--storeDir"; "/uniondrive"; "--disableResourceManger"; "true"; "--maxCIDPushRate"; "100"; "--logLevel"; "info"].
Proof. vm_compute. reflexivity. Qed.

#[local] Instance appExec : Exec := {|
  exec_Output := fun _ _ _ => ExecFail "none";
  exec_Run := fun n _ _ => CmdDone (if (n =? 0)%nat then "   blox peer ID: 12D3Koo" +:+ nl else "ready") "" None |}.
Example init_only_runs :
  (BloxCommandInitOnly default_vars "phone" "key" (mkNode 0 tt ∅ ∅ None [] [])).1 = Ok "12D3Koo" /\
  (BloxCommandInitOnly default_vars "phone" "key" (mkNode 1 tt ∅ ∅ None [] [])).1 = Panic.
Proof. vm_compute. done. Qed.
End concrete.
