(* ===== verification/WapMain.v ===== *)
(** * wap/cmd/main.go: the set-up program

    Two goroutines share the state of the program: the main one tests the wifi connection
    and raises the hotspot, the server goroutine runs the set-up server until it is told to
    stop. They talk through channels of capacity one ([stopServer], [restartServer], the
    server's [connectedCh]) and both call [handleAppState], which may send on [stopServer].
    The program is a step function; a run is any sequence of events. A call of
    [handleAppState] takes three steps: it compares the state and acts, it sends, it stores
    the new state; other calls may come in between. The mDNS goroutine, which shares nothing
    with the two, is left out. *)

From S2P Require Import Prelude GoStd Json Effects Node Disk Nas Properties WifiProps Wifi WapBoot.

#[local] Open Scope string_scope.
#[local] Open Scope Z_scope.

(** Inside [handleAppState(ctx, isConnected, stopServer)]. *)
Inductive AppPC := AStart (isConnected : bool) | ASend (isConnected : bool) | AStore (isConnected : bool).

(** The server goroutine: not started; about to serve; in its select; in [handleAppState];
    in the second select; returned. *)
Inductive SrvPC := SNone | SServe | SWait | SApp (a : AppPC) | SWait2 | SDone.

(** The main goroutine: the first call of [handleAppState]; waiting for the server; joining
    the saved network; the thirty-second loop; sending the restart; the ten-minute loop, with
    its ticker running or stopped. *)
Inductive MainPC :=
| MApp0 (a : AppPC) | MReady | MSaved | MLoop2 | MApp2 (a : AppPC) | MRestart | MLoop3 (ticking : bool) | MApp3 (a : AppPC).

Record App (S : Type) := mkApp {
  a_state : Z;               (** currentIsConnected *)
  a_hotspot : bool;          (** isHotspotStarted *)
  a_isConnected : bool;      (** isConnected, which the server goroutine assigns too *)
  a_config : bool;           (** configExists of main *)
  a_stop : bool;             (** is there a value in stopServer *)
  a_restart : bool;
  a_connected : bool;        (** in the connectedCh of the current server *)
  a_ready : bool;
  a_current : option nat;    (** currentServer *)
  a_closer : option nat;     (** serverCloser *)
  a_open : gset nat;         (** the servers started and not closed *)
  a_next : nat;
  a_srv : SrvPC;
  a_main : MainPC;
  a_dev : Node S
}.
Arguments mkApp {S} _ _ _ _ _ _ _ _ _ _ _ _ _ _ _.
Arguments a_state {S} _.
Arguments a_hotspot {S} _.
Arguments a_isConnected {S} _.
Arguments a_config {S} _.
Arguments a_stop {S} _.
Arguments a_restart {S} _.
Arguments a_connected {S} _.
Arguments a_ready {S} _.
Arguments a_current {S} _.
Arguments a_closer {S} _.
Arguments a_open {S} _.
Arguments a_next {S} _.
Arguments a_srv {S} _.
Arguments a_main {S} _.
Arguments a_dev {S} _.

(** What happens next: a step of a goroutine; a case of its select; or a set-up request that
    joined a network and reports it. *)
Inductive Ev := EMain | ETimeout | ESrv | EStop | ERestart | EConnected | EHandler.

Section main.
Context {S : Type} `{PS : PoolStore S} `{E : Env} `{X : Exec}.
Context (cfg : Vars) (zone : Z) (proc_uptime : nat -> option string).
Context (GOOS : string) (ini_psk : string -> option string) (tmp_name : nat -> string).

(** ** Setters *)
Definition set_app (state : Z) (hotspot stop : bool) (w : App S) : App S :=
  mkApp state hotspot (a_isConnected w) (a_config w) stop (a_restart w) (a_connected w) (a_ready w) (a_current w) (a_closer w)
    (a_open w) (a_next w) (a_srv w) (a_main w) (a_dev w).
Definition set_dev (d : Node S) (w : App S) : App S :=
  mkApp (a_state w) (a_hotspot w) (a_isConnected w) (a_config w) (a_stop w) (a_restart w) (a_connected w) (a_ready w)
    (a_current w) (a_closer w) (a_open w) (a_next w) (a_srv w) (a_main w) d.
Definition set_srv (p : SrvPC) (w : App S) : App S :=
  mkApp (a_state w) (a_hotspot w) (a_isConnected w) (a_config w) (a_stop w) (a_restart w) (a_connected w) (a_ready w)
    (a_current w) (a_closer w) (a_open w) (a_next w) p (a_main w) (a_dev w).
Definition set_main (p : MainPC) (w : App S) : App S :=
  mkApp (a_state w) (a_hotspot w) (a_isConnected w) (a_config w) (a_stop w) (a_restart w) (a_connected w) (a_ready w)
    (a_current w) (a_closer w) (a_open w) (a_next w) (a_srv w) p (a_dev w).
Definition set_isConnected (b : bool) (w : App S) : App S :=
  mkApp (a_state w) (a_hotspot w) b (a_config w) (a_stop w) (a_restart w) (a_connected w) (a_ready w)
    (a_current w) (a_closer w) (a_open w) (a_next w) (a_srv w) (a_main w) (a_dev w).
Definition set_signals (restart connected : bool) (w : App S) : App S :=
  mkApp (a_state w) (a_hotspot w) (a_isConnected w) (a_config w) (a_stop w) restart connected (a_ready w)
    (a_current w) (a_closer w) (a_open w) (a_next w) (a_srv w) (a_main w) (a_dev w).

(** ** handleAppState *)
(** os.Stat: an error other than not-exist counts as existing. *)
Definition checkConfigExists : M (Node S) bool :=
  r <- fs_step;;
  gets (fun w => match r with FsOk => bool_decide (is_Some (n_files w !! FULA_CONFIG cfg)) | FsErr _ => true end).

Definition start_hotspot (hotspot : bool) : M (Node S) bool :=
  if hotspot then ret true else
  h <- try (StartHotspot GOOS true);;
  ret (match h with inl _ => false | inr _ => true end).

(** What it does to the device; whether it goes on to send on stopServer, and the new value
    of isHotspotStarted. *)
Definition app_act (isConnected hotspot : bool) : M (Node S) (bool * bool) :=
  if isConnected then
    exists_ <- checkConfigExists;;
    if exists_ : bool then
      DisconnectNamedWifi "FxBlox";;;
      c <- try (CheckIfIsConnectedWifi GOOS "");;
      ret (match c with inl _ => false | inr _ => true end, hotspot)
    else if hotspot then ret (false, true)
    else
      v6 <- os_Stat "/home/V6.info";;
      (if v6 : bool then try (DisconnectFromExternalWifi GOOS) else try (os_Create (RESTART_NEEDED cfg)));;;
      h <- start_hotspot false;; ret (false, h)
  else h <- start_hotspot hotspot;; ret (false, h).

Definition new_state (isConnected : bool) : Z := if isConnected then 1 else 0.

(** One step of a call; [None] as the next point is its return. [None] as a whole: it is
    blocked. An operation of the device that panicked ends the program. *)
Definition app_step (a : AppPC) (w : App S) : option (option AppPC * App S) :=
  match a with
  | AStart c =>
      if a_state w =? new_state c then Some (None, w)
      else
        match app_act c (a_hotspot w) (a_dev w) with
        | (Ok (send, hotspot), d) =>
            Some (Some (if send : bool then ASend c else AStore c), set_dev d (set_app (a_state w) hotspot (a_stop w) w))
        | _ => None
        end
  | ASend c => if a_stop w then None else Some (Some (AStore c), set_app (a_state w) (a_hotspot w) true w)
  | AStore c => Some (None, set_app (new_state c) (a_hotspot w) (a_stop w) w)
  end.

(** ** The server goroutine *)
Definition close_current (w : App S) : App S :=
  mkApp (a_state w) (a_hotspot w) (a_isConnected w) (a_config w) (a_stop w) (a_restart w) (a_connected w) (a_ready w)
    None (a_closer w) (match a_current w with Some i => a_open w ∖ {[i]} | None => a_open w end) (a_next w) (a_srv w) (a_main w)
    (a_dev w).

(** Up to the select: server.Serve with a new connectedCh, the closer and the ready signal. *)
Definition serve (w : App S) : App S :=
  let w := close_current w in
  let i := a_next w in
  mkApp (a_state w) (a_hotspot w) (a_isConnected w) (a_config w) (a_stop w) (a_restart w) false true
    (Some i) (Some i) ({[i]} ∪ a_open w) (Datatypes.S i) SWait (a_main w) (a_dev w).

(** Received from stopServer: close, clear the flag, return. *)
Definition stopped (w : App S) : App S :=
  set_srv SDone (set_app (a_state w) false false (close_current w)).
(** Received from restartServer: close and start over. *)
Definition restarted (w : App S) : App S :=
  set_srv SServe (set_signals false (a_connected w) (close_current w)).

Definition srv_step (e : Ev) (w : App S) : option (App S) :=
  match a_srv w, e with
  | SServe, ESrv => Some (serve w)
  | SWait, EStop | SWait2, EStop => if a_stop w then Some (stopped w) else None
  | SWait, ERestart | SWait2, ERestart => if a_restart w then Some (restarted w) else None
  | SWait, EConnected =>
      if a_connected w
      then Some (set_srv (SApp (AStart true)) (set_isConnected true (set_signals (a_restart w) false w))) else None
  | SApp a, ESrv =>
      '(a', w') ← app_step a w; Some (set_srv (match a' with Some a' => SApp a' | None => SWait2 end) w')
  | _, _ => None
  end.

(** ** The main goroutine *)
Definition connected : M (Node S) (string + ()) := try (CheckIfIsConnected GOOS "").

Definition main_app (a : AppPC) (next : AppPC -> MainPC) (done : App S -> App S) (w : App S) : option (App S) :=
  '(a', w') ← app_step a w; Some (match a' with Some a' => set_main (next a') w' | None => done w' end).

Definition main_step (e : Ev) (w : App S) : option (App S) :=
  match a_main w, e with
  | MApp0 a, EMain => main_app a MApp0 (fun w => set_main MReady (set_srv SServe w)) w
  | MReady, EMain =>
      if a_ready w then Some (set_main (if negb (a_isConnected w) && a_config w then MSaved else MLoop3 true) w) else None
  | MSaved, EMain =>
      match try (ConnectToSavedWifi GOOS ini_psk tmp_name) (a_dev w) with
      | (Ok _, d) => Some (set_main MLoop2 (set_dev d w))
      | _ => None
      end
  | MLoop2, EMain =>
      match connected (a_dev w) with
      | (Ok (inr _), d) => Some (set_main (MApp2 (AStart true)) (set_isConnected true (set_dev d w)))
      | (Ok (inl _), d) => Some (set_dev d w)
      | _ => None
      end
  | MLoop2, ETimeout =>
      match try (EnsureHotspotActive GOOS) (a_dev w) with
      | (Ok (inr _), d) => Some (set_main MRestart (set_dev d (set_app (a_state w) true (a_stop w) w)))
      | (Ok (inl _), d) => Some (set_main (MLoop3 true) (set_dev d w))
      | _ => None
      end
  | MApp2 a, EMain => main_app a MApp2 (set_main (MLoop3 true)) w
  | MRestart, EMain => if a_restart w then None else Some (set_main (MLoop3 true) (set_signals true (a_connected w) w))
  | MLoop3 true, EMain =>
      match connected (a_dev w) with
      | (Ok (inr _), d) => Some (set_main (MLoop3 false) (set_dev d w))
      | (Ok (inl _), d) => Some (set_main (MApp3 (AStart false)) (set_isConnected false (set_dev d w)))
      | _ => None
      end
  | MApp3 a, EMain => main_app a MApp3 (set_main (MLoop3 true)) w
  | _, _ => None
  end.

(** connectWifiHandler of the running server: it waits while the channel is full. *)
Definition handler_step (w : App S) : option (App S) :=
  match a_current w with
  | Some _ => if a_connected w then None else Some (set_signals (a_restart w) true w)
  | None => None
  end.

Definition step (e : Ev) (w : App S) : option (App S) :=
  match e with
  | EMain | ETimeout => main_step e w
  | ESrv | EStop | ERestart | EConnected => srv_step e w
  | EHandler => handler_step w
  end.

Fixpoint run (es : list Ev) (w : App S) : option (App S) :=
  match es with
  | [] => Some w
  | e :: es' => w' ← step e w; run es' w'
  end.

(** The start of main, up to the first call of [handleAppState]. *)
Definition boot (d : Node S) : option (App S) :=
  match (_ <- try (checkAndSetVersionInfo cfg zone proc_uptime);;
         c <- connected;;
         f <- checkConfigExists;;
         ret (match c with inr _ => true | inl _ => false end, f)) d with
  | (Ok (c, f), d') =>
      Some (mkApp 2 false c f false false false false None None ∅ 0 SNone (MApp0 (AStart c)) d')
  | _ => None
  end.

(** ** Runs *)
Lemma run_inv (P : App S -> Prop) es w w' :
  (forall e w w', P w -> step e w = Some w' -> P w') -> P w -> run es w = Some w' -> P w'.
Proof.
  intros Hstep. revert w. induction es as [|e es IH]; intros w HP; cbn; [by intros [= <-]|].
  destruct (step e w) as [w1|] eqn:Es; [|done]. cbn. apply IH. by eapply Hstep.
Qed.

(** What a call of [handleAppState] leaves alone. *)
Definition same_servers (w w' : App S) : Prop :=
  a_current w' = a_current w /\ a_open w' = a_open w /\ a_next w' = a_next w /\ a_srv w' = a_srv w /\ a_main w' = a_main w /\
  a_closer w' = a_closer w.
Lemma app_step_servers a w a' w' : app_step a w = Some (a', w') -> same_servers w w'.
Proof.
  unfold app_step, same_servers. destruct a; repeat case_match; intros; simplify_eq; by cbn.
Qed.

(** The servers that are open are the current one: while the goroutine waits or is in
    [handleAppState], and no other. *)
Definition servers_ok (w : App S) : Prop :=
  match a_srv w with
  | SNone | SServe | SDone => a_current w = None /\ a_open w = ∅
  | SWait | SApp _ | SWait2 => exists i, a_current w = Some i /\ a_open w = {[i]} /\ a_closer w = Some i
  end.

Lemma same_servers_ok w w' : same_servers w w' -> servers_ok w -> servers_ok w'.
Proof. unfold same_servers, servers_ok. intros (-> & -> & _ & -> & _ & ->). done. Qed.

Lemma close_current_ok w : servers_ok w -> a_current (close_current w) = None /\ a_open (close_current w) = ∅.
Proof.
  unfold servers_ok, close_current. cbn. intros H. split; [done|].
  destruct (a_srv w); first [by destruct H as [-> ->] | destruct H as (i & -> & -> & _); set_solver].
Qed.

Lemma srv_step_ok e w w' : servers_ok w -> srv_step e w = Some w' -> servers_ok w'.
Proof.
  intros Hok. pose proof (close_current_ok w Hok) as [Hc Ho]. unfold srv_step.
  destruct (a_srv w) as [| | |a| |] eqn:Ew; destruct e; try discriminate.
  - intros [= <-]. cbn. eexists. split; [done|]. split; [|done]. unfold close_current in Ho. cbn in Ho. rewrite Ho. set_solver.
  - destruct (a_stop w); [|done]. by intros [= <-].
  - destruct (a_restart w); [|done]. by intros [= <-].
  - destruct (a_connected w); [|done]. intros [= <-]. unfold servers_ok in *. rewrite Ew in Hok. exact Hok.
  - destruct (app_step a w) as [[a' w1]|] eqn:Ea; [|done]. cbn. intros [= <-]. apply app_step_servers in Ea.
    destruct Ea as (H1 & H2 & _ & _ & _ & H3). unfold servers_ok in *. rewrite Ew in Hok. destruct a'; cbn; by rewrite H1, H2, H3.
  - destruct (a_stop w); [|done]. by intros [= <-].
  - destruct (a_restart w); [|done]. by intros [= <-].
Qed.

(** The goroutine starts after main's first call. *)
Definition inv (w : App S) : Prop := servers_ok w /\ (forall a, a_main w = MApp0 a -> a_srv w = SNone).

Lemma srv_step_main e w w' : srv_step e w = Some w' -> a_main w' = a_main w /\ a_srv w <> SNone.
Proof.
  unfold srv_step. destruct (a_srv w) as [| | |a| |]; destruct e; try discriminate; repeat case_match; intros; simplify_eq; try done.
  destruct (app_step a w) as [[a' w1]|] eqn:Ea; [|done]. cbn in *. simplify_eq. by destruct (app_step_servers _ _ _ _ Ea) as (_ & _ & _ & _ & ? & _).
Qed.

Lemma main_app_ok a next done w w' :
  inv w -> (forall a' b, a_main w = next a -> next a' = MApp0 b -> a_srv w = SNone) ->
  (forall w1, same_servers w w1 -> inv (done w1)) -> main_app a next done w = Some w' -> a_main w = next a -> inv w'.
Proof.
  intros [Hok Hm] Hn Hd. unfold main_app. destruct (app_step a w) as [[a' w1]|] eqn:Ea; [|done]. cbn. intros [= <-] Hw.
  apply app_step_servers in Ea. destruct a' as [a'|]; [|by apply Hd]. split.
  - exact (same_servers_ok _ _ Ea Hok).
  - intros b Hb. cbn in Hb |- *. destruct Ea as (_ & _ & _ & -> & _). by eapply Hn.
Qed.

Lemma main_step_ok e w w' : inv w -> main_step e w = Some w' -> inv w'.
Proof.
  intros Hinv. pose proof Hinv as [Hok Hm]. unfold main_step.
  assert (forall w1 p, same_servers w w1 -> (forall a, p <> MApp0 a) -> inv (set_main p w1)) as Hset.
  { intros w1 p H1 Hp. split; [exact (same_servers_ok _ _ H1 Hok)|]. intros a Ha. by destruct (Hp a). }
  assert (forall d c, same_servers w (set_isConnected c (set_dev d w)) /\ same_servers w (set_dev d w)) as Hdev by done.
  destruct (a_main w) as [a| | | |a| |[]|a] eqn:Ew; destruct e; try discriminate; intros H.
  - eapply main_app_ok in H; [exact H|done|by intros; eapply (Hm a)| |done]. intros w1 Hs. cbn.
    pose proof (same_servers_ok _ _ Hs Hok) as H1. destruct Hs as (_ & _ & _ & Hs & _). specialize (Hm a eq_refl).
    unfold servers_ok in H1. rewrite Hs, Hm in H1. by split.
  - destruct (a_ready w); simplify_eq. apply Hset; [done|]. by destruct (_ && _).
  - repeat case_match; simplify_eq; by apply Hset.
  - repeat case_match; simplify_eq; [|by apply Hset]. split; [done|]. cbn. by rewrite Ew.
  - repeat case_match; simplify_eq; by apply Hset.
  - eapply main_app_ok in H; [exact H|done|done|intros w1 Hs; by apply Hset|done].
  - destruct (a_restart w); simplify_eq. by apply Hset.
  - repeat case_match; simplify_eq; by apply Hset.
  - eapply main_app_ok in H; [exact H|done|done|intros w1 Hs; by apply Hset|done].
Qed.

Lemma step_ok e w w' : inv w -> step e w = Some w' -> inv w'.
Proof.
  intros Hinv. destruct e; cbn [step]; try (by apply main_step_ok).
  1-4: intros H; destruct Hinv as [Hok Hm]; (split; [by eapply srv_step_ok|]); apply srv_step_main in H as [-> Hne];
    intros a Ha; by destruct (Hne (Hm a Ha)).
  unfold handler_step. destruct (a_current w); [|done]. destruct (a_connected w); [done|]. by intros [= <-].
Qed.

Lemma main_step_srv e w w' : main_step e w = Some w' -> a_srv w' = a_srv w \/ exists a, a_main w = MApp0 a.
Proof.
  assert (forall a next done w', (forall w1, a_srv (done w1) = a_srv w1) -> main_app a next done w = Some w' -> a_srv w' = a_srv w) as Ha.
  { intros a next done w1 Hd. unfold main_app. destruct (app_step a w) as [[a' w2]|] eqn:Es; [|done]. cbn. intros [= <-].
    destruct (app_step_servers _ _ _ _ Es) as (_ & _ & _ & <- & _). by destruct a'. }
  unfold main_step. destruct (a_main w) as [a| | | |a| |[]|a]; destruct e; try discriminate; intros H; try (left; by eapply Ha in H);
    try (left; repeat case_match; by simplify_eq). right. by exists a.
Qed.

(** One set-up server at a time: whatever the two goroutines and the requests do, and in
    whichever order, the servers that are open are the one main could close; it is open
    while its goroutine waits for events, and once that goroutine has returned no server is
    open, then or later. *)
Theorem one_server d w0 es w :
  boot d = Some w0 -> run es w0 = Some w ->
  (forall i, i ∈ a_open w -> a_current w = Some i /\ a_closer w = Some i) /\
  (a_srv w = SDone -> forall es' w', run es' w = Some w' -> a_srv w' = SDone /\ a_open w' = ∅).
Proof.
  intros Hb Hr. assert (inv w) as Hinv.
  { eapply run_inv; [exact step_ok| |exact Hr]. unfold boot in Hb. repeat case_match; simplify_eq. by split. }
  split.
  - destruct Hinv as [Hok _]. unfold servers_ok in Hok. intros i Hi.
    destruct (a_srv w); first [destruct Hok as [_ Hok]; rewrite Hok in Hi; set_solver
      | destruct Hok as (j & -> & Ho & ->); rewrite Ho in Hi; set_solver].
  - intros Hd es' w' Hr'. enough (inv w' /\ a_srv w' = SDone) as [[Hok _] Hd'].
    { split; [done|]. unfold servers_ok in Hok. rewrite Hd' in Hok. apply Hok. }
    revert Hr'. apply (run_inv (fun w => inv w /\ a_srv w = SDone)); [|done]. intros e w1 w2 [H1 H2] Hs. split; [by eapply step_ok|].
    revert Hs. destruct e; cbn [step]; try (unfold srv_step; by rewrite H2).
    1,2: intros [Hs|[a Ha]]%main_step_srv; [by rewrite Hs | by rewrite (proj2 H1 a Ha) in H2].
    unfold handler_step. repeat case_match; intros; by simplify_eq.
Qed.

(** ** A stop that is never received *)
Lemma app_step_stop a w a' w' : app_step a w = Some (a', w') -> a_stop w = true -> a_stop w' = true.
Proof. unfold app_step. destruct a; repeat case_match; intros; simplify_eq; by cbn. Qed.

Lemma main_step_stop e w w' : main_step e w = Some w' -> a_stop w = true -> a_stop w' = true.
Proof.
  assert (forall a next done w', (forall w1, a_stop (done w1) = a_stop w1) -> main_app a next done w = Some w' ->
    a_stop w = true -> a_stop w' = true) as Ha.
  { intros a next done w1 Hd. unfold main_app. destruct (app_step a w) as [[a' w2]|] eqn:Es; [|done]. cbn. intros [= <-] Hst.
    pose proof (app_step_stop _ _ _ _ Es Hst). destruct a'; [done|]. by rewrite Hd. }
  unfold main_step. destruct (a_main w) as [a| | | |a| |[]|a]; destruct e; try discriminate; intros H; try (eapply Ha; [|exact H]; done);
    repeat case_match; by simplify_eq.
Qed.

(** A stop can be lost, and with it the server's end: [handleAppState] sends on
    [stopServer] from the goroutine that receives from it. When the main goroutine, which
    found the connection too, has sent first, the channel is full, the server goroutine
    waits for itself for good, and the set-up server stays open whatever happens. *)
Theorem stop_deadlock d w0 es w c :
  boot d = Some w0 -> run es w0 = Some w -> a_srv w = SApp (ASend c) -> a_stop w = true ->
  forall es' w', run es' w = Some w' -> a_srv w' = SApp (ASend c) /\ exists i, a_open w' = {[i]}.
Proof.
  intros Hb Hr Hs Hst es' w' Hr'.
  assert (inv w) as Hinv.
  { eapply run_inv; [exact step_ok| |exact Hr]. unfold boot in Hb. repeat case_match; simplify_eq. by split. }
  enough (inv w' /\ a_srv w' = SApp (ASend c) /\ a_stop w' = true) as ([Hok _] & Hs' & _).
  { split; [done|]. unfold servers_ok in Hok. rewrite Hs' in Hok. destruct Hok as (i & _ & Ho & _). by exists i. }
  revert Hr'. apply (run_inv (fun w => inv w /\ a_srv w = SApp (ASend c) /\ a_stop w = true)); [|done].
  intros e w1 w2 (H1 & H2 & H3) He. split; [by eapply step_ok|]. revert He.
  destruct e; cbn [step]; try (unfold srv_step; rewrite H2; cbn; by rewrite ?H3).
  1,2: intros He; pose proof (main_step_stop _ _ _ He H3) as Hst2; apply main_step_srv in He as [He|[a Ha]];
    [by rewrite He | by rewrite (proj2 H1 a Ha) in H2].
  unfold handler_step. repeat case_match; intros; by simplify_eq.
Qed.

(** ** A hotspot nobody answers on, and one that is not tried again *)

(** Once the server goroutine has returned and main is in its last loop with the state "not
    connected", the hotspot stays as it is: a start that failed is not repeated. *)
Theorem hotspot_not_retried w es w' t :
  a_srv w = SDone -> a_main w = MLoop3 t -> a_state w = 0 -> a_current w = None -> run es w = Some w' ->
  a_hotspot w' = a_hotspot w /\ a_srv w' = SDone.
Proof.
  intros H1 H2 H3 H4 Hr.
  set (P (w1 : App S) := a_hotspot w1 = a_hotspot w /\ a_srv w1 = SDone /\ a_state w1 = 0 /\ a_current w1 = None /\
               ((exists t, a_main w1 = MLoop3 t) \/ a_main w1 = MApp3 (AStart false))).
  enough (P w') as (? & ? & _) by done. revert Hr. apply run_inv; [|by split_and!; eauto].
  intros e w1 w2 (Hh & Hs & Hst & Hc & Hm). destruct e; cbn [step]; try (unfold srv_step; by rewrite Hs);
    [| |unfold handler_step; by rewrite Hc].
  - unfold main_step. destruct Hm as [[[] Hm]|Hm]; rewrite Hm; [|done|].
    + repeat case_match; intros; simplify_eq; unfold P; cbn; (split_and!; [done..|]); first [by right | by left; eexists].
    + unfold main_app, app_step. rewrite Hst. cbn. intros [= <-]. unfold P. cbn. split_and!; [done..|]. left. by exists true.
  - unfold main_step. by destruct Hm as [[[] Hm]|Hm]; rewrite Hm.
Qed.
End main.

(** ** Concrete runs *)
Section concrete.
#[local] Existing Instance tickEnv.

(** Wifi is up from effect [up] to effect [down]; the internet is not reachable otherwise. *)
Definition toy_exec (up down : nat) (hotspot : bool) : Exec := {|
  exec_Output := fun _ _ _ => ExecFail "none";
  exec_Run := fun n name args =>
    let on := (up <=? n)%nat && (n <? down)%nat in
    match name, args with
    | "iw", ["dev"] => CmdDone (if on then "Interface wlan0" else "") "" None
    | "iw", _ => CmdDone "Connected to home" "" None
    | "ping", _ => CmdDone "" "" (Some "exit status 1")
    | "nmcli", ["connection"; "up"; "FxBlox"] => CmdDone "" "" (if hotspot then None else Some "exit status 4")
    | _, _ => CmdDone "" "" None
    end |}.

Definition set_up : Node unit :=
  mkNode 0 tt {["/internal/config.yaml" := "identity: k"; "/home/go_fula_version.info" := old_file]} ∅ None [] [].
Definition toy_boot (x : Exec) : option (App unit) := boot (X := x) default_vars 0 toy_uptime "linux" set_up.
Definition toy_run (x : Exec) (es : list Ev) (w : App unit) : option (App unit) :=
  run (X := x) default_vars "linux" (fun _ => None) (fun _ => "/tmp/p") es w.

(** The owner joins a network through the page while main is looking for one. *)
Definition both_connect : list Ev :=
  [EMain; EMain; ESrv; EMain; EMain; EHandler; EConnected; ESrv; EMain; EMain; EMain; EMain].

Lemma stop_deadlock_witness :
  exists w0 w, toy_boot (toy_exec 16 1000 true) = Some w0 /\ toy_run (toy_exec 16 1000 true) both_connect w0 = Some w /\
    a_main w = MLoop3 true /\
    forall es' w', toy_run (toy_exec 16 1000 true) es' w = Some w' -> a_srv w' = SApp (ASend true) /\ exists i, a_open w' = {[i]}.
Proof.
  set (x := toy_exec 16 1000 true).
  assert (match toy_boot x ≫= toy_run x both_connect with
          | Some w => a_main w = MLoop3 true /\ a_srv w = SApp (ASend true) /\ a_stop w = true
          | None => False end) as H by (vm_compute; auto).
  destruct (toy_boot x) as [w0|] eqn:Hb; [|destruct H]. cbn [mbind option_bind] in H.
  destruct (toy_run x both_connect w0) as [w|] eqn:Hr; [|destruct H]. destruct H as (H1 & H2 & H3).
  exists w0, w. split; [reflexivity|]. split; [exact Hr|]. split; [exact H1|].
  apply (stop_deadlock (X := x) default_vars 0 toy_uptime "linux" (fun _ => None) (fun _ => "/tmp/p") set_up w0 both_connect w true Hb Hr H2 H3).
Defined.

(** The device starts connected, so the server is stopped; then the network is lost. *)
Definition lost_network : list Ev := [EMain; EMain; EMain; ESrv; EStop; EMain; EMain; EMain; EMain].

Lemma one_server_witness :
  exists w0 w, toy_boot (toy_exec 0 15 true) = Some w0 /\ toy_run (toy_exec 0 15 true) lost_network w0 = Some w /\
    a_hotspot w = true /\
    (forall i, i ∈ a_open w -> a_current w = Some i /\ a_closer w = Some i) /\
    (a_srv w = SDone -> forall es' w', toy_run (toy_exec 0 15 true) es' w = Some w' -> a_srv w' = SDone /\ a_open w' = ∅).
Proof.
  set (x := toy_exec 0 15 true).
  assert (match toy_boot x ≫= toy_run x lost_network with Some w => a_hotspot w = true | None => False end) as H
    by (vm_compute; reflexivity).
  destruct (toy_boot x) as [w0|] eqn:Hb; [|destruct H]. cbn [mbind option_bind] in H.
  destruct (toy_run x lost_network w0) as [w|] eqn:Hr; [|destruct H].
  exists w0, w. split; [reflexivity|]. split; [exact Hr|]. split; [exact H|].
  apply (one_server (X := x) default_vars 0 toy_uptime "linux" (fun _ => None) (fun _ => "/tmp/p") set_up w0 lost_network w Hb Hr).
Defined.

(** After that run the hotspot is up and no server answers on it; and when the hotspot did
    not come up, it is not tried again. *)
Example hotspot_alone :
  match toy_boot (toy_exec 0 15 true) ≫= toy_run (toy_exec 0 15 true) lost_network with
  | Some w => a_hotspot w = true /\ a_srv w = SDone /\ a_open w = ∅
  | None => False
  end /\
  match toy_boot (toy_exec 0 15 false) ≫= toy_run (toy_exec 0 15 false) lost_network with
  | Some w => a_hotspot w = false /\ a_srv w = SDone /\ a_main w = MLoop3 true /\ a_state w = 0 /\ a_current w = None
  | None => False
  end.
Proof. vm_compute. by split_and!. Qed.
End concrete.
