(* ===== verification/BloxConfig.v ===== *)
(** * cmd/blox/main.go: flags and the start-up of config.yaml

    [init] declares the flags and where each is stored; [before] runs ahead of every command:
    it finds the config file, lets it supply the flags that were not given, generates what
    is still missing and writes the whole struct back. The flag library is modelled by its
    documented precedence: a flag given on the command line wins, then its environment
    variable, then, for the flags altsrc wraps, the key of the flag's name in the file, then
    the default. libp2p keys are the interface [KeyLib]. *)

From S2P Require Import Prelude GoStd GoPath Json PeerId SignedAuth Effects Node Evm PoolConfig ConfigFile KuboProxy Relay Blox.

#[local] Open Scope string_scope.
#[local] Open Scope Z_scope.

(** ** path.Clean and path.Join, of any path *)
Definition rel_step (stack : list string) (w : string) : list string :=
  if (w =? "")%string || (w =? ".")%string then stack
  else if (w =? "..")%string then
    match last stack with
    | None | Some ".." => (stack ++ [w])%list
    | _ => removelast stack
    end
  else (stack ++ [w])%list.
Definition path_Clean (p : string) : string :=
  if HasPrefix p "/" then filepath_Clean p
  else match fold_left rel_step (split_char "/" p) [] with [] => "." | ws => Join ws "/" end.
Definition path_Join (elems : list string) : string :=
  match List.filter (fun w => negb (w =? "")%string) elems with
  | [] => ""
  | ws => path_Clean (Join ws "/")
  end.
Definition IsAbs (p : string) : bool := HasPrefix p "/".
Definition filepath_Abs (cwd p : string) : string := if IsAbs p then path_Clean p else path_Join [cwd; p].

(** ** Flags *)
Record Flag := mkFlag {
  f_name : string;
  f_env : list string;
  f_value : yval;       (** the default *)
  f_path : bool;        (** PathFlag *)
  f_altsrc : bool
}.

Definition stringFlag (name : string) (env : list string) (value : string) : Flag :=
  mkFlag name env (YStr value) false true.
Definition sliceFlag (name : string) (value : list string) : Flag := mkFlag name [] (YList value) false true.
Definition boolFlag (name : string) (value : bool) : Flag := mkFlag name [] (YBool value) false true.

(** The flags kept in app.config. *)
Definition config_Flags : list Flag :=
  [stringFlag "identity" ["FULA_BLOX_IDENTITY"] "";
   mkFlag "storeDir" ["FULA_BLOX_STORE_DIR"] (YStr "") true true;
   stringFlag "poolName" ["FULA_BLOX_POOL_NAME"] "0";
   stringFlag "logLevel" ["FULA_BLOX_LOG_LEVEL"] "info";
   stringFlag "authorizer" ["FULA_BLOX_AUTHORIZER"] "";
   sliceFlag "listenAddr"
     ["/ip4/0.0.0.0/tcp/40001"; "/ip4/0.0.0.0/udp/40001/quic"; "/ip4/0.0.0.0/udp/40001/quic-v1";
      "/ip4/0.0.0.0/udp/40001/quic-v1/webtransport"];
   sliceFlag "staticRelays"
     ["/dns/relay.dev.fx.land/tcp/4001/p2p/12D3KooWDRrBaAfPwsGJivBoUw5fE7ZpDiyfUjqgiURq2DEcL835"];
   sliceFlag "ipfsBootstrapNodes"
     ["/dnsaddr/bootstrap.libp2p.io/p2p/QmNnooDu7bfjPFoTZYxMNLWUQJyrVwtbZg5gBMjTezGAJN";
      "/dnsaddr/bootstrap.libp2p.io/p2p/QmQCU2EcMqAqQPR2i9bChDtGNJchTbq5TbXJJ16u19uLTa";
      "/dnsaddr/bootstrap.libp2p.io/p2p/QmbLHAnMoJPWSCR5Zhtx6BHJX9KiKNN6tpvbUcqanj75Nb";
      "/dnsaddr/bootstrap.libp2p.io/p2p/QmcZf59bWwK5XFi76CZX8cbJ4BhTzzA3gU1ZjYZcYW3dwt"];
   boolFlag "forceReachabilityPrivate" true;
   boolFlag "allowTransientConnection" true;
   boolFlag "disableResourceManger" true;
   mkFlag "maxCIDPushRate" [] (YInt 20) false true;
   boolFlag "ipniPublisherDisabled" false;
   mkFlag "ipniPublishInterval" [] (YDur (10 * second)) false true;
   sliceFlag "ipniPublishDirectAnnounce" ["https://cid.contact/ingest/announce"];
   stringFlag "ipniPublisherIdentity" [] ""].

(** The flags with a destination of their own, which the file cannot set. *)
Definition plain_Flags : list Flag :=
  [mkFlag "config" ["FULA_BLOX_CONFIG"] (YStr "") true false;
   mkFlag "initOnly" [] (YBool false) false false;
   mkFlag "poolHost" [] (YBool false) false false;
   mkFlag "generateNodeKey" [] (YBool false) false false;
   mkFlag "generateSecretPhrase" [] (YBool false) false false;
   mkFlag "blockchainEndpoint" [] (YStr "api.node3.functionyard.fula.network") false false;
   mkFlag "secretsPath" [] (YStr "") false false].

Definition app_Flags : list Flag := (plain_Flags ++ config_Flags)%list.

Definition same_kind (a b : yval) : bool :=
  match a, b with
  | YStr _, YStr _ | YBool _, YBool _ | YInt _, YInt _ | YDur _, YDur _ | YList _, YList _ => true
  | _, _ => false
  end.

(** What the process was started with: the flags given, the environment, and the working
    directory. *)
Record Args := mkArgs {
  a_cmd : gmap string yval;
  a_env : gmap string string;
  a_cwd : string
}.

(** A flag that was given: the command line first, then the first variable that is set. *)
Definition given (a : Args) (f : Flag) : option yval :=
  match a_cmd a !! f_name f with
  | Some v => Some v
  | None => match omap (fun e => a_env a !! e) (f_env f) with v :: _ => Some (YStr v) | [] => None end
  end.

Definition parsed (a : Args) (f : Flag) : yval := default (f_value f) (given a f).

(** ApplyInputSourceValue: a flag not given takes the file's value of the same name, which
    must be of the flag's type; a relative path is relative to the file. *)
Definition from_source (a : Args) (source : string) (m : gmap string yval) (f : Flag) : outcome yval :=
  match given a f with
  | Some v => Ok v
  | None =>
      match (if f_altsrc f then m !! f_name f else None) with
      | None => Ok (f_value f)
      | Some v =>
          if negb (same_kind (f_value f) v) then Err ("Mismatched type for flag '" +:+ f_name f +:+ "'")
          else Ok (match v with
                   | YStr p => if f_path f && negb (IsAbs p)
                               then YStr (path_Join [filepath_Dir (filepath_Abs (a_cwd a) source); p]) else v
                   | _ => v
                   end)
      end
  end.

Fixpoint apply_all (a : Args) (source : string) (m : gmap string yval) (fs : list Flag) : outcome (gmap string yval) :=
  match fs with
  | [] => Ok ∅
  | f :: fs =>
      v <-! from_source a source m f;;
      vs <-! apply_all a source m fs;;
      Ok (<[f_name f := v]> vs)
  end.

(** The flags after parsing, before a file is read. *)
Definition parse_all (a : Args) (fs : list Flag) : gmap string yval :=
  list_to_map (map (fun f => (f_name f, parsed a f)) fs).

(** Each flag's Destination in app.config; the slices stay behind their own variables until
    the end of [before]. Nothing stores a chain name or authorized peers. *)
Definition config_of_flags (v : gmap string yval) : AppConfig := {|
  Identity := get_str v "identity" "";
  StoreDir := get_str v "storeDir" "";
  PoolName := get_str v "poolName" "";
  ChainName := "";
  LogLevel := get_str v "logLevel" "";
  ListenAddrs := [];
  Authorizer := get_str v "authorizer" "";
  AuthorizedPeers := [];
  IpfsBootstrapNodes := [];
  StaticRelays := [];
  ForceReachabilityPrivate := get_bool v "forceReachabilityPrivate" false;
  AllowTransientConnection := get_bool v "allowTransientConnection" false;
  DisableResourceManger := get_bool v "disableResourceManger" false;
  MaxCIDPushRate := get_int v "maxCIDPushRate" 0;
  IpniPublishDisabled := get_bool v "ipniPublisherDisabled" false;
  IpniPublishInterval := get_dur v "ipniPublishInterval" 0;
  IpniPublishDirectAnnounce := [];
  IpniPublisherIdentity := get_str v "ipniPublisherIdentity" "" |}.

(** ** Keys *)
Class KeyLib := {
  PrivKey : Type;
  crypto_MarshalPrivateKey : PrivKey -> outcome string;
  crypto_UnmarshalPrivateKey : string -> outcome PrivKey;
  key_Raw : PrivKey -> outcome string;
  IDFromPrivateKey : PrivKey -> outcome string;
  GenerateEd25519Key : string -> outcome PrivKey;     (** from a seed *)
  hmac_sha256 : string -> string -> string            (** key, message *)
}.

(** base64.DecodeString and UnmarshalPrivateKey *)
Definition parse_identity `{KeyLib} (identity : string) : outcome PrivKey :=
  match b64_decode identity with
  | None => Err "illegal base64 data"
  | Some km => crypto_UnmarshalPrivateKey km
  end.

Section start.
Context `{Y : Yaml} `{PC : PeerCrypto} `{K : KeyLib}.

(** os.Stat, and os.ReadFile of a file *)
Inductive Stat := SNone | SErr | SDir | SFile (content : option string).

(** The machine during one start. *)
Record Host := mkHost {
  h_home : option string;                (** os.UserHomeDir *)
  h_stat : string -> Stat;
  h_mkdir : string -> bool;              (** os.MkdirAll succeeds *)
  h_genIdentity : outcome PrivKey;       (** crypto.GenerateEd25519Key(nil), if called *)
  h_genPublisher : outcome PrivKey;
  h_write : FsResult
}.

Definition path_Dir (p : string) : string :=
  path_Clean (match cut_last "/" p with Some (d, _) => d +:+ "/" | None => "" end).

Definition config_path (a : Args) (home : string) : string :=
  let p := get_str (parse_all a app_Flags) "config" "" in
  if (p =? "")%string then path_Join [home; ".fula"; "blox"; "config.yaml"] else p.

(** The flags once the file has been consulted. *)
Definition read_source (a : Args) (h : Host) (path : string) : outcome (gmap string yval) :=
  match h_stat h path with
  | SNone => if h_mkdir h (path_Dir path) then Ok (parse_all a app_Flags) else Err "mkdir"
  | SErr => Err "stat config"
  | SDir => Err "config cannot be a directory"
  | SFile None => Err "unable to load Yaml file"
  | SFile (Some d) =>
      match yaml_map d with
      | None => Err "yaml: cannot unmarshal"
      | Some m => apply_all a path m app_Flags
      end
  end.

(** A generated key, as the config keeps it. *)
Definition new_identity (k : outcome PrivKey) : outcome string :=
  k <-! k;; km <-! crypto_MarshalPrivateKey k;; Ok (b64_encode km).

(** An absent field is filled in. *)
Definition or_else (s : string) (m : outcome string) : outcome string := if (s =? "")%string then m else Ok s.

Definition default_authorizer (identity : string) : outcome string :=
  key <-! parse_identity identity;; pid <-! IDFromPrivateKey key;; Ok (peer_String pid).

Definition ensure_store (h : Host) (dir : string) : outcome () :=
  match h_stat h dir with
  | SNone => if h_mkdir h dir then Ok () else Err "mkdir"
  | SErr => Err "stat storeDir"
  | SDir => Ok ()
  | SFile _ => Err "storeDir must be a directory"
  end.

(** From the flags to the struct that is written. *)
Definition complete (h : Host) (home : string) (v : gmap string yval) : outcome AppConfig :=
  let c := config_of_flags v in
  identity <-! or_else (Identity c) (new_identity (h_genIdentity h));;
  authorizer <-! or_else (Authorizer c) (default_authorizer identity);;
  publisher <-! or_else (IpniPublisherIdentity c) (new_identity (h_genPublisher h));;
  let storeDir := if (StoreDir c =? "")%string then path_Join [home; ".fula"; "blox"; "store"] else StoreDir c in
  _ <-! ensure_store h storeDir;;
  Ok {| Identity := identity;
        StoreDir := storeDir;
        PoolName := PoolName c;
        ChainName := ChainName c;
        LogLevel := LogLevel c;
        ListenAddrs := get_list v "listenAddr" [];
        Authorizer := authorizer;
        AuthorizedPeers := AuthorizedPeers c;
        IpfsBootstrapNodes := get_list v "ipfsBootstrapNodes" [];
        StaticRelays := get_list v "staticRelays" [];
        ForceReachabilityPrivate := ForceReachabilityPrivate c;
        AllowTransientConnection := AllowTransientConnection c;
        DisableResourceManger := DisableResourceManger c;
        MaxCIDPushRate := MaxCIDPushRate c;
        IpniPublishDisabled := IpniPublishDisabled c;
        IpniPublishInterval := IpniPublishInterval c;
        IpniPublishDirectAnnounce := get_list v "ipniPublishDirectAnnounce" [];
        IpniPublisherIdentity := publisher |}.

(** [before]: the struct of a start that goes on, and what it leaves in the file ([None]: the
    file was not touched). *)
Definition before (a : Args) (h : Host) : outcome AppConfig * option string :=
  match h_home h with
  | None => (Err "$HOME is not defined", None)
  | Some home =>
      let path := config_path a home in
      match (v <-! read_source a h path;; complete h home v) with
      | Ok c =>
          match yaml_Marshal c with
          | None => (Err "yaml: marshal error", None)
          | Some d =>
              match h_write h with
              | FsOk => (Ok c, Some d)
              | FsErr None => (Err "write config", None)
              | FsErr (Some n) => (Err "write config", Some (stake n d))
              end
          end
      | Err e => (Err e, None)
      | Panic => (Panic, None)
      end
  end.

(** The level [before] sets, ahead of reading the file. *)
Definition log_level_set (a : Args) : string := get_str (parse_all a app_Flags) "logLevel" "".

(** ** The flags as one function of the file *)

(** A flag's value over the mapping [m], when no type error is raised. *)
Definition final (a : Args) (path : string) (m : gmap string yval) (f : Flag) : yval :=
  match from_source a path m f with Ok v => v | _ => f_value f end.
Definition finals (a : Args) (path : string) (m : gmap string yval) : gmap string yval :=
  list_to_map (map (fun f => (f_name f, final a path m f)) app_Flags).

Definition flag (name : string) : Flag :=
  match List.find (fun f => (f_name f =? name)%string) app_Flags with Some f => f | None => mkFlag name [] YOther false false end.

Definition kind_ok (a : Args) (m : gmap string yval) (f : Flag) : Prop :=
  given a f = None -> f_altsrc f = true -> forall v, m !! f_name f = Some v -> same_kind (f_value f) v = true.

Lemma from_source_ok a path m f : kind_ok a m f -> from_source a path m f = Ok (final a path m f).
Proof.
  unfold kind_ok, final, from_source. intros H. destruct (given a f); [done|].
  destruct (if f_altsrc f then _ else _) as [v|] eqn:E; [|done].
  destruct (f_altsrc f); [|done]. by rewrite (H eq_refl eq_refl v E).
Qed.

Lemma from_source_inv a path m f v : from_source a path m f = Ok v -> v = final a path m f /\ kind_ok a m f.
Proof.
  unfold kind_ok, final. intros H. rewrite H. split; [done|]. revert H. unfold from_source.
  intros H Hg Hs w Hw. rewrite Hg, Hs, Hw in H. by destruct (same_kind _ _).
Qed.

Lemma apply_all_ok a path m fs : Forall (kind_ok a m) fs ->
  apply_all a path m fs = Ok (list_to_map (map (fun f => (f_name f, final a path m f)) fs)).
Proof.
  induction 1 as [|f fs Hf _ IH]; [done|]. cbn [apply_all map]. rewrite from_source_ok by done. cbn [obind].
  by rewrite IH.
Qed.

Lemma apply_all_inv a path m fs vs : apply_all a path m fs = Ok vs ->
  vs = list_to_map (map (fun f => (f_name f, final a path m f)) fs) /\ Forall (kind_ok a m) fs.
Proof.
  revert vs. induction fs as [|f fs IH]; intros vs; cbn [apply_all map]; [by intros [= <-]|].
  intros (v & [-> Hf]%from_source_inv & (ws & [-> Hfs]%IH & [= <-])%obind_Ok_inv)%obind_Ok_inv. by split; [|constructor].
Qed.

Lemma parse_all_finals a path : parse_all a app_Flags = finals a path ∅.
Proof.
  unfold parse_all, finals. f_equal. apply map_ext. intros f. f_equal. unfold parsed, final, from_source.
  destruct (given a f); [done|]. rewrite lookup_empty. by destruct (f_altsrc f).
Qed.

(** What a start reads: the mapping of the file, if there is one. *)
Lemma read_source_inv a h path v : read_source a h path = Ok v ->
  exists m, v = finals a path m /\ Forall (kind_ok a m) app_Flags /\
    (m = ∅ \/ exists d, h_stat h path = SFile (Some d) /\ yaml_map d = Some m).
Proof.
  unfold read_source. destruct (h_stat h path) as [| | |[d|]] eqn:Eh; try done.
  - destruct (h_mkdir _ _); [|done]. intros [= <-]. exists ∅. rewrite (parse_all_finals a path). split_and!; [done| |by left].
    rewrite Forall_forall. intros f _ _ _ v. by rewrite lookup_empty.
  - destruct (yaml_map d) as [m|] eqn:Em; [|done]. intros [-> Hk]%apply_all_inv. exists m. split_and!; [done..|].
    right. by exists d.
Qed.

Definition fstr a path m name := match final a path m (flag name) with YStr s => s | _ => "" end.
Definition fbool a path m name := match final a path m (flag name) with YBool b => b | _ => false end.
Definition fint a path m name := match final a path m (flag name) with YInt z => z | _ => 0 end.
Definition fdur a path m name := match final a path m (flag name) with YDur z => z | _ => 0 end.
Definition flist a path m name := match final a path m (flag name) with YList l => l | _ => [] end.

(** [complete] spelled out. *)
Lemma complete_finals h home a p m :
  complete h home (finals a p m) =
  (identity <-! or_else (fstr a p m "identity") (new_identity (h_genIdentity h));;
   authorizer <-! or_else (fstr a p m "authorizer") (default_authorizer identity);;
   publisher <-! or_else (fstr a p m "ipniPublisherIdentity") (new_identity (h_genPublisher h));;
   let storeDir := if (fstr a p m "storeDir" =? "")%string then path_Join [home; ".fula"; "blox"; "store"]
                   else fstr a p m "storeDir" in
   _ <-! ensure_store h storeDir;;
   Ok (mkAppConfig identity storeDir (fstr a p m "poolName") "" (fstr a p m "logLevel") (flist a p m "listenAddr")
     authorizer [] (flist a p m "ipfsBootstrapNodes") (flist a p m "staticRelays")
     (fbool a p m "forceReachabilityPrivate") (fbool a p m "allowTransientConnection")
     (fbool a p m "disableResourceManger") (fint a p m "maxCIDPushRate") (fbool a p m "ipniPublisherDisabled")
     (fdur a p m "ipniPublishInterval") (flist a p m "ipniPublishDirectAnnounce") publisher)).
Proof. reflexivity. Qed.

(** ** Restarting on a file the program wrote *)
Context `{L : !YamlLaws Y}.

(** Documented: a marshalled key names its type, so it is never empty. *)
Context (marshal_nonempty : forall k km, crypto_MarshalPrivateKey k = Ok km -> km <> "").

Lemma new_identity_nonempty k s : new_identity k = Ok s -> s <> "".
Proof.
  intros (k' & _ & (km & Hkm & [= <-])%obind_Ok_inv)%obind_Ok_inv.
  apply marshal_nonempty in Hkm. destruct km as [|x [|y [|z km]]]; [congruence|..]; cbn; discriminate.
Qed.

Lemma config_kind_ok a c : Forall (kind_ok a (list_to_map (config_fields c))) app_Flags.
Proof.
  unfold app_Flags, plain_Flags, config_Flags, kind_ok. cbn [app].
  repeat (apply Forall_cons; split;
    [intros _ _ v Hv; cbn [f_name stringFlag sliceFlag boolFlag] in Hv;
     match type of Hv with ?x = _ => let y := eval vm_compute in x in change x with y in Hv end;
     first [discriminate Hv | injection Hv as <-; reflexivity] |]).
  apply Forall_nil. done.
Qed.

Lemma before_program_file a h home c d :
  h_home h = Some home -> yaml_Marshal c = Some d -> h_stat h (config_path a home) = SFile (Some d) ->
  read_source a h (config_path a home) = Ok (finals a (config_path a home) (list_to_map (config_fields c))).
Proof.
  intros Hh Hm Hs. unfold read_source. rewrite Hs, (yaml_map_Marshal _ _ Hm).
  apply apply_all_ok, config_kind_ok.
Qed.

Lemma IsAbs_Join x l : IsAbs x = true -> IsAbs (path_Join (x :: l)) = true.
Proof.
  unfold path_Join, IsAbs. intros Hx. destruct x as [|ch x]; [done|].
  change (List.filter _ _) with (String ch x :: List.filter (fun w => negb (w =? "")%string) l).
  set (ws := List.filter _ l). unfold path_Clean.
  assert (HasPrefix (Join (String ch x :: ws) "/") "/" = true) as ->; [|by cbn; destruct (Join _ _)].
  revert Hx. unfold HasPrefix. cbn [String.prefix]. destruct (ascii_dec "/" ch) as [<-|]; [|discriminate].
  intros _. destruct ws; cbn; [by destruct x|by destruct (x +:+ _)].
Qed.

(** A value not given comes from the file, or is the default when the file has no such key. *)
Lemma final_given a p m f v : given a f = Some v -> final a p m f = v.
Proof. unfold final, from_source. by intros ->. Qed.
Lemma final_file a p m f v : given a f = None -> f_altsrc f = true -> f_path f = false ->
  m !! f_name f = Some v -> same_kind (f_value f) v = true -> final a p m f = v.
Proof. unfold final, from_source. intros -> -> -> -> ->. cbn. by destruct v. Qed.
Lemma final_default a p m f : given a f = None -> m !! f_name f = None -> final a p m f = f_value f.
Proof. unfold final, from_source. intros -> ->. by destruct (f_altsrc f). Qed.
Lemma final_path a p m f s : given a f = None -> f_altsrc f = true -> f_path f = true ->
  m !! f_name f = Some (YStr s) -> f_value f = YStr "" -> IsAbs s = true -> final a p m f = YStr s.
Proof. unfold final, from_source. intros -> -> -> -> ->. cbn. by intros ->. Qed.

(** The command line parser only accepts values of the flag's type. *)
Definition typed (a : Args) : Prop :=
  forall f v, f ∈ app_Flags -> given a f = Some v -> same_kind (f_value f) v = true.

Lemma final_kind a p m f : typed a -> f ∈ app_Flags -> kind_ok a m f -> same_kind (f_value f) (f_value f) = true ->
  same_kind (f_value f) (final a p m f) = true.
Proof.
  intros Ht Hf Hk Hr. unfold kind_ok, final, from_source in *. destruct (given a f) as [v|] eqn:E; [by apply Ht|].
  destruct (f_altsrc f); [|done]. destruct (m !! f_name f) as [v|] eqn:Em; [|done].
  specialize (Hk eq_refl eq_refl v eq_refl). rewrite Hk. cbn. destruct v, (f_value f); try done. by case_match.
Qed.

(** A flag the second start finds in the file under its own name, with the value the first
    start used, or in neither file. *)
Lemma final_again a p m1 m2 f : f_path f = false -> f_altsrc f = true ->
  (given a f = None -> m2 !! f_name f = Some (final a p m1 f) \/ (m1 !! f_name f = None /\ m2 !! f_name f = None)) ->
  same_kind (f_value f) (final a p m1 f) = true ->
  final a p m2 f = final a p m1 f.
Proof.
  intros Hp Hs H Hk. destruct (given a f) as [v|] eqn:E; [by rewrite !(final_given _ _ _ _ _ E)|].
  destruct (H eq_refl) as [H2|[H1 H2]].
  - by apply final_file.
  - by rewrite !final_default.
Qed.

(** A value seen as one of another's type. *)
Definition coerce (k v : yval) : yval :=
  match k with
  | YStr _ => YStr (match v with YStr s => s | _ => "" end)
  | YBool _ => YBool (match v with YBool s => s | _ => false end)
  | YInt _ => YInt (match v with YInt s => s | _ => 0 end)
  | YDur _ => YDur (match v with YDur s => s | _ => 0 end)
  | YList _ => YList (match v with YList s => s | _ => [] end)
  | YOther => YOther
  end.
Lemma coerce_same k v : same_kind k v = true -> coerce k v = v.
Proof. by destruct k, v. Qed.

(** The mapping of a file the program wrote, or no file. *)
Definition program_map (m : gmap string yval) : Prop := m = ∅ \/ exists c, m = list_to_map (config_fields c).

(** What a restart reads where the first start ended with [c]. *)
Section again.
Context (a : Args) (p : string) (m : gmap string yval) (c : AppConfig).
Context (Hty : typed a) (Hk : Forall (kind_ok a m) app_Flags).
Let m2 : gmap string yval := list_to_map (config_fields c).

Lemma flag_kind f : f ∈ app_Flags -> same_kind (f_value f) (f_value f) = true ->
  same_kind (f_value f) (final a p m f) = true.
Proof. intros Hf. apply final_kind; [done..|]. rewrite Forall_forall in Hk. by apply Hk. Qed.

Lemma flag_again n : flag n ∈ app_Flags -> f_path (flag n) = false -> f_altsrc (flag n) = true ->
  same_kind (f_value (flag n)) (f_value (flag n)) = true ->
  m2 !! f_name (flag n) = Some (coerce (f_value (flag n)) (final a p m (flag n))) \/
    (m !! f_name (flag n) = None /\ m2 !! f_name (flag n) = None) ->
  final a p m2 (flag n) = final a p m (flag n).
Proof.
  intros Hf Hp Hs Hv Hm. pose proof (flag_kind _ Hf Hv) as H. apply final_again; [done..| |done]. intros _.
  by rewrite coerce_same in Hm.
Qed.
End again.

(** Names whose flag and YAML tag are the same string, and those where they differ. *)
Definition kept_names : list string :=
  ["poolName"; "logLevel"; "ipfsBootstrapNodes"; "staticRelays"; "forceReachabilityPrivate"; "allowTransientConnection";
   "disableResourceManger"; "maxCIDPushRate"; "ipniPublishInterval"].
Definition lost_names : list string := ["listenAddr"; "ipniPublisherDisabled"; "ipniPublishDirectAnnounce"].

Lemma program_map_lost m n : program_map m -> n ∈ lost_names -> m !! n = None.
Proof.
  intros [->|[c ->]] Hn; [apply lookup_empty|].
  repeat (apply elem_of_cons in Hn as [->|Hn]; [vm_compute; reflexivity|]). by apply elem_of_nil in Hn.
Qed.

Lemma flag_in n : is_Some (List.find (fun f => (f_name f =? n)%string) app_Flags) -> flag n ∈ app_Flags.
Proof.
  intros [f Hf]. unfold flag. rewrite Hf. apply List.find_some in Hf as [H _].
  by apply list_elem_of_In.
Qed.

Lemma given_str a n v : typed a -> is_Some (List.find (fun f => (f_name f =? n)%string) app_Flags) ->
  same_kind (f_value (flag n)) (YStr "") = true -> given a (flag n) = Some v -> exists s, v = YStr s.
Proof.
  intros Hty Hf Hk Hg. apply Hty in Hg; [|by apply flag_in]. destruct (f_value (flag n)), v; try done. by eexists.
Qed.

(** A generated field is generated once. *)
Lemma or_else_again a p m m2 n x gen gen2 : typed a ->
  is_Some (List.find (fun f => (f_name f =? n)%string) app_Flags) -> f_path (flag n) = false -> f_altsrc (flag n) = true ->
  same_kind (f_value (flag n)) (YStr "") = true ->
  m2 !! f_name (flag n) = Some (YStr x) ->
  or_else (fstr a p m n) gen = Ok x ->
  (given a (flag n) = Some (YStr "") \/ x = "" -> gen2 = Ok x) ->
  or_else (fstr a p m2 n) gen2 = Ok x.
Proof.
  intros Hty Hf Hp Hs Hk Hm Hx Hg. unfold fstr in *. destruct (given a (flag n)) as [v|] eqn:E.
  - rewrite !(final_given _ _ _ _ _ E) in *. destruct (given_str _ _ _ Hty Hf Hk E) as [s ->].
    revert Hx. unfold or_else. destruct (String.eqb_spec s "") as [->|]; [|done]. intros _. apply Hg. by left.
  - rewrite (final_file _ _ _ _ _ E Hs Hp Hm) by done. unfold or_else.
    destruct (String.eqb_spec x "") as [->|]; [|done]. apply Hg. by right.
Qed.

Lemma or_else_nonempty s m x : or_else s m = Ok x -> (m = Ok x -> x <> "") -> x <> "".
Proof. unfold or_else. destruct (String.eqb_spec s "") as [->|]; [tauto|]. by intros [= <-]. Qed.

Lemma IsAbs_nonempty s : IsAbs s = true -> (s =? "")%string = false.
Proof. by destruct s. Qed.

Lemma IsAbs_slash s : IsAbs ("/" +:+ s) = true.
Proof. by destruct s. Qed.

(** The store directory a start ends with is found again. *)
Definition store_dir (home s : string) : string :=
  if (s =? "")%string then path_Join [home; ".fula"; "blox"; "store"] else s.
Lemma store_again a p m m2 home : typed a -> IsAbs home = true ->
  let sd := store_dir home (fstr a p m "storeDir") in
  m2 !! "storeDir" = Some (YStr sd) -> store_dir home (fstr a p m2 "storeDir") = sd.
Proof.
  intros Hty Hh sd Hm. subst sd. destruct (given a (flag "storeDir")) as [v|] eqn:E.
  { unfold fstr. by rewrite !(final_given _ _ _ _ _ E). }
  assert (IsAbs (store_dir home (fstr a p m "storeDir")) = true) as Habs.
  { unfold store_dir. destruct (String.eqb_spec (fstr a p m "storeDir") "") as [|Hne]; [by apply IsAbs_Join|].
    revert Hne. unfold fstr, final, from_source. rewrite E. cbn [f_altsrc flag].
    change (f_name (flag "storeDir")) with "storeDir". change (f_altsrc (flag "storeDir")) with true.
    cbn match. destruct (m !! "storeDir") as [[s| | | | |]|]; cbn -[path_Join IsAbs filepath_Dir filepath_Abs]; try done.
    destruct (IsAbs s) eqn:Es; cbn [negb]; [done|]. intros _. apply IsAbs_Join, IsAbs_slash. }
  unfold fstr at 1. rewrite (final_path _ _ _ _ _ E eq_refl eq_refl Hm eq_refl Habs).
  unfold store_dir at 1. by rewrite (IsAbs_nonempty _ Habs).
Qed.

Lemma complete_again a p m h h2 home c :
  typed a -> given a (flag "identity") <> Some (YStr "") -> given a (flag "ipniPublisherIdentity") <> Some (YStr "") ->
  IsAbs home = true -> program_map m -> Forall (kind_ok a m) app_Flags ->
  complete h home (finals a p m) = Ok c -> ensure_store h2 (StoreDir c) = Ok () ->
  complete h2 home (finals a p (list_to_map (config_fields c))) = Ok c.
Proof.
  intros Hty Hi Hpub Hhome Hm Hk Hc Hst. rewrite complete_finals in Hc |- *.
  apply obind_Ok_inv in Hc as (identity & Hid & Hc). apply obind_Ok_inv in Hc as (auth & Hau & Hc).
  apply obind_Ok_inv in Hc as (pub & Hpu & Hc). cbv zeta in Hc |- *.
  apply obind_Ok_inv in Hc as ([] & _ & Hc). injection Hc as Hc.
  fold (store_dir home (fstr a p m "storeDir")) in Hc.
  fold (store_dir home (fstr a p (list_to_map (config_fields c)) "storeDir")).
  assert (Forall (fun n => final a p (list_to_map (config_fields c)) (flag n) = final a p m (flag n))
    (kept_names ++ lost_names)%list) as Hag.
  { unfold kept_names, lost_names. cbn [app].
    repeat (apply Forall_cons; split;
      [apply flag_again; [done|done|apply flag_in; by eexists|done|done|done|];
       first [left; rewrite <- Hc; reflexivity
             |right; split; [apply program_map_lost; [done|cbv; set_solver] | rewrite <- Hc; reflexivity]] |]).
    by apply Forall_nil. }
  set (m2 := list_to_map (config_fields c)) in *.
  assert (or_else (fstr a p m2 "identity") (new_identity (h_genIdentity h2)) = Ok identity) as ->.
  { eapply (or_else_again a p m m2 _ _ _ _ Hty); [by eexists|done..|by subst m2; rewrite <- Hc|exact Hid|].
    intros [?| ->]; [done|]. exfalso. by apply (or_else_nonempty _ _ _ Hid (new_identity_nonempty _ _)). }
  cbn [obind].
  assert (or_else (fstr a p m2 "authorizer") (default_authorizer identity) = Ok auth) as ->.
  { eapply (or_else_again a p m m2 _ _ _ _ Hty); [by eexists|done..|by subst m2; rewrite <- Hc|exact Hau|].
    intros [Hg| ->]; revert Hau; unfold or_else; [unfold fstr; by rewrite (final_given _ _ _ _ _ Hg)|].
    by destruct (String.eqb_spec (fstr a p m "authorizer") "") as [|Hne]; [|intros [= ?]]. }
  cbn [obind].
  assert (or_else (fstr a p m2 "ipniPublisherIdentity") (new_identity (h_genPublisher h2)) = Ok pub) as ->.
  { eapply (or_else_again a p m m2 _ _ _ _ Hty); [by eexists|done..|by subst m2; rewrite <- Hc|exact Hpu|].
    intros [?| ->]; [done|]. exfalso. by apply (or_else_nonempty _ _ _ Hpu (new_identity_nonempty _ _)). }
  cbn [obind]. rewrite (store_again a p m m2 home Hty Hhome) by (by subst m2; rewrite <- Hc).
  rewrite <- Hc in Hst. cbn [StoreDir] in Hst. rewrite Hst. cbn [obind]. f_equal.
  clearbody m2. rewrite <- Hc. unfold kept_names, lost_names in Hag. cbn [app] in Hag. rewrite !Forall_cons in Hag.
  destruct_and! Hag. f_equal; unfold fstr, flist, fbool, fint, fdur;
    repeat match goal with H : final _ _ m2 _ = _ |- _ => rewrite H; clear H end; done.
Qed.

Lemma before_Ok_inv a h home c w : h_home h = Some home -> before a h = (Ok c, w) ->
  exists m d, w = Some d /\ yaml_Marshal c = Some d /\ Forall (kind_ok a m) app_Flags /\
    complete h home (finals a (config_path a home) m) = Ok c /\
    (m = ∅ \/ exists d0, h_stat h (config_path a home) = SFile (Some d0) /\ yaml_map d0 = Some m).
Proof.
  unfold before. intros ->. cbv zeta. destruct (obind _ _) as [c0|e|] eqn:E; [|done..].
  destruct (yaml_Marshal c0) as [d|] eqn:Ed; [|done].
  destruct (h_write h) as [|[n|]]; [|done..]. intros [= <- <-].
  apply obind_Ok_inv in E as (v & (m & -> & Hk & Hm)%read_source_inv & Hc). by exists m, d.
Qed.

Lemma before_complete a h home v c d : h_home h = Some home -> read_source a h (config_path a home) = Ok v ->
  complete h home v = Ok c -> yaml_Marshal c = Some d -> h_write h = FsOk -> before a h = (Ok c, Some d).
Proof. intros Hh Hr Hc Hm Hw. unfold before. rewrite Hh. cbv zeta. rewrite Hr. cbn [obind]. by rewrite Hc, Hm, Hw. Qed.

(** No config file yet, or one the program wrote. *)
Definition program_file (h : Host) (path : string) : Prop :=
  (forall d, h_stat h path <> SFile (Some d)) \/
  exists c d, yaml_Marshal c = Some d /\ h_stat h path = SFile (Some d).

(** C39. Starting again changes nothing. The first start is on no config file or on one this
    program wrote (a listenAddr key written by hand is used by one start and gone at the next, see
    [listen_key_lost]), with flags of the right types and a home directory that is an absolute
    path, and neither identity is given as an empty string on the command line or in the
    environment (which would make every start draw a new one, see [empty_identity_new]).
    When it succeeds, a second start with the same command line and environment, on a machine whose
    home is the same and where the file reads and writes and the store directory is there,
    succeeds with exactly the configuration of the first and writes the same file, whatever
    keys the random source would give: the device keeps its identity, its authorizer and its
    publisher identity. *)
Theorem restart_stable a h h2 home c d :
  typed a -> given a (flag "identity") <> Some (YStr "") -> given a (flag "ipniPublisherIdentity") <> Some (YStr "") ->
  IsAbs home = true -> h_home h = Some home -> program_file h (config_path a home) ->
  before a h = (Ok c, Some d) ->
  h_home h2 = Some home -> h_stat h2 (config_path a home) = SFile (Some d) ->
  ensure_store h2 (StoreDir c) = Ok () -> h_write h2 = FsOk ->
  before a h2 = (Ok c, Some d).
Proof.
  intros Hty Hi Hp Hhome Hh Hfile Hb Hh2 Hs2 Hst Hw.
  destruct (before_Ok_inv _ _ _ _ _ Hh Hb) as (m & d0 & [= <-] & Hd & Hk & Hc & Hm).
  eapply before_complete; [exact Hh2|by eapply before_program_file| |exact Hd|exact Hw].
  eapply (complete_again a _ m h); try done.
  destruct Hm as [->|(d0 & Hs & Hy)]; [by left|]. right.
  destruct Hfile as [Hf|(c0 & d1 & Hd1 & Hs1)]; [by destruct (Hf d0)|]. exists c0.
  rewrite Hs1 in Hs. injection Hs as ->. rewrite (yaml_map_Marshal _ _ Hd1) in Hy. symmetry. by apply (inj Some).
Qed.

(** A start with no flags and no variables. *)
Definition noArgs (cwd : string) : Args := mkArgs ∅ ∅ cwd.

(** What it makes of the configuration in the file. *)
Definition restarted (c : AppConfig) : AppConfig :=
  mkAppConfig (Identity c) (StoreDir c) (PoolName c) "" (LogLevel c)
    ["/ip4/0.0.0.0/tcp/40001"; "/ip4/0.0.0.0/udp/40001/quic"; "/ip4/0.0.0.0/udp/40001/quic-v1";
     "/ip4/0.0.0.0/udp/40001/quic-v1/webtransport"]
    (Authorizer c) [] (IpfsBootstrapNodes c) (StaticRelays c) (ForceReachabilityPrivate c)
    (AllowTransientConnection c) (DisableResourceManger c) (MaxCIDPushRate c) false (IpniPublishInterval c)
    ["https://cid.contact/ingest/announce"] (IpniPublisherIdentity c).

Definition configured (c : AppConfig) : Prop :=
  Identity c <> "" /\ Authorizer c <> "" /\ IpniPublisherIdentity c <> "" /\ IsAbs (StoreDir c) = true.

Lemma or_else_same s m : s <> "" -> or_else s m = Ok s.
Proof. intros Hs. unfold or_else. by destruct (String.eqb_spec s ""). Qed.

(** What survives a restart. A start without flags or variables on a configuration the
    program wrote keeps the identity, the authorizer, the pool, the store and the other
    settings whose flag is named like their YAML key; it resets the listen addresses, the
    IPNI publisher switch and its announce addresses to the defaults, since their keys in
    the file are not the names of their flags, and it drops the chain and the authorized
    peers, which have no flag. *)
Theorem plain_restart h home cwd c d d' :
  configured c -> yaml_Marshal c = Some d -> yaml_Marshal (restarted c) = Some d' ->
  h_home h = Some home -> h_stat h (config_path (noArgs cwd) home) = SFile (Some d) ->
  ensure_store h (StoreDir c) = Ok () -> h_write h = FsOk ->
  before (noArgs cwd) h = (Ok (restarted c), Some d').
Proof.
  intros (Hi & Ha & Hp & Hs) Hd Hd' Hh Hf Hst Hw.
  eapply before_complete; [exact Hh|exact (before_program_file _ h home c d Hh Hd Hf)| |exact Hd'|exact Hw].
  rewrite complete_finals.
  assert (fstr (noArgs cwd) (config_path (noArgs cwd) home) (list_to_map (config_fields c)) "storeDir" = StoreDir c) as Hsd.
  { unfold fstr. by rewrite (final_path _ _ _ (flag "storeDir") (StoreDir c)). }
  rewrite Hsd. cbv zeta. rewrite (IsAbs_nonempty _ Hs).
  set (f := fstr _ _ _). change (f "identity") with (Identity c). change (f "authorizer") with (Authorizer c).
  change (f "ipniPublisherIdentity") with (IpniPublisherIdentity c).
  rewrite (or_else_same (Identity c) _ Hi). cbn [obind]. rewrite (or_else_same (Authorizer c) _ Ha). cbn [obind].
  rewrite (or_else_same (IpniPublisherIdentity c) _ Hp). cbn [obind]. rewrite Hst. reflexivity.
Qed.

(** ** The chain is searched at every start *)
Section search.
Context `{E : Env} `{MB : Multibase} (o : Options) (kuboAPIAddr : string).

Lemma needs_search (b : Blox ConfigState) c d :
  n_store (b_node b) = mkConfig (Some d) c -> yaml_Marshal c = Some d -> ChainName c = "" ->
  (needsDiscovery b).1 = Ok true.
Proof.
  intros Hs Hd Hc. unfold needsDiscovery, bind, gets. cbn [fst]. destruct (b_topicName b =? "0")%string; [done|].
  unfold on_node. destruct (getChainName (b_node b)) as [r w] eqn:Eg.
  assert (r = Ok "") as ->; [|done].
  revert Eg. unfold getChainName, bind, fs_step. cbn. rewrite Hs.
  destruct (env_fs (n_fx (b_node b))) as [|l]; cbn; [|by intros [= <- <-]].
  unfold getChainNameFromConfig, load. cbn [cfg_file app_config]. rewrite (yaml_roundtrip c d c Hd).
  intros [= <- <-]. by rewrite Hc.
Qed.

Lemma before_no_chain a h home c w : h_home h = Some home -> before a h = (Ok c, w) -> ChainName c = "".
Proof.
  intros Hh Hb. destruct (before_Ok_inv _ _ _ _ _ Hh Hb) as (m & d & _ & _ & _ & Hc & _).
  rewrite complete_finals in Hc.
  apply obind_Ok_inv in Hc as (i & _ & Hc). apply obind_Ok_inv in Hc as (u & _ & Hc).
  apply obind_Ok_inv in Hc as (p & _ & Hc). cbv zeta in Hc. apply obind_Ok_inv in Hc as ([] & _ & Hc).
  by injection Hc as <-.
Qed.

(** A device searches the chains for its pool at every start, also when its config file
    named the pool and the chain: [before] rewrites the file without the chain name, so
    whenever the pool part of the start that follows returns, from whatever state of the
    blox over that config, it made a search ([discovery_sound] says what one takes). *)
Theorem start_searches a h home c d fuel (b b' : Blox ConfigState) r :
  h_home h = Some home -> before a h = (Ok c, Some d) ->
  n_store (b_node b) = mkConfig (Some d) c ->
  Start_pool o kuboAPIAddr fuel b = (Ok r, b') ->
  r <> None.
Proof.
  intros Hh Hb Hs Hr. destruct (before_Ok_inv _ _ _ _ _ Hh Hb) as (m & d0 & [= <-] & Hd & _).
  unfold Start_pool in Hr. apply bind_Ok_inv in Hr as (t & b0 & [= <- <-] & Hr).
  apply bind_Ok_inv in Hr as ([] & b1 & Hf & Hr).
  assert (n_store (b_node b1) = mkConfig (Some d) c) as Hs1.
  { destruct (negb _); [|by injection Hf as <-]. pose proof (idle_forward (S := ConfigState) kuboAPIAddr b) as [Hi _].
    rewrite Hf in Hi. cbn [snd] in Hi. destruct Hi as (_ & -> & _). done. }
  pose proof (needs_search b1 c d Hs1 Hd (before_no_chain _ _ _ _ _ Hh Hb)) as Hn.
  apply bind_Ok_inv in Hr as (need & b2 & Hneed & Hr). rewrite Hneed in Hn. injection Hn as ->.
  apply bind_Ok_inv in Hr as (x & b3 & (y & b4 & _ & [= <- <-])%bind_Ok_inv & Hr).
  apply bind_Ok_inv in Hr as (t' & b5 & _ & Hr). apply bind_Ok_inv in Hr as (sv & b6 & _ & Hr).
  apply bind_Ok_inv in Hr as ([] & b7 & _ & Hr). by injection Hr as <- _.
Qed.
End search.
End start.

(** ** One machine *)
Section concrete.
#[local] Existing Instances jsonYaml jsonYamlLaws toyCrypto rawMultibase startEnv.

(** Keys are their seeds. *)
#[local] Instance toyKeys : KeyLib := {|
  PrivKey := string;
  crypto_MarshalPrivateKey := fun k => Ok ("k" +:+ k);
  crypto_UnmarshalPrivateKey := fun km => match km with String _ k => Ok k | EmptyString => Err "no key" end;
  key_Raw := fun k => Ok (k +:+ k);
  IDFromPrivateKey := fun k => Ok ("id-" +:+ k);
  GenerateEd25519Key := fun s => Ok s;
  hmac_sha256 := fun k m => k +:+ m |}.

Lemma toy_marshal_nonempty (k : PrivKey) km : crypto_MarshalPrivateKey k = Ok km -> km <> "".
Proof. by intros [= <-]. Qed.

Definition pi_config := "/home/pi/.fula/blox/config.yaml".

(** /home/pi with [file] as the config file, and the keys the next start would generate. *)
Definition pi (file : option string) (key pub : string) : Host :=
  mkHost (Some "/home/pi")
    (fun p => if (p =? pi_config)%string then match file with Some d => SFile (Some d) | None => SNone end else SDir)
    (fun _ => true) (Ok key) (Ok pub) FsOk.

Definition in_pool_7 : Args := mkArgs {["poolName" := YStr "7"]} {["FULA_BLOX_LOG_LEVEL" := "debug"]} "/".

Definition first_start : AppConfig * string :=
  match before in_pool_7 (pi None "a" "b") with (Ok c, Some d) => (c, d) | _ => (zeroConfig, "") end.

Lemma in_pool_7_typed : typed in_pool_7.
Proof.
  intros f v Hf. unfold app_Flags, plain_Flags, config_Flags in Hf. cbn [app] in Hf.
  repeat (apply elem_of_cons in Hf as [->|Hf]; [vm_compute; first [discriminate | by intros [= <-]]|]).
  by apply elem_of_nil in Hf.
Qed.

Lemma restart_stable_witness :
  before in_pool_7 (pi None "a" "b") = (Ok first_start.1, Some first_start.2) /\
  before in_pool_7 (pi (Some first_start.2) "x" "y") = (Ok first_start.1, Some first_start.2).
Proof.
  assert (before in_pool_7 (pi None "a" "b") = (Ok first_start.1, Some first_start.2)) as H by (vm_compute; reflexivity).
  split; [exact H|].
  apply (restart_stable toy_marshal_nonempty in_pool_7 (pi None "a" "b") (pi (Some first_start.2) "x" "y") "/home/pi");
    [apply in_pool_7_typed|vm_compute; discriminate|vm_compute; discriminate|reflexivity|reflexivity| |exact H
    |reflexivity|vm_compute; reflexivity|vm_compute; reflexivity|reflexivity].
  left. intros d. vm_compute. discriminate.
Defined.

(** A device in pool 7 on base that listens on one address. *)
Definition running : AppConfig :=
  mkAppConfig "aWQ=" "/store" "7" "base" "debug" ["/ip4/0.0.0.0/tcp/4001"] "owner" ["bob"] [] [] true true true 20 true
    (10 * second) [] "cHVi".

Lemma plain_restart_witness :
  exists d d', yaml_Marshal running = Some d /\ yaml_Marshal (restarted running) = Some d' /\
  before (noArgs "/") (pi (Some d) "x" "y") = (Ok (restarted running), Some d') /\
  ListenAddrs running <> ListenAddrs (restarted running) /\ ChainName (restarted running) = "".
Proof.
  destruct (yaml_Marshal running) as [d|] eqn:Hd; [|discriminate Hd].
  destruct (yaml_Marshal (restarted running)) as [d'|] eqn:Hd'; [|discriminate Hd'].
  exists d, d'. split; [reflexivity|]. split; [reflexivity|]. split; [|split; [discriminate|reflexivity]].
  apply (plain_restart (pi (Some d) "x" "y") "/home/pi" "/" running d d');
    [split_and!; (discriminate || reflexivity)|exact Hd|exact Hd'|reflexivity|reflexivity|reflexivity|reflexivity].
Defined.

Definition rebooted (c : AppConfig) (d : string) : Blox ConfigState :=
  mkBlox (mkNode 0 (mkConfig (Some d) c) ∅ ∅ None [] []) (mkKubo 0 [] ∅) (PoolName c) "" "" [].

Lemma start_searches_witness :
  exists b', Start_pool toy_options "" 10 (rebooted first_start.1 first_start.2) = (Ok (Some (Some true)), b') /\
  @Some (option bool) (Some true) <> None.
Proof.
  destruct (Start_pool toy_options "" 10 (rebooted first_start.1 first_start.2)) as [r b'] eqn:H.
  assert (r = Ok (Some (Some true))) as -> by (apply (f_equal fst) in H; vm_compute in H; congruence).
  exists b'. split; [reflexivity|].
  apply (start_searches toy_options "" in_pool_7 (pi None "a" "b") "/home/pi" first_start.1 first_start.2 10
    (rebooted first_start.1 first_start.2) b'); [reflexivity|vm_compute; reflexivity|reflexivity|exact H].
Defined.

(** A listen address under the key the flag reads is used by one start and gone in the
    file that start writes. *)
Definition hand_written := jq "{'listenAddr':['/ip4/0.0.0.0/tcp/4001']}".
Definition start_on (a : Args) (file : option string) (key : string) : option (AppConfig * string) :=
  match before a (pi file key key) with (Ok c, Some d) => Some (c, d) | _ => None end.
Lemma listen_key_lost :
  exists c d c' d', start_on (noArgs "/") (Some hand_written) "a" = Some (c, d) /\
  start_on (noArgs "/") (Some d) "b" = Some (c', d') /\
  ListenAddrs c = ["/ip4/0.0.0.0/tcp/4001"] /\ ListenAddrs c' = ListenAddrs (restarted zeroConfig) /\
  Identity c' = Identity c.
Proof.
  destruct (start_on (noArgs "/") (Some hand_written) "a") as [[c d]|] eqn:H1; [|vm_compute in H1; discriminate H1].
  vm_compute in H1. injection H1 as <- <-. do 4 eexists. split; [reflexivity|]. split; [vm_compute; reflexivity|].
  split_and!; reflexivity.
Qed.

(** With FULA_BLOX_IDENTITY set to nothing every start is a new device. *)
Definition empty_identity : Args := mkArgs ∅ {["FULA_BLOX_IDENTITY" := ""]} "/".
Lemma empty_identity_new :
  exists c d c' d', start_on empty_identity None "a" = Some (c, d) /\ start_on empty_identity (Some d) "b" = Some (c', d') /\
  Identity c' <> Identity c.
Proof.
  destruct (start_on empty_identity None "a") as [[c d]|] eqn:H1; [|vm_compute in H1; discriminate H1].
  vm_compute in H1. injection H1 as <- <-. do 4 eexists. split; [reflexivity|]. split; [vm_compute; reflexivity|].
  vm_compute. discriminate.
Qed.

(** The level in the file is not the one that is set. *)
Lemma log_level_unread cwd : log_level_set (noArgs cwd) = "info".
Proof. reflexivity. Qed.
End concrete.
