(* ===== verification/BlOptions.v ===== *)
(** * blockchain/options.go: the options of FxBlockchain

    The packages configure themselves with a list of options, each of which sets one field,
    so a field holds what the last option that names it said ([setting]). Handles to other
    components (wait group, kubo and cluster clients, accessors, the hook) are kept as whether
    they are set. *)

From S2P Require Import Prelude GoStd Effects Access Node Evm.

#[local] Open Scope string_scope.
#[local] Open Scope Z_scope.

(** The field an option list leaves: [pick] is what one option says of it. *)
Definition setting {O A : Type} (pick : O -> option A) (dflt : A) (l : list O) : A :=
  fold_left (fun v o => match pick o with Some x => x | None => v end) l dflt.

Lemma setting_app {O A} (pick : O -> option A) d l1 l2 :
  setting pick d (l1 ++ l2)%list = setting pick (setting pick d l1) l2.
Proof. apply fold_left_app. Qed.

Definition defaultEndpoint := "api.node3.functionyard.fula.network".

Inductive Option :=
| WithAuthorizer (a : string)
| WithAuthorizedPeers (l : list string)
| WithAllowTransientConnection (t : bool)
| WithBlockchainEndPoint (b : string)
| WithSecretsPath (b : string)
| WithTimeout (t : Z)
| WithWg (wg : bool)
| WithMinSuccessPingCount (sr : Z)
| WithIpfsClusterAPI (n : bool)
| WithMaxPingTime (t : Z)
| WithIpfsClient (n : bool)
| WithFetchFrequency (t : Z)
| WithTopicName (n : string)
| WithUpdatePoolName (f : bool)
| WithGetPoolName (f : bool)
| WithChainName (n : string)
| WithUpdateChainName (f : bool)
| WithGetChainName (f : bool)
| WithRelays (r : list string)
| WithSelfPeerID (id : string)
| WithClusterPeerID (id : string)
| WithRequestSigning (key : option string)
| WithOnPoolConfigCleared (fn : bool)
| WithPoolHost (b : bool)
| WithClientProtocolID (pid : string)
| withListenAddrs (proxy ping : string)
| withChainConfigs (c : option (gmap string ChainConfig)).

Record options := mkOpts {
  authorizer : string;
  authorizedPeers : list string;
  allowTransientConnection : bool;
  blockchainEndPoint : string;
  secretsPath : string;
  timeout : Z;
  wg : bool;
  minPingSuccessCount : Z;
  maxPingTime : Z;
  topicName : string;
  chainName : string;
  relays : list string;
  (** are the accessors the caller's, or the package's defaults *)
  updatePoolName : bool;
  getPoolName : bool;
  updateChainName : bool;
  getChainName : bool;
  fetchFrequency : Z;
  rpc : bool;
  ipfsClusterApi : bool;
  selfPeerID : string;
  clusterPeerID : string;
  signingKey : option string;
  clientProtocolID : string;
  onPoolConfigCleared : bool;
  poolHost : bool;
  proxyListenAddr : string;
  pingListenAddr : string;
  chainConfigOverride : option (gmap string ChainConfig)
}.

Definition ProxyListenAddr := "0.0.0.0:4020".
Definition PingListenAddr := "0.0.0.0:4021".

(** A non-empty text, or nothing. *)
Definition nonempty (s : string) : option string := if (s =? "")%string then None else Some s.

Definition newOptions (l : list Option) : options := {|
  authorizer := setting (fun o => match o with WithAuthorizer a => Some a | _ => None end) "" l;
  authorizedPeers := setting (fun o => match o with WithAuthorizedPeers a => Some a | _ => None end) [] l;
  allowTransientConnection := setting (fun o => match o with WithAllowTransientConnection a => Some a | _ => None end) true l;
  blockchainEndPoint := setting (fun o => match o with
    | WithBlockchainEndPoint b => Some (if (b =? "")%string then defaultEndpoint else b) | _ => None end) defaultEndpoint l;
  secretsPath := setting (fun o => match o with WithSecretsPath b => Some b | _ => None end) "" l;
  timeout := setting (fun o => match o with WithTimeout t => Some t | _ => None end) 30 l;
  wg := setting (fun o => match o with WithWg w => Some w | _ => None end) false l;
  minPingSuccessCount := setting (fun o => match o with WithMinSuccessPingCount s => Some s | _ => None end) 7 l;
  maxPingTime := setting (fun o => match o with WithMaxPingTime t => Some t | _ => None end) 900 l;
  topicName := setting (fun o => match o with WithTopicName n => Some n | _ => None end) "0" l;
  chainName := setting (fun o => match o with WithChainName n => Some n | _ => None end) "" l;
  relays := setting (fun o => match o with WithRelays r => Some r | _ => None end) [] l;
  (** a nil accessor keeps the default *)
  updatePoolName := setting (fun o => match o with WithUpdatePoolName true => Some true | _ => None end) false l;
  getPoolName := setting (fun o => match o with WithGetPoolName true => Some true | _ => None end) false l;
  updateChainName := setting (fun o => match o with WithUpdateChainName true => Some true | _ => None end) false l;
  getChainName := setting (fun o => match o with WithGetChainName true => Some true | _ => None end) false l;
  fetchFrequency := setting (fun o => match o with WithFetchFrequency t => Some t | _ => None end) (3600 * second) l;
  rpc := setting (fun o => match o with WithIpfsClient n => Some n | _ => None end) false l;
  ipfsClusterApi := setting (fun o => match o with WithIpfsClusterAPI n => Some n | _ => None end) false l;
  selfPeerID := setting (fun o => match o with WithSelfPeerID i => Some i | _ => None end) "" l;
  clusterPeerID := setting (fun o => match o with WithClusterPeerID i => Some i | _ => None end) "" l;
  signingKey := setting (fun o => match o with WithRequestSigning k => Some k | _ => None end) None l;
  clientProtocolID := setting (fun o => match o with WithClientProtocolID i => Some i | _ => None end) "" l;
  onPoolConfigCleared := setting (fun o => match o with WithOnPoolConfigCleared f => Some f | _ => None end) false l;
  poolHost := setting (fun o => match o with WithPoolHost b => Some b | _ => None end) false l;
  proxyListenAddr := setting (fun o => match o with withListenAddrs p _ => nonempty p | _ => None end) ProxyListenAddr l;
  pingListenAddr := setting (fun o => match o with withListenAddrs _ p => nonempty p | _ => None end) PingListenAddr l;
  chainConfigOverride := setting (fun o => match o with withChainConfigs c => Some c | _ => None end) None l |}.

(** The part of the options the operations of Node.v read; peer ids as their text. *)
Definition node_options (peer_text : string -> string) (o : options) : Node.Options := {|
  Node.timeout := timeout o;
  Node.blockchainEndPoint := blockchainEndPoint o;
  Node.topicName := topicName o;
  Node.selfPeer := peer_text (selfPeerID o);
  Node.clusterPeerID := if (clusterPeerID o =? "")%string then "" else peer_text (clusterPeerID o);
  Node.poolHost := poolHost o;
  Node.onPoolConfigCleared := onPoolConfigCleared o;
  Node.chainConfigOverride := chainConfigOverride o |}.

(** NewFxBlockchain: its options and its authorization state, which starts with the
    authorizer alone (the option for authorized peers is not read). *)
Definition NewFxBlockchain (l : list Option) : outcome (options * AuthState) :=
  let o := newOptions l in
  a <-! NewFxBlockchain_auth (authorizer o) (selfPeerID o);;
  Ok (o, a).
