(* ===== verification/ExOptions.v ===== *)
(** * exchange/options.go, noop_exchange.go: the exchange's settings

    The options of the exchange, in the style of BlOptions.v, and the exchange that does
    nothing. Tickers and limiters are kept as the interval and rate they are made with. *)

From S2P Require Import Prelude GoStd Effects Access Node Evm BlOptions.

#[local] Open Scope string_scope.
#[local] Open Scope Z_scope.

Inductive XOption :=
| WithUpdateConfig (f : bool)
| WithAuthorizer (a : string)
| WithAuthorizedPeers (l : list string)
| WithAllowTransientConnection (t : bool)
| WithIpniPublishDisabled (d : bool)
| WithIpniPublishInterval (t : Z)
| WithIpniGetEndPoint (l : string)
| WithPoolHostMode (n : bool)
| WithIpniPublishChanBuffer (s : Z)
| WithIpniPublishMaxBatchSize (s : Z)
| WithIpniProviderEngineOptions (n : nat)
| WithDhtProviderOptions (n : nat)
| WithWg (wg : bool)
| WithIPFSApi (b : bool)
| WithIPFSNode (b : bool)
| WithMaxPushRate (r : Z).

Record xoptions := mkXOptions {
  x_authorizer : string;
  x_authorizedPeers : list string;
  x_allowTransientConnection : bool;
  x_ipniPublishDisabled : bool;
  x_poolHostMode : bool;
  x_ipniPublishTicker : Z;
  x_ipniPublishChanBuffer : Z;
  x_ipniPublishMaxBatchSize : Z;
  x_ipniGetEndpoint : string;
  x_updateConfig : bool;
  x_pushRate : Z
}.

(** time.NewTicker panics unless its interval is positive. *)
Definition newXOptions (l : list XOption) : outcome xoptions :=
  let tick := setting (fun o => match o with WithIpniPublishInterval t => Some (Some t) | _ => None end) None l in
  let endpoint := setting (fun o => match o with WithIpniGetEndPoint s => Some s | _ => None end) "" l in
  if existsb (fun o => match o with WithIpniPublishInterval t => t <=? 0 | _ => false end) l then Panic
  else Ok {|
    x_authorizer := setting (fun o => match o with WithAuthorizer a => Some a | _ => None end) "" l;
    x_authorizedPeers := setting (fun o => match o with WithAuthorizedPeers a => Some a | _ => None end) [] l;
    x_allowTransientConnection := setting (fun o => match o with WithAllowTransientConnection b => Some b | _ => None end) false l;
    x_ipniPublishDisabled := setting (fun o => match o with WithIpniPublishDisabled b => Some b | _ => None end) false l;
    x_poolHostMode := setting (fun o => match o with WithPoolHostMode b => Some b | _ => None end) false l;
    x_ipniPublishTicker := match tick with Some t => t | None => 10 * second end;
    x_ipniPublishChanBuffer := setting (fun o => match o with WithIpniPublishChanBuffer s => Some s | _ => None end) 1 l;
    x_ipniPublishMaxBatchSize := setting (fun o => match o with WithIpniPublishMaxBatchSize s => Some s | _ => None end) (Z.shiftl 16 10) l;
    x_ipniGetEndpoint := if (endpoint =? "")%string then "https://cid.contact/cid/" else endpoint;
    x_updateConfig := setting (fun o => match o with WithUpdateConfig b => Some b | _ => None end) false l;
    x_pushRate := setting (fun o => match o with WithMaxPushRate r => Some r | _ => None end) 1000 l |}.

(** NoopExchange: every operation succeeds, and no provider is found. *)
Definition NoopExchange_op : outcome () := Ok ().
Definition NoopExchange_FindProvidersIpni : outcome (list (string * list string)) := Ok [].

(** Every option list without a non-positive interval is accepted, and what comes last wins. *)
Lemma newXOptions_last l t : Forall (fun o => match o with WithIpniPublishInterval t => 0 < t | _ => True end) l -> 0 < t ->
  exists o, newXOptions (l ++ [WithIpniPublishInterval t])%list = Ok o /\ x_ipniPublishTicker o = t /\
    x_ipniGetEndpoint o <> "".
Proof.
  intros Hl Ht. unfold newXOptions.
  assert (existsb (fun o => match o with WithIpniPublishInterval t => t <=? 0 | _ => false end) (l ++ [WithIpniPublishInterval t]) = false) as ->.
  { rewrite existsb_app. cbn. rewrite orb_false_r. apply orb_false_iff. split; [|lia].
    induction Hl as [|o l Ho _ IH]; [done|]. cbn. rewrite IH, orb_false_r. destruct o; try done. lia. }
  eexists. split; [reflexivity|]. cbn [x_ipniPublishTicker x_ipniGetEndpoint]. rewrite !setting_app. cbn [setting fold_left].
  split; [reflexivity|]. case_match eqn:E; [done|]. by apply String.eqb_neq.
Qed.
