(* ===== verification/NodeServers.v ===== *)
(** * blockchain: the proxy and ping servers, the key store's directory, big integers

    The device's two HTTP servers from start to shutdown, the answer of the ping server, the
    directory NewSimpleKeyStorer settles on, and the JSON form of BigInt. Listening and
    http.Server.Shutdown are given by their results. *)

From S2P Require Import Prelude GoStd Json JsonPrint Float SignedAuth Effects Access Node Evm BlOptions.

#[local] Open Scope string_scope.
#[local] Open Scope Z_scope.

(** ** The ping server's answer *)
Definition clusterAPIURL := "http://127.0.0.1:9094/id".

Record PingServerResponse := mkPingResp {
  ps_Success : bool; ps_Timestamp : Z; ps_PeerID : string; ps_UptimeMs : Z; ps_ClusterPeerID : string; ps_ClusterHealthy : bool
}.

Definition PingServerResponse_json (r : PingServerResponse) : json :=
  JObj ([("success", JBool (ps_Success r)); ("timestamp", JNum (Itoa (ps_Timestamp r))); ("peer_id", JStr (ps_PeerID r));
         ("uptime_ms", JNum (Itoa (ps_UptimeMs r)))]
        ++ (if (ps_ClusterPeerID r =? "")%string then [] else [("cluster_peer_id", JStr (ps_ClusterPeerID r))])
        ++ [("cluster_healthy", JBool (ps_ClusterHealthy r))])%list.

(** The cluster's id, when it answers 200 with one. *)
Definition cluster_id (r : HttpReply) : option string :=
  match r with
  | Reply st body =>
      if st =? StatusOK then
        l ← decode_body body;
        let '(id, ok) := field_string "" (obj_field "id" l) in
        if (ok : bool) && negb (id =? "")%string then Some id else None
      else None
  | ReplyErr _ => None
  end.

Definition ping_answer (self : string) (now start : Z) (cluster : HttpReply) : PingServerResponse :=
  let base := mkPingResp true (now / 1000000) self (Z.quot (now - start) 1000000) in
  match cluster_id cluster with
  | Some id => base id true
  | None => base "" false
  end.

(** The cluster is reported healthy exactly with its id. *)
Lemma ping_answer_cluster self now start r :
  ps_ClusterHealthy (ping_answer self now start r) = negb (ps_ClusterPeerID (ping_answer self now start r) =? "")%string.
Proof.
  unfold ping_answer, cluster_id. destruct r as [|st body]; [done|]. destruct (st =? StatusOK); [|done].
  destruct (decode_body body) as [l|]; [|done]. cbn. destruct (field_string "" (obj_field "id" l)) as [id ok].
  destruct ok; cbn; [|done]. destruct (id =? "")%string eqn:E; [done|]. cbn. by rewrite E.
Qed.

(** ** Start and shutdown *)
Record Servers := mkServers {
  sv_open : gset string;             (** addresses listened on *)
  sv_proxy : option string;          (** proxyServer, with its address *)
  sv_ping : option string;
  sv_fetchStop : bool;               (** fetchCheckStop is closed *)
  sv_goroutines : nat                (** added to the wait group *)
}.

(** net.Listen: an address in use, or one [refused], is an error. *)
Definition Listen (refused : gset string) (addr : string) (s : Servers) : outcome Servers :=
  if bool_decide (addr ∈ refused) || bool_decide (addr ∈ sv_open s) then Err ("listen tcp " +:+ addr)
  else Ok (mkServers ({[addr]} ∪ sv_open s) (sv_proxy s) (sv_ping s) (sv_fetchStop s) (sv_goroutines s)).

Definition StartProxy (refused : gset string) (o : options) (s : Servers) : outcome Servers :=
  s' <-! Listen refused (proxyListenAddr o) s;;
  Ok (mkServers (sv_open s') (Some (proxyListenAddr o)) (sv_ping s') (sv_fetchStop s') (S (sv_goroutines s'))).

Definition StartPingProxy (refused : gset string) (o : options) (s : Servers) : outcome Servers :=
  s' <-! Listen refused (pingListenAddr o) s;;
  Ok (mkServers (sv_open s') (sv_proxy s') (Some (pingListenAddr o)) (sv_fetchStop s') (S (sv_goroutines s'))).

(** The error and the state left: the proxy keeps running when the ping server cannot. *)
Definition Start (refused : gset string) (o : options) (s : Servers) : option string * Servers :=
  match StartProxy refused o s with
  | Ok s1 => match StartPingProxy refused o s1 with Ok s2 => (None, s2) | Err e => (Some e, s1) | Panic => (None, s1) end
  | Err e => (Some e, s)
  | Panic => (None, s)
  end.

(** http.Server.Shutdown closes the listener and reports whether the connections became idle. *)
Definition shut (addr : option string) (s : Servers) : Servers :=
  match addr with
  | Some a => mkServers (sv_open s ∖ {[a]}) (sv_proxy s) (sv_ping s) (sv_fetchStop s) (sv_goroutines s)
  | None => s
  end.

(** [ping_idle], [proxy_idle]: did the servers' connections end in time. *)
Definition Shutdown (ping_idle proxy_idle : bool) (s : Servers) : outcome (option string) * Servers :=
  if sv_fetchStop s then (Panic, s)          (** close of closed channel *)
  else
    let s0 := mkServers (sv_open s) (sv_proxy s) (sv_ping s) true (sv_goroutines s) in
    let s1 := shut (sv_ping s0) s0 in
    let s2 := shut (sv_proxy s1) s1 in
    (Ok (match sv_proxy s with Some _ => if proxy_idle then None else Some "context deadline exceeded" | None => None end), s2).

Definition newServers : Servers := mkServers ∅ None None false 0.

(** A started node listens on its two addresses; its shutdown closes both whatever the
    connections do, and reports the proxy's; a second shutdown panics. *)
Lemma servers_life refused o s ping_idle proxy_idle r s' :
  proxyListenAddr o <> pingListenAddr o ->
  Start refused o newServers = (None, s) -> Shutdown ping_idle proxy_idle s = (r, s') ->
  sv_open s = {[proxyListenAddr o; pingListenAddr o]} /\ sv_open s' = ∅ /\
  r = Ok (if proxy_idle then None else Some "context deadline exceeded") /\
  Shutdown ping_idle proxy_idle s' = (Panic, s').
Proof.
  intros Hne. unfold Start, StartProxy, StartPingProxy, Listen. cbn [newServers sv_open].
  rewrite (bool_decide_false (proxyListenAddr o ∈ (∅ : gset string))) by set_solver. rewrite orb_false_r.
  destruct (bool_decide (proxyListenAddr o ∈ refused)); [done|]. cbn [obind sv_open sv_proxy sv_ping sv_fetchStop sv_goroutines].
  rewrite (bool_decide_false (pingListenAddr o ∈ ({[proxyListenAddr o]} ∪ ∅ : gset string))) by set_solver. rewrite orb_false_r.
  destruct (bool_decide (pingListenAddr o ∈ refused)); [done|]. cbn [obind sv_open sv_proxy sv_ping sv_fetchStop sv_goroutines].
  intros [= <-]. unfold Shutdown. cbn. intros [= <- <-]. cbn.
  split; [set_solver|]. split; [set_solver|]. by split.
Qed.

(** An occupied ping address leaves the proxy serving behind the error. *)
Lemma ping_taken o : proxyListenAddr o <> pingListenAddr o ->
  exists e s, Start {[pingListenAddr o]} o newServers = (Some e, s) /\ sv_open s = {[proxyListenAddr o]}.
Proof.
  intros Hne. unfold Start, StartProxy, StartPingProxy, Listen. cbn [newServers sv_open].
  rewrite (bool_decide_false (proxyListenAddr o ∈ (∅ : gset string))) by set_solver. rewrite (bool_decide_false (proxyListenAddr o ∈ ({[pingListenAddr o]} : gset string))) by set_solver.
  cbn [orb obind]. rewrite (bool_decide_true (pingListenAddr o ∈ {[pingListenAddr o]})) by set_solver. cbn.
  do 2 eexists. split; [reflexivity|]. cbn. set_solver.
Qed.

(** ** The key store's directory *)
(** os.Stat says the directory does not exist; os.MkdirAll works; SECRETS_DIR. *)
Definition NewSimpleKeyStorer (dbPath : string) (missing : string -> bool) (mkdir : string -> bool) (secretsDir : string) : string :=
  let dbPath := if (dbPath =? "")%string then "/internal/.secrets" else dbPath in
  if missing dbPath && negb (mkdir dbPath) then (if (secretsDir =? "")%string then "." else secretsDir) else dbPath.

(** ** BigInt *)
(** big.Int.SetString(s, 10): an optional sign and at least one digit, underscores only for
    base 0. *)
Definition SetString (s : string) : option Z :=
  let '(neg, d) := sign_split s in
  if (d =? "")%string || negb (sforall is_digit d) then None
  else Some (if neg : bool then - digits_val 0 d else digits_val 0 d).

Definition BigInt_MarshalJSON (b : Z) : string := Itoa b.
(** [None]: an error, and the value stays. *)
Definition BigInt_UnmarshalJSON (cur : Z) (p : string) : option Z :=
  if (p =? "null")%string then Some cur else SetString p.

Lemma digits_val_numeral s n : numeral s n -> digits_val 0 s = n /\ sforall is_digit s = true /\ s <> "".
Proof.
  intros (d & t & -> & Hd & Ht & Hv). cbn [digits_val sforall]. rewrite byte_digit_char by lia.
  replace (0 * 10 + (48 + d - 48)) with d by lia. rewrite digit_char_is_digit by lia. by rewrite Ht.
Qed.

(** The sign the text starts with, and the digits behind it. *)
Lemma sign_split_spec s neg d : sign_split s = (neg, d) ->
  exists sg, s = sg +:+ d /\ sg ∈ [""; "-"; "+"] /\ (neg = true <-> sg = "-").
Proof.
  intros H. destruct (decide (neg = false /\ d = s)) as [[-> ->]|Hn].
  { exists "". split; [done|]. split; [set_solver|done]. }
  unfold sign_split in H. destruct s as [|c s]; [by injection H as <- <-; destruct Hn|].
  destruct c as [[] [] [] [] [] [] [] []]; try (by injection H as <- <-; destruct Hn); injection H as <- <-;
    [exists "+"|exists "-"]; (split; [done|]; split; [set_solver|done]).
Qed.

Lemma sign_split_numeral s n : numeral s n -> sign_split s = (false, s).
Proof.
  intros (d & t & -> & Hd & _). assert (is_digit (digit_char d) = true) as H by (apply digit_char_is_digit; lia).
  revert H. by destruct (digit_char d) as [[] [] [] [] [] [] [] []].
Qed.

Lemma SetString_numeral s n : numeral s n -> SetString s = Some n /\ SetString (String "-" s) = Some (- n).
Proof.
  intros Hn. unfold SetString. cbn [sign_split]. rewrite (sign_split_numeral _ _ Hn).
  destruct (digits_val_numeral _ _ Hn) as (-> & -> & Hs).
  by rewrite (proj2 (String.eqb_neq s "") Hs).
Qed.

(** A balance of any size survives JSON: what BigInt writes, it reads back as the same
    integer, with no bound on its size, and every text it accepts other than null is an
    optionally signed decimal. *)
Theorem bigint_roundtrip cur b :
  BigInt_UnmarshalJSON cur (BigInt_MarshalJSON b) = Some b /\
  (forall p z, BigInt_UnmarshalJSON cur p = Some z -> p = "null" /\ z = cur \/
     exists sg d, p = sg +:+ d /\ sg ∈ [""; "-"; "+"] /\ d <> "" /\ sforall is_digit d = true).
Proof.
  split.
  - unfold BigInt_UnmarshalJSON, BigInt_MarshalJSON, Itoa, FormatInt.
    assert (forall s, SetString s = Some b -> (if (s =? "null")%string then Some cur else SetString s) = Some b) as H.
    { intros s Hs. destruct (String.eqb_spec s "null") as [->|]; [discriminate Hs|done]. }
    apply H. destruct (Z.ltb_spec b 0).
    + replace (Some b) with (Some (- - b)) by (f_equal; lia).
      exact (proj2 (SetString_numeral _ (- b) (FormatUint_numeral (- b) ltac:(lia)))).
    + destruct (Z.eq_dec b 0) as [->|]; [done|]. exact (proj1 (SetString_numeral _ b (FormatUint_numeral b ltac:(lia)))).
  - intros p z. unfold BigInt_UnmarshalJSON. destruct (String.eqb_spec p "null") as [->|]; [intros [= ->]; by left|].
    unfold SetString. destruct (sign_split p) as [neg d] eqn:E. apply sign_split_spec in E as (sg & -> & Hsg & _).
    destruct (String.eqb_spec d "") as [|Hd]; [done|]. destruct (sforall is_digit d) eqn:Hf; [|done].
    intros _. right. by exists sg, d.
Qed.
