(* ===== verification/BloxOptions.v ===== *)
(** * blox/options.go, blox.New: how a blox is put together

    The options of the blox, as BlOptions.v has those of FxBlockchain, and [New], which turns
    them into the latter. Handles to other components (wait group, kubo and cluster clients,
    datastore, link system, config accessors) are kept as whether they are set. *)

From S2P Require Import Prelude GoStd GoPath Json SignedAuth Effects Access Node Evm KuboProxy BloxConfig.
From S2P Require Import BlOptions.

#[local] Open Scope string_scope.
#[local] Open Scope Z_scope.

(** ** blox/options.go *)
Inductive Option :=
| WithAuthorizer (id : string)
| WithSelfPeerID (id : string)
| WithClusterPeerID (id : string)
| WithPoolName (n : string)
| WithStoreDir (n : string)
| WithTopicName (n : string)
| WithAnnounceInterval (i : Z)
| WithDatastore (ds : bool)
| WithDefaultIPFShttpServer (n : string)
| WithIpfsClient (n : bool)
| WithPoolHostMode (n : bool)
| WithIpfsClusterAPI (n : bool)
| WithLinkSystem (ls : bool)
| WithRelays (r : list string)
| WithUpdatePoolName (f : bool)
| WithGetPoolName (f : bool)
| WithPingCount (pc : Z)
| WithMaxPingTime (pt : Z)
| WithMinSuccessPingRate (sr : Z)
| WithBlockchainEndPoint (b : string)
| WithSecretsPath (b : string)
| WithWg (wg : bool)
| WithChainName (n : string)
| WithUpdateChainName (f : bool)
| WithGetChainName (f : bool)
| WithKuboAPIAddr (addr : string).

(** Which link system the blox stores blocks with. *)
Inductive LinkSystem := LsGiven | LsDatastore.

Record options := mkOpts {
  selfPeerID : string;
  clusterPeerID : string;
  name : string;
  topicName : string;
  chainName : string;
  storeDir : string;
  announceInterval : Z;
  dsGiven : bool;                 (** or an in-memory map *)
  ls : LinkSystem;
  authorizer : string;
  authorizedPeers : list string;
  relays : list string;
  updatePoolName : bool;
  getPoolName : bool;
  updateChainName : bool;
  getChainName : bool;
  pingCount : Z;
  maxPingTime : Z;
  minSuccessRate : Z;
  blockchainEndpoint : string;
  secretsPath : string;
  poolHostMode : bool;
  DefaultIPFShttpServer : string;
  wgGiven : bool;                 (** or one of its own *)
  rpc : bool;
  ipfsClusterApi : bool;
  kuboAPIAddr : string
}.

Definition newOptions (l : list Option) : options :=
  let name0 := BlOptions.setting (fun o => match o with WithPoolName n => Some n | _ => None end) "" l in
  let topic0 := BlOptions.setting (fun o => match o with WithTopicName n => Some n | _ => None end) "" l in
  let ping0 := BlOptions.setting (fun o => match o with WithPingCount n => Some n | _ => None end) 0 l in
  let auth0 := BlOptions.setting (fun o => match o with WithAuthorizer n => Some n | _ => None end) "" l in
  let self := BlOptions.setting (fun o => match o with WithSelfPeerID n => Some n | _ => None end) "" l in
  let kubo0 := BlOptions.setting (fun o => match o with WithKuboAPIAddr n => Some n | _ => None end) "" l in
  let name := if (name0 =? "")%string then "0" else name0 in
  {| selfPeerID := self;
     clusterPeerID := BlOptions.setting (fun o => match o with WithClusterPeerID n => Some n | _ => None end) "" l;
     name := name;
     topicName := if (topic0 =? "")%string then path_Clean name else topic0;
     chainName := BlOptions.setting (fun o => match o with WithChainName n => Some n | _ => None end) "" l;
     storeDir := BlOptions.setting (fun o => match o with WithStoreDir n => Some n | _ => None end) "" l;
     announceInterval := BlOptions.setting (fun o => match o with WithAnnounceInterval n => Some n | _ => None end) (5 * second) l;
     dsGiven := BlOptions.setting (fun o => match o with WithDatastore b => Some b | _ => None end) false l;
     ls := if BlOptions.setting (fun o => match o with WithLinkSystem b => Some b | _ => None end) false l then LsGiven else LsDatastore;
     authorizer := if (auth0 =? "")%string && negb (self =? "")%string then self else auth0;
     authorizedPeers := [];   (** no option sets them *)
     relays := BlOptions.setting (fun o => match o with WithRelays r => Some r | _ => None end) [] l;
     updatePoolName := BlOptions.setting (fun o => match o with WithUpdatePoolName b => Some b | _ => None end) false l;
     getPoolName := BlOptions.setting (fun o => match o with WithGetPoolName b => Some b | _ => None end) false l;
     updateChainName := BlOptions.setting (fun o => match o with WithUpdateChainName b => Some b | _ => None end) false l;
     getChainName := BlOptions.setting (fun o => match o with WithGetChainName b => Some b | _ => None end) false l;
     pingCount := if ping0 <=? 0 then 5 else ping0;
     maxPingTime := BlOptions.setting (fun o => match o with WithMaxPingTime n => Some n | _ => None end) 0 l;
     minSuccessRate := BlOptions.setting (fun o => match o with WithMinSuccessPingRate n => Some n | _ => None end) 0 l;
     blockchainEndpoint := BlOptions.setting (fun o => match o with
       | WithBlockchainEndPoint b => Some (if (b =? "")%string then BlOptions.defaultEndpoint else b) | _ => None end) "" l;
     secretsPath := BlOptions.setting (fun o => match o with WithSecretsPath b => Some b | _ => None end) "" l;
     poolHostMode := BlOptions.setting (fun o => match o with WithPoolHostMode b => Some b | _ => None end) false l;
     DefaultIPFShttpServer := BlOptions.setting (fun o => match o with WithDefaultIPFShttpServer b => Some b | _ => None end) "" l;
     wgGiven := BlOptions.setting (fun o => match o with WithWg b => Some b | _ => None end) false l;
     rpc := BlOptions.setting (fun o => match o with WithIpfsClient b => Some b | _ => None end) false l;
     ipfsClusterApi := BlOptions.setting (fun o => match o with WithIpfsClusterAPI b => Some b | _ => None end) false l;
     kuboAPIAddr := if (kubo0 =? "")%string then defaultKuboAPIAddr else kubo0 |}.

(** ** blox.New *)

(** The options [New] gives to NewFxBlockchain. *)
Definition blockchain_options (p : options) : list BlOptions.Option :=
  [BlOptions.WithAuthorizer (authorizer p);
   BlOptions.WithAuthorizedPeers (authorizedPeers p);
   BlOptions.WithBlockchainEndPoint (blockchainEndpoint p);
   BlOptions.WithSecretsPath (secretsPath p);
   BlOptions.WithSelfPeerID (selfPeerID p);
   BlOptions.WithClusterPeerID (clusterPeerID p);
   BlOptions.WithTimeout 65;
   BlOptions.WithWg true;
   BlOptions.WithFetchFrequency (60 * second);
   BlOptions.WithTopicName (topicName p);
   BlOptions.WithChainName (chainName p);
   BlOptions.WithUpdatePoolName (updatePoolName p);
   BlOptions.WithGetPoolName (getPoolName p);
   BlOptions.WithUpdateChainName (updateChainName p);
   BlOptions.WithGetChainName (getChainName p);
   BlOptions.WithRelays (relays p);
   BlOptions.WithMaxPingTime (maxPingTime p);
   BlOptions.WithIpfsClient (rpc p);
   BlOptions.WithMinSuccessPingCount (Z.quot (minSuccessRate p * pingCount p) 100);
   BlOptions.WithIpfsClusterAPI (ipfsClusterApi p);
   BlOptions.WithPoolHost (poolHostMode p);
   BlOptions.WithOnPoolConfigCleared true].

Definition New (l : list Option) : outcome (options * (BlOptions.options * AuthState)) :=
  let p := newOptions l in
  bl <-! BlOptions.NewFxBlockchain (blockchain_options p);;
  Ok (p, bl).

(** ** What a blox has to be *)

(** [New] never fails, and its owner is the configured one, or the blox itself when none is. *)
Lemma New_auth l : exists p bl a, New l = Ok (p, (bl, a)) /\ p = newOptions l /\
  bl = BlOptions.newOptions (blockchain_options p) /\
  Access.authorizer a = authorizer p /\ Access.selfPeerID a = selfPeerID p /\
  Access.authorizedPeers a = (if (authorizer p =? "")%string || (selfPeerID p =? "")%string then ∅ else {[authorizer p]}).
Proof.
  unfold New, BlOptions.NewFxBlockchain, NewFxBlockchain_auth. cbv zeta. set (p := newOptions l).
  change (BlOptions.authorizer (BlOptions.newOptions (blockchain_options p))) with (authorizer p).
  change (BlOptions.selfPeerID (BlOptions.newOptions (blockchain_options p))) with (selfPeerID p).
  unfold SetAuth. cbn [Access.selfPeerID]. rewrite String.eqb_refl.
  exists p. destruct (authorizer p =? "")%string eqn:E1, (selfPeerID p =? "")%string eqn:E2; cbn [negb andb orb obind];
    do 2 eexists; (split; [reflexivity|]); cbn; auto 10.
  do 4 (split; [done|]). by rewrite union_empty_r_L.
Qed.
