(* ===== verification/BloxMain.v ===== *)
(** * cmd/blox/main.go: the command, its keys and its block storage

    [action] runs after [before] (BloxConfig.v): it prints a key or a phrase, or puts the
    device together: the kubo peer id derived from the identity, the cluster peer id that is
    the identity's own, the kubo address, the owner, and [blox.New] on all of it. The two
    openers at the end are the link system the device is given: blocks are written to and read
    from kubo over HTTP. bip39, the resolver, multiaddrs and the kubo client are interfaces. *)

From S2P Require Import Prelude GoStd GoPath Json JsonPrint PeerId SignedAuth Effects Access Node Evm PoolConfig ConfigFile.
From S2P Require Import KuboProxy Relay Blox BloxConfig BloxOptions.

#[local] Open Scope string_scope.
#[local] Open Scope Z_scope.

(** ** Keys *)
Section keys.
Context `{PC : PeerCrypto} `{K : KeyLib}.

Definition ConvertBase64PrivateKeyToHexNodeKey (base64PrivKey : string) : outcome string :=
  privKey <-! parse_identity base64PrivKey;;
  rawPrivKey <-! key_Raw privKey;;
  seed <-! go_slice rawPrivKey 0 32;;
  Ok (hex_encode seed).

Definition wrap {A : Type} (pre : string) (m : outcome A) : outcome A :=
  match m with Err e => Err (pre +:+ e) | _ => m end.

Definition kuboIdentityDomain := "fula-kubo-identity-v1".

Definition deriveKuboKey (originalIdentity : string) : outcome (PrivKey * string) :=
  privKeyBytes <-! match b64_decode originalIdentity with
                   | Some b => Ok b | None => Err "decoding private key: illegal base64 data" end;;
  priv <-! wrap "unmarshaling private key: " (crypto_UnmarshalPrivateKey privKeyBytes);;
  rawKey <-! wrap "extracting raw key: " (key_Raw priv);;
  originalSeed <-! go_slice rawKey 0 32;;
  let derivedSeed := hmac_sha256 kuboIdentityDomain originalSeed in
  kuboPriv <-! wrap "generating kubo key: " (GenerateEd25519Key derivedSeed);;
  kuboPeerID <-! wrap "generating kubo peer ID: " (IDFromPrivateKey kuboPriv);;
  Ok (kuboPriv, kuboPeerID).
End keys.

(** ** net.SplitHostPort *)
Definition byte_in (c : ascii) (s : string) : bool := negb (sforall (fun d => negb (d =? c)%char) s).

Definition SplitHostPort (hostport : string) : outcome (string * string) :=
  match cut_last ":" hostport with
  | None => Err "missing port in address"
  | Some (host, port) =>
      match hostport with
      | String "[" rest =>
          match Cut rest "]" with
          | None => Err "missing ']' in address"
          | Some (h, after) =>
              if (after =? "")%string then Err "missing port in address"
              else if negb (after =? ":" +:+ port)%string then
                match after with
                | String ":" _ => Err "too many colons in address"
                | _ => Err "missing port in address"
                end
              else if byte_in "[" rest then Err "unexpected '[' in address"
              else if byte_in "]" after then Err "unexpected ']' in address"
              else Ok (h, port)
          end
      | _ =>
          if byte_in ":" host then Err "too many colons in address"
          else if byte_in "[" hostport then Err "unexpected '[' in address"
          else if byte_in "]" hostport then Err "unexpected ']' in address"
          else Ok (host, port)
      end
  end.

(** ** The command *)
Class MainLib := {
  bip39_NewMnemonic : string -> outcome string;
  LookupHost : string -> outcome (list string);
  NewMultiaddr : string -> outcome string;
  rpc_NewApi : string -> outcome ();
  cluster_NewDefaultClient : bool;        (** the cluster client could be made *)
  getenv_KUBO_API_URL : string
}.

Record Device := mkDevice {
  dv_self : string;            (** selfPeerID: kubo's *)
  dv_cluster : string;         (** clusterPeerID: the identity's own *)
  dv_api : string;             (** the multiaddr of kubo's API *)
  dv_opts : options;
  dv_bl : BlOptions.options;
  dv_auth : AuthState
}.

Inductive Ran := Printed (text : string) | Serving (d : Device).

Section action.
Context `{PC : PeerCrypto} `{K : KeyLib} `{ML : MainLib}.

(** KUBO_API_URL as host and port, and as the address rpc.NewApi takes. *)
Definition kubo_url : string :=
  if (getenv_KUBO_API_URL =? "")%string then "http://127.0.0.1:5001" else getenv_KUBO_API_URL.
Definition kuboHostPort : string := TrimPrefix kubo_url "http://".

Definition kubo_multiaddr : outcome string :=
  let '(kuboHost, kuboPort) := match SplitHostPort kuboHostPort with
                               | Ok hp => hp
                               | _ => (kuboHostPort, "5001")
                               end in
  let kuboHost := match LookupHost kuboHost with Ok (ip :: _) => ip | _ => kuboHost end in
  match NewMultiaddr ("/ip4/" +:+ kuboHost +:+ "/tcp/" +:+ kuboPort) with
  | Ok m => Ok m
  | _ => Panic                             (** panic(fmt.Errorf("invalid multiaddress")) *)
  end.

Definition plain_bool (a : Args) (name : string) : bool := get_bool (parse_all a app_Flags) name false.
Definition plain_str (a : Args) (name : string) : string := get_str (parse_all a app_Flags) name "".

Definition secretPhrase (identity : string) : outcome string :=
  entropy <-! go_slice (sha256 identity) 0 16;;
  wrap "error NewMnemonic: " (bip39_NewMnemonic entropy).

(** The options the command gives to blox.New. *)
Definition blox_options (a : Args) (c : AppConfig) (self cluster owner : string) : list Option :=
  [WithSelfPeerID self;
   WithClusterPeerID cluster;
   WithAuthorizer owner;
   WithWg true;
   WithLinkSystem true;
   WithPoolName (PoolName c);
   WithTopicName (PoolName c);
   WithStoreDir (StoreDir c);
   WithRelays (StaticRelays c);
   WithUpdatePoolName true;
   WithGetPoolName true;
   WithUpdateChainName true;
   WithGetChainName true;
   WithBlockchainEndPoint (plain_str a "blockchainEndpoint");
   WithSecretsPath (plain_str a "secretsPath");
   WithPingCount 5;
   WithMaxPingTime 900;
   WithMinSuccessPingRate 7;
   WithDefaultIPFShttpServer "none";
   WithIpfsClient true;
   WithPoolHostMode (plain_bool a "poolHost");
   WithIpfsClusterAPI cluster_NewDefaultClient;
   WithKuboAPIAddr kuboHostPort].

(** [action] up to the node's start, which Blox.v and BloxLife.v model. *)
Definition action (a : Args) (configPath : string) (c : AppConfig) : outcome Ran :=
  if plain_bool a "generateNodeKey" then
    k <-! wrap "error converting node key: " (ConvertBase64PrivateKeyToHexNodeKey (Identity c));;
    Ok (Printed k)
  else if plain_bool a "generateSecretPhrase" then
    p <-! secretPhrase (Identity c);;
    Ok (Printed p)
  else if plain_bool a "initOnly" then
    kp <-! deriveKuboKey (Identity c);;
    Ok (Printed ("Application config initialised at: " +:+ configPath +:+ String "010" ("   blox peer ID: "
          +:+ peer_String kp.2 +:+ String "010" "")))
  else
    kp <-! deriveKuboKey (Identity c);;
    let self := kp.2 in
    key <-! parse_identity (Identity c);;
    cluster <-! wrap "deriving cluster peer ID: " (IDFromPrivateKey key);;
    api <-! kubo_multiaddr;;
    _ <-! rpc_NewApi api;;
    let owner := match peer_Decode (Authorizer c) with Ok p => p | _ => self end in
    b <-! New (blox_options a c self cluster owner);;
    Ok (Serving (mkDevice self cluster api b.1 b.2.1 b.2.2)).

(** ** The device a start ends with *)
Lemma action_inv a path c d : action a path c = Ok (Serving d) ->
  exists kp key owner, deriveKuboKey (Identity c) = Ok (kp, dv_self d) /\
    parse_identity (Identity c) = Ok key /\ IDFromPrivateKey key = Ok (dv_cluster d) /\
    kubo_multiaddr = Ok (dv_api d) /\
    owner = (match peer_Decode (Authorizer c) with Ok p => p | _ => dv_self d end) /\
    New (blox_options a c (dv_self d) (dv_cluster d) owner) = Ok (dv_opts d, (dv_bl d, dv_auth d)).
Proof.
  unfold action. destruct (plain_bool a "generateNodeKey"); [by intros (? & _ & [=])%obind_Ok_inv|].
  destruct (plain_bool a "generateSecretPhrase"); [by intros (? & _ & [=])%obind_Ok_inv|].
  destruct (plain_bool a "initOnly"); [by intros (? & _ & [=])%obind_Ok_inv|].
  intros ([kp self] & Hkp & (key & Hkey & (cluster & Hcl & (api & Hapi & (u & _ & (b & Hb & [= <-])%obind_Ok_inv)%obind_Ok_inv)%obind_Ok_inv)%obind_Ok_inv)%obind_Ok_inv)%obind_Ok_inv.
  destruct b as [o [bl au]]. cbn [fst snd] in *.
  assert (IDFromPrivateKey key = Ok cluster) by (revert Hcl; unfold wrap; destruct (IDFromPrivateKey key); [by intros [= ->]|done..]).
  eexists kp, key, _. by split_and!.
Qed.

(** Documented: the text of a peer id decodes to it, and no peer id is empty. *)
Class PeerText : Prop := {
  text_roundtrip : forall k id, IDFromPrivateKey k = Ok id -> peer_Decode (peer_String id) = Ok id;
  id_nonempty : forall k id, IDFromPrivateKey k = Ok id -> id <> ""
}.

Lemma derived_nonempty `{!PeerText} i k id : deriveKuboKey i = Ok (k, id) -> id <> "".
Proof.
  unfold deriveKuboKey. intros Hd. repeat (apply obind_Ok_inv in Hd as (? & ?Hx & Hd)).
  injection Hd as -> ->. match goal with H : wrap _ (IDFromPrivateKey _) = _ |- _ => revert H end.
  unfold wrap. destruct (IDFromPrivateKey _) eqn:E; [|done..]. intros [= ->]. by eapply id_nonempty.
Qed.

(** Everything about a device that does not depend on its keys. *)
Lemma device_options a path c d : action a path c = Ok (Serving d) ->
  BlOptions.minPingSuccessCount (dv_bl d) = 0 /\ BlOptions.timeout (dv_bl d) = 65 /\ BlOptions.onPoolConfigCleared (dv_bl d) = true /\
  BlOptions.poolHost (dv_bl d) = plain_bool a "poolHost" /\ BlOptions.topicName (dv_bl d) = topicName (dv_opts d) /\
  BlOptions.updatePoolName (dv_bl d) = true /\ BlOptions.getPoolName (dv_bl d) = true /\ BlOptions.updateChainName (dv_bl d) = true /\
  BlOptions.getChainName (dv_bl d) = true /\ BlOptions.selfPeerID (dv_bl d) = dv_self d /\ BlOptions.clusterPeerID (dv_bl d) = dv_cluster d /\
  BlOptions.chainConfigOverride (dv_bl d) = None /\ ls (dv_opts d) = LsGiven /\ DefaultIPFShttpServer (dv_opts d) = "none".
Proof.
  intros (kp & key & owner & _ & _ & _ & _ & _ & HN)%action_inv.
  destruct (New_auth (blox_options a c (dv_self d) (dv_cluster d) owner)) as (p & bl & au & HN' & -> & -> & _).
  rewrite HN' in HN. injection HN as <- <- _. split_and!; reflexivity.
Qed.

Context `{Y : Yaml}.

Lemma fresh_authorizer a h home c w :
  h_home h = Some home -> h_stat h (config_path a home) = SNone -> given a (flag "authorizer") = None ->
  before a h = (Ok c, w) -> default_authorizer (Identity c) = Ok (Authorizer c).
Proof.
  intros Hh Hs Hg Hb. destruct (before_Ok_inv _ _ _ _ _ Hh Hb) as (m & d & _ & _ & _ & Hc & [->|(d0 & Hs' & _)]);
    [|by rewrite Hs in Hs'].
  rewrite complete_finals in Hc.
  apply obind_Ok_inv in Hc as (identity & _ & Hc). apply obind_Ok_inv in Hc as (auth & Hau & Hc).
  apply obind_Ok_inv in Hc as (pub & _ & Hc). cbv zeta in Hc. apply obind_Ok_inv in Hc as ([] & _ & Hc).
  injection Hc as <-. cbn [Identity Authorizer]. revert Hau. unfold fstr.
  by rewrite (final_default _ _ _ _ Hg) by apply lookup_empty.
Qed.

(** The authorization state of a device whose owner's id decodes. *)
Lemma device_owner a path c d owner : action a path c = Ok (Serving d) -> peer_Decode (Authorizer c) = Ok owner ->
  owner <> "" -> dv_self d <> "" ->
  Access.authorizer (dv_auth d) = owner /\ Access.selfPeerID (dv_auth d) = dv_self d /\
  Access.authorizedPeers (dv_auth d) = {[owner]}.
Proof.
  intros (kp & key & o & _ & _ & _ & _ & Ho & HN)%action_inv Hd Hne Hs. rewrite Hd in Ho. subst o.
  destruct (New_auth (blox_options a c (dv_self d) (dv_cluster d) owner)) as (p & bl & au & HN' & -> & _ & H1 & H2 & H3).
  rewrite HN' in HN. injection HN as _ _ <-.
  assert (authorizer (newOptions (blox_options a c (dv_self d) (dv_cluster d) owner)) = owner) as E1.
  { cbn. destruct (String.eqb_spec owner ""); [done|]. reflexivity. }
  rewrite E1 in *. change (selfPeerID (newOptions _)) with (dv_self d) in *. split_and!; [done..|]. rewrite H3.
  destruct (String.eqb_spec owner ""); [done|]. by destruct (String.eqb_spec (dv_self d) "").
Qed.

(** C16. The owner of a device set up without one is the peer of its original identity, the
    cluster peer, and not the peer the device itself answers as: on a first start with no
    authorizer given, the device accepts the delegated actions and authorization changes
    from the cluster peer, and serves replication only when that peer happens to be its own
    derived peer id. *)
Theorem default_owner `{!PeerText} a h home path c w d :
  h_home h = Some home -> h_stat h (config_path a home) = SNone -> given a (flag "authorizer") = None ->
  before a h = (Ok c, w) -> action a path c = Ok (Serving d) ->
  Access.authorizer (dv_auth d) = dv_cluster d /\
  (forall act, act ∈ delegatedActions -> authorized (dv_auth d) (dv_cluster d) act = true) /\
  authorized (dv_auth d) (dv_cluster d) actionAuth = true /\
  (forall pid, authorized (dv_auth d) pid actionReplicateInPool = true <-> dv_cluster d = dv_self d).
Proof.
  intros Hh Hs Hg Hb Ha. pose proof (fresh_authorizer _ _ _ _ _ Hh Hs Hg Hb) as Hd.
  pose proof (action_inv _ _ _ _ Ha) as (kp & key & _ & Hk & Hkey & Hid & _).
  unfold default_authorizer in Hd. rewrite Hkey in Hd. cbn [obind] in Hd. rewrite Hid in Hd. injection Hd as Hd.
  pose proof (text_roundtrip _ _ Hid) as Hdec. rewrite Hd in Hdec.
  pose proof (id_nonempty _ _ Hid) as Hne. pose proof (derived_nonempty _ _ _ Hk) as Hself.
  destruct (device_owner _ _ _ _ _ Ha Hdec Hne Hself) as (H1 & H2 & H3).
  split; [done|]. split; [|split].
  - intros act Hact. unfold authorized. destruct (String.eqb_spec act actionReplicateInPool) as [->|_].
    { pose proof (bool_decide_eq_true_2 _ Hact) as Hx. discriminate Hx. }
    rewrite bool_decide_true by done. rewrite H3. apply bool_decide_eq_true. set_solver.
  - unfold authorized. cbn -[bool_decide]. rewrite H1. destruct (bool_decide _) eqn:E.
    + rewrite H3. apply bool_decide_eq_true. set_solver.
    + rewrite String.eqb_refl. by destruct (String.eqb_spec (dv_cluster d) "").
  - intros pid. unfold authorized. rewrite String.eqb_refl, H1, H2.
    destruct (String.eqb_spec (dv_cluster d) (dv_self d)), (String.eqb_spec (dv_cluster d) ""); naive_solver.
Qed.
End action.

(** ** Blocks over kubo's HTTP API *)
Definition baseURL := "http://localhost:5001".

(** A link: a CID with its codec and hash function codes and its text, or another link. *)
Record Cid := mkCid { cid_Type : Z; cid_MhType : Z; cid_String : string }.
Inductive Link := CidLink (c : Cid) | OtherLink (text : string).
Definition link_String (l : Link) : string := match l with CidLink c => cid_String c | OtherLink t => t end.

(** kubo, with its state: one POST, with a file part or none. *)
Class KuboHttp (W : Type) := {
  kubo_post : string -> option string -> W -> HttpReply * W;
  multicodec_Name : Z -> string
}.

Section storage.
Context {W : Type} `{KH : KuboHttp W}.

Definition get_url (cidStr : string) : string := baseURL +:+ "/api/v0/block/get?arg=" +:+ cidStr.
Definition put_url (codec mh : Z) (pin : bool) : string :=
  baseURL +:+ "/api/v0/block/put?cid-codec=" +:+ multicodec_Name codec +:+ "&mhtype=" +:+ multicodec_Name mh
  +:+ "&mhlen=-1&pin=" +:+ (if pin then "true" else "false") +:+ "&allow-big-block=false".

(** The reader of an open block: what reading its body gives, [None] when that fails. *)
Definition CustomStorageReadOpenerNone (l : Link) : M W (option string) :=
  fun w =>
    let cidStr := link_String l in
    let '(r, w') := kubo_post (get_url cidStr) None w in
    (match r with
     | ReplyErr e => Err ("executing request failed: " +:+ e)
     | Reply status body =>
         if negb (status =? 200)
         then Err ("failed to get block: CID " +:+ cidStr +:+ ", HTTP status " +:+ Itoa status)
         else Ok body
     end, w').

(** CustomWriter: the bytes written so far. *)
Definition NewCustomWriter : string := "".
Definition CustomWriter_Write (cw p : string) : string * Z := (cw +:+ p, len p).

(** The answer to block/put: Key and Size. *)
Definition decode_put (body : option string) : option string :=
  l ← decode_body body;
  let '(k, ok1) := field_string "" (obj_field "Key" l) in
  let '(_, ok2) := field_int 0 (obj_field "Size" l) in
  if ok1 && ok2 then Some k else None.

(** The committer, on what the writer holds. *)
Definition commit (poolHost : bool) (cw : string) (l : Link) : M W () :=
  fun w =>
    match l with
    | OtherLink _ => (Err "link is not a CID link", w)
    | CidLink c =>
        let '(r, w') := kubo_post (put_url (cid_Type c) (cid_MhType c) (negb poolHost)) (Some cw) w in
        (match r with
         | ReplyErr e => Err e
         | Reply status body =>
             if negb (status =? 200) then Err ("HTTP request failed: status " +:+ Itoa status)
             else match decode_put body with
                  | None => Err "decode"
                  | Some key =>
                      if negb (key =? cid_String c)%string
                      then Err ("mismatched CIDs: expected " +:+ cid_String c +:+ ", got " +:+ key)
                      else Ok ()
                  end
         end, w')
    end.

(** A block written in pieces, then committed under a link. *)
Definition CustomStorageWriteOpenerNone (poolHost : bool) (pieces : list string) (l : Link) : M W () :=
  commit poolHost (fold_left (fun cw p => (CustomWriter_Write cw p).1) pieces NewCustomWriter) l.

(** What kubo documents: block/put answers with the key under which the block can be
    fetched from then on. *)
Class KuboBlocks (KH : KuboHttp W) : Prop := {
  put_then_get : forall codec mh pin data w body w' key,
    kubo_post (put_url codec mh pin) (Some data) w = (Reply 200 body, w') -> decode_put body = Some key ->
    exists w2, kubo_post (get_url key) None w' = (Reply 200 (Some data), w2)
}.

Lemma writes_concat pieces cw :
  fold_left (fun cw p => (CustomWriter_Write cw p).1) pieces cw = cw +:+ sconcat pieces.
Proof.
  revert cw. induction pieces as [|p ps IH]; intros cw; cbn [fold_left sconcat]; [by rewrite sapp_nil_r|].
  rewrite IH. cbn. by rewrite sapp_assoc.
Qed.

(** What was stored is what is read. A block written in any pieces whose commit reports
    no error is read back through the same link, at once, with exactly the bytes written:
    the commit checks that kubo stored them under this very CID. *)
Theorem block_roundtrip `{!KuboBlocks KH} poolHost pieces l w w' :
  CustomStorageWriteOpenerNone poolHost pieces l w = (Ok (), w') ->
  (CustomStorageReadOpenerNone l w').1 = Ok (Some (sconcat pieces)).
Proof.
  unfold CustomStorageWriteOpenerNone, commit, CustomStorageReadOpenerNone. rewrite writes_concat.
  change (NewCustomWriter +:+ sconcat pieces) with (sconcat pieces).
  destruct l as [c|t]; [|done]. destruct (kubo_post _ _ w) as [r w1] eqn:Hp.
  destruct r as [e|status body]; [done|]. destruct (Z.eqb_spec status 200) as [->|]; cbn [negb]; [|done].
  destruct (decode_put body) as [key|] eqn:Hk; [|done].
  destruct (String.eqb_spec key (cid_String c)) as [->|]; cbn [negb]; [|done]. intros [= <-].
  destruct (put_then_get _ _ _ _ _ _ _ _ Hp Hk) as [w2 H2]. cbn [link_String]. by rewrite H2.
Qed.

(** The address of the blocks is fixed, whatever KUBO_API_URL says. *)
Lemma storage_address cidStr codec mh pin :
  HasPrefix (get_url cidStr) baseURL = true /\ HasPrefix (put_url codec mh pin) baseURL = true.
Proof. split; apply prefix_app. Qed.
End storage.

(** ** The kubo repository's datastore *)
Record BadgerOptions := mkBadger { SyncWrites : bool; Truncate : bool; GcDiscardRatio : string; GcSleep : string; GcInterval : string }.
Record Child := mkChild { ch_Path : string; ch_ShardFunc : string; ch_Sync : bool; ch_Type : string; ch_Compression : string }.
Record Mount := mkMount { m_Child : Child; m_Mountpoint : string; m_Prefix : string; m_Type : string }.
Record DatastoreConfigSpec := mkSpec { sp_Mounts : list Mount; sp_Type : string }.
Record Datastore := mkDatastore { StorageMax : string; StorageGCWatermark : Z; GCPeriod : string; BloomFilterSize : Z; Spec : json }.

(** Durations and the ratio are given as the texts they print as. *)
Definition BadgerSpec (o : BadgerOptions) (dsPath : string) : json :=
  JObj [("type", JStr "measure");
        ("prefix", JStr "badger.datastore");
        ("child", JObj [("type", JStr "badgerds"); ("path", JStr dsPath); ("syncWrites", JBool (SyncWrites o));
                        ("truncate", JBool (Truncate o)); ("gcDiscardRatio", JNum (GcDiscardRatio o));
                        ("gcSleep", JStr (GcSleep o)); ("gcInterval", JStr (GcInterval o))])].

Definition IPFSSpec (dsPath : string) : DatastoreConfigSpec :=
  mkSpec [mkMount (mkChild (path_Join [dsPath; "blocks"]) "" true "badgerds" "") "/blocks" "badger.blocks" "measure";
          mkMount (mkChild (path_Join [dsPath; "keystore"]) "" true "badgerds" "") "/keystore" "badgerds.keystore" "measure";
          mkMount (mkChild dsPath "" false "badgerds" "none") "/" "badgerds.datastore" "measure"] "mount".

(** json.Marshal of the spec, with omitempty. *)
Definition child_json (c : Child) : json :=
  JObj ([("path", JStr (ch_Path c))]
        ++ (if (ch_ShardFunc c =? "")%string then [] else [("shardFunc", JStr (ch_ShardFunc c))])
        ++ (if ch_Sync c then [("sync", JBool true)] else [])
        ++ [("type", JStr (ch_Type c))]
        ++ (if (ch_Compression c =? "")%string then [] else [("compression", JStr (ch_Compression c))])).
Definition spec_json (s : DatastoreConfigSpec) : json :=
  JObj [("mounts", JArr (map (fun m => JObj [("child", child_json (m_Child m)); ("mountpoint", JStr (m_Mountpoint m));
                                             ("prefix", JStr (m_Prefix m)); ("type", JStr (m_Type m))]) (sp_Mounts s)));
        ("type", JStr (sp_Type s))].

(** The mounts are marshalled and read back into a map, which nothing uses; either step
    failing is a panic. *)
Definition DefaultDatastoreConfig (o : BadgerOptions) (dsPath storageMax : string) : outcome Datastore :=
  match json_parse (json_print (spec_json (IPFSSpec dsPath))) with
  | Some (JObj _) => Ok (mkDatastore storageMax 90 "1h" 0 (BadgerSpec o dsPath))
  | _ => Panic
  end.

(** The datastore configuration is always built, and is the badger one. *)
Lemma DefaultDatastoreConfig_ok o dsPath storageMax :
  DefaultDatastoreConfig o dsPath storageMax = Ok (mkDatastore storageMax 90 "1h" 0 (BadgerSpec o dsPath)).
Proof. unfold DefaultDatastoreConfig. by rewrite parse_print by done. Qed.

(** ** One device *)
Section concrete.
#[local] Existing Instances jsonYaml jsonYamlLaws toyCrypto rawMultibase.

(** Keys are 32 letters; a derived key is another letter; ids are the key. *)
#[local] Instance letterKeys : KeyLib := {|
  PrivKey := string;
  crypto_MarshalPrivateKey := fun k => Ok k;
  crypto_UnmarshalPrivateKey := fun k => Ok k;
  key_Raw := fun k => Ok (k +:+ k);
  IDFromPrivateKey := fun k => Ok ("id-" +:+ k);
  GenerateEd25519Key := fun s => Ok s;
  hmac_sha256 := fun k m => String "x" m |}.

Definition lib (url : string) (ips : list string) : MainLib := {|
  bip39_NewMnemonic := fun e => Ok e;
  LookupHost := fun _ => Ok ips;
  NewMultiaddr := fun s => if byte_in ":" s then Err "invalid" else Ok s;
  rpc_NewApi := fun _ => Ok ();
  cluster_NewDefaultClient := true;
  getenv_KUBO_API_URL := url |}.

#[local] Instance letterText : PeerText.
Proof. split; [by intros k id [= <-]|]. by intros k id [= <-]. Qed.

Definition new_key := "abcdefghijklmnopqrstuvwxyz012345".
Definition fresh_pi : Host :=
  mkHost (Some "/home/pi") (fun p => if (p =? pi_config)%string then SNone else SDir) (fun _ => true) (Ok new_key) (Ok "p") FsOk.
Definition fresh_config : AppConfig :=
  match before (noArgs "/") fresh_pi with (Ok c, _) => c | _ => zeroConfig end.
Definition fresh_device (L : MainLib) : outcome Ran := action (ML := L) (noArgs "/") pi_config fresh_config.

Lemma default_owner_witness :
  exists d, fresh_device (lib "" ["127.0.0.1"]) = Ok (Serving d) /\
  dv_cluster d = "id-abcdefghijklmnopqrstuvwxyz012345" /\ dv_self d = "id-xabcdefghijklmnopqrstuvwxyz012345" /\
  Access.authorizer (dv_auth d) = dv_cluster d /\
  authorized (dv_auth d) (dv_cluster d) actionReboot = true /\
  (authorized (dv_auth d) (dv_self d) actionReplicateInPool = true <-> dv_cluster d = dv_self d).
Proof.
  destruct (fresh_device (lib "" ["127.0.0.1"])) as [[t|d]|e|] eqn:H; try (vm_compute in H; discriminate H).
  exists d. split; [reflexivity|].
  assert (dv_cluster d = "id-abcdefghijklmnopqrstuvwxyz012345" /\ dv_self d = "id-xabcdefghijklmnopqrstuvwxyz012345")
    as [Hc Hs] by (vm_compute in H; injection H as <-; auto).
  split; [exact Hc|]. split; [exact Hs|].
  destruct (default_owner (ML := lib "" ["127.0.0.1"]) (noArgs "/") fresh_pi "/home/pi" pi_config fresh_config
    (before (noArgs "/") fresh_pi).2 d) as (H1 & H2 & _ & H4);
    [reflexivity|vm_compute; reflexivity|reflexivity|vm_compute; reflexivity|exact H|].
  split; [exact H1|]. split; [apply H2; apply (bool_decide_eq_true_1 _); reflexivity | apply H4].
Defined.

(** A resolver that answers with an IPv6 address first stops the device. *)
Lemma ipv6_stops : fresh_device (lib "http://localhost:5001" ["::1"; "127.0.0.1"]) = Panic.
Proof. vm_compute. reflexivity. Qed.

(** A kubo that takes one block. *)
#[local] Instance oneBlock : KuboHttp bool := {|
  kubo_post := fun url file w =>
    match file with
    | Some data =>
        if (data =? "hello")%string then (Reply 200 (Some (jq "{'Key':'bafy','Size':5}")), true) else (Reply 500 None, w)
    | None => if w && (url =? get_url "bafy")%string then (Reply 200 (Some "hello"), w) else (Reply 500 None, w)
    end;
  multicodec_Name := fun _ => "raw" |}.

#[local] Instance oneBlockLaws : KuboBlocks oneBlock.
Proof.
  split. intros codec mh pin data w body w' key. cbn [kubo_post oneBlock].
  destruct (String.eqb_spec data "hello") as [->|]; [|done]. intros [= <- <-] Hk.
  assert (key = "bafy") as -> by (vm_compute in Hk; congruence). by exists true.
Qed.

Lemma block_roundtrip_witness :
  let l := CidLink (mkCid 85 18 "bafy") in
  exists w', CustomStorageWriteOpenerNone false ["he"; "llo"] l false = (Ok (), w') /\
  (CustomStorageReadOpenerNone l w').1 = Ok (Some "hello").
Proof.
  intros l. exists true. assert (CustomStorageWriteOpenerNone false ["he"; "llo"] l false = (Ok (), true)) as H
    by (vm_compute; reflexivity).
  split; [exact H|]. apply (block_roundtrip false ["he"; "llo"] l false true H).
Defined.
End concrete.
