(* ===== verification/Publish.v ===== *)
(** * exchange/ipni_publisher.go, hub_publisher.go, dht.go: announcing stored links

    Both publishers run the same loop: links come in over a buffered channel, are collected
    in a set, and the set is published as one batch by a goroutine of which the flag
    [publishing] allows one. The loop, the goroutines in the channel's queue and the
    publishing goroutine are interleaved here as one step function over events. The hub
    publisher, which is the one the exchange uses, has its sending code commented out. The
    DHT operations and the IPNI lookup follow; libp2p's DHT is an interface. *)

From S2P Require Import Prelude GoStd Json SignedAuth Effects.

#[local] Open Scope string_scope.
#[local] Open Scope Z_scope.
#[local] Open Scope list_scope.

(** A CID: its text, whether it is cid.Undef, whether its hash is the identity. *)
Record PCid := mkPCid { pc_text : string; pc_undef : bool; pc_identity : bool }.
Inductive PLink := LNil | LCid (c : PCid) | LOther.

(** The links the publisher and the DHT take. *)
Definition announceable (l : PLink) : option PCid :=
  match l with
  | LCid c => if negb (pc_undef c) && negb (pc_identity c) then Some c else None
  | _ => None
  end.

(** ** The publishing loop *)
Record Pub := mkPub {
  p_buffer : list PCid;                (** the channel *)
  p_blocked : list PCid;               (** goroutines waiting to send, in order *)
  p_unpublished : gset string;         (** CIDs, by their text *)
  p_publishing : bool;
  p_inflight : list (list string);     (** publish calls running *)
  p_done : list (bool * list string);  (** publish calls that returned, and with success *)
  p_cancelled : bool;
  p_running : bool                     (** the loop *)
}.

Definition newPublisher : Pub := mkPub [] [] ∅ false [] [] false true.

Section loop.
(** ipniPublishChanBuffer, whether this is the hub publisher, and Cid.Hash. *)
Context (cap : nat) (hub : bool) (hash : string -> string).

(** The order of a Go map is not specified; [elements] stands for it. *)
Definition batch (m : gset string) : list string := map hash (elements m).

Definition maybePublish (s : Pub) : Pub :=
  if bool_decide (p_unpublished s = ∅) then s
  else if p_publishing s then s
  else mkPub (p_buffer s) (p_blocked s) ∅ true (p_inflight s ++ [batch (p_unpublished s)])%list (p_done s)
         (p_cancelled s) (p_running s).

Definition collect (c : PCid) (s : Pub) : Pub :=
  mkPub (p_buffer s) (p_blocked s) ({[pc_text c]} ∪ p_unpublished s) (p_publishing s) (p_inflight s)
    (p_done s) (p_cancelled s) (p_running s).

(** A receive from the channel, which lets the first waiting sender in. *)
Definition receive (s : Pub) : option (PCid * Pub) :=
  let put b w := mkPub b w (p_unpublished s) (p_publishing s) (p_inflight s) (p_done s) (p_cancelled s) (p_running s) in
  match p_buffer s, p_blocked s with
  | c :: buf, d :: rest => Some (c, put (buf ++ [d])%list rest)
  | c :: buf, [] => Some (c, put buf [])
  | [], d :: rest => Some (d, put [] rest)        (** an unbuffered channel *)
  | [], [] => None
  end.

Inductive PEv :=
| ENotify (l : PLink)              (** notifyReceivedLink is called *)
| ERecv                            (** case c := <-p.buffer *)
| ETick                            (** case <-ipniPublishTicker.C *)
| EDone (ok : bool)                (** the oldest publish call returns *)
| ECancel                          (** shutdown *)
| EStop.                           (** case <-p.ctx.Done() *)

Definition send (c : PCid) (s : Pub) : Pub :=
  if (length (p_buffer s) <? cap)%nat
  then mkPub (p_buffer s ++ [c])%list (p_blocked s) (p_unpublished s) (p_publishing s) (p_inflight s) (p_done s)
         (p_cancelled s) (p_running s)
  else mkPub (p_buffer s) (p_blocked s ++ [c])%list (p_unpublished s) (p_publishing s) (p_inflight s) (p_done s)
         (p_cancelled s) (p_running s).

Definition notifyReceivedLink (l : PLink) (s : Pub) : Pub :=
  if hub then s
  else match announceable l with Some c => send c s | None => s end.

Definition pub_step (e : PEv) (s : Pub) : option Pub :=
  match e with
  | ENotify l => Some (notifyReceivedLink l s)
  | ERecv => if p_running s then match receive s with Some (c, s') => Some (maybePublish (collect c s')) | None => None end
             else None
  | ETick => if p_running s then Some (maybePublish s) else None
  | EDone ok =>
      match p_inflight s with
      | b :: rest => Some (mkPub (p_buffer s) (p_blocked s) (p_unpublished s) false rest (p_done s ++ [(ok, b)])%list
                             (p_cancelled s) (p_running s))
      | [] => None
      end
  | ECancel => Some (mkPub (p_buffer s) (p_blocked s) (p_unpublished s) (p_publishing s) (p_inflight s) (p_done s) true (p_running s))
  | EStop => if p_running s && p_cancelled s
             then Some (mkPub (p_buffer s) (p_blocked s) (p_unpublished s) (p_publishing s) (p_inflight s) (p_done s) true false)
             else None
  end.

Fixpoint pub_run (es : list PEv) (s : Pub) : option Pub :=
  match es with
  | [] => Some s
  | e :: es => s' ← pub_step e s; pub_run es s'
  end.

(** ** Nothing is lost on the way, and one call runs at a time *)

(** The CID is somewhere between the channel and a publish call. *)
Definition holds (s : Pub) (c : string) : Prop :=
  c ∈ map pc_text (p_buffer s ++ p_blocked s) \/ c ∈ p_unpublished s \/
  hash c ∈ concat (p_inflight s) \/ hash c ∈ concat (map snd (p_done s)).

Definition single (s : Pub) : Prop :=
  (length (p_inflight s) <= 1)%nat /\ (p_publishing s = true <-> p_inflight s <> []).

Lemma batch_elem m c : c ∈ m -> hash c ∈ batch m.
Proof. intros H. unfold batch. apply list_elem_of_fmap. exists c. split; [done|]. by apply elem_of_elements. Qed.

Lemma maybePublish_single s : single s -> single (maybePublish s).
Proof.
  unfold maybePublish. destruct (bool_decide _); [done|]. destruct (p_publishing s) eqn:E; [done|].
  intros [H1 H2]. rewrite E in H2. unfold single. cbn.
  destruct (p_inflight s) as [|b l] eqn:E2; [cbn; split; [lia|done]|].
  assert (false = true) by (by apply H2). done.
Qed.

Lemma maybePublish_holds s c : holds s c -> holds (maybePublish s) c.
Proof.
  unfold maybePublish. destruct (bool_decide _); [done|]. destruct (p_publishing s); [done|].
  unfold holds. cbn. rewrite concat_app. cbn. rewrite app_nil_r, elem_of_app.
  intros [H|[H%batch_elem|[H|H]]]; tauto.
Qed.

Lemma receive_spec s c s' : receive s = Some (c, s') ->
  c :: (p_buffer s' ++ p_blocked s') = (p_buffer s ++ p_blocked s)%list /\ p_unpublished s' = p_unpublished s /\
  p_publishing s' = p_publishing s /\ p_inflight s' = p_inflight s /\ p_done s' = p_done s /\
  p_cancelled s' = p_cancelled s /\ p_running s' = p_running s.
Proof.
  unfold receive. destruct (p_buffer s) as [|b buf], (p_blocked s) as [|d rest]; intros [= <- <-]; cbn; auto 10.
  rewrite <- app_assoc. auto 10.
Qed.

Lemma pub_step_inv e s s' : pub_step e s = Some s' -> single s ->
  single s' /\ (forall c, holds s c -> holds s' c) /\
  (forall l c, e = ENotify l -> hub = false -> announceable l = Some c -> holds s' (pc_text c)).
Proof.
  intros H Hs. destruct e as [l| | |ok| |]; cbn in H.
  - injection H as <-. unfold notifyReceivedLink, send. destruct hub eqn:Hh; [done|].
    destruct (announceable l) as [c|] eqn:Ha; [|split; [done|]; split; [done|]; congruence].
    assert (forall x b w, (b ++ w)%list = (p_buffer s ++ p_blocked s)%list ++ [c] \/ b ++ w = (p_buffer s ++ [c]) ++ p_blocked s ->
      (holds s x \/ x = pc_text c) -> holds (mkPub b w (p_unpublished s) (p_publishing s) (p_inflight s) (p_done s) (p_cancelled s) (p_running s)) x) as Hx.
    { unfold holds. cbn. intros x b w Hbw Hx. rewrite map_app, elem_of_app in Hx.
      destruct Hbw as [-> | ->]; rewrite !map_app; cbn; rewrite !elem_of_app, list_elem_of_singleton; tauto. }
    destruct (length (p_buffer s) <? cap)%nat; (split; [done|]); split;
      try (intros x Hx'; apply Hx; [rewrite ?app_assoc; tauto|by left]);
      intros l' c' [= <-] _ [= <-]%(eq_trans (eq_sym Ha)); apply Hx; rewrite ?app_assoc; tauto.
  - destruct (p_running s); [|done]. destruct (receive s) as [[c s1]|] eqn:Hr; [|done]. injection H as <-.
    apply receive_spec in Hr as (H1 & H2 & H3 & H4 & H5 & H6 & H7).
    split; [apply maybePublish_single; unfold single in *; cbn; by rewrite H3, H4|]. split; [|done].
    intros x Hx. apply maybePublish_holds. revert Hx. unfold holds. rewrite <- H1, <- H2, <- H4, <- H5. cbn.
    rewrite elem_of_cons. intros [[-> |H]|[H|H]]; [right; left; set_solver|tauto|right; left; set_solver|tauto].
  - destruct (p_running s); [|done]. injection H as <-.
    split; [by apply maybePublish_single|]. split; [|done]. intros x. apply maybePublish_holds.
  - destruct (p_inflight s) as [|b rest] eqn:Ei; [done|]. injection H as <-. destruct Hs as [H1 H2]. rewrite Ei in H1.
    assert (rest = []) as -> by (destruct rest; [done|cbn in H1; lia]).
    split; [split; cbn; [lia|]; split; [done|]; by intros []|]. split; [|done].
    intros x. unfold holds. rewrite Ei. cbn. rewrite (map_app snd), concat_app. cbn. rewrite !app_nil_r, elem_of_app. tauto.
  - injection H as <-. split; [exact Hs|]. split; [|done]. by intros x.
  - destruct (p_running s && p_cancelled s); [|done]. injection H as <-. split; [exact Hs|]. split; [|done]. by intros x.
Qed.

Lemma run_holds es : forall s s', pub_run es s = Some s' -> single s ->
  single s' /\ (forall c, holds s c -> holds s' c) /\
  (forall l c, ENotify l ∈ es -> hub = false -> announceable l = Some c -> holds s' (pc_text c)).
Proof.
  induction es as [|e es IH]; intros s s' H Hs; cbn in H.
  { injection H as <-. split_and!; [done..|]. intros l c Hl. by apply elem_of_nil in Hl. }
  destruct (pub_step e s) as [s1|] eqn:E; [|done]. cbn in H.
  destruct (pub_step_inv _ _ _ E Hs) as (Hs1 & Hk & Hn). destruct (IH _ _ H Hs1) as (Hs' & Hk' & Hn').
  split; [done|]. split; [auto|]. intros l c [Hl|Hl]%elem_of_cons Hh Ha; [by apply Hk', (Hn l)|by apply (Hn' l)].
Qed.

(** ** A running loop gets everything to a publish call *)

(** Steps of the loop whose publish calls all succeed. *)
Definition smooth (e : PEv) : bool := match e with ERecv | ETick => true | EDone ok => ok | _ => false end.

Lemma pub_run_app es1 es2 s : pub_run (es1 ++ es2) s = (s' ← pub_run es1 s; pub_run es2 s').
Proof. revert s. induction es1 as [|e es1 IH]; intros s; [done|]. cbn. destruct (pub_step e s); [apply IH|done]. Qed.

Lemma drain_channel n : forall s, p_running s = true -> length (p_buffer s ++ p_blocked s) = n ->
  exists s', pub_run (replicate n ERecv) s = Some s' /\ p_buffer s' = [] /\ p_blocked s' = [] /\ p_running s' = true.
Proof.
  induction n as [|n IH]; intros s Hr Hn.
  { apply length_zero_iff_nil, app_eq_nil in Hn as [H1 H2]. exists s. auto. }
  destruct (receive s) as [[c s1]|] eqn:E.
  - pose proof (receive_spec _ _ _ E) as (H1 & _ & _ & _ & _ & _ & H7).
    cbn [replicate pub_run pub_step]. rewrite Hr, E. cbn. apply IH.
    + unfold maybePublish. repeat case_match; cbn; congruence.
    + assert (forall x, p_buffer (maybePublish x) = p_buffer x /\ p_blocked (maybePublish x) = p_blocked x) as Hm
        by (intros x; unfold maybePublish; repeat case_match; done).
      destruct (Hm (collect c s1)) as [-> ->]. cbn. rewrite <- H1 in Hn. cbn in Hn. lia.
  - unfold receive in E. destruct (p_buffer s), (p_blocked s); done.
Qed.

Definition settled (s : Pub) : Prop := p_buffer s = [] /\ p_blocked s = [] /\ p_unpublished s = ∅ /\ p_inflight s = [].

Lemma tick_settles s : p_running s = true -> p_buffer s = [] -> p_blocked s = [] -> p_inflight s = [] -> single s ->
  exists es s', pub_run es s = Some s' /\ forallb smooth es = true /\ settled s'.
Proof.
  intros Hr Hb Hw Hi [_ H2]. assert (p_publishing s = false) as Hp.
  { destruct (p_publishing s); [|done]. exfalso. by apply (proj1 H2 eq_refl). }
  destruct (decide (p_unpublished s = ∅)) as [Hu|Hu]; [exists [], s; by split_and!|].
  eexists [ETick; EDone true], _. split_and!; [|done|].
  - cbn. rewrite Hr. cbn. unfold maybePublish. rewrite bool_decide_false, Hp, Hi by done. reflexivity.
  - by split_and!.
Qed.

(** ** Where a link can be *)

(** In the batch of a publish call that returned without, and with, an error. *)
Definition published (s : Pub) (h : string) : Prop := exists b, (true, b) ∈ p_done s /\ h ∈ b.
Definition failed (s : Pub) (h : string) : Prop := exists b, (false, b) ∈ p_done s /\ h ∈ b.

(** Waiting: in the channel, with a blocked sender, or collected for the next batch. *)
Definition waiting (s : Pub) (c : string) : Prop :=
  c ∈ map pc_text (p_buffer s ++ p_blocked s) \/ c ∈ p_unpublished s.

Lemma returned s h : h ∈ concat (map snd (p_done s)) -> published s h \/ failed s h.
Proof.
  rewrite list_elem_of_In, in_concat. intros (b & Hb & Hh). apply in_map_iff in Hb as ([ok b'] & <- & Hb).
  rewrite <- list_elem_of_In in Hb. cbn in Hh. rewrite <- list_elem_of_In in Hh.
  destruct ok; [left|right]; by exists b'.
Qed.

Lemma maybePublish_done s : p_done (maybePublish s) = p_done s.
Proof. unfold maybePublish. by repeat case_match. Qed.

Lemma smooth_failed es h : forall s s', pub_run es s = Some s' -> forallb smooth es = true -> failed s' h -> failed s h.
Proof.
  induction es as [|e es IH]; intros s s' H Hi Hf; [by injection H as <-|].
  cbn in H, Hi. apply andb_true_iff in Hi as [He Hi]. destruct (pub_step e s) as [s1|] eqn:E; [|done].
  specialize (IH s1 s' H Hi Hf). revert IH. unfold failed.
  destruct e as [l| | |ok| |]; try done; cbn in E.
  - destruct (p_running s); [|done]. destruct (receive s) as [[c s2]|] eqn:Er; [|done]. injection E as <-.
    apply receive_spec in Er as (_ & _ & _ & _ & Ed & _). rewrite maybePublish_done. cbn. by rewrite Ed.
  - destruct (p_running s); [|done]. injection E as <-. by rewrite maybePublish_done.
  - destruct (p_inflight s); [done|]. injection E as <-. cbn in He. rewrite He. cbn.
    intros (b & [Hb|Hb]%elem_of_app & Hh); [by exists b|]. by apply list_elem_of_singleton in Hb as [= _].
Qed.

(** ** Nothing else is announced *)
Definition notified (es : list PEv) (c : string) : Prop :=
  exists l pc, ENotify l ∈ es /\ announceable l = Some pc /\ pc_text pc = c.

Definition only (P : string -> Prop) (s : Pub) : Prop :=
  (forall c, waiting s c -> P c) /\
  (forall h, h ∈ concat (p_inflight s) \/ h ∈ concat (map snd (p_done s)) -> exists c, P c /\ h = hash c).

Lemma maybePublish_only P s : only P s -> only P (maybePublish s).
Proof.
  unfold maybePublish. destruct (bool_decide _); [done|]. destruct (p_publishing s); [done|].
  unfold only, waiting. cbn. intros [H1 H2]. split; [intros c [H|H]; [by apply H1; left|set_solver]|].
  intros h. rewrite concat_app. cbn. rewrite app_nil_r, elem_of_app. intros [[H|H]|H]; [auto| |auto].
  unfold batch in H. apply list_elem_of_fmap in H as (c & -> & Hc). apply elem_of_elements in Hc. eauto.
Qed.

Lemma pub_step_only P e s s' : pub_step e s = Some s' ->
  (forall l c, e = ENotify l -> announceable l = Some c -> P (pc_text c)) -> only P s -> only P s'.
Proof.
  intros H He Hs. destruct e as [l| | |ok| |]; cbn in H.
  - injection H as <-. unfold notifyReceivedLink, send. destruct hub; [done|].
    destruct (announceable l) as [c|] eqn:Ha; [|done]. specialize (He l c eq_refl Ha). destruct Hs as [H1 H2].
    destruct (length (p_buffer s) <? cap)%nat; (split; [|exact H2]); unfold waiting in *; cbn; intros x;
      specialize (H1 x); rewrite !map_app, !elem_of_app in H1; rewrite !map_app, !elem_of_app; cbn;
      rewrite list_elem_of_singleton; intros Hx;
      (assert (x = pc_text c \/ P x) as [-> |Hp] by tauto); done.
  - destruct (p_running s); [|done]. destruct (receive s) as [[c s1]|] eqn:Hr; [|done]. injection H as <-.
    apply receive_spec in Hr as (R1 & R2 & _ & R4 & R5 & _). apply maybePublish_only. destruct Hs as [H1 H2].
    split; [|cbn; rewrite R4, R5; exact H2]. intros x. specialize (H1 x). unfold waiting in *. cbn. rewrite R2.
    rewrite <- R1 in H1. cbn in H1. rewrite elem_of_cons in H1. rewrite elem_of_union, elem_of_singleton. tauto.
  - destruct (p_running s); [|done]. injection H as <-. by apply maybePublish_only.
  - destruct (p_inflight s) as [|b rest] eqn:Ei; [done|]. injection H as <-. destruct Hs as [H1 H2].
    split; [exact H1|]. cbn. intros h. specialize (H2 h). rewrite Ei in H2. cbn in H2.
    rewrite (map_app snd), concat_app. cbn. rewrite app_nil_r, !elem_of_app in *. tauto.
  - injection H as <-. exact Hs.
  - destruct (p_running s && p_cancelled s); [|done]. injection H as <-. exact Hs.
Qed.

Lemma run_only P es : forall s s', pub_run es s = Some s' -> (forall c, notified es c -> P c) -> only P s -> only P s'.
Proof.
  induction es as [|e es IH]; intros s s' H Hn Hs; [by injection H as <-|]. cbn in H.
  destruct (pub_step e s) as [s1|] eqn:E; [|done]. apply (IH s1 s' H).
  - intros c (l & pc & Hl & Ha). apply Hn. exists l, pc. split; [by apply list_elem_of_further|done].
  - apply (pub_step_only P e s s1 E); [|done]. intros l c -> Ha. apply Hn. exists l, c. split; [|done]. apply list_elem_of_here.
Qed.

(** ** Nothing is announced twice *)

(** How often a hash occurs, and the hashes of the notifications, each as often as it came. *)
Definition times (h : string) (l : list string) : nat := length (filter (fun x => x = h) l).
Definition announced (es : list PEv) : list string :=
  omap (fun e => match e with ENotify l => pc ← announceable l; Some (hash (pc_text pc)) | _ => None end) es.

Lemma times_app h l1 l2 : times h (l1 ++ l2) = (times h l1 + times h l2)%nat.
Proof. unfold times. by rewrite filter_app, length_app. Qed.

Lemma times_perm h l1 l2 : l1 ≡ₚ l2 -> times h l1 = times h l2.
Proof. intros H. unfold times. by rewrite H. Qed.

Lemma batch_collect h c m : (times h (batch ({[c]} ∪ m)) <= times h [hash c] + times h (batch m))%nat.
Proof.
  destruct (decide (c ∈ m)) as [Hc|Hc].
  - replace ({[c]} ∪ m) with m by set_solver. lia.
  - rewrite <- times_app. apply Nat.eq_le_incl, times_perm. unfold batch. by rewrite (elements_union_singleton m c Hc).
Qed.

(** The places a hash has taken, wherever its link is. *)
Definition taken (h : string) (s : Pub) : nat :=
  times h (map (fun c => hash (pc_text c)) (p_buffer s ++ p_blocked s)) + times h (batch (p_unpublished s)) +
  times h (concat (p_inflight s)) + times h (concat (map snd (p_done s))).

Lemma maybePublish_taken h s : taken h (maybePublish s) = taken h s.
Proof.
  unfold maybePublish. destruct (bool_decide _); [done|]. destruct (p_publishing s); [done|]. unfold taken. cbn [p_buffer p_blocked p_unpublished p_inflight p_done].
  rewrite concat_app, times_app. cbn [concat]. rewrite app_nil_r. unfold batch at 1. rewrite elements_empty.
  change (times h (map hash [])) with 0%nat. lia.
Qed.

Lemma pub_step_taken h e s s' : pub_step e s = Some s' -> (taken h s' <= taken h s + times h (announced [e]))%nat.
Proof.
  intros H. destruct e as [l| | |ok| |]; cbn in H.
  - injection H as <-. unfold notifyReceivedLink, send, announced. destruct hub; [lia|]. cbn [omap list_omap].
    destruct (announceable l) as [c|]; cbn [mbind option_bind]; [|lia].
    destruct (length (p_buffer s) <? cap)%nat; unfold taken; cbn [p_buffer p_blocked p_unpublished p_inflight p_done];
      rewrite !map_app, !times_app; cbn [map]; lia.
  - destruct (p_running s); [|done]. destruct (receive s) as [[c s1]|] eqn:Hr; [|done]. injection H as <-.
    apply receive_spec in Hr as (R1 & R2 & _ & R4 & R5 & _). rewrite maybePublish_taken. unfold taken. cbn [collect p_buffer p_blocked p_unpublished p_inflight p_done].
    rewrite R2, R4, R5, <- R1. cbn [map]. pose proof (batch_collect h (pc_text c) (p_unpublished s)).
    change (hash (pc_text c) :: map (fun c0 => hash (pc_text c0)) (p_buffer s1 ++ p_blocked s1))
      with ([hash (pc_text c)] ++ map (fun c0 => hash (pc_text c0)) (p_buffer s1 ++ p_blocked s1)).
    rewrite times_app. lia.
  - destruct (p_running s); [|done]. injection H as <-. rewrite maybePublish_taken. lia.
  - destruct (p_inflight s) as [|b rest] eqn:Ei; [done|]. injection H as <-. unfold taken. rewrite Ei. cbn [p_buffer p_blocked p_unpublished p_inflight p_done concat].
    rewrite (map_app snd), concat_app, !times_app. cbn [map concat snd]. rewrite app_nil_r. lia.
  - injection H as <-. unfold taken. cbn [p_buffer p_blocked p_unpublished p_inflight p_done]. lia.
  - destruct (p_running s && p_cancelled s); [|done]. injection H as <-. unfold taken. cbn [p_buffer p_blocked p_unpublished p_inflight p_done]. lia.
Qed.

Lemma run_taken h es : forall s s', pub_run es s = Some s' -> (taken h s' <= taken h s + times h (announced es))%nat.
Proof.
  induction es as [|e es IH]; intros s s' H; [injection H as <-; lia|]. cbn in H.
  destruct (pub_step e s) as [s1|] eqn:Es; [|done]. pose proof (pub_step_taken h e s s1 Es). specialize (IH s1 s' H).
  change (announced (e :: es)) with (announced ([e] ++ es)). unfold announced in *. rewrite omap_app, times_app. lia.
Qed.

Lemma new_single : single newPublisher.
Proof. split; cbn; [lia|]. split; [done|]. by intros []. Qed.

Lemma new_only P : only P newPublisher.
Proof. split; [intros c [H|H]; [by apply elem_of_nil in H|set_solver]|]. intros h [H|H]; by apply elem_of_nil in H. Qed.

(** From any state the loop can go on to one in which nothing waits and no call runs. *)
Lemma settles s : single s -> p_running s = true ->
  exists es' s', pub_run es' s = Some s' /\ forallb smooth es' = true /\ settled s'.
Proof.
  intros Hs Hr. destruct (drain_channel _ s Hr eq_refl) as (s1 & H1 & Hb & Hw & Hr1).
  destruct (run_holds _ _ _ H1 Hs) as (Hs1 & _ & _).
  assert (exists es2 s2, pub_run es2 s1 = Some s2 /\ forallb smooth es2 = true /\ p_buffer s2 = [] /\ p_blocked s2 = [] /\
    p_inflight s2 = [] /\ p_running s2 = true) as (es2 & s2 & H2 & I2 & Hb2 & Hw2 & Hi2 & Hr2).
  { destruct (p_inflight s1) as [|b [|b' l]] eqn:Ei; [exists [], s1; split_and!; done| |destruct Hs1 as [Hl _]; rewrite Ei in Hl; cbn in Hl; lia].
    eexists [EDone true], _. split_and!; [cbn; rewrite Ei; reflexivity|cbn; done..]. }
  destruct (run_holds _ _ _ H2 Hs1) as (Hs2 & _ & _).
  destruct (tick_settles s2 Hr2 Hb2 Hw2 Hi2 Hs2) as (es3 & s3 & H3 & I3 & Hset).
  exists ((replicate (length (p_buffer s ++ p_blocked s)) ERecv ++ es2) ++ es3), s3. split; [|split; [|done]].
  - by rewrite !pub_run_app, H1; cbn; rewrite H2; cbn.
  - rewrite !forallb_app, I2, I3, !andb_true_r. generalize (length (p_buffer s ++ p_blocked s)). intros n. by induction n.
Qed.

(** The hub publisher's loop never has anything to publish. *)
Lemma hub_idle es s : hub = true -> pub_run es newPublisher = Some s ->
  p_buffer s = [] /\ p_blocked s = [] /\ p_unpublished s = ∅ /\ p_inflight s = [] /\ p_done s = [].
Proof.
  intros Hh. assert (forall es s0 s, settled s0 -> p_done s0 = [] -> pub_run es s0 = Some s -> settled s /\ p_done s = []) as H.
  { clear es s. induction es as [|e es IH]; intros s0 s Hs Hd H; [by injection H as <-|]. cbn in H.
    destruct (pub_step e s0) as [s1|] eqn:E; [|done]. destruct Hs as (H1 & H2 & H3 & H4).
    assert (settled s1 /\ p_done s1 = []) as [Hs1 Hd1]; [|by apply (IH s1 s)]. unfold settled.
    destruct e; cbn in E; unfold notifyReceivedLink, receive, maybePublish in E; rewrite ?Hh, ?H1, ?H2, ?H3, ?H4 in E.
    - injection E as <-. auto 10.
    - by destruct (p_running s0).
    - destruct (p_running s0); [|done]. injection E as <-. rewrite bool_decide_true by done. auto 10.
    - done.
    - injection E as <-. cbn. auto 10.
    - destruct (p_running s0 && p_cancelled s0); [|done]. injection E as <-. cbn. auto 10. }
  intros Hr. destruct (H es newPublisher s) as [(? & ? & ? & ?) ?]; done.
Qed.

(** C33. What becomes of a link the exchange reports to its publisher. In every interleaving
    of notifications, receives, ticks, returning publish calls and shutdown, at most one
    publish call runs. The hub publisher, the one the exchange is built with, drops every
    link: nothing is ever queued, collected or handed to a publish call. The IPNI publisher,
    kept for later use, accounts for every announceable link it was told of: the link waits
    (in the channel, with a blocked sender, or collected for the next batch), is in the call
    that is running, or was in a call that returned, and a call that failed loses its batch;
    what the calls were given comes from such a notification and nowhere else, and no link
    is given to them more often than it was notified; and as long as
    the loop has not stopped it can, by its own steps and with the remaining calls succeeding,
    publish every link that was not in a failed batch. *)
Theorem publisher_delivers es s :
  pub_run es newPublisher = Some s ->
  (length (p_inflight s) <= 1)%nat /\
  (hub = true -> p_buffer s = [] /\ p_blocked s = [] /\ p_unpublished s = ∅ /\ p_inflight s = [] /\ p_done s = []) /\
  (hub = false ->
    (forall c, notified es c ->
       waiting s c \/ hash c ∈ concat (p_inflight s) \/ published s (hash c) \/ failed s (hash c)) /\
    (forall h, h ∈ concat (p_inflight s) \/ published s h \/ failed s h -> exists c, notified es c /\ h = hash c) /\
    (forall h, (times h (concat (p_inflight s)) + times h (concat (map snd (p_done s))) <= times h (announced es))%nat) /\
    (p_running s = true ->
       exists es' s', pub_run es' s = Some s' /\ forallb smooth es' = true /\
         forall c, notified es c -> failed s (hash c) \/ published s' (hash c))).
Proof.
  intros H. destruct (run_holds _ _ _ H new_single) as (Hs & _ & Hn). split; [apply Hs|].
  split; [intros Hh; by apply (hub_idle es)|]. intros Hh. split; [|split; [|split]].
  - intros c (l & pc & Hl & Ha & <-). destruct (Hn l pc Hl Hh Ha) as [Hx|[Hx|[Hx|Hx%returned]]]; unfold waiting; tauto.
  - intros h Hx. apply (run_only (notified es) es _ _ H (fun _ Hc => Hc) (new_only _)).
    destruct Hx as [Hx|Hx]; [by left|]. right. apply list_elem_of_In, in_concat.
    destruct Hx as [(b & Hb & Hx)|(b & Hb & Hx)]; exists b; rewrite <- !list_elem_of_In; (split; [|exact Hx]);
      apply list_elem_of_fmap; by eexists (_, b).
  - intros h. pose proof (run_taken h es _ _ H) as Ht. assert (taken h newPublisher = 0%nat) as H0 by (unfold taken, batch; cbn [newPublisher p_unpublished]; by rewrite elements_empty).
    rewrite H0 in Ht. unfold taken in Ht. lia.
  - intros Hr. destruct (settles s Hs Hr) as (es' & s' & H' & Hi & Hset). exists es', s'. split; [done|]. split; [done|].
    intros c (l & pc & Hl & Ha & <-). destruct (run_holds _ _ _ H' Hs) as (_ & Hk & _).
    destruct (Hk _ (Hn l pc Hl Hh Ha)) as [Hx|[Hx|[Hx|Hx%returned]]]; destruct Hset as (Eb & Ew & Eu & Ei).
    + rewrite Eb, Ew in Hx. by apply elem_of_nil in Hx.
    + rewrite Eu in Hx. set_solver.
    + rewrite Ei in Hx. by apply elem_of_nil in Hx.
    + destruct Hx as [Hx|Hx]; [by right|left]. by apply (smooth_failed es' _ s s').
Qed.

(** Once the loop has stopped, links fill the channel's remaining places and every later
    notification waits for ever. *)
Lemma stopped_blocks es s s' : p_running s = false -> (length (p_buffer s) <= cap)%nat -> pub_run es s = Some s' ->
  p_running s' = false /\ (length (p_buffer s') <= cap)%nat /\ p_unpublished s' = p_unpublished s /\
  exists more, p_buffer s' ++ p_blocked s' ≡ₚ (p_buffer s ++ p_blocked s) ++ more /\
    (hub = false -> more = omap (fun e => match e with ENotify l => announceable l | _ => None end) es).
Proof.
  revert s. induction es as [|e es IH]; intros s Hr Hl H.
  { injection H as <-. split_and!; try done. exists []. by rewrite app_nil_r. }
  cbn in H. destruct (pub_step e s) as [s1|] eqn:E; [|done].
  assert (p_running s1 = false /\ (length (p_buffer s1) <= cap)%nat /\ p_unpublished s1 = p_unpublished s /\
    exists m, p_buffer s1 ++ p_blocked s1 ≡ₚ (p_buffer s ++ p_blocked s) ++ m /\
      (hub = false -> m = omap (fun e => match e with ENotify l => announceable l | _ => None end) [e])) as (R1 & L1 & U1 & m & P1 & M1).
  { destruct e; cbn in E; rewrite ?Hr in E; try done;
      try (injection E as <-; split_and!; try done; exists []; by rewrite app_nil_r).
    - injection E as <-. unfold notifyReceivedLink. destruct hub; [split_and!; try done; exists []; by rewrite app_nil_r|].
      cbn. destruct (announceable l) as [c|]; [|split_and!; try done; exists []; by rewrite app_nil_r].
      unfold send. destruct (Nat.ltb_spec (length (p_buffer s)) cap); cbn; (split_and!; try done);
        [rewrite length_app; cbn; lia|exists [c]; split; [|done]; by rewrite <- !app_assoc, (Permutation_app_comm [c])|
         exists [c]; split; [by rewrite app_assoc|done]].
    - destruct (p_inflight s); [done|]. injection E as <-. split_and!; try done. exists []. by rewrite app_nil_r. }
  destruct (IH s1 R1 L1 H) as (R & L & U & more & P & Mo). split_and!; try done; [congruence|].
  exists (m ++ more). split; [by rewrite P, P1, app_assoc|]. intros Hh. rewrite (M1 Hh), (Mo Hh). cbn.
  by destruct (match e with ENotify l => announceable l | _ => None end).
Qed.
End loop.

(** ** A publish call of the IPNI publisher *)
Record Advertisement := mkAd {
  ad_PreviousID : option string; ad_Provider : string; ad_Addresses : list string; ad_Entries : string;
  ad_ContextID : string; ad_Metadata : string
}.

(** The provider engine and the host: storing a chunk of entries, signing, publishing. *)
Class Engine := {
  eng_Store : list string -> outcome string;
  eng_Sign : Advertisement -> outcome ();
  eng_Publish : Advertisement -> outcome string;
  host_ID : string;
  host_Addrs : list string
}.

Definition ipniContextID := "fx.land".
(** varint.ToUvarint(0xfe001) *)
Definition ipniMetadata : string := String (byte_of 129) (String (byte_of 192) (String (byte_of 63) "")).

Definition ipni_publish `{Engine} (mhs : list string) : outcome () :=
  chunkLink <-! eng_Store mhs;;
  let ad := mkAd None host_ID host_Addrs chunkLink ipniContextID ipniMetadata in
  _ <-! eng_Sign ad;;
  _ <-! eng_Publish ad;;
  Ok ().

(** The hub publisher's, whose sending code is commented out. *)
Definition hub_publish (mhs : list string) : outcome () := Ok ().

(** ** The DHT *)
Class Dht := {
  dht_Provide : string -> outcome ();
  dht_FindProviders : string -> outcome (list string);
  dht_Ping : string -> outcome ();
  (** the values SearchValue streams, each non-nil *)
  dht_SearchValue : string -> outcome (list string)
}.

Definition Provide `{Dht} (l : PLink) : outcome () :=
  match l with
  | LNil => Err "link is nil"
  | _ => match announceable l with Some c => dht_Provide (pc_text c) | None => Err "cid is undefined or invalid" end
  end.

Definition FindProviders `{Dht} (l : PLink) : outcome (list string) :=
  match l with
  | LNil => Err "link is nil"
  | _ => match announceable l with Some c => dht_FindProviders (pc_text c) | None => Err "cid is undefined or invalid" end
  end.

Definition PingDht `{Dht} (p : string) : outcome () := dht_Ping p.

Definition SearchValueDht `{Dht} (key : string) : outcome string :=
  match dht_SearchValue key with
  | Err e => Err ("error searching value in DHT: " +:+ e)
  | Panic => Panic
  | Ok vals => match last vals with Some v => Ok v | None => Err "no value found for the key" end
  end.

(** ** The IPNI lookup *)
Section ipni.
Context `{PC : PeerCrypto} (NewMultiaddr : string -> option string).

(** result.MultihashResults[].ProviderResults[].ContextID *)
Definition dec_objs {A : Type} (dec : list (string * json) -> option A) (_ : list A) (j : json) : option (list A) :=
  match j with
  | JNull => Some []
  | JArr l => mapM (fun j => match as_object j with Some o => dec o | None => None end) l
  | _ => None
  end.
Definition dec_ProviderResult (o : list (string * json)) : option string :=
  let '(v, ok) := field_string "" (obj_field "ContextID" o) in if ok : bool then Some v else None.
Definition dec_MultihashResult (o : list (string * json)) : option (list string) :=
  let '(_, ok1) := field_string "" (obj_field "Multihash" o) in
  let '(v, ok2) := decode_field (dec_objs dec_ProviderResult) [] (obj_field "ProviderResults" o) in
  if ok1 && ok2 then Some v else None.
Definition dec_ipni (body : string) : option (list (list string)) :=
  o ← (j ← json_parse body; as_object j);
  let '(v, ok) := decode_field (dec_objs dec_MultihashResult) [] (obj_field "MultihashResults" o) in
  if ok : bool then Some v else None.

(** A provider's context id is the base64 of its peer id's text. *)
Definition provider_peer (contextID : string) : option string :=
  match b64_decode contextID with
  | None => None
  | Some t => match peer_Decode t with Ok p => Some p | _ => None end
  end.

(** The reply to GET [endpoint ++ cid], as peers with the given relays as addresses. *)
Definition FindProvidersIpni (reply : HttpReply) (relays : list string) : outcome (list (string * list string)) :=
  match reply with
  | ReplyErr e => Err e
  | Reply _ None => Err "read"
  | Reply _ (Some body) =>
      match dec_ipni body with
      | None => Err "unmarshal"
      | Some results =>
          Ok (omap (fun ctx => pid ← provider_peer ctx; Some (pid, omap NewMultiaddr relays)) (concat results))
      end
  end.

(** Every provider found was named by the index, under the relays that parse. *)
Lemma FindProvidersIpni_sound reply relays l pid addrs :
  FindProvidersIpni reply relays = Ok l -> (pid, addrs) ∈ l ->
  exists st body results ctx text, reply = Reply st (Some body) /\ dec_ipni body = Some results /\ ctx ∈ concat results /\
    b64_decode ctx = Some text /\ peer_Decode text = Ok pid /\ addrs = omap NewMultiaddr relays.
Proof.
  unfold FindProvidersIpni. destruct reply as [e|st [body|]]; [done| |done].
  destruct (dec_ipni body) as [results|] eqn:E; [|done]. intros [= <-].
  rewrite list_elem_of_omap. intros (ctx & Hc & Hp). unfold provider_peer in Hp.
  destruct (b64_decode ctx) as [t|] eqn:Eb; [|done]. destruct (peer_Decode t) as [p| |] eqn:Ep; try done.
  injection Hp as <- <-. exists st, body, results, ctx, t. by split_and!.
Qed.
End ipni.

(** ** Runs *)
Section concrete.
Definition a_link : PLink := LCid (mkPCid "bafy-a" false false).
Definition b_link : PLink := LCid (mkPCid "bafy-b" false false).
Definition mh (c : string) : string := "mh-" +:+ c.

(** Two links: the second arrives while the first is being published. *)
Definition two_links : list PEv := [ENotify a_link; ERecv; ENotify b_link; ERecv].

Lemma publisher_delivers_witness :
  exists s, pub_run 1 false mh two_links newPublisher = Some s /\ p_inflight s = [["mh-bafy-a"]] /\
  (length (p_inflight s) <= 1)%nat /\
  exists es' s', pub_run 1 false mh es' s = Some s' /\ published s' "mh-bafy-b".
Proof.
  destruct (pub_run 1 false mh two_links newPublisher) as [s|] eqn:H; [|vm_compute in H; discriminate H].
  exists s. split; [reflexivity|].
  assert (p_inflight s = [["mh-bafy-a"]] /\ p_running s = true /\ p_done s = []) as (Hi & Hr & Hd0) by (vm_compute in H; injection H as <-; auto).
  split; [exact Hi|]. destruct (publisher_delivers 1 false mh two_links s H) as (H1 & _ & H3). split; [exact H1|].
  destruct (H3 eq_refl) as (_ & _ & _ & H4). destruct (H4 Hr) as (es' & s' & He & _ & Hd). exists es', s'. split; [exact He|].
  destruct (Hd "bafy-b") as [(b & Hb & _)|Hp]; [|rewrite Hd0 in Hb; by apply elem_of_nil in Hb|exact Hp].
  exists b_link, (mkPCid "bafy-b" false false). split; [|split; reflexivity]. unfold two_links. set_solver.
Defined.

(** A batch whose publish call failed is not kept: the link is gone although the loop is
    running and has nothing left to do. *)
Lemma failed_batch_dropped :
  exists s, pub_run 1 false mh [ENotify a_link; ERecv; EDone false] newPublisher = Some s /\
  settled s /\ p_running s = true /\ p_done s = [(false, ["mh-bafy-a"])].
Proof. eexists. split; [vm_compute; reflexivity|]. by split_and!. Qed.

(** After shutdown a second notification waits for ever. *)
Lemma notify_after_shutdown :
  exists s, pub_run 1 false mh [ECancel; EStop; ENotify a_link; ENotify b_link] newPublisher = Some s /\
  p_blocked s = [mkPCid "bafy-b" false false] /\ p_running s = false.
Proof. eexists. split; [vm_compute; reflexivity|]. by split_and!. Qed.
End concrete.
