(* ===== verification/Join.v ===== *)
(** * blockchain/bl_pool.go, announcements: voting on a join request

    A device that hears a peer's request to join its pool pings the peer through kubo, votes
    according to the answers, and then forgets that the peer was pending. The requests come in
    as announcements on a pubsub topic; the codec (dag-cbor) and kubo's ping are interfaces.
    Ping times are averaged in float64, as Float.v computes it. *)

From S2P Require Import Prelude GoStd Json JsonPrint Float SignedAuth PeerId Abi Effects Access Node Evm PoolConfig Schema Relay.

#[local] Open Scope string_scope.
#[local] Open Scope Z_scope.

(** ** common.MemberStatus *)
Definition Unknown : Z := 0.
Definition Pending : Z := 1.
Definition Approved : Z := 2.

(** ** Ping answers *)
Record PingResponse := mkPing { pr_Success : bool; pr_Time : Z; pr_Text : string }.

(** One Decode: a value of another type is an error that the next call recovers from. *)
Definition decode_PingResponse (j : json) : option PingResponse :=
  l ← as_object j;
  let '(s, ok1) := field_bool false (obj_field "Success" l) in
  let '(t, ok2) := field_int 0 (obj_field "Time" l) in
  let '(x, ok3) := field_string "" (obj_field "Text" l) in
  if ok1 && ok2 && ok3 then Some (mkPing s t x) else None.

(** decoder.More *)
Definition more (s : string) : bool :=
  match skip_ws s with
  | EmptyString => false
  | String c _ => negb (c =? "]")%char && negb (c =? "}")%char
  end.

(** The loop over the decoder. A syntax error stays in the decoder, so the loop goes on for
    ever: [None]. Each value takes at least one byte. *)
Fixpoint ping_stream (fuel : nat) (s : string) : option (list PingResponse) :=
  match fuel with
  | O => None
  | S fuel =>
      if negb (more s) then Some []
      else match json_parse_prefix s with
           | None => None
           | Some (j, rest) =>
               l ← ping_stream fuel rest;
               Some (match decode_PingResponse j with Some p => p :: l | None => l end)
           end
  end.
Definition ping_responses (out : string) : option (list PingResponse) := ping_stream (S (String.length out)) out.

Definition good_ping (p : PingResponse) : bool := (pr_Text p =? "")%string && (0 <? pr_Time p).

Definition total_time (ps : list PingResponse) : Z :=
  fold_left (fun t p => wrapS 64 (t + pr_Time p)) (filter (fun p => good_ping p = true) ps) 0.
Definition good_count (ps : list PingResponse) : Z := Z.of_nat (length (filter (fun p => good_ping p = true) ps)).

(** float64 of a positive rational; no overflow is possible below 2^64. *)
Definition f64 (n d : Z) : Z * Z := match to_double float64 n d with Some x => double_rat x | None => (0, 1) end.

(** int(float64(total) / float64(count) / 1e6), towards zero *)
Definition average_ms (total count : Z) : Z :=
  if total =? 0 then 0
  else
    let t := f64 (Z.abs total) 1 in
    let c := f64 count 1 in
    let q := f64 (t.1 * c.2) (t.2 * c.1) in
    let m := f64 q.1 (q.2 * 1000000) in
    Z.sgn total * (m.1 / m.2).

(** The vote, from the ping answers. *)
Definition vote (maxPingTime minPingSuccessCount : Z) (ps : list PingResponse) : bool :=
  let count := good_count ps in
  let averageDuration := if 0 <? count then average_ms (total_time ps) count else 2000 in
  (averageDuration <=? maxPingTime) && (minPingSuccessCount <=? (if 0 <? count then count else 0)).

(** kubo's ping: the request's error, the answer's error, or the output. *)
Inductive PingReply := PingErr (e : string) | PingResErr (e : string) | PingOut (out : string).
Class KuboPing := { kubo_ping : nat -> string -> PingReply }.

Section join.
Context {S : Type} `{PS : PoolStore S} `{E : Env} `{KP : KuboPing}.
Context (o : Options) (dbPath : string) (maxPingTime minPingSuccessCount : Z) (rpc : bool).

Definition vote_request (poolID : Z) (account from : string) (v : bool) : Payload :=
  PtrStruct [("pool_id", JNum (Itoa poolID)); ("account", JStr account); ("vote_value", JBool v); ("peer_id", JStr from)].

(** %s of a member of the decoded map: a string is itself, a missing one nil; only the start
    of what fmt prints for a number, a boolean, an array or an object is kept. *)
Definition fmt_member (name : string) (l : list (string * json)) : string :=
  match last (filter (fun kv => kv.1 = name) l) with
  | Some (_, JStr s) => s
  | None | Some (_, JNull) => "%!s(<nil>)"
  | _ => "%!s"
  end.

(** A failed status, with the message and description of a JSON answer. *)
Definition status_error (st : Z) (body : string) : string :=
  "unexpected response status: " +:+ Itoa st +:+
  match json_parse body with
  | Some (JObj l) => ", message: " +:+ fmt_member "message" l +:+ ", description: " +:+ fmt_member "description" l
  | Some JNull => ", message: %!s(<nil>), description: %!s(<nil>)"
  | _ => ", body: " +:+ body
  end.

(** [from] is the peer's text. [None]: the decoder loop does not end. *)
Definition HandlePoolJoinRequest (from account topicString : string) : M (Node S) (option ()) :=
  st <- gets (GetMemberStatus from);;
  if negb st.2 then ret (Some ())
  else if negb (st.1 =? Pending) then raise ("peerID does not exist in the list of pool requests: " +:+ from +:+ " with status " +:+ Itoa st.1)
  else if negb rpc then raise "IPFS rpc is not defined"
  else
    r <- (fun w => (Ok (kubo_ping (n_fx w) from), bump w));;
    match r with
    | PingErr e | PingResErr e => raise ("ping was unsuccessful: " +:+ e)
    | PingOut out =>
        match ping_responses out with
        | None => ret None
        | Some ps =>
            match Atoi topicString with
            | inl _ => raise "invalid topic, not an integer"
            | inr poolID =>
                a <- callBlockchain o dbPath MethodPost actionPoolVote
                       (vote_request poolID account from (vote maxPingTime minPingSuccessCount ps));;
                match a with
                | inl (st, e) => raise ("blockchain call error: " +:+ e +:+ ", status code: " +:+ Itoa st)
                | inr (body, st) =>
                    if negb (st =? StatusOK) && negb (st =? StatusAccepted) then raise (status_error st body)
                    else match json_parse body with
                         | Some j =>
                             if (decode PoolVoteResponse (zero PoolVoteResponse) j).2
                             then modify (fun w => set_members (<[from := Unknown]> (n_members w)) w);;; ret (Some ())
                             else raise "failed to unmarshal vote response"
                         | None => raise "failed to unmarshal vote response"
                         end
                end
            end
        end
    end.

(** ** What a request changes *)

(** At most the peer's entry, from pending to unknown. *)
Definition votes_at_most (from : string) (w w' : Node S) : Prop :=
  n_store w' = n_store w /\ n_files w' = n_files w /\ n_restarts w' = n_restarts w /\ n_cmds w' = n_cmds w /\
  n_pingServer w' = n_pingServer w /\
  (n_members w' = n_members w \/ n_members w !! from = Some Pending /\ n_members w' = <[from := Unknown]> (n_members w)).

Lemma only_fx_callBlockchain method action p : keeps only_fx (callBlockchain (S := S) o dbPath method action p).
Proof. unfold callBlockchain, PlugSeedIfNeeded, LoadKey. cbn zeta. keeps_go. Qed.

Lemma only_fx_votes from w w' : only_fx w w' -> votes_at_most from w w'.
Proof. unfold only_fx, votes_at_most. intros (_ & ? & ? & ? & ? & ? & ?). auto 10. Qed.

(** The request's outcome: untouched and no effect unless the peer is pending; and the
    peer is unknown afterwards exactly when a vote was taken by the API. *)
Lemma join_request_run from account topic w :
  let '(r, w') := HandlePoolJoinRequest from account topic w in
  votes_at_most from w w' /\
  (n_members w !! from <> Some Pending -> w' = w) /\
  (n_members w !! from = Some Pending -> r = Ok (Some ()) -> n_members w' = <[from := Unknown]> (n_members w)) /\
  (n_members w' <> n_members w -> r = Ok (Some ())).
Proof.
  unfold HandlePoolJoinRequest, bind at 1, gets, GetMemberStatus.
  destruct (n_members w !! from) as [st|] eqn:Em; cbn [negb fst snd]; [|by split; [apply only_fx_votes; reflexivity|]].
  destruct (Z.eqb_spec st Pending) as [->|Hst]; cbn [negb];
    [|split; [apply only_fx_votes; reflexivity|]; split; [done|]; split; [by intros [= ?]|done]].
  destruct rpc; cbn [negb]; [|by split; [apply only_fx_votes; reflexivity|]].
  unfold bind at 1. set (w1 := bump w).
  assert (only_fx w w1) as H1 by (unfold only_fx; cbn; split_and!; (done || lia)).
  assert (forall r w', only_fx w w' -> r <> Ok (Some ()) ->
    votes_at_most from w w' /\ (Some Pending <> Some Pending -> w' = w) /\
    (Some Pending = Some Pending -> r = Ok (Some ()) -> n_members w' = <[from:=Unknown]> (n_members w)) /\
    (n_members w' <> n_members w -> r = Ok (Some ()))) as Hno.
  { intros r w' Hw Hr. split; [by apply only_fx_votes|]. split; [done|]. split; [done|]. intros Hm. exfalso. apply Hm. apply Hw. }
  destruct (kubo_ping _ _) as [e|e|out]; [by apply Hno..|].
  destruct (ping_responses out) as [ps|]; [|by apply Hno].
  destruct (Atoi topic) as [e|poolID]; [by apply Hno|].
  unfold bind at 1. destruct (callBlockchain _ _ _ _ _ w1) as [r w2] eqn:Ec.
  pose proof (only_fx_callBlockchain MethodPost actionPoolVote
    (vote_request poolID account from (vote maxPingTime minPingSuccessCount ps)) w1) as H2.
  rewrite Ec in H2. cbn [snd] in H2. assert (only_fx w w2) as H12 by (by etrans).
  destruct r as [[[st e]|[body st]]|e|]; [by apply Hno| |by apply Hno..].
  destruct (negb (st =? StatusOK) && negb (st =? StatusAccepted)); [by apply Hno|].
  destruct (json_parse body) as [j|]; [|by apply Hno]. destruct (decode PoolVoteResponse (zero PoolVoteResponse) j).2; [|by apply Hno].
  unfold bind, modify, ret. cbn. destruct H12 as (_ & Q1 & Q2 & Q3 & Q4 & Q5 & Q6).
  split; [|split; [done|split; [by rewrite Q3|done]]].
  unfold votes_at_most. cbn. rewrite Q3. auto 10.
Qed.
End join.

(** ** The vote the program takes

    blox.New makes the minimum of successful pings 0 (BloxMain.device_options), so the time is
    all that counts; without an answer the average stays at two seconds, which fails. *)
Lemma vote_shipped ps :
  vote 900 0 ps = true <-> 0 < good_count ps /\ average_ms (total_time ps) (good_count ps) <= 900.
Proof.
  unfold vote. destruct (Z.ltb_spec 0 (good_count ps)).
  - rewrite andb_true_iff, !Z.leb_le. lia.
  - cbn. split; [done|lia].
Qed.

(** Answers that were lost or carry a text do not count. *)
Example vote_one : vote 900 0 [mkPing true 0 "Pinging"; mkPing true 900999999 ""; mkPing false 0 ""] = true.
Proof. vm_compute. reflexivity. Qed.
Example vote_slow : vote 900 0 [mkPing true 901000000 ""; mkPing true 901000000 ""] = false.
Proof. vm_compute. reflexivity. Qed.
Example vote_none : vote 900 0 [] = false.
Proof. reflexivity. Qed.
(** With a longer limit no answer at all is a vote for the peer. *)
Example vote_silent : vote 2000 0 [] = true.
Proof. reflexivity. Qed.

(** A line that is not JSON keeps the decoder loop running for ever. *)
Lemma bad_line_spins s fuel : more s = true -> json_parse_prefix s = None -> ping_stream fuel s = None.
Proof. intros H1 H2. destruct fuel; [done|]. cbn [ping_stream]. by rewrite H1, H2. Qed.
Example bad_line : ping_responses (jq "{'Time':1} oops") = None.
Proof. vm_compute. reflexivity. Qed.

(** The fuel is enough: a stream of well-formed values is read to its end. *)
Definition stream_text (js : list json) : string := sconcat (map (fun j => " " +:+ json_print j) js).

Lemma stream_num_end js : num_end (stream_text js) = true.
Proof. by destruct js. Qed.

Lemma more_print j r : nums_ok j = true -> more (" " +:+ json_print j +:+ r) = true.
Proof.
  intros H. destruct (print_head j H) as (c & t & -> & Hc). unfold more. cbn [String.append].
  unfold value_head in Hc. rewrite !andb_true_iff, !negb_true_iff in Hc. destruct Hc as [[H1 H2] H3].
  change (skip_ws (String " " (String c (t +:+ r)))) with (skip_ws (String c (t +:+ r))).
  rewrite skip_ws_head by done. by rewrite H2, H3.
Qed.

Lemma prefix_print_space j r : nums_ok j = true -> num_end r = true ->
  json_parse_prefix (" " +:+ json_print j +:+ r) = Some (j, r).
Proof.
  intros Hj Hr. unfold json_parse_prefix. cbn [String.append String.length].
  replace (2 * S (String.length (json_print j +:+ r)) + 2)%nat with (S (2 * String.length (json_print j +:+ r) + 3))%nat by lia.
  pose proof (reads_print j Hj (S (2 * String.length (json_print j +:+ r) + 3)) r ltac:(rewrite length_app_s; lia) Hr) as H.
  rewrite <- H. reflexivity.
Qed.

Lemma ping_stream_complete js : Forall (fun j => nums_ok j = true) js ->
  ping_responses (stream_text js) = Some (omap decode_PingResponse js).
Proof.
  intros H. unfold ping_responses.
  assert (forall fuel, (length js < fuel)%nat -> ping_stream fuel (stream_text js) = Some (omap decode_PingResponse js)) as Hf.
  { induction H as [|j js Hj _ IH]; intros [|fuel] Hl; try (cbn in Hl; lia); [done|].
    cbn [ping_stream]. change (stream_text (j :: js)) with ((" " +:+ json_print j) +:+ stream_text js). rewrite sapp_assoc.
    rewrite more_print, prefix_print_space, IH by (done || apply stream_num_end || (cbn in Hl; lia)). cbn.
    by destruct (decode_PingResponse j). }
  apply Hf. clear Hf H. induction js as [|j js IH]; [cbn; lia|].
  change (stream_text (j :: js)) with ((" " +:+ json_print j) +:+ stream_text js). rewrite length_app_s. cbn in *. lia.
Qed.
