(* ===== verification/Manifests.v ===== *)
(** * blockchain/bl_manifest.go: the device's own manifest calls

    What the device asks the API about manifests on its own account: which of its stored CIDs
    may be claimed, claiming them, and which manifests of the pool still need a storer. go-cid
    is a parameter. *)

From S2P Require Import Prelude GoStd Json SignedAuth PeerId Abi Effects Access Node Evm PoolConfig Schema Relay Join.

#[local] Open Scope string_scope.
#[local] Open Scope Z_scope.

Definition BatchManifestAllaccounts := TStruct [("cid", TString)].
Definition BatchManifestAllaccountsResponse := TStruct [("manifests", TList BatchManifestAllaccounts)].

(** nil slices are written as null. *)
Definition string_list (l : list string) : json := match l with [] => JNull | _ => JArr (map JStr l) end.
Definition list_of (j : json) : list json := match j with JArr l => l | _ => [] end.
Definition text_of (j : json) : string := match j with JStr s => s | _ => "" end.

(** json.Unmarshal into a struct variable. *)
Definition unmarshal (t : ty) (body : string) : option json :=
  j ← json_parse body; let '(v, ok) := decode t (zero t) j in if ok : bool then Some v else None.

Section manifests.
Context {S : Type} `{PS : PoolStore S} `{E : Env}.
Context (o : Options) (dbPath : string) (cid_Decode : string -> option string).

Definition HandleManifestAvailableAllaccountsBatch (poolIDString : string) (links : list string) : M (Node S) (list string) :=
  match Atoi poolIDString with
  | inl _ => raise "invalid pool ID"
  | inr poolID =>
      r <- callBlockchain o dbPath MethodPost actionManifestAvailableAllaccountsBatch
             (PtrStruct [("cids", string_list links); ("pool_id", JNum (Itoa poolID))]);;
      match r with
      | inl (_, e) => raise ("blockchain call failed: " +:+ e)
      | inr (response, st) =>
          if negb (st =? StatusOK) then raise ("unexpected status code: " +:+ Itoa st)
          else match unmarshal BatchManifestAllaccountsResponse response with
               | None => raise "failed to parse response"
               | Some v => ret (omap (fun m => cid_Decode (text_of (field "cid" m))) (list_of (field "manifests" v)))
               end
      end
  end.

Definition HandleManifestBatchStore (poolIDString : string) (links : list string) : M (Node S) (list string) :=
  match Atoi poolIDString with
  | inl _ => raise "invalid poolID, not an integer"
  | inr poolID =>
      r <- callBlockchain o dbPath MethodPost actionManifestBatchStore
             (PtrStruct [("cid", string_list links); ("pool_id", JNum (Itoa poolID))]);;
      match r with
      | inl (st, e) => raise ("blockchain call error: " +:+ e +:+ ", status code: " +:+ Itoa st)
      | inr (response, st) =>
          if negb (st =? StatusOK) then raise (status_error st response)
          else match unmarshal ManifestBatchStoreResponse response with
               | None => raise "failed to unmarshal manifestBatchStore response"
               | Some v => ret (map text_of (list_of (field "cid" v)))
               end
      end
  end.

(** A manifest's link and how many replicas are wanted. *)
Definition manifest_link (m : json) : option (string * Z) :=
  c ← cid_Decode (text_of (field "uri" (field "job" (field "manifest_metadata" m))));
  Some (c, int_field "replication_available" m).

(** The loop: a CID that does not decode fails the call, unless the limit was reached
    before it; the manifest after the last one taken is still decoded. *)
Fixpoint take_links (limit : Z) (taken : list (string * Z)) (ms : list json) : option (list (string * Z)) :=
  match ms with
  | [] => Some taken
  | m :: rest =>
      match manifest_link m with
      | None => None
      | Some l => if Z.of_nat (length taken) <? limit then take_links limit (taken ++ [l])%list rest else Some taken
      end
  end.

Definition HandleManifestsAvailable (poolIDString : string) (limit : Z) : M (Node S) (list (string * Z)) :=
  match Atoi poolIDString with
  | inl _ => raise "invalid poolID, not an integer"
  | inr poolID =>
      r <- callBlockchain o dbPath MethodPost actionManifestAvailable (PtrStruct [("pool_id", JNum (Itoa poolID))]);;
      match r with
      | inl (st, e) => raise ("blockchain call error: " +:+ e +:+ ", status code: " +:+ Itoa st)
      | inr (response, st) =>
          if negb (st =? StatusOK) then raise (status_error st response)
          else match unmarshal ManifestAvailableResponse response with
               | None => raise "failed to unmarshal manifestAvailable response"
               | Some v =>
                   match take_links limit [] (list_of (field "manifests" v)) with
                   | None => raise "failed to decode CID"
                   | Some l => ret l
                   end
               end
      end
  end.

(** ** The limit *)
Lemma take_links_spec limit taken ms r : take_links limit taken ms = Some r ->
  exists n, r = (taken ++ omap manifest_link (take n ms))%list /\
    (Z.of_nat (length taken) <= Z.max 0 limit -> Z.of_nat (length r) <= Z.max 0 limit) /\
    ((n < length ms)%nat -> limit <= Z.of_nat (length r)) /\
    length r = (length taken + Nat.min n (length ms))%nat.
Proof.
  revert taken. induction ms as [|m ms IH]; intros taken; cbn [take_links].
  { intros [= <-]. exists 0%nat. rewrite app_nil_r. cbn. split_and!; try done; lia. }
  destruct (manifest_link m) as [l|] eqn:El; [|done]. destruct (Z.ltb_spec (Z.of_nat (length taken)) limit).
  - intros (n & Hr & H1 & H2 & H3)%IH. exists (Datatypes.S n). rewrite length_app in H1, H3. cbn [length] in *.
    split; [cbn; rewrite El; cbn; by rewrite Hr, <- app_assoc|]. split_and!; lia.
  - intros [= <-]. exists 0%nat. cbn. rewrite app_nil_r. split_and!; try done; lia.
Qed.

(** The links returned are the first of the pool's manifests, never more than asked for,
    and as many as asked for when there are that many. *)
Lemma manifests_available_bounded pool limit w l w' : 0 <= limit ->
  HandleManifestsAvailable pool limit w = (Ok l, w') ->
  Z.of_nat (length l) <= limit /\
  exists ms n, l = omap manifest_link (take n ms) /\ length l = Nat.min n (length ms) /\
    ((n < length ms)%nat -> Z.of_nat (length l) = limit).
Proof.
  intros Hl. unfold HandleManifestsAvailable. destruct (Atoi pool); [done|].
  intros (r & w1 & _ & H)%bind_Ok_inv. destruct r as [[st e]|[response st]]; [done|].
  destruct (negb (st =? StatusOK)); [done|]. destruct (unmarshal _ response) as [v|]; [|done].
  destruct (take_links limit [] _) as [l'|] eqn:Et; [|done]. injection H as -> ->.
  apply take_links_spec in Et as (n & -> & H1 & H2 & H3). cbn [app length] in *.
  split; [lia|]. exists (list_of (field "manifests" v)), n. split_and!; [done|lia|]. intros Hn. lia.
Qed.
End manifests.
