(* ===== verification/InitTools.v ===== *)
(** * modules/initipfs, modules/initipfscluster: the tools run before kubo and ipfs-cluster

    Both read the blox program's config.yaml: initipfs completes kubo's configuration with the
    derived identity, the datastore's paths and the addresses, and writes the two files kubo
    wants to find; initipfscluster writes the cluster's identity from the original key. A
    panic is [Panic], os.Exit is an error. The disk has files and directories under their
    names as written; each operation may fail, which a missing parent directory counts as;
    a failed RemoveAll leaves everything. libp2p keys and YAML are interfaces. *)

From S2P Require Import Prelude GoStd Json JsonPrint JsonIndent GoPath PeerId SignedAuth Effects Node Schema Relay Properties GoStruct.
From S2P Require Import ConfigFile BloxConfig BloxOptions BloxMain.

#[local] Open Scope string_scope.
#[local] Open Scope Z_scope.

(** ** Types *)
Definition fld (n : string) (t : gty) : string * (bool * gty) := (n, (false, t)).
Definition fldOmit (n : string) (t : gty) : string * (bool * gty) := (n, (true, t)).

(** config.yaml, as far as initipfs reads it. *)
Record ConfigYAML := mkConfigYAML {
  cy_Identity : string; cy_PoolName : string; cy_StaticRelays : list string; cy_IpfsBootstrapNodes : list string;
  cy_IpniPublisherIdentity : string; cy_IpniPublishDirectAnnounce : list string
}.

Definition Child := GStruct [fld "path" GStr; fldOmit "shardFunc" GStr; fldOmit "sync" GBool; fld "type" GStr; fldOmit "compression" GStr].
Definition Mount := GStruct [fld "child" Child; fld "mountpoint" GStr; fld "prefix" GStr; fld "type" GStr].
Definition DatastoreSpec := GStruct [fld "mounts" (GList Mount); fld "type" GStr].

Definition ApiFields := [fld "HTTPHeaders" GMap].
Definition AddressesFields := [fld "API" GStr; fld "Announce" (GList GStr); fld "AppendAnnounce" (GList GStr); fld "Gateway" GStr;
  fld "NoAnnounce" (GList GStr); fld "Swarm" (GList GStr)].
Definition DatastoreFields := [fld "BloomFilterSize" GInt; fld "GCPeriod" GStr; fld "HashOnRead" GBool; fld "Spec" DatastoreSpec;
  fld "StorageGCWatermark" GInt; fld "StorageMax" GStr].
Definition ExperimentalFields := [fld "FilestoreEnabled" GBool; fld "Libp2pStreamMounting" GBool; fld "OptimisticProvide" GBool;
  fld "OptimisticProvideJobsPoolSize" GInt; fld "P2pHttpProxy" GBool; fld "StrategicProviding" GBool; fld "UrlstoreEnabled" GBool].
Definition GatewayFields := [fld "DeserializedResponses" GAny; fld "DisableHTMLErrors" GAny; fld "ExposeRoutingAPI" GAny;
  fld "HTTPHeaders" GMap; fld "NoDNSLink" GBool; fld "NoFetch" GBool; fld "PublicGateways" GAny; fld "RootRedirect" GStr].
Definition IdentityFields := [fld "PeerID" GStr; fld "PrivKey" GStr].
Definition SwarmFields := [fld "AddrFilters" GAny;
  fld "ConnMgr" (GStruct [fld "HighWater" GInt; fld "LowWater" GInt; fld "GracePeriod" GStr]);
  fld "DisableBandwidthMetrics" GBool; fld "DisableNatPortMap" GBool;
  fld "RelayClient" (GStruct [fldOmit "Enabled" GBool; fldOmit "StaticRelays" (GList GStr)]);
  fld "RelayService" (GStruct []); fld "ResourceMgr" (GStruct []);
  fld "Transports" (GStruct [fld "Multiplexers" GMap; fld "Network" GMap; fld "Security" GMap])].

Definition IPFSFields := [
  fld "API" (GStruct ApiFields);
  fld "Addresses" (GStruct AddressesFields);
  fld "AutoNAT" (GStruct []);
  fld "Bootstrap" (GList GStr);
  fld "DNS" (GStruct [fld "Resolvers" GMap]);
  fld "Datastore" (GStruct DatastoreFields);
  fld "Discovery" (GStruct [fld "MDNS" (GStruct [fld "Enabled" GBool])]);
  fld "Experimental" (GStruct ExperimentalFields);
  fld "Gateway" (GStruct GatewayFields);
  fld "Identity" (GStruct IdentityFields);
  fld "Internal" GMap;
  fld "Ipns" (GStruct [fld "RecordLifetime" GStr; fld "RepublishPeriod" GStr; fld "ResolveCacheSize" GInt]);
  fld "Migration" (GStruct [fld "DownloadSources" (GList GAny); fld "Keep" GStr]);
  fld "Mounts" (GStruct [fld "FuseAllowOther" GBool; fld "IPFS" GStr; fld "IPNS" GStr]);
  fld "Peering" (GStruct [fld "Peers" GAny]);
  fld "Pinning" (GStruct [fld "RemoteServices" GMap]);
  fld "Plugins" (GStruct [fld "Plugins" GAny]);
  fld "Provider" (GStruct [fld "Strategy" GStr]);
  fld "Pubsub" (GStruct [fld "DisableSigning" GBool; fld "Router" GStr]);
  fld "Reprovider" (GStruct []);
  fld "Routing" (GStruct [fld "AcceleratedDHTClient" GBool; fld "Methods" GAny; fld "Routers" GAny]);
  fld "Swarm" (GStruct SwarmFields)].
Definition IPFSConfig := GStruct IPFSFields.

Definition MountSingle := GStruct [fld "mountpoint" GStr; fld "path" GStr; fldOmit "shardFunc" GStr; fld "type" GStr].
Definition DatastoreConfig := GStruct [fld "mounts" (GList MountSingle); fld "type" GStr].

(** ** The disk *)
Record Disk := mkDisk { d_fx : nat; d_files : gmap string string; d_dirs : gset string }.
Class Faults := { os_result : nat -> FsResult }.

Definition bump_disk (d : Disk) : Disk := mkDisk (S (d_fx d)) (d_files d) (d_dirs d).
Definition set_file (p c : string) (d : Disk) : Disk := mkDisk (d_fx d) (<[p := c]> (d_files d)) (d_dirs d).
Definition under (dir p : string) : bool := (p =? dir)%string || HasPrefix p (dir +:+ "/").

Section os.
Context `{F : Faults}.

Definition os_op : M Disk FsResult := fun d => (Ok (os_result (d_fx d)), bump_disk d).

Definition os_Stat (p : string) : M Disk Stat :=
  r <- os_op;;
  match r with
  | FsErr _ => ret SErr
  | FsOk => gets (fun d => if bool_decide (p ∈ d_dirs d) then SDir
                           else match d_files d !! p with Some c => SFile (Some c) | None => SNone end)
  end.

Definition os_MkdirAll (p : string) : M Disk () :=
  r <- os_op;;
  match r with FsErr _ => raise "mkdir" | FsOk => modify (fun d => mkDisk (d_fx d) (d_files d) ({[p]} ∪ d_dirs d)) end.

(** os.ReadFile; a missing file and a directory are errors too. *)
Definition os_ReadFile (p : string) : M Disk string :=
  r <- os_op;;
  match r with
  | FsErr _ => raise "read"
  | FsOk =>
      dir <- gets (fun d => bool_decide (p ∈ d_dirs d));;
      c <- gets (fun d => d_files d !! p);;
      match dir, c with
      | false, Some c => ret c
      | _, _ => raise "open"
      end
  end.

Definition os_Open (p : string) : M Disk () :=
  r <- os_op;;
  there <- gets (fun d => bool_decide (p ∈ d_dirs d) || bool_decide (is_Some (d_files d !! p)));;
  match r with
  | FsOk => if (there : bool) then ret () else raise "open"
  | FsErr _ => raise "open"
  end.

(** os.WriteFile and os.Create with a write: a failure may leave a part. *)
Definition write_at (p data : string) : M Disk () :=
  r <- os_op;;
  dir <- gets (fun d => bool_decide (p ∈ d_dirs d));;
  if (dir : bool) then raise "is a directory"
  else match r with
       | FsOk => modify (set_file p data)
       | FsErr None => raise "write"
       | FsErr (Some n) => modify (set_file p (stake n data));;; raise "write"
       end.

Definition os_RemoveAll (p : string) : M Disk () :=
  r <- os_op;;
  match r with
  | FsErr _ => raise "remove"
  | FsOk => modify (fun d => mkDisk (d_fx d) (filter (fun kv => under p kv.1 = false) (d_files d))
                               (filter (fun q => under p q = false) (d_dirs d)))
  end.

Definition or_panic {A : Type} (m : M Disk A) : M Disk A :=
  r <- try m;;
  match r with inr a => ret a | inl _ => panic end.

(** ** initipfs *)
Definition createEmptyFile (p : string) : M Disk () := write_at p "".

Definition copyDefaultIPFSConfig (sourcePath p : string) : M Disk () :=
  os_Open sourcePath;;;
  createEmptyFile p;;;
  src <- os_ReadFile sourcePath;;
  write_at p src.

Fixpoint ensureDirectories (paths : list string) : M Disk () :=
  match paths with
  | [] => ret ()
  | p :: rest =>
      st <- os_Stat p;;
      (match st with SNone => or_panic (os_MkdirAll p) | _ => ret () end);;;
      ensureDirectories rest
  end.

(** Unmarshal into the struct: [None] is a syntax error, which leaves the struct alone. *)
Definition unmarshal_config (cur : json) (data : string) : option (json * bool) :=
  j ← json_parse data; Some (gdecode IPFSConfig cur j).

(** The template, into a struct that may hold what could be read of a corrupt config. *)
Definition read_template (sourceIpfsConfig p : string) (cur : json) : M Disk json :=
  data <- or_panic (os_ReadFile sourceIpfsConfig);;
  if (data =? "")%string then ret cur
  else match unmarshal_config cur data with
       | Some (v, true) => ret v
       | Some (v, false) => createEmptyFile p;;; ret v
       | None => createEmptyFile p;;; ret cur
       end.

(** [None]: the config does not exist. *)
Definition readIPFSConfig (sourceIpfsConfig p : string) : M Disk (option json) :=
  st <- os_Stat p;;
  match st with
  | SNone => ret None
  | SErr => panic
  | _ =>
      (match st with
       | SDir => os_RemoveAll p;;; or_panic (copyDefaultIPFSConfig sourceIpfsConfig p)
       | _ => ret ()
       end);;;
      data <- try (os_ReadFile p);;
      let fallback cur := v <- read_template sourceIpfsConfig p cur;; ret (Some v) in
      match data with
      | inr doc =>
          if (doc =? "")%string then fallback (gzero IPFSConfig)
          else match unmarshal_config (gzero IPFSConfig) doc with
               | Some (v, true) => ret (Some v)
               | Some (v, false) => fallback v
               | None => fallback (gzero IPFSConfig)
               end
      | inl _ => fallback (gzero IPFSConfig)
      end
  end.
End os.

Class InitYaml := {
  yaml_ConfigYAML : string -> option ConfigYAML;
  yaml_Config_identity : string -> option string      (** initipfscluster's Config *)
}.

Section tools.
Context `{F : Faults} `{IY : InitYaml} `{PC : PeerCrypto} `{K : KeyLib}.

Definition readConfigYAML (p : string) : M Disk ConfigYAML :=
  data <- or_panic (os_ReadFile p);;
  match yaml_ConfigYAML data with Some c => ret c | None => panic end.

Definition deriveKuboKey (originalIdentity : string) : outcome (PrivKey * string) :=
  privKeyBytes <-! match b64_decode originalIdentity with
                   | Some b => Ok b | None => Err "decoding private key: illegal base64 data" end;;
  priv <-! wrap "unmarshaling private key: " (crypto_UnmarshalPrivateKey privKeyBytes);;
  rawKey <-! wrap "extracting raw key: " (key_Raw priv);;
  originalSeed <-! go_slice rawKey 0 32;;
  let derivedSeed := hmac_sha256 "fula-kubo-identity-v1" originalSeed in
  kuboPriv <-! wrap "generating kubo key: " (GenerateEd25519Key derivedSeed);;
  kuboPeerID <-! wrap "generating kubo peer ID: " (IDFromPrivateKey kuboPriv);;
  Ok (kuboPriv, kuboPeerID).

(** PrivKey and PeerID of the config; any failure panics. *)
Definition kubo_identity (identity : string) : option (string * string) :=
  match deriveKuboKey identity with
  | Ok (kuboPriv, kuboPeerID) =>
      match crypto_MarshalPrivateKey kuboPriv with
      | Ok b => Some (b64_encode b, peer_String kuboPeerID)
      | _ => None
      end
  | _ => None
  end.

Definition const {A : Type} (v : A) (_ : A) : A := v.

Definition set_identity (privKey peerID : string) : json -> json :=
  set_field "Identity" (fun i => set_field "PeerID" (const (JStr peerID)) (set_field "PrivKey" (const (JStr privKey)) i)).

Definition updateIPFSConfigIdentity (v : json) (cfg : ConfigYAML) : M Disk json :=
  match kubo_identity (cy_Identity cfg) with
  | Some (privKey, peerID) => ret (set_identity privKey peerID v)
  | None => panic
  end.

Definition move_mount (newPath : string) (m : json) : json :=
  let path := match field "type" (field "child" m) with
              | JStr "flatfs" => Some (newPath +:+ "/blocks")
              | JStr "pebbleds" => Some (newPath +:+ "/datastore")
              | _ => None
              end in
  match path with
  | Some p => set_field "child" (set_field "path" (const (JStr p))) m
  | None => m
  end.

Definition each_mount (f : json -> json) (v : json) : json := match v with JArr l => JArr (map f l) | _ => v end.

Definition updateDatastorePath (newPath apiIp : string) (v : json) : json :=
  set_field "Addresses" (fun a => set_field "API" (const (JStr ("/ip4/" +:+ apiIp +:+ "/tcp/5001")))
                                  (set_field "Gateway" (const (JStr "/ip4/127.0.0.1/tcp/8081")) a))
    (set_field "Datastore" (set_field "Spec" (set_field "mounts" (each_mount (move_mount newPath)))) v).

Definition mount_streams : json -> json := set_field "Experimental" (set_field "Libp2pStreamMounting" (const (JBool true))).

Definition not_nil (empty v : json) : json := match v with JNull => empty | _ => v end.

(** The value writeIPFSConfig marshals, and its text. *)
Definition filled (v : json) : json :=
  set_field "Internal" (not_nil (JObj [])) (set_field "Bootstrap" (not_nil (JArr [])) v).
Definition config_text (v : json) : string := json_indent "  " 0 (gencode IPFSConfig v).

Definition writeIPFSConfig (p : string) (cfg : json) : M Disk () := or_panic (write_at p (config_text (filled cfg))).

Definition missingOrEmpty (p : string) : M Disk bool :=
  st <- os_Stat p;;
  match st with
  | SNone => ret true
  | SErr => raise "exit status 1"
  | SDir => ret false
  | SFile c => ret (bool_decide (c = Some ""))
  end.

Definition datastore_spec (ipfsDatastorePath : string) : json :=
  gencode DatastoreConfig (JObj [("mounts", JArr [
    JObj [("mountpoint", JStr "/blocks"); ("path", JStr (ipfsDatastorePath +:+ "/blocks"));
          ("shardFunc", JStr "/repo/flatfs/shard/v1/next-to-last/2"); ("type", JStr "flatfs")];
    JObj [("mountpoint", JStr "/"); ("path", JStr (ipfsDatastorePath +:+ "/datastore")); ("shardFunc", JStr "");
          ("type", JStr "pebbleds")]]); ("type", JStr "mount")]).

Definition write_if_missing (p data : string) : M Disk () :=
  needWrite <- missingOrEmpty p;;
  if (needWrite : bool) then write_at p data else ret ().

Definition writePredefinedFiles (ipfsDataPath ipfsDatastorePath : string) : M Disk () :=
  write_if_missing (ipfsDataPath +:+ "/version") "18";;;
  write_if_missing (ipfsDataPath +:+ "/datastore_spec") (json_print (datastore_spec ipfsDatastorePath)).

Record InitArgs := mkInitArgs { ia_internal : string; ia_external : string; ia_default : string; ia_apiIp : string }.
Definition defaultArgs : InitArgs := mkInitArgs "/internal" "/uniondrive" "/internal/ipfs_config" "0.0.0.0".

Definition configPath (a : InitArgs) := ia_internal a +:+ "/config.yaml".
Definition ipfsDataPath (a : InitArgs) := ia_internal a +:+ "/ipfs_data".
Definition ipfsConfigPath (a : InitArgs) := ipfsDataPath a +:+ "/config".
Definition ipfsDatastorePath (a : InitArgs) := ia_external a +:+ "/ipfs_datastore".

(** The deployed config, created from the template when there is none. *)
Definition read_or_create (a : InitArgs) : M Disk json :=
  r <- or_panic (readIPFSConfig (ia_default a) (ipfsConfigPath a));;
  match r with
  | Some v => ret v
  | None =>
      or_panic (copyDefaultIPFSConfig (ia_default a) (ipfsConfigPath a));;;
      r' <- or_panic (readIPFSConfig (ia_default a) (ipfsConfigPath a));;
      match r' with Some v => ret v | None => panic end
  end.

Definition initipfs_main (a : InitArgs) : M Disk () :=
  ensureDirectories [ia_internal a; ipfsDataPath a; ipfsDatastorePath a];;;
  config <- readConfigYAML (configPath a);;
  ipfsCfg <- read_or_create a;;
  ipfsCfg <- updateIPFSConfigIdentity ipfsCfg config;;
  writeIPFSConfig (ipfsConfigPath a) (mount_streams (updateDatastorePath (ipfsDatastorePath a) (ia_apiIp a) ipfsCfg));;;
  writePredefinedFiles (ipfsDataPath a) (ipfsDatastorePath a).

(** ** initipfscluster *)

(** Unmarshal into a map[string]string, and a look-up: [None] is an error. *)
Definition existing_key (data : string) : option string :=
  j ← json_parse data;
  match j with
  | JNull => Some ""
  | JObj l =>
      vs ← mapM (fun kv => match kv.2 with JStr s => Some (kv.1, s) | JNull => Some (kv.1, "") | _ => None end) l;
      Some (default "" (list_to_map (M := gmap string string) (reverse vs) !! "private_key"))
  | _ => None
  end.

Definition identity_json (id privKey : string) : string :=
  json_indent "    " 0 (JObj [("id", JStr id); ("private_key", JStr privKey)]).

Definition cluster_identity (identity : string) : option string :=
  match parse_identity identity with
  | Ok clusterPriv => match IDFromPrivateKey clusterPriv with Ok id => Some (peer_String id) | _ => None end
  | _ => None
  end.

Definition initipfscluster_main (internalPath externalPath : string) : M Disk () :=
  let clusterDir := externalPath +:+ "/ipfs-cluster" in
  let identityPath := clusterDir +:+ "/identity.json" in
  configFile <- or_panic (os_ReadFile (internalPath +:+ "/config.yaml"));;
  match yaml_Config_identity configFile with
  | None => panic
  | Some identity =>
      match cluster_identity identity with
      | None => panic
      | Some clusterPeerID =>
          existing <- try (os_ReadFile identityPath);;
          (match existing with
           | inr data =>
               match existing_key data with
               | Some k => if (k =? identity)%string then ret () else or_panic (os_RemoveAll clusterDir)
               | None => ret ()
               end
           | inl _ => ret ()
           end);;;
          st <- os_Stat identityPath;;
          (match st with SDir => or_panic (os_RemoveAll identityPath) | _ => ret () end);;;
          or_panic (os_MkdirAll clusterDir);;;
          or_panic (write_at identityPath (identity_json clusterPeerID identity))
      end
  end.
End tools.

(** ** A working disk *)
Definition stat_of (d : Disk) (p : string) : Stat :=
  if bool_decide (p ∈ d_dirs d) then SDir else match d_files d !! p with Some c => SFile (Some c) | None => SNone end.
Definition file_at (d : Disk) (p : string) : option string := if bool_decide (p ∈ d_dirs d) then None else d_files d !! p.
Definition same_disk (d d' : Disk) : Prop := d_files d' = d_files d /\ d_dirs d' = d_dirs d.

Lemma stat_missing d p : stat_of d p = SNone <-> (p ∉ d_dirs d /\ d_files d !! p = None).
Proof. unfold stat_of. case_bool_decide; destruct (d_files d !! p); naive_solver. Qed.

Lemma stat_file d p : stat_of d p = match file_at d p with Some c => SFile (Some c) | None => if bool_decide (p ∈ d_dirs d) then SDir else SNone end.
Proof. unfold stat_of, file_at. by case_bool_decide. Qed.

Section working.
Context `{F : Faults} (Hok : forall n, os_result n = FsOk).

Lemma run_Stat p d : os_Stat p d = (Ok (stat_of d p), bump_disk d).
Proof. unfold os_Stat, os_op, bind. rewrite Hok. unfold gets, stat_of. cbn. done. Qed.

Lemma run_ReadFile p d : os_ReadFile p d = (match file_at d p with Some c => Ok c | None => Err "open" end, bump_disk d).
Proof.
  unfold os_ReadFile, os_op, bind. rewrite Hok. unfold gets, file_at. cbn. case_bool_decide; [done|]. by destruct (d_files d !! p).
Qed.

Lemma run_write p x d : write_at p x d = if bool_decide (p ∈ d_dirs d) then (Err "is a directory", bump_disk d)
                                         else (Ok (), set_file p x (bump_disk d)).
Proof. unfold write_at, os_op, bind. rewrite Hok. unfold gets. cbn. by case_bool_decide. Qed.

Lemma run_mkdir p d : os_MkdirAll p d = (Ok (), mkDisk (S (d_fx d)) (d_files d) ({[p]} ∪ d_dirs d)).
Proof. unfold os_MkdirAll, os_op, bind. by rewrite Hok. Qed.

Lemma run_RemoveAll p d : os_RemoveAll p d = (Ok (), mkDisk (S (d_fx d)) (filter (fun kv => under p kv.1 = false) (d_files d))
                               (filter (fun q => under p q = false) (d_dirs d))).
Proof. unfold os_RemoveAll, os_op, bind. by rewrite Hok. Qed.

Lemma or_panic_inv {A} (m : M Disk A) d a d' : or_panic m d = (Ok a, d') -> m d = (Ok a, d').
Proof. unfold or_panic, bind, try. by destruct (m d) as [[b|e|] d1]. Qed.
Lemma or_panic_run {A} (m : M Disk A) d a d' : m d = (Ok a, d') -> or_panic m d = (Ok a, d').
Proof. unfold or_panic, bind, try. by intros ->. Qed.

(** Present, as a file or a directory. *)
Definition present (d : Disk) (p : string) : Prop := stat_of d p <> SNone.

Lemma present_write d p q x : present d p -> present (set_file q x d) p.
Proof.
  unfold present. rewrite !stat_missing. cbn. intros H [H1 H2]. apply H. split; [done|].
  destruct (decide (q = p)) as [->|]; [by rewrite lookup_insert_eq in H2|by rewrite lookup_insert_ne in H2].
Qed.

Lemma present_remove d p q fx : under q p = false -> present d p ->
  present (mkDisk fx (filter (fun kv => under q kv.1 = false) (d_files d)) (filter (fun q' => under q q' = false) (d_dirs d))) p.
Proof.
  unfold present. rewrite !stat_missing. cbn. intros Hu H [H1 H2]. apply H. split; [set_solver|].
  apply map_lookup_filter_None in H2 as [H2|H2]; [done|]. destruct (d_files d !! p) as [c|] eqn:E; [|done].
  by specialize (H2 c eq_refl).
Qed.

Lemma file_write_ne d p q x : p <> q -> file_at (set_file q x d) p = file_at d p.
Proof. intros Hn. unfold file_at. cbn. by rewrite lookup_insert_ne. Qed.

Lemma file_remove d p q fx : under q p = false ->
  file_at (mkDisk fx (filter (fun kv => under q kv.1 = false) (d_files d)) (filter (fun q' => under q q' = false) (d_dirs d))) p = file_at d p.
Proof.
  intros Hu. unfold file_at. cbn. replace (bool_decide (p ∈ filter (fun q' => under q q' = false) (d_dirs d))) with (bool_decide (p ∈ d_dirs d)).
  - case_bool_decide; [done|]. destruct (d_files d !! p) as [c|] eqn:E.
    + by apply map_lookup_filter_Some.
    + apply map_lookup_filter_None. by left.
  - apply bool_decide_ext. set_solver.
Qed.

(** ensureDirectories leaves every path present, and keeps what was. *)
Lemma ensure_run ps : forall d u d', ensureDirectories ps d = (Ok u, d') ->
  d_files d' = d_files d /\ d_dirs d ⊆ d_dirs d' /\ Forall (present d') ps /\
  (Forall (present d) ps -> same_disk d d').
Proof.
  induction ps as [|p ps IH]; intros d u d' H; cbn [ensureDirectories] in H; [by injection H as <- <-|].
  apply bind_Ok_inv in H as (st & d1 & H1 & H). rewrite run_Stat in H1. injection H1 as <- <-.
  apply bind_Ok_inv in H as (u1 & d2 & H2 & H). apply IH in H as (Hf & Hd & Hp & Hs).
  assert (stat_of d p = SNone \/ present d p) as [E|E] by (unfold present; destruct (stat_of d p); by auto).
  - rewrite E in H2. apply or_panic_inv in H2. rewrite run_mkdir in H2. injection H2 as <- <-. cbn in *.
    split; [done|]. split; [set_solver|]. split.
    + constructor; [|done]. unfold present. rewrite stat_missing. set_solver.
    + intros [HE _]%Forall_cons. by apply HE in E.
  - assert (d2 = bump_disk d) as ->.
    { unfold present in E. destruct (stat_of d p); [by destruct E|..]; unfold ret in H2; by injection H2. }
    cbn in *.
    split; [done|]. split; [done|]. split.
    + constructor; [|done]. unfold present in *. rewrite stat_missing in *. rewrite Hf. set_solver.
    + intros [_ HE]%Forall_cons. apply Hs. done.
Qed.

(** ** What reading the config leaves alone *)
Section initipfs.
Context (a : InitArgs).

(** config.yaml is not touched and no directory disappears. *)
Definition kept (d d' : Disk) : Prop :=
  file_at d' (configPath a) = file_at d (configPath a) /\
  forall p, p ∈ [ia_internal a; ipfsDataPath a; ipfsDatastorePath a] -> present d p -> present d' p.

(** The numbers of the deployed config and of the template are plain. *)
Definition plain_docs (d : Disk) : Prop :=
  forall p doc j, p = ipfsConfigPath a \/ p = ia_default a -> d_files d !! p = Some doc -> json_parse doc = Some j -> plain j = true.

Definition reading (d d' : Disk) : Prop := kept d d' /\ (plain_docs d -> plain_docs d').
#[local] Instance reading_preorder : PreOrder reading.
Proof.
  split; [by intros d|]. intros d1 d2 d3 [[H1 H2] H3] [[H4 H5] H6]. split; [split; [congruence|]|]; auto.
Qed.

Lemma reading_bump d : reading d (bump_disk d).
Proof. done. Qed.

(** The datastore is not inside the config's own path. *)
Hypothesis apart : under (ipfsConfigPath a) (ipfsDatastorePath a) = false.

Lemma config_ne : configPath a <> ipfsConfigPath a.
Proof.
  unfold configPath, ipfsConfigPath, ipfsDataPath. rewrite sapp_assoc. intros H%sapp_inj_l. done.
Qed.

Lemma under_length dir p : under dir p = true -> (String.length dir <= String.length p)%nat.
Proof.
  unfold under. intros [->%String.eqb_eq|H]%orb_true_iff; [done|]. apply prefix_split in H. rewrite H.
  rewrite !length_app_s. lia.
Qed.

Lemma reading_write c d : (c = "" \/ d_files d !! ia_default a = Some c) -> reading d (set_file (ipfsConfigPath a) c d).
Proof.
  intros Hc. split; [split|].
  - apply file_write_ne, config_ne.
  - intros p _. apply present_write.
  - intros Hp p doc j Hpp Hd Hj. cbn in Hd. destruct (decide (p = ipfsConfigPath a)) as [->|Hn].
    + rewrite lookup_insert_eq in Hd. injection Hd as <-. destruct Hc as [->|Hc]; [done|].
      by apply (Hp (ia_default a) c j); [right|..].
    + rewrite lookup_insert_ne in Hd by done. by apply (Hp p doc j).
Qed.

Lemma reading_remove d fx : reading d (mkDisk fx (filter (fun kv => under (ipfsConfigPath a) kv.1 = false) (d_files d))
  (filter (fun q => under (ipfsConfigPath a) q = false) (d_dirs d))).
Proof.
  assert (under (ipfsConfigPath a) (configPath a) = false) as Hy.
  { destruct (under (ipfsConfigPath a) (configPath a)) eqn:E; [|reflexivity]. exfalso. unfold under in E. apply orb_true_iff in E as [E%String.eqb_eq|E].
    - by apply config_ne.
    - apply prefix_split in E. revert E. generalize (sdrop (String.length (ipfsConfigPath a +:+ "/")) (configPath a)). intros t E.
      unfold configPath, ipfsConfigPath, ipfsDataPath in E. rewrite !sapp_assoc in E.
      apply sapp_inj_l in E. done. }
  split; [split|].
  - by apply file_remove.
  - intros p Hp. apply present_remove.
    assert (p = ipfsDatastorePath a \/ (String.length p < String.length (ipfsConfigPath a))%nat) as [->|Hl]; [|done|].
    { rewrite !elem_of_cons in Hp. destruct Hp as [->|[->|[->|Hp]]]; [right|right|by left|by apply elem_of_nil in Hp];
        unfold ipfsConfigPath, ipfsDataPath; rewrite !length_app_s; cbn [String.length]; lia. }
    destruct (under _ p) eqn:E; [|done]. apply under_length in E. lia.
  - intros Hp p doc j Hpp Hd Hj. cbn in Hd. apply map_lookup_filter_Some in Hd as [Hd _]. by apply (Hp p doc j).
Qed.

Lemma reading_Stat p : keeps reading (os_Stat p).
Proof. intros d. rewrite run_Stat. apply reading_bump. Qed.
Lemma reading_ReadFile p : keeps reading (os_ReadFile p).
Proof. intros d. rewrite run_ReadFile. apply reading_bump. Qed.
Lemma reading_or_panic {A} (m : M Disk A) : keeps reading m -> keeps reading (or_panic m).
Proof. intros H d. specialize (H d). unfold or_panic, bind, try. by destruct (m d) as [[]]. Qed.
Lemma reading_create : keeps reading (createEmptyFile (ipfsConfigPath a)).
Proof.
  intros d. unfold createEmptyFile. rewrite run_write. case_bool_decide; [apply reading_bump|]. cbn [snd].
  transitivity (bump_disk d); [apply reading_bump|]. apply reading_write. by left.
Qed.
Lemma reading_RemoveAll : keeps reading (os_RemoveAll (ipfsConfigPath a)).
Proof. intros d. rewrite run_RemoveAll. apply (reading_remove d). Qed.

Lemma reading_copy : keeps reading (copyDefaultIPFSConfig (ia_default a) (ipfsConfigPath a)).
Proof.
  unfold copyDefaultIPFSConfig. apply keeps_bind; [exact _| |intros _].
  { intros d. unfold os_Open, os_op, bind, gets. rewrite Hok. cbn. by destruct (_ || _). }
  apply keeps_bind; [exact _|apply reading_create|intros _]. intros d. unfold bind. rewrite run_ReadFile.
  destruct (file_at d (ia_default a)) as [c|] eqn:E; [|apply reading_bump]. rewrite run_write. cbn [snd].
  transitivity (bump_disk (bump_disk d)); [done|]. case_bool_decide; cbn [snd]; [reflexivity|]. apply reading_write. right.
  unfold file_at in E. by destruct (bool_decide _).
Qed.

#[local] Hint Resolve reading_Stat reading_ReadFile reading_or_panic reading_create reading_RemoveAll reading_copy : keeps.

Lemma reading_template cur : keeps reading (read_template (ia_default a) (ipfsConfigPath a) cur).
Proof. unfold read_template. keeps_go. Qed.
#[local] Hint Resolve reading_template : keeps.

Lemma reading_config : keeps reading (readIPFSConfig (ia_default a) (ipfsConfigPath a)).
Proof. unfold readIPFSConfig. keeps_go. Qed.

(** ** The value read has the struct's type *)
#[local] Opaque IPFSConfig.
Lemma unmarshal_typed cur doc v ok : gtyped IPFSConfig cur -> (forall j, json_parse doc = Some j -> plain j = true) ->
  unmarshal_config cur doc = Some (v, ok) -> gtyped IPFSConfig v.
Proof.
  intros Hc Hp. unfold unmarshal_config. destruct (json_parse doc) as [j|] eqn:E; [|done]. cbn [mbind option_bind].
  intros H. injection H as H. replace v with (gdecode IPFSConfig cur j).1 by (rewrite H; reflexivity). apply gdecode_typed; auto.
Qed.

Lemma read_plain p d c d' : plain_docs d -> p = ipfsConfigPath a \/ p = ia_default a -> os_ReadFile p d = (Ok c, d') ->
  d' = bump_disk d /\ forall j, json_parse c = Some j -> plain j = true.
Proof.
  intros Hd Hp. rewrite run_ReadFile. destruct (file_at d p) as [c'|] eqn:E; [|intros [=]]. intros [= <- <-]. split; [done|].
  intros j Hj. unfold file_at in E. case_bool_decide; [done|]. by apply (Hd p c' j).
Qed.

Lemma template_typed cur d v d' : gtyped IPFSConfig cur -> plain_docs d ->
  read_template (ia_default a) (ipfsConfigPath a) cur d = (Ok v, d') -> gtyped IPFSConfig v.
Proof.
  intros Hc Hd H. unfold read_template in H. apply bind_Ok_inv in H as (c & d1 & H1%or_panic_inv & H).
  apply read_plain in H1 as [-> Hp]; [|done|by right]. destruct (c =? "")%string; [by injection H as <- <-|].
  destruct (unmarshal_config cur c) as [[x ok]|] eqn:E.
  - apply unmarshal_typed in E; [|done..]. destruct ok; [by injection H as <- <-|].
    apply bind_Ok_inv in H as (u & d2 & _ & H). by injection H as <- <-.
  - apply bind_Ok_inv in H as (u & d2 & _ & H). by injection H as <- <-.
Qed.

Lemma config_typed d r d' : plain_docs d -> readIPFSConfig (ia_default a) (ipfsConfigPath a) d = (Ok r, d') ->
  match r with Some v => gtyped IPFSConfig v | None => True end.
Proof.
  intros Hd H. unfold readIPFSConfig in H. apply bind_Ok_inv in H as (st & d1 & H1 & H). rewrite run_Stat in H1. injection H1 as <- <-.
  pose proof (gzero_typed IPFSConfig) as Hz.
  assert (forall cur d r d', gtyped IPFSConfig cur -> plain_docs d ->
    bind (read_template (ia_default a) (ipfsConfigPath a) cur) (fun v => ret (Some v)) d = (Ok r, d') ->
    match r with Some v => gtyped IPFSConfig v | None => True end) as Hfb.
  { clear -Hok. intros cur d r d' Hc Hd (v & d1 & H1 & [= <- <-])%bind_Ok_inv. by eapply template_typed. }
  assert (forall pre : M Disk (), keeps reading pre -> bind pre (fun _ => bind (try (os_ReadFile (ipfsConfigPath a))) (fun data =>
      let fallback cur := bind (read_template (ia_default a) (ipfsConfigPath a) cur) (fun v => ret (Some v)) in
      match data with
      | inr doc => if (doc =? "")%string then fallback (gzero IPFSConfig)
          else match unmarshal_config (gzero IPFSConfig) doc with
               | Some (v, true) => ret (Some v) | Some (v, false) => fallback v | None => fallback (gzero IPFSConfig) end
      | inl _ => fallback (gzero IPFSConfig)
      end)) (bump_disk d) = (Ok r, d') -> match r with Some v => gtyped IPFSConfig v | None => True end) as Hmain.
  { intros pre Hpre (u & d1 & H1 & (data & d2 & H2 & H3)%bind_Ok_inv)%bind_Ok_inv. specialize (Hpre (bump_disk d)). rewrite H1 in Hpre.
    destruct Hpre as [_ Hd1]. specialize (Hd1 Hd). cbn in Hd1. cbv zeta in H3.
    apply try_Ok_inv in H2 as [(doc & -> & H2)|(e & -> & H2)].
    - apply read_plain in H2 as [-> Hp]; [|done|by left]. destruct (doc =? "")%string; [by eapply Hfb; [..|exact H3]|].
      destruct (unmarshal_config _ doc) as [[v ok]|] eqn:E; [|by eapply Hfb; [..|exact H3]].
      apply unmarshal_typed in E; [|done..]. destruct ok; [by injection H3 as <- <-|by eapply Hfb; [..|exact H3]].
    - rewrite run_ReadFile in H2. destruct (file_at _ _); [done|]. injection H2 as _ <-. by eapply Hfb; [..|exact H3]. }
  destruct (stat_of d (ipfsConfigPath a)).
  - by injection H as <- <-.
  - done.
  - eapply Hmain; [|exact H]. pose proof reading_RemoveAll. pose proof reading_copy. keeps_go.
  - eapply Hmain; [|exact H]. keeps_go.
Qed.

Lemma read_or_create_spec d v d' : plain_docs d -> read_or_create a d = (Ok v, d') -> gtyped IPFSConfig v /\ kept d d'.
Proof.
  intros Hd H. split.
  - unfold read_or_create in H. apply bind_Ok_inv in H as (r & d1 & H1%or_panic_inv & H).
    pose proof (config_typed _ _ _ Hd H1) as Ht. destruct r as [x|]; [by injection H as <- <-|].
    apply bind_Ok_inv in H as (u & d2 & H2%or_panic_inv & (r' & d3 & H3%or_panic_inv & H)%bind_Ok_inv).
    destruct r' as [x|]; [|done]. injection H as <- <-.
    pose proof (reading_config d) as [_ P1]. rewrite H1 in P1. pose proof (reading_copy d1) as [_ P2]. rewrite H2 in P2.
    exact (config_typed _ _ _ (P2 (P1 Hd)) H3).
  - assert (keeps reading (read_or_create a)) as Hk.
    { pose proof reading_config. pose proof reading_copy. unfold read_or_create. keeps_go; by apply reading_or_panic. }
    specialize (Hk d). rewrite H in Hk. apply Hk.
Qed.
End initipfs.
End working.
#[local] Transparent IPFSConfig.

(** ** The updates *)
Definition apply_all (l : list (string * (json -> json))) (v : json) : json := fold_right (fun nf v => set_field nf.1 nf.2 v) v l.

Lemma apply_all_comm n f l v : n ∉ map fst l -> set_field n f (apply_all l v) = apply_all l (set_field n f v).
Proof.
  induction l as [|[m g] l IH]; [done|]. cbn [map fst]. rewrite not_elem_of_cons. intros [Hn Hl].
  change (set_field n f (set_field m g (apply_all l v)) = set_field m g (apply_all l (set_field n f v))).
  by rewrite set_field_comm, IH.
Qed.

Lemma apply_all_idem l v : NoDup (map fst l) -> Forall (fun nf => forall c, nf.2 (nf.2 c) = nf.2 c) l ->
  apply_all l (apply_all l v) = apply_all l v.
Proof.
  intros Hn Hf. revert v. induction Hf as [|[n f] l Hf _ IH]; intros v; [done|]. cbn [apply_all fold_right fst snd map] in *.
  apply NoDup_cons in Hn as [Hn1 Hn2]. fold (apply_all l v). fold (apply_all l (set_field n f (apply_all l v))).
  rewrite <- apply_all_comm by done. rewrite IH by done. rewrite set_field_fuse. by apply set_field_ext.
Qed.

Lemma assoc_set_ne n m f cs : n <> m -> Abi.assoc n (map (fun kv : string * json => if (kv.1 =? m)%string then (kv.1, f kv.2) else kv) cs) = Abi.assoc n cs.
Proof.
  intros Hn. induction cs as [|[k c] cs IH]; [done|]. cbn. destruct (String.eqb_spec k m) as [->|]; cbn.
  - by rewrite (proj2 (String.eqb_neq n m) Hn).
  - by rewrite IH.
Qed.

Lemma field_set_ne n m f v : n <> m -> field n (set_field m f v) = field n v.
Proof. intros Hn. destruct v; try done. cbn. by rewrite assoc_set_ne. Qed.

Lemma field_set_same n f v : f JNull = JNull -> field n (set_field n f v) = f (field n v).
Proof.
  intros H0. destruct v as [| | | | |cs]; try done. cbn. induction cs as [|[k c] cs IH]; [done|]. cbn.
  destruct (k =? n)%string eqn:E; cbn; rewrite String.eqb_sym, E; [done|exact IH].
Qed.

Definition moved (newPath : string) (m : json) : option string :=
  match field "type" (field "child" m) with
  | JStr "flatfs" => Some (newPath +:+ "/blocks")
  | JStr "pebbleds" => Some (newPath +:+ "/datastore")
  | _ => None
  end.

Lemma move_mount_idem newPath m : move_mount newPath (move_mount newPath m) = move_mount newPath m.
Proof.
  assert (forall m, move_mount newPath m = match moved newPath m with
    | Some p => set_field "child" (set_field "path" (const (JStr p))) m | None => m end) as E by done.
  rewrite (E m). destruct (moved newPath m) as [p|] eqn:Em; [|by rewrite E, Em].
  rewrite E. unfold moved. rewrite field_set_same, field_set_ne by done. fold (moved newPath m). rewrite Em.
  rewrite set_field_fuse. apply set_field_ext. intros c. by rewrite set_field_fuse.
Qed.

Lemma set_const_idem n v c : set_field n (const v) (set_field n (const v) c) = set_field n (const v) c.
Proof. by rewrite set_field_fuse. Qed.

Lemma set_two_idem n m x y c : n <> m ->
  set_field n (const x) (set_field m (const y) (set_field n (const x) (set_field m (const y) c))) =
  set_field n (const x) (set_field m (const y) c).
Proof. intros H. by rewrite (set_field_comm m n), !set_field_fuse. Qed.

Section updates.
Context (a : InitArgs) (privKey peerID : string).

Definition updates : list (string * (json -> json)) :=
  [("Internal", not_nil (JObj []));
   ("Bootstrap", not_nil (JArr []));
   ("Experimental", set_field "Libp2pStreamMounting" (const (JBool true)));
   ("Addresses", fun x => set_field "API" (const (JStr ("/ip4/" +:+ ia_apiIp a +:+ "/tcp/5001")))
                            (set_field "Gateway" (const (JStr "/ip4/127.0.0.1/tcp/8081")) x));
   ("Datastore", set_field "Spec" (set_field "mounts" (each_mount (move_mount (ipfsDatastorePath a)))));
   ("Identity", fun i => set_field "PeerID" (const (JStr peerID)) (set_field "PrivKey" (const (JStr privKey)) i))].

Definition final_config (v : json) : json :=
  filled (mount_streams (updateDatastorePath (ipfsDatastorePath a) (ia_apiIp a) (set_identity privKey peerID v))).

Lemma final_updates v : final_config v = apply_all updates v.
Proof. done. Qed.

Lemma final_idem v : final_config (final_config v) = final_config v.
Proof.
  rewrite !final_updates. apply apply_all_idem; [by apply (bool_decide_eq_true_1 _)|].
  repeat apply List.Forall_cons; [intros c; cbn [snd]..|apply List.Forall_nil].
  - by destruct c.
  - by destruct c.
  - apply set_const_idem.
  - by apply set_two_idem.
  - rewrite set_field_fuse. apply set_field_ext. intros s. rewrite set_field_fuse. apply set_field_ext. intros ms.
    destruct ms as [| | | |l|]; try done. cbn. f_equal. rewrite map_map. apply map_ext. intros m. apply move_mount_idem.
  - by apply set_two_idem.
Qed.

(** Every update keeps the type. *)
Ltac at_field :=
  apply set_field_typed;
  [ repeat (apply List.Forall_cons; [cbn [fst snd fld fldOmit]; first [solve [intros [=]] | intros _; split; [reflexivity|]]|]);
    [|apply List.Forall_nil] | ].

Lemma const_str s c : gtyped GStr (const (JStr s) c).
Proof. by eexists. Qed.

Lemma move_mount_typed newPath m : gtyped Mount m -> gtyped Mount (move_mount newPath m).
Proof.
  intros H. unfold move_mount. match goal with |- context [match ?x with Some _ => _ | None => _ end] => destruct x as [p|] end; [|done].
  at_field; [|done]. intros c Hc. at_field; [|done]. intros x _. apply const_str.
Qed.

Lemma final_typed v : gtyped IPFSConfig v -> gtyped IPFSConfig (final_config v).
Proof.
  intros Hv. rewrite final_updates. unfold updates. cbn [apply_all fold_right fst snd].
  at_field; [|at_field; [|at_field; [|at_field; [|at_field; [|at_field; [|exact Hv]]]]]]; intros c Hc.
  - destruct Hc as [->|(m & -> & Hm)]; right; [by exists ∅|by exists m].
  - destruct Hc as [->|(l & -> & Hl)]; right; [by exists []|by exists l].
  - at_field; [|done]. intros x _. by eexists.
  - at_field; [intros x _; apply const_str|]. at_field; [intros x _; apply const_str|done].
  - at_field; [|done]. intros s Hs. at_field; [|done]. intros ms [->|(l & -> & Hl)]; [by left|]. right. cbn.
    eexists. split; [done|]. apply Forall_map. eapply Forall_impl; [exact Hl|]. intros m. apply move_mount_typed.
  - at_field; [intros x _; apply const_str|]. at_field; [intros x _; apply const_str|done].
Qed.
End updates.

(** ** Two runs *)
#[local] Opaque IPFSConfig.

Section runs.
Context `{F : Faults} (Hok : forall n, os_result n = FsOk) `{IY : InitYaml} `{PC : PeerCrypto} `{K : KeyLib}.

Lemma same_file d d' p : same_disk d d' -> file_at d' p = file_at d p /\ stat_of d' p = stat_of d p.
Proof. intros [H1 H2]. unfold file_at, stat_of. by rewrite H1, H2. Qed.

Lemma ensure_total ps : forall d, exists d', ensureDirectories ps d = (Ok (), d').
Proof.
  induction ps as [|p ps IH]; intros d; cbn [ensureDirectories]; [by eexists|]. unfold bind at 1. rewrite run_Stat by done.
  destruct (stat_of d p); unfold bind; try apply IH.
  rewrite (or_panic_run _ _ _ _ (run_mkdir Hok p _)). apply IH.
Qed.

(** A file that writePredefinedFiles leaves. *)
Definition full (d : Disk) (p : string) : Prop := stat_of d p <> SNone /\ stat_of d p <> SFile (Some "").

Lemma write_if_missing_full p x d : full d p -> write_if_missing p x d = (Ok (), bump_disk d).
Proof.
  intros [H1 H2]. unfold write_if_missing, missingOrEmpty, bind. rewrite run_Stat by done. destruct (stat_of d p) as [| | |c] eqn:E; try done.
  - unfold stat_of in E. by case_bool_decide; destruct (d_files d !! p).
  - cbn. rewrite bool_decide_false; [done|]. intros ->. done.
Qed.

Lemma write_if_missing_run p x d u d' : x <> "" -> write_if_missing p x d = (Ok u, d') ->
  full d' p /\ (forall q, q <> p -> file_at d' q = file_at d q) /\ (forall q, present d q -> present d' q) /\ (forall q, full d q -> full d' q).
Proof.
  intros Hx H. unfold write_if_missing, missingOrEmpty in H. apply bind_Ok_inv in H as (b & d1 & H1 & H).
  apply bind_Ok_inv in H1 as (st & d2 & H2 & H1). rewrite run_Stat in H2 by done. injection H2 as <- <-.
  assert (d1 = bump_disk d /\ (b = false -> full d p)) as [-> Hf].
  { unfold full. destruct (stat_of d p) as [| | |c] eqn:E; unfold ret, raise in H1; try discriminate H1; injection H1 as <- <-;
      (split; [done|]); intros Hb; try done.
    split; [done|]. intros [= ->]. by apply bool_decide_eq_false in Hb. }
  destruct b; [|injection H as _ <-; split; [by apply Hf|done]].
  rewrite run_write in H by done. case_bool_decide; [done|]. injection H as _ <-.
  assert (forall q, stat_of (set_file p x (bump_disk (bump_disk d))) q = if decide (q = p) then SFile (Some x) else stat_of d q) as Hs.
  { intros q. unfold stat_of. cbn. destruct (decide (q = p)) as [->|]; [by rewrite lookup_insert_eq, bool_decide_false|].
    by rewrite lookup_insert_ne. }
  split; [unfold full; rewrite Hs, decide_True by done; split; [done|]; by intros [= ->]|].
  split; [intros q Hq; by apply (file_write_ne (bump_disk (bump_disk d)))|].
  split; intros q; unfold present, full; rewrite Hs; destruct (decide (q = p)); try done. intros _. split; [done|]. by intros [= ->].
Qed.

Lemma config_text_nonempty v : gtyped IPFSConfig v -> config_text v <> "".
Proof.
  intros Hv E. pose proof (parse_indent "  " eq_refl (gencode IPFSConfig v) (gencode_nums _ _ Hv)) as H.
  unfold config_text in E. rewrite E in H. vm_compute in H. discriminate H.
Qed.

#[local] Transparent IPFSConfig.
Lemma IPFSConfig_wf : wf_gty IPFSConfig = true /\ omit_ok IPFSConfig = true.
Proof. split; vm_compute; reflexivity. Qed.
#[local] Opaque IPFSConfig.

(** A config that was written is read back. *)
Lemma deployed_read T p v d : gtyped IPFSConfig v -> file_at d p = Some (config_text v) ->
  exists d', readIPFSConfig T p d = (Ok (Some v), d') /\ same_disk d d'.
Proof.
  intros Hv Hf. exists (bump_disk (bump_disk d)). split; [|done]. unfold readIPFSConfig, bind at 1. rewrite run_Stat, stat_file, Hf by done.
  unfold bind at 1, ret at 1, try. unfold bind at 1. rewrite run_ReadFile by done. change (file_at (bump_disk d) p) with (file_at d p). rewrite Hf.
  rewrite (proj2 (String.eqb_neq _ _) (config_text_nonempty v Hv)).
  unfold unmarshal_config, config_text. rewrite parse_indent by (done || by apply gencode_nums). cbn [mbind option_bind].
  destruct IPFSConfig_wf as [H1 H2]. by rewrite gdecode_gencode.
Qed.

Section args.
Context (a : InitArgs).

(** What a run leaves behind, for a given yaml file and identity. *)
Record set_up (ydoc : string) (privKey peerID : string) (v : json) (d : Disk) : Prop := {
  su_yaml : file_at d (configPath a) = Some ydoc;
  su_present : Forall (present d) [ia_internal a; ipfsDataPath a; ipfsDatastorePath a];
  su_config : file_at d (ipfsConfigPath a) = Some (config_text (final_config a privKey peerID v));
  su_version : full d (ipfsDataPath a +:+ "/version");
  su_spec : full d (ipfsDataPath a +:+ "/datastore_spec")
}.

Lemma same_set_up ydoc k p v d d' : set_up ydoc k p v d -> same_disk d d' -> set_up ydoc k p v d'.
Proof.
  intros [H1 H2 H3 H4 H5] Hs. assert (forall q, stat_of d' q = stat_of d q) as E by (intros q; by apply same_file).
  constructor; unfold present, full in *; try setoid_rewrite E; try done; [by rewrite (proj1 (same_file _ _ _ Hs))..].
Qed.

Lemma rewrite_same p x d : file_at d p = Some x -> write_at p x d = (Ok (), set_file p x (bump_disk d)) /\ same_disk d (set_file p x (bump_disk d)).
Proof.
  intros Hf. rewrite run_write by done. unfold file_at in Hf. case_bool_decide; [done|]. split; [done|]. split; [|done].
  cbn. by apply insert_id.
Qed.

Lemma write_final k p v q :
  writeIPFSConfig q (mount_streams (updateDatastorePath (ipfsDatastorePath a) (ia_apiIp a) (set_identity k p v))) =
  or_panic (write_at q (config_text (final_config a k p v))).
Proof. unfold writeIPFSConfig, final_config. reflexivity. Qed.

(** A run on such a disk succeeds and changes nothing. *)
Lemma rerun ydoc cfg k p v d : gtyped IPFSConfig v -> yaml_ConfigYAML ydoc = Some cfg -> kubo_identity (cy_Identity cfg) = Some (k, p) ->
  set_up ydoc k p v d -> exists d', initipfs_main a d = (Ok (), d') /\ same_disk d d'.
Proof.
  intros Hv Hy Hk Hd. unfold initipfs_main.
  destruct (ensure_total [ia_internal a; ipfsDataPath a; ipfsDatastorePath a] d) as [d1 E1]. unfold bind at 1. rewrite E1.
  destruct (ensure_run Hok _ _ _ _ E1) as (_ & _ & _ & S1). specialize (S1 (su_present _ _ _ _ _ Hd)).
  pose proof (same_set_up _ _ _ _ _ _ Hd S1) as Hd1. unfold bind at 1, readConfigYAML, bind at 1.
  rewrite (or_panic_run _ _ ydoc (bump_disk d1)) by (rewrite run_ReadFile, (su_yaml _ _ _ _ _ Hd1) by done; done). rewrite Hy. unfold ret at 1.
  assert (gtyped IPFSConfig (final_config a k p v)) as Hw by (by apply final_typed).
  destruct (deployed_read (ia_default a) (ipfsConfigPath a) _ (bump_disk d1) Hw (su_config _ _ _ _ _ Hd1)) as (d2 & E2 & S2).
  assert (same_disk d d2) as S12 by (destruct S1, S2; split; cbn in *; congruence).
  pose proof (same_set_up _ _ _ _ _ _ Hd S12) as Hd2.
  unfold bind at 1, read_or_create, bind at 1. rewrite (or_panic_run _ _ _ _ E2). unfold ret at 1.
  unfold bind at 1, updateIPFSConfigIdentity. rewrite Hk. unfold ret at 1.
  destruct (rewrite_same _ _ _ (su_config _ _ _ _ _ Hd2)) as [E3 S3]. set (d3 := set_file _ _ _) in *.
  unfold bind at 1. rewrite write_final, final_idem, (or_panic_run _ _ _ _ E3). pose proof (same_set_up _ _ _ _ _ _ Hd2 S3) as Hd3.
  unfold writePredefinedFiles, bind. rewrite write_if_missing_full by apply Hd3.
  rewrite write_if_missing_full by apply Hd3. eexists. split; [done|]. destruct S12, S3. split; cbn in *; congruence.
Qed.

Hypothesis apart : under (ipfsConfigPath a) (ipfsDatastorePath a) = false.

Lemma data_file_ne x y : x <> y -> ipfsDataPath a +:+ x <> ipfsDataPath a +:+ y.
Proof. intros H E. apply H. by apply sapp_inj_l in E. Qed.

Lemma yaml_data_ne x : configPath a <> ipfsDataPath a +:+ x.
Proof. unfold configPath, ipfsDataPath. rewrite sapp_assoc. intros H%sapp_inj_l. done. Qed.

Lemma spec_nonempty sp : json_print (datastore_spec sp) <> "".
Proof. done. Qed.

Lemma predefined_run sp d u d' : writePredefinedFiles (ipfsDataPath a) sp d = (Ok u, d') ->
  full d' (ipfsDataPath a +:+ "/version") /\ full d' (ipfsDataPath a +:+ "/datastore_spec") /\
  file_at d' (configPath a) = file_at d (configPath a) /\ file_at d' (ipfsConfigPath a) = file_at d (ipfsConfigPath a) /\
  (forall q, present d q -> present d' q).
Proof.
  unfold writePredefinedFiles. intros (u1 & d1 & H1 & H2)%bind_Ok_inv.
  apply write_if_missing_run in H1 as (F1 & N1 & P1 & _); [|done].
  apply write_if_missing_run in H2 as (F2 & N2 & P2 & K2); [|apply spec_nonempty].
  split; [by apply K2|]. split; [done|]. split; [|split; [|auto]].
  - rewrite N2, N1; [done|apply yaml_data_ne..].
  - rewrite N2, N1; [done|by apply data_file_ne..].
Qed.

Lemma first_run d u d1 : plain_docs a d -> initipfs_main a d = (Ok u, d1) ->
  exists ydoc cfg k p v, file_at d (configPath a) = Some ydoc /\ yaml_ConfigYAML ydoc = Some cfg /\
    kubo_identity (cy_Identity cfg) = Some (k, p) /\ gtyped IPFSConfig v /\ set_up ydoc k p v d1.
Proof.
  intros Hd H. unfold initipfs_main in H.
  apply bind_Ok_inv in H as (u1 & e1 & H1 & H). apply (ensure_run Hok) in H1 as (Hf & Hdir & Hp & _).
  apply bind_Ok_inv in H as (cfg & e2 & H2 & H). unfold readConfigYAML in H2.
  apply bind_Ok_inv in H2 as (ydoc & e2' & H2%or_panic_inv & Hy). rewrite run_ReadFile in H2 by done.
  destruct (file_at e1 (configPath a)) as [y|] eqn:Ey; [|done]. injection H2 as -> <-.
  destruct (yaml_ConfigYAML ydoc) as [c|] eqn:Hc; [|done]. injection Hy as -> <-.
  apply bind_Ok_inv in H as (v & e3 & H3 & H).
  assert (plain_docs a (bump_disk e1)) as Hd1 by (unfold plain_docs in *; cbn; by rewrite Hf).
  apply (read_or_create_spec Hok a apart) in H3 as [Hv [Hk1 Hk2]]; [|done].
  apply bind_Ok_inv in H as (v' & e3' & H4 & H). unfold updateIPFSConfigIdentity in H4.
  destruct (kubo_identity (cy_Identity cfg)) as [[k p]|] eqn:Hk; [|done]. injection H4 as <- <-.
  apply bind_Ok_inv in H as (u2 & e4 & H5 & H). rewrite write_final in H5. apply or_panic_inv in H5.
  rewrite run_write in H5 by done. case_bool_decide as Hcd; [done|]. injection H5 as _ <-.
  apply predefined_run in H as (V1 & V2 & V3 & V4 & V5).
  exists ydoc, cfg, k, p, v. split_and!; try done.
  - revert Ey. unfold file_at. rewrite Hf. case_bool_decide as B; [done|]. by rewrite bool_decide_false by set_solver.
  - constructor; try done.
    + rewrite V3. rewrite (file_write_ne (bump_disk e3)) by apply config_ne. etrans; [exact Hk1|exact Ey].
    + rewrite Forall_forall in Hp |- *. intros q Hq. apply V5, present_write. apply Hk2; [done|]. by apply Hp.
    + rewrite V4. unfold file_at. cbn. by rewrite bool_decide_false, lookup_insert_eq.
Qed.

End args.
End runs.

(** ** Three programs, one identity *)
#[local] Transparent IPFSConfig.

(** Documented: a field is read from the key of its tag. *)
Class InitYamlLaws (Y : Yaml) (IY : InitYaml) : Prop := {
  init_yaml : forall c doc, yaml_Marshal c = Some doc ->
    yaml_ConfigYAML doc = Some (mkConfigYAML (Identity c) (PoolName c) (StaticRelays c) (IpfsBootstrapNodes c)
                                  (IpniPublisherIdentity c) (IpniPublishDirectAnnounce c)) /\
    yaml_Config_identity doc = Some (Identity c)
}.

Lemma typed_field fs v n om e : gtyped (GStruct fs) v -> Abi.assoc n fs = Some (om, e) -> gtyped e (field n v).
Proof.
  intros (cs & -> & H)%gtyped_struct. cbn. induction H as [|[k [om' e']] [m c] fs cs (Hk & Ht & _) _ IH]; [done|].
  cbn [fst snd] in *. subst m. cbn. destruct (n =? k)%string; [|exact IH]. by intros [= -> ->].
Qed.

Lemma typed_identity x : gtyped (GStruct IdentityFields) x -> exists i k, x = JObj [("PeerID", JStr i); ("PrivKey", JStr k)].
Proof.
  intros (cs & -> & H)%gtyped_struct. unfold IdentityFields in H.
  inversion H as [|? [m1 c1] ? cs1 (E1 & T1 & _) H1]; subst. inversion H1 as [|? [m2 c2] ? cs2 (E2 & T2 & _) H2]; subst.
  inversion H2; subst. cbn in E1, E2, T1, T2. destruct T1 as [i ->], T2 as [k ->]. subst. by exists i, k.
Qed.

Lemma final_identity a k p v : gtyped IPFSConfig v ->
  field "Identity" (final_config a k p v) = JObj [("PeerID", JStr p); ("PrivKey", JStr k)].
Proof.
  intros Hv. rewrite final_updates. unfold updates. cbn [apply_all fold_right fst snd]. rewrite !field_set_ne by done.
  rewrite field_set_same by done. destruct (typed_identity (field "Identity" v)) as (i0 & k0 & ->); [|done].
  exact (typed_field IPFSFields v "Identity" false _ Hv eq_refl).
Qed.

Section one_identity.
Context `{F : Faults} (Hok : forall n, os_result n = FsOk) `{Y : Yaml} `{IY : InitYaml} `{!InitYamlLaws Y IY}.
Context `{PC : PeerCrypto} `{K : KeyLib} `{ML : MainLib}.

Lemma cluster_run internal external identity id d u d' doc :
  file_at d (internal +:+ "/config.yaml") = Some doc -> yaml_Config_identity doc = Some identity -> cluster_identity identity = Some id ->
  initipfscluster_main internal external d = (Ok u, d') ->
  file_at d' (external +:+ "/ipfs-cluster" +:+ "/identity.json") = Some (identity_json id identity).
Proof.
  intros Hd Hi Hc H. unfold initipfscluster_main in H.
  apply bind_Ok_inv in H as (c & d1 & H1%or_panic_inv & H). rewrite run_ReadFile, Hd in H1 by done. injection H1 as <- <-.
  rewrite Hi, Hc in H. apply bind_Ok_inv in H as (x & d2 & _ & H). apply bind_Ok_inv in H as (u1 & d3 & _ & H).
  apply bind_Ok_inv in H as (st & d4 & _ & H). apply bind_Ok_inv in H as (u2 & d5 & _ & H).
  apply bind_Ok_inv in H as (u3 & d6 & _ & H). apply or_panic_inv in H. rewrite run_write in H by done.
  rewrite sapp_assoc in H. case_bool_decide as B; [done|]. injection H as _ <-. unfold file_at. cbn.
  by rewrite bool_decide_false, lookup_insert_eq.
Qed.

(** C17. The device, kubo and the cluster agree on who they are. From the config.yaml the blox
    program wrote, initipfs gives kubo the peer id the device itself answers as, the derived
    one, and initipfscluster gives the cluster the original identity, whose peer id is the one
    the device looks for on the chains. *)
Theorem identities_agree args path c dev doc a d1 u1 d1' d2 u2 d2' :
  yaml_Marshal c = Some doc -> action args path c = Ok (Serving dev) ->
  under (ipfsConfigPath a) (ipfsDatastorePath a) = false -> plain_docs a d1 ->
  file_at d1 (configPath a) = Some doc -> initipfs_main a d1 = (Ok u1, d1') ->
  file_at d2 (configPath a) = Some doc -> initipfscluster_main (ia_internal a) (ia_external a) d2 = (Ok u2, d2') ->
  (exists v privKey, file_at d1' (ipfsConfigPath a) = Some (config_text v) /\
    field "Identity" v = JObj [("PeerID", JStr (peer_String (dv_self dev))); ("PrivKey", JStr privKey)]) /\
  file_at d2' (ia_external a +:+ "/ipfs-cluster" +:+ "/identity.json") =
    Some (identity_json (peer_String (dv_cluster dev)) (Identity c)).
Proof.
  intros Hm Ha Hap Hp H1 R1 H2 R2. destruct (init_yaml c doc Hm) as [Y1 Y2].
  apply action_inv in Ha as (kp & key & owner & Hkey & Hid & Hcl & _).
  split.
  - destruct (first_run Hok a Hap _ _ _ Hp R1) as (ydoc & cfg & k & p & v & E1 & E2 & E3 & Hv & Hs).
    rewrite H1 in E1. injection E1 as <-. rewrite Y1 in E2. injection E2 as <-. cbn [cy_Identity] in E3.
    exists (final_config a k p v), k. split; [apply Hs|]. rewrite final_identity by done. do 3 f_equal.
    unfold kubo_identity in E3. change (deriveKuboKey (Identity c)) with (BloxMain.deriveKuboKey (Identity c)) in E3.
    rewrite Hkey in E3. destruct (crypto_MarshalPrivateKey kp); [|done..]. by injection E3 as _ <-.
  - eapply cluster_run; [exact H2|exact Y2| |exact R2]. unfold cluster_identity. by rewrite Hid, Hcl.
Qed.
End one_identity.

(** ** One device *)
Section concrete.
#[local] Existing Instances jsonYaml jsonYamlLaws toyCrypto letterKeys.

#[local] Instance structYaml : InitYaml := {|
  yaml_ConfigYAML := fun doc =>
    match yaml_Unmarshal doc zeroConfig with
    | (c, true) => Some (mkConfigYAML (Identity c) (PoolName c) (StaticRelays c) (IpfsBootstrapNodes c)
                           (IpniPublisherIdentity c) (IpniPublishDirectAnnounce c))
    | _ => None
    end;
  yaml_Config_identity := fun doc =>
    match yaml_Unmarshal doc zeroConfig with (c, true) => Some (Identity c) | _ => None end |}.

#[local] Instance structYamlLaws : InitYamlLaws jsonYaml structYaml.
Proof. split. intros c doc H. cbn [yaml_ConfigYAML yaml_Config_identity structYaml]. by rewrite (yaml_roundtrip c doc zeroConfig H). Qed.

#[local] Instance goodDisk : Faults := {| os_result := fun _ => FsOk |}.

Definition config_yaml : string := default "" (yaml_Marshal fresh_config).
Definition template : string :=
  jq "{'Bootstrap':null,'Datastore':{'Spec':{'mounts':[{'child':{'type':'flatfs','sync':true}}]},'StorageMax':'10GB'},'Internal':{'Libp2pForceReachability':'private','Depth':3},'AutoTLS':{'Enabled':true}}".
Definition new_disk : Disk :=
  mkDisk 0 {["/internal/config.yaml" := config_yaml; "/internal/ipfs_config" := template]} {["/internal"]}.
Definition after_init : Disk := (initipfs_main defaultArgs new_disk).2.

Lemma template_plain : plain_docs defaultArgs new_disk.
Proof.
  intros p doc j [->| ->] Hd Hj; vm_compute in Hd.
  - discriminate Hd.
  - injection Hd as <-. vm_compute in Hj. injection Hj as <-. reflexivity.
Qed.


(** The free-form part survives; a section the struct does not have is dropped. *)
Lemma init_keeps_internal :
  exists v, file_at after_init "/internal/ipfs_data/config" = Some (config_text v) /\
  field "Internal" v = JObj [("Depth", JNum "3"); ("Libp2pForceReachability", JStr "private")] /\
  field "StorageMax" (field "Datastore" v) = JStr "10GB" /\ field "AutoTLS" v = JNull.
Proof.
  exists (final_config defaultArgs (b64_encode ("x" +:+ new_key)) ("id-x" +:+ new_key)
            (gdecode IPFSConfig (gzero IPFSConfig) (default JNull (json_parse template))).1).
  split; [vm_compute; reflexivity|]. split; [vm_compute; reflexivity|]. split; vm_compute; reflexivity.
Qed.

Lemma identities_agree_witness :
  exists dev v, fresh_device (lib "" ["127.0.0.1"]) = Ok (Serving dev) /\
  file_at after_init "/internal/ipfs_data/config" = Some (config_text v) /\
  field "PeerID" (field "Identity" v) = JStr (peer_String (dv_self dev)) /\
  file_at (initipfscluster_main "/internal" "/uniondrive" after_init).2 "/uniondrive/ipfs-cluster/identity.json" =
    Some (identity_json (peer_String (dv_cluster dev)) (Identity fresh_config)).
Proof.
  destruct (fresh_device (lib "" ["127.0.0.1"])) as [[t|dev]|e|] eqn:H; try (vm_compute in H; discriminate H).
  destruct (identities_agree (F := goodDisk) (ML := lib "" ["127.0.0.1"]) (fun _ => eq_refl) (noArgs "/") pi_config fresh_config dev config_yaml
    defaultArgs new_disk () after_init after_init () (initipfscluster_main "/internal" "/uniondrive" after_init).2)
    as ((v & k & H1 & H2) & H3); [vm_compute; reflexivity|exact H|reflexivity|exact template_plain|vm_compute; reflexivity..|].
  exists dev, v. split; [reflexivity|]. split; [exact H1|]. split; [by rewrite H2|exact H3].
Defined.
End concrete.
