(* ===== verification/Announce.v ===== *)
(** * announcements: messages on the pool's topic

    Devices announce on a gossip topic that they exist or that they want to join. The loop
    over the subscription drops its own and malformed messages, keeps the addresses of the
    peers that exist, and hands join requests to HandlePoolJoinRequest (Join.v). The other
    half announces periodically until it is stopped. dag-cbor, multiaddrs and the subscription
    are interfaces. *)

From S2P Require Import Prelude GoStd Json SignedAuth PeerId Abi Effects Access Node Evm PoolConfig Schema Relay Join BlOptions.

#[local] Open Scope string_scope.
#[local] Open Scope Z_scope.

(** ** Messages *)
Definition UnknownAnnouncementType : Z := 0.
Definition IExistAnnouncementType : Z := 1.
Definition PoolJoinRequestAnnouncementType : Z := 2.
Definition PoolJoinApproveAnnouncementType : Z := 3.
Definition NewManifestAnnouncementType : Z := 4.

Record Announcement := mkAnn { an_Version : string; an_Type : Z; an_Addrs : list string }.

Class AnnCodec := {
  ann_MarshalBinary : Announcement -> option string;
  ann_UnmarshalBinary : string -> option Announcement;
  ann_NewMultiaddr : string -> option string          (** the parsed address, as its text *)
}.

Section announcements.
Context {S : Type} `{PS : PoolStore S} `{E : Env} `{KP : KuboPing} `{AC : AnnCodec}.

Definition GetAddrs (a : Announcement) : option (list string) := mapM ann_NewMultiaddr (an_Addrs a).
Definition SetAddrs (addrs : list string) (a : Announcement) : Announcement := mkAnn (an_Version a) (an_Type a) addrs.

(** The validator of the topic: what a message of each type needs of its sender. *)
Definition ValidateAnnouncement (data : string) (status : Z) (known : bool) : bool :=
  match ann_UnmarshalBinary data with
  | None => false
  | Some a =>
      if an_Type a =? NewManifestAnnouncementType then known && (status =? Approved)
      else if an_Type a =? PoolJoinRequestAnnouncementType then negb (status =? Unknown)
      else (an_Type a =? PoolJoinApproveAnnouncementType) || (an_Type a =? IExistAnnouncementType)
  end.

(** ** The loop over the subscription *)
Context (o : Options) (dbPath : string) (maxPingTime minPingSuccessCount : Z) (rpc : bool) (self : string).

(** The node and the peerstore. *)
Definition AnState : Type := Node S * gmap string (list string).

Definition processAnnouncement (from : string) (atype : Z) (addrs : list string) (topic : string) :
    M AnState (option ()) :=
  if atype =? IExistAnnouncementType then
    modify (fun s => (s.1, <[from := (default [] (s.2 !! from) ++ addrs)%list]> s.2));;; ret (Some ())
  else if atype =? PoolJoinRequestAnnouncementType then
    fun s => let '(r, w) := HandlePoolJoinRequest o dbPath maxPingTime minPingSuccessCount rpc from "" topic s.1 in
             (r, (w, s.2))
  else ret (Some ()).

(** sub.Next: a message (its sender, if the id decodes, its data and topic), nil, or an error. *)
Inductive Next :=
| NMsg (from : option string) (data : string) (topic : option string)
| NNil
| NErr (e : string).

(** One message. [None]: a ping decoder never ends. Errors are logged only. *)
Definition handle_message (n : Next) : M AnState (option bool) :=
  match n with
  | NErr _ => ret (Some false)
  | NNil => ret (Some true)
  | NMsg from data topic =>
      match from with
      | None => ret (Some true)
      | Some from =>
          if (from =? self)%string then ret (Some true)
          else match ann_UnmarshalBinary data with
               | None => ret (Some true)
               | Some a =>
                   match GetAddrs a, topic with
                   | Some addrs, Some t =>
                       r <- try (processAnnouncement from (an_Type a) addrs t);;
                       ret (match r with inr None => None | _ => Some true end)
                   | _, _ => ret (Some true)
                   end
               end
      end
  end.

(** HandleAnnouncements, over what Next returns until the context is done; [true]: it is
    still running. *)
Fixpoint HandleAnnouncements (ns : list Next) : M AnState (option bool) :=
  match ns with
  | [] => ret (Some true)
  | n :: ns =>
      r <- handle_message n;;
      match r with
      | Some true => HandleAnnouncements ns
      | _ => ret r
      end
  end.

(** ** A peer is voted on once *)

(** The peers that may change in one step, and how. *)
Definition vote_step (w w' : Node S) : Prop := exists from, votes_at_most from w w'.

Definition no_vote (p : string) (s s' : AnState) : Prop := n_members s.1 !! p = Some Unknown -> n_members s'.1 !! p = Some Unknown.
#[local] Instance no_vote_preorder p : PreOrder (no_vote p).
Proof. split; [intros s H; exact H|]. intros s1 s2 s3 H1 H2 H. apply H2, H1, H. Qed.

Lemma process_no_vote p from t addrs topic : keeps (no_vote p) (processAnnouncement from t addrs topic).
Proof.
  unfold processAnnouncement. destruct (t =? IExistAnnouncementType); [intros s H; exact H|].
  destruct (t =? PoolJoinRequestAnnouncementType); [|intros s H; exact H]. intros [w ps]. cbn [fst snd].
  pose proof (join_request_run o dbPath maxPingTime minPingSuccessCount rpc from "" topic w) as H.
  destruct (HandlePoolJoinRequest _ _ _ _ _ _ _ _ w) as [r w']. destruct H as ((_ & _ & _ & _ & _ & Hm) & _).
  unfold no_vote. cbn. intros Hp. destruct Hm as [->|[_ ->]]; [done|].
  destruct (decide (from = p)) as [->|Hne]; [by rewrite lookup_insert_eq|by rewrite lookup_insert_ne].
Qed.

Lemma handle_no_vote p n : keeps (no_vote p) (handle_message n).
Proof. unfold handle_message. pose proof (process_no_vote p). keeps_go. Qed.

Lemma announcements_no_vote p ns : keeps (no_vote p) (HandleAnnouncements ns).
Proof. pose proof (handle_no_vote p). induction ns as [|n ns IH]; cbn [HandleAnnouncements]; keeps_go. Qed.

(** A peer that asked to join is voted on once. After its request was answered with a vote
    the API took, whatever messages arrive next, from it or from others, a further request of
    the same peer is refused without a ping, a call or a change. *)
Theorem voted_once p account topic w w1 ns peers r w2 peers2 account' topic' :
  n_members w !! p = Some Pending ->
  HandlePoolJoinRequest o dbPath maxPingTime minPingSuccessCount rpc p account topic w = (Ok (Some ()), w1) ->
  HandleAnnouncements ns (w1, peers) = (r, (w2, peers2)) ->
  n_members w2 !! p = Some Unknown /\
  exists e, HandlePoolJoinRequest o dbPath maxPingTime minPingSuccessCount rpc p account' topic' w2 = (Err e, w2).
Proof.
  intros Hp H1 H2. pose proof (join_request_run o dbPath maxPingTime minPingSuccessCount rpc p account topic w) as Hr.
  rewrite H1 in Hr. destruct Hr as (_ & _ & Hv & _). specialize (Hv Hp eq_refl).
  assert (n_members w2 !! p = Some Unknown) as Hu.
  { pose proof (announcements_no_vote p ns (w1, peers)) as Hk. rewrite H2 in Hk. cbn [snd] in Hk. apply Hk. cbn.
    rewrite Hv. apply lookup_insert_eq. }
  split; [done|]. unfold HandlePoolJoinRequest, bind at 1, gets, GetMemberStatus. rewrite Hu. cbn. by eexists.
Qed.

(** The validator lets no join request of an unknown peer through. *)
Lemma join_needs_status data status known a : ValidateAnnouncement data status known = true ->
  ann_UnmarshalBinary data = Some a -> an_Type a = PoolJoinRequestAnnouncementType -> status <> Unknown.
Proof.
  unfold ValidateAnnouncement. intros H Ha Ht. rewrite Ha, Ht in H. cbn in H. by destruct (Z.eqb_spec status Unknown).
Qed.
End announcements.

(** ** Announcing periodically *)

(** What a tick's Publish did: sent, failed and logged, or failed because the context or the
    topic is over. *)
Inductive PubRes := PubOk | PubErr | PubEnd.

Record Announcer := mkAnnouncer {
  ac_flag : bool;        (** announcingJoinPoolRequest *)
  ac_closed : bool;      (** stopJoinPoolRequestChan *)
  ac_loops : nat;        (** calls of AnnounceJoinPoolRequestPeriodically in their loop *)
  ac_sent : nat
}.

Inductive AEv := AStart | ATick (r : PubRes) | AStopSeen | ACtx | AStopCall.

(** A loop returns: its deferred function resets the flag. *)
Definition loop_ends (s : Announcer) : Announcer := mkAnnouncer false (ac_closed s) (Nat.pred (ac_loops s)) (ac_sent s).

Definition ann_step (e : AEv) (s : Announcer) : option Announcer :=
  match e with
  | AStart => Some (if ac_flag s then s else mkAnnouncer true (ac_closed s) (S (ac_loops s)) (ac_sent s))
  | AStopCall => Some (if ac_closed s then s else mkAnnouncer false true (ac_loops s) (ac_sent s))
  | ATick r =>
      match ac_loops s, r with
      | O, _ => None
      | _, PubOk => Some (mkAnnouncer (ac_flag s) (ac_closed s) (ac_loops s) (S (ac_sent s)))
      | _, PubErr => Some s
      | _, PubEnd => Some (loop_ends s)
      end
  | AStopSeen => if ac_closed s then match ac_loops s with O => None | _ => Some (loop_ends s) end else None
  | ACtx => match ac_loops s with O => None | _ => Some (loop_ends s) end
  end.

Fixpoint ann_run (es : list AEv) (s : Announcer) : option Announcer :=
  match es with
  | [] => Some s
  | e :: es => s' ← ann_step e s; ann_run es s'
  end.

Definition newAnnouncer : Announcer := mkAnnouncer false false 0 0.

(** Until it is stopped, one loop announces at most, and the flag says whether one does. *)
Lemma one_announcer es s : ann_run es newAnnouncer = Some s -> ac_closed s = false ->
  ac_loops s = (if ac_flag s then 1 else 0)%nat.
Proof.
  assert (forall es s0 s, ann_run es s0 = Some s -> (ac_closed s0 = false -> ac_loops s0 = if ac_flag s0 then 1 else 0)%nat ->
    (ac_closed s = false -> ac_loops s = if ac_flag s then 1 else 0)%nat) as H.
  { clear es s. induction es as [|e es IH]; intros s0 s H Hi; [by injection H as <-|]. cbn in H.
    destruct (ann_step e s0) as [s1|] eqn:Es; [|done]. apply (IH s1 s H). clear IH H s.
    destruct s0 as [f c n k]. cbn in *.
    destruct e as [|[]| | |]; cbn in Es; repeat case_match; try done; injection Es as <-; cbn; try done;
      intros Hc; specialize (Hi Hc); destruct f; cbn in *; lia. }
  intros Hr. by apply (H es newAnnouncer s).
Qed.

(** Stopped is for ever: the channel is not made again, so a later start ends at once. *)
Lemma stopped_for_good es s s' : ann_run es s = Some s' -> ac_closed s = true -> ac_closed s' = true.
Proof.
  revert s. induction es as [|e es IH]; intros s H Hc; [by injection H as <-|]. cbn in H.
  destruct (ann_step e s) as [s1|] eqn:Es; [|done]. apply (IH s1 H).
  destruct e as [|[]| | |]; cbn in Es; repeat case_match; try done; by injection Es as <-.
Qed.

(** A start between the stop and the old loop's return makes two. *)
Lemma two_announcers : exists s, ann_run [AStart; AStopCall; AStart] newAnnouncer = Some s /\ ac_loops s = 2%nat.
Proof. by eexists. Qed.

(** ** Options and start *)
Inductive AnnOption := AnnInterval (t : Z) | AnnTimeout (t : Z) | AnnTopicName (n : string) | AnnWg (b : bool) | AnnRelays (r : list string).
Record ann_options := mkAnnOptions { ao_interval : Z; ao_timeout : Z; ao_topicName : string; ao_wg : bool; ao_relays : list string }.
Definition newAnnOptions (l : list AnnOption) : ann_options := {|
  ao_interval := setting (fun o => match o with AnnInterval t => Some (wrapS 64 (t * second)) | _ => None end) (300 * second) l;
  ao_timeout := setting (fun o => match o with AnnTimeout t => Some t | _ => None end) 30 l;
  ao_topicName := setting (fun o => match o with AnnTopicName n => Some n | _ => None end) "0" l;
  ao_wg := setting (fun o => match o with AnnWg b => Some b | _ => None end) false l;
  ao_relays := setting (fun o => match o with AnnRelays r => Some r | _ => None end) [] l |}.

(** Start: no topic is an error; then the results of creating the pubsub, joining and
    subscribing. *)
Definition Ann_Start (topicName : string) (gossip join subscribe : option string) : option string :=
  if (topicName =? "")%string || (topicName =? "0")%string then Some "Announcement do not have any topic to subscribe to"
  else match gossip, join, subscribe with
       | Some e, _, _ | None, Some e, _ | None, None, Some e => Some e
       | None, None, None => None
       end.

(** ** A vote *)
Section concrete.
#[local] Existing Instance memStore.

#[local] Instance voteEnv : Env := {|
  env_http := fun _ _ _ => Reply 200 (Some (jq "{'account':'a','pool_id':7,'result':'ok'}"));
  env_timer := fun _ _ => true;
  env_now := fun _ => 0;
  env_fs := fun _ => FsOk |}.
#[local] Instance twoPings : KuboPing := {|
  kubo_ping := fun _ _ => PingOut (jq "{'Success':true,'Time':20000000,'Text':''} {'Success':true,'Time':21000000,'Text':''} {'Text':'Average latency'}") |}.
#[local] Instance numCodec : AnnCodec := {|
  ann_MarshalBinary := fun a => Some (Itoa (an_Type a));
  ann_UnmarshalBinary := fun s => match Atoi s with inr t => Some (mkAnn "0" t []) | inl _ => None end;
  ann_NewMultiaddr := fun s => Some s |}.

Definition with_pending : Node (string * string) := mkNode 0 ("7", "base") ∅ {["bob" := Pending; "carl" := Pending]} None [] [].
Definition after_bob : Node (string * string) :=
  (HandlePoolJoinRequest toy_options "/s" 900 0 true "bob" "" "7" with_pending).2.

Lemma voted_once_witness :
  n_members after_bob = {["bob" := Unknown; "carl" := Pending]} /\
  exists w2 peers2, HandleAnnouncements toy_options "/s" 900 0 true "me"
    [NMsg (Some "bob") "2" (Some "7"); NMsg (Some "carl") "2" (Some "7")] (after_bob, ∅) = (Ok (Some true), (w2, peers2)) /\
  n_members w2 !! "bob" = Some Unknown /\
  exists e, HandlePoolJoinRequest toy_options "/s" 900 0 true "bob" "" "7" w2 = (Err e, w2).
Proof.
  split; [vm_compute; reflexivity|].
  destruct (HandleAnnouncements toy_options "/s" 900 0 true "me"
    [NMsg (Some "bob") "2" (Some "7"); NMsg (Some "carl") "2" (Some "7")] (after_bob, ∅)) as [r [w2 p2]] eqn:H.
  assert (r = Ok (Some true)) as -> by (apply (f_equal fst) in H; vm_compute in H; congruence).
  exists w2, p2. split; [reflexivity|].
  apply (voted_once toy_options "/s" 900 0 true "me" "bob" "" "7" with_pending after_bob
    [NMsg (Some "bob") "2" (Some "7"); NMsg (Some "carl") "2" (Some "7")] ∅ (Ok (Some true)) w2 p2 "" "7");
    [reflexivity|vm_compute; reflexivity|exact H].
Defined.
End concrete.
