(* ===== verification/IpfsRpc.v ===== *)
(** * blox/ipfs.go: the node's answers to the IPFS RPC calls

    ServeIpfsRpc, which Start serves on 127.0.0.1:5001 when the default IPFS server is fula: one handler per
    path, over the node's datastore. go-datastore's Query and go-cid are parameters with
    their documented behaviour; the handlers only read. *)

From S2P Require Import Prelude GoStd Json JsonPrint Float GoPath SignedAuth Effects Access Node Disk Properties WifiProps Exchange.

#[local] Open Scope string_scope.
#[local] Open Scope Z_scope.

(** ** go-datastore and go-cid *)

(** query.Query, with KeysOnly always set: the prefix of the key filter, if there is one, and
    the limit, where 0 is none. *)
Record DsQuery := mkDsQuery { dq_prefix : option string; dq_limit : nat }.
(** query.Entry without its value. [de_Size] may be -1: not every store knows it with KeysOnly. *)
Record DsEntry := mkDsEntry { de_Key : string; de_Size : Z }.

(** A query fails at once, or gives results of which each is an error or an entry. *)
Class Datastore := {
  ds_Query : nat -> gmap string string -> DsQuery -> string + list (string + DsEntry);
  ds_Get_err : nat -> option string
}.
Definition dq_match (q : DsQuery) (k : string) : bool :=
  match dq_prefix q with Some p => HasPrefix k p | None => true end.
Definition dq_take {A : Type} (q : DsQuery) (l : list A) : list A :=
  match dq_limit q with O => l | n => take n l end.
(** A store that does not fail: the entries that match, in some order, up to the limit. *)
Class DatastoreLaws (D : Datastore) : Prop := {
  ds_Query_ok : forall n ds q, exists es,
    ds_Query n ds q = inr (map inr (dq_take q es)) /\
    Permutation (map de_Key es) (filter (fun k => dq_match q k = true) (elements (dom ds)));
  ds_Get_ok : forall n, ds_Get_err n = None
}.

(** cid.Cast: bytes to CID. *)
Class CidCast := { cid_Cast : string -> option Cid }.
(** Cast reads back what Bytes gave, and a CID's bytes say where they end. *)
Class CidCastLaws `(IP : Ipld) (C : CidCast) : Prop := {
  cast_bytes : forall b c, cid_Cast b = Some c -> cid_Binary c = b;
  cast_nonempty : cid_Cast "" = None;
  cast_string : forall b b' c c', cid_Cast b = Some c -> cid_Cast b' = Some c' -> cid_String c = cid_String c' -> b = b';
  cast_decoded : forall t c, cid_Decode t = Some c -> cid_Cast (cid_Binary c) = Some c;
  cast_prefix_free : forall a b c d, cid_Cast a = Some c -> cid_Cast b = Some d -> HasPrefix b a = true -> a = b
}.

(** ** The types of the answers *)
Definition Version0 := "0".

Definition jnum (z : Z) : json := JNum (Itoa z).

(** pinListResp: Keys is left out when empty, and map keys are encoded in order. *)
Definition pinListResp_json (Keys : gmap string json) : json :=
  if decide (Keys = ∅) then JObj [] else JObj [("Keys", JObj (members_of Keys))].
Definition pinListKeysType_json (ty : string) : json := JObj [("Type", JStr ty)].

Definition SizeStat_json (RepoSize StorageMax : Z) : json :=
  JObj [("RepoSize", jnum RepoSize); ("StorageMax", jnum StorageMax)].
Definition RepoInfo_json (NumObjects : Z) (RepoPath : string) (SizeStat : json) (Version : string) (RepoSize : Z) : json :=
  JObj [("NumObjects", jnum NumObjects); ("RepoPath", JStr RepoPath); ("SizeStat", SizeStat); ("Version", JStr Version);
        ("RepoSize", jnum RepoSize)].
(** Local, SizeLocal and WithLocality are never set, and left out. *)
Definition FilesStat_json (Blocks CumulativeSize : Z) (Hash : string) (Size : Z) (Type_ : string) : json :=
  JObj [("Blocks", jnum Blocks); ("CumulativeSize", jnum CumulativeSize); ("Hash", JStr Hash); ("Size", jnum Size);
        ("Type", JStr Type_)].
Definition CidStruct_json (Root : string) : json := JObj [("/", JStr Root)].
Definition StatsBitswap_json (BlocksReceived MessagesReceived : Z) (Peers Wantlist : list string) : json :=
  JObj [("BlocksReceived", jnum BlocksReceived); ("BlocksSent", jnum 0); ("DataReceived", jnum 0); ("DataSent", jnum 0);
        ("DupBlksReceived", jnum 0); ("DupDataReceived", jnum 0); ("MessagesReceived", jnum MessagesReceived);
        ("Peers", JArr (map JStr Peers)); ("ProvideBufLen", jnum 0); ("Wantlist", JArr (map CidStruct_json Wantlist))].
Definition StatsBw_json (TotalIn TotalOut : Z) : json :=
  JObj [("RateIn", jnum 0); ("RateOut", jnum 0); ("TotalIn", jnum TotalIn); ("TotalOut", jnum TotalOut)].
Definition PeerStats_json (Peer : string) : json :=
  JObj [("Exchanged", jnum 0); ("Peer", JStr Peer); ("Recv", jnum 0); ("Sent", jnum 0); ("Value", jnum 0)].

(** uint64 of the float32 a decimal literal stands for, within the range of uint64. *)
Definition uint64_float32 (lit : string) : Z :=
  let '(_, m, e) := dec_of lit in
  if m =? 0 then 0 else
  match to_double float32 (m * 10 ^ Z.max 0 e) (10 ^ Z.max 0 (- e)) with
  | Some (q, p) => u64 (if 0 <=? p then q * 2 ^ p else q / 2 ^ (- p))
  | None => 0
  end.
(** [storage.Size] of GetBloxFreeSpace's answer. *)
Definition space_Size (j : json) : Z :=
  match j with
  | JObj l => match obj_field "size" l with JNum lit :: _ => uint64_float32 lit | _ => 0 end
  | _ => 0
  end.

(** ** The handlers *)

(** The fields of the Blox the handlers read. *)
Record Rpc := mkRpc {
  rp_ds : gmap string string; rp_selfPeerID : string; rp_storeDir : string; rp_authorizedPeers : list string
}.

Section rpc.
Context {S : Type} `{PS : PoolStore S} `{E : Env} `{X : Exec} `{PC : PeerCrypto} `{IP : Ipld} `{DS : Datastore} `{CC : CidCast}.
Context (p : Rpc).

Definition encode (j : json) : M (Node S) Resp := ret (mkResp StatusOK (BJson j)).
Definition http_NotFound : Resp := http_Error "404 page not found" StatusNotFound.
Definition notFoundHandler : M (Node S) Resp := ret http_NotFound.

(** The loop over results.Next(). For an erroneous result the code calls err.Error() on the
    err of the query, which is nil there. *)
Fixpoint over_results {A : Type} (body : A -> DsEntry -> A) (acc : A) (rs : list (string + DsEntry)) : outcome A :=
  match rs with
  | [] => Ok acc
  | inl _ :: _ => Panic
  | inr e :: rs' => over_results body (body acc e) rs'
  end.

Definition query_failed (e : string) : Resp :=
  http_Error ("internal error while querying datastore: " +:+ e) StatusInternalServerError.

Definition query_fold {A : Type} (q : DsQuery) (body : A -> DsEntry -> A) (acc : A) (k : A -> M (Node S) Resp) :
    M (Node S) Resp :=
  r <- fx (fun n => ds_Query n (rp_ds p) q);;
  match r with
  | inl e => ret (query_failed e)
  | inr rs => a <- lift (over_results body acc rs);; k a
  end.

(** A key is a slash and the bytes of a CID; others are skipped. *)
Definition pin_cid (key : string) : option Cid :=
  match key with
  | String _ (String _ _ as sliced) => cid_Cast sliced
  | _ => None
  end.
Definition pin_of (Keys : gmap string json) (e : DsEntry) : gmap string json :=
  match pin_cid (de_Key e) with
  | Some c => <[cid_String c := pinListKeysType_json "recursive"]> Keys
  | None => Keys
  end.
Definition pin_query (prefix : option string) : DsQuery :=
  match prefix with Some _ => mkDsQuery prefix 1 | None => mkDsQuery None 0 end.
Definition pin_ls (arg : string) : M (Node S) Resp :=
  let list_ prefix := query_fold (pin_query prefix) pin_of ∅ (fun Keys => encode (pinListResp_json Keys)) in
  if (arg =? "")%string then list_ None else
  match cid_Decode arg with
  | None => ret (http_Error "invalid cid: " StatusBadRequest)
  | Some c => list_ (Some (String "/" (cid_Binary c)))
  end.

Definition block_stat (arg : string) : M (Node S) Resp :=
  if (arg =? "")%string then ret (http_Error "no cid specified" StatusBadRequest) else
  match cid_Decode arg with
  | None => ret (http_Error "invalid cid: " StatusBadRequest)
  | Some cd =>
      err <- fx ds_Get_err;;
      match err with
      | Some e => ret (http_Error ("internal error: " +:+ e) StatusInternalServerError)
      | None =>
          match rp_ds p !! toDatastoreKey cd with
          | None => ret http_NotFound
          | Some value => encode (JObj [("Key", JStr (cid_String cd)); ("Size", jnum (len value))])
          end
      end
  end.

(** [key_Raw] is PubKey.Raw of an extracted key. *)
Definition id_pubKey (key_Raw : string -> option string) : string :=
  if (rp_selfPeerID p =? "")%string then "" else
  match ExtractPublicKey (rp_selfPeerID p) with
  | Ok k => match key_Raw k with Some b => b64_encode b | None => "" end
  | _ => ""
  end.
Definition rpc_id (key_Raw : string -> option string) : M (Node S) Resp :=
  encode (JObj [("Addresses", JArr []); ("AgentVersion", JStr Version0); ("ID", JStr (peer_String (rp_selfPeerID p)));
                ("ProtocolVersion", JStr ("fx_exchange/" +:+ Version0)); ("Protocols", JArr [JStr "fx_exchange"]);
                ("PublicKey", JStr (id_pubKey key_Raw))]).

Definition log_level : M (Node S) Resp := encode (JObj [("Message", JStr "ignored")]).

(** [repoSize] and [numObjects], Go ints. *)
Definition add_entry (acc : Z * Z) (e : DsEntry) : Z * Z := (i64 (acc.1 + de_Size e), i64 (acc.2 + 1)).
Definition all_keys := mkDsQuery None 0.

Definition stats_repo : M (Node S) Resp :=
  storage <- try GetBloxFreeSpace;;
  match storage with
  | inl e => ret (http_Error ("internal error while getting storage stats: " +:+ e) StatusInternalServerError)
  | inr st =>
      query_fold all_keys add_entry (0, 0) (fun '(repoSize, numObjects) =>
        encode (RepoInfo_json (u64 numObjects) (rp_storeDir p) (SizeStat_json (u64 repoSize) (space_Size st))
                              ("fx-repo@" +:+ Version0) (u64 repoSize)))
  end.

Definition files_stat : M (Node S) Resp :=
  query_fold all_keys add_entry (0, 0) (fun '(repoSize, numObjects) =>
    encode (FilesStat_json numObjects (u64 repoSize) "" (u64 repoSize) "directory")).

Definition stats_bitswap : M (Node S) Resp :=
  query_fold all_keys add_entry (0, 0) (fun '(_, numObjects) =>
    encode (StatsBitswap_json (u64 numObjects) (u64 numObjects) (map peer_String (rp_authorizedPeers p)) [])).

Definition stats_bw : M (Node S) Resp :=
  query_fold all_keys (fun n _ => i64 (n + 1)) 0 (fun numObjects => encode (StatsBw_json numObjects 0)).

Definition bitswap_ledger : M (Node S) Resp := encode (PeerStats_json (peer_String (rp_selfPeerID p))).

(** The mux; [arg] is r.URL.Query().Get. The pattern "/" takes every other path. *)
Definition ServeIpfsRpc (key_Raw : string -> option string) (path arg : string) : M (Node S) Resp :=
  if (path =? "/api/v0/pin/ls")%string then pin_ls arg
  else if (path =? "/api/v0/block/stat")%string then block_stat arg
  else if (path =? "/api/v0/id")%string then rpc_id key_Raw
  else if (path =? "/api/v0/log/level")%string then log_level
  else if (path =? "/api/v0/stats/repo")%string then stats_repo
  else if (path =? "/api/v0/files/stat")%string then files_stat
  else if (path =? "/api/v0/stats/bitswap")%string then stats_bitswap
  else if (path =? "/api/v0/stats/bw")%string then stats_bw
  else if (path =? "/api/v0/bitswap/ledger")%string then bitswap_ledger
  else notFoundHandler.

(** ** What they answer *)

Lemma over_results_ok {A} (body : A -> DsEntry -> A) es : forall acc,
  over_results body acc (map inr es) = Ok (fold_left body es acc).
Proof. induction es; cbn; auto. Qed.

Lemma over_results_err {A} (body : A -> DsEntry -> A) es e rest : forall acc,
  over_results body acc (map inr es ++ inl e :: rest) = Panic.
Proof. induction es; cbn; auto. Qed.

Lemma query_fold_ok {A} q (body : A -> DsEntry -> A) acc k w es :
  ds_Query (n_fx w) (rp_ds p) q = inr (map inr es) ->
  query_fold q body acc k w = k (fold_left body es acc) (Node.bump w).
Proof. intros Hq. unfold query_fold, bind at 1, fx. rewrite Hq. unfold bind, lift. by rewrite over_results_ok. Qed.

(** Whatever went wrong in the middle of a listing, the handler panics instead of answering. *)
Lemma query_fold_panics {A} q (body : A -> DsEntry -> A) acc k w es e rest :
  ds_Query (n_fx w) (rp_ds p) q = inr (map inr es ++ inl e :: rest)%list ->
  query_fold q body acc k w = (Panic, Node.bump w).
Proof. intros Hq. unfold query_fold, bind at 1, fx. rewrite Hq. unfold bind, lift. by rewrite over_results_err. Qed.

Theorem listing_error_panics key_Raw w es e rest :
  ds_Query (n_fx w) (rp_ds p) all_keys = inr (map inr es ++ inl e :: rest)%list ->
  Forall (fun path => ServeIpfsRpc key_Raw path "" w = (Panic, Node.bump w))
    ["/api/v0/pin/ls"; "/api/v0/files/stat"; "/api/v0/stats/bitswap"; "/api/v0/stats/bw"].
Proof. intros Hq. repeat constructor; exact (query_fold_panics _ _ _ _ _ _ _ _ Hq). Qed.

(** *** Sizes *)

Lemma i64_step a b : i64 (i64 a + b) = i64 (a + b).
Proof.
  unfold wrapS. f_equal. replace ((a + 2 ^ (64 - 1)) mod 2 ^ 64 - 2 ^ (64 - 1) + b + 2 ^ (64 - 1))
    with ((a + 2 ^ (64 - 1)) mod 2 ^ 64 + b) by lia.
  rewrite Zplus_mod_idemp_l. f_equal. lia.
Qed.
Lemma u64_i64 a : u64 (i64 a) = u64 a.
Proof.
  unfold wrapU, wrapS. rewrite Zminus_mod_idemp_l. f_equal. lia.
Qed.

Definition sizes (es : list DsEntry) : Z := foldr Z.add 0 (map de_Size es).

Lemma add_entries es : forall s n,
  fold_left add_entry es (i64 s, i64 n) = (i64 (s + sizes es), i64 (n + Z.of_nat (length es))).
Proof.
  induction es as [|e es IH]; intros s n; cbn [fold_left].
  - cbn. by rewrite !Z.add_0_r.
  - unfold add_entry at 2. cbn [fst snd]. rewrite !i64_step, IH. unfold sizes. cbn [map foldr length].
    f_equal; f_equal; lia.
Qed.
Lemma count_entries es : forall n, fold_left (fun n (_ : DsEntry) => i64 (n + 1)) es (i64 n) = i64 (n + Z.of_nat (length es)).
Proof.
  induction es as [|e es IH]; intros n; cbn [fold_left length]; [by rewrite Z.add_0_r|].
  rewrite i64_step, IH. f_equal. lia.
Qed.

Lemma files_stat_run w es : ds_Query (n_fx w) (rp_ds p) all_keys = inr (map inr es) ->
  files_stat w = (Ok (mkResp StatusOK (BJson (FilesStat_json (i64 (Z.of_nat (length es))) (u64 (sizes es)) "" (u64 (sizes es)) "directory"))),
                  Node.bump w).
Proof.
  intros Hq. unfold files_stat. rewrite (query_fold_ok _ _ _ _ _ _ Hq). change (0, 0) with (i64 0, i64 0).
  rewrite add_entries. cbn [Z.add]. by rewrite u64_i64.
Qed.

(** With a store that does not know the sizes of its values, each is counted as -1 and the
    directory of [n] blocks is said to have 2^64 - n bytes. *)
Theorem unknown_sizes w es : ds_Query (n_fx w) (rp_ds p) all_keys = inr (map inr es) ->
  Forall (fun e => de_Size e = -1) es -> 0 < Z.of_nat (length es) < 2 ^ 63 ->
  exists w', files_stat w = (Ok (mkResp StatusOK (BJson (FilesStat_json (Z.of_nat (length es)) (2 ^ 64 - Z.of_nat (length es)) ""
                                                (2 ^ 64 - Z.of_nat (length es)) "directory"))), w').
Proof.
  intros Hq Hs Hn. eexists. rewrite (files_stat_run _ _ Hq), i64_small by lia.
  assert (sizes es = - Z.of_nat (length es)) as ->.
  { unfold sizes. clear Hq Hn. induction Hs as [|e es He _ IH]; [done|]. cbn [map foldr length]. rewrite He, IH. lia. }
  assert (u64 (- Z.of_nat (length es)) = 2 ^ 64 - Z.of_nat (length es)) as -> by (unfold wrapU; rewrite Z_mod_nz_opp_full; rewrite Z.mod_small; lia).
  done.
Qed.

(** *** Which blocks there are *)

(** The key of [c] is not changed by cleaning it as a path. *)
Definition plain_key (c : Cid) : Prop := toDatastoreKey c = String "/" (cid_Binary c).

(** Every key of the store is that of a CID, unchanged. *)
Definition cid_store (ds : gmap string string) : Prop :=
  forall k, k ∈ dom ds -> exists b c, k = String "/" b /\ cid_Cast b = Some c.

Section laws.
Context `{DL : !DatastoreLaws DS} `{CL : !CidCastLaws IP CC}.

Lemma pin_cid_key k c : pin_cid k = Some c -> exists a, k = String a (cid_Binary c) /\ cid_Cast (cid_Binary c) = Some c.
Proof.
  unfold pin_cid. destruct k as [|a [|b s]]; [done|done|]. intros H. exists a. pose proof (cast_bytes _ _ H) as ->. auto.
Qed.
Lemma pin_cid_slash b c : cid_Cast b = Some c -> pin_cid (String "/" b) = Some c.
Proof. unfold pin_cid. destruct b; [by rewrite cast_nonempty|done]. Qed.

Lemma pins_lookup es s : forall K, is_Some (fold_left pin_of es K !! s) <->
  is_Some (K !! s) \/ exists e c, e ∈ es /\ pin_cid (de_Key e) = Some c /\ cid_String c = s.
Proof.
  induction es as [|e es IH]; intros K; cbn [fold_left].
  - split; [auto|]. intros [H|(e & c & He & _)]; [done|]. by apply elem_of_nil in He.
  - rewrite IH. unfold pin_of at 1. destruct (pin_cid (de_Key e)) as [c|] eqn:Ec.
    + rewrite lookup_insert_is_Some. split.
      * intros [[Hs|[_ H]]|(e' & c' & He & H)]; [right; exists e, c; set_solver|auto|right; exists e', c'; set_solver].
      * intros [H|(e' & c' & He & Hc & <-)]; [destruct (decide (cid_String c = s)); auto|].
        apply elem_of_cons in He as [->|He]; [left; left; congruence|right; eauto].
    + split; [intros [H|(e' & c' & He & H)]; [auto|right; exists e', c'; set_solver]|].
      intros [H|(e' & c' & He & Hc & Hs)]; [auto|]. apply elem_of_cons in He as [->|He]; [congruence|right; eauto].
Qed.

(** The keys that match the bytes of a CID: its own, or none. *)
Lemma keys_with_prefix ds b c : cid_store ds -> cid_Cast b = Some c ->
  filter (fun k => dq_match (pin_query (Some (String "/" b))) k = true) (elements (dom ds)) =
    if decide (String "/" b ∈ dom ds) then [String "/" b] else [].
Proof.
  intros Hds Hb. set (l := filter _ _).
  assert (forall k, k ∈ l <-> k = String "/" b /\ String "/" b ∈ dom ds) as Hl.
  { intros k. unfold l. rewrite list_elem_of_filter, elem_of_elements. cbn. unfold HasPrefix. split.
    - intros [Hp Hk]. destruct (Hds _ Hk) as (b' & c' & -> & Hb'). cbn in Hp.
      assert (b = b') as <- by (eapply cast_prefix_free; eauto). auto.
    - intros [-> Hk]. split; [|done]. pose proof (prefix_app (String "/" b) "") as Hp. by rewrite sapp_nil_r in Hp. }
  assert (NoDup l) as Hnd by (apply NoDup_filter, NoDup_elements).
  destruct (decide _) as [Hk|Hk].
  - destruct l as [|x [|y l']].
    + exfalso. assert (String "/" b ∈ @nil string) as H by (apply Hl; auto). by apply elem_of_nil in H.
    + f_equal. apply Hl. set_solver.
    + exfalso. apply NoDup_cons in Hnd as [Hx _]. apply Hx.
      destruct (proj1 (Hl x) ltac:(set_solver)) as [-> _]. destruct (proj1 (Hl y) ltac:(set_solver)) as [-> _]. set_solver.
  - destruct l as [|x l']; [done|]. exfalso. apply Hk. apply (Hl x). set_solver.
Qed.

Lemma block_stat_run t c w : t <> "" -> cid_Decode t = Some c ->
  block_stat t w = (Ok (match rp_ds p !! toDatastoreKey c with
                        | None => http_NotFound
                        | Some v => mkResp StatusOK (BJson (JObj [("Key", JStr (cid_String c)); ("Size", jnum (len v))]))
                        end), Node.bump w).
Proof.
  intros Ht Hc. unfold block_stat. apply String.eqb_neq in Ht. rewrite Ht, Hc. unfold bind, fx. rewrite ds_Get_ok.
  by destruct (rp_ds p !! toDatastoreKey c).
Qed.

(** The keys NewKey makes. *)
Definition clean_store (ds : gmap string string) : Prop := forall k, k ∈ dom ds -> filepath_Clean k = k.

(** C38. pin/ls without argument lists exactly the CIDs block/stat finds whose bytes survive being
    cleaned as a path; a stored block whose CID contains a doubled slash is never listed. *)
Theorem pins_agree w : clean_store (rp_ds p) ->
  exists K, pin_ls "" w = (Ok (mkResp StatusOK (BJson (pinListResp_json K))), Node.bump w) /\
    forall t c, t <> "" -> cid_Decode t = Some c ->
      (is_Some (K !! cid_String c) <-> plain_key c /\ exists r, block_stat t w = (Ok r, Node.bump w) /\ resp_code r = StatusOK).
Proof.
  intros Hcl. destruct (ds_Query_ok (n_fx w) (rp_ds p) all_keys) as (es & Hq & Hp). cbn in Hq.
  eexists. split; [exact (query_fold_ok _ _ _ _ _ _ Hq)|]. intros t c Ht Hc. rewrite pins_lookup, (block_stat_run t c w Ht Hc).
  assert (forall k, k ∈ dom (rp_ds p) <-> exists e, e ∈ es /\ de_Key e = k) as Hk.
  { intros k. rewrite <- elem_of_elements.
    transitivity (k ∈ map de_Key es); [rewrite Hp, list_elem_of_filter; split; [intros Hin; split; done|by intros [_ Hin]]|].
    rewrite list_elem_of_fmap. split; intros (e & H1 & H2); eauto. }
  split.
  - intros [[]%lookup_empty_is_Some|(e & c' & He & Hpin & Hs)]. apply pin_cid_key in Hpin as (a & Hkey & Hcast).
    pose proof (cast_decoded _ _ Hc) as Hcc. pose proof (cast_string _ _ _ _ Hcast Hcc Hs) as Hb.
    assert (c' = c) as -> by (rewrite Hb in Hcast; congruence).
    assert (de_Key e ∈ dom (rp_ds p)) as Hd by (apply Hk; eauto). pose proof (Hcl _ Hd) as Hclean. rewrite Hkey in Hclean, Hd.
    assert (a = "/"%char) as -> by (unfold filepath_Clean in Hclean; cbn in Hclean; congruence).
    assert (plain_key c) as Hpl by exact Hclean. split; [done|]. rewrite Hpl. apply elem_of_dom in Hd as [v ->]. eexists. eauto.
  - intros [Hpl (r & Hr & Hcode)]. right. rewrite Hpl in Hr.
    destruct (rp_ds p !! String "/" (cid_Binary c)) as [v|] eqn:Ev; [|injection Hr as <-; done].
    destruct (proj1 (Hk (String "/" (cid_Binary c))) ltac:(by apply elem_of_dom)) as (e & He & Hkey).
    exists e, c. rewrite Hkey. split; [done|]. split; [|done]. apply pin_cid_slash. by eapply cast_decoded.
Qed.

(** pin/ls of one CID lists that CID or nothing, in a store of plain CID keys. *)
Theorem pin_ls_one t c w : cid_store (rp_ds p) -> t <> "" -> cid_Decode t = Some c ->
  pin_ls t w = (Ok (mkResp StatusOK (BJson (pinListResp_json
    (if decide (String "/" (cid_Binary c) ∈ dom (rp_ds p))
     then {[cid_String c := pinListKeysType_json "recursive"]} else ∅)))), Node.bump w).
Proof.
  intros Hds Ht Hc. unfold pin_ls. apply String.eqb_neq in Ht. rewrite Ht, Hc. pose proof (cast_decoded _ _ Hc) as Hcc.
  destruct (ds_Query_ok (n_fx w) (rp_ds p) (pin_query (Some (String "/" (cid_Binary c))))) as (es & Hq & Hp).
  rewrite (keys_with_prefix _ _ _ Hds Hcc) in Hp. cbn beta zeta. rewrite (query_fold_ok _ _ _ _ _ _ Hq). cbn.
  destruct (decide _) as [Hin|Hin].
  - apply Permutation_singleton_r in Hp. destruct es as [|e [|]]; try done. injection Hp as He. cbn. unfold pin_of. rewrite He.
    by rewrite (pin_cid_slash _ _ Hcc).
  - apply Permutation_nil_r in Hp. by destruct es.
Qed.
End laws.
End rpc.

(** ** An instance *)
Section concrete.
(** A store that lists its keys in order; CIDs of three bytes, written in hex. *)
#[local] Instance listing : Datastore := {|
  ds_Query := fun _ ds q => inr (map inr (dq_take q (map (fun k => mkDsEntry k (-1))
                (filter (fun k => dq_match q k = true) (elements (dom ds))))));
  ds_Get_err := fun _ => None |}.
#[local] Instance listing_laws : DatastoreLaws listing.
Proof.
  split; [|done]. intros n ds q. eexists. split; [reflexivity|]. rewrite map_map. cbn. by rewrite map_id.
Qed.

Definition three_bytes (b : string) : option Cid :=
  if (String.length b =? 3)%nat then Some (mkCid b (hex_encode b) 85) else None.
#[local] Instance hexIpld : Ipld := {|
  INode := string; cid_Decode := fun t => match hex_decode t with Some b => three_bytes b | None => None end;
  cid_MarshalJSON := fun c => JStr (cid_String c); cid_UnmarshalJSON := fun _ => None; ipld_Decode := fun _ b => Some b;
  ls_Encode := fun _ n => inr (mkCid n n 85, n); ls_Hash := fun _ _ => true; ls_Walk := fun _ _ => ([], None) |}.
#[local] Instance cast3 : CidCast := {| cid_Cast := three_bytes |}.

Lemma three_bytes_inv b c : three_bytes b = Some c -> String.length b = 3%nat /\ c = mkCid b (hex_encode b) 85.
Proof. unfold three_bytes. destruct (String.length b =? 3)%nat eqn:El; [|done]. apply Nat.eqb_eq in El. naive_solver. Qed.

#[local] Instance cast3_laws : CidCastLaws hexIpld cast3.
Proof.
  split; cbn [cid_Cast cast3 hexIpld cid_Decode].
  - intros b c H. by apply three_bytes_inv in H as [_ ->].
  - done.
  - intros b b' c c' [_ ->]%three_bytes_inv [_ ->]%three_bytes_inv Hs. cbn in Hs.
    pose proof (hex_decode_encode b) as H1. pose proof (hex_decode_encode b') as H2. rewrite Hs in H1. congruence.
  - intros t c. destruct (hex_decode t) as [b|]; [|done]. intros H. pose proof H as [_ ->]%three_bytes_inv. exact H.
  - intros a b c d [Ha _]%three_bytes_inv [Hb _]%three_bytes_inv Hp. apply prefix_split in Hp.
    assert (sdrop (String.length a) b = "") as Hd.
    { apply (f_equal String.length) in Hp. rewrite length_app_s in Hp. destruct (sdrop _ b); [done|cbn in Hp; lia]. }
    rewrite Hd, sapp_nil_r in Hp. done.
Qed.

(** Two blocks, one of whose CIDs is the bytes "a//". *)
Definition two_blocks : Rpc := mkRpc {["/abc" := "data"; "/a" := "lost"]} "self" "/uniondrive" [].
Definition idle : Node unit := mkNode 0 tt ∅ ∅ None [] [].

Lemma pins_agree_witness :
  exists K, pin_ls two_blocks "" idle = (Ok (mkResp StatusOK (BJson (pinListResp_json K))), Node.bump idle) /\
    is_Some (K !! "616263") /\ ~ is_Some (K !! "612f2f") /\
    (block_stat two_blocks "612f2f" idle).1 = Ok (mkResp StatusOK (BJson (JObj [("Key", JStr "612f2f"); ("Size", jnum 4)]))).
Proof.
  destruct (pins_agree two_blocks idle) as (K & HK & Hag).
  { intros k Hk. unfold two_blocks in Hk. cbn in Hk. rewrite dom_insert, dom_singleton, elem_of_union, !elem_of_singleton in Hk.
    by destruct Hk as [->| ->]. }
  exists K. split; [exact HK|]. split; [|split].
  - apply (Hag "616263" (mkCid "abc" "616263" 85)); [done|reflexivity|]. split; [reflexivity|]. eexists. split; reflexivity.
  - intros H. apply (Hag "612f2f" (mkCid "a//" "612f2f" 85)) in H as [Hpl _]; [|done|reflexivity]. discriminate Hpl.
  - reflexivity.
Defined.
End concrete.
