(* ===== verification/Mdns.v ===== *)
(** * wap/cmd/mdns and handleServerLifecycle of wap/cmd/main.go: what the device announces

    The set-up program announces the device on the local network: its peer ids, pool, owner
    and hardware id, read from config.yaml, and renews the announcement every five seconds.
    zeroconf, the YAML library and the host's interfaces are parameters. The announcement
    names the device that answers the phone: the ids are those the blox program runs under. *)

From S2P Require Import Prelude GoStd Json JsonPrint GoPath SignedAuth Effects Access Node Disk Nas ConfigFile WifiProps Wifi BloxConfig BlOptions BloxOptions BloxMain.

#[local] Open Scope string_scope.
#[local] Open Scope Z_scope.

(** yaml.Unmarshal into the three fields of mdns.Config. *)
Record MConfig := mkMConfig { mc_Identity : string; mc_PoolName : string; mc_Authorizer : string }.
Class MdnsYaml := { yaml_MConfig : string -> option MConfig }.
(** Documented: a field is read from the key of its tag. *)
Class MdnsYamlLaws (Y : Yaml) (MY : MdnsYaml) : Prop := {
  mdns_yaml : forall c doc, yaml_Marshal c = Some doc ->
    yaml_MConfig doc = Some (mkMConfig (Identity c) (PoolName c) (Authorizer c))
}.

Record Meta := mkMeta {
  BloxPeerIdString : string; IpfsClusterID : string; MPoolName : string; MAuthorizer : string; HardwareID : string
}.

(** net.Interface, with the two flags looked at. *)
Record NetIf := mkNetIf { ni_Name : string; ni_Up : bool; ni_Loopback : bool }.

Definition defaultValue := "NA".

Definition createInfo (globalConfig : option Meta) : option (list string) :=
  match globalConfig with
  | None => None
  | Some g =>
      Some ["bloxPeerIdString=" +:+ BloxPeerIdString g; "ipfsClusterID=" +:+ IpfsClusterID g; "poolName=" +:+ MPoolName g;
            "authorizer=" +:+ MAuthorizer g; "hardwareID=" +:+ HardwareID g; "gatewayPort=8080"; "autoPinPort=3501"; "s3Port=9000"]
  end.

Definition lan_interface (i : NetIf) : bool :=
  ni_Up i && negb (ni_Loopback i) &&
  negb ((ni_Name i =? "docker0")%string || HasPrefix (ni_Name i) "br-" || HasPrefix (ni_Name i) "veth").
(** [None]: nil, which the library takes for all interfaces. *)
Definition getLANInterfaces (ifaces : option (list NetIf)) : option (list NetIf) :=
  match ifaces with
  | None => None
  | Some l => match List.filter lan_interface l with [] => None | f => Some f end
  end.

Definition instanceName (globalConfig : option Meta) : string :=
  match globalConfig with
  | None => "fulatower_NEW"
  | Some g =>
      let id := BloxPeerIdString g in
      if (id =? "")%string || (id =? "NA")%string then "fulatower_NEW"
      else "fulatower_" +:+ (if 5 <? len id then sdrop (String.length id - 5) id else id)
  end.

(** What the n-th registration is given, and whether it succeeds. *)
Record Service := mkService { sv_name : string; sv_port : Z; sv_meta : option (list string); sv_ifaces : option (list NetIf) }.
Class Zeroconf := {
  net_Interfaces : nat -> option (list NetIf);
  zeroconf_Register : nat -> Service -> bool
}.

Section mdns.
Context {S : Type} `{PS : PoolStore S} `{E : Env} `{X : Exec} `{PC : PeerCrypto} `{K : KeyLib} `{MY : MdnsYaml} `{ZC : Zeroconf}.
Context (getenv : string -> string).

(** The ids of an identity: the cluster's, the identity's own, and kubo's, derived from its
    seed. Where a step fails the id stays "NA". *)
Definition or_na {A : Type} (m : outcome A) (k : A -> outcome string) : outcome string :=
  match m with Ok a => k a | Err _ => Ok defaultValue | Panic => Panic end.
Definition id_text (k : PrivKey) : outcome string := or_na (IDFromPrivateKey k) (fun id => Ok (peer_String id)).
Definition kubo_text (key : PrivKey) : outcome string :=
  or_na (key_Raw key) (fun rawKey =>
    originalSeed <-! go_slice rawKey 0 32;;
    or_na (GenerateEd25519Key (hmac_sha256 "fula-kubo-identity-v1" originalSeed)) id_text).
Definition announced_ids (identity : string) : outcome (string * string) :=
  match parse_identity identity with
  | Err _ => Ok (defaultValue, defaultValue)
  | Panic => Panic
  | Ok key => cluster <-! id_text key;; kubo <-! kubo_text key;; Ok (cluster, kubo)
  end.

Definition or_default (s : string) : string := if (s =? "")%string then defaultValue else s.

(** The config file; [None] where LoadConfig goes on with the defaults. A failing os.Stat
    other than not-exist is passed over. *)
Definition read_config : M (Node S) (option MConfig) :=
  st <- fs_step;;
  here <- gets (fun w => match st with FsOk => bool_decide (is_Some (n_files w !! FULA_CONFIG_PATH)) | FsErr _ => true end);;
  if (here : bool) then f <- try (read_file FULA_CONFIG_PATH);; ret (match f with inr (Some data) => yaml_MConfig data | _ => None end)
  else ret None.

Definition LoadConfig : M (Node S) Meta :=
  h <- try (GetHardwareID getenv);;
  let hardwareID := match h with inr id => id | inl _ => defaultValue end in
  cfg <- read_config;;
  match cfg with
  | None => ret (mkMeta defaultValue defaultValue defaultValue defaultValue hardwareID)
  | Some cfg =>
      ids <- lift (announced_ids (mc_Identity cfg));;
      kubo <- (if (ids.2 =? defaultValue)%string
               then k <- try Nas.GetKuboPeerID;; ret (match k with inr id => id | inl _ => defaultValue end)
               else ret ids.2);;
      ret (mkMeta kubo ids.1 (or_default (mc_PoolName cfg)) (or_default (mc_Authorizer cfg)) hardwareID)
  end.

Definition NewZeroConfService (g : option Meta) (port : Z) : M (Node S) (option Service) :=
  s <- fx (fun n => mkService (instanceName g) port (createInfo g) (getLANInterfaces (net_Interfaces n)));;
  ok <- fx (fun n => zeroconf_Register n s);;
  ret (if (ok : bool) then Some s else None).

(** ** The renewal of the announcement *)

(** The registered server, and the goroutines that wait for the context to shut one down. *)
Record Adv := mkAdv { ad_server : option Service; ad_waiting : list Service }.

Definition StartServer (g : option Meta) (port : Z) (a : Adv) : M (Node S) Adv :=
  s <- NewZeroConfService g port;;
  ret (match s with Some srv => mkAdv (Some srv) (ad_waiting a ++ [srv]) | None => mkAdv None (ad_waiting a) end).

(** One message to handleServerLifecycle. *)
Definition lifecycle (start : bool) (a : Adv) : M (Node S) Adv :=
  if start then
    match ad_server a with
    | Some _ => ret a
    | None => g <- LoadConfig;; StartServer (Some g) 8080 a
    end
  else ret (mkAdv None (ad_waiting a)).

(** A tick of the five-second ticker: stop, three seconds, start. *)
Definition renew (a : Adv) : M (Node S) Adv := a <- lifecycle false a;; lifecycle true a.

Fixpoint renewals (n : nat) (a : Adv) : M (Node S) Adv :=
  match n with O => ret a | Datatypes.S n' => a <- renew a;; renewals n' a end.

(** ** What is announced *)
Section healthy.
Context (Hfs : forall n, env_fs n = FsOk).

Lemma hardware_runs (w : Node S) : exists h w', try (GetHardwareID getenv) w = (Ok h, w') /\ n_files w' = n_files w.
Proof.
  unfold GetHardwareID. destruct (negb (getenv "HARDWARE_ID" =? "")%string); [by do 2 eexists|].
  unfold try, bind, cmd_Output. destruct (exec_Output _ _ _); by do 2 eexists.
Qed.

Lemma read_config_runs (w : Node S) : exists w', n_files w' = n_files w /\
  read_config w = (Ok (data ← n_files w !! FULA_CONFIG_PATH; yaml_MConfig data), w').
Proof.
  unfold read_config, bind at 1, fs_step. rewrite Hfs. unfold bind at 1, gets. cbn [n_files bump].
  destruct (n_files w !! FULA_CONFIG_PATH) as [data|] eqn:Ed.
  - rewrite bool_decide_true by done. unfold bind, try, read_file, bind, fs_step. rewrite Hfs. unfold gets. cbn [n_files bump].
    change (filepath_Clean FULA_CONFIG_PATH) with FULA_CONFIG_PATH. rewrite Ed. eexists. split; [|reflexivity]. done.
  - rewrite bool_decide_false by (by intros []). eexists. split; [|reflexivity]. done.
Qed.

(** Without a config file, or with one that cannot be read, no id is announced, whatever kubo
    would say of itself. *)
Lemma no_config_no_id (w : Node S) : (data ← n_files w !! FULA_CONFIG_PATH; yaml_MConfig data) = None ->
  exists hw w', LoadConfig w = (Ok (mkMeta "NA" "NA" "NA" "NA" hw), w') /\ instanceName (Some (mkMeta "NA" "NA" "NA" "NA" hw)) = "fulatower_NEW".
Proof.
  intros Hn. unfold LoadConfig. destruct (hardware_runs w) as (h & w1 & H1 & F1). unfold bind at 1. rewrite H1.
  destruct (read_config_runs w1) as (w2 & F2 & H2). unfold bind at 1. rewrite H2, F1, Hn. by do 2 eexists.
Qed.

(** A key whose raw form is shorter than a seed stops the program. *)
Lemma short_key_panics (w : Node S) cfg key raw : (data ← n_files w !! FULA_CONFIG_PATH; yaml_MConfig data) = Some cfg ->
  parse_identity (mc_Identity cfg) = Ok key -> (exists id, IDFromPrivateKey key = Ok id) -> key_Raw key = Ok raw -> len raw < 32 ->
  (LoadConfig w).1 = Panic.
Proof.
  intros Hn Hk [id Hid] Hr Hl. unfold LoadConfig. destruct (hardware_runs w) as (h & w1 & H1 & F1). unfold bind at 1. rewrite H1.
  destruct (read_config_runs w1) as (w2 & F2 & H2). unfold bind at 1. rewrite H2, F1, Hn.
  assert (announced_ids (mc_Identity cfg) = Panic) as Ha.
  { unfold announced_ids. rewrite Hk. unfold id_text at 1. rewrite Hid. cbn. unfold kubo_text. rewrite Hr. cbn.
    unfold go_slice. replace ((0 <=? 0) && (0 <=? 32) && (32 <=? len raw)) with false; [done|].
    symmetry. apply andb_false_iff. right. lia. }
  unfold bind at 1, lift. by rewrite Ha.
Qed.

Context `{Y : Yaml} `{!MdnsYamlLaws Y MY} `{ML : MainLib}.

(** The config of a device that is running. *)
Definition names_device (c : AppConfig) (dev : Device) (hw : string) : Meta :=
  mkMeta (peer_String (dv_self dev)) (peer_String (dv_cluster dev)) (or_default (PoolName c)) (or_default (Authorizer c)) hw.

Lemma device_ids args path c dev : action args path c = Ok (Serving dev) ->
  announced_ids (Identity c) = Ok (peer_String (dv_cluster dev), peer_String (dv_self dev)).
Proof.
  intros (kp & key & owner & Hkubo & Hid & Hcl & _)%action_inv. unfold announced_ids. rewrite Hid. unfold id_text at 1. rewrite Hcl. cbn.
  unfold deriveKuboKey in Hkubo. apply obind_Ok_inv in Hkubo as (b & Hb & Hkubo). unfold parse_identity in Hid.
  destruct (b64_decode (Identity c)); [|done]. injection Hb as ->. rewrite Hid in Hkubo. cbn in Hkubo.
  unfold kubo_text. destruct (key_Raw key) as [raw| |]; [|done|done]. cbn in *.
  destruct (go_slice raw 0 32) as [seed| |]; [|done|done]. cbn in *. change "fula-kubo-identity-v1" with kuboIdentityDomain.
  destruct (GenerateEd25519Key _) as [kk| |]; [|done|done]. cbn in *. unfold id_text.
  destruct (IDFromPrivateKey kk) as [i| |]; [|done|done]. cbn in *. by injection Hkubo as _ ->.
Qed.

Lemma load_names args path c dev doc (w : Node S) :
  yaml_Marshal c = Some doc -> action args path c = Ok (Serving dev) -> peer_String (dv_self dev) <> "NA" ->
  n_files w !! FULA_CONFIG_PATH = Some doc ->
  exists hw w', LoadConfig w = (Ok (names_device c dev hw), w') /\ n_files w' = n_files w.
Proof.
  intros Hm Ha Hna Hd. unfold LoadConfig. destruct (hardware_runs w) as (h & w1 & H1 & F1). unfold bind at 1. rewrite H1.
  destruct (read_config_runs w1) as (w2 & F2 & H2). unfold bind at 1. rewrite H2, F1, Hd. cbn [mbind option_bind].
  rewrite (mdns_yaml _ _ Hm). cbn [mc_Identity]. unfold bind at 1, lift. rewrite (device_ids _ _ _ _ Ha). cbn [snd fst].
  apply String.eqb_neq in Hna. unfold defaultValue at 1. rewrite Hna. do 2 eexists. split; [reflexivity|]. congruence.
Qed.

Lemma renew_names args path c dev doc a (w : Node S) : (forall n s, zeroconf_Register n s = true) ->
  yaml_Marshal c = Some doc -> action args path c = Ok (Serving dev) -> peer_String (dv_self dev) <> "NA" ->
  n_files w !! FULA_CONFIG_PATH = Some doc ->
  exists hw srv w', renew a w = (Ok (mkAdv (Some srv) (ad_waiting a ++ [srv])), w') /\ n_files w' = n_files w /\
    sv_name srv = instanceName (Some (names_device c dev hw)) /\ sv_meta srv = createInfo (Some (names_device c dev hw)).
Proof.
  intros Hz Hm Ha Hna Hd. destruct (load_names _ _ _ _ _ w Hm Ha Hna Hd) as (hw & w1 & H1 & F1).
  exists hw. unfold renew, lifecycle, bind at 1, ret at 1. cbn [ad_server]. unfold bind at 1. rewrite H1.
  unfold StartServer, NewZeroConfService, bind, fx, ret. rewrite Hz. do 2 eexists. cbn. done.
Qed.

(** While the device runs, each renewal announces it by the ids it answers under, and each
    leaves one more goroutine behind that waits for the program to end. *)
Theorem mdns_names_device args path c dev doc n a (w : Node S) : (forall n s, zeroconf_Register n s = true) ->
  yaml_Marshal c = Some doc -> action args path c = Ok (Serving dev) -> peer_String (dv_self dev) <> "NA" ->
  n_files w !! FULA_CONFIG_PATH = Some doc ->
  exists hw a' srv w', renewals (Datatypes.S n) a w = (Ok a', w') /\ ad_server a' = Some srv /\
    sv_name srv = instanceName (Some (names_device c dev hw)) /\ sv_meta srv = createInfo (Some (names_device c dev hw)) /\
    length (ad_waiting a') = (length (ad_waiting a) + Datatypes.S n)%nat.
Proof.
  intros Hz Hm Ha Hna. revert a w. induction n as [|n IH]; intros a w Hd;
    destruct (renew_names _ _ _ _ _ a w Hz Hm Ha Hna Hd) as (hw & srv & w1 & H1 & F1 & Hn & Hmeta).
  - exists hw, (mkAdv (Some srv) (ad_waiting a ++ [srv])), srv, w1. cbn [renewals]. unfold bind. rewrite H1. cbn.
    rewrite length_app. auto.
  - rewrite <- F1 in Hd. destruct (IH (mkAdv (Some srv) (ad_waiting a ++ [srv])) w1 Hd) as (hw' & a' & srv' & w' & H2 & Hs & Hn' & Hm' & Hl).
    exists hw', a', srv', w'. split; [change (bind (renew a) (renewals (Datatypes.S n)) w = (Ok a', w')); unfold bind; by rewrite H1|].
    cbn [ad_waiting] in Hl. rewrite length_app in Hl. cbn in Hl. split; [done|]. split; [done|]. split; [done|]. lia.
Qed.
End healthy.
End mdns.

(** ** A device announced *)
Section concrete.
#[local] Existing Instances jsonYaml jsonYamlLaws toyCrypto letterKeys.

#[local] Instance mdnsYaml : MdnsYaml := {|
  yaml_MConfig := fun doc =>
    match yaml_Unmarshal doc zeroConfig with (c, true) => Some (mkMConfig (Identity c) (PoolName c) (Authorizer c)) | _ => None end |}.
#[local] Instance mdnsYamlLaws : MdnsYamlLaws jsonYaml mdnsYaml.
Proof. split. intros c doc H. cbn [yaml_MConfig mdnsYaml]. by rewrite (yaml_roundtrip c doc zeroConfig H). Qed.
#[local] Instance quietEnv : Env := {|
  env_http := fun _ _ _ => ReplyErr "down"; env_timer := fun _ _ => true; env_now := fun _ => 0; env_fs := fun _ => FsOk |}.
#[local] Instance noExec : Exec := {| exec_Output := fun _ _ _ => ExecFail "none"; exec_Run := fun _ _ _ => CmdStart "none" |}.
#[local] Instance openNet : Zeroconf := {|
  net_Interfaces := fun _ => Some [mkNetIf "lo" true true; mkNetIf "docker0" true false; mkNetIf "wlan0" true false];
  zeroconf_Register := fun _ _ => true |}.

Definition running_node : Node unit :=
  mkNode 0 tt {[FULA_CONFIG_PATH := default "" (yaml_Marshal fresh_config)]} ∅ None [] [].

Lemma mdns_names_device_witness :
  exists dev a' srv w', fresh_device (lib "" ["127.0.0.1"]) = Ok (Serving dev) /\
  renewals (fun _ => "") 3 (mkAdv None []) running_node = (Ok a', w') /\ ad_server a' = Some srv /\
  sv_name srv = "fulatower_12345" /\ length (ad_waiting a') = 3%nat.
Proof.
  destruct (fresh_device (lib "" ["127.0.0.1"])) as [[t|dev]|e|] eqn:H; try (vm_compute in H; discriminate H).
  assert (peer_String (dv_self dev) = "id-xabcdefghijklmnopqrstuvwxyz012345") as Hs by (vm_compute in H; injection H as <-; reflexivity).
  destruct (mdns_names_device (E := quietEnv) (X := noExec) (ZC := openNet) (Y := jsonYaml) (MY := mdnsYaml) (K := letterKeys) (PC := toyCrypto) (fun _ => "") (fun _ => eq_refl) (ML := lib "" ["127.0.0.1"]) (noArgs "/") pi_config fresh_config dev
    (default "" (yaml_Marshal fresh_config)) 2 (mkAdv None []) running_node (fun _ _ => eq_refl)) as (hw & a' & srv & w' & H1 & H2 & H3 & _ & H5);
    [vm_compute; reflexivity|exact H|rewrite Hs; discriminate|reflexivity|].
  exists dev, a', srv, w'. split; [reflexivity|]. split; [exact H1|]. split; [exact H2|]. split; [|exact H5].
  rewrite H3. unfold instanceName, names_device. cbn [BloxPeerIdString]. rewrite Hs. reflexivity.
Defined.
End concrete.
