(* ===== verification/BloxStart.v ===== *)
(** * blox/blox.go: Start as a whole, the cluster's pin list, the failed CIDs

    Start in the order it takes its steps, with the goroutines it leaves running; the wait for
    kubo and for the cluster; the list of pins the cluster streams, as a producer and a
    consumer over two channels. The cluster's pin type is a parameter. *)

From S2P Require Import Prelude GoStd GoTime Json PeerId SignedAuth Abi Effects Node Disk Evm PoolConfig KuboProxy Relay Blox BloxLife.

#[local] Open Scope string_scope.
#[local] Open Scope Z_scope.

(** ** Calls kept for their callers *)
Definition StoreCid : outcome () := Err "StoreCid is no longer supported: data replication uses kubo/IPFS-cluster".
Definition StoreManifest : outcome () := Err "StoreManifest is no longer supported: data replication uses kubo/IPFS-cluster".
Definition FetchAvailableManifestsAndStore : outcome () :=
  Err "FetchAvailableManifestsAndStore is no longer supported: data replication uses kubo/IPFS-cluster".
Definition Ping : outcome (Z * Z) := Err "direct libp2p ping is no longer supported".
Definition PingDht : outcome () := Err "DHT ping is no longer supported".
Definition StartAnnouncementServer : outcome () := Ok ().
Definition ProvideLinkByDht : outcome () := Err "DHT provide is no longer supported".
Definition FindLinkProvidersByDht : outcome (list string) := Err "DHT find providers is no longer supported".
Definition UpdateDhtPeers : outcome () := Err "DHT update peers is no longer supported".

(** ** Waiting for kubo *)
Section wait.
Context `{E : Env} (ifs : Ifaces) (kuboAPI : string).

(** [ticks]: for each turn of the select, whether the ticker fired or the context is done.
    [None]: still waiting after them. *)
Fixpoint waitForKuboAndRegister (ticks : list bool) : M Kubo (option (option string)) :=
  match ticks with
  | [] => ret None
  | false :: _ => ret (Some (Some "context canceled"))
  | true :: ticks' =>
      r <- wait_round ifs kuboAPI;;
      match r with
      | Some _ => ret (Some None)
      | None => waitForKuboAndRegister ticks'
      end
  end.
End wait.

(** ** Start *)
Inductive StartRes :=
| StartFailed (e : string)          (** an error of the blockchain's Start *)
| StartWaiting                      (** in waitForKuboAndRegister, or in the search for the pool *)
| StartRunning (gs : list G).       (** returned nil, with these goroutines counted *)

Section start.
Context {S : Type} `{PS : PoolStore S} `{E : Env} `{MB : Multibase} `{PC : PeerCrypto}.
Context (o : Options) (kuboAPIAddr : string) (ifs : Ifaces) (poolHostMode : bool) (DefaultIPFShttpServer : string).

Definition counted : list G :=
  ([GFetch; GProxy; GPing; GWatch] ++ (if poolHostMode then [] else [GReconcile])
   ++ (if (DefaultIPFShttpServer =? "fula")%string then [GIpfs] else []) ++ (if poolHostMode then [] else [GTicker]))%list.

(** [bl_Start]: the result of p.bl.Start. *)
Definition Start (bl_Start : option string) (ticks : list bool) (fuel : nat) : M (Blox S) StartRes :=
  match bl_Start with
  | Some e => ret (StartFailed e)
  | None =>
      on_kubo cleanupStaleRestartMarker;;;
      r <- on_kubo (waitForKuboAndRegister ifs (getKuboAPIAddr kuboAPIAddr) ticks);;
      match r with
      | None => ret StartWaiting
      | Some _ =>
          d <- Start_pool o kuboAPIAddr fuel;;
          match d with
          | Some None => ret StartWaiting
          | _ => Start_members o;;; ret (StartRunning counted)
          end
      end
  end.

(** *** The goroutine that asks the cluster to recover its pins *)
Fixpoint cluster_wait (n : nat) : M (Blox S) (option bool) :=
  match n with
  | O => ret (Some false)
  | Datatypes.S n' =>
      done <- on_node ctx_done;;
      if (done : bool) then ret None else
      r <- on_node (http_Do "http://127.0.0.1:9094/id" JNull);;
      match r with
      | Reply _ _ => ret (Some true)
      | ReplyErr _ => time_Sleep (5 * second);;; cluster_wait n'
      end
  end.
(** Is RecoverAll called? *)
Definition recover_pins : M (Blox S) bool := r <- cluster_wait 30;; ret (match r with Some true => true | _ => false end).
End start.

(** ** The cluster's pins *)

(** api.GlobalPinInfo, as far as it is looked at: the CID, the creation time, and whether
    PeerMap[account].Status is pinned. *)
Record GPin := mkGPin { gp_Cid : string; gp_Created : Z; gp_pinned : string -> bool }.
Class ClusterApi := { dec_GlobalPinInfo : json -> option GPin }.

(** json.Decoder.More at the top level: false at the end of what can be read. *)
Definition decoder_More (s : string) : bool :=
  match skip_ws s with
  | EmptyString => false
  | String c _ => negb (c =? "]")%char && negb (c =? "}")%char
  end.

Section pins.
Context `{CA : ClusterApi} (lastChecked : Z) (account : string).

Definition pin_wanted (p : GPin) : bool := (lastChecked <? gp_Created p) && gp_pinned p account.

(** What the goroutine does with each value of the stream: an error that ends it, a pin it
    sends, or nothing. Every round consumes a value. *)
Fixpoint pin_events (fuel : nat) (s : string) : list (string + option string) :=
  match fuel with
  | O => []
  | Datatypes.S f =>
      if decoder_More s then
        match json_parse_prefix s with
        | None => [inl "invalid character"]
        | Some (j, rest) =>
            match dec_GlobalPinInfo j with
            | None => [inl "cannot unmarshal"]
            | Some p => inr (if pin_wanted p then Some (gp_Cid p) else None) :: pin_events f rest
            end
        end
      else []
  end.
(** The answer's status is not looked at; a body whose reading fails ends More. *)
Definition pins_of (r : HttpReply) : list (string + option string) :=
  match r with
  | ReplyErr e => [inl e]
  | Reply _ None => []
  | Reply _ (Some body) => pin_events (Datatypes.S (String.length body)) body
  end.
End pins.

(** *** IpfsClusterPins and ListModifiedStoredLinks

    The goroutine sends on the unbuffered channel pins and leaves an error in the buffer of
    errChan; its deferred calls close errChan first. The caller takes pins until pins is closed, then looks
    at errChan. *)
Inductive PPhase := PLoop | PDefer | PErrClosed | PClosed.
Inductive CPhase := CCollect (acc : list string) | CErr (acc : list string) | CRet (r : string + list string).
Record Pins := mkPins { pn_todo : list (string + option string); pn_prod : PPhase; pn_err : option string; pn_cons : CPhase }.

Inductive PEv := EvProd | EvSend | EvCons.

Definition pins_step (e : PEv) (s : Pins) : option Pins :=
  match e with
  | EvProd =>
      match pn_prod s, pn_todo s with
      | PLoop, [] => Some (mkPins [] PDefer (pn_err s) (pn_cons s))
      | PLoop, inl err :: _ => Some (mkPins [] PDefer (Some err) (pn_cons s))
      | PLoop, inr None :: t => Some (mkPins t PLoop (pn_err s) (pn_cons s))
      | PLoop, inr (Some _) :: _ => None
      | PDefer, t => Some (mkPins t PErrClosed (pn_err s) (pn_cons s))
      | PErrClosed, t => Some (mkPins t PClosed (pn_err s) (pn_cons s))
      | PClosed, _ => None
      end
  | EvSend =>
      match pn_prod s, pn_todo s, pn_cons s with
      | PLoop, inr (Some l) :: t, CCollect acc => Some (mkPins t PLoop (pn_err s) (CCollect (acc ++ [l])))
      | _, _, _ => None
      end
  | EvCons =>
      match pn_cons s, pn_prod s, pn_err s with
      | CCollect acc, PClosed, _ => Some (mkPins (pn_todo s) (pn_prod s) (pn_err s) (CErr acc))
      | CErr acc, _, Some err => Some (mkPins (pn_todo s) (pn_prod s) None (CRet (inl err)))
      | CErr acc, (PErrClosed | PClosed), None => Some (mkPins (pn_todo s) (pn_prod s) None (CRet (inr acc)))
      | _, _, _ => None
      end
  end.
Fixpoint pins_run (es : list PEv) (s : Pins) : option Pins :=
  match es with [] => Some s | e :: es' => s' ← pins_step e s; pins_run es' s' end.
Definition pins_start (evs : list (string + option string)) : Pins := mkPins evs PLoop None (CCollect []).

(** The list of a stream: its pins in order, or its first error. *)
Fixpoint collect (acc : list string) (evs : list (string + option string)) : string + list string :=
  match evs with
  | [] => inr acc
  | inl e :: _ => inl e
  | inr None :: t => collect acc t
  | inr (Some l) :: t => collect (acc ++ [l]) t
  end.
Definition ListModifiedStoredLinks `{CA : ClusterApi} (lastChecked : Z) (account : string) (r : HttpReply) : string + list string :=
  collect [] (pins_of lastChecked account r).

(** What the caller will get. *)
Definition promised (s : Pins) : string + list string :=
  match pn_cons s with
  | CRet r => r
  | CCollect acc | CErr acc => match pn_err s with Some e => inl e | None => collect acc (pn_todo s) end
  end.
Definition pins_inv (s : Pins) : Prop :=
  (pn_prod s = PLoop -> pn_err s = None) /\ (pn_prod s <> PLoop -> pn_todo s = []) /\
  match pn_cons s with CCollect _ => True | CErr _ => pn_prod s = PClosed | CRet _ => pn_prod s = PClosed /\ pn_err s = None end.

Lemma pins_step_inv e s s' : pins_inv s -> pins_step e s = Some s' -> pins_inv s' /\ promised s' = promised s.
Proof.
  intros (H1 & H2 & H3) Hs. destruct s as [todo ph err c]. unfold pins_inv, promised. cbn in *.
  destruct e; cbn in Hs; destruct ph, todo as [|[x|[l|]] todo], c as [acc|acc|r]; try discriminate Hs; try discriminate (proj1 H3);
    try discriminate H3; try (specialize (H2 ltac:(discriminate)); discriminate H2); try (rewrite (H1 eq_refl) in Hs);
    try (destruct err); try discriminate Hs; injection Hs as <-; cbn; try (specialize (H1 eq_refl)); try discriminate;
    (split; [split; [|split]|]); auto; naive_solver.
Qed.

Lemma pins_run_inv es : forall s s', pins_inv s -> pins_run es s = Some s' -> pins_inv s' /\ promised s' = promised s.
Proof.
  induction es as [|e es IH]; intros s s' Hi Hr; cbn in Hr; [by injection Hr as <-|].
  destruct (pins_step e s) as [s1|] eqn:Es; [|done]. destruct (pins_step_inv _ _ _ Hi Es) as [Hi1 Hp1].
  destruct (IH _ _ Hi1 Hr) as [Hi2 Hp2]. split; [done|congruence].
Qed.

Definition pins_left (s : Pins) : nat :=
  length (pn_todo s) + match pn_prod s with PLoop => 3 | PDefer => 2 | PErrClosed => 1 | PClosed => 0 end +
  match pn_cons s with CCollect _ => 2 | CErr _ => 1 | CRet _ => 0 end.

Lemma pins_step_left e s s' : pins_step e s = Some s' -> (pins_left s' < pins_left s)%nat.
Proof.
  destruct s as [todo ph err c]. unfold pins_left. destruct e; cbn; destruct ph, todo as [|[x|[l|]] todo], c as [acc|acc|r];
    try done; try (destruct err); try done; intros Hs; injection Hs as <-; cbn; lia.
Qed.
Lemma pins_run_left es : forall s s', pins_run es s = Some s' -> (length es + pins_left s' <= pins_left s)%nat.
Proof.
  induction es as [|e es IH]; intros s s' Hr; cbn in Hr; [injection Hr as <-; cbn; lia|].
  destruct (pins_step e s) as [s1|] eqn:Es; [|done]. apply pins_step_left in Es. apply IH in Hr. cbn. lia.
Qed.

Lemma pins_progress s : pins_inv s -> (exists r, pn_cons s = CRet r) \/ exists e s', pins_step e s = Some s'.
Proof.
  intros (H1 & H2 & H3). destruct s as [todo ph err c]. cbn in *. destruct c as [acc|acc|r]; [| |by left; eexists]; right.
  - destruct ph; [destruct todo as [|[x|[l|]] todo]; [exists EvProd|exists EvProd|exists EvSend|exists EvProd]
                 |exists EvProd|exists EvProd|exists EvCons]; by eexists.
  - subst ph. exists EvCons. destruct err; by eexists.
Qed.

(** C19. Under every interleaving of the goroutine and its caller, the call neither blocks nor runs
    on: it returns the pins of the stream in order, or its first error. *)
Theorem pin_list_returns evs es s : pins_run es (pins_start evs) = Some s ->
  (length es <= length evs + 5)%nat /\
  ((exists r, pn_cons s = CRet r /\ r = collect [] evs) \/ exists e s', pins_step e s = Some s').
Proof.
  intros Hr. assert (pins_inv (pins_start evs)) as Hi by (split; [|split]; done).
  destruct (pins_run_inv _ _ _ Hi Hr) as [Hi' Hp]. split.
  - apply pins_run_left in Hr. unfold pins_left, pins_start in Hr. cbn in Hr. lia.
  - destruct (pins_progress _ Hi') as [[r Hc]|He]; [left|by right]. exists r. split; [done|].
    unfold promised in Hp. rewrite Hc in Hp. exact Hp.
Qed.

(** A stream of two pins, one of them skipped, read to its end. *)
Definition two_pins : list (string + option string) := [inr (Some "a"); inr None; inr (Some "b")].
Lemma pin_list_returns_witness :
  exists s, pins_run [EvSend; EvProd; EvSend; EvProd; EvProd; EvProd; EvCons; EvCons] (pins_start two_pins) = Some s /\ exists r, pn_cons s = CRet r /\ r = inr ["a"; "b"].
Proof.
  destruct (pins_run [EvSend; EvProd; EvSend; EvProd; EvProd; EvProd; EvCons; EvCons] (pins_start two_pins)) as [s|] eqn:H; [|vm_compute in H; discriminate H].
  exists s. split; [reflexivity|]. destruct (pin_list_returns _ _ _ H) as [_ [(r & Hr & ->)|(e & s' & He)]].
  - exists (collect [] two_pins). split; [exact Hr | reflexivity].
  - vm_compute in H. injection H as <-. destruct e; discriminate He.
Defined.

(** A cluster that answers with an error object of its own, or whose answer breaks off between
    two pins, is taken for one with fewer pins. *)
Lemma broken_answer_lists_less `{CA : ClusterApi} last account st :
  ListModifiedStoredLinks last account (Reply st None) = inr [].
Proof. done. Qed.

Definition cluster_error : json := JObj [("code", JNum "500"); ("message", JStr "no state")].
Lemma error_answer_lists_nothing `{CA : ClusterApi} last account p :
  dec_GlobalPinInfo cluster_error = Some p -> gp_Created p <= last ->
  ListModifiedStoredLinks last account (Reply 500 (Some (jq "{'code':500,'message':'no state'}"))) = inr [].
Proof.
  intros Hd Hc. unfold ListModifiedStoredLinks, pins_of.
  assert (json_parse_prefix (jq "{'code':500,'message':'no state'}") = Some (cluster_error, "")) as Hj by (vm_compute; reflexivity).
  cbn [pin_events]. change (decoder_More (jq "{'code':500,'message':'no state'}")) with true. rewrite Hj, Hd.
  unfold pin_wanted. rewrite (proj2 (Z.ltb_ge _ _) Hc). by destruct (String.length _).
Qed.

(** ** The two files of the block listing *)
Section files.
Context {S : Type} `{PS : PoolStore S} `{E : Env}.

Definition lastCheckedFile := "/internal/.last_time_ipfs_checked".
(** Its modification time is what GetLastCheckedTime reads. *)
Definition UpdateLastCheckedTime : M (Node S) () :=
  now <- time_Now;; os_WriteFile lastCheckedFile (FormatRFC3339 now).

Definition lastFailedFile := "/uniondrive/failed_cids.info".
(** file.WriteString in append mode: a failed write leaves a prefix of the text. *)
Definition append_string (path text : string) : M (Node S) (option string) :=
  r <- fs_step;;
  let add t := modify (fun w => set_files (<[path := default "" (n_files w !! path) +:+ t]> (n_files w)) w) in
  match r with
  | FsOk => add text;;; ret None
  | FsErr None => ret (Some "write")
  | FsErr (Some n) => add (stake n text);;; ret (Some "write")
  end.
Definition failed_line (link : string) : string := link +:+ String "010" "".
Fixpoint append_links (links : list string) : M (Node S) (list string) :=
  match links with
  | [] => ret []
  | l :: links' =>
      e <- append_string lastFailedFile (failed_line l);;
      es <- append_links links';;
      ret (option_list e ++ es)%list
  end.
Definition UpdateFailedCids (links : list string) : M (Node S) () :=
  r <- fs_step;;
  match r with
  | FsErr _ => raise "open"
  | FsOk =>
      modify (fun w => set_files (<[lastFailedFile := default "" (n_files w !! lastFailedFile)]> (n_files w)) w);;;
      es <- append_links links;;
      match es with
      | [] => ret ()
      | _ => raise ("errors occurred while updating failed CIDs: " +:+ Join es "; ")
      end
  end.

Definition lines_of (links : list string) : string := foldr (fun l t => failed_line l +:+ t) "" links.

Lemma append_string_ok (Hfs : forall n, env_fs n = FsOk) path t (w : Node S) :
  append_string path t w = (Ok None, set_files (<[path := default "" (n_files w !! path) +:+ t]> (n_files w)) (bump w)).
Proof. unfold append_string, bind, fs_step, modify, ret. by rewrite Hfs. Qed.

Lemma append_links_ok (Hfs : forall n, env_fs n = FsOk) links : forall old (w : Node S),
  n_files w !! lastFailedFile = Some old ->
  exists w', append_links links w = (Ok [], w') /\
    n_files w' = <[lastFailedFile := old +:+ lines_of links]> (n_files w).
Proof.
  induction links as [|l links IH]; intros old w Hw.
  - exists w. split; [done|]. cbn. rewrite sapp_nil_r. by rewrite insert_id.
  - cbn [append_links lines_of foldr]. unfold bind at 1. rewrite append_string_ok by done. rewrite Hw. change (default "" (Some old)) with old.
    destruct (IH (old +:+ failed_line l) (set_files (<[lastFailedFile := old +:+ failed_line l]> (n_files w)) (bump w))) as (w' & Hr & Hf).
    { cbn. apply lookup_insert_eq. }
    exists w'. unfold bind. rewrite Hr. split; [done|]. rewrite Hf. cbn. rewrite insert_insert_eq. by rewrite <- sapp_assoc.
Qed.

(** The links are added at the end of the file, one a line; what was there stays. *)
Theorem failed_cids_append (Hfs : forall n, env_fs n = FsOk) links (w : Node S) :
  exists w', UpdateFailedCids links w = (Ok (), w') /\
    n_files w' = <[lastFailedFile := default "" (n_files w !! lastFailedFile) +:+ lines_of links]> (n_files w).
Proof.
  unfold UpdateFailedCids, bind at 1, fs_step. rewrite Hfs. unfold bind at 1, modify. cbn [n_files bump].
  edestruct (append_links_ok Hfs links) as (w' & Hr & Hf); [|exists w'; unfold bind; rewrite Hr; split; [done|]].
  - cbn. apply lookup_insert_eq.
  - rewrite Hf. cbn. by rewrite insert_insert_eq.
Qed.
End files.

(** ** Start leaves running what Shutdown stops *)
Section started.
Context {S : Type} `{PS : PoolStore S} `{E : Env} `{MB : Multibase} `{PC : PeerCrypto}.
Context (o : Options) (kuboAPIAddr : string) (ifs : Ifaces).

(** The goroutines counted when Start has returned are those the life of the process begins
    with ([BloxLife.started]). *)
Theorem start_goroutines host server bl_Start ticks fuel (b : Blox S) gs b' :
  Start o kuboAPIAddr ifs host server bl_Start ticks fuel b = (Ok (StartRunning gs), b') ->
  Permutation gs (l_live (started host (server =? "fula")%string)) /\ bl_Start = None /\ ticks <> [].
Proof.
  intros H. unfold Start in H. destruct bl_Start as [e|]; [done|].
  apply bind_Ok_inv in H as (u & b1 & _ & H). apply bind_Ok_inv in H as (r & b2 & Hw & H). destruct r as [r|]; [|done].
  apply bind_Ok_inv in H as (d & b3 & _ & H). split; [|split; [done|]].
  - assert (gs = counted host server) as ->.
    { destruct d as [[d|]|]; [|done|]; apply bind_Ok_inv in H as (u' & b4 & _ & H); by injection H as <-. }
    unfold counted, started. cbn. destruct host, (server =? "fula")%string; cbn; try reflexivity. do 5 apply perm_skip. apply perm_swap.
  - intros ->. unfold on_kubo, waitForKuboAndRegister, ret in Hw. done.
Qed.

(** While kubo does not answer, Start does not get past its wait, however long: no search for the
    pool, no error. *)
Theorem start_waits_for_kubo host server ticks fuel (b : Blox S) :
  (forall k, (wait_round ifs (getKuboAPIAddr kuboAPIAddr) k).1 = Ok None) -> Forall (fun t => t = true) ticks ->
  exists b', Start o kuboAPIAddr ifs host server None ticks fuel b = (Ok StartWaiting, b') /\ b_node b' = b_node b.
Proof.
  intros Hk Ht.
  assert (forall k, exists k', waitForKuboAndRegister ifs (getKuboAPIAddr kuboAPIAddr) ticks k = (Ok None, k')) as Hw.
  { induction Ht as [|t ticks -> _ IH]; intros k; cbn; [by eexists|]. unfold bind. specialize (Hk k).
    destruct (wait_round _ _ k) as [r k1]. cbn in Hk. subst r. apply IH. }
  unfold Start, bind, on_kubo. unfold cleanupStaleRestartMarker at 1, bind at 1, k_fs.
  destruct (env_fs _); cbn.
  all: match goal with |- context [waitForKuboAndRegister _ _ _ ?k] => destruct (Hw k) as [k' ->] end; by eexists.
Qed.

(** *** The wait for the cluster *)
Lemma cluster_wait_spec m : forall (b : Blox S), let n := n_fx (b_node b) in
  (cluster_wait m b).1 = Ok (Some true) <->
  exists i, (i < m)%nat /\ (forall j, (j <= i)%nat -> env_timer (n + 2 * j) 0 = true) /\
    (forall j, (j < i)%nat -> exists e, env_http (n + 2 * j + 1) "http://127.0.0.1:9094/id" JNull = ReplyErr e) /\
    exists st body, env_http (n + 2 * i + 1) "http://127.0.0.1:9094/id" JNull = Reply st body.
Proof.
  induction m as [|m IH]; intros b n; [split; [done|by intros (i & Hi & _); lia]|]. cbn [cluster_wait].
  unfold bind at 1, on_node at 1, ctx_done, bind at 1, time_After. cbn [b_node]. fold n.
  destruct (env_timer n 0) eqn:Et; cbn [negb].
  2: { split; [done|]. intros (i & _ & Ht & _). specialize (Ht 0%nat ltac:(lia)). replace (n + 2 * 0)%nat with n in Ht by lia. congruence. }
  unfold ret at 1, bind at 1, on_node at 1, http_Do. cbn [b_node set_node n_fx bump]. fold n.
  destruct (env_http (Datatypes.S n) "http://127.0.0.1:9094/id" JNull) as [e|st body] eqn:Eh.
  - unfold bind, time_Sleep, modify. rewrite IH. cbn [b_node set_node add_sleep n_fx bump]. fold n. split.
    + intros (i & Hi & Ht & He & st & body & Hr). exists (Datatypes.S i). split; [lia|]. split; [|split].
      * intros [|j] Hj; [by replace (n + 2 * 0)%nat with n by lia|]. rewrite <- (Ht j) by lia. f_equal. lia.
      * intros [|j] Hj; [exists e; by replace (n + 2 * 0 + 1)%nat with (Datatypes.S n) by lia|].
        destruct (He j) as [e' He']; [lia|]. exists e'. rewrite <- He'. f_equal. lia.
      * exists st, body. rewrite <- Hr. f_equal. lia.
    + intros ([|i] & Hi & Ht & He & st & body & Hr).
      { exfalso. replace (n + 2 * 0 + 1)%nat with (Datatypes.S n) in Hr by lia. congruence. }
      exists i. split; [lia|]. split; [|split].
      * intros j Hj. rewrite <- (Ht (Datatypes.S j)) by lia. f_equal. lia.
      * intros j Hj. destruct (He (Datatypes.S j)) as [e' He']; [lia|]. exists e'. rewrite <- He'. f_equal. lia.
      * exists st, body. rewrite <- Hr. f_equal. lia.
  - split; [|done]. intros _. exists 0%nat. split; [lia|]. split; [|split].
    + intros j Hj. replace j with 0%nat by lia. by replace (n + 2 * 0)%nat with n by lia.
    + intros j Hj. lia.
    + exists st, body. by replace (n + 2 * 0 + 1)%nat with (Datatypes.S n) by lia.
Qed.

(** The cluster is asked to recover its pins exactly when one of thirty probes is answered,
    with whatever status, before the context ends. *)
Theorem recover_when_ready (b : Blox S) : let n := n_fx (b_node b) in
  (recover_pins b).1 = Ok true <->
  exists i, (i < 30)%nat /\ (forall j, (j <= i)%nat -> env_timer (n + 2 * j) 0 = true) /\
    (forall j, (j < i)%nat -> exists e, env_http (n + 2 * j + 1) "http://127.0.0.1:9094/id" JNull = ReplyErr e) /\
    exists st body, env_http (n + 2 * i + 1) "http://127.0.0.1:9094/id" JNull = Reply st body.
Proof.
  intros n. unfold n. rewrite <- cluster_wait_spec. unfold recover_pins, bind.
  destruct (cluster_wait 30 b) as [[[[]|]| |] b1]; cbn; split; congruence.
Qed.
End started.
