(* ===== verification/Registry.v ===== *)
(** * blockchain/interface.go, wap/pkg/wifi: the registered types of every action

    The request and response structs of all actions and the two registries. [conforms t j]
    says that the JSON value [j] is one encoding/json could have written for a value of the
    Go type [t]: every member is a field, every field that is not omitempty is there. What
    the handlers answer is compared with what is registered for their action. *)

From S2P Require Import Prelude GoStd Json JsonPrint Float PeerId SignedAuth Abi Effects Access Node Disk Evm PoolConfig Schema Relay Nas.
From S2P Require Import Properties WifiProps Plugins AutoPin Wifi Clients Hardware Chat Server.

#[local] Open Scope string_scope.
#[local] Open Scope Z_scope.

Inductive rty :=
| RStr | RInt | RUint64 | RUint32 | RBool
| RFloat32
| RBig                          (** BigInt *)
| RMapStr                       (** map[string]string *)
| RList (e : rty)
| RPtr (e : rty)
| RStruct (fs : list (string * (bool * rty))).   (** tag, omitempty, type *)

Definition member (n : string) (l : list (string * json)) : option json := Abi.assoc n l.
Definition is_JStr (j : json) : bool := match j with JStr _ => true | _ => false end.
Definition parses (parse : string -> num_error + Z) (lit : string) : bool :=
  match parse lit with inr _ => true | inl _ => false end.

Fixpoint conforms (t : rty) (j : json) {struct t} : bool :=
  match t, j with
  | RStr, JStr _ => true
  | RInt, JNum lit => parses (fun lit => ParseInt lit 10 64) lit
  | RUint64, JNum lit => parses (fun lit => ParseUint lit 10 64) lit
  | RUint32, JNum lit => parses (fun lit => ParseUint lit 10 32) lit
  | RBool, JBool _ => true
  | RFloat32, JNum lit => is_num lit
  | RBig, JNum lit => is_num lit
  | RMapStr, JNull => true
  | RMapStr, JObj l => forallb (fun kv => is_JStr kv.2) l
  | RList _, JNull => true
  | RList e, JArr l => forallb (conforms e) l
  | RPtr _, JNull => true
  | RPtr e, _ => conforms e j
  | RStruct fs, JObj l =>
      forallb (fun kv => bool_decide (kv.1 ∈ map fst fs)) l && bool_decide (NoDup (map fst l)) &&
      (fix go (fs : list (string * (bool * rty))) : bool :=
         match fs with
         | [] => true
         | (n, (omitempty, e)) :: fs => match member n l with Some v => conforms e v | None => omitempty end && go fs
         end) fs
  | _, _ => false
  end.

(** A field that is always written, and one that is left out when empty. *)
Definition fld (n : string) (t : rty) : string * (bool * rty) := (n, (false, t)).
Definition opt (n : string) (t : rty) : string * (bool * rty) := (n, (true, t)).

(** The types of [Schema]. *)
Fixpoint of_ty (t : ty) : rty :=
  match t with
  | TString => RStr | TInt => RInt | TUint64 => RUint64 | TBool => RBool
  | TList e => RList (of_ty e)
  | TPtr e => RPtr (of_ty e)
  | TStruct fs => RStruct (map (fun f => (f.1, (false, of_ty f.2))) fs)
  end.

(** ** The other types *)
Definition GetAccountRequest := RStruct [].
Definition GetAccountResponse := RStruct [fld "account" RStr].
Definition AccountCreateRequest := RStruct [fld "account" RStr].
Definition AccountCreateResponse := RStruct [fld "account" RStr].
Definition AccountFundRequest := RStruct [fld "amount" RBig; fld "to" RStr].
Definition AccountFundResponse := RStruct [fld "from" RStr; fld "to" RStr; fld "amount" RStr].
Definition AvailableAllaccountsBatchRequest := RStruct [fld "cids" (RList RStr); fld "pool_id" RInt].
Definition BatchManifestAllaccounts := RStruct [fld "cid" RStr].
Definition BatchManifestAllaccountsResponse := RStruct [fld "manifests" (RList BatchManifestAllaccounts)].
Definition ManifestBatchUploadRequest :=
  RStruct [fld "cid" (RList RStr); fld "pool_id" RInt; fld "replication_factor" (RList RInt);
           fld "manifest_metadata" (RList (of_ty ManifestMetadata))].
Definition PoolJoinRequest_t := RStruct [fld "pool_id" RInt; fld "peer_id" RStr; opt "chain_name" RStr].
Definition PoolJoinResponse := RStruct [fld "account" RStr; fld "pool_id" RInt; opt "chain_name" RStr].
Definition PoolLeaveRequest_t := RStruct [fld "pool_id" RInt; opt "chain_name" RStr].
Definition PoolLeaveResponse := RStruct [fld "account" RStr; fld "pool_id" RInt; opt "chain_name" RStr].

Definition BloxFreeSpaceRequest := RStruct [].
Definition BloxFreeSpaceResponse :=
  RStruct [fld "device_count" RInt; fld "size" RFloat32; fld "used" RFloat32; fld "avail" RFloat32; fld "used_percentage" RFloat32].
Definition EraseBlDataRequest := RStruct [].
Definition EraseBlDataResponse := RStruct [fld "status" RBool; fld "msg" RStr].
Definition WifiRemoveallRequest := RStruct [].
Definition WifiRemoveallResponse := RStruct [fld "msg" RStr; fld "status" RBool].
Definition RebootRequest := RStruct [].
Definition RebootResponse := RStruct [fld "msg" RStr; fld "status" RBool].
Definition PartitionRequest := RStruct [].
Definition PartitionResponse := RStruct [fld "msg" RStr; fld "status" RBool].
Definition DeleteFulaConfigRequest := RStruct [].
Definition DeleteFulaConfigResponse := RStruct [fld "msg" RStr; fld "status" RBool].
Definition DeleteWifiRequest := RStruct [fld "name" RStr].
Definition DeleteWifiResponse := RStruct [fld "msg" RStr; fld "status" RBool].
Definition FetchContainerLogsRequest := RStruct [fld "ContainerName" RStr; fld "TailCount" RStr].
Definition FetchContainerLogsResponse := RStruct [fld "status" RBool; fld "msg" RStr].
Definition FindBestAndTargetInLogsRequest := RStruct [fld "NodeContainerName" RStr; fld "TailCount" RStr].
Definition FindBestAndTargetInLogsResponse := RStruct [fld "best" RStr; fld "target" RStr; fld "err" RStr].
Definition GetFolderSizeRequest := RStruct [fld "folder_path" RStr].
Definition GetFolderSizeResponse := RStruct [fld "folder_path" RStr; fld "size" RStr].
Definition GetDatastoreSizeRequest := RStruct [].
Definition GetDatastoreSizeResponse :=
  RStruct [fld "size" RStr; fld "storage_max" RStr; fld "count" RStr; fld "folder_path" RStr; fld "version" RStr].
Definition GetDockerImageBuildDatesRequest := RStruct [].
Definition DockerImageBuildDate :=
  RStruct [fld "container_name" RStr; fld "image_name" RStr; fld "image_created" RStr; fld "image_digest" RStr].
Definition GetDockerImageBuildDatesResponse := RStruct [fld "images" (RList DockerImageBuildDate)].
Definition GetClusterInfoRequest := RStruct [].
Definition GetClusterInfoResponse := RStruct [fld "cluster_peer_id" RStr; fld "cluster_peer_name" RStr].

Definition ListPluginsRequest := RStruct [].
Definition PluginInfo_t :=
  RStruct [fld "name" RStr; fld "description" RStr; fld "version" RStr;
           fld "usage" (RStruct [fld "storage" RStr; fld "compute" RStr; fld "bandwidth" RStr; fld "ram" RStr; fld "gpu" RStr]);
           fld "rewards" (RList RMapStr); fld "socials" (RList RMapStr); fld "approved" RBool; fld "installed" RBool].
Definition ListPluginsResponse := RStruct [fld "plugins" (RList PluginInfo_t)].
Definition ListActivePluginsRequest := RStruct [].
Definition ListActivePluginsResponse := RStruct [fld "active_plugins" (RList RStr)].
Definition InstallPluginRequest := RStruct [fld "plugin_name" RStr; fld "params" RStr].
Definition InstallPluginResponse := RStruct [fld "success" RBool; fld "message" RStr].
Definition UninstallPluginRequest := RStruct [fld "plugin_name" RStr].
Definition UninstallPluginResponse := RStruct [fld "success" RBool; fld "message" RStr].
Definition ShowPluginStatusRequest := RStruct [fld "plugin_name" RStr; fld "lines" RInt; fld "follow" RBool].
Definition ShowPluginStatusResponse := RStruct [fld "status" (RList RStr)].
Definition GetInstallOutputRequest := RStruct [fld "plugin_name" RStr; fld "params" RStr].
Definition GetInstallOutputResponse := RStruct [fld "outputs" RMapStr].
Definition GetInstallStatusRequest := RStruct [fld "plugin_name" RStr].
Definition GetInstallStatusResponse := RStruct [fld "status" RStr].
Definition UpdatePluginRequest := RStruct [fld "plugin_name" RStr].
Definition UpdatePluginResponse := RStruct [fld "msg" RStr; fld "status" RBool].
Definition ChatWithAIRequest := RStruct [fld "ai_model" RStr; fld "user_message" RStr].
Definition ChatWithAIResponse := RStruct [fld "status" RBool; fld "msg" RStr].
Definition AutoPinPairRequest_t := RStruct [fld "pinning_token" RStr; fld "pinning_endpoint" RStr].
Definition AutoPinPairResponse := RStruct [fld "status" RStr; fld "pairing_secret" RStr; fld "hardware_id" RStr].
Definition AutoPinRefreshRequest := RStruct [fld "pinning_token" RStr].
Definition AutoPinRefreshResponse := RStruct [fld "status" RStr].
Definition AutoPinUnpairRequest := RStruct [].
Definition AutoPinUnpairResponse := RStruct [fld "status" RStr].
Definition NasCredentialsRequest := RStruct [fld "blox_peer_id" RStr].
Definition NasCredentialsResponse :=
  RStruct [fld "status" RStr; opt "username" RStr; opt "password" RStr; opt "share" RStr; opt "created_at" RStr; opt "hostname" RStr].

(** Types that no registry names. *)
Definition AccountBalanceRequest := RStruct [fld "account" RStr].
Definition AccountBalanceResponse := RStruct [fld "amount" RStr].
Definition MobileAssetsBalanceResponse := RStruct [fld "amount" RStr].
Definition PoolListRequestWithPoolId := RStruct [fld "pool_id" RInt].
Definition EVMPoolListRequest := RStruct [fld "chain_name" RStr].
Definition IsMemberOfPoolRequest := RStruct [fld "peer_id" RStr; fld "pool_id" RUint32; fld "chain_name" RStr].
Definition ManifestData := RStruct [fld "uploader" RStr; fld "manifest_metadata" (of_ty ManifestMetadata)].

(** ** The registries *)
Definition requestTypes : list (string * rty) :=
  [(actionSeeded, of_ty SeededRequest); (actionAccountExists, of_ty AccountExistsRequest);
   (actionAccountCreate, AccountCreateRequest); (actionAccountFund, AccountFundRequest);
   (actionPoolCreate, of_ty PoolCreateRequest); (actionPoolJoin, PoolJoinRequest_t);
   (actionPoolRequests, of_ty PoolRequestsRequest); (actionPoolCancelJoin, of_ty PoolCancelJoinRequest);
   (actionPoolList, of_ty PoolListRequest); (actionPoolUserList, of_ty PoolUserListRequest);
   (actionPoolVote, of_ty PoolVoteRequest); (actionPoolLeave, PoolLeaveRequest_t);
   (actionManifestUpload, of_ty ManifestUploadRequest); (actionManifestStore, of_ty ManifestStoreRequest);
   (actionManifestBatchStore, of_ty ManifestBatchStoreRequest); (actionManifestBatchUpload, ManifestBatchUploadRequest);
   (actionManifestAvailable, of_ty ManifestAvailableRequest); (actionManifestAvailableBatch, of_ty ReplicateRequest);
   (actionManifestAvailableAllaccountsBatch, AvailableAllaccountsBatchRequest); (actionManifestRemove, of_ty ManifestRemoveRequest);
   (actionManifestRemoveStorer, of_ty ManifestRemoveStorerRequest); (actionManifestRemoveStored, of_ty ManifestRemoveStoredRequest);
   (actionAssetsBalance, of_ty AssetsBalanceRequest); (actionTransferToGoerli, of_ty TransferToFulaRequest);
   (actionTransferToMumbai, of_ty TransferToFulaRequest); (actionReplicateInPool, of_ty ReplicateRequest);
   (actionBloxFreeSpace, BloxFreeSpaceRequest); (actionEraseBlData, EraseBlDataRequest); (actionWifiRemoveall, WifiRemoveallRequest);
   (actionReboot, RebootRequest); (actionPartition, PartitionRequest); (actionDeleteFulaConfig, DeleteFulaConfigRequest);
   (actionDeleteWifi, DeleteWifiRequest); (actionDisconnectWifi, DeleteWifiRequest); (actionGetAccount, GetAccountRequest);
   (actionFetchContainerLogs, FetchContainerLogsRequest); (actionFindBestAndTargetInLogs, FindBestAndTargetInLogsRequest);
   (actionGetFolderSize, GetFolderSizeRequest); (actionGetDatastoreSize, GetDatastoreSizeRequest);
   (actionGetDockerImageBuildDates, GetDockerImageBuildDatesRequest); (actionGetClusterInfo, GetClusterInfoRequest);
   (actionListPlugins, ListPluginsRequest); (actionListActivePlugins, ListActivePluginsRequest);
   (actionInstallPlugin, InstallPluginRequest); (actionUninstallPlugin, UninstallPluginRequest);
   (actionShowPluginStatus, ShowPluginStatusRequest); (actionGetInstallOutput, GetInstallOutputRequest);
   (actionGetInstallStatus, GetInstallStatusRequest); (actionUpdatePlugin, UpdatePluginRequest);
   (actionChatWithAI, ChatWithAIRequest); (actionAutoPinPair, AutoPinPairRequest_t); (actionAutoPinRefresh, AutoPinRefreshRequest);
   (actionAutoPinUnpair, AutoPinUnpairRequest); (actionNasCredentials, NasCredentialsRequest)].

Definition responseTypes : list (string * rty) :=
  [(actionSeeded, of_ty SeededResponse); (actionAccountExists, of_ty AccountExistsResponse);
   (actionAccountCreate, AccountCreateResponse); (actionAccountFund, AccountFundResponse);
   (actionPoolCreate, of_ty PoolCreateResponse); (actionPoolJoin, PoolJoinResponse);
   (actionPoolRequests, of_ty PoolRequestsResponse); (actionPoolCancelJoin, of_ty PoolCancelJoinResponse);
   (actionPoolList, of_ty PoolListResponse); (actionPoolUserList, of_ty PoolUserListResponse);
   (actionPoolVote, of_ty PoolVoteResponse); (actionPoolLeave, PoolLeaveResponse);
   (actionManifestUpload, of_ty ManifestUploadResponse); (actionManifestStore, of_ty ManifestStoreResponse);
   (actionManifestBatchStore, of_ty ManifestBatchStoreResponse); (actionManifestBatchUpload, of_ty ManifestBatchUploadResponse);
   (actionManifestAvailable, of_ty ManifestAvailableResponse); (actionManifestAvailableBatch, of_ty ReplicateResponse);
   (actionManifestAvailableAllaccountsBatch, BatchManifestAllaccountsResponse); (actionManifestRemove, of_ty ManifestRemoveResponse);
   (actionManifestRemoveStorer, of_ty ManifestRemoveStorerResponse); (actionManifestRemoveStored, of_ty ManifestRemoveStoredResponse);
   (actionAssetsBalance, of_ty AssetsBalanceResponse); (actionTransferToGoerli, of_ty TransferToFulaResponse);
   (actionTransferToMumbai, of_ty TransferToFulaResponse); (actionReplicateInPool, of_ty ReplicateResponse);
   (actionBloxFreeSpace, BloxFreeSpaceResponse); (actionEraseBlData, EraseBlDataResponse); (actionWifiRemoveall, WifiRemoveallResponse);
   (actionReboot, RebootResponse); (actionPartition, PartitionResponse); (actionDeleteFulaConfig, DeleteFulaConfigResponse);
   (actionDeleteWifi, DeleteWifiResponse); (actionDisconnectWifi, DeleteWifiResponse); (actionGetAccount, GetAccountResponse);
   (actionFetchContainerLogs, FetchContainerLogsResponse); (actionFindBestAndTargetInLogs, FindBestAndTargetInLogsResponse);
   (actionGetFolderSize, GetFolderSizeResponse); (actionGetDatastoreSize, GetDatastoreSizeResponse);
   (actionGetDockerImageBuildDates, GetDockerImageBuildDatesResponse); (actionGetClusterInfo, GetClusterInfoResponse);
   (actionListPlugins, ListPluginsResponse); (actionListActivePlugins, ListActivePluginsResponse);
   (actionInstallPlugin, InstallPluginResponse); (actionUninstallPlugin, UninstallPluginResponse);
   (actionShowPluginStatus, ShowPluginStatusResponse); (actionGetInstallOutput, GetInstallOutputResponse);
   (actionGetInstallStatus, GetInstallStatusResponse); (actionUpdatePlugin, UpdatePluginResponse);
   (actionChatWithAI, ChatWithAIResponse); (actionAutoPinPair, AutoPinPairResponse); (actionAutoPinRefresh, AutoPinRefreshResponse);
   (actionAutoPinUnpair, AutoPinUnpairResponse); (actionNasCredentials, NasCredentialsResponse)].

(** Both registries name the same actions, each once; every served action but auth is among
    them, so no reflect.New of a missing type; the relayed ones have the types of [Schema]. *)
Theorem registry_complete :
  map fst requestTypes = map fst responseTypes /\ NoDup (map fst requestTypes) /\
  (forall action h, route action = Some h -> action <> actionAuth -> action ∈ map fst requestTypes) /\
  (forall action q r, relay_types action = Some (q, r) ->
     Abi.assoc action requestTypes = Some (of_ty q) /\ Abi.assoc action responseTypes = Some (of_ty r)).
Proof.
  split; [reflexivity|]. split; [apply (bool_decide_eq_true_1 _); vm_compute; reflexivity|]. split.
  - intros action h Hr Ha. unfold route in Hr. apply elem_of_list_to_map_2 in Hr.
    assert (Forall (fun kv => kv.1 = actionAuth \/ kv.1 ∈ map fst requestTypes) actionMap) as Hall
      by (apply (bool_decide_eq_true_1 _); vm_compute; reflexivity).
    rewrite Forall_forall in Hall. destruct (Hall _ Hr) as [Hx|Hin]; done.
  - intros action q r Hr. unfold relay_types in Hr. apply elem_of_list_to_map_2 in Hr.
    assert (forall kv, kv ∈ relayTypes -> Abi.assoc kv.1 requestTypes = Some (of_ty kv.2.1) /\ Abi.assoc kv.1 responseTypes = Some (of_ty kv.2.2)) as Hall.
    { apply Forall_forall. unfold relayTypes. repeat (apply List.Forall_cons; [split; reflexivity|]). apply List.Forall_nil. }
    exact (Hall _ Hr).
Qed.

(** ** Well-typed values conform *)
Lemma distinct_NoDup l : distinct l = true -> NoDup l.
Proof.
  induction l as [|n l IH]; cbn; [constructor|]. intros [Hn Hl]%andb_prop. constructor; [|by apply IH].
  intros Hin. rewrite forallb_forall in Hn. apply list_elem_of_In in Hin. specialize (Hn _ Hin). by rewrite EqualFold_refl in Hn.
Qed.

Lemma assoc_In {A} n (v : A) l : NoDup (map fst l) -> (n, v) ∈ l -> Abi.assoc n l = Some v.
Proof.
  induction l as [|[m u] l IH]; cbn; intros Hnd Hin; [by apply elem_of_nil in Hin|].
  apply NoDup_cons in Hnd as [Hm Hnd]. apply elem_of_cons in Hin as [[= -> ->]|Hin]; [by rewrite String.eqb_refl|].
  destruct (n =? m)%string eqn:E; [|by apply IH]. apply String.eqb_eq in E as ->. exfalso. apply Hm.
  apply list_elem_of_fmap. by exists (m, v).
Qed.

Lemma go_typed_Forall2 fs : forall cs, go_typed fs cs = true -> Forall2 (fun f kv => f.1 = kv.1 /\ typed f.2 kv.2 = true) fs cs.
Proof.
  induction fs as [|[n e] fs IH]; intros [|[m c] cs] H; try done. cbn in H.
  apply andb_prop in H as [[->%String.eqb_eq Ht]%andb_prop H]. constructor; [done|by apply IH].
Qed.

(** The field loop of [conforms]. *)
Definition go_conforms (l : list (string * json)) := fix go (fs : list (string * (bool * rty))) : bool :=
  match fs with
  | [] => true
  | (n, (omitempty, e)) :: fs => match member n l with Some v => conforms e v | None => omitempty end && go fs
  end.

Lemma typed_conforms t : forall j, wf_ty t = true -> typed t j = true -> conforms (of_ty t) j = true.
Proof.
  induction t as [| | | |e IH|e IH|fs IH] using ty_rect'; intros j Hwf Ht; cbn [of_ty conforms typed] in *.
  - by destruct j.
  - destruct j; try done. cbn in Ht. unfold parses. by destruct (ParseInt lit 10 64).
  - destruct j; try done. cbn in Ht. unfold parses. by destruct (ParseUint lit 10 64).
  - by destruct j.
  - destruct j as [| | | |l|]; try done. rewrite forallb_forall in *. auto.
  - destruct j; try done; by apply IH.
  - destruct j as [| | | | |cs]; try done. change (go_typed fs cs = true) in Ht.
    cbn [wf_ty] in Hwf. apply andb_prop in Hwf as [Hd Hw]. pose proof (go_typed_names _ _ Ht) as Hn.
    pose proof (go_typed_Forall2 _ _ Ht) as H2. pose proof (distinct_NoDup _ Hd) as Hnd.
    set (rfs := map _ fs). assert (map fst rfs = map fst fs) as Hr by (unfold rfs; rewrite map_map; done).
    apply andb_true_intro. split; [apply andb_true_intro; split|].
    + rewrite Hr, <- Hn. apply forallb_forall. intros kv Hkv. apply bool_decide_eq_true, list_elem_of_fmap.
      exists kv. split; [done|]. by apply list_elem_of_In.
    + rewrite Hn. by apply bool_decide_eq_true.
    + change (go_conforms cs rfs = true). rewrite <- Hn in Hnd. clear Hd Ht Hn Hr. unfold rfs.
      assert (forall f, f ∈ fs -> exists v, member f.1 cs = Some v /\ typed f.2 v = true) as Hm.
      { intros f Hf. apply list_elem_of_lookup in Hf as [i Hi]. destruct (Forall2_lookup_l _ _ _ _ _ H2 Hi) as ([m c] & Hc & E1 & E2).
        cbn in *. exists c. split; [|done]. apply assoc_In; [done|]. rewrite E1. by apply list_elem_of_lookup_2 with i. }
      clear H2. induction IH as [|[n e] fs He _ IHf]; [done|]. cbn [map fst snd go_conforms]. cbn in Hw. apply andb_prop in Hw as [Hwe Hwfs].
      destruct (Hm (n, e)) as (v & Hv & Htv); [set_solver|]. cbn [fst snd] in Hv, Htv. rewrite Hv.
      cbn [snd] in He. rewrite (He v Hwe Htv). apply IHf; [done|]. intros f Hf. apply Hm. set_solver.
Qed.

(** ** What the device answers *)
Section answers.
Context {S : Type} `{PS : PoolStore S} `{E : Env} `{MB : Multibase} `{PC : PeerCrypto} `{X : Exec} `{DK : Docker} `{KC : KuboClient}.
Context (o : Options) (dbPath hostname : string) (getenv : string -> string) (uuid_New : nat -> string).
Context (cid_Decode : string -> outcome string) (ipfsClusterApi : option (nat -> string -> string + string)) (chat_cut : nat -> option nat).

(** [gives Q m]: every value [m] returns satisfies [Q]. *)
Definition gives {A : Type} (Q : A -> Prop) (m : M (Node S) A) : Prop := forall w a w', m w = (Ok a, w') -> Q a.

Lemma gives_ret {A} (Q : A -> Prop) a : Q a -> gives Q (ret a).
Proof. by intros H w a' w' [= <- <-]. Qed.
Lemma gives_raise {A} (Q : A -> Prop) e : gives Q (raise e).
Proof. done. Qed.
Lemma gives_panic {A} (Q : A -> Prop) : gives Q panic.
Proof. done. Qed.
Lemma gives_bind {A B} (Q : B -> Prop) (m : M (Node S) A) k : (forall a, gives Q (k a)) -> gives Q (bind m k).
Proof. intros Hk w b w' (a & w1 & _ & H)%bind_Ok_inv. by eapply Hk. Qed.
Lemma gives_bind_with {A B} (P : A -> Prop) (Q : B -> Prop) (m : M (Node S) A) k :
  gives P m -> (forall a, P a -> gives Q (k a)) -> gives Q (bind m k).
Proof. intros Hm Hk w b w' (a & w1 & Ha & H)%bind_Ok_inv. by eapply Hk; [eapply Hm|]. Qed.
Lemma gives_mono {A} (P Q : A -> Prop) (m : M (Node S) A) : (forall a, P a -> Q a) -> gives P m -> gives Q m.
Proof. intros H Hm w a w' Ha. eapply H, Hm, Ha. Qed.

(** A success carries a JSON body of the type. *)
Definition success (r : Resp) : bool := (resp_code r =? StatusOK) || (resp_code r =? StatusAccepted).
Definition answers (t : rty) (r : Resp) : Prop := success r = true -> forall j, resp_body r = BJson j -> conforms t j = true.

Lemma answers_error t msg code : answers t (http_Error msg code).
Proof. by intros _ j. Qed.
Lemma answers_write_error t status message description : success (mkResp status BEmpty) = false ->
  gives (answers t) (writeError (W := Node S) status message description).
Proof. intros Hs. apply gives_bind. intros _. apply gives_ret. intros H. unfold success in *. cbn in *. congruence. Qed.
Lemma answers_json t code j : conforms t j = true -> answers t (mkResp code (BJson j)).
Proof. intros H _ j' [= <-]. exact H. Qed.
End answers.

Definition in_int64 (z : Z) : Prop := - 2 ^ 63 <= z < 2 ^ 63.
Lemma field_int_in l : in_int64 (field_int 0 l).1.
Proof.
  unfold field_int, decode_field.
  assert (forall st : Z * bool, in_int64 st.1 ->
    in_int64 (fold_left (fun st j => match dec_int st.1 j with Some v => (v, st.2) | None => (st.1, false) end) l st).1) as H.
  { induction l as [|j l IH]; intros [v ok] Hv; [exact Hv|]. cbn. apply IH. destruct j; cbn; try done.
    destruct (ParseInt lit 10 64) as [|z] eqn:Ez; cbn; [done|]. apply (ParseInt_range lit 64 z); [lia|done]. }
  apply H. cbn. unfold in_int64. lia.
Qed.
Lemma Itoa_parses z : in_int64 z -> parses (fun lit => ParseInt lit 10 64) (Itoa z) = true.
Proof. intros H. unfold parses. pose proof (Atoi_Itoa z H) as Ha. unfold Atoi in Ha. by rewrite Ha. Qed.

Lemma pool_response_conforms poolID chain : in_int64 poolID -> conforms PoolJoinResponse (pool_response poolID chain) = true.
Proof.
  intros H. unfold pool_response. pose proof (Itoa_parses _ H) as Hp. destruct (chain =? "")%string; cbn -[ParseInt Itoa]; by rewrite Hp.
Qed.

Ltac gives_go :=
  repeat match goal with
  | |- forall _, _ => intro
  | |- gives _ (bind _ _) => apply gives_bind
  | |- gives _ (ret _) => apply gives_ret
  | |- gives _ (raise _) => apply gives_raise
  | |- gives _ panic => apply gives_panic
  | |- answers _ (http_Error _ _) => apply answers_error
  | |- gives _ (writeError _ _ _) => apply answers_write_error; reflexivity
  | |- gives _ (match ?x with _ => _ end) => destruct x
  | |- gives _ (match ?x with _ => _ end _) => destruct x; cbv beta
  end.

Section handlers.
Context {S : Type} `{PS : PoolStore S} `{E : Env} `{MB : Multibase} `{PC : PeerCrypto} `{X : Exec} `{DK : Docker} `{KC : KuboClient}.
Context (o : Options) (hostname : string) (getenv : string -> string) (uuid_New : nat -> string).

Lemma decode_join_in body req : decode_PoolJoinRequest body = Some req -> in_int64 (jr_PoolID req).
Proof.
  unfold decode_PoolJoinRequest. destruct (decode_body body) as [l|]; [|done]. cbn.
  pose proof (field_int_in (obj_field "pool_id" l)) as H. destruct (field_int 0 _) as [p ok1]. cbn in H.
  destruct (field_string "" (obj_field "peer_id" l)) as [k ok2], (field_string "" (obj_field "chain_name" l)) as [c ok3].
  destruct (ok1 && ok2 && ok3); [|done]. by intros [= <-].
Qed.
Lemma decode_leave_in body req : decode_PoolLeaveRequest body = Some req -> in_int64 (lr_PoolID req).
Proof.
  unfold decode_PoolLeaveRequest. destruct (decode_body body) as [l|]; [|done]. cbn.
  pose proof (field_int_in (obj_field "pool_id" l)) as H. destruct (field_int 0 _) as [p ok1]. cbn in H.
  destruct (field_string "" (obj_field "chain_name" l)) as [c ok2]. destruct (ok1 && ok2); [|done]. by intros [= <-].
Qed.

Lemma join_typed body : gives (answers PoolJoinResponse) (HandlePoolJoin (S := S) o body).
Proof.
  unfold HandlePoolJoin. destruct (decode_PoolJoinRequest body) as [req|] eqn:Hd; [|apply gives_ret, answers_error].
  apply decode_join_in in Hd. cbv zeta. gives_go; by apply answers_json, pool_response_conforms.
Qed.

Lemma leave_check_typed left poolID chain :
  gives (fun r => match r with inl resp => answers PoolLeaveResponse resp | inr _ => True end) (leave_check (S := S) o left poolID chain).
Proof.
  induction left as [|left IH]; cbn [leave_check]; [by apply gives_ret|].
  apply gives_bind. intros [e|[member pending]].
  - eapply gives_bind_with; [apply answers_write_error; reflexivity|]. intros r Hr. by apply gives_ret.
  - cbv zeta. destruct (negb (member || pending) || bool_decide (left = 0%nat)); [by apply gives_ret|].
    apply gives_bind. intros [|]; [exact IH|].
    eapply gives_bind_with; [apply answers_write_error; reflexivity|]. intros r Hr. by apply gives_ret.
Qed.

Lemma leave_typed body : gives (answers PoolLeaveResponse) (HandlePoolLeave (S := S) o body).
Proof.
  unfold HandlePoolLeave. destruct (decode_PoolLeaveRequest body) as [req|] eqn:Hd; [|apply gives_ret, answers_error].
  apply decode_leave_in in Hd. cbv zeta.
  destruct (poolHost o); [by apply answers_write_error|]. apply gives_bind. intros pool.
  match goal with |- gives _ (if ?b then _ else _) => destruct b end; [by apply answers_write_error|].
  match goal with |- gives _ (if ?b then _ else _) => destruct b end.
  { apply gives_bind. intros _. apply gives_ret, answers_json, (pool_response_conforms _ _ Hd). }
  apply gives_bind. intros chain. apply gives_bind. intros chainName.
  match goal with |- gives _ (if ?b then _ else _) => destruct b end; [by apply answers_write_error|].
  eapply gives_bind_with; [apply leave_check_typed|]. intros [resp|[|]] Hr; cbn [leave_finish]; [by apply gives_ret|by apply answers_write_error|].
  gives_go. apply answers_json, (pool_response_conforms _ _ Hd).
Qed.

Lemma respond_typed t code j : conforms t j = true -> gives (answers t) (AutoPin.respond (S := S) code j).
Proof. intros H. apply gives_bind. intros _. by apply gives_ret, answers_json. Qed.

Lemma pair_typed body : gives (answers AutoPinPairResponse) (handleAutoPinPair (S := S) getenv uuid_New body).
Proof. unfold handleAutoPinPair. cbv zeta. gives_go; by apply respond_typed. Qed.
Lemma refresh_typed body : gives (answers AutoPinRefreshResponse) (handleAutoPinRefresh (S := S) body).
Proof. unfold handleAutoPinRefresh. gives_go; by apply respond_typed. Qed.
Lemma unpair_typed : gives (answers AutoPinUnpairResponse) (handleAutoPinUnpair (S := S)).
Proof. unfold handleAutoPinUnpair. cbv zeta. gives_go; by apply respond_typed. Qed.

Lemma nas_conforms st c h : conforms NasCredentialsResponse (nas_response st c h) = true.
Proof.
  unfold nas_response, opt_field. destruct (nc_Username c =? "")%string, (nc_Password c =? "")%string, (nc_Share c =? "")%string,
    (nc_CreatedAt c =? "")%string, (h =? "")%string; reflexivity.
Qed.
Lemma nas_typed body : gives (answers NasCredentialsResponse) (handleNasCredentials (S := S) hostname body).
Proof.
  unfold handleNasCredentials, writeNasCredentialsStatus. cbv zeta. gives_go; apply answers_json, nas_conforms.
Qed.

(** *** The hardware handlers, over the operations of wap/pkg/wifi *)
Lemma answer_typed t code (m : M (Node S) json) : gives (fun j => conforms t j = true) m ->
  gives (answers t) (out <- m;; Hardware.answer code out).
Proof. intros Hm. eapply gives_bind_with; [exact Hm|]. intros j Hj. apply gives_bind. intros _. by apply gives_ret, answers_json. Qed.

Lemma op_json_typed t (m : M (Node S) json) : returns m -> gives (fun j => conforms t j = true) m ->
  gives (fun j => conforms t j = true) (op_json (as_json m)).
Proof.
  intros Hr Hm w j w'. destruct (Hr w) as (j0 & w0 & H0). unfold op_json, as_json. rewrite H0. intros [= <- <-]. by eapply Hm.
Qed.
Lemma op_or_typed {A} t (m : M (Node S) A) bad good :
  (forall e, conforms t (bad e) = true) -> gives (fun a => conforms t (good a) = true) m ->
  gives (fun j => conforms t j = true) (op_or (as_sum m) bad good).
Proof.
  intros Hb Hm w j w'. unfold op_or, as_sum. destruct (m w) as [[a|e|] w1] eqn:Ea; intros [= <- <-]; [by eapply Hm|apply Hb|apply Hb].
Qed.

Ltac by_branch := repeat match goal with |- context [match ?x with _ => _ end] => is_var x; destruct x | |- context [co_err ?c] => destruct (co_err c) end; reflexivity.

Definition MsgStatus := RStruct [fld "msg" RStr; fld "status" RBool].
Lemma msg_status_conforms m b : conforms MsgStatus (msg_status m b) = true.
Proof. done. Qed.
Lemma touch_typed p : gives (fun j => conforms MsgStatus j = true) (touch_new (S := S) p).
Proof. unfold touch_new. gives_go; reflexivity. Qed.
Lemma fula_config_typed : gives (fun j => conforms MsgStatus j = true) (Wifi.DeleteFulaConfig (S := S)).
Proof. unfold Wifi.DeleteFulaConfig. gives_go; by_branch. Qed.
Lemma delete_typed n : gives (fun j => conforms MsgStatus j = true) (Wifi.DeleteWifi (S := S) n).
Proof. unfold Wifi.DeleteWifi. gives_go; by_branch. Qed.
Lemma disconnect_typed n : gives (fun j => conforms MsgStatus j = true) (Wifi.DisconnectNamedWifi (S := S) n).
Proof. unfold Wifi.DisconnectNamedWifi. gives_go; by_branch. Qed.
Lemma removeall_typed : gives (fun j => conforms MsgStatus j = true) (Wifi.WifiRemoveall (S := S)).
Proof. unfold Wifi.WifiRemoveall. gives_go; by_branch. Qed.
Lemma erase_typed : gives (fun j => conforms EraseBlDataResponse j = true) (Wifi.EraseBlData (S := S)).
Proof. unfold Wifi.EraseBlData. gives_go; by_branch. Qed.

Lemma space_typed : gives (fun j => conforms BloxFreeSpaceResponse j = true) (WifiProps.GetBloxFreeSpace (S := S)).
Proof.
  unfold WifiProps.GetBloxFreeSpace. apply gives_bind. intros [s|e st|e]; [|apply gives_raise..].
  destruct (split_char "," (TrimSpace s)) as [|c [|a [|b [|d [|f [|? ?]]]]]]; try apply gives_raise.
  destruct (Atoi c) as [|n] eqn:Ec; [apply gives_raise|].
  assert (forall s t, parse_float32 s = Some t -> is_num t = true) as Hf.
  { intros s0 t0. unfold parse_float32. destruct (decimal_numeral s0); [|done]. apply float_text_num. }
  destruct (parse_float32 (or_zero a)) as [fa|] eqn:Ea; [|apply gives_raise].
  destruct (parse_float32 (or_zero b)) as [fb|] eqn:Eb; [|apply gives_raise].
  destruct (parse_float32 (or_zero d)) as [fd|] eqn:Ed; [|apply gives_raise].
  destruct (parse_float32 (or_zero f)) as [ff|] eqn:Ef; [|apply gives_raise].
  apply gives_ret. unfold free_space_json. cbn -[ParseInt Itoa is_num].
  assert (in_int64 n) as Hn by (apply (ParseInt_range c 64 n); [lia|done]).
  rewrite (Itoa_parses _ Hn), (Hf _ _ Ea), (Hf _ _ Eb), (Hf _ _ Ed), (Hf _ _ Ef). reflexivity.
Qed.

Lemma datastore_typed : gives (fun j => conforms GetDatastoreSizeResponse j = true) (WifiProps.GetDatastoreSize (S := S)).
Proof.
  unfold WifiProps.GetDatastoreSize. apply gives_bind. intros [e|[data|]]; [apply gives_raise| |apply gives_raise].
  destruct (decode_repo_stat data) as [j|] eqn:Ej; [|apply gives_raise]. apply gives_ret.
  unfold decode_repo_stat in Ej. destruct (json_parse data) as [v|]; [|done]. cbn in Ej. destruct (as_object v) as [l|]; [|done]. cbn in Ej.
  destruct (field_int 0 (obj_field "RepoSize" l)), (field_int 0 (obj_field "StorageMax" l)), (field_int 0 (obj_field "NumObjects" l)),
    (field_string "" (obj_field "RepoPath" l)), (field_string "" (obj_field "Version" l)).
  match type of Ej with (if ?c then _ else _) = _ => destruct c end; [|done]. by injection Ej as <-.
Qed.

Lemma one_field n t v : conforms (RStruct [fld n t]) (JObj [(n, v)]) = conforms t v.
Proof.
  cbn -[bool_decide]. rewrite !bool_decide_true; [|by apply NoDup_singleton|set_solver]. cbn. unfold member. cbn.
  rewrite String.eqb_refl. by rewrite andb_true_r.
Qed.

Lemma dates_typed cs : gives (fun l => forallb (conforms DockerImageBuildDate) l = true) (build_dates (S := S) cs).
Proof.
  induction cs as [|c cs IH]; cbn [build_dates]; [by apply gives_ret|]. cbv zeta. apply gives_bind. intros [e|i]; [exact IH|].
  eapply gives_bind_with; [exact IH|]. intros l Hl. apply gives_ret. cbn [forallb]. by rewrite Hl.
Qed.
Lemma images_typed : gives (fun j => conforms GetDockerImageBuildDatesResponse j = true) (WifiProps.GetDockerImageBuildDates (S := S)).
Proof.
  unfold WifiProps.GetDockerImageBuildDates. apply gives_bind. intros [e|cs]; [apply gives_raise|].
  eapply gives_bind_with; [apply dates_typed|]. intros [|x l] Hl; apply gives_ret; [done|].
  unfold GetDockerImageBuildDatesResponse. rewrite one_field. exact Hl.
Qed.

Lemma hardware_typed :
  (forall b, gives (answers BloxFreeSpaceResponse) (handleBloxFreeSpace (W := Node S) b)) /\
  (forall b, gives (answers EraseBlDataResponse) (handleEraseBlData (W := Node S) b)) /\
  (forall b, gives (answers WifiRemoveallResponse) (handleWifiRemoveall (W := Node S) b)) /\
  (forall b, gives (answers RebootResponse) (handleReboot (W := Node S) b)) /\
  (forall b, gives (answers PartitionResponse) (handlePartition (W := Node S) b)) /\
  (forall b, gives (answers DeleteFulaConfigResponse) (handleDeleteFulaConfig (W := Node S) b)) /\
  (forall b, gives (answers DeleteWifiResponse) (handleDeleteWifi (W := Node S) b)) /\
  (forall b, gives (answers DeleteWifiResponse) (handleDisconnectWifi (W := Node S) b)).
Proof.
  destruct (wifi_json_total (S := S)) as (T1 & T2 & T3 & T4 & T5 & T6 & T7).
  split; [|split; [|split; [|split; [|split; [|split; [|split]]]]]]; intros b.
  - apply answer_typed, op_or_typed; [reflexivity|apply space_typed].
  - apply answer_typed, op_json_typed; [exact T1|apply erase_typed].
  - apply answer_typed, op_json_typed; [exact T2|apply removeall_typed].
  - apply answer_typed, op_json_typed; [exact T3|apply touch_typed].
  - apply answer_typed, op_json_typed; [exact T4|apply touch_typed].
  - apply answer_typed, op_json_typed; [exact T5|apply fula_config_typed].
  - unfold handleDeleteWifi. destruct (decode_1 "name" b) as [n|]; [|apply gives_ret, answers_error].
    apply answer_typed, (op_json_typed _ (Wifi.DeleteWifi n)); [apply T6|apply delete_typed].
  - unfold handleDisconnectWifi. destruct (decode_1 "name" b) as [n|]; [|apply gives_ret, answers_error].
    apply answer_typed, (op_json_typed _ (Wifi.DisconnectNamedWifi n)); [apply T7|apply disconnect_typed].
Qed.

Lemma information_typed :
  (forall b, gives (answers FetchContainerLogsResponse) (handleFetchContainerLogs (W := Node S) b)) /\
  (forall b, gives (answers FindBestAndTargetInLogsResponse) (handleFindBestAndTargetInLogs (W := Node S) b)) /\
  (forall b, gives (answers GetFolderSizeResponse) (handleGetFolderSize (W := Node S) b)) /\
  (forall b, gives (answers GetDatastoreSizeResponse) (handleGetDatastoreSize (W := Node S) b)) /\
  (forall b, gives (answers GetDockerImageBuildDatesResponse) (handleGetDockerImageBuildDates (W := Node S) b)) /\
  (forall b, gives (answers GetClusterInfoResponse) (handleGetClusterInfo (W := Node S) b)).
Proof.
  split; [|split; [|split; [|split; [|split]]]]; intros b.
  - unfold handleFetchContainerLogs. destruct (decode_2 "ContainerName" "TailCount" b) as [[c t]|]; [|apply gives_ret, answers_error].
    apply answer_typed, (op_or_typed _ (WifiProps.FetchContainerLogs c t)); [reflexivity|by intros w a w' _].
  - unfold handleFindBestAndTargetInLogs. destruct (decode_2 "NodeContainerName" "TailCount" b) as [[c t]|]; [|apply gives_ret, answers_error].
    apply answer_typed, (op_or_typed _ (WifiProps.FindBestAndTargetInLogs c t)); [reflexivity|by intros w a w' _].
  - unfold handleGetFolderSize. destruct (decode_1 "folder_path" b) as [pth|]; [|apply gives_ret, answers_error].
    apply answer_typed, (op_or_typed _ (WifiProps.GetFolderSize pth)); [reflexivity|by intros w a w' _].
  - unfold handleGetDatastoreSize. destruct (decode_body b) as [l|]; [|apply gives_ret, answers_error].
    apply answer_typed, (op_or_typed _ WifiProps.GetDatastoreSize); [reflexivity|apply datastore_typed].
  - apply answer_typed, op_or_typed; [reflexivity|apply images_typed].
  - apply answer_typed, op_or_typed; [reflexivity|by intros w a w' _].
Qed.
End handlers.

(** *** Relayed answers

    An error of the upstream API is passed on under its status, whichever it is. *)
Definition error_object (j : json) : Prop := j = JNull \/ exists m d, j = errMsg m d.
Definition relayed (t : rty) (r : Resp) : Prop :=
  success r = true -> forall j, resp_body r = BJson j -> conforms t j = true \/ error_object j.

Section relays.
Context {S : Type} `{PS : PoolStore S} `{E : Env} `{MB : Multibase} `{PC : PeerCrypto} `{X : Exec} `{DK : Docker} `{KC : KuboClient}.
Context (o : Options) (dbPath hostname : string) (getenv : string -> string) (uuid_New : nat -> string).
Context (cid_Decode : string -> outcome string) (ipfsClusterApi : option (nat -> string -> string + string)) (chat_cut : nat -> option nat).

Lemma relayed_answers t r : answers t r -> relayed t r.
Proof. intros H Hs j Hj. left. by apply H. Qed.

Lemma response_json_typed t b : wf_ty t = true -> conforms (of_ty t) (response_json t b) = true \/ response_json t b = JNull.
Proof.
  intros Hwf. unfold response_json. destruct (json_parse b) as [j|]; [|left; apply typed_conforms, zero_typed; done].
  unfold decode_new. destruct j; try (by right); left; apply typed_conforms, decode_typed, zero_typed; done.
Qed.

Lemma action_typed method action q rt body : relay_types action = Some (q, rt) -> wf_ty rt = true ->
  gives (relayed (of_ty rt)) (handleAction (S := S) o dbPath method action body).
Proof.
  intros Hr Hwf. unfold handleAction. rewrite Hr. destruct (decode_request q body) as [req|]; [|apply gives_ret, relayed_answers, answers_error].
  apply gives_bind. intros [[st e]|[b st]].
  - apply gives_bind. intros _. apply gives_ret. intros _ j [= <-]. right. right. by do 2 eexists.
  - destruct (negb (st =? StatusOK)).
    + apply gives_bind. intros _. apply gives_ret. intros _ j Hj. destruct (is_json_map b); [done|]. injection Hj as <-. right. right. by do 2 eexists.
    + apply gives_bind. intros _. apply gives_ret. intros _ j [= <-]. destruct (response_json_typed rt b Hwf) as [H|H]; [by left|by right; left].
Qed.

Lemma upload_typed body : gives (relayed (of_ty ManifestBatchUploadResponse)) (manifestBatchUpload (S := S) o body).
Proof.
  assert (forall st m d, gives (relayed (of_ty ManifestBatchUploadResponse)) (writeError (W := Node S) st m d)) as He.
  { intros st m d. apply gives_bind. intros _. apply gives_ret. intros _ j [= <-]. right. right. by do 2 eexists. }
  assert (gives (relayed (of_ty ManifestBatchUploadResponse)) (batch_accepted (S := S))) as Ha.
  { apply gives_bind. intros _. by apply gives_ret, relayed_answers, answers_json. }
  unfold manifestBatchUpload. destruct (decode_struct ManifestBatchUploadMobileRequest body); [|apply gives_ret, relayed_answers, answers_error].
  unfold handleActionManifestBatchUpload, failed_dependency.
  match goal with |- gives _ (if ?b then _ else _) => destruct b end; [|exact Ha]. apply gives_bind. intros [e|ep]; [apply He|].
  match goal with |- gives _ (if ?b then _ else _) => destruct b end; [|apply He]. apply gives_bind. intros [e|st b]; [apply He|].
  match goal with |- gives _ (if ?b then _ else _) => destruct b end; [apply He|exact Ha].
Qed.

(** The type of a handler's answers; the ones that answer in another form have none. *)
Definition handler_type (h : Handler) : option rty :=
  match h with
  | HAction _ action => '(_, rt) ← relay_types action; Some (of_ty rt)
  | HPoolJoin => Some PoolJoinResponse
  | HPoolLeave => Some PoolLeaveResponse
  | HManifestBatchUpload => Some (of_ty ManifestBatchUploadResponse)
  | HBloxFreeSpace => Some BloxFreeSpaceResponse
  | HWifiRemoveall => Some WifiRemoveallResponse
  | HReboot => Some RebootResponse
  | HPartition => Some PartitionResponse
  | HDeleteFulaConfig => Some DeleteFulaConfigResponse
  | HDeleteWifi | HDisconnectWifi => Some DeleteWifiResponse
  | HEraseBlData => Some EraseBlDataResponse
  | HFetchContainerLogs => Some FetchContainerLogsResponse
  | HFindBestAndTargetInLogs => Some FindBestAndTargetInLogsResponse
  | HGetFolderSize => Some GetFolderSizeResponse
  | HGetDatastoreSize => Some GetDatastoreSizeResponse
  | HGetDockerImageBuildDates => Some GetDockerImageBuildDatesResponse
  | HGetClusterInfo => Some GetClusterInfoResponse
  | HAutoPinPair => Some AutoPinPairResponse
  | HAutoPinRefresh => Some AutoPinRefreshResponse
  | HAutoPinUnpair => Some AutoPinUnpairResponse
  | HNasCredentials => Some NasCredentialsResponse
  | HPoolCancelJoin | HReplicateInPool | HAuthorization | HGetAccount | HChatWithAI | HPlugin _ => None
  end.
Definition relays (h : Handler) : bool := match h with HAction _ _ | HManifestBatchUpload => true | _ => false end.

Lemma handler_types action h t : route action = Some h -> handler_type h = Some t -> Abi.assoc action responseTypes = Some t.
Proof.
  intros Hr. unfold route in Hr. apply elem_of_list_to_map_2 in Hr.
  assert (forall kv, kv ∈ actionMap -> handler_type kv.2 = None \/ Abi.assoc kv.1 responseTypes = handler_type kv.2) as Hall.
  { apply Forall_forall. unfold actionMap. repeat (apply List.Forall_cons; [first [left; reflexivity | right; reflexivity]|]). apply List.Forall_nil. }
  destruct (Hall _ Hr) as [H|H]; cbn [fst snd] in H; congruence.
Qed.

Lemma relay_wf action q rt : relay_types action = Some (q, rt) -> wf_ty rt = true.
Proof.
  intros Hr. unfold relay_types in Hr. apply elem_of_list_to_map_2 in Hr.
  assert (Forall (fun kv => wf_ty kv.2.2 = true) relayTypes) as Hall by (apply (bool_decide_eq_true_1 _); vm_compute; reflexivity).
  rewrite Forall_forall in Hall. exact (Hall _ Hr).
Qed.

Lemma own_handler_typed h t from body : handler_type h = Some t -> relays h = false ->
  gives (answers t) (run_handler o dbPath hostname getenv uuid_New cid_Decode ipfsClusterApi chat_cut h from body).
Proof.
  pose proof (hardware_typed (S := S)) as (H1 & H2 & H3 & H4 & H5 & H6 & H7 & H8).
  pose proof (information_typed (S := S) getenv) as (I1 & I2 & I3 & I4 & I5 & I6).
  destruct h; cbn [handler_type relays run_handler]; try done; intros Ht _; apply (inj Some) in Ht; subst t;
    auto using join_typed, leave_typed, pair_typed, refresh_typed, unpair_typed, nas_typed.
Qed.

(** The actions whose answers have another form than the registered type, or whose type is not
    registered: cancelling a join (its answer is made by hand from the upstream one),
    replication, authorization, the account, the chat stream and the plugin actions. *)
Definition other_form : list string :=
  [actionPoolCancelJoin; actionReplicateInPool; actionAuth; actionGetAccount; actionChatWithAI;
   actionListPlugins; actionListActivePlugins; actionInstallPlugin; actionUninstallPlugin; actionShowPluginStatus;
   actionGetInstallOutput; actionGetInstallStatus; actionUpdatePlugin].

Lemma routed_type action h : route action = Some h -> action ∉ other_form ->
  exists t, handler_type h = Some t /\ Abi.assoc action responseTypes = Some t.
Proof.
  intros Hr Ho. assert (forall kv, kv ∈ actionMap -> kv.1 ∈ other_form \/ handler_type kv.2 <> None) as Hall.
  { apply Forall_forall, (bool_decide_eq_true_1 _). vm_compute. reflexivity. }
  pose proof Hr as Hr'. unfold route in Hr'. apply elem_of_list_to_map_2 in Hr'.
  destruct (Hall _ Hr') as [H|H]; [done|]. cbn [fst snd] in H. destruct (handler_type h) as [t|] eqn:Ht; [|done].
  exists t. split; [done|]. by eapply handler_types.
Qed.

(** C32. What the device answers has the type it registered. For every action of the dispatch
    table except the thirteen of [other_form], a response type is registered, and an answer
    with a status of success and a JSON body is a value of that type, field for field; where
    the action is relayed, the answer passed on may instead be the upstream API's error object
    or null. (Of the actions left out, [plugin_types_wrong] and [replicate_type_wrong] show
    that the plugin actions and replication answer something else than their registered
    type.) *)
Theorem answers_typed action h from body w r w' j :
  route action = Some h -> action ∉ other_form ->
  run_handler o dbPath hostname getenv uuid_New cid_Decode ipfsClusterApi chat_cut h from body w = (Ok r, w') ->
  success r = true -> resp_body r = BJson j ->
  exists t, Abi.assoc action responseTypes = Some t /\ (conforms t j = true \/ (relays h = true /\ error_object j)).
Proof.
  intros Hr Ho Hrun Hs Hj. destruct (routed_type _ _ Hr Ho) as (t & Ht & Hty). exists t. split; [done|].
  destruct (relays h) eqn:Hrel.
  - assert (gives (relayed t) (run_handler o dbPath hostname getenv uuid_New cid_Decode ipfsClusterApi chat_cut h from body)) as Hg.
    { destruct h; try done; cbn [handler_type run_handler] in *.
      - destruct (relay_types action0) as [[q rt]|] eqn:Ety; [|done]. injection Ht as <-.
        by eapply action_typed; [|eapply relay_wf].
      - injection Ht as <-. apply upload_typed. }
    destruct (Hg _ _ _ Hrun Hs _ Hj); auto.
  - left. eapply own_handler_typed; eauto.
Qed.
End relays.

(** A device without devices asked for its free space, and told to reboot. *)
Section concrete.
#[local] Existing Instances memStore rawMultibase toyCrypto chainEnv bareExec bareDocker bareKubo.

Lemma answers_typed_witness :
  (exists r w', run_handler toy_options "/internal" "blox" (fun _ => "") (fun _ => "uuid") (fun s => Ok s) None (fun _ => None)
     HReboot "bob" None member_of_seven = (Ok r, w') /\ resp_code r = 200 /\
     resp_body r = BJson (msg_status "File created" true)) /\
  conforms RebootResponse (msg_status "File created" true) = true.
Proof.
  assert (exists w', run_handler toy_options "/internal" "blox" (fun _ => "") (fun _ => "uuid") (fun s => Ok s) None (fun _ => None)
     HReboot "bob" None member_of_seven = (Ok (mkResp 200 (BJson (msg_status "File created" true))), w')) as [w' H]
    by (eexists; vm_compute; reflexivity).
  split; [by exists (mkResp 200 (BJson (msg_status "File created" true))), w'|].
  destruct (answers_typed toy_options "/internal" "blox" (fun _ => "") (fun _ => "uuid") (fun s => Ok s) None (fun _ => None)
    actionReboot HReboot "bob" None member_of_seven _ w' (msg_status "File created" true)
    ltac:(vm_compute; reflexivity) ltac:(apply (bool_decide_eq_true_1 _); vm_compute; reflexivity) H eq_refl eq_refl)
    as (t & Ht & [Hc|[Hx _]]); [|discriminate Hx].
  assert (Abi.assoc actionReboot responseTypes = Some RebootResponse) as Ht' by reflexivity.
  rewrite Ht' in Ht. injection Ht as <-. exact Hc.
Defined.
End concrete.

(** *** The plugin actions

    Their answers are an object with msg and status, or a bare array, which is none of the
    registered types but UpdatePluginResponse. *)
Theorem plugin_types_wrong msg st lines :
  let reply := JObj [("msg", msg); ("status", JBool st)] in
  (nums_ok msg = true -> json_parse (plugin_reply msg st) = Some reply) /\
  Forall (fun t => conforms t reply = false)
    [ListPluginsResponse; ListActivePluginsResponse; InstallPluginResponse; UninstallPluginResponse; GetInstallOutputResponse;
     GetInstallStatusResponse] /\
  conforms ShowPluginStatusResponse (JArr lines) = false /\
  conforms UpdatePluginResponse (JObj [("msg", JStr ""); ("status", JBool st)]) = true.
Proof.
  cbv zeta. split; [|split; [repeat constructor|split; reflexivity]].
  intros H. apply parse_print. cbn. by rewrite H.
Qed.

(** ReplicateResponse has a list of manifests; the answer to a replication is a list of CIDs. *)
Lemma replicate_type_wrong l : conforms (of_ty ReplicateResponse) (JArr (map JStr l)) = false.
Proof. reflexivity. Qed.
