(* ===== verification/MobileApi.v ===== *)
(** * mobile/blockchain.go: the calls of the phone application

    Every method of the phone's client runs as one operation: refused once the client is
    closed, counted while it runs. It builds the request struct, written here as the JSON it
    encodes to, and makes one of the client calls of Clients.v to the configured device.
    Chat streams are kept under generated ids. ShowPluginStatus runs its command on the
    phone itself. *)

From S2P Require Import Prelude GoStd Json JsonPrint GoPath SignedAuth Effects Access Node Disk Clients Chat Mobile Schema Relay Plugins.

#[local] Open Scope string_scope.
#[local] Open Scope Z_scope.

Record App := mkApp {
  app_life : Life;
  app_client : Clients.Client;
  app_streams : gmap string StreamBuffer;
  app_ops : nat                       (** operations begun so far *)
}.

Definition ErrClientClosed := "fula mobile client is closed".

Section api.
Context `{E : Env} (peer_text : string -> string) (configured : bool) (bloxPid : string) (new_uuid : nat -> string).

(** beginOp, the call, and the deferred release. *)
Definition with_op {A : Type} (m : M Clients.Client A) : M App A :=
  fun s =>
    let t := app_ops s in
    match beginOp t (app_life s) with
    | None => (Err ErrClientClosed, s)
    | Some l =>
        let '(r, c) := m (app_client s) in
        (r, mkApp (done_op t l) c (app_streams s) (S t))
    end.

(** ** Requests *)
Definition account_request (account : string) : json := JObj [("account", JStr account)].
Definition assets_request (account : string) (assetId classId : Z) : json :=
  JObj [("account", JStr account); ("class_id", JNum (Itoa (wrapU 64 classId))); ("asset_id", JNum (Itoa (wrapU 64 assetId)))].
Definition fund_request (account : string) : json := JObj [("amount", JNum "1000000000000000000"); ("to", JStr account)].
Definition transfer_request (wallet : string) (amount : Z) (chain : string) : json :=
  JObj [("wallet_account", JStr wallet); ("amount", JNum (Itoa amount)); ("chain", JStr chain)].
Definition pool_request (poolID : Z) : json := JObj [("pool_id", JNum (Itoa poolID))].
(** chain_name has omitempty. *)
Definition opt_chain (chainName : string) : list (string * json) :=
  if (chainName =? "")%string then [] else [("chain_name", JStr chainName)].
Definition join_request (poolID : Z) (chainName : string) : json :=
  JObj ([("pool_id", JNum (Itoa poolID)); ("peer_id", JStr (peer_text bloxPid))] ++ opt_chain chainName).
Definition leave_request (poolID : Z) (chainName : string) : json := JObj (("pool_id", JNum (Itoa poolID)) :: opt_chain chainName).
Definition user_list_request (poolID : Z) : json := JObj [("pool_id", JNum (Itoa poolID)); ("request_pool_id", JNum "0")].
Definition cids (cidsBytes : string) : list string := Split cidsBytes "|".
Definition upload_request (cidsBytes : string) (poolID replicationFactor : Z) : json :=
  JObj [("cid", JArr (map JStr (cids cidsBytes))); ("pool_id", JNum (Itoa poolID)); ("replication_factor", JNum (Itoa replicationFactor))].
Definition replicate_request (cidsBytes account : string) (poolID : Z) : json :=
  JObj [("cids", JArr (map JStr (cids cidsBytes))); ("uploader", JStr account); ("pool_id", JNum (Itoa poolID))].
Definition name_request (name : string) : json := JObj [("name", JStr name)].

(** ** The methods *)
Definition App_AccountExists (account : string) : M App string :=
  with_op (Clients.AccountExists peer_text configured bloxPid (account_request account)).
Definition App_AccountCreate : M App string :=
  with_op (Clients.AccountCreate peer_text configured bloxPid).
Definition App_AccountBalance (account : string) : M App string :=
  with_op (Clients.AccountBalance peer_text configured bloxPid (account_request account)).

(** The amount comes back as a string. *)
Definition amount_text (response : string) : option string :=
  j ← json_parse response;
  let '(v, ok) := decode Schema.AssetsBalanceResponse (zero Schema.AssetsBalanceResponse) j in
  if ok : bool then
    match field "amount" v with
    | JNum lit => match ParseUint lit 10 64 with
                  | inr n => Some (json_print (JObj [("amount", JStr (FormatUint n 10))])) | inl _ => None end
    | _ => None
    end
  else None.

Definition App_AssetsBalance (account : string) (assetId classId : Z) : M App string :=
  with_op (
    responseBytes <- Clients.AssetsBalance peer_text configured bloxPid (assets_request account assetId classId);;
    match amount_text responseBytes with Some t => ret t | None => raise "json" end).

Definition App_AccountFund (account : string) : M App string :=
  with_op (Clients.AccountFund peer_text configured bloxPid (fund_request account)).

Definition App_TransferToFula (amountStr walletAccount chain : string) : M App string :=
  with_op (
    match ParseUint amountStr 10 64 with
    | inl _ => raise "invalid amount"
    | inr amount => Clients.TransferToFula peer_text configured bloxPid chain (transfer_request walletAccount amount chain)
    end).

Definition App_PoolJoin (poolID : Z) : M App string :=
  with_op (Clients.PoolJoin peer_text configured bloxPid (join_request poolID "")).
Definition App_PoolJoinWithChain (poolID : Z) (chainName : string) : M App string :=
  with_op (Clients.PoolJoin peer_text configured bloxPid (join_request poolID chainName)).
Definition App_PoolCancelJoin (poolID : Z) : M App string :=
  with_op (Clients.PoolCancelJoin peer_text configured bloxPid (pool_request poolID)).
Definition App_PoolRequests (poolID : Z) : M App string :=
  with_op (Clients.PoolRequests peer_text configured bloxPid (pool_request poolID)).
Definition App_PoolList : M App string :=
  with_op (Clients.PoolList peer_text configured bloxPid (JObj [])).
Definition App_PoolUserList (poolID : Z) : M App string :=
  with_op (Clients.PoolUserList peer_text configured bloxPid (user_list_request poolID)).
Definition App_PoolLeave (poolID : Z) : M App string :=
  with_op (Clients.PoolLeave peer_text configured bloxPid (leave_request poolID "")).
Definition App_PoolLeaveWithChain (poolID : Z) (chainName : string) : M App string :=
  with_op (Clients.PoolLeave peer_text configured bloxPid (leave_request poolID chainName)).
Definition App_ManifestAvailable (poolID : Z) : M App string :=
  with_op (Clients.ManifestAvailable peer_text configured bloxPid (pool_request poolID)).
Definition App_BatchUploadManifest (cidsBytes : string) (poolID replicationFactor : Z) : M App string :=
  with_op (Clients.ManifestBatchUpload peer_text configured bloxPid (upload_request cidsBytes poolID replicationFactor)).

(** The error is returned as a JSON document in place of the answer. *)
Definition error_json (e : string) : string := json_print (JObj [("error", JStr e)]).
Definition App_ReplicateInPool (cidsBytes account : string) (poolID : Z) : M App string :=
  r <- try (with_op (Clients.ReplicateInPool peer_text configured bloxPid (replicate_request cidsBytes account poolID)));;
  ret (match r with inr b => b | inl e => error_json e end).

(** *** Hardware *)
Definition App_BloxFreeSpace : M App string :=
  with_op (Clients.BloxFreeSpace peer_text configured bloxPid).
Definition App_EraseBlData : M App string :=
  with_op (Clients.EraseBlData peer_text configured bloxPid).
Definition App_WifiRemoveall : M App string :=
  with_op (Clients.WifiRemoveall peer_text configured bloxPid).
Definition App_Reboot : M App string :=
  with_op (Clients.Reboot peer_text configured bloxPid).
Definition App_Partition : M App string :=
  with_op (Clients.Partition peer_text configured bloxPid).
Definition App_DeleteFulaConfig : M App string :=
  with_op (Clients.DeleteFulaConfig peer_text configured bloxPid).
Definition App_GetAccount : M App string :=
  with_op (Clients.GetAccount peer_text configured bloxPid).
Definition App_DeleteWifi (name : string) : M App string :=
  with_op (Clients.DeleteWifi peer_text configured bloxPid (name_request name)).
Definition App_DisconnectWifi (name : string) : M App string :=
  with_op (Clients.DisconnectWifi peer_text configured bloxPid (name_request name)).
Definition App_FetchContainerLogs (ContainerName TailCount : string) : M App string :=
  with_op (Clients.FetchContainerLogs peer_text configured bloxPid (JObj [("ContainerName", JStr ContainerName); ("TailCount", JStr TailCount)])).
Definition App_FindBestAndTargetInLogs (NodeContainerName TailCount : string) : M App string :=
  with_op (Clients.FindBestAndTargetInLogs peer_text configured bloxPid (JObj [("NodeContainerName", JStr NodeContainerName); ("TailCount", JStr TailCount)])).
Definition App_GetFolderSize (folderPath : string) : M App string :=
  with_op (Clients.GetFolderSize peer_text configured bloxPid (JObj [("folder_path", JStr folderPath)])).
Definition App_GetDatastoreSize : M App string :=
  with_op (Clients.GetDatastoreSize peer_text configured bloxPid (JObj [])).
Definition App_GetDockerImageBuildDates : M App string :=
  with_op (Clients.GetDockerImageBuildDates peer_text configured bloxPid).
Definition App_GetClusterInfo : M App string :=
  with_op (Clients.GetClusterInfo peer_text configured bloxPid).

(** *** Plugins and auto-pin *)
Definition App_ListPlugins : M App string :=
  with_op (Clients.ListPlugins peer_text configured bloxPid).
Definition App_ListActivePlugins : M App string :=
  with_op (Clients.ListActivePlugins peer_text configured bloxPid).
Definition App_InstallPlugin (pluginName params : string) : M App string :=
  with_op (Clients.InstallPlugin peer_text configured bloxPid pluginName params).
Definition App_UninstallPlugin (pluginName : string) : M App string :=
  with_op (Clients.UninstallPlugin peer_text configured bloxPid pluginName).
Definition App_GetInstallOutput (pluginName params : string) : M App string :=
  with_op (Clients.GetInstallOutput peer_text configured bloxPid pluginName params).
Definition App_GetInstallStatus (pluginName : string) : M App string :=
  with_op (Clients.GetInstallStatus peer_text configured bloxPid pluginName).
Definition App_UpdatePlugin (pluginName : string) : M App string :=
  with_op (Clients.UpdatePlugin peer_text configured bloxPid pluginName).
Definition App_AutoPinPair (token endpoint : string) : M App string :=
  with_op (Clients.AutoPinPair peer_text configured bloxPid (JObj [("pinning_token", JStr token); ("pinning_endpoint", JStr endpoint)])).
Definition App_AutoPinRefresh (token : string) : M App string :=
  with_op (Clients.AutoPinRefresh peer_text configured bloxPid (JObj [("pinning_token", JStr token)])).
Definition App_AutoPinUnpair : M App string :=
  with_op (Clients.AutoPinUnpair peer_text configured bloxPid).

(** *** The chat *)

(** The request that starts the stream; the goroutine that fills the buffer is in Chat.v. *)
Definition start_chat (aiModel userMessage : string) : M Clients.Client StreamBuffer :=
  fun w =>
    match doP2PRequest peer_text configured MethodPost actionChatWithAI bloxPid
            (Some (JObj [("ai_model", JStr aiModel); ("user_message", JStr userMessage)])) w with
    | (Ok (st, body), w') =>
        if st =? StatusOK then (Ok NewStreamBuffer, w')
        else (Err ("error starting ChatWithAI: unexpected response: " +:+ Itoa st +:+ "; body: " +:+ body), w')
    | (Err e, w') => (Err ("error starting ChatWithAI: failed to send request: " +:+ e), w')
    | (Panic, w') => (Panic, w')
    end.

(** The reading goroutine is running when the call returns. *)
Definition App_ChatWithAI (aiModel userMessage : string) : M App string :=
  fun s =>
    match with_op (start_chat aiModel userMessage) s with
    | (Ok buffer, s') =>
        let streamID := new_uuid (app_ops s) in
        (Ok streamID, mkApp (set_streams ({[app_ops s]} ∪ streams (app_life s')) (app_life s')) (app_client s') (<[streamID := buffer]> (app_streams s')) (app_ops s'))
    | (Err e, s') => (Err e, s')
    | (Panic, s') => (Panic, s')
    end.

(** [None]: it waits for a chunk; [Some (None, _)]: it is still retrying. *)
Definition App_GetChatChunk (rounds : nat) (streamID : string) (s : App) : option (option (string + string) * App) :=
  match app_streams s !! streamID with
  | None => Some (Some (inr "invalid stream ID"), s)
  | Some buffer =>
      match GetChatChunk rounds buffer with
      | None => None
      | Some (r, b) =>
          let streams := match r with Some (inr _) => delete streamID (app_streams s) | _ => <[streamID := b]> (app_streams s) end in
          Some (r, mkApp (app_life s) (app_client s) streams (app_ops s))
      end
  end.

Definition App_GetStreamIterator (streamID : string) (s : App) : string + StreamBuffer :=
  match app_streams s !! streamID with None => inl "invalid stream ID" | Some b => inr b end.

(** ** One operation at a time *)

(** A method refused or finished leaves no operation behind: the count and the set of running
    operations are as before, so Shutdown never waits for a call that has returned; a closed
    client refuses the method without a request. *)
Lemma with_op_balanced {A} (m : M Clients.Client A) s r s' :
  with_op m s = (r, s') -> app_ops s ∉ running (app_life s) ->
  inflight (app_life s') = inflight (app_life s) /\ running (app_life s') = running (app_life s) /\
  closed (app_life s') = closed (app_life s) /\ app_streams s' = app_streams s /\
  (closed (app_life s) = true -> r = Err ErrClientClosed /\ s' = s).
Proof.
  unfold with_op, beginOp. destruct (closed (app_life s)) eqn:Ec.
  { intros [= <- <-] _. done. }
  destruct (m (app_client s)) as [x c]. intros [= <- <-] Hr. cbn. split; [done|]. split; [set_solver|]. done.
Qed.
End api.

(** ShowPluginStatus: the command runs on the phone. *)
Section local.
Context {S : Type} `{PS : PoolStore S} `{E : Env} `{X : Exec}.
Definition App_ShowPluginStatus (closed : bool) (pluginName : string) (lines : Z) : M (Node S) string :=
  if closed then raise ErrClientClosed else ShowPluginStatus pluginName lines.
End local.

(** ** The device understands the phone *)
Definition in_int (z : Z) : Prop := - 2 ^ 63 <= z < 2 ^ 63.

Lemma typed_int_Itoa z : in_int z -> typed_int (fun lit => ParseInt lit 10 64) (JNum (Itoa z)) = true.
Proof. intros H. unfold typed_int. unfold Itoa at 1. rewrite ParseInt_FormatInt by done. apply String.eqb_refl. Qed.

Lemma typed_uint_Itoa z : 0 <= z < 2 ^ 64 -> typed_int (fun lit => ParseUint lit 10 64) (JNum (Itoa z)) = true.
Proof.
  intros H. unfold typed_int. unfold Itoa at 1, FormatInt. rewrite (proj2 (Z.ltb_ge _ _)) by lia.
  rewrite ParseUint_FormatUint by lia. apply String.eqb_refl.
Qed.

Lemma typed_strings l : forallb (fun j => match j with JStr _ => true | _ => false end) (map JStr l) = true.
Proof. by induction l. Qed.

Lemma decode_obj_self t l : wf_ty t = true -> typed t (JObj l) = true -> decode_new t (JObj l) = (JObj l, true).
Proof. intros Hw Ht. by apply (decode_self t Hw). Qed.

(** The relayed requests of the phone have the types the device reads them with: for any
    arguments of the methods' own types, the body sent with a relayed action decodes on the
    device to exactly the value that was sent, with no error. *)
Theorem requests_understood account wallet chain cidsBytes (poolID assetId classId amount : Z) :
  in_int poolID -> 0 <= amount < 2 ^ 64 ->
  Forall (fun aj => exists q r, relay_types aj.1 = Some (q, r) /\ decode_new q aj.2 = (aj.2, true))
    [(actionAccountExists, account_request account);
     (actionAssetsBalance, assets_request account assetId classId);
     (actionTransferToMumbai, transfer_request wallet amount chain);
     (actionTransferToGoerli, transfer_request wallet amount chain);
     (actionPoolRequests, pool_request poolID);
     (actionPoolList, JObj []);
     (actionManifestAvailable, pool_request poolID)] /\
  decode_new ReplicateRequest (replicate_request cidsBytes account poolID) = (replicate_request cidsBytes account poolID, true) /\
  decode_new PoolCancelJoinRequest (pool_request poolID) = (pool_request poolID, true) /\
  (forall rf, in_int rf -> decode_new ManifestBatchUploadMobileRequest (upload_request cidsBytes poolID rf) =
                             (upload_request cidsBytes poolID rf, true)).
Proof.
  intros Hp Ha. pose proof (typed_int_Itoa _ Hp) as Tp. pose proof (typed_uint_Itoa _ Ha) as Ta.
  assert (forall z, typed_int (fun lit => ParseUint lit 10 64) (JNum (Itoa (wrapU 64 z))) = true) as Tw.
  { intros z. apply typed_uint_Itoa, wrapU_range. lia. }
  pose proof (typed_strings (cids cidsBytes)) as Tc. split.
  - repeat (apply List.Forall_cons; [do 2 eexists; split; [vm_compute; reflexivity|]; apply decode_obj_self; [reflexivity|];
      cbn -[typed_int Itoa wrapU Z.pow]; rewrite ?Tp, ?Ta, ?Tw; reflexivity|]). apply List.Forall_nil.
  - split; [|split; [|intros rf Hr; pose proof (typed_int_Itoa _ Hr) as Tr]]; apply decode_obj_self; try reflexivity;
      cbn [typed ReplicateRequest PoolCancelJoinRequest ManifestBatchUploadMobileRequest]; rewrite ?Tc, ?Tp, ?Tr; reflexivity.
Qed.

(** The list of CIDs is cut at the bars and nothing of it is lost. *)
Lemma cids_join cidsBytes : Join (cids cidsBytes) "|" = cidsBytes.
Proof. apply Join_Split. Qed.
