(* ===== verification/MobileInit.v ===== *)
(** * mobile/config.go: building the phone's client

    [init] makes the libp2p host from the settings, remembers the device's address with the
    relays as a fallback, chooses the exchange, and builds the blockchain client whose
    transport signs every request when the settings have an identity. The libraries it calls
    are given by their results. The dialling of the transport is Mobile.v's DialContext. *)

From S2P Require Import Prelude GoStd Json GoPath SignedAuth PeerId Effects Access Node BlOptions ExOptions Mobile.

#[local] Open Scope string_scope.
#[local] Open Scope Z_scope.

Definition noopExchange := "noop".
Definition devRelays := ["/dns/relay.dev.fx.land/tcp/4001/p2p/12D3KooWDRrBaAfPwsGJivBoUw5fE7ZpDiyfUjqgiURq2DEcL835"].

Record Config := mkConfig {
  cf_Identity : string; cf_StorePath : string; cf_Exchange : string; cf_BloxAddr : string;
  cf_StaticRelays : option (list string);      (** [None]: nil *)
  cf_ForceReachabilityPrivate : bool; cf_DisableResourceManger : bool; cf_SyncWrites : bool;
  cf_AllowTransientConnection : bool; cf_PoolName : string; cf_BlockchainEndpoint : string; cf_IpfsDHTLookupDisabled : bool
}.

Definition NewConfig : Config :=
  mkConfig "" "" "" "" (Some devRelays) true true false true "0" "api.node3.functionyard.fula.network" false.

(** libp2p's host, addresses and keys, the exchange and the DHT. *)
Class PhoneLib := {
  pl_AddrInfoFromP2pAddr : string -> outcome ();                    (** NewMultiaddr and AddrInfoFromP2pAddr *)
  pl_AddrInfoFromString : string -> outcome (string * list string);
  pl_NewMultiaddr : string -> outcome ();
  pl_UnmarshalPrivateKey : string -> outcome string;
  pl_libp2p_New : option string -> outcome string;                  (** the host's peer id *)
  pl_NewFxExchange : list XOption -> outcome ();
  pl_dht_New : outcome ();
  pl_SetAuth : string -> string -> outcome ();
  pl_Start : outcome ()
}.

(** The client that [init] fills in. *)
Record Made := mkMade {
  md_self : string;
  md_relays : list string;
  md_bloxPid : string;
  md_addrs : list string;                                           (** peerstore addresses of the device *)
  md_noop : bool;
  md_bl : option (BlOptions.options * AuthState);
  md_dht : bool
}.

Section init.
Context `{L : PhoneLib}.

Fixpoint check_relays (l : list string) : outcome () :=
  match l with
  | [] => Ok ()
  | r :: l => _ <-! pl_AddrInfoFromP2pAddr r;; check_relays l
  end.

(** The device's address, and the relay circuits unless it is one itself. *)
Definition device_addrs (bloxAddr : string) (addrs relays : list string) : list string :=
  addrs ++ (if negb (Contains bloxAddr "p2p-circuit")
            then omap (fun r => match pl_NewMultiaddr (r +:+ "/p2p-circuit") with Ok _ => Some (r +:+ "/p2p-circuit") | _ => None end) relays
            else []).

Definition exchange_options (cfg : Config) (self : string) : list XOption :=
  [ExOptions.WithAuthorizer self; ExOptions.WithAllowTransientConnection (cf_AllowTransientConnection cfg);
   ExOptions.WithIpniPublishDisabled true; ExOptions.WithMaxPushRate 50; ExOptions.WithDhtProviderOptions 4].

Definition blc_options (cfg : Config) (self : string) (relays : list string) (pk : option string) : list BlOptions.Option :=
  [BlOptions.WithAuthorizer self; WithSelfPeerID self; BlOptions.WithAllowTransientConnection (cf_AllowTransientConnection cfg);
   WithBlockchainEndPoint (cf_BlockchainEndpoint cfg); WithRelays relays; WithTopicName (cf_PoolName cfg); WithTimeout 65]
  ++ (match pk with Some k => [WithRequestSigning (Some k)] | None => [] end).

Definition init (cfg : Config) : outcome Made :=
  let relays := match cf_StaticRelays cfg with Some l => l | None => devRelays end in
  _ <-! check_relays relays;;
  pk <-! (if (cf_Identity cfg =? "")%string then Ok None else k <-! pl_UnmarshalPrivateKey (cf_Identity cfg);; Ok (Some k));;
  self <-! pl_libp2p_New pk;;
  device <-! (if (cf_BloxAddr cfg =? "")%string
              then (if (cf_Exchange cfg =? noopExchange)%string then Ok ("", []) else Err "the BloxAddr must be specified until autodiscovery service is implemented")
              else a <-! pl_AddrInfoFromString (cf_BloxAddr cfg);; Ok (a.1, device_addrs (cf_BloxAddr cfg) a.2 relays));;
  let '(bloxPid, addrs) := device in
  if (cf_Exchange cfg =? noopExchange)%string then Ok (mkMade self relays bloxPid addrs true None false)
  else
    _ <-! pl_NewFxExchange (exchange_options cfg self);;
    bl <-! NewFxBlockchain (blc_options cfg self relays pk);;
    let dht := negb (cf_IpfsDHTLookupDisabled cfg) && negb (bloxPid =? "")%string && match pl_dht_New with Ok _ => true | _ => false end in
    _ <-! (if negb (bloxPid =? "")%string then pl_SetAuth self bloxPid else Ok ());;
    _ <-! pl_Start;;
    Ok (mkMade self relays bloxPid addrs false (Some bl) dht).
End init.

(** ** Requests of the client *)
Section requests.
Context `{PC : PeerCrypto}.

(** SetP2PClient: the transport signs when there is a key. *)
Definition transport {R : Type} (o : BlOptions.options) (base : Request -> outcome R) (now : Z) (req : Request) : outcome R :=
  match BlOptions.signingKey o with
  | Some k => RoundTrip base now k (BlOptions.selfPeerID o) req
  | None => base req
  end.

Lemma init_bl `{L : PhoneLib} cfg m o a : init cfg = Ok m -> md_bl m = Some (o, a) ->
  BlOptions.selfPeerID o = md_self m /\
  match BlOptions.signingKey o with
  | Some k => cf_Identity cfg <> "" /\ pl_UnmarshalPrivateKey (cf_Identity cfg) = Ok k /\ pl_libp2p_New (Some k) = Ok (md_self m)
  | None => cf_Identity cfg = ""
  end.
Proof.
  intros H. unfold init in H. apply obind_Ok_inv in H as (u & _ & H). apply obind_Ok_inv in H as (pk & Hk & H).
  apply obind_Ok_inv in H as (self & Hs & H). apply obind_Ok_inv in H as ([bloxPid addrs] & _ & H).
  destruct (cf_Exchange cfg =? noopExchange)%string; [by injection H as <-|].
  apply obind_Ok_inv in H as (u1 & _ & H). apply obind_Ok_inv in H as (bl & Hb & H). apply obind_Ok_inv in H as (u2 & _ & H).
  apply obind_Ok_inv in H as (u3 & _ & [= <-]). cbn [md_bl md_self]. intros [= ->].
  unfold NewFxBlockchain in Hb. apply obind_Ok_inv in Hb as (au & _ & [= <- _]).
  destruct (String.eqb_spec (cf_Identity cfg) "") as [->|].
  - injection Hk as <-. done.
  - apply obind_Ok_inv in Hk as (k & Hk & [= <-]). done.
Qed.

Lemma sign_path now req k pid wire : signRequest now req k pid = Ok wire -> Path wire = Path req.
Proof.
  unfold signRequest. intros H. apply obind_Ok_inv in H as (b & _ & H). apply obind_Ok_inv in H as (sg & _ & [= <-]). done.
Qed.

(** C9. A phone with an identity reaches the device, one without does not. What the client
    of an initialised phone puts on the wire at [now], the device hands within 300 seconds to
    the handler of the action, as coming from the phone and with the body unchanged, whenever
    the phone is allowed the action; a client made without an identity sends no signature and
    is answered 401, whatever it asks for. *)
Theorem phone_reaches_device `{L : PhoneLib} {W : Type} (run : Handler -> string -> option string -> M W Resp) cfg m o a now now' req wire st :
  init cfg = Ok m -> md_bl m = Some (o, a) -> Header req = ∅ ->
  transport o Ok now req = Ok wire -> int64 now -> int64 now' -> Z.abs (now' - now) <= 300 ->
  (forall k, BlOptions.signingKey o = Some k -> key_pair k (md_self m)) ->
  (cf_Identity cfg <> "" -> authorized st.1 (md_self m) (path_base (Path req)) = true ->
    serveProxy run now' wire st = dispatch run (md_self m) (path_base (Path req)) (Some (body_bytes req)) st) /\
  (cf_Identity cfg = "" -> serveProxy run now' wire st = (Ok (http_Error "" StatusUnauthorized), st)).
Proof.
  intros Hi Hb Hh Hw Hn Hn' Hd Hk. destruct (init_bl _ _ _ _ Hi Hb) as [Hself Hkey]. unfold transport in Hw.
  destruct (BlOptions.signingKey o) as [k|] eqn:Ek.
  - split; [intros _ Ha|].
    + unfold RoundTrip in Hw. apply obind_Ok_inv in Hw as (w & Hs & [= ->]). rewrite Hself in Hs.
      pose proof (sign_verify _ now' _ _ _ _ (Hk k eq_refl) Hn Hn' Hd Hs) as Hv. apply sign_path in Hs.
      unfold serveProxy. by rewrite Hv, Hs, Ha.
    + intros Hi0. by destruct Hkey.
  - injection Hw as <-. split; [done|]. intros _. unfold serveProxy, verifySignedRequest, Header_Get. by rewrite Hh.
Qed.
End requests.

(** ** One phone *)
Section concrete.
#[local] Existing Instance toyCrypto.

(** Keys are the ids; the device is at a direct address. *)
#[local] Instance toyLib : PhoneLib := {|
  pl_AddrInfoFromP2pAddr := fun _ => Ok ();
  pl_AddrInfoFromString := fun s => Ok ("blox", [s]);
  pl_NewMultiaddr := fun _ => Ok ();
  pl_UnmarshalPrivateKey := fun k => Ok k;
  pl_libp2p_New := fun k => Ok (default "random" k);
  pl_NewFxExchange := fun _ => Ok ();
  pl_dht_New := Ok ();
  pl_SetAuth := fun _ _ => Ok ();
  pl_Start := Ok () |}.

Definition phone_config (identity : string) : Config :=
  mkConfig identity "" "" "/ip4/10.0.0.2/tcp/4001/p2p/blox" None true true false true "0" "api" false.
Definition device : AuthState := mkAuth "alice" "blox" {["alice"]}.
Definition free_space : Request := mkRequest "/blox-free-space" ∅ (Some (Some "{}")).

Lemma phone_reaches_device_witness :
  exists m o a wire, init (phone_config "alice") = Ok m /\ md_bl m = Some (o, a) /\ transport o Ok 1700000000 free_space = Ok wire /\
  md_addrs m = ["/ip4/10.0.0.2/tcp/4001/p2p/blox"; String.concat "" (devRelays ++ ["/p2p-circuit"])] /\
  serveProxy toy_run 1700000120 wire (device, []) =
    dispatch toy_run "alice" "blox-free-space" (Some "{}") (device, []).
Proof.
  destruct (init (phone_config "alice")) as [m|e|] eqn:Hi; try (vm_compute in Hi; discriminate Hi).
  destruct (md_bl m) as [[o a]|] eqn:Hb; [|vm_compute in Hi; injection Hi as <-; discriminate Hb].
  destruct (transport o Ok 1700000000 free_space) as [wire|e|] eqn:Hw;
    [|vm_compute in Hi; injection Hi as <-; injection Hb as <- <-; vm_compute in Hw; discriminate Hw..].
  assert (md_self m = "alice" /\ md_addrs m = ["/ip4/10.0.0.2/tcp/4001/p2p/blox"; String.concat "" (devRelays ++ ["/p2p-circuit"])] /\
    BlOptions.signingKey o = Some "alice") as (Hs & Ha & Hk)
    by (vm_compute in Hi; injection Hi as <-; injection Hb as <- <-; split; [reflexivity|split; vm_compute; reflexivity]).
  exists m, o, a, wire. do 4 (split; [done|]).
  destruct (phone_reaches_device toy_run (phone_config "alice") m o a 1700000000 1700000120 free_space wire (device, []) Hi Hb eq_refl Hw)
    as [H _]; [unfold int64; lia..| |].
  - intros k E. rewrite Hk in E. injection E as <-. rewrite Hs. exact toy_key_pair.
  - rewrite Hs in H. apply H; [discriminate|]. vm_compute. reflexivity.
Defined.
End concrete.
