(* ===== verification/ExLife.v ===== *)
(** * exchange/fx_exchange.go, hub_publisher.go: the exchange from construction to shutdown

    NewFxExchange makes a hub publisher and a DHT beside the block exchange; Start leaves
    three goroutines running and Shutdown stops them. The life is a step function over the
    events of these goroutines, the publisher's being the loop of [Publish] with nothing in
    its channel. The last section has the phone's calls that go straight to the exchange. *)

From S2P Require Import Prelude GoStd Json SignedAuth Effects Access Node Disk Exchange Publish Mobile Clients MobileApi.

#[local] Open Scope string_scope.
#[local] Open Scope Z_scope.

Definition FxExchangeProtocolID := "/fx.land/exchange/0.0.3".

(** ** The hub publisher *)
Section hub.
Context (cap : nat) (hash : string -> string).
Definition hub_notifyReceivedLink (l : PLink) (s : Pub) : Pub := notifyReceivedLink cap true l s.
Definition hub_step (e : PEv) (s : Pub) : option Pub := pub_step cap true hash e s.
Definition hub_shutdown (s : Pub) : option Pub := hub_step ECancel s.
(** The connection to the hub is commented out. *)
Definition assureConnectionToHub : outcome () := Ok ().
Definition newHubPublisher : outcome Pub := _ <-! assureConnectionToHub;; Ok newPublisher.
(** IpniNotifyLink of the exchange. *)
Definition IpniNotifyLink (l : PLink) (s : Pub) : Pub := hub_notifyReceivedLink l s.

(** Whatever links the exchange is told of, none reaches the publisher's channel. *)
Lemma notify_is_lost l s : IpniNotifyLink l s = s.
Proof. done. Qed.
End hub.

(** ** The DHT of the exchange *)
Record DhtState := mkDht { dt_peers : list string; dt_open : bool; dt_closings : nat }.
Definition newDht : DhtState := mkDht [] true 0.
Definition AddPeer (p : string) (d : DhtState) : DhtState := mkDht (dt_peers d ++ [p]) (dt_open d) (dt_closings d).
Definition UpdateDhtPeers (peers : list string) (d : DhtState) : DhtState := fold_left (fun d p => AddPeer p d) peers d.
Definition dh_Close (d : DhtState) : DhtState := mkDht (dt_peers d) false (Datatypes.S (dt_closings d)).
(** fulaDht.Shutdown cancels the DHT's context and closes it. *)
Definition dht_Shutdown (d : DhtState) : DhtState := dh_Close d.
Definition GetAuth (e : Ex) : string := x_authorizer e.

Lemma UpdateDhtPeers_adds peers d : dt_peers (UpdateDhtPeers peers d) = (dt_peers d ++ peers)%list /\ dt_open (UpdateDhtPeers peers d) = dt_open d.
Proof.
  unfold UpdateDhtPeers. revert d. induction peers as [|p peers IH]; intros d; cbn; [by rewrite app_nil_r|].
  destruct (IH (AddPeer p d)) as [-> ->]. cbn. by rewrite <- app_assoc.
Qed.

(** ** Start and Shutdown *)
Inductive XG := XPublish | XServe | XCleanup.
#[export] Instance XG_eq_dec : EqDecision XG.
Proof. solve_decision. Defined.

Record XLife := mkXLife {
  xl_live : list XG;             (** goroutines running *)
  xl_counted : list XG;          (** those of them in the wait group *)
  xl_startDone : bool;           (** Start's own context is cancelled: it has returned *)
  xl_pubDone : bool;             (** the publisher's context is cancelled *)
  xl_closed : bool;              (** the HTTP server is shut down *)
  xl_dht : DhtState
}.
Definition newExchange : XLife := mkXLife [] [] false false false newDht.

(** [listen]: the error of gostream.Listen. The deferred cancel runs as Start returns. *)
Definition Start (listen : option string) (s : XLife) : option string * XLife :=
  let with_pub := (xl_live s ++ [XPublish])%list in
  match listen with
  | Some e => (Some e, mkXLife with_pub (xl_counted s) true (xl_pubDone s) (xl_closed s) (xl_dht s))
  | None => (None, mkXLife (with_pub ++ [XServe; XCleanup]) (xl_counted s ++ [XServe; XCleanup]) true (xl_pubDone s) (xl_closed s) (xl_dht s))
  end.

Definition Shutdown (s : XLife) : XLife :=
  mkXLife (xl_live s) (xl_counted s) (xl_startDone s) true true (dht_Shutdown (dh_Close (xl_dht s))).

Definition may_end (s : XLife) (g : XG) : bool :=
  match g with XPublish => xl_pubDone s | XServe => xl_closed s | XCleanup => xl_startDone s end.
Definition end_ (g : XG) (s : XLife) : option XLife :=
  if bool_decide (g ∈ xl_live s) && may_end s g then
    Some (mkXLife (filter (fun h => h <> g) (xl_live s)) (filter (fun h => h <> g) (xl_counted s)) (xl_startDone s) (xl_pubDone s)
            (xl_closed s) (xl_dht s))
  else None.

(** The cleanup of the temporary authorizations may end before Start's caller does anything. *)
Lemma cleanup_ends_at_once : exists s, end_ XCleanup (Start None newExchange).2 = Some s /\ xl_live s = [XPublish; XServe].
Proof. by eexists. Qed.

(** After Shutdown every goroutine of a started exchange can end, the DHT is closed, twice;
    until then the publisher and the server cannot. *)
Theorem exchange_stops s s' : Start None s = (None, s') -> xl_live s = [] -> xl_counted s = [] -> xl_pubDone s = false -> xl_closed s = false ->
  (forall g, g ∈ [XPublish; XServe] -> end_ g s' = None) /\
  (exists s1 s2 s3, end_ XCleanup (Shutdown s') = Some s1 /\ end_ XServe s1 = Some s2 /\ end_ XPublish s2 = Some s3 /\
     xl_live s3 = [] /\ xl_counted s3 = [] /\ dt_open (xl_dht s3) = false /\ dt_closings (xl_dht s3) = Datatypes.S (Datatypes.S (dt_closings (xl_dht s)))).
Proof.
  destruct s as [live counted sd pd cl d]. cbn. intros [= <-] -> -> -> ->. split.
  - intros g Hg. repeat (apply elem_of_cons in Hg as [->|Hg]); [reflexivity|reflexivity|by apply elem_of_nil in Hg].
  - do 3 eexists. split; [reflexivity|]. split; [reflexivity|]. split; [reflexivity|]. done.
Qed.

(** A listener that cannot be had leaves the publisher running. *)
Lemma failed_start_leaves_publisher e : xl_live (Start (Some e) newExchange).2 = [XPublish].
Proof. done. Qed.

(** ** The phone's calls to its exchange *)
Section phone.
Context `{PC : PeerCrypto} `{E : Env}.

(** SetAuth of mobile/client.go. *)
Definition Client_SetAuth (updateConfig : option (nat -> option string)) (on subject : string) (allow : bool) : M Ex (option string) :=
  match peer_Decode on with
  | Panic => panic
  | Err e => ret (Some e)
  | Ok onp =>
      match peer_Decode subject with
      | Panic => panic
      | Err e => ret (Some e)
      | Ok subp => Exchange.SetAuth updateConfig onp subp allow
      end
  end.
(** ID of mobile/client.go. *)
Definition Client_ID (h_ID : string) : string := peer_String h_ID.

Definition ConnectToBlox (noop : bool) (ensure : M Clients.Client ()) : M App () :=
  with_op (if noop then ret () else ensure).

(** A closed client connects to nothing, and its other parts are not touched. *)
Lemma closed_does_not_connect noop ensure a : beginOp (app_ops a) (app_life a) = None ->
  ConnectToBlox noop ensure a = (Err ErrClientClosed, a).
Proof. intros H. unfold ConnectToBlox, with_op. by rewrite H. Qed.

Lemma SetAuth_refuses_bad_ids upd on subject allow e err : peer_Decode on = Err err \/ (exists p, peer_Decode on = Ok p /\ peer_Decode subject = Err err) ->
  Client_SetAuth upd on subject allow e = (Ok (Some err), e).
Proof. unfold Client_SetAuth. by intros [->|(p & -> & ->)]. Qed.
End phone.
