(* ===== verification/MockServer.v ===== *)
(** * cmd/servertest, cmd/dhttest, cmd/announcementtest, cmd/pingtest: the mock pool server

    The four manual test programs serve fixed answers of the old pool API on 127.0.0.1:4000,
    behind a middleware that reads the body, prints the votes and hands the body on. The
    answers are decoded with the response types of blockchain/interface.go. *)

From S2P Require Import Prelude GoStd Json Effects Access Schema.

#[local] Open Scope string_scope.
#[local] Open Scope Z_scope.

(** ** The answers *)
Definition n4_id := "QmUg1bGBZ1rSNt3LZR7kKf9RDy3JtJLZZDZGKrzSP36TMe".
Definition n1_id := "QmaUMRTBMoANXqpUbfARnXkw9esfz9LP2AjXRRr7YknDAT".
Definition n2_id := "QmPNZMi2LAhczsN2FoXXQng6YFYbSHApuP6RpKuHbBH9eF".
Definition n3_id := "QmYMEnv3GUKPNr34gePX2qQmBH4YEQcuGhQHafuKuujvMA".

(** The encoder writes a map's keys in order. *)
Definition joined_answer : json := JObj [("account", JStr n4_id); ("pool_id", JNum "1")].

Definition poolrequests_answer : json :=
  JObj [("poolrequests", JArr [
    JObj [("account", JStr n4_id); ("peer_id", JStr n4_id); ("pool_id", JNum "1"); ("positive_votes", JNum "0"); ("voted", JArr [])]])].

Definition all_answer : json :=
  JObj [("pools", JArr [
    JObj [("creator", JStr "5GrwvaEF5zXb26Fz9rcQpDWS57CtERHpNehXCPcNoHGKutQY");
          ("parent", JNull);
          ("participants", JArr [JStr n1_id; JStr n2_id; JStr n3_id]);
          ("pool_id", JNum "1"); ("pool_name", JStr "PoolTest1"); ("region", JStr "Ontario")]])].

Definition user_entry (id : string) (pool request : json) : json :=
  JObj [("account", JStr id); ("peer_id", JStr id); ("pool_id", pool); ("request_pool_id", request)].
Definition users_answer : json :=
  JObj [("users", JArr [
    user_entry n4_id JNull (JNum "1");
    user_entry n1_id (JNum "1") JNull;
    user_entry n2_id (JNum "1") JNull;
    user_entry n3_id (JNum "1") JNull])].

(** The registered patterns; none ends in a slash, so each matches its path alone. *)
Definition mock_routes : list (string * json) :=
  [("/fula/pool/join", joined_answer);
   ("/fula/pool/cancel_join", joined_answer);
   ("/fula/pool/poolrequests", poolrequests_answer);
   ("/fula/pool/all", all_answer);
   ("/fula/pool/users", users_answer);
   ("/fula/pool/vote", joined_answer);
   ("/fula/pool/leave", joined_answer)].

(** ** The server *)
Definition mock_mux (path : string) : Resp :=
  match find (fun r => (r.1 =? path)%string) mock_routes with
  | Some (_, j) => mkResp StatusOK (BJson j)
  | None => http_Error "404 page not found" StatusNotFound
  end.

(** The middleware around a handler of the path and the body: what it prints, the answer. An
    unreadable body ([None]) counts for nothing: its error is dropped. *)
Definition requestLoggerMiddleware (next : string -> string -> Resp) (path : string) (body : option string) : list string * Resp :=
  let b := match body with Some b => b | None => "" end in
  (if (path =? "/fula/pool/vote")%string then ["Voted on " +:+ n4_id +:+ " " +:+ b] else [], next path b).

Definition mock_serve (path : string) (body : option string) : list string * Resp :=
  requestLoggerMiddleware (fun p _ => mock_mux p) path body.

(** The other three programs have the same server, text for text. *)
Definition dhttest_mock_serve : string -> option string -> list string * Resp := mock_serve.
Definition pingtest_mock_serve : string -> option string -> list string * Resp := mock_serve.
Definition announcementtest_mock_serve : string -> option string -> list string * Resp := mock_serve.

(** ** What it serves *)

(** The type the node's code decodes the answer of a path into. *)
Definition mock_types : list (string * ty) :=
  [("/fula/pool/cancel_join", PoolCancelJoinResponse);
   ("/fula/pool/poolrequests", PoolRequestsResponse);
   ("/fula/pool/all", PoolListResponse);
   ("/fula/pool/users", PoolUserListResponse);
   ("/fula/pool/vote", PoolVoteResponse)].

(** Decodes without an error, to a value of the type. *)
Definition decodes (t : ty) (j : json) : bool := (decode_new t j).2 && typed t (decode_new t j).1.

(** Every path with a type is served, the answer decodes into it without an error and gives a
    value of the type; the users keep their null pools as nil pointers, and a vote has no
    result. The middleware changes no answer, and prints nothing but votes. *)
Lemma mock_answers_fit :
  Forall (fun pt => exists j, mock_mux pt.1 = mkResp StatusOK (BJson j) /\ decodes pt.2 j = true) mock_types /\
  (decode_new PoolUserListResponse users_answer).1 =
    JObj [("users", JArr (map (fun p => JObj [("pool_id", p.2.1); ("request_pool_id", p.2.2); ("account", JStr p.1); ("peer_id", JStr p.1)])
      [(n4_id, (JNull, JNum "1")); (n1_id, (JNum "1", JNull)); (n2_id, (JNum "1", JNull)); (n3_id, (JNum "1", JNull))]))] /\
  (decode_new PoolVoteResponse joined_answer).1 = JObj [("account", JStr n4_id); ("pool_id", JNum "1"); ("result", JStr "")].
Proof.
  split; [|split; vm_compute; reflexivity].
  repeat (apply Forall_cons; split); [exists joined_answer|exists poolrequests_answer|exists all_answer|exists users_answer|exists joined_answer|apply Forall_nil_2].
  all: split; vm_compute; reflexivity.
Qed.

Lemma middleware_transparent path body :
  (mock_serve path body).2 = mock_mux path /\
  ((mock_serve path body).1 <> [] -> path = "/fula/pool/vote").
Proof. unfold mock_serve, requestLoggerMiddleware. cbn. split; [done|]. by destruct (String.eqb_spec path "/fula/pool/vote"). Qed.
