(* ===== verification/TestPrograms.v ===== *)
(** * cmd/dhttest, cmd/pingtest, cmd/announcementtest, cmd/servertest: the manual test programs

    Each program serves the mock pool API (MockServer.v), puts four nodes together in one
    process with blox.New (BloxOptions.v) and blox.Start (BloxStart.v, NodeServers.v), connects
    their libp2p hosts and waits until they know each other. A program is a script over the
    process's state whose steps end, panic or are still going on; libp2p is the class
    [Libp2p]. *)

From S2P Require Import Prelude GoStd GoTime Json PeerId SignedAuth Abi Effects Access Node Disk Evm PoolConfig KuboProxy Relay Blox BloxLife.
From S2P Require Import BlOptions NodeServers BloxOptions BloxStart MockServer.

#[local] Open Scope string_scope.
#[local] Open Scope Z_scope.

(** ** Scripts *)
Inductive Res (A : Type) :=
| Done (a : A)
| Panicked (msg : string)
| Running.                  (** not over within the bounds given *)
Arguments Done {A}. Arguments Panicked {A}. Arguments Running {A}.

Definition Script (W A : Type) : Type := W -> Res A * W.
Definition done {W A : Type} (a : A) : Script W A := fun w => (Done a, w).
Definition fatal {W A : Type} (msg : string) : Script W A := fun w => (Panicked msg, w).
Definition going {W A : Type} : Script W A := fun w => (Running, w).
Definition andThen {W A B : Type} (m : Script W A) (k : A -> Script W B) : Script W B := fun w =>
  match m w with
  | (Done a, w') => k a w'
  | (Panicked msg, w') => (Panicked msg, w')
  | (Running, w') => (Running, w')
  end.

Declare Scope script_scope.
Delimit Scope script_scope with script.
Notation "x <~ m ;; k" := (andThen m (fun x => k)) (at level 100, m at next level, right associativity) : script_scope.
Notation "m ~;; k" := (andThen m (fun _ => k)) (at level 100, right associativity) : script_scope.
#[local] Open Scope script_scope.

Fixpoint each {W A : Type} (f : A -> Script W ()) (l : list A) : Script W () :=
  match l with
  | [] => done ()
  | a :: l => f a ~;; each f l
  end.

(** [if err != nil { panic(err) }] *)
Definition must {W A : Type} (r : outcome A) : Script W A :=
  match r with Ok a => done a | Err e => fatal e | Panic => fatal "runtime error" end.

(** ** libp2p *)
Inductive HOpt :=
| Identity (key : string)
| ListenAddrs (l : list string)
| EnableNATService | NATPortMap | EnableRelay | EnableHolePunching
| ForceReachabilityPrivate.

Record Host := mkHost { h_ID : string; h_Addrs : list string }.

(** What the n-th step of the process is answered. *)
Class Libp2p := {
  lp_GenerateECDSAKeyPair : nat -> outcome string;
  lp_New : nat -> list HOpt -> outcome Host;
  lp_Connect : nat -> string -> Host -> option string;
  lp_Peers : nat -> string -> list string;       (** the host's peer store *)
  lp_String : string -> string;                  (** peer.ID.String *)
  lp_NewMultiaddr : string -> outcome string;
  lp_AddrInfoFromP2pAddr : option string -> outcome string;
  lp_link : nat -> list (string * string) -> outcome string;  (** the link system's Store of a map node *)
  lp_members_text : gmap string Z -> string;     (** fmt.Println of a map *)
  lp_late : nat -> Z;                            (** how much longer a sleep takes *)
  lp_work : nat -> Z                             (** how long a step takes *)
}.

(** ** The process *)
Record TNode (S : Type) := mkTN {
  tn_opts : BloxOptions.options;
  tn_bl : BlOptions.options;
  tn_servers : Servers;
  tn_blox : Blox S
}.
Arguments mkTN {S}. Arguments tn_opts {S}. Arguments tn_bl {S}. Arguments tn_servers {S}. Arguments tn_blox {S}.

Record TW (S : Type) := mkTW {
  tw_step : nat;
  tw_now : Z;                     (** nanoseconds since the start *)
  tw_deadline : Z;                (** of the program's context *)
  tw_mock : bool;                 (** the mock server listens *)
  tw_nodes : list (TNode S);      (** the nodes whose Start did not fail *)
  tw_out : list string            (** what was printed *)
}.
Arguments mkTW {S}. Arguments tw_step {S}. Arguments tw_now {S}. Arguments tw_deadline {S}.
Arguments tw_mock {S}. Arguments tw_nodes {S}. Arguments tw_out {S}.

Definition devRelay := "/dns/relay.dev.fx.land/tcp/4001/p2p/12D3KooWDRrBaAfPwsGJivBoUw5fE7ZpDiyfUjqgiURq2DEcL835".
Definition nl := String "010" "".
Definition deadlineMsg := "context deadline exceeded".
Definition mockAddr := "127.0.0.1:4000".

Section programs.
Context {S : Type} `{PS : PoolStore S} `{E : Env} `{MB : Multibase} `{PC : PeerCrypto} `{LP : Libp2p}.
(** What the accessors of the nodes read (the programs store nothing and set no accessor for
    the chain, so any store will do), the network interfaces, the addresses other processes
    hold, and how long Start is followed. *)
Context (s0 : S) (ifs : Ifaces) (refused : gset string) (ticks : list bool) (fuel : nat).

(** *** Steps *)
Definition step {A : Type} (f : nat -> A) : Script (TW S) A := fun w =>
  (Done (f (tw_step w)),
   mkTW (Datatypes.S (tw_step w)) (tw_now w + Z.max 0 (lp_work (tw_step w))) (tw_deadline w) (tw_mock w) (tw_nodes w) (tw_out w)).
Definition print (line : string) : Script (TW S) () := fun w =>
  (Done (), mkTW (tw_step w) (tw_now w) (tw_deadline w) (tw_mock w) (tw_nodes w) (tw_out w ++ [line])%list).
Definition sleep (d : Z) : Script (TW S) () := fun w =>
  (Done (), mkTW (Datatypes.S (tw_step w)) (tw_now w + d + Z.max 0 (lp_late (tw_step w))) (tw_deadline w) (tw_mock w) (tw_nodes w) (tw_out w)).
Definition ctx_Done : Script (TW S) bool := fun w => (Done (tw_deadline w <=? tw_now w), w).
Definition WithTimeout (d : Z) : Script (TW S) () := fun w =>
  (Done (), mkTW (tw_step w) (tw_now w) (tw_now w + d) (tw_mock w) (tw_nodes w) (tw_out w)).

(** startMockServer; its goroutine panics when the address is taken. *)
Definition startMockServer : Script (TW S) () := fun w =>
  if bool_decide (mockAddr ∈ refused) then (Panicked ("listen tcp " +:+ mockAddr), w)
  else sleep 100000000 (mkTW (tw_step w) (tw_now w) (tw_deadline w) true (tw_nodes w) (tw_out w)).

(** The addresses the process listens on already. *)
Definition held (w : TW S) : gset string := ⋃ ((fun n => sv_open (tn_servers n)) <$> tw_nodes w).

Definition blox_New (l : list BloxOptions.Option) : Script (TW S) (TNode S) :=
  r <~ must (BloxOptions.New l);;
  let '(p, (bl, _)) := r in
  done (mkTN p bl newServers (mkBlox (mkNode 0 s0 ∅ ∅ None [] []) (mkKubo 0 [] ∅) (BloxOptions.topicName p) (BloxOptions.chainName p) "" [])).

(** n.Start(ctx), then the deferred n.Shutdown(ctx). *)
Definition start_node (n : TNode S) : Script (TW S) () := fun w =>
  let '(err, sv) := NodeServers.Start (refused ∪ held w) (tn_bl n) (tn_servers n) in
  let '(r, b) := BloxStart.Start (BlOptions.node_options lp_String (tn_bl n)) (BloxOptions.kuboAPIAddr (tn_opts n)) ifs
                   (BloxOptions.poolHostMode (tn_opts n)) (BloxOptions.DefaultIPFShttpServer (tn_opts n)) err ticks fuel (tn_blox n) in
  let started := mkTW (Datatypes.S (tw_step w)) (tw_now w + Z.max 0 (lp_work (tw_step w))) (tw_deadline w) (tw_mock w)
                   (tw_nodes w ++ [mkTN (tn_opts n) (tn_bl n) sv b])%list (tw_out w) in
  match r with
  | Ok (StartRunning _) => (Done (), started)
  | Ok StartWaiting => (Running, started)
  | Ok (StartFailed e) => (Panicked e, w)
  | Err e => (Panicked e, w)
  | Panic => (Panicked "runtime error", w)
  end.

(** One node: its key, its host, its blox, its start. *)
Definition instantiate (hopts : list HOpt) (bopts : string -> list BloxOptions.Option) (prefix pool : string) : Script (TW S) Host :=
  key <~ (r <~ step lp_GenerateECDSAKeyPair;; must r);;
  h <~ (r <~ step (fun n => lp_New n (hopts ++ [Identity key])%list);; must r);;
  n <~ blox_New (bopts (h_ID h));;
  start_node n ~;;
  print (prefix +:+ "Instantiated node in pool " +:+ pool +:+ " with ID: " +:+ lp_String (h_ID h)) ~;;
  done h.

Definition connect (from to : Host) : Script (TW S) () :=
  r <~ step (fun n => lp_Connect n (h_ID from) to);;
  match r with Some e => fatal e | None => done () end.
(** Peerstore().AddAddrs, then Connect *)
Definition add_and_connect (from to : Host) : Script (TW S) () := step (fun _ => ()) ~;; connect from to.

Definition Peers (h : Host) : Script (TW S) (list string) := step (fun n => lp_Peers n (h_ID h)).

(** [for { if done() { break }; select { case <-ctx.Done(): panic; default: sleep } }] *)
Fixpoint wait_until (turns : nat) (cond : Script (TW S) bool) (d : Z) : Script (TW S) () :=
  match turns with
  | O => going
  | Datatypes.S turns =>
      ok <~ cond;;
      if (ok : bool) then done () else
      over <~ ctx_Done;;
      if (over : bool) then fatal deadlineMsg else
      sleep d ~;; wait_until turns cond d
  end.

(** Do all the hosts know [k] peers? Go's && stops at the first that does not. *)
Fixpoint all_know (k : nat) (hs : list Host) : Script (TW S) bool :=
  match hs with
  | [] => done true
  | h :: hs => ps <~ Peers h;; if (length ps =? k)%nat then all_know k hs else done false
  end.

Definition count_line (prefix : string) (h : Host) (ps : list string) : string :=
  prefix +:+ lp_String (h_ID h) +:+ " peerstore contains " +:+ Itoa (Z.of_nat (length ps)) +:+ " nodes:".
Definition show_peers (prefix : string) (h : Host) : Script (TW S) () :=
  ps <~ Peers h;;
  print (count_line (prefix +:+ "Finally ") h ps) ~;;
  each (fun id => print ("- " +:+ lp_String id)) ps.

(** The turns a loop of [d]-long sleeps has before [timeout] runs out, and one more. *)
Definition turns_of (timeout d : Z) : nat := Datatypes.S (Datatypes.S (Z.to_nat (timeout / d))).

(** The deferred calls, once the body has returned or panicked: the nodes' Shutdown, whose
    results nobody reads, and the mock server's. *)
Definition shutdown_node (n : TNode S) : TNode S := mkTN (tn_opts n) (tn_bl n) (NodeServers.Shutdown true true (tn_servers n)).2 (tn_blox n).
Definition deferred (w : TW S) : TW S := mkTW (tw_step w) (tw_now w) (tw_deadline w) false (shutdown_node <$> tw_nodes w) (tw_out w).
Definition with_defers (body : Script (TW S) ()) : Script (TW S) () := fun w =>
  match body w with
  | (Running, w') => (Running, w')
  | (r, w') => (r, deferred w')
  end.

(** What every main does first. *)
Definition prologue (timeout : Z) : Script (TW S) () := startMockServer ~;; WithTimeout timeout.

Definition plain_options (pool self : string) : list BloxOptions.Option :=
  [BloxOptions.WithPoolName pool; BloxOptions.WithTopicName pool; BloxOptions.WithSelfPeerID self;
   BloxOptions.WithUpdatePoolName true; BloxOptions.WithRelays [devRelay]].
Definition minute_timeout : Z := 60 * second.

(** *** Steps two or more programs share *)

(** The fourth node of dhttest and pingtest is in no pool; the others connect to it. *)
Definition connect_to_h4 (h1 h2 h3 h4 : Host) : Script (TW S) () :=
  add_and_connect h1 h4 ~;; add_and_connect h2 h4 ~;; add_and_connect h3 h4.
Definition h4_knows_four (h4 : Host) : Script (TW S) bool :=
  ps <~ Peers h4;;
  if (4 <=? length ps)%nat then done true
  else ps <~ Peers h4;; print (count_line "" h4 ps) ~;; done false.

(** Three nodes of pool 1; servertest numbers its lines. *)
Definition first_three (hopts : list HOpt) (bopts : string -> list BloxOptions.Option) (numbered : bool) : Script (TW S) (Host * Host * Host) :=
  let prefix p := if numbered then p else "" in
  h1 <~ instantiate hopts bopts (prefix "n1 ") "1";;
  h2 <~ instantiate hopts bopts (prefix "n2 ") "1";;
  h3 <~ instantiate hopts bopts (prefix "n3 ") "1";;
  done (h1, h2, h3).
Definition show_three (numbered : bool) (hs : Host * Host * Host) : Script (TW S) () :=
  let prefix p := if numbered then p else "" in
  let '(h1, h2, h3) := hs in
  show_peers (prefix "n1 ") h1 ~;; show_peers (prefix "n2 ") h2 ~;; show_peers (prefix "n3 ") h3.
(** h1 connects to the two others; the rest is left to discovery. *)
Definition discover (k : nat) (hs : Host * Host * Host) : Script (TW S) () :=
  let '(h1, h2, h3) := hs in
  add_and_connect h1 h2 ~;; add_and_connect h1 h3 ~;;
  wait_until (turns_of minute_timeout second) (all_know k [h1; h2; h3]) second.

(** *** cmd/dhttest *)
Definition dhttest_nodes : Script (TW S) (Host * Host * Host * Host) :=
  hs <~ first_three [] (plain_options "1") false;;
  h4 <~ instantiate [] (plain_options "0") "" "0";;
  done (hs, h4).

Definition dhttest_meet (hs : Host * Host * Host) (h4 : Host) : Script (TW S) () :=
  let '(h1, h2, h3) := hs in
  discover 4 hs ~;; show_three false hs ~;; connect_to_h4 h1 h2 h3 h4 ~;;
  wait_until (turns_of minute_timeout second) (h4_knows_four h4) second.

(** n.Store of a map node given as its entries. *)
Definition store_dag (leaf : list (string * string)) (root : string -> list (string * string)) (h1 : Host) : Script (TW S) string :=
  leafLink <~ (r <~ step (fun n => lp_link n leaf);; must r);;
  rootLink <~ (r <~ step (fun n => lp_link n (root leafLink));; must r);;
  print (lp_String (h_ID h1) +:+ " stored IPLD data with links:" +:+ nl +:+ "    root: " +:+ rootLink +:+ nl +:+ "    leaf:" +:+ leafLink) ~;;
  done rootLink.

Definition dhttest_lookup (h1 : Host) : Script (TW S) () :=
  _ <~ store_dag [("this", "true")] (fun l => [("that", "42"); ("oneLeafLink", l)]) h1;;
  _ <~ store_dag [("that", "false")] (fun l => [("this", "24"); ("anotherLeafLink", l)]) h1;;
  match ProvideLinkByDht with
  | Ok _ =>
      peerlist <~ must FindLinkProvidersByDht;;
      each print peerlist
  | Err e => print "Error happened here" ~;; fatal e
  | Panic => fatal "runtime error"
  end.

Definition dhttest_main : Script (TW S) () := with_defers (
  prologue minute_timeout ~;;
  r <~ dhttest_nodes;;
  let '(hs, h4) := r in
  dhttest_meet hs h4 ~;; dhttest_lookup hs.1.1).

(** *** cmd/pingtest *)
Definition pingtest_nodes : Script (TW S) (Host * Host * Host * Host) := dhttest_nodes.

(** n1.Ping(ctx, h4.ID()) and its checks; the first says what went wrong. *)
Definition ping_from (which : string) (h : Host) : Script (TW S) () :=
  match Ping with
  | Err e => if (which =? "first")%string then print ("Error occured in Ping err " +:+ e) else done ()
  | _ => done ()
  end ~;;
  r <~ must Ping;;
  let '(average, rate) := r in
  print (lp_String (h_ID h) +:+ " ping results success_count: " +:+ Itoa rate +:+ ":") ~;;
  if average <? 0 then fatal ("average is 0 for " +:+ which +:+ " ping") else done ().

(** n4.StartPingServer is StartPingProxy on the node's own address. *)
Definition StartPingServer (i : nat) : Script (TW S) () := fun w =>
  match tw_nodes w !! i with
  | None => (Panicked "runtime error", w)
  | Some n =>
      match StartPingProxy (refused ∪ held w) (tn_bl n) (tn_servers n) with
      | Ok sv => (Done (), mkTW (tw_step w) (tw_now w) (tw_deadline w) (tw_mock w)
                    (<[i := mkTN (tn_opts n) (tn_bl n) sv (tn_blox n)]> (tw_nodes w)) (tw_out w))
      | Err e => (Panicked e, w)
      | Panic => (Panicked "runtime error", w)
      end
  end.

Definition pingtest_pings (hs : Host * Host * Host) : Script (TW S) () :=
  let '(h1, h2, h3) := hs in
  StartPingServer 3 ~;; print "Node 4 ping server started" ~;;
  ping_from "first" h1 ~;; ping_from "second" h2 ~;; ping_from "third" h3.

Definition pingtest_meet : Host * Host * Host -> Host -> Script (TW S) () := dhttest_meet.

Definition pingtest_main : Script (TW S) () := with_defers (
  prologue minute_timeout ~;;
  r <~ pingtest_nodes;;
  let '(hs, h4) := r in
  pingtest_meet hs h4 ~;; pingtest_pings hs).

(** *** cmd/announcementtest *)
Definition announcementtest_options (self : string) : list BloxOptions.Option := (plain_options "1" self ++ [BloxOptions.WithPingCount 5])%list.

(** n4.GetBlMembers() *)
Definition GetBlMembers (i : nat) : Script (TW S) (gmap string Z) := fun w =>
  match tw_nodes w !! i with
  | Some n => (Done (GetMembers (b_node (tn_blox n))), w)
  | None => (Panicked "runtime error", w)
  end.
Definition print_members (m : gmap string Z) : Script (TW S) () :=
  each (fun kv => print ("Member ID: " +:+ lp_String kv.1 +:+ ", Status: " +:+ Itoa kv.2)) (map_to_list m).

Definition announcementtest_fourth (hs : Host * Host * Host) : Script (TW S) () :=
  let '(h1, h2, h3) := hs in
  h4 <~ instantiate [] announcementtest_options "" "1";;
  add_and_connect h4 h1 ~;; add_and_connect h4 h2 ~;; add_and_connect h4 h3 ~;;
  wait_until (turns_of minute_timeout second) (all_know 5 [h4]) second ~;;
  show_peers "" h4.

Definition members_seen (least : nat) (first : bool) (i : nat) : Script (TW S) bool :=
  m <~ GetBlMembers i;;
  (if first then print_members m else done ()) ~;;
  if (least <=? size m)%nat then (if first then done () else print_members m) ~;; done true
  else print (lp_members_text m) ~;; done false.

(** AnnounceJoinPoolRequestPeriodically does nothing any more. *)
Definition announcementtest_members : Script (TW S) () :=
  wait_until (turns_of minute_timeout (3 * second)) (members_seen 1 false 3) (3 * second).

Definition announcementtest_main : Script (TW S) () := with_defers (
  prologue minute_timeout ~;;
  hs <~ first_three [] announcementtest_options false;;
  discover 5 hs ~;; show_three false hs ~;; announcementtest_fourth hs ~;; announcementtest_members).

(** *** cmd/servertest *)
Record Config := mkConfig { StaticRelays : list string; ForceReachability : bool; AllowTransientConnection : bool }.
Definition NewConfig : Config := mkConfig [devRelay] true true.

Definition servertest_options (self : string) : list BloxOptions.Option :=
  (plain_options "1" self ++ [BloxOptions.WithPingCount 5; BloxOptions.WithMaxPingTime 10; BloxOptions.WithMinSuccessPingRate 60])%list.
Definition server_timeout : Z := 180 * second.
Definition ListenAddrsConfig : list string := ["/ip4/0.0.0.0/tcp/40001"; "/ip4/0.0.0.0/udp/40001/quic"].

Fixpoint parse_all (l : list string) : Script (TW S) (list string) :=
  match l with
  | [] => done []
  | a :: l => m <~ must (lp_NewMultiaddr a);; ms <~ parse_all l;; done (m :: ms)
  end.

(** Errors are printed and the loop goes on to dereference the result. *)
Definition static_relay (relay : string) : Script (TW S) string :=
  rma <~ match lp_NewMultiaddr relay with
         | Ok m => done (Some m)
         | Err e => print e ~;; done None
         | Panic => fatal "runtime error"
         end;;
  match lp_AddrInfoFromP2pAddr rma with
  | Ok info => done info
  | Err e => print e ~;; fatal "invalid memory address or nil pointer dereference"
  | Panic => fatal "runtime error"
  end.
Fixpoint static_relays (l : list string) : Script (TW S) (list string) :=
  match l with
  | [] => done []
  | r :: l => i <~ static_relay r;; infos <~ static_relays l;; done (i :: infos)
  end.

(** The option EnableAutoRelayWithStaticRelays is built from the relays and thrown away. *)
Definition servertest_hopts : Script (TW S) (list HOpt) :=
  addrs <~ parse_all ListenAddrsConfig;;
  circuit <~ must (lp_NewMultiaddr "/p2p-circuit");;
  _ <~ static_relays (StaticRelays NewConfig);;
  done [ListenAddrs (addrs ++ [circuit])%list; EnableNATService; NATPortMap; EnableRelay; EnableHolePunching; ForceReachabilityPrivate].

Definition three_know_four (hs : Host * Host * Host) : Script (TW S) bool :=
  let '(h1, h2, h3) := hs in
  ok <~ all_know 4 [h1; h2; h3];;
  if (ok : bool) then done true
  else ps <~ Peers h1;; print (count_line "n1 Finally " h1 ps) ~;; done false.

(** The count from 1 until it is above 60. *)
Fixpoint wait_a_minute (k : nat) : Script (TW S) () :=
  match k with
  | O => done ()
  | Datatypes.S k => over <~ ctx_Done;; if (over : bool) then fatal deadlineMsg else sleep second ~;; wait_a_minute k
  end.

Definition servertest_meet (hs : Host * Host * Host) : Script (TW S) () :=
  let '(h1, h2, h3) := hs in
  connect h1 h2 ~;; connect h1 h3 ~;;
  wait_until (turns_of server_timeout second) (three_know_four hs) second ~;;
  show_three true hs.

Definition servertest_fourth (hopts : list HOpt) : Script (TW S) () :=
  h4 <~ instantiate hopts servertest_options "n4 " "1";;
  wait_until (turns_of server_timeout (2 * second)) (members_seen 2 true 3) (2 * second) ~;;
  show_peers "n4 " h4 ~;;
  wait_a_minute 59.

Definition servertest_main : Script (TW S) () := with_defers (
  prologue server_timeout ~;;
  hopts <~ servertest_hopts;;
  hs <~ first_three hopts servertest_options true;;
  servertest_meet hs ~;; servertest_fourth hopts).
End programs.

(** ** Reasoning about the nodes a script leaves *)

(** From nodes in [P], a script that ends leaves them in [Q], any other in [F]. *)
Definition triple {S A : Type} (P : list (TNode S) -> Prop) (m : Script (TW S) A) (Q F : list (TNode S) -> Prop) : Prop :=
  forall w, P (tw_nodes w) -> match m w with (Done _, w') => Q (tw_nodes w') | (_, w') => F (tw_nodes w') end.

Section rules.
Context {S : Type}.
Implicit Types P Q F : list (TNode S) -> Prop.

Lemma triple_bind {A B} P Q R F (m : Script (TW S) A) (k : A -> Script (TW S) B) :
  triple P m Q F -> (forall a, triple Q (k a) R F) -> triple P (andThen m k) R F.
Proof. intros Hm Hk w Hw. specialize (Hm w Hw). unfold andThen. destruct (m w) as [[a| |] w']; try done. by apply Hk. Qed.

(** The cut: nothing is asked of the scripts after one that never ends. *)
Lemma triple_cut {A B} P R F (m : Script (TW S) A) (k : A -> Script (TW S) B) :
  triple P m (fun _ => False) F -> triple P (andThen m k) R F.
Proof. intros H. eapply triple_bind; [exact H|]. by intros a w []. Qed.

Lemma triple_weaken {A} P Q F F' (m : Script (TW S) A) : triple P m Q F -> (forall l, F l -> F' l) -> triple P m Q F'.
Proof. intros H HF w Hw. specialize (H w Hw). destruct (m w) as [[| |] ]; auto. Qed.

(** Scripts that touch no node. *)
Definition framed {A} (m : Script (TW S) A) : Prop := forall w, tw_nodes (m w).2 = tw_nodes w.
Lemma triple_frame {A} P (m : Script (TW S) A) : framed m -> triple P m P P.
Proof. intros H w Hw. specialize (H w). destruct (m w) as [[| |] w']; cbn in H; by rewrite H. Qed.
Lemma framed_bind {A B} (m : Script (TW S) A) (k : A -> Script (TW S) B) : framed m -> (forall a, framed (k a)) -> framed (andThen m k).
Proof. intros Hm Hk w. specialize (Hm w). unfold andThen. destruct (m w) as [[a| |] w']; cbn in *; rewrite <- Hm; [apply Hk|done|done]. Qed.
Lemma framed_done {A} (a : A) : framed (done a). Proof. done. Qed.
Lemma framed_fatal {A} e : framed (@fatal (TW S) A e). Proof. done. Qed.
Lemma framed_must {A} (r : outcome A) : framed (must r). Proof. by destruct r. Qed.
Lemma framed_print t : framed (@print S t). Proof. done. Qed.
Lemma framed_step `{LP : Libp2p} {A} (f : nat -> A) : framed (@step S LP A f). Proof. done. Qed.
Lemma framed_sleep `{LP : Libp2p} d : framed (@sleep S LP d). Proof. done. Qed.
End rules.
Create HintDb script.
#[export] Hint Resolve framed_done framed_fatal framed_must framed_print framed_step framed_sleep : script.
Ltac framed_go :=
  repeat match goal with
  | |- framed (andThen _ _) => apply framed_bind; [|intros ?]
  | |- framed (match ?x with _ => _ end) => destruct x
  | |- framed _ => solve [eauto with script]
  end.

(** ** No program gets past its second node *)
Section fate.
Context {S : Type} `{PS : PoolStore S} `{E : Env} `{MB : Multibase} `{PC : PeerCrypto} `{LP : Libp2p}.
Context (s0 : S) (ifs : Ifaces) (refused : gset string) (ticks : list bool) (fuel : nat).

(** blox.New cannot fail, and there is no option for the addresses the servers listen on. *)
Lemma blox_New_run l (w : TW S) : exists n, blox_New s0 l w = (Done n, w) /\ tn_servers n = newServers /\
  proxyListenAddr (tn_bl n) = ProxyListenAddr /\ pingListenAddr (tn_bl n) = PingListenAddr.
Proof.
  unfold blox_New, andThen. destruct (New_auth l) as (p & bl & a & -> & _ & -> & _). cbn [must done].
  eexists. split; [reflexivity|]. by cbn.
Qed.

Definition listening (n : TNode S) : Prop :=
  proxyListenAddr (tn_bl n) <> pingListenAddr (tn_bl n) /\ ProxyListenAddr ∈ sv_open (tn_servers n) /\
  exists used, NodeServers.Start used (tn_bl n) newServers = (None, tn_servers n).
Definition none_yet (l : list (TNode S)) : Prop := l = [].
Definition one_listens (l : list (TNode S)) : Prop := exists n, l = [n] /\ listening n.
Definition at_most_one (l : list (TNode S)) : Prop := none_yet l \/ one_listens l.

Lemma Start_listens used (n : TNode S) sv : proxyListenAddr (tn_bl n) = ProxyListenAddr -> pingListenAddr (tn_bl n) = PingListenAddr ->
  NodeServers.Start used (tn_bl n) newServers = (None, sv) -> ProxyListenAddr ∈ sv_open sv.
Proof.
  unfold NodeServers.Start, StartProxy, StartPingProxy, Listen. intros -> -> H. revert H.
  destruct (_ || _); cbn [obind]; [done|]. destruct (_ || _); cbn [obind]; [done|]. intros [= <-]. cbn. set_solver.
Qed.

Lemma start_node_first n : tn_servers n = newServers -> proxyListenAddr (tn_bl n) = ProxyListenAddr -> pingListenAddr (tn_bl n) = PingListenAddr ->
  triple none_yet (start_node ifs refused ticks fuel n) one_listens at_most_one.
Proof.
  intros Hs Hx Hi w Hw. unfold start_node. rewrite Hs.
  destruct (NodeServers.Start _ (tn_bl n) newServers) as [err sv] eqn:HS.
  destruct (BloxStart.Start _ _ _ _ _ err ticks fuel (tn_blox n)) as [r b] eqn:HB.
  destruct r as [[e| |gs]|e|]; cbn [tw_nodes]; try (unfold at_most_one; by left).
  all: destruct err as [e|]; [by (cbn in HB; injection HB)|].
  all: assert (one_listens (tw_nodes w ++ [mkTN (tn_opts n) (tn_bl n) sv b])%list) as H1 by
    (rewrite Hw; eexists; split; [reflexivity|]; split; [cbn; rewrite Hx, Hi; discriminate|];
     split; [exact (Start_listens _ _ _ Hx Hi HS) | exists (refused ∪ held w); exact HS]).
  - unfold at_most_one; by right.
  - exact H1.
Qed.

Lemma start_node_second n : tn_servers n = newServers -> proxyListenAddr (tn_bl n) = ProxyListenAddr ->
  triple one_listens (start_node ifs refused ticks fuel n) (fun _ => False) one_listens.
Proof.
  intros Hs Hx w Hw. pose proof Hw as (m & Hl & _ & Ho & _). unfold start_node. rewrite Hs.
  unfold NodeServers.Start, StartProxy, Listen. rewrite Hx.
  rewrite (bool_decide_true (ProxyListenAddr ∈ refused ∪ held w)) by (unfold held; rewrite Hl; cbn; set_solver).
  cbn. done.
Qed.

Lemma instantiate_nodes P Q (hopts : list HOpt) bopts prefix pool :
  (forall l, P l -> at_most_one l) ->
  (forall n, tn_servers n = newServers -> proxyListenAddr (tn_bl n) = ProxyListenAddr -> pingListenAddr (tn_bl n) = PingListenAddr ->
     triple P (start_node ifs refused ticks fuel n) Q at_most_one) ->
  triple P (instantiate s0 ifs refused ticks fuel hopts bopts prefix pool) Q at_most_one.
Proof.
  intros HP Hstart. unfold instantiate.
  eapply triple_bind; [eapply triple_weaken; [apply triple_frame; framed_go | exact HP]|]. intros key.
  eapply triple_bind; [eapply triple_weaken; [apply triple_frame; framed_go | exact HP]|]. intros h.
  intros w Hw. unfold andThen at 1. destruct (blox_New_run (bopts (h_ID h)) w) as (n & -> & Hs & Hx & Hi).
  revert w Hw. change (triple P (start_node ifs refused ticks fuel n ~;; print (prefix +:+ "Instantiated node in pool " +:+ pool +:+ " with ID: " +:+ lp_String (h_ID h)) ~;; done h) Q at_most_one).
  eapply triple_bind; [by apply Hstart|]. intros [] w Hw. exact Hw.
Qed.

Lemma instantiate_first hopts bopts prefix pool :
  triple none_yet (instantiate s0 ifs refused ticks fuel hopts bopts prefix pool) one_listens at_most_one.
Proof. apply instantiate_nodes; [by left|]. intros n Hs Hx Hi. by apply start_node_first. Qed.
Lemma instantiate_second hopts bopts prefix pool :
  triple one_listens (instantiate s0 ifs refused ticks fuel hopts bopts prefix pool) (fun _ => False) at_most_one.
Proof.
  apply instantiate_nodes; [by right|]. intros n Hs Hx Hi. eapply triple_weaken; [by apply start_node_second|]. by right.
Qed.
Lemma first_three_nodes hopts bopts numbered :
  triple none_yet (first_three s0 ifs refused ticks fuel hopts bopts numbered) (fun _ => False) at_most_one.
Proof.
  eapply triple_bind; [apply instantiate_first|]. intros h1. apply triple_cut, instantiate_second.
Qed.

Lemma prologue_nodes timeout : triple none_yet (prologue refused timeout) none_yet at_most_one.
Proof.
  eapply triple_weaken; [apply triple_frame|by left].
  intros w. unfold prologue, andThen, startMockServer. by destruct (bool_decide _).
Qed.
Lemma static_relays_framed l : framed (@static_relays S LP l).
Proof. induction l; cbn; framed_go; unfold static_relay; framed_go; done. Qed.
Lemma parse_all_framed l : framed (@parse_all S LP l).
Proof. induction l; cbn; framed_go; done. Qed.
Lemma servertest_hopts_nodes : triple none_yet (@servertest_hopts S LP) none_yet at_most_one.
Proof.
  eapply triple_weaken; [apply triple_frame|by left]. unfold servertest_hopts.
  apply framed_bind; [apply parse_all_framed|]. intros a. framed_go; apply static_relays_framed.
Qed.

(** The four programs, by their sources. *)
Inductive Program := DhtTest | PingTest | AnnouncementTest | ServerTest.
Definition main_of (p : Program) : Script (TW S) () :=
  match p with
  | DhtTest => dhttest_main s0 ifs refused ticks fuel
  | PingTest => pingtest_main s0 ifs refused ticks fuel
  | AnnouncementTest => announcementtest_main s0 ifs refused ticks fuel
  | ServerTest => servertest_main s0 ifs refused ticks fuel
  end.

Definition begin : TW S := mkTW 0 0 0 false [] [].

(** The deferred shutdown of a node that listens closes what it opened. *)
Lemma shutdown_releases n : listening n -> sv_open (tn_servers (shutdown_node n)) = ∅.
Proof.
  intros (Hne & _ & used & HS). unfold shutdown_node. destruct (NodeServers.Shutdown true true (tn_servers n)) as [r sv] eqn:Hd. cbn.
  by destruct (servers_life _ _ _ _ _ _ _ Hne HS Hd) as (_ & -> & _).
Qed.

Lemma with_defers_nodes (body : Script (TW S) ()) w r w' :
  triple none_yet body (fun _ => False) at_most_one -> tw_nodes w = [] -> with_defers body w = (r, w') ->
  r <> Done () /\ (length (tw_nodes w') <= 1)%nat /\
  (r <> Running -> Forall (fun n => sv_open (tn_servers n) = ∅) (tw_nodes w')).
Proof.
  intros Hb Hw. specialize (Hb w Hw). unfold with_defers. destruct (body w) as [[a|m|] w1]; [done| |].
  - intros [= <- <-]. split; [done|]. cbn. destruct Hb as [Hl | (n & Hl & Hn)]; rewrite Hl; cbn.
    + split; [lia|]. intros _. constructor.
    + split; [lia|]. intros _. constructor; [by apply shutdown_releases | constructor].
  - intros [= <- <-]. split; [done|]. split; [|done]. destruct Hb as [Hl | (n & Hl & Hn)]; rewrite Hl; cbn; lia.
Qed.

Lemma bodies_nodes p : exists body, main_of p = with_defers body /\ triple none_yet body (fun _ => False) at_most_one.
Proof.
  destruct p; cbn; (eexists; split; [reflexivity|]); (eapply triple_bind; [apply prologue_nodes|intros _]).
  1,2: eapply triple_cut, triple_cut, first_three_nodes.
  - eapply triple_cut, first_three_nodes.
  - eapply triple_bind; [apply servertest_hopts_nodes|]. intros hopts. eapply triple_cut, first_three_nodes.
Qed.

(** No run of a test program ends by itself: whatever libp2p, the chain, kubo and the network
    do, and however long Start is followed, the first node takes the servers' fixed addresses,
    so the program panics at the second node's Start or before, or is still in the first one's.
    At most one node ever starts, and a panic leaves no address of it open. *)
Theorem test_programs_fail p : let '(r, w') := main_of p begin in
  r <> Done () /\ (length (tw_nodes w') <= 1)%nat /\
  (r <> Running -> Forall (fun n => sv_open (tn_servers n) = ∅) (tw_nodes w')).
Proof.
  destruct (main_of p begin) as [r w'] eqn:H. destruct (bodies_nodes p) as (body & Hm & Hb). rewrite Hm in H.
  exact (with_defers_nodes body begin r w' Hb eq_refl H).
Qed.

(** ** The stages after the nodes *)

(** Whatever the nodes are, dhttest's look-up and pingtest's pings panic: the calls they test
    answer with an error always. *)
Lemma dhttest_lookup_fails h1 (w : TW S) a w' : dhttest_lookup h1 w <> (Done a, w').
Proof.
  unfold dhttest_lookup, andThen. destruct (store_dag _ _ h1 w) as [[c| |] w1]; try done.
  by destruct (store_dag _ _ h1 w1) as [[c2| |] w2].
Qed.
Lemma pingtest_pings_fail hs (w : TW S) a w' : pingtest_pings refused hs w <> (Done a, w').
Proof.
  destruct hs as [[h1 h2] h3]. unfold pingtest_pings, andThen. by destruct (StartPingServer refused 3 w) as [[[]| |] w1].
Qed.

(** *** The waiting loops *)

(** Conditions that end, take no time back and leave the deadline alone. *)
Definition ticking {A} (m : Script (TW S) A) : Prop := forall w,
  (m w).1 <> Running /\ tw_deadline (m w).2 = tw_deadline w /\ tw_now w <= tw_now (m w).2.
Lemma ticking_bind {A B} (m : Script (TW S) A) (k : A -> Script (TW S) B) : ticking m -> (forall a, ticking (k a)) -> ticking (andThen m k).
Proof.
  intros Hm Hk w. destruct (Hm w) as (Hr & Hd & Hn). unfold andThen. destruct (m w) as [[a|e|] w1]; cbn in *; [|done|done].
  destruct (Hk a w1) as (Hr' & Hd' & Hn'). split; [done|]. split; [congruence | lia].
Qed.
Lemma ticking_done {A} (a : A) : ticking (done a). Proof. intros w. by cbn. Qed.
Lemma ticking_print t : ticking (@print S t). Proof. intros w. by cbn. Qed.
Lemma ticking_step {A} (f : nat -> A) : ticking (@step S LP A f). Proof. intros w. cbn. split; [done|]. split; [done|lia]. Qed.
Lemma ticking_each {A} (f : A -> Script (TW S) ()) l : (forall a, ticking (f a)) -> ticking (each f l).
Proof. intros Hf. induction l; cbn; [apply ticking_done | by apply ticking_bind]. Qed.

(** A loop of [d]-long sleeps under a context with at most [timeout] left breaks or panics
    within [turns_of timeout d] turns. *)
Lemma wait_turns k cond d : 0 < d -> ticking cond -> forall (w : TW S),
  tw_deadline w - tw_now w <= Z.of_nat k * d -> (wait_until (Datatypes.S k) cond d w).1 <> Running.
Proof.
  intros Hd Hc. induction k as [|k IH]; intros w Hw; cbn [wait_until]; unfold andThen at 1;
    destruct (Hc w) as (Hr & Hdl & Hn); destruct (cond w) as [[[]|e|] w1]; cbn in *; try done.
  - rewrite (proj2 (Z.leb_le _ _)) by lia. done.
  - unfold andThen, ctx_Done. destruct (Z.leb_spec (tw_deadline w1) (tw_now w1)); [done|]. cbn.
    apply IH. cbn. lia.
Qed.
Lemma wait_ends timeout cond d (w : TW S) : 0 < d -> 0 <= timeout -> ticking cond ->
  tw_deadline w - tw_now w <= timeout -> (wait_until (turns_of timeout d) cond d w).1 <> Running.
Proof.
  intros Hd Ht Hc Hw. apply wait_turns; [done|done|]. etrans; [exact Hw|].
  pose proof (Z.div_mod timeout d ltac:(lia)). pose proof (Z.mod_pos_bound timeout d Hd). pose proof (Z.div_pos timeout d Ht Hd).
  rewrite Nat2Z.inj_succ, Z2Nat.id by done. lia.
Qed.

(** Every waiting loop of the programs has such a condition. *)
#[local] Hint Resolve ticking_done ticking_print ticking_step ticking_each : script.
Ltac ticking_go :=
  repeat match goal with
  | |- ticking (andThen _ _) => apply ticking_bind; [|intros ?]
  | |- ticking (match ?x with _ => _ end) => destruct x
  | |- ticking _ => solve [eauto with script]
  end.
Lemma conditions_tick hs h4 k l least first i :
  ticking (@all_know S LP k l) /\ ticking (@h4_knows_four S LP h4) /\
  ticking (@three_know_four S LP hs) /\ ticking (@members_seen S LP least first i).
Proof.
  assert (forall l, ticking (@all_know S LP k l)) as Hk by (induction l0; cbn; unfold Peers; ticking_go).
  assert (forall l, ticking (@all_know S LP 4 l)) as H4 by (induction l0; cbn; unfold Peers; ticking_go).
  split; [apply Hk|]. split; [unfold h4_knows_four, Peers; ticking_go|].
  split; [destruct hs as [[h1 h2] h3]; unfold three_know_four, Peers; apply ticking_bind; [apply H4|]; intros []; ticking_go|].
  unfold members_seen, print_members. apply ticking_bind.
  - intros w. unfold GetBlMembers. by destruct (tw_nodes w !! i).
  - intros m. ticking_go; apply ticking_each; intros ?; apply ticking_print.
Qed.
End fate.

(** ** A run *)
Section run.
#[local] Existing Instance memStore.
#[local] Existing Instance rawMultibase.
#[local] Existing Instance startEnv.
#[local] Existing Instance toyCrypto.

(** A libp2p in which everything works and the peers find each other. *)
#[local] Instance kindLibp2p : Libp2p := {|
  lp_GenerateECDSAKeyPair := fun n => Ok ("key" +:+ Itoa (Z.of_nat n));
  lp_New := fun n _ => Ok (mkHost ("id" +:+ Itoa (Z.of_nat n)) []);
  lp_Connect := fun _ _ _ => None;
  lp_Peers := fun _ _ => ["a"; "b"; "c"; "d"];
  lp_String := fun id => id;
  lp_NewMultiaddr := fun s => Ok s;
  lp_AddrInfoFromP2pAddr := fun o => match o with Some s => Ok s | None => Err "invalid p2p multiaddr" end;
  lp_link := fun _ _ => Ok "bafy";
  lp_members_text := fun _ => "map[]";
  lp_late := fun _ => 0;
  lp_work := fun _ => 0 |}.

Definition outcome_of (p : Program) : Res () * list string :=
  let '(r, w') := main_of ("1", "base") None ∅ [true] 10 p begin in (r, tw_out w').

(** With everything at hand each program prints one line and panics. *)
Example programs_run :
  map (outcome_of) [DhtTest; PingTest; AnnouncementTest; ServerTest] =
  [(Panicked "listen tcp 0.0.0.0:4020", ["Instantiated node in pool 1 with ID: id2"]);
   (Panicked "listen tcp 0.0.0.0:4020", ["Instantiated node in pool 1 with ID: id2"]);
   (Panicked "listen tcp 0.0.0.0:4020", ["Instantiated node in pool 1 with ID: id2"]);
   (Panicked "listen tcp 0.0.0.0:4020", ["n1 Instantiated node in pool 1 with ID: id2"])].
Proof. vm_compute. reflexivity. Qed.
End run.
