(* ===== verification/KuboApi.v ===== *)
(** * cmd/blox/main.go: a kubo node of the command's own

    The parts of the command that set up and serve an embedded kubo node: its repository, the
    storage of blocks in its blockstore, and its HTTP API with the channel its servers report
    on. kubo's packages (fsrepo, corehttp, the blockstore, multiaddrs) are interfaces. *)

From S2P Require Import Prelude GoStd GoPath Json JsonPrint PeerId SignedAuth Effects Access Node Evm PoolConfig ConfigFile.
From S2P Require Import KuboProxy Relay Blox BloxConfig BloxOptions BloxMain.

#[local] Open Scope string_scope.
#[local] Open Scope Z_scope.

(** ** The repository *)
Record KuboConfig := mkKuboConfig {
  kc_PeerID : string;
  kc_PrivKey : string;
  kc_Bootstrap : list string;
  kc_Datastore : Datastore;
  kc_Swarm : list string;
  kc_API : list string;
  kc_RelayService : Z
}.

(** fsrepo, with the state of its repositories. *)
Class FsRepo (R : Type) := {
  fsrepo_IsInitialized : string -> R -> bool;
  fsrepo_Init : string -> KuboConfig -> R -> option string * R;
  fsrepo_Open : string -> R -> outcome string * R
}.
(** A repository that was set up is one, and opening one changes nothing about that. *)
Class FsRepoLaws (R : Type) `{FR : FsRepo R} := {
  Init_initialized : forall p c r r', fsrepo_Init p c r = (None, r') -> fsrepo_IsInitialized p r' = true;
  Open_initialized : forall p q r, fsrepo_IsInitialized p (fsrepo_Open q r).2 = fsrepo_IsInitialized p r
}.

Section repo.
Context {S R : Type} `{E : Env} `{K : KeyLib} `{FR : FsRepo R}.

Definition on_files {A : Type} (m : M (Node S) A) : M (Node S * R) A := fun '(w, r) => let '(a, w') := m w in (a, (w', r)).
Definition on_repo {A : Type} (m : R -> outcome A * R) : M (Node S * R) A := fun '(w, r) => let '(a, r') := m r in (a, (w, r')).
Definition IsInitialized (p : string) : M (Node S * R) bool := gets (fun s => fsrepo_IsInitialized p s.2).
Definition Init (p : string) (c : KuboConfig) : M (Node S * R) () :=
  on_repo (fun r => let '(e, r') := fsrepo_Init p c r in (match e with Some e => Err e | None => Ok () end, r')).

Lemma on_files_Ok {A} (m : M (Node S) A) w r a w' r' : on_files m (w, r) = (Ok a, (w', r')) -> m w = (Ok a, w') /\ r' = r.
Proof. unfold on_files. destruct (m w) as [x v]. by intros [= -> -> ->]. Qed.
Lemma on_repo_Ok {A} (m : R -> outcome A * R) w r a w' r' : on_repo m (w, r) = (Ok a, (w', r')) -> m r = (Ok a, r') /\ w' = w.
Proof. unfold on_repo. destruct (m r) as [x v]. by intros [= -> -> ->]. Qed.

Definition versionContent := Itoa 17.
(** A map's keys are printed in order. *)
Definition datastoreContent (dsPath : string) : json := JObj [("path", JStr dsPath); ("type", JStr "badgerds")].

(** [identity], [bootstrap], [listenAddrs]: of app.config; [hostID], [privKey]: the host's, with
    the key its peer store has for it. *)
Context (identity : string) (bootstrap listenAddrs : list string) (hostID : string) (privKey : option PrivKey).

(** The configuration; the key is first the host's, then the configured text. *)
Definition repo_config (o : BadgerOptions) (dsPath storageMax : string) : outcome KuboConfig :=
  match privKey with
  | None => Err "private key for host not found"
  | Some k =>
      _ <-! crypto_MarshalPrivateKey k;;
      ds <-! DefaultDatastoreConfig o dsPath storageMax;;
      Ok (mkKuboConfig hostID identity bootstrap ds listenAddrs ["/ip4/127.0.0.1/tcp/5001"] 1)
  end.

Definition CreateCustomRepo (repoPath : string) (o : BadgerOptions) (dsPath storageMax : string) : M (Node S * R) string :=
  init <- IsInitialized repoPath;;
  (if (init : bool) then ret () else
     on_files (os_WriteFile (path_Join [repoPath; "version"]) versionContent);;;
     on_files (os_WriteFile (path_Join [repoPath; "datastore_spec"]) (json_print (datastoreContent dsPath)));;;
     conf <- lift (repo_config o dsPath storageMax);;
     Init repoPath conf);;;
  on_repo (fsrepo_Open repoPath).

Lemma repo_config_ok o dsPath storageMax c : repo_config o dsPath storageMax = Ok c ->
  kc_PeerID c = hostID /\ kc_PrivKey c = identity /\ kc_Bootstrap c = bootstrap /\ kc_Swarm c = listenAddrs /\
  kc_API c = ["/ip4/127.0.0.1/tcp/5001"] /\ StorageMax (kc_Datastore c) = storageMax.
Proof.
  unfold repo_config. destruct privKey as [k|]; [|done]. destruct (crypto_MarshalPrivateKey k); [|done|done]. cbn.
  rewrite DefaultDatastoreConfig_ok. cbn. intros [= <-]. by cbn.
Qed.

(** A repository that exists is opened and no file is written. *)
Lemma repo_kept p o d m w r : fsrepo_IsInitialized p r = true ->
  CreateCustomRepo p o d m (w, r) = let '(a, r') := fsrepo_Open p r in (a, (w, r')).
Proof. intros H. unfold CreateCustomRepo, IsInitialized, bind, gets, on_repo. cbn. rewrite H. cbn. done. Qed.

Lemma write_Ok path data (w : Node S) w' : os_WriteFile path data w = (Ok (), w') -> n_files w' = <[path := data]> (n_files w).
Proof. unfold os_WriteFile, bind, fs_step. destruct (env_fs _) as [|[]]; cbn; [intros [= <-] | done | done]. by cbn. Qed.
End repo.

Section repo_laws.
Context {S R : Type} `{E : Env} `{K : KeyLib} `{FRL : FsRepoLaws R}.
Context (identity : string) (bootstrap listenAddrs : list string) (hostID : string) (privKey : option PrivKey).
#[local] Abbreviation Create := (CreateCustomRepo (S := S) (R := R) identity bootstrap listenAddrs hostID privKey).

(** A repository that was created holds its version and its datastore, is set up with the
    host's id and the configured identity, and the next start opens it as it is. *)
Theorem repo_created_once p o d m (w : Node S) r a w' r' :
  fsrepo_IsInitialized p r = false -> Create p o d m (w, r) = (Ok a, (w', r')) ->
  path_Join [p; "version"] <> path_Join [p; "datastore_spec"] ->
  n_files w' !! path_Join [p; "version"] = Some "17" /\
  n_files w' !! path_Join [p; "datastore_spec"] = Some (json_print (datastoreContent d)) /\
  (exists c r1, kc_PeerID c = hostID /\ kc_PrivKey c = identity /\ fsrepo_Init p c r = (None, r1)) /\
  forall w2, (Create p o d m (w2, r')).2.1 = w2.
Proof.
  intros Hi H Hne. unfold CreateCustomRepo in H. apply bind_Ok_inv in H as (b & s1 & [= <- <-] & H). cbn in H. rewrite Hi in H.
  apply bind_Ok_inv in H as ([] & [w4 r4] & H & Ho).
  apply bind_Ok_inv in H as ([] & [w1 r1] & H1 & H). apply bind_Ok_inv in H as ([] & [w2 r2] & H2 & H).
  apply bind_Ok_inv in H as (c & [w3 r3] & H3 & H4).
  apply on_files_Ok in H1 as [E1 ->]. apply on_files_Ok in H2 as [E2 ->].
  injection H3 as Hc <- <-. unfold Init in H4. apply on_repo_Ok in H4 as [EI ->]. apply on_repo_Ok in Ho as [EO ->].
  destruct (fsrepo_Init p c r) as [[e|] ri] eqn:Ei; [done|]. injection EI as <-.
  rewrite (write_Ok _ _ _ _ E2), (write_Ok _ _ _ _ E1).
  split; [rewrite lookup_insert_ne by done; by rewrite lookup_insert_eq|]. split; [by rewrite lookup_insert_eq|].
  destruct (repo_config_ok _ _ _ _ _ _ _ _ _ Hc) as (Hp & Hk & _). split; [by exists c, ri|].
  intros w2'. rewrite repo_kept.
  - by destruct (fsrepo_Open p r').
  - pose proof (Open_initialized p p ri) as Hx. rewrite EO in Hx. cbn in Hx. rewrite Hx. by eapply Init_initialized.
Qed.

(** A host whose peer store has no key leaves the two files and no repository behind. *)
Lemma keyless_host_leaves_files p o d m (w : Node S) r (Hfs : forall n, env_fs n = FsOk) :
  fsrepo_IsInitialized p r = false -> privKey = None ->
  exists w', Create p o d m (w, r) = (Err "private key for host not found", (w', r)) /\
    n_files w' = <[path_Join [p; "datastore_spec"] := json_print (datastoreContent d)]> (<[path_Join [p; "version"] := "17"]> (n_files w)).
Proof.
  intros Hi ->.
  assert (forall path data (v : Node S), os_WriteFile path data v = (Ok (), set_files (<[path := data]> (n_files v)) (Node.bump v))) as Hw.
  { intros. unfold os_WriteFile, bind, fs_step. by rewrite Hfs. }
  unfold CreateCustomRepo, IsInitialized, bind, gets, on_files. change ((w, r).2) with r. rewrite Hi, !Hw.
  eexists. split; [reflexivity|]. reflexivity.
Qed.
End repo_laws.

(** ** Blocks in the embedded node *)
Class Blockstore := {
  cid_Parse : string -> outcome Cid;
  NewBlockWithCid : string -> Cid -> outcome (Cid * string);
  bs_Put_err : nat -> option string;                     (** the n-th Put fails *)
  ipfs_NewPath : string -> outcome string;
  bs_Get : gmap string string -> string -> outcome string   (** Block().Get of a path *)
}.

Section blocks.
Context `{B : Blockstore}.
(** The blocks by the text of their CID, and the calls made. *)
Record Blocks := mkBlocks { bk_calls : nat; bk_store : gmap string string }.

(** The buffer holds what was written when the committer runs. *)
Definition CustomStorageWriteOpenerInternal (pieces : list string) (lnk : Link) : M Blocks () :=
  c <- lift (cid_Parse (link_String lnk));;
  block <- lift (NewBlockWithCid (sconcat pieces) c);;
  fun s => match bs_Put_err (bk_calls s) with
           | Some e => (Err e, mkBlocks (Datatypes.S (bk_calls s)) (bk_store s))
           | None => (Ok (), mkBlocks (Datatypes.S (bk_calls s)) (<[cid_String block.1 := block.2]> (bk_store s)))
           end.

Definition CustomStorageReadOpenerInternal (lnk : Link) : M Blocks string :=
  match lnk with
  | OtherLink _ => raise "link is not a cid link"
  | CidLink c =>
      p <- lift (ipfs_NewPath ("/ipfs/" +:+ cid_String c));;
      fun s => (bs_Get (bk_store s) p, s)
  end.

(** A block that was committed is the one that is read; a link of another kind is written under
    the CID its text parses to, and cannot be read back through the same link. *)
Lemma internal_roundtrip pieces l c s s' p :
  (forall d, NewBlockWithCid d c = Ok (c, d)) -> ipfs_NewPath ("/ipfs/" +:+ cid_String c) = Ok p ->
  (forall m d, m !! cid_String c = Some d -> bs_Get m p = Ok d) -> cid_Parse (link_String l) = Ok c ->
  CustomStorageWriteOpenerInternal pieces l s = (Ok (), s') ->
  (CustomStorageReadOpenerInternal (CidLink c) s').1 = Ok (sconcat pieces) /\
  forall t, (CustomStorageReadOpenerInternal (OtherLink t) s').1 = Err "link is not a cid link".
Proof.
  intros Hn Hp Hg Hc. unfold CustomStorageWriteOpenerInternal, CustomStorageReadOpenerInternal, bind, lift. rewrite Hc, Hn.
  destruct (bs_Put_err (bk_calls s)); [done|]. intros [= <-]. rewrite Hp. split; [|done].
  apply Hg. cbn [bk_store fst snd]. by rewrite lookup_insert_eq.
Qed.
End blocks.

Definition CustomHostOption {H P O : Type} (h : H) : string -> P -> list O -> outcome H := fun _ _ _ => Ok h.

(** ** The HTTP API *)

(** A multiaddr by its components, a protocol name and a value each; it has at least one. *)
Definition Comp : Type := string * string.
Definition Maddr : Type := Comp * list Comp.
Definition IP4Unspecified : Comp := ("ip4", "0.0.0.0").
Definition IP6Unspecified : Comp := ("ip6", "::").
Definition IP4Loopback : Comp := ("ip4", "127.0.0.1").
Definition IP6Loopback : Comp := ("ip6", "::1").

Definition rewriteMaddrToUseLocalhostIfItsAny (maddr : Maddr) : Maddr :=
  let '(first, rest) := maddr in
  if bool_decide (first = IP4Unspecified) then (IP4Loopback, rest)
  else if bool_decide (first = IP6Unspecified) then (IP6Loopback, rest)
  else maddr.

(** The address written for local clients never names the wildcard interface, differs from the
    listener's in its first component only, and rewriting it again changes nothing. *)
Lemma rewrite_local m : let m' := rewriteMaddrToUseLocalhostIfItsAny m in
  m'.1 <> IP4Unspecified /\ m'.1 <> IP6Unspecified /\ m'.2 = m.2 /\
  (m.1 <> IP4Unspecified -> m.1 <> IP6Unspecified -> m' = m) /\ rewriteMaddrToUseLocalhostIfItsAny m' = m'.
Proof.
  destruct m as [f rest]. unfold rewriteMaddrToUseLocalhostIfItsAny.
  destruct (bool_decide (f = IP4Unspecified)) eqn:H4; [by apply bool_decide_eq_true in H4 as -> |].
  destruct (bool_decide (f = IP6Unspecified)) eqn:H6; [by apply bool_decide_eq_true in H6 as -> |].
  pose proof H4 as N4. pose proof H6 as N6. apply bool_decide_eq_false in N4, N6. cbn. rewrite H4, H6. auto.
Qed.

Inductive ServeOption :=
| MetricsCollectionOption (n : string) | MetricsOpenCensusCollectionOption | MetricsOpenCensusDefaultPrometheusRegistry
| CheckVersionOption | CommandsOption | WebUIOption | GatewayOption (paths : list string) | VersionOption
| DefaultMux (path : string) | MutexFractionOption (path : string) | BlockProfileRateOption (path : string)
| MetricsScrapingOption (path : string) | LogOption | RedirectOption (from to : string).

(** A path served by http.DefaultServeMux, on the mux the other options build. *)
Definition defaultMux (path : string) : ServeOption := DefaultMux path.

Record Listener := mkListener { lis_Multiaddr : Maddr; lis_Network : string; lis_Addr : string }.
Record ApiConfig := mkApiConfig { cfg_API : list string; cfg_Authorizations : nat; cfg_RootRedirect : string }.

Class CoreHttp := {
  cctx_GetConfig : outcome ApiConfig;
  TakeListeners : string -> outcome (list Listener);
  ma_NewMultiaddr : string -> outcome Maddr;
  ma_String : Maddr -> string;
  manet_Listen : nat -> Maddr -> outcome Listener;    (** with so many opened before *)
  WebUIPaths : list string;
  cctx_ConstructNode : outcome ();
  SetAPIAddr : Maddr -> option string
}.

Section api.
Context `{CH : CoreHttp}.

(** The loop over the configured addresses: [seen] is listenerAddrs, [ls] the listeners so far.
    On an error the listeners opened before stay open. *)
Fixpoint open_api (addrs : list string) (seen : list Maddr) (ls : list Listener) : outcome () * list Maddr * list Listener :=
  match addrs with
  | [] => (Ok (), seen, ls)
  | addr :: addrs =>
      match ma_NewMultiaddr addr with
      | Ok m =>
          if bool_decide (m ∈ seen) then open_api addrs seen ls
          else match manet_Listen (length ls) m with
               | Ok l => open_api addrs (m :: seen) (ls ++ [l])%list
               | Err e => (Err ("serveHTTPApi: manet.Listen(" +:+ ma_String m +:+ ") failed: " +:+ e), seen, ls)
               | Panic => (Panic, seen, ls)
               end
      | Err e => (Err ("serveHTTPApi: invalid API address: " +:+ addr +:+ " (err: " +:+ e +:+ ")"), seen, ls)
      | Panic => (Panic, seen, ls)
      end
  end.

Definition listener_lines (l : Listener) : list string :=
  ("RPC API server listening on " +:+ ma_String (lis_Multiaddr l))
  :: (if bool_decide (lis_Network l ∈ ["tcp"; "tcp4"; "tcp6"]) then ["WebUI: http://" +:+ lis_Addr l +:+ "/webui"] else []).

Definition api_options (cfg : ApiConfig) : list ServeOption :=
  ([MetricsCollectionOption "api"; MetricsOpenCensusCollectionOption; MetricsOpenCensusDefaultPrometheusRegistry;
    CheckVersionOption; CommandsOption; WebUIOption; GatewayOption WebUIPaths; VersionOption;
    defaultMux "/debug/vars"; defaultMux "/debug/pprof/"; defaultMux "/debug/stack";
    MutexFractionOption "/debug/pprof-mutex/"; BlockProfileRateOption "/debug/pprof-block/";
    MetricsScrapingOption "/debug/metrics/prometheus"; LogOption]
   ++ (if (cfg_RootRedirect cfg =? "")%string then [] else [RedirectOption "" (cfg_RootRedirect cfg)]))%list.

(** What is served, what is printed, and the API file's address. *)
Record Api := mkApi { api_listeners : list Listener; api_opts : list ServeOption; api_lines : list string; api_file : option Maddr }.

(** With the listeners that are open when it returns. *)
Definition serveHTTPApi : outcome Api * list Listener :=
  match cctx_GetConfig with
  | Err e => (Err ("serveHTTPApi: GetConfig() failed: " +:+ e), [])
  | Panic => (Panic, [])
  | Ok cfg =>
      match TakeListeners "io.ipfs.api" with
      | Err e => (Err ("serveHTTPApi: socket activation failed: " +:+ e), [])
      | Panic => (Panic, [])
      | Ok taken =>
          let '(r, _, ls) := open_api (cfg_API cfg) (rev (map lis_Multiaddr taken)) taken in
          let lines := ((if bool_decide (0 < cfg_Authorizations cfg)%nat && bool_decide (0 < length ls)%nat
                         then ["RPC API access is limited by the rules defined in API.Authorizations"] else [])
                        ++ flat_map listener_lines ls)%list in
          match r with
          | Err e => (Err e, ls)
          | Panic => (Panic, ls)
          | Ok _ =>
              match cctx_ConstructNode with
              | Err e => (Err ("serveHTTPApi: ConstructNode() failed: " +:+ e), ls)
              | Panic => (Panic, ls)
              | Ok _ =>
                  match ls with
                  | [] => (Ok (mkApi ls (api_options cfg) lines None), ls)
                  | l :: _ =>
                      let a := rewriteMaddrToUseLocalhostIfItsAny (lis_Multiaddr l) in
                      match SetAPIAddr a with
                      | Some e => (Err ("serveHTTPApi: SetAPIAddr() failed: " +:+ e), ls)
                      | None => (Ok (mkApi ls (api_options cfg) lines (Some a)), ls)
                      end
                  end
              end
          end
      end
  end.

(** The loop opens each new address once, in order: [fresh] are the addresses, the listeners
    are the ones it was given and one for each of them. *)
Lemma open_api_spec addrs : forall seen ls seen' ls', open_api addrs seen ls = (Ok (), seen', ls') ->
  exists fresh opened, seen' = (rev fresh ++ seen)%list /\ ls' = (ls ++ opened)%list /\
    Forall2 (fun m l => exists n, manet_Listen n m = Ok l) fresh opened /\
    NoDup fresh /\ (forall m, m ∈ fresh -> m ∉ seen) /\
    (forall a m, a ∈ addrs -> ma_NewMultiaddr a = Ok m -> m ∈ seen').
Proof.
  induction addrs as [|a addrs IH]; intros seen ls seen' ls'; cbn [open_api].
  { intros [= <- <-]. exists [], []. rewrite app_nil_r. repeat split; try done; [constructor | set_solver | set_solver]. }
  destruct (ma_NewMultiaddr a) as [m|e|] eqn:Em; [|done|done].
  destruct (bool_decide (m ∈ seen)) eqn:Hs.
  - apply bool_decide_eq_true in Hs. intros H. destruct (IH _ _ _ _ H) as (fresh & opened & -> & -> & Hf & Hnd & Hd & Ha).
    exists fresh, opened. do 5 (split; [done|]). intros a' m' [->|Hin]%elem_of_cons Ha'; [|by eapply Ha].
    rewrite Em in Ha'. injection Ha' as <-. set_solver.
  - apply bool_decide_eq_false in Hs. destruct (manet_Listen (length ls) m) as [l|e|] eqn:El; [|done|done].
    intros H. destruct (IH _ _ _ _ H) as (fresh & opened & -> & -> & Hf & Hnd & Hd & Ha).
    exists (m :: fresh), (l :: opened). cbn [rev]. rewrite <- !app_assoc. split; [done|]. split; [done|].
    split; [constructor; [by exists (length ls) | done]|]. split; [constructor; [|done]; intros Hm; specialize (Hd m Hm); set_solver|].
    split; [intros m' [->|Hm']%elem_of_cons; [done|]; specialize (Hd m' Hm'); set_solver|].
    intros a' m' [->|Hin]%elem_of_cons Ha'; [|by eapply Ha]. rewrite Em in Ha'. injection Ha' as <-. set_solver.
Qed.

Lemma elem_of_rev_list {A} (x : A) l : x ∈ rev l <-> x ∈ l.
Proof. rewrite !list_elem_of_In. symmetry. apply in_rev. Qed.

(** When the API is up, it listens on what it was handed and once on each further configured
    address, none of which was handed to it; and the API file names the first listener, at a
    local address, exactly when there is one. *)
Theorem api_listens_once api ls : serveHTTPApi = (Ok api, ls) ->
  exists cfg taken fresh opened, cctx_GetConfig = Ok cfg /\ TakeListeners "io.ipfs.api" = Ok taken /\
    ls = api_listeners api /\ api_listeners api = (taken ++ opened)%list /\
    Forall2 (fun m l => exists n, manet_Listen n m = Ok l) fresh opened /\ NoDup fresh /\
    (forall m, m ∈ fresh -> m ∉ map lis_Multiaddr taken) /\
    (forall a m, a ∈ cfg_API cfg -> ma_NewMultiaddr a = Ok m -> m ∈ fresh \/ m ∈ map lis_Multiaddr taken) /\
    api_file api = (rewriteMaddrToUseLocalhostIfItsAny ∘ lis_Multiaddr) <$> head (api_listeners api).
Proof.
  unfold serveHTTPApi. destruct cctx_GetConfig as [cfg| |] eqn:Ec; [|done|done].
  destruct (TakeListeners "io.ipfs.api") as [taken| |] eqn:Et; [|done|done].
  destruct (open_api _ _ taken) as [[r seen'] ls'] eqn:Eo. destruct r as [[]| |]; [|done|done].
  destruct (open_api_spec _ _ _ _ _ Eo) as (fresh & opened & -> & -> & Hf & Hnd & Hd & Ha).
  destruct cctx_ConstructNode as [[]| |]; [|done|done]. intros H.
  assert (api_listeners api = (taken ++ opened)%list /\ ls = api_listeners api /\
          api_file api = (rewriteMaddrToUseLocalhostIfItsAny ∘ lis_Multiaddr) <$> head (api_listeners api)) as (Hl & Hls & Hfile).
  { destruct (taken ++ opened)%list as [|l rest] eqn:El; [injection H as <- <-; by cbn|].
    destruct (SetAPIAddr _); [done|]. injection H as <- <-. by cbn. }
  exists cfg, taken, fresh, opened. do 6 (split; [done|]). split; [intros m Hm; specialize (Hd m Hm); rewrite <- elem_of_rev_list; exact Hd|].
  split; [|done]. intros a m Hin Hm. specialize (Ha a m Hin Hm). rewrite elem_of_app, !elem_of_rev_list in Ha. tauto.
Qed.
End api.

(** *** The error channel *)
(** One goroutine per listener serves, then sends what Serve returned on the unbuffered
    channel; another closes it when all are done. *)
Inductive SrvSt := Serving | Sending (e : string) | Gone.
Record Errc := mkErrc { ec_srv : list SrvSt; ec_got : list string; ec_closed : bool }.
Inductive EEv := EvServeEnds (i : nat) (e : string) | EvReceive (i : nat) | EvClose.

Definition is_Gone (s : SrvSt) : bool := match s with Gone => true | _ => false end.
Definition errc_step (ev : EEv) (s : Errc) : option Errc :=
  match ev with
  | EvServeEnds i e =>
      match ec_srv s !! i with
      | Some Serving => Some (mkErrc (<[i := Sending e]> (ec_srv s)) (ec_got s) (ec_closed s))
      | _ => None
      end
  | EvReceive i =>
      match ec_srv s !! i with
      | Some (Sending e) => if ec_closed s then None else Some (mkErrc (<[i := Gone]> (ec_srv s)) (ec_got s ++ [e])%list false)
      | _ => None
      end
  | EvClose => if forallb is_Gone (ec_srv s) && negb (ec_closed s) then Some (mkErrc (ec_srv s) (ec_got s) true) else None
  end.
Fixpoint errc_run (evs : list EEv) (s : Errc) : option Errc :=
  match evs with [] => Some s | ev :: evs => s' ← errc_step ev s; errc_run evs s' end.
Definition errc_start (n : nat) : Errc := mkErrc (replicate n Serving) [] false.

Fixpoint gone_count (l : list SrvSt) : nat :=
  match l with [] => 0%nat | s :: l => ((if is_Gone s then 1 else 0) + gone_count l)%nat end.
Lemma gone_count_le l : (gone_count l <= length l)%nat.
Proof. induction l as [|[] l IH]; cbn; lia. Qed.
Definition errc_inv (n : nat) (s : Errc) : Prop :=
  length (ec_srv s) = n /\ length (ec_got s) = gone_count (ec_srv s) /\ (ec_closed s = true -> forallb is_Gone (ec_srv s) = true).

Lemma gone_count_set (l : list SrvSt) i a b : l !! i = Some a -> is_Gone a = false ->
  gone_count (<[i := b]> l) = ((if is_Gone b then 1 else 0) + gone_count l)%nat.
Proof.
  revert i. induction l as [|c l IH]; intros [|i]; try done.
  - cbn. by intros [= ->] ->.
  - change (<[Datatypes.S i := b]> (c :: l)) with (c :: <[i := b]> l). cbn [gone_count]. intros Hl Ha. rewrite (IH i Hl Ha). lia.
Qed.
Lemma gone_count_all (l : list SrvSt) : forallb is_Gone l = true -> gone_count l = length l.
Proof.
  induction l as [|c l IH]; [done|]. cbn. intros [-> Hl]%andb_true_iff. by rewrite IH.
Qed.

Lemma errc_step_inv n ev s s' : errc_inv n s -> errc_step ev s = Some s' -> errc_inv n s'.
Proof.
  intros (Hn & Hg & Hc). destruct ev as [i e|i|]; cbn [errc_step].
  - destruct (ec_srv s !! i) as [[]|] eqn:El; try done. intros [= <-]. unfold errc_inv; cbn [ec_srv ec_got ec_closed]. split; [by rewrite length_insert|].
    split; [by rewrite (gone_count_set _ _ _ _ El)|]. intros Hx. specialize (Hc Hx).
    rewrite forallb_forall in Hc. specialize (Hc _ (proj1 (list_elem_of_In _ _) (list_elem_of_lookup_2 _ _ _ El))). done.
  - destruct (ec_srv s !! i) as [[|e|]|] eqn:El; try done. destruct (ec_closed s); [done|]. intros [= <-].
    unfold errc_inv; cbn [ec_srv ec_got ec_closed]. split; [by rewrite length_insert|]. split; [|done]. rewrite length_app, (gone_count_set _ _ _ _ El) by done. cbn. lia.
  - destruct (forallb is_Gone (ec_srv s)) eqn:Hf; [|done]. destruct (ec_closed s); [done|]. intros [= <-]. by repeat split.
Qed.
Lemma errc_run_inv n evs : forall s s', errc_inv n s -> errc_run evs s = Some s' -> errc_inv n s'.
Proof.
  induction evs as [|ev evs IH]; intros s s' Hi; cbn; [by intros [= <-]|].
  destruct (errc_step ev s) as [s1|] eqn:E1; [|done]. cbn. apply IH. by eapply errc_step_inv.
Qed.
Lemma errc_start_inv n : errc_inv n (errc_start n).
Proof. split; [apply length_replicate|]. split; [|done]. cbn. by induction n. Qed.

(** Once every server has ended, a reader receives the rest and sees the channel close. *)
Lemma errc_drain n k : forall s, errc_inv n s -> ec_closed s = false -> (length (ec_srv s) - gone_count (ec_srv s) = k)%nat ->
  (forall i, ec_srv s !! i <> Some Serving) -> exists evs s', errc_run evs s = Some s' /\ ec_closed s' = true.
Proof.
  induction k as [|k IH]; intros s Hi Hc Hk Hs.
  - exists [EvClose], (mkErrc (ec_srv s) (ec_got s) true). split; [|done]. cbn. rewrite Hc.
    assert (forallb is_Gone (ec_srv s) = true) as ->; [|done]. clear -Hk. revert Hk.
    induction (ec_srv s) as [|c l IHl]; [done|]. pose proof (gone_count_le l). cbn. destruct (is_Gone c); cbn; [intros; apply IHl; lia | lia].
  - assert (exists i e, ec_srv s !! i = Some (Sending e)) as (i & e & El).
    { clear -Hk Hs. revert Hk Hs. generalize (ec_srv s) as l. induction l as [|c l IHl]; [done|]. intros Hk Hs. destruct c as [|e|].
      - by destruct (Hs 0%nat).
      - by exists 0%nat, e.
      - cbn in Hk. destruct IHl as (i & e & He); [exact Hk | intros i; exact (Hs (Datatypes.S i)) | by exists (Datatypes.S i), e]. }
    assert (errc_step (EvReceive i) s = Some (mkErrc (<[i := Gone]> (ec_srv s)) (ec_got s ++ [e])%list false)) as Hstep by (cbn [errc_step]; by rewrite El, Hc).
    destruct (IH _ (errc_step_inv _ _ _ _ Hi Hstep)) as (evs & s' & Hr & Hx); [done| | |].
    + cbn [ec_srv]. rewrite length_insert, (gone_count_set _ _ _ _ El) by done. cbn. lia.
    + cbn [ec_srv]. intros j. destruct (decide (i = j)) as [->|]; [rewrite list_lookup_insert_eq; [done | by eapply lookup_lt_Some] | by rewrite list_lookup_insert_ne].
    + exists (EvReceive i :: evs), s'. split; [|done]. cbn [errc_run]. by rewrite Hstep.
Qed.

(** The channel is closed only after the error of every server has been received, no send meets
    a closed channel, and once the servers have ended a reader gets to the close. *)
Theorem errc_complete n evs s : errc_run evs (errc_start n) = Some s ->
  (ec_closed s = true -> length (ec_got s) = n /\ forall i e, ec_srv s !! i <> Some (Sending e)) /\
  ((forall i, ec_srv s !! i <> Some Serving) -> exists evs' s', errc_run evs' s = Some s' /\ ec_closed s' = true /\ length (ec_got s') = n).
Proof.
  intros H. pose proof (errc_run_inv n _ _ _ (errc_start_inv n) H) as Hi.
  assert (forall s', errc_inv n s' -> ec_closed s' = true -> length (ec_got s') = n) as Hall.
  { intros s' (Hn & Hg & Hc) Hx. by rewrite Hg, (gone_count_all _ (Hc Hx)). }
  split.
  - intros Hx. split; [by apply Hall|]. intros i e Hl. destruct Hi as (_ & _ & Hc). specialize (Hc Hx). rewrite forallb_forall in Hc.
    by specialize (Hc _ (proj1 (list_elem_of_In _ _) (list_elem_of_lookup_2 _ _ _ Hl))).
  - intros Hs. destruct (ec_closed s) eqn:Ec; [exists [], s; split; [done|]; split; [done | by apply Hall]|].
    destruct (errc_drain n _ s Hi Ec eq_refl Hs) as (evs' & s' & Hr & Hx). exists evs', s'. split; [done|]. split; [done|].
    apply Hall; [|done]. by eapply errc_run_inv.
Qed.

(** ** The command *)
(** main: log.Fatal ends with status 1. *)
Definition main (run : option string) : Z := match run with Some _ => 1 | None => 0 end.
