(* ===== verification/BufPool.v ===== *)
(** * blockchain/blockchain.go: the pools of buffers and requests

    callBlockchain and callEVMChain take a bytes.Buffer from a sync.Pool, encode the request
    into it, hand it to the HTTP client as the body and put it back, reset, when they return.
    The body is read by the client's transport, another goroutine: net/http documents that it
    may still be doing so when Do has returned. Buffers are therefore cells of a shared heap
    here, and calls and transports interleave. The second attempt of callEVMChain, which
    resets its buffer and encodes the request again, is left out. *)

From S2P Require Import Prelude GoStd Effects.

#[local] Open Scope string_scope.

(** ** The heap of buffers *)
Inductive Phase := Encoding | Calling | Returned.
Record Call := mkCall {
  c_buf : nat;               (** the buffer, shared with the transport *)
  c_body : string;           (** what was encoded *)
  c_phase : Phase;
  c_reading : bool;          (** the transport has the body and has not closed it *)
  c_sent : string            (** what the transport has written to the connection *)
}.

Record Pool := mkPool {
  p_heap : gmap nat string;  (** the unread bytes of each buffer *)
  p_next : nat;
  p_free : list nat;         (** the buffers in the pool *)
  p_calls : gmap nat Call
}.
Definition newPool : Pool := mkPool ∅ 0 [] ∅.

Definition cell (p : Pool) (b : nat) : string := default "" (p_heap p !! b).
Definition set_call (c : nat) (x : Call) (p : Pool) : Pool := mkPool (p_heap p) (p_next p) (p_free p) (<[c := x]> (p_calls p)).
Definition set_cell (b : nat) (s : string) (p : Pool) : Pool := mkPool (<[b := s]> (p_heap p)) (p_next p) (p_free p) (p_calls p).

(** bufPool.Get: a buffer of the pool, any, or a new one. *)
Definition bufPool_Get (which : option nat) (p : Pool) : option (nat * Pool) :=
  match which with
  | Some i => b ← p_free p !! i; Some (b, mkPool (p_heap p) (p_next p) (delete i (p_free p)) (p_calls p))
  | None => Some (p_next p, mkPool (<[p_next p := ""]> (p_heap p)) (S (p_next p)) (p_free p) (p_calls p))
  end.
(** putBuf: reset, then back into the pool. *)
Definition putBuf (b : nat) (p : Pool) : Pool := mkPool (<[b := ""]> (p_heap p)) (p_next p) (b :: p_free p) (p_calls p).

Inductive PoolEv :=
| EGet (c : nat) (which : option nat)
| EEncode (c : nat) (body : string)     (** and NewRequest, and Do *)
| ERead (c : nat) (n : nat)             (** the transport reads up to n bytes *)
| EClose (c : nat)                      (** the transport closes the body *)
| EReturn (c : nat).                    (** the call returns: the deferred putBuf *)

(** [waits]: does Do return only once the transport has closed the body? net/http promises it
    not. *)
Definition pool_step (waits : bool) (e : PoolEv) (p : Pool) : option Pool :=
  match e with
  | EGet c which =>
      match p_calls p !! c with
      | Some _ => None
      | None => '(b, p') ← bufPool_Get which p; Some (set_call c (mkCall b "" Encoding false "") p')
      end
  | EEncode c body =>
      x ← p_calls p !! c;
      match c_phase x with
      | Encoding => Some (set_call c (mkCall (c_buf x) body Calling true (c_sent x)) (set_cell (c_buf x) (cell p (c_buf x) +:+ body) p))
      | _ => None
      end
  | ERead c n =>
      x ← p_calls p !! c;
      if c_reading x then
        let s := cell p (c_buf x) in
        Some (set_call c (mkCall (c_buf x) (c_body x) (c_phase x) true (c_sent x +:+ stake n s)) (set_cell (c_buf x) (sdrop n s) p))
      else None
  | EClose c =>
      x ← p_calls p !! c;
      if c_reading x then Some (set_call c (mkCall (c_buf x) (c_body x) (c_phase x) false (c_sent x)) p) else None
  | EReturn c =>
      x ← p_calls p !! c;
      match c_phase x with
      | Calling =>
          if waits && c_reading x then None
          else Some (set_call c (mkCall (c_buf x) (c_body x) Returned (c_reading x) (c_sent x)) (putBuf (c_buf x) p))
      | _ => None
      end
  end.

Fixpoint pool_run (waits : bool) (es : list PoolEv) (p : Pool) : option Pool :=
  match es with [] => Some p | e :: es => p' ← pool_step waits e p; pool_run waits es p' end.

(** ** Requests *)
(** putReq writes through its pointer: a nil request is a panic. *)
Definition putReq (req : option string) : outcome () := match req with Some _ => Ok () | None => Panic end.

(** callBlockchain's use of the request: the variable the deferred function reads is the one
    NewRequest assigned, nil with its error. *)
Definition request_stage (pooled : string) (newRequest : outcome string) : outcome string :=
  let '(req, ret) := match newRequest with
                     | Ok r => (Some r, Ok r)
                     | Err e => (None, Err e)
                     | Panic => (Some pooled, Panic)
                     end in
  match putReq req with Ok _ => ret | Err e => Err e | Panic => Panic end.

(** An address no request can be made for is never reported: the call panics. *)
Lemma bad_url_panics pooled e : request_stage pooled (Err e) = Panic.
Proof. done. Qed.

(** ** What holds of the pool whatever the transports do *)
Definition active (x : Call) : Prop := c_phase x <> Returned.

Record pool_inv (p : Pool) : Prop := {
  i_free : forall b, b ∈ p_free p -> (b < p_next p)%nat /\ cell p b = "";
  i_nodup : NoDup (p_free p);
  i_own : forall c x, p_calls p !! c = Some x -> (c_buf x < p_next p)%nat /\ (active x -> c_buf x ∉ p_free p) /\
            (c_phase x = Encoding -> cell p (c_buf x) = "" /\ c_reading x = false /\ c_sent x = "");
  i_distinct : forall c d x y, p_calls p !! c = Some x -> p_calls p !! d = Some y -> active x -> active y -> c_buf x = c_buf y -> c = d
}.

Lemma cell_set_call c x p b : cell (set_call c x p) b = cell p b.
Proof. done. Qed.
Lemma cell_insert h n f cs b s b' : cell (mkPool (<[b := s]> h) n f cs) b' = if decide (b = b') then s else default "" (h !! b').
Proof. unfold cell. cbn [p_heap]. case_decide as Hb; [subst; by rewrite lookup_insert_eq | by rewrite lookup_insert_ne]. Qed.
Lemma cell_set_cell b s p b' : cell (set_cell b s p) b' = if decide (b = b') then s else cell p b'.
Proof. apply cell_insert. Qed.

Lemma inv_new : pool_inv newPool.
Proof. split; cbn; [set_solver | constructor | done | done]. Qed.

(** A call taking a buffer nobody holds and nobody may take any more. *)
Lemma inv_take p c b p' : pool_inv p -> p_calls p !! c = None -> p_calls p' = p_calls p ->
  (b < p_next p')%nat -> (p_next p <= p_next p')%nat -> cell p' b = "" -> b ∉ p_free p' -> NoDup (p_free p') ->
  (forall b', b' ∈ p_free p' -> b' ∈ p_free p) -> (forall b', b' <> b -> cell p' b' = cell p b') ->
  (forall d y, p_calls p !! d = Some y -> active y -> c_buf y <> b) ->
  pool_inv (set_call c (mkCall b "" Encoding false "") p').
Proof.
  intros Hi Hc Hcs Hb Hn Hcell Hbf Hnd Hf Hcells Hfresh. split; cbn [set_call p_free p_next p_calls].
  - intros b' Hb'. assert (b' <> b) by congruence. destruct (i_free _ Hi b' (Hf _ Hb')) as [Hlt He]. split; [lia|].
    rewrite cell_set_call. by rewrite Hcells.
  - done.
  - rewrite Hcs. intros d y [(<- & <-)|(Hd & Hy)]%lookup_insert_Some.
    + cbn. split; [done|]. split; [done|]. intros _. by rewrite cell_set_call.
    + destruct (i_own _ Hi d y Hy) as (Hlt & Hnf & He). split; [lia|]. split; [intros Ha Hin; apply (Hnf Ha), Hf, Hin|].
      intros Hp. destruct (He Hp) as (H1 & H2 & H3). split; [|done]. rewrite cell_set_call.
      rewrite Hcells; [done|]. apply (Hfresh d y Hy). unfold active. by rewrite Hp.
  - rewrite Hcs. intros d1 d2 x y [(<- & <-)|(Hd1 & Hx)]%lookup_insert_Some [(<- & <-)|(Hd2 & Hy)]%lookup_insert_Some Hax Hay Heq; [done| | |].
    + cbn in Heq. by destruct (Hfresh d2 y Hy Hay).
    + cbn in Heq. by destruct (Hfresh d1 x Hx Hax).
    + by eapply (i_distinct _ Hi).
Qed.

(** A call changing what is its own, and reading from its buffer. *)
Lemma inv_update p c x x' s : pool_inv p -> p_calls p !! c = Some x -> c_buf x' = c_buf x ->
  (active x' -> active x) -> c_phase x' <> Encoding \/ (c_phase x = Encoding /\ c_sent x' = c_sent x /\ c_reading x' = c_reading x) ->
  (active x \/ exists n, s = sdrop n (cell p (c_buf x))) -> (c_phase x' = Encoding -> s = "") ->
  pool_inv (set_call c x' (set_cell (c_buf x) s p)).
Proof.
  intros Hi Hx Hb Ha Hph Hs Hs'. destruct (i_own _ Hi c x Hx) as (Hlt & Hnf & He).
  assert (forall b, cell p b = "" -> (active x -> b <> c_buf x) -> cell (set_call c x' (set_cell (c_buf x) s p)) b = "") as Hempty.
  { intros b Hbe Hne. rewrite cell_set_call, cell_set_cell. case_decide as Heq; [subst b|done].
    destruct Hs as [Hact|[n ->]]; [by destruct (Hne Hact)|]. rewrite Hbe. by destruct n. }
  split; cbn [set_call set_cell p_free p_next p_calls].
  - intros b Hin. destruct (i_free _ Hi b Hin) as [H1 H2]. split; [done|]. apply Hempty; [done|]. intros Hact ->. by apply (Hnf Hact).
  - apply (i_nodup _ Hi).
  - intros d y [(<- & <-)|(Hd & Hy)]%lookup_insert_Some.
    + rewrite Hb. split; [done|]. split; [intros Hact; apply Hnf, Ha, Hact|]. intros Hp. destruct Hph as [?|(Hpx & Hsx & Hrx)]; [done|].
      destruct (He Hpx) as (_ & H2 & H3). rewrite Hsx, Hrx. split; [|done]. rewrite cell_set_call, cell_set_cell, decide_True by done. by apply Hs'.
    + destruct (i_own _ Hi d y Hy) as (H1 & H2 & H3). split; [done|]. split; [done|]. intros Hp. destruct (H3 Hp) as (H4 & H5). split; [|done].
      apply Hempty; [done|]. intros Hact Heq. apply Hd. apply (i_distinct _ Hi c d x y Hx Hy Hact); [unfold active; by rewrite Hp | done].
  - intros d1 d2 x1 x2 [(<- & <-)|(Hd1 & H1)]%lookup_insert_Some [(<- & <-)|(Hd2 & H2)]%lookup_insert_Some Ha1 Ha2 Heq; [done| | |].
    + rewrite Hb in Heq. by apply (i_distinct _ Hi _ _ x x2 Hx H2); auto.
    + rewrite Hb in Heq. by apply (i_distinct _ Hi _ _ x1 x H1 Hx); auto.
    + by apply (i_distinct _ Hi _ _ x1 x2).
Qed.

Lemma inv_ext p p' : pool_inv p -> p_next p' = p_next p -> p_free p' = p_free p -> p_calls p' = p_calls p ->
  (forall b, cell p' b = cell p b) -> pool_inv p'.
Proof.
  intros Hi Hn Hf Hc Hb. split; rewrite ?Hn, ?Hf, ?Hc.
  - intros b Hin. rewrite Hb. by apply (i_free _ Hi).
  - apply (i_nodup _ Hi).
  - intros c x Hx. rewrite Hb. by apply (i_own _ Hi c).
  - apply (i_distinct _ Hi).
Qed.

(** A returning call gives its buffer back. *)
Lemma inv_return p c x x' : pool_inv p -> p_calls p !! c = Some x -> active x -> c_buf x' = c_buf x -> c_phase x' = Returned ->
  pool_inv (set_call c x' (putBuf (c_buf x) p)).
Proof.
  intros Hi Hx Hact Hb Hph. destruct (i_own _ Hi c x Hx) as (Hlt & Hnf & _). specialize (Hnf Hact).
  assert (forall b, cell (set_call c x' (putBuf (c_buf x) p)) b = if decide (c_buf x = b) then "" else cell p b) as Hcell
    by (intros b; rewrite cell_set_call; apply cell_insert).
  assert (~ active x') as Hna by (unfold active; rewrite Hph; tauto).
  split; cbn [set_call putBuf p_free p_next p_calls].
  - intros b [->|Hin]%elem_of_cons; rewrite Hcell; [by rewrite decide_True|]. destruct (i_free _ Hi b Hin). by case_decide.
  - constructor; [done | apply (i_nodup _ Hi)].
  - intros d y [(<- & <-)|(Hd & Hy)]%lookup_insert_Some; [rewrite Hb; split; [done|]; split; [done | by rewrite Hph]|].
    destruct (i_own _ Hi d y Hy) as (H1 & H2 & H3). split; [done|]. split.
    + intros Ha [Heq|Hin]%elem_of_cons; [|by apply (H2 Ha)]. apply Hd. by apply (i_distinct _ Hi c d x y).
    + intros Hp. rewrite Hcell. destruct (H3 Hp) as (H4 & H5). split; [by case_decide | done].
  - intros d1 d2 x1 x2 [(<- & <-)|(Hd1 & H1)]%lookup_insert_Some [(<- & <-)|(Hd2 & H2)]%lookup_insert_Some Ha1 Ha2; try done.
    by apply (i_distinct _ Hi _ _ x1 x2).
Qed.

Lemma inv_get p c which b p1 : pool_inv p -> p_calls p !! c = None -> bufPool_Get which p = Some (b, p1) ->
  pool_inv (set_call c (mkCall b "" Encoding false "") p1).
Proof.
  intros Hi Hc. destruct which as [i|]; cbn.
  - destruct (p_free p !! i) as [b'|] eqn:Ef; [|done]. cbn. intros [= -> <-].
    assert (b ∈ p_free p) as Hin by (by eapply list_elem_of_lookup_2). destruct (i_free _ Hi b Hin) as [Hlt He].
    assert (b :: delete i (p_free p) ≡ₚ p_free p) as Hp by (symmetry; by apply delete_Permutation).
    assert (NoDup (b :: delete i (p_free p))) as [Hnin Hnd]%NoDup_cons by (rewrite Hp; apply (i_nodup _ Hi)).
    eapply inv_take; cbn; try done.
    + intros b' Hb'. rewrite <- Hp. by constructor.
    + intros d y Hy Ha Hb. destruct (i_own _ Hi d y Hy) as (_ & Hnf & _). apply (Hnf Ha). by rewrite Hb.
  - intros [= <- <-].
    assert (forall b', cell (mkPool (<[p_next p := ""]> (p_heap p)) (S (p_next p)) (p_free p) (p_calls p)) b' = if decide (p_next p = b') then "" else cell p b') as Hcell
      by (intros b'; apply cell_insert).
    eapply (inv_take p); try done; cbn [p_next p_free p_calls].
    + lia.
    + lia.
    + rewrite Hcell. by rewrite decide_True.
    + intros Hin. destruct (i_free _ Hi _ Hin). lia.
    + apply (i_nodup _ Hi).
    + intros b' Hb'. rewrite Hcell. by rewrite decide_False.
    + intros d y Hy _ Heq. destruct (i_own _ Hi d y Hy) as (Hlt & _). lia.
Qed.

Lemma pool_step_inv waits e p p' : pool_inv p -> pool_step waits e p = Some p' -> pool_inv p'.
Proof.
  intros Hi. destruct e as [c which|c body|c n|c|c]; cbn [pool_step].
  - destruct (p_calls p !! c) eqn:Hc; [done|]. destruct (bufPool_Get which p) as [[b p1]|] eqn:Eg; [|done].
    cbn. intros [= <-]. by eapply inv_get.
  - destruct (p_calls p !! c) as [x|] eqn:Hx; [|done]. cbn. destruct (c_phase x) eqn:Hp; try done. intros [= <-].
    apply (inv_update p c x); try done; try (by left); [intros _ | left]; unfold active; by rewrite Hp.
  - destruct (p_calls p !! c) as [x|] eqn:Hx; [|done]. cbn. destruct (c_reading x) eqn:Hr; [|done]. intros [= <-].
    apply (inv_update p c x); try done.
    + left. intros Hp. by destruct (i_own _ Hi c x Hx) as (_ & _ & (_ & ? & _)); [|congruence].
    + right. by exists n.
    + intros Hp. cbn in Hp. destruct (i_own _ Hi c x Hx) as (_ & _ & He). destruct (He Hp) as (_ & ? & _). congruence.
  - destruct (p_calls p !! c) as [x|] eqn:Hx; [|done]. cbn. destruct (c_reading x) eqn:Hr; [|done]. intros [= <-].
    eapply (inv_ext (set_call c _ (set_cell (c_buf x) (cell p (c_buf x)) p))); cycle 1; try done.
    + intros b. rewrite !cell_set_call, cell_set_cell. by case_decide; subst.
    + apply (inv_update p c x); try done.
      * left. intros Hp. by destruct (i_own _ Hi c x Hx) as (_ & _ & (_ & ? & _)); [|congruence].
      * right. by exists 0%nat.
      * intros Hp. cbn in Hp. destruct (i_own _ Hi c x Hx) as (_ & _ & He). by destruct (He Hp).
  - destruct (p_calls p !! c) as [x|] eqn:Hx; [|done]. cbn. destruct (c_phase x) eqn:Hp; try done.
    destruct (waits && c_reading x); [done|]. intros [= <-].
    apply (inv_return p c x); try done. unfold active. by rewrite Hp.
Qed.

Lemma pool_run_inv waits es : forall p p', pool_inv p -> pool_run waits es p = Some p' -> pool_inv p'.
Proof.
  induction es as [|e es IH]; intros p p' Hi; cbn; [by intros [= <-]|].
  destruct (pool_step waits e p) as [p1|] eqn:E1; [|done]. cbn. apply IH. by eapply pool_step_inv.
Qed.

(** C36. A buffer of the pool is empty and is there once, and no two calls that have not returned
    share one: a request always starts from an empty body, whatever the transports of earlier
    requests still do. *)
Theorem pool_clean waits es p : pool_run waits es newPool = Some p ->
  NoDup (p_free p) /\ (forall b, b ∈ p_free p -> cell p b = "") /\
  (forall c x, p_calls p !! c = Some x -> c_phase x = Encoding -> cell p (c_buf x) = "") /\
  (forall c d x y, p_calls p !! c = Some x -> p_calls p !! d = Some y -> active x -> active y -> c <> d -> c_buf x <> c_buf y).
Proof.
  intros H. pose proof (pool_run_inv _ _ _ _ inv_new H) as Hi. split; [apply (i_nodup _ Hi)|].
  split; [intros b Hb; apply (i_free _ Hi b Hb)|]. split.
  - intros c x Hx Hp. destruct (i_own _ Hi c x Hx) as (_ & _ & He). by destruct (He Hp).
  - intros c d x y Hx Hy Hax Hay Hne Heq. apply Hne. by apply (i_distinct _ Hi c d x y).
Qed.

(** ** Whose bytes are sent *)

(** What a call in progress has encoded is what was sent and what is left; one that returned
    has sent a part of it and reads no more. *)
Definition exact (p : Pool) : Prop := forall c x, p_calls p !! c = Some x ->
  match c_phase x with
  | Encoding => True
  | Calling => c_body x = c_sent x +:+ cell p (c_buf x)
  | Returned => c_reading x = false /\ exists rest, c_body x = c_sent x +:+ rest
  end.

Lemma exact_other p p' c : exact p ->
  (forall d, d <> c -> p_calls p' !! d = p_calls p !! d) ->
  (forall d y, d <> c -> p_calls p !! d = Some y -> c_phase y = Calling -> cell p' (c_buf y) = cell p (c_buf y)) ->
  (forall x, p_calls p' !! c = Some x -> match c_phase x with Encoding => True | Calling => c_body x = c_sent x +:+ cell p' (c_buf x)
                                         | Returned => c_reading x = false /\ exists rest, c_body x = c_sent x +:+ rest end) -> exact p'.
Proof.
  intros He Hcs Hcell Hx d y Hy. destruct (decide (d = c)) as [->|Hne]; [by apply Hx|]. rewrite Hcs in Hy by done.
  specialize (He d y Hy). destruct (c_phase y) eqn:Hp; [done| |done]. by rewrite (Hcell d y Hne Hy Hp).
Qed.

(** The cell of another call in progress is another one. *)
Lemma other_cell p c d x y : pool_inv p -> p_calls p !! c = Some x -> active x -> d <> c -> p_calls p !! d = Some y -> c_phase y = Calling ->
  c_buf x <> c_buf y.
Proof. intros Hi Hx Ha Hne Hy Hp Heq. apply Hne. symmetry. apply (i_distinct _ Hi c d x y); try done. unfold active. by rewrite Hp. Qed.

Lemma exact_step e p p' : pool_inv p -> exact p -> pool_step true e p = Some p' -> exact p'.
Proof.
  intros Hi He. destruct e as [c which|c body|c n|c|c]; cbn [pool_step].
  - destruct (p_calls p !! c) eqn:Hc; [done|]. destruct (bufPool_Get which p) as [[b p1]|] eqn:Eg; [|done]. cbn. intros [= <-].
    assert (p_calls p1 = p_calls p /\ (forall b', (b' < p_next p)%nat -> cell p1 b' = cell p b')) as [Hcs Hcell].
    { destruct which as [i|]; cbn in Eg; [destruct (p_free p !! i); [|done]; cbn in Eg|]; injection Eg as <- <-; (split; [done|]); [done|].
      intros b' Hlt. rewrite cell_insert, decide_False by lia. done. }
    apply (exact_other p _ c He).
    + intros d Hne. cbn. by rewrite lookup_insert_ne, Hcs.
    + intros d y Hne Hy Hp. rewrite cell_set_call. apply Hcell. by destruct (i_own _ Hi d y Hy).
    + intros x. cbn. rewrite lookup_insert_eq. by intros [= <-].
  - destruct (p_calls p !! c) as [x|] eqn:Hx; [|done]. cbn. destruct (c_phase x) eqn:Hp; try done. intros [= <-].
    destruct (i_own _ Hi c x Hx) as (_ & _ & Henc). destruct (Henc Hp) as (Hcell & _ & Hsent).
    apply (exact_other p _ c He).
    + intros d Hne. cbn. by rewrite lookup_insert_ne.
    + intros d y Hne Hy Hpy. rewrite cell_set_call, cell_set_cell, decide_False; [done|]. apply (other_cell p c d); try done. unfold active. by rewrite Hp.
    + intros y. cbn [set_call p_calls]. rewrite lookup_insert_eq. intros [= <-]. cbn [c_phase c_body c_sent c_buf].
      rewrite cell_set_call, cell_set_cell, decide_True by done. by rewrite Hcell, Hsent.
  - destruct (p_calls p !! c) as [x|] eqn:Hx; [|done]. cbn. destruct (c_reading x) eqn:Hr; [|done]. intros [= <-].
    pose proof (He c x Hx) as Hex. destruct (c_phase x) eqn:Hp; [|clear Hr|destruct Hex; congruence].
    { destruct (i_own _ Hi c x Hx) as (_ & _ & Henc). destruct (Henc Hp) as (_ & ? & _). congruence. }
    apply (exact_other p _ c He).
    + intros d Hne. cbn. by rewrite lookup_insert_ne.
    + intros d y Hne Hy Hpy. rewrite cell_set_call, cell_set_cell, decide_False; [done|]. apply (other_cell p c d); try done. unfold active. by rewrite Hp.
    + intros y. cbn [set_call p_calls]. rewrite lookup_insert_eq. intros [= <-]. cbn [c_phase c_body c_sent c_buf].
      rewrite cell_set_call, cell_set_cell, decide_True by done. by rewrite sapp_assoc, stake_sdrop.
  - destruct (p_calls p !! c) as [x|] eqn:Hx; [|done]. cbn. destruct (c_reading x) eqn:Hr; [|done]. intros [= <-].
    pose proof (He c x Hx) as Hex. apply (exact_other p _ c He).
    + intros d Hne. cbn. by rewrite lookup_insert_ne.
    + done.
    + intros y. cbn [set_call p_calls]. rewrite lookup_insert_eq. intros [= <-]. cbn [c_phase c_body c_sent c_buf c_reading].
      destruct (c_phase x); [done|done|]. by destruct Hex.
  - destruct (p_calls p !! c) as [x|] eqn:Hx; [|done]. cbn. destruct (c_phase x) eqn:Hp; try done. destruct (c_reading x) eqn:Hr; [done|].
    cbn. intros [= <-]. pose proof (He c x Hx) as Hex. rewrite Hp in Hex. apply (exact_other p _ c He).
    + intros d Hne. cbn. by rewrite lookup_insert_ne.
    + intros d y Hne Hy Hpy. rewrite cell_set_call. unfold putBuf. rewrite cell_insert, decide_False; [done|].
      apply (other_cell p c d); try done. unfold active. by rewrite Hp.
    + intros y. cbn [set_call p_calls]. rewrite lookup_insert_eq. intros [= <-]. cbn. split; [done|]. by eexists.
Qed.

Lemma exact_run es : forall p p', pool_inv p -> exact p -> pool_run true es p = Some p' -> exact p'.
Proof.
  induction es as [|e es IH]; intros p p' Hi He; cbn; [by intros [= <-]|].
  destruct (pool_step true e p) as [p1|] eqn:E1; [|done]. cbn. apply IH; [by eapply pool_step_inv | by eapply exact_step].
Qed.

(** If a call returned only after its body was closed, every connection would carry a part of
    its own request, and all of it once it was read. *)
Theorem sends_own es p c x : pool_run true es newPool = Some p -> p_calls p !! c = Some x -> exists rest, c_body x = c_sent x +:+ rest.
Proof.
  intros H Hx. pose proof (pool_run_inv _ _ _ _ inv_new H) as Hi.
  assert (exact newPool) as H0 by (intros d y Hy; done). pose proof (exact_run _ _ _ inv_new H0 H c x Hx) as He.
  destruct (c_phase x) eqn:Hp; [|by eexists|by destruct He].
  destruct (i_own _ Hi c x Hx) as (_ & _ & Henc). destruct (Henc Hp) as (_ & _ & ->). by exists (c_body x).
Qed.

(** It does not wait: a transport that is still sending the body of a call that has returned
    sends the next call's request instead, here one that carries the account's seed. *)
Definition late_reader : list PoolEv :=
  [EGet 0 None; EEncode 0 "{'pool_id':1}"; EReturn 0;
   EGet 1 (Some 0%nat); EEncode 1 "{'seed':'//Alice'}"; ERead 0 100; ERead 1 100].
Theorem cross_talk : exists p x y, pool_run false late_reader newPool = Some p /\
  p_calls p !! 0%nat = Some x /\ p_calls p !! 1%nat = Some y /\
  c_body x = "{'pool_id':1}" /\ c_sent x = "{'seed':'//Alice'}" /\ c_sent y = "".
Proof. do 3 eexists. split; [vm_compute; reflexivity|]. split; [vm_compute; reflexivity|]. split; [vm_compute; reflexivity|]. by cbn. Qed.

Lemma pool_clean_witness : exists p, pool_run false late_reader newPool = Some p /\ p_free p = [] /\
  (forall c x, p_calls p !! c = Some x -> c_phase x = Encoding -> cell p (c_buf x) = "").
Proof.
  destruct (pool_run false late_reader newPool) as [p|] eqn:H; [|vm_compute in H; discriminate H].
  exists p. split; [reflexivity|]. split; [vm_compute in H; injection H as <-; reflexivity|].
  exact (proj1 (proj2 (proj2 (pool_clean false late_reader p H)))).
Defined.
