(* ===== verification/Tools.v ===== *)
(** * Small programs and parts

    mobile/keygen.go; ping/options.go; the ticker of blockchain/blockchain.go; the encoding of
    announcements and the "I exist" loop of announcements; cmd/relay, cmd/relaytest and
    wap/tests/server. Keys, dag-cbor, libp2p and flags are interfaces. *)

From S2P Require Import Prelude GoStd Json JsonPrint SignedAuth PeerId Abi Effects Access Node Evm PoolConfig Schema Relay Join BlOptions.
From S2P Require Import ConfigFile KuboProxy Blox BloxConfig Ping Announce.

#[local] Open Scope string_scope.
#[local] Open Scope Z_scope.

(** ** mobile/keygen.go *)
Section keygen.
Context `{PC : PeerCrypto} `{K : KeyLib}.

(** [entropy]: what the system's random source gave. *)
Definition GenerateEd25519Key (entropy : string) : outcome string :=
  pk <-! BloxConfig.GenerateEd25519Key entropy;;
  crypto_MarshalPrivateKey pk.

Definition GenerateEd25519KeyFromString (secret : string) : outcome string :=
  let seed := sha256 secret in
  pk <-! BloxConfig.GenerateEd25519Key seed;;
  crypto_MarshalPrivateKey pk.

(** The key of a passphrase is the key whose seed is its hash, so the passphrase names an
    identity: where keys can be read back and keep their seeds, the peer made from it is the
    peer of that key, and two passphrases with one key have one hash. *)
Lemma passphrase_names_identity secret b : GenerateEd25519KeyFromString secret = Ok b ->
  (forall k m, crypto_MarshalPrivateKey k = Ok m -> crypto_UnmarshalPrivateKey m = Ok k) ->
  (forall s k, BloxConfig.GenerateEd25519Key s = Ok k -> exists r, key_Raw k = Ok r /\ stake 32 r = s) ->
  (exists k, BloxConfig.GenerateEd25519Key (sha256 secret) = Ok k /\ crypto_UnmarshalPrivateKey b = Ok k) /\
  forall secret', GenerateEd25519KeyFromString secret' = Ok b -> sha256 secret' = sha256 secret.
Proof.
  intros H Hm Hr. unfold GenerateEd25519KeyFromString in *.
  destruct (BloxConfig.GenerateEd25519Key (sha256 secret)) as [k| |] eqn:Ek; cbn in H; try done.
  split; [exists k; auto|]. intros secret'. destruct (BloxConfig.GenerateEd25519Key (sha256 secret')) as [k'| |] eqn:Ek'; cbn; try done.
  intros H'. pose proof (Hm _ _ H) as H1. pose proof (Hm _ _ H') as H2. rewrite H1 in H2. injection H2 as <-.
  destruct (Hr _ _ Ek) as (r & Hr1 & <-). destruct (Hr _ _ Ek') as (r' & Hr2 & <-). by rewrite Hr1 in Hr2; injection Hr2 as <-.
Qed.
End keygen.

(** ** ping/options.go *)
Inductive PingOption := WithAllowTransientConnection (t : bool) | WithTimeout (t : Z) | WithWg (wg : bool) | WithCount (n : Z).
Record ping_options := mkPingOptions { po_allowTransient : bool; po_timeout : Z; po_wg : bool; po_count : Z }.
Definition ping_newOptions (l : list PingOption) : ping_options := {|
  po_allowTransient := setting (fun o => match o with WithAllowTransientConnection t => Some t | _ => None end) true l;
  po_timeout := setting (fun o => match o with WithTimeout t => Some t | _ => None end) 30 l;
  po_wg := setting (fun o => match o with WithWg w => Some w | _ => None end) false l;
  po_count := setting (fun o => match o with WithCount n => Some n | _ => None end) 5 l |}.

(** A server with no count of its own answers 15 pings of a peer. *)
Lemma default_limit l : (forall n, WithCount n ∉ l) -> limit (NewFxPing (po_count (ping_newOptions l))) = 15.
Proof.
  intros H. assert (po_count (ping_newOptions l) = 5) as ->; [|done]. cbn. unfold setting.
  induction l as [|o l IH]; [done|]. cbn. destruct o as [| | |n]; try (apply IH; intros n Hn; apply (H n); by constructor).
  destruct (H n). by constructor.
Qed.

(** clearPingedPeers; StopClient closes idle connections only. *)
Definition clearPingedPeers (s : FxPing) : FxPing := set_pinged ∅ s.
Definition StopClient (s : FxPing) : FxPing := s.
Lemma cleared_peers_start_over p s : seen p (clearPingedPeers s) = 0.
Proof. unfold seen, clearPingedPeers. cbn. by rewrite lookup_empty. Qed.

(** ** The fetch ticker *)
(** The goroutine startFetchCheck leaves: it lives until fetchCheckStop is closed, and a tick
    does nothing. *)
Record Fetch := mkFetch { f_live : bool; f_ticker : bool; f_wg : Z; f_stop : bool }.
Definition startFetchCheck (wg : bool) (s : Fetch) : Fetch := mkFetch true true (if wg then f_wg s + 1 else f_wg s) (f_stop s).
Inductive FEv := FTick | FCloseStop | FStopSeen.
Definition fetch_step (wg : bool) (e : FEv) (s : Fetch) : option Fetch :=
  match e with
  | FTick => if f_live s && f_ticker s then Some s else None
  | FCloseStop => if f_stop s then None else Some (mkFetch (f_live s) (f_ticker s) (f_wg s) true)
  | FStopSeen => if f_live s && f_stop s then Some (mkFetch false false (if wg then f_wg s - 1 else f_wg s) true) else None
  end.
Fixpoint fetch_run (wg : bool) (es : list FEv) (s : Fetch) : option Fetch :=
  match es with [] => Some s | e :: es => s' ← fetch_step wg e s; fetch_run wg es s' end.

(** It holds one count of the wait group for as long as it lives, ends only after the stop, and
    can end at once after it; the ticker ends with it. *)
Lemma fetch_life wg n es s : fetch_run wg es (startFetchCheck wg (mkFetch false false n false)) = Some s ->
  f_wg s = n + (if wg && f_live s then 1 else 0) /\ (f_live s = false -> f_stop s = true) /\ f_ticker s = f_live s /\
  (f_live s = true -> f_stop s = true -> exists s', fetch_step wg FStopSeen s = Some s' /\ f_live s' = false).
Proof.
  set (P := fun s => f_wg s = n + (if wg && f_live s then 1 else 0) /\ (f_live s = false -> f_stop s = true) /\ f_ticker s = f_live s).
  assert (forall es s0, P s0 -> fetch_run wg es s0 = Some s -> P s) as Hrun.
  { clear es. induction es as [|e es IH]; intros s0 H0; cbn; [by intros [= <-]|].
    destruct (fetch_step wg e s0) as [s1|] eqn:E1; [|done]. apply IH. destruct H0 as (Hw & Hl & Ht), s0 as [lv tk g st].
    destruct e; cbn in *; destruct lv, st, tk; try done; injection E1 as <-; unfold P; cbn in *; destruct wg; cbn in *; (split; [lia|done]). }
  intros H. assert (P s) as (H1 & H2 & H3).
  { apply (Hrun es _) with (2 := H). unfold P, startFetchCheck. cbn. destruct wg; cbn; (split; [lia|done]). }
  split; [done|]. split; [done|]. split; [done|]. intros Hl Hs. cbn. rewrite Hl, Hs. by eexists.
Qed.

(** checkHealth, which is not needed any more. *)
Definition checkHealth : option string := None.

(** ** Announcements as bytes *)
(** A typed node of the schema, as dag-cbor is given it. *)
Inductive ANode := AStruct (Version : string) (Type_ : Z) (Addrs : list string).
Class DagCbor := { cbor_Encode : ANode -> outcome string; cbor_Decode : string -> outcome ANode }.

Section codec.
Context `{DC : DagCbor} (NewMultiaddr : string -> option string).
Definition MarshalBinary (a : Announcement) : option string :=
  match cbor_Encode (AStruct (an_Version a) (an_Type a) (an_Addrs a)) with Ok b => Some b | _ => None end.
(** The three fields are copied into the receiver. *)
Definition UnmarshalBinary (b : string) : option Announcement :=
  match cbor_Decode b with Ok (AStruct v t l) => Some (mkAnn v t l) | _ => None end.
#[export] Instance cborCodec : AnnCodec := {| ann_MarshalBinary := MarshalBinary; ann_UnmarshalBinary := UnmarshalBinary; ann_NewMultiaddr := NewMultiaddr |}.

(** An announcement a peer sends is the one the others read, addresses and all, if the
    encoding is faithful. *)
Theorem announcement_roundtrip a b : (forall n m, cbor_Encode n = Ok m -> cbor_Decode m = Ok n) ->
  MarshalBinary a = Some b -> UnmarshalBinary b = Some a.
Proof.
  intros Hl. unfold MarshalBinary, UnmarshalBinary. destruct (cbor_Encode _) as [m| |] eqn:Ee; try done. intros [= <-].
  rewrite (Hl _ _ Ee). by destruct a.
Qed.
End codec.

(** *** AnnounceIExistPeriodically *)
Inductive IEv := ICtx | ITick (published : PubRes).
Section iexist.
Context `{AC : AnnCodec} (addrs : list string).
Definition iexist_message : Announcement := SetAddrs addrs (mkAnn "0" IExistAnnouncementType []).

(** Is the loop still running, and what it sent. *)
Fixpoint AnnounceIExistPeriodically (evs : list IEv) (sent : list string) : bool * list string :=
  match evs with
  | [] => (true, sent)
  | ICtx :: _ => (false, sent)
  | ITick r :: evs =>
      match ann_MarshalBinary iexist_message with
      | None => AnnounceIExistPeriodically evs sent
      | Some b =>
          match r with
          | PubOk => AnnounceIExistPeriodically evs (sent ++ [b])%list
          | PubErr => AnnounceIExistPeriodically evs sent
          | PubEnd => (false, sent)
          end
      end
  end.

(** Only the end of the context or the topic ends it; every message is the same one, and where
    it can be encoded there is one for each tick that could publish. *)
Lemma iexist_sends evs : forall sent, let '(on, out) := AnnounceIExistPeriodically evs sent in
  (exists k, out = (sent ++ match ann_MarshalBinary iexist_message with Some b => replicate k b | None => [] end)%list) /\
  (on = false -> ICtx ∈ evs \/ ITick PubEnd ∈ evs).
Proof.
  induction evs as [|[|r] evs IH]; intros sent; cbn [AnnounceIExistPeriodically].
  - split; [exists 0%nat; by case_match; rewrite app_nil_r | done].
  - split; [exists 0%nat; by case_match; rewrite app_nil_r | intros _; left; by constructor].
  - destruct (ann_MarshalBinary iexist_message) as [b|] eqn:Em.
    + destruct r.
      * specialize (IH (sent ++ [b])%list). destruct (AnnounceIExistPeriodically _ _) as [on out]. destruct IH as ((k & ->) & He).
        split; [exists (S k); cbn; by rewrite <- app_assoc | intros H; destruct (He H); [left|right]; by constructor].
      * specialize (IH sent). destruct (AnnounceIExistPeriodically _ _) as [on out]. destruct IH as (Hk & He).
        split; [done | intros H; destruct (He H); [left|right]; by constructor].
      * split; [exists 0%nat; by rewrite app_nil_r | intros _; right; by constructor].
    + specialize (IH sent). destruct (AnnounceIExistPeriodically _ _) as [on out]. destruct IH as (Hk & He).
      split; [done | intros H; destruct (He H); [left|right]; by constructor].
Qed.
End iexist.

(** Shutdown: the subscription, if there is one, and then the topic, whose error it returns. *)
Definition Ann_Shutdown (sub : bool) (topic_Close : option string) : bool * option string :=
  if sub then (false, topic_Close) else (sub, None).

(** ** cmd/relay *)
Record Resources := mkResources {
  rs_Duration : Z; rs_Data : Z; rs_MaxReservations : Z; rs_MaxCircuits : Z; rs_MaxReservationsPerPeer : Z;
  rs_MaxReservationsPerIP : Z; rs_MaxReservationsPerASN : Z; rs_ReservationTTL : Z; rs_BufferSize : Z
}.
Definition relay_resources : Resources :=
  mkResources (480000000 * second) 171798691840 2048 2048 2048 2048 2048 (360000 * 3600 * second) 81920.
Definition relay_listenAddrs : list string :=
  ["/ip4/0.0.0.0/tcp/4001"; "/ip4/0.0.0.0/udp/4001/quic-v1"; "/ip4/0.0.0.0/udp/4001/quic-v1/webtransport"].
Definition announceAddrs : list string :=
  ["/ip4/46.249.38.183/tcp/4001"; "/ip6/2a10:1fc0:c::fc0b:1ac3/tcp/4001"; "/ip6/2a10:1fc0:c::954a:2386/tcp/4001"; "/ip6/2a10:1fc0:c::918c:b2a8/tcp/4001"].

(** The limits are Go constants of their types: nanoseconds in an int64, and the relay's
    message carries the duration as seconds in 32 bits. The data limit is 160 GiB. *)
Lemma relay_limits_fit : 0 <= rs_Duration relay_resources < 2 ^ 63 /\ 0 <= rs_ReservationTTL relay_resources < 2 ^ 63 /\
  rs_Duration relay_resources / second < 2 ^ 32 /\ rs_Data relay_resources = 160 * 2 ^ 30.
Proof. vm_compute. repeat split; intros; discriminate. Qed.

Section relay.
Context `{K : KeyLib} (ReadFile : string -> outcome string).
Definition ReadIdentity (path : string) : outcome PrivKey :=
  bytes <-! ReadFile path;;
  crypto_UnmarshalPrivateKey bytes.

Record RelayHost := mkRelayHost { rh_listen : list string; rh_key : PrivKey; rh_relay : Resources; rh_AddrsFactory : list string -> list string }.

(** The host the relay is made with and its peer id; an error is log.Fatalf's text. *)
Definition relay_main (identity : string) : outcome (string * RelayHost) :=
  if (identity =? "")%string then Err "You must specify a path to the identity.key file using the -identity flag" else
  match ReadIdentity identity with
  | Err e => Err ("Failed to read identity key: " +:+ e)
  | Panic => Panic
  | Ok k =>
      match IDFromPrivateKey k with
      | Err e => Err ("Failed to generate peer ID: " +:+ e)
      | Panic => Panic
      | Ok id => Ok (id, mkRelayHost relay_listenAddrs k relay_resources (fun _ => announceAddrs))
      end
  end.

(** The relay has the identity of the file and announces its public addresses whatever the host
    listens on. *)
Lemma relay_identity path id h : relay_main path = Ok (id, h) ->
  (exists bytes, ReadFile path = Ok bytes /\ crypto_UnmarshalPrivateKey bytes = Ok (rh_key h)) /\
  IDFromPrivateKey (rh_key h) = Ok id /\ forall l, rh_AddrsFactory h l = announceAddrs.
Proof.
  unfold relay_main, ReadIdentity. destruct (path =? "")%string; [done|].
  destruct (ReadFile path) as [b| |]; cbn; try done. destruct (crypto_UnmarshalPrivateKey b) as [k| |] eqn:Eu; try done.
  destruct (IDFromPrivateKey k) as [i| |] eqn:Ei; try done. intros [= <- <-]. cbn. split; [by exists b | done].
Qed.
End relay.

(** ** cmd/relaytest *)
Definition targetAddr := "/dns/relay.dev.fx.land/tcp/4001/p2p/12D3KooWDRrBaAfPwsGJivBoUw5fE7ZpDiyfUjqgiURq2DEcL835/p2p-circuit/p2p/12D3KooWPtXiYKheTJyrQeNyPwjjPjCPi6QFdAK6qHN9c2U7Qhfe".
(** The lines printed before the end, and log.Fatalf's text. *)
Definition relaytest_main (NewMultiaddr : string -> outcome string) (AddrInfo : string -> outcome string) (New : outcome string)
    (Connect : string -> option string) : list string * option string :=
  match NewMultiaddr targetAddr with
  | Err e => ([], Some ("Invalid multiaddress: " +:+ e))
  | Panic => ([], Some "panic")
  | Ok maddr =>
      match AddrInfo maddr with
      | Err e => ([], Some ("Failed to extract peer info: " +:+ e))
      | Panic => ([], Some "panic")
      | Ok info =>
          match New with
          | Err e => ([], Some ("Failed to create libp2p host: " +:+ e))
          | Panic => ([], Some "panic")
          | Ok id =>
              let lines := ["Libp2p host created. ID: " +:+ id; "Attempting to connect to peer: " +:+ info] in
              match Connect info with
              | Some e => (lines, Some ("Failed to connect to peer: " +:+ e))
              | None => ((lines ++ ["Successfully connected to the peer!"])%list, None)
              end
          end
      end
  end.

Lemma relaytest_success nm ai new con lines : relaytest_main nm ai new con = (lines, None) ->
  exists m i, nm targetAddr = Ok m /\ ai m = Ok i /\ con i = None /\ last lines = Some "Successfully connected to the peer!".
Proof.
  unfold relaytest_main. destruct (nm targetAddr) as [m| |]; try done. destruct (ai m) as [i| |] eqn:Ea; try done.
  destruct new as [id| |]; try done. destruct (con i) eqn:Ec; [done|]. intros [= <-]. by exists m, i.
Qed.
